(* ===== verification/_CoqProject ===== *)
-Q . S2P
Prelude.v
Qt.v
QtInstance.v
IPAddress.v
InterfaceConfig.v
NetworkUtilities.v
RouteMonitor.v
RouterLinux.v
Iptables.v
Firewall.v
KillSwitch.v
WireguardUtils.v
Daemon.v
LineProtocol.v
DaemonConnection.v
LocalSocket.v
WgProbe.v
VpnProtocol.v
Ipc.v
Settings.v
XrayProtocol.v
SplitTunnel.v
VpnConnection.v
VpnClient.v
Containers.v
ServerStore.v
Servers.v
ServersProofs.v
VpnConfiguration.v
EntryAddress.v
ConnectionController.v
ConnectionProofs.v
HealthCheck.v
HealthProofs.v
ShareLinks.v
ShareLinksProofs.v
Import.v
ImportProofs.v
ApiConfig.v
Subscription.v
SubscriptionProofs.v
ReconcileProofs.v
ReloadProofs.v
ApiProofs.v
