(* ===== verification/Prelude.v ===== *)
(** * The Dopamine VPN client: a verification library

    Dopamine is a desktop VPN client (a fork of Mozilla VPN and Amnezia).  The
    program has two processes.  The application sends requests over a local
    socket; a privileged one, the daemon and the service, starts the WireGuard
    process, sets routes and firewall rules and takes them back.  This library
    models the path of a tunnel through that program on Linux, from the server
    that is chosen and its stored configuration to the rules and routes the
    kernel is given, and proves what keeps it from leaking traffic or leaving
    the machine disconnected.

    ** How the parts interact

      - [ConnectionController.v], [ConnectionProofs.v]:
        [client/ui/controllers/connectionController.cpp], what stands behind
        the connect button: the automatic choice of a server, the addresses of
        a server that are tried one after the other, the timers that supervise
        each attempt; [EntryAddress.v]: the part of it that writes an address
        into a configuration.
      - [HealthCheck.v], [HealthProofs.v]:
        [client/ui/controllers/healthCheckController.cpp], the probes whose
        latencies the choice goes by.
      - [Import.v], [ImportProofs.v]:
        [client/ui/controllers/importController.cpp], which recognises what
        the user pastes, opens or fetches; [ShareLinks.v],
        [ShareLinksProofs.v]: the links of [client/core/serialization].
      - [ApiConfig.v]: [client/ui/controllers/api/apiConfigsController.cpp],
        what the gateway is asked and how its packed answers become servers,
        with the keys of [client/configurators/wireguard_configurator.cpp];
        [Subscription.v]: the part of it that keeps the servers of the
        subscriptions up to date.  [ApiProofs.v] is about the first,
        [SubscriptionProofs.v] (one feed), [ReconcileProofs.v] (the stored
        servers) and [ReloadProofs.v] (all subscriptions) about the second.
      - [Servers.v], [ServersProofs.v]: [client/ui/models/servers_model.cpp],
        the servers as the application sees them; [ServerStore.v]: the servers
        section of [client/settings.cpp]; [Containers.v]: the tables of
        [client/containers/containers_defs.cpp] and
        [client/protocols/protocols_defs.cpp].
      - [VpnConfiguration.v]:
        [client/core/controllers/vpnConfigurationController.cpp] with what it
        uses of [client/core/api/apiUtils.cpp], the configuration a tunnel is
        started with.
      - [VpnConnection.v] and [VpnClient.v]: [client/vpnconnection.cpp], the
        application's connection: it turns settings into the configuration of
        a tunnel, follows the states of the protocol object and keeps the
        routes of split tunnelling.
      - [VpnProtocol.v], [XrayProtocol.v]: the protocol objects
        ([client/protocols/vpnprotocol.cpp], [wireguardprotocol.cpp],
        [xrayprotocol.cpp]); [Ipc.v]: the calls of the service they make
        ([client/core/ipcclient.h], [ipc/ipc_interface.rep]).
      - [Settings.v]: [client/settings.cpp], the stored entries of a tunnel;
        [SplitTunnel.v]: the site list and the presets
        ([client/ui/models/sites_model.cpp], [splitPresetsModel.cpp],
        [client/ui/controllers/sitesController.cpp],
        [client/core/builtinSplitPresets.cpp]).
      - [LocalSocket.v]: [client/mozilla/localsocketcontroller.cpp], the
        application's end of the socket.  It connects with a bounded number of
        retries, builds the activation request and turns the daemon's lines
        into signals.
      - [LineProtocol.v]: the line framing both ends share.
      - [DaemonConnection.v]: [client/daemon/daemonlocalserver.cpp] and
        [daemonlocalserverconnection.cpp], the daemon's end: the clients, the
        dispatch of their requests, the signals they are sent.
      - [Daemon.v]: [client/daemon/daemon.cpp], the state machine of the
        tunnel, over the abstract classes of its helpers.
      - [WireguardUtils.v]: these classes ([client/daemon/wireguardutils.h],
        [iputils.h], [dnsutils.h]) and their Linux implementation
        ([client/platforms/linux/daemon/wireguardutilslinux.cpp],
        [iputilslinux.cpp]).
      - [RouteMonitor.v]: [linuxroutemonitor.cpp], netlink messages byte by
        byte.
      - [Firewall.v]: [linuxfirewall.cpp], over the reference semantics of
        iptables in [Iptables.v].
      - [KillSwitch.v]: [service/server/killswitch.cpp], the firewall switch of
        the service.
      - [RouterLinux.v]: [service/server/router_linux.cpp], the routes of the
        service.
      - [WgProbe.v]: [client/core/wgHandshakeProbe.cpp], the handshake the
        health check of a server makes, and the other end of it.
      - [InterfaceConfig.v]: [client/daemon/interfaceconfig.cpp];
        [IPAddress.v]: [client/mozilla/shared/ipaddress.cpp];
        [NetworkUtilities.v]: [client/core/networkUtilities.cpp] and the list
        of excluded local subnets.

    ** How the code is modelled

    A member function is a function of the object's state: [ST S A] below is
    [S -> A * S], and [forEach], [forAllM] and [must] are the loops and early
    returns of the source.  A class is a [Record] of its members; what it does
    to the outside (system calls, signals, written text) is kept in order in a
    trace, or is a change of an abstract world.  Abstract classes and virtual
    functions are type classes ([WireguardUtils], [IPUtils], [DnsUtils],
    [Platform]), so that [Daemon.v] is proved for every implementation and the
    Linux one is an instance.

    Qt is a library: [Qt.v] has its data types with the structural operations,
    and a class [Qt] whose fields are the algorithms inside it (number, address
    and JSON parsing); what the program relies on is stated in small law
    classes, and [QtInstance.v] is a concrete instance of all of them.  The
    kernel, the shell, libc's resolver and the WireGuard process are parameters
    in the same way ([Netlink], [Shell], [RouterEnv] and others).

    Concurrency: the program is event driven.  An exchange with the WireGuard
    process runs a nested event loop, so that requests are handled in the
    middle of others; [Daemon.v] writes its operations over what happens while
    they wait ([events]), and its invariants hold for every nesting.  The
    socket files have step relations ([reachable], [runs]) whose events can
    come in any order, and so has the connection ([vReachable]): answers of the
    resolver and single-shot timers are tasks the loop delivers when it likes.
    The connection controller, the health check and the feed of a subscription
    are functions of one event ([onEvent], [hcEvent], [onConfigReply]); their
    theorems are about every sequence of events, and [ConnectionProofs.v] leaves
    open what the tunnel answers.  A call that waits for the gateway in a nested
    loop takes the state after it from a parameter ([execute]).

    Integers are kept at their width where the code depends on it: 32-bit
    addresses and masks with their shifts, the sixteen bytes of an IPv6
    address, [int] and [uint32_t] fields, saturation in [atoi].

    Fuel: [IPAddress.exclude_loop] needs 128 rounds per exclusion, one per bit
    of a prefix ([excludeAddresses_difference]), and without them the loop can
    really run for ever ([excludeAddresses_host_bits_diverge]);
    [Daemon.activate] recurses at most twice ([activate_outcome]); the event
    loop needs one round per batch of requests ([command_total]); the loop over
    the lines of a buffer needs the length of the buffer ([drain_lines]); the
    netlink receive loop the length of a datagram ([nlsockReady_returns]); the
    search for a server name one round more than there are servers
    ([next_name_fresh]); the substitution of an address the length of the text
    ([patch_ends]); the loops that start probes the length of their queue
    ([startSockets_spec]).  The
    receive loop of the probe needs none: it is structural on the turns of the
    clock its socket takes, and [probe_ends] bounds them.  The loop of a feed
    has one round per item ([feed_any_order]); that of zlib has none that is
    enough, because the code can really loop ([truncated_stream_diverges]), so
    a theorem about an answer supposes that it could be unpacked.

    ** What the theorems show

      - No leak: [enableKillSwitch_no_leak], [applyFirewallRules_no_leak],
        [strict_disable_blocks] and [firewall_refines] follow a packet through
        the chains the scripts leave behind.
      - Nothing left behind: [exclusions_balanced], [deactivate_plan],
        [last_client_stops_tunnel], [disable_restores] and
        [clearSavedRoutes_restores].
      - The request is what the user asked for: [activate_request_read],
        [parseConfig_accepts], [server_reads_objects], [uapi_messages_read],
        [route_messages], [toWgConf_lines].
      - Reports: [activate_outcome], [checkHandshake_reports],
        [status_reply_read], [parsePeers_reply].
      - The connection: [connection_invariant] and [refresh_any_order] hold for
        every order of events and answers, [delta_refines] ties the set of
        installed routes to those of the service, [connect_outcome] and
        [disconnect_outcome] say what the operations leave,
        [sites_reach_daemon] follows a site list to the daemon, [xray_setup]
        says that a tunnel of Xray is all or nothing, [wireguard_traffic] that
        the speed meter counts every byte once.
      - The choice of a server: [attempts_supervised] (no attempt is ever left
        without a timer), [auto_failover] and [manual_failover] (every address
        of every candidate is dialled once, in order), [auto_ends],
        [auto_success], [cancel_final], [pool_addresses], [candidates_order],
        [first_choice]; [outbound_dials], [server_patched]: the address that
        was chosen is the one the configuration dials.
      - The servers: [servers_mirror], [remove_keeps_default],
        [container_config_roundtrip], [next_name_fresh], [health_any_order];
        [wireguard_configuration], [junk_renamed], [xray_configuration]: what
        a tunnel is started with.
      - The import: [import_answered], [imported_file_dialled] (a WireGuard
        file is followed to the configuration of the tunnel),
        [subscription_adds_new], [subscription_idempotent],
        [vless_roundtrip]; [spaceless_text_sent] says what leaves the machine.
      - The gateway: [update_outcome] (a refresh never leaves a server that
        cannot be dialled), [reconnect_keeps_key]; [feed_any_order],
        [display_order], [reconcile_exact] and [reload_ends] follow the
        subscriptions from the answers to the stored servers.
      - The health check: [health_invariant], [health_run_ends],
        [targets_shared].
      - The lists of the user: [site_edits_consistent], [export_import],
        [merge_keeps], [presets_restart].
      - The health check's handshake: [handshake_completes],
        [probe_accesses], [magic_header_in_range].
      - Ends and bounds: [controller_bounds], [initialization_ends],
        [probe_ends], [command_total], [nlsockReady_returns].
      - Addresses: [excludeAddresses_difference], [excludeAddress_partition],
        [contains_iff_prefix], [masks_bits],
        [normalizeSubnetExclusions_spec], [subnets_reachable_stored],
        [netMask_agrees].
      - What the code does that it does not mean to: [activation_lost],
        [deleteRoutePrefix_adds], [excludeLocalNetworks_tunnel],
        [excluded_subnet_rejected], [parseConfig_absent_junk],
        [exclusion_messages], [deleteTun_inverted],
        [excludeAddresses_host_bits_diverge], [selective_blocks_nothing],
        [start_outcome], [cancelled_reconnection], [late_answer],
        [connect_reports], [native_fault], [rotation_adds_row],
        [teardown_order], [stale_protocol_filter], [late_result_wrong_row],
        [late_error_redials], [spaceless_text_sent], [bad_link_accepted],
        [lines_misread], [stale_type], [vmess_new_inbounds],
        [truncated_stream_diverges], [poisoned_reload_silent],
        [failed_reload_not_retried], [selection_lost], [unnamed_row_added].

    ** What is not modelled

    The user interface (QML and its page controllers), the transport of the
    gateway ([gatewayController.cpp]: its encryption, its proxies) and the
    purchases of the Apple stores, the display entries and the encryption of the settings store, the writing of VMess
    links, the scanning of codes on phones, the speed meter, the ping helpers and
    network watchers, the loggers, the inter-process plumbing (generated by
    Qt), the Windows, macOS, Android and iOS back ends with their branches in
    shared files (the hysteria2 probes among them), the vendored libraries and
    the scripts.
    Inside the modelled files: log messages, the environment of child
    processes, opening and binding of sockets, the gateway lookup of
    [networkUtilities.cpp], and what a protocol object does when it is
    destroyed, which the connection has stopped before. *)

From Stdlib Require Import ZArith Lia Bool String Ascii.
From stdpp Require Import base gmap strings list sorting countable option.

Open Scope Z_scope.

(** ** The state monad the components are written in *)

(** A C++ member function that may change the object (or the outside world)
    is a function from the state before to its return value and the state
    after.  The instances make stdpp's [x ← m; k] notation available. *)
Definition ST (S A : Type) : Type := S -> A * S.

#[export] Instance ST_ret {S} : MRet (ST S) := fun A a s => (a, s).
#[export] Instance ST_bind {S} : MBind (ST S) :=
  fun A B f m s => let '(a, s') := m s in f a s'.

Definition get {S} : ST S S := fun s => (s, s).
Definition put {S} (s : S) : ST S unit := fun _ => (tt, s).
Definition modify {S} (f : S -> S) : ST S unit := fun s => (tt, f s).
Definition gets {S A} (f : S -> A) : ST S A := fun s => (f s, s).

(** [must m; k] is the idiom [if (!m) return false; k] of the source. *)
Notation "'must' m ; k" :=
  (mbind (fun ok : bool => if ok then k else mret false) m)
  (at level 20, m at level 100, k at level 200, right associativity,
   only parsing) : stdpp_scope.

(** [for (x : l) body(x)], the result of the body ignored. *)
Fixpoint forEach {S A} (body : A -> ST S unit) (l : list A) : ST S unit :=
  match l with
  | [] => mret tt
  | x :: l' => body x ;; forEach body l'
  end.

(** [for (x : l) if (!body(x)) return false; ... true]. *)
Fixpoint forAllM {S A} (body : A -> ST S bool) (l : list A) : ST S bool :=
  match l with
  | [] => mret true
  | x :: l' => must body x ; forAllM body l'
  end.

(** A statement runs in the state the one before leaves. *)
Lemma then_eq {S A B} (m : ST S A) (k : ST S B) s : (m ;; k) s = k (m s).2.
Proof. unfold mbind, ST_bind. by destruct (m s). Qed.

Lemma bind_eq {S A B} (m : ST S A) (k : A -> ST S B) s : (m ≫= k) s = k (m s).1 (m s).2.
Proof. unfold mbind, ST_bind. by destruct (m s). Qed.

(** A loop over two lists is two loops. *)
Lemma forEach_app {S A} (f : A -> ST S unit) l1 l2 s :
  forEach f (l1 ++ l2) s = (forEach f l1 ;; forEach f l2) s.
Proof.
  revert s. induction l1 as [| x l1 IH]; intros s; [done |]. cbn [app forEach]. rewrite !then_eq, IH. by rewrite then_eq.
Qed.

(** ** Results of code that can loop or index out of range *)

(** [Val a]: the function returns [a]; [OutOfRange]: a container was indexed
    outside its bounds; [Timeout]: the fuel of the model ran out. *)
Inductive res (A : Type) : Type :=
| Val (a : A)
| OutOfRange
| Timeout.
Arguments Val {A} a.
Arguments OutOfRange {A}.
Arguments Timeout {A}.

(** ** Automation *)

Create HintDb dopamine.
Create Rewrite HintDb dopamine.

(** Split the boolean guards of the source into the propositions they test. *)
Ltac zbool :=
  repeat match goal with
  | H : _ && _ = true |- _ => apply andb_true_iff in H; destruct H
  | H : _ || _ = false |- _ => apply orb_false_iff in H; destruct H
  | H : negb _ = true |- _ => apply negb_true_iff in H
  | H : negb _ = false |- _ => apply negb_false_iff in H
  | H : (_ <? _) = true |- _ => apply Z.ltb_lt in H
  | H : (_ <? _) = false |- _ => apply Z.ltb_ge in H
  | H : (_ <=? _) = true |- _ => apply Z.leb_le in H
  | H : (_ <=? _) = false |- _ => apply Z.leb_gt in H
  | H : (_ >? _) = true |- _ => rewrite Z.gtb_ltb in H; apply Z.ltb_lt in H
  | H : (_ >? _) = false |- _ => rewrite Z.gtb_ltb in H; apply Z.ltb_ge in H
  | H : (_ >=? _) = true |- _ => rewrite Z.geb_leb in H; apply Z.leb_le in H
  | H : (_ >=? _) = false |- _ => rewrite Z.geb_leb in H; apply Z.leb_gt in H
  | H : (_ =? _) = true |- _ => apply Z.eqb_eq in H
  | H : (_ =? _) = false |- _ => apply Z.eqb_neq in H
  end.

(** Case analysis on the innermost boolean test of the goal. *)
Ltac case_if :=
  match goal with
  | |- context [ if ?b then _ else _ ] =>
      lazymatch b with
      | context [ if _ then _ else _ ] => fail
      | _ => let E := fresh "E" in destruct b eqn:E
      end
  end.

(** A decidable closed goal, such as membership in a list of names, by
    evaluation. *)
Ltac by_names := apply (bool_decide_unpack _); vm_compute; exact I.

(** ** Bytes and fixed-width integers *)

Definition is_byte (b : Z) : Prop := 0 <= b < 256.
Definition u32 (z : Z) : Z := z mod 2 ^ 32.

(** [l[k]] of a byte array, 0 outside. *)
Definition byte_at (l : list Z) (k : Z) : Z := nth (Z.to_nat k) l 0.

(** [l[k] = v]. *)
Definition byte_set (l : list Z) (k v : Z) : list Z := <[Z.to_nat k := v]> l.

(** [memset(&l[off], v, n)]. *)
Definition memset (l : list Z) (off v n : Z) : list Z :=
  take (Z.to_nat off) l ++ replicate (Z.to_nat n) v
    ++ drop (Z.to_nat off + Z.to_nat n) l.

Lemma byte_at_lookup l k v : l !! Z.to_nat k = Some v -> byte_at l k = v.
Proof. unfold byte_at. intros H. by apply nth_lookup_Some. Qed.

Lemma byte_at_is_byte l k : Forall is_byte l -> is_byte (byte_at l k).
Proof.
  intros Hl. unfold byte_at. rewrite nth_lookup.
  destruct (l !! Z.to_nat k) eqn:E; simpl; [| unfold is_byte; lia].
  by eapply Forall_lookup_1.
Qed.

Lemma byte_at_set l k v j :
  0 <= k < Z.of_nat (length l) -> 0 <= j ->
  byte_at (byte_set l k v) j = if decide (j = k) then v else byte_at l j.
Proof.
  intros Hk Hj. unfold byte_at, byte_set. rewrite !nth_lookup.
  case_decide as E.
  - subst. rewrite list_lookup_insert_eq; [done | lia].
  - rewrite list_lookup_insert_ne; [done | lia].
Qed.

Lemma length_byte_set l k v : length (byte_set l k v) = length l.
Proof. apply length_insert. Qed.

Lemma length_memset l off v n :
  0 <= off -> 0 <= n -> off + n <= Z.of_nat (length l) ->
  length (memset l off v n) = length l.
Proof.
  intros. unfold memset.
  rewrite !length_app, length_take, length_replicate, length_drop. lia.
Qed.

Lemma byte_at_memset l off v n j :
  0 <= off -> 0 <= n -> off + n <= Z.of_nat (length l) -> 0 <= j ->
  byte_at (memset l off v n) j =
    if decide (off <= j < off + n) then v else byte_at l j.
Proof.
  intros Ho Hn Hl Hj. unfold byte_at, memset. rewrite !nth_lookup.
  rewrite lookup_app. case_decide as E.
  - rewrite lookup_take_ge by lia.
    rewrite length_take, lookup_app_l by (rewrite length_replicate; lia).
    rewrite lookup_replicate_2 by lia. done.
  - destruct (decide (j < off)).
    + rewrite lookup_take by lia.
      destruct (l !! Z.to_nat j) eqn:El; [by rewrite decide_True by lia |].
      apply lookup_ge_None in El. lia.
    + rewrite lookup_take_ge by lia.
      rewrite length_take, lookup_app_r by (rewrite length_replicate; lia).
      rewrite length_replicate, lookup_drop. do 2 f_equal. lia.
Qed.

(** Bits at or above the width of a bounded number are zero. *)
Lemma testbit_above x k n :
  0 <= x < 2 ^ k -> 0 <= k <= n -> Z.testbit x n = false.
Proof.
  intros Hx Hn. rewrite <- (Z.mod_small x (2 ^ k)) by done.
  apply Z.mod_pow2_bits_high. lia.
Qed.

(** A bounded number is determined by the bits below its width. *)
Lemma bits_ext k x y :
  0 <= x < 2 ^ k -> 0 <= y < 2 ^ k -> 0 <= k ->
  (forall i, 0 <= i < k -> Z.testbit x i = Z.testbit y i) -> x = y.
Proof.
  intros Hx Hy Hk Hb. apply Z.bits_inj'. intros n Hn.
  destruct (decide (n < k)); [apply Hb; lia |].
  by rewrite !(testbit_above _ k) by lia.
Qed.

(** A number all of whose bits from [k] on are zero is below [2 ^ k]. *)
Lemma bits_bound k x :
  0 <= k -> 0 <= x -> (forall i, k <= i -> Z.testbit x i = false) -> x < 2 ^ k.
Proof.
  intros Hk Hx Hb.
  replace x with (x mod 2 ^ k); [apply Z.mod_pos_bound; lia |].
  apply Z.bits_inj'. intros n Hn. rewrite Z.testbit_mod_pow2 by lia.
  destruct (n <? k) eqn:E; zbool; simpl; [done | symmetry; apply Hb; lia].
Qed.
