(* ===== verification/Qt.v ===== *)
(** * The Qt values the program is written over

    Qt is not part of the repository.  Its data types (strings with a null
    value, JSON values, ordered maps, host addresses) are modelled here as
    plain data with the few structural operations the sources call; the
    operations whose algorithm lives inside Qt (number and address parsing,
    base64, JSON text) are the fields of the class [Qt], a parameter of
    every definition that uses them, and what the program relies on is
    stated in the separate law classes.  [QtInstance.v] gives a concrete
    instance, which shows that the laws can hold. *)

From Stdlib Require Import ZArith Lia Bool String Ascii QArith.
From stdpp Require Import base gmap strings list countable pretty.
From S2P Require Import Prelude.

Open Scope Z_scope.

(** ** Strings *)

(** [QString] distinguishes the null string from the empty one
    ([isNull]/[isEmpty]); all other operations treat them alike. *)
Inductive QString : Type :=
| QNull
| QStr (s : string).
Coercion QStr : string >-> QString.

#[export] Instance QString_eq_dec : EqDecision QString.
Proof. solve_decision. Defined.

Definition qdata (q : QString) : string :=
  match q with QNull => ""%string | QStr s => s end.
Definition isNull (q : QString) : bool :=
  match q with QNull => true | QStr _ => false end.
Definition isEmpty (q : QString) : bool := String.eqb (qdata q) "".
(** [operator==] ignores the null flag. *)
Definition qeqb (a b : QString) : bool := String.eqb (qdata a) (qdata b).

Definition newline : ascii := Ascii.ascii_of_nat 10.
Definition nl : string := String newline "".

(** [s.contains(sub)] *)
Definition str_contains (sub s : string) : bool :=
  match String.index 0 sub s with Some _ => true | None => false end.

(** [s.contains(c)] for a single character. *)
Fixpoint chr_contains (c : ascii) (s : string) : bool :=
  match s with
  | EmptyString => false
  | String d s' => Ascii.eqb c d || chr_contains c s'
  end.

(** [s.count(c)] *)
Fixpoint chr_count (c : ascii) (s : string) : Z :=
  match s with
  | EmptyString => 0
  | String d s' => (if Ascii.eqb c d then 1 else 0) + chr_count c s'
  end.

(** [s.indexOf(c)], [None] for -1. *)
Fixpoint indexOf (c : ascii) (s : string) : option nat :=
  match s with
  | EmptyString => None
  | String d s' =>
      if Ascii.eqb c d then Some O else option_map S (indexOf c s')
  end.

(** [s.split(c)]: empty parts are kept, so the result is never empty. *)
Fixpoint split (c : ascii) (s : string) : list string :=
  match s with
  | EmptyString => [""%string]
  | String d s' =>
      if Ascii.eqb c d then ""%string :: split c s'
      else match split c s' with
           | [] => [String d ""]
           | w :: ws => String d w :: ws
           end
  end.

(** [s.left(n)], [s.mid(n)] *)
Fixpoint str_left (n : nat) (s : string) : string :=
  match n, s with
  | S n', String d s' => String d (str_left n' s')
  | _, _ => ""%string
  end.
Fixpoint str_mid (n : nat) (s : string) : string :=
  match n, s with
  | S n', String _ s' => str_mid n' s'
  | _, _ => s
  end.

Definition is_space (c : ascii) : bool :=
  let n := Ascii.nat_of_ascii c in
  (Nat.leb 9 n && Nat.leb n 13) || Nat.eqb n 32.

Fixpoint trim_left (s : string) : string :=
  match s with
  | String d s' => if is_space d then trim_left s' else s
  | EmptyString => ""%string
  end.
Fixpoint trim_right (s : string) : string :=
  match s with
  | EmptyString => ""%string
  | String d s' =>
      match trim_right s' with
      | EmptyString => if is_space d then ""%string else String d ""
      | t => String d t
      end
  end.
(** [s.trimmed()] *)
Definition trimmed (s : string) : string := trim_right (trim_left s).

Definition lower_ascii (c : ascii) : ascii :=
  let n := Ascii.nat_of_ascii c in
  if Nat.leb 65 n && Nat.leb n 90 then Ascii.ascii_of_nat (n + 32) else c.
(** [s.toLower()] *)
Fixpoint toLower (s : string) : string :=
  match s with
  | EmptyString => ""%string
  | String d s' => String (lower_ascii d) (toLower s')
  end.

(** [l.join(sep)] *)
Fixpoint join (sep : string) (l : list string) : string :=
  match l with
  | [] => ""%string
  | [s] => s
  | s :: l' => (s ++ sep ++ join sep l')%string
  end.

(** ** JSON values *)

(** A number is a double; the rationals contain every finite one.  A string
    carries its [QString], so that [toString] gives it back with its null
    flag. *)
Unset Elimination Schemes.
Inductive json : Type :=
| JNull
| JBool (b : bool)
| JDouble (q : Q)
| JString (s : QString)
| JArray (l : list json)
| JObject (m : gmap string json).
Set Elimination Schemes.

Abbreviation QJsonObject := (gmap string json).

Definition jint (z : Z) : json := JDouble (inject_Z z).
Definition jstr (s : string) : json := JString (QStr s).

(** [obj.value(key)] is [Undefined] for an absent key: [None]. *)
Definition value (obj : QJsonObject) (key : string) : option json := obj !! key.
Definition jcontains (obj : QJsonObject) (key : string) : bool :=
  match obj !! key with Some _ => true | None => false end.

Definition toString (v : option json) : QString :=
  match v with Some (JString s) => s | _ => QNull end.
Definition toArray (v : option json) : list json :=
  match v with Some (JArray l) => l | _ => [] end.
Definition toObject (v : option json) : QJsonObject :=
  match v with Some (JObject m) => m | _ => ∅ end.
Definition toBool (v : option json) : bool :=
  match v with Some (JBool b) => b | _ => false end.

(** [QJsonValue::toInt]: a whole number in the range of [int], else 0. *)
Definition toIntJ (v : option json) : Z :=
  match v with
  | Some (JDouble q) =>
      let z := Qnum q / Zpos (Qden q) in
      if (Qnum q mod Zpos (Qden q) =? 0) && (- 2 ^ 31 <=? z) && (z <? 2 ^ 31)
      then z else 0
  | _ => 0
  end.
(** The conversion of a double to [int] (towards zero). *)
Definition double_to_int (q : Q) : Z := Z.quot (Qnum q) (Zpos (Qden q)).

Definition isString (v : option json) : bool :=
  match v with Some (JString _) => true | _ => false end.
Definition isArray (v : option json) : bool :=
  match v with Some (JArray _) => true | _ => false end.
Definition isBool (v : option json) : bool :=
  match v with Some (JBool _) => true | _ => false end.
Definition isDouble (v : option json) : bool :=
  match v with Some (JDouble _) => true | _ => false end.
Definition isJNull (v : option json) : bool :=
  match v with Some JNull => true | _ => false end.
Definition isUndefined (v : option json) : bool :=
  match v with None => true | _ => false end.

(** [json.insert(key, v)]; inserting an undefined value removes the key. *)
Definition jinsert (key : string) (v : option json) (obj : QJsonObject) : QJsonObject :=
  match v with Some j => <[key := j]> obj | None => delete key obj end.

Lemma value_jinsert k k' v (obj : QJsonObject) :
  value (jinsert k v obj) k' = if String.eqb k k' then v else value obj k'.
Proof.
  unfold value, jinsert. destruct (String.eqb_spec k k') as [<- | Hne]; destruct v.
  - by rewrite lookup_insert_eq.
  - by rewrite lookup_delete_eq.
  - by rewrite lookup_insert_ne.
  - by rewrite lookup_delete_ne.
Qed.


(** [QVariant(QString).toBool()]: false for "", "0" and "false" (in any
    case), true otherwise. *)
Definition variantBool (q : QString) : bool :=
  let s := toLower (qdata q) in
  negb (String.eqb s "" || String.eqb s "0" || String.eqb s "false").

(** ** Ordered maps *)

(** [QMap<K,V>] keeps its keys in increasing order; [first()] is the value
    of the smallest one. *)
Class KeyOrder (K : Type) := {
  kcompare : K -> K -> comparison;
  kcompare_eq : forall x y, kcompare x y = Eq <-> x = y
}.

#[export] Program Instance string_KeyOrder : KeyOrder string := {|
  kcompare := String.compare
|}.
Next Obligation.
  intros x y. split; [apply String.compare_eq_iff | intros <-].
  induction x as [| c x IH]; simpl; [done |].
  unfold Ascii.compare. by rewrite N.compare_refl.
Qed.

Section QMap.
Context {K V : Type} `{KeyOrder K}.

Fixpoint qmap_insert (k : K) (v : V) (m : list (K * V)) : list (K * V) :=
  match m with
  | [] => [(k, v)]
  | (k', v') :: m' =>
      match kcompare k k' with
      | Lt => (k, v) :: m
      | Eq => (k, v) :: m'
      | Gt => (k', v') :: qmap_insert k v m'
      end
  end.

Fixpoint qmap_lookup (k : K) (m : list (K * V)) : option V :=
  match m with
  | [] => None
  | (k', v') :: m' =>
      match kcompare k k' with Eq => Some v' | _ => qmap_lookup k m' end
  end.

Definition qmap_contains (k : K) (m : list (K * V)) : bool :=
  match qmap_lookup k m with Some _ => true | None => false end.
End QMap.

(** ** Host addresses *)

(** The values of [QHostAddress], as [protocol()] tells them apart: an IPv4
    address is a 32-bit number, an IPv6 address an array of sixteen bytes.
    (An IPv6 scope id is not part of the model.) *)
Inductive QHostAddress : Type :=
| HNull
| HV4 (a : Z)
| HV6 (a : list Z).

Inductive Protocol : Type := IPv4Protocol | IPv6Protocol | UnknownProtocol.

#[export] Instance Protocol_eq_dec : EqDecision Protocol.
Proof. solve_decision. Defined.
#[export] Instance QHostAddress_eq_dec : EqDecision QHostAddress.
Proof. solve_decision. Defined.

Definition protocol (h : QHostAddress) : Protocol :=
  match h with
  | HNull => UnknownProtocol
  | HV4 _ => IPv4Protocol
  | HV6 _ => IPv6Protocol
  end.
Definition toIPv4Address (h : QHostAddress) : Z :=
  match h with HV4 a => a | _ => 0 end.
Definition toIPv6Address (h : QHostAddress) : list Z :=
  match h with HV6 a => a | _ => replicate 16 0 end.
Definition host_isNull (h : QHostAddress) : bool :=
  match h with HNull => true | _ => false end.

(** A value Qt can hold: 32 bits, or sixteen bytes. *)
Definition wf_host (h : QHostAddress) : Prop :=
  match h with
  | HNull => False
  | HV4 a => 0 <= a < 2 ^ 32
  | HV6 l => length l = 16%nat /\ Forall is_byte l
  end.
Definition width (h : QHostAddress) : Z :=
  match h with HNull => 0 | HV4 _ => 32 | HV6 _ => 128 end.

(** Bit [i] of an address, counted from the most significant one. *)
Definition hbit (h : QHostAddress) (i : Z) : bool :=
  match h with
  | HNull => false
  | HV4 a => Z.testbit a (31 - i)
  | HV6 l => Z.testbit (byte_at l (i / 8)) (7 - i mod 8)
  end.

(** ** Operations implemented inside Qt *)

Class Qt := {
  (** [s.toInt(&ok)] and [s.toUInt(&ok)]: [None] when [ok] is false. *)
  toInt : string -> option Z;
  toUInt : string -> option Z;
  (** [s.toLongLong()], [s.toDouble()] as an integer count. *)
  toLongLong : string -> Z;
  toDouble : string -> Z;
  (** [QHostAddress(s)], [h.toString()], [QHostAddress::parseSubnet(s)] *)
  parseHost : string -> QHostAddress;
  hostToString : QHostAddress -> string;
  parseSubnet : string -> QHostAddress * Z;
  (** [QByteArray::fromBase64(s)], [b.toBase64()], [fromHex], [toHex] *)
  fromBase64 : string -> list Z;
  toBase64 : list Z -> string;
  fromHex : string -> list Z;
  toHex : list Z -> string;
  (** [QJsonDocument::fromJson(s)] when it is an object, and
      [QJsonDocument(obj).toJson(Compact)]. *)
  jsonParse : string -> option QJsonObject;
  jsonPrint : QJsonObject -> string
}.

(** Printing an address and reading it back gives the address. *)
Class HostTextLaws (Q : Qt) := {
  parse_print_host : forall h, wf_host h -> parseHost (hostToString h) = h;
  print_host_plain : forall h,
    chr_contains "/"%char (hostToString h) = false
    /\ chr_contains newline (hostToString h) = false
}.

(** [parseSubnet] returns a network address: a value Qt can hold, a prefix
    within the width, the host bits zero; or the null address and -1. *)
Class SubnetLaws (Q : Qt) := {
  parseSubnet_canonical : forall s h p, parseSubnet s = (h, p) ->
    (h = HNull /\ p = -1) \/
    (wf_host h /\ 0 <= p <= width h /\
     forall i, p <= i < width h -> hbit h i = false)
}.

(** What the line protocol needs of the text of one message: it is read back,
    and it is one non-empty trimmed line. *)
Definition wire_ok `{Qt} (o : QJsonObject) : Prop :=
  jsonParse (jsonPrint o) = Some o
  /\ chr_contains newline (jsonPrint o) = false
  /\ trimmed (jsonPrint o) = jsonPrint o
  /\ jsonPrint o <> ""%string.

(** ** Lemmas *)

Lemma qmap_lookup_insert {K V} `{KeyOrder K} (k k' : K) (v : V) m :
  qmap_lookup k' (qmap_insert k v m) =
    match kcompare k' k with Eq => Some v | _ => qmap_lookup k' m end.
Proof.
  induction m as [| [k1 v1] m IH]; simpl; [done |].
  destruct (kcompare k k1) eqn:E; simpl.
  - apply kcompare_eq in E as ->. by destruct (kcompare k' k1).
  - done.
  - rewrite IH. destruct (kcompare k' k1) eqn:E1; [| done | done].
    destruct (kcompare k' k) eqn:E2; try done.
    apply kcompare_eq in E1 as ->, E2 as ->. rewrite (proj2 (kcompare_eq k k) eq_refl) in E.
    done.
Qed.

Lemma qmap_lookup_insert_eq {K V} `{KeyOrder K} (k : K) (v : V) m :
  qmap_lookup k (qmap_insert k v m) = Some v.
Proof. by rewrite qmap_lookup_insert, (proj2 (kcompare_eq k k) eq_refl). Qed.

Lemma qmap_lookup_insert_ne {K V} `{KeyOrder K} (k k' : K) (v : V) m :
  k' <> k -> qmap_lookup k' (qmap_insert k v m) = qmap_lookup k' m.
Proof.
  intros Hne. rewrite qmap_lookup_insert. destruct (kcompare k' k) eqn:E; [| done | done].
  by apply kcompare_eq in E.
Qed.

Lemma qmap_lookup_elem {K V} `{KeyOrder K} (k : K) (v : V) m :
  qmap_lookup k m = Some v -> (k, v) ∈ m.
Proof.
  induction m as [| [k1 v1] m IH]; simpl; [done |].
  destruct (kcompare k k1) eqn:E; rewrite elem_of_cons; intros Hl; auto.
  apply kcompare_eq in E as ->. simplify_eq. by left.
Qed.

#[export] Hint Rewrite @qmap_lookup_insert_eq : dopamine.

Lemma string_app_cons d (a b : string) : String d a +:+ b = String d (a +:+ b).
Proof. reflexivity. Qed.
Lemma string_app_nil (b : string) : "" +:+ b = b.
Proof. reflexivity. Qed.

Lemma string_app_assoc (a b c : string) : (a +:+ b) +:+ c = a +:+ b +:+ c.
Proof.
  induction a as [| d a IH]; [by rewrite !string_app_nil |].
  by rewrite !string_app_cons, IH.
Qed.

Lemma chr_contains_app c a b :
  chr_contains c (a +:+ b) = chr_contains c a || chr_contains c b.
Proof.
  induction a as [| d a IH]; [by rewrite string_app_nil |].
  rewrite string_app_cons; simpl. by rewrite IH, orb_assoc.
Qed.

(** A line without the separator is one element of [split]. *)
Lemma split_line c a b :
  chr_contains c a = false -> split c (a +:+ String c b) = a :: split c b.
Proof.
  induction a as [| d a IH]; simpl; intros Ha.
  - rewrite ?string_app_nil; simpl. by rewrite Ascii.eqb_refl.
  - apply orb_false_iff in Ha as [Hd Ha]. rewrite ?string_app_cons; simpl.
    by rewrite Hd, (IH Ha).
Qed.

Lemma split_sep c b : split c (String c b) = ""%string :: split c b.
Proof. simpl. by rewrite Ascii.eqb_refl. Qed.

Lemma split_nonempty c s : split c s <> [].
Proof. destruct s; simpl; [done |]. by repeat case_match. Qed.

(** Text between two separators is an element of [split]. *)
Lemma split_between c a v b :
  chr_contains c v = false -> v ∈ tail (split c (a +:+ String c (v +:+ String c b))).
Proof.
  intros Hv. induction a as [| d a IH].
  - rewrite string_app_nil. simpl. rewrite Ascii.eqb_refl. simpl.
    rewrite split_line by done. left.
  - rewrite string_app_cons. simpl. destruct (Ascii.eqb c d).
    + simpl. destruct (split c _) as [| w ws] eqn:E; [by apply split_nonempty in E |].
      by right.
    + destruct (split c _) as [| w ws] eqn:E; [by apply split_nonempty in E |]. done.
Qed.

(** A string without the separator is its own split. *)
Lemma split_none c a : chr_contains c a = false -> split c a = [a].
Proof.
  induction a as [| d a IH]; simpl; intros Ha; [done |].
  apply orb_false_iff in Ha as [-> Ha]. by rewrite (IH Ha).
Qed.

(** Printed integers are digits and a sign. *)
Lemma pretty_Z_plain c (z : Z) :
  Forall (fun d => Ascii.eqb c d = false)
    ["0"; "1"; "2"; "3"; "4"; "5"; "6"; "7"; "8"; "9"; "-"]%char ->
  chr_contains c (pretty z) = false.
Proof.
  intros Hc. rewrite !Forall_cons in Hc. destruct_and!.
  assert (Hn : forall x s, chr_contains c s = false -> chr_contains c (pretty_N_go x s) = false).
  { intros x. induction (N.lt_wf_0 x) as [x _ IH]; intros s Hs.
    assert (x = 0 \/ 0 < x)%N as [-> | ?] by lia; [done |].
    rewrite pretty_N_go_step by done. apply IH; [by apply N.div_lt |].
    simpl. rewrite Hs, orb_false_r. unfold pretty_N_char. by repeat case_match. }
  assert (HN : forall x : N, chr_contains c (pretty x) = false).
  { intros x. unfold pretty, pretty_N. case_decide; [| by apply Hn].
    simpl. by rewrite orb_false_r. }
  unfold pretty, pretty_Z. destruct z as [| p | p].
  - simpl. by rewrite orb_false_r.
  - apply HN.
  - rewrite chr_contains_app. simpl. rewrite orb_false_r.
    replace (Ascii.eqb c "-") with false. apply HN.
Qed.

Lemma join_plain c sep l :
  chr_contains c sep = false -> Forall (fun s => chr_contains c s = false) l ->
  chr_contains c (join sep l) = false.
Proof.
  intros Hs. induction 1 as [| s l Hsl _ IH]; [done |]. simpl.
  destruct l; [done |]. by rewrite !chr_contains_app, Hsl, Hs, IH.
Qed.

(** Joining with a separator and splitting at it. *)
Lemma split_join c l :
  l <> [] -> Forall (fun s => chr_contains c s = false) l ->
  split c (join (String c "") l) = l.
Proof.
  intros Hne Hl. induction Hl as [| s l Hs Hl IH]; [done |].
  destruct l as [| t l]; [by apply split_none |].
  change (join _ (s :: t :: l)) with (s +:+ String c "" +:+ join (String c "") (t :: l)).
  rewrite string_app_cons, string_app_nil, split_line by done. by rewrite IH.
Qed.
