(* ===== verification/QtInstance.v ===== *)
(** * A concrete instance of the Qt operations

    Number and address parsing written out, enough to show that the laws of
    [Qt.v] can hold together and to evaluate the model on concrete inputs:
    dotted quads, fully expanded IPv6 addresses, signed decimals, hexadecimal bytes.
    Base64 and the JSON text are stand-ins with the same round trips, and the
    documents are a table given by the user of the instance. *)

From Stdlib Require Import ZArith Lia Bool String Ascii.
From Stdlib Require Import DecimalString DecimalN HexadecimalString HexadecimalN.
From stdpp Require Import base gmap strings list countable pretty.
From S2P Require Import Prelude.
From S2P Require Import Qt.

Open Scope Z_scope.

(** ** Numbers *)

Definition print_dec (z : Z) : string := DecimalString.NilEmpty.string_of_uint (N.to_uint (Z.to_N z)).
Definition parse_dec (s : string) : option Z :=
  if String.eqb s "" then None
  else option_map (fun d => Z.of_N (N.of_uint d)) (DecimalString.NilEmpty.uint_of_string s).

Definition print_hex (z : Z) : string :=
  HexadecimalString.NilEmpty.string_of_uint (N.to_hex_uint (Z.to_N z)).
Definition parse_hex (s : string) : option Z :=
  if String.eqb s "" then None
  else option_map (fun d => Z.of_N (N.of_hex_uint d)) (HexadecimalString.NilEmpty.uint_of_string s).

Definition in_range (lo hi : Z) (o : option Z) : option Z :=
  match o with
  | Some z => if (lo <=? z) && (z <? hi) then Some z else None
  | None => None
  end.

(** Decimal digits read from the left. *)
Definition digit_value (c : ascii) : option Z := in_range 0 10 (Some (Z.of_N (Ascii.N_of_ascii c) - 48)).
Fixpoint digits_value (acc : Z) (s : string) : option Z :=
  match s with
  | EmptyString => Some acc
  | String c s' => match digit_value c with
                   | Some d => digits_value (acc * 10 + d) s'
                   | None => None
                   end
  end.
Definition parse_digits (s : string) : option Z := if String.eqb s "" then None else digits_value 0 s.

Definition parse_signed (s : string) : option Z :=
  match s with
  | String "-" s' => option_map Z.opp (parse_digits s')
  | _ => parse_digits s
  end.

(** ** Addresses *)

Fixpoint mapM_opt {A B} (f : A -> option B) (l : list A) : option (list B) :=
  match l with
  | [] => Some []
  | x :: l' => match f x, mapM_opt f l' with
               | Some y, Some ys => Some (y :: ys)
               | _, _ => None
               end
  end.

Definition print_host (h : QHostAddress) : string :=
  match h with
  | HNull => ""
  | HV4 a => join "." (map print_dec [a / 2 ^ 24 mod 256; a / 2 ^ 16 mod 256; a / 2 ^ 8 mod 256; a mod 256])
  | HV6 l => join ":" (map print_hex l)
  end.

Definition parse_host (s : string) : QHostAddress :=
  match mapM_opt (fun w => in_range 0 256 (parse_dec w)) (split "." s) with
  | Some [a; b; c; d] => HV4 (a * 2 ^ 24 + b * 2 ^ 16 + c * 2 ^ 8 + d)
  | _ => match mapM_opt (fun w => in_range 0 256 (parse_hex w)) (split ":" s) with
         | Some l => if Nat.eqb (length l) 16 then HV6 l else HNull
         | None => HNull
         end
  end.

(** Bits [p..127] of an IPv6 address are zero. *)
Definition host_bits_zero (h : QHostAddress) (p : Z) : bool :=
  forallb (fun i => (Z.of_nat i <? p) || negb (hbit h (Z.of_nat i))) (seq 0 128).

Definition parse_subnet (s : string) : QHostAddress * Z :=
  match split "/" s with
  | [a; n] =>
      match parse_host a, in_range 0 129 (parse_dec n) with
      | HV4 x, Some p =>
          if p <=? 32 then (HV4 (x / 2 ^ (32 - p) * 2 ^ (32 - p)), p) else (HNull, -1)
      | HV6 l, Some p => if host_bits_zero (HV6 l) p then (HV6 l, p) else (HNull, -1)
      | _, _ => (HNull, -1)
      end
  | _ => (HNull, -1)
  end.

(** ** Bytes *)

Definition bytes_of_string (s : string) : list Z :=
  map (fun c => Z.of_N (Ascii.N_of_ascii c)) (String.list_ascii_of_string s).
Definition string_of_bytes (l : list Z) : string :=
  String.string_of_list_ascii (map (fun z => Ascii.ascii_of_N (Z.to_N z)) l).

(** Two lower-case digits per byte; a text that is not hexadecimal is skipped. *)
Definition hex_digit (z : Z) : ascii :=
  Ascii.ascii_of_N (Z.to_N (if z <? 10 then z + 48 else z + 87)).
Definition hex_value (c : ascii) : Z :=
  let n := Z.of_N (Ascii.N_of_ascii c) in
  if (48 <=? n) && (n <=? 57) then n - 48 else n - 87.
Definition hex_of_bytes (l : list Z) : string :=
  foldr (fun z s => String (hex_digit (z / 16)) (String (hex_digit (z mod 16)) s)) "" l.
Fixpoint bytes_of_hex (s : string) : list Z :=
  match s with
  | String a (String b s') => hex_value a * 16 + hex_value b :: bytes_of_hex s'
  | _ => []
  end.

(** ** The instance *)

Definition opt_default (o : option Z) : Z := match o with Some z => z | None => 0 end.

Definition concreteQt (parse : string -> option QJsonObject) (print : QJsonObject -> string) : Qt := {|
  toInt s := in_range (- 2 ^ 31) (2 ^ 31) (parse_signed s);
  toUInt s := in_range 0 (2 ^ 32) (parse_signed s);
  toLongLong s := opt_default (in_range (- 2 ^ 63) (2 ^ 63) (parse_signed s));
  toDouble s := opt_default (parse_signed s);
  parseHost := parse_host;
  hostToString := print_host;
  parseSubnet := parse_subnet;
  fromBase64 := bytes_of_string;
  toBase64 := string_of_bytes;
  fromHex := bytes_of_hex;
  toHex := hex_of_bytes;
  jsonParse := parse;
  jsonPrint := print
|}.

(** The instance without documents. *)
Definition plainQt : Qt := concreteQt (fun _ => None) (fun _ => "{}"%string).

(** ** The laws hold *)

Lemma dec_plain c d :
  Forall (fun x => Ascii.eqb c x = false)
    ["0"; "1"; "2"; "3"; "4"; "5"; "6"; "7"; "8"; "9"]%char ->
  chr_contains c (DecimalString.NilEmpty.string_of_uint d) = false.
Proof.
  intros Hc. rewrite !Forall_cons in Hc. destruct_and!.
  induction d; simpl; [done | ..]; apply orb_false_iff; by split.
Qed.

Lemma hex_plain c d :
  Forall (fun x => Ascii.eqb c x = false)
    ["0"; "1"; "2"; "3"; "4"; "5"; "6"; "7"; "8"; "9";
     "a"; "b"; "c"; "d"; "e"; "f"]%char ->
  chr_contains c (HexadecimalString.NilEmpty.string_of_uint d) = false.
Proof.
  intros Hc. rewrite !Forall_cons in Hc. destruct_and!.
  induction d; simpl; [done | ..]; apply orb_false_iff; by split.
Qed.

Lemma parse_print_dec z : 0 <= z -> parse_dec (print_dec z) = Some z.
Proof.
  intros Hz. unfold parse_dec, print_dec.
  destruct (String.eqb_spec (DecimalString.NilEmpty.string_of_uint (N.to_uint (Z.to_N z))) "") as [E |].
  - pose proof (DecimalString.NilEmpty.usu (N.to_uint (Z.to_N z))) as Hu.
    rewrite E in Hu. injection Hu as Hu.
    pose proof (DecimalN.Unsigned.of_to (Z.to_N z)) as Ho. rewrite <- Hu in Ho.
    simpl in Ho. rewrite <- Ho in Hu. done.
  - rewrite DecimalString.NilEmpty.usu. simpl.
    rewrite DecimalN.Unsigned.of_to. f_equal. lia.
Qed.

Lemma parse_print_hex z : 0 <= z -> parse_hex (print_hex z) = Some z.
Proof.
  intros Hz. unfold parse_hex, print_hex.
  destruct (String.eqb_spec (HexadecimalString.NilEmpty.string_of_uint (N.to_hex_uint (Z.to_N z))) "") as [E |].
  - pose proof (HexadecimalString.NilEmpty.usu (N.to_hex_uint (Z.to_N z))) as Hu.
    rewrite E in Hu. injection Hu as Hu.
    pose proof (HexadecimalN.Unsigned.of_to (Z.to_N z)) as Ho. rewrite <- Hu in Ho.
    simpl in Ho. rewrite <- Ho in Hu. done.
  - rewrite HexadecimalString.NilEmpty.usu. simpl.
    rewrite HexadecimalN.Unsigned.of_to. f_equal. lia.
Qed.

Lemma mapM_opt_map {A} (f : A -> string) (g : string -> option A) (P : A -> Prop) l :
  (forall x, P x -> g (f x) = Some x) -> Forall P l -> mapM_opt g (map f l) = Some l.
Proof.
  intros Hgf. induction 1 as [| x l Hx _ IH]; simpl; [done |]. by rewrite Hgf, IH.
Qed.

Lemma in_range_byte z : is_byte z -> in_range 0 256 (Some z) = Some z.
Proof.
  unfold is_byte, in_range. intros Hz.
  by rewrite (proj2 (Z.leb_le 0 z)), (proj2 (Z.ltb_lt z 256)) by lia.
Qed.

Lemma mod256_byte z : is_byte (z mod 256).
Proof. unfold is_byte. apply Z.mod_pos_bound. lia. Qed.

Lemma print_dec_plain c z :
  Forall (fun x => Ascii.eqb c x = false)
    ["0"; "1"; "2"; "3"; "4"; "5"; "6"; "7"; "8"; "9"]%char ->
  chr_contains c (print_dec z) = false.
Proof. apply dec_plain. Qed.

Lemma quad_value a : 0 <= a < 2 ^ 32 ->
  a / 2 ^ 24 mod 256 * 2 ^ 24 + a / 2 ^ 16 mod 256 * 2 ^ 16
    + a / 2 ^ 8 mod 256 * 2 ^ 8 + a mod 256 = a.
Proof.
  intros Ha. change (2 ^ 24) with 16777216. change (2 ^ 16) with 65536.
  change (2 ^ 8) with 256. change (2 ^ 32) with 4294967296 in Ha.
  Z.to_euclidean_division_equations. lia.
Qed.

Lemma parse_print_host4 a : 0 <= a < 2 ^ 32 -> parse_host (print_host (HV4 a)) = HV4 a.
Proof.
  intros Ha. unfold parse_host. unfold print_host.
  rewrite split_join; [| done |].
  - rewrite (mapM_opt_map print_dec _ is_byte).
    + by rewrite quad_value.
    + intros x Hx. rewrite parse_print_dec by (unfold is_byte in Hx; lia).
      by apply in_range_byte.
    + repeat constructor; apply mod256_byte.
  - rewrite Forall_map. apply Forall_forall. intros x _. apply print_dec_plain. by repeat constructor.
Qed.

Lemma parse_print_host6 l :
  length l = 16%nat -> Forall is_byte l -> parse_host (print_host (HV6 l)) = HV6 l.
Proof.
  intros Hlen Hl. unfold parse_host, print_host.
  rewrite (split_none "."); [| apply join_plain; [done |]; rewrite Forall_map;
    apply Forall_forall; intros x _; apply hex_plain; by repeat constructor].
  rewrite (split_join ":"); [| by destruct l | rewrite Forall_map; apply Forall_forall;
    intros x _; apply hex_plain; by repeat constructor].
  rewrite (mapM_opt_map print_hex _ is_byte).
  - rewrite Hlen. simpl. by repeat case_match.
  - intros x Hx. rewrite parse_print_hex by (unfold is_byte in Hx; lia).
    by apply in_range_byte.
  - done.
Qed.

Lemma print_host_chars c h :
  Forall (fun x => Ascii.eqb c x = false)
    ["0"; "1"; "2"; "3"; "4"; "5"; "6"; "7"; "8"; "9";
     "a"; "b"; "c"; "d"; "e"; "f"; "."; ":"]%char ->
  chr_contains c (print_host h) = false.
Proof.
  intros Hc. rewrite !Forall_cons in Hc. destruct_and!. destruct h as [| a | l]; [done | |].
  all: apply join_plain; [simpl; by apply orb_false_iff |].
  all: rewrite Forall_map; apply Forall_forall; intros x _.
  - apply print_dec_plain. by repeat constructor.
  - apply hex_plain. by repeat constructor.
Qed.

#[export] Instance concrete_HostTextLaws p q : HostTextLaws (concreteQt p q).
Proof.
  constructor.
  - intros [| a | l] Hh; [done | by apply parse_print_host4 |].
    destruct Hh. by apply parse_print_host6.
  - intros h. split; apply print_host_chars; by repeat constructor.
Qed.

Lemma mapM_opt_Forall {A B} (f : A -> option B) (P : B -> Prop) l r :
  (forall x y, f x = Some y -> P y) -> mapM_opt f l = Some r -> Forall P r.
Proof.
  intros Hf. revert r. induction l as [| x l IH]; simpl; intros r Hr.
  - injection Hr as <-. constructor.
  - destruct (f x) eqn:E; [| done]. destruct (mapM_opt f l); [| done].
    injection Hr as <-. constructor; eauto.
Qed.

Lemma in_range_bounds lo hi o z : in_range lo hi o = Some z -> lo <= z < hi.
Proof. destruct o; simpl; [| done]. case_if; [| done]. zbool. intros [= <-]. lia. Qed.

Lemma parse_host_v4_range s x : parse_host s = HV4 x -> 0 <= x < 2 ^ 32.
Proof.
  unfold parse_host. intros Hp.
  destruct (mapM_opt _ (split "." s)) as [l |] eqn:E; [| by repeat case_match].
  apply (mapM_opt_Forall _ is_byte) in E; [| intros w y; apply in_range_bounds].
  destruct l as [| a [| b [| c [| d [| ]]]]]; try by repeat case_match.
  rewrite !Forall_cons in E. unfold is_byte in E. injection Hp as <-.
  change (2 ^ 24) with 16777216. change (2 ^ 16) with 65536.
  change (2 ^ 8) with 256. change (2 ^ 32) with 4294967296. lia.
Qed.

Lemma masked_network x p :
  0 <= x < 2 ^ 32 -> 0 <= p <= 32 ->
  0 <= x / 2 ^ (32 - p) * 2 ^ (32 - p) < 2 ^ 32 /\
  forall i, p <= i < 32 -> Z.testbit (x / 2 ^ (32 - p) * 2 ^ (32 - p)) (31 - i) = false.
Proof.
  intros Hx Hp. assert (0 < 2 ^ (32 - p)) by (apply Z.pow_pos_nonneg; lia). split.
  - split; [apply Z.mul_nonneg_nonneg; [apply Z.div_pos |]; lia |].
    eapply Z.le_lt_trans; [| apply Hx]. rewrite Z.mul_comm. by apply Z.mul_div_le.
  - intros i Hi. apply Z.mul_pow2_bits_low. lia.
Qed.

Lemma parse_host_v6 s l : parse_host s = HV6 l -> wf_host (HV6 l).
Proof.
  unfold parse_host. intros Hp.
  destruct (mapM_opt _ (split ":" s)) as [l' |] eqn:E; [| by repeat case_match].
  apply (mapM_opt_Forall _ is_byte) in E; [| intros w y; apply in_range_bounds].
  destruct (Nat.eqb (length l') 16) eqn:El; [| by repeat case_match].
  apply Nat.eqb_eq in El. assert (l' = l) as <- by (repeat case_match; by simplify_eq). done.
Qed.

Lemma host_bits_zero_spec h p :
  host_bits_zero h p = true <-> forall i, 0 <= i < 128 -> p <= i -> hbit h i = false.
Proof.
  unfold host_bits_zero. rewrite forallb_forall. split.
  - intros Hf i Hi Hp. specialize (Hf (Z.to_nat i)). rewrite Z2Nat.id in Hf by lia.
    specialize (Hf ltac:(apply in_seq; lia)). apply orb_true_iff in Hf as [Hf | Hf].
    + apply Z.ltb_lt in Hf. lia.
    + by apply negb_true_iff.
  - intros Hz i Hi. apply in_seq in Hi. apply orb_true_iff.
    destruct (Z.ltb_spec (Z.of_nat i) p); [by left | right].
    apply negb_true_iff, Hz; lia.
Qed.

#[export] Instance concrete_SubnetLaws p q : SubnetLaws (concreteQt p q).
Proof.
  constructor. intros s h n Hs. cbn [parseSubnet concreteQt] in Hs. unfold parse_subnet in Hs.
  repeat case_match; simplify_eq; try by left.
  - right. pose proof (parse_host_v4_range _ _ ltac:(eassumption)).
    pose proof (in_range_bounds _ _ _ _ ltac:(eassumption)). zbool.
    destruct (masked_network a n) as [? Hz]; [done | lia |].
    split; [done |]. split; [simpl; lia |]. intros i Hi. apply Hz, Hi.
  - right. pose proof (parse_host_v6 _ _ ltac:(eassumption)).
    pose proof (in_range_bounds _ _ _ _ ltac:(eassumption)).
    split; [done |]. split; [simpl; lia |]. intros i Hi. simpl in Hi.
    eapply host_bits_zero_spec; [eassumption | lia | lia].
Qed.

(** ** The text of a network *)

Definition spaces : list ascii :=
  [ascii_of_nat 9; ascii_of_nat 10; ascii_of_nat 11; ascii_of_nat 12; ascii_of_nat 13; " "%char].

Lemma is_space_elem c : is_space c = true -> c ∈ spaces.
Proof.
  intros Hc. rewrite <- (ascii_nat_embedding c). unfold is_space in Hc.
  assert (nat_of_ascii c = 9 \/ nat_of_ascii c = 10 \/ nat_of_ascii c = 11 \/ nat_of_ascii c = 12
    \/ nat_of_ascii c = 13 \/ nat_of_ascii c = 32)%nat as Hn.
  { apply orb_true_iff in Hc as [Hc | Hc]; [apply andb_true_iff in Hc as [H1 H2] |];
      rewrite ?Nat.leb_le, ?Nat.eqb_eq in *; lia. }
  unfold spaces. destruct Hn as [-> | [-> | [-> | [-> | [-> | ->]]]]]; set_solver.
Qed.

Definition plain (s : string) : Prop := Forall (fun c => chr_contains c s = false) spaces.

Lemma plain_cons d s : plain (String d s) -> is_space d = false /\ plain s.
Proof.
  unfold plain. intros Hp. split.
  - destruct (is_space d) eqn:E; [| done]. apply is_space_elem in E.
    rewrite Forall_forall in Hp. specialize (Hp d E). simpl in Hp.
    by rewrite Ascii.eqb_refl in Hp.
  - eapply Forall_impl; [exact Hp |]. simpl. intros c Hc. by apply orb_false_iff in Hc as [_ Hc].
Qed.

Lemma trimmed_plain s : plain s -> trimmed s = s.
Proof.
  intros Hp. unfold trimmed. assert (trim_left s = s) as ->.
  { destruct s; simpl; [done |]. by rewrite (proj1 (plain_cons _ _ Hp)). }
  induction s as [| d s IH]; simpl; [done |]. apply plain_cons in Hp as [Hd Hp].
  rewrite (IH Hp). destruct s; [by rewrite Hd | done].
Qed.

Definition uppers : list ascii :=
  map ascii_of_nat (seq 65 26).

Lemma toLower_plain s :
  Forall (fun c => chr_contains c s = false) uppers -> toLower s = s.
Proof.
  induction s as [| d s IH]; simpl; intros Hp; [done |]. f_equal.
  - unfold lower_ascii. case_if; [| done]. apply andb_true_iff in E as [E1 E2].
    apply Nat.leb_le in E1, E2. rewrite Forall_forall in Hp.
    assert (Hd : d ∈ uppers).
    { unfold uppers. apply list_elem_of_In, in_map_iff. exists (nat_of_ascii d).
      split; [apply ascii_nat_embedding | apply in_seq; lia]. }
    specialize (Hp d Hd). by rewrite Ascii.eqb_refl in Hp.
  - apply IH. eapply Forall_impl; [exact Hp |]. simpl.
    intros c Hc. by apply orb_false_iff in Hc as [_ Hc].
Qed.

Lemma subnet_chars c h (n : Z) :
  Forall (fun x => Ascii.eqb c x = false)
    ["0"; "1"; "2"; "3"; "4"; "5"; "6"; "7"; "8"; "9";
     "a"; "b"; "c"; "d"; "e"; "f"; "."; ":"; "/"; "-"]%char ->
  chr_contains c (print_host h +:+ "/" +:+ pretty n) = false.
Proof.
  intros Hc. rewrite !Forall_cons in Hc. destruct_and!.
  rewrite !chr_contains_app, print_host_chars, pretty_Z_plain by (by repeat constructor).
  simpl. by rewrite !orb_false_r.
Qed.

Lemma parse_dec_pretty n : 0 <= n < 129 -> parse_dec (pretty n) = Some n.
Proof.
  intros Hn. assert (Hall : forallb (fun i => bool_decide (parse_dec (pretty (Z.of_nat i)) = Some (Z.of_nat i))) (seq 0 129) = true)
    by (vm_compute; reflexivity).
  rewrite forallb_forall in Hall. specialize (Hall (Z.to_nat n)).
  rewrite Z2Nat.id in Hall by lia. apply bool_decide_eq_true in Hall; [done |].
  apply in_seq. lia.
Qed.

(** Counts as [pretty] prints them. *)
Lemma digit_of_char d : (d < 10)%N -> digit_value (pretty_N_char d) = Some (Z.of_N d).
Proof.
  intros Hd. assert (Hall : forallb (fun i => bool_decide (digit_value (pretty_N_char (N.of_nat i)) = Some (Z.of_nat i)))
    (seq 0 10) = true) by (vm_compute; reflexivity).
  rewrite forallb_forall in Hall. specialize (Hall (N.to_nat d) ltac:(apply in_seq; lia)).
  apply bool_decide_eq_true in Hall. by rewrite N2Nat.id, N_nat_Z in Hall.
Qed.

Lemma pretty_go_value x s : digits_value 0 (pretty_N_go x s) = digits_value (Z.of_N x) s.
Proof.
  revert s. induction (N.lt_wf_0 x) as [x _ IH]. intros s.
  destruct (decide (x = 0%N)) as [-> |]; [done |].
  rewrite pretty_N_go_step by lia. rewrite IH by (apply N.div_lt; lia). cbn [digits_value].
  rewrite digit_of_char by (apply N.mod_lt; lia). f_equal.
  rewrite N2Z.inj_div, N2Z.inj_mod. pose proof (Z.div_mod (Z.of_N x) 10). lia.
Qed.

Lemma parse_signed_pretty (n : Z) : 0 <= n -> parse_signed (pretty n) = Some n.
Proof.
  intros Hn. destruct n as [| p |]; [done | | lia].
  assert (Hv : digits_value 0 (pretty (Z.pos p)) = Some (Z.pos p)) by exact (pretty_go_value (N.pos p) "").
  destruct (pretty (Z.pos p)) as [| c s]; [discriminate |]. unfold parse_signed, parse_digits.
  rewrite Hv. destruct c as [[] [] [] [] [] [] [] []]; done.
Qed.

(** The hexadecimal form of bytes. *)
Lemma hex_round d : 0 <= d < 16 -> hex_value (hex_digit d) = d /\ Ascii.eqb newline (hex_digit d) = false.
Proof.
  intros Hd. assert (Hall : forallb (fun i => (hex_value (hex_digit (Z.of_nat i)) =? Z.of_nat i)
    && negb (Ascii.eqb newline (hex_digit (Z.of_nat i)))) (seq 0 16) = true) by (vm_compute; reflexivity).
  rewrite forallb_forall in Hall. specialize (Hall (Z.to_nat d) ltac:(apply in_seq; lia)).
  rewrite Z2Nat.id in Hall by lia. apply andb_true_iff in Hall as [H1 H2].
  split; [lia | by apply negb_true_iff].
Qed.

Lemma hex_bytes_round l : Forall is_byte l -> bytes_of_hex (hex_of_bytes l) = l.
Proof.
  induction 1 as [| z l Hz _ IH]; [done |]. cbn [hex_of_bytes foldr bytes_of_hex].
  fold (hex_of_bytes l). rewrite IH. unfold is_byte in Hz.
  assert (0 <= z / 16 < 16) by (split; [apply Z.div_pos; lia | apply Z.div_lt_upper_bound; lia]).
  destruct (hex_round (z / 16)) as [-> _]; [lia |].
  destruct (hex_round (z mod 16)) as [-> _]; [apply Z.mod_pos_bound; lia |].
  f_equal. pose proof (Z.div_mod z 16). lia.
Qed.

Lemma hex_no_newline l : Forall is_byte l -> chr_contains newline (hex_of_bytes l) = false.
Proof.
  induction 1 as [| z l Hz _ IH]; [done |]. cbn [hex_of_bytes foldr chr_contains].
  fold (hex_of_bytes l). unfold is_byte in Hz.
  assert (0 <= z / 16 < 16) by (split; [apply Z.div_pos; lia | apply Z.div_lt_upper_bound; lia]).
  destruct (hex_round (z / 16)) as [_ E1]; [lia |].
  destruct (hex_round (z mod 16)) as [_ E2]; [apply Z.mod_pos_bound; lia |].
  by rewrite E1, E2.
Qed.

Lemma div_pow_exact x k :
  0 <= k -> (forall i, 0 <= i < k -> Z.testbit x i = false) -> x / 2 ^ k * 2 ^ k = x.
Proof.
  intros Hk Hz. apply Z.bits_inj'. intros n Hn.
  destruct (Z.ltb_spec n k).
  - rewrite Z.mul_pow2_bits_low by lia. symmetry. apply Hz. lia.
  - rewrite Z.mul_pow2_bits by lia. rewrite Z.div_pow2_bits by lia. f_equal. lia.
Qed.

Lemma parse_print_subnet h n :
  wf_host h -> 0 <= n <= width h ->
  (forall i, n <= i < width h -> hbit h i = false) ->
  parse_subnet (print_host h +:+ "/" +:+ pretty n) = (h, n).
Proof.
  intros Hh Hn Hz. unfold parse_subnet. rewrite string_app_cons, string_app_nil, split_line
    by (apply print_host_chars; by repeat constructor).
  rewrite split_none by (apply pretty_Z_plain; by repeat constructor).
  assert (parse_host (print_host h) = h) as ->.
  { destruct h; [done | by apply parse_print_host4 | by destruct Hh; apply parse_print_host6]. }
  rewrite parse_dec_pretty by (destruct h; simpl in *; lia). cbn [in_range].
  rewrite (proj2 (Z.leb_le 0 n)), (proj2 (Z.ltb_lt n 129)) by (destruct h; simpl in *; lia).
  cbn [andb]. destruct h as [| a | l]; [done | |].
  - cbn [width hbit] in *. rewrite (proj2 (Z.leb_le n 32)) by lia.
    rewrite div_pow_exact; [done | lia |]. intros i Hi. rewrite <- (Hz (31 - i)) by lia.
    f_equal. lia.
  - rewrite (proj2 (host_bits_zero_spec _ _)); [done |]. intros i Hi Hni. apply Hz.
    simpl. lia.
Qed.
