(* ===== verification/IPAddress.v ===== *)
(** * IP networks: [client/mozilla/shared/ipaddress.{h,cpp}]

    [IPAddress] is an address together with a prefix length, and this file
    models every operation of the class at the level the source computes: an
    IPv4 address is a 32-bit number, an IPv6 address an array of sixteen
    bytes, and masks are built with the same shifts and [memset]s.  The
    theorems are stated over one abstract view, the bits of the address from
    the most significant one ([hbit]), which both families share: a network
    is the set of addresses that agree with it on the first [prefixLength]
    bits ([member]). *)

From Stdlib Require Import ZArith Lia Bool String Ascii.
From stdpp Require Import base gmap strings list countable pretty.
From S2P Require Import Prelude.
From S2P Require Import Qt.

Open Scope Z_scope.

(** ** Data *)

Record IPAddress : Type := mkIPAddress {
  m_address : QHostAddress;
  m_prefixLength : Z
}.

#[export] Instance IPAddress_eq_dec : EqDecision IPAddress.
Proof. solve_decision. Defined.

(** [QHash] keys: addresses are countable. *)
#[export] Instance QHostAddress_countable : Countable QHostAddress.
Proof.
  apply (inj_countable'
    (fun h => match h with
              | HNull => inl ()
              | HV4 a => inr (inl a)
              | HV6 l => inr (inr l)
              end)
    (fun x => match x with
              | inl _ => HNull
              | inr (inl a) => HV4 a
              | inr (inr l) => HV6 l
              end)).
  by intros [].
Defined.
#[export] Instance IPAddress_countable : Countable IPAddress.
Proof.
  apply (inj_countable' (fun i => (m_address i, m_prefixLength i))
                        (fun p => mkIPAddress p.1 p.2)).
  by intros [].
Defined.

(** ** Operations *)

(** [IPAddress::IPAddress(const QString& ip)] *)
Definition ofString `{Qt} (ip : string) : IPAddress :=
  let '(addr, prefix) :=
    if chr_contains "/"%char ip then parseSubnet ip else (parseHost ip, 999999) in
  mkIPAddress addr
    (match protocol addr with
     | IPv4Protocol => if prefix >=? 32 then 32 else prefix
     | IPv6Protocol => if prefix >=? 128 then 128 else prefix
     | UnknownProtocol => prefix
     end).

(** [IPAddress::toString] *)
Definition ipToString `{Qt} (n : IPAddress) : string :=
  hostToString (m_address n) +:+ "/" +:+ pretty (m_prefixLength n).

(** [IPAddress::IPAddress(const QHostAddress& address)] *)
Definition ofHost (address : QHostAddress) : IPAddress :=
  match protocol address with
  | IPv4Protocol => mkIPAddress address 32
  | _ => mkIPAddress address 128
  end.

(** [IPAddress::IPAddress(const QHostAddress& address, int prefixLength)] *)
Definition ofHostPrefix (address : QHostAddress) (prefixLength : Z) : IPAddress :=
  mkIPAddress address prefixLength.

(** [IPAddress::type] *)
Definition type (n : IPAddress) : Protocol := protocol (m_address n).

(** [IPAddress::netmask] *)
Definition netmask (n : IPAddress) : QHostAddress :=
  let p := m_prefixLength n in
  match protocol (m_address n) with
  | IPv6Protocol =>
      let raw := memset (replicate 16 0) 0 255 (p / 8) in
      if p mod 8 =? 0 then HV6 raw
      else HV6 (byte_set raw (p / 8) (Z.lxor 255 (Z.shiftr 255 (p mod 8))))
  | IPv4Protocol =>
      if p <? 32 then HV4 (Z.lxor 0xffffffff (Z.shiftr 0xffffffff p))
      else HV4 0xffffffff
  | UnknownProtocol => HNull
  end.

(** [IPAddress::hostmask] *)
Definition hostmask (n : IPAddress) : QHostAddress :=
  let p := m_prefixLength n in
  match protocol (m_address n) with
  | IPv6Protocol =>
      let offset := (p + 7) / 8 in
      let raw := memset (replicate 16 0) offset 255 (16 - offset) in
      if p mod 8 =? 0 then HV6 raw
      else HV6 (byte_set raw (p / 8) (Z.shiftr 255 (p mod 8)))
  | IPv4Protocol =>
      if p <? 32 then HV4 (Z.shiftr 0xffffffff p) else HV4 0
  | UnknownProtocol => HNull
  end.

(** [IPAddress::broadcastAddress] *)
Definition broadcastAddress (n : IPAddress) : QHostAddress :=
  let p := m_prefixLength n in
  match protocol (m_address n) with
  | IPv6Protocol =>
      let offset := (p + 7) / 8 in
      let raw := memset (toIPv6Address (m_address n)) offset 255 (16 - offset) in
      if p mod 8 =? 0 then HV6 raw
      else HV6 (byte_set raw (p / 8)
                  (Z.lor (byte_at raw (p / 8)) (Z.shiftr 255 (p mod 8))))
  | IPv4Protocol =>
      let raw := toIPv4Address (m_address n) in
      if p <? 32 then HV4 (Z.lor raw (Z.shiftr 0xffffffff p)) else HV4 raw
  | UnknownProtocol => HNull
  end.

(** [IPAddress::contains] *)
Definition contains (n : IPAddress) (address : QHostAddress) : bool :=
  let p := m_prefixLength n in
  if negb (bool_decide (protocol address = protocol (m_address n))) then false
  else if p =? 0 then true
  else match protocol (m_address n) with
  | IPv6Protocol =>
      let a := toIPv6Address (m_address n) in
      let b := toIPv6Address address in
      let bytes := p / 8 in
      if (bytes >? 0)
         && negb (bool_decide (take (Z.to_nat bytes) a = take (Z.to_nat bytes) b))
      then false
      else if p mod 8 =? 0 then true
      else Z.shiftr (Z.lxor (byte_at a bytes) (byte_at b bytes)) (8 - p mod 8) =? 0
  | IPv4Protocol =>
      let diff := Z.lxor (toIPv4Address (m_address n)) (toIPv4Address address) in
      (if p <? 32 then Z.shiftr diff (32 - p) else diff) =? 0
  | UnknownProtocol => false
  end.

(** [IPAddress::overlaps] *)
Definition overlaps (n other : IPAddress) : bool :=
  if m_prefixLength n <? m_prefixLength other
  then contains n (m_address other)
  else contains other (m_address n).

(** [IPAddress::operator==] *)
Definition ip_eqb (n other : IPAddress) : bool :=
  bool_decide (m_address n = m_address other)
  && (m_prefixLength n =? m_prefixLength other).

(** [IPAddress::subnetOf] *)
Definition subnetOf (n other : IPAddress) : bool :=
  if negb (bool_decide (protocol (m_address other) = protocol (m_address n)))
  then false
  else if m_prefixLength n <? m_prefixLength other then false
  else contains other (m_address n).

(** [IPAddress::subnets] *)
Definition subnets (n : IPAddress) : list IPAddress :=
  let p := m_prefixLength n in
  match protocol (m_address n) with
  | IPv4Protocol =>
      if p >=? 32 then [n]
      else
        let raw := toIPv4Address (m_address n) in
        [ ofHostPrefix (HV4 raw) (p + 1);
          ofHostPrefix (HV4 (Z.lor raw (Z.shiftr 0x80000000 p))) (p + 1) ]
  | _ =>
      if p >=? 128 then [n]
      else
        let raw := toIPv6Address (m_address n) in
        [ ofHostPrefix (HV6 raw) (p + 1);
          ofHostPrefix
            (HV6 (byte_set raw (p / 8)
                    (Z.lor (byte_at raw (p / 8)) (Z.shiftr 0x80 (p mod 8)))))
            (p + 1) ]
  end.

(** The loop of [IPAddress::excludeAddresses(const IPAddress& ip) const]:
    [sn] is the current pair of halves.  [Q_ASSERT(false)] is nothing in a
    release build, so that branch goes round with the same pair. *)
Fixpoint exclude_loop (fuel : nat) (ip : IPAddress) (sn result : list IPAddress)
  : res (list IPAddress) :=
  match fuel with
  | O => Timeout
  | S fuel' =>
      match sn !! 0%nat, sn !! 1%nat with
      | Some s0, Some s1 =>
          if negb (ip_eqb s0 ip) && negb (ip_eqb s1 ip) then
            if subnetOf ip s0 then exclude_loop fuel' ip (subnets s0) (result ++ [s1])
            else if subnetOf ip s1 then exclude_loop fuel' ip (subnets s1) (result ++ [s0])
            else exclude_loop fuel' ip sn result
          else if ip_eqb s0 ip then Val (result ++ [s1])
          else if ip_eqb s1 ip then Val (result ++ [s0])
          else Val result
      | _, _ => OutOfRange
      end
  end.

(** [IPAddress::excludeAddresses(const IPAddress& ip) const] *)
Definition excludeAddress (fuel : nat) (n ip : IPAddress) : res (list IPAddress) :=
  exclude_loop fuel ip (subnets n) [].

(** The inner loop of the static [excludeAddresses]: one address of
    [excludeList] taken out of every network of [results]. *)
Fixpoint exclude_from (fuel : nat) (exclude : IPAddress) (results : list IPAddress)
  : res (list IPAddress) :=
  match results with
  | [] => Val []
  | ip :: rest =>
      match
        (if negb (overlaps ip exclude) then Val [ip]
         else if subnetOf exclude ip && negb (ip_eqb exclude ip)
         then excludeAddress fuel ip exclude
         else Val []), exclude_from fuel exclude rest with
      | Val l, Val l' => Val (l ++ l')
      | Val _, e => e
      | e, _ => e
      end
  end.

(** [IPAddress::excludeAddresses(sourceList, excludeList)] *)
Fixpoint excludeAddresses (fuel : nat) (sourceList excludeList : list IPAddress)
  : res (list IPAddress) :=
  match excludeList with
  | [] => Val sourceList
  | exclude :: rest =>
      match exclude_from fuel exclude sourceList with
      | Val results => excludeAddresses fuel results rest
      | e => e
      end
  end.

(** ** The abstract view *)

(** A network address a well-behaved caller builds: a value Qt can hold and
    a prefix within the width of the family. *)
Definition wf_net (n : IPAddress) : Prop :=
  wf_host (m_address n) /\ 0 <= m_prefixLength n <= width (m_address n).

(** The host bits are zero. *)
Definition canonical (n : IPAddress) : Prop :=
  forall i, m_prefixLength n <= i < width (m_address n) ->
  hbit (m_address n) i = false.

(** Two addresses agree on their first [k] bits. *)
Definition agree (k : Z) (a b : QHostAddress) : Prop :=
  forall i, 0 <= i < k -> hbit a i = hbit b i.

(** The addresses of a network. *)
Definition member (n : IPAddress) (x : QHostAddress) : Prop :=
  protocol x = protocol (m_address n) /\ agree (m_prefixLength n) (m_address n) x.

(** The addresses of a list of networks. *)
Definition covered (l : list IPAddress) (x : QHostAddress) : Prop :=
  exists n, n ∈ l /\ member n x.

(** ** Bits of host addresses *)

Lemma width_protocol a b : protocol a = protocol b -> width a = width b.
Proof. by destruct a, b. Qed.

Lemma agree_sym k a b : agree k a b -> agree k b a.
Proof. intros H i Hi. symmetry. by apply H. Qed.

Lemma agree_trans k a b c : agree k a b -> agree k b c -> agree k a c.
Proof. intros H1 H2 i Hi. rewrite H1 by done. by apply H2. Qed.

Lemma agree_weaken k k' a b : k' <= k -> agree k a b -> agree k' a b.
Proof. intros Hk H i Hi. apply H. lia. Qed.

(** Agreement of IPv6 addresses on whole bytes is equality of the prefix. *)
Lemma agree_bytes l l' k :
  length l = 16%nat -> length l' = 16%nat ->
  Forall is_byte l -> Forall is_byte l' -> 0 <= k <= 16 ->
  agree (8 * k) (HV6 l) (HV6 l') <-> take (Z.to_nat k) l = take (Z.to_nat k) l'.
Proof.
  intros Hl Hl' Fl Fl' Hk. split.
  - intros Ha. apply list_eq. intros i.
    destruct (decide (i < Z.to_nat k)%nat) as [Hi |];
      [| by rewrite !lookup_take_ge by lia].
    rewrite !lookup_take by lia. rewrite !decide_True by lia.
    destruct (lookup_lt_is_Some_2 l i) as [x Hx]; [lia |].
    destruct (lookup_lt_is_Some_2 l' i) as [y Hy]; [lia |].
    rewrite Hx, Hy. f_equal.
    apply (bits_ext 8); [exact (Forall_lookup_1 _ _ _ _ Fl Hx)
      | exact (Forall_lookup_1 _ _ _ _ Fl' Hy) | lia |].
    intros j Hj. specialize (Ha (8 * Z.of_nat i + (7 - j))). simpl in Ha.
    rewrite (Z.mul_comm 8), Z.div_add_l, Z.div_small, Z.add_0_r in Ha by lia.
    rewrite Z.add_comm, Z.mod_add, Z.mod_small in Ha by lia.
    rewrite (byte_at_lookup l _ x), (byte_at_lookup l' _ y) in Ha
      by (by rewrite Nat2Z.id).
    replace (7 - (7 - j)) with j in Ha by lia. apply Ha. lia.
  - intros Ht i Hi. simpl.
    assert (byte_at l (i / 8) = byte_at l' (i / 8)) as ->; [| done].
    unfold byte_at. rewrite !nth_lookup.
    assert (i / 8 < k) by (apply Z.div_lt_upper_bound; lia).
    assert (0 <= i / 8) by (apply Z.div_pos; lia).
    rewrite <- (lookup_take_lt l (Z.to_nat k)), <- (lookup_take_lt l' (Z.to_nat k)) by lia.
    by rewrite Ht.
Qed.

(** A shifted difference is zero when the numbers agree above the shift. *)
Lemma shiftr_lxor_zero k s x y :
  0 <= s <= k -> 0 <= x < 2 ^ k -> 0 <= y < 2 ^ k ->
  Z.shiftr (Z.lxor x y) s = 0 <->
  (forall j, s <= j < k -> Z.testbit x j = Z.testbit y j).
Proof.
  intros Hs Hx Hy. split.
  - intros H0 j Hj. apply xorb_eq. rewrite <- Z.lxor_spec.
    replace j with (j - s + s) by lia.
    rewrite <- Z.shiftr_spec by lia. rewrite H0. apply Z.bits_0.
  - intros Hb. apply Z.bits_inj'. intros n Hn.
    rewrite Z.bits_0, Z.shiftr_spec, Z.lxor_spec by lia.
    destruct (decide (n + s < k)).
    + rewrite Hb by lia. apply xorb_nilpotent.
    + by rewrite !(testbit_above _ k) by lia.
Qed.

(** The bits of an IPv6 prefix: its whole bytes, then the head of one byte. *)
Lemma agree_split l l' p :
  0 <= p ->
  agree p (HV6 l) (HV6 l') <->
  agree (8 * (p / 8)) (HV6 l) (HV6 l') /\
  (forall j, 8 - p mod 8 <= j < 8 ->
     Z.testbit (byte_at l (p / 8)) j = Z.testbit (byte_at l' (p / 8)) j).
Proof.
  intros Hp. pose proof (Z.div_mod p 8 ltac:(lia)) as Hd.
  pose proof (Z.mod_pos_bound p 8 ltac:(lia)) as Hm.
  split.
  - intros Ha. split; [apply (agree_weaken p); [lia | done] |].
    intros j Hj. specialize (Ha (8 * (p / 8) + (7 - j)) ltac:(lia)). simpl in Ha.
    rewrite (Z.mul_comm 8), Z.div_add_l, (Z.div_small (7 - j)), Z.add_0_r in Ha by lia.
    rewrite Z.add_comm, Z.mod_add, (Z.mod_small (7 - j)) in Ha by lia.
    by replace (7 - (7 - j)) with j in Ha by lia.
  - intros [H1 H2] i Hi. destruct (decide (i < 8 * (p / 8))); [apply H1; lia |].
    assert (p / 8 = i / 8) as Hq by (apply Z.div_unique with (i - 8 * (p / 8)); lia).
    pose proof (Z.div_mod i 8 ltac:(lia)). simpl. rewrite <- Hq. apply H2. lia.
Qed.

(** [contains] decides membership, in both families. *)
Lemma contains_spec n x :
  wf_net n -> wf_host x -> contains n x = true <-> member n x.
Proof.
  destruct n as [h p]. unfold wf_net, contains, member; simpl. intros [Hh Hp] Hx.
  destruct h as [| a | l]; [done | |]; destruct x as [| b | l']; try done; simpl in *.
  all: try (split; [done | by intros [? _]]).
  all: destruct (p =? 0) eqn:E0; zbool;
    [split; [intros _; split; [done | intros i Hi; lia] | done] |].
  - assert ((if p <? 32 then Z.shiftr (Z.lxor a b) (32 - p) else Z.lxor a b)
            = Z.shiftr (Z.lxor a b) (32 - p)) as ->.
    { destruct (p <? 32) eqn:E; [done |]. zbool. by replace (32 - p) with 0 by lia. }
    rewrite Z.eqb_eq, (shiftr_lxor_zero 32) by lia. split.
    + intros Hb. split; [done |]. intros i Hi. apply Hb. lia.
    + intros [_ Ha] j Hj. specialize (Ha (31 - j)). simpl in Ha.
      replace (31 - (31 - j)) with j in Ha by lia. apply Ha. lia.
  - destruct Hh as [Hl Fl], Hx as [Hl' Fl'].
    assert (0 <= p / 8 <= 16)
      by (split; [apply Z.div_pos; lia | apply Z.div_le_upper_bound; lia]).
    pose proof (Z.mod_pos_bound p 8 ltac:(lia)).
    rewrite agree_split, agree_bytes by (lia || done).
    assert (((p / 8 >? 0) && negb (bool_decide (take (Z.to_nat (p / 8)) l = take (Z.to_nat (p / 8)) l')))
            = negb (bool_decide (take (Z.to_nat (p / 8)) l = take (Z.to_nat (p / 8)) l'))) as ->.
    { destruct (p / 8 >? 0) eqn:E; [done |]. zbool. by replace (p / 8) with 0 by lia. }
    case_bool_decide as Et; simpl; [| naive_solver].
    destruct (p mod 8 =? 0) eqn:Em; zbool.
    + split; [| done]. intros _. repeat split; [done |]. intros j Hj. lia.
    + rewrite Z.eqb_eq, (shiftr_lxor_zero 8) by
        (try apply (byte_at_is_byte _ _ Fl); try apply (byte_at_is_byte _ _ Fl'); lia).
      naive_solver.
Qed.

(** Taking [overlaps] apart: two networks that overlap share an address, the
    address of the longer prefix. *)
Lemma overlaps_spec n n' :
  wf_net n -> wf_net n' ->
  overlaps n n' = true <->
  (exists x, wf_host x /\ member n x /\ member n' x).
Proof.
  intros Hn Hn'. unfold overlaps.
  destruct (m_prefixLength n <? m_prefixLength n') eqn:E; zbool.
  - rewrite contains_spec by (done || apply Hn'). split.
    + intros Hm. exists (m_address n'). repeat split; try apply Hn'; try apply Hm.
    + intros (x & Hx & [P1 A1] & [P2 A2]). split; [congruence |].
      eapply agree_trans; [exact A1 |]. apply agree_sym.
      apply (agree_weaken (m_prefixLength n')); [lia | done].
  - rewrite contains_spec by (done || apply Hn). split.
    + intros Hm. exists (m_address n). repeat split; try apply Hn; try apply Hm.
    + intros (x & Hx & [P1 A1] & [P2 A2]). split; [congruence |].
      eapply agree_trans; [exact A2 |]. apply agree_sym.
      apply (agree_weaken (m_prefixLength n)); [lia | done].
Qed.

Lemma subnetOf_true n n' :
  wf_net n -> wf_net n' ->
  subnetOf n n' = true <->
  m_prefixLength n' <= m_prefixLength n /\ member n' (m_address n).
Proof.
  intros Hn Hn'. unfold subnetOf. case_bool_decide as Ep; simpl.
  - destruct (m_prefixLength n <? m_prefixLength n') eqn:E; zbool.
    + split; [done |]. intros [? _]. lia.
    + rewrite contains_spec by (done || apply Hn). naive_solver lia.
  - split; [done |]. intros [_ [Hm _]]. congruence.
Qed.

(** The network of a subnet is inside the network. *)
Lemma member_subnet n n' x :
  m_prefixLength n' <= m_prefixLength n -> member n' (m_address n) ->
  member n x -> member n' x.
Proof.
  intros Hp [P1 A1] [P2 A2]. split; [congruence |].
  eapply agree_trans; [exact A1 |]. by apply (agree_weaken (m_prefixLength n)).
Qed.

(** Well-formed addresses of one family are determined by their bits. *)
Lemma hbit_inj a b :
  wf_host a -> wf_host b -> protocol a = protocol b ->
  agree (width a) a b -> a = b.
Proof.
  destruct a as [| a | l], b as [| b | l']; try done; simpl; intros Ha Hb _ Hag.
  - f_equal. apply (bits_ext 32); try lia. intros i Hi.
    specialize (Hag (31 - i)). simpl in Hag.
    replace (31 - (31 - i)) with i in Hag by lia. apply Hag. lia.
  - destruct Ha as [Hl Fl], Hb as [Hl' Fl']. f_equal.
    apply (agree_bytes l l' 16) in Hag; try done; try lia.
    change (Z.to_nat 16) with 16%nat in Hag.
    by rewrite !firstn_all2 in Hag by lia.
Qed.

Lemma ip_eqb_eq n n' : ip_eqb n n' = true <-> n = n'.
Proof.
  unfold ip_eqb. rewrite andb_true_iff, bool_decide_eq_true, Z.eqb_eq.
  destruct n, n'; simpl. naive_solver.
Qed.

Lemma ip_eqb_neq n n' : ip_eqb n n' = false <-> n <> n'.
Proof. rewrite <- ip_eqb_eq. by destruct (ip_eqb n n'). Qed.

(** ** Halving a network *)

(** A single bit of a byte, counted from the most significant one. *)
Lemma testbit_pow2_shift k s j :
  0 <= s <= k -> 0 <= j -> Z.testbit (Z.shiftr (2 ^ k) s) j = (j =? k - s).
Proof.
  intros Hs Hj. rewrite Z.shiftr_spec, Z.pow2_bits_eqb by lia.
  destruct (Z.eqb_spec k (j + s)), (Z.eqb_spec j (k - s)); lia || done.
Qed.

Lemma lor_bound k x y :
  0 <= k -> 0 <= x < 2 ^ k -> 0 <= y < 2 ^ k -> 0 <= Z.lor x y < 2 ^ k.
Proof.
  intros Hk Hx Hy. assert (0 <= Z.lor x y) by (apply Z.lor_nonneg; lia).
  split; [done |]. apply bits_bound; [done | done |]. intros i Hi.
  by rewrite Z.lor_spec, !(testbit_above _ k) by lia.
Qed.

Lemma Forall_byte_set l k v :
  Forall is_byte l -> is_byte v -> Forall is_byte (byte_set l k v).
Proof. intros Hl Hv. apply Forall_insert; done. Qed.

(** Writing one byte changes the eight bits of that byte. *)
Lemma hbit_byte_set l k v i :
  0 <= k < Z.of_nat (length l) -> 0 <= i ->
  hbit (HV6 (byte_set l k v)) i =
    if decide (i / 8 = k) then Z.testbit v (7 - i mod 8) else hbit (HV6 l) i.
Proof.
  intros Hk Hi. simpl. rewrite byte_at_set by (done || by apply Z.div_pos; lia).
  by case_decide.
Qed.

(** The two halves [subnets] returns: the same address, and the address with
    the next bit set, both with the prefix one longer. *)
Lemma subnets_halves n :
  wf_net n -> m_prefixLength n < width (m_address n) ->
  exists h1,
    subnets n = [ mkIPAddress (m_address n) (m_prefixLength n + 1);
                  mkIPAddress h1 (m_prefixLength n + 1) ]
    /\ wf_host h1 /\ protocol h1 = protocol (m_address n)
    /\ forall i, 0 <= i < width (m_address n) ->
       hbit h1 i = if decide (i = m_prefixLength n) then true
                   else hbit (m_address n) i.
Proof.
  destruct n as [h p]. unfold wf_net, subnets; simpl. intros [Hh Hp] Hlt.
  destruct h as [| a | l]; [done | |]; simpl in *.
  - replace (p >=? 32) with false by lia.
    eexists. split; [reflexivity |]. simpl. split; [| split; [done |]].
    + apply (lor_bound 32); [lia | done |]. change 0x80000000 with (2 ^ 31).
      rewrite Z.shiftr_div_pow2 by lia.
      split; [apply Z.div_pos; lia | apply Z.div_lt_upper_bound; nia].
    + intros i Hi. change 0x80000000 with (2 ^ 31).
      rewrite Z.lor_spec, testbit_pow2_shift by lia.
      case_decide as E.
      * subst. by rewrite Z.eqb_refl, orb_true_r.
      * rewrite (proj2 (Z.eqb_neq _ _)) by lia. by rewrite orb_false_r.
  - destruct Hh as [Hl Fl]. replace (p >=? 128) with false by lia.
    assert (0 <= p / 8 < 16)
      by (split; [apply Z.div_pos; lia | apply Z.div_lt_upper_bound; lia]).
    pose proof (Z.mod_pos_bound p 8 ltac:(lia)).
    eexists. split; [reflexivity |]. split; [| split; [done |]].
    + split; [by rewrite length_byte_set |]. apply Forall_byte_set; [done |].
      apply (lor_bound 8); [lia | by apply byte_at_is_byte |].
      change 0x80 with (2 ^ 7). rewrite Z.shiftr_div_pow2 by lia.
      split; [apply Z.div_pos; lia | apply Z.div_lt_upper_bound; nia].
    + intros i Hi. rewrite hbit_byte_set by lia.
      change 0x80 with (2 ^ 7). pose proof (Z.mod_pos_bound i 8 ltac:(lia)).
      pose proof (Z.div_mod i 8 ltac:(lia)). pose proof (Z.div_mod p 8 ltac:(lia)).
      rewrite Z.lor_spec, testbit_pow2_shift by lia. simpl.
      case_decide as E; case_decide as E'; subst; try done.
      * by rewrite Z.eqb_refl, orb_true_r.
      * rewrite (proj2 (Z.eqb_neq _ _)) by lia. by rewrite E, orb_false_r.
Qed.

(** What a caller keeps track of: a well-formed network without host bits. *)
Definition good_net (n : IPAddress) : Prop := wf_net n /\ canonical n.

(** [subnets] cuts a network without host bits into two disjoint halves that
    cover it. *)
Lemma subnets_good n :
  good_net n -> m_prefixLength n < width (m_address n) ->
  exists s0 s1,
    subnets n = [s0; s1] /\ good_net s0 /\ good_net s1
    /\ m_prefixLength s0 = m_prefixLength n + 1
    /\ m_prefixLength s1 = m_prefixLength n + 1
    /\ protocol (m_address s0) = protocol (m_address n)
    /\ protocol (m_address s1) = protocol (m_address n)
    /\ (forall x, member s0 x <-> member n x /\ hbit x (m_prefixLength n) = false)
    /\ (forall x, member s1 x <-> member n x /\ hbit x (m_prefixLength n) = true).
Proof.
  intros [[Hh Hp] Hc] Hlt.
  destruct (subnets_halves n) as (h1 & -> & Hh1 & Pr & Hb); [done | done |].
  pose proof (width_protocol _ _ Pr) as Hw.
  eexists _, _. split; [reflexivity |].
  unfold good_net, wf_net, canonical, member; simpl.
  assert (Hcp : hbit (m_address n) (m_prefixLength n) = false) by (apply Hc; lia).
  repeat split; try done; try lia.
  - intros i Hi. apply Hc. lia.
  - intros i Hi. rewrite Hb, decide_False by lia. apply Hc. lia.
  - by destruct H.
  - apply (agree_weaken (m_prefixLength n + 1)); [lia | apply H].
  - destruct H as [_ Ha]. rewrite <- Ha by lia. done.
  - apply H.
  - destruct H as [[Px Ha] Hx]. intros i Hi.
    destruct (decide (i = m_prefixLength n)) as [-> |]; [congruence | apply Ha; lia].
  - destruct H. congruence.
  - destruct H as [_ Ha]. intros i Hi. rewrite <- Ha, Hb, decide_False by lia. done.
  - destruct H as [_ Ha]. rewrite <- Ha, Hb, decide_True by lia. done.
  - destruct H as [[Px _] _]. congruence.
  - destruct H as [[Px Ha] Hx]. intros i Hi. rewrite Hb by lia.
    case_decide as E; [by subst | apply Ha; lia].
Qed.

(** A network without host bits is determined by its prefix length and any
    network of that length its address lies in. *)
Lemma good_net_unique n n' :
  good_net n -> good_net n' -> m_prefixLength n = m_prefixLength n' ->
  member n (m_address n') -> n = n'.
Proof.
  destruct n as [a p], n' as [b q]. unfold good_net, wf_net, canonical, member; simpl.
  intros [[Ha Hp] Ca] [[Hb Hq] Cb] <- [Pr Ag]. f_equal.
  pose proof (width_protocol _ _ Pr) as Hw.
  apply hbit_inj; [done | done | done |]. intros i Hi.
  destruct (decide (i < p)); [apply Ag; lia |]. rewrite Ca, Cb by lia. done.
Qed.

(** The result of taking [ip] out of [n]. *)
Definition difference_of (n ip : IPAddress) (l : list IPAddress) : Prop :=
  Forall good_net l
  /\ (forall x, covered l x <-> member n x /\ ~ member ip x)
  /\ ForallOrdPairs (fun a b => forall x, ~ (member a x /\ member b x)) l.

Lemma covered_cons n l x : covered (n :: l) x <-> member n x \/ covered l x.
Proof.
  unfold covered. split.
  - intros (m & Hm & Hx). apply elem_of_cons in Hm as [-> | Hm]; [by left |].
    right. eauto.
  - intros [Hx | (m & Hm & Hx)]; eexists; rewrite elem_of_cons; eauto.
Qed.

Lemma covered_nil x : ~ covered [] x.
Proof. intros (m & Hm & _). by apply elem_of_nil in Hm. Qed.

Lemma covered_app l l' x : covered (l ++ l') x <-> covered l x \/ covered l' x.
Proof.
  induction l as [| n l IH]; simpl.
  - pose proof (covered_nil x). tauto.
  - rewrite !covered_cons, IH. tauto.
Qed.

Lemma good_net_self n : good_net n -> member n (m_address n).
Proof. intros _. by split. Qed.

(** Putting one half aside and taking [ip] out of the other. *)
Lemma difference_of_half n ip c o l (b : bool) :
  good_net o ->
  m_prefixLength ip > m_prefixLength n -> 0 <= m_prefixLength n ->
  hbit (m_address ip) (m_prefixLength n) = b ->
  (forall x, member c x <-> member n x /\ hbit x (m_prefixLength n) = b) ->
  (forall x, member o x <-> member n x /\ hbit x (m_prefixLength n) = negb b) ->
  difference_of c ip l -> difference_of n ip (o :: l).
Proof.
  intros Go Hlt H0 Hb Hc Ho (Gl & Cl & Dl).
  assert (Hip : forall x, member ip x -> hbit x (m_prefixLength n) = b).
  { intros x [_ Ha]. rewrite <- Hb. symmetry. apply Ha. lia. }
  split; [by constructor | split].
  - intros x. rewrite covered_cons, Cl, Hc, Ho. specialize (Hip x).
    destruct (hbit x (m_prefixLength n)), b; simpl; naive_solver.
  - constructor; [| done]. apply Forall_forall. intros m Hm x [H1 H2].
    assert (covered l x) as Hx by (by exists m).
    apply Cl in Hx as [Hx _]. apply Hc in Hx as [_ Hx]. apply Ho in H1 as [_ H1].
    destruct b; simpl in *; congruence.
Qed.

(** One round of the loop: [c] is the half that holds [ip], [o] the other. *)
Lemma exclude_step n ip fuel result :
  good_net n -> good_net ip -> member n (m_address ip) ->
  m_prefixLength n < m_prefixLength ip ->
  exists c o b,
    good_net c /\ good_net o /\ m_prefixLength c = m_prefixLength n + 1
    /\ hbit (m_address ip) (m_prefixLength n) = b
    /\ member c (m_address ip)
    /\ (forall x, member c x <-> member n x /\ hbit x (m_prefixLength n) = b)
    /\ (forall x, member o x <-> member n x /\ hbit x (m_prefixLength n) = negb b)
    /\ exclude_loop (S fuel) ip (subnets n) result =
         if m_prefixLength ip =? m_prefixLength n + 1 then Val (result ++ [o])
         else exclude_loop fuel ip (subnets c) (result ++ [o]).
Proof.
  intros Gn Gip Hm Hp. pose proof (width_protocol _ _ (proj1 Hm)) as Hw.
  destruct (subnets_good n) as (s0 & s1 & Hs & G0 & G1 & P0 & P1 & Pr0 & Pr1 & M0 & M1);
    [done | destruct Gip as [[_ ?] _]; lia |].
  rewrite Hs; simpl.
  assert (Hne : m_prefixLength ip <> m_prefixLength n + 1 ->
                ip_eqb s0 ip = false /\ ip_eqb s1 ip = false)
    by (rewrite !ip_eqb_neq; intros; split; intros <-; lia).
  assert (H0 : subnetOf ip s0 = negb (hbit (m_address ip) (m_prefixLength n))).
  { apply eq_true_iff_eq. rewrite subnetOf_true, negb_true_iff, M0 by (apply Gip || apply G0).
    naive_solver lia. }
  assert (H1 : subnetOf ip s1 = hbit (m_address ip) (m_prefixLength n)).
  { apply eq_true_iff_eq. rewrite subnetOf_true, M1 by (apply Gip || apply G1).
    naive_solver lia. }
  assert (E0 : ip_eqb s0 ip = true -> hbit (m_address ip) (m_prefixLength n) = false)
    by (rewrite ip_eqb_eq; intros <-; apply M0, good_net_self, G0).
  destruct (hbit (m_address ip) (m_prefixLength n)) eqn:Eb;
    [exists s1, s0, true | exists s0, s1, false].
  all: do 4 (split; [done |]); split; [by first [apply M0 | apply M1] |].
  all: do 2 (split; [done |]).
  all: destruct (m_prefixLength ip =? m_prefixLength n + 1) eqn:Ep; zbool;
    [| destruct Hne as [-> ->]; [done |]; simpl; by rewrite H0, ?H1].
  - assert (s1 = ip) as -> by (apply good_net_unique; try done; [lia | by apply M1]).
    rewrite (proj2 (ip_eqb_eq ip ip)) by done.
    destruct (ip_eqb s0 ip); [by specialize (E0 eq_refl) | done].
  - assert (s0 = ip) as -> by (apply good_net_unique; try done; [lia | by apply M0]).
    by rewrite (proj2 (ip_eqb_eq ip ip)) by done.
Qed.

Lemma exclude_loop_correct k : forall n ip fuel result,
  good_net n -> good_net ip -> member n (m_address ip) ->
  m_prefixLength ip = m_prefixLength n + 1 + Z.of_nat k -> (k < fuel)%nat ->
  exists l, exclude_loop fuel ip (subnets n) result = Val (result ++ l)
            /\ length l = S k /\ difference_of n ip l.
Proof.
  induction k as [| k IH]; intros n ip fuel result Gn Gip Hm Hp Hf;
    (destruct fuel as [| fuel]; [lia |]);
    destruct (exclude_step n ip fuel result) as (c & o & b & Gc & Go & Pc & Hb & Mc & Cs & Os & ->);
    try done; try lia.
  all: assert (0 <= m_prefixLength n) by apply Gn.
  - rewrite (proj2 (Z.eqb_eq _ _)) by lia. exists [o]. split; [done | split; [done |]].
    apply (difference_of_half n ip c o [] b); try done; [lia |].
    assert (c = ip) as -> by (apply good_net_unique; try done; lia).
    split; [constructor | split; [| constructor]].
    intros x. pose proof (covered_nil x). tauto.
  - rewrite (proj2 (Z.eqb_neq _ _)) by lia.
    destruct (IH c ip fuel (result ++ [o])) as (l & -> & Ll & Dl); try done; try lia.
    exists (o :: l). rewrite <- app_assoc. split; [done | split; [simpl; lia |]].
    apply (difference_of_half n ip c o l b); try done; lia.
Qed.

Lemma good_net_prefix_bound n ip :
  good_net n -> good_net ip -> (Z.to_nat (m_prefixLength ip - m_prefixLength n - 1) < 128)%nat.
Proof.
  intros [[Hn Hp] _] [[Hi Hq] _].
  assert (width (m_address ip) <= 128) by (by destruct (m_address ip)). lia.
Qed.

(** Excluding one address from a network, with the fuel of an IPv6 address. *)
Lemma excludeAddress_diff n ip :
  good_net n -> good_net ip -> member n (m_address ip) ->
  m_prefixLength n < m_prefixLength ip ->
  exists l, excludeAddress 128 n ip = Val l
            /\ Z.of_nat (length l) = m_prefixLength ip - m_prefixLength n
            /\ difference_of n ip l.
Proof.
  intros Gn Gip Hm Hlt. pose proof (good_net_prefix_bound n ip Gn Gip) as Hf.
  destruct (exclude_loop_correct (Z.to_nat (m_prefixLength ip - m_prefixLength n - 1))
              n ip 128 [] Gn Gip Hm) as (l & El & Ll & Dl); [lia | exact Hf |].
  exists l. split; [exact El | split; [lia | done]].
Qed.

(** One network of the list: what [exclude_from] puts in its place. *)
Lemma exclude_one_correct ip ex :
  good_net ip -> good_net ex ->
  exists l,
    (if negb (overlaps ip ex) then Val [ip]
     else if subnetOf ex ip && negb (ip_eqb ex ip)
     then excludeAddress 128 ip ex else Val []) = Val l
    /\ Forall good_net l
    /\ forall x, wf_host x -> covered l x <-> member ip x /\ ~ member ex x.
Proof.
  intros Gip Gex. destruct (overlaps ip ex) eqn:Eo; simpl.
  - assert (Hsub : subnetOf ex ip = true <-> m_prefixLength ip <= m_prefixLength ex /\ member ip (m_address ex))
      by (apply subnetOf_true; [apply Gex | apply Gip]).
    destruct (subnetOf ex ip && negb (ip_eqb ex ip)) eqn:E; zbool.
    + apply Hsub in H as [Hle Hm]. apply ip_eqb_neq in H0.
      destruct (excludeAddress_diff ip ex) as (l & -> & _ & Gl & Cl & _); try done.
      * destruct (decide (m_prefixLength ip = m_prefixLength ex)); [| lia].
        destruct H0. symmetry. by apply good_net_unique.
      * exists l. split; [done | split; [done |]]. intros x _. apply Cl.
    + exists []. split; [done | split; [constructor |]]. intros x Hx.
      pose proof (covered_nil x). split; [tauto |]. intros [H1 H2]. destruct H2.
      apply andb_false_iff in E.
      unfold overlaps in Eo. destruct (m_prefixLength ip <? m_prefixLength ex) eqn:Ep; zbool.
      * apply contains_spec in Eo; [| apply Gip | apply Gex].
        rewrite (proj2 Hsub) in E by (split; [lia | done]).
        destruct E as [E | E]; [done |]. zbool. apply ip_eqb_eq in E. subst. lia.
      * apply contains_spec in Eo; [| apply Gex | apply Gip].
        by apply (member_subnet ip ex).
  - exists [ip]. split; [done | split; [by constructor |]]. intros x Hx.
    rewrite covered_cons. pose proof (covered_nil x).
    assert (~ (member ip x /\ member ex x)); [| tauto].
    intros [H1 H2]. apply not_true_iff_false in Eo. apply Eo.
    apply overlaps_spec; [apply Gip | apply Gex | by exists x].
Qed.

Lemma exclude_from_correct ex l :
  good_net ex -> Forall good_net l ->
  exists l', exclude_from 128 ex l = Val l' /\ Forall good_net l'
    /\ forall x, wf_host x -> covered l' x <-> covered l x /\ ~ member ex x.
Proof.
  intros Gex. induction l as [| ip l IH]; intros Gl; simpl.
  - exists []. split; [done | split; [constructor |]]. intros x _.
    pose proof (covered_nil x). tauto.
  - inversion Gl as [| ? ? Gip Gl']; subst.
    destruct (exclude_one_correct ip ex Gip Gex) as (l1 & -> & G1 & C1).
    destruct (IH Gl') as (l2 & -> & G2 & C2).
    exists (l1 ++ l2). split; [done | split; [by apply Forall_app |]].
    intros x Hx. rewrite covered_app, covered_cons, C1, C2 by done. tauto.
Qed.

(** ** Properties *)

(** C9 (functional): [excludeAddresses] computes a set difference.  Whatever
    networks without host bits the two lists hold, the loops return within
    128 rounds per exclusion, the result holds only networks without host
    bits, and an address is covered by it exactly when some source network
    contains it and no excluded one does. *)
Theorem excludeAddresses_difference (source exclude : list IPAddress)
  (Hs : Forall good_net source) (He : Forall good_net exclude) :
  exists l, excludeAddresses 128 source exclude = Val l
    /\ Forall good_net l
    /\ forall x, wf_host x ->
       covered l x <-> covered source x /\ ~ covered exclude x.
Proof.
  revert source Hs. induction He as [| ex exclude Gex He IH]; intros source Hs; simpl.
  - exists source. split; [done | split; [done |]]. intros x _.
    pose proof (covered_nil x). tauto.
  - destruct (exclude_from_correct ex source Gex Hs) as (l1 & -> & G1 & C1).
    destruct (IH l1 G1) as (l & -> & Gl & Cl).
    exists l. split; [done | split; [done |]]. intros x Hx.
    rewrite Cl, C1, covered_cons by done. tauto.
Qed.

Definition net4 (a p : Z) : IPAddress := mkIPAddress (HV4 a) p.

Lemma good_net4 a p :
  (0 <=? a) && (a <? 2 ^ 32) && (0 <=? p) && (p <=? 32)
    && (a mod 2 ^ (32 - p) =? 0) = true -> good_net (net4 a p).
Proof.
  intros H. zbool. rename H0 into Hm. split; [repeat split; simpl; lia |]. intros i Hi. simpl in *.
  rewrite (Z.div_mod a (2 ^ (32 - p))), Hm, Z.add_0_r, Z.mul_comm by lia.
  apply Z.mul_pow2_bits_low. lia.
Qed.

Lemma excludeAddresses_difference_witness :
  (exists l, excludeAddresses 128 [net4 0 0] [net4 0x0a000000 8; net4 0xc0a80000 16] = Val l
    /\ Forall good_net l
    /\ forall x, wf_host x ->
       covered l x <-> covered [net4 0 0] x
         /\ ~ covered [net4 0x0a000000 8; net4 0xc0a80000 16] x).
Proof.
  apply excludeAddresses_difference;
    repeat apply Forall_cons_2; try apply Forall_nil_2; apply good_net4; reflexivity.
Defined.

(** Excluding one strictly smaller network takes exactly the
    difference of the prefix lengths of networks, which are disjoint and
    cover exactly the addresses of the network outside the excluded one. *)
Theorem excludeAddress_partition (n ip : IPAddress)
  (Gn : good_net n) (Gip : good_net ip) (Hm : member n (m_address ip))
  (Hlt : m_prefixLength n < m_prefixLength ip) :
  exists l, excludeAddress 128 n ip = Val l
    /\ Z.of_nat (length l) = m_prefixLength ip - m_prefixLength n
    /\ Forall good_net l
    /\ (forall x, covered l x <-> member n x /\ ~ member ip x)
    /\ ForallOrdPairs (fun a b => forall x, ~ (member a x /\ member b x)) l.
Proof.
  destruct (excludeAddress_diff n ip Gn Gip Hm Hlt) as (l & H1 & H2 & H3 & H4 & H5).
  by exists l.
Qed.

Lemma excludeAddress_partition_witness :
  exists l, excludeAddress 128 (net4 0 0) (net4 0x7f000000 8) = Val l
    /\ Z.of_nat (length l) = m_prefixLength (net4 0x7f000000 8) - m_prefixLength (net4 0 0)
    /\ Forall good_net l
    /\ (forall x, covered l x <->
          member (net4 0 0) x /\ ~ member (net4 0x7f000000 8) x)
    /\ ForallOrdPairs (fun a b => forall x, ~ (member a x /\ member b x)) l.
Proof.
  apply (excludeAddress_partition (net4 0 0) (net4 0x7f000000 8)).
  - apply good_net4; reflexivity.
  - apply good_net4; reflexivity.
  - split; [reflexivity |]. intros i Hi. simpl in Hi. lia.
  - simpl. lia.
Defined.

(** [contains] is the bit-level reference definition, for
    IPv4 (shifted xor of 32-bit words) and IPv6 ([memcmp] of the whole bytes
    and the shifted xor of the next one): same family, and the same first
    [prefixLength] bits. *)
Theorem contains_iff_prefix (n : IPAddress) (x : QHostAddress)
  (Hn : wf_net n) (Hx : wf_host x) :
  contains n x = true <->
  (protocol x = protocol (m_address n)
   /\ forall i, 0 <= i < m_prefixLength n -> hbit (m_address n) i = hbit x i).
Proof. exact (contains_spec n x Hn Hx). Qed.

Lemma contains_iff_prefix_witness :
  contains (mkIPAddress (HV6 ([0xfd; 0x58; 0xba; 0xa0] ++ replicate 12 0)) 28)
           (HV6 ([0xfd; 0x58; 0xba; 0xaf] ++ replicate 12 7)) = true <->
  (protocol (HV6 ([0xfd; 0x58; 0xba; 0xaf] ++ replicate 12 7)) = IPv6Protocol
   /\ forall i, 0 <= i < 28 ->
      hbit (HV6 ([0xfd; 0x58; 0xba; 0xa0] ++ replicate 12 0)) i =
      hbit (HV6 ([0xfd; 0x58; 0xba; 0xaf] ++ replicate 12 7)) i).
Proof.
  apply (contains_iff_prefix
           (mkIPAddress (HV6 ([0xfd; 0x58; 0xba; 0xa0] ++ replicate 12 0)) 28)
           (HV6 ([0xfd; 0x58; 0xba; 0xaf] ++ replicate 12 7))).
  - repeat split; try (simpl; lia). repeat constructor; lia.
  - repeat split. repeat constructor; lia.
Defined.

(** The loop makes no progress when the prefix of [ip] is not longer than
    that of the network. *)
Lemma exclude_loop_stuck fuel ip n result :
  wf_net n -> m_prefixLength n < width (m_address n) ->
  m_prefixLength ip <= m_prefixLength n ->
  exclude_loop fuel ip (subnets n) result = Timeout.
Proof.
  intros Hn Hlt Hle. induction fuel as [| fuel IH]; [done |].
  destruct (subnets_halves n Hn Hlt) as (h1 & Hs & _ & _ & _).
  rewrite Hs in *; simpl.
  set (s0 := mkIPAddress (m_address n) (m_prefixLength n + 1)) in *.
  set (s1 := mkIPAddress h1 (m_prefixLength n + 1)) in *.
  assert (forall s, m_prefixLength s = m_prefixLength n + 1 ->
            ip_eqb s ip = false /\ subnetOf ip s = false) as Hno.
  { intros s Ps. split; [apply ip_eqb_neq; intros <-; lia |].
    unfold subnetOf. rewrite Ps. rewrite (proj2 (Z.ltb_lt _ _)) by lia. by case_match. }
  destruct (Hno s0 eq_refl) as [-> ->]. destruct (Hno s1 eq_refl) as [-> ->]. done.
Qed.

(** The equality test of the loop compares host bits, so an
    excluded entry such as [10.0.0.1/8] against [10.0.0.0/8] (same prefix
    length, inside the network, a host bit set) makes the release build loop
    for ever: no number of rounds is enough. *)
Theorem excludeAddresses_host_bits_diverge (n ip : IPAddress) (fuel : nat)
  (Hn : wf_net n) (Hip : wf_host (m_address ip))
  (Hlt : m_prefixLength n < width (m_address n))
  (Hp : m_prefixLength ip = m_prefixLength n)
  (Hm : member n (m_address ip)) (Hne : n <> ip) :
  excludeAddresses fuel [n] [ip] = Timeout.
Proof.
  assert (wf_net ip) as Hwip.
  { split; [done |]. rewrite Hp, (width_protocol _ _ (proj1 Hm)). apply Hn. }
  simpl. replace (overlaps n ip) with true.
  - simpl. rewrite (proj2 (subnetOf_true ip n Hwip Hn)) by (split; [lia | done]).
    rewrite (proj2 (ip_eqb_neq ip n)) by congruence. simpl.
    unfold excludeAddress. by rewrite exclude_loop_stuck by (done || lia).
  - symmetry. apply overlaps_spec; [done | done |].
    exists (m_address ip). split; [done | split; [done | by split]].
Qed.

Lemma excludeAddresses_host_bits_diverge_witness :
  excludeAddresses 100000 [net4 0x0a000000 8] [net4 0x0a000001 8] = Timeout.
Proof.
  apply (excludeAddresses_host_bits_diverge (net4 0x0a000000 8) (net4 0x0a000001 8)).
  - repeat split; simpl; lia.
  - simpl; lia.
  - simpl; lia.
  - reflexivity.
  - split; [reflexivity |]. intros i Hi. simpl in *.
    assert (i = 0 \/ i = 1 \/ i = 2 \/ i = 3 \/ i = 4 \/ i = 5 \/ i = 6 \/ i = 7) as Hc by lia.
    by destruct Hc as [-> | [-> | [-> | [-> | [-> | [-> | [-> | ->]]]]]]].
  - discriminate.
Defined.

(** ** Masks *)

Lemma testbit_ones_shift k s j :
  0 <= s <= k -> 0 <= j -> Z.testbit (Z.shiftr (2 ^ k - 1) s) j = (j <? k - s).
Proof.
  intros Hs Hj. rewrite Z.shiftr_spec by lia.
  replace (2 ^ k - 1) with (Z.ones k) by (rewrite Z.ones_equiv; lia).
  destruct (j <? k - s) eqn:E; zbool.
  - apply Z.ones_spec_low. lia.
  - apply Z.ones_spec_high. lia.
Qed.

(** What the three masks of a network are, bit by bit. *)
Lemma masks4 a p i :
  0 <= a < 2 ^ 32 -> 0 <= p <= 32 -> 0 <= i < 32 ->
  hbit (netmask (net4 a p)) i = (i <? p)
  /\ hbit (hostmask (net4 a p)) i = negb (i <? p)
  /\ hbit (broadcastAddress (net4 a p)) i = (hbit (HV4 a) i || negb (i <? p)).
Proof.
  intros Ha Hp Hi. unfold netmask, hostmask, broadcastAddress; simpl.
  change 4294967295 with (2 ^ 32 - 1).
  destruct (p <? 32) eqn:E; zbool; cbn [hbit].
  - rewrite Z.lxor_spec, Z.lor_spec, !testbit_ones_shift by lia.
    rewrite <- (Z.shiftr_0_r (2 ^ 32 - 1)), testbit_ones_shift by lia.
    destruct (31 - i <? 32 - 0) eqn:E1, (31 - i <? 32 - p) eqn:E2, (i <? p) eqn:E3;
      zbool; try lia; simpl; repeat split; by rewrite ?orb_false_r, ?orb_true_r.
  - replace p with 32 by lia. rewrite Z.bits_0.
    rewrite <- (Z.shiftr_0_r (2 ^ 32 - 1)), testbit_ones_shift by lia.
    rewrite (proj2 (Z.ltb_lt i 32)), (proj2 (Z.ltb_lt (31 - i) (32 - 0))) by lia.
    simpl. by rewrite orb_false_r.
Qed.

Lemma byte_zero_at k : byte_at (replicate 16 0) k = 0.
Proof.
  unfold byte_at. rewrite nth_lookup.
  destruct (replicate 16 0 !! Z.to_nat k) eqn:E; [| done].
  by apply lookup_replicate in E as [-> _].
Qed.

(** The byte array of an IPv6 mask: [lo] in the bytes below the one the
    prefix ends in, [hi] above, and [mid] in that byte if the prefix ends
    inside it. *)
Lemma hbit_mask6 (l : list Z) off v n (k m : Z) (partial : bool) i :
  length l = 16%nat -> 0 <= off -> 0 <= n -> off + n <= 16 -> 0 <= k < 16 \/ partial = false ->
  0 <= i < 128 ->
  hbit (HV6 (if partial then byte_set (memset l off v n) k m else memset l off v n)) i =
    Z.testbit
      (if decide (partial = true /\ i / 8 = k) then m
       else if decide (off <= i / 8 < off + n) then v else byte_at l (i / 8))
      (7 - i mod 8).
Proof.
  intros Hl Ho Hn Hon Hk Hi.
  assert (0 <= i / 8) by (apply Z.div_pos; lia).
  destruct partial.
  - destruct Hk as [Hk |]; [| done].
    rewrite hbit_byte_set by (rewrite ?length_memset; lia). simpl.
    rewrite byte_at_memset by lia.
    repeat case_decide; naive_solver.
  - simpl. rewrite byte_at_memset by lia.
    repeat case_decide; naive_solver.
Qed.

(** The bit [i] of an IPv6 mask against a prefix [p], by the byte it is in. *)
Lemma prefix_byte_cases p i :
  0 <= p <= 128 -> 0 <= i < 128 ->
  (i / 8 < p / 8 /\ (i <? p) = true)
  \/ (p / 8 < i / 8 /\ (i <? p) = false)
  \/ (i / 8 = p / 8 /\ (i <? p) = (i mod 8 <? p mod 8)).
Proof.
  intros Hp Hi. pose proof (Z.div_mod i 8 ltac:(lia)). pose proof (Z.div_mod p 8 ltac:(lia)).
  pose proof (Z.mod_pos_bound i 8 ltac:(lia)). pose proof (Z.mod_pos_bound p 8 ltac:(lia)).
  destruct (Z.lt_trichotomy (i / 8) (p / 8)) as [Hc | [Hc | Hc]].
  - left. split; [done |]. apply Z.ltb_lt. lia.
  - right; right. split; [done |].
    destruct (Z.ltb_spec i p), (Z.ltb_spec (i mod 8) (p mod 8)); lia || done.
  - right; left. split; [done |]. apply Z.ltb_ge. lia.
Qed.

Lemma ceil_div8 p : 0 <= p ->
  (p + 7) / 8 = if p mod 8 =? 0 then p / 8 else p / 8 + 1.
Proof.
  intros Hp. pose proof (Z.div_mod p 8 ltac:(lia)).
  pose proof (Z.mod_pos_bound p 8 ltac:(lia)).
  destruct (p mod 8 =? 0) eqn:E; zbool; symmetry;
    [apply Z.div_unique with 7 | apply Z.div_unique with (p mod 8 - 1)]; lia.
Qed.

Lemma masks6 l p i :
  length l = 16%nat -> 0 <= p <= 128 -> 0 <= i < 128 ->
  hbit (netmask (mkIPAddress (HV6 l) p)) i = (i <? p)
  /\ hbit (hostmask (mkIPAddress (HV6 l) p)) i = negb (i <? p)
  /\ hbit (broadcastAddress (mkIPAddress (HV6 l) p)) i = (hbit (HV6 l) i || negb (i <? p)).
Proof.
  intros Hl Hp Hi. unfold netmask, hostmask, broadcastAddress; cbn [protocol m_address m_prefixLength toIPv6Address].
  rewrite ceil_div8 by lia.
  pose proof (Z.div_mod p 8 ltac:(lia)). pose proof (Z.mod_pos_bound i 8 ltac:(lia)).
  pose proof (Z.mod_pos_bound p 8 ltac:(lia)). pose proof (Z.div_mod i 8 ltac:(lia)).
  assert (0 <= p / 8 <= 16) by (split; [apply Z.div_pos | apply Z.div_le_upper_bound]; lia).
  assert (0 <= i / 8 < 16) by (split; [apply Z.div_pos | apply Z.div_lt_upper_bound]; lia).
  assert (H255 : forall s, 0 <= s <= 8 -> Z.testbit (Z.shiftr 255 s) (7 - i mod 8) = negb (i mod 8 <? s)).
  { intros s Hs. change 255 with (2 ^ 8 - 1). rewrite testbit_ones_shift by lia.
    destruct (Z.ltb_spec (7 - i mod 8) (8 - s)), (Z.ltb_spec (i mod 8) s); lia || done. }
  assert (Hff : Z.testbit 255 (7 - i mod 8) = true)
    by (rewrite <- (Z.shiftr_0_r 255), H255 by lia; by rewrite (proj2 (Z.ltb_ge _ _)) by lia).
  destruct (p mod 8 =? 0) eqn:Em; zbool.
  - rewrite !(hbit_mask6 _ _ _ _ 0 0 false) by (rewrite ?length_replicate; (lia || by right)).
    rewrite !byte_zero_at, !(decide_False (P := false = true /\ _)) by naive_solver.
    destruct (prefix_byte_cases p i Hp Hi) as [[Hc ->] | [[Hc ->] | [Hc ->]]];
      repeat case_decide; try lia; rewrite ?Hff, ?Z.bits_0; simpl;
      rewrite ?orb_false_r, ?orb_true_r; try done.
    all: rewrite (proj2 (Z.ltb_ge _ _)) by lia; by rewrite ?orb_true_r.
  - assert (p / 8 < 16) by lia.
    rewrite !(hbit_mask6 _ _ _ _ (p / 8) _ true) by (rewrite ?length_replicate; (lia || by left)).
    rewrite byte_at_memset by lia. rewrite !byte_zero_at.
    destruct (prefix_byte_cases p i Hp Hi) as [[Hc ->] | [[Hc ->] | [Hc ->]]];
      repeat case_decide; try (destruct_and?; lia);
      rewrite ?Z.lxor_spec, ?Z.lor_spec, ?H255, ?Hff, ?Z.bits_0 by lia; simpl;
      rewrite ?orb_false_r, ?orb_true_r, ?Hc; try done; try naive_solver.
    all: by destruct (i mod 8 <? p mod 8).
Qed.

(** The three masks of a network, bit by bit and in both
    families: the netmask has exactly the prefix bits set, the hostmask
    exactly the others, and the broadcast address keeps the prefix of the
    address and sets every host bit. *)
Theorem masks_bits (n : IPAddress) (i : Z)
  (Hn : wf_net n) (Hi : 0 <= i < width (m_address n)) :
  hbit (netmask n) i = (i <? m_prefixLength n)
  /\ hbit (hostmask n) i = negb (i <? m_prefixLength n)
  /\ hbit (broadcastAddress n) i = (hbit (m_address n) i || negb (i <? m_prefixLength n)).
Proof.
  destruct n as [[| a | l] p]; destruct Hn as [Hh Hp]; [done | |].
  - by apply masks4.
  - by apply masks6; [apply Hh | |].
Qed.

Lemma masks_bits_witness :
  hbit (netmask (net4 0xc0a80105 20)) 19 = (19 <? 20)
  /\ hbit (hostmask (net4 0xc0a80105 20)) 19 = negb (19 <? 20)
  /\ hbit (broadcastAddress (net4 0xc0a80105 20)) 19
     = (hbit (HV4 0xc0a80105) 19 || negb (19 <? 20)).
Proof. apply (masks_bits (net4 0xc0a80105 20) 19); repeat split; simpl; lia. Defined.
