(* ===== verification/InterfaceConfig.v ===== *)
(** * The tunnel configuration: [client/daemon/interfaceconfig.{h,cpp}]

    The record the client's activation request is parsed into and that every
    platform layer reads, its JSON form ([toJson]) and its WireGuard
    configuration text ([toWgConf]).  The theorem on [toWgConf] says what a
    line-oriented reader of the text sees. *)

From Stdlib Require Import ZArith Lia Bool String Ascii.
From stdpp Require Import base gmap strings list pretty.
From S2P Require Import Prelude.
From S2P Require Import Qt.
From S2P Require Import QtInstance.
From S2P Require Import IPAddress.

Open Scope Z_scope.

(** ** Data *)

Inductive HopType : Type := SingleHop | MultiHopEntry | MultiHopExit.

#[export] Instance HopType_eq_dec : EqDecision HopType.
Proof. solve_decision. Defined.

(** The enumerators in their declaration order, the order of the keys of
    [QMap<HopType, _>]. *)
Definition hopValue (h : HopType) : nat :=
  match h with SingleHop => 0 | MultiHopEntry => 1 | MultiHopExit => 2 end.

#[export] Program Instance HopType_KeyOrder : KeyOrder HopType := {|
  kcompare a b := Nat.compare (hopValue a) (hopValue b)
|}.
Next Obligation. intros a b. rewrite Nat.compare_eq_iff. by destruct a, b. Qed.

(** [QMetaEnum::valueToKey] and [keyToValue] of [HopType]. *)
Definition hopKey (h : HopType) : string :=
  match h with
  | SingleHop => "SingleHop"
  | MultiHopEntry => "MultiHopEntry"
  | MultiHopExit => "MultiHopExit"
  end.
Definition hopOfKey (s : string) : option HopType :=
  if String.eqb s "SingleHop" then Some SingleHop
  else if String.eqb s "MultiHopEntry" then Some MultiHopEntry
  else if String.eqb s "MultiHopExit" then Some MultiHopExit
  else None.

(** The obfuscation parameters of AmneziaWG. *)
Record Junk : Type := mkJunk {
  m_junkPacketCount : QString;
  m_junkPacketMinSize : QString;
  m_junkPacketMaxSize : QString;
  m_initPacketJunkSize : QString;
  m_responsePacketJunkSize : QString;
  m_cookieReplyPacketJunkSize : QString;
  m_transportPacketJunkSize : QString;
  m_initPacketMagicHeader : QString;
  m_responsePacketMagicHeader : QString;
  m_underloadPacketMagicHeader : QString;
  m_transportPacketMagicHeader : QString;
  m_specialJunk : list (string * QString);
  m_randomTrailers : QString;
  m_disableCookies : QString;
  m_headerProtectionKey : QString;
  m_contentPaddingAddition : QString;
  m_rekeyAfterTime : QString;
  m_rekeyTimeout : QString;
  m_rejectAfterTime : QString;
  m_keepaliveTimeout : QString;
  m_maxHandshakeAttempts : QString
}.

Record InterfaceConfig : Type := mkConfig {
  m_hopType : HopType;
  m_privateKey : QString;
  m_deviceIpv4Address : QString;
  m_deviceIpv6Address : QString;
  m_serverIpv4Gateway : QString;
  m_serverIpv6Gateway : QString;
  m_serverPublicKey : QString;
  m_serverIpv4AddrIn : QString;
  m_serverPskKey : QString;
  m_serverIpv6AddrIn : QString;
  m_primaryDnsServer : QString;
  m_secondaryDnsServer : QString;
  m_serverPort : Z;
  m_deviceMTU : Z;
  m_allowedIPAddressRanges : list IPAddress;
  m_excludedAddresses : list QString;
  m_vpnDisabledApps : list QString;
  m_allowedDnsServers : list QString;
  m_killSwitchEnabled : bool;
  m_routeLanThroughVpn : bool;
  m_junk : Junk
}.

Definition isExitHop (h : HopType) : bool :=
  match h with SingleHop | MultiHopExit => true | MultiHopEntry => false end.

(** ** [InterfaceConfig::toJson] *)

Definition rangeToJson `{Qt} (i : IPAddress) : json :=
  JObject (<["address" := jstr (hostToString (m_address i))]>
          (<["range" := jint (m_prefixLength i)]>
          (<["isIpv6" := JBool (bool_decide (type i = IPv6Protocol))]> ∅))).

Definition toJson `{Qt} (c : InterfaceConfig) : QJsonObject :=
  let json :=
    <["deviceMTU" := jint (m_deviceMTU c)]>
    (<["serverPort" := jint (m_serverPort c)]>
    (<["serverIpv6AddrIn" := JString (m_serverIpv6AddrIn c)]>
    (<["serverIpv4AddrIn" := JString (m_serverIpv4AddrIn c)]>
    (<["serverPskKey" := JString (m_serverPskKey c)]>
    (<["serverPublicKey" := JString (m_serverPublicKey c)]>
    (<["deviceIpv6Address" := JString (m_deviceIpv6Address c)]>
    (<["deviceIpv4Address" := JString (m_deviceIpv4Address c)]>
    (<["privateKey" := JString (m_privateKey c)]>
    (<["hopType" := jstr (hopKey (m_hopType c))]> ∅))))))))) in
  let json :=
    if isExitHop (m_hopType c) then
      <["secondaryDnsServer" := JString (m_secondaryDnsServer c)]>
      (<["primaryDnsServer" := JString (m_primaryDnsServer c)]>
      (<["serverIpv6Gateway" := JString (m_serverIpv6Gateway c)]>
      (<["serverIpv4Gateway" := JString (m_serverIpv4Gateway c)]> json)))
    else json in
  <["vpnDisabledApps" := JArray (map JString (m_vpnDisabledApps c))]>
  (<["allowedDnsServers" := JArray (map JString (m_allowedDnsServers c))]>
  (<["excludedAddresses" := JArray (map JString (m_excludedAddresses c))]>
  (<["allowedIPAddressRanges" := JArray (map rangeToJson (m_allowedIPAddressRanges c))]>
   json))).

(** ** [InterfaceConfig::toWgConf] *)

(** The [VALIDATE] macro over the eight fields it is applied to. *)
Definition validated (c : InterfaceConfig) : list QString :=
  [ m_privateKey c; m_deviceIpv4Address c; m_deviceIpv6Address c;
    m_serverIpv4Gateway c; m_serverIpv6Gateway c; m_serverPublicKey c;
    m_serverIpv4AddrIn c; m_serverIpv6AddrIn c ].

(** [out << key << " = " << v << "\n"], when [b] holds. *)
Definition keyLine (b : bool) (key : string) (v : QString) : list (string * string) :=
  if b then [(key, qdata v)] else [].

Definition unlessNull (key : string) (v : QString) := keyLine (negb (isNull v)) key v.
Definition unlessEmpty (key : string) (v : QString) := keyLine (negb (isEmpty v)) key v.

(** The key/value lines of the [[Interface]] section, in order. *)
Definition interfaceLines (c : InterfaceConfig) (extra : list (string * QString))
  : list (string * string) :=
  let j := m_junk c in
  let addresses :=
    (if isNull (m_deviceIpv4Address c) then [] else [qdata (m_deviceIpv4Address c)]) ++
    (if isNull (m_deviceIpv6Address c) then [] else [qdata (m_deviceIpv6Address c)]) in
  let dnsServers :=
    [qdata (m_primaryDnsServer c)] ++
    (if isEmpty (m_secondaryDnsServer c) then [] else [qdata (m_secondaryDnsServer c)]) ++
    (if qeqb (m_primaryDnsServer c) (m_serverIpv4Gateway c)
     then [qdata (m_serverIpv6Gateway c)] else []) in
  [("PrivateKey", qdata (m_privateKey c))] ++
  [("Address", join ", " addresses)] ++
  (if m_deviceMTU c =? 0 then [] else [("MTU", pretty (m_deviceMTU c))]) ++
  (if isEmpty (m_primaryDnsServer c) then [] else [("DNS", join ", " dnsServers)]) ++
  unlessNull "Jc" (m_junkPacketCount j) ++
  unlessNull "JMin" (m_junkPacketMinSize j) ++
  unlessNull "JMax" (m_junkPacketMaxSize j) ++
  unlessNull "S1" (m_initPacketJunkSize j) ++
  unlessNull "S2" (m_responsePacketJunkSize j) ++
  unlessNull "S3" (m_cookieReplyPacketJunkSize j) ++
  unlessNull "S4" (m_transportPacketJunkSize j) ++
  unlessNull "H1" (m_initPacketMagicHeader j) ++
  unlessNull "H2" (m_responsePacketMagicHeader j) ++
  unlessNull "H3" (m_underloadPacketMagicHeader j) ++
  unlessNull "H4" (m_transportPacketMagicHeader j) ++
  map (fun kv => (kv.1, qdata kv.2)) (m_specialJunk j) ++
  unlessEmpty "RandomTrailers" (m_randomTrailers j) ++
  unlessEmpty "DisableCookies" (m_disableCookies j) ++
  unlessEmpty "HeaderProtectionKey" (m_headerProtectionKey j) ++
  unlessEmpty "ContentPaddingAddition" (m_contentPaddingAddition j) ++
  unlessEmpty "RekeyAfterTime" (m_rekeyAfterTime j) ++
  unlessEmpty "RekeyTimeout" (m_rekeyTimeout j) ++
  unlessEmpty "RejectAfterTime" (m_rejectAfterTime j) ++
  unlessEmpty "KeepaliveTimeout" (m_keepaliveTimeout j) ++
  unlessEmpty "MaxHandshakeAttempts" (m_maxHandshakeAttempts j) ++
  map (fun kv => (kv.1, qdata kv.2)) extra.

(** The key/value lines of the [[Peer]] section. *)
Definition peerLines `{Qt} (c : InterfaceConfig) : list (string * string) :=
  [ ("PublicKey", qdata (m_serverPublicKey c));
    ("Endpoint", qdata (m_serverIpv4AddrIn c) +:+ ":" +:+ pretty (m_serverPort c));
    ("AllowedIPs", join ", " (map ipToString (m_allowedIPAddressRanges c))) ].

Definition printLine (kv : string * string) : string :=
  kv.1 +:+ " = " +:+ kv.2 +:+ nl.

Definition toWgConf `{Qt} (c : InterfaceConfig) (extra : list (string * QString)) : string :=
  if existsb (fun f => chr_contains newline (qdata f)) (validated c) then ""
  else if isNull (m_deviceIpv4Address c) && isNull (m_deviceIpv6Address c) then ""
  else
    "[Interface]" +:+ nl +:+ foldr (fun kv s => printLine kv +:+ s)
      (nl +:+ "[Peer]" +:+ nl +:+ foldr (fun kv s => printLine kv +:+ s) "" (peerLines c))
      (interfaceLines c extra).

(** ** What a reader of the text sees *)

Definition lineText (kv : string * string) : string := kv.1 +:+ " = " +:+ kv.2.

Lemma split_lines (l : list (string * string)) (rest : string) :
  Forall (fun kv => chr_contains newline kv.1 = false /\ chr_contains newline kv.2 = false) l ->
  split newline (foldr (fun kv s => printLine kv +:+ s) rest l)
    = map lineText l ++ split newline rest.
Proof.
  induction 1 as [| [k v] l [Hk Hv] _ IH]; simpl in *; [done |].
  replace (printLine (k, v) +:+ foldr (fun kv s => printLine kv +:+ s) rest l)
    with (lineText (k, v) +:+ String newline (foldr (fun kv s => printLine kv +:+ s) rest l)).
  - rewrite split_line; [by rewrite IH |].
    unfold lineText; simpl. by rewrite !chr_contains_app, Hk, Hv.
  - unfold printLine, lineText, nl; simpl. by rewrite !string_app_assoc.
Qed.

Lemma nl_app s : nl +:+ s = String newline s.
Proof. reflexivity. Qed.

(** A value that stays on its line. *)
Definition single_line (s : string) : Prop := chr_contains newline s = false.

(** The strings [toWgConf] writes without looking at them first. *)
Definition unvalidated (c : InterfaceConfig) (extra : list (string * QString)) : list string :=
  let j := m_junk c in
  map qdata
    [ m_primaryDnsServer c; m_secondaryDnsServer c; m_junkPacketCount j;
      m_junkPacketMinSize j; m_junkPacketMaxSize j; m_initPacketJunkSize j;
      m_responsePacketJunkSize j; m_cookieReplyPacketJunkSize j;
      m_transportPacketJunkSize j; m_initPacketMagicHeader j;
      m_responsePacketMagicHeader j; m_underloadPacketMagicHeader j;
      m_transportPacketMagicHeader j; m_randomTrailers j; m_disableCookies j;
      m_headerProtectionKey j; m_contentPaddingAddition j; m_rekeyAfterTime j;
      m_rekeyTimeout j; m_rejectAfterTime j; m_keepaliveTimeout j;
      m_maxHandshakeAttempts j ]
  ++ map fst (m_specialJunk j) ++ map (fun kv => qdata kv.2) (m_specialJunk j)
  ++ map fst extra ++ map (fun kv => qdata kv.2) extra.

Definition lines_ok (l : list (string * string)) : Prop :=
  Forall (fun kv => chr_contains newline kv.1 = false /\ chr_contains newline kv.2 = false) l.

Lemma keyLine_ok b k v :
  chr_contains newline k = false -> chr_contains newline (qdata v) = false ->
  lines_ok (keyLine b k v).
Proof. intros Hk Hv. unfold lines_ok, keyLine. destruct b; by repeat constructor. Qed.

Lemma pair_lines_ok (l : list (string * QString)) :
  Forall (fun s => chr_contains newline s = false) (map fst l) ->
  Forall (fun s => chr_contains newline s = false) (map (fun kv => qdata kv.2) l) ->
  lines_ok (map (fun kv => (kv.1, qdata kv.2)) l).
Proof.
  intros Hk Hv. unfold lines_ok. rewrite Forall_map in *. rewrite Forall_forall in *.
  intros kv Hin. split; [by apply Hk | by apply Hv].
Qed.

Lemma validated_ok c f :
  existsb (fun f => chr_contains newline (qdata f)) (validated c) = false ->
  f ∈ validated c -> chr_contains newline (qdata f) = false.
Proof.
  intros He Hf. apply not_true_iff_false. intros Ht.
  apply not_true_iff_false in He. apply He. apply existsb_exists.
  exists f. split; [by apply list_elem_of_In | done].
Qed.

Lemma interfaceLines_ok c extra :
  existsb (fun f => chr_contains newline (qdata f)) (validated c) = false ->
  Forall single_line (unvalidated c extra) -> lines_ok (interfaceLines c extra).
Proof.
  intros Hv Hu. unfold unvalidated in Hu. rewrite !Forall_app in Hu.
  destruct Hu as (Hj & Hk1 & Hv1 & Hk2 & Hv2). cbn [map] in Hj.
  rewrite !Forall_cons in Hj. unfold single_line in *. destruct_and! Hj.
  assert (Hval : forall f, f ∈ validated c -> chr_contains newline (qdata f) = false)
    by (intros; by eapply validated_ok).
  unfold validated in Hval. unfold interfaceLines, lines_ok.
  rewrite !Forall_app. repeat split.
  all: try (by apply keyLine_ok). all: try (by apply pair_lines_ok).
  - constructor; [| constructor]. split; [done |]. apply Hval. set_solver.
  - constructor; [| constructor]. split; [done |]. cbn [snd]. apply join_plain; [done |].
    apply Forall_app; split; case_if; repeat constructor; apply Hval; set_solver.
  - case_if; repeat constructor. simpl. by apply pretty_Z_plain; repeat constructor.
  - case_if; repeat constructor. cbn [snd]. apply join_plain; [done |].
    constructor; [done |]. apply Forall_app; split; case_if; repeat constructor; [done |].
    apply Hval; set_solver.
Qed.

Lemma peerLines_ok `{Qt} `{!HostTextLaws _} c :
  existsb (fun f => chr_contains newline (qdata f)) (validated c) = false ->
  lines_ok (peerLines c).
Proof.
  intros Hv. assert (Hval : forall f, f ∈ validated c -> chr_contains newline (qdata f) = false)
    by (intros; by eapply validated_ok).
  unfold validated in Hval. unfold peerLines, lines_ok.
  assert (Hp : forall z : Z, chr_contains newline (pretty z) = false)
    by (intros z; by apply pretty_Z_plain; repeat constructor).
  repeat constructor; simpl; try done.
  - apply Hval. set_solver.
  - rewrite !chr_contains_app, Hp. cbn. rewrite !orb_false_r.
    apply Hval. set_solver.
  - apply join_plain; [done |]. rewrite Forall_map. apply Forall_forall. intros n _.
    unfold ipToString. simpl. rewrite !chr_contains_app, Hp.
    by rewrite (proj2 (print_host_plain (m_address n))).
Qed.

(** ** Properties *)

(** The text of a configuration is line-faithful.  When
    [toWgConf] returns a text and the fields it does not check itself hold no
    line break, the lines of the text are exactly the section headers and
    one [key = value] line per entry, in order: no value leaks into a line of
    its own. *)
Theorem toWgConf_lines `{Qt} `{!HostTextLaws _} (c : InterfaceConfig)
  (extra : list (string * QString))
  (Hne : toWgConf c extra <> ""%string)
  (Hu : Forall single_line (unvalidated c extra)) :
  split newline (toWgConf c extra) =
    ["[Interface]"] ++ map lineText (interfaceLines c extra)
    ++ [""; "[Peer]"] ++ map lineText (peerLines c) ++ [""].
Proof.
  unfold toWgConf in *. destruct (existsb _ _) eqn:Ev; [done |].
  destruct (isNull _ && isNull _); [done |].
  rewrite !nl_app, split_line by done. rewrite split_lines by by apply interfaceLines_ok.
  rewrite split_sep, split_line by done.
  by rewrite split_lines by by apply peerLines_ok.
Qed.

Definition sampleJunk : Junk :=
  mkJunk "4" "10" "50" QNull QNull QNull QNull QNull QNull QNull QNull
    [("I1", QStr "<b 0x01>")] QNull QNull QNull QNull QNull QNull QNull QNull QNull.
Definition sampleConfig : InterfaceConfig :=
  mkConfig SingleHop "cHJpdg==" "10.8.1.2/32" QNull "10.8.0.1" QNull "c2VydmVy" "192.0.2.7"
    QNull QNull "1.1.1.1" "1.0.0.1" 51820 1376 [mkIPAddress (HV4 0) 0] [] [] [] true false sampleJunk.

Lemma toWgConf_lines_witness :
  split newline (@toWgConf plainQt sampleConfig []) =
    ["[Interface]"; "PrivateKey = cHJpdg=="; "Address = 10.8.1.2/32"; "MTU = 1376";
     "DNS = 1.1.1.1, 1.0.0.1"; "Jc = 4"; "JMin = 10"; "JMax = 50"; "I1 = <b 0x01>"; "";
     "[Peer]"; "PublicKey = c2VydmVy"; "Endpoint = 192.0.2.7:51820";
     "AllowedIPs = 0.0.0.0/0"; ""].
Proof.
  rewrite (@toWgConf_lines plainQt (concrete_HostTextLaws _ _) sampleConfig []).
  - vm_compute. reflexivity.
  - vm_compute. discriminate.
  - apply (bool_decide_unpack _). vm_compute. exact I.
Defined.
