(* ===== verification/NetworkUtilities.v ===== *)
(** * Address text helpers: [client/core/networkUtilities.cpp]

    The IPv4 text helpers the routers use ([netMaskFromIpWithSubnet],
    [ipAddressFromIpWithSubnet], the format checks) and the normalisation of
    the user's list of excluded local subnets, with the list model, the
    controller and the settings entry that store it
    ([local_subnet_exclusions_model.cpp],
    [localSubnetExclusionsController.cpp], [settings.cpp]). *)

From Stdlib Require Import ZArith Lia Bool String Ascii.
From stdpp Require Import base gmap strings list pretty.
From S2P Require Import Prelude.
From S2P Require Import Qt.
From S2P Require Import QtInstance.
From S2P Require Import IPAddress.

Open Scope Z_scope.

(** ** IPv4 text *)

Section Text.
Context `{Qt}.

Definition quad (mask : Z) : string :=
  pretty (Z.shiftr mask 24) +:+ "." +:+ pretty (Z.land (Z.shiftr mask 16) 255) +:+ "."
  +:+ pretty (Z.land (Z.shiftr mask 8) 255) +:+ "." +:+ pretty (Z.land mask 255).

(** [0xFFFFFFFF << (32 - prefix)] shifts a 32-bit value: the shift count has
    to be in 0..31, otherwise the behaviour is undefined ([None]). *)
Definition netMaskFromIpWithSubnet (ip : string) : option string :=
  if negb (chr_contains "/" ip) then Some "255.255.255.255"%string
  else match toInt (nth 1 (split "/" ip) "") with
       | None => Some "255.255.255.255"%string
       | Some prefix =>
           if (0 <=? 32 - prefix) && (32 - prefix <? 32) then
             Some (quad (Z.land (u32 (Z.shiftl 0xFFFFFFFF (32 - prefix))) 0xFFFFFFFF))
           else None
       end.

Definition ipAddressFromIpWithSubnet (ip : string) : string :=
  if negb (chr_count "." ip =? 3) then "" else nth 0 (split "/" ip) "".

Definition getIPAddress (fromName : string -> list QHostAddress) (host : string) : string :=
  match protocol (parseHost host) with
  | IPv4Protocol | IPv6Protocol => host
  | UnknownProtocol =>
      match fromName host with
      | a :: _ => hostToString a
      | [] => ""
      end
  end.

Definition getStringBetween (s a b : string) : QString :=
  match String.index 0 a s with
  | None => QNull
  | Some ap =>
      let ap' := (ap + String.length a)%nat in
      match String.index ap' b s with
      | None => QNull
      | Some bp =>
          if (Z.of_nat bp - Z.of_nat ap' <=? 0) then QNull
          else QStr (trimmed (String.substring ap' (bp - ap') s))
      end
  end.

Definition checkIPv4Format (ip : string) : bool :=
  if String.eqb ip "" then false
  else if negb (chr_count "." ip =? 3) then false
  else bool_decide (protocol (parseHost ip) = IPv4Protocol).

Definition checkIpSubnetFormat (ip : string) : bool :=
  if negb (chr_contains "/" ip) then checkIPv4Format ip
  else
    match split "/" ip with
    | [a; n] =>
        match toInt n with
        | Some subnet =>
            if (0 <=? subnet) && (subnet <=? 32) then checkIPv4Format a else false
        | None => false
        end
    | _ => false
    end.

(** ** The list of excluded local subnets *)

(** The state of the loop: [normalized], [seen] and [*rejected]. *)
Record Norm : Type := mkNorm {
  normalized : list string;
  seen : gset string;
  rejected : list string
}.

(** The text of an accepted entry; [None] for a rejected one. *)
Definition canonicalEntry (entry : string) : option string :=
  let '(address, prefix) := parseSubnet entry in
  let isIpv4 := bool_decide (protocol address = IPv4Protocol) in
  let isIpv6 := bool_decide (protocol address = IPv6Protocol) in
  if host_isNull address || (negb isIpv4 && negb isIpv6) then None
  else
    let maxPrefix := if isIpv6 then 128 else 32 in
    if (prefix <? 1) || (prefix >? maxPrefix) then None
    else Some (hostToString address +:+ "/" +:+ pretty prefix).

(** One round of the loop. *)
Definition normStep (st : Norm) (rawEntry : string) : Norm :=
  let entry := trimmed rawEntry in
  if String.eqb entry "" then st
  else match canonicalEntry entry with
       | None => mkNorm (normalized st) (seen st) (rejected st ++ [entry])
       | Some canonical =>
           if bool_decide (toLower canonical ∈ seen st) then st
           else mkNorm (normalized st ++ [canonical])
                       ({[toLower canonical]} ∪ seen st) (rejected st)
       end.

Definition normLoop (raw : list string) : Norm := fold_left normStep raw (mkNorm [] ∅ []).

(** [normalizeSubnetExclusions(raw, &rejected)]: the two lists. *)
Definition normalizeSubnetExclusions (raw : list string) : list string := normalized (normLoop raw).
Definition rejectedSubnetExclusions (raw : list string) : list string := rejected (normLoop raw).

Definition isValidSubnetExclusion (entry : string) : bool :=
  match normalizeSubnetExclusions [entry] with [] => false | _ => true end.
End Text.

(** ** The stored list: model, controller and settings entry *)

Section LocalSubnets.
Context `{Qt}.

(** [LocalSubnetExclusionsModel]: the rows, and the settings entry
    [Conf/localSubnetExclusions] behind them. *)
Record SubnetsModel : Type := mkSubnets {
  m_subnets : list string;
  conf_localSubnetExclusions : list string
}.

(** [Settings::localSubnetExclusions], [Settings::setLocalSubnetExclusions] *)
Definition localSubnetExclusions (st : SubnetsModel) : list string :=
  normalizeSubnetExclusions (conf_localSubnetExclusions st).
Definition setLocalSubnetExclusions (l : list string) (st : SubnetsModel) : SubnetsModel :=
  mkSubnets (m_subnets st) (normalizeSubnetExclusions l).

(** [fillSubnets], run by the constructor. *)
Definition fillSubnets (st : SubnetsModel) : SubnetsModel :=
  mkSubnets (localSubnetExclusions st) (conf_localSubnetExclusions st).
Definition persist (st : SubnetsModel) : SubnetsModel :=
  setLocalSubnetExclusions (m_subnets st) st.

Definition subnets_mem (s : string) (l : list string) : bool := bool_decide (s ∈ l).

Definition addSubnet (subnet : string) : ST SubnetsModel bool := fun st =>
  match normalizeSubnetExclusions [subnet] with
  | [] => (false, st)
  | value :: _ =>
      if subnets_mem value (m_subnets st) then (false, st)
      else (true, persist (mkSubnets (m_subnets st ++ [value]) (conf_localSubnetExclusions st)))
  end.

(** The loop of [addSubnets]: the rows and the number of rows added. *)
Definition addStep (acc : list string * Z) (subnet : string) : list string * Z :=
  if subnets_mem subnet acc.1 then acc else (acc.1 ++ [subnet], acc.2 + 1).

Definition addSubnets (subnets : list string) (replaceExisting : bool) : ST SubnetsModel Z := fun st =>
  let rows := if replaceExisting then [] else m_subnets st in
  let '(rows', added) := fold_left addStep (normalizeSubnetExclusions subnets) (rows, 0) in
  (added, persist (mkSubnets rows' (conf_localSubnetExclusions st))).

(** An invalid [QModelIndex] is [None]. *)
Definition removeSubnet (index : option nat) (st : SubnetsModel) : SubnetsModel :=
  match index with
  | None => st
  | Some row =>
      if Nat.leb (length (m_subnets st)) row then st
      else persist (mkSubnets (delete row (m_subnets st)) (conf_localSubnetExclusions st))
  end.

Definition removeSubnets (st : SubnetsModel) : SubnetsModel :=
  match m_subnets st with
  | [] => st
  | _ => persist (mkSubnets [] (conf_localSubnetExclusions st))
  end.

(** The notices [LocalSubnetExclusionsController] emits. *)
Inductive SubnetNotice : Type :=
| NotASubnet (entry : string)
| NotSubnets (entries : list string)
| AlreadyInList (n : Z)
| Added (n : Z).

(** [subnet.split(QRegularExpression("[\s,;]+"), Qt::SkipEmptyParts)] *)
Definition is_sep (c : ascii) : bool := is_space c || Ascii.eqb c "," || Ascii.eqb c ";".
Fixpoint split_any (s : string) : list string :=
  match s with
  | EmptyString => [""%string]
  | String d s' =>
      if is_sep d then ""%string :: split_any s'
      else match split_any s' with
           | [] => [String d ""]
           | w :: ws => String d w :: ws
           end
  end.
Definition entriesOf (s : string) : list string :=
  filter (fun w => w <> ""%string) (split_any s).

(** The loop over the accepted entries: [added] and [duplicates]. *)
Fixpoint controllerLoop (l : list string) (added duplicates : Z) : ST SubnetsModel (Z * Z) :=
  match l with
  | [] => mret (added, duplicates)
  | value :: l' =>
      ok ← addSubnet value;
      if (ok : bool) then controllerLoop l' (added + 1) duplicates
      else controllerLoop l' added (duplicates + 1)
  end.

Definition controllerAddSubnet (subnet : string) : ST SubnetsModel (list SubnetNotice) :=
  let entries := entriesOf subnet in
  match entries with
  | [] => mret []
  | _ =>
      let rejected := rejectedSubnetExclusions entries in
      '(added, duplicates) ← controllerLoop (normalizeSubnetExclusions entries) 0 0;
      mret ((match rejected with
             | [] => []
             | [r] => [NotASubnet r]
             | _ => [NotSubnets rejected]
             end)
            ++ (if duplicates >? 0 then [AlreadyInList duplicates] else [])
            ++ (if added >? 0 then [Added added] else []))
  end.

(** The calls the user interface can make, and the model they lead to from a
    fresh start on any stored list. *)
Inductive subnets_step : SubnetsModel -> SubnetsModel -> Prop :=
| step_add s st : subnets_step st (addSubnet s st).2
| step_addAll l b st : subnets_step st (addSubnets l b st).2
| step_remove i st : subnets_step st (removeSubnet i st)
| step_removeAll st : subnets_step st (removeSubnets st)
| step_controller s st : subnets_step st (controllerAddSubnet s st).2.

Inductive subnets_reachable : SubnetsModel -> Prop :=
| reach_start stored : subnets_reachable (fillSubnets (mkSubnets [] stored))
| reach_step st st' : subnets_reachable st -> subnets_step st st' -> subnets_reachable st'.
End LocalSubnets.

(** What the normalisation relies on: the canonical text of a network is one
    trimmed lower-case word that parses back to the network. *)
Class SubnetTextLaws (Q : Qt) := {
  parseSubnet_print : forall h p, wf_host h -> 0 <= p <= width h ->
    (forall i, p <= i < width h -> hbit h i = false) ->
    parseSubnet (hostToString h +:+ "/" +:+ pretty p) = (h, p);
  print_subnet_trimmed : forall h (p : Z),
    trimmed (hostToString h +:+ "/" +:+ pretty p) = hostToString h +:+ "/" +:+ pretty p;
  print_subnet_lower : forall h (p : Z),
    toLower (hostToString h +:+ "/" +:+ pretty p) = hostToString h +:+ "/" +:+ pretty p
}.

(** ** Lemmas *)

Section Norm.
Context `{Q : Qt} `{!SubnetLaws Q} `{!SubnetTextLaws Q}.

(** An accepted entry is the text of a canonical network that is not a
    default route. *)
Definition subnet_text (s : string) : Prop :=
  exists h (p : Z), wf_host h /\ 1 <= p <= width h
    /\ (forall i, p <= i < width h -> hbit h i = false)
    /\ s = hostToString h +:+ "/" +:+ pretty p.

Lemma canonicalEntry_text e s : canonicalEntry e = Some s -> subnet_text s.
Proof.
  unfold canonicalEntry. destruct (parseSubnet e) as [h p] eqn:E.
  destruct (host_isNull h || _) eqn:En; [done |].
  destruct ((p <? 1) || _) eqn:Ep; [done |]. intros [= <-]. zbool.
  destruct (parseSubnet_canonical _ _ _ E) as [[-> _] | (Hh & Hp & Hz)]; [done |].
  exists h, p. split; [done |]. split; [lia |]. done.
Qed.

Lemma subnet_text_fixed s : subnet_text s ->
  trimmed s = s /\ s <> ""%string /\ canonicalEntry s = Some s.
Proof.
  intros (h & p & Hh & Hp & Hz & ->). split; [apply print_subnet_trimmed |]. split.
  - destruct (hostToString h); rewrite ?string_app_nil, ?string_app_cons; discriminate.
  - unfold canonicalEntry. rewrite parseSubnet_print by (done || lia).
    destruct h as [| a | l]; [done | |]; simpl in *;
      rewrite (proj2 (Z.ltb_ge p 1)), Z.gtb_ltb, (proj2 (Z.ltb_ge _ p)) by lia; done.
Qed.

(** The invariant of the loop. *)
Definition norm_inv (st : Norm) : Prop :=
  Forall subnet_text (normalized st)
  /\ NoDup (map toLower (normalized st))
  /\ (forall k, k ∈ seen st <-> k ∈ map toLower (normalized st)).

Lemma normStep_inv st e : norm_inv st -> norm_inv (normStep st e).
Proof.
  intros (Ht & Hd & Hs). unfold normStep. destruct (String.eqb _ ""); [done |].
  destruct (canonicalEntry _) as [c |] eqn:E; [| by repeat split; try apply Hs].
  case_bool_decide as Hin; [by repeat split; try apply Hs |]. unfold norm_inv; simpl.
  rewrite map_app. simpl. repeat split.
  - apply Forall_app; split; [done |]. constructor; [by eapply canonicalEntry_text | done].
  - apply NoDup_app. split; [done |]. split; [| apply NoDup_singleton].
    intros k Hk ->%list_elem_of_singleton. by apply Hin, Hs.
  - rewrite elem_of_union, elem_of_singleton, elem_of_app, list_elem_of_singleton, Hs. tauto.
  - rewrite elem_of_union, elem_of_singleton, elem_of_app, list_elem_of_singleton, Hs. tauto.
Qed.

Lemma fold_norm_inv raw st : norm_inv st -> norm_inv (fold_left normStep raw st).
Proof.
  revert st. induction raw as [| e raw IH]; simpl; intros st Hst; [done |].
  by apply IH, normStep_inv.
Qed.

Lemma normLoop_inv raw : norm_inv (normLoop raw).
Proof.
  apply fold_norm_inv. unfold norm_inv; simpl. split; [done |]. split; [constructor |].
  intros k. by rewrite elem_of_empty, elem_of_nil.
Qed.

(** A list of distinct canonical entries goes through the loop unchanged. *)
Lemma fold_norm_fixed l st :
  norm_inv st -> Forall subnet_text l -> NoDup (map toLower (normalized st ++ l)) ->
  normalized (fold_left normStep l st) = normalized st ++ l
  /\ rejected (fold_left normStep l st) = rejected st.
Proof.
  revert st. induction l as [| s l IH]; simpl; intros st Hst Hl Hd; [by rewrite app_nil_r |].
  apply Forall_cons in Hl as [Hs Hl].
  destruct (subnet_text_fixed s Hs) as (Htr & Hne & Hc).
  assert (Hstep : normStep st s = mkNorm (normalized st ++ [s]) ({[toLower s]} ∪ seen st) (rejected st)).
  { unfold normStep. rewrite Htr, (proj2 (String.eqb_neq s "") Hne), Hc.
    rewrite bool_decide_false; [done |]. intros Hin. apply Hst in Hin.
    rewrite map_app in Hd. apply NoDup_app in Hd as (_ & Hd & _).
    apply (Hd _ Hin). simpl. left. }
  pose proof (normStep_inv st s Hst) as Hst'. rewrite Hstep in Hst' |- *.
  destruct (IH _ Hst' Hl) as [-> ->]; simpl; [by rewrite <- app_assoc | by rewrite <- app_assoc].
Qed.

(** Every entry ends up in one of the two lists (or is blank). *)
Lemma normStep_mono st e s :
  (s ∈ normalized st -> s ∈ normalized (normStep st e))
  /\ (s ∈ rejected st -> s ∈ rejected (normStep st e)).
Proof.
  unfold normStep. repeat case_match; simpl; rewrite ?elem_of_app; tauto.
Qed.

Lemma fold_norm_mono raw st s :
  (s ∈ normalized st -> s ∈ normalized (fold_left normStep raw st))
  /\ (s ∈ rejected st -> s ∈ rejected (fold_left normStep raw st)).
Proof.
  revert st. induction raw as [| e raw IH]; simpl; intros st; [tauto |].
  destruct (IH (normStep st e)), (normStep_mono st e s). tauto.
Qed.

Definition accounted (st : Norm) (e : string) : Prop :=
  trimmed e = ""%string \/ trimmed e ∈ rejected st
  \/ exists c s, canonicalEntry (trimmed e) = Some c /\ s ∈ normalized st /\ toLower s = toLower c.

Lemma normStep_accounted st e : norm_inv st -> accounted (normStep st e) e.
Proof.
  intros (_ & _ & Hs). unfold accounted, normStep.
  destruct (String.eqb_spec (trimmed e) "") as [Ee | Ee]; [by left |].
  destruct (canonicalEntry _) as [c |] eqn:E; right.
  - right. exists c. case_bool_decide as Hin.
    + apply Hs, list_elem_of_fmap in Hin as (s & Hc & Hin). by exists s.
    + exists c. simpl. split; [done |]. split; [| done]. apply elem_of_app. right. left.
  - left. simpl. apply elem_of_app. right. left.
Qed.

Lemma fold_norm_accounted raw st e :
  norm_inv st -> e ∈ raw -> accounted (fold_left normStep raw st) e.
Proof.
  revert st. induction raw as [| e' raw IH]; simpl; intros st Hst He;
    [by apply elem_of_nil in He |].
  apply elem_of_cons in He as [<- | He]; [| by apply IH; [apply normStep_inv |]].
  destruct (normStep_accounted st e Hst) as [? | [Hr | (c & s & Hc & Hs & Hl)]].
  - by left.
  - right; left. by apply fold_norm_mono.
  - right; right. exists c, s. split; [done |]. split; [by apply fold_norm_mono | done].
Qed.
End Norm.

(** ** The stored list is the list shown *)

Section Stored.
Context `{Q : Qt} `{!SubnetLaws Q} `{!SubnetTextLaws Q}.

Lemma subnet_text_lower s : subnet_text s -> toLower s = s.
Proof. intros (h & p & _ & _ & _ & ->). apply print_subnet_lower. Qed.

Lemma map_lower l : Forall subnet_text l -> map toLower l = l.
Proof.
  induction 1 as [| s l Hs _ IH]; simpl; [done |]. by rewrite IH, subnet_text_lower.
Qed.

(** Rows: canonical entries without repetition. *)
Definition rows_ok (l : list string) : Prop := Forall subnet_text l /\ NoDup l.

Lemma normalize_ok raw : rows_ok (normalizeSubnetExclusions raw).
Proof.
  destruct (normLoop_inv raw) as (Ht & Hd & _). split; [done |].
  by rewrite map_lower in Hd.
Qed.

Lemma normalize_fixed l : rows_ok l -> normalizeSubnetExclusions l = l.
Proof.
  intros [Ht Hd]. unfold normalizeSubnetExclusions, normLoop.
  edestruct (fold_norm_fixed l (mkNorm [] ∅ [])) as [-> _]; try done.
  - apply (normLoop_inv []).
  - simpl. by rewrite map_lower.
Qed.

Lemma rows_ok_snoc l s : rows_ok l -> subnet_text s -> s ∉ l -> rows_ok (l ++ [s]).
Proof.
  intros [Ht Hd] Hs Hn. split; [apply Forall_app; split; [done |]; by repeat constructor |].
  apply NoDup_app. split; [done |]. split; [| apply NoDup_singleton].
  by intros x Hx ->%list_elem_of_singleton.
Qed.

(** The model shows exactly what is stored, and all of it is well formed. *)
Definition subnets_inv (st : SubnetsModel) : Prop :=
  rows_ok (m_subnets st) /\ localSubnetExclusions st = m_subnets st.

Lemma persist_inv st : rows_ok (m_subnets st) -> subnets_inv (persist st).
Proof.
  intros Hr. split; [done |]. unfold localSubnetExclusions, persist, setLocalSubnetExclusions.
  simpl. by rewrite !(normalize_fixed (m_subnets st)) by done.
Qed.

Lemma addSubnet_inv s st : subnets_inv st -> subnets_inv (addSubnet s st).2.
Proof.
  intros [Hr Hc]. unfold addSubnet. pose proof (normalize_ok [s]) as [Ht _].
  destruct (normalizeSubnetExclusions [s]) as [| v l]; [done |].
  unfold subnets_mem. case_bool_decide as Hin; [done |]. simpl.
  apply persist_inv. simpl. apply Forall_cons in Ht as [Hv _]. by apply rows_ok_snoc.
Qed.

Lemma addSteps_ok l acc :
  rows_ok acc.1 -> Forall subnet_text l -> rows_ok (fold_left addStep l acc).1.
Proof.
  revert acc. induction l as [| s l IH]; simpl; intros acc Hr Hl; [done |].
  apply Forall_cons in Hl as [Hs Hl]. apply IH; [| done].
  unfold addStep, subnets_mem. case_bool_decide; [done |]. by apply rows_ok_snoc.
Qed.

Lemma addSubnets_inv l b st : subnets_inv st -> subnets_inv (addSubnets l b st).2.
Proof.
  intros [Hr _]. unfold addSubnets.
  pose proof (addSteps_ok (normalizeSubnetExclusions l) (if b then [] else m_subnets st, 0)) as Hok.
  destruct (fold_left _ _ _) as [rows n]; simpl in *. apply persist_inv. simpl. apply Hok.
  - destruct b; [by split; constructor | done].
  - apply normalize_ok.
Qed.

Lemma removeSubnet_inv i st : subnets_inv st -> subnets_inv (removeSubnet i st).
Proof.
  intros Hst. unfold removeSubnet. destruct i as [row |]; [| done].
  destruct (Nat.leb _ _); [done |]. destruct Hst as [[Ht Hd] _]. apply persist_inv. simpl.
  split; [by apply Forall_delete |]. eapply sublist_NoDup; [exact Hd |]; apply sublist_delete.
Qed.

Lemma removeSubnets_inv st : subnets_inv st -> subnets_inv (removeSubnets st).
Proof.
  intros Hst. unfold removeSubnets. destruct (m_subnets st) eqn:E; [done |].
  apply persist_inv. by split; constructor.
Qed.

Lemma controllerLoop_inv l a d st :
  subnets_inv st -> subnets_inv (controllerLoop l a d st).2.
Proof.
  revert a d st. induction l as [| v l IH]; simpl; intros a d st Hst; [done |].
  unfold mbind, ST_bind. pose proof (addSubnet_inv v st Hst) as Ha.
  destruct (addSubnet v st) as [[] st']; by apply IH.
Qed.

Lemma controllerAdd_inv s st : subnets_inv st -> subnets_inv (controllerAddSubnet s st).2.
Proof.
  intros Hst. unfold controllerAddSubnet. destruct (entriesOf s) as [| e l]; [done |].
  unfold mbind, ST_bind. set (n := normalizeSubnetExclusions (e :: l)).
  pose proof (controllerLoop_inv n 0 0 st Hst) as Hc.
  by destruct (controllerLoop n 0 0 st) as [[a d] st'].
Qed.
End Stored.

(** The laws hold of the concrete instance. *)
#[export] Instance concrete_SubnetTextLaws p q : SubnetTextLaws (concreteQt p q).
Proof.
  constructor.
  - exact parse_print_subnet.
  - intros h n. apply trimmed_plain. repeat (constructor; [apply subnet_chars; by repeat constructor |]).
    constructor.
  - intros h n. apply toLower_plain. repeat (constructor; [apply subnet_chars; by repeat constructor |]).
    constructor.
Qed.

(** ** Properties *)

(** [normalizeSubnetExclusions] returns texts of canonical
    networks with a prefix of at least 1 (never a default route), without
    repetition; it loses nothing (a raw entry is blank, reported as rejected,
    or present up to case); and normalising again changes nothing and rejects
    nothing. *)
Theorem normalizeSubnetExclusions_spec `{Q : Qt} `{!SubnetLaws Q} `{!SubnetTextLaws Q}
  (raw : list string) :
  let r := normalizeSubnetExclusions raw in
  Forall subnet_text r /\ NoDup r
  /\ (forall e, e ∈ raw -> accounted (normLoop raw) e)
  /\ normalizeSubnetExclusions r = r /\ rejectedSubnetExclusions r = [].
Proof.
  intros r. destruct (normalize_ok raw) as [Ht Hd]. repeat split; [done | done | | |].
  - intros e He. apply fold_norm_accounted; [apply (normLoop_inv []) | done].
  - by apply normalize_fixed.
  - edestruct (fold_norm_fixed r (mkNorm [] ∅ [])) as [_ Hr]; [apply (normLoop_inv []) | done | |].
    + simpl. by rewrite map_lower.
    + exact Hr.
Qed.

(** The instance of C7 at the concrete Qt operations: two spellings of one
    network collapse, a default route and a non-address are rejected. *)
Lemma normalizeSubnetExclusions_spec_witness :
  let raw := ["192.168.1.7/24"; "0.0.0.0/0"; " 192.168.1.0/24 "; "x"; ""] in
  @normalizeSubnetExclusions plainQt raw = ["192.168.1.0/24"]
  /\ @rejectedSubnetExclusions plainQt raw = ["0.0.0.0/0"; "x"]
  /\ @normalizeSubnetExclusions plainQt (@normalizeSubnetExclusions plainQt raw) = ["192.168.1.0/24"].
Proof.
  intros raw. split; [vm_compute; reflexivity |]. split; [vm_compute; reflexivity |].
  destruct (@normalizeSubnetExclusions_spec plainQt _ _ raw) as (_ & _ & _ & -> & _).
  vm_compute; reflexivity.
Defined.

(** Whatever sequence of user actions leads to it from any
    stored list, the list model holds distinct canonical subnets and equals
    what a restart would load from the settings. *)
Theorem subnets_reachable_stored `{Q : Qt} `{!SubnetLaws Q} `{!SubnetTextLaws Q}
  (st : SubnetsModel) (Hr : subnets_reachable st) :
  Forall subnet_text (m_subnets st) /\ NoDup (m_subnets st)
  /\ localSubnetExclusions st = m_subnets st.
Proof.
  assert (subnets_inv st) as [[Ht Hd] Hs]; [| done].
  induction Hr as [stored | st st' _ IH Hstep].
  - split; [apply normalize_ok |]. reflexivity.
  - destruct Hstep; auto using addSubnet_inv, addSubnets_inv, removeSubnet_inv,
      removeSubnets_inv, controllerAdd_inv.
Qed.

Lemma subnets_reachable_stored_witness :
  let st := (@controllerAddSubnet plainQt "10.1.2.3/8, 10.0.0.0/8;bad"
               (@fillSubnets plainQt (mkSubnets [] ["0.0.0.0/0"; "172.16.0.0/12"]))).2 in
  m_subnets st = ["172.16.0.0/12"; "10.0.0.0/8"] /\ @localSubnetExclusions plainQt st = m_subnets st.
Proof.
  intros st. split; [vm_compute; reflexivity |].
  apply (@subnets_reachable_stored plainQt _ _ st).
  eapply reach_step; [apply reach_start | apply step_controller].
Defined.

(** For a prefix from 1 to 32 the mask text of
    [netMaskFromIpWithSubnet] is the dotted form of [IPAddress::netmask];
    for any other number the 32-bit shift is undefined, 0 included although
    [checkIpSubnetFormat] accepts a /0. *)
Theorem netMask_agrees `{Qt} (a n : string) (p : Z)
  (Ha : chr_contains "/" a = false) (Hn : chr_contains "/" n = false)
  (Hp : toInt n = Some p) :
  netMaskFromIpWithSubnet (a +:+ "/" +:+ n) =
    if (1 <=? p) && (p <=? 32)
    then Some (quad (toIPv4Address (netmask (mkIPAddress (HV4 0) p))))
    else None.
Proof.
  unfold netMaskFromIpWithSubnet.
  rewrite !chr_contains_app, Ha, string_app_cons, string_app_nil, split_line, split_none by done.
  simpl. rewrite Hp.
  destruct ((1 <=? p) && (p <=? 32)) eqn:E; zbool.
  - rewrite (proj2 (Z.leb_le _ _)), (proj2 (Z.ltb_lt _ _)) by lia. simpl. do 2 f_equal.
    assert (Hall : forallb (fun i => Z.land (u32 (Z.shiftl 4294967295 (32 - Z.of_nat i))) 4294967295
      =? toIPv4Address (netmask (mkIPAddress (HV4 0) (Z.of_nat i)))) (seq 1 32) = true)
      by (vm_compute; reflexivity).
    rewrite forallb_forall in Hall. specialize (Hall (Z.to_nat p)).
    rewrite Z2Nat.id in Hall by lia. apply Z.eqb_eq, Hall, in_seq. lia.
  - destruct ((0 <=? 32 - p) && (32 - p <? 32)) eqn:E2; [| done]. zbool.
    apply andb_false_iff in E as [E | E]; zbool; lia.
Qed.

Lemma netMask_agrees_witness :
  @netMaskFromIpWithSubnet plainQt ("10.1.2.3" +:+ "/" +:+ "20") = Some "255.255.240.0"%string
  /\ @netMaskFromIpWithSubnet plainQt ("0.0.0.0" +:+ "/" +:+ "0") = None.
Proof.
  split; [rewrite (@netMask_agrees plainQt "10.1.2.3" "20" 20) by reflexivity
         |rewrite (@netMask_agrees plainQt "0.0.0.0" "0" 0) by reflexivity];
    vm_compute; reflexivity.
Defined.
