(* ===== verification/RouteMonitor.v ===== *)
(** * Netlink routes: [client/platforms/linux/daemon/linuxroutemonitor.cpp]

    [LinuxRouteMonitor] installs and removes routes with raw netlink
    messages built in a fixed buffer.  The buffer is modelled byte by byte
    (little-endian host order, the layout of [linux/netlink.h] and
    [linux/rtnetlink.h]); the kernel, the resolver functions of libc and the
    gateway lookup are parameters.  The theorems read the sent bytes back
    with an independent reader of the netlink format. *)

From Stdlib Require Import ZArith Lia Bool String Ascii.
From stdpp Require Import base gmap strings list.
From S2P Require Import Prelude.
From S2P Require Import Qt.
From S2P Require Import QtInstance.
From S2P Require Import IPAddress.

Open Scope Z_scope.

(** ** Constants of the netlink headers *)

Definition AF_INET := 2.
Definition AF_INET6 := 10.
Definition RTM_NEWROUTE := 24.
Definition RTM_DELROUTE := 25.
Definition NLM_F_REQUEST := 1.
Definition NLM_F_ACK := 4.
Definition NLM_F_REPLACE := 0x100.
Definition NLM_F_CREATE := 0x400.
Definition NLMSG_ERROR := 2.
Definition NLMSG_DONE := 3.
Definition RTN_UNICAST := 1.
Definition RTN_THROW := 9.
Definition RTA_DST := 1.
Definition RTA_OIF := 4.
Definition RTA_GATEWAY := 5.
Definition RTA_PRIORITY := 6.
Definition RTPROT_BOOT := 3.

Definition NLMSG_ALIGN (len : Z) : Z := Z.land (len + 3) (Z.lnot 3).
Definition NLMSG_HDRLEN := 16.
Definition NLMSG_LENGTH (len : Z) : Z := len + NLMSG_HDRLEN.
Definition NLMSG_SPACE (len : Z) : Z := NLMSG_ALIGN (NLMSG_LENGTH len).
Definition RTA_LENGTH (len : Z) : Z := 4 + len.
Definition RTA_SPACE (len : Z) : Z := NLMSG_ALIGN (RTA_LENGTH len).
Definition sizeof_rtmsg := 12.

(** ** Memory *)

Definition le16 (z : Z) : list Z := [z mod 256; z / 256 mod 256].
Definition le32 (z : Z) : list Z :=
  [z mod 256; z / 256 mod 256; z / 65536 mod 256; z / 16777216 mod 256].
Definition be32 (z : Z) : list Z := rev (le32 z).
Definition get16 (l : list Z) (off : Z) : Z := byte_at l off + 256 * byte_at l (off + 1).
Definition get32 (l : list Z) (off : Z) : Z := get16 l off + 65536 * get16 l (off + 2).

(** [memcpy(buf + off, data, length data)] *)
Fixpoint poke (buf : list Z) (off : nat) (data : list Z) : list Z :=
  match data with
  | [] => buf
  | b :: data' => poke (<[off := b]> buf) (S off) data'
  end.

(** ** The environment *)

(** What the object calls outside the repository; [W] is the state of the
    machine. *)
Class Netlink (W : Type) := {
  getpid : Z;
  if_nametoindex : string -> ST W Z;
  getGateway : ST W string;             (** [getGatewayAndIface().first] *)
  sendto : list Z -> ST W Z;            (** the number of bytes sent *)
  inet_pton4 : string -> option (list Z);
  inet_pton6 : string -> option (list Z)
}.

Section Monitor.
Context {W : Type} `{Qt} `{!Netlink W}.

(** The object: the sequence counter of the messages, and the machine. *)
Record Monitor : Type := mkMonitor { m_nlseq : Z; world : W }.

Definition onWorld {A} (m : ST W A) : ST Monitor A := fun s =>
  let '(a, w) := m (world s) in (a, mkMonitor (m_nlseq s) w).

(** [m_nlseq++] *)
Definition nextSeq : ST Monitor Z := fun s =>
  (m_nlseq s, mkMonitor (u32 (m_nlseq s + 1)) (world s)).

Definition WG_INTERFACE : string := "frkn0".

Record wg_allowedip : Type := mkAllowed { family : Z; ip_bytes : list Z; cidr : Z }.

Definition buildAllowedIp (prefix : IPAddress) : option wg_allowedip :=
  let addrString := hostToString (m_address prefix) in
  match type prefix with
  | IPv4Protocol =>
      match inet_pton4 addrString with
      | Some b => Some (mkAllowed AF_INET b (m_prefixLength prefix mod 256))
      | None => None
      end
  | IPv6Protocol =>
      match inet_pton6 addrString with
      | Some b => Some (mkAllowed AF_INET6 b (m_prefixLength prefix mod 256))
      | None => None
      end
  | UnknownProtocol => None
  end.

(** [nlmsg->nlmsg_len] lives in the first four bytes of the buffer. *)
Definition nlmsg_append_attr (buf : list Z) (maxlen attrtype : Z) (attrdata : list Z) : list Z :=
  let len := get32 buf 0 in
  let attrlen := Z.of_nat (length attrdata) in
  let newlen := NLMSG_ALIGN len + RTA_SPACE attrlen in
  if newlen <=? maxlen then
    let off := Z.to_nat (NLMSG_ALIGN len) in
    let buf := poke buf (off + 2) (le16 attrtype) in
    let buf := poke buf off (le16 (RTA_LENGTH attrlen)) in
    let buf := poke buf (off + 4) attrdata in
    poke buf 0 (le32 newlen)
  else buf.

Definition nlmsg_append_attr32 (buf : list Z) (maxlen attrtype value : Z) : list Z :=
  nlmsg_append_attr buf maxlen attrtype (le32 value).

Definition rtm_max_size : Z := sizeof_rtmsg + 2 * RTA_SPACE 4 + RTA_SPACE 16.

(** The buffer with both headers filled in. *)
Definition rtm_header (action flags type seq : Z) (ip : wg_allowedip) : list Z :=
  let buf := replicate (Z.to_nat (NLMSG_SPACE rtm_max_size)) 0 in
  let buf := poke buf 0 (le32 (NLMSG_LENGTH sizeof_rtmsg)) in
  let buf := poke buf 4 (le16 action) in
  let buf := poke buf 6 (le16 flags) in
  let buf := poke buf 12 (le32 getpid) in
  let buf := poke buf 8 (le32 seq) in
  let buf := poke buf 17 [cidr ip] in
  let buf := poke buf 16 [family ip mod 256] in
  let buf := poke buf 23 [type mod 256] in
  let buf := poke buf 20 [0] in
  let buf := poke buf 21 [RTPROT_BOOT] in
  poke buf 22 [0].

Definition rtm_type (buf : list Z) : Z := byte_at buf 23.

(** [inet_pton] leaves [ip4] as it was when the text is no IPv4 address; the
    variable was never set, [garbage] stands for what it held. *)
Definition rtmSendRoute (garbage : list Z) (action flags type : Z) (prefix : IPAddress) : ST Monitor bool :=
  match buildAllowedIp prefix with
  | None => mret false
  | Some ip =>
      seq ← nextSeq;
      let maxlen := NLMSG_SPACE rtm_max_size in
      let buf := rtm_header action flags type seq ip in
      let buf := nlmsg_append_attr buf maxlen RTA_DST (ip_bytes ip) in
      r ← (if rtm_type buf =? RTN_UNICAST then
             index ← onWorld (if_nametoindex WG_INTERFACE);
             if index <=? 0 then mret None
             else
               let buf := nlmsg_append_attr32 buf maxlen RTA_OIF index in
               mret (Some (nlmsg_append_attr32 buf maxlen RTA_PRIORITY 1))
           else mret (Some buf));
      match r with
      | None => mret false
      | Some buf =>
          buf ← (if rtm_type buf =? RTN_THROW then
                   gw ← onWorld getGateway;
                   let ip4 := default garbage (inet_pton4 gw) in
                   let buf := nlmsg_append_attr buf maxlen RTA_GATEWAY ip4 in
                   let buf := nlmsg_append_attr32 buf maxlen RTA_PRIORITY 0 in
                   mret (poke buf 23 [RTN_UNICAST])
                 else mret buf);
          let len := get32 buf 0 in
          result ← onWorld (sendto (take (Z.to_nat len) buf));
          mret (result =? len)
      end
  end.

Definition newFlags : Z :=
  Z.lor (Z.lor (Z.lor NLM_F_REQUEST NLM_F_CREATE) NLM_F_REPLACE) NLM_F_ACK.
Definition delFlags : Z := Z.lor NLM_F_REQUEST NLM_F_ACK.

Definition insertRoute (g : list Z) (prefix : IPAddress) : ST Monitor bool :=
  rtmSendRoute g RTM_NEWROUTE newFlags RTN_UNICAST prefix.
Definition deleteRoute (g : list Z) (prefix : IPAddress) : ST Monitor bool :=
  rtmSendRoute g RTM_DELROUTE delFlags RTN_UNICAST prefix.
Definition addExclusionRoute (g : list Z) (prefix : IPAddress) : ST Monitor bool :=
  rtmSendRoute g RTM_NEWROUTE newFlags RTN_THROW prefix.
Definition deleteExclusionRoute (g : list Z) (prefix : IPAddress) : ST Monitor bool :=
  rtmSendRoute g RTM_DELROUTE delFlags RTN_THROW prefix.

(** [nlsockReady]: the loop over the received messages; the error codes it
    reports.  [off] is the position of [nlmsg] in [buf], [len] what is left. *)
Definition NLMSG_OK (buf : list Z) (off len : Z) : bool :=
  (16 <=? len) && (16 <=? get32 buf off) && (get32 buf off <=? len).

Fixpoint nlLoop (fuel : nat) (buf : list Z) (off len : Z) : res (list Z) :=
  match fuel with
  | O => Timeout
  | S fuel' =>
      if negb (NLMSG_OK buf off len) then Val []
      else
        let step := NLMSG_ALIGN (get32 buf off) in
        let ty := get16 buf (off + 4) in
        if ty =? NLMSG_DONE then Val []
        else
          match nlLoop fuel' buf (off + step) (len - step) with
          | Val errs =>
              if negb (ty =? NLMSG_ERROR) then Val errs
              else
                let err := get32 buf (off + 16) in
                Val (if err =? 0 then errs else err :: errs)
          | r => r
          end
  end.

Definition nlsockReady (fuel : nat) (received : list Z) : res (list Z) :=
  let len := Z.of_nat (length received) in
  if len <=? 0 then Val [] else nlLoop fuel received 0 len.
End Monitor.
Arguments Monitor : clear implicits.

(** ** A reader of route messages

    Written from the netlink format, not from the code above: a header whose
    length is the length of the message, the route header, then attributes
    of two-byte length and type, each padded to four bytes. *)

Record RouteMsg : Type := mkRouteMsg {
  msg_type : Z; msg_flags : Z; msg_seq : Z;
  rt_family : Z; rt_dst_len : Z; rt_type : Z;
  rt_attrs : list (Z * list Z)
}.

Fixpoint read_attrs (fuel : nat) (l : list Z) : option (list (Z * list Z)) :=
  match fuel, l with
  | _, [] => Some []
  | S fuel', _ =>
      let len := get16 l 0 in
      if (4 <=? len) && (len <=? Z.of_nat (length l)) then
        match read_attrs fuel' (drop (Z.to_nat (NLMSG_ALIGN len)) l) with
        | Some attrs => Some ((get16 l 2, take (Z.to_nat (len - 4)) (drop 4 l)) :: attrs)
        | None => None
        end
      else None
  | O, _ => None
  end.

Definition read_route (l : list Z) : option RouteMsg :=
  if (28 <=? Z.of_nat (length l)) && (get32 l 0 =? Z.of_nat (length l)) then
    match read_attrs (length l) (drop 28 l) with
    | Some attrs =>
        Some (mkRouteMsg (get16 l 4) (get16 l 6) (get32 l 8)
                (byte_at l 16) (byte_at l 17) (byte_at l 23) attrs)
    | None => None
    end
  else None.

(** libc's address parsing agrees with Qt's address printing. *)
Class InetLaws {W} `(Q : Qt) `(N : Netlink W) := {
  pton4_print : forall a, 0 <= a < 2 ^ 32 -> inet_pton4 (hostToString (HV4 a)) = Some (be32 a);
  pton6_print : forall l, length l = 16%nat -> Forall is_byte l -> inet_pton6 (hostToString (HV6 l)) = Some l
}.

(** The bytes of an address in network order. *)
Definition net_bytes (h : QHostAddress) : list Z :=
  match h with HV4 a => be32 a | HV6 l => l | HNull => [] end.
Definition net_family (h : QHostAddress) : Z :=
  match h with HV6 _ => AF_INET6 | _ => AF_INET end.

(** ** Lemmas *)

Lemma get32_le32 z : 0 <= z < 2 ^ 32 -> get32 (le32 z) 0 = z.
Proof.
  intros Hz. change (z mod 256 + 256 * (z / 256 mod 256)
    + 65536 * (z / 65536 mod 256 + 256 * (z / 16777216 mod 256)) = z).
  change (2 ^ 32) with 4294967296 in Hz. Z.to_euclidean_division_equations. lia.
Qed.

(** Both families: the length of the address decides the layout. *)
Definition addr_shape (fam : Z) (d : list Z) : Prop :=
  (fam = AF_INET /\ length d = 4%nat) \/ (fam = AF_INET6 /\ length d = 16%nat).

Ltac explode d :=
  repeat (destruct d as [| ? d]; [discriminate |]);
  destruct d; [| discriminate].

(** Replace the four bytes of a field by variables. *)
Ltac generalize_le32 z Hs :=
  let l := fresh "l" in let E := fresh "E" in
  remember (le32 z) as l eqn:E in Hs |- *;
  assert (length l = 4%nat) by (by rewrite E); clear E; explode l.
Ltac explode_all Hd :=
  repeat match goal with H : In _ _ |- _ => destruct H as [<- | H]; [| try contradiction] end;
  try contradiction;
  destruct Hd as [[-> Hd] | [-> Hd]];
  match type of Hd with length ?d = _ => explode d end.

(** The two kinds of messages, for any address bytes. *)
Lemma unicast_message `{Netlink W} action flags seq fam d c index :
  addr_shape fam d -> 0 <= seq < 2 ^ 32 ->
  In action [RTM_NEWROUTE; RTM_DELROUTE] -> In flags [newFlags; delFlags] ->
  let maxlen := NLMSG_SPACE rtm_max_size in
  let buf := rtm_header action flags RTN_UNICAST seq (mkAllowed fam d c) in
  let buf1 := nlmsg_append_attr buf maxlen RTA_DST d in
  let buf2 := nlmsg_append_attr32 buf1 maxlen RTA_OIF index in
  let buf3 := nlmsg_append_attr32 buf2 maxlen RTA_PRIORITY 1 in
  rtm_type buf1 = RTN_UNICAST /\ rtm_type buf3 = RTN_UNICAST
  /\ read_route (take (Z.to_nat (get32 buf3 0)) buf3) =
    Some (mkRouteMsg action flags seq fam c RTN_UNICAST
            [(RTA_DST, d); (RTA_OIF, le32 index); (RTA_PRIORITY, le32 1)]).
Proof.
  intros Hd Hseq Ha Hf. pose proof (get32_le32 seq Hseq) as Hs.
  unfold nlmsg_append_attr32, rtm_header.
  generalize_le32 seq Hs. generalize_le32 index Hs. generalize_le32 getpid Hs.
  explode_all Hd. all: split; [vm_compute; reflexivity |].
  all: split; [vm_compute; reflexivity |]. all: rewrite <- Hs; vm_compute; reflexivity.
Qed.

Lemma throw_message `{Netlink W} action flags seq fam d c gw :
  addr_shape fam d -> length gw = 4%nat -> 0 <= seq < 2 ^ 32 ->
  In action [RTM_NEWROUTE; RTM_DELROUTE] -> In flags [newFlags; delFlags] ->
  let maxlen := NLMSG_SPACE rtm_max_size in
  let buf := rtm_header action flags RTN_THROW seq (mkAllowed fam d c) in
  let buf1 := nlmsg_append_attr buf maxlen RTA_DST d in
  let buf2 := nlmsg_append_attr buf1 maxlen RTA_GATEWAY gw in
  let buf3 := nlmsg_append_attr32 buf2 maxlen RTA_PRIORITY 0 in
  let buf4 := poke buf3 23 [RTN_UNICAST] in
  rtm_type buf1 = RTN_THROW
  /\ read_route (take (Z.to_nat (get32 buf4 0)) buf4) =
    Some (mkRouteMsg action flags seq fam c RTN_UNICAST
            [(RTA_DST, d); (RTA_GATEWAY, gw); (RTA_PRIORITY, le32 0)]).
Proof.
  intros Hd Hgw Hseq Ha Hf. pose proof (get32_le32 seq Hseq) as Hs.
  unfold nlmsg_append_attr32, rtm_header.
  generalize_le32 seq Hs. generalize_le32 getpid Hs. explode gw.
  explode_all Hd. all: split; [vm_compute; reflexivity |].
  all: rewrite <- Hs; vm_compute; reflexivity.
Qed.

Lemma build_shape {W} `{Q : Qt} `{N : Netlink W} `{!InetLaws Q N} n :
  wf_net n ->
  buildAllowedIp n = Some (mkAllowed (net_family (m_address n)) (net_bytes (m_address n)) (m_prefixLength n))
  /\ addr_shape (net_family (m_address n)) (net_bytes (m_address n)).
Proof.
  intros [Hh Hp]. destruct n as [h p]. unfold buildAllowedIp, type; simpl in *.
  destruct h as [| a | l]; simpl in *; [done | |].
  - rewrite pton4_print, Z.mod_small by lia. split; [done |]. by left.
  - destruct Hh as [Hl Hby]. rewrite pton6_print, Z.mod_small by (done || lia).
    split; [done |]. by right.
Qed.

(** A message the reader accepts is exactly as long as its header says. *)
Lemma read_route_len l m : read_route l = Some m -> get32 l 0 = Z.of_nat (length l).
Proof. unfold read_route. case_if; [| done]. zbool. done. Qed.

Lemma get32_take l n : (4 <= n)%nat -> get32 (take n l) 0 = get32 l 0.
Proof.
  intros Hn. unfold get32, get16, byte_at.
  by rewrite !nth_lookup, !lookup_take_lt by (vm_compute; lia).
Qed.

Lemma read_route_take l n m :
  read_route (take n l) = Some m -> get32 l 0 = Z.of_nat (length (take n l)).
Proof.
  intros Hr. pose proof (read_route_len _ _ Hr) as Hl. rewrite get32_take in Hl; [done |].
  unfold read_route in Hr. destruct (_ && _) eqn:E in Hr; [| done].
  zbool. rewrite length_take in *. lia.
Qed.

(** What the kernel is handed: the bytes [msg i], one call. *)
Definition sends_one {W} `{!Netlink W} (msg : list Z) (s : Monitor W) (w : W) : bool * Monitor W :=
  let '(n, w') := sendto msg w in
  (n =? Z.of_nat (length msg), mkMonitor (u32 (m_nlseq s + 1)) w').

Lemma length_poke l off d : length (poke l off d) = length l.
Proof. revert l off. induction d; simpl; intros; [done |]. by rewrite IHd, length_insert. Qed.

Lemma rtm_header_seq `{Netlink W} action flags ty seq ip :
  length (rtm_header action flags ty seq ip) = 64%nat.
Proof. unfold rtm_header. by rewrite !length_poke. Qed.

Section Sent.
Context {W : Type} `{Q : Qt} `{N : Netlink W} `{!InetLaws Q N}.

#[local] Opaque nlmsg_append_attr nlmsg_append_attr32 rtm_header read_route poke rtm_type
  NLMSG_SPACE rtm_max_size get32.

Lemma rtmSendRoute_unicast g action flags n (s : Monitor W) :
  wf_net n -> 0 <= m_nlseq s < 2 ^ 32 ->
  In action [RTM_NEWROUTE; RTM_DELROUTE] -> In flags [newFlags; delFlags] ->
  exists msg : Z -> list Z,
    (forall i, read_route (msg i) =
      Some (mkRouteMsg action flags (m_nlseq s) (net_family (m_address n)) (m_prefixLength n) RTN_UNICAST
        [(RTA_DST, net_bytes (m_address n)); (RTA_OIF, le32 i); (RTA_PRIORITY, le32 1)]))
    /\ rtmSendRoute g action flags RTN_UNICAST n s =
       let '(i, w1) := if_nametoindex WG_INTERFACE (world s) in
       if i <=? 0 then (false, mkMonitor (u32 (m_nlseq s + 1)) w1)
       else sends_one (msg i) s w1.
Proof.
  intros Hn Hs Ha Hf. destruct (build_shape n Hn) as [Hb Hsh].
  pose proof (fun i => unicast_message action flags (m_nlseq s) _ _ (m_prefixLength n) i Hsh Hs Ha Hf) as Hm.
  cbv zeta in Hm. eexists. split; [intros i; apply (Hm i) |].
  unfold rtmSendRoute. rewrite Hb. unfold mbind, ST_bind, nextSeq, onWorld, mret, ST_ret; simpl.
  rewrite (proj1 (Hm 0)). simpl. destruct (if_nametoindex _ _) as [i w1].
  destruct (i <=? 0); [done |]. destruct (Hm i) as (_ & -> & Hr). simpl.
  unfold sends_one. rewrite <- (read_route_take _ _ _ Hr). by destruct (sendto _ w1).
Qed.

Lemma rtmSendRoute_throw g action flags n (s : Monitor W) :
  wf_net n -> 0 <= m_nlseq s < 2 ^ 32 -> length g = 4%nat ->
  (forall t b, inet_pton4 t = Some b -> length b = 4%nat) ->
  In action [RTM_NEWROUTE; RTM_DELROUTE] -> In flags [newFlags; delFlags] ->
  exists msg : string -> list Z,
    (forall gw, read_route (msg gw) =
      Some (mkRouteMsg action flags (m_nlseq s) (net_family (m_address n)) (m_prefixLength n) RTN_UNICAST
        [(RTA_DST, net_bytes (m_address n)); (RTA_GATEWAY, default g (inet_pton4 gw)); (RTA_PRIORITY, le32 0)]))
    /\ rtmSendRoute g action flags RTN_THROW n s =
       let '(gw, w1) := getGateway (world s) in sends_one (msg gw) s w1.
Proof.
  intros Hn Hs Hg Hp Ha Hf. destruct (build_shape n Hn) as [Hb Hsh].
  assert (Hgw : forall gw, length (default g (inet_pton4 gw)) = 4%nat).
  { intros gw. destruct (inet_pton4 gw) eqn:E; simpl; eauto. }
  pose proof (fun gw => throw_message action flags (m_nlseq s) _ _ (m_prefixLength n) _ Hsh (Hgw gw) Hs Ha Hf) as Hm.
  cbv zeta in Hm. eexists. split; [intros gw; apply (Hm gw) |].
  unfold rtmSendRoute. rewrite Hb. unfold mbind, ST_bind, nextSeq, onWorld, mret, ST_ret; simpl.
  rewrite (proj1 (Hm ""%string)). simpl. rewrite (proj1 (Hm ""%string)). simpl.
  destruct (getGateway _) as [gw w1]. destruct (Hm gw) as (_ & Hr).
  unfold sends_one. rewrite <- (read_route_take _ _ _ Hr).
  destruct (inet_pton4 gw); simpl; by destruct (sendto _ w1).
Qed.
End Sent.

(** [NLMSG_ALIGN] rounds up. *)
Lemma NLMSG_ALIGN_ge z : z <= NLMSG_ALIGN z.
Proof.
  unfold NLMSG_ALIGN. rewrite <- Z.ldiff_land. change 3 with (Z.ones 2) at 2.
  rewrite Z.ldiff_ones_r, Z.shiftl_mul_pow2, Z.shiftr_div_pow2 by lia.
  change (2 ^ 2) with 4. pose proof (Z.mod_pos_bound (z + 3) 4). 
  pose proof (Z.div_mod (z + 3) 4). lia.
Qed.

(** Every round of the receive loop uses up at least one message header. *)
Lemma nlLoop_total fuel buf off len :
  len < 16 * Z.of_nat fuel -> exists errs, nlLoop (S fuel) buf off len = Val errs.
Proof.
  revert off len. induction fuel as [| fuel IH]; intros off len Hlen; cbn [nlLoop].
  all: destruct (NLMSG_OK buf off len) eqn:Eok; cbn [negb]; [| by eexists].
  all: unfold NLMSG_OK in Eok; zbool; pose proof (NLMSG_ALIGN_ge (get32 buf off)).
  - lia.
  - destruct (get16 buf (off + 4) =? NLMSG_DONE); [by eexists |].
    destruct (IH (off + NLMSG_ALIGN (get32 buf off)) (len - NLMSG_ALIGN (get32 buf off)))
      as [errs Hr]; [lia |].
    cbn [nlLoop] in Hr. rewrite Hr.
    destruct (get16 buf (off + 4) =? NLMSG_ERROR); cbn [negb]; eexists; reflexivity.
Qed.

(** ** Properties *)

(** The messages of [insertRoute] and [deleteRoute].  For
    every well-formed network the object asks for the index of [frkn0] and
    sends one message, which reads back, with nothing left over and no
    attribute dropped for lack of room, as a request to add (replace) or
    remove the unicast route to that network through that interface; it
    reports success when the kernel took all of it. *)
Theorem route_messages {W} `{Q : Qt} `{N : Netlink W} `{!InetLaws Q N} (g : list Z)
  (n : IPAddress) (s : Monitor W) (Hn : wf_net n) (Hs : 0 <= m_nlseq s < 2 ^ 32) :
  let route action flags i :=
    mkRouteMsg action flags (m_nlseq s) (net_family (m_address n)) (m_prefixLength n) RTN_UNICAST
      [(RTA_DST, net_bytes (m_address n)); (RTA_OIF, le32 i); (RTA_PRIORITY, le32 1)] in
  let outcome msg :=
    let '(i, w1) := if_nametoindex WG_INTERFACE (world s) in
    if i <=? 0 then (false, mkMonitor (u32 (m_nlseq s + 1)) w1) else sends_one (msg i) s w1 in
  (exists msg : Z -> list Z,
     (forall i, read_route (msg i) = Some (route RTM_NEWROUTE newFlags i))
     /\ insertRoute g n s = outcome msg)
  /\ (exists msg : Z -> list Z,
     (forall i, read_route (msg i) = Some (route RTM_DELROUTE delFlags i))
     /\ deleteRoute g n s = outcome msg).
Proof.
  split; apply rtmSendRoute_unicast; simpl; auto.
Qed.

(** The messages of [addExclusionRoute] and
    [deleteExclusionRoute]: a unicast route to the network through the
    default gateway, of priority 0.  The gateway attribute is the four bytes of
    an IPv4 address in both families, also when the route itself is an IPv6
    one. *)
Theorem exclusion_messages {W} `{Q : Qt} `{N : Netlink W} `{!InetLaws Q N} (g : list Z)
  (n : IPAddress) (s : Monitor W) (Hn : wf_net n) (Hs : 0 <= m_nlseq s < 2 ^ 32)
  (Hg : length g = 4%nat) (Hp : forall t b, inet_pton4 t = Some b -> length b = 4%nat) :
  let route action flags gw :=
    mkRouteMsg action flags (m_nlseq s) (net_family (m_address n)) (m_prefixLength n) RTN_UNICAST
      [(RTA_DST, net_bytes (m_address n)); (RTA_GATEWAY, default g (inet_pton4 gw));
       (RTA_PRIORITY, le32 0)] in
  let outcome msg := let '(gw, w1) := getGateway (world s) in sends_one (msg gw) s w1 in
  (exists msg : string -> list Z,
     (forall gw, read_route (msg gw) = Some (route RTM_NEWROUTE newFlags gw)
                 /\ length (default g (inet_pton4 gw)) = 4%nat)
     /\ addExclusionRoute g n s = outcome msg)
  /\ (exists msg : string -> list Z,
     (forall gw, read_route (msg gw) = Some (route RTM_DELROUTE delFlags gw)
                 /\ length (default g (inet_pton4 gw)) = 4%nat)
     /\ deleteExclusionRoute g n s = outcome msg).
Proof.
  assert (Hgw : forall gw, length (default g (inet_pton4 gw)) = 4%nat).
  { intros gw. destruct (inet_pton4 gw) eqn:E; simpl; eauto. }
  split.
  - destruct (rtmSendRoute_throw g RTM_NEWROUTE newFlags n s) as (msg & Hm & Ho); simpl; auto.
    exists msg. auto.
  - destruct (rtmSendRoute_throw g RTM_DELROUTE delFlags n s) as (msg & Hm & Ho); simpl; auto.
    exists msg. auto.
Qed.

(** [nlsockReady] leaves its loop for every datagram that
    fits the 1024-byte buffer, whatever lengths the messages in it claim. *)
Theorem nlsockReady_returns (received : list Z) (Hl : (length received <= 1024)%nat) :
  exists errs, nlsockReady 66 received = Val errs.
Proof.
  unfold nlsockReady. destruct (_ <=? 0); [by eexists |]. apply nlLoop_total. lia.
Qed.

(** ** A concrete machine *)

(** The machine records what it is sent; the interface has index 7 and the
    gateway is 192.0.2.1. *)
#[export] Instance sampleNetlink : Netlink (list (list Z)) := {|
  getpid := 4242;
  if_nametoindex n := fun w => (if String.eqb n "frkn0" then 7 else 0, w);
  getGateway := fun w => ("192.0.2.1"%string, w);
  sendto b := fun w => (Z.of_nat (length b), w ++ [b]);
  inet_pton4 s := match parse_host s with HV4 a => Some (be32 a) | _ => None end;
  inet_pton6 s := match parse_host s with HV6 l => Some l | _ => None end
|}.

#[export] Instance sample_InetLaws p q : InetLaws (concreteQt p q) sampleNetlink.
Proof.
  constructor.
  - intros a Ha. cbn [inet_pton4 sampleNetlink hostToString concreteQt].
    by rewrite parse_print_host4.
  - intros l Hl Hb. cbn [inet_pton6 sampleNetlink hostToString concreteQt].
    by rewrite parse_print_host6.
Qed.

Definition net10 : IPAddress := mkIPAddress (HV4 0x0a000000) 8.
Lemma net10_wf : wf_net net10.
Proof. split; simpl; lia. Qed.

Lemma route_messages_witness :
  exists b, insertRoute (H := plainQt) [0;0;0;0] net10 (mkMonitor 5 []) = (true, mkMonitor 6 [b])
    /\ read_route b = Some (mkRouteMsg 24 0x505 5 AF_INET 8 1
         [(RTA_DST, [10;0;0;0]); (RTA_OIF, [7;0;0;0]); (RTA_PRIORITY, [1;0;0;0])]).
Proof.
  destruct (route_messages (Q := plainQt) [0;0;0;0] net10 (mkMonitor 5 []) net10_wf)
    as [(msg & Hm & Ho) _]; [simpl; lia |].
  exists (msg 7). split; [| exact (Hm 7)].
  rewrite Ho. unfold sends_one; simpl. by rewrite Z.eqb_refl.
Defined.

Lemma exclusion_messages_witness :
  exists b, addExclusionRoute (H := plainQt) [0;0;0;0] (mkIPAddress (HV6 (0xfd :: replicate 15 0)) 8)
      (mkMonitor 5 []) = (true, mkMonitor 6 [b])
    /\ read_route b = Some (mkRouteMsg 24 0x505 5 AF_INET6 8 1
         [(RTA_DST, 0xfd :: replicate 15 0); (RTA_GATEWAY, [192;0;2;1]); (RTA_PRIORITY, [0;0;0;0])]).
Proof.
  destruct (exclusion_messages (Q := plainQt) [0;0;0;0] (mkIPAddress (HV6 (0xfd :: replicate 15 0)) 8)
    (mkMonitor 5 [])) as [(msg & Hm & Ho) _].
  - split; [split; [reflexivity |] | simpl; lia]. apply (bool_decide_unpack _). exact I.
  - simpl; lia.
  - reflexivity.
  - intros t b. cbn [inet_pton4 sampleNetlink]. destruct (parse_host t); intros [= <-]; reflexivity.
  - exists (msg "192.0.2.1"%string). split; [| exact (proj1 (Hm _))].
    rewrite Ho. unfold sends_one; simpl. by rewrite Z.eqb_refl.
Defined.

Definition errorReply : list Z :=
  le32 36 ++ le16 NLMSG_ERROR ++ replicate 10 0 ++ le32 (2 ^ 32 - 3) ++ replicate 16 0.

Lemma nlsockReady_returns_witness :
  (exists errs, nlsockReady 66 errorReply = Val errs) /\ nlsockReady 66 errorReply = Val [2 ^ 32 - 3].
Proof.
  split; [apply (nlsockReady_returns errorReply); vm_compute; lia | vm_compute; reflexivity].
Defined.
