(* ===== verification/RouterLinux.v ===== *)
(** * The privileged router: [service/server/router_linux.cpp]

    [RouterLinux] adds and removes IPv4 routes with [ioctl], remembers the
    ones it added, flushes the DNS cache and creates and deletes the tunnel
    device.  The kernel's routing table, libc's [inet_addr] and the processes
    it starts are parameters.  An undefined shift in the mask computation
    makes the whole call undefined ([None]). *)

From Stdlib Require Import ZArith Lia Bool String Ascii.
From stdpp Require Import base gmap strings list.
From S2P Require Import Prelude.
From S2P Require Import Qt.
From S2P Require Import QtInstance.
From S2P Require Import NetworkUtilities.

Open Scope Z_scope.

(** The fields of [struct rtentry] the code sets. *)
Record rtentry : Type := mkRtentry { rt_gateway : Z; rt_dst : Z; rt_genmask : Z }.

#[export] Instance rtentry_eq_dec : EqDecision rtentry.
Proof. solve_decision. Defined.
#[export] Instance rtentry_countable : Countable rtentry.
Proof.
  refine (inj_countable' (fun r => (rt_gateway r, rt_dst r, rt_genmask r))
    (fun '(g, d, m) => mkRtentry g d m) _).
  by intros [].
Defined.

(** The environment: [ioctl(SIOCADDRT)], [ioctl(SIOCDELRT)], [inet_addr]; a
    process that is started, with whether it started and finished in time and
    its exit code; and a netlink message that asks to delete a link, with the
    number of bytes sent ([None] when the socket cannot be opened). *)
Class RouterEnv (W : Type) := {
  SIOCADDRT : rtentry -> ST W Z;
  SIOCDELRT : rtentry -> ST W Z;
  inet_addr : string -> Z;
  startProcess : string -> list string -> ST W (bool * bool * Z);
  sendDelLink : string -> ST W (option Z)
}.

Section Router.
Context {W : Type} `{Qt} `{!RouterEnv W}.

Record Route : Type := mkRoute { dst : string; gw : string }.
Record Router : Type := mkRouter { m_addedRoutes : list Route; world : W }.

Definition onWorld {A} (m : ST W A) : ST Router A := fun s =>
  let '(a, w) := m (world s) in (a, mkRouter (m_addedRoutes s) w).

Definition entryOf (ip mask g : string) : rtentry :=
  mkRtentry (inet_addr g) (inet_addr ip) (inet_addr mask).

Definition routeAdd (ipWithSubnet g : string) : ST Router (option bool) :=
  let ip := ipAddressFromIpWithSubnet ipWithSubnet in
  match netMaskFromIpWithSubnet ipWithSubnet with
  | None => mret None
  | Some mask =>
      if negb (checkIPv4Format ip) || negb (checkIPv4Format g) then mret (Some false)
      else
        err ← onWorld (SIOCADDRT (entryOf ip mask g));
        if err <? 0 then mret (Some false)
        else
          modify (fun s => mkRouter (m_addedRoutes s ++ [mkRoute ipWithSubnet g]) (world s)) ;;
          mret (Some true)
  end.

Definition routeDelete (ipWithSubnet g : string) : ST Router (option bool) :=
  let ip := ipAddressFromIpWithSubnet ipWithSubnet in
  match netMaskFromIpWithSubnet ipWithSubnet with
  | None => mret None
  | Some mask =>
      if negb (checkIPv4Format ip) || negb (checkIPv4Format g) then mret (Some false)
      else if String.eqb ipWithSubnet "0.0.0.0/0" then mret (Some true)
      else
        err ← onWorld (SIOCDELRT (entryOf ip mask g));
        mret (Some (negb (err <? 0)))
  end.

(** [for (...) if (op(x)) cnt++;] *)
Fixpoint countOk {A} (op : A -> ST Router (option bool)) (l : list A) (cnt : Z) : ST Router (option Z) :=
  match l with
  | [] => mret (Some cnt)
  | x :: l' =>
      r ← op x;
      match r with
      | None => mret None
      | Some ok => countOk op l' (if (ok : bool) then cnt + 1 else cnt)
      end
  end.

Definition routeAddList (g : string) (ips : list string) : ST Router (option Z) :=
  countOk (fun ip => routeAdd ip g) ips 0.

Definition clearSavedRoutes : ST Router (option bool) :=
  routes ← gets m_addedRoutes;
  cnt ← countOk (fun r => routeDelete (dst r) (gw r)) routes 0;
  match cnt with
  | None => mret None
  | Some cnt =>
      modify (fun s => mkRouter [] (world s)) ;;
      mret (Some (cnt =? Z.of_nat (length routes)))
  end.

(** The count is returned as a [bool]. *)
Definition routeDeleteList (g : string) (ips : list string) : ST Router (option bool) :=
  cnt ← countOk (fun ip => routeDelete ip g) ips 0;
  mret (option_map (fun c => negb (c =? 0)) cnt).

(** ** Processes *)

Definition isServiceActive (name : string) : ST Router bool :=
  '(_, code) ← onWorld (startProcess "systemctl" ["is-active"; "--quiet"; name]);
  mret (code =? 0).

Definition flushDns : ST Router bool :=
  nscd ← isServiceActive "nscd.service";
  if (nscd : bool) then
    onWorld (startProcess "systemctl" ["restart"; "nscd"]) ;; mret true
  else
    resolved ← isServiceActive "systemd-resolved.service";
    if (resolved : bool) then
      onWorld (startProcess "systemctl" ["restart"; "systemd-resolved"]) ;; mret true
    else mret false.

(** [process.start("sudo", commands)], false when it does not start within
    one second or finish within two. *)
Definition sudo (commands : list string) : ST Router bool :=
  r ← onWorld (startProcess "sudo" commands);
  let '(started, finished, _) := r in mret (started && finished).

Definition createTun (dev subnet : string) : ST Router bool :=
  must sudo ["ip"; "tuntap"; "add"; "mode"; "tun"; "dev"; dev];
  must sudo ["ip"; "addr"; "add"; (subnet +:+ "/24")%string; "dev"; dev];
  must sudo ["ip"; "link"; "set"; "dev"; dev; "up"];
  mret true.

(** [NLMSG_ALIGN(NLMSG_LENGTH(sizeof ifinfomsg)) + RTA_LENGTH(IFNAMSIZ)] *)
Definition delLinkLength : Z := 16 + 16 + (4 + 16).

Definition deleteTun (dev : string) : ST Router bool :=
  sent ← onWorld (sendDelLink dev);
  match sent with
  | None => mret true
  | Some ret => mret (negb (ret =? delLinkLength))
  end.

Definition StartRoutingIpv6 : ST Router bool :=
  must sudo ["sysctl"; "-w"; "net.ipv6.conf.all.disable_ipv6=0"];
  must sudo ["sysctl"; "-w"; "net.ipv6.conf.default.disable_ipv6=0"];
  mret true.
Definition StopRoutingIpv6 : ST Router bool :=
  must sudo ["sysctl"; "-w"; "net.ipv6.conf.all.disable_ipv6=1"];
  must sudo ["sysctl"; "-w"; "net.ipv6.conf.default.disable_ipv6=1"];
  mret true.
End Router.
Arguments Router : clear implicits.

(** The kernel's table: a successful add puts in a route that was not there,
    deleting a present route succeeds and takes it out; a failed call changes
    nothing. *)
Class RouteTable {W} (E : RouterEnv W) := {
  table : W -> gset rtentry;
  add_ok : forall r w, 0 <= (SIOCADDRT r w).1 ->
    r ∉ table w /\ table (SIOCADDRT r w).2 = {[r]} ∪ table w;
  add_fail : forall r w, (SIOCADDRT r w).1 < 0 -> table (SIOCADDRT r w).2 = table w;
  del_ok : forall r w, r ∈ table w ->
    0 <= (SIOCDELRT r w).1 /\ table (SIOCDELRT r w).2 = table w ∖ {[r]}
}.

(** ** Lemmas *)

Section Clear.
Context {W : Type} `{Q : Qt} `{E : RouterEnv W} `{T : !RouteTable E}.

(** The kernel entry of a recorded route, when it is one [routeDelete]
    really removes. *)
Definition recorded (r : Route) (e : rtentry) : Prop :=
  exists mask, netMaskFromIpWithSubnet (dst r) = Some mask
    /\ checkIPv4Format (ipAddressFromIpWithSubnet (dst r)) = true
    /\ checkIPv4Format (gw r) = true /\ dst r <> "0.0.0.0/0"%string
    /\ e = entryOf (ipAddressFromIpWithSubnet (dst r)) mask (gw r).

(** The recorded routes [rs] are exactly what the table has beyond [base]. *)
Definition owed (base : gset rtentry) (rs : list Route) (tbl : gset rtentry) : Prop :=
  exists es, Forall2 recorded rs es /\ NoDup es /\ (forall e, e ∈ es -> e ∉ base)
    /\ tbl = list_to_set es ∪ base.

Lemma owed_nil base : owed base [] base.
Proof. exists []. repeat split; [constructor | constructor | set_solver | set_solver]. Qed.

Lemma owed_snoc base rs tbl r e :
  owed base rs tbl -> recorded r e -> e ∉ tbl -> owed base (rs ++ [r]) ({[e]} ∪ tbl).
Proof.
  intros (es & Hf & Hd & Hb & ->) Hr He. exists (es ++ [e]). split; [| split; [| split]].
  - apply Forall2_app; [done | by repeat constructor].
  - apply NoDup_app. split; [done |]. split; [set_solver | apply NoDup_singleton].
  - set_solver.
  - rewrite list_to_set_app_L. set_solver.
Qed.

Lemma routeAdd_owed base ip g s r s' :
  ip <> "0.0.0.0/0"%string -> owed base (m_addedRoutes s) (table (world s)) ->
  routeAdd ip g s = (Some r, s') -> owed base (m_addedRoutes s') (table (world s')).
Proof.
  intros Hne Ho. unfold routeAdd.
  destruct (netMaskFromIpWithSubnet ip) as [mask |] eqn:Em; [| done].
  destruct (negb _ || negb _) eqn:Ef; [by intros [= <- <-] |].
  unfold mbind, ST_bind, onWorld, mret, ST_ret, modify. zbool.
  set (e := entryOf _ mask g). pose proof (add_ok e (world s)) as Hok.
  pose proof (add_fail e (world s)) as Hfail.
  destruct (SIOCADDRT e (world s)) as [err w]; simpl in *.
  destruct (Z.ltb_spec err 0); intros [= <- <-]; simpl.
  - by rewrite Hfail.
  - destruct Hok as [Hn ->]; [done |]. apply owed_snoc; [done | | done]. by exists mask.
Qed.

Lemma addList_owed base g ips c s r s' :
  "0.0.0.0/0"%string ∉ ips -> owed base (m_addedRoutes s) (table (world s)) ->
  countOk (fun ip => routeAdd ip g) ips c s = (Some r, s') ->
  owed base (m_addedRoutes s') (table (world s')).
Proof.
  revert c s. induction ips as [| ip ips IH]; simpl; intros c s Hn Ho Hc;
    [by injection Hc as <- <- |].
  unfold mbind, ST_bind in Hc. destruct (routeAdd ip g s) as [[ok |] s1] eqn:Er; [| done].
  eapply IH; [set_solver | | exact Hc]. eapply routeAdd_owed; [| exact Ho | exact Er]. set_solver.
Qed.

(** Deleting the recorded routes one by one: all succeed. *)
Lemma deleteAll_owed base rs es c s :
  Forall2 recorded rs es -> NoDup es -> (forall e, e ∈ es -> e ∉ base) ->
  table (world s) = list_to_set es ∪ base ->
  exists s', countOk (fun r => routeDelete (dst r) (gw r)) rs c s
    = (Some (c + Z.of_nat (length rs)), s') /\ table (world s') = base.
Proof.
  intros Hf. revert c s. induction Hf as [| r e rs es Hr _ IH]; simpl; intros c s Hd Hb Ht.
  - exists s. split; [f_equal; f_equal; lia | set_solver].
  - destruct Hr as (mask & Em & Hc1 & Hc2 & Hne & He). apply NoDup_cons in Hd as [Hni Hd].
    unfold mbind, ST_bind, routeDelete at 1. rewrite Em, Hc1, Hc2. simpl.
    rewrite (proj2 (String.eqb_neq _ _) Hne). rewrite <- He.
    unfold mbind, ST_bind, onWorld. destruct (del_ok e (world s)) as [Hok Htbl]; [set_solver |].
    destruct (SIOCDELRT e (world s)) as [err w]; simpl in *.
    rewrite (proj2 (Z.ltb_ge err 0)) by done. unfold mret, ST_ret; simpl.
    destruct (IH (c + 1) (mkRouter (m_addedRoutes s) w) Hd) as (s' & -> & Hs').
    + set_solver.
    + simpl. rewrite Htbl, Ht. apply set_eq. intros x.
      rewrite elem_of_difference, !elem_of_union, elem_of_singleton. set_solver.
    + exists s'. split; [f_equal; f_equal; lia | done].
Qed.

Lemma clear_owed base s :
  owed base (m_addedRoutes s) (table (world s)) ->
  exists s', clearSavedRoutes s = (Some true, s') /\ table (world s') = base
    /\ m_addedRoutes s' = [].
Proof.
  intros (es & Hf & Hd & Hb & Ht). unfold clearSavedRoutes, gets, mbind, ST_bind.
  destruct (deleteAll_owed base _ es 0 s Hf Hd Hb Ht) as (s' & -> & Hs').
  unfold modify, mret, ST_ret; simpl. rewrite Z.eqb_refl. by eexists.
Qed.

(** A sequence of [routeAddList] calls; [None] when one is undefined. *)
Fixpoint addLists (calls : list (string * list string)) (s : Router W) : option (Router W) :=
  match calls with
  | [] => Some s
  | (g, ips) :: calls' =>
      match routeAddList g ips s with
      | (Some _, s') => addLists calls' s'
      | (None, _) => None
      end
  end.
End Clear.

(** ** Properties *)

(** [clearSavedRoutes] undoes every [routeAddList].
    Whatever lists of addresses were added before, valid or not, repeated or
    not, and however the kernel answered, clearing succeeds, empties the record and
    leaves the kernel's table as it was before the first call (the default
    route "0.0.0.0/0", which [routeDelete] refuses to remove, apart). *)
Theorem clearSavedRoutes_restores {W} `{Q : Qt} `{E : RouterEnv W} `{T : !RouteTable E}
  (calls : list (string * list string)) (w : W) (s : Router W)
  (Hn : Forall (fun c => "0.0.0.0/0"%string ∉ c.2) calls)
  (Hs : addLists calls (mkRouter [] w) = Some s) :
  exists s', clearSavedRoutes s = (Some true, s') /\ table (world s') = table w
    /\ m_addedRoutes s' = [].
Proof.
  apply clear_owed. assert (Ho : owed (table w) [] (table w)) by apply owed_nil.
  change [] with (m_addedRoutes (mkRouter [] w)) in Ho.
  change (table w) with (table (world (mkRouter [] w))) in Ho at 2.
  revert Hs Ho. generalize (mkRouter [] w). induction Hn as [| [g ips] calls Hni Hn IH]; simpl.
  - by intros s0 [= ->] Ho.
  - intros s0 Hs Ho. destruct (routeAddList g ips s0) as [[c |] s1] eqn:Ec; [| done].
    apply (IH s1 Hs). by eapply addList_owed.
Qed.

(** [deleteTun] reports the opposite of what happened: true
    exactly when the request could not be sent in full, false on success. *)
Theorem deleteTun_inverted {W} `{E : RouterEnv W} (dev : string) (s : Router W) :
  (deleteTun dev s).1 = false <-> (sendDelLink dev (world s)).1 = Some delLinkLength.
Proof.
  unfold deleteTun, mbind, ST_bind, onWorld.
  destruct (sendDelLink dev (world s)) as [[ret |] w]; simpl; [| done].
  rewrite negb_false_iff, Z.eqb_eq. split; [by intros -> | by intros [= ->]].
Qed.

(** ** A concrete machine *)

Definition sampleEnv : RouterEnv (gset rtentry) := {|
  SIOCADDRT r := fun t => if bool_decide (r ∈ t) then (-1, t) else (0, {[r]} ∪ t);
  SIOCDELRT r := fun t => if bool_decide (r ∈ t) then (0, t ∖ {[r]}) else (-1, t);
  inet_addr s := toIPv4Address (parse_host s);
  startProcess _ _ := fun t => ((true, true, 0), t);
  sendDelLink _ := fun t => (Some 52, t)
|}.

Definition sampleTable : RouteTable sampleEnv.
Proof.
  refine {| table := (fun w : gset rtentry => w) |}.
  - intros r w. simpl. case_bool_decide; simpl; [lia | done].
  - intros r w. simpl. case_bool_decide; simpl; [done | lia].
  - intros r w Hr. simpl. by rewrite bool_decide_true.
Defined.

Definition sampleCalls : list (string * list string) :=
  [("192.0.2.1", ["10.0.0.0/8"; "10.0.0.0/8"; "bad"; "172.16.1.1"])%string].
Definition sampleAdded : Router (gset rtentry) :=
  default (mkRouter [] ∅) (addLists (Q := plainQt) (E := sampleEnv) sampleCalls (mkRouter [] ∅)).

Lemma clearSavedRoutes_restores_witness :
  length (m_addedRoutes sampleAdded) = 2%nat
  /\ exists s', clearSavedRoutes (H := plainQt) (RouterEnv0 := sampleEnv) sampleAdded = (Some true, s')
    /\ world s' = ∅.
Proof.
  split; [vm_compute; reflexivity |].
  destruct (clearSavedRoutes_restores (Q := plainQt) (E := sampleEnv) (T := sampleTable)
    sampleCalls ∅ sampleAdded) as (s' & Hc & Ht & _).
  - constructor; [| constructor]. simpl. set_solver.
  - vm_compute. reflexivity.
  - exists s'. split; [exact Hc | exact Ht].
Defined.
