(* ===== verification/Iptables.v ===== *)
(** * Reference semantics of iptables

    The firewall code of the repository drives [iptables] and [ip6tables]
    through one-line shell scripts.  This file has the scripts as data, with
    the text they stand for, what the documented behaviour of the commands
    makes of them on the kernel's chains ([step]), and how a packet
    traverses the chains ([traverse]).  Nothing here models code of the
    repository except [scriptText] and [ruleText], which give the command
    lines of [linuxfirewall.cpp] letter by letter. *)

From Stdlib Require Import ZArith Lia Bool String Ascii.
From stdpp Require Import base gmap strings list pretty.
From S2P Require Import Prelude.
From S2P Require Import Qt.

Open Scope Z_scope.

(** ** Rules *)

Inductive Match : Type :=
| MOut (negated : bool) (iface : string)    (** [-o iface], [! -o iface] *)
| MDst (net : string)                       (** [-d net] *)
| MProto (p : string)                       (** [-p p] *)
| MSport (n : Z) | MDport (n : Z)           (** [--sport n], [--dport n] *)
| MCgroup (id : string).                    (** [-m cgroup --cgroup id] *)

(** The target and its options, e.g. [MARK] with [--set-mark 0x1]. *)
Record Rule : Type := mkRule {
  r_matches : list Match;
  r_target : string;
  r_options : string
}.

#[export] Instance Match_eq_dec : EqDecision Match.
Proof. solve_decision. Defined.
#[export] Instance Rule_eq_dec : EqDecision Rule.
Proof. solve_decision. Defined.

Definition matchText (m : Match) : string :=
  match m with
  | MOut false i => "-o " +:+ i
  | MOut true i => "! -o " +:+ i
  | MDst n => "-d " +:+ n
  | MProto p => "-p " +:+ p
  | MSport n => "--sport " +:+ pretty n
  | MDport n => "--dport " +:+ pretty n
  | MCgroup i => "-m cgroup --cgroup " +:+ i
  end.

Definition ruleText (r : Rule) : string :=
  join " " (map matchText (r_matches r) ++ ["-j " +:+ r_target r])
  +:+ (if String.eqb (r_options r) "" then "" else " " +:+ r_options r).

(** The rule [-j chain]. *)
Definition jumpTo (chain : string) : Rule := mkRule [] chain "".
Definition on (m : list Match) (target : string) : Rule := mkRule m target "".

(** ** Scripts *)

(** [six] chooses between [iptables] and [ip6tables]. *)
Inductive Script : Type :=
| SCreate (six : bool) (chain table : string)
| SDelete (six : bool) (chain table : string)
| SLinkFirst (six : bool) (parent chain table : string)
| SLinkLast (six : bool) (parent chain table : string)
| SUnlink (six : bool) (parent chain table : string)
| SAppend (six : bool) (chain : string) (r : Rule) (table : string)
| SEnable (six : bool) (anchor table : string)
| SDisable (six : bool) (anchor table : string)
| SReplace (six : bool) (anchor : string) (r : Rule) (table : string)
| SIsEnabled (six : bool) (anchor table : string)
| SCheckRoot (parent chain : string)
| SFlushFilter (six : bool) (chain : string)
| SAppendFilter (six : bool) (chain : string) (r : Rule)
| SOther (text : string).

Definition kAnchorName : string := "frkvpn".
Definition getCommand (six : bool) : string := if six then "ip6tables" else "iptables".
Definition ipStr (six : bool) : string := if six then "(IPv6)" else "(IPv4)".
Definition anchorChain (anchor : string) : string := kAnchorName +:+ ".a." +:+ anchor.
Definition actualChain (anchor : string) : string := kAnchorName +:+ "." +:+ anchor.

Definition q : string := String (Ascii.ascii_of_nat 34) "".

(** The command lines, as [linuxfirewall.cpp] passes them to [/bin/bash -c]. *)
Definition scriptText (s : Script) : string :=
  match s with
  | SCreate v c t =>
      let x := getCommand v in
      x +:+ " -N " +:+ c +:+ " -t " +:+ t +:+ " || " +:+ x +:+ " -F " +:+ c +:+ " -t " +:+ t
  | SDelete v c t =>
      let x := getCommand v in
      "if " +:+ x +:+ " -L " +:+ c +:+ " -n -t " +:+ t +:+ " > /dev/null 2> /dev/null ; then "
      +:+ x +:+ " -F " +:+ c +:+ " -t " +:+ t +:+ " && " +:+ x +:+ " -X " +:+ c +:+ " -t " +:+ t +:+ "; fi"
  | SLinkFirst v p c t =>
      let x := getCommand v in
      "if ! " +:+ x +:+ " -L " +:+ p +:+ " -n --line-numbers -t " +:+ t
      +:+ " 2> /dev/null | awk 'int($1) == 1 && $2 == " +:+ q +:+ c +:+ q
      +:+ " { found=1 } END { if(found==1) { exit 0 } else { exit 1 } }' ; then "
      +:+ x +:+ " -I " +:+ p +:+ " -j " +:+ c +:+ " -t " +:+ t +:+ " && "
      +:+ x +:+ " -L " +:+ p +:+ " -n --line-numbers -t " +:+ t
      +:+ " 2> /dev/null | awk 'int($1) > 1 && $2 == " +:+ q +:+ c +:+ q +:+ " { print $1; exit }' | xargs "
      +:+ x +:+ " -t " +:+ t +:+ " -D " +:+ p +:+ " ; fi"
  | SLinkLast v p c t =>
      let x := getCommand v in
      "if ! " +:+ x +:+ " -C " +:+ p +:+ " -j " +:+ c +:+ " -t " +:+ t +:+ " 2> /dev/null ; then "
      +:+ x +:+ " -A " +:+ p +:+ " -j " +:+ c +:+ " -t " +:+ t +:+ "; fi"
  | SUnlink v p c t =>
      let x := getCommand v in
      "if " +:+ x +:+ " -C " +:+ p +:+ " -j " +:+ c +:+ " -t " +:+ t +:+ " 2> /dev/null ; then "
      +:+ x +:+ " -D " +:+ p +:+ " -j " +:+ c +:+ " -t " +:+ t +:+ "; fi"
  | SAppend v c r t =>
      getCommand v +:+ " -A " +:+ c +:+ " " +:+ ruleText r +:+ " -t " +:+ t
  | SEnable v a t =>
      let x := getCommand v in
      "if " +:+ x +:+ " -C " +:+ anchorChain a +:+ " -j " +:+ actualChain a +:+ " -t " +:+ t
      +:+ " 2> /dev/null ; then echo '" +:+ a +:+ ipStr v +:+ ": ON' ; else echo '" +:+ a +:+ ipStr v
      +:+ ": OFF -> ON' ; " +:+ x +:+ " -A " +:+ anchorChain a +:+ " -j " +:+ actualChain a
      +:+ " -t " +:+ t +:+ "; fi"
  | SDisable v a t =>
      let x := getCommand v in
      "if ! " +:+ x +:+ " -C " +:+ anchorChain a +:+ " -j " +:+ actualChain a +:+ " -t " +:+ t
      +:+ " 2> /dev/null ; then echo '" +:+ a +:+ ipStr v +:+ ": OFF' ; else echo '" +:+ a +:+ ipStr v
      +:+ ": ON -> OFF' ; " +:+ x +:+ " -F " +:+ anchorChain a +:+ " -t " +:+ t +:+ "; fi"
  | SReplace v a r t =>
      getCommand v +:+ " -R " +:+ actualChain a +:+ " 1 " +:+ ruleText r +:+ " -t " +:+ t
      +:+ " ; echo 'Replaced rule " +:+ actualChain a +:+ " " +:+ ipStr v +:+ " with " +:+ ruleText r +:+ "'"
  | SIsEnabled v a t =>
      getCommand v +:+ " -C " +:+ anchorChain a +:+ " -j " +:+ actualChain a +:+ " -t " +:+ t +:+ " 2> /dev/null"
  | SCheckRoot p c => "iptables -C " +:+ p +:+ " -j " +:+ c +:+ " 2> /dev/null"
  | SFlushFilter v c => getCommand v +:+ " -F " +:+ c
  | SAppendFilter v c r => getCommand v +:+ " -A " +:+ c +:+ " " +:+ ruleText r
  | SOther t => t
  end.

(** ** The chains, and what a script does to them *)

(** Chains by family ([true] for IPv6), table and name. *)
Abbreviation Key := (bool * string * string)%type.
Abbreviation Chains := (gmap Key (list Rule)).

Section Step.
(** Which rules the command line parser of [iptables]/[ip6tables] takes
    (an address of the wrong family, or no address at all, is an error). *)
Variable parses : bool -> Rule -> bool.

Definition builtin (target : string) : bool :=
  bool_decide (target ∈ ["ACCEPT"; "REJECT"; "DROP"; "RETURN"; "MASQUERADE"; "MARK"]%string).

(** A rule can be added when it parses and its target exists. *)
Definition usable (fw : Chains) (six : bool) (table : string) (r : Rule) : bool :=
  parses six r && (builtin (r_target r) || bool_decide (is_Some (fw !! (six, table, r_target r)))).

(** [-A chain rule], [-I chain rule], [-F chain], [-C chain rule] *)
Definition append (six : bool) (table chain : string) (r : Rule) (fw : Chains) : bool * Chains :=
  match fw !! (six, table, chain) with
  | Some rules => if usable fw six table r then (true, <[(six, table, chain) := rules ++ [r]]> fw) else (false, fw)
  | None => (false, fw)
  end.
Definition insertTop (six : bool) (table chain : string) (r : Rule) (fw : Chains) : bool * Chains :=
  match fw !! (six, table, chain) with
  | Some rules => if usable fw six table r then (true, <[(six, table, chain) := r :: rules]> fw) else (false, fw)
  | None => (false, fw)
  end.
Definition flush (six : bool) (table chain : string) (fw : Chains) : bool * Chains :=
  match fw !! (six, table, chain) with
  | Some _ => (true, <[(six, table, chain) := []]> fw)
  | None => (false, fw)
  end.
Definition checkRule (six : bool) (table chain : string) (r : Rule) (fw : Chains) : bool :=
  match fw !! (six, table, chain) with
  | Some rules => bool_decide (r ∈ rules)
  | None => false
  end.

(** Drop the first element that satisfies [P]. *)
Fixpoint dropFirst (P : Rule -> bool) (l : list Rule) : list Rule :=
  match l with
  | [] => []
  | r :: l' => if P r then l' else r :: dropFirst P l'
  end.

(** Some rule of the table jumps to the chain. *)
Definition referenced (fw : Chains) (six : bool) (table chain : string) : bool :=
  bool_decide (Exists (fun kv : Key * list Rule =>
    kv.1.1 = (six, table) /\ chain ∈ map r_target kv.2) (map_to_list fw)).

Definition exitCode (ok : bool) : Z := if ok then 0 else 1.

Definition step (s : Script) (fw : Chains) : Z * Chains :=
  match s with
  | SCreate v c t =>
      match fw !! (v, t, c) with
      | None => (0, <[(v, t, c) := []]> fw)
      | Some _ => (0, (flush v t c fw).2)
      end
  | SDelete v c t =>
      match fw !! (v, t, c) with
      | None => (0, fw)
      | Some _ =>
          let fw' := (flush v t c fw).2 in
          if referenced fw' v t c then (1, fw') else (0, delete (v, t, c) fw')
      end
  | SLinkFirst v p c t =>
      match fw !! (v, t, p) with
      | None => (1, fw)
      | Some rules =>
          if bool_decide (option_map r_target (head rules) = Some c) then (0, fw)
          else
            let '(ok, fw') := insertTop v t p (jumpTo c) fw in
            if ok then
              (exitCode (bool_decide (c ∈ map r_target rules)),
               <[(v, t, p) := jumpTo c :: dropFirst (fun r => String.eqb (r_target r) c) rules]> fw')
            else (1, fw)
      end
  | SLinkLast v p c t =>
      if checkRule v t p (jumpTo c) fw then (0, fw)
      else let '(ok, fw') := append v t p (jumpTo c) fw in (exitCode ok, fw')
  | SUnlink v p c t =>
      if checkRule v t p (jumpTo c) fw then
        (0, match fw !! (v, t, p) with
            | Some rules => <[(v, t, p) := dropFirst (fun r => bool_decide (r = jumpTo c)) rules]> fw
            | None => fw
            end)
      else (0, fw)
  | SAppend v c r t => let '(ok, fw') := append v t c r fw in (exitCode ok, fw')
  | SEnable v a t =>
      if checkRule v t (anchorChain a) (jumpTo (actualChain a)) fw then (0, fw)
      else let '(ok, fw') := append v t (anchorChain a) (jumpTo (actualChain a)) fw in (exitCode ok, fw')
  | SDisable v a t =>
      if negb (checkRule v t (anchorChain a) (jumpTo (actualChain a)) fw) then (0, fw)
      else let '(ok, fw') := flush v t (anchorChain a) fw in (exitCode ok, fw')
  | SReplace v a r t =>
      match fw !! (v, t, actualChain a) with
      | Some (_ :: rules) =>
          if usable fw v t r then (0, <[(v, t, actualChain a) := r :: rules]> fw) else (0, fw)
      | _ => (0, fw)
      end
  | SIsEnabled v a t =>
      (exitCode (checkRule v t (anchorChain a) (jumpTo (actualChain a)) fw), fw)
  | SCheckRoot p c => (exitCode (checkRule false "filter" p (jumpTo c) fw), fw)
  | SFlushFilter v c => let '(ok, fw') := flush v "filter" c fw in (exitCode ok, fw')
  | SAppendFilter v c r => let '(ok, fw') := append v "filter" c r fw in (exitCode ok, fw')
  | SOther _ => (0, fw)
  end.
End Step.

(** ** Packets *)

Record Packet : Type := mkPacket {
  p_six : bool;
  p_out : string;
  p_dst : QHostAddress;
  p_proto : string;
  p_sport : Z;
  p_dport : Z
}.

Inductive Verdict : Type := Accept | Reject.

#[export] Instance Verdict_eq_dec : EqDecision Verdict.
Proof. solve_decision. Defined.

Section Traverse.
(** [-d net]: the address lies in the network. *)
Variable inNet : string -> QHostAddress -> bool.

(** A trailing [+] in an interface name matches any continuation. *)
Fixpoint ifaceMatches (pat name : string) : bool :=
  match pat, name with
  | String "+" EmptyString, _ => true
  | EmptyString, EmptyString => true
  | String a pat', String b name' => Ascii.eqb a b && ifaceMatches pat' name'
  | _, _ => false
  end.

Definition matches (m : Match) (p : Packet) : bool :=
  match m with
  | MOut neg i => xorb neg (ifaceMatches i (p_out p))
  | MDst n => inNet n (p_dst p)
  | MProto s => String.eqb s (p_proto p)
  | MSport n => n =? p_sport p
  | MDport n => n =? p_dport p
  | MCgroup _ => false
  end.
Definition ruleMatches (r : Rule) (p : Packet) : bool := forallb (fun m => matches m p) (r_matches r).

(** First match along a list of rules; [call c] is the outcome of a jump. *)
Fixpoint runRules (call : string -> option Verdict) (rules : list Rule) (p : Packet) : option Verdict :=
  match rules with
  | [] => None
  | r :: rules' =>
      if ruleMatches r p then
        if String.eqb (r_target r) "ACCEPT" then Some Accept
        else if String.eqb (r_target r) "REJECT" || String.eqb (r_target r) "DROP" then Some Reject
        else match call (r_target r) with
             | Some v => Some v
             | None => runRules call rules' p
             end
      else runRules call rules' p
  end.

(** The outcome of a chain of the filter table; jumps nest to a depth of
    [fuel]. *)
Fixpoint traverse (fuel : nat) (fw : Chains) (chain : string) (p : Packet) : option Verdict :=
  match fuel with
  | O => None
  | S fuel' =>
      match fw !! (p_six p, "filter"%string, chain) with
      | Some rules => runRules (fun c => traverse fuel' fw c p) rules p
      | None => None
      end
  end.
End Traverse.
