(* ===== verification/Firewall.v ===== *)
(** * The Linux firewall: [client/platforms/linux/daemon/linuxfirewall.cpp]

    The class keeps one root chain with a placeholder ("anchor") chain per
    rule set, in a fixed order, and enables a rule set by linking it into its
    anchor.  The first part translates the class, call by call; the shell it
    runs is a parameter.  The second part is its contract: [Anchors], the set
    of enabled anchors and the rules of each, with the abstract operations on
    it, and the proof that the chains the scripts leave behind implement it,
    packet by packet. *)

From Stdlib Require Import ZArith Lia Bool String Ascii.
From stdpp Require Import base gmap strings list pretty.
From S2P Require Import Prelude.
From S2P Require Import Qt.
From S2P Require Import QtInstance.
From S2P Require Import Iptables.

Open Scope Z_scope.

(** [/bin/bash -c text], where [text] is [scriptText] of the script; the
    result is the exit code. *)
Class Shell (W : Type) := bash : Script -> ST W Z.

Inductive IPVersion : Type := IPv4 | IPv6 | Both.

(** The functions registered with [installAnchor]. *)
Inductive Callback : Type := CbSetupTrafficSplitting | CbTeardownTrafficSplitting.

Section Code.
Context {W : Type} `{!Shell W} `{Qt}.

(** The state: the static [anchorCallbacks] table, and the machine. *)
Record Fw : Type := mkFw { anchorCallbacks : gmap string Callback; fw_world : W }.

Definition execute (s : Script) : ST Fw Z := fun st =>
  let '(code, w) := bash s (fw_world st) in (code, mkFw (anchorCallbacks st) w).

Definition kRtableName : string := kAnchorName +:+ "rt".
Definition kOutputChain : string := "OUTPUT".
Definition kPostRoutingChain : string := "POSTROUTING".
Definition kPreRoutingChain : string := "PREROUTING".
Definition kRootChain : string := kAnchorName +:+ ".anchors".
Definition kFilterTable : string := "filter".
Definition kNatTable : string := "nat".
Definition kRawTable : string := "raw".
Definition kMangleTable : string := "mangle".
Definition kPacketTag : string := "0x3211".
Definition kCGroupId : string := "0x567".

(** [if (ip == Both) { r4 = f(IPv4); r6 = f(IPv6); return r4 ? r4 : r6; }] *)
Definition families (ip : IPVersion) (f : bool -> ST Fw Z) : ST Fw Z :=
  match ip with
  | IPv4 => f false
  | IPv6 => f true
  | Both => result4 ← f false; result6 ← f true; mret (if result4 =? 0 then result6 else result4)
  end.
Definition families_ (ip : IPVersion) (f : bool -> ST Fw unit) : ST Fw unit :=
  match ip with
  | IPv4 => f false
  | IPv6 => f true
  | Both => f false ;; f true
  end.

Definition createChain (ip : IPVersion) (chain tableName : string) : ST Fw Z :=
  families ip (fun v => execute (SCreate v chain tableName)).
Definition deleteChain (ip : IPVersion) (chain tableName : string) : ST Fw Z :=
  families ip (fun v => execute (SDelete v chain tableName)).
Definition linkChain (ip : IPVersion) (chain parent : string) (mustBeFirst : bool) (tableName : string) : ST Fw Z :=
  families ip (fun v =>
    if mustBeFirst then execute (SLinkFirst v parent chain tableName)
    else execute (SLinkLast v parent chain tableName)).
Definition unlinkChain (ip : IPVersion) (chain parent tableName : string) : ST Fw Z :=
  families ip (fun v => execute (SUnlink v parent chain tableName)).

Definition ensureRootAnchorPriority (ip : IPVersion) : ST Fw unit :=
  linkChain ip kRootChain kOutputChain true kFilterTable ;; mret tt.

Definition enabledKey (tableName anchor : string) : string := "enabled:" +:+ tableName +:+ ":" +:+ anchor.
Definition disabledKey (tableName anchor : string) : string := "disabled:" +:+ tableName +:+ ":" +:+ anchor.

(** [if (f && !anchorCallbacks.contains(key)) anchorCallbacks[key] = f] *)
Definition registerCallback (key : string) (f : option Callback) : ST Fw unit :=
  modify (fun st =>
    match f, anchorCallbacks st !! key with
    | Some f, None => mkFw (<[key := f]> (anchorCallbacks st)) (fw_world st)
    | _, _ => st
    end).

Definition installAnchorIn (v : bool) (anchor : string) (rules : list Rule) (tableName : string)
  (enableFunc disableFunc : option Callback) : ST Fw unit :=
  let ip := if v then IPv6 else IPv4 in
  createChain ip (anchorChain anchor) tableName ;;
  linkChain ip (anchorChain anchor) kRootChain false tableName ;;
  registerCallback (enabledKey tableName anchor) enableFunc ;;
  registerCallback (disabledKey tableName anchor) disableFunc ;;
  createChain ip (actualChain anchor) tableName ;;
  forEach (fun r => execute (SAppend v (actualChain anchor) r tableName) ;; mret tt) rules.

Definition installAnchor (ip : IPVersion) (anchor : string) (rules : list Rule) (tableName : string)
  (enableFunc disableFunc : option Callback) : ST Fw unit :=
  families_ ip (fun v => installAnchorIn v anchor rules tableName enableFunc disableFunc).

Definition uninstallAnchor (ip : IPVersion) (anchor tableName : string) : ST Fw unit :=
  families_ ip (fun v =>
    let ip := if v then IPv6 else IPv4 in
    unlinkChain ip (anchorChain anchor) kRootChain tableName ;;
    deleteChain ip (anchorChain anchor) tableName ;;
    deleteChain ip (actualChain anchor) tableName ;; mret tt).

Definition getDNSRules (servers : list string) : list Rule :=
  flat_map (fun server =>
    [ on [MOut false "frkn0+"; MDst server; MProto "udp"; MDport 53] "ACCEPT";
      on [MOut false "frkn0+"; MDst server; MProto "tcp"; MDport 53] "ACCEPT";
      on [MOut false "tun0+"; MDst server; MProto "udp"; MDport 53] "ACCEPT";
      on [MOut false "tun0+"; MDst server; MProto "tcp"; MDport 53] "ACCEPT";
      on [MOut false "tun2+"; MDst server; MProto "udp"; MDport 53] "ACCEPT";
      on [MOut false "tun2+"; MDst server; MProto "tcp"; MDport 53] "ACCEPT" ]) servers.
Definition getAllowRule (servers : list string) : list Rule := map (fun s => on [MDst s] "ACCEPT") servers.
Definition getBlockRule (servers : list string) : list Rule := map (fun s => on [MDst s] "REJECT") servers.

Definition setupTrafficSplitting : ST Fw unit :=
  let cGroupDir := "/sys/fs/cgroup/net_cls/frkvpnexclusions/" in
  execute (SOther ("if [ ! -d " +:+ cGroupDir +:+ " ] ; then mkdir " +:+ cGroupDir
    +:+ " ; sleep 0.1 ; echo " +:+ kCGroupId +:+ " > " +:+ cGroupDir +:+ "/net_cls.classid ; fi")) ;;
  execute (SOther ("if ! ip rule list | grep -q " +:+ kPacketTag +:+ " ; then ip rule add from all fwmark "
    +:+ kPacketTag +:+ " lookup " +:+ kRtableName +:+ " pri 100 ; fi")) ;;
  mret tt.

Definition teardownTrafficSplitting : ST Fw unit :=
  execute (SOther ("if ip rule list | grep -q " +:+ kPacketTag +:+ "; then ip rule del from all fwmark "
    +:+ kPacketTag +:+ " lookup " +:+ kRtableName +:+ " 2> /dev/null ; fi")) ;;
  execute (SOther ("ip route flush table " +:+ kRtableName)) ;;
  execute (SOther "ip route flush cache") ;;
  mret tt.

Definition uninstall : ST Fw unit :=
  unlinkChain Both kRootChain kOutputChain kFilterTable ;;
  deleteChain Both kRootChain kFilterTable ;;
  unlinkChain Both kRootChain kPreRoutingChain kRawTable ;;
  deleteChain Both kRootChain kRawTable ;;
  unlinkChain Both kRootChain kPostRoutingChain kNatTable ;;
  deleteChain Both kRootChain kNatTable ;;
  unlinkChain Both kRootChain kOutputChain kMangleTable ;;
  deleteChain Both kRootChain kMangleTable ;;
  uninstallAnchor Both "000.allowLoopback" kFilterTable ;;
  uninstallAnchor Both "400.allowPIA" kFilterTable ;;
  uninstallAnchor IPv4 "320.allowDNS" kFilterTable ;;
  uninstallAnchor Both "310.blockDNS" kFilterTable ;;
  uninstallAnchor Both "300.allowLAN" kFilterTable ;;
  uninstallAnchor Both "290.allowDHCP" kFilterTable ;;
  uninstallAnchor IPv6 "250.blockIPv6" kFilterTable ;;
  uninstallAnchor Both "200.allowVPN" kFilterTable ;;
  uninstallAnchor IPv4 "120.blockNets" kFilterTable ;;
  uninstallAnchor Both "110.allowNets" kFilterTable ;;
  uninstallAnchor Both "100.blockAll" kFilterTable ;;
  uninstallAnchor Both "100.transIp" kNatTable ;;
  uninstallAnchor Both "100.tagPkts" kMangleTable ;;
  uninstallAnchor Both "100.vpnTunOnly" kRawTable ;;
  teardownTrafficSplitting.

Definition loopbackRules : list Rule := [on [MOut false "lo+"] "ACCEPT"].
Definition blockDNSRules : list Rule :=
  [on [MProto "udp"; MDport 53] "REJECT"; on [MProto "tcp"; MDport 53] "REJECT"].
Definition lanRules4 : list Rule :=
  map (fun n => on [MDst n] "ACCEPT")
    ["10.0.0.0/8"; "169.254.0.0/16"; "172.16.0.0/12"; "192.168.0.0/16"; "224.0.0.0/4"; "255.255.255.255/32"].
Definition lanRules6 : list Rule :=
  map (fun n => on [MDst n] "ACCEPT") ["fc00::/7"; "fe80::/10"; "ff00::/8"].
Definition dhcpRules4 : list Rule :=
  [on [MProto "udp"; MDst "255.255.255.255"; MSport 68; MDport 67] "ACCEPT"].
Definition dhcpRules6 : list Rule :=
  [on [MProto "udp"; MDst "ff00::/8"; MSport 546; MDport 547] "ACCEPT"].
Definition blockIPv6Rules : list Rule := [on [MOut true "lo+"] "REJECT"].
Definition vpnRules : list Rule :=
  [on [MOut false "frkn0+"] "ACCEPT"; on [MOut false "tun0+"] "ACCEPT"; on [MOut false "tun2+"] "ACCEPT"].
Definition blockAllRules : list Rule := [on [] "REJECT"].

Definition installFilter (ip : IPVersion) (anchor : string) (rules : list Rule) : ST Fw unit :=
  installAnchor ip anchor rules kFilterTable None None.

Definition install : ST Fw unit :=
  uninstall ;;
  createChain Both kRootChain kFilterTable ;;
  createChain Both kRootChain kRawTable ;;
  createChain Both kRootChain kNatTable ;;
  createChain Both kRootChain kMangleTable ;;
  installFilter Both "000.allowLoopback" loopbackRules ;;
  installFilter IPv4 "320.allowDNS" [] ;;
  installFilter Both "310.blockDNS" blockDNSRules ;;
  installFilter IPv4 "300.allowLAN" lanRules4 ;;
  installFilter IPv6 "300.allowLAN" lanRules6 ;;
  installFilter IPv4 "290.allowDHCP" dhcpRules4 ;;
  installFilter IPv6 "290.allowDHCP" dhcpRules6 ;;
  installFilter IPv6 "250.blockIPv6" blockIPv6Rules ;;
  installFilter Both "200.allowVPN" vpnRules ;;
  installFilter IPv4 "120.blockNets" [] ;;
  installFilter Both "110.allowNets" [] ;;
  installFilter Both "100.blockAll" blockAllRules ;;
  installAnchor Both "100.transIp" [on [] "MASQUERADE"] kNatTable None None ;;
  installAnchor Both "100.tagPkts" [mkRule [MCgroup kCGroupId] "MARK" ("--set-mark " +:+ kPacketTag)] kMangleTable
    (Some CbSetupTrafficSplitting) (Some CbTeardownTrafficSplitting) ;;
  installAnchor Both "100.vpnTunOnly" [on [] "ACCEPT"] kRawTable None None ;;
  linkChain Both kRootChain kOutputChain true kFilterTable ;;
  linkChain Both kRootChain kPostRoutingChain true kNatTable ;;
  linkChain Both kRootChain kOutputChain true kMangleTable ;;
  linkChain Both kRootChain kPreRoutingChain true kRawTable ;;
  setupTrafficSplitting.

Definition isInstalled : ST Fw bool :=
  code ← execute (SCheckRoot kOutputChain kRootChain); mret (code =? 0).

Definition enableAnchor (ip : IPVersion) (anchor tableName : string) : ST Fw unit :=
  families_ ip (fun v => execute (SEnable v anchor tableName) ;; mret tt).
Definition replaceAnchor (ip : IPVersion) (anchor : string) (newRule : Rule) (tableName : string) : ST Fw unit :=
  families_ ip (fun v => execute (SReplace v anchor newRule tableName) ;; mret tt).
Definition disableAnchor (ip : IPVersion) (anchor tableName : string) : ST Fw unit :=
  families_ ip (fun v => execute (SDisable v anchor tableName) ;; mret tt).
Definition isAnchorEnabled (ip : IPVersion) (anchor tableName : string) : ST Fw bool :=
  let six := match ip with IPv6 => true | _ => false end in
  code ← execute (SIsEnabled six anchor tableName); mret (code =? 0).

Definition runCallback (key : string) : ST Fw unit :=
  cbs ← gets anchorCallbacks;
  match cbs !! key with
  | Some CbSetupTrafficSplitting => setupTrafficSplitting
  | Some CbTeardownTrafficSplitting => teardownTrafficSplitting
  | None => mret tt
  end.

Definition setAnchorEnabled (ip : IPVersion) (anchor : string) (enabled : bool) (tableName : string) : ST Fw unit :=
  if enabled then enableAnchor ip anchor tableName ;; runCallback (enabledKey tableName anchor)
  else disableAnchor ip anchor tableName ;; runCallback (disabledKey tableName anchor).

(** Flush a rule chain of the filter table and append the new rules. *)
Definition refill (v : bool) (anchor : string) (rules : list Rule) : ST Fw unit :=
  execute (SFlushFilter v (actualChain anchor)) ;;
  forEach (fun r => execute (SAppendFilter v (actualChain anchor) r) ;; mret tt) rules.

Definition updateDNSServers (servers : list string) : ST Fw unit :=
  refill false "320.allowDNS" (getDNSRules servers).

Definition isIpv6Server (server : string) : bool :=
  bool_decide (protocol (parseHost (trimmed (nth 0 (split "/" server) ""))) = IPv6Protocol).

Definition updateAllowNets (servers : list string) : ST Fw unit :=
  let ipv6Rules := map (fun s => on [MDst s] "ACCEPT") (List.filter isIpv6Server servers) in
  let ipv4Rules := map (fun s => on [MDst s] "ACCEPT") (List.filter (fun s => negb (isIpv6Server s)) servers) in
  refill false "110.allowNets" ipv4Rules ;; refill true "110.allowNets" ipv6Rules.

Definition updateBlockNets (servers : list string) : ST Fw unit :=
  refill false "120.blockNets" (getBlockRule servers).
End Code.
Arguments Fw : clear implicits.

(** ** The contract *)

(** The anchors of a family in the order of the root chain: a packet gets the
    verdict of the first enabled anchor with a rule that matches it. *)
Definition anchorNames (six : bool) : list string :=
  if six then
    ["000.allowLoopback"; "310.blockDNS"; "300.allowLAN"; "290.allowDHCP"; "250.blockIPv6";
     "200.allowVPN"; "110.allowNets"; "100.blockAll"]
  else
    ["000.allowLoopback"; "320.allowDNS"; "310.blockDNS"; "300.allowLAN"; "290.allowDHCP";
     "200.allowVPN"; "120.blockNets"; "110.allowNets"; "100.blockAll"].

Record Anchors : Type := mkAnchors {
  enabled : gset (bool * string);
  arules : bool -> string -> list Rule
}.

Section Contract.
Variable inNet : string -> QHostAddress -> bool.

Fixpoint firstMatch (A : Anchors) (names : list string) (p : Packet) : option Verdict :=
  match names with
  | [] => None
  | n :: names' =>
      let rest := firstMatch A names' p in
      if bool_decide ((p_six p, n) ∈ enabled A) then
        match runRules inNet (fun _ => None) (arules A (p_six p) n) p with
        | Some v => Some v
        | None => rest
        end
      else rest
  end.

(** What the enabled anchors say about a packet. *)
Definition anchorVerdict (A : Anchors) (p : Packet) : option Verdict :=
  firstMatch A (anchorNames (p_six p)) p.
End Contract.

(** The abstract operations. *)
Definition inFamily (ip : IPVersion) (six : bool) : bool :=
  match ip with IPv4 => negb six | IPv6 => six | Both => true end.

Definition aSetIn (six : bool) (n : string) (b : bool) (A : Anchors) : Anchors :=
  if bool_decide (n ∈ anchorNames six) then
    mkAnchors (if b then {[(six, n)]} ∪ enabled A else enabled A ∖ {[(six, n)]}) (arules A)
  else A.
Definition aSet (ip : IPVersion) (n : string) (b : bool) (A : Anchors) : Anchors :=
  let A := if inFamily ip false then aSetIn false n b A else A in
  if inFamily ip true then aSetIn true n b A else A.
Definition aRules (six : bool) (n : string) (rs : list Rule) (A : Anchors) : Anchors :=
  mkAnchors (enabled A) (fun s m => if bool_decide ((s, m) = (six, n)) then rs else arules A s m).

(** The state right after [install]: every anchor off, with its rules. *)
Definition initialRules (six : bool) (n : string) : list Rule :=
  if String.eqb n "000.allowLoopback" then loopbackRules
  else if String.eqb n "310.blockDNS" then blockDNSRules
  else if String.eqb n "300.allowLAN" then (if six then lanRules6 else lanRules4)
  else if String.eqb n "290.allowDHCP" then (if six then dhcpRules6 else dhcpRules4)
  else if String.eqb n "250.blockIPv6" then (if six then blockIPv6Rules else [])
  else if String.eqb n "200.allowVPN" then vpnRules
  else if String.eqb n "100.blockAll" then blockAllRules
  else [].
Definition initialAnchors : Anchors := mkAnchors ∅ initialRules.

(** The operations on an installed firewall, concrete and abstract. *)
Inductive FwOp : Type :=
| OpSet (ip : IPVersion) (anchor : string) (b : bool)
| OpDns (servers : list string)
| OpAllow (servers : list string)
| OpBlock (servers : list string)
| OpPriority (ip : IPVersion).

Definition runOp {W} `{!Shell W} `{Qt} (o : FwOp) : ST (Fw W) unit :=
  match o with
  | OpSet ip n b => setAnchorEnabled ip n b kFilterTable
  | OpDns l => updateDNSServers l
  | OpAllow l => updateAllowNets l
  | OpBlock l => updateBlockNets l
  | OpPriority ip => ensureRootAnchorPriority ip
  end.

Definition runOps {W} `{!Shell W} `{Qt} (l : list FwOp) : ST (Fw W) unit := forEach runOp l.

Definition aOp `{Qt} (parses : bool -> Rule -> bool) (o : FwOp) (A : Anchors) : Anchors :=
  match o with
  | OpSet ip n b => aSet ip n b A
  | OpDns l => aRules false "320.allowDNS" (List.filter (parses false) (getDNSRules l)) A
  | OpAllow l =>
      aRules true "110.allowNets" (List.filter (parses true) (getAllowRule (List.filter isIpv6Server l)))
        (aRules false "110.allowNets"
          (List.filter (parses false) (getAllowRule (List.filter (fun s => negb (isIpv6Server s)) l))) A)
  | OpBlock l => aRules false "120.blockNets" (List.filter (parses false) (getBlockRule l)) A
  | OpPriority _ => A
  end.

(** The shell runs the scripts as documented: [chains w] are the kernel's
    chains, and the fixed rules of [install] and plain jumps are accepted. *)
Class IptablesLaws {W} (S : Shell W) (parses : bool -> Rule -> bool) := {
  chains : W -> Chains;
  bash_step : forall s w,
    (bash s w).1 = (step parses s (chains w)).1
    /\ chains (bash s w).2 = (step parses s (chains w)).2;
  jump_parses : forall six c, parses six (jumpTo c) = true;
  fixed_parse : forall six n, n ∈ anchorNames six -> Forall (fun r => parses six r = true) (initialRules six n)
}.

(** ** Chain names *)

Lemma app_inj_l (s a b : string) : s +:+ a = s +:+ b -> a = b.
Proof.
  induction s as [| d s IH]; rewrite ?string_app_nil, ?string_app_cons; [done |].
  intros [= Hs]. by apply IH.
Qed.

Lemma anchorChain_inj a b : anchorChain a = anchorChain b -> a = b.
Proof. unfold anchorChain. intros E. by do 2 apply app_inj_l in E. Qed.
Lemma actualChain_inj a b : actualChain a = actualChain b -> a = b.
Proof. unfold actualChain. intros E. by do 2 apply app_inj_l in E. Qed.

(** The name of an anchor starts with a digit. *)
Lemma names_digit n six : n ∈ anchorNames six -> exists d s,
  n = String d s /\ Ascii.eqb d "a" = false.
Proof.
  intros Hn. assert (Hall : Forall (fun n => match n with String d _ => Ascii.eqb d "a" | _ => true end = false)
    (anchorNames six)) by (destruct six; by repeat constructor).
  rewrite Forall_forall in Hall. specialize (Hall n Hn). destruct n; [done |]. by eexists _, _.
Qed.

Lemma anchor_not_actual six n m : m ∈ anchorNames six -> anchorChain n <> actualChain m.
Proof.
  intros (d & s & -> & Hd)%names_digit E. unfold anchorChain, actualChain in E.
  apply app_inj_l in E. rewrite !string_app_cons, ?string_app_nil in E.
  injection E as E1 _. by subst.
Qed.

Lemma anchor_not_root n : anchorChain n <> kRootChain.
Proof.
  unfold anchorChain, kRootChain. intros E. apply app_inj_l in E.
  rewrite !string_app_cons in E. discriminate.
Qed.

Lemma actual_not_root six m : m ∈ anchorNames six -> actualChain m <> kRootChain.
Proof.
  intros (d & s & -> & Hd)%names_digit E. unfold actualChain, kRootChain in E.
  apply app_inj_l in E. rewrite !string_app_cons, string_app_nil in E. injection E as E1 _. by subst.
Qed.

Lemma anchor_not_output n : anchorChain n <> kOutputChain.
Proof. unfold anchorChain, kAnchorName. by rewrite !string_app_cons. Qed.
Lemma actual_not_output n : actualChain n <> kOutputChain.
Proof. unfold actualChain, kAnchorName. by rewrite !string_app_cons. Qed.

#[export] Hint Resolve anchor_not_actual anchor_not_root actual_not_root
  anchor_not_output actual_not_output : dopamine.

(** ** Frame: a script touches the chains of one family and table only *)

Definition scope (s : Script) : option (bool * string) :=
  match s with
  | SCreate v _ t | SDelete v _ t | SLinkFirst v _ _ t | SLinkLast v _ _ t | SUnlink v _ _ t
  | SAppend v _ _ t | SEnable v _ t | SDisable v _ t | SReplace v _ _ t | SIsEnabled v _ t => Some (v, t)
  | SFlushFilter v _ | SAppendFilter v _ _ => Some (v, "filter"%string)
  | SCheckRoot _ _ | SOther _ => None
  end.

Section Frame.
Variable parses : bool -> Rule -> bool.

Lemma append_frame v t c r fw k : k.1 <> (v, t) -> (append parses v t c r fw).2 !! k = fw !! k.
Proof.
  intros Hk. unfold append. repeat case_match; simpl; try done.
  apply lookup_insert_ne. intros <-. by apply Hk.
Qed.
Lemma insertTop_frame v t c r fw k : k.1 <> (v, t) -> (insertTop parses v t c r fw).2 !! k = fw !! k.
Proof.
  intros Hk. unfold insertTop. repeat case_match; simpl; try done.
  apply lookup_insert_ne. intros <-. by apply Hk.
Qed.
Lemma flush_frame v t c fw k : k.1 <> (v, t) -> (flush v t c fw).2 !! k = fw !! k.
Proof.
  intros Hk. unfold flush. repeat case_match; simpl; try done.
  apply lookup_insert_ne. intros <-. by apply Hk.
Qed.

Lemma step_frame s fw (k : Key) :
  (forall vt, scope s = Some vt -> k.1 <> vt) -> (step parses s fw).2 !! k = fw !! k.
Proof.
  intros Hk.
  assert (Hins : forall v t c x (m : Chains), scope s = Some (v, t) -> <[(v, t, c) := x]> m !! k = m !! k).
  { intros v t c x m Hs. apply lookup_insert_ne. intros <-. by apply (Hk _ Hs). }
  assert (Hdel : forall v t c (m : Chains), scope s = Some (v, t) -> delete (v, t, c) m !! k = m !! k).
  { intros v t c m Hs. apply lookup_delete_ne. intros <-. by apply (Hk _ Hs). }
  destruct s; simpl in *; try done.
  all: try match goal with |- context [append _ ?v ?t ?c ?r ?m] =>
    pose proof (append_frame v t c r m k (Hk _ eq_refl)); destruct (append parses v t c r m); simpl in * end.
  all: try match goal with |- context [insertTop _ ?v ?t ?c ?r ?m] =>
    pose proof (insertTop_frame v t c r m k (Hk _ eq_refl)); destruct (insertTop parses v t c r m); simpl in * end.
  all: try match goal with |- context [flush ?v ?t ?c ?m] =>
    pose proof (flush_frame v t c m k (Hk _ eq_refl)); destruct (flush v t c m); simpl in * end.
  all: repeat case_match; simpl; rewrite ?Hins, ?Hdel by done; done.
Qed.
End Frame.

(** ** The invariant: chains that implement a set of anchors *)

(** The names this class uses. *)
Definition ours (c : string) : Prop := exists s, c = kAnchorName +:+ "." +:+ s.

Lemma ours_root : ours kRootChain.
Proof. by exists "anchors"%string. Qed.
Lemma ours_anchor n : ours (anchorChain n).
Proof. by exists ("a." +:+ n)%string. Qed.
Lemma ours_actual n : ours (actualChain n).
Proof. by exists n. Qed.
#[export] Hint Resolve ours_root ours_anchor ours_actual : dopamine.

Lemma prefixed_not_builtin s : builtin (kAnchorName +:+ s) = false.
Proof.
  apply bool_decide_eq_false. unfold kAnchorName. rewrite !string_app_cons.
  intros H. repeat (apply elem_of_cons in H as [H | H]; [discriminate |]). by apply elem_of_nil in H.
Qed.

Lemma builtin_not_ours c : builtin c = true -> ~ ours c.
Proof. intros Hb [s ->]. by rewrite prefixed_not_builtin in Hb. Qed.

Lemma output_not_ours : ~ ours kOutputChain.
Proof. by intros [s Hs]. Qed.

(** The chains of the anchor [m]. *)
Definition chainOf (m c : string) : Prop := c = anchorChain m \/ c = actualChain m.

Record implements (six : bool) (fw : Chains) (A : Anchors) (out : list Rule) : Prop := {
  impl_output : fw !! (six, kFilterTable, kOutputChain) = Some (jumpTo kRootChain :: out);
  impl_root : fw !! (six, kFilterTable, kRootChain)
    = Some (map (fun n => jumpTo (anchorChain n)) (anchorNames six));
  impl_anchor : forall n, n ∈ anchorNames six ->
    fw !! (six, kFilterTable, anchorChain n)
    = Some (if bool_decide ((six, n) ∈ enabled A) then [jumpTo (actualChain n)] else []);
  impl_actual : forall n, n ∈ anchorNames six ->
    fw !! (six, kFilterTable, actualChain n) = Some (arules A six n);
  impl_absent : forall n, n ∉ anchorNames six -> fw !! (six, kFilterTable, anchorChain n) = None;
  impl_ours : forall c, ours c -> is_Some (fw !! (six, kFilterTable, c)) ->
    c = kRootChain \/ exists m, m ∈ anchorNames six /\ chainOf m c;
  impl_refs : forall c rules r, fw !! (six, kFilterTable, c) = Some rules -> r ∈ rules -> ours (r_target r) ->
    (c = kOutputChain /\ r_target r = kRootChain) \/ c = kRootChain
    \/ exists m, m ∈ anchorNames six /\ c = anchorChain m /\ r_target r = actualChain m;
  impl_out : Forall (fun r => ~ ours (r_target r)) out
}.

Lemma implements_ext six fw fw' A A' out :
  implements six fw A out ->
  (forall c, fw' !! (six, kFilterTable, c) = fw !! (six, kFilterTable, c)) ->
  (forall n, (six, n) ∈ enabled A' <-> (six, n) ∈ enabled A) ->
  (forall n, arules A' six n = arules A six n) ->
  implements six fw' A' out.
Proof.
  intros [Ho Hr Ha Hc Hn Hou Hre Hout] He Hen Hru. split; intros; rewrite ?He; try done.
  - rewrite Ha by done. by rewrite (bool_decide_ext _ _ (Hen n)).
  - by rewrite Hc, Hru.
  - by apply Hn.
  - rewrite He in *. by apply Hou.
  - rewrite He in *. by eapply Hre.
Qed.

(** ** A packet sees the anchors *)

Section Packets.
Variable inNet : string -> QHostAddress -> bool.

Lemma runRules_jump call c rules p :
  builtin c = false ->
  runRules inNet call (jumpTo c :: rules) p =
    match call c with Some v => Some v | None => runRules inNet call rules p end.
Proof.
  intros Hb. simpl. unfold builtin in Hb. apply bool_decide_eq_false in Hb.
  destruct (String.eqb_spec c "ACCEPT") as [-> |]; [set_solver |].
  destruct (String.eqb_spec c "REJECT") as [-> |]; [set_solver |].
  destruct (String.eqb_spec c "DROP") as [-> |]; [set_solver |]. done.
Qed.

Lemma anchor_traverse six fw A out n p :
  implements six fw A out -> p_six p = six -> n ∈ anchorNames six ->
  traverse inNet 2 fw (anchorChain n) p =
    if bool_decide ((six, n) ∈ enabled A) then runRules inNet (fun _ => None) (arules A six n) p else None.
Proof.
  intros Hi Hp Hn. cbn [traverse]. change "filter"%string with kFilterTable.
  rewrite Hp, (impl_anchor _ _ _ _ Hi n Hn).
  case_bool_decide; [| done].
  rewrite runRules_jump by apply prefixed_not_builtin.
  rewrite (impl_actual _ _ _ _ Hi n Hn). by destruct (runRules _ _ _ _).
Qed.

Lemma names_traverse six fw A out p names :
  implements six fw A out -> p_six p = six -> (forall n, n ∈ names -> n ∈ anchorNames six) ->
  runRules inNet (fun c => traverse inNet 2 fw c p) (map (fun n => jumpTo (anchorChain n)) names) p
    = firstMatch inNet A names p.
Proof.
  intros Hi Hp. induction names as [| n names IH]; intros Hn; cbn [map firstMatch]; [done |].
  rewrite runRules_jump by apply prefixed_not_builtin.
  rewrite (anchor_traverse six fw A out) by (done || apply Hn; left).
  rewrite IH by (intros m Hm; apply Hn; by right). rewrite Hp.
  case_bool_decide; [| done]. by destruct (runRules _ _ _ _).
Qed.

(** The verdict of [OUTPUT] is the verdict of the anchors, then of the rules
    that were there before. *)
Lemma output_traverse fw A out p :
  implements (p_six p) fw A out ->
  traverse inNet 4 fw kOutputChain p =
    match anchorVerdict inNet A p with
    | Some v => Some v
    | None => runRules inNet (fun c => traverse inNet 3 fw c p) out p
    end.
Proof.
  intros Hi. change (traverse inNet 4 fw kOutputChain p) with
    (match fw !! (p_six p, kFilterTable, kOutputChain) with
     | Some rules => runRules inNet (fun c => traverse inNet 3 fw c p) rules p
     | None => None end).
  rewrite (impl_output _ _ _ _ Hi), runRules_jump by apply prefixed_not_builtin.
  replace (traverse inNet 3 fw kRootChain p) with (anchorVerdict inNet A p); [done |].
  change (traverse inNet 3 fw kRootChain p) with
    (match fw !! (p_six p, kFilterTable, kRootChain) with
     | Some rules => runRules inNet (fun c => traverse inNet 2 fw c p) rules p
     | None => None end).
  rewrite (impl_root _ _ _ _ Hi). symmetry. by eapply names_traverse.
Qed.
End Packets.

(** ** The operations preserve the invariant *)

(** Changing one chain of the filter table. *)
Lemma implements_insert six fw A out c x :
  implements six fw A out -> c <> kOutputChain -> c <> kRootChain ->
  forall A',
  (forall n, n ∈ anchorNames six -> if bool_decide (c = anchorChain n)
     then x = (if bool_decide ((six, n) ∈ enabled A') then [jumpTo (actualChain n)] else [])
     else bool_decide ((six, n) ∈ enabled A') = bool_decide ((six, n) ∈ enabled A)) ->
  (forall n, n ∈ anchorNames six ->
     arules A' six n = if bool_decide (c = actualChain n) then x else arules A six n) ->
  (exists m, m ∈ anchorNames six /\ chainOf m c) ->
  (forall r, r ∈ x -> ours (r_target r) ->
     exists m, m ∈ anchorNames six /\ c = anchorChain m /\ r_target r = actualChain m) ->
  implements six (<[(six, kFilterTable, c) := x]> fw) A' out.
Proof.
  intros [Ho Hr Ha Hc Hn Hou Hre Hout] Hco Hcr A' Hen Hru Hm Hx.
  assert (Hne : forall n, n ∉ anchorNames six -> c <> anchorChain n).
  { destruct Hm as (m & Hm & [-> | ->]); intros n Hni E.
    - apply anchorChain_inj in E. by subst.
    - by apply (anchor_not_actual six n m Hm). }
  assert (Hk : forall d, <[(six, kFilterTable, c) := x]> fw !! (six, kFilterTable, d)
    = if bool_decide (c = d) then Some x else fw !! (six, kFilterTable, d)).
  { intros d. case_bool_decide as E; [subst; apply lookup_insert_eq |].
    apply lookup_insert_ne. congruence. }
  split; intros; rewrite ?Hk.
  - by rewrite bool_decide_false.
  - by rewrite bool_decide_false.
  - specialize (Hen n ltac:(done)). case_bool_decide; [by rewrite Hen |].
    by rewrite Ha, Hen.
  - rewrite Hru by done. case_bool_decide; [done |]. by apply Hc.
  - rewrite bool_decide_false by auto. by apply Hn.
  - rewrite Hk in *. case_bool_decide; [subst; by right | by apply Hou].
  - rewrite Hk in *. case_bool_decide; [simplify_eq; right; right; by apply Hx | by eapply Hre].
  - done.
Qed.

Section Preserve.
Variable parses : bool -> Rule -> bool.
Hypothesis Hjump : forall six c, parses six (jumpTo c) = true.

Lemma checkRule_anchor six fw A out n :
  implements six fw A out -> n ∈ anchorNames six ->
  checkRule six kFilterTable (anchorChain n) (jumpTo (actualChain n)) fw
    = bool_decide ((six, n) ∈ enabled A).
Proof.
  intros Hi Hn. unfold checkRule. rewrite (impl_anchor _ _ _ _ Hi n Hn).
  case_bool_decide; case_bool_decide as Hr; set_solver.
Qed.

Lemma usable_actual six fw A out n :
  implements six fw A out -> n ∈ anchorNames six ->
  usable parses fw six kFilterTable (jumpTo (actualChain n)) = true.
Proof.
  intros Hi Hn. unfold usable. rewrite Hjump. cbn [jumpTo r_target].
  rewrite (impl_actual _ _ _ _ Hi n Hn).
  rewrite bool_decide_true by (by eexists). by rewrite orb_true_r.
Qed.

Lemma implements_same six fw A A' out :
  implements six fw A out ->
  (forall n, n ∈ anchorNames six -> ((six, n) ∈ enabled A' <-> (six, n) ∈ enabled A)) ->
  (forall n, n ∈ anchorNames six -> arules A' six n = arules A six n) ->
  implements six fw A' out.
Proof.
  intros [Ho Hr Ha Hc Hn Hou Hre Hout] Hen Hru. split; try done; intros n Hin.
  - rewrite Ha by done. by rewrite (bool_decide_ext _ _ (Hen n Hin)).
  - by rewrite Hc, Hru.
Qed.

(** Turning an anchor on or off in its own family. *)
Lemma set_step six n (b : bool) fw A out :
  implements six fw A out ->
  implements six (step parses (if b then SEnable six n kFilterTable else SDisable six n kFilterTable) fw).2
    (aSetIn six n b A) out.
Proof.
  intros Hi. unfold aSetIn. case_bool_decide as Hn.
  - destruct b; simpl; rewrite (checkRule_anchor _ _ _ _ _ Hi Hn); case_bool_decide as He; simpl.
    + eapply implements_same; [exact Hi | | done]. simpl. set_solver.
    + unfold append. rewrite (impl_anchor _ _ _ _ Hi n Hn), bool_decide_false by done.
      rewrite (usable_actual _ _ _ _ _ Hi Hn). simpl.
      eapply implements_insert; [exact Hi | auto with dopamine | auto with dopamine | | | |].
      * intros m Hm. case_bool_decide as E; simpl.
        -- apply anchorChain_inj in E as ->. by rewrite bool_decide_true by set_solver.
        -- apply bool_decide_ext. set_unfold. naive_solver.
      * intros m Hm. simpl. rewrite bool_decide_false; [done |]. eauto with dopamine.
      * exists n. split; [done | by left].
      * intros r [-> | []%elem_of_nil]%elem_of_cons _. by exists n.
    + unfold flush. rewrite (impl_anchor _ _ _ _ Hi n Hn). simpl.
      eapply implements_insert; [exact Hi | auto with dopamine | auto with dopamine | | | |].
      * intros m Hm. case_bool_decide as E; simpl.
        -- apply anchorChain_inj in E as ->. by rewrite bool_decide_false by set_solver.
        -- apply bool_decide_ext. set_unfold. naive_solver.
      * intros m Hm. simpl. rewrite bool_decide_false; [done |]. eauto with dopamine.
      * exists n. split; [done | by left].
      * intros r []%elem_of_nil.
    + eapply implements_same; [exact Hi | | done]. simpl. set_solver.
  - destruct b; simpl; unfold checkRule, append;
      rewrite (impl_absent _ _ _ _ Hi n Hn); simpl; exact Hi.
Qed.

Lemma implements_actual six n rs fw A out :
  implements six fw A out -> n ∈ anchorNames six ->
  Forall (fun r => builtin (r_target r) = true) rs ->
  implements six (<[(six, kFilterTable, actualChain n) := rs]> fw) (aRules six n rs A) out.
Proof.
  intros Hi Hn Hb. eapply implements_insert; [exact Hi | auto with dopamine | eauto with dopamine | | | |].
  - intros m Hm. rewrite bool_decide_false; [done |].
    intros E. by apply (anchor_not_actual six m n Hn).
  - intros m Hm. simpl. case_bool_decide as E1; case_bool_decide as E2; simplify_eq; try done.
  - exists n. split; [done | by right].
  - intros r Hr Ho. rewrite Forall_forall in Hb. by apply builtin_not_ours in Ho; [| apply Hb].
Qed.

(** Replacing the rules of an anchor. *)
Lemma refill_steps six n rs fw A out :
  implements six fw A out -> n ∈ anchorNames six ->
  Forall (fun r => builtin (r_target r) = true) rs ->
  forall init, fw !! (six, kFilterTable, actualChain n) = Some init ->
  Forall (fun r => builtin (r_target r) = true) init ->
  implements six (fold_left (fun fw r => (step parses (SAppendFilter six (actualChain n) r) fw).2) rs fw)
    (aRules six n (init ++ List.filter (parses six) rs) A) out.
Proof.
  intros Hi Hn Hb. revert fw A Hi. induction Hb as [| r rs Hr _ IH]; intros fw A Hi init Hf Hbi.
  - simpl. rewrite app_nil_r. rewrite (impl_actual _ _ _ _ Hi n Hn) in Hf. injection Hf as <-.
    eapply implements_same; [exact Hi | done |]. intros m Hm. simpl.
    case_bool_decide as E; [by simplify_eq | done].
  - cbn [fold_left List.filter]. simpl. unfold append. change "filter"%string with kFilterTable.
    rewrite Hf. unfold usable. rewrite Hr. simpl. rewrite andb_true_r.
    destruct (parses six r) eqn:Ep; simpl.
    + assert (Hbr : Forall (fun r => builtin (r_target r) = true) (init ++ [r])).
      { apply Forall_app. split; [done | by repeat constructor]. }
      pose proof (implements_actual six n (init ++ [r]) fw A out Hi Hn Hbr) as Hi'.
      specialize (IH _ _ Hi' (init ++ [r]) (lookup_insert_eq _ _ _) Hbr).
      eapply implements_same; [exact IH | done |]. intros m Hm. simpl. rewrite <- app_assoc. simpl.
      by case_bool_decide.
    + by apply IH.
Qed.
End Preserve.

(** ** The class implements the contract *)

Section Refinement.
Context {W : Type} `{S : !Shell W} {parses : bool -> Rule -> bool} `{L : !IptablesLaws S parses} `{Q : Qt}.

Definition view (st : Fw W) : Chains := chains (fw_world st).

(** The object and the kernel implement the anchors [A]; [out] are the rules
    of [OUTPUT] that are not ours. *)
Definition refines (st : Fw W) (A : Anchors) (out : bool -> list Rule) : Prop :=
  forall six, implements six (view st) A (out six).

Lemma execute_view s st : view (execute s st).2 = (step parses s (view st)).2.
Proof.
  unfold execute, view. destruct (bash_step s (fw_world st)) as [_ <-].
  by destruct (bash s (fw_world st)).
Qed.

Lemma bind_snd {A B : Type} (m : ST (Fw W) A) (k : A -> ST (Fw W) B) st :
  (mbind k m st).2 = (k (m st).1 (m st).2).2.
Proof. unfold mbind, ST_bind. by destruct (m st). Qed.

Lemma seq_snd {A B : Type} (m : ST (Fw W) A) (k : ST (Fw W) B) st : ((m ;; k) st).2 = (k (m st).2).2.
Proof. apply bind_snd. Qed.

Lemma execute_unit_view s st : view ((execute s ;; mret tt) st).2 = (step parses s (view st)).2.
Proof. rewrite seq_snd. apply execute_view. Qed.

(** Scripts that touch no chain. *)
Lemma other_view t st : view ((execute (SOther t) ;; mret tt) st).2 = view st.
Proof. by rewrite execute_unit_view. Qed.

Lemma setup_view st : view (setupTrafficSplitting st).2 = view st.
Proof. unfold setupTrafficSplitting. rewrite !seq_snd. cbn. by rewrite !execute_view. Qed.
Lemma teardown_view st : view (teardownTrafficSplitting st).2 = view st.
Proof. unfold teardownTrafficSplitting. rewrite !seq_snd. cbn. by rewrite !execute_view. Qed.

Lemma runCallback_view key st : view (runCallback key st).2 = view st.
Proof.
  unfold runCallback. rewrite bind_snd. cbn.
  destruct (anchorCallbacks st !! key) as [[] |]; [apply setup_view | apply teardown_view | done].
Qed.

(** A script of one family leaves the other one alone. *)
Lemma other_family s six fw A A' out :
  scope s = Some (six, kFilterTable) -> implements (negb six) fw A out ->
  (forall n, (negb six, n) ∈ enabled A' <-> (negb six, n) ∈ enabled A) ->
  (forall n, arules A' (negb six) n = arules A (negb six) n) ->
  implements (negb six) (step parses s fw).2 A' out.
Proof.
  intros Hs Hi He Hr. eapply implements_ext; [exact Hi | | exact He | exact Hr].
  intros c. apply step_frame. intros vt Hvt. rewrite Hs in Hvt. injection Hvt as <-.
  simpl. intros [= E]. by destruct six.
Qed.

Lemma both_families (P : bool -> Prop) six : P six -> P (negb six) -> forall v, P v.
Proof. intros H1 H2 v. by destruct six, v. Qed.

Lemma set_refines six n (b : bool) st A out :
  refines st A out ->
  refines ((execute (if b then SEnable six n kFilterTable else SDisable six n kFilterTable) ;; mret tt) st).2
    (aSetIn six n b A) out.
Proof.
  intros HR. unfold refines. rewrite execute_unit_view.
  apply (both_families _ six).
  - apply set_step; [apply jump_parses | apply HR].
  - apply (other_family _ six _ A); [by destruct b | apply HR | |]; unfold aSetIn; intros m; case_bool_decide; [| done..].
    destruct b; simpl; set_unfold; split; try naive_solver; intros Hm; destruct six; naive_solver.
Qed.

Lemma aSet_enable ip n (b : bool) st A out :
  refines st A out ->
  refines (families_ ip (fun v => execute (if b then SEnable v n kFilterTable else SDisable v n kFilterTable) ;; mret tt) st).2
    (aSet ip n b A) out.
Proof.
  intros HR. unfold families_, aSet. destruct ip; cbn [inFamily negb].
  - by apply set_refines.
  - by apply set_refines.
  - rewrite seq_snd. by do 2 apply set_refines.
Qed.

Lemma refines_view st st' A out : view st' = view st -> refines st A out -> refines st' A out.
Proof. unfold refines. by intros ->. Qed.

Lemma setAnchor_refines ip n b st A out :
  refines st A out -> refines (setAnchorEnabled ip n b kFilterTable st).2 (aSet ip n b A) out.
Proof.
  intros HR. unfold setAnchorEnabled, enableAnchor, disableAnchor.
  destruct b; rewrite seq_snd; (eapply refines_view; [apply runCallback_view |]).
  - exact (aSet_enable ip n true st A out HR).
  - exact (aSet_enable ip n false st A out HR).
Qed.

(** Refilling a rule chain. *)
Lemma forEach_append_view six c rs st :
  view (forEach (fun r => execute (SAppendFilter six c r) ;; mret tt) rs st).2
  = fold_left (fun fw r => (step parses (SAppendFilter six c r) fw).2) rs (view st).
Proof.
  revert st. induction rs as [| r rs IH]; intros st; [done |].
  cbn [forEach]. rewrite seq_snd, IH, execute_unit_view. done.
Qed.

Lemma refill_refines six n rs st A out :
  n ∈ anchorNames six -> Forall (fun r => builtin (r_target r) = true) rs ->
  refines st A out ->
  refines (refill six n rs st).2 (aRules six n (List.filter (parses six) rs) A) out.
Proof.
  intros Hn Hb HR. unfold refines, refill. rewrite seq_snd, forEach_append_view, execute_view.
  assert (Hother : forall n', arules (aRules six n (List.filter (parses six) rs) A) (negb six) n' = arules A (negb six) n').
  { intros n'. simpl. rewrite bool_decide_false; [done |]. by destruct six. }
  apply (both_families _ six).
  - simpl. unfold flush. change "filter"%string with kFilterTable.
    rewrite (impl_actual _ _ _ _ (HR six) n Hn). simpl.
    pose proof (implements_actual six n [] _ _ _ (HR six) Hn (Forall_nil_2 _)) as Hi.
    pose proof (refill_steps parses six n rs _ _ _ Hi Hn Hb [] (lookup_insert_eq _ _ _) (Forall_nil_2 _)) as Hi'.
    eapply implements_same; [exact Hi' | done |]. intros m Hm. simpl. by case_bool_decide.
  - assert (Hi : implements (negb six) (step parses (SFlushFilter six (actualChain n)) (view st)).2
      (aRules six n (List.filter (parses six) rs) A) (out (negb six))).
    { by apply (other_family _ six _ A); [| apply HR | |]. }
    revert Hi. generalize (step parses (SFlushFilter six (actualChain n)) (view st)).2.
    clear. induction rs as [| r rs' IH] in |- * at 2; intros fw Hi; [exact Hi |]. cbn [fold_left].
    apply IH. by apply (other_family _ six _ (aRules six n (List.filter (parses six) rs) A)).
Qed.

Lemma allow_builtin l : Forall (fun r => builtin (r_target r) = true) (getAllowRule l).
Proof. apply Forall_map, Forall_forall. done. Qed.
Lemma block_builtin l : Forall (fun r => builtin (r_target r) = true) (getBlockRule l).
Proof. apply Forall_map, Forall_forall. done. Qed.
Lemma dns_builtin l : Forall (fun r => builtin (r_target r) = true) (getDNSRules l).
Proof.
  induction l as [| s l IH]; [constructor |]. apply Forall_app. split; [by repeat constructor | exact IH].
Qed.

Lemma linkFirst_step six fw A out :
  implements six fw A out -> step parses (SLinkFirst six kOutputChain kRootChain kFilterTable) fw = (0, fw).
Proof. intros Hi. cbn [step]. by rewrite (impl_output _ _ _ _ Hi). Qed.

Lemma priority_refines ip st A out :
  refines st A out -> refines (ensureRootAnchorPriority ip st).2 A out.
Proof.
  intros HR. unfold ensureRootAnchorPriority. rewrite seq_snd. unfold linkChain, families.
  assert (Hone : forall v st', view st' = view st ->
    view (execute (SLinkFirst v kOutputChain kRootChain kFilterTable) st').2 = view st).
  { intros v st' Hv. rewrite execute_view, Hv, (linkFirst_step v _ A (out v)); [done | apply HR]. }
  eapply refines_view; [| exact HR]. destruct ip; [by apply Hone | by apply Hone |].
  rewrite bind_snd, bind_snd. cbn. by apply Hone, Hone.
Qed.

Lemma runOp_refines o st A out :
  refines st A out -> refines (runOp o st).2 (aOp parses o A) out.
Proof.
  intros HR. destruct o as [ip n b | l | l | l | ip]; simpl.
  - by apply setAnchor_refines.
  - apply refill_refines; [set_solver | apply dns_builtin | done].
  - unfold updateAllowNets. rewrite seq_snd.
    apply refill_refines; [set_solver | apply allow_builtin |].
    apply refill_refines; [set_solver | apply allow_builtin | done].
  - apply refill_refines; [set_solver | apply block_builtin | done].
  - by apply priority_refines.
Qed.

Lemma runOps_refines l st A out :
  refines st A out -> refines (runOps l st).2 (fold_left (fun A o => aOp parses o A) l A) out.
Proof.
  revert st A. induction l as [| o l IH]; intros st A HR; [done |]. cbn [fold_left].
  unfold runOps. cbn [forEach]. rewrite seq_snd. by apply IH, runOp_refines.
Qed.
End Refinement.

(** ** Installing *)

Section Install.
Context {W : Type} `{S : !Shell W} {parses : bool -> Rule -> bool} `{L : !IptablesLaws S parses} `{Q : Qt}.

(** In the filter table no chain of ours exists and no rule refers to one. *)
Definition clean (fw : Chains) : Prop :=
  (forall six c, ours c -> fw !! (six, kFilterTable, c) = None)
  /\ (forall six c rules r, fw !! (six, kFilterTable, c) = Some rules -> r ∈ rules -> ~ ours (r_target r)).

(** Predicates on the filter table. *)
Definition filterOnly (P : Chains -> Prop) : Prop :=
  forall fw fw', (forall six c, fw' !! (six, kFilterTable, c) = fw !! (six, kFilterTable, c)) -> P fw -> P fw'.

(** What a call does to the chains, as a triple. *)
Definition triple {A : Type} (P : Chains -> Prop) (m : ST (Fw W) A) (P' : Chains -> Prop) : Prop :=
  forall st, P (view st) -> P' (view (m st).2).

Lemma triple_seq {A B : Type} P P' P'' (m : ST (Fw W) A) (k : ST (Fw W) B) :
  triple P m P' -> triple P' k P'' -> triple P (m ;; k) P''.
Proof. intros Hm Hk st HP. rewrite seq_snd. by apply Hk, Hm. Qed.

Lemma triple_ret {A : Type} (P : Chains -> Prop) (a : A) : triple P (mret a) P.
Proof. by intros st. Qed.

Lemma triple_execute P P' s : (forall fw, P fw -> P' (step parses s fw).2) -> triple P (execute s) P'.
Proof. intros H st HP. rewrite execute_view. by apply H. Qed.

Lemma triple_families P P4 P' ip f :
  match ip with
  | IPv4 => triple P (f false) P'
  | IPv6 => triple P (f true) P'
  | Both => triple P (f false) P4 /\ triple P4 (f true) P'
  end -> triple P (families ip f) P'.
Proof.
  destruct ip; [done | done |]. intros [H4 H6] st HP. unfold families.
  rewrite !bind_snd. cbn. by apply H6, H4.
Qed.

Lemma triple_families_ P P4 P' ip f :
  match ip with
  | IPv4 => triple P (f false) P'
  | IPv6 => triple P (f true) P'
  | Both => triple P (f false) P4 /\ triple P4 (f true) P'
  end -> triple P (families_ ip f) P'.
Proof. destruct ip; [done | done |]. intros [H4 H6]. by eapply triple_seq. Qed.

Lemma triple_setup P : triple P setupTrafficSplitting P.
Proof. intros st. by rewrite setup_view. Qed.
Lemma triple_teardown P : triple P teardownTrafficSplitting P.
Proof. intros st. by rewrite teardown_view. Qed.
Lemma triple_register P key f : triple P (registerCallback key f) P.
Proof. intros st. cbn. destruct f; [| done]. by destruct (anchorCallbacks st !! key). Qed.

(** On a clean machine [uninstall] changes nothing. *)
Lemma clean_unlink fw v p c : clean fw -> ours c -> step parses (SUnlink v p c kFilterTable) fw = (0, fw).
Proof.
  intros [_ Hr] Hc. cbn [step]. destruct (checkRule v kFilterTable p (jumpTo c) fw) eqn:E; [| done].
  unfold checkRule in E. destruct (fw !! (v, kFilterTable, p)) eqn:El; [| done].
  apply bool_decide_eq_true in E. by destruct (Hr _ _ _ _ El E).
Qed.
Lemma clean_delete fw v c : clean fw -> ours c -> step parses (SDelete v c kFilterTable) fw = (0, fw).
Proof. intros [Hc _] Ho. cbn [step]. by rewrite Hc. Qed.

(** Scripts on the other tables. *)
Lemma triple_foreign P s v t :
  filterOnly P -> scope s = Some (v, t) -> t <> kFilterTable -> triple P (execute s) P.
Proof.
  intros HP Hs Ht. apply triple_execute. intros fw. apply HP. intros six c. apply step_frame.
  intros vt Hvt. rewrite Hs in Hvt. injection Hvt as <-. simpl. congruence.
Qed.

(** A call applied to one family or both, when each family keeps [P]. *)
Lemma triple_each P ip f : (forall v, triple P (f v) P) -> triple P (families ip f) P.
Proof. intros Hf. apply (triple_families P P). destruct ip; auto. Qed.
Lemma triple_each_ P ip f : (forall v, triple P (f v) P) -> triple P (families_ ip f) P.
Proof. intros Hf. apply (triple_families_ P P). destruct ip; auto. Qed.

Section Unchanged.
Variable P : Chains -> Prop.
Hypothesis HP : forall fw, P fw -> clean fw.
Hypothesis Hext : filterOnly P.

Lemma triple_unlink ip c p t : ours c -> triple P (unlinkChain ip c p t) P.
Proof.
  intros Hc. apply triple_each. intros v. destruct (decide (t = kFilterTable)) as [-> | Ht].
  - apply triple_execute. intros fw Hfw. rewrite clean_unlink; auto.
  - by eapply triple_foreign.
Qed.
Lemma triple_delete ip c t : ours c -> triple P (deleteChain ip c t) P.
Proof.
  intros Hc. apply triple_each. intros v. destruct (decide (t = kFilterTable)) as [-> | Ht].
  - apply triple_execute. intros fw Hfw. rewrite clean_delete; auto.
  - by eapply triple_foreign.
Qed.
Lemma triple_uninstallAnchor ip n t : triple P (uninstallAnchor ip n t) P.
Proof.
  apply triple_each_. intros v. eapply triple_seq; [apply triple_unlink; auto with dopamine |].
  eapply triple_seq; [apply triple_delete; auto with dopamine |].
  eapply triple_seq; [apply triple_delete; auto with dopamine |]. apply triple_ret.
Qed.

Lemma triple_uninstall : triple P uninstall P.
Proof.
  unfold uninstall.
  repeat (eapply triple_seq; [first
    [ apply triple_unlink; apply ours_root | apply triple_delete; apply ours_root
    | apply triple_uninstallAnchor ] |]).
  apply triple_teardown.
Qed.
End Unchanged.

(** Part-way through [install]: the anchors [done] are in place, off. *)
Record partial (six : bool) (fw : Chains) (done : list string) (out : list Rule) : Prop := {
  part_output : fw !! (six, kFilterTable, kOutputChain) = Some out;
  part_root : fw !! (six, kFilterTable, kRootChain) = Some (map (fun n => jumpTo (anchorChain n)) done);
  part_anchor : forall n, fw !! (six, kFilterTable, anchorChain n) = if bool_decide (n ∈ done) then Some [] else None;
  part_actual : forall n, n ∈ anchorNames six ->
    fw !! (six, kFilterTable, actualChain n) = if bool_decide (n ∈ done) then Some (initialRules six n) else None;
  part_ours : forall c, ours c -> is_Some (fw !! (six, kFilterTable, c)) ->
    c = kRootChain \/ exists m, m ∈ done /\ chainOf m c;
  part_refs : forall c rules r, fw !! (six, kFilterTable, c) = Some rules -> r ∈ rules ->
    ours (r_target r) -> c = kRootChain
}.

Lemma partial_ext six fw fw' d out :
  partial six fw d out -> (forall c, fw' !! (six, kFilterTable, c) = fw !! (six, kFilterTable, c)) ->
  partial six fw' d out.
Proof.
  intros [Ho Hr Ha Hc Hou Hre] He. split; intros; rewrite ?He in *; eauto.
Qed.

Definition installing (out : bool -> list Rule) (d4 d6 : list string) (fw : Chains) : Prop :=
  partial false fw d4 (out false) /\ partial true fw d6 (out true).

Lemma append_rules_view v n rs st init :
  Forall (fun r => parses v r = true /\ builtin (r_target r) = true) rs ->
  view st !! (v, kFilterTable, actualChain n) = Some init ->
  view (forEach (fun r => execute (SAppend v (actualChain n) r kFilterTable) ;; mret tt) rs st).2
  = <[(v, kFilterTable, actualChain n) := init ++ rs]> (view st).
Proof.
  intros Hrs. revert st init. induction Hrs as [| r rs [Hp Hb] _ IH]; intros st init Hi.
  - rewrite app_nil_r. cbn. by rewrite insert_id.
  - cbn [forEach]. rewrite seq_snd. rewrite (IH _ (init ++ [r])).
    + rewrite execute_unit_view. cbn [step]. unfold append. rewrite Hi. unfold usable.
      rewrite Hp, Hb. cbn. by rewrite insert_insert_eq, <- app_assoc.
    + rewrite execute_unit_view. cbn [step]. unfold append. rewrite Hi. unfold usable.
      rewrite Hp, Hb. cbn. apply lookup_insert_eq.
Qed.

Lemma initial_builtin six n : Forall (fun r => builtin (r_target r) = true) (initialRules six n).
Proof. unfold initialRules. repeat case_match; by repeat constructor. Qed.
(** The chains after one [installAnchor] in one family. *)
Definition anchored (v : bool) (n : string) (d : list string) (fw : Chains) : Chains :=
  <[(v, kFilterTable, actualChain n) := initialRules v n]>
  (<[(v, kFilterTable, kRootChain) := map (fun n => jumpTo (anchorChain n)) (d ++ [n])]>
  (<[(v, kFilterTable, anchorChain n) := []]> fw)).

Lemma create_new fw v c t : fw !! (v, t, c) = None -> step parses (SCreate v c t) fw = (0, <[(v, t, c) := []]> fw).
Proof. intros Hn. cbn [step]. by rewrite Hn. Qed.

Lemma linkLast_new fw v c d :
  fw !! (v, kFilterTable, kRootChain) = Some (map (fun n => jumpTo (anchorChain n)) d) ->
  is_Some (fw !! (v, kFilterTable, anchorChain c)) -> c ∉ d ->
  step parses (SLinkLast v kRootChain (anchorChain c) kFilterTable) fw
  = (0, <[(v, kFilterTable, kRootChain) := map (fun n => jumpTo (anchorChain n)) (d ++ [c])]> fw).
Proof.
  intros Hr Hc Hd. cbn [step]. unfold checkRule, append. rewrite Hr.
  rewrite bool_decide_false.
  - unfold usable. rewrite jump_parses. cbn [jumpTo r_target andb].
    rewrite (bool_decide_true (is_Some (fw !! (v, kFilterTable, anchorChain c)))) by done.
    rewrite orb_true_r. by rewrite map_app.
  - intros (m & E & Hm)%list_elem_of_fmap. injection E as E. apply app_inj_l in E. by subst.
Qed.

Lemma installAnchorIn_view v n d st :
  n ∈ anchorNames v -> n ∉ d ->
  view st !! (v, kFilterTable, kRootChain) = Some (map (fun n => jumpTo (anchorChain n)) d) ->
  view st !! (v, kFilterTable, anchorChain n) = None ->
  view st !! (v, kFilterTable, actualChain n) = None ->
  view (installAnchorIn v n (initialRules v n) kFilterTable None None st).2 = anchored v n d (view st).
Proof.
  intros Hn Hd Hr Ha Hc. unfold installAnchorIn.
  assert (Hfam : forall (f : bool -> ST (Fw W) Z), families (if v then IPv6 else IPv4) f = f v) by (by destruct v).
  unfold createChain, linkChain. rewrite !Hfam, !seq_snd.
  set (st1 := (execute (SCreate v (anchorChain n) kFilterTable) st).2).
  assert (H1 : view st1 = <[(v, kFilterTable, anchorChain n) := []]> (view st)).
  { unfold st1. by rewrite execute_view, create_new. }
  set (st2 := (execute (SLinkLast v kRootChain (anchorChain n) kFilterTable) st1).2).
  assert (H2 : view st2 = <[(v, kFilterTable, kRootChain) := map (fun n => jumpTo (anchorChain n)) (d ++ [n])]> (view st1)).
  { unfold st2. rewrite execute_view, (linkLast_new _ _ _ d); [done | | | done].
    - rewrite H1, lookup_insert_ne; [done |]. pose proof (anchor_not_root n). congruence.
    - rewrite H1, lookup_insert_eq. by eexists. }
  cbn [registerCallback modify snd].
  set (st3 := (execute (SCreate v (actualChain n) kFilterTable) st2).2).
  assert (H3 : view st3 = <[(v, kFilterTable, actualChain n) := []]> (view st2)).
  { unfold st3. rewrite execute_view, create_new; [done |].
    rewrite H2, lookup_insert_ne, H1, lookup_insert_ne; [done | |].
    - pose proof (anchor_not_actual v n n Hn). congruence.
    - pose proof (actual_not_root v n Hn). congruence. }
  rewrite (append_rules_view v n _ _ []).
  - rewrite H3, H2, H1. unfold anchored. by rewrite insert_insert_eq.
  - apply Forall_and. split; [by apply fixed_parse | apply initial_builtin].
  - rewrite H3. apply lookup_insert_eq.
Qed.

Lemma anchored_lookup v n d fw c :
  anchored v n d fw !! (v, kFilterTable, c) =
    if bool_decide (c = actualChain n) then Some (initialRules v n)
    else if bool_decide (c = kRootChain) then Some (map (fun n => jumpTo (anchorChain n)) (d ++ [n]))
    else if bool_decide (c = anchorChain n) then Some []
    else fw !! (v, kFilterTable, c).
Proof.
  unfold anchored.
  case_bool_decide; [subst; apply lookup_insert_eq |]. rewrite lookup_insert_ne by congruence.
  case_bool_decide; [subst; apply lookup_insert_eq |]. rewrite lookup_insert_ne by congruence.
  case_bool_decide; [subst; apply lookup_insert_eq |]. by rewrite lookup_insert_ne by congruence.
Qed.

Lemma anchored_frame v n d fw (k : Key) : k.1.1 <> v -> anchored v n d fw !! k = fw !! k.
Proof. intros Hk. unfold anchored. by rewrite !lookup_insert_ne by (intros <-; by apply Hk). Qed.

Lemma anchored_partial v n d fw out :
  n ∈ anchorNames v -> partial v fw d out -> n ∉ d -> partial v (anchored v n d fw) (d ++ [n]) out.
Proof.
  intros Hn [Ho Hr Ha Hc Hou Hre] Hd.
  pose proof (actual_not_output n) as N1. pose proof (anchor_not_output n) as N2.
  pose proof (actual_not_root v n Hn) as N3.
  split; intros; rewrite ?anchored_lookup in *.
  - by rewrite !bool_decide_false by congruence.
  - by rewrite bool_decide_false, bool_decide_true by congruence.
  - pose proof (anchor_not_actual v n0 n Hn). pose proof (anchor_not_root n0).
    rewrite (bool_decide_false (_ = actualChain n)), (bool_decide_false (_ = kRootChain)) by done.
    destruct (decide (n0 = n)) as [-> | Hne].
    + rewrite !bool_decide_true; [done | set_solver | done].
    + rewrite bool_decide_false by (intros E; by apply anchorChain_inj in E).
      rewrite Ha. by rewrite (bool_decide_ext (n0 ∈ d ++ [n]) (n0 ∈ d)) by set_solver.
  - pose proof (actual_not_root v n0 H). pose proof (anchor_not_actual v n n0 H).
    rewrite (bool_decide_false (_ = kRootChain)), (bool_decide_false (_ = anchorChain n)) by congruence.
    destruct (decide (n0 = n)) as [-> | Hne].
    + rewrite !bool_decide_true; [done | set_solver | done].
    + rewrite (bool_decide_false (_ = actualChain n)) by (intros E; by apply actualChain_inj in E).
      rewrite Hc by done. by rewrite (bool_decide_ext (n0 ∈ d ++ [n]) (n0 ∈ d)) by set_solver.
  - assert (Hnew : n ∈ d ++ [n]) by set_solver.
    repeat case_bool_decide; subst.
    + right. exists n. split; [done | by right].
    + by left.
    + right. exists n. split; [done | by left].
    + destruct (Hou c) as [-> | (m & Hm & Hcm)]; [done | done | by left |].
      right. exists m. split; [set_solver | done].
  - repeat case_bool_decide; simplify_eq; try done.
    + pose proof (initial_builtin v n) as Hb. rewrite Forall_forall in Hb.
      by apply builtin_not_ours in H1; [| apply Hb].
    + by apply elem_of_nil in H0.
    + by eapply Hre.
Qed.

(** One [installAnchor] of the filter table. *)
Lemma triple_install4 out n d4 d6 :
  n ∈ anchorNames false -> n ∉ d4 ->
  triple (installing out d4 d6) (installFilter IPv4 n (initialRules false n)) (installing out (d4 ++ [n]) d6).
Proof.
  intros Hn Hd st [H4 H6]. unfold installFilter, installAnchor, families_.
  rewrite (installAnchorIn_view false n d4); [| done | done | | |].
  - split; [by apply anchored_partial |]. eapply partial_ext; [exact H6 |].
    intros c. by apply anchored_frame.
  - apply (part_root _ _ _ _ H4).
  - rewrite (part_anchor _ _ _ _ H4). by rewrite bool_decide_false.
  - rewrite (part_actual _ _ _ _ H4) by done. by rewrite bool_decide_false.
Qed.

Lemma triple_install6 out n d4 d6 :
  n ∈ anchorNames true -> n ∉ d6 ->
  triple (installing out d4 d6) (installFilter IPv6 n (initialRules true n)) (installing out d4 (d6 ++ [n])).
Proof.
  intros Hn Hd st [H4 H6]. unfold installFilter, installAnchor, families_.
  rewrite (installAnchorIn_view true n d6); [| done | done | | |].
  - split; [| by apply anchored_partial]. eapply partial_ext; [exact H4 |].
    intros c. by apply anchored_frame.
  - apply (part_root _ _ _ _ H6).
  - rewrite (part_anchor _ _ _ _ H6). by rewrite bool_decide_false.
  - rewrite (part_actual _ _ _ _ H6) by done. by rewrite bool_decide_false.
Qed.

Lemma triple_installBoth out n rules d4 d6 :
  n ∈ anchorNames false -> n ∈ anchorNames true -> n ∉ d4 -> n ∉ d6 ->
  rules = initialRules false n -> rules = initialRules true n ->
  triple (installing out d4 d6) (installFilter Both n rules) (installing out (d4 ++ [n]) (d6 ++ [n])).
Proof.
  intros Hn4 Hn6 Hd4 Hd6 E4 E6. eapply (triple_seq _ (installing out (d4 ++ [n]) d6)).
  - pose proof (triple_install4 out n d4 d6 Hn4 Hd4) as H4. by rewrite <- E4 in H4.
  - pose proof (triple_install6 out n (d4 ++ [n]) d6 Hn6 Hd6) as H6. by rewrite <- E6 in H6.
Qed.
Lemma installing_filter out d4 d6 : filterOnly (installing out d4 d6).
Proof. intros fw fw' He [H4 H6]. split; eapply partial_ext; eauto. Qed.

Lemma triple_create_foreign P ip c t : filterOnly P -> t <> kFilterTable -> triple P (createChain ip c t) P.
Proof. intros HP Ht. apply triple_each. intros v. by eapply triple_foreign. Qed.
Lemma triple_link_foreign P ip c p b t : filterOnly P -> t <> kFilterTable -> triple P (linkChain ip c p b t) P.
Proof. intros HP Ht. apply triple_each. intros v. destruct b; by eapply triple_foreign. Qed.
Lemma triple_forEach {A : Type} P (f : A -> ST (Fw W) unit) l :
  (forall x, triple P (f x) P) -> triple P (forEach f l) P.
Proof.
  intros Hf. induction l; simpl; [apply triple_ret | by eapply triple_seq].
Qed.
Lemma triple_install_foreign P ip n rules t e d :
  filterOnly P -> t <> kFilterTable -> triple P (installAnchor ip n rules t e d) P.
Proof.
  intros HP Ht. apply triple_each_. intros v. unfold installAnchorIn.
  eapply triple_seq; [by apply triple_create_foreign |].
  eapply triple_seq; [by apply triple_link_foreign |].
  eapply triple_seq; [apply triple_register |]. eapply triple_seq; [apply triple_register |].
  eapply triple_seq; [by apply triple_create_foreign |].
  apply triple_forEach. intros r. eapply triple_seq; [| apply triple_ret]. by eapply triple_foreign.
Qed.

(** The root chain. *)
Definition ready (out : bool -> list Rule) (fw : Chains) : Prop :=
  clean fw /\ forall six, fw !! (six, kFilterTable, kOutputChain) = Some (out six).

Lemma ready_filter out : filterOnly (ready out).
Proof.
  intros fw fw' He [[Hc Hr] Ho]. split; [split |]; intros; rewrite ?He in *; eauto.
Qed.

Lemma root_not_output : kRootChain <> kOutputChain.
Proof. done. Qed.

Lemma create_root_partial six fw out :
  clean fw -> fw !! (six, kFilterTable, kOutputChain) = Some out ->
  partial six (<[(six, kFilterTable, kRootChain) := []]> fw) [] out.
Proof.
  intros [Hc Hre] Ho. split.
  - by rewrite lookup_insert_ne by (pose proof root_not_output; congruence).
  - apply lookup_insert_eq.
  - intros n. rewrite lookup_insert_ne by (pose proof (anchor_not_root n); congruence).
    apply Hc, ours_anchor.
  - intros n Hn. rewrite lookup_insert_ne by (pose proof (actual_not_root six n Hn); congruence).
    apply Hc, ours_actual.
  - intros c Hco. destruct (decide (c = kRootChain)) as [-> | Hne]; [by left |].
    rewrite lookup_insert_ne by congruence. rewrite Hc by done. intros [? ?]. done.
  - intros c rules r. destruct (decide (c = kRootChain)) as [-> | Hne]; [done |].
    rewrite lookup_insert_ne by congruence. intros Hl Hr Hou. by destruct (Hre _ _ _ _ Hl Hr).
Qed.

Lemma triple_create_root out :
  triple (ready out) (createChain Both kRootChain kFilterTable) (installing out [] []).
Proof.
  intros st [Hc Ho]. unfold createChain, families. rewrite !bind_snd. cbn.
  rewrite !execute_view. rewrite (create_new (view st)) by apply Hc, ours_root. cbn [snd].
  rewrite create_new by (rewrite lookup_insert_ne by done; apply Hc, ours_root). cbn [snd].
  split.
  - eapply partial_ext; [apply (create_root_partial false (view st)); [done | apply Ho] |].
    intros c. by rewrite lookup_insert_ne.
  - eapply partial_ext; [apply (create_root_partial true (view st)); [done | apply Ho] |].
    intros c. rewrite insert_insert_ne by done. by rewrite lookup_insert_ne.
Qed.

Lemma dropFirst_none P l : Forall (fun r => P r = false) l -> dropFirst P l = l.
Proof. induction 1 as [| r l Hr _ IH]; simpl; [done |]. by rewrite Hr, IH. Qed.

Lemma link_root six fw out :
  partial six fw (anchorNames six) out -> Forall (fun r => ~ ours (r_target r)) out ->
  implements six (step parses (SLinkFirst six kOutputChain kRootChain kFilterTable) fw).2 initialAnchors out.
Proof.
  intros [Ho Hr Ha Hc Hou Hre] Hout. cbn [step]. rewrite Ho.
  rewrite bool_decide_false.
  2: { destruct out as [| r out]; [done |]. simpl. intros [= E]. apply Forall_cons in Hout as [Hn _].
       apply Hn. rewrite E. apply ours_root. }
  unfold insertTop. rewrite Ho. unfold usable. rewrite jump_parses. cbn [jumpTo r_target andb].
  rewrite Hr, (bool_decide_true (is_Some (Some _))) by (by eexists). rewrite orb_true_r.
  cbn [snd]. rewrite dropFirst_none.
  2: { eapply Forall_impl; [exact Hout |]. intros r Hn. apply String.eqb_neq. intros E. apply Hn.
       rewrite E. apply ours_root. }
  rewrite insert_insert_eq. split.
  - apply lookup_insert_eq.
  - rewrite lookup_insert_ne by (pose proof root_not_output; congruence). done.
  - intros n Hn. rewrite lookup_insert_ne by (pose proof (anchor_not_output n); congruence).
    rewrite Ha, bool_decide_true by done. by rewrite bool_decide_false by set_solver.
  - intros n Hn. rewrite lookup_insert_ne by (pose proof (actual_not_output n); congruence).
    rewrite Hc by done. by rewrite bool_decide_true.
  - intros n Hn. rewrite lookup_insert_ne by (pose proof (anchor_not_output n); congruence).
    rewrite Ha. by rewrite bool_decide_false.
  - intros c Hco. rewrite lookup_insert_ne; [by apply Hou |].
    intros [= <-]. by apply output_not_ours.
  - intros c rules r. destruct (decide (c = kOutputChain)) as [-> | Hne].
    + rewrite lookup_insert_eq. intros [= <-] [-> | Hr']%elem_of_cons Ho'; [by left |].
      rewrite Forall_forall in Hout. by destruct (Hout _ Hr').
    + rewrite lookup_insert_ne by congruence. intros. right. left. by eapply Hre.
  - done.
Qed.

Lemma triple_link_root out :
  (forall six, Forall (fun r => ~ ours (r_target r)) (out six)) ->
  triple (installing out (anchorNames false) (anchorNames true))
    (linkChain Both kRootChain kOutputChain true kFilterTable)
    (fun fw => forall six, implements six fw initialAnchors (out six)).
Proof.
  intros Hout st [H4 H6] six. unfold linkChain, families. rewrite !bind_snd. cbn.
  rewrite !execute_view. set (s4 := SLinkFirst false _ _ _). set (s6 := SLinkFirst true _ _ _).
  assert (Hf : forall s v fw c, scope s = Some (v, kFilterTable) ->
    (step parses s fw).2 !! (negb v, kFilterTable, c) = fw !! (negb v, kFilterTable, c)).
  { intros s v fw c Hs. apply step_frame. intros vt Hvt. rewrite Hs in Hvt. injection Hvt as <-.
    simpl. intros [= E]. by destruct v. }
  destruct six.
  - apply link_root; [| apply Hout]. eapply partial_ext; [exact H6 |]. intros c. by apply (Hf s4 false).
  - eapply implements_ext; [by apply (link_root false (view st)); [exact H4 | apply Hout] | | done | done].
    intros c. by apply (Hf s6 true).
Qed.

(** Both families implement the anchors. *)
Definition installed (A : Anchors) (out : bool -> list Rule) (fw : Chains) : Prop :=
  forall six, implements six fw A (out six).

Lemma installed_filter A out : filterOnly (installed A out).
Proof. intros fw fw' He Hi six. eapply implements_ext; [apply Hi | auto | done | done]. Qed.

(** The anchors of [install], in its order. *)
Lemma triple_install_anchors (out : bool -> list Rule) (k : ST (Fw W) unit) (P' : Chains -> Prop) :
  triple (installing out (anchorNames false) (anchorNames true)) k P' ->
  triple (installing out [] [])
    (installFilter Both "000.allowLoopback" loopbackRules ;;
     installFilter IPv4 "320.allowDNS" [] ;;
     installFilter Both "310.blockDNS" blockDNSRules ;;
     installFilter IPv4 "300.allowLAN" lanRules4 ;;
     installFilter IPv6 "300.allowLAN" lanRules6 ;;
     installFilter IPv4 "290.allowDHCP" dhcpRules4 ;;
     installFilter IPv6 "290.allowDHCP" dhcpRules6 ;;
     installFilter IPv6 "250.blockIPv6" blockIPv6Rules ;;
     installFilter Both "200.allowVPN" vpnRules ;;
     installFilter IPv4 "120.blockNets" [] ;;
     installFilter Both "110.allowNets" [] ;;
     installFilter Both "100.blockAll" blockAllRules ;;
     k) P'.
Proof.
  intros Hk. pose proof (triple_install4 out) as T4. pose proof (triple_install6 out) as T6.
  pose proof (triple_installBoth out) as TB.
  eapply triple_seq; [apply (TB "000.allowLoopback"%string); (by_names || done) |].
  eapply triple_seq; [apply (T4 "320.allowDNS"%string); by_names |].
  eapply triple_seq; [apply (TB "310.blockDNS"%string); (by_names || done) |].
  eapply triple_seq; [apply (T4 "300.allowLAN"%string); by_names |].
  eapply triple_seq; [apply (T6 "300.allowLAN"%string); by_names |].
  eapply triple_seq; [apply (T4 "290.allowDHCP"%string); by_names |].
  eapply triple_seq; [apply (T6 "290.allowDHCP"%string); by_names |].
  eapply triple_seq; [apply (T6 "250.blockIPv6"%string); by_names |].
  eapply triple_seq; [apply (TB "200.allowVPN"%string); (by_names || done) |].
  eapply triple_seq; [apply (T4 "120.blockNets"%string); by_names |].
  eapply triple_seq; [apply (TB "110.allowNets"%string); (by_names || done) |].
  eapply triple_seq; [apply (TB "100.blockAll"%string); (by_names || done) |].
  exact Hk.
Qed.

Lemma ready_out out fw : ready out fw -> forall six, Forall (fun r => ~ ours (r_target r)) (out six).
Proof.
  intros [[_ Hc] Ho] six. apply Forall_forall. intros r Hr. by apply (Hc _ _ _ _ (Ho six)).
Qed.

Lemma triple_install out :
  triple (ready out) install (installed initialAnchors out).
Proof.
  intros st0 H0. pose proof (ready_out _ _ H0) as Hout. revert st0 H0.
  change (triple (ready out) install (installed initialAnchors out)).
  pose proof (installing_filter out) as Hf. pose proof (installed_filter initialAnchors out) as Hf'.
  unfold install.
  eapply triple_seq; [apply (triple_uninstall (ready out)); [by intros fw [? _] | apply ready_filter] |].
  eapply triple_seq; [apply triple_create_root |].
  do 3 (eapply triple_seq; [by apply triple_create_foreign |]).
  apply triple_install_anchors.
  do 3 (eapply triple_seq; [by apply triple_install_foreign |]).
  eapply triple_seq; [by apply triple_link_root |].
  do 3 (eapply triple_seq; [by apply triple_link_foreign |]).
  apply triple_setup.
Qed.
(** ** Uninstalling *)

(** Predicates on one family. *)
Definition familyOnly (six : bool) (P : Chains -> Prop) : Prop :=
  forall fw fw', (forall c, fw' !! (six, kFilterTable, c) = fw !! (six, kFilterTable, c)) -> P fw -> P fw'.

(** A call that leaves the other family alone. *)
Definition framed (v : bool) {A : Type} (m : ST (Fw W) A) : Prop :=
  forall st c, view (m st).2 !! (negb v, kFilterTable, c) = view st !! (negb v, kFilterTable, c).

Lemma framed_execute v t s : scope s = Some (v, t) -> framed v (execute s).
Proof.
  intros Hs st c. rewrite execute_view. apply step_frame. intros vt Hvt. rewrite Hs in Hvt.
  injection Hvt as <-. simpl. intros [= E]. by destruct v.
Qed.
Lemma framed_seq v {A B : Type} (m : ST (Fw W) A) (k : ST (Fw W) B) : framed v m -> framed v k -> framed v (m ;; k).
Proof. intros Hm Hk st c. rewrite seq_snd. by rewrite Hk, Hm. Qed.
Lemma framed_ret v {A : Type} (a : A) : framed v (mret a).
Proof. by intros st c. Qed.

(** Running a call for the families of [ip] moves those families from [P] to
    [P']. *)
Lemma triple_family (P P' : bool -> Chains -> Prop) ip (m : bool -> ST (Fw W) unit) :
  (forall six, familyOnly six (P six)) -> (forall six, familyOnly six (P' six)) ->
  (forall v, framed v (m v)) ->
  (forall v, inFamily ip v = true -> triple (P v) (m v) (P' v)) ->
  (forall v fw, inFamily ip v = false -> P v fw -> P' v fw) ->
  triple (fun fw => forall six, P six fw) (families_ ip m) (fun fw => forall six, P' six fw).
Proof.
  intros HP HP' Hf Ht Hn st Hst.
  assert (H1 : forall v st0, P v (view st0) -> inFamily ip v = true -> P' v (view (m v st0).2)).
  { intros v st0 H0 Hi. by apply Ht. }
  destruct ip; cbn [families_].
  - intros []; [| by apply H1]. apply (HP' true (view st)); [apply (Hf false) | by apply Hn].
  - intros []; [by apply H1 |]. apply (HP' false (view st)); [apply (Hf true) | by apply Hn].
  - rewrite seq_snd. intros [].
    + apply H1; [| done]. apply (HP true (view st)); [apply (Hf false) | apply Hst].
    + apply (HP' false (view (m false st).2)); [apply (Hf true) | by apply H1].
Qed.

(** While [uninstall] runs: the anchors [D] remain, unlinked. *)
Record winding (six : bool) (out : list Rule) (D : list string) (fw : Chains) : Prop := {
  wind_output : fw !! (six, kFilterTable, kOutputChain) = Some out;
  wind_ours : forall c, ours c -> is_Some (fw !! (six, kFilterTable, c)) -> exists m, m ∈ D /\ chainOf m c;
  wind_refs : forall c rules r, fw !! (six, kFilterTable, c) = Some rules -> r ∈ rules -> ours (r_target r) ->
    exists m, m ∈ D /\ c = anchorChain m /\ r_target r = actualChain m;
  wind_names : forall m, m ∈ D -> m ∈ anchorNames six
}.

Lemma winding_family six out D : familyOnly six (winding six out D).
Proof. intros fw fw' He [Ho Hou Hre Hn]. split; intros; rewrite ?He in *; eauto. Qed.

Lemma referenced_false fw six c :
  (forall d rules r, fw !! (six, kFilterTable, d) = Some rules -> r ∈ rules -> r_target r <> c) ->
  referenced fw six kFilterTable c = false.
Proof.
  intros Hr. apply bool_decide_eq_false. intros [[[[v t] d] rules] [Hin [E Hc]]]%Exists_exists.
  simpl in *. simplify_eq. apply elem_of_map_to_list in Hin.
  apply list_elem_of_fmap in Hc as (r & -> & Hin'). by apply (Hr _ _ _ Hin Hin').
Qed.

(** Deleting a chain nothing else refers to. *)
Lemma delete_step fw six c :
  (forall d rules r, fw !! (six, kFilterTable, d) = Some rules -> r ∈ rules -> d <> c -> r_target r <> c) ->
  forall d, (step parses (SDelete six c kFilterTable) fw).2 !! (six, kFilterTable, d)
    = if bool_decide (d = c) then None else fw !! (six, kFilterTable, d).
Proof.
  intros Hr d. cbn [step]. destruct (fw !! (six, kFilterTable, c)) as [rules |] eqn:Ec.
  - unfold flush. rewrite Ec. cbn [snd]. rewrite referenced_false.
    + cbn [snd]. case_bool_decide; [subst; apply lookup_delete_eq |].
      rewrite lookup_delete_ne by congruence. by rewrite lookup_insert_ne by congruence.
    + intros e rules' r Hl Hin. destruct (decide (e = c)) as [-> | Hne].
      * rewrite lookup_insert_eq in Hl. injection Hl as <-. by apply elem_of_nil in Hin.
      * rewrite lookup_insert_ne in Hl by congruence. by eapply Hr.
  - case_bool_decide; [by subst | done].
Qed.

Definition without (n : string) (D : list string) : list string := filter (fun m => m <> n) D.

(** Deleting the two chains of an anchor. *)
Lemma winding_delete six out D n fw fw' :
  winding six out D fw ->
  (forall d, fw' !! (six, kFilterTable, d)
     = if bool_decide (d = actualChain n) then None
       else if bool_decide (d = anchorChain n) then None else fw !! (six, kFilterTable, d)) ->
  winding six out (without n D) fw'.
Proof.
  intros [Ho Hou Hre Hnm] Hd.
  pose proof (actual_not_output n) as N1. pose proof (anchor_not_output n) as N2.
  assert (Hw : forall m, m ∈ D -> m <> n -> m ∈ without n D).
  { intros m Hm Hne. by apply list_elem_of_filter. }
  split.
  - by rewrite Hd, !bool_decide_false by congruence.
  - intros c Hc. rewrite Hd. repeat case_bool_decide; [by intros [] | by intros [] |].
    intros Hs. destruct (Hou c Hc Hs) as (m & Hm & Hcm). exists m. split; [| done].
    apply Hw; [done |]. intros ->. by destruct Hcm.
  - intros c rules r. rewrite Hd. repeat case_bool_decide; [done | done |].
    intros Hl Hr Hor. destruct (Hre _ _ _ Hl Hr Hor) as (m & Hm & -> & Ht).
    exists m. split; [| done]. apply Hw; [done |]. by intros ->.
  - intros m [_ Hm]%list_elem_of_filter. by apply Hnm.
Qed.

Lemma wind_unlink v out D fw c :
  winding v out D fw -> step parses (SUnlink v kRootChain c kFilterTable) fw = (0, fw).
Proof.
  intros [Ho Hou Hre Hnm]. cbn [step]. unfold checkRule.
  destruct (fw !! (v, kFilterTable, kRootChain)) eqn:E; [| done].
  destruct (Hou kRootChain ours_root) as (m & Hm & [E' | E']); [by rewrite E | |].
  - by destruct (anchor_not_root m).
  - by destruct (actual_not_root v m (Hnm m Hm)).
Qed.

Lemma one_family (v : bool) (f : bool -> ST (Fw W) Z) : families (if v then IPv6 else IPv4) f = f v.
Proof. by destruct v. Qed.

Lemma uninstall_one v out D n :
  triple (winding v out D)
    (unlinkChain (if v then IPv6 else IPv4) (anchorChain n) kRootChain kFilterTable ;;
     deleteChain (if v then IPv6 else IPv4) (anchorChain n) kFilterTable ;;
     deleteChain (if v then IPv6 else IPv4) (actualChain n) kFilterTable ;; mret tt)
    (winding v out (without n D)).
Proof.
  intros st Hw. unfold unlinkChain, deleteChain. rewrite !one_family, !seq_snd. cbn [mret ST_ret snd].
  rewrite !execute_view, (wind_unlink v out D) by done. cbn [snd].
  destruct Hw as [Ho Hou Hre Hnm] eqn:E; clear E. eapply winding_delete; [exact (Build_winding v out D _ Ho Hou Hre Hnm) |].
  intros d. rewrite delete_step.
  - case_bool_decide; [done |]. apply delete_step. intros e rules r Hl Hr Hne Ht.
    destruct (Hre _ _ _ Hl Hr) as (m & Hm & _ & Ht'); [rewrite Ht; auto with dopamine |].
    rewrite Ht in Ht'. by apply (anchor_not_actual v n m (Hnm m Hm)).
  - intros e rules r Hl Hr Hne Ht. rewrite delete_step in Hl.
    + case_bool_decide as Ee; [done |].
      destruct (Hre _ _ _ Hl Hr) as (m & Hm & -> & Ht'); [rewrite Ht; auto with dopamine |].
      rewrite Ht in Ht'. apply actualChain_inj in Ht' as ->. done.
    + intros e' rules' r' Hl' Hr' Hne' Ht2.
      destruct (Hre _ _ _ Hl' Hr') as (m & Hm & _ & Ht'); [rewrite Ht2; auto with dopamine |].
      rewrite Ht2 in Ht'. by apply (anchor_not_actual v n m (Hnm m Hm)).
Qed.

Lemma framed_body v n t :
  framed v (unlinkChain (if v then IPv6 else IPv4) (anchorChain n) kRootChain t ;;
     deleteChain (if v then IPv6 else IPv4) (anchorChain n) t ;;
     deleteChain (if v then IPv6 else IPv4) (actualChain n) t ;; mret tt).
Proof.
  unfold unlinkChain, deleteChain. rewrite !one_family.
  repeat (apply framed_seq; [by eapply framed_execute |]). apply framed_ret.
Qed.

Definition unwinding (out : bool -> list Rule) (D : bool -> list string) (fw : Chains) : Prop :=
  forall six, winding six (out six) (D six) fw.

Lemma unwinding_filter out D : filterOnly (unwinding out D).
Proof. intros fw fw' He Hw six. eapply winding_family; [intros c; apply He | apply Hw]. Qed.

Lemma triple_unwind out D ip n :
  triple (unwinding out D) (uninstallAnchor ip n kFilterTable)
    (unwinding out (fun v => if inFamily ip v then without n (D v) else D v)).
Proof.
  apply (triple_family (fun v => winding v (out v) (D v))
    (fun v => winding v (out v) (if inFamily ip v then without n (D v) else D v))).
  - intros. apply winding_family.
  - intros. apply winding_family.
  - intros v. apply framed_body.
  - intros v Hi. rewrite Hi. apply uninstall_one.
  - intros v fw Hi. by rewrite Hi.
Qed.

(** The first two calls of [uninstall]. *)
Record unlinked (six : bool) (out : list Rule) (fw : Chains) : Prop := {
  unl_output : fw !! (six, kFilterTable, kOutputChain) = Some out;
  unl_ours : forall c, ours c -> is_Some (fw !! (six, kFilterTable, c)) ->
    c = kRootChain \/ exists m, m ∈ anchorNames six /\ chainOf m c;
  unl_refs : forall c rules r, fw !! (six, kFilterTable, c) = Some rules -> r ∈ rules -> ours (r_target r) ->
    c = kRootChain \/ exists m, m ∈ anchorNames six /\ c = anchorChain m /\ r_target r = actualChain m
}.

Lemma unlink_root six fw A out :
  implements six fw A out -> unlinked six out (step parses (SUnlink six kOutputChain kRootChain kFilterTable) fw).2.
Proof.
  intros Hi. cbn [step]. unfold checkRule. rewrite (impl_output _ _ _ _ Hi).
  rewrite bool_decide_true by left. cbn [snd dropFirst]. rewrite bool_decide_true by done.
  split.
  - apply lookup_insert_eq.
  - intros c Hc. rewrite lookup_insert_ne; [by apply (impl_ours _ _ _ _ Hi) |].
    intros [= <-]. by apply output_not_ours.
  - intros c rules r. destruct (decide (c = kOutputChain)) as [-> | Hne].
    + rewrite lookup_insert_eq. intros [= <-] Hr Ho. pose proof (impl_out _ _ _ _ Hi) as Hout.
      rewrite Forall_forall in Hout. by destruct (Hout _ Hr).
    + rewrite lookup_insert_ne by congruence. intros Hl Hr Ho.
      destruct (impl_refs _ _ _ _ Hi _ _ _ Hl Hr Ho) as [[? _] | [? | ?]]; [done | by left | by right].
Qed.

Lemma delete_root six fw out :
  unlinked six out fw -> winding six out (anchorNames six) (step parses (SDelete six kRootChain kFilterTable) fw).2.
Proof.
  intros [Ho Hou Hre].
  assert (Hd : forall d, (step parses (SDelete six kRootChain kFilterTable) fw).2 !! (six, kFilterTable, d)
    = if bool_decide (d = kRootChain) then None else fw !! (six, kFilterTable, d)).
  { apply delete_step. intros d rules r Hl Hr Hne Ht.
    destruct (Hre _ _ _ Hl Hr) as [-> | (m & Hm & _ & Ht')]; [rewrite Ht; apply ours_root | done |].
    rewrite Ht in Ht'. by destruct (actual_not_root six m Hm). }
  split; intros; rewrite ?Hd in *.
  - by rewrite bool_decide_false by (pose proof root_not_output; congruence).
  - case_bool_decide; [by destruct H0 |]. destruct (Hou _ H H0) as [? | ?]; done.
  - case_bool_decide; [done |]. destruct (Hre _ _ _ H H0 H1) as [? | ?]; done.
  - done.
Qed.

Lemma triple_family_Z (P P' : bool -> Chains -> Prop) (s : bool -> Script) :
  (forall six, familyOnly six (P six)) -> (forall six, familyOnly six (P' six)) ->
  (forall v, exists t, scope (s v) = Some (v, t)) ->
  (forall v fw, P v fw -> P' v (step parses (s v) fw).2) ->
  triple (fun fw => forall six, P six fw) (families Both (fun v => execute (s v))) (fun fw => forall six, P' six fw).
Proof.
  intros HP HP' Hs Ht st Hst. pose proof (triple_family P P' Both (fun v => execute (s v) ;; mret tt) HP HP') as H.
  unfold families. rewrite !bind_snd. cbn [mret ST_ret snd].
  specialize (H ltac:(intros v; destruct (Hs v) as [t Hv]; apply framed_seq;
    [by eapply framed_execute | apply framed_ret])).
  specialize (H ltac:(intros v _ st' H'; rewrite execute_unit_view; by apply Ht) ltac:(done) st Hst).
  unfold families_ in H. rewrite !seq_snd in H. exact H.
Qed.

Lemma unlinked_family six out : familyOnly six (unlinked six out).
Proof. intros fw fw' He [Ho Hou Hre]. split; intros; rewrite ?He in *; eauto. Qed.

Lemma implements_family six A out : familyOnly six (fun fw => implements six fw A out).
Proof. intros fw fw' He Hi. by eapply implements_ext. Qed.

Lemma unwound_ready out D fw : unwinding out D fw -> (forall six, D six = []) -> ready out fw.
Proof.
  intros Hw HD. split; [split |].
  - intros six c Hc. destruct (Hw six) as [_ Hou _ _].
    destruct (fw !! (six, kFilterTable, c)) eqn:E; [| done].
    destruct (Hou c Hc) as (m & Hm & _); [by rewrite E |]. rewrite HD in Hm. by apply elem_of_nil in Hm.
  - intros six c rules r Hl Hr Ho. destruct (Hw six) as [_ _ Hre _].
    destruct (Hre _ _ _ Hl Hr Ho) as (m & Hm & _). rewrite HD in Hm. by apply elem_of_nil in Hm.
  - intros six. apply Hw.
Qed.

Lemma triple_uninstall_foreign P ip n t :
  filterOnly P -> t <> kFilterTable -> triple P (uninstallAnchor ip n t) P.
Proof.
  intros HP Ht. apply triple_each_. intros v.
  do 3 (eapply triple_seq; [apply triple_each; intros v'; by eapply triple_foreign |]). apply triple_ret.
Qed.

(** [uninstall] takes an installed firewall back to a clean machine. *)
Lemma triple_uninstall_installed A out : triple (installed A out) uninstall (ready out).
Proof.
  pose proof (unwinding_filter out) as Hf.
  unfold uninstall.
  eapply triple_seq; [apply (triple_family_Z (fun v fw => implements v fw A (out v)) (fun v => unlinked v (out v)));
    [intros; apply implements_family | intros; apply unlinked_family | by eexists | intros v fw; apply unlink_root] |].
  eapply triple_seq; [apply (triple_family_Z (fun v => unlinked v (out v)) (fun v => winding v (out v) (anchorNames v)));
    [intros; apply unlinked_family | intros; apply winding_family | by eexists | intros v fw; apply delete_root] |].
  change (fun fw : Chains => forall six, winding six (out six) (anchorNames six) fw) with (unwinding out anchorNames).
  do 6 (eapply triple_seq; [apply triple_each; intros v; by eapply triple_foreign |]).
  do 11 (eapply triple_seq; [apply triple_unwind |]).
  do 3 (eapply triple_seq; [by apply triple_uninstall_foreign |]).
  intros st Hst. rewrite teardown_view. eapply unwound_ready; [exact Hst |]. by intros [].
Qed.
End Install.

(** ** Properties *)

(** C14 (refinement): the class implements its contract.  Installed on a
    machine where none of its chains exist and driven by any sequence of
    operations, the chains it leaves give every packet the verdict of the
    first enabled anchor that has a matching rule, in the fixed order of the
    anchors; a packet no anchor decides is left to the rules that were in
    [OUTPUT] before. *)
Theorem firewall_refines {W} `{S : !Shell W} (parses : bool -> Rule -> bool)
  `{L : !IptablesLaws S parses} `{Q : Qt} (inNet : string -> QHostAddress -> bool)
  (out : bool -> list Rule) (st : Fw W) (ops : list FwOp) (p : Packet)
  (Hst : ready out (view st)) :
  let st' := (runOps ops (install st).2).2 in
  let A := fold_left (fun A o => aOp parses o A) ops initialAnchors in
  traverse inNet 4 (view st') kOutputChain p =
    match anchorVerdict inNet A p with
    | Some v => Some v
    | None => runRules inNet (fun c => traverse inNet 3 (view st') c p) (out (p_six p)) p
    end.
Proof.
  intros st' A. apply output_traverse. apply (runOps_refines ops (install st).2 initialAnchors out).
  intros six. by apply (triple_install out st Hst).
Qed.

(** A machine that is the reference semantics itself; an IPv6 text is what
    [ip6tables] takes. *)
Definition sampleParses (six : bool) (r : Rule) : bool :=
  forallb (fun m => match m with MDst n => Bool.eqb six (str_contains ":" n) | _ => true end) (r_matches r).
Definition sampleShell : Shell Chains := fun s fw => step sampleParses s fw.

Definition sampleLaws : @IptablesLaws Chains sampleShell sampleParses.
Proof.
  refine {| chains := fun fw : Chains => fw |}.
  - intros s w. by split.
  - done.
  - intros six n Hn. destruct six; repeat (apply elem_of_cons in Hn as [-> | Hn]; [by repeat constructor |]);
      by apply elem_of_nil in Hn.
Defined.

Definition sampleOutput : bool -> list Rule := fun _ => [on [MDport 25] "DROP"].
Definition sampleFw : Chains :=
  <[(false, kFilterTable, kOutputChain) := sampleOutput false]>
  (<[(true, kFilterTable, kOutputChain) := sampleOutput true]> ∅).

Lemma sample_ready : ready sampleOutput sampleFw.
Proof.
  split; [split |].
  - intros six c [s ->]. unfold sampleFw, kAnchorName. rewrite !string_app_cons.
    by rewrite !lookup_insert_ne, lookup_empty.
  - intros six c rules r Hl Hr [s Hs]. unfold sampleFw in Hl.
    apply lookup_insert_Some in Hl as [[_ <-] | [_ Hl]]; [| apply lookup_insert_Some in Hl as [[_ <-] | [_ Hl]];
      [| by rewrite lookup_empty in Hl]];
    apply list_elem_of_singleton in Hr as ->; discriminate.
  - by intros [].
Qed.

Lemma firewall_refines_witness :
  let st : Fw Chains := mkFw ∅ sampleFw in
  let p port := mkPacket false "eth0" (HV4 0x01020304) "tcp" 40000 port in
  let st' := (runOps (Shell0 := sampleShell) (H := plainQt) [OpSet Both "100.blockAll" true]
    (install (Shell0 := sampleShell) st).2).2 in
  traverse (fun _ _ => false) 4 (fw_world st') kOutputChain (p 443) = Some Reject.
Proof.
  intros st p st'.
  pose proof (@firewall_refines Chains sampleShell sampleParses sampleLaws plainQt (fun _ _ => false)
    sampleOutput st [OpSet Both "100.blockAll" true] (p 443) sample_ready) as H.
  exact H.
Defined.
