(* ===== verification/KillSwitch.v ===== *)
(** * The kill switch: [service/server/killswitch.cpp] (Linux build)

    The service's kill switch decides which anchors of the firewall are on.
    Its state is the persisted "strict" setting, the list of ranges allowed
    on the client's request, and the firewall.  The theorems say which
    packets can leave the machine after each call, from any state of the
    firewall the service can be in. *)

From Stdlib Require Import ZArith Lia Bool String Ascii.
From stdpp Require Import base gmap strings list pretty.
From S2P Require Import Prelude.
From S2P Require Import Qt.
From S2P Require Import QtInstance.
From S2P Require Import Iptables.
From S2P Require Import Firewall.

Open Scope Z_scope.

Definition amneziaDnsIp : string := "172.29.172.254".

Section Code.
Context {W : Type} `{!Shell W} `{Qt}.

Record KillSwitch : Type := mkKillSwitch {
  strictKillSwitchEnabled : bool;   (** [Conf/strictKillSwitchEnabled] *)
  m_allowedRanges : list string;
  ks_fw : Fw W
}.

Definition onFw {A : Type} (m : ST (Fw W) A) : ST KillSwitch A := fun st =>
  let '(a, f) := m (ks_fw st) in
  (a, mkKillSwitch (strictKillSwitchEnabled st) (m_allowedRanges st) f).

Definition setRanges (l : list string) : ST KillSwitch unit :=
  modify (fun st => mkKillSwitch (strictKillSwitchEnabled st) l (ks_fw st)).

Definition isStrictKillSwitchEnabled : ST KillSwitch bool := gets strictKillSwitchEnabled.

(** [if (!LinuxFirewall::isInstalled()) LinuxFirewall::install();] *)
Definition ensureInstalled : ST (Fw W) unit :=
  installed ← isInstalled; if (installed : bool) then mret tt else install.

Definition disableStrictCalls : list FwOp :=
  [ OpSet Both "000.allowLoopback" true;
    OpSet Both "100.blockAll" true;
    OpSet IPv4 "110.allowNets" false;
    OpSet IPv4 "120.blockNets" false;
    OpSet IPv4 "200.allowVPN" false;
    OpSet IPv6 "250.blockIPv6" true;
    OpSet Both "290.allowDHCP" false;
    OpSet Both "300.allowLAN" false;
    OpSet IPv4 "310.blockDNS" false;
    OpSet IPv4 "320.allowDNS" false;
    OpSet Both "400.allowPIA" false ].

Definition disableCalls : list FwOp :=
  [ OpSet Both "000.allowLoopback" true;
    OpSet Both "100.blockAll" false;
    OpSet IPv4 "110.allowNets" false;
    OpSet IPv4 "120.blockNets" false;
    OpSet IPv4 "200.allowVPN" false;
    OpSet IPv6 "250.blockIPv6" false;
    OpSet Both "290.allowDHCP" true;
    OpSet Both "300.allowLAN" true;
    OpSet IPv4 "310.blockDNS" false;
    OpSet IPv4 "320.allowDNS" true;
    OpSet Both "400.allowPIA" false ].

Definition disableKillSwitch : ST KillSwitch bool :=
  strict ← isStrictKillSwitchEnabled;
  onFw (if (strict : bool) then runOps disableStrictCalls else runOps disableCalls ;; uninstall) ;;
  setRanges [] ;;
  mret true.

Definition disableAllTrafficCalls : list FwOp :=
  [ OpSet Both "100.blockAll" true;
    OpSet Both "000.allowLoopback" true;
    OpSet IPv6 "250.blockIPv6" true ].

Definition disableAllTraffic : ST KillSwitch bool :=
  onFw (ensureInstalled ;; runOps disableAllTrafficCalls) ;;
  setRanges [] ;;
  mret true.

Definition init : ST KillSwitch bool :=
  strict ← isStrictKillSwitchEnabled;
  if (strict : bool) then disableAllTraffic else mret true.

Definition refresh (enabled : bool) : ST KillSwitch bool :=
  modify (fun st => mkKillSwitch enabled (m_allowedRanges st) (ks_fw st)) ;;
  strict ← isStrictKillSwitchEnabled;
  if (strict : bool) then disableAllTraffic else disableKillSwitch.

Definition resetAllowedRange (ranges : list string) : ST KillSwitch bool :=
  setRanges ranges ;;
  onFw (runOps [OpSet IPv4 "110.allowNets" true; OpAllow ranges]) ;;
  mret true.

(** The loop of [addAllowedRange]. *)
Definition addRange (l : list string) (range : string) : list string :=
  if negb (String.eqb range "") && negb (bool_decide (range ∈ l)) then l ++ [range] else l.

Definition addAllowedRange (ranges : list string) : ST KillSwitch bool :=
  l ← gets m_allowedRanges;
  resetAllowedRange (fold_left addRange ranges l).

(** [enablePeerTraffic] has a body on Windows only. *)
Definition enablePeerTraffic (configStr : QJsonObject) : ST KillSwitch bool := mret true.

(** The strings of an array, the null string for another value. *)
Definition strings (l : list json) : list string := map (fun v => qdata (toString (Some v))) l.
(** The leading strings of an array, up to the first other value. *)
Fixpoint leadingStrings (l : list json) : list string :=
  match l with
  | JString s :: l' => qdata s :: leadingStrings l'
  | _ => []
  end.

(** The flags and lists of [enableKillSwitch] by [splitTunnelType]:
    [blockAll], [allowNets], [blockNets], [allownets], [blocknets]. *)
Definition splitTunnelPlan (configStr : QJsonObject) : bool * bool * bool * list string * list string :=
  let splitTunnelType := toIntJ (value configStr "splitTunnelType") in
  let splitTunnelSites := strings (toArray (value configStr "splitTunnelSites")) in
  let vpnServer := qdata (toString (value configStr "vpnServer")) in
  if splitTunnelType =? 0 then (true, true, false, [vpnServer], [])
  else if splitTunnelType =? 1 then (false, false, true, [], splitTunnelSites)
  else if splitTunnelType =? 2 then (true, true, false, vpnServer :: splitTunnelSites, [])
  else (false, false, false, [], []).

Definition killSwitchDns (configStr : QJsonObject) : list string :=
  let dns1 := qdata (toString (value configStr "dns1")) in
  [dns1]
  ++ (if str_contains amneziaDnsIp dns1 then [] else [qdata (toString (value configStr "dns2"))])
  ++ ["127.0.0.1"; "127.0.0.53"]
  ++ leadingStrings (toArray (value configStr "allowedDnsServers")).

Definition enableCalls (configStr : QJsonObject) : list FwOp :=
  let '(blockAll, allowNets, blockNets, allownets, blocknets) := splitTunnelPlan configStr in
  [ OpSet Both "000.allowLoopback" true;
    OpSet Both "100.blockAll" blockAll;
    OpSet IPv4 "110.allowNets" allowNets;
    OpAllow allownets;
    OpSet IPv4 "120.blockNets" blockAll;
    OpBlock blocknets;
    OpSet IPv4 "200.allowVPN" true;
    OpSet IPv6 "250.blockIPv6" true;
    OpSet Both "290.allowDHCP" true;
    OpSet Both "300.allowLAN" true;
    OpSet IPv4 "310.blockDNS" true;
    OpDns (killSwitchDns configStr);
    OpSet IPv4 "320.allowDNS" true;
    OpSet Both "400.allowPIA" true ].

Definition enableKillSwitch (configStr : QJsonObject) (vpnAdapterIndex : Z) : ST KillSwitch bool :=
  onFw (ensureInstalled ;; runOps (enableCalls configStr)) ;;
  mret true.
End Code.
Arguments KillSwitch : clear implicits.

(** ** What the anchors say *)

Section Verdicts.
Variable inNet : string -> QHostAddress -> bool.

Lemma runRules_accept rules p :
  runRules inNet (fun _ => None) rules p = Some Accept ->
  exists r, r ∈ rules /\ r_target r = "ACCEPT"%string /\ ruleMatches inNet r p = true.
Proof.
  induction rules as [| r rules IH]; simpl; [done |]. intros Hr.
  destruct (ruleMatches inNet r p) eqn:Em.
  - destruct (String.eqb_spec (r_target r) "ACCEPT") as [E | E].
    + exists r. split; [left | done].
    + destruct (_ || _); [done |]. destruct (IH Hr) as (r' & ? & ?). exists r'. split; [by right | done].
  - destruct (IH Hr) as (r' & ? & ?). exists r'. split; [by right | done].
Qed.

(** An accepted packet was accepted by a rule of an enabled anchor. *)
Lemma firstMatch_accept A names p :
  firstMatch inNet A names p = Some Accept ->
  exists n r, n ∈ names /\ (p_six p, n) ∈ enabled A /\ r ∈ arules A (p_six p) n
    /\ r_target r = "ACCEPT"%string /\ ruleMatches inNet r p = true.
Proof.
  induction names as [| n names IH]; simpl; [done |].
  assert (Hrest : firstMatch inNet A names p = Some Accept -> exists n' r, n' ∈ n :: names
    /\ (p_six p, n') ∈ enabled A /\ r ∈ arules A (p_six p) n'
    /\ r_target r = "ACCEPT"%string /\ ruleMatches inNet r p = true).
  { intros H. destruct (IH H) as (n' & r & ? & ?). exists n', r. split; [by right | done]. }
  case_bool_decide; [| done]. destruct (runRules _ _ _ _) as [v |] eqn:Er; [| done].
  intros [= ->]. apply runRules_accept in Er as (r & ? & ? & ?).
  exists n, r. split; [left | done].
Qed.

Lemma firstMatch_app A l1 l2 p :
  firstMatch inNet A (l1 ++ l2) p =
    match firstMatch inNet A l1 p with Some v => Some v | None => firstMatch inNet A l2 p end.
Proof.
  induction l1 as [| n l1 IH]; simpl; [done |]. rewrite IH.
  case_bool_decide; [| done]. by destruct (runRules _ _ _ _).
Qed.

(** An enabled anchor whose rules decide the packet cuts off what follows. *)
Lemma firstMatch_cut A l1 n l2 p v :
  (p_six p, n) ∈ enabled A -> runRules inNet (fun _ => None) (arules A (p_six p) n) p = Some v ->
  firstMatch inNet A (l1 ++ n :: l2) p =
    match firstMatch inNet A l1 p with Some v' => Some v' | None => Some v end.
Proof.
  intros He Hr. rewrite firstMatch_app. simpl. by rewrite bool_decide_true, Hr.
Qed.

Lemma firstMatch_off A l p : (forall n, n ∈ l -> (p_six p, n) ∉ enabled A) -> firstMatch inNet A l p = None.
Proof.
  induction l as [| n l IH]; simpl; intros Hl; [done |].
  rewrite bool_decide_false by (apply Hl; left). apply IH. intros m Hm. apply Hl. by right.
Qed.
End Verdicts.

(** ** The effect of a sequence of calls on the anchors *)

Definition isOn (A : Anchors) (six : bool) (n : string) : bool := bool_decide ((six, n) ∈ enabled A).

Lemma isOn_aSetIn A v n b six m :
  isOn (aSetIn v n b A) six m =
    if String.eqb m n && Bool.eqb v six && bool_decide (n ∈ anchorNames v) then b else isOn A six m.
Proof.
  unfold aSetIn, isOn. destruct (decide (n ∈ anchorNames v)) as [Hn | Hn];
    [rewrite !(bool_decide_true (n ∈ _)) by done | rewrite !(bool_decide_false (n ∈ _)) by done; by rewrite andb_false_r].
  rewrite andb_true_r. destruct (String.eqb_spec m n) as [-> | Hne]; cbn [andb].
  - destruct (Bool.eqb_spec v six) as [-> | Hv].
    + destruct b; simpl; [apply bool_decide_eq_true | apply bool_decide_eq_false]; set_solver.
    + destruct b; simpl; apply bool_decide_ext; set_unfold; naive_solver.
  - destruct b; simpl; apply bool_decide_ext; set_unfold; naive_solver.
Qed.

Lemma isOn_aSet A ip n b six m :
  isOn (aSet ip n b A) six m =
    if String.eqb m n && inFamily ip six && bool_decide (n ∈ anchorNames six) then b else isOn A six m.
Proof.
  unfold aSet. destruct ip, six; cbn [inFamily negb]; rewrite ?isOn_aSetIn; cbn [Bool.eqb];
    rewrite ?andb_false_r, ?andb_true_r; cbn [andb]; try done; by destruct (String.eqb m n && _).
Qed.

Lemma arules_aSet A ip n b : arules (aSet ip n b A) = arules A.
Proof. unfold aSet, aSetIn. by repeat case_match. Qed.

Lemma isOn_aRules A v n rs six m : isOn (aRules v n rs A) six m = isOn A six m.
Proof. done. Qed.

Lemma arules_aRules A v n rs six m :
  arules (aRules v n rs A) six m = if String.eqb m n && Bool.eqb v six then rs else arules A six m.
Proof.
  simpl. destruct (String.eqb_spec m n) as [-> | Hne]; cbn [andb].
  - destruct (Bool.eqb_spec v six) as [-> | Hv]; [by rewrite bool_decide_true |].
    by rewrite bool_decide_false by congruence.
  - by rewrite bool_decide_false by congruence.
Qed.

(** The anchors whose rules never change. *)
Definition varying : list string := ["320.allowDNS"; "120.blockNets"; "110.allowNets"]%string.
Definition standard (A : Anchors) : Prop :=
  forall six n, n ∉ varying -> arules A six n = initialRules six n.

Lemma aOp_standard `{Qt} parses o A : standard A -> standard (aOp parses o A).
Proof.
  intros HA six n Hn. assert (Hne : forall m, m ∈ varying -> String.eqb n m = false).
  { intros m Hm. apply String.eqb_neq. by intros ->. }
  destruct o; cbn [aOp]; rewrite ?arules_aSet, ?arules_aRules, ?Hne by set_solver; by apply HA.
Qed.

Lemma aOps_standard `{Qt} parses ops A :
  standard A -> standard (fold_left (fun A o => aOp parses o A) ops A).
Proof. revert A. induction ops as [| o ops IH]; simpl; intros A HA; [done |]. by apply IH, aOp_standard. Qed.

(** ** The life cycle of the firewall *)

Section Lifecycle.
Context {W : Type} `{S : !Shell W} {parses : bool -> Rule -> bool} `{L : !IptablesLaws S parses} `{Q : Qt}.

(** Either none of our chains exist, or the firewall is installed. *)
Definition fwOk (out : bool -> list Rule) (st : Fw W) : Prop :=
  ready out (view st) \/ exists A, installed A out (view st) /\ standard A.

Lemma isInstalled_false out st :
  ready out (view st) -> exists st', isInstalled st = (false, st') /\ view st' = view st.
Proof.
  intros [[_ Hc] Ho]. unfold isInstalled, mbind, ST_bind.
  pose proof (execute_view (SCheckRoot kOutputChain kRootChain) st) as Hv.
  assert (Hcode : (execute (SCheckRoot kOutputChain kRootChain) st).1 = 1).
  { unfold execute. destruct (bash_step (SCheckRoot kOutputChain kRootChain) (fw_world st)) as [Hb _].
    destruct (bash _ _); simpl in *. rewrite Hb. unfold checkRule.
    change (chains (fw_world st)) with (view st). change "filter"%string with kFilterTable.
    rewrite (Ho false).
    rewrite bool_decide_false; [done |]. intros Hr. by apply (Hc _ _ _ _ (Ho false) Hr), ours_root. }
  destruct (execute _ st) as [code st']; simpl in *. rewrite Hcode. by eexists.
Qed.

Lemma isInstalled_true A out st :
  installed A out (view st) -> exists st', isInstalled st = (true, st') /\ view st' = view st.
Proof.
  intros Hi. unfold isInstalled, mbind, ST_bind.
  pose proof (execute_view (SCheckRoot kOutputChain kRootChain) st) as Hv.
  assert (Hcode : (execute (SCheckRoot kOutputChain kRootChain) st).1 = 0).
  { unfold execute. destruct (bash_step (SCheckRoot kOutputChain kRootChain) (fw_world st)) as [Hb _].
    destruct (bash _ _); simpl in *. rewrite Hb. unfold checkRule.
    change (chains (fw_world st)) with (view st). change "filter"%string with kFilterTable.
    rewrite (impl_output _ _ _ _ (Hi false)).
    by rewrite bool_decide_true by left. }
  destruct (execute _ st) as [code st']; simpl in *. rewrite Hcode. by eexists.
Qed.

Lemma ensureInstalled_ok out st :
  fwOk out st -> exists A, installed A out (view (ensureInstalled st).2) /\ standard A.
Proof.
  intros [Hr | (A & Hi & HA)]; unfold ensureInstalled; rewrite bind_snd.
  - destruct (isInstalled_false out st Hr) as (st' & -> & Hv). simpl. exists initialAnchors.
    split; [| done]. apply triple_install. by rewrite Hv.
  - destruct (isInstalled_true A out st Hi) as (st' & -> & Hv). exists A. simpl. by rewrite Hv.
Qed.

(** Installed if need be, then driven by [ops]. *)
Lemma ensure_ops ops out st :
  fwOk out st -> exists A, standard A
    /\ installed (fold_left (fun A o => aOp parses o A) ops A) out (view ((ensureInstalled ;; runOps ops) st).2).
Proof.
  intros Hok. destruct (ensureInstalled_ok out st Hok) as (A & Hi & HA). exists A. split; [done |].
  rewrite seq_snd. by apply (runOps_refines ops _ A out).
Qed.

(** On a machine without the firewall the calls change nothing. *)
Lemma script_ready out fw s :
  ready out fw ->
  match s with
  | SEnable _ _ t | SDisable _ _ t => t = kFilterTable
  | SFlushFilter _ c | SAppendFilter _ c _ => ours c
  | SLinkFirst _ p c t => p = kOutputChain /\ c = kRootChain /\ t = kFilterTable
  | SOther _ => True
  | _ => False
  end -> (step parses s fw).2 = fw.
Proof.
  intros [[Hc Hr] Ho] Hs. destruct s; try done; simpl.
  - destruct Hs as (-> & -> & ->). rewrite Ho. case_bool_decide; [done |].
    unfold insertTop. rewrite Ho. unfold usable. cbn [jumpTo r_target].
    rewrite (Hc six kRootChain) by apply ours_root.
    rewrite (bool_decide_false (is_Some None)) by (by intros []). 
    change (builtin kRootChain) with false. by rewrite andb_false_r.
  - subst. unfold checkRule, append. by rewrite (Hc _ _ (ours_anchor _)).
  - subst. unfold checkRule. by rewrite (Hc _ _ (ours_anchor _)).
  - unfold flush. change "filter"%string with kFilterTable. by rewrite Hc.
  - unfold append. change "filter"%string with kFilterTable. by rewrite Hc.
Qed.

Lemma refill_ready out v n rs st : ready out (view st) -> view (refill v n rs st).2 = view st.
Proof.
  intros Hr. unfold refill. rewrite seq_snd.
  assert (Hv : view (execute (SFlushFilter v (actualChain n)) st).2 = view st).
  { rewrite execute_view. apply (script_ready out); [done | apply ours_actual]. }
  transitivity (view (execute (SFlushFilter v (actualChain n)) st).2); [| exact Hv].
  rewrite <- Hv in Hr. clear Hv. revert Hr. generalize (execute (SFlushFilter v (actualChain n)) st).2.
  clear st. induction rs as [| r rs IH]; intros st Hr; [done |]. cbn [forEach]. rewrite seq_snd.
  assert (Hv : view ((execute (SAppendFilter v (actualChain n) r) ;; mret tt) st).2 = view st).
  { rewrite execute_unit_view. apply (script_ready out); [done | apply ours_actual]. }
  rewrite IH by (by rewrite Hv). exact Hv.
Qed.

Lemma families_ready out ip (s : bool -> Script) st :
  ready out (view st) -> (forall v fw, ready out fw -> (step parses (s v) fw).2 = fw) ->
  view (families_ ip (fun v => execute (s v) ;; mret tt) st).2 = view st.
Proof.
  intros Hr Hs. destruct ip; cbn [families_]; rewrite ?seq_snd; cbn [mret ST_ret snd];
    rewrite !execute_view; rewrite !Hs; try done. by rewrite Hs.
Qed.

Lemma runOp_ready out o st : ready out (view st) -> view (runOp o st).2 = view st.
Proof.
  intros Hr. destruct o as [ip n b | l | l | l | ip]; cbn [runOp].
  - unfold setAnchorEnabled, enableAnchor, disableAnchor. destruct b; rewrite seq_snd, runCallback_view;
      apply (families_ready out); try done; intros; by apply (script_ready out).
  - by apply (refill_ready out).
  - unfold updateAllowNets. rewrite seq_snd. set (st1 := (refill _ _ _ st).2).
    assert (H1 : view st1 = view st) by (by apply (refill_ready out)).
    rewrite (refill_ready out); [done |]. by rewrite H1.
  - by apply (refill_ready out).
  - unfold ensureRootAnchorPriority. rewrite seq_snd. unfold linkChain, families.
    assert (Hone : forall v st', ready out (view st') ->
      view (execute (SLinkFirst v kOutputChain kRootChain kFilterTable) st').2 = view st').
    { intros v st' Hr'. rewrite execute_view. by apply (script_ready out). }
    destruct ip; [by apply Hone | by apply Hone |]. rewrite !bind_snd. cbn [mret ST_ret snd].
    rewrite !Hone; [done | done | by rewrite Hone].
Qed.

Lemma runOps_ready out ops st : ready out (view st) -> view (runOps ops st).2 = view st.
Proof.
  revert st. induction ops as [| o ops IH]; intros st Hr; [done |].
  unfold runOps. cbn [forEach]. rewrite seq_snd. pose proof (runOp_ready out o st Hr) as Ho.
  unfold runOps in IH. rewrite IH by (by rewrite Ho). exact Ho.
Qed.

Lemma ops_fwOk ops out st : fwOk out st -> fwOk out (runOps ops st).2.
Proof.
  intros [Hr | (A & Hi & HA)].
  - left. by rewrite (runOps_ready out).
  - right. eexists. split; [by apply (runOps_refines ops st A out) | by apply aOps_standard].
Qed.

Lemma uninstall_ready out st : fwOk out st -> ready out (view (uninstall st).2).
Proof.
  intros [Hr | (A & Hi & _)].
  - apply (triple_uninstall (ready out)); [by intros fw [? _] | apply ready_filter | done].
  - by eapply triple_uninstall_installed.
Qed.
End Lifecycle.

(** ** Which packets may leave *)

Definition lanNets (six : bool) : list string :=
  if six then ["fc00::/7"; "fe80::/10"; "ff00::/8"]
  else ["10.0.0.0/8"; "169.254.0.0/16"; "172.16.0.0/12"; "192.168.0.0/16"; "224.0.0.0/4"; "255.255.255.255/32"].

#[local] Arguments ifaceMatches : simpl never.

Section Allowed.
Variable inNet : string -> QHostAddress -> bool.

Definition isLoopback (p : Packet) : bool := ifaceMatches "lo+" (p_out p).
Definition isVpn (p : Packet) : bool :=
  ifaceMatches "frkn0+" (p_out p) || ifaceMatches "tun0+" (p_out p) || ifaceMatches "tun2+" (p_out p).
Definition isDhcp (p : Packet) : bool :=
  existsb (fun r => ruleMatches inNet r p) (if p_six p then dhcpRules6 else dhcpRules4).
Definition toAny (nets : list string) (p : Packet) : Prop := exists n, n ∈ nets /\ inNet n (p_dst p) = true.

(** What the kill switch lets out: loopback, the local network, DHCP and,
    over IPv4, the tunnel interfaces and the networks of [allow]. *)
Definition permitted (allow : list string) (p : Packet) : Prop :=
  isLoopback p = true \/ toAny (lanNets (p_six p)) p \/ isDhcp p = true
  \/ (p_six p = false /\ (isVpn p = true \/ toAny allow p)).

Lemma match_dst n t p : ruleMatches inNet (on [MDst n] t) p = inNet n (p_dst p).
Proof. unfold ruleMatches; simpl. by rewrite andb_true_r. Qed.
Lemma match_out b i t p : ruleMatches inNet (on [MOut b i] t) p = xorb b (ifaceMatches i (p_out p)).
Proof. unfold ruleMatches; simpl. by rewrite andb_true_r. Qed.

Lemma lan_rule six r p :
  r ∈ initialRules six "300.allowLAN" -> ruleMatches inNet r p = true -> toAny (lanNets six) p.
Proof.
  intros Hr Hm. assert (exists n, n ∈ lanNets six /\ r = on [MDst n] "ACCEPT") as (n & Hn & ->).
  { destruct six; apply list_elem_of_fmap in Hr as (n & -> & Hn); by exists n. }
  rewrite match_dst in Hm. by exists n.
Qed.

Lemma dns_rule l r p : r ∈ getDNSRules l -> ruleMatches inNet r p = true -> isVpn p = true.
Proof.
  unfold getDNSRules. intros Hr Hm. apply list_elem_of_In, in_flat_map in Hr as (s & _ & Hr).
  unfold ruleMatches in Hm. rewrite forallb_forall in Hm. unfold isVpn.
  simpl in Hr. repeat destruct Hr as [<- | Hr]; try done.
  all: specialize (Hm _ (or_introl eq_refl)); cbn [matches xorb] in Hm; by rewrite Hm, ?orb_true_r.
Qed.

Lemma vpn_rule r p : r ∈ vpnRules -> ruleMatches inNet r p = true -> isVpn p = true.
Proof.
  unfold vpnRules, isVpn. intros Hr Hm.
  repeat (apply elem_of_cons in Hr as [-> | Hr]; [rewrite match_out in Hm; cbn [xorb] in Hm;
    by rewrite Hm, ?orb_true_r |]). by apply elem_of_nil in Hr.
Qed.

Lemma dhcp_rule six r p :
  r ∈ initialRules six "290.allowDHCP" -> ruleMatches inNet r p = true -> p_six p = six -> isDhcp p = true.
Proof.
  intros Hr Hm Hp. unfold isDhcp. rewrite Hp. apply existsb_exists. exists r.
  split; [apply list_elem_of_In; by destruct six | done].
Qed.

Lemma loop_rule r p : r ∈ loopbackRules -> ruleMatches inNet r p = true -> isLoopback p = true.
Proof. intros ->%list_elem_of_singleton. rewrite match_out. done. Qed.

Lemma allow_rule (f : Rule -> bool) (g : string -> bool) l r p :
  r ∈ List.filter f (getAllowRule (List.filter g l)) -> ruleMatches inNet r p = true -> toAny l p.
Proof.
  intros Hr Hm. apply list_elem_of_In, filter_In in Hr as [Hr _].
  apply in_map_iff in Hr as (n & <- & Hn). apply filter_In in Hn as [Hn _].
  rewrite match_dst in Hm. exists n. split; [by apply list_elem_of_In | done].
Qed.

(** An IPv4 packet accepted by the anchors [A] is permitted. *)
Lemma accept4 A allow p :
  standard A -> p_six p = false ->
  (forall r, r ∈ arules A false "110.allowNets" -> ruleMatches inNet r p = true ->
     isOn A false "110.allowNets" = true -> toAny allow p) ->
  (forall r, r ∈ arules A false "320.allowDNS" -> ruleMatches inNet r p = true -> isVpn p = true) ->
  (forall r, r ∈ arules A false "120.blockNets" -> r_target r <> "ACCEPT"%string) ->
  anchorVerdict inNet A p = Some Accept -> permitted allow p.
Proof.
  intros HA Hp H110 H320 H120 Ha. unfold anchorVerdict in Ha. rewrite Hp in Ha.
  apply firstMatch_accept in Ha as (n & r & Hn & He & Hr & Ht & Hm). rewrite Hp in *.
  unfold permitted. rewrite Hp.
  repeat (apply elem_of_cons in Hn as [-> | Hn]); [.. | by apply elem_of_nil in Hn].
  - rewrite (HA false) in Hr by set_solver. left. by eapply loop_rule.
  - right; right; right. split; [done |]. left. by eapply H320.
  - rewrite (HA false) in Hr by set_solver.
    repeat (apply elem_of_cons in Hr as [-> | Hr]; [done |]). by apply elem_of_nil in Hr.
  - rewrite (HA false) in Hr by set_solver. right; left. by eapply (lan_rule false).
  - rewrite (HA false) in Hr by set_solver. right; right; left. by eapply (dhcp_rule false).
  - rewrite (HA false) in Hr by set_solver. right; right; right. split; [done |]. left. by eapply vpn_rule.
  - by apply H120 in Hr.
  - right; right; right. split; [done |]. right. eapply H110; try done. by apply bool_decide_eq_true.
  - rewrite (HA false) in Hr by set_solver. apply list_elem_of_singleton in Hr as ->. done.
Qed.

(** With [250.blockIPv6] on, an IPv6 packet outside loopback is decided by the
    anchors before it, or rejected. *)
Lemma cut6 A p :
  standard A -> p_six p = true -> isOn A true "250.blockIPv6" = true -> isLoopback p = false ->
  anchorVerdict inNet A p =
    match firstMatch inNet A ["000.allowLoopback"; "310.blockDNS"; "300.allowLAN"; "290.allowDHCP"]%string p with
    | Some v => Some v
    | None => Some Reject
    end.
Proof.
  intros HA Hp Hon Hl. unfold isOn in Hon. apply bool_decide_eq_true in Hon.
  unfold anchorVerdict. rewrite Hp.
  apply (firstMatch_cut inNet A ["000.allowLoopback"; "310.blockDNS"; "300.allowLAN"; "290.allowDHCP"]%string
    "250.blockIPv6"); [by rewrite Hp |].
  rewrite Hp, (HA true) by set_solver. simpl. rewrite match_out. unfold isLoopback in Hl. by rewrite Hl.
Qed.

(** The accepting rule among those anchors. *)
Lemma accept6 A p :
  standard A -> p_six p = true ->
  firstMatch inNet A ["000.allowLoopback"; "310.blockDNS"; "300.allowLAN"; "290.allowDHCP"]%string p = Some Accept ->
  isLoopback p = true
  \/ (isOn A true "300.allowLAN" = true /\ toAny (lanNets true) p)
  \/ (isOn A true "290.allowDHCP" = true /\ isDhcp p = true).
Proof.
  intros HA Hp Ef. apply firstMatch_accept in Ef as (n & r & Hn & He & Hr & Ht & Hm). rewrite Hp in *.
  apply (bool_decide_eq_true_2 _) in He. change (isOn A true n = true) in He.
  repeat (apply elem_of_cons in Hn as [-> | Hn]); [.. | by apply elem_of_nil in Hn].
  all: rewrite (HA true) in Hr by set_solver.
  - left. by apply (loop_rule _ _ Hr Hm).
  - repeat (apply elem_of_cons in Hr as [-> | Hr]; [done |]). by apply elem_of_nil in Hr.
  - right; left. split; [done |]. by eapply (lan_rule true).
  - right; right. split; [done |]. by eapply (dhcp_rule true).
Qed.

Lemma verdict6 A allow p :
  standard A -> p_six p = true -> isOn A true "250.blockIPv6" = true ->
  anchorVerdict inNet A p = Some Accept -> permitted allow p.
Proof.
  intros HA Hp Hon Ha. unfold permitted. rewrite Hp. destruct (isLoopback p) eqn:El; [by left |].
  rewrite cut6 in Ha by done. destruct (firstMatch _ _ _ _) as [v |] eqn:Ef; [| done]. injection Ha as ->.
  apply accept6 in Ef as [? | [[_ ?] | [_ ?]]]; [congruence | by right; left | by right; right; left | done | done].
Qed.

(** With [000.allowLoopback] on, loopback packets are accepted. *)
Lemma loopback_first A p :
  standard A -> isOn A (p_six p) "000.allowLoopback" = true -> isLoopback p = true ->
  anchorVerdict inNet A p = Some Accept.
Proof.
  intros HA Hon Hl. unfold isOn in Hon. apply bool_decide_eq_true in Hon. unfold anchorVerdict.
  assert (exists l, anchorNames (p_six p) = "000.allowLoopback"%string :: l) as [l ->].
  { exists (tail (anchorNames (p_six p))). by destruct (p_six p). }
  cbn [firstMatch]. rewrite bool_decide_true by done. rewrite HA by set_solver. simpl.
  rewrite match_out. unfold isLoopback in Hl. by rewrite Hl.
Qed.

(** With [100.blockAll] on, the anchors decide every packet. *)
Lemma blockAll_decides A p :
  standard A -> isOn A (p_six p) "100.blockAll" = true -> anchorVerdict inNet A p <> None.
Proof.
  intros HA Hon. unfold isOn in Hon. apply bool_decide_eq_true in Hon. unfold anchorVerdict.
  assert (exists l, anchorNames (p_six p) = l ++ ["100.blockAll"%string]) as [l ->].
  { exists (removelast (anchorNames (p_six p))). by destruct (p_six p). }
  erewrite (firstMatch_cut inNet A l); [by destruct (firstMatch _ _ _ _) | done |].
  rewrite HA by set_solver. reflexivity.
Qed.
End Allowed.

(** ** The calls *)

Section Calls.
Context {W : Type} `{S : !Shell W} {parses : bool -> Rule -> bool} `{L : !IptablesLaws S parses} `{Q : Qt}.

Lemma onFw_snd {A : Type} (m : ST (Fw W) A) (st : KillSwitch W) : ks_fw (onFw m st).2 = (m (ks_fw st)).2.
Proof. unfold onFw. by destruct (m (ks_fw st)). Qed.

Lemma enable_fw cfg i (st : KillSwitch W) :
  ks_fw (enableKillSwitch cfg i st).2 = ((ensureInstalled ;; runOps (enableCalls cfg)) (ks_fw st)).2.
Proof.
  unfold enableKillSwitch, mbind at 1, ST_bind at 1. rewrite <- onFw_snd.
  by destruct (onFw _ st).
Qed.

Lemma disableAll_fw (st : KillSwitch W) :
  ks_fw (disableAllTraffic st).2 = ((ensureInstalled ;; runOps disableAllTrafficCalls) (ks_fw st)).2.
Proof.
  unfold disableAllTraffic, setRanges, mbind at 1, ST_bind at 1. rewrite <- onFw_snd.
  by destruct (onFw _ st).
Qed.

Lemma disable_fw (st : KillSwitch W) :
  ks_fw (disableKillSwitch st).2 =
    (if strictKillSwitchEnabled st then runOps disableStrictCalls (ks_fw st)
     else (runOps disableCalls ;; uninstall) (ks_fw st)).2.
Proof.
  unfold disableKillSwitch, isStrictKillSwitchEnabled, setRanges, gets, mbind at 1, ST_bind at 1.
  unfold mbind at 1, ST_bind at 1.
  destruct (strictKillSwitchEnabled st); rewrite <- onFw_snd; by destruct (onFw _ st).
Qed.

Lemma reset_fw l (st : KillSwitch W) :
  ks_fw (resetAllowedRange l st).2 = (runOps [OpSet IPv4 "110.allowNets" true; OpAllow l] (ks_fw st)).2.
Proof.
  unfold resetAllowedRange, setRanges, modify, mbind at 1, ST_bind at 1.
  unfold mbind at 1, ST_bind at 1.
  change (ks_fw st) with (ks_fw (mkKillSwitch (strictKillSwitchEnabled st) l (ks_fw st))) at 2.
  rewrite <- onFw_snd. by destruct (onFw _ _).
Qed.

(** The calls of the service. *)
Inductive KsCall : Type :=
| CallInit | CallRefresh (b : bool) | CallDisable | CallDisableAll
| CallReset (l : list string) | CallAdd (l : list string) | CallEnable (cfg : QJsonObject) (i : Z).

Definition ksRun (c : KsCall) : ST (KillSwitch W) bool :=
  match c with
  | CallInit => init
  | CallRefresh b => refresh b
  | CallDisable => disableKillSwitch
  | CallDisableAll => disableAllTraffic
  | CallReset l => resetAllowedRange l
  | CallAdd l => addAllowedRange l
  | CallEnable cfg i => enableKillSwitch cfg i
  end.

Lemma ensure_fwOk ops out st : fwOk out st -> fwOk out ((ensureInstalled ;; runOps ops) st).2.
Proof.
  intros Hok. destruct (ensure_ops ops out st Hok) as (A & HA & Hi). right. eexists.
  split; [exact Hi | by apply aOps_standard].
Qed.

Lemma disable_fwOk out (st : KillSwitch W) : fwOk out (ks_fw st) -> fwOk out (ks_fw (disableKillSwitch st).2).
Proof.
  intros Hok. rewrite disable_fw. destruct (strictKillSwitchEnabled st); [by apply ops_fwOk |].
  rewrite seq_snd. left. by apply uninstall_ready, ops_fwOk.
Qed.

Lemma ksRun_fwOk out c (st : KillSwitch W) : fwOk out (ks_fw st) -> fwOk out (ks_fw (ksRun c st).2).
Proof.
  assert (Hall : forall s : KillSwitch W, fwOk out (ks_fw s) -> fwOk out (ks_fw (disableAllTraffic s).2)).
  { intros s Hok. rewrite disableAll_fw. by apply ensure_fwOk. }
  intros Hok. destruct c as [| b | | | l | l | cfg i]; cbn [ksRun].
  - unfold init, isStrictKillSwitchEnabled, gets, mbind, ST_bind.
    destruct (strictKillSwitchEnabled st); [by apply Hall | done].
  - unfold refresh, isStrictKillSwitchEnabled, gets, modify, mbind, ST_bind. cbn [strictKillSwitchEnabled].
    destruct b; [by apply Hall | by apply disable_fwOk].
  - by apply disable_fwOk.
  - by apply Hall.
  - rewrite reset_fw. by apply ops_fwOk.
  - unfold addAllowedRange, gets, mbind, ST_bind. rewrite reset_fw. by apply ops_fwOk.
  - rewrite enable_fw. by apply ensure_fwOk.
Qed.

(** A sequence of calls. *)
Definition ksRuns (l : list KsCall) (st : KillSwitch W) : KillSwitch W :=
  fold_left (fun st c => (ksRun c st).2) l st.

Lemma ksRuns_fwOk out l st : fwOk out (ks_fw st) -> fwOk out (ks_fw (ksRuns l st)).
Proof. revert st. induction l as [| c l IH]; simpl; intros st Hok; [done |]. by apply IH, ksRun_fwOk. Qed.
End Calls.

(** Whether an anchor is on after a list of calls, as a computation. *)
Fixpoint evalOn (ops : list FwOp) (six : bool) (n : string) (b : bool) : bool :=
  match ops with
  | [] => b
  | OpSet ip m v :: ops' =>
      evalOn ops' six n (if String.eqb n m && inFamily ip six && bool_decide (m ∈ anchorNames six) then v else b)
  | _ :: ops' => evalOn ops' six n b
  end.

Lemma isOn_fold `{Qt} parses ops A six n :
  isOn (fold_left (fun A o => aOp parses o A) ops A) six n = evalOn ops six n (isOn A six n).
Proof.
  revert A. induction ops as [| o ops IH]; intros A; [done |]. cbn [fold_left]. rewrite IH.
  destruct o; cbn [evalOn aOp]; [by rewrite isOn_aSet | done..].
Qed.

(** Evaluate the anchors after a list of calls. *)
Ltac eval_anchors :=
  rewrite ?isOn_fold; cbn [fold_left aOp];
  rewrite ?arules_aSet, ?arules_aRules, ?arules_aSet; try reflexivity.

Definition allowedNets (cfg : QJsonObject) : list string := (splitTunnelPlan cfg).1.2.

Section Outcome.
Context {W : Type} `{S : !Shell W} {parses : bool -> Rule -> bool} `{L : !IptablesLaws S parses} `{Q : Qt}.
Variable inNet : string -> QHostAddress -> bool.

Lemma plan_blocking cfg :
  toIntJ (value cfg "splitTunnelType") = 0 \/ toIntJ (value cfg "splitTunnelType") = 2 ->
  splitTunnelPlan cfg = (true, true, false, allowedNets cfg, []).
Proof. unfold allowedNets, splitTunnelPlan. by intros [-> | ->]. Qed.

(** The anchors after [enableCalls] in the blocking modes. *)
Lemma enable_anchors A cfg :
  splitTunnelPlan cfg = (true, true, false, allowedNets cfg, []) ->
  let A' := fold_left (fun A o => aOp parses o A) (enableCalls cfg) A in
  isOn A' false "100.blockAll" = true /\ isOn A' true "100.blockAll" = true
  /\ isOn A' true "250.blockIPv6" = true
  /\ arules A' false "110.allowNets"
     = List.filter (parses false) (getAllowRule (List.filter (fun s => negb (isIpv6Server s)) (allowedNets cfg)))
  /\ arules A' false "320.allowDNS" = List.filter (parses false) (getDNSRules (killSwitchDns cfg))
  /\ arules A' false "120.blockNets" = [].
Proof.
  intros Hp A'. unfold A', enableCalls. rewrite Hp. repeat split; eval_anchors.
Qed.

Lemma verdict_total (o : option Verdict) : o <> None -> o = Some Accept \/ o = Some Reject.
Proof. destruct o as [[] |]; auto. done. Qed.

Lemma plan_selective cfg :
  toIntJ (value cfg "splitTunnelType") = 1 ->
  splitTunnelPlan cfg = (false, false, true, [], strings (toArray (value cfg "splitTunnelSites"))).
Proof. unfold splitTunnelPlan. by intros ->. Qed.

(** No anchor that is on rejects the packet. *)
Lemma firstMatch_no_reject A names p :
  (forall n r, n ∈ names -> isOn A (p_six p) n = true -> r ∈ arules A (p_six p) n ->
     ruleMatches inNet r p = true -> r_target r = "ACCEPT"%string) ->
  firstMatch inNet A names p <> Some Reject.
Proof.
  induction names as [| n names IH]; intros Hn; simpl; [done |].
  assert (Hrest : firstMatch inNet A names p <> Some Reject).
  { apply IH. intros m r Hm. apply Hn. by right. }
  case_bool_decide as He; [| done].
  assert (Hrun : forall rules, (forall r, r ∈ rules -> ruleMatches inNet r p = true -> r_target r = "ACCEPT"%string) ->
    runRules inNet (fun _ => None) rules p <> Some Reject).
  { induction rules as [| r rules IHr]; intros Hr; simpl; [done |].
    destruct (ruleMatches inNet r p) eqn:Em.
    - by rewrite (Hr r) by (left || done).
    - apply IHr. intros r' Hr'. apply Hr. by right. }
  specialize (Hrun (arules A (p_six p) n)). destruct (runRules _ _ _ _) as [v |]; [| done].
  apply Hrun. intros r Hr Hm. eapply Hn; [left | by apply bool_decide_eq_true | done | done].
Qed.
End Outcome.

(** ** Properties *)

(** C2 (safety): no leak.  After [enableKillSwitch] for the whole traffic or
    for all but some sites (split tunnel types 0 and 2), from any state the
    firewall of the service can be in, every packet is either rejected or
    permitted: loopback, local network, DHCP and, over IPv4, a tunnel interface,
    the VPN server or an excluded site.  Nothing is left to the machine's
    other rules. *)
Theorem enableKillSwitch_no_leak {W} `{S : !Shell W} (parses : bool -> Rule -> bool)
  `{L : !IptablesLaws S parses} `{Q : Qt} (inNet : string -> QHostAddress -> bool)
  (out : bool -> list Rule) (cfg : QJsonObject) (i : Z) (st : KillSwitch W) (p : Packet)
  (Hok : fwOk out (ks_fw st))
  (Ht : toIntJ (value cfg "splitTunnelType") = 0 \/ toIntJ (value cfg "splitTunnelType") = 2) :
  let v := traverse inNet 4 (view (ks_fw (enableKillSwitch cfg i st).2)) kOutputChain p in
  v = Some Reject \/ (v = Some Accept /\ permitted inNet (allowedNets cfg) p).
Proof.
  intros v. unfold v. rewrite enable_fw.
  destruct (ensure_ops (enableCalls cfg) out _ Hok) as (A & HA & Hi).
  apply aOps_standard with (parses := parses) (ops := enableCalls cfg) in HA as HA'.
  destruct (enable_anchors (parses := parses) A cfg (plan_blocking cfg Ht)) as (H4 & H6 & H250 & R110 & R320 & R120).
  set (A' := fold_left _ _ A) in *. rewrite (output_traverse inNet _ A' (out (p_six p))) by apply Hi.
  assert (Hd : anchorVerdict inNet A' p <> None).
  { apply blockAll_decides; [done |]. by destruct (p_six p). }
  destruct (verdict_total _ Hd) as [Ha | Hr]; [right | left; by rewrite Hr]. rewrite Ha. split; [done |].
  destruct (p_six p) eqn:Es.
  - by apply (verdict6 inNet A' (allowedNets cfg) p).
  - apply (accept4 inNet A'); try done.
    + intros r. rewrite R110. intros Hr Hm _. by eapply allow_rule.
    + intros r. rewrite R320. intros Hr. apply list_elem_of_In, filter_In in Hr as [Hr _].
      eapply dns_rule. by apply list_elem_of_In.
    + intros r. rewrite R120. intros Hr. by apply elem_of_nil in Hr.
Qed.

(** The selective kill switch (split tunnel type 1) blocks
    no site.  The chain [120.blockNets] receives the reject rules of the
    sites but is linked with the flag [blockAll], which is false in this
    mode: no IPv4 packet outside DNS is rejected by the firewall, whatever its
    interface and destination. *)
Theorem selective_blocks_nothing {W} `{S : !Shell W} (parses : bool -> Rule -> bool)
  `{L : !IptablesLaws S parses} `{Q : Qt} (inNet : string -> QHostAddress -> bool)
  (out : bool -> list Rule) (cfg : QJsonObject) (i : Z) (st : KillSwitch W) (p : Packet)
  (Hok : fwOk out (ks_fw st)) (Ht : toIntJ (value cfg "splitTunnelType") = 1)
  (H4 : p_six p = false) (Hp : p_dport p <> 53) :
  let fw := view (ks_fw (enableKillSwitch cfg i st).2) in
  traverse inNet 4 fw kOutputChain p = Some Accept
  \/ traverse inNet 4 fw kOutputChain p = runRules inNet (fun c => traverse inNet 3 fw c p) (out false) p.
Proof.
  intros fw. unfold fw. rewrite enable_fw.
  destruct (ensure_ops (enableCalls cfg) out _ Hok) as (A & HA & Hi).
  apply aOps_standard with (parses := parses) (ops := enableCalls cfg) in HA as HA'.
  set (A' := fold_left _ _ A) in *.
  assert (Hoff : isOn A' false "100.blockAll" = false /\ isOn A' false "120.blockNets" = false
    /\ isOn A' false "110.allowNets" = false
    /\ arules A' false "320.allowDNS" = List.filter (parses false) (getDNSRules (killSwitchDns cfg))).
  { unfold A', enableCalls. rewrite (plan_selective cfg Ht). repeat split; eval_anchors. }
  destruct Hoff as (O100 & O120 & O110 & R320).
  rewrite (output_traverse inNet _ A' (out (p_six p))) by apply Hi. rewrite H4.
  assert (Hn : anchorVerdict inNet A' p <> Some Reject).
  { apply firstMatch_no_reject. rewrite H4. intros n r Hn Hon Hr Hm.
    repeat (apply elem_of_cons in Hn as [-> | Hn]); [.. | by apply elem_of_nil in Hn].
    all: try (rewrite Hon in *; discriminate).
    all: try (rewrite R320 in Hr; apply list_elem_of_In, filter_In in Hr as [Hr _];
      apply in_flat_map in Hr as (s & _ & Hr); simpl in Hr; by repeat destruct Hr as [<- | Hr]).
    all: rewrite (HA' false) in Hr by by_names.
    all: repeat (apply elem_of_cons in Hr as [-> | Hr]; [try done |]); try by apply elem_of_nil in Hr.
    all: unfold ruleMatches in Hm; cbn [r_matches on forallb matches] in Hm; zbool; lia. }
  destruct (anchorVerdict inNet A' p) as [[] |]; [by left | done | by right].
Qed.

(** Strict mode.  With the strict setting on, turning the kill
    switch off on an installed firewall lets nothing but loopback traffic
    out, in both families and whatever was enabled before. *)
Theorem strict_disable_blocks {W} `{S : !Shell W} (parses : bool -> Rule -> bool)
  `{L : !IptablesLaws S parses} `{Q : Qt} (inNet : string -> QHostAddress -> bool)
  (out : bool -> list Rule) (A : Anchors) (st : KillSwitch W) (p : Packet)
  (Hi : installed A out (view (ks_fw st))) (HA : standard A)
  (Hs : strictKillSwitchEnabled st = true) :
  traverse inNet 4 (view (ks_fw (disableKillSwitch st).2)) kOutputChain p
    = Some (if isLoopback p then Accept else Reject).
Proof.
  rewrite disable_fw, Hs.
  pose proof (runOps_refines disableStrictCalls (ks_fw st) A out Hi) as Hi'.
  apply aOps_standard with (parses := parses) (ops := disableStrictCalls) in HA as HA'.
  set (A' := fold_left _ _ A) in *.
  rewrite (output_traverse inNet _ A' (out (p_six p))) by apply Hi'.
  assert (Hon : forall six n, n ∈ anchorNames six -> isOn A' six n =
    if six then bool_decide (n ∈ ["000.allowLoopback"; "250.blockIPv6"; "100.blockAll"]%string)
                || (bool_decide (n ∈ ["310.blockDNS"; "200.allowVPN"; "110.allowNets"]%string) && isOn A true n)
    else bool_decide (n ∈ ["000.allowLoopback"; "100.blockAll"]%string)).
  { intros six n Hn. unfold A', disableStrictCalls.
    destruct six; repeat (apply elem_of_cons in Hn as [-> | Hn]; [eval_anchors; done |]); by apply elem_of_nil in Hn. }
  assert (Hblock : isOn A' (p_six p) "100.blockAll" = true) by (rewrite Hon by (destruct (p_six p); by_names);
    by destruct (p_six p)).
  destruct (isLoopback p) eqn:El.
  { assert (Hv : anchorVerdict inNet A' p = Some Accept); [| by rewrite Hv].
    apply loopback_first; [done | | done]. rewrite Hon by (destruct (p_six p); by_names). by destruct (p_six p). }
  assert (Hn : anchorVerdict inNet A' p <> Some Accept).
  { intros Ha. destruct (p_six p) eqn:Es.
    - rewrite cut6 in Ha; [| done | done | by rewrite Hon by by_names | done].
      destruct (firstMatch _ _ _ _) as [v |] eqn:Ef; [| done]. injection Ha as ->.
      apply accept6 in Ef as [? | [[Hc _] | [Hc _]]]; [congruence | | | done | done];
        by rewrite Hon in Hc by by_names.
    - unfold anchorVerdict in Ha. apply firstMatch_accept in Ha as (n & r & Hn & He & Hr & Ht & Hm).
      rewrite Es in *. apply (bool_decide_eq_true_2 _) in He. change (isOn A' false n = true) in He.
      rewrite Hon in He by done. apply bool_decide_eq_true in He.
      repeat (apply elem_of_cons in He as [-> | He]); [.. | by apply elem_of_nil in He].
      all: rewrite (HA' false) in Hr by by_names.
      + by rewrite (loop_rule _ _ _ Hr Hm) in El.
      + apply list_elem_of_singleton in Hr as ->. done. }
  destruct (verdict_total _ (blockAll_decides inNet A' p HA' Hblock)) as [? | ->]; done.
Qed.


(** ** Witnesses on the reference machine *)

Definition sampleKs (strict : bool) : KillSwitch Chains := mkKillSwitch strict [] (mkFw ∅ sampleFw).
Definition sampleCfg (t : Z) : QJsonObject :=
  <["splitTunnelType" := jint t]> (<["vpnServer" := jstr "192.0.2.7"]>
  (<["splitTunnelSites" := JArray [jstr "198.51.100.0/24"]]> (<["dns1" := jstr "1.1.1.1"]> ∅))).
Definition samplePacket (iface : string) (dst : Z) : Packet := mkPacket false iface (HV4 dst) "tcp" 40000 443.
(** Membership by text, enough for the sample addresses. *)
Definition sampleNet (net : string) (h : QHostAddress) : bool :=
  bool_decide ((net, h) ∈ [("192.0.2.7", HV4 0xc0000207); ("198.51.100.0/24", HV4 0xc6336401)]%string).

Lemma enableKillSwitch_no_leak_witness :
  let fw := view (L := sampleLaws)
    (ks_fw (enableKillSwitch (Shell0 := sampleShell) (H := plainQt) (sampleCfg 0) 0 (sampleKs false)).2) in
  traverse sampleNet 4 fw kOutputChain (samplePacket "eth0" 0x08080808) = Some Reject
  /\ traverse sampleNet 4 fw kOutputChain (samplePacket "eth0" 0xc0000207) = Some Accept
  /\ permitted sampleNet (allowedNets (sampleCfg 0)) (samplePacket "eth0" 0xc0000207).
Proof.
  intros fw. split; [vm_compute; reflexivity |]. split; [vm_compute; reflexivity |].
  destruct (@enableKillSwitch_no_leak Chains sampleShell sampleParses sampleLaws plainQt sampleNet sampleOutput
    (sampleCfg 0) 0 (sampleKs false) (samplePacket "eth0" 0xc0000207) (or_introl sample_ready)
    (or_introl eq_refl)) as [H | [_ H]]; [vm_compute in H; discriminate | exact H].
Defined.

Lemma selective_blocks_nothing_witness :
  let fw := view (L := sampleLaws)
    (ks_fw (enableKillSwitch (Shell0 := sampleShell) (H := plainQt) (sampleCfg 1) 0 (sampleKs false)).2) in
  let p := samplePacket "eth0" 0xc6336401 in
  traverse sampleNet 4 fw kOutputChain p <> Some Reject.
Proof.
  intros fw p.
  destruct (@selective_blocks_nothing Chains sampleShell sampleParses sampleLaws plainQt sampleNet sampleOutput
    (sampleCfg 1) 0 (sampleKs false) p (or_introl sample_ready) eq_refl eq_refl) as [H | H].
  - vm_compute. discriminate.
  - fold fw in H. rewrite H. discriminate.
  - fold fw in H. rewrite H. vm_compute. discriminate.
Defined.

Definition strictKs : KillSwitch Chains :=
  (disableAllTraffic (Shell0 := sampleShell) (H := plainQt) (sampleKs true)).2.

Lemma strict_disable_blocks_witness :
  traverse sampleNet 4 (view (L := sampleLaws)
      (ks_fw (disableKillSwitch (Shell0 := sampleShell) (H := plainQt) strictKs).2))
    kOutputChain (samplePacket "frkn0" 0x08080808) = Some Reject.
Proof.
  destruct (ensure_ops (L := sampleLaws) (Q := plainQt) disableAllTrafficCalls sampleOutput (ks_fw (sampleKs true))
    (or_introl sample_ready)) as (A & HA & Hi).
  refine (@strict_disable_blocks Chains sampleShell sampleParses sampleLaws plainQt sampleNet sampleOutput
    _ strictKs (samplePacket "frkn0" 0x08080808) _ (aOps_standard sampleParses disableAllTrafficCalls A HA) eq_refl).
  unfold strictKs. rewrite disableAll_fw. exact Hi.
Defined.

