(* ===== verification/WireguardUtils.v ===== *)
(** * The WireGuard back end: [client/daemon/wireguardutils.h] and
      [client/platforms/linux/daemon/wireguardutilslinux.cpp],
      [iputilslinux.cpp]

    [WireguardUtils], [IPUtils] and [DnsUtils] are the abstract classes the
    daemon drives; they are type classes here, and the Linux implementation
    is an instance.  It starts the user-space WireGuard process, configures it
    with text messages over its UAPI socket, installs routes through
    [RouteMonitor.v] and firewall rules through [Firewall.v] and
    [KillSwitch.v].  The process, the socket and the ioctls are parameters. *)

From Stdlib Require Import ZArith Lia Bool String Ascii.
From stdpp Require Import base gmap strings list pretty.
From S2P Require Import Prelude.
From S2P Require Import Qt.
From S2P Require Import QtInstance.
From S2P Require Import IPAddress.
From S2P Require Import InterfaceConfig.
From S2P Require Import RouteMonitor.
From S2P Require Import Iptables.
From S2P Require Import Firewall.
From S2P Require Import KillSwitch.

Open Scope Z_scope.

(** ** The abstract classes *)

(** [WireguardUtils::PeerStatus] *)
Record PeerStatus : Type := mkPeerStatus {
  m_pubkey : QString;
  m_handshake : Z;
  m_rxBytes : Z;
  m_txBytes : Z
}.

Class WireguardUtils (S : Type) := {
  interfaceExists : ST S bool;
  interfaceName : ST S QString;
  addInterface : InterfaceConfig -> ST S bool;
  deleteInterface : ST S bool;
  updatePeer : InterfaceConfig -> ST S bool;
  deletePeer : InterfaceConfig -> ST S bool;
  getPeerStatus : ST S (list PeerStatus);
  updateRoutePrefix : IPAddress -> ST S bool;
  deleteRoutePrefix : IPAddress -> ST S bool;
  addExclusionRoute : IPAddress -> ST S bool;
  deleteExclusionRoute : IPAddress -> ST S bool;
  excludeLocalNetworks : list IPAddress -> ST S bool
}.

Class IPUtils (S : Type) := {
  addInterfaceIPs : InterfaceConfig -> ST S bool;
  setMTUAndUp : InterfaceConfig -> ST S bool
}.

Class DnsUtils (S : Type) := {
  updateResolvers : QString -> list QHostAddress -> ST S bool;
  restoreResolvers : ST S bool
}.

(** ** The UAPI text *)

Section Uapi.
Context `{Qt}.

Definition WG_KEEPALIVE_PERIOD : Z := 60.

(** [out << key << "=" << value << "\n"], when [b] holds. *)
Definition uapiLine (key value : string) : list (string * string) := [(key, value)].
Definition uapiUnlessEmpty (key : string) (v : QString) : list (string * string) :=
  if isEmpty v then [] else [(key, qdata v)].

(** "on", "1", "true" and "yes" are "1", everything else "0". *)
Definition uapiBool (v : QString) : string :=
  let s := toLower (trimmed (qdata v)) in
  if String.eqb s "on" || String.eqb s "1" || String.eqb s "true" || String.eqb s "yes" then "1" else "0".

(** Base64 text to the hexadecimal form of the bytes. *)
Definition keyHex (v : QString) : string := toHex (fromBase64 (qdata v)).

Definition interfaceMessage (config : InterfaceConfig) : list (string * string) :=
  let j := m_junk config in
  [("set", "1"); ("private_key", keyHex (m_privateKey config)); ("replace_peers", "true")]
  ++ uapiUnlessEmpty "jc" (m_junkPacketCount j)
  ++ uapiUnlessEmpty "jmin" (m_junkPacketMinSize j)
  ++ uapiUnlessEmpty "jmax" (m_junkPacketMaxSize j)
  ++ uapiUnlessEmpty "s1" (m_initPacketJunkSize j)
  ++ uapiUnlessEmpty "s2" (m_responsePacketJunkSize j)
  ++ uapiUnlessEmpty "s3" (m_cookieReplyPacketJunkSize j)
  ++ uapiUnlessEmpty "s4" (m_transportPacketJunkSize j)
  ++ uapiUnlessEmpty "h1" (m_initPacketMagicHeader j)
  ++ uapiUnlessEmpty "h2" (m_responsePacketMagicHeader j)
  ++ uapiUnlessEmpty "h3" (m_underloadPacketMagicHeader j)
  ++ uapiUnlessEmpty "h4" (m_transportPacketMagicHeader j)
  ++ map (fun kv => (toLower kv.1, qdata kv.2)) (m_specialJunk j)
  ++ (if isEmpty (m_randomTrailers j) then [] else [("random_trailers", uapiBool (m_randomTrailers j))])
  ++ (if isEmpty (m_disableCookies j) then [] else [("disable_cookies", uapiBool (m_disableCookies j))])
  ++ (if isEmpty (m_headerProtectionKey j) then []
      else [("header_protection_key", keyHex (m_headerProtectionKey j))])
  ++ uapiUnlessEmpty "content_padding_addition" (m_contentPaddingAddition j)
  ++ uapiUnlessEmpty "rekey_after_time" (m_rekeyAfterTime j)
  ++ uapiUnlessEmpty "rekey_timeout" (m_rekeyTimeout j)
  ++ uapiUnlessEmpty "reject_after_time" (m_rejectAfterTime j)
  ++ uapiUnlessEmpty "keepalive_timeout" (m_keepaliveTimeout j)
  ++ uapiUnlessEmpty "max_handshake_attempts" (m_maxHandshakeAttempts j).

(** The message of [updatePeer]; [None] for a peer without an endpoint. *)
Definition peerMessage (config : InterfaceConfig) : option (list (string * string)) :=
  let pskKey := fromBase64 (qdata (m_serverPskKey config)) in
  let host :=
    if negb (isNull (m_serverIpv4AddrIn config)) then Some (qdata (m_serverIpv4AddrIn config) +:+ ":")
    else if negb (isNull (m_serverIpv6AddrIn config)) then
      Some ("[" +:+ qdata (m_serverIpv6AddrIn config) +:+ "]:")
    else None in
  match host with
  | None => None
  | Some host =>
      Some ([("set", "1"); ("public_key", keyHex (m_serverPublicKey config))]
        ++ match pskKey with [] => [] | _ => [("preshared_key", toHex pskKey)] end
        ++ [("endpoint", host +:+ pretty (m_serverPort config));
            ("replace_allowed_ips", "true");
            ("persistent_keepalive_interval", pretty WG_KEEPALIVE_PERIOD)]
        ++ map (fun ip => ("allowed_ip", ipToString ip)) (m_allowedIPAddressRanges config))
  end.

Definition deletePeerMessage (config : InterfaceConfig) : list (string * string) :=
  [("set", "1"); ("public_key", keyHex (m_serverPublicKey config)); ("remove", "true")].

(** The text of a message. *)
Definition uapiText (l : list (string * string)) : string :=
  foldr (fun kv s => kv.1 +:+ "=" +:+ kv.2 +:+ nl +:+ s) "" l.

(** [uapiErrno]: the value of the first [errno] line, [EINVAL] without one. *)
Definition EINVAL : Z := 22.
Definition intOf (s : string) : Z := default 0 (toInt s).

(** A line [name=value] with a non-empty name. *)
Definition splitLine (line : string) : option (string * string) :=
  match indexOf "=" line with
  | Some (S n) => Some (str_left (S n) line, str_mid (S (S n)) line)
  | _ => None
  end.

Fixpoint errnoOf (lines : list string) : Z :=
  match lines with
  | [] => EINVAL
  | line :: lines' =>
      match splitLine line with
      | Some (name, v) => if String.eqb name "errno" then intOf v else errnoOf lines'
      | None => errnoOf lines'
      end
  end.
Definition uapiErrno (reply : string) : Z := errnoOf (split newline reply).

(** [getPeerStatus]: one round of the loop over the lines; the current
    peer and the peers completed so far. *)
Definition peerStep (acc : PeerStatus * list PeerStatus) (line : string) : PeerStatus * list PeerStatus :=
  match splitLine line with
  | None => acc
  | Some (name, v) =>
      let '(status, peerList) := acc in
      if String.eqb name "public_key" then
        (mkPeerStatus (toBase64 (fromHex v)) 0 0 0,
         if isEmpty (m_pubkey status) then peerList else peerList ++ [status])
      else if String.eqb name "tx_bytes" then
        (mkPeerStatus (m_pubkey status) (m_handshake status) (m_rxBytes status) (toDouble v), peerList)
      else if String.eqb name "rx_bytes" then
        (mkPeerStatus (m_pubkey status) (m_handshake status) (toDouble v) (m_txBytes status), peerList)
      else if String.eqb name "last_handshake_time_sec" then
        (mkPeerStatus (m_pubkey status) (m_handshake status + toLongLong v * 1000) (m_rxBytes status) (m_txBytes status), peerList)
      else if String.eqb name "last_handshake_time_nsec" then
        (mkPeerStatus (m_pubkey status) (m_handshake status + Z.quot (toLongLong v) 1000000)
           (m_rxBytes status) (m_txBytes status), peerList)
      else (status, peerList)
  end.

Definition parsePeers (reply : string) : list PeerStatus :=
  let '(status, peerList) := fold_left peerStep (split newline reply) (mkPeerStatus QNull 0 0 0, []) in
  if isEmpty (m_pubkey status) then peerList else peerList ++ [status].
End Uapi.

(** ** The Linux implementation *)

Inductive ProcessState : Type := NotRunning | Starting | Running.
#[export] Instance ProcessState_eq_dec : EqDecision ProcessState.
Proof. solve_decision. Defined.

(** The process [m_tunnel], its UAPI socket, and the ioctls of [IPUtilsLinux]. *)
Class WgEnv (W : Type) := {
  tunnelState : W -> ProcessState;
  startTunnel : ST W bool;                    (** [start], [waitForStarted] *)
  killTunnel : ST W unit;
  terminateTunnel : ST W unit;
  waitForFinished : ST W bool;
  removeNameFile : ST W unit;
  timerRounds : ST W nat;                     (** start a 5 s timer: the rounds of
                                                  [processEvents] before it fires *)
  probeSocket : ST W bool;                    (** connect to the socket, 100 ms *)
  uapiConnect : ST W bool;                    (** connect to the socket, 5 s *)
  uapiWrite : string -> ST W unit;
  uapiRead : ST W string;                     (** [processEvents], [readAll] *)
  ioctlSetMtu : Z -> ST W Z;
  ioctlSetUp : ST W Z;
  ioctlSocket : ST W Z;
  ioctlSetAddr4 : string -> ST W Z;
  ioctlSetMask4 : Z -> ST W Z;
  ioctlGetIndex : ST W Z;
  ioctlSetAddr6 : string -> Z -> Z -> ST W (Z * bool)  (** code, [errno == EEXIST] *)
}.

(** The fields of [FirewallParams] the Linux daemon sets or reads. *)
Record FirewallParams : Type := mkParams {
  fp_dnsServers : list string;
  fp_allowAddrs : list string;
  fp_blockAddrs : list string;
  fp_excludedSubnets : list string;
  fp_blockAll : bool;
  fp_allowNets : bool;
  fp_blockNets : bool
}.

Section Linux.
Context {W : Type} `{!Shell W} `{!Netlink W} `{!WgEnv W} `{Qt}.

(** [m_rtmonitor] is the counter of the monitor, [None] for a null pointer;
    the machine is the one the kill switch and its firewall act on. *)
Record WgLinux : Type := mkWgLinux {
  m_ifname : QString;
  m_rtmonitor : option Z;
  wg_ks : KillSwitch W
}.

Definition wg_world (s : WgLinux) : W := fw_world (ks_fw (wg_ks s)).
Definition set_world (w : W) (s : WgLinux) : WgLinux :=
  let k := wg_ks s in
  mkWgLinux (m_ifname s) (m_rtmonitor s)
    (mkKillSwitch (strictKillSwitchEnabled k) (m_allowedRanges k) (mkFw (anchorCallbacks (ks_fw k)) w)).

Definition onMachine {A : Type} (m : ST W A) : ST WgLinux A := fun s =>
  let '(a, w) := m (wg_world s) in (a, set_world w s).
Definition onKs {A : Type} (m : ST (KillSwitch W) A) : ST WgLinux A := fun s =>
  let '(a, k) := m (wg_ks s) in (a, mkWgLinux (m_ifname s) (m_rtmonitor s) k).
Definition setIfname (n : QString) : ST WgLinux unit :=
  modify (fun s => mkWgLinux n (m_rtmonitor s) (wg_ks s)).
Definition setMonitor (r : option Z) : ST WgLinux unit :=
  modify (fun s => mkWgLinux (m_ifname s) r (wg_ks s)).

(** A call of the route monitor; [None] when there is none. *)
Definition onMonitor (m : ST (Monitor W) bool) : ST WgLinux (option bool) := fun s =>
  match m_rtmonitor s with
  | None => (None, s)
  | Some seq =>
      let '(r, mon) := m (mkMonitor seq (wg_world s)) in
      (Some r, set_world (world mon) (mkWgLinux (m_ifname s) (Some (m_nlseq mon)) (wg_ks s)))
  end.

(** What an uninitialised [struct in_addr] holds. *)
Variable garbage : list Z.

(** [if (!m_rtmonitor) return false; return m_rtmonitor->op(...)] *)
Definition viaMonitor (m : ST (Monitor W) bool) : ST WgLinux bool :=
  r ← onMonitor m; mret (match r with Some b => b | None => false end).

(** ** The UAPI socket *)

(** [while (!message.endsWith("\n\n")) message.append('\n');] *)
Definition endsWithNlNl (s : string) : bool :=
  match rev (String.list_ascii_of_string s) with
  | a :: b :: _ => Ascii.eqb a newline && Ascii.eqb b newline
  | _ => false
  end.
Fixpoint padMessage (fuel : nat) (s : string) : string :=
  match fuel with
  | O => s
  | S fuel' => if endsWithNlNl s then s else padMessage fuel' (s +:+ nl)
  end.

(** The loop that collects the reply, for as many rounds as the timer lasts;
    [None] when it fires first. *)
Fixpoint readReply (rounds : nat) (reply : string) : ST WgLinux (option string) :=
  if str_contains (nl +:+ nl) reply then mret (Some reply)
  else
    match rounds with
    | O => mret None
    | S rounds' => more ← onMachine uapiRead; readReply rounds' (reply +:+ more)
    end.

(** [None] stands for the null string of a failed or timed-out command. *)
Definition uapiCommand (command : string) : ST WgLinux (option string) :=
  rounds ← onMachine timerRounds;
  connected ← onMachine uapiConnect;
  if negb connected then mret None
  else
    onMachine (uapiWrite (padMessage 2 command)) ;;
    r ← readReply rounds "";
    mret (option_map trimmed r).

(** [uapiErrno(uapiCommand(message))] *)
Definition uapiStatus (command : string) : ST WgLinux Z :=
  r ← uapiCommand command;
  mret (uapiErrno (default ""%string r)).

(** The loop of [waitForTunnelName]: true when the socket answers, false when
    the process stops or the timer fires. *)
Fixpoint waitLoop (rounds : nat) : ST WgLinux bool :=
  state ← gets (fun s => tunnelState (wg_world s));
  if negb (bool_decide (state = Running)) then mret false
  else
    match rounds with
    | O => mret false
    | S rounds' =>
        ok ← onMachine probeSocket;
        if (ok : bool) then mret true else waitLoop rounds'
    end.
Definition waitForTunnelName : ST WgLinux QString :=
  rounds ← onMachine timerRounds;
  ok ← waitLoop rounds;
  mret (if (ok : bool) then QStr WG_INTERFACE else QNull).

(** ** Firewall rules *)

Definition firewallParams (config : InterfaceConfig) : FirewallParams :=
  let dnsServers := [qdata (m_primaryDnsServer config)]
    ++ (if isEmpty (m_secondaryDnsServer config) then [] else [qdata (m_secondaryDnsServer config)]) in
  let excluded := map qdata (m_excludedAddresses config) in
  let whole := bool_decide (ofString "0.0.0.0/0" ∈ m_allowedIPAddressRanges config) in
  mkParams dnsServers
    (if whole then excluded else [])
    (if whole then [] else map ipToString (m_allowedIPAddressRanges config))
    (map ipToString (List.filter (fun n => negb (host_isNull (m_address n))) (map ofString excluded)))
    whole
    (whole && negb (bool_decide (m_excludedAddresses config = [])))
    (negb whole).

(** The loop that merges [excludedSubnets] into [allowAddrs]. *)
Definition mergeAddrs (l : list string) (subnet : string) : list string :=
  if bool_decide (subnet ∈ l) then l else l ++ [subnet].

Definition firewallCalls (params : FirewallParams) : list FwOp :=
  let allowAddrs := fold_left mergeAddrs (fp_excludedSubnets params) (fp_allowAddrs params) in
  let allowNets := fp_allowNets params || negb (bool_decide (fp_excludedSubnets params = [])) in
  [ OpPriority Both;
    OpSet Both "000.allowLoopback" true;
    OpSet Both "100.blockAll" (fp_blockAll params);
    OpSet Both "110.allowNets" allowNets;
    OpAllow allowAddrs;
    OpSet IPv4 "120.blockNets" (fp_blockNets params);
    OpBlock (fp_blockAddrs params);
    OpSet IPv4 "200.allowVPN" true;
    OpSet IPv6 "250.blockIPv6" true;
    OpSet Both "290.allowDHCP" true;
    OpSet Both "300.allowLAN" true;
    OpSet IPv4 "310.blockDNS" true;
    OpDns (fp_dnsServers params);
    OpSet IPv4 "320.allowDNS" true;
    OpSet Both "400.allowPIA" true ].

Definition applyFirewallRules (params : FirewallParams) : ST WgLinux unit :=
  onKs (onFw (ensureInstalled ;; runOps (firewallCalls params))).

(** ** Operations *)

Definition linux_interfaceExists : ST WgLinux bool :=
  gets (fun s => bool_decide (tunnelState (wg_world s) = Running)).

Definition linux_addInterface (config : InterfaceConfig) : ST WgLinux bool :=
  state ← gets (fun s => tunnelState (wg_world s));
  if negb (bool_decide (state = NotRunning)) then mret false
  else
    started ← onMachine startTunnel;
    if negb started then onMachine killTunnel ;; mret false
    else
      name ← waitForTunnelName;
      setIfname name ;;
      if isNull name then onMachine killTunnel ;; mret false
      else
        setMonitor (Some 0) ;;
        err ← uapiStatus (uapiText (interfaceMessage config));
        (if (err =? 0) && m_killSwitchEnabled config
         then applyFirewallRules (firewallParams config) else mret tt) ;;
        mret (err =? 0).

Definition linux_deleteInterface : ST WgLinux bool :=
  setMonitor None ;;
  state ← gets (fun s => tunnelState (wg_world s));
  if bool_decide (state = NotRunning) then mret false
  else
    onMachine terminateTunnel ;;
    finished ← onMachine waitForFinished;
    (if negb finished then onMachine killTunnel ;; onMachine waitForFinished ;; mret tt else mret tt) ;;
    onMachine removeNameFile ;;
    onKs disableKillSwitch ;;
    mret true.

(** The exclusion routes of the server, except for a multi-hop exit. *)
Definition serverRoutes (op : IPAddress -> ST (Monitor W) bool) (config : InterfaceConfig) : ST WgLinux unit :=
  if bool_decide (m_hopType config = MultiHopExit) then mret tt
  else
    onMonitor (op (ofString (qdata (m_serverIpv4AddrIn config)))) ;;
    onMonitor (op (ofString (qdata (m_serverIpv6AddrIn config)))) ;;
    mret tt.

Definition linux_updatePeer (config : InterfaceConfig) : ST WgLinux bool :=
  match peerMessage config with
  | None => mret false
  | Some message =>
      serverRoutes (RouteMonitor.addExclusionRoute garbage) config ;;
      err ← uapiStatus (uapiText message);
      mret (err =? 0)
  end.

Definition linux_deletePeer (config : InterfaceConfig) : ST WgLinux bool :=
  serverRoutes (RouteMonitor.deleteExclusionRoute garbage) config ;;
  err ← uapiStatus (uapiText (deletePeerMessage config));
  mret (err =? 0).

Definition linux_getPeerStatus : ST WgLinux (list PeerStatus) :=
  r ← uapiCommand "get=1";
  mret (parsePeers (default ""%string r)).

(** [op(a) && op(b)] *)
Definition both (op : IPAddress -> ST WgLinux bool) (a b : IPAddress) : ST WgLinux bool :=
  must op a; op b.

Definition linux_updateRoutePrefix (prefix : IPAddress) : ST WgLinux bool :=
  let insert n := viaMonitor (RouteMonitor.insertRoute garbage n) in
  mon ← gets m_rtmonitor;
  match mon with
  | None => mret false
  | Some _ =>
      if m_prefixLength prefix >? 0 then insert prefix
      else match type prefix with
           | IPv4Protocol => both insert (ofString "0.0.0.0/1") (ofString "128.0.0.0/1")
           | IPv6Protocol => both insert (ofString "::/1") (ofString "8000::/1")
           | UnknownProtocol => mret false
           end
  end.

Definition linux_deleteRoutePrefix (prefix : IPAddress) : ST WgLinux bool :=
  let insert n := viaMonitor (RouteMonitor.insertRoute garbage n) in
  let remove n := viaMonitor (RouteMonitor.deleteRoute garbage n) in
  mon ← gets m_rtmonitor;
  match mon with
  | None => mret false
  | Some _ =>
      if m_prefixLength prefix >? 0 then insert prefix
      else match type prefix with
           | IPv4Protocol => both remove (ofString "0.0.0.0/1") (ofString "128.0.0.0/1")
           | IPv6Protocol => both remove (ofString "::/1") (ofString "8000::/1")
           | UnknownProtocol => mret false
           end
  end.

Definition linux_addExclusionRoute (prefix : IPAddress) : ST WgLinux bool :=
  viaMonitor (RouteMonitor.addExclusionRoute garbage prefix).
Definition linux_deleteExclusionRoute (prefix : IPAddress) : ST WgLinux bool :=
  viaMonitor (RouteMonitor.deleteExclusionRoute garbage prefix).

(** All routes are tried; the result is whether all succeeded. *)
Fixpoint excludeLoop (routes : list IPAddress) (result : bool) : ST WgLinux bool :=
  match routes with
  | [] => mret result
  | prefix :: routes' =>
      ok ← viaMonitor (RouteMonitor.insertRoute garbage prefix);
      excludeLoop routes' (if (ok : bool) then result else false)
  end.
Definition linux_excludeLocalNetworks (routes : list IPAddress) : ST WgLinux bool :=
  mon ← gets m_rtmonitor;
  match mon with None => mret false | Some _ => excludeLoop routes true end.

(** ** [IPUtilsLinux] *)

Definition linux_setMTUAndUp (config : InterfaceConfig) : ST WgLinux bool :=
  sock ← onMachine ioctlSocket;
  if sock <? 0 then mret false
  else
    ret ← onMachine (ioctlSetMtu (m_deviceMTU config));
    if negb (ret =? 0) then mret false
    else
      ret ← onMachine ioctlSetUp;
      mret (ret =? 0).

(** The address and the mask [addIP4AddressToDevice] sets. *)
Definition deviceAddress4 (config : InterfaceConfig) : string * Z :=
  let text := qdata (m_deviceIpv4Address config) in
  let '(addr, prefix) := parseSubnet text in
  let '(addr, prefix) := if host_isNull addr then (parseHost text, 32) else (addr, prefix) in
  let prefix := if (prefix <? 0) || (prefix >? 32) then 32 else prefix in
  (hostToString addr, if prefix =? 0 then 0 else u32 (Z.shiftl 0xffffffff (32 - prefix))).

Definition addIP4AddressToDevice (config : InterfaceConfig) : ST WgLinux bool :=
  let '(addr, mask) := deviceAddress4 config in
  sock ← onMachine ioctlSocket;
  if sock <? 0 then mret false
  else
    ret ← onMachine (ioctlSetAddr4 addr);
    if negb (ret =? 0) then mret false
    else
      ret ← onMachine (ioctlSetMask4 mask);
      mret (ret =? 0).

Definition addIP6AddressToDevice (config : InterfaceConfig) : ST WgLinux bool :=
  let addr := hostToString (parseSubnet (qdata (m_deviceIpv6Address config))).1 in
  sock ← onMachine ioctlSocket;
  if sock <? 0 then mret false
  else
    index ← onMachine ioctlGetIndex;
    if index <? 0 then mret false
    else
      '(ret, eexist) ← onMachine (ioctlSetAddr6 addr 64 index);
      mret ((ret =? 0) || eexist).

Definition linux_addInterfaceIPs (config : InterfaceConfig) : ST WgLinux bool :=
  ret ← addIP4AddressToDevice config;
  addIP6AddressToDevice config ;;
  mret ret.

Definition linuxWireguardUtils : WireguardUtils WgLinux := {|
  interfaceExists := linux_interfaceExists;
  interfaceName := gets m_ifname;
  addInterface := linux_addInterface;
  deleteInterface := linux_deleteInterface;
  updatePeer := linux_updatePeer;
  deletePeer := linux_deletePeer;
  getPeerStatus := linux_getPeerStatus;
  updateRoutePrefix := linux_updateRoutePrefix;
  deleteRoutePrefix := linux_deleteRoutePrefix;
  addExclusionRoute := linux_addExclusionRoute;
  deleteExclusionRoute := linux_deleteExclusionRoute;
  excludeLocalNetworks := linux_excludeLocalNetworks
|}.

Definition linuxIPUtils : IPUtils WgLinux := {|
  addInterfaceIPs := linux_addInterfaceIPs;
  setMTUAndUp := linux_setMTUAndUp
|}.
End Linux.
Arguments WgLinux : clear implicits.

(** ** Firewall rules of a connection *)

Section Rules.
Context {W : Type} `{S : !Shell W} {parses : bool -> Rule -> bool} `{L : !IptablesLaws S parses} `{Q : Qt}.
Variable inNet : string -> QHostAddress -> bool.

Definition wg_view (s : WgLinux W) : Chains := view (ks_fw (wg_ks s)).

Lemma apply_view params (s : WgLinux W) :
  wg_view (applyFirewallRules params s).2
  = view ((ensureInstalled ;; runOps (firewallCalls params)) (ks_fw (wg_ks s))).2.
Proof.
  unfold wg_view, applyFirewallRules, onKs. rewrite <- onFw_snd. by destruct (onFw _ (wg_ks s)).
Qed.

Definition mergedAddrs (params : FirewallParams) : list string :=
  fold_left mergeAddrs (fp_excludedSubnets params) (fp_allowAddrs params).

Lemma firewall_anchors A params :
  let A' := fold_left (fun A o => aOp parses o A) (firewallCalls params) A in
  isOn A' false "100.blockAll" = fp_blockAll params /\ isOn A' true "100.blockAll" = fp_blockAll params
  /\ isOn A' false "120.blockNets" = fp_blockNets params
  /\ isOn A' true "250.blockIPv6" = true
  /\ arules A' false "110.allowNets"
     = List.filter (parses false) (getAllowRule (List.filter (fun s => negb (isIpv6Server s)) (mergedAddrs params)))
  /\ arules A' false "320.allowDNS" = List.filter (parses false) (getDNSRules (fp_dnsServers params))
  /\ arules A' false "120.blockNets" = List.filter (parses false) (getBlockRule (fp_blockAddrs params)).
Proof. repeat split; eval_anchors. Qed.

(** The chains after [applyFirewallRules], from any state of the firewall. *)
Lemma apply_installed out params (s : WgLinux W) :
  fwOk out (ks_fw (wg_ks s)) -> exists A, standard A
    /\ installed (fold_left (fun A o => aOp parses o A) (firewallCalls params) A) out
         (wg_view (applyFirewallRules params s).2).
Proof.
  intros Hok. rewrite apply_view. apply (ensure_ops (firewallCalls params) out _ Hok).
Qed.

Lemma block_rules_no_accept (f : Rule -> bool) l r :
  r ∈ List.filter f (getBlockRule l) -> r_target r <> "ACCEPT"%string.
Proof.
  intros Hr. apply list_elem_of_In, filter_In in Hr as [Hr _].
  apply in_map_iff in Hr as (n & <- & _). done.
Qed.

(** An IPv4 packet the anchors accept is permitted. *)
Lemma apply_accept4 A params p :
  standard A -> p_six p = false ->
  anchorVerdict inNet (fold_left (fun A o => aOp parses o A) (firewallCalls params) A) p = Some Accept ->
  permitted inNet (mergedAddrs params) p.
Proof.
  intros HA Hp. apply aOps_standard with (parses := parses) (ops := firewallCalls params) in HA as HA'.
  destruct (firewall_anchors A params) as (_ & _ & _ & _ & R110 & R320 & R120).
  set (A' := fold_left _ _ A) in *. apply (accept4 inNet A'); try done.
  - intros r. rewrite R110. intros Hr Hm _. by eapply allow_rule.
  - intros r. rewrite R320. intros Hr. apply list_elem_of_In, filter_In in Hr as [Hr _].
    eapply dns_rule. by apply list_elem_of_In.
  - intros r. rewrite R120. apply block_rules_no_accept.
Qed.

(** What comes before [120.blockNets] for a packet outside DNS. *)
Lemma before_blockNets A params p net :
  standard A -> p_six p = false -> p_dport p <> 53 ->
  isLoopback p = false -> isVpn p = false -> isDhcp inNet p = false -> ~ toAny inNet (lanNets false) p ->
  net ∈ fp_blockAddrs params -> parses false (on [MDst net] "REJECT") = true ->
  inNet net (p_dst p) = true -> fp_blockNets params = true ->
  anchorVerdict inNet (fold_left (fun A o => aOp parses o A) (firewallCalls params) A) p = Some Reject.
Proof.
  intros HA H4 Hport Hlo Hvpn Hdhcp Hlan Hnet Hparse Hin Hblock.
  apply aOps_standard with (parses := parses) (ops := firewallCalls params) in HA as HA'.
  destruct (firewall_anchors A params) as (_ & _ & O120 & _ & _ & R320 & R120).
  set (A' := fold_left _ _ A) in *. unfold anchorVerdict. rewrite H4.
  assert (Hrun : runRules inNet (fun _ => None) (arules A' (p_six p) "120.blockNets") p = Some Reject).
  { rewrite H4, R120. clear - Hnet Hparse Hin. induction (fp_blockAddrs params) as [| b l IH];
      [by apply elem_of_nil in Hnet |]. cbn [getBlockRule map List.filter].
    apply elem_of_cons in Hnet as [<- | Hnet].
    - rewrite Hparse. cbn [runRules]. by rewrite match_dst, Hin.
    - destruct (parses false (on [MDst b] "REJECT")); [| by apply IH]. cbn [runRules]. rewrite match_dst.
      destruct (inNet b (p_dst p)); [done | by apply IH]. }
  assert (Hon : (p_six p, "120.blockNets"%string) ∈ enabled A').
  { rewrite H4. rewrite Hblock in O120. unfold isOn in O120. by apply bool_decide_eq_true in O120. }
  change (anchorNames false) with (["000.allowLoopback"; "320.allowDNS"; "310.blockDNS"; "300.allowLAN";
    "290.allowDHCP"; "200.allowVPN"]%string ++ "120.blockNets"%string :: ["110.allowNets"; "100.blockAll"]%string).
  rewrite (firstMatch_cut inNet A' _ _ _ p Reject Hon Hrun).
  destruct (firstMatch inNet A' _ p) as [[] |] eqn:Ef; [exfalso | done | done].
  apply firstMatch_accept in Ef as (n & r & Hn & He & Hr & Ht & Hm). rewrite H4 in *.
  repeat (apply elem_of_cons in Hn as [-> | Hn]); [.. | by apply elem_of_nil in Hn].
  - rewrite (HA' false) in Hr by by_names. by rewrite (loop_rule _ _ _ Hr Hm) in Hlo.
  - rewrite R320 in Hr. apply list_elem_of_In, filter_In in Hr as [Hr _].
    apply list_elem_of_In in Hr. by rewrite (dns_rule _ _ _ _ Hr Hm) in Hvpn.
  - rewrite (HA' false) in Hr by by_names.
    repeat (apply elem_of_cons in Hr as [-> | Hr]; [done |]). by apply elem_of_nil in Hr.
  - rewrite (HA' false) in Hr by by_names. by apply Hlan, (lan_rule inNet false r).
  - rewrite (HA' false) in Hr by by_names. by rewrite (dhcp_rule _ false r p Hr Hm H4) in Hdhcp.
  - rewrite (HA' false) in Hr by by_names. by rewrite (vpn_rule _ _ _ Hr Hm) in Hvpn.
Qed.
End Rules.

(** ** Routes *)

(** The messages the kernel was sent. *)
Class NetlinkLog {W} (N : Netlink W) := {
  sent : W -> list (list Z);
  sendto_log : forall b w, sent (sendto b w).2 = sent w ++ [b];
  index_log : forall n w, sent (if_nametoindex n w).2 = sent w;
  gateway_log : forall w, sent (getGateway w).2 = sent w
}.

(** The default networks and their halves, as Qt parses them. *)
Class HalfLaws (Q : Qt) := {
  half4_low : parseSubnet "0.0.0.0/1" = (HV4 0, 1);
  half4_high : parseSubnet "128.0.0.0/1" = (HV4 (2 ^ 31), 1);
  half6_low : parseSubnet "::/1" = (HV6 (replicate 16 0), 1);
  half6_high : parseSubnet "8000::/1" = (HV6 (128 :: replicate 15 0), 1)
}.

Section Routes.
Context {W : Type} `{N : !Netlink W} `{Q : Qt}.
Context `{!InetLaws Q N} `{G : !NetlinkLog N} `{!HalfLaws Q}.
Variable garbage : list Z.

(** A message that adds or removes the unicast route to [n] through the
    interface of index [i]. *)
Definition routeVia (action : Z) (n : IPAddress) (i : Z) (b : list Z) : Prop :=
  exists m, read_route b = Some m /\ msg_type m = action /\ rt_family m = net_family (m_address n)
    /\ rt_dst_len m = m_prefixLength n /\ rt_type m = RTN_UNICAST
    /\ rt_attrs m = [(RTA_DST, net_bytes (m_address n)); (RTA_OIF, le32 i); (RTA_PRIORITY, le32 1)].

Definition log (s : WgLinux W) : list (list Z) := sent (wg_world s).

(** The monitor is there and its counter is a 32-bit number. *)
Definition monitored (s : WgLinux W) : Prop := exists seq, m_rtmonitor s = Some seq /\ 0 <= seq < 2 ^ 32.

(** One call of the monitor: at most one message, which is the route. *)
Lemma via_unicast (op : IPAddress -> ST (Monitor W) bool) action flags n (s : WgLinux W) :
  (forall m, op n m = rtmSendRoute garbage action flags RTN_UNICAST n m) ->
  In action [RTM_NEWROUTE; RTM_DELROUTE] -> In flags [newFlags; delFlags] ->
  wf_net n -> monitored s ->
  exists i msgs, log (viaMonitor (op n) s).2 = log s ++ msgs
    /\ Forall (routeVia action n i) msgs
    /\ monitored (viaMonitor (op n) s).2
    /\ i = (if_nametoindex WG_INTERFACE (wg_world s)).1
    /\ ((viaMonitor (op n) s).1 = true -> length msgs = 1%nat).
Proof.
  intros Hop Ha Hf Hn (seq & Hm & Hseq). unfold viaMonitor, onMonitor, mbind, ST_bind. rewrite Hm, Hop.
  destruct (rtmSendRoute_unicast garbage action flags n (mkMonitor seq (wg_world s)) Hn Hseq Ha Hf)
    as (msg & Hmsg & ->). simpl world.
  pose proof (index_log WG_INTERFACE (wg_world s)) as Hix.
  assert (Hu : forall w, monitored (set_world w (mkWgLinux (m_ifname s) (Some (u32 (seq + 1))) (wg_ks s)))).
  { intros w. exists (u32 (seq + 1)). split; [done |]. apply Z.mod_pos_bound. lia. }
  destruct (if_nametoindex WG_INTERFACE (wg_world s)) as [i w1]; simpl in Hix |- *.
  exists i. destruct (i <=? 0) eqn:Ei.
  - exists []. rewrite app_nil_r. simpl. split; [exact Hix |]. split; [constructor |].
    split; [apply Hu |]. split; [done | discriminate].
  - unfold sends_one. pose proof (sendto_log (msg i) w1) as Hlog.
    destruct (sendto (msg i) w1) as [r w2]; simpl in *. exists [msg i]. unfold log.
    split; [by rewrite <- Hix, <- Hlog |].
    split; [| split; [apply Hu | split; done]].
    constructor; [| constructor]. eexists. split; [apply Hmsg |]. done.
Qed.

(** [insertRoute(a) && insertRoute(b)]: a prefix of the two messages. *)
Lemma both_unicast (op : IPAddress -> ST (Monitor W) bool) action flags a b (s : WgLinux W) :
  (forall n m, op n m = rtmSendRoute garbage action flags RTN_UNICAST n m) ->
  In action [RTM_NEWROUTE; RTM_DELROUTE] -> In flags [newFlags; delFlags] ->
  wf_net a -> wf_net b -> monitored s ->
  exists i j ma mb, log (both (fun n => viaMonitor (op n)) a b s).2 = log s ++ ma ++ mb
    /\ Forall (routeVia action a i) ma /\ Forall (routeVia action b j) mb
    /\ ((both (fun n => viaMonitor (op n)) a b s).1 = true -> length ma = 1%nat /\ length mb = 1%nat).
Proof.
  intros Hop Ha Hf Hwa Hwb Hs. unfold both, mbind, ST_bind.
  destruct (via_unicast op action flags a s (Hop a) Ha Hf Hwa Hs) as (i & ma & Hl & Hfa & Hs' & _ & Hlen).
  destruct (viaMonitor (op a) s) as [[] s1]; simpl in *.
  - destruct (via_unicast op action flags b s1 (Hop b) Ha Hf Hwb Hs') as (j & mb & Hl2 & Hfb & _ & _ & Hlen2).
    exists i, j, ma, mb. rewrite app_assoc, <- Hl.
    split; [exact Hl2 |]. split; [done |]. split; [done |]. intros Ht. split; [by apply Hlen | by apply Hlen2].
  - exists i, 0, ma, []. rewrite app_nil_r. split; [done |]. split; [done |]. split; [constructor | done].
Qed.

(** The halves of the default network of a family. *)
Definition halves (p : Protocol) : list IPAddress :=
  match p with
  | IPv4Protocol => [mkIPAddress (HV4 0) 1; mkIPAddress (HV4 (2 ^ 31)) 1]
  | IPv6Protocol => [mkIPAddress (HV6 (replicate 16 0)) 1; mkIPAddress (HV6 (128 :: replicate 15 0)) 1]
  | UnknownProtocol => []
  end.

Lemma halves_wf p n : n ∈ halves p -> wf_net n.
Proof.
  destruct p; simpl; intros Hn;
    repeat (apply elem_of_cons in Hn as [-> | Hn]; [split; simpl; [| lia] |]); try by apply elem_of_nil in Hn.
  - lia.
  - lia.
  - split; [done |]. by_names.
  - split; [done |]. by_names.
Qed.

Lemma ofString_halves :
  [ofString "0.0.0.0/1"; ofString "128.0.0.0/1"] = halves IPv4Protocol
  /\ [ofString "::/1"; ofString "8000::/1"] = halves IPv6Protocol.
Proof.
  unfold ofString. simpl. by rewrite half4_low, half4_high, half6_low, half6_high.
Qed.
(** The loop of [excludeLocalNetworks]. *)
Lemma excludeLoop_false routes (s : WgLinux W) : (excludeLoop garbage routes false s).1 = false.
Proof.
  revert s. induction routes as [| r routes IH]; cbn [excludeLoop]; intros s; [done |].
  unfold mbind, ST_bind. destruct (viaMonitor _ s) as [[] s1]; apply IH.
Qed.

Lemma excludeLoop_log routes (s : WgLinux W) (res : bool) :
  Forall wf_net routes -> monitored s ->
  exists msgs, log (excludeLoop garbage routes res s).2 = log s ++ msgs
    /\ Forall (fun b => exists n i, n ∈ routes /\ routeVia RTM_NEWROUTE n i b) msgs
    /\ ((excludeLoop garbage routes res s).1 = true -> length msgs = length routes).
Proof.
  intros Hn. revert s res. induction Hn as [| n routes Hn _ IH]; intros s res Hs; cbn [excludeLoop].
  { exists []. rewrite app_nil_r. split; [done |]. split; [constructor | done]. }
  destruct (via_unicast (RouteMonitor.insertRoute garbage) RTM_NEWROUTE newFlags n s
    (fun _ => eq_refl)) as (i & m1 & Hl & Hf & Hs1 & _ & Hlen); simpl; auto.
  unfold mbind, ST_bind. destruct (viaMonitor _ s) as [ok s1] eqn:Ev; cbn [fst snd] in *.
  destruct (IH s1 (if ok then res else false) Hs1) as (m2 & Hl2 & Hf2 & Hlen2).
  exists (m1 ++ m2). rewrite app_assoc, <- Hl. split; [exact Hl2 |]. split.
  - apply Forall_app. split.
    + eapply Forall_impl; [exact Hf |]. intros b Hb. exists n, i. split; [left | done].
    + eapply Forall_impl; [exact Hf2 |]. intros b (n' & i' & ? & ?). exists n', i'. split; [by right | done].
  - intros Ht. rewrite length_app, Hlen2 by done.
    destruct ok; [by rewrite Hlen | by rewrite excludeLoop_false in Ht].
Qed.
End Routes.

(** ** Messages and replies as text *)

Definition uapiLineText (kv : string * string) : string := kv.1 +:+ "=" +:+ kv.2.

Definition plainLines (l : list (string * string)) : Prop :=
  Forall (fun kv => chr_contains newline kv.1 = false /\ chr_contains newline kv.2 = false) l.

Lemma split_uapi l rest :
  plainLines l ->
  split newline (foldr (fun kv s => kv.1 +:+ "=" +:+ kv.2 +:+ nl +:+ s) rest l)
  = map uapiLineText l ++ split newline rest.
Proof.
  induction 1 as [| [k v] l [Hk Hv] _ IH]; cbn [foldr map app fst snd] in *; [done |].
  replace (k +:+ "=" +:+ v +:+ nl +:+ foldr (fun kv s => kv.1 +:+ "=" +:+ kv.2 +:+ nl +:+ s) rest l)
    with ((k +:+ "=" +:+ v) +:+ String newline (foldr (fun kv s => kv.1 +:+ "=" +:+ kv.2 +:+ nl +:+ s) rest l)).
  - rewrite split_line; [by rewrite IH |]. by rewrite !chr_contains_app, Hk, Hv.
  - rewrite !string_app_assoc. by rewrite nl_app.
Qed.

Lemma list_ascii_app a b :
  String.list_ascii_of_string (a +:+ b) = String.list_ascii_of_string a ++ String.list_ascii_of_string b.
Proof. induction a as [| d a IH]; [done |]. rewrite string_app_cons. simpl. by rewrite IH. Qed.

Lemma foldr_uapi_app l s :
  foldr (fun kv s => kv.1 +:+ "=" +:+ kv.2 +:+ nl +:+ s) s l = uapiText l +:+ s.
Proof.
  unfold uapiText. induction l as [| kv l IH]; cbn [foldr]; [by rewrite string_app_nil |].
  rewrite IH. by rewrite !string_app_assoc.
Qed.

Lemma rev_ends t : rev (String.list_ascii_of_string (t +:+ nl)) = newline :: rev (String.list_ascii_of_string t).
Proof. rewrite list_ascii_app, rev_app_distr. done. Qed.

Lemma last_char v :
  v <> ""%string -> chr_contains newline v = false ->
  exists c w, v = w +:+ String c "" /\ Ascii.eqb c newline = false.
Proof.
  induction v as [| d v IH]; [done |]. intros _ Hp. simpl in Hp. apply orb_false_iff in Hp as [Hd Hp].
  destruct v as [| d' v].
  - exists d, ""%string. split; [done |]. by rewrite Ascii.eqb_sym.
  - destruct IH as (c & w & E & Hc); [done | done |]. exists c, (String d w). by rewrite E.
Qed.

(** A non-empty message is padded with exactly one line break. *)
Lemma padMessage_one l :
  l <> [] -> plainLines l -> padMessage 2 (uapiText l) = uapiText l +:+ nl.
Proof.
  intros Hne Hp. destruct (exists_last Hne) as (l' & [k v] & ->).
  apply Forall_app in Hp as [_ Hp]. apply Forall_cons in Hp as [[Hk Hv] _]. simpl in Hk, Hv.
  assert (Ht : uapiText (l' ++ [(k, v)]) = (uapiText l' +:+ (k +:+ "=" +:+ v)) +:+ nl).
  { unfold uapiText at 1. rewrite foldr_app, foldr_uapi_app. cbn [foldr fst snd].
    by rewrite !string_app_assoc. }
  destruct (last_char (k +:+ "=" +:+ v)) as (c & w & E & Hc).
  { by destruct k. }
  { by rewrite !chr_contains_app, Hk, Hv. }
  assert (H1 : rev (String.list_ascii_of_string ((uapiText l' +:+ k +:+ "=" +:+ v) +:+ nl))
    = newline :: c :: rev (String.list_ascii_of_string (uapiText l' +:+ w))).
  { rewrite rev_ends, E. f_equal. rewrite !list_ascii_app, !rev_app_distr. done. }
  unfold padMessage, endsWithNlNl. rewrite Ht, H1, Hc, andb_false_r, rev_ends, H1.
  by rewrite Ascii.eqb_refl.
Qed.

(** ** Peers *)

(** What the numbers and keys of a reply rely on. *)
Class UapiLaws (Q : Qt) := {
  toDouble_pretty : forall n, 0 <= n < 2 ^ 53 -> toDouble (pretty n) = n;
  toLongLong_pretty : forall n, 0 <= n < 2 ^ 63 -> toLongLong (pretty n) = n;
  fromHex_toHex : forall b, Forall is_byte b -> fromHex (toHex b) = b;
  toHex_plain : forall b, Forall is_byte b -> chr_contains newline (toHex b) = false;
  fromBase64_bytes : forall s, Forall is_byte (fromBase64 s)
}.

Record Peer : Type := mkPeer {
  peer_key : list Z; peer_rx : Z; peer_tx : Z; peer_sec : Z; peer_nsec : Z
}.
Definition peer_ok `{Qt} (p : Peer) : Prop :=
  Forall is_byte (peer_key p) /\ toBase64 (peer_key p) <> ""%string
  /\ 0 <= peer_rx p < 2 ^ 53 /\ 0 <= peer_tx p < 2 ^ 53 /\ 0 <= peer_sec p < 2 ^ 53 /\ 0 <= peer_nsec p < 10 ^ 9.

(** The lines of a reply about a peer, as the UAPI prescribes them. *)
Definition peerLinesOf `{Qt} (p : Peer) : list (string * string) :=
  [("public_key", toHex (peer_key p)); ("last_handshake_time_sec", pretty (peer_sec p));
   ("last_handshake_time_nsec", pretty (peer_nsec p)); ("tx_bytes", pretty (peer_tx p));
   ("rx_bytes", pretty (peer_rx p)); ("persistent_keepalive_interval", "60")].
Definition statusOf `{Qt} (p : Peer) : PeerStatus :=
  mkPeerStatus (toBase64 (peer_key p)) (peer_sec p * 1000 + Z.quot (peer_nsec p) 1000000) (peer_rx p) (peer_tx p).

Lemma indexOf_line k v : chr_contains "=" k = false -> indexOf "=" (k +:+ "=" +:+ v) = Some (String.length k).
Proof.
  induction k as [| d k IH]; intros Hk; [done |]. rewrite string_app_cons. simpl in Hk |- *.
  apply orb_false_iff in Hk as [Hd Hk]. rewrite Hd. by rewrite IH.
Qed.
Lemma str_left_app k v : str_left (String.length k) (k +:+ v) = k.
Proof. induction k as [| d k IH]; [by destruct v |]. rewrite string_app_cons. simpl. by rewrite IH. Qed.
Lemma str_mid_app k v : str_mid (String.length k) (k +:+ v) = v.
Proof. induction k as [| d k IH]; [by destruct v |]. rewrite string_app_cons. simpl. by rewrite IH. Qed.

Lemma splitLine_line k v :
  k <> ""%string -> chr_contains "=" k = false -> splitLine (uapiLineText (k, v)) = Some (k, v).
Proof.
  intros Hne Hk. unfold splitLine, uapiLineText. cbn [fst snd]. rewrite indexOf_line by done.
  destruct (String.length k) eqn:El; [by destruct k |]. rewrite <- El. f_equal. f_equal.
  - apply str_left_app.
  - replace (S (String.length k)) with (String.length (k +:+ "="))%nat.
    + rewrite <- string_app_assoc. apply str_mid_app.
    + clear. induction k; [done |]. rewrite string_app_cons. simpl. by rewrite IHk.
Qed.

Section Peers.
Context `{Q : Qt} `{!UapiLaws Q}.

Lemma peer_fold p acc :
  peer_ok p -> fold_left peerStep (map uapiLineText (peerLinesOf p)) acc
    = (statusOf p, if isEmpty (m_pubkey acc.1) then acc.2 else acc.2 ++ [acc.1]).
Proof.
  intros (Hk & Hb & Hrx & Htx & Hs & Hns). destruct acc as [st l].
  unfold peerLinesOf. cbn [map fold_left]. unfold peerStep.
  rewrite !splitLine_line by done. cbn. rewrite fromHex_toHex by done.
  rewrite !toLongLong_pretty, !toDouble_pretty by lia. done.
Qed.

Lemma peers_fold ps st l :
  Forall peer_ok ps -> Forall (fun p => isEmpty (m_pubkey (statusOf p)) = false) ps ->
  let '(st', l') := fold_left peerStep (map uapiLineText (flat_map peerLinesOf ps)) (st, l) in
  (if isEmpty (m_pubkey st') then l' else l' ++ [st'])
  = (if isEmpty (m_pubkey st) then l else l ++ [st]) ++ map statusOf ps.
Proof.
  intros Hok. revert st l. induction Hok as [| p ps Hp _ IH]; intros st l Hne; cbn [flat_map map].
  - by rewrite app_nil_r.
  - apply Forall_cons in Hne as [Hpe Hne]. rewrite map_app, fold_left_app, peer_fold by done.
    specialize (IH (statusOf p) (if isEmpty (m_pubkey st) then l else l ++ [st]) Hne).
    cbn [fst snd] in *. destruct (fold_left _ _ _) as [st' l']. rewrite IH, Hpe. by rewrite <- app_assoc.
Qed.

Lemma status_nonempty p : peer_ok p -> isEmpty (m_pubkey (statusOf p)) = false.
Proof. intros (_ & Hb & _). unfold isEmpty. simpl. by apply String.eqb_neq. Qed.

Lemma peerLines_plain p : peer_ok p -> plainLines (peerLinesOf p).
Proof.
  intros [Hk _]. unfold plainLines, peerLinesOf.
  assert (Hp : forall z : Z, chr_contains newline (pretty z) = false)
    by (intros z; apply pretty_Z_plain; by repeat constructor).
  repeat constructor; simpl; auto using toHex_plain.
Qed.

Lemma peers_plain ps : Forall peer_ok ps -> plainLines (flat_map peerLinesOf ps).
Proof.
  induction 1 as [| p ps Hp _ IH]; [constructor |]. cbn [flat_map]. apply Forall_app.
  split; [by apply peerLines_plain | exact IH].
Qed.
End Peers.

(** The lines of a message, read by the UAPI parser. *)
Definition entry_ok (kv : string * string) : Prop :=
  chr_contains newline kv.1 = false /\ chr_contains newline kv.2 = false
  /\ chr_contains "=" kv.1 = false /\ kv.1 <> ""%string.

Definition readLines (text : string) : list (string * string) := omap splitLine (split newline text).

Lemma read_message l :
  l <> [] -> Forall entry_ok l -> readLines (padMessage 2 (uapiText l)) = l.
Proof.
  intros Hne Hl. assert (Hp : plainLines l) by (eapply Forall_impl; [exact Hl | by intros kv (? & ? & _)]).
  rewrite padMessage_one by done. unfold readLines, uapiText at 1.
  rewrite <- foldr_uapi_app, split_uapi by done. rewrite omap_app.
  change (omap splitLine (split newline nl)) with (@nil (string * string)). rewrite app_nil_r.
  clear Hne Hp. induction Hl as [| [k v] l (_ & _ & He & Hk) _ IH]; [done |].
  cbn [map]. simpl. rewrite splitLine_line by done. f_equal. exact IH.
Qed.

(** The strings of a configuration the UAPI messages hold as they are. *)
Definition uapiValues (c : InterfaceConfig) : list QString :=
  let j := m_junk c in
  [ m_serverIpv4AddrIn c; m_serverIpv6AddrIn c; m_junkPacketCount j; m_junkPacketMinSize j;
    m_junkPacketMaxSize j; m_initPacketJunkSize j; m_responsePacketJunkSize j;
    m_cookieReplyPacketJunkSize j; m_transportPacketJunkSize j; m_initPacketMagicHeader j;
    m_responsePacketMagicHeader j; m_underloadPacketMagicHeader j; m_transportPacketMagicHeader j;
    m_contentPaddingAddition j; m_rekeyAfterTime j; m_rekeyTimeout j; m_rejectAfterTime j;
    m_keepaliveTimeout j; m_maxHandshakeAttempts j ] ++ map snd (m_specialJunk j).

Definition specialKeys : list string := ["I1"; "I2"; "I3"; "I4"; "I5"].

Lemma unlessEmpty_ok `{Qt} k v :
  chr_contains newline k = false -> chr_contains "=" k = false -> k <> ""%string ->
  chr_contains newline (qdata v) = false -> Forall entry_ok (uapiUnlessEmpty k v).
Proof. intros. unfold uapiUnlessEmpty. destruct (isEmpty v); repeat constructor; done. Qed.

Section Messages.
Context `{Q : Qt} `{!UapiLaws Q} `{!HostTextLaws Q}.
Variable config : InterfaceConfig.
Hypothesis Hvalues : Forall (fun v => chr_contains newline (qdata v) = false) (uapiValues config).

Lemma keyHex_plain v : chr_contains newline (keyHex v) = false.
Proof. apply toHex_plain, fromBase64_bytes. Qed.

Lemma uapiBool_plain v : chr_contains newline (uapiBool v) = false.
Proof. unfold uapiBool. by case_match. Qed.

Lemma ipToString_plain n : chr_contains newline (ipToString n) = false.
Proof.
  unfold ipToString. rewrite !chr_contains_app, (proj2 (print_host_plain (m_address n))).
  by rewrite pretty_Z_plain by (by repeat constructor).
Qed.

Lemma interfaceMessage_ok :
  Forall (fun kv => kv.1 ∈ specialKeys) (m_specialJunk (m_junk config)) -> Forall entry_ok (interfaceMessage config).
Proof.
  intros Hk. unfold uapiValues in Hvalues. rewrite Forall_app in Hvalues. destruct Hvalues as [Hv Hs].
  rewrite !Forall_cons in Hv. destruct_and! Hv. unfold interfaceMessage.
  repeat (apply Forall_app; split); try (by apply unlessEmpty_ok).
  - repeat constructor; try done. apply keyHex_plain.
  - rewrite Forall_map in *. rewrite Forall_forall in Hs, Hk. apply Forall_forall. intros kv Hin.
    specialize (Hs kv Hin). specialize (Hk kv Hin). unfold entry_ok. cbn [fst snd].
    unfold specialKeys in Hk. repeat (apply elem_of_cons in Hk as [-> | Hk]; [done |]). by apply elem_of_nil in Hk.
  - case_match; repeat constructor; try done. apply uapiBool_plain.
  - case_match; repeat constructor; try done. apply uapiBool_plain.
  - case_match; repeat constructor; try done. apply keyHex_plain.
Qed.

Lemma peerMessage_ok l : peerMessage config = Some l -> Forall entry_ok l.
Proof.
  unfold uapiValues in Hvalues. rewrite Forall_app in Hvalues. destruct Hvalues as [Hv _].
  rewrite !Forall_cons in Hv. destruct Hv as (H4 & H6 & _). unfold peerMessage.
  assert (Hp : forall z : Z, chr_contains newline (pretty z) = false)
    by (intros z; by apply pretty_Z_plain; repeat constructor).
  set (host := if negb (isNull (m_serverIpv4AddrIn config)) then _ else _).
  assert (Hh : forall h, host = Some h -> chr_contains newline h = false).
  { intros h. unfold host. repeat case_match; intros [= <-]; by rewrite !chr_contains_app, ?H4, ?H6. }
  destruct host as [h |]; [| done]. specialize (Hh h eq_refl). intros [= <-].
  assert (Ho : forall k v, chr_contains newline k = false -> chr_contains newline v = false ->
    chr_contains "=" k = false -> k <> ""%string -> entry_ok (k, v)) by done.
  do 2 (constructor; [apply Ho; try done; apply keyHex_plain |]). apply Forall_app. split.
  - destruct (fromBase64 (qdata (m_serverPskKey config))) eqn:Ek; constructor; [| constructor].
    rewrite <- Ek. apply Ho; try done. apply toHex_plain, fromBase64_bytes.
  - do 3 (constructor; [apply Ho; try done; by rewrite ?chr_contains_app, ?Hh, ?Hp |]).
    apply Forall_map, Forall_forall. intros n _. apply Ho; try done. apply ipToString_plain.
Qed.
End Messages.

(** ** Properties *)

(** C13 (safety): no leak on connection.  With the kill switch on and the whole
    IPv4 space routed into the tunnel, the firewall rules of [addInterface]
    reject every packet that is not permitted: loopback, local network,
    DHCP and, over IPv4, a tunnel interface or an excluded address. *)
Theorem applyFirewallRules_no_leak {W} `{S : !Shell W} (parses : bool -> Rule -> bool)
  `{L : !IptablesLaws S parses} `{Q : Qt} (inNet : string -> QHostAddress -> bool)
  (out : bool -> list Rule) (config : InterfaceConfig) (s : WgLinux W) (p : Packet)
  (Hok : fwOk out (ks_fw (wg_ks s)))
  (Hall : ofString "0.0.0.0/0" ∈ m_allowedIPAddressRanges config) :
  let params := firewallParams config in
  let v := traverse inNet 4 (wg_view (applyFirewallRules params s).2) kOutputChain p in
  v = Some Reject \/ (v = Some Accept /\ permitted inNet (mergedAddrs params) p).
Proof.
  intros params v. unfold v. destruct (apply_installed out params s Hok) as (A & HA & Hi).
  apply aOps_standard with (parses := parses) (ops := firewallCalls params) in HA as HA'.
  destruct (firewall_anchors (parses := parses) A params) as (H4 & H6 & _ & H250 & _ & _ & _).
  assert (Hb : fp_blockAll params = true) by (simpl; by apply bool_decide_eq_true). rewrite Hb in *.
  set (A' := fold_left _ _ A) in *. rewrite (output_traverse inNet _ A' (out (p_six p))) by apply Hi.
  assert (Hd : anchorVerdict inNet A' p <> None).
  { apply blockAll_decides; [done |]. by destruct (p_six p). }
  destruct (verdict_total _ Hd) as [Ha | Hr]; [right | left; by rewrite Hr]. rewrite Ha. split; [done |].
  destruct (p_six p) eqn:Es.
  - by apply (verdict6 inNet A').
  - by apply (apply_accept4 (parses := parses) inNet A params).
Qed.

(** An excluded subnet is not let through.  When only some
    networks are tunnelled, an IPv4 packet into one of them that leaves by
    another interface is rejected even if its destination is also in an
    excluded subnet, because [120.blockNets] precedes [110.allowNets]; and an
    IPv6 packet outside the local ranges is rejected whatever is excluded,
    because [250.blockIPv6] precedes [110.allowNets]. *)
Theorem excluded_subnet_rejected {W} `{S : !Shell W} (parses : bool -> Rule -> bool)
  `{L : !IptablesLaws S parses} `{Q : Qt} (inNet : string -> QHostAddress -> bool)
  (out : bool -> list Rule) (params : FirewallParams) (s : WgLinux W) (p : Packet)
  (Hok : fwOk out (ks_fw (wg_ks s))) (Hlo : isLoopback p = false) (Hdhcp : isDhcp inNet p = false)
  (Hlan : ~ toAny inNet (lanNets (p_six p)) p)
  (Hp : p_six p = true \/
    (p_six p = false /\ p_dport p <> 53 /\ isVpn p = false /\ fp_blockNets params = true
     /\ exists net, net ∈ fp_blockAddrs params /\ parses false (on [MDst net] "REJECT") = true
        /\ inNet net (p_dst p) = true)) :
  traverse inNet 4 (wg_view (applyFirewallRules params s).2) kOutputChain p = Some Reject.
Proof.
  destruct (apply_installed out params s Hok) as (A & HA & Hi).
  rewrite (output_traverse inNet _ (fold_left (fun A o => aOp parses o A) (firewallCalls params) A)
    (out (p_six p))) by apply Hi.
  destruct Hp as [H6 | (H4 & Hport & Hvpn & Hb & net & Hn & Hpa & Hin)].
  - apply aOps_standard with (parses := parses) (ops := firewallCalls params) in HA as HA'.
    destruct (firewall_anchors (parses := parses) A params) as (_ & _ & _ & H250 & _ & _ & _).
    set (A' := fold_left _ _ A) in *. rewrite cut6 by done.
    destruct (firstMatch _ _ _ _) as [[] |] eqn:Ef; [| done | done].
    apply accept6 in Ef as [? | [[_ ?] | [_ ?]]]; [congruence | | congruence | done | done].
    rewrite H6 in Hlan. done.
  - rewrite H4 in Hlan. by rewrite (before_blockNets inNet A params p net).
Qed.

(** [updateRoutePrefix] never touches the default route.  Every
    message it sends adds a route with a prefix of at least one bit; when it
    succeeds it has sent the route to the prefix itself, or, for the default
    network of either family, the routes to its two halves. *)
Theorem updateRoutePrefix_no_default {W} `{N : !Netlink W} `{Q : Qt}
  `{I : !InetLaws Q N} `{G : !NetlinkLog N} `{HL : !HalfLaws Q} (garbage : list Z)
  (prefix : IPAddress) (s : WgLinux W) (Hn : wf_net prefix) (Hs : monitored s) :
  exists msgs, log (linux_updateRoutePrefix garbage prefix s).2 = log s ++ msgs
    /\ Forall (fun b => exists m, read_route b = Some m /\ msg_type m = RTM_NEWROUTE /\ 1 <= rt_dst_len m) msgs
    /\ ((linux_updateRoutePrefix garbage prefix s).1 = true ->
        Forall2 (fun n b => exists i, routeVia RTM_NEWROUTE n i b)
          (if m_prefixLength prefix >? 0 then [prefix] else halves (type prefix)) msgs).
Proof.
  assert (Hone : forall n i msgs, 1 <= m_prefixLength n -> Forall (routeVia RTM_NEWROUTE n i) msgs ->
    Forall (fun b => exists m, read_route b = Some m /\ msg_type m = RTM_NEWROUTE /\ 1 <= rt_dst_len m) msgs).
  { intros n i msgs Hp Hf. eapply Forall_impl; [exact Hf |]. intros b (m & Hr & Ht & _ & Hd & _).
    exists m. rewrite Hd. done. }
  unfold linux_updateRoutePrefix, gets, mbind, ST_bind. pose proof Hs as (seq & Hm & _). rewrite Hm.
  destruct (m_prefixLength prefix >? 0) eqn:Ep; zbool.
  - destruct (via_unicast garbage (RouteMonitor.insertRoute garbage) RTM_NEWROUTE newFlags prefix s
      (fun _ => eq_refl)) as (i & msgs & Hl & Hf & _ & _ & Hlen); simpl; auto.
    exists msgs. split; [exact Hl |]. split; [eapply Hone; [| exact Hf]; lia |]. intros Ht.
    specialize (Hlen Ht). destruct msgs as [| b [|]]; try done. apply Forall_cons in Hf as [Hb _].
    constructor; [by exists i | constructor].
  - destruct ofString_halves as [E4 E6].
    assert (Hboth : forall a b, [a; b] = halves (type prefix) ->
      exists msgs, log (both (fun n => viaMonitor (RouteMonitor.insertRoute garbage n)) a b s).2 = log s ++ msgs
        /\ Forall (fun b => exists m, read_route b = Some m /\ msg_type m = RTM_NEWROUTE /\ 1 <= rt_dst_len m) msgs
        /\ ((both (fun n => viaMonitor (RouteMonitor.insertRoute garbage n)) a b s).1 = true ->
            Forall2 (fun n b => exists i, routeVia RTM_NEWROUTE n i b) (halves (type prefix)) msgs)).
    { intros a b Hab.
      assert (Hw : forall n, n ∈ halves (type prefix) -> wf_net n /\ m_prefixLength n = 1).
      { intros n Hh. split; [by eapply halves_wf |]. revert Hh. clear. destruct (type prefix); simpl; intros Hh;
          repeat (apply elem_of_cons in Hh as [-> | Hh]; [done |]); by apply elem_of_nil in Hh. }
      destruct (Hw a) as [Hwa Hpa]; [rewrite <- Hab; left |].
      destruct (Hw b) as [Hwb Hpb]; [rewrite <- Hab; right; left |].
      destruct (both_unicast garbage (RouteMonitor.insertRoute garbage) RTM_NEWROUTE newFlags a b s
        (fun _ _ => eq_refl)) as (i & j & ma & mb & Hl & Hfa & Hfb & Hlen); simpl; auto.
      exists (ma ++ mb). split; [exact Hl |]. split.
      - apply Forall_app. split; [apply (Hone a i) | apply (Hone b j)]; try done; lia.
      - intros Ht. destruct (Hlen Ht) as [La Lb]. rewrite <- Hab.
        destruct ma as [| b1 [|]]; try done. destruct mb as [| b2 [|]]; try done.
        apply Forall_cons in Hfa as [H1 _], Hfb as [H2 _].
        repeat constructor; [by exists i | by exists j]. }
    destruct (type prefix) eqn:Et; [by apply Hboth | by apply Hboth |].
    exists []. rewrite app_nil_r. split; [done |]. split; [constructor | constructor].
Qed.

(** [deleteRoutePrefix] removes nothing but the halves of a
    default network: for every other prefix all it sends are requests to add the
    route through the tunnel interface. *)
Theorem deleteRoutePrefix_adds {W} `{N : !Netlink W} `{Q : Qt}
  `{I : !InetLaws Q N} `{G : !NetlinkLog N} (garbage : list Z)
  (prefix : IPAddress) (s : WgLinux W) (Hn : wf_net prefix) (Hs : monitored s)
  (Hp : 0 < m_prefixLength prefix) :
  exists i msgs, log (linux_deleteRoutePrefix garbage prefix s).2 = log s ++ msgs
    /\ Forall (routeVia RTM_NEWROUTE prefix i) msgs
    /\ ((linux_deleteRoutePrefix garbage prefix s).1 = true -> length msgs = 1%nat).
Proof.
  unfold linux_deleteRoutePrefix, gets, mbind, ST_bind. pose proof Hs as (seq & Hm & _). rewrite Hm.
  rewrite Z.gtb_ltb, (proj2 (Z.ltb_lt _ _)) by done.
  destruct (via_unicast garbage (RouteMonitor.insertRoute garbage) RTM_NEWROUTE newFlags prefix s
    (fun _ => eq_refl)) as (i & msgs & Hl & Hf & _ & _ & Hlen); simpl; auto.
  exists i, msgs. done.
Qed.

(** [excludeLocalNetworks] routes the local networks into the
    tunnel: every message it sends adds a route to one of them through the
    interface [frkn0]. *)
Theorem excludeLocalNetworks_tunnel {W} `{N : !Netlink W} `{Q : Qt}
  `{I : !InetLaws Q N} `{G : !NetlinkLog N} (garbage : list Z)
  (routes : list IPAddress) (s : WgLinux W) (Hn : Forall wf_net routes) (Hs : monitored s) :
  exists msgs, log (linux_excludeLocalNetworks garbage routes s).2 = log s ++ msgs
    /\ Forall (fun b => exists n i, n ∈ routes /\ routeVia RTM_NEWROUTE n i b) msgs
    /\ ((linux_excludeLocalNetworks garbage routes s).1 = true -> length msgs = length routes).
Proof.
  unfold linux_excludeLocalNetworks, gets, mbind, ST_bind. pose proof Hs as (seq & Hm & _). rewrite Hm.
  by apply excludeLoop_log.
Qed.

(** [getPeerStatus] reads back the peers of a UAPI reply, in
    order, with their counters and their handshake times in milliseconds. *)
Theorem parsePeers_reply `{Q : Qt} `{U : !UapiLaws Q} (ps : list Peer) (Hok : Forall peer_ok ps) :
  parsePeers (uapiText ([("private_key", "00"); ("listen_port", "51820")] ++ flat_map peerLinesOf ps
    ++ [("errno", "0")])) = map statusOf ps
  /\ uapiErrno (uapiText (flat_map peerLinesOf ps ++ [("errno", "0")])) = intOf "0".
Proof.
  assert (Hne : Forall (fun p => isEmpty (m_pubkey (statusOf p)) = false) ps).
  { eapply Forall_impl; [exact Hok | apply status_nonempty]. }
  assert (Hpl : plainLines (flat_map peerLinesOf ps ++ [("errno", "0")])).
  { apply Forall_app. split; [by apply peers_plain | by repeat constructor]. }
  split.
  - unfold parsePeers, uapiText. rewrite split_uapi.
    2: { repeat (constructor; [done |]). exact Hpl. }
    rewrite !map_app, <- !app_assoc, !fold_left_app.
    replace (fold_left peerStep (map uapiLineText [("private_key", "00"); ("listen_port", "51820")])
      (mkPeerStatus QNull 0 0 0, [])) with (mkPeerStatus QNull 0 0 0, [] : list PeerStatus) by reflexivity.
    pose proof (peers_fold ps (mkPeerStatus QNull 0 0 0) [] Hok Hne) as Hp.
    destruct (fold_left peerStep (map uapiLineText (flat_map peerLinesOf ps)) _) as [st l].
    cbn [map fold_left split]. unfold peerStep. rewrite splitLine_line by done. exact Hp.
  - unfold uapiErrno, uapiText. rewrite split_uapi by exact Hpl. rewrite map_app. clear.
    induction ps as [| p ps IH]; [cbn [flat_map map app errnoOf]; by rewrite splitLine_line by done |].
    cbn [flat_map]. rewrite map_app, <- !app_assoc in *. unfold peerLinesOf at 1. cbn [map app errnoOf].
    rewrite !splitLine_line by done. cbn. exact IH.
Qed.

(** C36 (roundtrip): the UAPI messages say what the configuration says.  When no
    value that is written as it is holds a line break, the text [addInterface]
    and [updatePeer] send, padded by [uapiCommand], reads back as exactly the
    entries of the message, and ends the message once. *)
Theorem uapi_messages_read `{Q : Qt} `{U : !UapiLaws Q} `{H : !HostTextLaws Q} (config : InterfaceConfig)
  (Hv : Forall (fun v => chr_contains newline (qdata v) = false) (uapiValues config))
  (Hk : Forall (fun kv => kv.1 ∈ specialKeys) (m_specialJunk (m_junk config))) :
  let sends l := padMessage 2 (uapiText l) = uapiText l +:+ nl /\ readLines (padMessage 2 (uapiText l)) = l in
  sends (interfaceMessage config) /\ sends (deletePeerMessage config)
  /\ match peerMessage config with
     | Some l => sends l
     | None => isNull (m_serverIpv4AddrIn config) = true /\ isNull (m_serverIpv6AddrIn config) = true
     end.
Proof.
  intros sends. assert (Hs : forall l, l <> [] -> Forall entry_ok l -> sends l).
  { intros l Hne Hl. split; [| by apply read_message]. apply padMessage_one; [done |].
    eapply Forall_impl; [exact Hl |]. by intros kv (? & ? & _). }
  split; [apply Hs; [done | by apply interfaceMessage_ok] |].
  split; [apply Hs; [done |]; repeat constructor; try done; apply keyHex_plain |].
  destruct (peerMessage config) as [l |] eqn:E.
  - apply Hs; [| by eapply peerMessage_ok]. intros ->. revert E. unfold peerMessage.
    by repeat case_match.
  - revert E. unfold peerMessage. destruct (isNull (m_serverIpv4AddrIn config)) eqn:E4; [| done]. cbn [negb].
    by destruct (isNull (m_serverIpv6AddrIn config)).
Qed.

(** ** Witnesses on the reference machine *)

(** The sample Qt, with the compressed texts of the IPv6 halves. *)
Definition halvesQt : Qt := {|
  toInt := @toInt plainQt; toUInt := @toUInt plainQt;
  toLongLong := @toLongLong plainQt; toDouble := @toDouble plainQt;
  parseHost := @parseHost plainQt; hostToString := @hostToString plainQt;
  parseSubnet s :=
    if String.eqb s "::/1" then (HV6 (replicate 16 0), 1)
    else if String.eqb s "8000::/1" then (HV6 (128 :: replicate 15 0), 1)
    else @parseSubnet plainQt s;
  fromBase64 := @fromBase64 plainQt; toBase64 := @toBase64 plainQt;
  fromHex := @fromHex plainQt; toHex := @toHex plainQt;
  jsonParse := @jsonParse plainQt; jsonPrint := @jsonPrint plainQt
|}.

Definition sampleHalves : HalfLaws halvesQt.
Proof. by constructor. Defined.

Definition sampleInet : InetLaws halvesQt sampleNetlink.
Proof.
  constructor.
  - apply (pton4_print (InetLaws := sample_InetLaws (fun _ => None) (fun _ => "{}"%string))).
  - apply (pton6_print (InetLaws := sample_InetLaws (fun _ => None) (fun _ => "{}"%string))).
Defined.

Definition sampleLog : NetlinkLog sampleNetlink.
Proof. by refine {| sent := fun w : list (list Z) => w |}. Defined.

Definition sampleUapi : UapiLaws plainQt.
Proof.
  constructor.
  - intros n Hn. cbn [toDouble plainQt concreteQt]. by rewrite parse_signed_pretty by lia.
  - intros n Hn. cbn [toLongLong plainQt concreteQt]. rewrite parse_signed_pretty by lia.
    unfold in_range, opt_default. rewrite (proj2 (Z.leb_le _ _)), (proj2 (Z.ltb_lt _ _)) by lia. done.
  - apply hex_bytes_round.
  - apply hex_no_newline.
  - intros t. cbn [fromBase64 plainQt concreteQt]. unfold bytes_of_string. apply Forall_map, Forall_forall.
    intros c _. unfold is_byte. pose proof (N_ascii_bounded c). simpl. lia.
Defined.

Definition sampleWg : WgLinux Chains := mkWgLinux "frkn0" (Some 0) (sampleKs false).
(** The whole address space, but for one subnet. *)
Definition wholeConfig : InterfaceConfig :=
  mkConfig SingleHop "cHJpdg==" "10.8.1.2/32" QNull "10.8.0.1" QNull "c2VydmVy" "192.0.2.7"
    QNull QNull "1.1.1.1" "1.0.0.1" 51820 1376 [mkIPAddress (HV4 0) 0] [QStr "198.51.100.0/24"] []
    [] true false sampleJunk.

Lemma applyFirewallRules_no_leak_witness :
  let v dst := traverse sampleNet 4 (wg_view (L := sampleLaws)
      (applyFirewallRules (Shell0 := sampleShell) (H := plainQt) (@firewallParams plainQt wholeConfig) sampleWg).2)
    kOutputChain (samplePacket "eth0" dst) in
  v 0xcb007101 = Some Reject /\ v 0xc6336401 = Some Accept.
Proof.
  intros v. split.
  - destruct (@applyFirewallRules_no_leak Chains sampleShell sampleParses sampleLaws plainQt sampleNet sampleOutput
      wholeConfig sampleWg (samplePacket "eth0" 0xcb007101) (or_introl sample_ready)) as [H | [H _]].
    + apply (bool_decide_unpack _). vm_compute. exact I.
    + exact H.
    + vm_compute in H. discriminate.
  - vm_compute. reflexivity.
Defined.

(** Only one network is tunnelled, and one of its hosts is excluded. *)
Definition selectiveParams : FirewallParams :=
  mkParams ["1.1.1.1"]%string [] ["198.51.100.0/24"]%string ["198.51.100.1/32"]%string false false true.
Definition hostNet (net : string) (h : QHostAddress) : bool :=
  bool_decide ((net, h) ∈ [("198.51.100.1/32", HV4 0xc6336401); ("198.51.100.0/24", HV4 0xc6336401)]%string).

Lemma excluded_subnet_rejected_witness :
  hostNet "198.51.100.1/32" (HV4 0xc6336401) = true
  /\ traverse hostNet 4 (wg_view (L := sampleLaws)
      (applyFirewallRules (Shell0 := sampleShell) (H := plainQt) selectiveParams sampleWg).2)
    kOutputChain (samplePacket "eth0" 0xc6336401) = Some Reject.
Proof.
  split; [vm_compute; reflexivity |].
  apply (@excluded_subnet_rejected Chains sampleShell sampleParses sampleLaws plainQt hostNet sampleOutput
    selectiveParams sampleWg (samplePacket "eth0" 0xc6336401) (or_introl sample_ready)); try (vm_compute; reflexivity).
  - intros (n & Hn & Hm). apply list_elem_of_In in Hn.
    assert (Hall : forallb (fun n => negb (hostNet n (HV4 0xc6336401))) (lanNets false) = true) by (vm_compute; reflexivity).
    rewrite forallb_forall in Hall. specialize (Hall n Hn). simpl p_dst in Hm. by rewrite Hm in Hall.
  - right. split; [done |]. split; [done |]. split; [vm_compute; reflexivity |]. split; [done |].
    exists "198.51.100.0/24"%string. split; [by_names |]. split; vm_compute; reflexivity.
Defined.

Definition routerState : WgLinux (list (list Z)) :=
  mkWgLinux "frkn0" (Some 3) (mkKillSwitch false [] (mkFw ∅ [])).
Lemma routerState_monitored : monitored routerState.
Proof. exists 3. split; [done | lia]. Qed.

Lemma updateRoutePrefix_no_default_witness :
  wf_net (mkIPAddress (HV4 0) 0)
  /\ map read_route (log (G := sampleLog)
      (linux_updateRoutePrefix (Netlink0 := sampleNetlink) (H := halvesQt) [0;0;0;0] (mkIPAddress (HV4 0) 0) routerState).2)
    = map (fun '(n, a) => Some (mkRouteMsg 24 0x505 n AF_INET 1 1
        [(RTA_DST, a); (RTA_OIF, [7;0;0;0]); (RTA_PRIORITY, [1;0;0;0])]))
        [(3, [0;0;0;0]); (4, [128;0;0;0])].
Proof.
  assert (Hn : wf_net (mkIPAddress (HV4 0) 0)) by (split; simpl; lia). split; [exact Hn |].
  destruct (@updateRoutePrefix_no_default _ sampleNetlink halvesQt sampleInet sampleLog sampleHalves
    [0;0;0;0] (mkIPAddress (HV4 0) 0) routerState Hn routerState_monitored) as (msgs & _ & _ & Hall).
  specialize (Hall ltac:(vm_compute; reflexivity)). vm_compute. reflexivity.
Defined.

Lemma deleteRoutePrefix_adds_witness :
  exists b, log (G := sampleLog)
    (linux_deleteRoutePrefix (Netlink0 := sampleNetlink) (H := halvesQt) [0;0;0;0] net10 routerState).2 = [b]
    /\ routeVia RTM_NEWROUTE net10 7 b.
Proof.
  destruct (@deleteRoutePrefix_adds _ sampleNetlink halvesQt sampleInet sampleLog [0;0;0;0] net10 routerState
    net10_wf routerState_monitored ltac:(vm_compute; reflexivity)) as (i & msgs & Hl & Hf & Hlen).
  specialize (Hlen ltac:(vm_compute; reflexivity)). eexists. split; [vm_compute; reflexivity |].
  eexists. split; [vm_compute; reflexivity |]. repeat split.
Defined.

Lemma excludeLocalNetworks_tunnel_witness :
  map read_route (log (G := sampleLog)
    (linux_excludeLocalNetworks (Netlink0 := sampleNetlink) (H := halvesQt) [0;0;0;0] [net10; net10] routerState).2)
  = map (fun n => Some (mkRouteMsg 24 0x505 n AF_INET 8 1
        [(RTA_DST, [10;0;0;0]); (RTA_OIF, [7;0;0;0]); (RTA_PRIORITY, [1;0;0;0])])) [3; 4].
Proof.
  destruct (@excludeLocalNetworks_tunnel _ sampleNetlink halvesQt sampleInet sampleLog [0;0;0;0]
    [net10; net10] routerState) as (msgs & Hl & Hf & Hlen).
  - repeat constructor; simpl; lia.
  - exact routerState_monitored.
  - vm_compute. reflexivity.
Defined.

Definition samplePeer : Peer := mkPeer [97; 98; 99] 1024 2048 1700000000 250000000.
Lemma parsePeers_reply_witness :
  @parsePeers plainQt (uapiText ([("private_key", "00"); ("listen_port", "51820")]
    ++ flat_map (@peerLinesOf plainQt) [samplePeer] ++ [("errno", "0")]))
  = [mkPeerStatus "abc" 1700000000250 1024 2048].
Proof.
  destruct (@parsePeers_reply plainQt sampleUapi [samplePeer]) as [H _].
  - constructor; [| constructor]. split; [repeat constructor; unfold is_byte; lia |].
    split; [discriminate |]. simpl. lia.
  - rewrite H. vm_compute. reflexivity.
Defined.

Lemma uapi_messages_read_witness :
  readLines (padMessage 2 (uapiText (@interfaceMessage plainQt sampleConfig)))
  = [("set", "1"); ("private_key", "63484a7064673d3d"); ("replace_peers", "true");
     ("jc", "4"); ("jmin", "10"); ("jmax", "50"); ("i1", "<b 0x01>")]%string.
Proof.
  destruct (@uapi_messages_read plainQt sampleUapi (concrete_HostTextLaws _ _) sampleConfig) as [[_ H] _].
  - apply (bool_decide_unpack _). vm_compute. exact I.
  - apply (bool_decide_unpack _). vm_compute. exact I.
  - rewrite H. vm_compute. reflexivity.
Defined.
