(* ===== verification/Daemon.v ===== *)
(** * The tunnel daemon: [client/daemon/daemon.cpp], [daemon.h]

    [Daemon] keeps the connections, the reference counts of the exclusion
    routes and the handshake timer, and drives the abstract classes of
    [WireguardUtils.v].  An exchange with the WireGuard process waits in an
    event loop, so that further commands can arrive in the middle of one: the
    operations are written over [events], what happens while they wait, and
    [runEvents] ties the knot for a list of commands that arrive during the
    successive exchanges.

    Every call of a helper object and every signal is kept, in order, in
    [trace]. *)

From Stdlib Require Import ZArith Lia Bool String Ascii QArith.
From Stdlib Require Import Sorting.Sorted Sorting.Permutation.
From stdpp Require Import base gmap strings list sorting.
From S2P Require Import Prelude.
From S2P Require Import Qt.
From S2P Require Import QtInstance.
From S2P Require Import IPAddress.
From S2P Require Import InterfaceConfig.
From S2P Require Import WireguardUtils.

Open Scope Z_scope.

(** ** State *)

Inductive Op : Type := Up | Down | Switch.

Record ConnectionState : Type := mkConn {
  m_date : option Z;               (** [None] is an invalid [QDateTime] *)
  m_config : InterfaceConfig
}.

Inductive Signal : Type :=
| SConnected (pubkey : QString)
| SActivationFailure
| SDisconnected.

(** The calls of the helper objects that can change the system. *)
Inductive Action : Type :=
| AAddInterface (config : InterfaceConfig)
| ADeleteInterface
| AUpdatePeer (config : InterfaceConfig)
| ADeletePeer (config : InterfaceConfig)
| AUpdateRoute (prefix : IPAddress)
| ADeleteRoute (prefix : IPAddress)
| AAddExclusion (prefix : IPAddress)
| ADeleteExclusion (prefix : IPAddress)
| AExcludeLocal (routes : list IPAddress)
| AAddIPs (config : InterfaceConfig)
| ASetMTU (config : InterfaceConfig)
| AUpdateResolvers (ifname : QString) (resolvers : list QHostAddress)
| ARestoreResolvers
| ARun (op : Op) (config : InterfaceConfig).

Inductive Event : Type :=
| Called (a : Action) (result : bool)
| Emitted (s : Signal).

(** The order of the enumerators. *)
Definition hopCompare (a b : HopType) : comparison :=
  match a, b with
  | SingleHop, SingleHop | MultiHopEntry, MultiHopEntry | MultiHopExit, MultiHopExit => Eq
  | SingleHop, _ | MultiHopEntry, MultiHopExit => Lt
  | _, _ => Gt
  end.

Lemma hopCompare_eq a b : hopCompare a b = Eq <-> a = b.
Proof. split; [by destruct a, b | intros <-; by destruct a]. Qed.

#[export] Instance HopType_KeyOrder : KeyOrder HopType := {|
  kcompare := hopCompare;
  kcompare_eq := hopCompare_eq
|}.

(** The commands that can reach the daemon from its event loop. *)
Inductive Cmd : Type :=
| CActivate (config : InterfaceConfig)
| CDeactivate (emitSignals : bool)
| CStatus
| CTimeout.                        (** the handshake timer *)

(** [run], [supportIPUtils] and [prepareActivation] are virtual. *)
Class Platform (W : Type) := {
  run : Op -> InterfaceConfig -> ST W bool;
  supportIPUtils : bool;
  prepareActivation : InterfaceConfig -> ST W unit
}.

(** The Linux daemon does not override the first and the last. *)
Definition linuxPlatform {W} : Platform W := {|
  run _ _ := mret true;
  supportIPUtils := true;
  prepareActivation _ := mret tt
|}.

Record Daemon (W : Type) : Type := mkDaemon {
  m_connections : list (HopType * ConnectionState);
  m_excludedAddrSet : gmap IPAddress Z;
  m_handshakeTimer : bool;         (** [isActive] *)
  m_deactivating : bool;
  inbox : list (list Cmd);         (** what arrives during the next exchanges *)
  trace : list Event;
  sys : W
}.
Arguments mkDaemon {W}.
Arguments m_connections {W}.
Arguments m_excludedAddrSet {W}.
Arguments m_handshakeTimer {W}.
Arguments m_deactivating {W}.
Arguments inbox {W}.
Arguments trace {W}.
Arguments sys {W}.

(** ** Static functions *)

Section Parse.
Context `{Qt}.

(** [QMetaEnum::keyToValue]: a key, or a key with the scope of the class. *)
Definition keyToValue (s : string) : option HopType :=
  hopOfKey (if String.prefix "InterfaceConfig::" s then str_mid 17 s else s).

(** The strings of an array; [None] when an element is not a string. *)
Fixpoint strings (l : list json) : option (list QString) :=
  match l with
  | [] => Some []
  | JString s :: l' => option_map (cons s) (strings l')
  | _ => None
  end.

Definition parseStringList (obj : QJsonObject) (name : string) : option (list QString) :=
  if jcontains obj name then
    match value obj name with
    | Some (JArray l) => strings l
    | _ => None
    end
  else Some [].

(** One element of [allowedIPAddressRanges]. *)
Definition parseRange (i : json) : option IPAddress :=
  match i with
  | JObject ipObj =>
      if negb (isString (value ipObj "address")) then None
      else if negb (isDouble (value ipObj "range")) then None
      else if negb (isBool (value ipObj "isIpv6")) then None
      else Some (ofHostPrefix (parseHost (qdata (toString (value ipObj "address")))) (toIntJ (value ipObj "range")))
  | _ => None
  end.

Fixpoint parseRanges (l : list json) : option (list IPAddress) :=
  match l with
  | [] => Some []
  | i :: l' =>
      match parseRange i with
      | Some ip => option_map (cons ip) (parseRanges l')
      | None => None
      end
  end.

(** [std::sort] by decreasing prefix length; the order of networks of the
    same length is the library's choice. *)
Variable stdSort : list IPAddress -> list IPAddress.

(** [GETVALUE(name, where, String)] and the number of [serverPort]. *)
Definition getString (obj : QJsonObject) (name : string) : option QString :=
  match value obj name with Some (JString s) => Some s | _ => None end.
Definition getDouble (obj : QJsonObject) (name : string) : option Z :=
  match value obj name with Some (JDouble q) => Some (double_to_int q) | _ => None end.

(** A string that may be left out. *)
Definition optionalString (obj : QJsonObject) (name : string) : option QString :=
  if jcontains obj name then getString obj name else Some QNull.

(** [if (!obj.value(k).isNull()) field = obj.value(k).toString();] *)
Definition unlessJNull (obj : QJsonObject) (k : string) : QString :=
  if isJNull (value obj k) then QNull else toString (value obj k).

(** [if (!obj.value(k).isNull()) m_specialJunk[k] = obj.value(k).toString();] *)
Definition specialStep (obj : QJsonObject) (m : list (string * QString)) (k : string) : list (string * QString) :=
  if isJNull (value obj k) then m else qmap_insert k (toString (value obj k)) m.

Definition parseMtu (obj : QJsonObject) : Z :=
  let mtu := intOf (qdata (toString (value obj "deviceMTU"))) in
  if negb (jcontains obj "deviceMTU") || (mtu =? 0) then 1420 else mtu.

Definition parseHop (obj : QJsonObject) : option HopType :=
  if jcontains obj "hopType" then
    match value obj "hopType" with
    | Some (JString s) => keyToValue (qdata s)
    | _ => None
    end
  else Some SingleHop.

Definition parseJunk (obj : QJsonObject) : Junk :=
  mkJunk (unlessJNull obj "Jc") (unlessJNull obj "Jmin") (unlessJNull obj "Jmax")
    (unlessJNull obj "S1") (unlessJNull obj "S2") (unlessJNull obj "S3") (unlessJNull obj "S4")
    (unlessJNull obj "H1") (unlessJNull obj "H2") (unlessJNull obj "H3") (unlessJNull obj "H4")
    (fold_left (specialStep obj) ["I1"; "I2"; "I3"; "I4"; "I5"]%string [])
    (unlessJNull obj "RandomTrailers") (unlessJNull obj "DisableCookies")
    (unlessJNull obj "HeaderProtectionKey") (unlessJNull obj "ContentPaddingAddition")
    (unlessJNull obj "RekeyAfterTime") (unlessJNull obj "RekeyTimeout")
    (unlessJNull obj "RejectAfterTime") (unlessJNull obj "KeepaliveTimeout")
    (unlessJNull obj "MaxHandshakeAttempts").

Definition parseConfig (obj : QJsonObject) : option InterfaceConfig :=
  privateKey ← getString obj "privateKey";
  serverPublicKey ← getString obj "serverPublicKey";
  serverPort ← getDouble obj "serverPort";
  let str name := toString (value obj name) in
  if isNull (str "deviceIpv4Address") && isNull (str "deviceIpv6Address") then None
  else if isNull (str "serverIpv4AddrIn") && isNull (str "serverIpv6AddrIn") then None
  else
    primaryDnsServer ← optionalString obj "primaryDnsServer";
    secondaryDnsServer ← optionalString obj "secondaryDnsServer";
    hopType ← parseHop obj;
    ranges ← match value obj "allowedIPAddressRanges" with
             | Some (JArray l) => parseRanges l
             | _ => None
             end;
    excludedAddresses ← parseStringList obj "excludedAddresses";
    vpnDisabledApps ← parseStringList obj "vpnDisabledApps";
    allowedDnsServers ← parseStringList obj "allowedDnsServers";
    Some (mkConfig hopType privateKey (str "deviceIpv4Address") (str "deviceIpv6Address")
      (str "serverIpv4Gateway") (str "serverIpv6Gateway") serverPublicKey (str "serverIpv4AddrIn")
      (str "serverPskKey") (str "serverIpv6AddrIn") primaryDnsServer secondaryDnsServer serverPort
      (parseMtu obj) (stdSort ranges) excludedAddresses vpnDisabledApps allowedDnsServers
      (variantBool (str "killSwitchOption")) (variantBool (str "routeLanThroughVpn")) (parseJunk obj)).
End Parse.

(** ** Operations *)

Section Daemon.
Context {W : Type} `{!WireguardUtils W} `{!IPUtils W} `{!DnsUtils W} `{!Platform W} `{Q : Qt}.

(** [m_excludedAddrSet] is a hash table: its iterator visits the keys in an
    order of its own. *)
Variable hashOrder : gmap IPAddress Z -> list IPAddress.
(** [QDateTime::toString] *)
Variable dateToString : option Z -> QString.

Definition conns (c : list (HopType * ConnectionState)) : ST (Daemon W) unit :=
  modify (fun d => mkDaemon c (m_excludedAddrSet d) (m_handshakeTimer d) (m_deactivating d) (inbox d) (trace d) (sys d)).
Definition excluded (e : gmap IPAddress Z) : ST (Daemon W) unit :=
  modify (fun d => mkDaemon (m_connections d) e (m_handshakeTimer d) (m_deactivating d) (inbox d) (trace d) (sys d)).
Definition timer (b : bool) : ST (Daemon W) unit :=
  modify (fun d => mkDaemon (m_connections d) (m_excludedAddrSet d) b (m_deactivating d) (inbox d) (trace d) (sys d)).
Definition deactivating (b : bool) : ST (Daemon W) unit :=
  modify (fun d => mkDaemon (m_connections d) (m_excludedAddrSet d) (m_handshakeTimer d) b (inbox d) (trace d) (sys d)).
Definition setInbox (i : list (list Cmd)) : ST (Daemon W) unit :=
  modify (fun d => mkDaemon (m_connections d) (m_excludedAddrSet d) (m_handshakeTimer d) (m_deactivating d) i (trace d) (sys d)).
Definition record (e : Event) : ST (Daemon W) unit :=
  modify (fun d => mkDaemon (m_connections d) (m_excludedAddrSet d) (m_handshakeTimer d) (m_deactivating d) (inbox d)
    (trace d ++ [e]) (sys d)).
Definition onSys {A : Type} (m : ST W A) : ST (Daemon W) A := fun d =>
  let '(a, w) := m (sys d) in
  (a, mkDaemon (m_connections d) (m_excludedAddrSet d) (m_handshakeTimer d) (m_deactivating d) (inbox d) (trace d) w).

Definition emit (s : Signal) : ST (Daemon W) unit := record (Emitted s).
Definition call (a : Action) (m : ST W bool) : ST (Daemon W) bool :=
  r ← onSys m; record (Called a r) ;; mret r.

(** What happens while an exchange with the WireGuard process waits. *)
Variable events : ST (Daemon W) unit.
Definition exchange (a : Action) (m : ST W bool) : ST (Daemon W) bool :=
  r ← call a m; events ;; mret r.

Definition maybeUpdateResolvers (config : InterfaceConfig) : ST (Daemon W) bool :=
  if isExitHop (m_hopType config) then
    name ← onSys interfaceName;
    let resolvers := [parseHost (qdata (m_primaryDnsServer config))]
      ++ (if isEmpty (m_secondaryDnsServer config) then [] else [parseHost (qdata (m_secondaryDnsServer config))])
      ++ (if qeqb (m_primaryDnsServer config) (m_serverIpv4Gateway config)
          then [parseHost (qdata (m_serverIpv6Gateway config))] else []) in
    call (AUpdateResolvers name resolvers) (updateResolvers name resolvers)
  else mret true.

Definition Daemon_addExclusionRoute (prefix : IPAddress) : ST (Daemon W) bool :=
  e ← gets m_excludedAddrSet;
  match e !! prefix with
  | Some n => excluded (<[prefix := n + 1]> e) ;; mret true
  | None =>
      ok ← call (AAddExclusion prefix) (addExclusionRoute prefix);
      if (ok : bool) then e ← gets m_excludedAddrSet; excluded (<[prefix := 1]> e) ;; mret true
      else mret false
  end.

(** [m_excludedAddrSet[prefix]] is 0 for an absent key. *)
Definition delExclusionRoute (prefix : IPAddress) : ST (Daemon W) bool :=
  e ← gets m_excludedAddrSet;
  let n := default 0 (e !! prefix) in
  if n >? 1 then excluded (<[prefix := n - 1]> e) ;; mret true
  else excluded (delete prefix e) ;; call (ADeleteExclusion prefix) (deleteExclusionRoute prefix).

Definition connected (config : InterfaceConfig) : ST (Daemon W) unit :=
  c ← gets m_connections; conns (qmap_insert (m_hopType config) (mkConn None config) c).

Definition supportServerSwitching (config : InterfaceConfig) (c : list (HopType * ConnectionState)) : bool :=
  match qmap_lookup (m_hopType config) c with
  | None => false
  | Some state =>
      let current := m_config state in
      qeqb (m_privateKey current) (m_privateKey config)
      && qeqb (m_deviceIpv4Address current) (m_deviceIpv4Address config)
      && qeqb (m_deviceIpv6Address current) (m_deviceIpv6Address config)
      && qeqb (m_serverIpv4Gateway current) (m_serverIpv4Gateway config)
      && qeqb (m_serverIpv6Gateway current) (m_serverIpv6Gateway config)
  end.

(** The loop that stops at the first route that fails. *)
Fixpoint switchRoutes (l : list IPAddress) : ST (Daemon W) unit :=
  match l with
  | [] => mret tt
  | ip :: l' =>
      ok ← call (AUpdateRoute ip) (updateRoutePrefix ip);
      if (ok : bool) then switchRoutes l' else mret tt
  end.

Definition switchServer (config : InterfaceConfig) : ST (Daemon W) bool :=
  c ← gets m_connections;
  match qmap_lookup (m_hopType config) c with
  | None => mret false                       (** [Q_ASSERT(contains)] *)
  | Some state =>
      let lastConfig := m_config state in
      forEach (fun i => Daemon_addExclusionRoute (ofString (qdata i)) ;; mret tt) (m_excludedAddresses config) ;;
      must exchange (AUpdatePeer config) (updatePeer config);
      switchRoutes (m_allowedIPAddressRanges config) ;;
      forEach (fun i => delExclusionRoute (ofString (qdata i)) ;; mret tt) (m_excludedAddresses lastConfig) ;;
      forEach (fun ip =>
          if bool_decide (ip ∈ m_allowedIPAddressRanges config) then mret tt
          else call (ADeleteRoute ip) (deleteRoutePrefix ip) ;; mret tt)
        (m_allowedIPAddressRanges lastConfig) ;;
      removed ← (if qeqb (m_serverPublicKey config) (m_serverPublicKey lastConfig) then mret true
                 else exchange (ADeletePeer lastConfig) (deletePeer lastConfig));
      if (removed : bool) then connected config ;; mret true else mret false
  end.

(** The keys of [m_connections], in order. *)
Definition allHops : list HopType := [SingleHop; MultiHopEntry; MultiHopExit].

(** [for (state : m_connections)]: the iterator moves to the next key present. *)
Definition forConnections (body : ConnectionState -> ST (Daemon W) unit) : ST (Daemon W) unit :=
  forEach (fun hop =>
    c ← gets m_connections;
    match qmap_lookup hop c with Some state => body state | None => mret tt end) allHops.

(** The end of [deactivate]: the exclusion routes, the connections, the
    interface. *)
Definition releaseAll : ST (Daemon W) bool :=
  e ← gets m_excludedAddrSet;
  forEach (fun p => call (ADeleteExclusion p) (deleteExclusionRoute p) ;; mret tt) (hashOrder e) ;;
  excluded ∅ ;;
  conns [] ;;
  removed ← call ADeleteInterface deleteInterface;
  deactivating false ;;
  mret removed.

Definition deactivate (emitSignals : bool) : ST (Daemon W) bool :=
  busy ← gets m_deactivating;
  if (busy : bool) then mret true
  else
    deactivating true ;;
    timer false ;;
    c ← gets m_connections;
    match c with
    | (_, state) :: _ => call (ARun Down (m_config state)) (run Down (m_config state)) ;; mret tt
    | [] => mret tt
    end ;;
    (if emitSignals then emit SDisconnected else mret tt) ;;
    call ARestoreResolvers restoreResolvers ;;
    forConnections (fun state =>
      let config := m_config state in
      forEach (fun ip => call (ADeleteRoute ip) (deleteRoutePrefix ip) ;; mret tt) (m_allowedIPAddressRanges config) ;;
      exchange (ADeletePeer config) (deletePeer config) ;; mret tt) ;;
    releaseAll.

(** The networks kept out of the tunnel. *)
Definition kLanRanges : list IPAddress :=
  map ofString ["10.0.0.0/8"; "172.16.0.0/12"; "192.168.0.0/16"; "169.254.0.0/16"]%string.

(** The end of both successful paths. *)
Definition established (op : Op) (config : InterfaceConfig) : ST (Daemon W) bool :=
  must call (ARun op config) (run op config);
  connected config ;; timer true ;; mret true.

(** [activate] without a connection of the same kind. *)
Definition activateFresh (config : InterfaceConfig) : ST (Daemon W) bool :=
  onSys (prepareActivation config) ;;
  exists_ ← onSys interfaceExists;
  must (if (exists_ : bool) then mret true else exchange (AAddInterface config) (addInterface config));
  must (if supportIPUtils then
          (must call (AAddIPs config) (addInterfaceIPs config);
           call (ASetMTU config) (setMTUAndUp config))
        else mret true);
  forEach (fun i => Daemon_addExclusionRoute (ofString (qdata i)) ;; mret tt) (m_excludedAddresses config) ;;
  (if negb (m_routeLanThroughVpn config)
   then call (AExcludeLocal kLanRanges) (excludeLocalNetworks kLanRanges) ;; mret tt else mret tt) ;;
  must exchange (AUpdatePeer config) (updatePeer config);
  must maybeUpdateResolvers config;
  must forAllM (fun ip => call (AUpdateRoute ip) (updateRoutePrefix ip)) (m_allowedIPAddressRanges config);
  established Up config.

(** [activate] with the server-switching path. *)
Definition activateSwitch (config : InterfaceConfig) : ST (Daemon W) bool :=
  must switchServer config;
  must call ARestoreResolvers restoreResolvers;
  must maybeUpdateResolvers config;
  established Switch config.

(** [emit_failure_guard] fires when the function returns false; [None] is a
    call that recursed too deeply. *)
Definition guarded (m : ST (Daemon W) (option bool)) : ST (Daemon W) (option bool) :=
  r ← m;
  match r with
  | Some false => emit SActivationFailure ;; mret (Some false)
  | _ => mret r
  end.

Fixpoint activate (fuel : nat) (config : InterfaceConfig) : ST (Daemon W) (option bool) :=
  match fuel with
  | O => mret None
  | S fuel' =>
      guarded (
        c ← gets m_connections;
        if qmap_contains (m_hopType config) c then
          if supportServerSwitching config c then r ← activateSwitch config; mret (Some r)
          else
            stopped ← deactivate false;
            if negb stopped then mret (Some false)
            else
              c ← gets m_connections;
              if qmap_contains (m_hopType config) c then mret (Some false)
              else activate fuel' config
        else r ← activateFresh config; mret (Some r))
  end.

(** [connection] is a reference into [m_connections], used after the exchange
    of [getPeerStatus]; [None] is the undefined behaviour of a reference whose
    element was removed while it waited. *)
Definition getStatus : ST (Daemon W) (option QJsonObject) :=
  up ← onSys interfaceExists;
  c ← gets m_connections;
  match up, c with
  | true, (hop, _) :: _ =>
      peers ← onSys getPeerStatus;
      events ;;
      c ← gets m_connections;
      mret (match qmap_lookup hop c with
            | None => None
            | Some connection =>
                let config := m_config connection in
                match List.find (fun st => qeqb (m_pubkey st) (m_serverPublicKey config)) peers with
                | Some status =>
                    Some (<["rxBytes" := jint (m_rxBytes status)]>
                         (<["txBytes" := jint (m_txBytes status)]>
                         (<["date" := JString (dateToString (m_date connection))]>
                         (<["deviceIpv4Address" := JString (m_deviceIpv4Address config)]>
                         (<["serverIpv4Gateway" := JString (m_serverIpv4Gateway config)]>
                         (<["connected" := JBool true]> ∅))))))
                | None => Some (<["connected" := JBool false]> ∅)
                end
            end)
  | _, _ => mret (Some (<["connected" := JBool false]> ∅))
  end.

(** The inner loop of [checkHandshake]: every peer with the key of the
    connection and a handshake sets the date and is reported. *)
Definition handshakes (pubkey : QString) (peers : list PeerStatus) : list PeerStatus :=
  List.filter (fun st => qeqb pubkey (m_pubkey st) && negb (m_handshake st =? 0)) peers.

(** A pass over the connections: the connections after it, the keys reported
    and the number of handshakes still pending. *)
Fixpoint handshakePass (peers : list PeerStatus) (c : list (HopType * ConnectionState))
  : list (HopType * ConnectionState) * list QString * Z :=
  match c with
  | [] => ([], [], 0)
  | (hop, conn) :: c' =>
      let '(c1, out, pending) := handshakePass peers c' in
      match m_date conn with
      | Some _ => ((hop, conn) :: c1, out, pending)
      | None =>
          let done := handshakes (m_serverPublicKey (m_config conn)) peers in
          let date := fold_left (fun _ st => Some (m_handshake st)) done None in
          ((hop, mkConn date (m_config conn)) :: c1, map m_pubkey done ++ out,
           pending + match date with None => 1 | Some _ => 0 end)
      end
  end.

Definition checkHandshake : ST (Daemon W) unit :=
  peers ← onSys getPeerStatus;
  events ;;
  c ← gets m_connections;
  let '(c', out, pending) := handshakePass peers c in
  conns c' ;;
  forEach (fun k => emit (SConnected k)) out ;;
  (if pending >? 0 then timer true else mret tt).

(** A command of the event loop; the timer is single-shot. *)
Definition exec (cmd : Cmd) : ST (Daemon W) unit :=
  match cmd with
  | CActivate config => activate 2 config ;; mret tt
  | CDeactivate emitSignals => deactivate emitSignals ;; mret tt
  | CStatus => getStatus ;; mret tt
  | CTimeout =>
      active ← gets m_handshakeTimer;
      if (active : bool) then timer false ;; checkHandshake else mret tt
  end.
End Daemon.

(** ** The event loop *)

Section Events.
Context {W : Type} `{!WireguardUtils W} `{!IPUtils W} `{!DnsUtils W} `{!Platform W} `{Q : Qt}.
Variable hashOrder : gmap IPAddress Z -> list IPAddress.
Variable dateToString : option Z -> QString.

(** The commands of the next batch; [fuel] bounds how deeply they nest. *)
Fixpoint runEvents (fuel : nat) : ST (Daemon W) unit :=
  i ← gets inbox;
  match i, fuel with
  | batch :: rest, S fuel' =>
      setInbox rest ;; forEach (exec hashOrder dateToString (runEvents fuel')) batch
  | _, _ => mret tt
  end.

(** A command that arrives at the top of the event loop, with everything that
    arrives while it runs. *)
Definition command (cmd : Cmd) : ST (Daemon W) unit := fun d =>
  exec hashOrder dateToString (runEvents (length (inbox d))) cmd d.
End Events.

(** ** Reasoning about the operations *)

Section Closed.
Context {W : Type} `{!WireguardUtils W} `{!IPUtils W} `{!DnsUtils W} `{!Platform W} `{Q : Qt}.
Variable hashOrder : gmap IPAddress Z -> list IPAddress.
Variable dateToString : option Z -> QString.

(** The actions that do not touch the exclusion routes the daemon counts. *)
Definition routeless (a : Action) : bool :=
  match a with AAddExclusion _ | ADeleteExclusion _ => false | _ => true end.

(** A relation between two runs, over two behaviours of the event loop, that
    the steps of the operations respect.  An invariant is the special case
    that looks at one run. *)
Record closed (ev1 ev2 : ST (Daemon W) unit)
  (P : forall A : Type, ST (Daemon W) A -> ST (Daemon W) A -> Prop) : Prop := {
  c_ret : forall A (a : A), P A (mret a) (mret a);
  c_bind : forall A B (m1 m2 : ST (Daemon W) A) (f1 f2 : A -> ST (Daemon W) B),
    P A m1 m2 -> (forall a, P B (f1 a) (f2 a)) -> P B (m1 ≫= f1) (m2 ≫= f2);
  c_gets : forall A (f : Daemon W -> A), P A (gets f) (gets f);
  c_sys : forall A (m : ST W A), P A (onSys m) (onSys m);
  c_call : forall a m, routeless a = true -> P bool (call a m) (call a m);
  c_timer : forall b, P unit (timer b) (timer b);
  c_connected : forall config, P unit (connected config) (connected config);
  c_add : forall p, P bool (Daemon_addExclusionRoute p) (Daemon_addExclusionRoute p);
  c_del : forall p, P bool (delExclusionRoute p) (delExclusionRoute p);
  c_events : P unit ev1 ev2
}.

Variable ev1 ev2 : ST (Daemon W) unit.
Variable P : forall A : Type, ST (Daemon W) A -> ST (Daemon W) A -> Prop.
Hypothesis HP : closed ev1 ev2 P.

Ltac step :=
  first [ apply (c_ret _ _ _ HP) | apply (c_gets _ _ _ HP) | apply (c_sys _ _ _ HP)
        | apply (c_call _ _ _ HP); reflexivity
        | apply (c_timer _ _ _ HP)
        | apply (c_connected _ _ _ HP) | apply (c_add _ _ _ HP) | apply (c_del _ _ _ HP)
        | apply (c_events _ _ _ HP) | assumption
        | apply (c_bind _ _ _ HP); [| intros ?] | case_match ].

Lemma closed_forEach {A} (f1 f2 : A -> ST (Daemon W) unit) l :
  (forall x, P unit (f1 x) (f2 x)) -> P unit (forEach f1 l) (forEach f2 l).
Proof. intros Hf. induction l; simpl; repeat first [apply Hf | step]. Qed.

Lemma closed_forAllM {A} (f1 f2 : A -> ST (Daemon W) bool) l :
  (forall x, P bool (f1 x) (f2 x)) -> P bool (forAllM f1 l) (forAllM f2 l).
Proof. intros Hf. induction l; simpl; repeat first [apply Hf | step]. Qed.

Lemma closed_exchange a m : routeless a = true -> P bool (exchange ev1 a m) (exchange ev2 a m).
Proof. intros Ha. unfold exchange. repeat first [apply (c_call _ _ _ HP), Ha | step]. Qed.

Ltac next :=
  first [ apply closed_exchange; reflexivity | apply closed_forEach; intros ?
        | apply closed_forAllM; intros ? | step ].
Ltac steps := repeat next.

Lemma closed_resolvers config : P bool (maybeUpdateResolvers config) (maybeUpdateResolvers config).
Proof. unfold maybeUpdateResolvers. steps. Qed.

Lemma closed_switchServer config : P bool (switchServer ev1 config) (switchServer ev2 config).
Proof.
  assert (Hr : forall l, P unit (switchRoutes l) (switchRoutes l)) by (induction l; simpl; steps).
  unfold switchServer. repeat first [apply Hr | next].
Qed.

Lemma closed_established op config : P bool (established op config) (established op config).
Proof. unfold established. steps. Qed.

Lemma closed_activateSwitch config : P bool (activateSwitch ev1 config) (activateSwitch ev2 config).
Proof.
  unfold activateSwitch.
  repeat first [apply closed_switchServer | apply closed_resolvers | apply closed_established | next].
Qed.

Lemma closed_activateFresh config : P bool (activateFresh ev1 config) (activateFresh ev2 config).
Proof.
  unfold activateFresh.
  repeat first [apply closed_resolvers | apply closed_established | next].
Qed.

Lemma closed_activate fuel config :
  (forall b, P bool (deactivate hashOrder ev1 b) (deactivate hashOrder ev2 b)) ->
  P unit (emit SActivationFailure) (emit SActivationFailure) ->
  P (option bool) (activate hashOrder ev1 fuel config) (activate hashOrder ev2 fuel config).
Proof.
  intros Hd He. induction fuel as [| fuel IH]; cbn [activate]; [steps |]. unfold guarded.
  repeat first [apply Hd | apply IH | apply closed_activateSwitch | apply closed_activateFresh | next].
Qed.

Lemma closed_getStatus : P (option QJsonObject) (getStatus dateToString ev1) (getStatus dateToString ev2).
Proof. unfold getStatus. steps. Qed.

Lemma closed_exec cmd :
  (forall b, P bool (deactivate hashOrder ev1 b) (deactivate hashOrder ev2 b)) ->
  P unit (emit SActivationFailure) (emit SActivationFailure) ->
  P unit (checkHandshake ev1) (checkHandshake ev2) ->
  P unit (exec hashOrder dateToString ev1 cmd) (exec hashOrder dateToString ev2 cmd).
Proof.
  intros Hd He Hc. unfold exec.
  repeat first [apply closed_activate; [apply Hd | apply He] | apply Hd | apply Hc | apply closed_getStatus | next].
Qed.
End Closed.

(** ** The event loop ends *)

Section Loop.
Context {W : Type} `{!WireguardUtils W} `{!IPUtils W} `{!DnsUtils W} `{!Platform W} `{Q : Qt}.
Variable hashOrder : gmap IPAddress Z -> list IPAddress.
Variable dateToString : option Z -> QString.

Definition agree (n : nat) (A : Type) (m1 m2 : ST (Daemon W) A) : Prop :=
  forall d, (length (inbox d) <= n)%nat -> m1 d = m2 d /\ (length (inbox (m1 d).2) <= n)%nat.

Lemma agree_bind n A B (m1 m2 : ST (Daemon W) A) (f1 f2 : A -> ST (Daemon W) B) :
  agree n A m1 m2 -> (forall a, agree n B (f1 a) (f2 a)) -> agree n B (m1 ≫= f1) (m2 ≫= f2).
Proof.
  intros Hm Hf d Hd. destruct (Hm d Hd) as [E Hl]. unfold mbind, ST_bind. rewrite <- E.
  destruct (m1 d) as [a d']. by apply Hf.
Qed.

Lemma agree_same n A (m : ST (Daemon W) A) :
  (forall d, inbox (m d).2 = inbox d) -> agree n A m m.
Proof. intros Hm d Hd. split; [done |]. by rewrite Hm. Qed.

Lemma call_inbox a m (d : Daemon W) : inbox (call a m d).2 = inbox d.
Proof. unfold call, onSys, mbind, ST_bind. by destruct (m (sys d)). Qed.

Lemma agree_closed n ev1 ev2 : agree n unit ev1 ev2 -> closed ev1 ev2 (agree n).
Proof.
  intros He. split; try done.
  - apply agree_bind.
  - intros. apply agree_same. intros d. unfold onSys. by destruct (m (sys d)).
  - intros. apply agree_same, call_inbox.
  - intros p. apply agree_same. intros d. unfold Daemon_addExclusionRoute, gets, mbind at 1, ST_bind at 1.
    destruct (m_excludedAddrSet d !! p); [done |]. unfold mbind, ST_bind. pose proof (call_inbox (AAddExclusion p)
      (addExclusionRoute p) d) as Hi. by destruct (call _ _ d) as [[] d'].
  - intros p. apply agree_same. intros d. unfold delExclusionRoute, gets, mbind, ST_bind.
    destruct (_ >? 1); [done |]. unfold excluded, modify. by rewrite call_inbox.
Qed.

Lemma agree_deactivate n ev1 ev2 b : agree n unit ev1 ev2 ->
  agree n bool (deactivate hashOrder ev1 b) (deactivate hashOrder ev2 b).
Proof.
  intros He. pose proof (agree_closed n ev1 ev2 He) as HP.
  assert (Hs : forall A (m : ST (Daemon W) A), (forall d, inbox (m d).2 = inbox d) -> agree n A m m)
    by (intros; by apply agree_same).
  unfold deactivate, releaseAll, forConnections.
  repeat first [ apply Hs; intros ?; solve [reflexivity | apply call_inbox]
               | apply (closed_exchange ev1 ev2 _ HP); reflexivity
               | apply (closed_forEach ev1 ev2 _ HP); intros ? | case_match | apply agree_bind; [| intros ?] ].
Qed.

Lemma agree_checkHandshake n ev1 ev2 : agree n unit ev1 ev2 ->
  agree n unit (checkHandshake ev1) (checkHandshake ev2).
Proof.
  intros He. pose proof (agree_closed n ev1 ev2 He) as HP. unfold checkHandshake.
  apply agree_bind; [apply (c_sys _ _ _ HP) | intros peers].
  apply agree_bind; [done | intros _]. apply agree_bind; [by apply agree_same | intros c].
  destruct (handshakePass peers c) as [[c' out] pending].
  apply agree_bind; [by apply agree_same | intros _].
  apply agree_bind; [apply (closed_forEach ev1 ev2 _ HP); intros k; by apply agree_same | intros _].
  destruct (pending >? 0); by apply agree_same.
Qed.

(** Fuel beyond the number of batches changes nothing. *)
Lemma runEvents_agree n f1 f2 : (n <= f1)%nat -> (n <= f2)%nat ->
  agree n unit (runEvents hashOrder dateToString f1) (runEvents hashOrder dateToString f2).
Proof.
  revert f1 f2. induction n as [| n IH]; intros f1 f2 H1 H2 d Hd.
  { destruct d as [c e t b i tr w]. destruct i; [| simpl in Hd; lia]. by destruct f1, f2. }
  destruct f1 as [| f1], f2 as [| f2]; try lia. cbn [runEvents]. unfold gets, mbind, ST_bind.
  destruct (inbox d) as [| batch rest] eqn:Ei.
  { split; [done |]. simpl. rewrite Ei. simpl. lia. }
  pose proof (agree_closed n _ _ (IH f1 f2 ltac:(lia) ltac:(lia))) as HP.
  destruct (closed_forEach _ _ _ HP (exec hashOrder dateToString (runEvents hashOrder dateToString f1))
    (exec hashOrder dateToString (runEvents hashOrder dateToString f2)) batch) with (d := (setInbox rest d).2)
    as [E Hl].
  - intros cmd. apply (closed_exec _ _ _ _ _ HP).
    + intros b. apply agree_deactivate, IH; lia.
    + by apply agree_same.
    + apply agree_checkHandshake, IH; lia.
  - simpl in Hd |- *. lia.
  - simpl. unfold setInbox, modify in E, Hl. simpl in E, Hl. split; [exact E | lia].
Qed.
End Loop.

(** ** Invariants *)

(** The exclusion routes that are in place after the calls of a trace. *)
Definition installStep (s : gset IPAddress) (e : Event) : gset IPAddress :=
  match e with
  | Called (AAddExclusion p) true => {[p]} ∪ s
  | Called (ADeleteExclusion p) _ => s ∖ {[p]}
  | _ => s
  end.
Definition installed (t : list Event) : gset IPAddress := fold_left installStep t ∅.

Lemma installed_app t l : installed (t ++ l) = fold_left installStep l (installed t).
Proof. apply fold_left_app. Qed.

(** The connections are in the order of their kinds, each under its own; an
    exclusion route is counted exactly when it is in place. *)
Definition conns_ok (c : list (HopType * ConnectionState)) : Prop :=
  StronglySorted (fun a b => hopCompare a b = Lt) (map fst c)
  /\ Forall (fun hc => m_hopType (m_config hc.2) = hc.1) c.

Definition consistent {W} (d : Daemon W) : Prop :=
  conns_ok (m_connections d)
  /\ (forall p n, m_excludedAddrSet d !! p = Some n -> 1 <= n)
  /\ installed (trace d) = dom (m_excludedAddrSet d).

Lemma consistent_mk {W} c e t b i tr (w : W) :
  conns_ok c -> (forall p n, e !! p = Some n -> 1 <= n) -> installed tr = dom e ->
  consistent (mkDaemon c e t b i tr w).
Proof. by split. Qed.

Lemma conns_ok_insert config date c :
  conns_ok c -> conns_ok (qmap_insert (m_hopType config) (mkConn date config) c).
Proof.
  intros [Hs Hf]. split; [| induction Hf as [| [h s] c Hh Hc IH]; cbn [qmap_insert]].
  - clear Hf. set (k := m_hopType config). induction c as [| [h s] c IH]; cbn [qmap_insert map fst] in *.
    + repeat constructor.
    + apply StronglySorted_inv in Hs as [Hs Hlt]. change (kcompare k h) with (hopCompare k h).
      destruct (hopCompare k h) eqn:E; cbn [map fst].
      * apply hopCompare_eq in E as ->. by constructor.
      * constructor; [by constructor |]. constructor; [done |].
        eapply Forall_impl; [exact Hlt |]. intros h'. by destruct k, h, h'.
      * constructor; [by apply IH |].
        assert (Hk : hopCompare h k = Lt) by (by destruct k, h).
        clear IH Hs. induction c as [| [h' s'] c IH]; cbn [qmap_insert map fst] in *; [by repeat constructor |].
        apply Forall_cons in Hlt as [H1 H2]. change (kcompare k h') with (hopCompare k h').
        destruct (hopCompare k h') eqn:E'; cbn [map fst]; repeat constructor; auto.
  - by repeat constructor.
  - cbn [map fst] in Hs. apply StronglySorted_inv in Hs as [Hs _].
    destruct (kcompare _ _); repeat constructor; auto.
Qed.

Section Invariants.
Context {W : Type} `{!WireguardUtils W} `{!IPUtils W} `{!DnsUtils W} `{!Platform W} `{Q : Qt}.
Variable hashOrder : gmap IPAddress Z -> list IPAddress.
Variable dateToString : option Z -> QString.
(** The iterator of the hash table visits every key. *)
Hypothesis hashOrder_keys : forall e p, p ∈ hashOrder e <-> p ∈ dom e.

(** Nothing changes but the helper objects and the trace. *)
Definition advanced (d d' : Daemon W) (l : list Event) : Prop :=
  exists w, d' = mkDaemon (m_connections d) (m_excludedAddrSet d) (m_handshakeTimer d) (m_deactivating d)
    (inbox d) (trace d ++ l) w.

Lemma call_advanced a m (d : Daemon W) :
  advanced d (call a m d).2 [Called a (call a m d).1].
Proof. unfold call, onSys, mbind, ST_bind, advanced. destruct (m (sys d)) as [r w]. by exists w. Qed.

Lemma advanced_trans d d' d'' l l' :
  advanced d d' l -> advanced d' d'' l' -> advanced d d'' (l ++ l').
Proof. intros [w ->] [w' ->]. exists w'. cbn. by rewrite app_assoc. Qed.

Lemma advanced_refl (d : Daemon W) : advanced d d [].
Proof. exists (sys d). rewrite app_nil_r. by destruct d. Qed.

(** A loop of calls whose results are not looked at. *)
Lemma forEach_calls {X} (a : X -> Action) (m : X -> ST W bool) l (d : Daemon W) :
  exists rs, length rs = length l
    /\ advanced d (forEach (fun x => call (a x) (m x) ;; mret tt) l d).2
         (zip_with (fun x r => Called (a x) r) l rs).
Proof.
  revert d. induction l as [| x l IH]; intros d; cbn [forEach].
  - exists []. split; [done | apply advanced_refl].
  - pose proof (call_advanced (a x) (m x) d) as Hc. unfold mbind, ST_bind in *.
    destruct (call (a x) (m x) d) as [r d1]; simpl in Hc |- *.
    destruct (IH d1) as (rs & Hlen & Ha). exists (r :: rs). split; [simpl; by rewrite Hlen |].
    by apply (advanced_trans _ d1 _ [_]).
Qed.

Lemma delete_all l rs (s : gset IPAddress) : length rs = length l ->
  fold_left installStep (zip_with (fun p r => Called (ADeleteExclusion p) r) l rs) s = s ∖ list_to_set l.
Proof.
  revert rs s. induction l as [| p l IH]; intros [| r rs] s Hlen; try done; simpl in *; [set_solver |].
  rewrite IH by lia. set_solver.
Qed.

Lemma release_consistent (d : Daemon W) :
  consistent d ->
  let d' := (releaseAll hashOrder d).2 in
  consistent d' /\ m_connections d' = [] /\ m_excludedAddrSet d' = ∅ /\ m_deactivating d' = false
  /\ installed (trace d') = ∅ /\ m_handshakeTimer d' = m_handshakeTimer d /\ inbox d' = inbox d
  /\ exists t, trace d' = t ++ [Called ADeleteInterface (releaseAll hashOrder d).1].
Proof.
  intros (Hc & He & Hi). unfold releaseAll, gets, mbind, ST_bind.
  destruct (forEach_calls ADeleteExclusion deleteExclusionRoute (hashOrder (m_excludedAddrSet d)) d)
    as (rs & Hlen & [w Hw]). unfold mbind, ST_bind in Hw.
  destruct (forEach _ (hashOrder (m_excludedAddrSet d)) d) as [u d1]. simpl in Hw. subst d1.
  unfold excluded, conns, modify. cbn [fst snd m_connections m_excludedAddrSet m_handshakeTimer m_deactivating inbox trace sys].
  unfold call, onSys, mbind, ST_bind. cbn [sys]. destruct (deleteInterface w) as [removed w'].
  cbn [fst snd m_connections m_excludedAddrSet m_handshakeTimer m_deactivating inbox trace sys deactivating modify].
  set (t := trace d ++ _).
  assert (Ht : installed (t ++ [Called ADeleteInterface removed]) = ∅).
  { rewrite installed_app. cbn. unfold t. rewrite installed_app, delete_all, Hi by done.
    apply set_eq. intros p. rewrite elem_of_difference, elem_of_list_to_set, hashOrder_keys. set_solver. }
  split; [| do 6 (split; [done |]); by exists t].
  split; [repeat constructor |]. split; [done |]. etransitivity; [exact Ht |]. symmetry. apply dom_empty_L.
Qed.

(** [m] leaves an invariant in place; the second run is not looked at. *)
Definition keeps (I : Daemon W -> Prop) (A : Type) (m _ : ST (Daemon W) A) : Prop := forall d, I d -> I (m d).2.

Lemma keeps_bind I A B (m m' : ST (Daemon W) A) (f f' : A -> ST (Daemon W) B) :
  keeps I A m m' -> (forall a, keeps I B (f a) (f' a)) -> keeps I B (m ≫= f) (m' ≫= f').
Proof.
  intros Hm Hf d Hd. specialize (Hm d Hd). unfold mbind, ST_bind. destruct (m d) as [a d'].
  by apply Hf.
Qed.

Lemma keeps_advanced I A (m m' : ST (Daemon W) A) :
  (forall d, exists l, advanced d (m d).2 l /\ (I d -> I (m d).2)) -> keeps I A m m'.
Proof. intros Hm d Hd. destruct (Hm d) as (l & _ & Hi). auto. Qed.

Lemma consistent_advanced d d' l : consistent d -> advanced d d' l ->
  fold_left installStep l (installed (trace d)) = installed (trace d) -> consistent d'.
Proof.
  intros (Hc & He & Hi) [w ->] Hl. split; [done |]. split; [done |]. simpl. by rewrite installed_app, Hl.
Qed.

Lemma keeps_call a m m' : routeless a = true -> keeps consistent bool (call a m) m'.
Proof.
  intros Ha d Hd. eapply consistent_advanced; [exact Hd | apply call_advanced |].
  simpl. by destruct a.
Qed.

Lemma keeps_add p m' : keeps consistent bool (Daemon_addExclusionRoute p) m'.
Proof.
  intros d (Hc & He & Hi). unfold Daemon_addExclusionRoute, gets, mbind at 1, ST_bind at 1.
  destruct (m_excludedAddrSet d !! p) as [n |] eqn:Ep.
  - refine (consistent_mk _ _ _ _ _ _ _ Hc _ _).
    + intros q k Hq. apply lookup_insert_Some in Hq as [[<- <-] | [_ Hq]]; [| by eauto].
      specialize (He p n Ep). lia.
    + rewrite dom_insert_L, Hi. apply elem_of_dom_2 in Ep. set_solver.
  - pose proof (call_advanced (AAddExclusion p) (addExclusionRoute p) d) as [w Hw].
    unfold mbind, ST_bind. destruct (call _ _ d) as [ok d1]. simpl in Hw. subst d1.
    destruct ok; refine (consistent_mk _ _ _ _ _ _ _ Hc _ _); try done.
    + intros q k Hq. apply lookup_insert_Some in Hq as [[<- <-] | [_ Hq]]; [lia | by eauto].
    + transitivity (installed (trace d ++ [Called (AAddExclusion p) true])); [done |].
      rewrite installed_app, Hi. change (({[p]} : gset IPAddress) ∪ dom (m_excludedAddrSet d)
        = dom (<[p := 1]> (m_excludedAddrSet d))). by rewrite dom_insert_L.
    + transitivity (installed (trace d ++ [Called (AAddExclusion p) false])); [done |].
      by rewrite installed_app, Hi.
Qed.

Lemma keeps_forget p e t b i tr (w : W) c :
  conns_ok c -> (forall p n, e !! p = Some n -> 1 <= n) -> installed tr = dom e ->
  consistent (call (ADeleteExclusion p) (deleteExclusionRoute p) (mkDaemon c (delete p e) t b i tr w)).2.
Proof.
  intros Hc He Hi.
  destruct (call_advanced (ADeleteExclusion p) (deleteExclusionRoute p) (mkDaemon c (delete p e) t b i tr w))
    as [w' ->]. cbn [m_connections m_excludedAddrSet m_handshakeTimer m_deactivating inbox trace sys].
  apply consistent_mk; [done | |].
  - intros q k Hq. apply lookup_delete_Some in Hq as [_ Hq]. by eauto.
  - rewrite installed_app, Hi. change (dom e ∖ {[p]} = dom (delete p e)). by rewrite dom_delete_L.
Qed.

Lemma keeps_del p m' : keeps consistent bool (delExclusionRoute p) m'.
Proof.
  intros d (Hc & He & Hi). unfold delExclusionRoute, gets, mbind, ST_bind.
  destruct (_ >? 1) eqn:En; [| by apply keeps_forget].
  destruct (m_excludedAddrSet d !! p) as [n |] eqn:Ep; cbn [default] in En; [| done]. apply Z.gtb_lt in En.
  refine (consistent_mk _ _ _ _ _ _ _ Hc _ _).
  - intros q k Hq. cbn [default] in Hq. apply lookup_insert_Some in Hq as [[<- <-] | [_ Hq]]; [lia | by eauto].
  - rewrite dom_insert_L, Hi. apply elem_of_dom_2 in Ep. set_solver.
Qed.

Lemma consistent_closed ev ev' : keeps consistent unit ev ev' -> closed ev ev' (keeps consistent).
Proof.
  intros He. split; try exact He.
  - by intros A a d Hd.
  - apply keeps_bind.
  - by intros A f d Hd.
  - intros A m d Hd. unfold onSys. by destruct (m (sys d)).
  - intros. by apply keeps_call.
  - by intros b d Hd.
  - intros config d (Hc & Hx). unfold connected. cbn. split; [by apply conns_ok_insert | exact Hx].
  - intros. apply keeps_add.
  - intros. apply keeps_del.
Qed.

Lemma keeps_deactivate ev ev' b : keeps consistent unit ev ev' ->
  keeps consistent bool (deactivate hashOrder ev b) (deactivate hashOrder ev' b).
Proof.
  intros He. pose proof (consistent_closed ev ev' He) as HP.
  assert (Hc : forall a m m', routeless a = true -> keeps consistent bool (call a m) m') by apply keeps_call.
  assert (Hd : forall x, keeps consistent unit (deactivating x) (deactivating x))
    by (intros x d Hd; exact Hd).
  assert (Hs : forall s, keeps consistent unit (emit s) (emit s)).
  { intros s d (H1 & H2 & H3). split; [done |]. split; [done |]. simpl. by rewrite installed_app, H3. }
  assert (Hr : keeps consistent bool (releaseAll hashOrder) (releaseAll hashOrder))
    by (intros d Hd'; by apply release_consistent).
  unfold deactivate, forConnections.
  repeat first [ apply Hr | apply Hd | apply Hs | apply Hc; reflexivity | apply (c_timer _ _ _ HP)
               | apply (c_ret _ _ _ HP) | apply (c_gets _ _ _ HP)
               | apply (closed_exchange ev ev' _ HP); reflexivity
               | apply (closed_forEach ev ev' _ HP); intros ? | case_match | apply keeps_bind; [| intros ?] ].
Qed.

Lemma handshakePass_ok peers c : conns_ok c -> conns_ok (handshakePass peers c).1.1.
Proof.
  assert (Hk : map fst (handshakePass peers c).1.1 = map fst c).
  { induction c as [| [h s] c IH]; [done |]. cbn [handshakePass]. destruct (handshakePass peers c) as [[c1 o] n].
    destruct (m_date s); cbn in *; by rewrite IH. }
  intros [Hs Hf]. split; [by rewrite Hk |]. clear Hs Hk. induction Hf as [| [h s] c Hh _ IH]; [constructor |].
  cbn [handshakePass]. destruct (handshakePass peers c) as [[c1 o] n]. destruct (m_date s); by constructor.
Qed.

Lemma keeps_emits l : keeps consistent unit (forEach (fun k => emit (SConnected k)) l) (mret tt).
Proof.
  induction l as [| k l IH]; intros d Hd; [done |]. cbn [forEach]. unfold mbind, ST_bind.
  apply IH. destruct Hd as (H1 & H2 & H3). split; [done |]. split; [done |]. simpl. by rewrite installed_app, H3.
Qed.

Lemma keeps_checkHandshake ev ev' : keeps consistent unit ev ev' ->
  keeps consistent unit (checkHandshake ev) (checkHandshake ev').
Proof.
  intros He. pose proof (consistent_closed ev ev' He) as HP. unfold checkHandshake.
  apply keeps_bind; [apply (c_sys _ _ _ HP) | intros peers]. apply keeps_bind; [done | intros _].
  intros d Hd. unfold gets, mbind at 1, ST_bind at 1.
  pose proof (handshakePass_ok peers (m_connections d) (proj1 Hd)) as Hok.
  destruct (handshakePass peers (m_connections d)) as [[c' out] pending]. simpl in Hok.
  assert (Hd' : consistent (conns c' d).2) by (destruct Hd as (_ & Hx); by split).
  unfold mbind, ST_bind at 1. destruct (conns c' d) as [u d1]. simpl in Hd'.
  pose proof (keeps_emits out d1 Hd') as Hd2. unfold ST_bind. destruct (forEach _ out d1) as [u' d2].
  destruct (pending >? 0); [by destruct Hd2 | done].
Qed.

Lemma keeps_exec ev ev' cmd : keeps consistent unit ev ev' ->
  keeps consistent unit (exec hashOrder dateToString ev cmd) (exec hashOrder dateToString ev' cmd).
Proof.
  intros He. apply (closed_exec _ _ _ _ _ (consistent_closed ev ev' He)).
  - intros b. by apply keeps_deactivate.
  - intros d (H1 & H2 & H3). split; [done |]. split; [done |]. simpl. by rewrite installed_app, H3.
  - by apply keeps_checkHandshake.
Qed.

Lemma keeps_runEvents n : keeps consistent unit (runEvents hashOrder dateToString n) (runEvents hashOrder dateToString n).
Proof.
  induction n as [| n IH]; intros d Hd; cbn [runEvents]; unfold gets, mbind, ST_bind; [by case_match |].
  destruct (inbox d) as [| batch rest]; [done |].
  assert (Hk : keeps consistent unit
    (forEach (exec hashOrder dateToString (runEvents hashOrder dateToString n)) batch)
    (forEach (exec hashOrder dateToString (runEvents hashOrder dateToString n)) batch)).
  { apply (closed_forEach _ _ _ (consistent_closed _ _ IH)). intros cmd. by apply keeps_exec. }
  apply Hk. exact Hd.
Qed.

(** [m_deactivating] is the same before and after. *)
Definition steady (A : Type) (m _ : ST (Daemon W) A) : Prop := forall d, m_deactivating (m d).2 = m_deactivating d.

Lemma steady_bind A B (m m' : ST (Daemon W) A) (f f' : A -> ST (Daemon W) B) :
  steady A m m' -> (forall a, steady B (f a) (f' a)) -> steady B (m ≫= f) (m' ≫= f').
Proof.
  intros Hm Hf d. specialize (Hm d). unfold mbind, ST_bind. destruct (m d) as [a d']. by rewrite Hf.
Qed.

Lemma steady_call a m m' : steady bool (call a m) m'.
Proof. intros d. by destruct (call_advanced a m d) as [w ->]. Qed.

Lemma steady_closed ev ev' : steady unit ev ev' -> closed ev ev' steady.
Proof.
  intros He. split; try exact He; try done.
  - apply steady_bind.
  - intros A m d. unfold onSys. by destruct (m (sys d)).
  - intros. apply steady_call.
  - intros p d. unfold Daemon_addExclusionRoute, gets, mbind at 1, ST_bind at 1.
    destruct (m_excludedAddrSet d !! p); [done |].
    refine (steady_bind _ _ _ (mret true) _ (fun _ => mret true) (steady_call _ _ _) _ d). by intros [] d'.
  - intros p d. unfold delExclusionRoute, gets, mbind, ST_bind. destruct (_ >? 1); [done |].
    unfold excluded, modify. by destruct (call_advanced (ADeleteExclusion p) (deleteExclusionRoute p)
      (mkDaemon (m_connections d) (delete p (m_excludedAddrSet d)) (m_handshakeTimer d) (m_deactivating d)
        (inbox d) (trace d) (sys d))) as [w ->].
Qed.

Lemma steady_release (d : Daemon W) : m_deactivating (releaseAll hashOrder d).2 = false.
Proof.
  unfold releaseAll, gets, mbind, ST_bind. destruct (forEach _ _ d) as [u d1]. simpl.
  by destruct (call ADeleteInterface _ _) as [r d2].
Qed.

Lemma steady_deactivate ev ev' b : steady bool (deactivate hashOrder ev b) (deactivate hashOrder ev' b).
Proof.
  intros d. unfold deactivate, gets, mbind at 1, ST_bind at 1. destruct (m_deactivating d) eqn:Eb; [done |].
  unfold mbind, ST_bind. repeat (match goal with |- context [let '(_, _) := ?m in _] => destruct m end).
  apply steady_release.
Qed.

Lemma steady_exec ev ev' cmd : steady unit ev ev' ->
  steady unit (exec hashOrder dateToString ev cmd) (exec hashOrder dateToString ev' cmd).
Proof.
  intros He. apply (closed_exec _ _ _ _ _ (steady_closed ev ev' He)); try done.
  - intros b. apply steady_deactivate.
  - unfold checkHandshake. repeat first [ exact He | by intros d | apply (c_sys _ _ _ (steady_closed ev ev' He))
      | apply (closed_forEach _ _ _ (steady_closed ev ev' He)); intros ? | case_match | apply steady_bind; [| intros ?] ].
Qed.

Lemma steady_runEvents n : steady unit (runEvents hashOrder dateToString n) (runEvents hashOrder dateToString n).
Proof.
  induction n as [| n IH]; intros d; cbn [runEvents]; unfold gets, mbind, ST_bind; [by case_match |].
  destruct (inbox d) as [| batch rest]; [done |].
  assert (Hk : steady unit
    (forEach (exec hashOrder dateToString (runEvents hashOrder dateToString n)) batch)
    (forEach (exec hashOrder dateToString (runEvents hashOrder dateToString n)) batch)).
  { apply (closed_forEach _ _ _ (steady_closed _ _ IH)). intros cmd. by apply steady_exec. }
  exact (Hk (setInbox rest d).2).
Qed.

(** The commands the top of the event loop handles one after the other. *)
Definition commands (l : list Cmd) : ST (Daemon W) unit := forEach (command hashOrder dateToString) l.

Lemma commands_keep l d : consistent d ->
  consistent (commands l d).2 /\ m_deactivating (commands l d).2 = m_deactivating d.
Proof.
  revert d. induction l as [| cmd l IH]; intros d Hd; [done |].
  assert (E : commands (cmd :: l) d = commands l (command hashOrder dateToString cmd d).2).
  { unfold commands. cbn [forEach]. unfold mbind, ST_bind. by destruct (command _ _ cmd d). }
  pose proof (keeps_exec _ _ cmd (keeps_runEvents (length (inbox d))) d Hd) as H1.
  pose proof (steady_exec _ _ cmd (steady_runEvents (length (inbox d))) d) as H2.
  fold (command hashOrder dateToString cmd d) in H1, H2. rewrite E, <- H2. by apply IH.
Qed.

(** [deactivate] when no deactivation is under way. *)
Lemma deactivate_releases ev b (d : Daemon W) :
  keeps consistent unit ev ev -> consistent d -> m_deactivating d = false ->
  exists d1, consistent d1 /\ deactivate hashOrder ev b d = releaseAll hashOrder d1.
Proof.
  intros He Hd Hb. pose proof (consistent_closed ev ev He) as HP.
  assert (Hr : forall A (m : ST (Daemon W) A) (f : A -> ST (Daemon W) bool) d,
    keeps consistent A m m -> consistent d ->
    (forall a d', consistent d' -> exists d1, consistent d1 /\ f a d' = releaseAll hashOrder d1) ->
    exists d1, consistent d1 /\ (m ≫= f) d = releaseAll hashOrder d1).
  { intros A m f d0 Hm H0 Hf. specialize (Hm d0 H0). unfold mbind, ST_bind. destruct (m d0). by apply Hf. }
  unfold deactivate.
  match goal with |- context [(?m ≫= ?f) d] => change ((m ≫= f) d) with (f (m_deactivating d) d) end.
  rewrite Hb.
  apply Hr; [by intros x Hx | done | intros _ d0 H0]. apply Hr; [by intros x Hx | done | clear d0 H0; intros _ d0 H0].
  apply Hr; [by intros x Hx | done | clear d0 H0; intros c d0 H0].
  apply Hr; [| done | clear d0 H0; intros _ d0 H0].
  { destruct c as [| [h st] c]; [by intros x Hx |]. apply keeps_bind; [by apply keeps_call | by intros _ x Hx]. }
  apply Hr; [| done | clear d0 H0; intros _ d0 H0].
  { destruct b; [| by intros x Hx]. intros x (H1 & H2 & H3). split; [done |]. split; [done |].
    simpl. by rewrite installed_app, H3. }
  apply Hr; [by apply keeps_call | done | clear d0 H0; intros _ d0 H0].
  apply Hr; [| done | clear d0 H0; intros _ d0 H0; by exists d0].
  unfold forConnections. apply (closed_forEach _ _ _ HP). intros hop.
  apply keeps_bind; [by intros x Hx | intros c1]. destruct (qmap_lookup hop c1); [| by intros x Hx].
  apply keeps_bind; [| intros _; apply keeps_bind; [by apply (closed_exchange _ _ _ HP) | by intros _ x Hx]].
  apply (closed_forEach _ _ _ HP). intros ip. apply keeps_bind; [by apply keeps_call | by intros _ x Hx].
Qed.
End Invariants.

(** ** Outcomes *)

Section Outcomes.
Context {W : Type} `{!WireguardUtils W} `{!IPUtils W} `{!DnsUtils W} `{!Platform W} `{Q : Qt}.
Variable hashOrder : gmap IPAddress Z -> list IPAddress.

(** What holds whenever a run returns true. *)
Definition whenTrue (G : Daemon W -> Prop) (m : ST (Daemon W) bool) : Prop :=
  forall d, (m d).1 = true -> G (m d).2.

Lemma whenTrue_bind {A} G (m : ST (Daemon W) A) f :
  (forall a, whenTrue G (f a)) -> whenTrue G (m ≫= f).
Proof. intros Hf d. unfold mbind, ST_bind. destruct (m d) as [a d']. apply Hf. Qed.

Lemma whenTrue_must G (m : ST (Daemon W) bool) k :
  whenTrue G k -> whenTrue G (mbind (fun ok : bool => if ok then k else mret false) m).
Proof. intros Hk. apply whenTrue_bind. intros []; [exact Hk | by intros d]. Qed.

Lemma qmap_lookup_new {V} (k : HopType) (v : V) m : qmap_lookup k (qmap_insert k v m) = Some v.
Proof. rewrite qmap_lookup_insert. by rewrite (proj2 (kcompare_eq k k) eq_refl). Qed.

(** The state an established connection leaves. *)
Definition isEstablished (config : InterfaceConfig) (op : Op) (d : Daemon W) : Prop :=
  qmap_lookup (m_hopType config) (m_connections d) = Some (mkConn None config)
  /\ m_handshakeTimer d = true
  /\ exists t, trace d = t ++ [Called (ARun op config) true].

Lemma established_true op config : whenTrue (isEstablished config op) (established op config).
Proof.
  intros d. unfold established, mbind, ST_bind.
  destruct (call_advanced (ARun op config) (run op config) d) as [w Hw].
  destruct (call _ _ d) as [[] d1]; [| done]. intros _. simpl in Hw. subst d1.
  split; [| split; [done | by eexists]]. refine (qmap_lookup_new _ _ _).
Qed.

Lemma activateSwitch_true ev config : whenTrue (isEstablished config Switch) (activateSwitch ev config).
Proof. unfold activateSwitch. do 3 apply whenTrue_must. apply established_true. Qed.

Lemma activateFresh_true ev config : whenTrue (isEstablished config Up) (activateFresh ev config).
Proof.
  unfold activateFresh. apply whenTrue_bind. intros _. apply whenTrue_bind. intros up.
  do 2 apply whenTrue_must. do 2 (apply whenTrue_bind; intros _). do 3 apply whenTrue_must.
  apply established_true.
Qed.

(** [guarded] keeps the result and ends a failure with its signal. *)
Lemma guarded_result (m : ST (Daemon W) (option bool)) d :
  (guarded m d).1 = (m d).1
  /\ ((m d).1 <> Some false -> guarded m d = m d)
  /\ ((m d).1 = Some false -> trace (guarded m d).2 = trace (m d).2 ++ [Emitted SActivationFailure]).
Proof.
  unfold guarded, mbind, ST_bind. destruct (m d) as [[[] |] d1]; simpl; split; try done; split; done.
Qed.

Lemma guarded_ext (m m' : ST (Daemon W) (option bool)) d : m d = m' d -> guarded m d = guarded m' d.
Proof. intros E. unfold guarded, mbind, ST_bind. by rewrite E. Qed.

(** One level of [activate], over what the recursive call does. *)
Definition activateLevel ev (rec : ST (Daemon W) (option bool)) config (d : Daemon W) : option bool * Daemon W :=
  if qmap_contains (m_hopType config) (m_connections d) then
    if supportServerSwitching config (m_connections d) then
      let '(r, d1) := activateSwitch ev config d in (Some r, d1)
    else
      let '(stopped, d1) := deactivate hashOrder ev false d in
      if negb stopped then (Some false, d1)
      else if qmap_contains (m_hopType config) (m_connections d1) then (Some false, d1) else rec d1
  else let '(r, d1) := activateFresh ev config d in (Some r, d1).

Lemma activate_level ev n config d :
  activate hashOrder ev (S n) config d = guarded (activateLevel ev (activate hashOrder ev n config) config) d.
Proof.
  cbn [activate]. apply guarded_ext.
  unfold activateLevel, gets, mbind, ST_bind. destruct (qmap_contains _ _); [| by destruct (activateFresh ev config d)].
  destruct (supportServerSwitching _ _); [by destruct (activateSwitch ev config d) |].
  destruct (deactivate hashOrder ev false d) as [[] d1]; simpl; [| done]. by destruct (qmap_contains _ _).
Qed.

(** The recursion is at most two deep. *)
Lemma activate_fresh ev n config d :
  qmap_contains (m_hopType config) (m_connections d) = false ->
  activate hashOrder ev (S n) config d = activate hashOrder ev 1 config d.
Proof. intros Hc. rewrite !activate_level. unfold guarded, activateLevel, mbind, ST_bind. by rewrite Hc. Qed.

Lemma activate_deep ev n config d :
  activate hashOrder ev (S (S n)) config d = activate hashOrder ev 2 config d.
Proof.
  rewrite (activate_level ev (S n)), (activate_level ev 1). apply guarded_ext. unfold activateLevel. destruct (qmap_contains _ _); [| done]. destruct (supportServerSwitching _ _); [done |].
  destruct (deactivate hashOrder ev false d) as [[] d1]; simpl; [| done].
  destruct (qmap_contains _ (m_connections d1)) eqn:Ec; [done | by apply activate_fresh].
Qed.

(** How a level ends, when the recursive call ends in the same way. *)
Definition outcome config (r : option bool * Daemon W) : Prop :=
  match r.1 with
  | Some true => exists op, op <> Down /\ isEstablished config op r.2
  | Some false => exists t, trace r.2 = t ++ [Emitted SActivationFailure]
  | None => False
  end.

Lemma level_outcome ev rec config d :
  (qmap_contains (m_hopType config) (m_connections d) = true ->
   forall d1, qmap_contains (m_hopType config) (m_connections d1) = false -> outcome config (rec d1)) ->
  outcome config (guarded (activateLevel ev rec config) d).
Proof.
  intros Hrec. unfold guarded, mbind, ST_bind.
  assert (Hl : (activateLevel ev rec config d).1 <> None /\
    ((activateLevel ev rec config d).1 = Some true ->
       exists op, op <> Down /\ isEstablished config op (activateLevel ev rec config d).2)).
  { unfold activateLevel. destruct (qmap_contains _ _) eqn:E0.
    - specialize (Hrec eq_refl). destruct (supportServerSwitching _ _).
      + pose proof (activateSwitch_true ev config d) as Ht. destruct (activateSwitch ev config d) as [r d1].
        split; [done |]. intros [= ->]. exists Switch. split; [done | by apply Ht].
      + destruct (deactivate hashOrder ev false d) as [[] d1]; simpl; [| done].
        destruct (qmap_contains _ (m_connections d1)) eqn:Ec; [done |]. specialize (Hrec d1 Ec).
        unfold outcome in Hrec. split; [by intros E; rewrite E in Hrec | intros E; by rewrite E in Hrec].
    - pose proof (activateFresh_true ev config d) as Ht. destruct (activateFresh ev config d) as [r d1].
      split; [done |]. intros [= ->]. exists Up. split; [done | by apply Ht]. }
  destruct (activateLevel ev rec config d) as [[[] |] d1]; destruct Hl as [Hn Ht]; cbn [fst snd] in *; try done.
  - by apply Ht.
  - by exists (trace d1).
Qed.
End Outcomes.

(** ** Signals *)

Section Quiet.
Context {W : Type} `{!WireguardUtils W} `{!IPUtils W} `{!DnsUtils W} `{!Platform W} `{Q : Qt}.
Variable hashOrder : gmap IPAddress Z -> list IPAddress.

(** [m] only adds to the trace, and no activation failure. *)
Definition quiet {A : Type} (m : ST (Daemon W) A) : Prop :=
  forall d, exists l, trace (m d).2 = trace d ++ l /\ Emitted SActivationFailure ∉ l.

Lemma quiet_same {A} (m : ST (Daemon W) A) : (forall d, trace (m d).2 = trace d) -> quiet m.
Proof. intros Hm d. exists []. rewrite app_nil_r. split; [apply Hm | apply not_elem_of_nil]. Qed.

Lemma quiet_bind {A B} (m : ST (Daemon W) A) (f : A -> ST (Daemon W) B) :
  quiet m -> (forall a, quiet (f a)) -> quiet (m ≫= f).
Proof.
  intros Hm Hf d. destruct (Hm d) as (l1 & E1 & N1). unfold mbind, ST_bind. destruct (m d) as [a d1].
  destruct (Hf a d1) as (l2 & E2 & N2). exists (l1 ++ l2). rewrite E2. simpl in E1. rewrite E1, <- app_assoc.
  split; [done |]. rewrite elem_of_app. tauto.
Qed.

Lemma quiet_call a m : quiet (call a m).
Proof.
  intros d. destruct (call_advanced a m d) as [w ->]. eexists. split; [done |].
  rewrite list_elem_of_singleton. discriminate.
Qed.

Lemma quiet_closed ev : quiet ev -> closed ev ev (fun A m _ => quiet m).
Proof.
  intros He. split; try exact He; try (intros; by apply quiet_same).
  - intros. by apply quiet_bind.
  - intros A m. apply quiet_same. intros d. unfold onSys. by destruct (m (sys d)).
  - intros. apply quiet_call.
  - intros p. unfold Daemon_addExclusionRoute. apply quiet_bind; [by apply quiet_same | intros e].
    destruct (e !! p); [by apply quiet_same |]. apply quiet_bind; [apply quiet_call |].
    intros []; by apply quiet_same.
  - intros p. unfold delExclusionRoute. apply quiet_bind; [by apply quiet_same | intros e].
    destruct (_ >? 1); [by apply quiet_same |]. apply quiet_bind; [by apply quiet_same | intros _; apply quiet_call].
Qed.

Lemma quiet_release : quiet (releaseAll hashOrder).
Proof.
  apply quiet_bind; [by apply quiet_same | intros e]. apply quiet_bind.
  { intros d'. destruct (forEach_calls ADeleteExclusion deleteExclusionRoute (hashOrder e) d') as (rs & _ & [w ->]).
    eexists. split; [done |]. generalize rs. induction (hashOrder e) as [| p l IH]; intros [| r rs']; cbn [zip_with];
      try apply not_elem_of_nil. apply not_elem_of_cons. split; [discriminate | apply IH]. }
  intros _. apply quiet_bind; [by apply quiet_same | intros _]. apply quiet_bind; [by apply quiet_same | intros _].
  apply quiet_bind; [apply quiet_call | intros r]. apply quiet_bind; by intros; apply quiet_same.
Qed.

Lemma quiet_forEach {A} (f : A -> ST (Daemon W) unit) l : (forall x, quiet (f x)) -> quiet (forEach f l).
Proof.
  intros Hf. induction l as [| x l IH]; [by apply quiet_same |]. cbn [forEach]. by apply quiet_bind.
Qed.

Lemma quiet_exchange ev a m : quiet ev -> quiet (exchange ev a m).
Proof.
  intros He. unfold exchange. apply quiet_bind; [apply quiet_call | intros r].
  apply quiet_bind; [done | intros _]. by apply quiet_same.
Qed.

(** The part of [deactivate] after the helper process was told to stop. *)
Lemma quiet_teardown (body : ConnectionState -> ST (Daemon W) unit) l :
  (forall st, quiet (body st)) ->
  quiet (forEach (fun hop => c ← gets m_connections;
    match qmap_lookup hop c with Some state => body state | None => mret tt end) l).
Proof.
  intros Hb. apply quiet_forEach. intros hop. apply quiet_bind; [by apply quiet_same | intros c].
  destruct (qmap_lookup hop c); [apply Hb | by apply quiet_same].
Qed.

Lemma quiet_removal ev st : quiet ev -> quiet (A := unit) (
  forEach (fun ip => call (ADeleteRoute ip) (deleteRoutePrefix ip) ;; mret tt) (m_allowedIPAddressRanges (m_config st)) ;;
  exchange ev (ADeletePeer (m_config st)) (deletePeer (m_config st)) ;; mret tt).
Proof.
  intros He. apply quiet_bind; [apply quiet_forEach; intros ip; apply quiet_bind; [apply quiet_call | intros _; by apply quiet_same] |].
  intros _. apply quiet_bind; [by apply quiet_exchange | intros _; by apply quiet_same].
Qed.

Lemma quiet_deactivate ev b : quiet ev -> quiet (deactivate hashOrder ev b).
Proof.
  intros He. unfold deactivate. apply quiet_bind; [by apply quiet_same | intros []; [by apply quiet_same |]].
  do 2 (apply quiet_bind; [by apply quiet_same | intros _]). apply quiet_bind; [by apply quiet_same | intros c].
  apply quiet_bind; [destruct c as [| [h st] c]; [by apply quiet_same | apply quiet_bind; [apply quiet_call | intros _; by apply quiet_same]] |].
  intros _. apply quiet_bind.
  { destruct b; [| by apply quiet_same]. intros d. exists [Emitted SDisconnected]. split; [done |].
    rewrite list_elem_of_singleton. discriminate. }
  intros _. apply quiet_bind; [apply quiet_call | intros _].
  apply quiet_bind; [| intros _; apply quiet_release].
  apply quiet_teardown. intros st. by apply quiet_removal.
Qed.

(** A run that returns true was quiet. *)
Definition quietTrue (r : option bool * Daemon W) (d : Daemon W) : Prop :=
  r.1 = Some true -> exists l, trace r.2 = trace d ++ l /\ Emitted SActivationFailure ∉ l.

Lemma level_quiet ev rec config d :
  quiet ev -> (forall d1, quietTrue (rec d1) d1) -> quietTrue (guarded (activateLevel hashOrder ev rec config) d) d.
Proof.
  intros He Hrec Ht. destruct (guarded_result (activateLevel hashOrder ev rec config) d) as (Hr & Hsame & _).
  rewrite Hr in Ht. rewrite Hsame by by rewrite Ht. clear Hr Hsame. revert Ht. unfold activateLevel.
  pose proof (quiet_closed ev He) as HP.
  destruct (qmap_contains _ _); [destruct (supportServerSwitching _ _) |].
  - pose proof (closed_activateSwitch _ _ _ HP config d) as Hq. destruct (activateSwitch ev config d). by intros _.
  - pose proof (quiet_deactivate ev false He d) as (l1 & E1 & N1).
    destruct (deactivate hashOrder ev false d) as [[] d1]; simpl in E1 |- *; [| done].
    destruct (qmap_contains _ (m_connections d1)); [done |]. intros Ht.
    destruct (Hrec d1 Ht) as (l2 & E2 & N2). exists (l1 ++ l2). rewrite E2, E1, app_assoc. split; [done |].
    rewrite elem_of_app. tauto.
  - pose proof (closed_activateFresh _ _ _ HP config d) as Hq. destruct (activateFresh ev config d). by intros _.
Qed.

Lemma activate_quiet ev n config d : quiet ev -> quietTrue (activate hashOrder ev n config d) d.
Proof.
  intros He. revert d. induction n as [| n IH]; intros d; [done |]. rewrite activate_level. by apply level_quiet.
Qed.
End Quiet.

(** ** Plans *)

Section Plans.
Context {W : Type} `{!WireguardUtils W} `{!IPUtils W} `{!DnsUtils W} `{!Platform W} `{Q : Qt}.
Variable hashOrder : gmap IPAddress Z -> list IPAddress.

(** An event without the answer of the helper. *)
Definition shape (e : Event) : Action + Signal :=
  match e with Called a _ => inl a | Emitted s => inr s end.

(** From [d], [m] changes only the helpers and the trace, as planned. *)
Definition does {A} (l : list (Action + Signal)) (m : ST (Daemon W) A) (d : Daemon W) : Prop :=
  exists evs, advanced d (m d).2 evs /\ map shape evs = l.

Lemma does_bind {A B} l1 l2 (m : ST (Daemon W) A) (f : A -> ST (Daemon W) B) d :
  does l1 m d -> (forall a d' evs, advanced d d' evs -> does l2 (f a) d') -> does (l1 ++ l2) (m ≫= f) d.
Proof.
  intros (e1 & H1 & <-) Hf. unfold does, mbind, ST_bind. destruct (m d) as [a d1].
  destruct (Hf a d1 e1 H1) as (e2 & H2 & <-). exists (e1 ++ e2). split; [| by rewrite map_app].
  by apply (advanced_trans _ d1).
Qed.

Lemma does_nothing {A} (a : A) d : does [] (mret a) d.
Proof. exists []. split; [apply advanced_refl | done]. Qed.

Lemma does_call a m d : does [inl a] (call a m) d.
Proof. eexists. split; [apply call_advanced | done]. Qed.

Lemma does_emit s d : does [inr s] (emit s) d.
Proof. exists [Emitted s]. split; [by exists (sys d) | done]. Qed.

Lemma does_forEach {X} (f : X -> ST (Daemon W) unit) plan l d :
  (forall x d' evs, advanced d d' evs -> does (plan x) (f x) d') -> does (flat_map plan l) (forEach f l) d.
Proof.
  revert d. induction l as [| x l IH]; intros d Hf; [apply does_nothing |]. cbn [forEach flat_map].
  apply does_bind; [apply (Hf x d []), advanced_refl |]. intros _ d' evs Ha. apply IH.
  intros y d'' evs' Ha'. apply (Hf y d'' (evs ++ evs')). by apply (advanced_trans _ d').
Qed.

Lemma does_calls {X} (a : X -> Action) (m : X -> ST W bool) l d :
  does (map (fun x => inl (a x)) l) (forEach (fun x => call (a x) (m x) ;; mret tt) l) d.
Proof.
  replace (map (fun x => inl (a x)) l) with (flat_map (fun x => [inl (a x) : Action + Signal] ++ []) l)
    by (induction l as [| x l IH]; cbn; by rewrite ?IH).
  apply does_forEach. intros x d' _ _. apply does_bind; [apply does_call | intros; apply does_nothing].
Qed.

(** An exchange during which nothing arrives. *)
Lemma does_exchange ev a m d :
  (forall d' evs, advanced d d' evs -> ev d' = (tt, d')) -> does [inl a] (exchange ev a m) d.
Proof.
  intros Hev. unfold exchange. change [inl a : Action + Signal] with ([inl a : Action + Signal] ++ [] ++ []).
  apply does_bind; [apply does_call |]. intros r d' evs Ha. apply does_bind; [| intros; apply does_nothing].
  exists []. rewrite (Hev d' evs Ha). split; [apply advanced_refl | done].
Qed.

(** What a connection leaves to remove. *)
Definition removal (st : ConnectionState) : list (Action + Signal) :=
  map (fun ip => inl (ADeleteRoute ip)) (m_allowedIPAddressRanges (m_config st)) ++ [inl (ADeletePeer (m_config st))].

Definition stopPlan (b : bool) (d : Daemon W) : list (Action + Signal) :=
  match m_connections d with (_, st) :: _ => [inl (ARun Down (m_config st))] | [] => [] end
  ++ (if b then [inr SDisconnected] else []) ++ [inl ARestoreResolvers].

Definition releasePlan (d : Daemon W) : list (Action + Signal) :=
  map (fun p => inl (ADeleteExclusion p)) (hashOrder (m_excludedAddrSet d)) ++ [inl ADeleteInterface].

(** [m] on [d] goes on as [k], after the planned calls. *)
Definition leads {A} (l : list (Action + Signal)) (m k : ST (Daemon W) A) (d : Daemon W) : Prop :=
  exists d' evs, advanced d d' evs /\ map shape evs = l /\ m d = k d'.

Lemma leads_bind {A B} l1 l2 (m : ST (Daemon W) A) (f : A -> ST (Daemon W) B) k d :
  does l1 m d -> (forall a d' evs, advanced d d' evs -> leads l2 (f a) k d') -> leads (l1 ++ l2) (m ≫= f) k d.
Proof.
  intros (e1 & H1 & <-) Hf. unfold leads, mbind, ST_bind. destruct (m d) as [a d1].
  destruct (Hf a d1 e1 H1) as (d2 & e2 & H2 & <- & E). exists d2, (e1 ++ e2).
  split; [by apply (advanced_trans _ d1) | by rewrite map_app].
Qed.

Lemma leads_end {A} (k : ST (Daemon W) A) d : leads [] k k d.
Proof. exists d, []. split; [apply advanced_refl | done]. Qed.

(** [deactivate] up to the loop over the connections: the daemon is marked as
    deactivating and its timer is stopped. *)
Definition marked (d : Daemon W) : Daemon W :=
  mkDaemon (m_connections d) (m_excludedAddrSet d) false true (inbox d) (trace d) (sys d).

Definition removeConnections ev : ST (Daemon W) unit :=
  forConnections (fun state =>
    forEach (fun ip => call (ADeleteRoute ip) (deleteRoutePrefix ip) ;; mret tt)
      (m_allowedIPAddressRanges (m_config state)) ;;
    exchange ev (ADeletePeer (m_config state)) (deletePeer (m_config state)) ;; mret tt).

Lemma deactivate_stops ev b d :
  m_deactivating d = false ->
  exists d' evs, advanced (marked d) d' evs /\ map shape evs = stopPlan b d
    /\ deactivate hashOrder ev b d = (removeConnections ev ;; releaseAll hashOrder) d'.
Proof.
  intros Hb.
  assert (E : deactivate hashOrder ev b d =
    (match m_connections d with
     | (_, state) :: _ => call (ARun Down (m_config state)) (run Down (m_config state)) ;; mret tt
     | [] => mret tt
     end ;;
     (if b then emit SDisconnected else mret tt) ;;
     call ARestoreResolvers restoreResolvers ;; removeConnections ev ;; releaseAll hashOrder) (marked d)).
  { unfold deactivate. match goal with |- (?m ≫= ?f) d = _ => change ((m ≫= f) d) with (f (m_deactivating d) d) end.
    rewrite Hb. reflexivity. }
  rewrite E. clear E Hb. change (leads (stopPlan b d) (match m_connections d with
     | (_, state) :: _ => call (ARun Down (m_config state)) (run Down (m_config state)) ;; mret tt
     | [] => mret tt
     end ;;
     (if b then emit SDisconnected else mret tt) ;;
     call ARestoreResolvers restoreResolvers ;; removeConnections ev ;; releaseAll hashOrder)
     (removeConnections ev ;; releaseAll hashOrder) (marked d)).
  unfold stopPlan. apply leads_bind.
  { destruct (m_connections d) as [| [h st] c]; [apply does_nothing |].
    change [inl (ARun Down (m_config st)) : Action + Signal] with ([inl (ARun Down (m_config st)) : Action + Signal] ++ []).
    apply does_bind; [apply does_call | intros; apply does_nothing]. }
  intros _ d1 evs1 _. apply leads_bind; [destruct b; [apply does_emit | apply does_nothing] |].
  intros _ d2 evs2 _. change [inl ARestoreResolvers : Action + Signal] with ([inl ARestoreResolvers : Action + Signal] ++ []).
  apply leads_bind; [apply does_call | intros; apply leads_end].
Qed.

(** The loop over the connections when nothing arrives. *)
Lemma does_removeConnections ev d :
  (forall d' evs, advanced d d' evs -> ev d' = (tt, d')) ->
  does (flat_map removal (omap (fun hop => qmap_lookup hop (m_connections d)) allHops)) (removeConnections ev) d.
Proof.
  intros Hev. unfold removeConnections, forConnections.
  replace (flat_map removal (omap (fun hop => qmap_lookup hop (m_connections d)) allHops))
    with (flat_map (fun hop => match qmap_lookup hop (m_connections d) with Some st => removal st | None => [] end) allHops).
  - apply does_forEach. intros hop d' evs [w ->]. unfold does, gets, mbind at 1, ST_bind at 1. cbv beta.
    cbn [m_connections]. set (d' := mkDaemon _ _ _ _ _ _ _).
    assert (Ha : forall d'' evs', advanced d' d'' evs' -> ev d'' = (tt, d'')).
    { intros d'' evs' Ha. apply (Hev d'' (evs ++ evs')). apply (advanced_trans _ d'); [by exists w | exact Ha]. }
    destruct (qmap_lookup hop (m_connections d)) as [st |]; [| apply does_nothing]. unfold removal.
    apply does_bind; [apply does_calls |]. intros _ d1 evs1 Ha1.
    change [inl (ADeletePeer (m_config st)) : Action + Signal] with ([inl (ADeletePeer (m_config st)) : Action + Signal] ++ []).
    apply does_bind; [| intros; apply does_nothing]. apply does_exchange. intros d2 evs2 Ha2.
    apply (Ha d2 (evs1 ++ evs2)). by apply (advanced_trans _ d1).
  - unfold allHops. simpl. by destruct (qmap_lookup SingleHop _), (qmap_lookup MultiHopEntry _), (qmap_lookup MultiHopExit _).
Qed.

Lemma release_plan d :
  exists evs, trace (releaseAll hashOrder d).2 = trace d ++ evs /\ map shape evs = releasePlan d.
Proof.
  unfold releaseAll, releasePlan, gets, mbind, ST_bind.
  destruct (does_calls ADeleteExclusion deleteExclusionRoute (hashOrder (m_excludedAddrSet d)) d) as (evs & [w Hw] & Hs).
  unfold mbind, ST_bind in Hw. destruct (forEach _ _ d) as [u d1]. simpl in Hw. subst d1.
  unfold call, onSys, mbind, ST_bind. simpl. destruct (deleteInterface w) as [r w'].
  exists (evs ++ [Called ADeleteInterface r]). cbn. rewrite app_assoc. split; [done |]. by rewrite map_app, Hs.
Qed.

(** The connections in the order of the iterator. *)
Lemma lookup_all c : conns_ok c -> omap (fun hop => qmap_lookup hop c) allHops = map snd c.
Proof.
  intros [Hs _]. destruct c as [| [h1 s1] c]; [done |]. cbn [map fst] in Hs.
  apply StronglySorted_inv in Hs as [Hs1 Hf1]. destruct c as [| [h2 s2] c]; [by destruct h1 |].
  cbn [map fst] in Hs1, Hf1. apply StronglySorted_inv in Hs1 as [Hs2 Hf2].
  apply Forall_cons in Hf1 as [H12 Hf1]. destruct c as [| [h3 s3] c]; [by destruct h1, h2 |].
  cbn [map fst] in Hs2, Hf1, Hf2. apply StronglySorted_inv in Hs2 as [Hs3 Hf3].
  apply Forall_cons in Hf1 as [H13 Hf1]. apply Forall_cons in Hf2 as [H23 Hf2].
  destruct c as [| [h4 s4] c]; [by destruct h1, h2, h3 |]. exfalso.
  cbn [map fst] in Hf1, Hf2, Hf3. apply Forall_cons in Hf3 as [H34 _]. by destruct h1, h2, h3, h4.
Qed.
End Plans.

(** ** Helpers that always succeed *)

Class Reliable {W} (U : WireguardUtils W) (D : DnsUtils W) (P : Platform W) : Prop := {
  rel_updatePeer : forall c w, (updatePeer c w).1 = true;
  rel_deletePeer : forall c w, (deletePeer c w).1 = true;
  rel_updateResolvers : forall n l w, (updateResolvers n l w).1 = true;
  rel_restoreResolvers : forall w, (restoreResolvers w).1 = true;
  rel_run : forall op c w, (run op c w).1 = true
}.

Section ReliableRuns.
Context {W : Type} `{U : !WireguardUtils W} `{I : !IPUtils W} `{D : !DnsUtils W} `{P : !Platform W} `{Q : Qt}.
Context `{R : !Reliable U D P}.
Variable hashOrder : gmap IPAddress Z -> list IPAddress.

Definition succeeds (m : ST (Daemon W) bool) : Prop := forall d, (m d).1 = true.

Lemma succeeds_bind {A} (m : ST (Daemon W) A) f : (forall a, succeeds (f a)) -> succeeds (m ≫= f).
Proof. intros Hf d. unfold mbind, ST_bind. destruct (m d) as [a d']. apply Hf. Qed.

Lemma succeeds_must m k : succeeds m -> succeeds k -> succeeds (mbind (fun ok : bool => if ok then k else mret false) m).
Proof. intros Hm Hk d. specialize (Hm d). unfold mbind, ST_bind. destruct (m d) as [r d']. simpl in Hm. by rewrite Hm. Qed.

Lemma succeeds_call a m : (forall w, (m w).1 = true) -> succeeds (call a m).
Proof. intros Hm d. specialize (Hm (sys d)). unfold call, onSys, mbind, ST_bind. by destruct (m (sys d)). Qed.

Lemma succeeds_exchange ev a m : (forall w, (m w).1 = true) -> succeeds (exchange ev a m).
Proof.
  intros Hm d. pose proof (succeeds_call a m Hm d) as Hc. unfold exchange, mbind, ST_bind.
  destruct (call a m d) as [r d1]. destruct (ev d1). exact Hc.
Qed.

Lemma switchServer_succeeds ev config d :
  qmap_contains (m_hopType config) (m_connections d) = true -> (switchServer ev config d).1 = true.
Proof.
  unfold qmap_contains, switchServer. intros Hc.
  match goal with |- ((gets ?g ≫= ?f) d).1 = _ => change ((gets g ≫= f) d) with (f (g d) d) end. cbv beta.
  destruct (qmap_lookup _ _) as [st |]; [| done]. clear Hc. revert d.
  match goal with |- forall d, (?m d).1 = true => change (succeeds m) end.
  apply succeeds_bind. intros _. apply succeeds_must; [apply succeeds_exchange, rel_updatePeer |].
  do 3 (apply succeeds_bind; intros _).
  match goal with |- succeeds (?m ≫= _) => assert (Hm : succeeds m) end.
  { destruct (qeqb _ _); [by intros ? | apply succeeds_exchange, rel_deletePeer]. }
  apply (succeeds_must _ (connected config ;; mret true)) in Hm; [exact Hm | by intros ?].
Qed.

Lemma activateSwitch_succeeds ev config d :
  qmap_contains (m_hopType config) (m_connections d) = true -> (activateSwitch ev config d).1 = true.
Proof.
  intros Hc. apply (switchServer_succeeds ev) in Hc. unfold activateSwitch. unfold mbind at 1, ST_bind at 1.
  destruct (switchServer ev config d) as [r d1]. simpl in Hc. subst r. revert d1.
  match goal with |- forall d, (?m d).1 = true => change (succeeds m) end.
  apply succeeds_must; [apply succeeds_call, rel_restoreResolvers |].
  apply succeeds_must.
  - unfold maybeUpdateResolvers. destruct (isExitHop _); [| by intros ?]. apply succeeds_bind. intros n.
    apply succeeds_call, rel_updateResolvers.
  - unfold established. apply succeeds_must; [apply succeeds_call, rel_run | by intros ?].
Qed.

(** A successful switch ends with [run]. *)
Definition endsRun config (m : ST (Daemon W) bool) : Prop :=
  forall d, (m d).1 = true -> exists l, trace (m d).2 = trace d ++ l ++ [Called (ARun Switch config) true]
    /\ Emitted SActivationFailure ∉ l.

Lemma endsRun_must config m k : quiet m -> endsRun config k ->
  endsRun config (mbind (fun ok : bool => if ok then k else mret false) m).
Proof.
  intros Hm Hk d. destruct (Hm d) as (l1 & E1 & N1). unfold mbind, ST_bind. destruct (m d) as [[] d1]; [| done].
  intros Ht. destruct (Hk d1 Ht) as (l2 & E2 & N2). exists (l1 ++ l2). simpl in E1.
  rewrite E2, E1, !app_assoc. split; [done |]. rewrite elem_of_app. tauto.
Qed.

Lemma activateSwitch_ends ev config : quiet ev -> endsRun config (activateSwitch ev config).
Proof.
  intros He. pose proof (quiet_closed ev He) as HP. unfold activateSwitch.
  apply endsRun_must; [apply (closed_switchServer _ _ _ HP) |]. apply endsRun_must; [apply quiet_call |].
  apply endsRun_must; [apply (closed_resolvers _ _ _ HP) |].
  intros d. unfold established, mbind, ST_bind. destruct (call_advanced (ARun Switch config) (run Switch config) d) as [w Hw].
  destruct (call _ _ d) as [[] d1]; [| done]. intros _. simpl in Hw. subst d1. exists [].
  split; [done | apply not_elem_of_nil].
Qed.

Lemma runEvents_0 dateToString (d : Daemon W) : runEvents hashOrder dateToString 0 d = (tt, d).
Proof. cbn [runEvents]. unfold gets, mbind, ST_bind. by destruct (inbox d). Qed.

(** An activation that switches, when nothing else arrives. *)
Lemma switch_runs dateToString n config d :
  qmap_contains (m_hopType config) (m_connections d) = true ->
  supportServerSwitching config (m_connections d) = true -> inbox d = [] ->
  let ev := runEvents hashOrder dateToString 0 in
  let d' := (activate hashOrder ev (S n) config d).2 in
  inbox d' = [] /\ exists l, trace d' = trace d ++ l ++ [Called (ARun Switch config) true]
    /\ Emitted SActivationFailure ∉ l.
Proof.
  intros Hc Hs Hi ev d'.
  assert (He : quiet ev) by (apply quiet_same; intros x; unfold ev; by rewrite runEvents_0).
  assert (Ed : d' = (activateSwitch ev config d).2).
  { unfold d'. rewrite activate_level. pose proof (activateSwitch_succeeds ev config d Hc) as Ht.
    unfold guarded, activateLevel, mbind, ST_bind. rewrite Hc, Hs.
    destruct (activateSwitch ev config d) as [r d1]. simpl in Ht. by subst r. }
  rewrite Ed. split; [| by apply activateSwitch_ends, activateSwitch_succeeds].
  assert (Ha : agree 0 unit ev ev) by (apply runEvents_agree; lia).
  destruct (closed_activateSwitch _ _ _ (agree_closed 0 ev ev Ha) config d) as [_ Hl]; [by rewrite Hi |].
  apply length_zero_iff_nil. lia.
Qed.

(** The loop over the connections when nothing is left to arrive. *)
Lemma removals_quiet dateToString n (hops : list HopType) d :
  inbox d = [] ->
  exists l, trace (forEach (fun hop => c ← gets m_connections;
      match qmap_lookup hop c with
      | Some st => forEach (fun ip => call (ADeleteRoute ip) (deleteRoutePrefix ip) ;; mret tt)
            (m_allowedIPAddressRanges (m_config st)) ;;
          exchange (runEvents hashOrder dateToString n) (ADeletePeer (m_config st)) (deletePeer (m_config st)) ;; mret tt
      | None => mret tt end) hops d).2 = trace d ++ l /\ Emitted SActivationFailure ∉ l.
Proof.
  intros Hi. set (ev := runEvents hashOrder dateToString 0).
  assert (He : quiet ev) by (apply quiet_same; intros x; unfold ev; by rewrite runEvents_0).
  assert (Ha : agree 0 unit (runEvents hashOrder dateToString n) ev) by (apply runEvents_agree; lia).
  pose proof (agree_closed 0 _ _ Ha) as HP.
  match goal with |- exists l, trace (forEach ?f hops d).2 = _ /\ _ =>
    destruct (closed_forEach _ _ _ HP f (fun hop => c ← gets m_connections;
      match qmap_lookup hop c with
      | Some st => forEach (fun ip => call (ADeleteRoute ip) (deleteRoutePrefix ip) ;; mret tt)
            (m_allowedIPAddressRanges (m_config st)) ;;
          exchange ev (ADeletePeer (m_config st)) (deletePeer (m_config st)) ;; mret tt
      | None => mret tt end) hops) with (d := d) as [E _] end; [| by rewrite Hi |].
  - intros hop. apply agree_bind; [by apply agree_same | intros c]. destruct (qmap_lookup hop c); [| by apply agree_same].
    apply agree_bind; [| intros _; apply agree_bind; [by apply (closed_exchange _ _ _ HP) | intros _; by apply agree_same]].
    apply (closed_forEach _ _ _ HP). intros ip. apply agree_bind; [apply agree_same, call_inbox | intros _; by apply agree_same].
  - rewrite E. apply quiet_teardown. intros st. by apply quiet_removal.
Qed.

(** An exchange during which an activation arrives. *)
Lemma lost_exchange dateToString config st rest a m d :
  m_connections d = (SingleHop, st) :: rest -> inbox d = [[CActivate config]] ->
  m_hopType config = SingleHop -> supportServerSwitching config ((SingleHop, st) :: rest) = true ->
  let d' := (exchange (runEvents hashOrder dateToString 1) a m d).2 in
  inbox d' = [] /\ exists l, trace d' = trace d ++ l
    /\ Called (ARun Switch config) true ∈ l /\ Emitted SActivationFailure ∉ l.
Proof.
  intros Hm Hi Hhop Hsup d'. unfold exchange in d'. destruct (call_advanced a m d) as [w Hw].
  set (d3 := mkDaemon (m_connections d) (m_excludedAddrSet d) (m_handshakeTimer d) (m_deactivating d) []
    (trace d ++ [Called a (call a m d).1]) w).
  assert (E : d' = (activate hashOrder (runEvents hashOrder dateToString 0) 2 config d3).2).
  { unfold d', mbind, ST_bind. destruct (call a m d) as [r d1]. simpl in Hw. subst d1.
    cbn [runEvents]. unfold gets, mbind, ST_bind. cbn [inbox]. rewrite Hi.
    unfold setInbox, modify. cbn [m_connections m_excludedAddrSet m_handshakeTimer m_deactivating trace sys forEach exec].
    unfold mbind, ST_bind. cbn [fst] in d3. fold d3.
    by destruct (activate _ _ 2 config d3). }
  destruct (switch_runs dateToString 1 config d3) as (Hi' & l & Et & N).
  - unfold d3. cbn. by rewrite Hhop, Hm.
  - unfold d3. cbn. by rewrite Hm.
  - done.
  - rewrite E. split; [exact Hi' |]. exists (Called a (call a m d).1 :: l ++ [Called (ARun Switch config) true]).
    rewrite Et. unfold d3. cbn [trace]. rewrite <- !app_assoc. split; [done |].
    rewrite !elem_of_cons, !elem_of_app, !list_elem_of_singleton. split; [tauto |].
    intros [? | [? | ?]]; [discriminate | tauto | discriminate].
Qed.

(** The removal of the connections, with an activation that arrives during the
    first exchange. *)
Lemma lost_removals dateToString config st rest d1 d' :
  m_connections d1 = (SingleHop, st) :: rest -> inbox d1 = [[CActivate config]] ->
  m_hopType config = SingleHop -> supportServerSwitching config ((SingleHop, st) :: rest) = true ->
  d' = ((removeConnections (runEvents hashOrder dateToString 1) ;; releaseAll hashOrder) d1).2 ->
  exists d2 l, d' = (releaseAll hashOrder d2).2 /\ trace d2 = trace d1 ++ l
    /\ Called (ARun Switch config) true ∈ l /\ Emitted SActivationFailure ∉ l.
Proof.
  intros Hm Hi Hhop Hsup ->. unfold removeConnections, forConnections. cbn [allHops forEach].
  destruct (does_calls ADeleteRoute deleteRoutePrefix (m_allowedIPAddressRanges (m_config st)) d1) as (e2 & [w2 Hw2] & Hs2).
  unfold gets, mbind, ST_bind. rewrite Hm. cbn [qmap_lookup kcompare HopType_KeyOrder hopCompare].
  unfold mbind, ST_bind in Hw2. destruct (forEach _ (m_allowedIPAddressRanges (m_config st)) d1) as [u2 d2].
  simpl in Hw2. subst d2. set (d2 := mkDaemon _ _ _ _ _ _ _).
  destruct (lost_exchange dateToString config st rest (ADeletePeer (m_config st)) (deletePeer (m_config st)) d2)
    as (Hi3 & l3 & E3 & Hin & N3); try done.
  destruct (exchange _ (ADeletePeer (m_config st)) (deletePeer (m_config st)) d2) as [r3 d3]. cbn [fst snd] in Hi3, E3.
  destruct (removals_quiet dateToString 1 [MultiHopEntry; MultiHopExit] d3 Hi3) as (l4 & E4 & N4).
  match goal with |- context [let '(_, s') := ?X in releaseAll hashOrder s'] =>
    match type of E4 with trace (?Y).2 = _ => change X with Y; destruct Y as [u4 d4] end end.
  exists d4, (e2 ++ l3 ++ l4). cbn [snd] in E4 |- *. rewrite E4, E3. unfold d2. cbn [trace].
  rewrite !app_assoc. split; [done |]. split; [done |].
  assert (N2 : Emitted SActivationFailure ∉ e2).
  { intros Hx. apply (list_elem_of_fmap_2 shape) in Hx. change (shape <$> e2) with (map shape e2) in Hx.
    rewrite Hs2 in Hx. apply list_elem_of_In, in_map_iff in Hx as (ip & Hx & _). discriminate. }
  rewrite !elem_of_app. tauto.
Qed.
End ReliableRuns.

(** ** Switching servers *)

Section Switching.
Context {W : Type} `{U : !WireguardUtils W} `{I : !IPUtils W} `{D : !DnsUtils W} `{P : !Platform W} `{Q : Qt}.

Definition cnt (e : gmap IPAddress Z) (p : IPAddress) : Z := default 0 (e !! p).
Definition count (p : IPAddress) (d : Daemon W) : Z := cnt (m_excludedAddrSet d) p.
(** How often a list of texts names a network. *)
Definition named (p : IPAddress) (l : list QString) : Z :=
  Z.of_nat (length (List.filter (fun i => bool_decide (ofString (qdata i) = p)) l)).

Lemma cnt_insert e q n p : cnt (<[q := n]> e) p = if bool_decide (q = p) then n else cnt e p.
Proof.
  unfold cnt. case_bool_decide as E; [subst q; by rewrite lookup_insert_eq | by rewrite lookup_insert_ne].
Qed.
Lemma cnt_delete e q p : cnt (delete q e) p = if bool_decide (q = p) then 0 else cnt e p.
Proof.
  unfold cnt. case_bool_decide as E; [subst q; by rewrite lookup_delete_eq | by rewrite lookup_delete_ne].
Qed.

(** None of the calls in [B] is made. *)
Definition avoids (B : Action -> Prop) (evs : list Event) : Prop := forall a r, B a -> Called a r ∉ evs.

Lemma avoids_nil B : avoids B [].
Proof. intros a r _. apply not_elem_of_nil. Qed.

Lemma avoids_app B l1 l2 : avoids B l1 -> avoids B l2 -> avoids B (l1 ++ l2).
Proof. intros H1 H2 a r Ha Hr. apply elem_of_app in Hr as [Hr | Hr]; [by apply (H1 a r) | by apply (H2 a r)]. Qed.

Lemma avoids_one B a r : ~ B a -> avoids B [Called a r].
Proof. intros Ha a' r' Hb. rewrite list_elem_of_singleton. by intros [= -> _]. Qed.

(** From [d] to [d'] the counts change by [delta], the connections are the same
    and no call of [B] is made. *)
Definition shifts (B : Action -> Prop) (delta : IPAddress -> Z) (d d' : Daemon W) : Prop :=
  (forall p, count p d' = count p d + delta p)
  /\ m_connections d' = m_connections d /\ inbox d' = inbox d
  /\ exists evs, trace d' = trace d ++ evs /\ avoids B evs.

Lemma shifts_refl B d : shifts B (fun _ => 0) d d.
Proof.
  split; [intros p; lia |]. do 2 (split; [done |]). exists []. rewrite app_nil_r. split; [done | apply avoids_nil].
Qed.

Lemma shifts_trans B f g h d d' d'' :
  shifts B f d d' -> shifts B g d' d'' -> (forall p, h p = f p + g p) -> shifts B h d d''.
Proof.
  intros (H1 & C1 & I1 & e1 & T1 & N1) (H2 & C2 & I2 & e2 & T2 & N2) Hh. split.
  - intros p. rewrite H2, H1, Hh. lia.
  - split; [congruence |]. split; [congruence |]. exists (e1 ++ e2). rewrite T2, T1, app_assoc. split; [done |].
    by apply avoids_app.
Qed.

Lemma call_shifts B a m d : ~ B a -> shifts B (fun _ => 0) d (call a m d).2.
Proof.
  intros Ha. destruct (call_advanced a m d) as [w ->]. split; [intros p; unfold count; simpl; lia |].
  do 2 (split; [done |]). eexists. split; [done | by apply avoids_one].
Qed.

(** A loop of calls that skips some of the elements. *)
Lemma calls_shift {X} B (g : X -> bool) (a : X -> Action) (m : X -> ST W bool) l d :
  (forall x, g x = false -> ~ B (a x)) ->
  shifts B (fun _ => 0) d (forEach (fun x => if g x then mret tt else call (a x) (m x) ;; mret tt) l d).2.
Proof.
  intros Hb. revert d. induction l as [| x l IH]; intros d; [apply shifts_refl |]. cbn [forEach].
  unfold mbind, ST_bind in *. destruct (g x) eqn:Eg; [apply IH |].
  - pose proof (call_shifts B (a x) (m x) d (Hb x Eg)) as H1. destruct (call _ _ d) as [r d1].
    cbn [snd mret ST_ret] in *. eapply shifts_trans; [exact H1 | apply IH | done].
Qed.

Lemma switchRoutes_shift B l d : (forall ip, ~ B (AUpdateRoute ip)) ->
  shifts B (fun _ => 0) d (switchRoutes l d).2.
Proof.
  intros Hb. revert d. induction l as [| ip l IH]; intros d; [apply shifts_refl |]. cbn [switchRoutes].
  unfold mbind, ST_bind in *. pose proof (call_shifts B (AUpdateRoute ip) (updateRoutePrefix ip) d (Hb ip)) as H1.
  destruct (call _ _ d) as [[] d1]; [| exact H1]. cbn [snd] in H1.
  eapply shifts_trans; [exact H1 | apply IH | done].
Qed.

Lemma add_shifts B q d : (forall p w, (addExclusionRoute p w).1 = true) -> ~ B (AAddExclusion q) ->
  shifts B (fun p => if bool_decide (q = p) then 1 else 0) d (Daemon_addExclusionRoute q d).2.
Proof.
  intros Hadd Hb. unfold Daemon_addExclusionRoute, gets, mbind at 1, ST_bind at 1.
  destruct (m_excludedAddrSet d !! q) as [n |] eqn:Eq.
  - split; [| do 2 (split; [done |]); exists []; rewrite app_nil_r; split; [done | apply avoids_nil]].
    intros p. change (cnt (<[q := n + 1]> (m_excludedAddrSet d)) p = count p d + if bool_decide (q = p) then 1 else 0).
    rewrite cnt_insert. unfold count. case_bool_decide as E; [| lia]. subst q. unfold cnt. by rewrite Eq.
  - destruct (call_advanced (AAddExclusion q) (addExclusionRoute q) d) as [w Hw].
    assert (Ht : (call (AAddExclusion q) (addExclusionRoute q) d).1 = true).
    { specialize (Hadd q (sys d)). unfold call, onSys, mbind, ST_bind. by destruct (addExclusionRoute q (sys d)). }
    unfold mbind, ST_bind. destruct (call _ _ d) as [ok d1]. simpl in Hw, Ht. subst d1 ok.
    split; [| do 2 (split; [done |]); eexists; split; [done | by apply avoids_one]].
    intros p. change (cnt (<[q := 1]> (m_excludedAddrSet d)) p = count p d + if bool_decide (q = p) then 1 else 0).
    rewrite cnt_insert. unfold count. case_bool_decide as E; [| lia]. subst q. unfold cnt. by rewrite Eq.
Qed.

Lemma del_shifts B q d : 1 <= count q d -> (B (ADeleteExclusion q) -> 1 < count q d) ->
  shifts B (fun p => if bool_decide (q = p) then -1 else 0) d (delExclusionRoute q d).2.
Proof.
  intros Hq Ha. unfold delExclusionRoute, gets, mbind, ST_bind. fold (cnt (m_excludedAddrSet d) q). fold (count q d).
  destruct (count q d >? 1) eqn:E1; zbool.
  - split; [| do 2 (split; [done |]); exists []; rewrite app_nil_r; split; [done | apply avoids_nil]].
    intros p. change (cnt (<[q := count q d - 1]> (m_excludedAddrSet d)) p = count p d + if bool_decide (q = p) then -1 else 0).
    rewrite cnt_insert. unfold count. case_bool_decide as E; [subst q |]; lia.
  - unfold excluded, modify. destruct (call_advanced (ADeleteExclusion q) (deleteExclusionRoute q)
      (mkDaemon (m_connections d) (delete q (m_excludedAddrSet d)) (m_handshakeTimer d) (m_deactivating d)
        (inbox d) (trace d) (sys d))) as [w ->]. split.
    + intros p. change (cnt (delete q (m_excludedAddrSet d)) p = count p d + if bool_decide (q = p) then -1 else 0).
      rewrite cnt_delete. unfold count in *. case_bool_decide as E; [subst q |]; lia.
    + do 2 (split; [done |]). eexists. split; [done |]. apply avoids_one. intros Hb. specialize (Ha Hb). lia.
Qed.

Lemma named_cons p i l :
  named p (i :: l) = (if bool_decide (ofString (qdata i) = p) then 1 else 0) + named p l.
Proof. unfold named. cbn [List.filter]. destruct (bool_decide _); simpl length; lia. Qed.

Lemma adds_shift B l d : (forall p w, (addExclusionRoute p w).1 = true) -> (forall p, ~ B (AAddExclusion p)) ->
  shifts B (fun p => named p l) d (forEach (fun i => Daemon_addExclusionRoute (ofString (qdata i)) ;; mret tt) l d).2.
Proof.
  intros Hadd Hb. revert d. induction l as [| i l IH]; intros d; [apply shifts_refl |]. cbn [forEach].
  unfold mbind, ST_bind in *. pose proof (add_shifts B (ofString (qdata i)) d Hadd (Hb _)) as H1.
  destruct (Daemon_addExclusionRoute _ d) as [r d1]. cbn [snd mret ST_ret] in *.
  eapply shifts_trans; [exact H1 | apply IH | intros p; apply named_cons].
Qed.

Lemma dels_shift B l d : (forall p, named p l <= count p d) ->
  (forall p, B (ADeleteExclusion p) -> named p l < count p d) ->
  shifts B (fun p => - named p l) d (forEach (fun i => delExclusionRoute (ofString (qdata i)) ;; mret tt) l d).2.
Proof.
  revert d. induction l as [| i l IH]; intros d Hle Hlt; [apply shifts_refl |]. cbn [forEach].
  unfold mbind, ST_bind in *. set (q := ofString (qdata i)).
  assert (Hn : forall p, 0 <= named p l) by (intros p; unfold named; lia).
  assert (H1 : shifts B (fun p => if bool_decide (q = p) then -1 else 0) d (delExclusionRoute q d).2).
  { specialize (Hle q). specialize (Hlt q). specialize (Hn q). rewrite named_cons in Hle, Hlt. fold q in Hle, Hlt.
    rewrite bool_decide_eq_true_2 in Hle, Hlt by done. apply del_shifts; [lia |]. intros Ha. specialize (Hlt Ha). lia. }
  destruct (delExclusionRoute q d) as [r d1]. cbn [snd mret ST_ret] in *.
  eapply shifts_trans; [exact H1 | apply IH |]; intros p.
  - specialize (Hle p). rewrite (proj1 H1). rewrite named_cons in Hle. fold q in Hle. case_bool_decide; lia.
  - intros Ha. specialize (Hlt p Ha). rewrite (proj1 H1). rewrite named_cons in Hlt. fold q in Hlt. case_bool_decide; lia.
  - rewrite named_cons. fold q. case_bool_decide; lia.
Qed.

(** A switch during which nothing else arrives, up to the new connection. *)
Lemma switch_shift (hashOrder : gmap IPAddress Z -> list IPAddress) dateToString config (d : Daemon W) st B :
  qmap_lookup (m_hopType config) (m_connections d) = Some st ->
  (forall p w, (addExclusionRoute p w).1 = true) ->
  (forall p, named p (m_excludedAddresses (m_config st)) <= count p d) ->
  (forall a, B a -> match a with
     | ADeleteExclusion p =>
         0 < count p d + named p (m_excludedAddresses config) - named p (m_excludedAddresses (m_config st))
     | ADeleteRoute ip => ip ∈ m_allowedIPAddressRanges config
     | _ => False end) ->
  let r := switchServer (runEvents hashOrder dateToString 0) config d in
  r.1 = true ->
  exists d6, shifts B (fun p => named p (m_excludedAddresses config)
      - named p (m_excludedAddresses (m_config st))) d d6 /\ r.2 = (connected config d6).2.
Proof.
  intros Hst Hadd Hold HB r Ht. unfold r, switchServer in *.
  match goal with |- context [(gets ?g ≫= ?f) d] => change ((gets g ≫= f) d) with (f (g d) d) in Ht |- * end.
  cbv beta in Ht |- *. rewrite Hst in Ht |- *. unfold exchange, mbind, ST_bind in Ht |- *.
  pose proof (adds_shift B (m_excludedAddresses config) d Hadd (fun p Hb => HB _ Hb)) as H1.
  unfold mbind, ST_bind in H1. destruct (forEach _ (m_excludedAddresses config) d) as [u1 d1]. cbn [snd] in H1.
  pose proof (call_shifts B (AUpdatePeer config) (updatePeer config) d1 (HB _)) as H2.
  destruct (call (AUpdatePeer config) _ d1) as [[] d2]; [| by rewrite runEvents_0 in Ht]. cbn [snd] in H2.
  rewrite runEvents_0 in Ht |- *. cbn [mret ST_ret] in Ht |- *.
  pose proof (switchRoutes_shift B (m_allowedIPAddressRanges config) d2 (fun ip Hb => HB _ Hb)) as H3.
  destruct (switchRoutes _ d2) as [u3 d3]. cbn [snd] in H3.
  pose proof (shifts_trans _ _ _ _ _ _ _ (shifts_trans _ _ _ _ _ _ _ H1 H2 (fun p => eq_refl)) H3 (fun p => eq_refl)) as H123.
  assert (H4 : shifts B (fun p => - named p (m_excludedAddresses (m_config st))) d3
    (forEach (fun i => delExclusionRoute (ofString (qdata i)) ;; mret tt) (m_excludedAddresses (m_config st)) d3).2).
  { apply dels_shift; intros p; rewrite (proj1 H123); pose proof (Hold p);
      assert (0 <= named p (m_excludedAddresses config)) by (unfold named; lia); [lia |].
    intros Hb. specialize (HB _ Hb). simpl in HB. lia. }
  unfold mbind, ST_bind in H4. destruct (forEach _ (m_excludedAddresses (m_config st)) d3) as [u4 d4]. cbn [snd] in H4.
  pose proof (calls_shift B (fun ip => bool_decide (ip ∈ m_allowedIPAddressRanges config)) ADeleteRoute deleteRoutePrefix
    (m_allowedIPAddressRanges (m_config st)) d4) as H5.
  unfold mbind, ST_bind in H5. destruct (forEach _ (m_allowedIPAddressRanges (m_config st)) d4) as [u5 d5]. cbn [snd] in H5.
  assert (H6 : shifts B (fun p => named p (m_excludedAddresses config) - named p (m_excludedAddresses (m_config st))) d d5).
  { eapply shifts_trans; [exact H123 | eapply shifts_trans; [exact H4 | apply H5 | intros p; cbn; reflexivity] |].
    - intros ip Hip Hb. specialize (HB _ Hb). simpl in HB. by apply bool_decide_eq_false in Hip.
    - intros p. cbn. lia. }
  clear H1 H2 H3 H4 H5 H123. destruct (qeqb _ _); cbn [mret ST_ret] in Ht |- *; [by exists d5 |].
  pose proof (call_shifts B (ADeletePeer (m_config st)) (deletePeer (m_config st)) d5 (HB _)) as H7.
  destruct (call (ADeletePeer _) _ d5) as [[] d7]; cbn [snd] in H7; rewrite runEvents_0 in Ht |- *; [| done].
  exists d7. split; [| done]. eapply shifts_trans; [exact H6 | exact H7 | intros p; cbn; lia].
Qed.
End Switching.

(** ** Handshakes *)

Section Handshakes.
Variable peers : list PeerStatus.

(** A peer whose handshake completes a connection. *)
Definition completes (conn : ConnectionState) (p : PeerStatus) : Prop :=
  p ∈ peers /\ qeqb (m_serverPublicKey (m_config conn)) (m_pubkey p) = true /\ m_handshake p <> 0.

Lemma handshakes_spec conn p : p ∈ handshakes (m_serverPublicKey (m_config conn)) peers <-> completes conn p.
Proof.
  unfold handshakes, completes. rewrite !list_elem_of_In, filter_In, andb_true_iff, negb_true_iff, Z.eqb_neq. tauto.
Qed.

Lemma last_date l o :
  fold_left (fun _ (st : PeerStatus) => Some (m_handshake st)) l o =
  match last l with Some st => Some (m_handshake st) | None => o end.
Proof. revert o. induction l as [| a l IH]; intros o; [done |]. cbn [fold_left]. rewrite IH, last_cons. by destruct (last l). Qed.

(** The date of a connection before and after a pass. *)
Definition dated (hc hc' : HopType * ConnectionState) : Prop :=
  hc'.1 = hc.1 /\ m_config hc'.2 = m_config hc.2
  /\ match m_date hc.2, m_date hc'.2 with
     | Some t, o => o = Some t
     | None, Some t => exists p, completes hc.2 p /\ m_handshake p = t
     | None, None => forall p, ~ completes hc.2 p
     end.

Lemma handshakePass_spec c :
  let '(c', out, pending) := handshakePass peers c in
  Forall2 dated c c'
  /\ (forall k, k ∈ out <-> exists hc p, hc ∈ c /\ m_date hc.2 = None /\ completes hc.2 p /\ m_pubkey p = k)
  /\ 0 <= pending /\ (0 < pending <-> exists hc, hc ∈ c' /\ m_date hc.2 = None).
Proof.
  induction c as [| [h conn] c IH]; cbn [handshakePass].
  { split; [constructor |]. split; [| split; [lia |]].
    - intros k. split; [by intros ?%elem_of_nil |]. intros (hc & p & Hhc & _). by apply elem_of_nil in Hhc.
    - split; [lia |]. intros (hc & Hhc & _). by apply elem_of_nil in Hhc. }
  destruct (handshakePass peers c) as [[c1 out] pending]. destruct IH as (Hd & Ho & Hp & Hq).
  destruct (m_date conn) as [t |] eqn:Et.
  - split; [constructor; [| done]; do 2 (split; [done |]); cbn; by rewrite Et |].
    split; [| split; [done |]].
    + intros k. rewrite Ho. split; intros (hc & p & Hin & Hr); exists hc, p; (split; [| exact Hr]).
      * by right.
      * apply elem_of_cons in Hin as [-> | Hin]; [| done]. destruct Hr as [Hr _]. cbn in Hr. congruence.
    + rewrite Hq. split; intros (hc & Hin & Hr); exists hc; (split; [| exact Hr]); [by right |].
      apply elem_of_cons in Hin as [-> | Hin]; [cbn in Hr; congruence | done].
  - set (done := handshakes _ peers). rewrite last_date.
    assert (Hone : dated (h, conn) (h, mkConn (match last done with Some st => Some (m_handshake st) | None => None end) (m_config conn))).
    { do 2 (split; [reflexivity |]). cbn. rewrite Et. destruct (last done) as [p |] eqn:El.
      - exists p. split; [| reflexivity]. apply handshakes_spec. apply last_Some_elem_of in El. exact El.
      - apply last_None in El. intros p Hp'. apply handshakes_spec in Hp'. unfold done in El. rewrite El in Hp'.
        by apply elem_of_nil in Hp'. }
    split; [by constructor |]. split; [| split].
    + intros k. rewrite elem_of_app, Ho. split.
      * intros [Hk | (hc & p & Hin & Hr)]; [| exists hc, p; split; [by right | exact Hr]].
        apply list_elem_of_In, in_map_iff in Hk as (p & <- & Hp'). apply list_elem_of_In, handshakes_spec in Hp'.
        exists (h, conn), p. split; [by left | done].
      * intros (hc & p & Hin & H1 & H2 & <-). apply elem_of_cons in Hin as [-> | Hin].
        -- left. apply list_elem_of_In, in_map, list_elem_of_In. by apply handshakes_spec.
        -- right. by exists hc, p.
    + destruct (last done); lia.
    + split.
      * intros Hpos. destruct (last done) eqn:El.
        -- rewrite Z.add_0_r in Hpos. apply Hq in Hpos as (hc & Hin & Hr). exists hc. split; [by right | done].
        -- eexists. split; [left |]. done.
      * intros (hc & Hin & Hr). apply elem_of_cons in Hin as [-> | Hin].
        -- cbn in Hr. destruct (last done); [done | lia].
        -- assert (0 < pending) by (apply Hq; by exists hc). destruct (last done); lia.
Qed.
End Handshakes.

Lemma emits_trace {W} l (x : Daemon W) :
  (forEach (fun k => emit (SConnected k)) l x).2 =
    mkDaemon (m_connections x) (m_excludedAddrSet x) (m_handshakeTimer x) (m_deactivating x) (inbox x)
      (trace x ++ map (fun k => Emitted (SConnected k)) l) (sys x).
Proof.
  revert x. induction l as [| k l IH]; intros x; [cbn; rewrite app_nil_r; by destruct x |]. cbn [forEach].
  unfold mbind, ST_bind, emit, record, modify in *. rewrite IH. cbn. by rewrite <- app_assoc.
Qed.

(** ** Parsing *)

Section Parsing.
Context `{Q : Qt}.

Lemma parseRanges_spec l nets : parseRanges l = Some nets -> Forall2 (fun i n => parseRange i = Some n) l nets.
Proof.
  revert nets. induction l as [| i l IH]; intros nets; cbn [parseRanges]; [intros [= <-]; constructor |].
  destruct (parseRange i) as [n |] eqn:En; [| done]. destruct (parseRanges l) as [ns |]; [| done].
  intros [= <-]. constructor; [done | by apply IH].
Qed.

Lemma parseRange_spec i n : parseRange i = Some n ->
  exists m a q b, i = JObject m /\ m !! "address"%string = Some (JString a) /\ m !! "range"%string = Some (JDouble q)
    /\ m !! "isIpv6"%string = Some (JBool b) /\ n = ofHostPrefix (parseHost (qdata a)) (toIntJ (Some (JDouble q))).
Proof.
  destruct i; try done. cbn [parseRange]. unfold value, isString, isDouble, isBool, toString.
  destruct (m !! "address"%string) as [[] |] eqn:E1; try done.
  destruct (m !! "range"%string) as [[] |] eqn:E2; try done.
  destruct (m !! "isIpv6"%string) as [[] |] eqn:E3; try done. intros [= <-]. by eexists _, _, _, _.
Qed.

Lemma infix_front {A} (x h r : list A) :
  (exists b a, r = b ++ x ++ a) -> exists b a, h ++ r = b ++ x ++ a.
Proof. intros (b & a & ->). exists (h ++ b), a. by rewrite app_assoc. Qed.

(** What a configuration that parses has read. *)
Lemma parseConfig_reads sort obj c : parseConfig sort obj = Some c ->
  exists l nets, value obj "allowedIPAddressRanges" = Some (JArray l) /\ parseRanges l = Some nets
    /\ m_allowedIPAddressRanges c = sort nets /\ m_junk c = parseJunk obj
    /\ value obj "privateKey" = Some (JString (m_privateKey c))
    /\ value obj "serverPublicKey" = Some (JString (m_serverPublicKey c))
    /\ isNull (m_deviceIpv4Address c) && isNull (m_deviceIpv6Address c) = false
    /\ isNull (m_serverIpv4AddrIn c) && isNull (m_serverIpv6AddrIn c) = false
    /\ m_deviceIpv4Address c = toString (value obj "deviceIpv4Address").
Proof.
  unfold parseConfig, getString, mbind, option_bind. intros Hc.
  repeat match type of Hc with
  | (match ?x with _ => _ end) = Some _ => destruct x eqn:?; try discriminate Hc
  | (if ?x then _ else _) = Some _ => destruct x eqn:?; try discriminate Hc
  end.
  injection Hc as <-.
  repeat match goal with H : match value obj ?k with _ => _ end = Some _ |- _ =>
    destruct (value obj k) as [[] |] eqn:?; try discriminate H end.
  simplify_eq. eexists _, _. 
  repeat (split; [first [reflexivity | eassumption] |]). reflexivity.
Qed.
End Parsing.

(** ** Properties *)

(** C22 (termination): [activate] ends, and tells how it ended.  Whatever arrives
    while it waits, its recursion is at most two deep; when it succeeds the
    connection is registered, the handshake timer runs and the last thing it
    did was [run]; when it fails the last thing it did was to emit
    [activationFailure].  When the commands that arrive meanwhile fail no
    activation of their own, a call that succeeds emits no
    [activationFailure]. *)
Theorem activate_outcome {W} `{U : !WireguardUtils W} `{I : !IPUtils W} `{D : !DnsUtils W} `{P : !Platform W} `{Q : Qt}
  (hashOrder : gmap IPAddress Z -> list IPAddress) (ev : ST (Daemon W) unit) (n : nat)
  (config : InterfaceConfig) (d : Daemon W) :
  let r := activate hashOrder ev (S (S n)) config d in
  r = activate hashOrder ev 2 config d
  /\ match r.1 with
     | Some true => exists op t, op <> Down /\ trace r.2 = t ++ [Called (ARun op config) true]
         /\ qmap_lookup (m_hopType config) (m_connections r.2) = Some (mkConn None config)
         /\ m_handshakeTimer r.2 = true
     | Some false => exists t, trace r.2 = t ++ [Emitted SActivationFailure]
     | None => False
     end
  /\ (quiet ev -> r.1 = Some true -> exists l, trace r.2 = trace d ++ l /\ Emitted SActivationFailure ∉ l).
Proof.
  intros r.
  assert (Ho : outcome config r).
  { unfold r. rewrite activate_level. apply level_outcome. intros _ d1 Hc. rewrite activate_fresh by done.
    rewrite activate_level. apply level_outcome. by rewrite Hc. }
  pose proof (fun He => activate_quiet hashOrder ev (S (S n)) config d He) as Hq. fold r in Hq.
  split; [apply activate_deep |]. split; [| exact Hq]. unfold outcome in Ho.
  destruct r as [[[] |] d']; [| exact Ho | done]. cbn [fst snd] in *.
  destruct Ho as (op & Hop & Hl & Ht & t & E). by exists op, t.
Qed.


(** The event loop nests no deeper than the batches that
    arrive: more fuel gives the same run, and what is left has not grown. *)
Theorem command_total {W} `{U : !WireguardUtils W} `{I : !IPUtils W} `{D : !DnsUtils W} `{P : !Platform W}
  `{Q : Qt} (hashOrder : gmap IPAddress Z -> list IPAddress) (dateToString : option Z -> QString)
  (cmd : Cmd) (d : Daemon W) (n : nat) :
  exec hashOrder dateToString (runEvents hashOrder dateToString (length (inbox d) + n)) cmd d
    = command hashOrder dateToString cmd d
  /\ (length (inbox (command hashOrder dateToString cmd d).2) <= length (inbox d))%nat.
Proof.
  unfold command. set (k := length (inbox d)).
  assert (He : agree k unit (runEvents hashOrder dateToString k) (runEvents hashOrder dateToString (k + n)))
    by (apply runEvents_agree; lia).
  destruct (closed_exec hashOrder dateToString _ _ _ (agree_closed k _ _ He) cmd) with (d := d) as [E Hl]; try done.
  - intros b. by apply agree_deactivate.
  - by apply agree_checkHandshake.
Qed.

(** [deactivate] gives up nothing.  When no other command
    arrives, it runs the down script, announces the disconnection, restores
    the resolvers, removes every route and the peer of every connection in
    order, then every exclusion route, then the interface: always all of it,
    whichever of these calls fail. *)
Theorem deactivate_plan {W} `{U : !WireguardUtils W} `{I : !IPUtils W} `{D : !DnsUtils W} `{P : !Platform W}
  `{Q : Qt} (hashOrder : gmap IPAddress Z -> list IPAddress) (dateToString : option Z -> QString)
  (d : Daemon W) (b : bool)
  (Hc : conns_ok (m_connections d)) (Hb : m_deactivating d = false) (Hi : inbox d = []) :
  map shape (trace (command hashOrder dateToString (CDeactivate b) d).2) = map shape (trace d)
    ++ (match m_connections d with (_, st) :: _ => [inl (ARun Down (m_config st))] | [] => [] end
        ++ (if b then [inr SDisconnected] else []) ++ [inl ARestoreResolvers])
    ++ flat_map (fun hc =>
         map (fun ip => inl (ADeleteRoute ip)) (m_allowedIPAddressRanges (m_config hc.2))
         ++ [inl (ADeletePeer (m_config hc.2))]) (m_connections d)
    ++ map (fun p => inl (ADeleteExclusion p)) (hashOrder (m_excludedAddrSet d))
    ++ [inl ADeleteInterface].
Proof.
  unfold command. rewrite Hi. cbn [length]. set (ev := runEvents hashOrder dateToString 0).
  destruct (deactivate_stops hashOrder ev b d Hb) as (d1 & e1 & Ha1 & Hs1 & E).
  assert (Hev : forall d' evs, advanced d1 d' evs -> ev d' = (tt, d')).
  { intros d' evs [w ->]. destruct Ha1 as [w1 ->]. unfold ev. cbn. by rewrite Hi. }
  destruct (does_removeConnections ev d1 Hev) as (e2 & Ha2 & Hs2).
  assert (Hm : m_connections d1 = m_connections d /\ m_excludedAddrSet d1 = m_excludedAddrSet d
    /\ trace d1 = trace d ++ e1) by (by destruct Ha1 as [w1 ->]).
  destruct Hm as (Hm1 & Hm2 & Hm3). rewrite Hm1, lookup_all in Hs2 by done.
  unfold exec, mbind, ST_bind. rewrite E. unfold mbind, ST_bind.
  destruct (removeConnections ev d1) as [u d2]. simpl in Ha2.
  destruct (release_plan hashOrder d2) as (e3 & Et & Hs3).
  destruct (releaseAll hashOrder d2) as [r d3]. simpl in Et |- *. rewrite Et. destruct Ha2 as [w2 ->].
  cbn [trace]. rewrite Hm3, !map_app, Hs1, Hs2, Hs3. unfold releasePlan. cbn [m_excludedAddrSet]. rewrite Hm2.
  rewrite <- !app_assoc. unfold stopPlan. rewrite <- !app_assoc. do 4 f_equal.
  rewrite flat_map_concat_map, map_map, <- flat_map_concat_map. done.
Qed.

(** An activation can be lost in a deactivation.  When the client's
    request to switch to another server of the same tunnel arrives while
    [deactivate] waits for the first peer to be removed, and no helper fails,
    the activation succeeds ([run] is called, no [activationFailure] is
    emitted) although the deactivation then forgets every connection and
    removes the interface. *)
Theorem activation_lost {W} `{U : !WireguardUtils W} `{I : !IPUtils W} `{D : !DnsUtils W} `{P : !Platform W}
  `{Q : Qt} `{R : !Reliable U D P} (hashOrder : gmap IPAddress Z -> list IPAddress)
  (dateToString : option Z -> QString) (d : Daemon W) (b : bool) (config : InterfaceConfig)
  (st : ConnectionState) (rest : list (HopType * ConnectionState))
  (Hb : m_deactivating d = false) (Hi : inbox d = [[CActivate config]])
  (Hm : m_connections d = (SingleHop, st) :: rest) (Hhop : m_hopType config = SingleHop)
  (Hsup : supportServerSwitching config (m_connections d) = true) :
  let d' := (command hashOrder dateToString (CDeactivate b) d).2 in
  m_connections d' = []
  /\ exists l r, trace d' = trace d ++ l ++ [Called ADeleteInterface r]
     /\ Called (ARun Switch config) true ∈ l /\ Emitted SActivationFailure ∉ l.
Proof.
  intros d'. set (ev := runEvents hashOrder dateToString 1).
  assert (Ed : d' = (deactivate hashOrder ev b d).2).
  { unfold d', command. rewrite Hi. cbn [length exec]. fold ev. unfold mbind, ST_bind. by destruct (deactivate _ _ _ d). }
  destruct (deactivate_stops hashOrder ev b d Hb) as (d1 & e1 & Ha1 & Hs1 & E).
  assert (N1 : Emitted SActivationFailure ∉ e1).
  { intros Hin. apply (list_elem_of_fmap_2 shape) in Hin. change (shape <$> e1) with (map shape e1) in Hin.
    rewrite Hs1 in Hin. unfold stopPlan in Hin. rewrite Hm in Hin. simpl in Hin.
    destruct b; simpl in Hin; repeat (apply elem_of_cons in Hin as [Hin | Hin]; [discriminate |]); by apply elem_of_nil in Hin. }
  assert (Hlost : exists d2 l, d' = (releaseAll hashOrder d2).2 /\ trace d2 = trace d1 ++ l
    /\ Called (ARun Switch config) true ∈ l /\ Emitted SActivationFailure ∉ l).
  { apply (lost_removals hashOrder dateToString config st rest d1); try done.
    - by destruct Ha1 as [w1 ->].
    - by destruct Ha1 as [w1 ->].
    - by rewrite <- Hm.
    - by rewrite Ed, E. }
  clear Ed. destruct Hlost as (d2 & l & -> & Et & Hin & Hnot).
  destruct (release_plan hashOrder d2) as (e3 & Et3 & Hs3).
  destruct (quiet_release hashOrder d2) as (l3 & Et3' & N3). rewrite Et3 in Et3'. apply app_inv_head in Et3' as <-.
  assert (Hl : exists e4 r, e3 = e4 ++ [Called ADeleteInterface r]).
  { unfold releasePlan in Hs3. destruct e3 as [| e e3 _] using rev_ind; [by destruct (hashOrder (m_excludedAddrSet d2)) |].
    rewrite map_app in Hs3. apply app_inj_tail in Hs3 as [_ He]. destruct e as [a r | sg]; [| done].
    injection He as ->. by exists e3, r. }
  destruct Hl as (e4 & r & ->). split.
  { unfold releaseAll, gets, mbind, ST_bind. destruct (forEach _ _ d2) as [u d3].
    unfold call, onSys, mbind, ST_bind. simpl. by destruct (deleteInterface (sys d3)). }
  exists (e1 ++ l ++ e4), r. rewrite Et3, Et. destruct Ha1 as [w1 ->]. cbn [trace marked].
  rewrite !app_assoc. split; [done |]. rewrite elem_of_app in N3. rewrite !elem_of_app. tauto.
Qed.

(** Switching servers changes only what differs.  When nothing
    else arrives, a switch that succeeds leaves every exclusion route counted
    as often as before, plus its mentions in the new configuration, minus
    those in the old one; it never removes an exclusion route that is still
    counted at the end, nor the route of a network the new configuration
    allows. *)
Theorem switchServer_counts {W} `{U : !WireguardUtils W} `{I : !IPUtils W} `{D : !DnsUtils W} `{P : !Platform W}
  `{Q : Qt} (hashOrder : gmap IPAddress Z -> list IPAddress) (dateToString : option Z -> QString)
  (config : InterfaceConfig) (d : Daemon W) (st : ConnectionState)
  (Hst : qmap_lookup (m_hopType config) (m_connections d) = Some st)
  (Hadd : forall p w, (addExclusionRoute p w).1 = true)
  (Hold : forall p, named p (m_excludedAddresses (m_config st)) <= count p d) :
  let r := switchServer (runEvents hashOrder dateToString 0) config d in
  r.1 = true ->
  qmap_lookup (m_hopType config) (m_connections r.2) = Some (mkConn None config)
  /\ (forall p, count p r.2 = count p d + named p (m_excludedAddresses config)
                 - named p (m_excludedAddresses (m_config st)))
  /\ exists evs, trace r.2 = trace d ++ evs
     /\ (forall p res, 0 < count p r.2 -> Called (ADeleteExclusion p) res ∉ evs)
     /\ (forall ip res, ip ∈ m_allowedIPAddressRanges config -> Called (ADeleteRoute ip) res ∉ evs).
Proof.
  intros r Ht.
  set (total := fun p => count p d + named p (m_excludedAddresses config) - named p (m_excludedAddresses (m_config st))).
  set (B := fun a => match a with
    | ADeleteExclusion p => 0 < total p
    | ADeleteRoute ip => ip ∈ m_allowedIPAddressRanges config
    | _ => False end).
  assert (Hs : exists d6, shifts B (fun p => named p (m_excludedAddresses config)
      - named p (m_excludedAddresses (m_config st))) d d6 /\ r.2 = (connected config d6).2).
  { by apply (switch_shift hashOrder dateToString). }
  destruct Hs as (d6 & (Hc & Hm & Hi & evs & Et & Ha) & ->). split; [refine (qmap_lookup_new _ _ _) |].
  assert (Hc' : forall p, count p (connected config d6).2 = total p).
  { intros p. change (count p d6 = total p). rewrite Hc. unfold total. lia. }
  split; [exact Hc' |]. exists evs. split; [exact Et |].
  split; [intros p res Hp; apply Ha; change (0 < total p); by rewrite <- Hc' | intros ip res Hip; by apply Ha].
Qed.

(** [checkHandshake] tracks the handshakes.  When nothing else
    arrives, a connection that has a date keeps it; one that has none gets the
    time of a completed handshake of its peer, and none only if there is no
    such handshake; [connected] is emitted exactly for the completed
    handshakes of connections that had no date, so never twice for one; and
    the timer goes on exactly while a connection has no date. *)
Theorem checkHandshake_reports {W} `{U : !WireguardUtils W} `{I : !IPUtils W} `{D : !DnsUtils W} `{P : !Platform W}
  `{Q : Qt} (hashOrder : gmap IPAddress Z -> list IPAddress) (dateToString : option Z -> QString) (d : Daemon W) :
  let peers := (getPeerStatus (sys d)).1 in
  let d' := (checkHandshake (runEvents hashOrder dateToString 0) d).2 in
  Forall2 (fun hc hc' => hc'.1 = hc.1 /\ m_config hc'.2 = m_config hc.2
    /\ match m_date hc.2, m_date hc'.2 with
       | Some t, o => o = Some t
       | None, Some t => exists p, completes peers hc.2 p /\ m_handshake p = t
       | None, None => forall p, ~ completes peers hc.2 p
       end) (m_connections d) (m_connections d')
  /\ (exists out, trace d' = trace d ++ map (fun k => Emitted (SConnected k)) out
      /\ forall k, k ∈ out <-> exists hc p,
           hc ∈ m_connections d /\ m_date hc.2 = None /\ completes peers hc.2 p /\ m_pubkey p = k)
  /\ (m_handshakeTimer d' = true <->
       m_handshakeTimer d = true \/ exists hc, hc ∈ m_connections d' /\ m_date hc.2 = None).
Proof.
  cbv zeta. unfold checkHandshake, onSys, gets, mbind, ST_bind.
  destruct (getPeerStatus (sys d)) as [ps w]. cbn [fst]. rewrite runEvents_0. cbn [m_connections].
  pose proof (handshakePass_spec ps (m_connections d)) as Hs.
  destruct (handshakePass ps (m_connections d)) as [[c' out] pending]. destruct Hs as (H1 & H2 & Hp & H3).
  cbn [conns modify m_excludedAddrSet m_handshakeTimer m_deactivating inbox trace sys].
  match goal with |- context [forEach ?f out ?x] => destruct (forEach f out x) as [u y] eqn:Ex end.
  apply (f_equal snd) in Ex. rewrite emits_trace in Ex. cbn in Ex. subst y.
  destruct (pending >? 0) eqn:Eg; cbn; (split; [exact H1 |]); (split; [by exists out |]); zbool.
  - split; [right; by apply H3 | done].
  - split; [by left |]. intros [? | Hx]; [done | apply H3 in Hx; lia].
Qed.

(** What [parseConfig] accepts.  A configuration it accepts has
    the keys, a device and a server address, and its allowed networks are
    those of the well-formed entries of the request, one each, longest prefix
    first; one malformed entry rejects the request. *)
Theorem parseConfig_accepts `{Q : Qt} (stdSort : list IPAddress -> list IPAddress) (obj : QJsonObject) (c : InterfaceConfig)
  (Hperm : forall l, Permutation l (stdSort l))
  (Hsort : forall l, StronglySorted (fun a b => m_prefixLength b <= m_prefixLength a) (stdSort l))
  (Hc : parseConfig stdSort obj = Some c) :
  value obj "privateKey" = Some (JString (m_privateKey c))
  /\ value obj "serverPublicKey" = Some (JString (m_serverPublicKey c))
  /\ (isNull (m_deviceIpv4Address c) = false \/ isNull (m_deviceIpv6Address c) = false)
  /\ (isNull (m_serverIpv4AddrIn c) = false \/ isNull (m_serverIpv6AddrIn c) = false)
  /\ StronglySorted (fun a b => m_prefixLength b <= m_prefixLength a) (m_allowedIPAddressRanges c)
  /\ exists l nets, value obj "allowedIPAddressRanges" = Some (JArray l)
     /\ Permutation nets (m_allowedIPAddressRanges c)
     /\ Forall2 (fun i n => exists m a q b, i = JObject m /\ m !! "address"%string = Some (JString a)
          /\ m !! "range"%string = Some (JDouble q) /\ m !! "isIpv6"%string = Some (JBool b)
          /\ n = ofHostPrefix (parseHost (qdata a)) (toIntJ (Some (JDouble q)))) l nets.
Proof.
  apply parseConfig_reads in Hc as (l & nets & Hl & Hr & Ha & _ & H1 & H2 & H3 & H4 & _).
  split; [done |]. split; [done |]. split; [by apply andb_false_iff |]. split; [by apply andb_false_iff |].
  rewrite Ha. split; [apply Hsort |]. exists l, nets. split; [done |]. split; [apply Hperm |].
  apply parseRanges_spec in Hr. eapply Forall2_impl; [exact Hr |]. intros i n. apply parseRange_spec.
Qed.

(** An absent special junk packet is configured as an empty one.
    For a request without the keys I1 to I5, as for every plain WireGuard
    tunnel, [parseConfig] stores all five with a null text, so that the
    message [addInterface] sends sets each of them to the empty text: an
    absent key is [Undefined], which [isNull] does not recognise. *)
Theorem parseConfig_absent_junk `{Q : Qt} (stdSort : list IPAddress -> list IPAddress) (obj : QJsonObject)
  (c : InterfaceConfig) (Hc : parseConfig stdSort obj = Some c)
  (Hk : Forall (fun k => obj !! k = None) specialKeys) :
  m_specialJunk (m_junk c) = map (fun k => (k, QNull)) specialKeys
  /\ exists before after, interfaceMessage c = before
       ++ [("i1", ""); ("i2", ""); ("i3", ""); ("i4", ""); ("i5", "")]%string ++ after.
Proof.
  apply parseConfig_reads in Hc as (l & nets & _ & _ & _ & Hj & _).
  unfold specialKeys in Hk. rewrite !Forall_cons in Hk. destruct Hk as (K1 & K2 & K3 & K4 & K5 & _).
  assert (E : m_specialJunk (m_junk c) = map (fun k => (k, QNull)) specialKeys).
  { rewrite Hj. unfold parseJunk. cbn [m_specialJunk fold_left]. unfold specialStep, value.
    rewrite K1, K2, K3, K4, K5. reflexivity. }
  split; [exact E |]. unfold interfaceMessage. rewrite E.
  do 12 apply infix_front. exists []. by eexists.
Qed.

(** ** Witnesses *)

(** Helpers that always succeed, with one peer that has shaken hands. *)
Definition sampleUtils : WireguardUtils unit := {|
  interfaceExists := mret true; interfaceName := mret (QStr "frkn0");
  addInterface _ := mret true; deleteInterface := mret true; updatePeer _ := mret true; deletePeer _ := mret true;
  getPeerStatus := mret [mkPeerStatus "c2VydmVy" 1700000000250 10 20];
  updateRoutePrefix _ := mret true; deleteRoutePrefix _ := mret true; addExclusionRoute _ := mret true;
  deleteExclusionRoute _ := mret true; excludeLocalNetworks _ := mret true
|}.
Definition sampleIPs : IPUtils unit := {| addInterfaceIPs _ := mret true; setMTUAndUp _ := mret true |}.
Definition sampleDns : DnsUtils unit := {| updateResolvers _ _ := mret true; restoreResolvers := mret true |}.
Definition samplePlatform : Platform unit := linuxPlatform.

Definition sampleReliable : Reliable sampleUtils sampleDns samplePlatform.
Proof. by constructor. Defined.

Definition sampleOrder (e : gmap IPAddress Z) : list IPAddress := map fst (map_to_list e).
Lemma sampleOrder_keys e p : p ∈ sampleOrder e <-> p ∈ dom e.
Proof.
  unfold sampleOrder. rewrite elem_of_dom, list_elem_of_In, in_map_iff. split.
  - intros ([q n] & <- & Hq). exists n. by apply elem_of_map_to_list, list_elem_of_In.
  - intros [n Hn]. exists (p, n). split; [done |]. by apply list_elem_of_In, elem_of_map_to_list.
Qed.
Definition sampleDate (o : option Z) : QString := QNull.

(** Two configurations of the same tunnel, with different exclusions. *)
Definition withExclusions (l : list QString) : InterfaceConfig :=
  mkConfig SingleHop "cHJpdg==" "10.8.1.2/32" QNull "10.8.0.1" QNull "c2VydmVy" "192.0.2.7"
    QNull QNull "1.1.1.1" "1.0.0.1" 51820 1376 [mkIPAddress (HV4 0) 0] l [] [] true false sampleJunk.
Definition configA : InterfaceConfig := withExclusions [QStr "198.51.100.0/24"; QStr "192.0.2.7"].
Definition configB : InterfaceConfig := withExclusions [QStr "198.51.100.0/24"].

Definition idle : Daemon unit := mkDaemon [] ∅ false false [] [] tt.
Definition connectedA : Daemon unit :=
  (commands (WireguardUtils0 := sampleUtils) (IPUtils0 := sampleIPs) (DnsUtils0 := sampleDns)
    (Platform0 := samplePlatform) (Q := plainQt) sampleOrder sampleDate [CActivate configA] idle).2.

Lemma idle_consistent : consistent idle.
Proof. split; [repeat constructor |]. by split. Qed.

Lemma activate_outcome_witness :
  m_connections connectedA = [(SingleHop, mkConn None configA)] /\ m_handshakeTimer connectedA = true.
Proof.
  destruct (@activate_outcome unit sampleUtils sampleIPs sampleDns samplePlatform plainQt sampleOrder
    (fun d => (tt, d)) 0 configA idle) as (_ & Ho & Hq).
  specialize (Hq (quiet_same (fun d => (tt, d)) (fun _ => eq_refl))).
  split; vm_compute; reflexivity.
Defined.


Lemma deactivate_plan_witness :
  map shape (trace (command (WireguardUtils0 := sampleUtils)
    (IPUtils0 := sampleIPs) (DnsUtils0 := sampleDns) (Platform0 := samplePlatform) (Q := plainQt)
    sampleOrder sampleDate (CDeactivate true) connectedA).2)
  = map shape (trace connectedA)
    ++ [inl (ARun Down configA); inr SDisconnected; inl ARestoreResolvers; inl (ADeleteRoute (mkIPAddress (HV4 0) 0));
     inl (ADeletePeer configA)]
    ++ map (fun p => inl (ADeleteExclusion p)) (sampleOrder (m_excludedAddrSet connectedA)) ++ [inl ADeleteInterface].
Proof.
  rewrite (@deactivate_plan unit sampleUtils sampleIPs sampleDns samplePlatform plainQt sampleOrder sampleDate
    connectedA true); [vm_compute; reflexivity | | vm_compute; reflexivity | vm_compute; reflexivity].
  split; vm_compute; repeat constructor.
Defined.

Lemma activation_lost_witness :
  let d := mkDaemon (m_connections connectedA) (m_excludedAddrSet connectedA) true false [[CActivate configB]]
             (trace connectedA) tt in
  let d' := (command (WireguardUtils0 := sampleUtils) (IPUtils0 := sampleIPs) (DnsUtils0 := sampleDns)
    (Platform0 := samplePlatform) (Q := plainQt) sampleOrder sampleDate (CDeactivate true) d).2 in
  m_connections d' = [] /\ m_handshakeTimer d' = true.
Proof.
  intros d d'. split; [| vm_compute; reflexivity].
  destruct (@activation_lost unit sampleUtils sampleIPs sampleDns samplePlatform plainQt sampleReliable sampleOrder
    sampleDate d true configB (mkConn None configA) []) as [H _]; [vm_compute; reflexivity .. | exact H].
Defined.

Lemma switchServer_counts_witness :
  let r := switchServer (WireguardUtils0 := sampleUtils) (Q := plainQt)
    (runEvents (WireguardUtils0 := sampleUtils) (IPUtils0 := sampleIPs) (DnsUtils0 := sampleDns)
      (Platform0 := samplePlatform) (Q := plainQt) sampleOrder sampleDate 0) configB connectedA in
  count (mkIPAddress (HV4 0xc6336400) 24) r.2 = 1 /\ count (mkIPAddress (HV4 0xc0000207) 32) r.2 = 0.
Proof.
  intros r.
  destruct (@switchServer_counts unit sampleUtils sampleIPs sampleDns samplePlatform plainQt sampleOrder
    sampleDate configB connectedA (mkConn None configA)) as (_ & H & _); try (vm_compute; reflexivity).
  - intros p. change (named (Q := plainQt) p [QStr "198.51.100.0/24"; QStr "192.0.2.7"] <= count p connectedA).
    assert (Hc : m_excludedAddrSet connectedA
      = <[mkIPAddress (HV4 0xc6336400) 24 := 1]> (<[mkIPAddress (HV4 0xc0000207) 32 := 1]> ∅)) by (vm_compute; reflexivity).
    unfold count. rewrite Hc, !cnt_insert. unfold named, cnt. cbn [List.filter]. rewrite lookup_empty.
    replace (ofString (H := plainQt) (qdata (QStr "198.51.100.0/24"))) with (mkIPAddress (HV4 0xc6336400) 24) by (vm_compute; reflexivity).
    replace (ofString (H := plainQt) (qdata (QStr "192.0.2.7"))) with (mkIPAddress (HV4 0xc0000207) 32) by (vm_compute; reflexivity).
    repeat case_bool_decide; subst; try discriminate; simpl; lia.
  - split; (etransitivity; [apply H | vm_compute; reflexivity]).
Defined.

Definition longer (a b : IPAddress) : Prop := m_prefixLength b <= m_prefixLength a.
#[export] Instance longer_dec : RelDecision longer := fun a b => Z_le_dec (m_prefixLength b) (m_prefixLength a).
#[export] Instance longer_trans : Transitive longer.
Proof. intros a b c. unfold longer. lia. Qed.
#[export] Instance longer_total : Total longer.
Proof. intros a b. unfold longer. lia. Qed.

Definition sampleSort : list IPAddress -> list IPAddress := merge_sort longer.

Lemma sampleSort_laws l :
  Permutation l (sampleSort l) /\ StronglySorted (fun a b => m_prefixLength b <= m_prefixLength a) (sampleSort l).
Proof.
  split; [symmetry; apply merge_sort_Permutation |]. apply (StronglySorted_merge_sort longer).
Qed.

Definition sampleRange (a : string) (n : Z) : json :=
  JObject (<["address" := jstr a]> (<["range" := jint n]> (<["isIpv6" := JBool false]> ∅))).
Definition sampleRequest : QJsonObject :=
  <["privateKey" := jstr "cHJpdg=="]> (<["serverPublicKey" := jstr "c2VydmVy"]> (<["serverPort" := jint 51820]>
  (<["deviceIpv4Address" := jstr "10.8.1.2"]> (<["serverIpv4AddrIn" := jstr "192.0.2.7"]>
  (<["allowedIPAddressRanges" := JArray [sampleRange "0.0.0.0" 0; sampleRange "10.0.0.0" 8]]> ∅))))).
Definition sampleParsed : InterfaceConfig := default configA (parseConfig (H := plainQt) sampleSort sampleRequest).

Lemma parseConfig_accepts_witness :
  m_allowedIPAddressRanges sampleParsed = [mkIPAddress (HV4 0x0a000000) 8; mkIPAddress (HV4 0) 0].
Proof.
  destruct (@parseConfig_accepts plainQt sampleSort sampleRequest sampleParsed (fun l => proj1 (sampleSort_laws l))
    (fun l => proj2 (sampleSort_laws l))) as (_ & _ & _ & _ & Hs & _); [vm_compute; reflexivity |].
  vm_compute. reflexivity.
Defined.

Lemma parseConfig_absent_junk_witness :
  exists before after, interfaceMessage (H := plainQt) sampleParsed
    = before ++ [("i1", ""); ("i2", ""); ("i3", ""); ("i4", ""); ("i5", "")]%string ++ after.
Proof.
  apply (@parseConfig_absent_junk plainQt sampleSort sampleRequest sampleParsed); [vm_compute; reflexivity |].
  repeat constructor.
Defined.
