(* ===== verification/LineProtocol.v ===== *)
(** * The line protocol of the daemon's socket

    The client ([client/mozilla/localsocketcontroller.cpp]) and the daemon
    ([client/daemon/daemonlocalserverconnection.cpp]) exchange JSON objects,
    one per line.  Both sides have the same [write] and the same loop over
    the lines of a buffer in [readData]; they are here once, over the handler
    of a command. *)

From Stdlib Require Import ZArith Lia Bool String Ascii.
From stdpp Require Import base gmap strings list.
From S2P Require Import Prelude.
From S2P Require Import Qt.
From S2P Require Import QtInstance.

Open Scope Z_scope.

(** [write(obj)]: the text that goes to the socket. *)
Definition writeText `{Qt} (obj : QJsonObject) : string := jsonPrint obj +:+ nl.

(** [s.replace(a, b)] for one-character texts. *)
Fixpoint replaceChar (a b : ascii) (s : string) : string :=
  match s with
  | EmptyString => ""%string
  | String c s' => String (if Ascii.eqb c a then b else c) (replaceChar a b s')
  end.

Section Lines.
Context {S : Type}.
Variable parseCommand : string -> ST S unit.

(** The loop over the lines of the buffer; it ends with what is left.  A round
    removes at least one character, so the length of the buffer is enough
    fuel. *)
Fixpoint drain (fuel : nat) (buffer : string) : ST S string :=
  match indexOf newline buffer, fuel with
  | Some pos, Datatypes.S fuel' =>
      let line := str_left pos buffer in
      let buffer := str_mid (Datatypes.S pos) buffer in
      let command := trimmed line in
      (if String.eqb command "" then mret tt else parseCommand command) ;;
      drain fuel' buffer
  | _, _ => mret buffer
  end.

(** [readData] of the daemon: the loop reads the socket when the buffer holds
    no line, until it gives nothing; [input] is what [readAll] returns. *)
Fixpoint readLoop (input : list string) (buffer : string) : ST S string :=
  rest ← drain (String.length buffer) buffer;
  match input with
  | [] => mret rest
  | chunk :: input' => if String.eqb chunk "" then mret rest else readLoop input' (rest +:+ chunk)
  end.
End Lines.

(** ** What a reader sees *)

(** The commands of a text, and the beginning of the next one. *)
Definition commandsOf (s : string) : list string :=
  List.filter (fun c => negb (String.eqb c "")) (map trimmed (removelast (split newline s))).
Definition restOf (s : string) : string := List.last (split newline s) "".

Lemma indexOf_split c s :
  match indexOf c s with
  | Some pos => split c s = str_left pos s :: split c (str_mid (S pos) s)
                /\ (String.length (str_mid (S pos) s) < String.length s)%nat
  | None => split c s = [s]
  end.
Proof.
  induction s as [| d s IH]; [done |]. cbn [indexOf split]. destruct (Ascii.eqb c d) eqn:E.
  - cbn. split; [done | lia].
  - destruct (indexOf c s) as [pos |]; cbn [option_map].
    + destruct IH as [IH Hl]. cbn [str_left str_mid]. rewrite IH. split; [done |]. cbn in *. lia.
    + by rewrite IH.
Qed.

Lemma split_cons_ne c s w ws : split c s = w :: ws -> ws <> [] ->
  removelast (split c s) = w :: removelast ws /\ List.last (split c s) ""%string = List.last ws ""%string.
Proof. intros -> Hw. by destruct ws. Qed.

Lemma drain_lines {S} (h : string -> ST S unit) n s :
  (String.length s <= n)%nat ->
  forall st, drain h n s st = (forEach h (commandsOf s) ;; mret (restOf s)) st.
Proof.
  revert s. induction n as [| n IH]; intros s Hn st; pose proof (indexOf_split newline s) as Hi;
    cbn [drain]; unfold commandsOf, restOf.
  - destruct s; [done | cbn in Hn; lia].
  - destruct (indexOf newline s) as [pos |]; [| by rewrite Hi].
    destruct Hi as [Hs Hl]. pose proof (split_nonempty newline (str_mid (Datatypes.S pos) s)) as Hne.
    destruct (split_cons_ne _ _ _ _ Hs Hne) as [-> ->]. cbn [map List.filter].
    fold (restOf (str_mid (Datatypes.S pos) s)).
    destruct (String.eqb (trimmed (str_left pos s)) "") eqn:Ee; cbn [negb].
    + unfold mbind at 1, ST_bind at 1. cbn [mret ST_ret]. by rewrite IH by lia.
    + cbn [forEach]. unfold mbind, ST_bind. destruct (h _ st) as [u st1]. rewrite IH by lia. done.
Qed.

Lemma split_app c a b : split c (a +:+ b) = removelast (split c a) ++ split c (List.last (split c a) "" +:+ b).
Proof.
  induction a as [| d a IH]; [done |]. rewrite string_app_cons. cbn [split]. destruct (Ascii.eqb c d) eqn:E.
  - destruct (split_cons_ne c (String d a) "" (split c a)) as [H1 H2]; [by cbn [split]; rewrite E | apply split_nonempty |].
    cbn [split] in H1, H2. rewrite E in H1, H2. rewrite H1, H2, IH. done.
  - destruct (split c a) as [| w ws] eqn:Ea; [by destruct (split_nonempty c a) |].
    destruct ws as [| w' ws].
    + cbn [removelast List.last app] in *. rewrite string_app_cons. cbn [split]. rewrite E. by rewrite IH.
    + rewrite IH. cbn. done.
Qed.

Lemma removelast_app_ne {A} (l l' : list A) : l' <> [] -> removelast (l ++ l') = l ++ removelast l'.
Proof. apply removelast_app. Qed.

Lemma last_app_ne {A} (l l' : list A) x : l' <> [] -> List.last (l ++ l') x = List.last l' x.
Proof.
  intros Hl. induction l as [| a l IH]; [done |]. cbn [app List.last]. rewrite IH.
  destruct (l ++ l') eqn:E; [| done]. apply app_eq_nil in E as [_ E]. done.
Qed.

(** A text read in two parts. *)
Lemma commandsOf_app a b :
  commandsOf (a +:+ b) = commandsOf a ++ commandsOf (restOf a +:+ b) /\ restOf (a +:+ b) = restOf (restOf a +:+ b).
Proof.
  pose proof (split_nonempty newline (restOf a +:+ b)) as Hne. split.
  - unfold commandsOf. rewrite (split_app newline a b). fold (restOf a).
    by rewrite removelast_app_ne, map_app, List.filter_app.
  - unfold restOf at 1. rewrite (split_app newline a b). fold (restOf a). by apply last_app_ne.
Qed.

(** The text of a list of chunks. *)
Definition texts (l : list string) : string := foldr (fun s r => s +:+ r) ""%string l.

Lemma string_app_empty (s : string) : s +:+ "" = s.
Proof. induction s as [| d s IH]; [done |]. rewrite string_app_cons. by rewrite IH. Qed.

(** However the bytes arrive, the commands are the lines of the whole text. *)
Lemma readLoop_chunks {S} (h : string -> ST S unit) input buffer :
  Forall (fun c => c <> ""%string) input ->
  forall st, readLoop h input buffer st
    = (forEach h (commandsOf (buffer +:+ texts input)) ;; mret (restOf (buffer +:+ texts input))) st.
Proof.
  intros Hi. revert buffer. induction Hi as [| c input Hc _ IH]; intros buffer st; cbn [readLoop texts foldr].
  - rewrite string_app_empty. unfold mbind at 1, ST_bind at 1. rewrite drain_lines by done.
    unfold mbind, ST_bind. by destruct (forEach h _ st).
  - unfold mbind at 1, ST_bind at 1. rewrite drain_lines by done.
    rewrite (proj2 (String.eqb_neq c "")) by done. fold (texts input).
    destruct (commandsOf_app buffer (c +:+ texts input)) as [-> ->]. rewrite <- !string_app_assoc.
    unfold mbind, ST_bind. rewrite forEach_app. unfold mbind, ST_bind.
    destruct (forEach h (commandsOf buffer) st) as [u st1]. cbn [mret ST_ret]. rewrite IH. done.
Qed.

(** What [write] sends is read back object by object. *)
Lemma commandsOf_written `{Qt} (objs : list QJsonObject) rest :
  Forall wire_ok objs ->
  commandsOf (texts (map writeText objs) +:+ rest) = map jsonPrint objs ++ commandsOf rest
  /\ restOf (texts (map writeText objs) +:+ rest) = restOf rest.
Proof.
  induction 1 as [| o objs (Hp & Hn & Ht & He) _ IH]; [done |]. cbn [map texts foldr]. fold (texts (map writeText objs)).
  set (t := texts (map writeText objs) +:+ rest) in *.
  assert (E : split newline ((writeText o +:+ texts (map writeText objs)) +:+ rest) = jsonPrint o :: split newline t).
  { change (writeText o) with (jsonPrint o +:+ nl). rewrite !string_app_assoc. fold t.
    change (nl +:+ t) with (String newline t). by apply split_line. }
  unfold commandsOf, restOf in *.
  destruct (split_cons_ne _ _ _ _ E (split_nonempty _ _)) as [-> ->]. destruct IH as [IH1 IH2].
  cbn [map List.filter]. rewrite Ht, (proj2 (String.eqb_neq _ _)) by done. cbn [negb app]. by rewrite IH1, IH2.
Qed.

(** What is left in a buffer is no line. *)
Lemma restOf_no_line s : chr_contains newline (restOf s) = false.
Proof.
  unfold restOf. induction s as [| d s IH]; [done |]. cbn [split]. destruct (Ascii.eqb newline d) eqn:E.
  - destruct (split newline s) eqn:Es; [by apply split_nonempty in Es | exact IH].
  - destruct (split newline s) as [| w ws] eqn:Es; [by apply split_nonempty in Es |].
    destruct ws; [| exact IH]. cbn [List.last] in *. cbn [chr_contains]. by rewrite E.
Qed.

Lemma commandsOf_partial s : chr_contains newline s = false -> commandsOf s = [] /\ restOf s = s.
Proof. intros Hs. unfold commandsOf, restOf. by rewrite split_none. Qed.

(** [readData] with several readings in turn. *)
Lemma texts_app l1 l2 : texts (l1 ++ l2) = texts l1 +:+ texts l2.
Proof.
  induction l1 as [| s l1 IH]; [by rewrite string_app_nil |]. cbn [app texts foldr].
  fold (texts (l1 ++ l2)). fold (texts l1). by rewrite IH, string_app_assoc.
Qed.

(** An invariant of the handler is one of the loops. *)
Lemma drain_keeps {S : Type} (I : S -> Prop) (h : string -> ST S unit) n buffer st :
  (forall c st, I st -> I (h c st).2) -> I st -> I (drain h n buffer st).2.
Proof.
  intros Hh. revert buffer st. induction n as [| n IH]; intros b st Hs; cbn [drain];
    destruct (indexOf newline b) as [pos |]; try done.
  unfold mbind, ST_bind. destruct (String.eqb _ ""); cbn [mret ST_ret]; [by apply IH |].
  specialize (Hh (trimmed (str_left pos b)) st Hs). destruct (h _ st) as [u st1]. by apply IH.
Qed.

Lemma readLoop_keeps {S : Type} (I : S -> Prop) (h : string -> ST S unit) input buffer st :
  (forall c st, I st -> I (h c st).2) -> I st -> I (readLoop h input buffer st).2.
Proof.
  intros Hh. revert buffer st. induction input as [| c input IH]; intros buffer st Hs; cbn [readLoop]; unfold mbind, ST_bind;
    pose proof (drain_keeps I h (String.length buffer) buffer st Hh Hs) as H1; destruct (drain h _ buffer st) as [rest st1];
    [done |].
  destruct (String.eqb c ""); [done | by apply IH].
Qed.
