(* ===== verification/DaemonConnection.v ===== *)
(** * The daemon's socket: [client/daemon/daemonlocalserver.cpp],
    [daemonlocalserverconnection.cpp]

    The server counts the sockets of its clients and stops the tunnel when the
    last one goes; a connection turns the lines it reads into calls of the
    daemon and the daemon's signals into lines.  The state is the daemon, the
    counter and, for every connected client, the unread text and the text
    written to its socket so far.

    A slot runs inside the [emit] of its signal, so the texts of the signals
    of an operation are written in the order of the daemon's trace, before
    anything the connection writes itself.  [readyRead] is not emitted again
    while its slot runs: what arrives during an exchange (the [inbox] of
    [Daemon.v]) comes from another client. *)

From Stdlib Require Import ZArith Lia Bool String Ascii.
From stdpp Require Import base gmap strings list.
From S2P Require Import Prelude.
From S2P Require Import Qt.
From S2P Require Import QtInstance.
From S2P Require Import IPAddress.
From S2P Require Import InterfaceConfig.
From S2P Require Import WireguardUtils.
From S2P Require Import Daemon.
From S2P Require Import LineProtocol.

Open Scope Z_scope.

(** ** Messages *)

Definition message (type : string) : QJsonObject := <["type" := jstr type]> ∅.

Definition connectedMessage (pubkey : QString) : QJsonObject := <["pubkey" := JString pubkey]> (message "connected").
Definition disconnectedMessage : QJsonObject := message "disconnected".
Definition backendFailureMessage (err : Z) : QJsonObject := <["errorCode" := jint err]> (message "backendFailure").

(** The slot connected to a signal, by what it writes; [activationFailure] is
    not connected. *)
Definition slot (s : Signal) : option QJsonObject :=
  match s with
  | SConnected pubkey => Some (connectedMessage pubkey)
  | SDisconnected => Some disconnectedMessage
  | SActivationFailure => None
  end.

(** ** State *)

Record Client : Type := mkClient {
  m_buffer : string;
  written : string                 (** the text that went to [m_socket] *)
}.

Record Server (W : Type) : Type := mkServer {
  m_clientSockets : Z;
  clients : gmap nat Client;
  daemon : Daemon W
}.
Arguments mkServer {W}.
Arguments m_clientSockets {W}.
Arguments clients {W}.
Arguments daemon {W}.

(** What reaches the server from its event loop.  [ENew None] is a
    [newConnection] without a pending connection. *)
Inductive SEvent : Type :=
| ENew (id : option nat)
| EData (id : nat) (input : list string)
| EGone (id : nat)
| ETimeout.

Section Server.
Context {W : Type} `{!WireguardUtils W} `{!IPUtils W} `{!DnsUtils W} `{!Platform W} `{Q : Qt}.
Variable hashOrder : gmap IPAddress Z -> list IPAddress.
Variable dateToString : option Z -> QString.
Variable stdSort : list IPAddress -> list IPAddress.

Definition send (obj : QJsonObject) (c : Client) : Client := mkClient (m_buffer c) (written c +:+ writeText obj).

(** [write(obj)] of the connection [id]. *)
Definition write (id : nat) (obj : QJsonObject) : ST (Server W) unit :=
  modify (fun s => mkServer (m_clientSockets s) (alter (send obj) id (clients s)) (daemon s)).

(** A signal reaches every connection. *)
Definition deliver (c : gmap nat Client) (e : Event) : gmap nat Client :=
  match e with
  | Emitted s => match slot s with Some obj => send obj <$> c | None => c end
  | Called _ _ => c
  end.

(** A call of the daemon, with its signals. *)
Definition onDaemon {A : Type} (m : Daemon W -> A * Daemon W) : ST (Server W) A := fun s =>
  let '(a, d) := m (daemon s) in
  (a, mkServer (m_clientSockets s) (fold_left deliver (drop (length (trace (daemon s))) (trace d)) (clients s)) d).

(** The event loop below an operation of the daemon. *)
Definition events (d : Daemon W) : ST (Daemon W) unit := runEvents hashOrder dateToString (length (inbox d)).

(** [Daemon::logs] and [Daemon::cleanLogs]. *)
Definition logs : QString := QNull.
Definition cleanLogs : ST (Server W) unit := mret tt.

(** The status of a dangling reference is undefined behaviour, here no reply. *)
Definition dispatch (id : nat) (obj : QJsonObject) : ST (Server W) unit :=
  match value obj "type" with
  | Some (JString t) =>
      let type := qdata t in
      if String.eqb type "logs" then write id (<["logs" := jstr ""]> (message "logs"))
      else if String.eqb type "activate" then
        match parseConfig stdSort obj with
        | None => write id disconnectedMessage
        | Some config =>
            ok ← onDaemon (fun d => activate hashOrder (events d) 2 config d);
            if bool_decide (ok = Some false) then write id disconnectedMessage else mret tt
        end
      else if String.eqb type "deactivate" then
        onDaemon (fun d => deactivate hashOrder (events d) true d) ;; mret tt
      else if String.eqb type "status" then
        status ← onDaemon (fun d => getStatus dateToString (events d) d);
        match status with
        | Some obj => write id (<["type" := jstr "status"]> obj)
        | None => mret tt
        end
      else if String.eqb type "logs" then
        write id (<["logs" := jstr (replaceChar newline "|"%char (qdata logs))]> (message "logs"))
      else if String.eqb type "cleanlogs" then cleanLogs
      else mret tt
  | _ => mret tt
  end.

Definition parseCommand (id : nat) (data : string) : ST (Server W) unit :=
  match jsonParse data with Some obj => dispatch id obj | None => mret tt end.

Definition setBuffer (id : nat) (b : string) : ST (Server W) unit :=
  modify (fun s => mkServer (m_clientSockets s) (alter (fun c => mkClient b (written c)) id (clients s)) (daemon s)).

Definition readData (id : nat) (input : list string) : ST (Server W) unit :=
  c ← gets clients;
  match c !! id with
  | Some client => rest ← readLoop (parseCommand id) input (m_buffer client); setBuffer id rest
  | None => mret tt
  end.

Definition newConnection (id : option nat) : ST (Server W) unit :=
  match id with
  | None => mret tt
  | Some id =>
      s ← get;
      put (mkServer (m_clientSockets s + 1) (<[id := mkClient "" ""]> (clients s)) (daemon s))
  end.

(** The socket of a client is closed. *)
Definition socketGone (id : nat) : ST (Server W) unit :=
  s ← get;
  let n := m_clientSockets s - 1 in
  put (mkServer n (delete id (clients s)) (daemon s)) ;;
  if n >? 0 then mret tt
  else onDaemon (fun d => deactivate hashOrder (events d) false d) ;; mret tt.

Definition handle (e : SEvent) : ST (Server W) unit :=
  match e with
  | ENew id => newConnection id
  | EData id input => readData id input
  | EGone id => socketGone id
  | ETimeout => onDaemon (command hashOrder dateToString CTimeout)
  end.

(** A socket is new once and closed once. *)
Definition possible (e : SEvent) (s : Server W) : Prop :=
  match e with
  | ENew (Some id) => clients s !! id = None
  | ENew None | ETimeout => True
  | EData id _ => is_Some (clients s !! id)
  | EGone id => is_Some (clients s !! id)
  end.

Inductive reachable (s0 : Server W) : Server W -> Prop :=
| reach_refl : reachable s0 s0
| reach_step s e : reachable s0 s -> possible e s -> reachable s0 (handle e s).2.
End Server.

(** ** Reading *)

Section Reading.
Context {W : Type} `{!WireguardUtils W} `{!IPUtils W} `{!DnsUtils W} `{!Platform W} `{Q : Qt}.
Variable hashOrder : gmap IPAddress Z -> list IPAddress.
Variable dateToString : option Z -> QString.
Variable stdSort : list IPAddress -> list IPAddress.

Abbreviation serve := (dispatch hashOrder dateToString stdSort).
Abbreviation parse := (parseCommand hashOrder dateToString stdSort).
Abbreviation read := (readData hashOrder dateToString stdSort).

(** The state with another unread text. *)
Definition setB (id : nat) (b : string) (s : Server W) : Server W :=
  mkServer (m_clientSockets s) (alter (fun c => mkClient b (written c)) id (clients s)) (daemon s).

(** [m] neither looks at nor changes an unread text, and keeps the clients. *)
Definition blind {A : Type} (m : ST (Server W) A) : Prop :=
  (forall id b s, m (setB id b s) = ((m s).1, setB id b (m s).2))
  /\ (forall id s, m_buffer <$> clients (m s).2 !! id = m_buffer <$> clients s !! id)
  /\ (forall s, dom (clients (m s).2) = dom (clients s) /\ m_clientSockets (m s).2 = m_clientSockets s).

Lemma blind_ret {A} (a : A) : blind (mret a).
Proof. done. Qed.

Lemma blind_bind {A B} (m : ST (Server W) A) (f : A -> ST (Server W) B) :
  blind m -> (forall a, blind (f a)) -> blind (m ≫= f).
Proof.
  intros (H1 & H2 & H3) Hf. repeat split; unfold mbind, ST_bind.
  - intros id b s. rewrite H1. destruct (m s) as [a s1]. cbn. apply (Hf a).
  - intros id s. specialize (H2 id s). destruct (m s) as [a s1]. rewrite <- H2. apply (Hf a).
  - specialize (H3 s) as [H3 _]. destruct (m s) as [a s1]. rewrite <- H3. apply (Hf a).
  - specialize (H3 s) as [_ H3]. destruct (m s) as [a s1]. rewrite <- H3. apply (Hf a).
Qed.

Lemma blind_write id obj : blind (write id obj).
Proof.
  repeat split; cbn.
  - intros id' b s. unfold write, modify, setB; cbn. do 2 f_equal. apply map_eq. intros k. rewrite !lookup_alter.
    repeat case_decide; subst; try done; by destruct (clients s !! _).
  - intros id' s. rewrite lookup_alter. case_decide; [subst | done]. by destruct (clients s !! _).
  - apply dom_alter_L.
Qed.

Lemma deliver_blind l : forall c id b,
  fold_left deliver l (alter (fun x => mkClient b (written x)) id c)
    = alter (fun x => mkClient b (written x)) id (fold_left deliver l c)
  /\ m_buffer <$> fold_left deliver l c !! id = m_buffer <$> c !! id
  /\ dom (fold_left deliver l c) = dom c.
Proof.
  induction l as [| e l IH]; intros c id b; [done |]. cbn [fold_left].
  assert (Hd : deliver (alter (fun x => mkClient b (written x)) id c) e
      = alter (fun x => mkClient b (written x)) id (deliver c e)
    /\ m_buffer <$> deliver c e !! id = m_buffer <$> c !! id /\ dom (deliver c e) = dom c).
  { destruct e as [a r | s]; [done |]. cbn [deliver]. destruct (slot s) as [obj |]; [| done]. split; [| split].
    - apply map_eq. intros k. rewrite lookup_fmap, !lookup_alter, !lookup_fmap. repeat case_decide; subst; try done; by destruct (c !! _).
    - rewrite lookup_fmap. by destruct (c !! id).
    - apply dom_fmap_L. }
  destruct Hd as (E1 & E2 & E3). rewrite E1. destruct (IH (deliver c e) id b) as (-> & -> & ->). done.
Qed.

Lemma blind_onDaemon {A} (m : Daemon W -> A * Daemon W) : blind (onDaemon m).
Proof.
  repeat split; unfold onDaemon, setB; cbn.
  - intros id b s. destruct (m (daemon s)) as [a d]; cbn.
    by destruct (deliver_blind (drop (length (trace (daemon s))) (trace d)) (clients s) id b) as (-> & _).
  - intros id s. destruct (m (daemon s)) as [a d]; cbn.
    by destruct (deliver_blind (drop (length (trace (daemon s))) (trace d)) (clients s) id "") as (_ & -> & _).
  - destruct (m (daemon s)) as [a d]; cbn.
    by destruct (deliver_blind (drop (length (trace (daemon s))) (trace d)) (clients s) O "") as (_ & _ & ->).
  - by destruct (m (daemon s)) as [a d].
Qed.

Lemma blind_serve id obj : blind (serve id obj).
Proof.
  unfold dispatch. destruct (value obj "type") as [[] |]; try apply blind_ret.
  repeat match goal with
  | |- blind (if ?x then _ else _) => destruct x
  | |- blind (write _ _) => apply blind_write
  | |- blind (mret _) => apply blind_ret
  | |- blind cleanLogs => apply blind_ret
  | |- blind (match ?x with _ => _ end) => destruct x
  | |- blind (onDaemon _ ≫= _) => apply blind_bind; [apply blind_onDaemon | intros ?]
  end.
Qed.

Lemma blind_parse id data : blind (parse id data).
Proof. unfold parseCommand. destruct (jsonParse data); [apply blind_serve | apply blind_ret]. Qed.

Lemma blind_forEach {A} (f : A -> ST (Server W) unit) l : (forall x, blind (f x)) -> blind (forEach f l).
Proof. intros Hf. induction l; [apply blind_ret |]. cbn [forEach]. by apply blind_bind; [| intros _]. Qed.

Lemma setB_same id b s c : clients s !! id = Some c -> m_buffer c = b -> setB id b s = s.
Proof.
  intros Hc <-. destruct s as [n m d]. unfold setB; cbn in *. f_equal. apply map_eq. intros k. rewrite lookup_alter.
  case_decide; [subst k; rewrite Hc; by destruct c | done].
Qed.

Lemma setB_twice id b b' s : setB id b (setB id b' s) = setB id b s.
Proof.
  unfold setB; cbn. f_equal. apply map_eq. intros k. rewrite !lookup_alter. repeat case_decide; subst; try done; by destruct (clients s !! _).
Qed.

Lemma setB_lookup id b s c : clients s !! id = Some c -> clients (setB id b s) !! id = Some (mkClient b (written c)).
Proof. intros Hc. unfold setB; cbn. rewrite lookup_alter_eq, Hc. done. Qed.

Lemma read_lines id input s c : clients s !! id = Some c -> Forall (fun t => t <> ""%string) input ->
  let text := m_buffer c +:+ texts input in
  read id input s = (tt, setB id (restOf text) (forEach (parse id) (commandsOf text) s).2).
Proof.
  intros Hc Hi text. unfold readData, gets, mbind at 1, ST_bind at 1. rewrite Hc. unfold mbind at 1, ST_bind at 1.
  rewrite readLoop_chunks by done. fold text. unfold mbind, ST_bind. by destruct (forEach _ _ s).
Qed.

(** Several readings are one. *)
Lemma reads_lines id batches : forall s c, clients s !! id = Some c -> chr_contains newline (m_buffer c) = false ->
  Forall (Forall (fun t => t <> ""%string)) batches ->
  let text := m_buffer c +:+ texts (concat batches) in
  forEach (read id) batches s = (tt, setB id (restOf text) (forEach (parse id) (commandsOf text) s).2).
Proof.
  induction batches as [| input batches IH]; intros s c Hc Hb Hi text.
  - unfold text. cbn [concat texts foldr]. rewrite string_app_empty.
    destruct (commandsOf_partial (m_buffer c) Hb) as [-> ->]. cbn. by rewrite (setB_same id (m_buffer c) s c).
  - apply Forall_cons in Hi as [Hi1 Hi]. cbn [forEach]. unfold mbind, ST_bind. rewrite (read_lines id input s c) by done.
    set (text1 := m_buffer c +:+ texts input).
    assert (Et : text = text1 +:+ texts (concat batches)).
    { unfold text, text1. cbn [concat]. by rewrite texts_app, string_app_assoc. }
    pose proof (blind_forEach (parse id) (commandsOf text1) (blind_parse id)) as (_ & Hb1 & _).
    specialize (Hb1 id s). rewrite Hc in Hb1. destruct (forEach (parse id) (commandsOf text1) s) as [u s1] eqn:E1.
    cbn [snd] in *. destruct (clients s1 !! id) as [c1 |] eqn:Hc1; [| done].
    rewrite (IH _ _ (setB_lookup id (restOf text1) s1 c1 Hc1)) by (try done; apply restOf_no_line). cbn [m_buffer].
    destruct (commandsOf_app text1 (texts (concat batches))) as [Ec Er]. rewrite Et, Ec, Er.
    pose proof (blind_forEach (parse id) (commandsOf (restOf text1 +:+ texts (concat batches))) (blind_parse id)) as (Hb2 & _).
    rewrite Hb2. cbn [snd]. rewrite setB_twice. rewrite forEach_app. unfold mbind, ST_bind. by rewrite E1.
Qed.

Lemma parse_written id objs : Forall wire_ok objs ->
  forall s, forEach (parse id) (map jsonPrint objs) s = forEach (serve id) objs s.
Proof.
  induction 1 as [| o objs Ho _ IH]; intros s; [done |]. cbn [map forEach]. unfold mbind, ST_bind.
  unfold parseCommand at 1. destruct Ho as [-> _]. destruct (serve id o s) as [u s1]. apply IH.
Qed.
End Reading.

(** ** Clients come and go *)

(** Every socket is counted, and the daemon is between two operations. *)
Definition healthy {W} (s : Server W) : Prop :=
  m_clientSockets s = Z.of_nat (size (clients s)) /\ consistent (daemon s) /\ m_deactivating (daemon s) = false.

Section Clients.
Context {W : Type} `{!WireguardUtils W} `{!IPUtils W} `{!DnsUtils W} `{!Platform W} `{Q : Qt}.
Variable hashOrder : gmap IPAddress Z -> list IPAddress.
Variable dateToString : option Z -> QString.
Variable stdSort : list IPAddress -> list IPAddress.
Hypothesis hashOrder_keys : forall e p, p ∈ hashOrder e <-> p ∈ dom e.

(** The operations of the daemon a server calls. *)
Definition sound {A : Type} (m : Daemon W -> A * Daemon W) : Prop :=
  forall d, consistent d -> consistent (m d).2 /\ m_deactivating (m d).2 = m_deactivating d.

Lemma sound_exec {A} (m : ST (Daemon W) unit -> ST (Daemon W) A) cmd :
  (forall ev d, exec hashOrder dateToString ev cmd d = (tt, (m ev d).2)) ->
  sound (fun d => m (events hashOrder dateToString d) d).
Proof.
  intros Hm d Hd. unfold events. set (n := length (inbox d)).
  pose proof (keeps_exec hashOrder dateToString hashOrder_keys _ _ cmd
    (keeps_runEvents hashOrder dateToString hashOrder_keys n) d Hd) as H1.
  pose proof (steady_exec hashOrder dateToString _ _ cmd (steady_runEvents hashOrder dateToString n) d) as H2.
  rewrite Hm in H1, H2. done.
Qed.

Lemma sound_activate config : sound (fun d => activate hashOrder (events hashOrder dateToString d) 2 config d).
Proof.
  apply (sound_exec (fun ev => activate hashOrder ev 2 config) (CActivate config)). intros ev d.
  unfold exec, mbind, ST_bind. by destruct (activate _ _ _ _ d).
Qed.

Lemma sound_deactivate b : sound (fun d => deactivate hashOrder (events hashOrder dateToString d) b d).
Proof.
  apply (sound_exec (fun ev => deactivate hashOrder ev b) (CDeactivate b)). intros ev d.
  unfold exec, mbind, ST_bind. by destruct (deactivate _ _ _ d).
Qed.

Lemma sound_status : sound (fun d => getStatus dateToString (events hashOrder dateToString d) d).
Proof.
  apply (sound_exec (fun ev => getStatus dateToString ev) CStatus). intros ev d.
  unfold exec, mbind, ST_bind. by destruct (getStatus _ _ d).
Qed.

Lemma healthy_onDaemon {A} (m : Daemon W -> A * Daemon W) s : sound m -> healthy s -> healthy (onDaemon m s).2.
Proof.
  intros Hm (Hn & Hc & Hd). specialize (Hm (daemon s) Hc). unfold onDaemon. destruct (m (daemon s)) as [a d].
  destruct Hm as [H1 H2]. cbn in H1, H2. split; [| by rewrite <- Hd]. cbn.
  destruct (deliver_blind (drop (length (trace (daemon s))) (trace d)) (clients s) O "") as (_ & _ & Hdom).
  by rewrite <- size_dom, Hdom, size_dom.
Qed.

Lemma healthy_bind {A B} (m : ST (Server W) A) (f : A -> ST (Server W) B) s :
  healthy (m s).2 -> (forall a s, healthy s -> healthy (f a s).2) -> healthy ((m ≫= f) s).2.
Proof. intros Hm Hf. unfold mbind, ST_bind. destruct (m s). by apply Hf. Qed.

Lemma healthy_alter f id (s : Server W) :
  healthy s -> healthy (mkServer (m_clientSockets s) (alter f id (clients s)) (daemon s)).
Proof. intros (Hn & Hc & Hd). split; [| done]. cbn. by rewrite <- size_dom, dom_alter_L, size_dom. Qed.

Lemma healthy_serve id obj s : healthy s -> healthy (dispatch hashOrder dateToString stdSort id obj s).2.
Proof.
  intros Hs. unfold dispatch. destruct (value obj "type") as [[] |]; try done.
  repeat match goal with |- healthy ((if ?b then _ else _) s).2 => destruct b end; try done; try by apply healthy_alter.
  - destruct (parseConfig stdSort obj) as [config |]; [| by apply healthy_alter].
    apply healthy_bind; [by apply healthy_onDaemon; [apply sound_activate |] |]. intros ok s1 H1.
    case_bool_decide; [by apply healthy_alter | done].
  - apply healthy_bind; [by apply healthy_onDaemon; [apply sound_deactivate |] | done].
  - apply healthy_bind; [by apply healthy_onDaemon; [apply sound_status |] |]. intros [o |] s1 H1; [| done].
    by apply healthy_alter.
Qed.

Lemma healthy_handle e s : possible e s -> healthy s -> healthy (handle hashOrder dateToString stdSort e s).2.
Proof.
  intros Hp Hs. destruct e as [[id |] | id input | id |]; cbn [handle possible] in *; [| done | | |].
  - destruct Hs as (Hn & Hd). split; [| done].
    change (m_clientSockets s + 1 = Z.of_nat (size (<[id := mkClient "" ""]> (clients s)))).
    rewrite map_size_insert_None by done. lia.
  - unfold readData, gets, mbind at 1, ST_bind at 1. destruct (clients s !! id) as [c |]; [| done].
    apply healthy_bind; [| intros rest s1 H1; by apply healthy_alter].
    apply (readLoop_keeps healthy); [| done]. intros cmd s1 H1. unfold parseCommand.
    destruct (jsonParse cmd); [by apply healthy_serve | done].
  - unfold socketGone. unfold get, mbind at 1, ST_bind at 1. apply healthy_bind.
    + destruct Hs as (Hn & Hd). split; [| done].
      change (m_clientSockets s - 1 = Z.of_nat (size (delete id (clients s)))). rewrite map_size_delete. destruct Hp as [c Hc]. rewrite Hc.
      assert (size (clients s) <> 0)%nat; [apply (map_size_ne_0_lookup_2 _ id); by rewrite Hc | lia].
    + intros _ s1 H1. destruct (_ >? 0); [done |]. apply healthy_bind; [| done].
      by apply healthy_onDaemon; [apply sound_deactivate |].
  - apply healthy_onDaemon; [| done]. apply (sound_exec (fun ev => exec hashOrder dateToString ev CTimeout) CTimeout).
    intros ev d. by destruct (exec _ _ _ _ d) as [[] d'].
Qed.

Lemma healthy_reachable s0 s : reachable hashOrder dateToString stdSort s0 s -> healthy s0 -> healthy s.
Proof. induction 1 as [| s e Hr IH Hp]; [done |]. intros H0. by apply healthy_handle; [| apply IH]. Qed.
End Clients.

(** ** Properties *)

(** C26 (roundtrip): the daemon handles exactly the objects a client wrote.
    Whatever the pieces the text arrives in and however they are spread over
    [readyRead] signals, a connection handles the objects written on the other
    side one by one in order, as if each came alone, and keeps the beginning
    of an unfinished line for the next reading. *)
Theorem server_reads_objects {W} `{U : !WireguardUtils W} `{I : !IPUtils W} `{D : !DnsUtils W} `{P : !Platform W}
  `{Q : Qt} (hashOrder : gmap IPAddress Z -> list IPAddress) (dateToString : option Z -> QString)
  (stdSort : list IPAddress -> list IPAddress) (s : Server W) (id : nat) (c : Client)
  (objs : list QJsonObject) (rest : string) (batches : list (list string))
  (Hc : clients s !! id = Some c) (Hb : m_buffer c = ""%string) (Hw : Forall wire_ok objs)
  (Hr : chr_contains newline rest = false) (Hn : Forall (Forall (fun t => t <> ""%string)) batches)
  (Ht : texts (concat batches) = texts (map writeText objs) +:+ rest) :
  forEach (readData hashOrder dateToString stdSort id) batches s
    = (tt, setB id rest (forEach (dispatch hashOrder dateToString stdSort id) objs s).2).
Proof.
  rewrite (reads_lines hashOrder dateToString stdSort id batches s c) by (rewrite ?Hb; done).
  rewrite Hb, string_app_nil, Ht. destruct (commandsOf_written objs rest Hw) as [-> ->].
  destruct (commandsOf_partial rest Hr) as [-> ->]. rewrite app_nil_r. by rewrite parse_written.
Qed.


(** ** Witnesses *)

Definition activateMessage : QJsonObject := <["type" := jstr "activate"]> sampleRequest.

(** Documents written as their type. *)
Definition wireQt : Qt := concreteQt
  (fun s => if String.eqb s "activate" then Some activateMessage
            else if String.eqb s "logs" || String.eqb s "status" || String.eqb s "deactivate" then Some (message s)
            else None)
  (fun o => qdata (toString (value o "type"))).

Definition idleServer : Server unit := mkServer 0 ∅ idle.
Definition sampleHandle : SEvent -> ST (Server unit) unit :=
  handle (WireguardUtils0 := sampleUtils) (IPUtils0 := sampleIPs) (DnsUtils0 := sampleDns)
    (Platform0 := samplePlatform) (Q := wireQt) sampleOrder sampleDate sampleSort.

(** One client, which asked for a tunnel. *)
Definition oneClient : Server unit := (sampleHandle (ENew (Some 7%nat)) idleServer).2.
Definition tunnelServer : Server unit :=
  (sampleHandle (EData 7 [String "a" ("ctivate" +:+ nl)]%string) oneClient).2.

Lemma server_reads_objects_witness :
  let input := [["act"; "ivate"]; [nl]; ["deactivate" +:+ nl +:+ "st"]]%string in
  let s := (forEach (readData (WireguardUtils0 := sampleUtils) (IPUtils0 := sampleIPs) (DnsUtils0 := sampleDns)
    (Platform0 := samplePlatform) (Q := wireQt) sampleOrder sampleDate sampleSort 7) input oneClient).2 in
  clients s !! 7%nat = Some (mkClient "st" ("disconnected" +:+ nl)).
Proof.
  intros input s. unfold s.
  rewrite (@server_reads_objects unit sampleUtils sampleIPs sampleDns samplePlatform wireQt sampleOrder sampleDate
    sampleSort oneClient 7 (mkClient "" "") [activateMessage; message "deactivate"] "st" input);
    [vm_compute; reflexivity | vm_compute; reflexivity | reflexivity | | reflexivity | | vm_compute; reflexivity].
  - repeat constructor; try (vm_compute; reflexivity); by vm_compute.
  - repeat constructor; by vm_compute.
Defined.

Lemma idleServer_healthy : healthy idleServer.
Proof. split; [done |]. split; [exact idle_consistent | done]. Qed.

Lemma tunnelServer_reachable :
  reachable (WireguardUtils0 := sampleUtils) (IPUtils0 := sampleIPs) (DnsUtils0 := sampleDns)
    (Platform0 := samplePlatform) (Q := wireQt) sampleOrder sampleDate sampleSort idleServer tunnelServer.
Proof.
  unfold tunnelServer, oneClient, sampleHandle. repeat apply reach_step; [apply reach_refl | done |].
  exists (mkClient "" ""). vm_compute. reflexivity.
Qed.

