(* ===== verification/LocalSocket.v ===== *)
(** * The client's end of the socket: [client/mozilla/localsocketcontroller.cpp]

    [LocalSocketController] connects to the daemon, retrying a bounded number
    of times, asks for its status once and is then ready; it writes requests
    and turns the daemon's lines into signals.  The handlers are state
    transformers; [enabled] says when the event loop can call one, from what
    [QLocalSocket] and the single-shot [QTimer] do.  What the object does to
    the outside (writes, signals, callbacks) is kept in order in [out]. *)

From Stdlib Require Import ZArith Lia Bool String Ascii QArith.
From stdpp Require Import base gmap strings list.
From S2P Require Import Prelude.
From S2P Require Import Qt.
From S2P Require Import QtInstance.
From S2P Require Import IPAddress.
From S2P Require Import InterfaceConfig.
From S2P Require Import WireguardUtils.
From S2P Require Import Daemon.
From S2P Require Import LineProtocol.
From S2P Require Import DaemonConnection.

Open Scope Z_scope.

(** ** The request *)

(** [atoi] of the C library: white space, a sign, digits; the conversion goes
    through [long], which saturates, and keeps the low 32 bits. *)
Definition digit (c : ascii) : option Z :=
  let n := Z.of_N (Ascii.N_of_ascii c) - 48 in if (0 <=? n) && (n <? 10) then Some n else None.
Fixpoint digits (acc : Z) (s : string) : Z :=
  match s with
  | EmptyString => acc
  | String c s' => match digit c with Some d => digits (acc * 10 + d) s' | None => acc end
  end.
Definition strtol (s : string) : Z :=
  let n := match trim_left s with
           | String "-" s' => - digits 0 s'
           | String "+" s' => digits 0 s'
           | s' => digits 0 s'
           end in
  Z.max (- 2 ^ 63) (Z.min (2 ^ 63 - 1) n).
Definition atoi (s : string) : Z := (strtol s + 2 ^ 31) mod 2 ^ 32 - 2 ^ 31.

Definition range (address : string) (n : Z) (isIpv6 : bool) : json :=
  JObject (<["isIpv6" := JBool isIpv6]> (<["range" := jint n]> (<["address" := jstr address]> ∅))).

(** One element of a list of networks of the user. *)
Definition rangeOf (v : json) : json :=
  let ipRange := qdata (toString (Some v)) in
  match split "/" ipRange with
  | a :: n :: _ => range a (atoi n) false
  | _ => range ipRange 32 false
  end.

(** An undefined value in an array is null. *)
Definition element (v : option json) : json := default JNull v.

Definition isDefaultAllowed (l : list json) : bool :=
  match l with
  | [JString a; JString b] => qeqb a "0.0.0.0/0" && qeqb b "::/0"
  | _ => false
  end.

(** The parameters of AmneziaWG, in the order they are copied; the first
    eleven must all be there for a protocol other than AmneziaWG. *)
Definition junkKeys : list string :=
  ["Jc"; "Jmin"; "Jmax"; "S1"; "S2"; "S3"; "S4"; "H1"; "H2"; "H3"; "H4"]%string.
Definition awgKeys : list string :=
  junkKeys ++ ["I1"; "I2"; "I3"; "I4"; "I5"; "RandomTrailers"; "DisableCookies"; "HeaderProtectionKey";
    "ContentPaddingAddition"; "RekeyAfterTime"; "RekeyTimeout"; "RejectAfterTime"; "KeepaliveTimeout";
    "MaxHandshakeAttempts"]%string.

Definition copyKeys (from : QJsonObject) (keys : list string) (json : QJsonObject) : QJsonObject :=
  fold_left (fun j k => jinsert k (value from k) j) keys json.

Definition wgConfigOf (rawConfig : QJsonObject) : QJsonObject :=
  toObject (value rawConfig (qdata (toString (value rawConfig "protocol")) +:+ "_config_data")).

Definition allowedRanges (rawConfig : QJsonObject) : list json :=
  let splitTunnelType := toIntJ (value rawConfig "splitTunnelType") in
  let plainAllowedIP := toArray (value (wgConfigOf rawConfig) "allowed_ips") in
  if negb (isDefaultAllowed plainAllowedIP) && negb (bool_decide (length plainAllowedIP = O)) then
    map rangeOf plainAllowedIP
  else
    (if (splitTunnelType =? 0) || (splitTunnelType =? 2) then [range "0.0.0.0" 0 false; range "::" 0 true] else [])
    ++ (if splitTunnelType =? 1 then map rangeOf (toArray (value rawConfig "splitTunnelSites")) else []).

Definition excludedList (rawConfig : QJsonObject) : list json :=
  [element (value (wgConfigOf rawConfig) "hostName")]
  ++ (if toIntJ (value rawConfig "splitTunnelType") =? 2
      then map (fun v => JString (toString (Some v))) (toArray (value rawConfig "splitTunnelSites")) else [])
  ++ map (fun v => JString (toString (Some v)))
       (List.filter (fun v => negb (isEmpty (toString (Some v)))) (toArray (value rawConfig "localSubnetExclusions"))).

Definition amneziaDns : string := "172.29.172.254".

(** The object [activate] writes. *)
Definition activateRequest (rawConfig : QJsonObject) : QJsonObject :=
  let protocolName := qdata (toString (value rawConfig "protocol")) in
  let wgConfig := wgConfigOf rawConfig in
  let json := message "activate" in
  let json := jinsert "privateKey" (value wgConfig "client_priv_key") json in
  let json := jinsert "deviceIpv4Address" (value wgConfig "client_ip") json in
  let json := jinsert "deviceIpv6Address" (Some (jstr "fd58:baa6:dead::1")) json in
  let json := jinsert "serverPublicKey" (value wgConfig "server_pub_key") json in
  let json := jinsert "serverPskKey" (value wgConfig "psk_key") json in
  let json := jinsert "serverIpv4AddrIn" (value wgConfig "hostName") json in
  let json := jinsert "deviceMTU" (value wgConfig "mtu") json in
  let json := jinsert "serverPort" (Some (jint (toIntJ (value wgConfig "port")))) json in
  let json := jinsert "serverIpv4Gateway" (value wgConfig "hostName") json in
  let json := jinsert "primaryDnsServer" (value rawConfig "dns1") json in
  let json := if str_contains amneziaDns (qdata (toString (value rawConfig "dns1"))) then json
              else jinsert "secondaryDnsServer" (value rawConfig "dns2") json in
  let json := jinsert "allowedIPAddressRanges" (Some (JArray (allowedRanges rawConfig))) json in
  let json := jinsert "excludedAddresses" (Some (JArray (excludedList rawConfig))) json in
  let json := if toIntJ (value rawConfig "appSplitTunnelType") =? 2
              then jinsert "vpnDisabledApps" (Some (JArray (toArray (value rawConfig "splitTunnelApps")))) json
              else json in
  let json := jinsert "allowedDnsServers" (Some (JArray (toArray (value rawConfig "allowedDnsServers")))) json in
  let json := jinsert "killSwitchOption" (value rawConfig "killSwitchOption") json in
  let json := jinsert "routeLanThroughVpn" (value rawConfig "routeLanThroughVpn") json in
  if String.eqb protocolName "awg" then copyKeys wgConfig awgKeys json
  else if forallb (fun k => negb (isUndefined (value wgConfig k))) junkKeys then copyKeys wgConfig awgKeys json
  else json.

(** ** State *)

Inductive DaemonState : Type := eUnknown | eInitializing | eReady | eDisconnected.
#[export] Instance DaemonState_eq_dec : EqDecision DaemonState.
Proof. solve_decision. Defined.

(** Where [QLocalSocket] is. *)
Inductive Socket : Type := SIdle | SConnecting | SOpen.

Inductive Output : Type :=
| OConnectToServer
| OWrite (obj : QJsonObject)
| OInitialized (status connected : bool) (date : option Z)
| OStatusUpdated (serverIpv4Gateway deviceIpv4Address : QString) (txBytes rxBytes : Q)
| OConnected (pubkey : QString)
| ODisconnected
| OLogs (callback : nat) (text : QString).

Record Controller : Type := mkController {
  m_daemonState : DaemonState;
  m_socket : Socket;
  c_buffer : string;               (** [m_buffer] *)
  m_deviceIpv4 : QString;
  m_logCallback : option nat;
  m_initializingTimer : bool;      (** [isActive] *)
  m_initializingRetry : Z;
  out : list Output
}.

Definition fresh : Controller := mkController eUnknown SIdle "" QNull None false 0 [].

Definition MAX_CONNECTION_RETRY : Z := 10.

Definition setState (x : DaemonState) : ST Controller unit := modify (fun c =>
  mkController x (m_socket c) (c_buffer c) (m_deviceIpv4 c) (m_logCallback c) (m_initializingTimer c) (m_initializingRetry c) (out c)).
Definition setSocket (x : Socket) : ST Controller unit := modify (fun c =>
  mkController (m_daemonState c) x (c_buffer c) (m_deviceIpv4 c) (m_logCallback c) (m_initializingTimer c) (m_initializingRetry c) (out c)).
Definition setCBuffer (x : string) : ST Controller unit := modify (fun c =>
  mkController (m_daemonState c) (m_socket c) x (m_deviceIpv4 c) (m_logCallback c) (m_initializingTimer c) (m_initializingRetry c) (out c)).
Definition setDevice (x : QString) : ST Controller unit := modify (fun c =>
  mkController (m_daemonState c) (m_socket c) (c_buffer c) x (m_logCallback c) (m_initializingTimer c) (m_initializingRetry c) (out c)).
Definition setCallback (x : option nat) : ST Controller unit := modify (fun c =>
  mkController (m_daemonState c) (m_socket c) (c_buffer c) (m_deviceIpv4 c) x (m_initializingTimer c) (m_initializingRetry c) (out c)).
Definition setTimer (x : bool) : ST Controller unit := modify (fun c =>
  mkController (m_daemonState c) (m_socket c) (c_buffer c) (m_deviceIpv4 c) (m_logCallback c) x (m_initializingRetry c) (out c)).
Definition setRetry (x : Z) : ST Controller unit := modify (fun c =>
  mkController (m_daemonState c) (m_socket c) (c_buffer c) (m_deviceIpv4 c) (m_logCallback c) (m_initializingTimer c) x (out c)).
Definition output (x : Output) : ST Controller unit := modify (fun c =>
  mkController (m_daemonState c) (m_socket c) (c_buffer c) (m_deviceIpv4 c) (m_logCallback c) (m_initializingTimer c) (m_initializingRetry c) (out c ++ [x])).

Section Controller.
Context `{Q : Qt}.
(** [QDateTime::fromString]; [None] is an invalid date. *)
Variable dateFromString : string -> option Z.

Definition disconnectInternal : ST Controller unit :=
  setState eReady ;; setRetry 0 ;; setTimer false ;; output ODisconnected.

Definition errorOccurred : ST Controller unit :=
  state ← gets m_daemonState;
  retry ← gets m_initializingRetry;
  if bool_decide (state = eInitializing) then
    setRetry (u32 (retry + 1)) ;;
    if retry <? MAX_CONNECTION_RETRY then setTimer true
    else output (OInitialized false false None) ;; disconnectInternal
  else disconnectInternal.

Definition initializeInternal : ST Controller unit :=
  setState eInitializing ;; output OConnectToServer ;; setSocket SConnecting.

Definition initialize : ST Controller unit := setRetry 0 ;; initializeInternal.

Definition cwrite (obj : QJsonObject) : ST Controller unit := output (OWrite obj).

Definition checkStatus : ST Controller unit :=
  state ← gets m_daemonState;
  if bool_decide (state = eReady) || bool_decide (state = eInitializing) then cwrite (message "status")
  else mret tt.

Definition daemonConnected : ST Controller unit := checkStatus.

Definition activateTunnel (rawConfig : QJsonObject) : ST Controller unit :=
  setDevice (toString (value (wgConfigOf rawConfig) "client_ip")) ;; cwrite (activateRequest rawConfig).

Definition deactivateTunnel : ST Controller unit :=
  state ← gets m_daemonState;
  if bool_decide (state = eReady) then cwrite (message "deactivate") ;; output ODisconnected
  else output ODisconnected.

(** The callback that still waits gets the empty text. *)
Definition dropCallback : ST Controller unit :=
  callback ← gets m_logCallback;
  match callback with
  | Some k => output (OLogs k "") ;; setCallback None
  | None => mret tt
  end.

Definition getBackendLogs (a_callback : nat) : ST Controller unit :=
  dropCallback ;;
  state ← gets m_daemonState;
  if bool_decide (state = eReady) then setCallback (Some a_callback) ;; cwrite (message "logs")
  else output (OLogs a_callback "").

Definition cleanupBackendLogs : ST Controller unit :=
  dropCallback ;;
  state ← gets m_daemonState;
  if bool_decide (state = eReady) then cwrite (message "cleanlogs") else mret tt.

(** The first status: the controller is ready, whatever the rest says. *)
Definition firstStatus (obj : QJsonObject) : ST Controller unit :=
  setState eReady ;;
  match value obj "connected" with
  | Some (JBool true) =>
      match value obj "date" with
      | Some (JString date) =>
          match dateFromString (qdata date) with
          | Some t => output (OInitialized true true (Some t))
          | None => mret tt
          end
      | _ => mret tt
      end
  | Some (JBool false) => output (OInitialized true false None)
  | _ => mret tt
  end.

Definition laterStatus (obj : QJsonObject) : ST Controller unit :=
  match value obj "serverIpv4Gateway", value obj "deviceIpv4Address", value obj "txBytes", value obj "rxBytes" with
  | Some (JString gateway), Some (JString device), Some (JDouble tx), Some (JDouble rx) =>
      output (OStatusUpdated gateway device tx rx)
  | _, _, _, _ => mret tt
  end.

(** All branches of [backendFailure] only write to the log. *)
Definition handleObject (obj : QJsonObject) : ST Controller unit :=
  match value obj "type" with
  | Some (JString t) =>
      let type := qdata t in
      state ← gets m_daemonState;
      if bool_decide (state = eInitializing) && String.eqb type "status" then firstStatus obj
      else if negb (bool_decide (state = eReady)) then mret tt
      else if String.eqb type "status" then laterStatus obj
      else if String.eqb type "disconnected" then disconnectInternal
      else if String.eqb type "connected" then
        match value obj "pubkey" with
        | Some (JString pubkey) =>
            checkStatus ;;
            device ← gets m_deviceIpv4;
            output (OStatusUpdated "" device 0%Q 0%Q) ;;
            output (OConnected pubkey)
        | _ => mret tt
        end
      else if String.eqb type "logs" then
        callback ← gets m_logCallback;
        match callback with
        | None => mret tt
        | Some k =>
            output (OLogs k (match value obj "logs" with
                             | Some (JString l) => QStr (replaceChar "|"%char newline (qdata l))
                             | _ => QNull
                             end)) ;;
            setCallback None
        end
      else mret tt
  | _ => mret tt
  end.

Definition parseLine (command : string) : ST Controller unit :=
  match jsonParse command with Some obj => handleObject obj | None => mret tt end.

(** [readData]: what the socket holds, then the lines of the buffer. *)
Definition readSocket (input : string) : ST Controller unit :=
  buffer ← gets c_buffer;
  let text := buffer +:+ input in
  rest ← drain parseLine (String.length text) text;
  setCBuffer rest.

(** ** The event loop *)

Inductive CEvent : Type :=
| EvInitialize
| EvConnected                      (** the socket is connected *)
| EvError                          (** [errorOccurred] or [disconnected] of the socket *)
| EvTimer                          (** [m_initializingTimer] *)
| EvData (input : string)          (** [readyRead] *)
| EvActivate (rawConfig : QJsonObject)
| EvDeactivate
| EvCheckStatus
| EvGetLogs (callback : nat)
| EvCleanLogs.

Definition react (e : CEvent) : ST Controller unit :=
  match e with
  | EvInitialize => initialize
  | EvConnected => setSocket SOpen ;; daemonConnected
  | EvError => setSocket SIdle ;; errorOccurred
  | EvTimer => setTimer false ;; initializeInternal
  | EvData input => readSocket input
  | EvActivate rawConfig => activateTunnel rawConfig
  | EvDeactivate => deactivateTunnel
  | EvCheckStatus => checkStatus
  | EvGetLogs callback => getBackendLogs callback
  | EvCleanLogs => cleanupBackendLogs
  end.

(** When the loop can call a handler.  [initialize] is called once, on a new
    object; a socket that was never asked to connect has no error; a closed
    socket may report it more than once. *)
Definition enabled (e : CEvent) (c : Controller) : Prop :=
  match e with
  | EvInitialize => m_daemonState c = eUnknown
  | EvConnected => m_socket c = SConnecting
  | EvError => m_daemonState c <> eUnknown
  | EvTimer => m_initializingTimer c = true
  | EvData _ => m_socket c = SOpen
  | _ => True
  end.

(** The states of a run of the loop. *)
Inductive runs : Controller -> list CEvent -> Controller -> Prop :=
| runs_nil c : runs c [] c
| runs_cons c e l c' : enabled e c -> runs (react e c).2 l c' -> runs c (e :: l) c'.
End Controller.

(** ** The life of a controller *)

Definition tally (p : Output -> bool) (c : Controller) : Z := Z.of_nat (length (List.filter p (out c))).
Definition isConnect (o : Output) : bool := match o with OConnectToServer => true | _ => false end.
Definition isInitialized (o : Output) : bool := match o with OInitialized _ _ _ => true | _ => false end.

(** What the bounds are about: the state, the socket, the timer, the retries,
    the attempts to connect and the reports of [initialized]. *)
Definition lifeView (c : Controller) : DaemonState * Socket * bool * Z * Z * Z :=
  (m_daemonState c, m_socket c, m_initializingTimer c, m_initializingRetry c, tally isConnect c, tally isInitialized c).

Definition lifeOf (v : DaemonState * Socket * bool * Z * Z * Z) : Prop :=
  let '(state, socket, timer, retry, attempts, reports) := v in
  0 <= retry <= 10 /\ 0 <= attempts /\ 0 <= reports
  /\ match state with
     | eUnknown => socket = SIdle /\ timer = false /\ attempts = 0 /\ reports = 0
     | eInitializing => reports = 0 /\ (if timer : bool then socket = SIdle /\ attempts <= retry
                                        else socket <> SIdle /\ attempts <= retry + 1)
     | eReady => timer = false /\ socket <> SConnecting /\ attempts <= 11 /\ reports <= 1
     | eDisconnected => False
     end.

Definition life (c : Controller) : Prop := lifeOf (lifeView c).

Lemma tally_output p o c : tally p (output o c).2 = tally p c + (if p o then 1 else 0).
Proof.
  unfold tally, output, modify. cbn [snd out]. rewrite List.filter_app, length_app. cbn. destruct (p o); cbn; lia.
Qed.

Lemma lifeView_output o c : lifeView (output o c).2 =
  (m_daemonState c, m_socket c, m_initializingTimer c, m_initializingRetry c,
   tally isConnect c + (if isConnect o then 1 else 0), tally isInitialized c + (if isInitialized o then 1 else 0)).
Proof. unfold lifeView. by rewrite !tally_output. Qed.

(** A member after which the bounded part is [f] of what it was. *)
Definition moves (m : ST Controller unit) (c : Controller) v : Prop := lifeView (m c).2 = v.

Lemma moves_bind (m k : ST Controller unit) c v : moves k (m c).2 v -> moves (m ;; k) c v.
Proof. unfold moves, mbind, ST_bind. by destruct (m c). Qed.

Section Life.
Context `{Q : Qt}.
Variable dateFromString : string -> option Z.

(** A member that only writes, calls back or sets what the bounds do not
    mention. *)
Definition harmless (m : ST Controller unit) : Prop := forall c, lifeView (m c).2 = lifeView c.

Lemma harmless_bind (m k : ST Controller unit) : harmless m -> harmless k -> harmless (m ;; k).
Proof. intros Hm Hk c. unfold mbind, ST_bind. specialize (Hm c). destruct (m c) as [u c1]. by rewrite Hk. Qed.

Lemma harmless_output o : isConnect o = false -> isInitialized o = false -> harmless (output o).
Proof. intros H1 H2 c. rewrite lifeView_output, H1, H2, !Z.add_0_r. done. Qed.

Lemma harmless_gets {A : Type} (f : Controller -> A) (k : A -> ST Controller unit) :
  (forall a, harmless (k a)) -> harmless (gets f ≫= k).
Proof. intros Hk c. apply Hk. Qed.

Lemma harmless_ret : harmless (mret tt).
Proof. done. Qed.
Lemma harmless_callback k : harmless (setCallback k).
Proof. done. Qed.
Lemma harmless_device k : harmless (setDevice k).
Proof. done. Qed.
Lemma harmless_cbuffer k : harmless (setCBuffer k).
Proof. done. Qed.

Ltac by_harmless :=
  repeat first [ apply harmless_ret | apply harmless_callback | apply harmless_device | apply harmless_cbuffer
    | apply harmless_output; reflexivity | apply harmless_gets; intros ? | apply harmless_bind
    | match goal with |- harmless (if ?b then _ else _) => destruct b
                    | |- harmless (match ?x with _ => _ end) => destruct x end ].

Lemma harmless_check : harmless checkStatus.
Proof. unfold checkStatus, cwrite. by_harmless. Qed.
Lemma harmless_later obj : harmless (laterStatus obj).
Proof. unfold laterStatus. by_harmless. Qed.
Lemma harmless_drop : harmless dropCallback.
Proof. unfold dropCallback. by_harmless. Qed.
Lemma harmless_activate raw : harmless (activateTunnel raw).
Proof. unfold activateTunnel, cwrite. by_harmless. Qed.
Lemma harmless_deactivate : harmless deactivateTunnel.
Proof. unfold deactivateTunnel, cwrite. by_harmless. Qed.
Lemma harmless_logs k : harmless (getBackendLogs k).
Proof. unfold getBackendLogs, cwrite. apply harmless_bind; [apply harmless_drop |]. by_harmless. Qed.
Lemma harmless_clean : harmless cleanupBackendLogs.
Proof. unfold cleanupBackendLogs, cwrite. apply harmless_bind; [apply harmless_drop |]. by_harmless. Qed.

Lemma lifeView_disconnect c : lifeView (disconnectInternal c).2 =
  (eReady, m_socket c, false, 0, tally isConnect c, tally isInitialized c).
Proof.
  unfold disconnectInternal. apply moves_bind, moves_bind, moves_bind. unfold moves. rewrite lifeView_output, !Z.add_0_r. done.
Qed.

Lemma lifeView_error c : 0 <= m_initializingRetry c <= 10 -> lifeView (errorOccurred c).2 =
  if bool_decide (m_daemonState c = eInitializing) then
    if m_initializingRetry c <? 10
    then (eInitializing, m_socket c, true, m_initializingRetry c + 1, tally isConnect c, tally isInitialized c)
    else (eReady, m_socket c, false, 0, tally isConnect c, tally isInitialized c + 1)
  else (eReady, m_socket c, false, 0, tally isConnect c, tally isInitialized c).
Proof.
  intros Hr.
  assert (E : errorOccurred c = if bool_decide (m_daemonState c = eInitializing) then
    (setRetry (u32 (m_initializingRetry c + 1)) ;;
     if m_initializingRetry c <? MAX_CONNECTION_RETRY then setTimer true
     else output (OInitialized false false None) ;; disconnectInternal) c else disconnectInternal c).
  { unfold errorOccurred, gets, mbind at 1 2, ST_bind at 1 2. by destruct (bool_decide _). }
  rewrite E. case_bool_decide as Hs; [| apply lifeView_disconnect]. apply moves_bind. change MAX_CONNECTION_RETRY with 10.
  destruct (m_initializingRetry c <? 10).
  - unfold moves. cbn. unfold u32, lifeView, tally. cbn. rewrite Z.mod_small by lia. by rewrite Hs.
  - apply moves_bind. unfold moves. rewrite lifeView_disconnect.
    rewrite !tally_output. cbn [isConnect isInitialized]. rewrite Z.add_0_r. done.
Qed.

Lemma lifeView_connect c : lifeView (initializeInternal c).2 =
  (eInitializing, SConnecting, m_initializingTimer c, m_initializingRetry c, tally isConnect c + 1, tally isInitialized c).
Proof.
  unfold initializeInternal. apply moves_bind, moves_bind. unfold moves.
  unfold lifeView.
  change (tally isConnect (setSocket SConnecting (output OConnectToServer (setState eInitializing c).2).2).2)
    with (tally isConnect (output OConnectToServer (setState eInitializing c).2).2).
  change (tally isInitialized (setSocket SConnecting (output OConnectToServer (setState eInitializing c).2).2).2)
    with (tally isInitialized (output OConnectToServer (setState eInitializing c).2).2).
  rewrite !tally_output. cbn [isConnect isInitialized]. rewrite Z.add_0_r. done.
Qed.

(** ** Lines of the daemon *)

Definition opened (c : Controller) : Prop := life c /\ m_socket c = SOpen.

Lemma opened_view c c' : lifeView c' = lifeView c -> opened c -> opened c'.
Proof.
  intros Hv [Hl Ho]. unfold opened, life. rewrite Hv. split; [done |].
  apply (f_equal (fun v => v.1.1.1.1.2)) in Hv. cbn in Hv. by rewrite Hv.
Qed.

Lemma opened_first obj c : m_daemonState c = eInitializing -> opened c -> opened (firstStatus dateFromString obj c).2.
Proof.
  intros Hs [Hl Ho]. unfold life, lifeView in Hl. rewrite Hs, Ho in Hl. cbn in Hl.
  destruct Hl as (Hr & Ha & Hb & Hi & Ht). destruct (m_initializingTimer c) eqn:Et; [by destruct Ht |].
  assert (Hc : forall n, 0 <= n <= 1 ->
    lifeOf (eReady, SOpen, m_initializingTimer c, m_initializingRetry c, tally isConnect c, tally isInitialized c + n)).
  { intros n Hn. rewrite Et. cbn. repeat split; try done; lia. }
  assert (H1 : forall s k d, opened (output (OInitialized s k d) (setState eReady c).2).2).
  { intros s k d. unfold opened, life. rewrite lifeView_output. cbn [isConnect isInitialized]. rewrite Z.add_0_r.
    split; [cbn [m_socket setState modify snd]; rewrite Ho; apply Hc; lia | exact Ho]. }
  assert (H0 : opened (setState eReady c).2).
  { split; [| exact Ho]. specialize (Hc 0 ltac:(lia)). rewrite Z.add_0_r in Hc. unfold life, lifeView. cbn. by rewrite Ho. }
  unfold firstStatus, mbind, ST_bind. change (setState eReady c) with (tt, (setState eReady c).2).
  cbn iota beta. repeat case_match; solve [apply H1 | apply H0].
Qed.

Lemma opened_disconnect c : opened c -> opened (disconnectInternal c).2.
Proof.
  intros [Hl Ho]. unfold opened, life. rewrite lifeView_disconnect, Ho. unfold life, lifeView in Hl. rewrite Ho in Hl.
  split; [| done]. cbn in *. destruct Hl as (Hr & Ha & Hb & Hs). repeat split; try lia; try done.
  all: destruct (m_daemonState c), (m_initializingTimer c); destruct_and?; try done; lia.
Qed.

Lemma opened_object obj c : opened c -> opened (handleObject dateFromString obj c).2.
Proof.
  intros Hc. unfold handleObject. destruct (value obj "type") as [[] |]; try done.
  match goal with |- context [(gets ?f ≫= ?k) c] => change ((gets f ≫= k) c) with (k (f c) c) end. cbv beta.
  destruct (bool_decide _ && _) eqn:Ei.
  { apply andb_true_iff in Ei as [Ei _]. apply bool_decide_eq_true in Ei. by apply opened_first. }
  clear Ei. destruct (negb _); [done |].
  destruct (String.eqb _ "status"); [apply (opened_view c); [apply harmless_later | done] |].
  destruct (String.eqb _ "disconnected"); [by apply opened_disconnect |].
  match goal with |- opened (?m c).2 => apply (opened_view c); [assert (Hm : harmless m); [| apply Hm] | done] end.
  destruct (String.eqb _ "connected").
  - destruct (value obj "pubkey") as [[] |]; try apply harmless_ret.
    apply (harmless_bind checkStatus); [apply harmless_check |]. by_harmless.
  - destruct (String.eqb _ "logs"); [| apply harmless_ret]. by_harmless.
Qed.

Lemma opened_read input c : opened c -> opened (readSocket dateFromString input c).2.
Proof.
  intros Hc. unfold readSocket.
  match goal with |- context [(gets ?f ≫= ?k) c] => change ((gets f ≫= k) c) with (k (f c) c) end. cbv beta zeta.
  unfold mbind, ST_bind. pose proof (drain_keeps opened (parseLine dateFromString)) as Hd.
  specialize (Hd (String.length (c_buffer c +:+ input)) (c_buffer c +:+ input) c).
  destruct (drain _ _ _ c) as [rest c1]. refine (opened_view c1 _ _ (Hd _ Hc)); [done |].
  intros cmd c2 H2. unfold parseLine. destruct (jsonParse cmd); [by apply opened_object | done].
Qed.
End Life.

(** ** Runs of the loop *)

Section Runs.
Context `{Q : Qt}.
Variable dateFromString : string -> option Z.

Lemma life_harmless m c : harmless m -> life c -> life (m c).2.
Proof. unfold life. intros Hm. by rewrite Hm. Qed.

Lemma bind_set (m k : ST Controller unit) c : ((m ;; k) c).2 = (k (m c).2).2.
Proof. unfold mbind, ST_bind. by destruct (m c). Qed.

Lemma life_retry c : life c -> 0 <= m_initializingRetry c <= 10.
Proof. intros Hl. apply Hl. Qed.

(** A member that leaves [out] alone keeps the counts. *)
Ltac same_tally x c :=
  change (tally isConnect x) with (tally isConnect c); change (tally isInitialized x) with (tally isInitialized c).

Lemma life_error c : life c -> m_daemonState c <> eUnknown -> life (react dateFromString EvError c).2.
Proof.
  intros Hl Hn. cbn [react]. rewrite bind_set. unfold life. rewrite lifeView_error by exact (life_retry c Hl).
  same_tally (setSocket SIdle c).2 c.
  unfold life, lifeView in Hl. cbn [m_socket m_daemonState m_initializingRetry setSocket modify snd]. unfold lifeOf in *. destruct Hl as (Hr & Ha & Hb & Hs).
  destruct (m_daemonState c), (m_initializingTimer c); try done; cbn [bool_decide];
    rewrite ?bool_decide_eq_true_2, ?bool_decide_eq_false_2 by done;
    try (destruct (m_initializingRetry c <? 10) eqn:E; zbool); destruct_and?; repeat split; try done; lia.
Qed.

Lemma life_react e c : enabled e c -> life c -> life (react dateFromString e c).2.
Proof.
  intros He Hl. pose proof Hl as Hv. unfold life, lifeView, lifeOf in Hv.
  destruct e; cbn [enabled] in He.
  - cbn [react]. unfold initialize. rewrite bind_set. unfold life. rewrite lifeView_connect.
    same_tally (setRetry 0 c).2 c. cbn [m_initializingTimer m_initializingRetry setRetry modify snd].
    rewrite He in Hv. destruct_and!. cbn [lifeOf].
    match goal with H : m_initializingTimer c = false |- _ => rewrite H end. repeat split; try done; lia.
  - cbn [react]. rewrite bind_set. apply life_harmless; [apply harmless_check |]. unfold life, lifeView, lifeOf.
    same_tally (setSocket SOpen c).2 c.
    cbn [m_socket m_daemonState m_initializingRetry m_initializingTimer setSocket modify snd].
    rewrite He in Hv. destruct (m_daemonState c), (m_initializingTimer c); destruct_and?; try done; repeat split; try done; lia.
  - by apply life_error.
  - cbn [react]. rewrite bind_set. unfold life. rewrite lifeView_connect.
    same_tally (setTimer false c).2 c. cbn [m_initializingTimer m_initializingRetry setTimer modify snd lifeOf].
    rewrite He in Hv. destruct (m_daemonState c); destruct_and?; try done; repeat split; try done; lia.
  - cbn [react]. apply (opened_read dateFromString). by split.
  - by apply life_harmless; [apply harmless_activate |].
  - by apply life_harmless; [apply harmless_deactivate |].
  - by apply life_harmless; [apply harmless_check |].
  - by apply life_harmless; [apply harmless_logs |].
  - by apply life_harmless; [apply harmless_clean |].
Qed.

Lemma life_runs c l c' : runs dateFromString c l c' -> life c -> life c'.
Proof. induction 1 as [c | c e l c' He _ IH]; [done |]. intros Hl. by apply IH, life_react. Qed.

Lemma life_fresh : life fresh.
Proof.
  unfold life, lifeView. change (tally isConnect fresh) with 0. change (tally isInitialized fresh) with 0.
  cbn. repeat split; lia.
Qed.

(** ** Attempts *)

(** The events of the socket and the timer while the daemon says nothing. *)
Definition attempt (e : CEvent) : bool :=
  match e with EvError | EvTimer | EvConnected => true | _ => false end.
Definition errors (l : list CEvent) : Z :=
  Z.of_nat (length (List.filter (fun e => match e with EvError => true | _ => false end) l)).

(** After giving up. *)
Definition given_up (c : Controller) : Prop :=
  m_daemonState c = eReady /\ m_socket c = SIdle /\ OInitialized false false None ∈ out c.

Lemma errors_cons e l : errors (e :: l) = errors l + match e with EvError => 1 | _ => 0 end.
Proof. unfold errors. destruct e; cbn; lia. Qed.

Lemma out_check c : exists l, out (checkStatus c).2 = out c ++ l.
Proof.
  unfold checkStatus. match goal with |- context [(gets ?f ≫= ?k) c] => change ((gets f ≫= k) c) with (k (f c) c) end.
  cbv beta. destruct (_ || _); [by eexists | exists []; by rewrite app_nil_r].
Qed.

Lemma given_up_stays e c : life c -> given_up c -> attempt e = true -> enabled e c -> given_up (react dateFromString e c).2.
Proof.
  intros Hl (Hs & Hk & Ho) Ha He. unfold life, lifeView in Hl. rewrite Hs, Hk in Hl. destruct Hl as (_ & _ & _ & Ht & _).
  destruct e; try done; cbn in He; [congruence | | congruence]. cbn [react]. rewrite bind_set.
  change (errorOccurred (setSocket SIdle c).2)
    with ((fun s r => (if bool_decide (s = eInitializing)
       then (setRetry (u32 (r + 1)) ;; if r <? MAX_CONNECTION_RETRY then setTimer true
             else output (OInitialized false false None) ;; disconnectInternal) else disconnectInternal) (setSocket SIdle c).2)
      (m_daemonState c) (m_initializingRetry c)). cbv beta. rewrite Hs. rewrite bool_decide_eq_false_2 by done.
  split; [done |]. split; [done |].
  change (OInitialized false false None ∈ out c ++ [ODisconnected]). rewrite elem_of_app. by left.
Qed.

Lemma error_step c : life c -> m_daemonState c = eInitializing ->
  let c' := (react dateFromString EvError c).2 in
  if m_initializingRetry c <? 10
  then m_daemonState c' = eInitializing /\ m_initializingRetry c' = m_initializingRetry c + 1
  else given_up c'.
Proof.
  intros Hl Hs c'. pose proof (life_retry c Hl) as Hr.
  pose proof (lifeView_error (setSocket SIdle c).2 Hr) as Hv.
  assert (Ec : (errorOccurred (setSocket SIdle c).2).2 = c') by (unfold c'; cbn [react]; by rewrite bind_set).
  rewrite Ec in Hv. cbn [m_daemonState m_initializingRetry setSocket modify snd m_socket] in Hv.
  rewrite Hs, bool_decide_eq_true_2 in Hv by done.
  destruct (m_initializingRetry c <? 10) eqn:E.
  - split; [exact (f_equal (fun v => v.1.1.1.1.1) Hv) | exact (f_equal (fun v => v.1.1.2) Hv)].
  - split; [exact (f_equal (fun v => v.1.1.1.1.1) Hv) |]. split; [exact (f_equal (fun v => v.1.1.1.1.2) Hv) |].
    clear Hv. subst c'. cbn [react]. rewrite bind_set.
    change (errorOccurred (setSocket SIdle c).2)
      with ((fun s r => (if bool_decide (s = eInitializing)
         then (setRetry (u32 (r + 1)) ;; if r <? MAX_CONNECTION_RETRY then setTimer true
               else output (OInitialized false false None) ;; disconnectInternal) else disconnectInternal) (setSocket SIdle c).2)
        (m_daemonState c) (m_initializingRetry c)). cbv beta. rewrite Hs, bool_decide_eq_true_2 by done.
    change MAX_CONNECTION_RETRY with 10. rewrite E.
    change (OInitialized false false None ∈ (out c ++ [OInitialized false false None]) ++ [ODisconnected]).
    rewrite !elem_of_app. left. right. left.
Qed.

Lemma quiet_step e c : attempt e = true -> (match e with EvError => false | _ => true end) = true ->
  m_daemonState c = eInitializing ->
  m_daemonState (react dateFromString e c).2 = eInitializing
  /\ m_initializingRetry (react dateFromString e c).2 = m_initializingRetry c
  /\ tally isInitialized (react dateFromString e c).2 = tally isInitialized c.
Proof.
  intros Ha Hn Hs. destruct e; try done; cbn [react]; rewrite bind_set.
  - pose proof (harmless_check (setSocket SOpen c).2) as Hv.
    split; [etransitivity; [exact (f_equal (fun v => v.1.1.1.1.1) Hv) | exact Hs] |].
    split; [exact (f_equal (fun v => v.1.1.2) Hv) | exact (f_equal (fun v => v.2) Hv)].
  - pose proof (lifeView_connect (setTimer false c).2) as Hv.
    split; [exact (f_equal (fun v => v.1.1.1.1.1) Hv) |].
    split; [exact (f_equal (fun v => v.1.1.2) Hv) | exact (f_equal (fun v => v.2) Hv)].
Qed.

Lemma attempts_end c l c' : runs dateFromString c l c' -> life c -> forallb attempt l = true ->
  (given_up c -> given_up c')
  /\ (m_daemonState c = eInitializing ->
      if m_initializingRetry c + errors l <? 11
      then m_daemonState c' = eInitializing /\ m_initializingRetry c' = m_initializingRetry c + errors l
      else given_up c').
Proof.
  induction 1 as [c | c e l c' He Hr IH]; intros Hl Ha.
  - split; [done |]. intros Hs. pose proof (life_retry c Hl). change (errors []) with 0. rewrite Z.add_0_r.
    by rewrite (proj2 (Z.ltb_lt _ _)) by lia.
  - cbn [forallb] in Ha. apply andb_true_iff in Ha as [Ha1 Ha]. pose proof (life_react e c He Hl) as Hl1.
    destruct (IH Hl1 Ha) as [IH1 IH2]. split; [intros Hg; by apply IH1, given_up_stays |]. intros Hs.
    rewrite errors_cons. assert (0 <= errors l) by (unfold errors; lia). assert (e = EvError \/ e <> EvError) as [-> | Hne] by (destruct e; first [by left | by right]).
    + pose proof (error_step c Hl Hs) as He'. cbv zeta in He'. destruct (m_initializingRetry c <? 10) eqn:E; zbool.
      * destruct He' as [H1 H2]. specialize (IH2 H1). rewrite H2 in IH2.
        replace (m_initializingRetry c + (errors l + 1)) with (m_initializingRetry c + 1 + errors l) by lia. done.
      * rewrite (proj2 (Z.ltb_ge _ _)) by lia. by apply IH1.
    + destruct (quiet_step e c Ha1) as (H1 & H2 & _); [by destruct e | done |]. specialize (IH2 H1). rewrite H2 in IH2.
      by replace (errors l + match e with EvError => 1 | _ => 0 end) with (errors l) by (destruct e; try done; lia).
Qed.
End Runs.

(** ** The request, read by the daemon *)

Section Request.
Context `{Q : Qt}.

Lemma value_if (b : bool) (x y : QJsonObject) k : value (if b then x else y) k = if b then value x k else value y k.
Proof. by destruct b. Qed.

Lemma value_copy from keys : forall obj k,
  value (copyKeys from keys obj) k = if existsb (String.eqb k) keys then value from k else value obj k.
Proof.
  unfold copyKeys. induction keys as [| k0 keys IH]; intros obj k; [done |]. cbn [fold_left existsb]. rewrite IH, value_jinsert.
  rewrite (String.eqb_sym k0 k). destruct (String.eqb_spec k k0) as [-> |]; cbn [orb]; [by destruct (existsb _ _) | done].
Qed.

(** Copies the parameters of AmneziaWG when the protocol asks for it, or when
    they are all there. *)
Definition copiesJunk (raw : QJsonObject) : bool :=
  String.eqb (qdata (toString (value raw "protocol"))) "awg"
  || forallb (fun k => negb (isUndefined (value (wgConfigOf raw) k))) junkKeys.

Lemma value_unless (b : bool) k k' v (obj : QJsonObject) :
  value (if b then obj else jinsert k v obj) k' = if String.eqb k k' && negb b then v else value obj k'.
Proof. destruct b; [by rewrite andb_false_r | by rewrite andb_true_r, value_jinsert]. Qed.

Lemma value_when (b : bool) k k' v (obj : QJsonObject) :
  value (if b then jinsert k v obj else obj) k' = if String.eqb k k' && b then v else value obj k'.
Proof. destruct b; [by rewrite andb_true_r, value_jinsert | by rewrite andb_false_r]. Qed.

(** The keys that are not copied, the last insertion first. *)
Definition plainValue (raw : QJsonObject) (k : string) : option json :=
  let wg := wgConfigOf raw in
  if String.eqb "routeLanThroughVpn" k then value raw "routeLanThroughVpn"
  else if String.eqb "killSwitchOption" k then value raw "killSwitchOption"
  else if String.eqb "allowedDnsServers" k then Some (JArray (toArray (value raw "allowedDnsServers")))
  else if String.eqb "vpnDisabledApps" k && (toIntJ (value raw "appSplitTunnelType") =? 2)
    then Some (JArray (toArray (value raw "splitTunnelApps")))
  else if String.eqb "excludedAddresses" k then Some (JArray (excludedList raw))
  else if String.eqb "allowedIPAddressRanges" k then Some (JArray (allowedRanges raw))
  else if String.eqb "secondaryDnsServer" k && negb (str_contains amneziaDns (qdata (toString (value raw "dns1"))))
    then value raw "dns2"
  else if String.eqb "primaryDnsServer" k then value raw "dns1"
  else if String.eqb "serverIpv4Gateway" k then value wg "hostName"
  else if String.eqb "serverPort" k then Some (jint (toIntJ (value wg "port")))
  else if String.eqb "deviceMTU" k then value wg "mtu"
  else if String.eqb "serverIpv4AddrIn" k then value wg "hostName"
  else if String.eqb "serverPskKey" k then value wg "psk_key"
  else if String.eqb "serverPublicKey" k then value wg "server_pub_key"
  else if String.eqb "deviceIpv6Address" k then Some (jstr "fd58:baa6:dead::1")
  else if String.eqb "deviceIpv4Address" k then value wg "client_ip"
  else if String.eqb "privateKey" k then value wg "client_priv_key"
  else value (message "activate") k.

Lemma value_request raw k : value (activateRequest raw) k =
  if copiesJunk raw && existsb (String.eqb k) awgKeys then value (wgConfigOf raw) k else plainValue raw k.
Proof.
  unfold activateRequest, copiesJunk. cbv zeta.
  match goal with |- context [copyKeys _ awgKeys ?j] => set (base := j) end.
  assert (Hb : value base k = plainValue raw k).
  { unfold base, plainValue. by rewrite !value_jinsert, value_when, !value_jinsert, value_unless, !value_jinsert. }
  clearbody base. rewrite !value_if, !value_copy, Hb.
  by destruct (String.eqb _ "awg"), (forallb _ junkKeys), (existsb _ awgKeys).
Qed.

Lemma request_plain raw k : existsb (String.eqb k) awgKeys = false -> value (activateRequest raw) k = plainValue raw k.
Proof. intros Hk. by rewrite value_request, Hk, andb_false_r. Qed.

(** *** What the user asked for *)

(** A network of the user: its prefix, or 32 without one. *)
Definition networkOf (v : json) : IPAddress :=
  let t := qdata (toString (Some v)) in
  match split "/" t with
  | a :: n :: _ => ofHostPrefix (parseHost a) (atoi n)
  | _ => ofHostPrefix (parseHost t) 32
  end.

Definition tunnelNetworks (raw : QJsonObject) : list IPAddress :=
  let plain := toArray (value (wgConfigOf raw) "allowed_ips") in
  if isDefaultAllowed plain || bool_decide (plain = []) then
    if bool_decide (toIntJ (value raw "splitTunnelType") = 1) then map networkOf (toArray (value raw "splitTunnelSites"))
    else if bool_decide (toIntJ (value raw "splitTunnelType") ∈ [0; 2])
    then [ofHostPrefix (parseHost "0.0.0.0") 0; ofHostPrefix (parseHost "::") 0] else []
  else map networkOf plain.

Definition texts_of (v : option json) : list QString := map (fun j => toString (Some j)) (toArray v).

Definition excludedTexts (raw : QJsonObject) : list QString :=
  toString (value (wgConfigOf raw) "hostName")
  :: (if bool_decide (toIntJ (value raw "splitTunnelType") = 2) then texts_of (value raw "splitTunnelSites") else [])
  ++ List.filter (fun q => negb (isEmpty q)) (texts_of (value raw "localSubnetExclusions")).

Definition usesAmneziaDns (raw : QJsonObject) : bool := str_contains amneziaDns (qdata (toString (value raw "dns1"))).
Definition excludesApps (raw : QJsonObject) : bool := toIntJ (value raw "appSplitTunnelType") =? 2.

(** A string, or nothing. *)
Definition textOrNothing (v : option json) : bool := isString v || isUndefined v.
Definition allStrings (v : option json) : bool := forallb (fun j => isString (Some j)) (toArray v).

(** The configurations a request can be made of. *)
Definition usableRequest (raw : QJsonObject) : bool :=
  let wg := wgConfigOf raw in
  isString (value wg "client_priv_key") && isString (value wg "server_pub_key")
  && isString (value wg "hostName") && negb (isNull (toString (value wg "hostName")))
  && textOrNothing (value raw "dns1") && (usesAmneziaDns raw || textOrNothing (value raw "dns2"))
  && (negb (excludesApps raw) || allStrings (value raw "splitTunnelApps")) && allStrings (value raw "allowedDnsServers").

Definition requestedMtu (raw : QJsonObject) : Z :=
  let v := value (wgConfigOf raw) "mtu" in
  let mtu := intOf (qdata (toString v)) in
  if isUndefined v || (mtu =? 0) then 1420 else mtu.

Definition requested (stdSort : list IPAddress -> list IPAddress) (raw : QJsonObject) : InterfaceConfig :=
  let wg := wgConfigOf raw in
  let text o k := toString (value o k) in
  mkConfig SingleHop (text wg "client_priv_key") (text wg "client_ip") (QStr "fd58:baa6:dead::1")
    (text wg "hostName") QNull (text wg "server_pub_key") (text wg "hostName") (text wg "psk_key") QNull
    (text raw "dns1") (if usesAmneziaDns raw then QNull else text raw "dns2") (toIntJ (value wg "port"))
    (requestedMtu raw) (stdSort (tunnelNetworks raw)) (excludedTexts raw)
    (if excludesApps raw then texts_of (value raw "splitTunnelApps") else []) (texts_of (value raw "allowedDnsServers"))
    (variantBool (text raw "killSwitchOption")) (variantBool (text raw "routeLanThroughVpn"))
    (parseJunk (if copiesJunk raw then wg else ∅)).

(** *** The parts *)

Lemma request_value raw k v :
  existsb (String.eqb k) awgKeys = false -> plainValue raw k = v -> value (activateRequest raw) k = v.
Proof. intros Hk <-. by apply request_plain. Qed.

Lemma jcontains_value (obj : QJsonObject) k : jcontains obj k = negb (isUndefined (value obj k)).
Proof. unfold jcontains, value. by destruct (obj !! k). Qed.

Lemma parseJunk_ext (o1 o2 : QJsonObject) : (forall k, k ∈ awgKeys -> value o1 k = value o2 k) -> parseJunk o1 = parseJunk o2.
Proof.
  intros Hk. unfold parseJunk, unlessJNull, specialStep. cbn [fold_left]. rewrite !Hk by by_names. done.
Qed.

Lemma request_junk raw : parseJunk (activateRequest raw) = parseJunk (if copiesJunk raw then wgConfigOf raw else ∅).
Proof.
  apply parseJunk_ext. intros k Hk. rewrite value_request.
  assert (He : existsb (String.eqb k) awgKeys = true).
  { apply existsb_exists. exists k. split; [by apply list_elem_of_In | apply String.eqb_refl]. }
  rewrite He, andb_true_r. destruct (copiesJunk raw); [done |].
  assert (Hp : Forall (fun x => plainValue raw x = value ∅ x) awgKeys); [| by rewrite Forall_forall in Hp; apply Hp].
  unfold awgKeys, junkKeys. cbn [app]. repeat constructor.
Qed.

Lemma atoi_int s : - 2 ^ 31 <= atoi s < 2 ^ 31.
Proof. unfold atoi. pose proof (Z.mod_pos_bound (strtol s + 2 ^ 31) (2 ^ 32) ltac:(lia)). lia. Qed.

Lemma jint_int z : - 2 ^ 31 <= z < 2 ^ 31 -> toIntJ (Some (jint z)) = z.
Proof.
  intros Hz. unfold toIntJ, jint. cbn [Qnum Qden inject_Z]. rewrite Z.mod_1_r, Z.div_1_r, Z.eqb_refl.
  by rewrite (proj2 (Z.leb_le _ _)), (proj2 (Z.ltb_lt _ _)) by lia.
Qed.

Lemma parse_range a n b : - 2 ^ 31 <= n < 2 ^ 31 -> parseRange (range a n b) = Some (ofHostPrefix (parseHost a) n).
Proof.
  intros Hn. unfold parseRange, range.
  assert (E : forall m : QJsonObject, m = <["isIpv6":=JBool b]> (<["range":=jint n]> (<["address":=jstr a]> ∅)) ->
    value m "address" = Some (jstr a) /\ value m "range" = Some (jint n) /\ value m "isIpv6" = Some (JBool b)).
  { intros m ->. unfold value. by repeat split; repeat (rewrite lookup_insert_eq || rewrite lookup_insert_ne by done). }
  destruct (E _ eq_refl) as (-> & -> & ->). rewrite jint_int by done. done.
Qed.

Lemma parse_rangeOf v : parseRange (rangeOf v) = Some (networkOf v).
Proof.
  unfold rangeOf, networkOf. destruct (split _ _) as [| a [| n l]]; apply parse_range; try lia. apply atoi_int.
Qed.

Lemma parse_rangesOf l : parseRanges (map rangeOf l) = Some (map networkOf l).
Proof. induction l as [| v l IH]; [done |]. cbn [map parseRanges]. by rewrite parse_rangeOf, IH. Qed.

Lemma mode_tests (t : Z) : bool_decide (t = 1) = (t =? 1) /\ bool_decide (t ∈ [0; 2]) = (t =? 0) || (t =? 2).
Proof.
  split; apply eq_true_iff_eq; rewrite bool_decide_eq_true, ?orb_true_iff, ?Z.eqb_eq; [done |].
  rewrite !elem_of_cons, elem_of_nil. tauto.
Qed.

Lemma parse_allowed raw : parseRanges (allowedRanges raw) = Some (tunnelNetworks raw).
Proof.
  unfold allowedRanges, tunnelNetworks. set (plain := toArray _).
  assert (Hp : bool_decide (length plain = O) = bool_decide (plain = [])).
  { apply bool_decide_ext. destruct plain; [done |]. split; [done | by intros [=]]. }
  rewrite Hp. destruct (isDefaultAllowed plain), (bool_decide (plain = [])); cbn [negb andb orb]; try apply parse_rangesOf.
  all: generalize (toIntJ (value raw "splitTunnelType")); intros t; destruct (mode_tests t) as [-> ->].
  all: destruct (Z.eqb_spec t 1) as [-> |]; [apply parse_rangesOf |].
  all: destruct ((t =? 0) || (t =? 2)); [| done]; cbn [parseRanges app]; by rewrite !parse_range by lia.
Qed.

Lemma parse_list (obj : QJsonObject) k l : value obj k = Some (JArray l) -> parseStringList obj k = strings l.
Proof. intros Hk. unfold parseStringList. by rewrite jcontains_value, Hk. Qed.

Lemma optional_text (obj : QJsonObject) k v : value obj k = v ->
  optionalString obj k = if textOrNothing v then Some (toString v) else None.
Proof.
  intros Hk. unfold optionalString, getString. rewrite jcontains_value, Hk. by destruct v as [[] |].
Qed.

Lemma strings_app l1 l2 : strings (l1 ++ l2) =
  match strings l1, strings l2 with Some a, Some b => Some (a ++ b) | _, _ => None end.
Proof.
  induction l1 as [| [] l1 IH]; cbn [app strings]; try done; [by destruct (strings l2) |]. rewrite IH.
  by destruct (strings l1), (strings l2).
Qed.

Lemma strings_map {A : Type} (f : A -> QString) l : strings (map (fun x => JString (f x)) l) = Some (map f l).
Proof. induction l as [| x l IH]; [done |]. cbn [map strings]. by rewrite IH. Qed.

Lemma strings_all v : strings (toArray v) = if allStrings v then Some (texts_of v) else None.
Proof.
  unfold allStrings, texts_of. induction (toArray v) as [| [] l IH]; try done. cbn [strings forallb map isString andb].
  rewrite IH. by destruct (forallb _ l).
Qed.

Lemma strings_excluded raw : strings (excludedList raw) =
  if isString (value (wgConfigOf raw) "hostName") then Some (excludedTexts raw) else None.
Proof.
  unfold excludedList, excludedTexts. cbn [app].
  assert (Hl : strings ((if toIntJ (value raw "splitTunnelType") =? 2
      then map (fun v => JString (toString (Some v))) (toArray (value raw "splitTunnelSites")) else [])
    ++ map (fun v => JString (toString (Some v)))
       (List.filter (fun v => negb (isEmpty (toString (Some v)))) (toArray (value raw "localSubnetExclusions"))))
    = Some ((if bool_decide (toIntJ (value raw "splitTunnelType") = 2) then texts_of (value raw "splitTunnelSites") else [])
      ++ List.filter (fun q => negb (isEmpty q)) (texts_of (value raw "localSubnetExclusions")))).
  { rewrite strings_app, strings_map. unfold texts_of.
    assert (Hf : forall l, List.filter (fun q => negb (isEmpty q)) (map (fun j => toString (Some j)) l)
      = map (fun j => toString (Some j)) (List.filter (fun v => negb (isEmpty (toString (Some v)))) l)).
    { induction l as [| x l IH]; [done |]. cbn [map List.filter]. rewrite IH. by destruct (negb _). }
    rewrite Hf. destruct (_ =? 2) eqn:E; zbool.
    - rewrite E, strings_map. by rewrite bool_decide_eq_true_2.
    - by rewrite bool_decide_eq_false_2. }
  match type of Hl with strings ?x = Some ?y => set (xs := x) in *; set (ys := y) in *; clearbody xs ys end.
  destruct (value (wgConfigOf raw) "hostName") as [[] |]; cbn; try done. by rewrite Hl.
Qed.

Lemma request_apps raw : parseStringList (activateRequest raw) "vpnDisabledApps" =
  if negb (excludesApps raw) || allStrings (value raw "splitTunnelApps")
  then Some (if excludesApps raw then texts_of (value raw "splitTunnelApps") else []) else None.
Proof.
  destruct (excludesApps raw) eqn:E; unfold excludesApps in E.
  - rewrite (parse_list _ _ (toArray (value raw "splitTunnelApps"))); [apply strings_all |].
    apply request_value; [done |]. unfold plainValue. by rewrite E.
  - unfold parseStringList. rewrite jcontains_value, request_plain by done. unfold plainValue. by rewrite E.
Qed.

Lemma request_dns2 raw : optionalString (activateRequest raw) "secondaryDnsServer" =
  if usesAmneziaDns raw || textOrNothing (value raw "dns2")
  then Some (if usesAmneziaDns raw then QNull else toString (value raw "dns2")) else None.
Proof.
  rewrite (optional_text _ _ (if usesAmneziaDns raw then None else value raw "dns2")).
  - by destruct (usesAmneziaDns raw).
  - apply request_value; [done |]. unfold plainValue, usesAmneziaDns. by destruct (str_contains _ _).
Qed.

(** Rewrites with the value of one key of a request. *)
Ltac at_key k :=
  rewrite (request_plain _ k eq_refl); unfold plainValue; cbn [String.eqb Ascii.eqb Bool.eqb andb].

Lemma request_mtu raw : parseMtu (activateRequest raw) = requestedMtu raw.
Proof.
  unfold parseMtu, requestedMtu. rewrite jcontains_value. at_key "deviceMTU"%string. by rewrite negb_involutive.
Qed.

Lemma get_text (obj : QJsonObject) k v : value obj k = v ->
  getString obj k = if isString v then Some (toString v) else None.
Proof. intros Hk. unfold getString. rewrite Hk. by destruct v as [[] |]. Qed.

Lemma get_port (obj : QJsonObject) k z : value obj k = Some (jint z) -> getDouble obj k = Some z.
Proof. intros Hk. unfold getDouble. rewrite Hk. cbn. unfold double_to_int. cbn. by rewrite Z.quot_1_r. Qed.

Lemma request_hop raw : parseHop (activateRequest raw) = Some SingleHop.
Proof. unfold parseHop. rewrite jcontains_value. by at_key "hopType"%string. Qed.

Lemma request_read (stdSort : list IPAddress -> list IPAddress) raw :
  parseConfig stdSort (activateRequest raw) = if usableRequest raw then Some (requested stdSort raw) else None.
Proof.
  unfold parseConfig.
  rewrite (get_text _ "privateKey" _ (request_plain raw "privateKey" eq_refl)).
  rewrite (get_text _ "serverPublicKey" _ (request_plain raw "serverPublicKey" eq_refl)).
  rewrite (get_port _ "serverPort" _ (request_plain raw "serverPort" eq_refl)).
  rewrite (parse_list _ "excludedAddresses" _ (request_plain raw "excludedAddresses" eq_refl)), strings_excluded.
  rewrite (parse_list _ "allowedDnsServers" _ (request_plain raw "allowedDnsServers" eq_refl)), strings_all.
  rewrite (optional_text _ "primaryDnsServer" _ (request_plain raw "primaryDnsServer" eq_refl)).
  rewrite request_apps, request_dns2, request_mtu, request_junk, request_hop.
  rewrite !request_plain by done. unfold usableRequest, requested.
  change (plainValue raw "allowedIPAddressRanges") with (Some (JArray (allowedRanges raw))). cbn iota beta. rewrite parse_allowed.
  change (plainValue raw "privateKey") with (value (wgConfigOf raw) "client_priv_key").
  change (plainValue raw "serverPublicKey") with (value (wgConfigOf raw) "server_pub_key").
  change (plainValue raw "serverIpv4AddrIn") with (value (wgConfigOf raw) "hostName").
  change (plainValue raw "serverIpv4Gateway") with (value (wgConfigOf raw) "hostName").
  change (plainValue raw "serverPskKey") with (value (wgConfigOf raw) "psk_key").
  change (plainValue raw "deviceIpv4Address") with (value (wgConfigOf raw) "client_ip").
  change (plainValue raw "deviceIpv6Address") with (Some (jstr "fd58:baa6:dead::1")).
  change (plainValue raw "serverIpv6Gateway") with (@None json). change (plainValue raw "serverIpv6AddrIn") with (@None json).
  change (plainValue raw "primaryDnsServer") with (value raw "dns1").
  change (plainValue raw "killSwitchOption") with (value raw "killSwitchOption").
  change (plainValue raw "routeLanThroughVpn") with (value raw "routeLanThroughVpn").
  set (host := value (wgConfigOf raw) "hostName"). rewrite andb_false_r, andb_true_r.
  destruct (isString (value _ "client_priv_key")), (isString (value _ "server_pub_key")); try done.
  destruct (isString host), (isNull (toString host)); try done.
  all: destruct (textOrNothing (value raw "dns1")), (usesAmneziaDns raw || textOrNothing (value raw "dns2")); try done.
  all: by destruct (negb (excludesApps raw) || allStrings (value raw "splitTunnelApps")), (allStrings (value raw "allowedDnsServers")).
Qed.
End Request.

(** ** The status, from the daemon to the signal *)

Section Status.
Context {W : Type} `{U : !WireguardUtils W} `{I : !IPUtils W} `{D : !DnsUtils W} `{P : !Platform W} `{Q : Qt}.
Variable hashOrder : gmap IPAddress Z -> list IPAddress.
Variable dateToString : option Z -> QString.
Variable stdSort : list IPAddress -> list IPAddress.
Variable dateFromString : string -> option Z.

(** The connection a status is about, with the peer it found. *)
Definition reported (d : Daemon W) : option (ConnectionState * PeerStatus) :=
  let '(up, w) := interfaceExists (sys d) in
  if up : bool then
    match m_connections d with
    | (_, conn) :: _ =>
        option_map (pair conn)
          (List.find (fun st => qeqb (m_pubkey st) (m_serverPublicKey (m_config conn))) (getPeerStatus w).1)
    | [] => None
    end
  else None.

Definition statusReply (r : option (ConnectionState * PeerStatus)) : QJsonObject :=
  match r with
  | Some (conn, st) =>
      <["rxBytes" := jint (m_rxBytes st)]> (<["txBytes" := jint (m_txBytes st)]>
      (<["date" := JString (dateToString (m_date conn))]>
      (<["deviceIpv4Address" := JString (m_deviceIpv4Address (m_config conn))]>
      (<["serverIpv4Gateway" := JString (m_serverIpv4Gateway (m_config conn))]>
      (<["connected" := JBool true]> ∅)))))
  | None => <["connected" := JBool false]> ∅
  end.

(** The reply the connection writes. *)
Definition replyOf (d : Daemon W) : QJsonObject := <["type" := jstr "status"]> (statusReply (reported d)).

Lemma getStatus_replies (d : Daemon W) :
  inbox d = [] ->
  (getStatus dateToString (events hashOrder dateToString d) d).1 = Some (statusReply (reported d))
  /\ trace (getStatus dateToString (events hashOrder dateToString d) d).2 = trace d.
Proof.
  intros Hi. unfold getStatus, reported, onSys, gets, mbind, ST_bind.
  destruct (interfaceExists (sys d)) as [[] w]; cbn [m_connections sys]; [| done].
  destruct (m_connections d) as [| [hop conn] rest] eqn:Ec; [done |].
  cbn [sys fst]. destruct (getPeerStatus w) as [peers w1]. unfold events. rewrite Hi. cbn [length]. rewrite runEvents_0.
  cbn [m_connections fst]. cbn [qmap_lookup]. rewrite (proj2 (kcompare_eq hop hop) eq_refl).
  destruct (List.find _ peers); done.
Qed.

Lemma status_written (s : Server W) id c : clients s !! id = Some c -> inbox (daemon s) = [] ->
  clients (dispatch hashOrder dateToString stdSort id (message "status") s).2 !! id
    = Some (send (replyOf (daemon s)) c).
Proof.
  intros Hc Hi. destruct (getStatus_replies (daemon s) Hi) as [Hr Ht].
  unfold dispatch. change (value (message "status") "type") with (Some (JString (QStr "status"))). cbn iota beta.
  cbn [qdata String.eqb Ascii.eqb Bool.eqb].
  unfold mbind, ST_bind, onDaemon. destruct (getStatus _ _ (daemon s)) as [r d1]. cbn [fst snd] in Hr, Ht. cbn iota beta. rewrite Ht, drop_all.
  subst r. cbn [fold_left]. unfold write, modify. cbn [snd clients]. by rewrite lookup_alter_eq, Hc.
Qed.

(** The controller on one line. *)
Lemma read_object (k : Controller) o : c_buffer k = ""%string -> wire_ok o ->
  (readSocket dateFromString (writeText o) k).2 = (setCBuffer "" (handleObject dateFromString o k).2).2.
Proof.
  intros Hb Hw. unfold readSocket. match goal with |- context [(gets ?f ≫= ?g) k] => change ((gets f ≫= g) k) with (g (f k) k) end.
  cbv beta zeta. rewrite Hb, string_app_nil. unfold mbind, ST_bind. rewrite drain_lines by done.
  destruct (commandsOf_written [o] "" ltac:(by constructor)) as [E1 E2]. cbn [map texts foldr] in E1, E2.
  rewrite !string_app_empty in E1, E2. rewrite E1, E2. cbn [app]. unfold mbind, ST_bind.
  change (commandsOf "") with (@nil string). cbn [forEach app]. unfold mbind, ST_bind, parseLine.
  destruct Hw as [-> _]. by destruct (handleObject dateFromString o k) as [[] k1].
Qed.

Lemma reply_type d : value (replyOf d) "type" = Some (jstr "status").
Proof. apply lookup_insert_eq. Qed.

Lemma reply_value d k : k <> "type"%string -> value (replyOf d) k = value (statusReply (reported d)) k.
Proof. intros Hk. by apply lookup_insert_ne. Qed.

Lemma statusReply_values conn st :
  let o := statusReply (Some (conn, st)) in
  value o "serverIpv4Gateway" = Some (JString (m_serverIpv4Gateway (m_config conn)))
  /\ value o "deviceIpv4Address" = Some (JString (m_deviceIpv4Address (m_config conn)))
  /\ value o "txBytes" = Some (jint (m_txBytes st)) /\ value o "rxBytes" = Some (jint (m_rxBytes st))
  /\ value o "connected" = Some (JBool true) /\ value o "date" = Some (JString (dateToString (m_date conn))).
Proof. by repeat split; unfold value, statusReply; repeat (rewrite lookup_insert_eq || rewrite lookup_insert_ne by done). Qed.

Lemma handle_status (k : Controller) o : value o "type" = Some (jstr "status") ->
  handleObject dateFromString o k =
    if bool_decide (m_daemonState k = eInitializing) then firstStatus dateFromString o k
    else if bool_decide (m_daemonState k = eReady) then laterStatus o k else (tt, k).
Proof.
  intros Ht. unfold handleObject. rewrite Ht. unfold jstr. cbn iota beta.
  match goal with |- context [(gets ?f ≫= ?g) k] => change ((gets f ≫= g) k) with (g (f k) k) end. cbv beta.
  cbn [qdata String.eqb Ascii.eqb Bool.eqb]. rewrite andb_true_r. by repeat case_bool_decide.
Qed.
End Status.

(** ** Properties *)

(** C25 (bounds): the life of a controller.  From a new object, whatever the
    daemon, the socket, the timer and the application do: the retry counter
    stays within its bound, the socket is asked to connect at most eleven
    times and [initialized] is emitted at most once; and the assertions of
    [daemonConnected] and [readData] hold whenever the loop can call them. *)
Theorem controller_bounds `{Q : Qt} (dateFromString : string -> option Z) (l : list CEvent) (c : Controller)
  (Hr : runs dateFromString fresh l c) :
  0 <= m_initializingRetry c <= MAX_CONNECTION_RETRY
  /\ tally isConnect c <= MAX_CONNECTION_RETRY + 1 /\ tally isInitialized c <= 1
  /\ (enabled EvConnected c -> m_daemonState c = eInitializing)
  /\ (forall input, enabled (EvData input) c -> m_daemonState c = eInitializing \/ m_daemonState c = eReady)
  /\ (m_initializingTimer c = true -> m_daemonState c = eInitializing /\ m_socket c = SIdle).
Proof.
  pose proof (life_runs dateFromString fresh l c Hr life_fresh) as Hl. unfold life, lifeView, lifeOf in Hl.
  unfold MAX_CONNECTION_RETRY. cbn [enabled].
  destruct (m_daemonState c), (m_initializingTimer c), (m_socket c); destruct_and?; try done;
    (repeat split; intros; try done; try lia; auto).
Qed.

(** C24 (liveness): initialization comes to an end.  A controller that is
    initializing always has a connection, an attempt or the timer under way,
    and while the daemon says nothing the errors of its socket are counted:
    up to the tenth it goes on, at the eleventh, in whatever order connections,
    timeouts and errors come, it has reported [initialized(false, false)] and
    is no longer initializing. *)
Theorem initialization_ends `{Q : Qt} (dateFromString : string -> option Z) (l1 l2 : list CEvent) (c c' : Controller)
  (H1 : runs dateFromString fresh l1 c) (Hs : m_daemonState c = eInitializing)
  (H2 : runs dateFromString c l2 c') (Ha : forallb attempt l2 = true) :
  (enabled EvTimer c \/ enabled EvConnected c \/ m_socket c = SOpen)
  /\ if m_initializingRetry c + errors l2 <=? MAX_CONNECTION_RETRY
     then m_daemonState c' = eInitializing /\ m_initializingRetry c' = m_initializingRetry c + errors l2
     else m_daemonState c' = eReady /\ OInitialized false false None ∈ out c'.
Proof.
  pose proof (life_runs dateFromString fresh l1 c H1 life_fresh) as Hl. split.
  - unfold life, lifeView, lifeOf in Hl. rewrite Hs in Hl. cbn [enabled].
    destruct (m_initializingTimer c), (m_socket c); destruct_and?; try done; auto.
  - destruct (attempts_end dateFromString c l2 c' H2 Hl Ha) as [_ He]. specialize (He Hs).
    unfold MAX_CONNECTION_RETRY. destruct (_ <? 11) eqn:E; zbool.
    + by rewrite (proj2 (Z.leb_le _ _)) by lia.
    + rewrite (proj2 (Z.leb_gt _ _)) by lia. by destruct He as (? & _ & ?).
Qed.

(** C6 (type): the daemon accepts exactly the requests of usable
    configurations, and reads from them what the user asked for.  The request
    [activate] builds parses when the keys and the host are texts, the name
    servers texts or absent and the lists of texts, and then gives the
    configuration [requested]: in particular the networks of the tunnel are
    those of the WireGuard configuration, else, by the kind of split
    tunnelling, everything or the listed sites, a site without a prefix
    getting prefix 32 whatever its family; the excluded ones are the server,
    the sites of the other kind and the local subnets; the parameters of
    AmneziaWG are there all or not at all. *)
Theorem activate_request_read `{Q : Qt} (stdSort : list IPAddress -> list IPAddress) (raw : QJsonObject) :
  parseConfig stdSort (activateRequest raw) = if usableRequest raw then Some (requested stdSort raw) else None.
Proof. apply request_read. Qed.

(** The status, from the daemon to the application.  Asked
    for its status while nothing else arrives, the daemon writes one line; a
    ready controller that reads it reports the addresses and the traffic of
    the first connection when the interface is up and its peer is known, and
    nothing otherwise; an initializing controller becomes ready and reports
    the date of the handshake, or that there is no tunnel; but when the tunnel
    is up and waits for its handshake, it becomes ready without reporting. *)
Theorem status_reply_read {W} `{U : !WireguardUtils W} `{I : !IPUtils W} `{D : !DnsUtils W} `{P : !Platform W} `{Q : Qt}
  (hashOrder : gmap IPAddress Z -> list IPAddress) (dateToString : option Z -> QString)
  (stdSort : list IPAddress -> list IPAddress) (dateFromString : string -> option Z)
  (s : Server W) (id : nat) (c : Client) (k : Controller)
  (Hc : clients s !! id = Some c) (Hi : inbox (daemon s) = [])
  (Hdate : dateFromString (qdata (dateToString None)) = None)
  (Hb : c_buffer k = ""%string) (Hw : wire_ok (replyOf dateToString (daemon s))) :
  let line := writeText (replyOf dateToString (daemon s)) in
  let s' := (dispatch hashOrder dateToString stdSort id (message "status") s).2 in
  let k' := (react dateFromString (EvData line) k).2 in
  clients s' !! id = Some (mkClient (m_buffer c) (written c +:+ line))
  /\ (m_daemonState k = eReady -> m_daemonState k' = eReady /\ out k' = out k ++
        match reported (daemon s) with
        | Some (conn, st) => [OStatusUpdated (m_serverIpv4Gateway (m_config conn)) (m_deviceIpv4Address (m_config conn))
                                (inject_Z (m_txBytes st)) (inject_Z (m_rxBytes st))]
        | None => []
        end)
  /\ (m_daemonState k = eInitializing -> m_daemonState k' = eReady /\ out k' = out k ++
        match reported (daemon s) with
        | Some (conn, _) =>
            match m_date conn, dateFromString (qdata (dateToString (m_date conn))) with
            | Some _, Some t => [OInitialized true true (Some t)]
            | _, _ => []
            end
        | None => [OInitialized true false None]
        end).
Proof.
  intros line s' k'. split; [by apply status_written |].
  assert (Hk : k' = (setCBuffer "" (handleObject dateFromString (replyOf dateToString (daemon s)) k).2).2).
  { by apply read_object. }
  rewrite Hk, (handle_status dateFromString k _ (reply_type dateToString (daemon s))). clear Hk k' line Hw Hc s'.
  split; intros Hs; rewrite Hs.
  - rewrite bool_decide_eq_false_2, bool_decide_eq_true_2 by done. unfold laterStatus. rewrite !reply_value by done.
    destruct (reported (daemon s)) as [[conn st] |].
    + destruct (statusReply_values dateToString conn st) as (-> & -> & -> & -> & _). done.
    + rewrite app_nil_r. split; [exact Hs | done].
  - rewrite bool_decide_eq_true_2 by done. unfold firstStatus, mbind, ST_bind. rewrite !reply_value by done.
    change (setState eReady k) with (tt, (setState eReady k).2). cbn iota beta.
    destruct (reported (daemon s)) as [[conn st] |]; [| done].
    destruct (statusReply_values dateToString conn st) as (_ & _ & _ & _ & -> & ->). cbn iota beta.
    destruct (m_date conn) as [t |].
    + destruct (dateFromString (qdata (dateToString (Some t)))); [done |]. by rewrite app_nil_r.
    + rewrite Hdate. by rewrite app_nil_r.
Qed.

(** ** Witnesses *)

Definition noDate (s : string) : option Z := None.

(** The states a list of events leads to. *)
Definition after (l : list CEvent) (c : Controller) : Controller :=
  fold_left (fun c e => (react (Q := wireQt) noDate e c).2) l c.

Definition isSocket (a b : Socket) : bool :=
  match a, b with SIdle, SIdle | SConnecting, SConnecting | SOpen, SOpen => true | _, _ => false end.
Definition enabledb (e : CEvent) (c : Controller) : bool :=
  match e with
  | EvInitialize => bool_decide (m_daemonState c = eUnknown)
  | EvConnected => isSocket (m_socket c) SConnecting
  | EvError => negb (bool_decide (m_daemonState c = eUnknown))
  | EvTimer => m_initializingTimer c
  | EvData _ => isSocket (m_socket c) SOpen
  | _ => true
  end.
Fixpoint runnable (l : list CEvent) (c : Controller) : bool :=
  match l with
  | [] => true
  | e :: l' => enabledb e c && runnable l' (react (Q := wireQt) noDate e c).2
  end.

Lemma runs_after l c : runnable l c = true -> runs (Q := wireQt) noDate c l (after l c).
Proof.
  revert c. induction l as [| e l IH]; intros c Hr; [apply runs_nil |]. apply andb_true_iff in Hr as [He Hr].
  apply runs_cons; [| by apply IH]. clear - He. destruct e; cbn in *; try done.
  - by apply bool_decide_eq_true in He.
  - by destruct (m_socket c).
  - apply negb_true_iff in He. by apply bool_decide_eq_false in He.
  - by destruct (m_socket c).
Qed.

Definition startup : list CEvent := [EvInitialize; EvError; EvTimer; EvConnected; EvError].

Lemma controller_bounds_witness : tally isConnect (after startup fresh) = 2 /\ m_initializingRetry (after startup fresh) <= 10.
Proof.
  assert (Hr : runs (Q := wireQt) noDate fresh startup (after startup fresh)) by (apply runs_after; vm_compute; reflexivity).
  destruct (@controller_bounds wireQt noDate startup (after startup fresh) Hr) as ([_ H] & _).
  split; [vm_compute; reflexivity | exact H].
Defined.

(** Ten failed attempts and the timers after them, then one more. *)
Definition failures : list CEvent := concat (replicate 10 [EvError; EvTimer]) ++ [EvError].

Definition started : Controller := after [EvInitialize] fresh.

Lemma initialization_ends_witness :
  out (after failures started) = replicate 11 OConnectToServer ++ [OInitialized false false None; ODisconnected]
  /\ m_daemonState (after failures started) = eReady.
Proof.
  split; [vm_compute; reflexivity |].
  assert (H1 : runs (Q := wireQt) noDate fresh [EvInitialize] started) by (apply (runs_after [EvInitialize] fresh); vm_compute; reflexivity).
  assert (H2 : runs (Q := wireQt) noDate started failures (after failures started)) by (apply runs_after; vm_compute; reflexivity).
  assert (Hs : m_daemonState started = eInitializing) by (vm_compute; reflexivity).
  assert (Ha : forallb attempt failures = true) by (vm_compute; reflexivity).
  pose proof (@initialization_ends wireQt noDate [EvInitialize] failures started (after failures started) H1 Hs H2 Ha) as [_ H].
  assert (E : m_initializingRetry started + errors failures <=? MAX_CONNECTION_RETRY = false) by (vm_compute; reflexivity).
  rewrite E in H. exact (proj1 H).
Defined.

Definition tunnelReply : QJsonObject := replyOf (U := sampleUtils) sampleDate (daemon tunnelServer).
Definition statusQt : Qt := concreteQt (fun s => if String.eqb s "status" then Some tunnelReply else None)
  (fun o => qdata (toString (value o "type"))).
Definition readyController : Controller := mkController eReady SOpen "" QNull None false 0 [].

Lemma status_reply_read_witness :
  out (react (Q := statusQt) noDate (EvData (writeText (H := statusQt) tunnelReply)) readyController).2
    = [OStatusUpdated QNull "10.8.1.2" 20%Q 10%Q].
Proof.
  assert (Hw : wire_ok (H := statusQt) (replyOf (U := sampleUtils) sampleDate (daemon tunnelServer))).
  { split; [vm_compute; reflexivity |]. split; [vm_compute; reflexivity |]. split; [vm_compute; reflexivity | by vm_compute]. }
  assert (Hc : clients tunnelServer !! 7%nat = Some (mkClient "" "")) by (vm_compute; reflexivity).
  assert (Hi : inbox (daemon tunnelServer) = []) by (vm_compute; reflexivity).
  pose proof (@status_reply_read unit sampleUtils sampleIPs sampleDns samplePlatform statusQt sampleOrder sampleDate
    sampleSort noDate tunnelServer 7 (mkClient "" "") readyController Hc Hi eq_refl eq_refl Hw) as (_ & H & _).
  destruct (H eq_refl) as [_ Ho]. etransitivity; [exact Ho | vm_compute; reflexivity].
Defined.
