(* ===== verification/WgProbe.v ===== *)
(** * The handshake probe: [client/core/wgHandshakeProbe.cpp]

    The health check of a server is a real WireGuard handshake: the probe
    builds the initiation of Noise_IKpsk2, sends it with the junk of AmneziaWG
    around it, and accepts a response only if it verifies.  The model follows
    the bytes: the message is a 148-byte array written at offsets, integers
    are encoded with the shifts of the source, and a read outside the receive
    buffer is [OutOfRange].

    OpenSSL is a parameter ([OpenSSL]), the wrappers around it are translated;
    [Primitives] states what the primitives are documented to do.  The second
    part is the other end: a responder written from the WireGuard protocol,
    not from this code. *)

From Stdlib Require Import ZArith Lia Bool String Ascii.
From stdpp Require Import base gmap strings list.
From S2P Require Import Prelude.
From S2P Require Import Qt.
From S2P Require Import QtInstance.

Open Scope Z_scope.

(** ** Constants *)

Definition kKeyLen : nat := 32.
Definition kHashLen : nat := 32.
Definition kAeadTagLen : nat := 16.
Definition kInitiationSize : nat := 148.
Definition kResponseSize : Z := 92.
Definition kCookieReplySize : Z := 64.
Definition kMac1Offset : nat := 116.
Definition kHeaderNonceLen : Z := 12.
Definition kTypeInitiation : Z := 1.
Definition kTypeResponse : Z := 2.
Definition kTypeCookieReply : Z := 3.

(** The bytes of a text constant. *)
Definition bytesOf (s : string) : list Z := map (fun c => Z.of_N (Ascii.N_of_ascii c)) (String.list_ascii_of_string s).

Definition kConstruction : list Z := bytesOf "Noise_IKpsk2_25519_ChaChaPoly_BLAKE2s".
Definition kIdentifier : list Z := bytesOf "WireGuard v1 zx2c4 Jason@zx2c4.com".
Definition kMac1Label : list Z := bytesOf "mac1----".

(** ** Byte order *)

Definition putLe32 (v : Z) : list Z :=
  [Z.land v 0xff; Z.land (Z.shiftr v 8) 0xff; Z.land (Z.shiftr v 16) 0xff; Z.land (Z.shiftr v 24) 0xff].
Definition putBe32 (v : Z) : list Z :=
  [Z.land (Z.shiftr v 24) 0xff; Z.land (Z.shiftr v 16) 0xff; Z.land (Z.shiftr v 8) 0xff; Z.land v 0xff].
Definition getLe32 (src : list Z) : Z :=
  Z.lor (Z.lor (Z.lor (byte_at src 0) (Z.shiftl (byte_at src 1) 8)) (Z.shiftl (byte_at src 2) 16))
    (Z.shiftl (byte_at src 3) 24).

(** The loop from the last byte to the first. *)
Fixpoint putBe (n : nat) (v : Z) : list Z :=
  match n with
  | O => []
  | S n' => putBe n' (Z.shiftr v 8) ++ [Z.land v 0xff]
  end.
Definition putBe64 (v : Z) : list Z := putBe 8 v.

(** [memcpy(dst + off, src, length src)] inside an array. *)
Definition memcpy (dst : list Z) (off : nat) (src : list Z) : list Z :=
  take off dst ++ src ++ drop (off + length src) dst.

(** [buf + off .. + len] of a message whose size is known. *)
Definition slice (buf : list Z) (off len : nat) : list Z := take len (drop off buf).

(** ** OpenSSL *)

(** The primitives, [None] when a call does not return 1; a key is its raw
    private bytes. *)
Class OpenSSL := {
  evp_blake2s : list Z -> option (list Z);
  evp_hmac : list Z -> list Z -> option (list Z);               (** HMAC with BLAKE2S-256: key, data *)
  evp_blake2smac : list Z -> list Z -> option (list Z);         (** BLAKE2SMAC of 16 bytes: key, data *)
  evp_seal : list Z -> list Z -> list Z -> list Z -> option (list Z * list Z);
      (** ChaCha20-Poly1305: key, nonce, associated data, text; cipher text and tag *)
  evp_open : list Z -> list Z -> list Z -> list Z -> list Z -> option (list Z);
      (** key, nonce, associated data, cipher text, tag *)
  evp_chacha20 : list Z -> list Z -> list Z -> option (list Z); (** key, counter and nonce, data *)
  evp_public : list Z -> option (list Z);
  evp_derive : list Z -> list Z -> option (list Z)              (** private key, public key of the peer *)
}.

Section Wrappers.
Context `{OpenSSL}.

(** [out] when the call succeeded and gave the length that was asked for. *)
Definition ofLength (n : nat) (out : option (list Z)) : option (list Z) :=
  match out with
  | Some l => if Nat.eqb (length l) n then Some l else None
  | None => None
  end.

Definition blake2s256 (a b : list Z) : option (list Z) := ofLength kHashLen (evp_blake2s (a ++ b)).
Definition hmacBlake2s (key data : list Z) : option (list Z) := ofLength kHashLen (evp_hmac key data).
Definition blake2sMac128 (key data : list Z) : option (list Z) := ofLength kAeadTagLen (evp_blake2smac key data).

(** The outputs of [kdf] from the [i]-th one on. *)
Fixpoint kdfOutputs (t0 prev : list Z) (i : Z) (n : nat) : option (list (list Z)) :=
  match n with
  | O => Some []
  | S n' =>
      o ← hmacBlake2s t0 (if i =? 0 then [i + 1] else prev ++ [i + 1]);
      rest ← kdfOutputs t0 o (i + 1) n';
      Some (o :: rest)
  end.

(** The new chaining key, which is the first output, and all outputs. *)
Definition kdf (chainKey : list Z) (n : nat) (input : list Z) : option (list Z * list (list Z)) :=
  t0 ← hmacBlake2s chainKey input;
  out ← kdfOutputs t0 [] 0 n;
  Some (default chainKey (head out), out).

Definition zeroNonce : list Z := replicate 12 0.

Definition aeadSeal (key plain ad : list Z) : option (list Z) :=
  '(cipher, tag) ← evp_seal key zeroNonce ad plain;
  Some (cipher ++ tag).

Definition aeadOpen (key cipher ad : list Z) : bool :=
  if Nat.ltb (length cipher) kAeadTagLen then false
  else match evp_open key zeroNonce ad (take (length cipher - kAeadTagLen) cipher)
               (drop (length cipher - kAeadTagLen) cipher) with
       | Some _ => true
       | None => false
       end.

(** The initial vector is a zero block counter and the nonce. *)
Definition chacha20Apply (key nonce data : list Z) : option (list Z) :=
  ofLength (length data) (evp_chacha20 key (replicate 4 0 ++ nonce) data).

Definition x25519Public (priv : list Z) : option (list Z) := ofLength kKeyLen (evp_public priv).

(** A shared secret of zeroes only is refused. *)
Definition x25519Shared (priv peerPub : list Z) : option (list Z) :=
  out ← ofLength kKeyLen (evp_derive priv peerPub);
  if existsb (fun b => negb (b =? 0)) out then Some out else None.
End Wrappers.

(** ** The parameters of the obfuscation *)

Record Range : Type := mkRange { r_start : Z; r_end : Z; r_set : bool }.
Definition noRange : Range := mkRange 0 0 false.

Record JunkParams : Type := mkJunkParams {
  jc : Z; jmin : Z; jmax : Z;
  s1 : Z; s2 : Z; s3 : Z;
  h1 : Range; h2 : Range; h3 : Range;
  iSlots : list string;
  headerProtection : bool;
  headerProtectionKey : list Z
}.

Section Params.
Context `{Qt}.

Definition decodeKey (b64 : QString) : option (list Z) :=
  if isEmpty b64 then Some (replicate kKeyLen 0)
  else let raw := fromBase64 (qdata b64) in
       if Nat.eqb (length raw) kKeyLen then Some raw else None.

Definition probeRange (spec : QString) : Range :=
  if isEmpty spec then noRange
  else
    match split "-" (qdata spec) with
    | first :: more =>
        let start := toUInt first in
        let end_ := match more with second :: _ => toUInt second | [] => start end in
        match start, end_ with
        | Some a, Some b => if b >=? a then mkRange a b true else noRange
        | _, _ => noRange
        end
    | [] => noRange
    end.

Definition parseJunkParams (json : QJsonObject) : JunkParams :=
  let getInt key := default 0 (toInt (qdata (toString (value json key)))) in
  let jc := getInt "Jc" in let jmin := getInt "Jmin" in let jmax := getInt "Jmax" in
  let hpKey := fromBase64 (qdata (toString (value json "HeaderProtectionKey"))) in
  let protected := Nat.eqb (length hpKey) kKeyLen in
  mkJunkParams
    (if (jc <? 0) || (jmin <? 0) || (jmax <? jmin) || (jmax >? 1200) then 0 else jc) jmin jmax
    (getInt "S1") (getInt "S2") (getInt "S3")
    (probeRange (toString (value json "H1"))) (probeRange (toString (value json "H2")))
    (probeRange (toString (value json "H3")))
    (List.filter (fun spec => negb (String.eqb spec ""))
       (map (fun key => qdata (toString (value json key))) ["I1"; "I2"; "I3"; "I4"; "I5"]%string))
    protected (if protected then hpKey else replicate kKeyLen 0).
End Params.

(** ** Random bytes *)

(** [RAND_bytes] reads a stream; it is assumed not to fail. *)
Definition Random : Type := nat -> Z.
Definition randomBytes (len : nat) : ST Random (list Z) := fun r =>
  (map (fun i => Z.land (r i) 0xff) (seq 0 len), fun i => r (len + i)%nat).

(** A [quint32] filled by [randomBytes] on a little-endian machine. *)
Definition randomWord : ST Random Z := b ← randomBytes 4; mret (getLe32 b).

(** [None] is the division by zero of [v % 0]. *)
Definition randomU32 (range : Range) : ST Random (option Z) :=
  if negb (r_set range) || (r_end range <=? r_start range) then mret (Some (r_start range))
  else
    v ← randomWord;
    let width := u32 (u32 (r_end range - r_start range) + 1) in
    mret (if width =? 0 then None else Some (u32 (r_start range + v mod width))).

(** ** The initiation *)

Record HandshakeState : Type := mkHandshake {
  hs_hash : list Z;
  hs_chainKey : list Z;
  ephemeral : list Z;
  staticPriv : list Z;
  hs_psk : list Z
}.

Section Initiation.
Context `{OpenSSL}.

(** The TAI64N timestamp of a time in milliseconds. *)
Definition timestampOf (msecs : Z) : list Z :=
  putBe64 ((Z.quot msecs 1000 + 0x400000000000000a) mod 2 ^ 64) ++ putBe32 (u32 (u32 (Z.rem msecs 1000) * 1000000)).

(** The message up to the timestamp, with a zero header, and the state that
    the response is verified with. *)
Definition buildInitiation (clientPriv serverPub psk eph : list Z) (msecs : Z) : option (HandshakeState * list Z) :=
  chainKey ← blake2s256 kConstruction [];
  hash ← blake2s256 chainKey kIdentifier;
  let msg := replicate kInitiationSize 0 in
  ephPub ← x25519Public eph;
  clientPub ← x25519Public clientPriv;
  hash ← blake2s256 hash serverPub;
  let msg := memcpy msg 8 ephPub in
  '(chainKey, _) ← kdf chainKey 1 ephPub;
  hash ← blake2s256 hash ephPub;
  shared ← x25519Shared eph serverPub;
  '(chainKey, out) ← kdf chainKey 2 shared;
  encStatic ← aeadSeal (nth 1 out []) clientPub hash;
  let msg := memcpy msg 40 encStatic in
  hash ← blake2s256 hash (slice msg 40 (kKeyLen + kAeadTagLen));
  shared ← x25519Shared clientPriv serverPub;
  '(chainKey, out) ← kdf chainKey 2 shared;
  encTime ← aeadSeal (nth 1 out []) (timestampOf msecs) hash;
  let msg := memcpy msg 88 encTime in
  hash ← blake2s256 hash (slice msg 88 (12 + kAeadTagLen));
  Some (mkHandshake hash chainKey eph clientPriv psk, msg).

(** The header and MAC1. *)
Definition sealMessage (serverPub : list Z) (type sender : Z) (msg : list Z) : option (list Z) :=
  let msg := memcpy msg 0 (putLe32 type) in
  let msg := memcpy msg 4 (putLe32 sender) in
  macKey ← blake2s256 kMac1Label serverPub;
  mac1 ← blake2sMac128 macKey (take kMac1Offset msg);
  Some (memcpy msg kMac1Offset mac1).

Definition verifyResponse (state : HandshakeState) (resp : list Z) : option unit :=
  let respEphemeral := slice resp 12 kKeyLen in
  let respEmpty := slice resp 44 kAeadTagLen in
  hash ← blake2s256 (hs_hash state) respEphemeral;
  '(chainKey, _) ← kdf (hs_chainKey state) 1 respEphemeral;
  shared ← x25519Shared (ephemeral state) respEphemeral;
  '(chainKey, _) ← kdf chainKey 1 shared;
  shared ← x25519Shared (staticPriv state) respEphemeral;
  '(chainKey, _) ← kdf chainKey 1 shared;
  '(_, out) ← kdf chainKey 3 (hs_psk state);
  hash ← blake2s256 hash (nth 1 out []);
  if aeadOpen (nth 2 out []) respEmpty hash then Some tt else None.
End Initiation.

(** ** The datagrams *)

Section Datagrams.
Context `{OpenSSL} `{Qt}.
(** The matches of [<tag value>] in a text, by the regular expression of the
    source: the tag and the value. *)
Variable tagMatches : string -> list (string * string).
(** [QDateTime::currentSecsSinceEpoch()] *)
Variable currentSecs : Z.

Definition letters : list Z := bytesOf "abcdefghijklmnopqrstuvwxyzABCDEFGHIJKLMNOPQRSTUVWXYZ".
Definition digitBytes : list Z := bytesOf "0123456789".

(** What one tag appends. *)
Definition tagBytes (tag val : string) : ST Random (list Z) :=
  let n := default 0 (toInt val) in
  if String.eqb tag "r" then
    if (n >? 0) && (n <=? 1400) then randomBytes (Z.to_nat n) else mret []
  else if String.eqb tag "b" then
    mret (fromHex (if String.prefix "0x" val then str_mid 2 val else val))
  else if String.eqb tag "rc" || String.eqb tag "rd" then
    if (n >? 0) && (n <=? 1400) then
      let alphabet := if String.eqb tag "rc" then letters else digitBytes in
      b ← randomBytes (Z.to_nat n);
      mret (map (fun x => byte_at alphabet (x mod Z.of_nat (length alphabet))) b)
    else mret []
  else if String.eqb tag "t" then mret (putBe32 (u32 currentSecs))
  else mret [].

Fixpoint buildTags (tags : list (string * string)) (packet : list Z) : ST Random (list Z) :=
  match tags with
  | [] => mret packet
  | (tag, val) :: tags' => b ← tagBytes tag (trimmed val); buildTags tags' (packet ++ b)
  end.

Definition buildJunkPacketFromSpec (spec : string) : ST Random (list Z) := buildTags (tagMatches spec) [].

(** The packets of the slots that are not empty. *)
Fixpoint slotPackets (slots : list string) : ST Random (list (list Z)) :=
  match slots with
  | [] => mret []
  | slot :: slots' =>
      packet ← buildJunkPacketFromSpec slot;
      rest ← slotPackets slots';
      mret (if bool_decide (packet = []) then rest else packet :: rest)
  end.

Fixpoint junkPackets (junk : JunkParams) (n : nat) : ST Random (list (list Z)) :=
  match n with
  | O => mret []
  | S n' =>
      size ← (if jmax junk >? jmin junk
              then v ← randomWord; mret (u32 (u32 (jmin junk) + v mod u32 (jmax junk - jmin junk + 1)))
              else mret (u32 (jmin junk)));
      packet ← randomBytes (Z.to_nat size);
      rest ← junkPackets junk n';
      mret (packet :: rest)
  end.

(** The initiation behind its prefix; a negative [S1] makes the copy start
    before the buffer, a huge one overflows the size. *)
Definition initPacket (junk : JunkParams) (msg : list Z) : ST Random (res (list Z)) :=
  if (s1 junk <? 0) || (s1 junk + Z.of_nat kInitiationSize >=? 2 ^ 31) then mret OutOfRange
  else
    prefix ← randomBytes (Z.to_nat (s1 junk));
    let packet := prefix ++ msg in
    mret (Val (
      if headerProtection junk && (s1 junk >=? kHeaderNonceLen) then
        prefix ++ default msg (chacha20Apply (headerProtectionKey junk) (take (Z.to_nat kHeaderNonceLen) packet) msg)
      else packet)).

Definition datagramsOf (junk : JunkParams) (msg : list Z) : ST Random (res (list (list Z))) :=
  slots ← slotPackets (iSlots junk);
  junks ← junkPackets junk (Z.to_nat (jc junk));
  init ← initPacket junk msg;
  mret (match init with
        | Val packet => Val (slots ++ junks ++ [packet])
        | OutOfRange => OutOfRange
        | Timeout => Timeout
        end).
End Datagrams.

(** ** The reply *)

(** The conversion of a [size_t] to [int]. *)
Definition toInt32 (z : Z) : Z := (z + 2 ^ 31) mod 2 ^ 32 - 2 ^ 31.

(** A read of [len] bytes at [buf + off]. *)
Definition readAt (buf : list Z) (off len : Z) : res (list Z) :=
  if (0 <=? off) && (off + len <=? Z.of_nat (length buf))
  then Val (slice buf (Z.to_nat off) (Z.to_nat len)) else OutOfRange.

Section Receive.
Context `{OpenSSL}.
Variable junk : JunkParams.
Variable state : HandshakeState.
Variable sender : Z.

(** A message behind its junk prefix, without its header protection;
    [Val None] when the decoding fails.  Without protection only [used] bytes
    are read. *)
Definition unprotected (buf : list Z) (s size used : Z) : res (option (list Z)) :=
  if headerProtection junk && (s >=? kHeaderNonceLen) then
    match readAt buf s size with
    | Val l => Val (chacha20Apply (headerProtectionKey junk) (take (Z.to_nat kHeaderNonceLen) buf) l)
    | OutOfRange => OutOfRange
    | Timeout => Timeout
    end
  else
    match readAt buf s used with
    | Val l => Val (Some l)
    | OutOfRange => OutOfRange
    | Timeout => Timeout
    end.

Definition plausible (h : Range) (plain type : Z) : bool :=
  if r_set h then (r_start h <=? type) && (type <=? r_end h) else type =? plain.

(** [Some true] accepts the datagram, [Some false] ignores it, [None] goes on
    to the next check. *)
Definition checkCookie (buf : list Z) (n : Z) : res (option bool) :=
  if n >=? toInt32 (s3 junk + kCookieReplySize) then
    match unprotected buf (s3 junk) kCookieReplySize 8 with
    | Val None => Val (Some false)
    | Val (Some cookie) =>
        if plausible (h3 junk) kTypeCookieReply (getLe32 cookie) && (getLe32 (drop 4 cookie) =? sender)
        then Val (Some true) else Val None
    | OutOfRange => OutOfRange
    | Timeout => Timeout
    end
  else Val None.

Definition checkResponse (buf : list Z) (n : Z) : res bool :=
  if n <? toInt32 (s2 junk + kResponseSize) then Val false
  else
    match unprotected buf (s2 junk) kResponseSize 60 with
    | Val None => Val false
    | Val (Some resp) =>
        if negb (plausible (h2 junk) kTypeResponse (getLe32 resp)) || negb (getLe32 (drop 8 resp) =? sender)
        then Val false
        else Val (match verifyResponse state resp with Some _ => true | None => false end)
    | OutOfRange => OutOfRange
    | Timeout => Timeout
    end.

(** What the probe makes of the first [n] bytes of its buffer. *)
Definition receive (buf : list Z) (n : Z) : res bool :=
  match checkCookie buf n with
  | Val (Some r) => Val r
  | Val None => checkResponse buf n
  | OutOfRange => OutOfRange
  | Timeout => Timeout
  end.

(** A turn of the loop: the clock, what [recv] gives until the limit, the
    clock after it.  Times are in milliseconds since the first sending. *)
Record Tick : Type := mkTick {
  t_now : Z;
  t_recv : option (list Z * Z);    (** the buffer and [n]; [None] for [n <= 0] *)
  t_elapsed : Z
}.

(** The loop: the number of sendings so far, and the result once there is
    one; [OutOfRange] is a read outside the buffer. *)
Fixpoint probeLoop (timeoutMs : Z) (ticks : list Tick) (retried : bool) (sendings : nat) : nat * option (res Z) :=
  match ticks with
  | [] => (sendings, None)
  | t :: ticks' =>
      let limit := if retried then timeoutMs else Z.quot timeoutMs 2 in
      if t_now t >=? limit then
        if retried then (sendings, Some (Val (-1)))
        else probeLoop timeoutMs ticks' true (S sendings)
      else
        match t_recv t with
        | None => probeLoop timeoutMs ticks' retried sendings
        | Some (buf, n) =>
            match receive buf n with
            | Val true => (sendings, Some (Val (t_elapsed t)))
            | Val false => probeLoop timeoutMs ticks' retried sendings
            | OutOfRange => (sendings, Some OutOfRange)
            | Timeout => (sendings, Some Timeout)
            end
        end
  end.
End Receive.

(** ** The probe *)

Section Probe.
Context `{OpenSSL} `{Qt}.
Variable tagMatches : string -> list (string * string).
Variable currentSecs currentMSecs : Z.

(** What is sent, and what the loop needs: [None] is a result of -1 before
    anything is sent. *)
Record Attempt : Type := mkAttempt {
  a_junk : JunkParams;
  a_state : HandshakeState;
  a_sender : Z;
  a_datagrams : list (list Z)
}.

(** The part of [wgProbeHandshakeRTT] before the loop; [eph] is the new key
    pair, [connected] whether a socket could be had. *)
Definition prepare (clientPrivKeyB64 serverPubKeyB64 pskB64 : QString) (junkParams : QJsonObject)
  (eph : list Z) (connected : bool) : ST Random (res (option Attempt)) :=
  match decodeKey clientPrivKeyB64, decodeKey serverPubKeyB64, decodeKey pskB64 with
  | Some clientPriv, Some serverPub, Some psk =>
      let junk := parseJunkParams junkParams in
      match buildInitiation clientPriv serverPub psk eph currentMSecs with
      | None => mret (Val None)
      | Some (state, msg) =>
          word ← randomWord;
          let sender := if word =? 0 then 1 else word in
          type ← (if r_set (h1 junk) then randomU32 (h1 junk) else mret (Some kTypeInitiation));
          match type with
          | None => mret OutOfRange
          | Some type =>
              match sealMessage serverPub type sender msg with
              | None => mret (Val None)
              | Some msg =>
                  if negb connected then mret (Val None)
                  else
                    datagrams ← datagramsOf tagMatches currentSecs junk msg;
                    mret (match datagrams with
                          | Val l => Val (Some (mkAttempt junk state sender l))
                          | OutOfRange => OutOfRange
                          | Timeout => Timeout
                          end)
              end
          end
      end
  | _, _, _ => mret (Val None)
  end.

(** The result and the number of sendings; [None] is still waiting. *)
Definition wgProbeHandshakeRTT (clientPrivKeyB64 serverPubKeyB64 pskB64 : QString) (junkParams : QJsonObject)
  (timeoutMs : Z) (eph : list Z) (connected : bool) (ticks : list Tick) : ST Random (nat * option (res Z)) :=
  attempt ← prepare clientPrivKeyB64 serverPubKeyB64 pskB64 junkParams eph connected;
  mret (match attempt with
        | Val (Some a) => probeLoop (a_junk a) (a_state a) (a_sender a) timeoutMs ticks false 1
        | Val None => (O, Some (Val (-1)))
        | OutOfRange => (O, Some OutOfRange)
        | Timeout => (O, Some Timeout)
        end).
End Probe.

(** ** The other end *)

(** What the primitives are documented to do.  [valid] is a private key. *)
Class Primitives (O : OpenSSL) := {
  HASH : list Z -> list Z;
  HMAC : list Z -> list Z -> list Z;
  MAC : list Z -> list Z -> list Z;
  SEAL : list Z -> list Z -> list Z -> list Z -> list Z * list Z;
  STREAM : list Z -> list Z -> list Z -> list Z;
  PUBKEY : list Z -> list Z;
  DH : list Z -> list Z -> list Z;
  valid : list Z -> Prop;
  hash_ok : forall x, evp_blake2s x = Some (HASH x) /\ length (HASH x) = 32%nat;
  hmac_ok : forall k x, evp_hmac k x = Some (HMAC k x) /\ length (HMAC k x) = 32%nat;
  mac_ok : forall k x, evp_blake2smac k x = Some (MAC k x) /\ length (MAC k x) = 16%nat;
  seal_ok : forall k n ad t, evp_seal k n ad t = Some (SEAL k n ad t)
    /\ length (SEAL k n ad t).1 = length t /\ length (SEAL k n ad t).2 = 16%nat;
  open_seal : forall k n ad t, evp_open k n ad (SEAL k n ad t).1 (SEAL k n ad t).2 = Some t;
  stream_ok : forall k iv x, evp_chacha20 k iv x = Some (STREAM k iv x) /\ length (STREAM k iv x) = length x;
  stream_twice : forall k iv x, STREAM k iv (STREAM k iv x) = x;
  public_ok : forall a, valid a -> evp_public a = Some (PUBKEY a) /\ length (PUBKEY a) = 32%nat;
  derive_ok : forall a b, valid a -> valid b -> evp_derive a (PUBKEY b) = Some (DH a (PUBKEY b))
    /\ length (DH a (PUBKEY b)) = 32%nat /\ existsb (fun x => negb (x =? 0)) (DH a (PUBKEY b)) = true;
  dh_comm : forall a b, valid a -> valid b -> DH a (PUBKEY b) = DH b (PUBKEY a)
}.

(** A responder, from the protocol: sections 5.4.2 and 5.4.3 of the WireGuard
    paper. *)
Section Responder.
Context `{P : Primitives}.

Definition KDF1 (k x : list Z) : list Z := HMAC (HMAC k x) [1].
Definition KDF2 (k x : list Z) : list Z * list Z :=
  let t1 := KDF1 k x in (t1, HMAC (HMAC k x) (t1 ++ [2])).
Definition KDF3 (k x : list Z) : list Z * list Z * list Z :=
  let '(t1, t2) := KDF2 k x in (t1, t2, HMAC (HMAC k x) (t2 ++ [3])).
Definition AEAD_OPEN (k ad c : list Z) : option (list Z) :=
  evp_open k (replicate 12 0) ad (take (length c - 16) c) (drop (length c - 16) c).
Definition AEAD (k ad t : list Z) : list Z := (SEAL k (replicate 12 0) ad t).1 ++ (SEAL k (replicate 12 0) ad t).2.

(** What the responder knows after an initiation it accepts. *)
Record Consumed : Type := mkConsumed {
  c_static : list Z;
  c_time : list Z;
  c_sender : list Z;
  c_ephemeral : list Z;
  c_chain : list Z;
  c_hash : list Z
}.

Definition consume (priv msg : list Z) : option Consumed :=
  let pub := PUBKEY priv in
  let e := slice msg 8 32 in
  let encStatic := slice msg 40 48 in
  let encTime := slice msg 88 28 in
  let ck := HASH kConstruction in
  let h := HASH (HASH (ck ++ kIdentifier) ++ pub) in
  let ck := KDF1 ck e in
  let h := HASH (h ++ e) in
  let '(ck, k) := KDF2 ck (DH priv e) in
  static ← AEAD_OPEN k h encStatic;
  let h := HASH (h ++ encStatic) in
  let '(ck, k) := KDF2 ck (DH priv static) in
  time ← AEAD_OPEN k h encTime;
  let h := HASH (h ++ encTime) in
  if bool_decide (slice msg 116 16 = MAC (HASH (kMac1Label ++ pub)) (take 116 msg))
  then Some (mkConsumed static time (slice msg 4 4) e ck h) else None.

(** The response, with the responder's index, ephemeral key and MACs. *)
Definition respond (c : Consumed) (psk eph : list Z) (type index : Z) (macs : list Z) : list Z :=
  let e := PUBKEY eph in
  let h := HASH (c_hash c ++ e) in
  let ck := KDF1 (c_chain c) e in
  let ck := KDF1 ck (DH eph (c_ephemeral c)) in
  let ck := KDF1 ck (DH eph (c_static c)) in
  let '(_, tau, key) := KDF3 ck psk in
  let h := HASH (h ++ tau) in
  putLe32 type ++ putLe32 index ++ c_sender c ++ e ++ AEAD key h [] ++ macs.
End Responder.

(** ** Lemmas *)

Section Noise.
Context `{P : Primitives}.

Lemma ofLength_some n l : length l = n -> ofLength n (Some l) = Some l.
Proof. intros <-. unfold ofLength. by rewrite Nat.eqb_refl. Qed.

Lemma blake a b : blake2s256 a b = Some (HASH (a ++ b)).
Proof. unfold blake2s256. destruct (hash_ok (a ++ b)) as [-> Hl]. by apply ofLength_some. Qed.
Lemma hmac k x : hmacBlake2s k x = Some (HMAC k x).
Proof. unfold hmacBlake2s. destruct (hmac_ok k x) as [-> Hl]. by apply ofLength_some. Qed.
Lemma mac128 k x : blake2sMac128 k x = Some (MAC k x).
Proof. unfold blake2sMac128. destruct (mac_ok k x) as [-> Hl]. by apply ofLength_some. Qed.
Lemma public_key a : valid a -> x25519Public a = Some (PUBKEY a).
Proof. intros Ha. unfold x25519Public. destruct (public_ok a Ha) as [-> Hl]. by apply ofLength_some. Qed.
Lemma shared_key a b : valid a -> valid b -> x25519Shared a (PUBKEY b) = Some (DH a (PUBKEY b)).
Proof.
  intros Ha Hb. unfold x25519Shared. destruct (derive_ok a b Ha Hb) as (-> & Hl & Hn). rewrite ofLength_some by done.
  unfold mbind, option_bind. by rewrite Hn.
Qed.

Lemma kdf_1 k x : kdf k 1 x = Some (KDF1 k x, [KDF1 k x]).
Proof. unfold kdf, kdfOutputs, mbind, option_bind. by rewrite !hmac. Qed.
Lemma kdf_2 k x : kdf k 2 x = Some ((KDF2 k x).1, [(KDF2 k x).1; (KDF2 k x).2]).
Proof. unfold kdf, kdfOutputs, mbind, option_bind. by rewrite !hmac. Qed.
Lemma kdf_3 k x : kdf k 3 x = Some ((KDF3 k x).1.1, [(KDF3 k x).1.1; (KDF3 k x).1.2; (KDF3 k x).2]).
Proof. unfold kdf, kdfOutputs, mbind, option_bind. by rewrite !hmac. Qed.

Lemma seal_text k t ad : aeadSeal k t ad = Some (AEAD k ad t).
Proof.
  unfold aeadSeal, AEAD, zeroNonce, mbind, option_bind. destruct (seal_ok k (replicate 12 0) ad t) as [-> _].
  by destruct (SEAL _ _ _ _).
Qed.

Lemma length_AEAD k ad t : length (AEAD k ad t) = (length t + 16)%nat.
Proof. unfold AEAD. rewrite length_app. destruct (seal_ok k (replicate 12 0) ad t) as (_ & -> & ->). done. Qed.

Lemma open_AEAD k ad t : AEAD_OPEN k ad (AEAD k ad t) = Some t.
Proof.
  unfold AEAD_OPEN. rewrite length_AEAD. replace (length t + 16 - 16)%nat with (length t) by lia. unfold AEAD.
  destruct (seal_ok k (replicate 12 0) ad t) as (_ & Hl & _). rewrite take_app_length' by done. rewrite drop_app_length' by done.
  apply open_seal.
Qed.

Lemma aead_opens k ad t : aeadOpen k (AEAD k ad t) ad = true.
Proof.
  unfold aeadOpen, kAeadTagLen. rewrite length_AEAD. rewrite (proj2 (Nat.ltb_ge _ _)) by lia.
  pose proof (open_AEAD k ad t) as Ho. unfold AEAD_OPEN in Ho. rewrite length_AEAD in Ho. unfold zeroNonce. by rewrite Ho.
Qed.

Lemma unstream k nonce x : length nonce = 12%nat ->
  exists y, chacha20Apply k nonce x = Some y /\ length y = length x /\ chacha20Apply k nonce y = Some x.
Proof.
  intros Hn. unfold chacha20Apply. destruct (stream_ok k (replicate 4 0 ++ nonce) x) as [-> Hl].
  exists (STREAM k (replicate 4 0 ++ nonce) x). rewrite ofLength_some by done. split; [done |]. split; [done |].
  destruct (stream_ok k (replicate 4 0 ++ nonce) (STREAM k (replicate 4 0 ++ nonce) x)) as [-> _].
  rewrite stream_twice. by apply ofLength_some.
Qed.

(** *** Memory *)

Lemma memcpy_part (a b c src : list Z) off : length a = off -> length b = length src ->
  memcpy (a ++ b ++ c) off src = a ++ src ++ c.
Proof.
  intros <- Hb. unfold memcpy. rewrite take_app_length, drop_app_ge by lia.
  replace (length a + length src - length a)%nat with (length src) by lia. by rewrite drop_app_length' by done.
Qed.

Lemma slice_part (a b c : list Z) off n : length a = off -> length b = n -> slice (a ++ b ++ c) off n = b.
Proof. intros <- <-. unfold slice. by rewrite drop_app_length, take_app_length. Qed.

Lemma zeros n m : (m <= n)%nat -> replicate n 0 = replicate m 0 ++ replicate (n - m) 0.
Proof. intros Hm. rewrite <- replicate_add. f_equal. lia. Qed.

Lemma length_putBe n v : length (putBe n v) = n.
Proof. revert v. induction n as [| n IH]; intros v; [done |]. cbn [putBe]. rewrite length_app, IH. cbn. lia. Qed.

Lemma length_timestamp ms : length (timestampOf ms) = 12%nat.
Proof. unfold timestampOf. rewrite length_app. unfold putBe64. rewrite length_putBe. done. Qed.

(** *** The two sides agree *)

(** The initiation, field by field, and what both sides know after it. *)
Record Noise : Type := mkNoise {
  n_hash : list Z; n_chain : list Z; n_static : list Z; n_time : list Z
}.

Definition noise (cpriv spriv eph : list Z) (ms : Z) : Noise :=
  let pub := PUBKEY spriv in
  let e := PUBKEY eph in
  let h1 := HASH (HASH (HASH (HASH kConstruction ++ kIdentifier) ++ pub) ++ e) in
  let ck1 := KDF1 (HASH kConstruction) e in
  let '(ck2, k2) := KDF2 ck1 (DH eph pub) in
  let encStatic := AEAD k2 h1 (PUBKEY cpriv) in
  let h2 := HASH (h1 ++ encStatic) in
  let '(ck3, k3) := KDF2 ck2 (DH cpriv pub) in
  let encTime := AEAD k3 h2 (timestampOf ms) in
  mkNoise (HASH (h2 ++ encTime)) ck3 encStatic encTime.

Definition bodyOf (eph : list Z) (n : Noise) (rest : list Z) : list Z :=
  PUBKEY eph ++ n_static n ++ n_time n ++ rest.

Lemma noise_lengths cpriv spriv eph ms : valid cpriv ->
  length (n_static (noise cpriv spriv eph ms)) = 48%nat /\ length (n_time (noise cpriv spriv eph ms)) = 28%nat.
Proof.
  intros Hc. destruct (public_ok cpriv Hc) as [_ Hl]. unfold noise. repeat destruct (KDF2 _ _).
  cbn [n_static n_time]. rewrite !length_AEAD, Hl, length_timestamp. done.
Qed.

Lemma build_noise cpriv spriv eph psk ms : valid cpriv -> valid spriv -> valid eph ->
  let n := noise cpriv spriv eph ms in
  buildInitiation cpriv (PUBKEY spriv) psk eph ms =
    Some (mkHandshake (n_hash n) (n_chain n) eph cpriv psk, replicate 8 0 ++ bodyOf eph n (replicate 32 0)).
Proof.
  intros Hc Hs He n. destruct (public_ok cpriv Hc) as [_ Hlc], (public_ok eph He) as [_ Hle].
  destruct (noise_lengths cpriv spriv eph ms Hc) as [Hl1 Hl2]. fold n in Hl1, Hl2.
  unfold buildInitiation, mbind, option_bind. rewrite !blake, app_nil_r, !public_key by done. rewrite !blake, kdf_1, !shared_key by done.
  rewrite !kdf_2, !seal_text. cbn [nth]. 
  unfold n, noise in *. set (h1 := HASH (HASH (HASH (HASH kConstruction ++ kIdentifier) ++ PUBKEY spriv) ++ PUBKEY eph)) in *.
  destruct (KDF2 (KDF1 (HASH kConstruction) (PUBKEY eph)) (DH eph (PUBKEY spriv))) as [ck2 k2]. cbn [fst snd] in *.
  destruct (KDF2 ck2 (DH cpriv (PUBKEY spriv))) as [ck3 k3]. cbn [fst snd n_hash n_chain n_static n_time] in *.
  set (encS := AEAD k2 h1 (PUBKEY cpriv)) in *.
  assert (E1 : memcpy (replicate kInitiationSize 0) 8 (PUBKEY eph) = replicate 8 0 ++ PUBKEY eph ++ replicate 108 0).
  { apply (memcpy_part (replicate 8 0) (replicate 32 0) (replicate 108 0)); [done | by rewrite length_replicate]. }
  rewrite E1.
  assert (E2 : memcpy (replicate 8 0 ++ PUBKEY eph ++ replicate 108 0) 40 encS
    = replicate 8 0 ++ PUBKEY eph ++ encS ++ replicate 60 0).
  { rewrite (zeros 108 48) by lia. rewrite !(app_assoc (replicate 8 0) (PUBKEY eph)).
    apply (memcpy_part (replicate 8 0 ++ PUBKEY eph)); rewrite ?length_app, ?length_replicate; lia. }
  rewrite E2. rewrite !blake.
  assert (E3 : slice (replicate 8 0 ++ PUBKEY eph ++ encS ++ replicate 60 0) 40 (kKeyLen + kAeadTagLen) = encS).
  { rewrite !(app_assoc (replicate 8 0) (PUBKEY eph)). apply slice_part; [rewrite length_app, length_replicate; lia | done]. }
  rewrite E3. set (encT := AEAD k3 (HASH (h1 ++ encS)) (timestampOf ms)) in *.
  assert (E4 : memcpy (replicate 8 0 ++ PUBKEY eph ++ encS ++ replicate 60 0) 88 encT
    = (replicate 8 0 ++ PUBKEY eph ++ encS) ++ encT ++ replicate 32 0).
  { rewrite (zeros 60 28) by lia.
    replace (replicate 8 0 ++ PUBKEY eph ++ encS ++ replicate 28 0 ++ replicate (60 - 28) 0)
      with ((replicate 8 0 ++ PUBKEY eph ++ encS) ++ replicate 28 0 ++ replicate 32 0) by (by rewrite <- !app_assoc).
    apply memcpy_part; rewrite ?length_app, ?length_replicate; lia. }
  rewrite seal_text. fold encT. rewrite blake, E4. rewrite slice_part by (rewrite ?length_app, ?length_replicate; lia || done).
  unfold bodyOf. cbn [n_static n_time]. by rewrite <- !app_assoc.
Qed.

(** A message as it is sent. *)
Definition messageOf (spriv eph : list Z) (n : Noise) (type sender : Z) : list Z :=
  let head := putLe32 type ++ putLe32 sender ++ bodyOf eph n [] in
  head ++ MAC (HASH (kMac1Label ++ PUBKEY spriv)) head ++ replicate 16 0.

Lemma seal_noise cpriv spriv eph ms type sender : valid cpriv -> valid eph ->
  let n := noise cpriv spriv eph ms in
  sealMessage (PUBKEY spriv) type sender (replicate 8 0 ++ bodyOf eph n (replicate 32 0))
    = Some (messageOf spriv eph n type sender).
Proof.
  intros Hc He n. destruct (public_ok eph He) as [_ Hle].
  destruct (noise_lengths cpriv spriv eph ms Hc) as [Hl1 Hl2]. fold n in Hl1, Hl2.
  unfold sealMessage, mbind, option_bind. rewrite blake. 
  assert (E1 : memcpy (replicate 8 0 ++ bodyOf eph n (replicate 32 0)) 0 (putLe32 type)
    = putLe32 type ++ replicate 4 0 ++ bodyOf eph n (replicate 32 0)) by done.
  assert (E2 : memcpy (putLe32 type ++ replicate 4 0 ++ bodyOf eph n (replicate 32 0)) 4 (putLe32 sender)
    = putLe32 type ++ putLe32 sender ++ bodyOf eph n (replicate 32 0)) by (by apply memcpy_part).
  rewrite E1, E2, mac128. set (head := putLe32 type ++ putLe32 sender ++ bodyOf eph n []).
  assert (Eh : putLe32 type ++ putLe32 sender ++ bodyOf eph n (replicate 32 0) = head ++ replicate 16 0 ++ replicate 16 0).
  { unfold head, bodyOf. rewrite app_nil_r, <- !app_assoc. done. }
  assert (Hh : length head = 116%nat).
  { unfold head, bodyOf. rewrite !length_app, Hle, Hl1, Hl2. done. }
  rewrite Eh. unfold kMac1Offset. rewrite take_app_length' by done.
  rewrite memcpy_part; [| done | rewrite length_replicate; by destruct (mac_ok (HASH (kMac1Label ++ PUBKEY spriv)) head)].
  done.
Qed.

(** The fields of a message. *)
Lemma message_fields cpriv spriv eph ms type sender : valid cpriv -> valid eph ->
  let n := noise cpriv spriv eph ms in
  let msg := messageOf spriv eph n type sender in
  length msg = kInitiationSize /\ slice msg 4 4 = putLe32 sender /\ slice msg 8 32 = PUBKEY eph
  /\ slice msg 40 48 = n_static n /\ slice msg 88 28 = n_time n
  /\ slice msg 116 16 = MAC (HASH (kMac1Label ++ PUBKEY spriv)) (take 116 msg).
Proof.
  intros Hc He n msg. destruct (public_ok eph He) as [_ Hle].
  destruct (noise_lengths cpriv spriv eph ms Hc) as [Hl1 Hl2]. fold n in Hl1, Hl2.
  unfold msg, messageOf, bodyOf. rewrite app_nil_r.
  set (head := putLe32 type ++ putLe32 sender ++ PUBKEY eph ++ n_static n ++ n_time n).
  destruct (mac_ok (HASH (kMac1Label ++ PUBKEY spriv)) head) as [_ Hm]. set (mac := MAC _ head) in *.
  assert (Hh : length head = 116%nat) by (unfold head; rewrite !length_app, Hle, Hl1, Hl2; done).
  split; [rewrite !length_app, Hh, Hm; done |].
  assert (Hp : forall a b c off k, length a = off -> length b = k -> head ++ mac ++ replicate 16 0 = a ++ b ++ c ->
    slice (head ++ mac ++ replicate 16 0) off k = b).
  { intros a b c off k Ha Hb ->. by apply slice_part. }
  split; [eapply (Hp (putLe32 type)); [done | done | unfold head; by rewrite <- !app_assoc] |].
  split; [eapply (Hp (putLe32 type ++ putLe32 sender)); [done | done | unfold head; by rewrite <- !app_assoc] |].
  split; [eapply (Hp (putLe32 type ++ putLe32 sender ++ PUBKEY eph)); [by rewrite !length_app, Hle | done
    | unfold head; by rewrite <- !app_assoc] |].
  split; [eapply (Hp (putLe32 type ++ putLe32 sender ++ PUBKEY eph ++ n_static n)); [by rewrite !length_app, Hle, Hl1 | done
    | unfold head; by rewrite <- !app_assoc] |].
  rewrite take_app_length' by done. by eapply (Hp head).
Qed.

(** A responder with the right key accepts it. *)
Lemma consume_noise cpriv spriv eph ms type sender : valid cpriv -> valid spriv -> valid eph ->
  let n := noise cpriv spriv eph ms in
  consume spriv (messageOf spriv eph n type sender)
    = Some (mkConsumed (PUBKEY cpriv) (timestampOf ms) (putLe32 sender) (PUBKEY eph) (n_chain n) (n_hash n)).
Proof.
  intros Hc Hs He n. destruct (message_fields cpriv spriv eph ms type sender Hc He) as (_ & F1 & F2 & F3 & F4 & F5).
  fold n in F1, F2, F3, F4, F5. set (msg := messageOf spriv eph n type sender) in *.
  unfold consume. rewrite F1, F2, F3, F4. rewrite bool_decide_eq_true_2 by exact F5. clear F1 F2 F3 F4 F5.
  rewrite (dh_comm spriv eph) by done. unfold n, noise.
  set (h1 := HASH (HASH (HASH (HASH kConstruction ++ kIdentifier) ++ PUBKEY spriv) ++ PUBKEY eph)).
  destruct (KDF2 (KDF1 (HASH kConstruction) (PUBKEY eph)) (DH eph (PUBKEY spriv))) as [ck2 k2].
  destruct (KDF2 ck2 (DH cpriv (PUBKEY spriv))) as [ck3 k3] eqn:E3. cbn [n_static n_time n_hash n_chain].
  rewrite open_AEAD. unfold mbind, option_bind. rewrite (dh_comm spriv cpriv) by done. rewrite E3, open_AEAD. done.
Qed.

(** The initiator accepts what such a responder sends. *)
Lemma verify_response (c : Consumed) state psk re type index macs cpriv eph :
  valid re -> valid cpriv -> valid eph ->
  length (c_sender c) = 4%nat -> c_static c = PUBKEY cpriv -> c_ephemeral c = PUBKEY eph ->
  state = mkHandshake (c_hash c) (c_chain c) eph cpriv psk ->
  verifyResponse state (respond c psk re type index macs) = Some tt
  /\ exists rest, respond c psk re type index macs = putLe32 type ++ putLe32 index ++ c_sender c ++ rest
       /\ length rest = (48 + length macs)%nat.
Proof.
  intros Hr Hc He Hl Es Ee ->. destruct (public_ok re Hr) as [_ Hle]. unfold respond. rewrite Ee, Es.
  set (h := HASH (c_hash c ++ PUBKEY re)).
  set (ck := KDF1 (KDF1 (KDF1 (c_chain c) (PUBKEY re)) (DH re (PUBKEY eph))) (DH re (PUBKEY cpriv))).
  destruct (KDF3 ck psk) as [[ck' tau] key] eqn:Ek. set (h' := HASH (h ++ tau)).
  split; [| exists (PUBKEY re ++ AEAD key h' [] ++ macs); split; [done |]; rewrite !length_app, length_AEAD, Hle; done].
  set (resp := putLe32 type ++ _).
  assert (F1 : slice resp 12 kKeyLen = PUBKEY re).
  { unfold resp. rewrite !(app_assoc (putLe32 type)), (app_assoc _ (c_sender c)). apply slice_part; [| done].
    rewrite !length_app, Hl. done. }
  assert (F2 : slice resp 44 kAeadTagLen = AEAD key h' []).
  { unfold resp. rewrite !(app_assoc (putLe32 type)), (app_assoc _ (c_sender c)), (app_assoc _ (PUBKEY re)).
    apply slice_part; [rewrite !length_app, Hl, Hle; done | by rewrite length_AEAD]. }
  unfold verifyResponse. rewrite F1, F2. cbn [hs_hash hs_chainKey ephemeral staticPriv hs_psk].
  unfold mbind, option_bind. rewrite blake, kdf_1, !shared_key by done. rewrite (dh_comm eph re), (dh_comm cpriv re) by done.
  rewrite !kdf_1. fold ck. rewrite kdf_3, Ek. cbn [fst snd nth]. rewrite blake. fold h h'. by rewrite aead_opens.
Qed.
End Noise.

(** *** Bytes *)

Lemma land_byte v : Z.land v 0xff = v mod 256.
Proof. change 0xff with (Z.ones 8). by rewrite Z.land_ones. Qed.

Lemma getLe32_putLe32 v rest : 0 <= v < 2 ^ 32 -> getLe32 (putLe32 v ++ rest) = v.
Proof.
  intros Hv. unfold getLe32, putLe32, byte_at.
  change (Z.to_nat 0) with 0%nat. change (Z.to_nat 1) with 1%nat. change (Z.to_nat 2) with 2%nat.
  change (Z.to_nat 3) with 3%nat. cbn [app nth].
  rewrite !land_byte, !Z.shiftr_div_pow2, !Z.shiftl_mul_pow2 by lia.
  assert (H0 := Z.mod_pos_bound v 256 ltac:(lia)). assert (H1 := Z.mod_pos_bound (v / 2 ^ 8) 256 ltac:(lia)).
  assert (H2 := Z.mod_pos_bound (v / 2 ^ 16) 256 ltac:(lia)).
  assert (Hor : forall a b k, 0 <= k -> 0 <= a < 2 ^ k -> 0 <= b -> Z.lor a (b * 2 ^ k) = a + b * 2 ^ k).
  { intros a b k Hk Ha Hb. rewrite <- Z.add_lor_land. replace (Z.land a (b * 2 ^ k)) with 0; [lia |].
    symmetry. apply Z.bits_inj'. intros i Hi. rewrite Z.land_spec, Z.bits_0, <- Z.shiftl_mul_pow2 by lia.
    destruct (decide (i < k)); [rewrite Z.shiftl_spec_low by lia; apply andb_false_r |].
    rewrite (testbit_above a k) by lia. done. }
  rewrite (Hor _ (v / 2 ^ 8 mod 256) 8), (Hor _ (v / 2 ^ 16 mod 256) 16) by lia.
  rewrite (Hor _ (v / 2 ^ 24 mod 256) 24) by (try lia; apply Z.mod_pos_bound; lia).
  rewrite (Z.mod_small (v / 2 ^ 24) 256) by (split; [apply Z.div_pos; lia | apply Z.div_lt_upper_bound; lia]).
  assert (E1 := Z.div_mod v 256 ltac:(lia)). assert (E2 := Z.div_mod (v / 2 ^ 8) 256 ltac:(lia)).
  assert (E3 := Z.div_mod (v / 2 ^ 16) 256 ltac:(lia)).
  replace (v / 2 ^ 8 / 256) with (v / 2 ^ 16) in E2 by (rewrite Z.div_div by lia; done).
  replace (v / 2 ^ 16 / 256) with (v / 2 ^ 24) in E3 by (rewrite Z.div_div by lia; done).
  change (v / 256) with (v / 2 ^ 8) in E1. lia.
Qed.

Lemma toInt32_small z : 0 <= z < 2 ^ 31 -> toInt32 z = z.
Proof. intros Hz. unfold toInt32. rewrite Z.mod_small by lia. lia. Qed.

(** *** The reply is accepted *)

Section Accepted.
Context `{P : Primitives}.

(** A message of the server behind the junk prefix of its [S2]. *)
Definition onWire (junk : JunkParams) (prefix resp : list Z) : list Z :=
  prefix ++ (if headerProtection junk && (s2 junk >=? kHeaderNonceLen)
             then STREAM (headerProtectionKey junk) (replicate 4 0 ++ take 12 prefix) resp else resp).

Lemma chacha_stream k nonce x : chacha20Apply k nonce x = Some (STREAM k (replicate 4 0 ++ nonce) x).
Proof. unfold chacha20Apply. destruct (stream_ok k (replicate 4 0 ++ nonce) x) as [-> Hl]. by apply ofLength_some. Qed.

Lemma readAt_in buf off len : 0 <= off -> off + len <= Z.of_nat (length buf) ->
  readAt buf off len = Val (slice buf (Z.to_nat off) (Z.to_nat len)).
Proof. intros H1 H2. unfold readAt. by rewrite (proj2 (Z.leb_le _ _)), (proj2 (Z.leb_le _ _)) by lia. Qed.

Lemma unprotected_in junk buf s size used : 0 <= s -> 0 <= used <= size -> s + size <= Z.of_nat (length buf) ->
  exists l, unprotected junk buf s size used = Val (Some l).
Proof.
  intros Hs Hu Hl. unfold unprotected. destruct (headerProtection junk && _).
  - rewrite readAt_in by lia. rewrite chacha_stream. by eexists.
  - rewrite readAt_in by lia. by eexists.
Qed.

Lemma cookie_in junk sender buf n : 0 <= s3 junk -> s3 junk + kCookieReplySize < 2 ^ 31 -> n <= Z.of_nat (length buf) ->
  checkCookie junk sender buf n = Val (Some true) \/ checkCookie junk sender buf n = Val None.
Proof.
  intros Hs Hb Hn. unfold checkCookie. rewrite toInt32_small by (unfold kCookieReplySize in *; lia).
  destruct (n >=? _) eqn:E; [| by right]. zbool. destruct (unprotected_in junk buf (s3 junk) kCookieReplySize 8) as [l ->];
    unfold kCookieReplySize in *; try lia. destruct (_ && _); auto.
Qed.

Lemma receive_accepts junk state sender buf n resp :
  0 <= s3 junk -> s3 junk + kCookieReplySize < 2 ^ 31 -> n <= Z.of_nat (length buf) ->
  0 <= s2 junk -> s2 junk + kResponseSize <= n -> s2 junk + kResponseSize < 2 ^ 31 ->
  (exists l, unprotected junk buf (s2 junk) kResponseSize 60 = Val (Some l) /\ exists m, resp = l ++ m /\ 60 <= Z.of_nat (length l)) ->
  plausible (h2 junk) kTypeResponse (getLe32 resp) = true -> getLe32 (drop 8 resp) = sender ->
  verifyResponse state resp = Some tt -> receive junk state sender buf n = Val true.
Proof.
  intros H3 H3' Hn H2 H2' H2'' (l & Hl & m & Er & Hm) Hp Hs Hv. unfold receive.
  destruct (cookie_in junk sender buf n H3 H3' Hn) as [-> | ->]; [done |].
  unfold checkResponse. rewrite toInt32_small by (unfold kResponseSize in *; lia). rewrite (proj2 (Z.ltb_ge _ _)) by lia.
  rewrite Hl. subst resp.
  assert (E0 : forall off k, (off + k <= length l)%nat -> slice (l ++ m) off k = slice l off k).
  { intros off k Hk. unfold slice. rewrite drop_app_le by lia. apply take_app_le. rewrite length_drop. lia. }
  assert (E1 : getLe32 (l ++ m) = getLe32 l).
  { unfold getLe32, byte_at. rewrite !app_nth1 by lia. done. }
  assert (E2 : getLe32 (drop 8 (l ++ m)) = getLe32 (drop 8 l)).
  { rewrite drop_app_le by lia. unfold getLe32, byte_at. rewrite !app_nth1 by (rewrite length_drop; lia). done. }
  rewrite E1 in Hp. rewrite E2 in Hs. rewrite Hp, Hs, Z.eqb_refl. cbn [negb orb].
  assert (E3 : verifyResponse state (l ++ m) = verifyResponse state l).
  { unfold verifyResponse. rewrite !E0 by (unfold kKeyLen, kAeadTagLen; lia). done. }
  rewrite E3 in Hv. by rewrite Hv.
Qed.

Lemma wire_decodes junk prefix resp extra : length resp = 92%nat -> Z.of_nat (length prefix) = s2 junk ->
  exists l, unprotected junk (onWire junk prefix resp ++ extra) (s2 junk) kResponseSize 60 = Val (Some l)
    /\ exists m, resp = l ++ m /\ 60 <= Z.of_nat (length l).
Proof.
  intros Hr Hp. unfold unprotected, onWire. set (x := headerProtection junk && (s2 junk >=? kHeaderNonceLen)).
  assert (Hs : forall y k, length y = 92%nat -> 0 <= k <= 92 ->
    readAt ((prefix ++ y) ++ extra) (s2 junk) k = Val (take (Z.to_nat k) y)).
  { intros y k Hy Hk. rewrite readAt_in by (rewrite ?length_app; lia). f_equal. unfold slice. rewrite <- app_assoc.
    rewrite <- Hp, Nat2Z.id, drop_app_length. apply take_app_le. lia. }
  destruct x eqn:Ex.
  - set (y := STREAM _ _ resp). assert (Hy : length y = 92%nat).
    { unfold y. by destruct (stream_ok (headerProtectionKey junk) (replicate 4 0 ++ take 12 prefix) resp) as [_ ->]. }
    rewrite Hs by (unfold kResponseSize; lia || done). rewrite (take_ge y) by (unfold kResponseSize; lia).
    rewrite chacha_stream. exists resp. split; [| exists []; rewrite app_nil_r; split; [done | lia]].
    apply andb_true_iff in Ex as [_ Ex]. unfold kHeaderNonceLen in *. zbool.
    rewrite <- app_assoc, take_app_le by lia. unfold y. by rewrite stream_twice.
  - rewrite Hs by (lia || done). exists (take 60 resp). split; [done |]. exists (drop 60 resp).
    split; [by rewrite take_drop | rewrite length_take; lia].
Qed.
End Accepted.

(** *** Bounds *)

Lemma toInt32_range z : - 2 ^ 31 <= z < 2 ^ 31 -> toInt32 z = z.
Proof. intros Hz. unfold toInt32. rewrite Z.mod_small by lia. lia. Qed.

Lemma word_bound r : 0 <= (randomWord r).1 < 2 ^ 32.
Proof.
  unfold randomWord, randomBytes, mbind, ST_bind, getLe32, byte_at. cbn [fst mret ST_ret].
  change (Z.to_nat 0) with 0%nat. change (Z.to_nat 1) with 1%nat. change (Z.to_nat 2) with 2%nat.
  change (Z.to_nat 3) with 3%nat. cbn [seq map nth].
  assert (Hb : forall i k, 0 <= k <= 24 -> 0 <= Z.shiftl (Z.land (r i) 0xff) k < 2 ^ 32).
  { intros i k Hk. rewrite land_byte, Z.shiftl_mul_pow2 by lia. pose proof (Z.mod_pos_bound (r i) 256 ltac:(lia)).
    assert (2 ^ 0 <= 2 ^ k <= 2 ^ 24) by (split; apply Z.pow_le_mono_r; lia). nia. }
  assert (Ho : forall a b, 0 <= a < 2 ^ 32 -> 0 <= b < 2 ^ 32 -> 0 <= Z.lor a b < 2 ^ 32).
  { intros a b Ha Hb'. assert (0 <= Z.lor a b) by (apply Z.lor_nonneg; lia). split; [done |].
    apply bits_bound; [lia | done |]. intros i Hi. rewrite Z.lor_spec, !(testbit_above _ 32) by lia. done. }
  repeat apply Ho; try (apply Hb; lia). specialize (Hb 0%nat 0 ltac:(lia)). by rewrite Z.shiftl_0_r in Hb.
Qed.

Lemma readAt_zeros n off len : 0 <= off -> off + len <= Z.of_nat n -> 0 <= len ->
  readAt (replicate n 0) off len = Val (replicate (Z.to_nat len) 0).
Proof.
  intros H1 H2 H3. rewrite readAt_in by (rewrite ?length_replicate; lia). unfold slice. f_equal.
  rewrite drop_replicate, take_replicate. f_equal. lia.
Qed.

Section InRange.
Context `{OpenSSL}.

Lemma unprotected_in_range junk buf s size used :
  0 <= s -> 0 <= used <= size -> s + size <= Z.of_nat (length buf) -> unprotected junk buf s size used <> OutOfRange.
Proof. intros Hs Hu Hl. unfold unprotected. destruct (headerProtection junk && _); by rewrite readAt_in by lia. Qed.

Lemma receive_in junk state sender buf n :
  0 <= s2 junk -> s2 junk + kResponseSize < 2 ^ 31 -> 0 <= s3 junk -> s3 junk + kCookieReplySize < 2 ^ 31 ->
  n <= Z.of_nat (length buf) -> receive junk state sender buf n <> OutOfRange.
Proof.
  unfold kResponseSize, kCookieReplySize. intros H2 H2' H3 H3' Hn. unfold receive.
  assert (Hc : checkCookie junk sender buf n <> OutOfRange).
  { unfold checkCookie, kCookieReplySize. rewrite toInt32_range by lia. destruct (n >=? _) eqn:E; [| done]. zbool.
    pose proof (unprotected_in_range junk buf (s3 junk) 64 8 H3 ltac:(lia) ltac:(lia)) as Hu.
    destruct (unprotected _ _ _ _ _) as [[l |] | |]; try done. by destruct (_ && _). }
  destruct (checkCookie junk sender buf n) as [[r |] | |]; try done. unfold checkResponse, kResponseSize.
  rewrite toInt32_range by lia. destruct (n <? _) eqn:E; [done |]. zbool.
  pose proof (unprotected_in_range junk buf (s2 junk) 92 60 H2 ltac:(lia) ltac:(lia)) as Hu.
  destruct (unprotected _ _ _ _ _) as [[l |] | |]; try done. by destruct (_ || _).
Qed.

(** Without header protection, a datagram of zeroes. *)
Lemma receive_out junk state sender :
  headerProtection junk = false -> sender <> 0 -> - 2 ^ 31 <= s2 junk -> - 2 ^ 31 <= s3 junk < 2 ^ 31 - 64 ->
  s2 junk < 0 \/ s3 junk < 0 -> receive junk state sender (replicate 2048 0) 2048 = OutOfRange.
Proof.
  intros Hp Hs H2 H3 Hneg. unfold receive, checkCookie, kCookieReplySize, unprotected. rewrite Hp, toInt32_range by lia. cbn [andb].
  assert (Hout : forall off k, off < 0 -> readAt (replicate 2048 0) off k = OutOfRange).
  { intros off k Ho. unfold readAt. by rewrite (proj2 (Z.leb_gt _ _)) by lia. }
  destruct (decide (s3 junk < 0)) as [Hn |].
  - rewrite (proj2 (Z.geb_le _ _)) by lia. by rewrite Hout.
  - assert (Hr : checkResponse junk state sender (replicate 2048 0) 2048 = OutOfRange).
    { unfold checkResponse, kResponseSize, unprotected. rewrite Hp, toInt32_range by lia. cbn [andb].
      rewrite (proj2 (Z.ltb_ge _ _)) by lia. by rewrite Hout by lia. }
    destruct (2048 >=? s3 junk + 64) eqn:E; [| done]. zbool. rewrite readAt_zeros by lia.
    change (getLe32 (drop 4 (replicate (Z.to_nat 8) 0))) with 0. rewrite (proj2 (Z.eqb_neq 0 sender)) by lia.
    by rewrite andb_false_r.
Qed.

(** *** The loop *)

Definition late (timeoutMs : Z) (t : Tick) : Prop := timeoutMs <= t_now t.

Lemma probeLoop_spec junk state sender timeoutMs ticks : forall retried k,
  let r := probeLoop junk state sender timeoutMs ticks retried k in
  (r.1 = k \/ (retried = false /\ r.1 = S k /\ exists t, t ∈ ticks /\ Z.quot timeoutMs 2 <= t_now t))
  /\ match r.2 with
     | None => True
     | Some (Val e) => (e = -1 /\ exists t, t ∈ ticks /\ late timeoutMs t) \/
         exists t buf n, t ∈ ticks /\ t_recv t = Some (buf, n) /\ receive junk state sender buf n = Val true /\ e = t_elapsed t
     | Some o => exists t buf n, t ∈ ticks /\ t_recv t = Some (buf, n) /\ receive junk state sender buf n <> Val true
         /\ receive junk state sender buf n <> Val false
     end.
Proof.
  induction ticks as [| t ticks IH]; intros retried k; cbn [probeLoop]; [split; [by left | done] |].
  assert (Hmono : forall b k', let r := probeLoop junk state sender timeoutMs ticks b k' in
    match r.2 with
    | None => True
    | Some (Val e) => (e = -1 /\ exists t, t ∈ ticks /\ late timeoutMs t) \/
        exists t buf n, t ∈ ticks /\ t_recv t = Some (buf, n) /\ receive junk state sender buf n = Val true /\ e = t_elapsed t
    | Some o => exists t buf n, t ∈ ticks /\ t_recv t = Some (buf, n) /\ receive junk state sender buf n <> Val true
        /\ receive junk state sender buf n <> Val false
    end -> match r.2 with
    | None => True
    | Some (Val e) => (e = -1 /\ exists t', t' ∈ t :: ticks /\ late timeoutMs t') \/
        exists t' buf n, t' ∈ t :: ticks /\ t_recv t' = Some (buf, n) /\ receive junk state sender buf n = Val true /\ e = t_elapsed t'
    | Some o => exists t' buf n, t' ∈ t :: ticks /\ t_recv t' = Some (buf, n) /\ receive junk state sender buf n <> Val true
        /\ receive junk state sender buf n <> Val false
    end).
  { intros b k' r. destruct r.2 as [[e | |] |]; [| | | done].
    - intros [[He (t' & Ht & Hl)] | (t' & buf & n & Ht & Hr)]; [left; split; [done |]; exists t'; split; [by right | done] |].
      right. exists t', buf, n. split; [by right | done].
    - intros (t' & buf & n & Ht & Hr). exists t', buf, n. split; [by right | done].
    - intros (t' & buf & n & Ht & Hr). exists t', buf, n. split; [by right | done]. }
  assert (Hgo : forall b, let r := probeLoop junk state sender timeoutMs ticks b k in
    (r.1 = k \/ (b = false /\ r.1 = S k /\ exists t', t' ∈ t :: ticks /\ Z.quot timeoutMs 2 <= t_now t'))).
  { intros b. destruct (proj1 (IH b k)) as [H1 | (H1 & H2 & t' & Ht & Hq)]; [by left | right].
    split; [done |]. split; [done |]. exists t'. split; [by right | done]. }
  destruct (t_now t >=? (if retried then timeoutMs else Z.quot timeoutMs 2)) eqn:El; zbool.
  - destruct retried.
    + split; [by left |]. left. split; [done |]. exists t. split; [by left | unfold late; lia].
    + split; [right | apply Hmono, IH]. split; [done |]. destruct (proj1 (IH true (S k))) as [-> | [? _]]; [| done].
      split; [done |]. exists t. split; [by left | lia].
  - destruct (t_recv t) as [[buf n] |] eqn:Er; [| split; [apply Hgo | apply Hmono, IH]].
    destruct (receive junk state sender buf n) as [[] | |] eqn:Ev.
    + split; [by left |]. right. exists t, buf, n. split; [by left | done].
    + split; [apply Hgo | apply Hmono, IH].
    + split; [by left |]. exists t, buf, n. split; [by left |]. by rewrite Ev.
    + split; [by left |]. exists t, buf, n. split; [by left |]. by rewrite Ev.
Qed.

Lemma probeLoop_ends junk state sender timeoutMs l1 l2 l3 t1 t2 retried k : 0 <= timeoutMs ->
  late timeoutMs t1 -> late timeoutMs t2 ->
  (probeLoop junk state sender timeoutMs (l1 ++ t1 :: l2 ++ t2 :: l3) retried k).2 <> None.
Proof.
  intros Ht H1 H2. unfold late in *.
  assert (Hend : forall l k', (probeLoop junk state sender timeoutMs (l ++ t2 :: l3) true k').2 <> None).
  { induction l as [| t l IH]; intros k'; cbn [app probeLoop].
    - by rewrite (proj2 (Z.geb_le _ _)) by lia.
    - destruct (_ >=? _); [done |]. destruct (t_recv t) as [[buf n] |]; [| apply IH].
      destruct (receive _ _ _ _ _) as [[] | |]; first [done | apply IH]. }
  revert retried k. induction l1 as [| t l1 IH]; intros retried k; cbn [app probeLoop].
  - assert (Z.quot timeoutMs 2 <= timeoutMs) by (rewrite Z.quot_div_nonneg by lia; apply Z.div_le_upper_bound; lia).
    destruct retried; rewrite (proj2 (Z.geb_le _ _)) by lia; [done | apply Hend].
  - destruct (_ >=? _); [destruct retried; [done | apply IH] |]. destruct (t_recv t) as [[buf n] |]; [| apply IH].
    destruct (receive _ _ _ _ _) as [[] | |]; first [done | apply IH].
Qed.
End InRange.

(** ** Properties *)

(** C8 (refinement): the handshake completes.  With the primitives as they
    are documented, the message the probe builds is one that a responder
    written from the protocol accepts: it finds the client's key, the time of
    the probe and a valid MAC.  And whatever response this responder sends,
    with any new key, index and MACs, behind a junk prefix of [S2] bytes, with
    or without header protection and with anything after it, the probe accepts
    it: a server that answers is never reported as down. *)
Theorem handshake_completes `{P : Primitives} (junk : JunkParams) (cpriv spriv eph psk : list Z)
  (ms type sender : Z) (Hc : valid cpriv) (Hs : valid spriv) (He : valid eph)
  (H3 : 0 <= s3 junk < 2 ^ 30) (Hsender : 0 <= sender < 2 ^ 32) :
  exists state body msg c,
    buildInitiation cpriv (PUBKEY spriv) psk eph ms = Some (state, body)
    /\ sealMessage (PUBKEY spriv) type sender body = Some msg /\ length msg = kInitiationSize
    /\ consume spriv msg = Some c /\ c_static c = PUBKEY cpriv /\ c_time c = timestampOf ms
    /\ forall (re prefix macs extra : list Z) (rtype index : Z),
        valid re -> length macs = 32%nat -> Z.of_nat (length prefix) = s2 junk -> s2 junk < 2 ^ 30 ->
        0 <= rtype < 2 ^ 32 -> plausible (h2 junk) kTypeResponse rtype = true ->
        let buf := onWire junk prefix (respond c psk re rtype index macs) ++ extra in
        receive junk state sender buf (Z.of_nat (length buf)) = Val true.
Proof.
  set (n := noise cpriv spriv eph ms).
  exists (mkHandshake (n_hash n) (n_chain n) eph cpriv psk), (replicate 8 0 ++ bodyOf eph n (replicate 32 0)),
    (messageOf spriv eph n type sender),
    (mkConsumed (PUBKEY cpriv) (timestampOf ms) (putLe32 sender) (PUBKEY eph) (n_chain n) (n_hash n)).
  split; [by apply build_noise |]. split; [by apply (seal_noise cpriv) |].
  split; [by apply (message_fields cpriv spriv eph ms type sender Hc He) |]. split; [by apply consume_noise |].
  split; [done |]. split; [done |]. intros re prefix macs extra rtype index Hre Hm Hp Hp2 Ht Hpl buf.
  set (c := mkConsumed _ _ _ _ _ _) in *. set (state := mkHandshake _ _ _ _ _).
  destruct (verify_response c state psk re rtype index macs cpriv eph Hre Hc He eq_refl eq_refl eq_refl eq_refl)
    as (Hv & rest & Er & Hrl).
  assert (Hlen : length (respond c psk re rtype index macs) = 92%nat).
  { rewrite Er, !length_app, Hrl, Hm. done. }
  destruct (wire_decodes junk prefix _ extra Hlen Hp) as (l & Hl & Hm').
  assert (Hbuf : Z.of_nat (length buf) >= s2 junk + 92).
  { unfold buf, onWire. rewrite !length_app. destruct (_ && _); [| rewrite Hlen; lia].
    destruct (stream_ok (headerProtectionKey junk) (replicate 4 0 ++ take 12 prefix) (respond c psk re rtype index macs)) as [_ ->].
    rewrite Hlen. lia. }
  eapply receive_accepts; unfold kResponseSize, kCookieReplySize in *; try lia; [by exists l | | | exact Hv]; rewrite Er.
  - by rewrite getLe32_putLe32.
  - change (drop 8 (putLe32 rtype ++ putLe32 index ++ c_sender c ++ rest)) with (putLe32 sender ++ rest).
    by apply getLe32_putLe32.
Qed.


(** The magic header of the initiation.  A value drawn from a
    range lies in it, so that the server that checks the range recognises it;
    the only range that cannot be drawn from is the full one, 0 to
    4294967295, for which the width wraps to zero and the probe divides by
    it. *)
Theorem magic_header_in_range (range : Range) (r : Random)
  (Hset : r_set range = true) (Hr : 0 <= r_start range /\ r_start range <= r_end range < 2 ^ 32) :
  match (randomU32 range r).1 with
  | Some v => r_start range <= v <= r_end range /\ (forall plain, plausible range plain v = true)
  | None => r_start range = 0 /\ r_end range = 2 ^ 32 - 1
  end
  /\ (r_start range = 0 -> r_end range = 2 ^ 32 - 1 -> (randomU32 range r).1 = None).
Proof.
  assert (Hp : forall v, r_start range <= v <= r_end range ->
    r_start range <= v <= r_end range /\ (forall plain, plausible range plain v = true)).
  { intros v Hv. split; [done |]. intros plain. unfold plausible. rewrite Hset.
    by rewrite (proj2 (Z.leb_le _ _)), (proj2 (Z.leb_le _ _)) by lia. }
  unfold randomU32. rewrite Hset. cbn [negb orb]. destruct (r_end range <=? r_start range) eqn:E; zbool; cbn [fst mret ST_ret].
  - split; [apply Hp; lia | lia].
  - unfold mbind, ST_bind. pose proof (word_bound r) as Hw. destruct (randomWord r) as [v r']. cbn [fst mret ST_ret] in *.
    unfold u32. rewrite (Z.mod_small (r_end range - r_start range)) by lia.
    destruct (decide (r_end range - r_start range = 2 ^ 32 - 1)) as [Ef | Ef].
    + rewrite Ef. change ((2 ^ 32 - 1 + 1) mod 2 ^ 32) with 0. rewrite Z.eqb_refl. split; [lia | done].
    + rewrite (Z.mod_small (r_end range - r_start range + 1)) by lia. rewrite (proj2 (Z.eqb_neq _ _)) by lia.
      pose proof (Z.mod_pos_bound v (r_end range - r_start range + 1) ltac:(lia)).
      rewrite Z.mod_small by lia. split; [apply Hp; lia | lia].
Qed.

(** The probe ends.  Once the clock has reached the deadline
    at two turns of the loop it has a result, whatever was received; the
    initiation was sent once, or twice when the clock had reached half of the
    time; the result is -1, after the deadline, or the time of a datagram that
    was accepted. *)
Theorem probe_ends `{OpenSSL} (junk : JunkParams) (state : HandshakeState) (sender timeoutMs : Z)
  (l1 l2 l3 : list Tick) (t1 t2 : Tick) (Ht : 0 <= timeoutMs) (H1 : late timeoutMs t1) (H2 : late timeoutMs t2)
  (Hs2 : 0 <= s2 junk < 2 ^ 30) (Hs3 : 0 <= s3 junk < 2 ^ 30)
  (Hbuf : forall t buf n, t ∈ l1 ++ t1 :: l2 ++ t2 :: l3 -> t_recv t = Some (buf, n) -> n <= Z.of_nat (length buf)) :
  let ticks := l1 ++ t1 :: l2 ++ t2 :: l3 in
  let r := probeLoop junk state sender timeoutMs ticks false 1 in
  (r.1 = 1%nat \/ r.1 = 2%nat /\ exists t, t ∈ ticks /\ Z.quot timeoutMs 2 <= t_now t)
  /\ exists e, r.2 = Some (Val e)
     /\ ((e = -1 /\ exists t, t ∈ ticks /\ late timeoutMs t) \/
         exists t buf n, t ∈ ticks /\ t_recv t = Some (buf, n) /\ receive junk state sender buf n = Val true /\ e = t_elapsed t).
Proof.
  intros ticks r. destruct (probeLoop_spec junk state sender timeoutMs ticks false 1) as [Hn Hv]. fold r in Hn, Hv.
  split; [destruct Hn as [-> | (_ & -> & Hx)]; [by left | right; by split] |].
  pose proof (probeLoop_ends junk state sender timeoutMs l1 l2 l3 t1 t2 false 1 Ht H1 H2) as Hsome. fold ticks r in Hsome.
  assert (Hin : forall t buf n, t ∈ ticks -> t_recv t = Some (buf, n) -> receive junk state sender buf n <> OutOfRange).
  { intros t buf n Hti Hre. apply receive_in; unfold kResponseSize, kCookieReplySize; try lia. by eapply Hbuf. }
  assert (Hto : forall buf n, receive junk state sender buf n <> Timeout).
  { intros buf n. assert (Hu : forall s size used, unprotected junk buf s size used <> Timeout).
    { intros s size used. unfold unprotected, readAt. by repeat case_if. }
    unfold receive, checkCookie, checkResponse.
    pose proof (Hu (s3 junk) kCookieReplySize 8). pose proof (Hu (s2 junk) kResponseSize 60).
    destruct (unprotected _ _ (s3 junk) _ _) as [[] | |], (unprotected _ _ (s2 junk) _ _) as [[] | |]; try done;
      repeat case_if; done. }
  destruct r.2 as [[e | |] |]; [by exists e | | | done]; destruct Hv as (t & buf & n & Hti & Hre & Ha & Hb).
  - pose proof (Hin t buf n Hti Hre). pose proof (Hto buf n). by destruct (receive junk state sender buf n) as [[] | |].
  - pose proof (Hin t buf n Hti Hre). pose proof (Hto buf n). by destruct (receive junk state sender buf n) as [[] | |].
Qed.

(** ** Witnesses *)

(** Primitives that have the algebra and no secrecy: digests repeat a sum,
    sealing adds an empty tag, the public key is the private one and a shared
    secret is the sum of both. *)
Definition sumBytes (l : list Z) : Z := fold_left Z.add l 1 mod 256.

#[export] Instance toySSL : OpenSSL := {|
  evp_blake2s x := Some (replicate 32 (sumBytes x));
  evp_hmac k x := Some (replicate 32 (sumBytes (k ++ x)));
  evp_blake2smac k x := Some (replicate 16 (sumBytes (k ++ x)));
  evp_seal _ _ _ t := Some (t, replicate 16 0);
  evp_open _ _ _ c tag := if bool_decide (tag = replicate 16 0) then Some c else None;
  evp_chacha20 _ _ x := Some (map (fun b => Z.lxor b 1) x);
  evp_public a := Some a;
  evp_derive a b := Some (zip_with Z.add a b)
|}.

Definition toyKey (a : list Z) : Prop := length a = 32%nat /\ Forall (fun b => 0 < b) a.

Lemma toy_nonzero a b : toyKey a -> toyKey b -> existsb (fun x => negb (x =? 0)) (zip_with Z.add a b) = true.
Proof.
  intros [Ha Fa] [Hb Fb]. destruct a as [| x a]; [done |]. destruct b as [| y b]; [done |].
  apply Forall_cons in Fa as [Hx _]. apply Forall_cons in Fb as [Hy _]. cbn. by rewrite (proj2 (Z.eqb_neq _ _)) by lia.
Qed.

#[export] Program Instance toyPrimitives : Primitives toySSL := {|
  HASH x := replicate 32 (sumBytes x);
  HMAC k x := replicate 32 (sumBytes (k ++ x));
  MAC k x := replicate 16 (sumBytes (k ++ x));
  SEAL _ _ _ t := (t, replicate 16 0);
  STREAM _ _ x := map (fun b => Z.lxor b 1) x;
  PUBKEY a := a;
  DH a b := zip_with Z.add a b;
  valid := toyKey
|}.
Next Obligation. done. Qed.
Next Obligation. done. Qed.
Next Obligation. done. Qed.
Next Obligation. done. Qed.
Next Obligation. done. Qed.
Next Obligation. intros k iv x. cbn. by rewrite length_map. Qed.
Next Obligation.
  intros k iv x. cbn. induction x as [| b x IH]; [done |]. cbn [map]. rewrite IH.
  by rewrite Z.lxor_assoc, Z.lxor_nilpotent, Z.lxor_0_r.
Qed.
Next Obligation. intros a [Ha _]. done. Qed.
Next Obligation.
  intros a b Ha Hb. split; [done |]. split; [| by apply toy_nonzero].
  cbn. rewrite length_zip_with, (proj1 Ha), (proj1 Hb). done.
Qed.
Next Obligation.
  intros a b _ _. cbn. revert b. induction a as [| x a IH]; intros [| y b]; try done. cbn. by rewrite IH, Z.add_comm.
Qed.

Lemma toy_valid x : 0 < x -> valid (replicate 32 x).
Proof. intros Hx. split; [done |]. by apply Forall_replicate. Qed.

(** A probe with sizes, a range for the response and header protection. *)
Definition sampleJunkParams : JunkParams :=
  mkJunkParams 0 0 0 20 15 20 noRange (mkRange 100 200 true) noRange [] true (replicate 32 9).

Lemma handshake_completes_witness :
  exists state msg c,
    consume (replicate 32 5) msg = Some c /\ c_static c = replicate 32 3
    /\ let buf := onWire sampleJunkParams (replicate 15 42)
          (respond c (replicate 32 0) (replicate 32 11) 150 8 (replicate 32 0)) ++ [1; 2; 3] in
       receive sampleJunkParams state 77 buf (Z.of_nat (length buf)) = Val true.
Proof.
  destruct (handshake_completes (P := toyPrimitives) sampleJunkParams (replicate 32 3) (replicate 32 5) (replicate 32 7)
    (replicate 32 0) 1700000000250 1 77) as (state & body & msg & c & _ & _ & _ & Hc & Hs & _ & Hr);
    [by apply toy_valid .. | cbn; lia | lia |].
  exists state, msg, c. split; [exact Hc |]. split; [exact Hs |].
  apply Hr; [by apply toy_valid | reflexivity | reflexivity | cbn; lia | lia | reflexivity].
Defined.

(** A configuration with a negative [S2]. *)
Definition negativeJunk : JunkParams := mkJunkParams 0 0 0 0 (-20) 0 noRange noRange noRange [] false (replicate 32 0).
Definition sampleState : HandshakeState := mkHandshake [] [] [] [] [].


Lemma magic_header_in_range_witness :
  (randomU32 (mkRange 5 1020 true) (fun i => Z.of_nat i * 77)).1 = Some 845
  /\ (randomU32 (probeRange (H := plainQt) (QStr "0-4294967295")) (fun _ => 0)).1 = None.
Proof.
  split.
  - pose proof (magic_header_in_range (mkRange 5 1020 true) (fun i => Z.of_nat i * 77)) as H.
    destruct H as [H _]; [reflexivity | cbn; lia |]. vm_compute. vm_compute in H. reflexivity.
  - apply (magic_header_in_range (probeRange (H := plainQt) (QStr "0-4294967295")) (fun _ => 0));
      [vm_compute; reflexivity | vm_compute; repeat split; discriminate | vm_compute; reflexivity | vm_compute; reflexivity].
Defined.

(** A silent server: one sending more at half of the time, then the deadline. *)
Lemma probe_ends_witness :
  probeLoop sampleJunkParams sampleState 77 1000 [mkTick 0 None 0; mkTick 500 None 500; mkTick 1000 None 1000] false 1
    = (2%nat, Some (Val (-1)))
  /\ exists e, (probeLoop sampleJunkParams sampleState 77 1000
       ([mkTick 0 None 0] ++ mkTick 1000 None 0 :: [] ++ mkTick 1001 None 0 :: []) false 1).2 = Some (Val e).
Proof.
  split; [vm_compute; reflexivity |].
  destruct (probe_ends sampleJunkParams sampleState 77 1000 [mkTick 0 None 0] [] [] (mkTick 1000 None 0) (mkTick 1001 None 0))
    as [_ (e & He & _)]; [lia | vm_compute; congruence | vm_compute; congruence | cbn; lia | cbn; lia | |].
  - intros t buf n Ht Hr. cbn in Ht. rewrite !elem_of_cons, elem_of_nil in Ht.
    destruct Ht as [-> | [-> | [-> | []]]]; discriminate Hr.
  - exists e. exact He.
Defined.
