(* ===== verification/VpnProtocol.v ===== *)
(** * Protocol objects: [client/protocols/vpnprotocol.cpp], [wireguardprotocol.cpp]

    The application talks to a tunnel through an object of class [VpnProtocol].
    The base class filters the changes of state it signals; [WireguardProtocol]
    translates the signals of the socket controller ([LocalSocket.v]) into
    states and into traffic per interval.  [Protocol] is what
    [VpnConnection.v] relies on: an object that has been stopped is
    [Disconnected], and it says so exactly when it was not before. *)

From Stdlib Require Import ZArith Lia Bool String Ascii QArith.
From stdpp Require Import base gmap strings list.
From S2P Require Import Prelude.
From S2P Require Import Qt.
From S2P Require Import QtInstance.
From S2P Require Import IPAddress.
From S2P Require Import NetworkUtilities.
From S2P Require Import DaemonConnection.
From S2P Require Import LineProtocol.
From S2P Require Import LocalSocket.

Open Scope Z_scope.

Module Vpn.
Inductive ConnectionState : Type :=
| Unknown | Disconnected | Preparing | Connecting | Connected | Disconnecting | Reconnecting | Error.
End Vpn.

#[export] Instance ConnectionState_eq_dec : EqDecision Vpn.ConnectionState.
Proof. solve_decision. Defined.

(** The values of [amnezia::ErrorCode] the protocols use. *)
Inductive ErrorCode : Type :=
| NoError
| InternalError
| DopamineServiceConnectionFailed
| XrayExecutableCrashed
| Tun2SockExecutableCrashed.

#[export] Instance ErrorCode_eq_dec : EqDecision ErrorCode.
Proof. solve_decision. Defined.

Definition u64 (z : Z) : Z := z mod 2 ^ 64.

(** ** The base class *)

Inductive Signal : Type :=
| SigState (state : Vpn.ConnectionState)
| SigBytes (receivedBytes sentBytes : Z)
| SigTimeout
| SigAddresses (gateway localAddress : QString).

Record VpnProtocol : Type := mkProtocol {
  p_connectionState : Vpn.ConnectionState;
  p_vpnLocalAddress : QString;
  p_vpnGateway : QString;
  p_rawConfig : QJsonObject;
  p_lastError : option ErrorCode;      (** no value before the first error *)
  p_receivedBytes : Z;
  p_sentBytes : Z;
  p_signals : list Signal
}.

Definition newProtocol (configuration : QJsonObject) : VpnProtocol :=
  mkProtocol Vpn.Unknown QNull QNull configuration None 0 0 [].

Definition signal (s : Signal) : ST VpnProtocol unit := modify (fun p =>
  mkProtocol (p_connectionState p) (p_vpnLocalAddress p) (p_vpnGateway p) (p_rawConfig p) (p_lastError p)
    (p_receivedBytes p) (p_sentBytes p) (p_signals p ++ [s])).
Definition setPState (s : Vpn.ConnectionState) : ST VpnProtocol unit := modify (fun p =>
  mkProtocol s (p_vpnLocalAddress p) (p_vpnGateway p) (p_rawConfig p) (p_lastError p)
    (p_receivedBytes p) (p_sentBytes p) (p_signals p)).
Definition setAddresses (gateway local : QString) : ST VpnProtocol unit := modify (fun p =>
  mkProtocol (p_connectionState p) local gateway (p_rawConfig p) (p_lastError p)
    (p_receivedBytes p) (p_sentBytes p) (p_signals p)).
Definition setRawConfig (c : QJsonObject) : ST VpnProtocol unit := modify (fun p =>
  mkProtocol (p_connectionState p) (p_vpnLocalAddress p) (p_vpnGateway p) c (p_lastError p)
    (p_receivedBytes p) (p_sentBytes p) (p_signals p)).
Definition setError (e : ErrorCode) : ST VpnProtocol unit := modify (fun p =>
  mkProtocol (p_connectionState p) (p_vpnLocalAddress p) (p_vpnGateway p) (p_rawConfig p) (Some e)
    (p_receivedBytes p) (p_sentBytes p) (p_signals p)).
Definition setCounters (received sent : Z) : ST VpnProtocol unit := modify (fun p =>
  mkProtocol (p_connectionState p) (p_vpnLocalAddress p) (p_vpnGateway p) (p_rawConfig p) (p_lastError p)
    received sent (p_signals p)).

(** A change of state the base class signals. *)
Definition changes (old new : Vpn.ConnectionState) : bool :=
  negb (bool_decide (old = new))
  && negb (bool_decide (old = Vpn.Disconnected) && bool_decide (new = Vpn.Disconnecting)).

Definition setConnectionState (state : Vpn.ConnectionState) : ST VpnProtocol unit :=
  old ← gets p_connectionState;
  if changes old state then
    setPState state ;;
    (if bool_decide (state = Vpn.Disconnected) then setCounters 0 0 else mret tt) ;;
    signal (SigState state)
  else mret tt.

Definition setLastError (lastError : ErrorCode) : ST VpnProtocol unit :=
  setError lastError ;;
  if bool_decide (lastError = NoError) then mret tt else setConnectionState Vpn.Error.

(** The differences are [quint64]. *)
Definition setBytesChanged (receivedBytes sentBytes : Z) : ST VpnProtocol unit :=
  received ← gets p_receivedBytes;
  sent ← gets p_sentBytes;
  signal (SigBytes (u64 (receivedBytes - received)) (u64 (sentBytes - sent))) ;;
  setCounters receivedBytes sentBytes.

(** [stop] is virtual. *)
Definition onTimeout (stop : ST VpnProtocol unit) : ST VpnProtocol unit := signal SigTimeout ;; stop.

(** ** [WireguardProtocol] *)

Record Wireguard : Type := mkWireguard {
  wg_base : VpnProtocol;
  m_impl : Controller;
  m_lastRxBytes : Z;
  m_lastTxBytes : Z;
  m_statsTimer : bool      (** [isActive] *)
}.

(** A method of the base class. *)
Definition onBase {A} (m : ST VpnProtocol A) : ST Wireguard A := fun w =>
  let '(a, p) := m (wg_base w) in
  (a, mkWireguard p (m_impl w) (m_lastRxBytes w) (m_lastTxBytes w) (m_statsTimer w)).
Definition setImpl (c : Controller) : ST Wireguard unit := modify (fun w =>
  mkWireguard (wg_base w) c (m_lastRxBytes w) (m_lastTxBytes w) (m_statsTimer w)).
Definition setLast (rx tx : Z) : ST Wireguard unit := modify (fun w =>
  mkWireguard (wg_base w) (m_impl w) rx tx (m_statsTimer w)).
Definition setStatsTimer (b : bool) : ST Wireguard unit := modify (fun w =>
  mkWireguard (wg_base w) (m_impl w) (m_lastRxBytes w) (m_lastTxBytes w) b).

(** [setConnectionState], with the slot that restarts the timer. *)
Definition wgSetConnectionState (state : Vpn.ConnectionState) : ST Wireguard unit :=
  old ← gets (fun w => p_connectionState (wg_base w));
  onBase (setConnectionState state) ;;
  if changes old state && bool_decide (state = Vpn.Connected) then setStatsTimer true else mret tt.

Definition delta (now last : Z) : Z := if now >=? last then now - last else now.

(** The conversion of a double to [uint64_t]. *)
Definition double_to_u64 (q : Q) : Z := u64 (double_to_int q).

Definition onStatusUpdated (serverIpv4Gateway deviceIpv4Address : QString) (txBytes rxBytes : Z) : ST Wireguard unit :=
  previousGateway ← gets (fun w => p_vpnGateway (wg_base w));
  previousLocal ← gets (fun w => p_vpnLocalAddress (wg_base w));
  let gateway := if isEmpty serverIpv4Gateway then previousGateway else serverIpv4Gateway in
  let local := if isEmpty deviceIpv4Address then previousLocal else deviceIpv4Address in
  onBase (setAddresses gateway local) ;;
  (if (negb (isEmpty gateway) && negb (qeqb gateway previousGateway))
      || (negb (isEmpty local) && negb (qeqb local previousLocal))
   then onBase (signal (SigAddresses gateway local)) else mret tt) ;;
  lastRx ← gets m_lastRxBytes;
  lastTx ← gets m_lastTxBytes;
  setLast rxBytes txBytes ;;
  onBase (signal (SigBytes (delta rxBytes lastRx) (delta txBytes lastTx))).

(** The slots connected to the controller. *)
Definition onOutput (o : Output) : ST Wireguard unit :=
  match o with
  | OConnected _ => setLast 0 0 ;; setStatsTimer true ;; wgSetConnectionState Vpn.Connected
  | OStatusUpdated gateway device tx rx => onStatusUpdated gateway device (double_to_u64 tx) (double_to_u64 rx)
  | ODisconnected => setStatsTimer false ;; wgSetConnectionState Vpn.Disconnected
  | _ => mret tt
  end.

(** A method of the controller, with the slots of what it emits.  They do not
    touch the controller, so that they can run after it. *)
Definition onImpl (m : ST Controller unit) : ST Wireguard unit :=
  c ← gets m_impl;
  let c' := (m c).2 in
  setImpl c' ;;
  forEach onOutput (drop (length (out c)) (out c')).

Definition newWireguard (configuration : QJsonObject) : Wireguard :=
  (onImpl initialize (mkWireguard (newProtocol configuration) fresh 0 0 false)).2.

Section Wireguard.
Context `{Q : Qt}.
Variable fromName : string -> list QHostAddress.
Variable dateFromString : string -> option Z.

(** The configuration [startMzImpl] activates. *)
Definition resolvedConfig (rawConfig : QJsonObject) : QJsonObject :=
  let protocolName := qdata (toString (value rawConfig "protocol")) in
  let key := protocolName +:+ "_config_data" in
  let resolve (v : option json) := jstr (getIPAddress fromName (qdata (toString v))) in
  let vpnConfigData := toObject (value rawConfig key) in
  let vpnConfigData := jinsert "hostName" (Some (resolve (value vpnConfigData "hostName"))) vpnConfigData in
  let rawConfig := jinsert key (Some (JObject vpnConfigData)) rawConfig in
  jinsert "hostName" (Some (resolve (value rawConfig "hostName"))) rawConfig.

Definition startMzImpl : ST Wireguard ErrorCode :=
  rawConfig ← gets (fun w => p_rawConfig (wg_base w));
  let rawConfig := resolvedConfig rawConfig in
  onBase (setRawConfig rawConfig) ;;
  onImpl (activateTunnel rawConfig) ;;
  mret NoError.

Definition stopMzImpl : ST Wireguard ErrorCode := onImpl deactivateTunnel ;; mret NoError.

Definition wgStart : ST Wireguard ErrorCode := startMzImpl.
Definition wgStop : ST Wireguard unit := stopMzImpl ;; mret tt.

(** An event of the socket or of its timer, and [m_statsTimer]. *)
Definition wgEvent (e : CEvent) : ST Wireguard unit := onImpl (react dateFromString e).
Definition onStatsTimer : ST Wireguard unit := onImpl checkStatus.

(** The destructor: the slots are disconnected first, so that nothing is
    signalled; what remains is what the controller wrote. *)
Definition wgDestroy (w : Wireguard) : Controller := (deactivateTunnel (m_impl w)).2.
End Wireguard.

(** ** What a protocol object promises *)

(** The states among signals. *)
Fixpoint states (l : list Signal) : list Vpn.ConnectionState :=
  match l with
  | [] => []
  | SigState s :: l' => s :: states l'
  | _ :: l' => states l'
  end.

(** The virtual functions.  [pStart] is [None] when the program dereferences
    a null pointer. *)
Class Protocol (P : Type) := {
  pBase : P -> VpnProtocol;
  pRouteGateway : P -> string;
  pStart : ST P (option ErrorCode);
  pStop : ST P unit;
  pEvent : Type;                       (** what wakes the object *)
  pReact : pEvent -> ST P unit
}.

(** States the base class can signal one after the other. *)
Inductive filtered : Vpn.ConnectionState -> list Vpn.ConnectionState -> Vpn.ConnectionState -> Prop :=
| filtered_nil s : filtered s [] s
| filtered_cons s t l u : changes s t = true -> filtered t l u -> filtered s (t :: l) u.

(** A method of an object with the base [b] only signals such states. *)
Definition follows {S A} (b : S -> VpnProtocol) (m : ST S A) : Prop := forall s,
  exists l, p_signals (b (m s).2) = p_signals (b s) ++ l
    /\ filtered (p_connectionState (b s)) (states l) (p_connectionState (b (m s).2)).

Class ProtocolLaws {P} (Pr : Protocol P) : Prop := {
  stop_state : forall p, p_connectionState (pBase (pStop p).2) = Vpn.Disconnected;
  stop_signals : forall p, exists l, p_signals (pBase (pStop p).2) = p_signals (pBase p) ++ l
    /\ states l = if decide (p_connectionState (pBase p) = Vpn.Disconnected) then [] else [Vpn.Disconnected];
  start_signals : forall p, p_signals (pBase (pStart p).2) = p_signals (pBase p)
    /\ p_connectionState (pBase (pStart p).2) = p_connectionState (pBase p);
  react_follows : forall e, follows pBase (pReact e)
}.

(** ** Lemmas *)

Lemma states_app a b : states (a ++ b) = states a ++ states b.
Proof. induction a as [| [] a IH]; cbn; [done | by rewrite IH | done | done | done]. Qed.

(** What [setConnectionState] leaves. *)
Lemma setConnectionState_eq s p :
  (setConnectionState s p).2 =
    if changes (p_connectionState p) s
    then mkProtocol s (p_vpnLocalAddress p) (p_vpnGateway p) (p_rawConfig p) (p_lastError p)
           (if bool_decide (s = Vpn.Disconnected) then 0 else p_receivedBytes p)
           (if bool_decide (s = Vpn.Disconnected) then 0 else p_sentBytes p)
           (p_signals p ++ [SigState s])
    else p.
Proof.
  unfold setConnectionState. rewrite bind_eq. cbn [gets fst snd]. destruct (changes _ _); [| done].
  rewrite !then_eq. destruct (bool_decide _); reflexivity.
Qed.

Lemma to_disconnected p :
  p_connectionState (setConnectionState Vpn.Disconnected p).2 = Vpn.Disconnected
  /\ p_signals (setConnectionState Vpn.Disconnected p).2
     = p_signals p ++ (if decide (p_connectionState p = Vpn.Disconnected) then [] else [SigState Vpn.Disconnected]).
Proof.
  rewrite setConnectionState_eq. unfold changes. destruct (decide (p_connectionState p = Vpn.Disconnected)) as [E | E].
  - rewrite E. cbn. by rewrite app_nil_r.
  - rewrite (bool_decide_eq_false_2 _ E). done.
Qed.

Lemma filtered_app s l1 t l2 u : filtered s l1 t -> filtered t l2 u -> filtered s (l1 ++ l2) u.
Proof. induction 1 as [s | s t' l u' Hc Hl IH]; intros H; [done |]. cbn. by econstructor; [| apply IH]. Qed.

Section Follows.
Context {S : Type} (b : S -> VpnProtocol).

Lemma follows_silent {A} (m : ST S A) :
  (forall s, p_signals (b (m s).2) = p_signals (b s) /\ p_connectionState (b (m s).2) = p_connectionState (b s)) ->
  follows b m.
Proof. intros H s. destruct (H s) as [H1 H2]. exists []. rewrite H1, H2, app_nil_r. split; [done | constructor]. Qed.

Lemma follows_bind {A B} (m : ST S A) (k : A -> ST S B) :
  follows b m -> (forall a, follows b (k a)) -> follows b (m ≫= k).
Proof.
  intros Hm Hk s. rewrite bind_eq. destruct (Hm s) as (l1 & H1 & F1). destruct (Hk (m s).1 (m s).2) as (l2 & H2 & F2).
  exists (l1 ++ l2). rewrite H2, H1, <- app_assoc, states_app. split; [done |]. by eapply filtered_app.
Qed.

Lemma follows_get {A} (f : S -> A) : follows b (gets f).
Proof. by apply follows_silent. Qed.
Lemma follows_ret {A} (a : A) : follows b (mret a).
Proof. by apply follows_silent. Qed.

Lemma follows_forEach {A} (body : A -> ST S unit) l : (forall a, follows b (body a)) -> follows b (forEach body l).
Proof.
  intros H. induction l as [| a l IH]; [apply follows_ret |]. apply follows_bind; [apply H | by intros _].
Qed.

(** A method of the base class, seen by the object. *)
Lemma follows_lift {A} (m : ST S A) (m0 : ST VpnProtocol A) :
  follows (fun p => p) m0 -> (forall s, b (m s).2 = (m0 (b s)).2) -> follows b m.
Proof. intros H E s. rewrite E. apply H. Qed.
End Follows.

Lemma follows_set s : follows (fun p => p) (setConnectionState s).
Proof.
  intros p. rewrite setConnectionState_eq. destruct (changes _ _) eqn:E.
  - exists [SigState s]. split; [done |]. cbn. by repeat econstructor.
  - exists []. rewrite app_nil_r. split; [done | constructor].
Qed.

Lemma follows_signal (s : Signal) : (forall t, s <> SigState t) -> follows (fun p => p) (signal s).
Proof. intros Hs p. exists [s]. split; [done |]. destruct s; [by destruct (Hs state) | |  |]; constructor. Qed.

Lemma follows_lastError e : follows (fun p => p) (setLastError e).
Proof.
  unfold setLastError. apply follows_bind; [by apply follows_silent |]. intros _.
  destruct (bool_decide _); [apply follows_ret | apply follows_set].
Qed.

Section WireguardFacts.
Context `{Q : Qt}.
Variable fromName : string -> list QHostAddress.
Variable dateFromString : string -> option Z.

Lemma onBase_eq {A} (m : ST VpnProtocol A) w :
  (onBase m w).2 = mkWireguard (m (wg_base w)).2 (m_impl w) (m_lastRxBytes w) (m_lastTxBytes w) (m_statsTimer w).
Proof. unfold onBase. by destruct (m (wg_base w)). Qed.

Lemma base_wgSet s w : wg_base (wgSetConnectionState s w).2 = (setConnectionState s (wg_base w)).2.
Proof.
  unfold wgSetConnectionState. rewrite bind_eq, then_eq. cbn [gets fst snd].
  destruct (_ && _); [| by rewrite onBase_eq].
  change (wg_base (onBase (setConnectionState s) w).2 = (setConnectionState s (wg_base w)).2). by rewrite onBase_eq.
Qed.

(** The outputs of a method, when they are known. *)
Lemma onImpl_outputs (m : ST Controller unit) w l :
  out (m (m_impl w)).2 = out (m_impl w) ++ l ->
  (onImpl m w).2 = (forEach onOutput l (setImpl (m (m_impl w)).2 w).2).2.
Proof.
  intros E. unfold onImpl. rewrite bind_eq. cbn [gets fst snd]. rewrite then_eq, E, drop_app_length. done.
Qed.

Lemma deactivate_out c : exists l, out (deactivateTunnel c).2 = out c ++ l ++ [ODisconnected]
  /\ Forall (fun o => match o with OWrite _ => True | _ => False end) l.
Proof.
  unfold deactivateTunnel. rewrite bind_eq. cbn [gets fst snd]. destruct (bool_decide _).
  - exists [OWrite (message "deactivate")]. split; [| by repeat constructor].
    unfold cwrite, output, modify, mbind, ST_bind. cbn [snd out]. by rewrite <- app_assoc.
  - exists []. done.
Qed.

(** Written requests are not signalled. *)
Lemma writes_silent l w : Forall (fun o => match o with OWrite _ => True | _ => False end) l ->
  (forEach onOutput l w).2 = w.
Proof. induction 1 as [| [] l Ho Hl IH]; done. Qed.

Lemma wgStop_base w : wg_base (wgStop w).2 = (setConnectionState Vpn.Disconnected (wg_base w)).2.
Proof.
  unfold wgStop, stopMzImpl. rewrite !then_eq. cbn [mret ST_ret snd].
  destruct (deactivate_out (m_impl w)) as (l & Hl & Hw). rewrite (onImpl_outputs _ _ _ Hl).
  rewrite forEach_app, then_eq, (writes_silent _ _ Hw). cbn [forEach onOutput]. rewrite !then_eq. cbn [mret ST_ret snd].
  by rewrite base_wgSet.
Qed.

Lemma wgStart_base w : p_signals (wg_base (wgStart fromName w).2) = p_signals (wg_base w)
  /\ p_connectionState (wg_base (wgStart fromName w).2) = p_connectionState (wg_base w).
Proof.
  unfold wgStart, startMzImpl. rewrite bind_eq. cbn [gets fst snd]. rewrite !then_eq. cbn [mret ST_ret snd].
  rewrite (onImpl_outputs _ _ [OWrite (activateRequest (resolvedConfig fromName (p_rawConfig (wg_base w))))]).
  - by cbn.
  - reflexivity.
Qed.

Lemma follows_wgSet s : follows wg_base (wgSetConnectionState s).
Proof. apply (follows_lift wg_base _ _ (follows_set s)). intros w. apply base_wgSet. Qed.

Lemma follows_onBase (m : ST VpnProtocol unit) : follows (fun p => p) m -> follows wg_base (onBase m).
Proof. intros H. apply (follows_lift wg_base _ m H). intros w. by rewrite onBase_eq. Qed.

Lemma follows_output o : follows wg_base (onOutput o).
Proof.
  destruct o; cbn [onOutput]; try apply follows_ret.
  - unfold onStatusUpdated. repeat (apply follows_bind; [apply follows_get | intros ?]).
    apply follows_bind; [apply follows_onBase; by apply follows_silent |]. intros _.
    apply follows_bind; [destruct (_ || _); [apply follows_onBase; by apply follows_signal | apply follows_ret] |]. intros _.
    repeat (apply follows_bind; [apply follows_get | intros ?]).
    apply follows_bind; [by apply follows_silent |]. intros _. apply follows_onBase. by apply follows_signal.
  - apply follows_bind; [by apply follows_silent |]. intros _.
    apply follows_bind; [by apply follows_silent |]. intros _. apply follows_wgSet.
  - apply follows_bind; [by apply follows_silent |]. intros _. apply follows_wgSet.
Qed.

Lemma follows_onImpl m : follows wg_base (onImpl m).
Proof.
  unfold onImpl. apply follows_bind; [apply follows_get |]. intros c. apply follows_bind; [by apply follows_silent |].
  intros _. apply follows_forEach, follows_output.
Qed.

(** The events of the socket, and the timer of the statistics. *)
Definition wgReact (e : option CEvent) : ST Wireguard unit :=
  match e with Some e => wgEvent dateFromString e | None => onStatsTimer end.

#[export] Instance Wireguard_Protocol : Protocol Wireguard := {|
  pBase := wg_base;
  pRouteGateway _ := ""%string;
  pStart := e ← wgStart fromName; mret (Some e);
  pStop := wgStop;
  pEvent := option CEvent;
  pReact := wgReact
|}.

#[export] Instance Wireguard_laws : ProtocolLaws Wireguard_Protocol.
Proof.
  split; cbn [pBase pStop pStart Wireguard_Protocol].
  - intros p. rewrite wgStop_base. apply to_disconnected.
  - intros p. rewrite wgStop_base. destruct (to_disconnected (wg_base p)) as [_ ->]. eexists. split; [done |]. by case_decide.
  - intros p. rewrite bind_eq. cbn [mret ST_ret snd]. apply wgStart_base.
  - intros [e |]; apply follows_onImpl.
Qed.
End WireguardFacts.

(** ** The traffic of an interval *)

(** The bytes received and sent that were signalled. *)
Fixpoint traffic (l : list Signal) : Z * Z :=
  match l with
  | [] => (0, 0)
  | SigBytes rx tx :: l' => (rx + (traffic l').1, tx + (traffic l').2)
  | _ :: l' => traffic l'
  end.

(** What the counters lose when they start again, from the value [last]. *)
Fixpoint lostAtResets (last : Z) (l : list Z) : Z :=
  match l with
  | [] => 0
  | now :: l' => (if now <? last then last else 0) + lostAtResets now l'
  end.

(** A status of the daemon: gateway, address, sent and received bytes. *)
Abbreviation Status := (QString * QString * Z * Z)%type.
Definition onStatus (s : Status) : ST Wireguard unit :=
  let '(gateway, device, tx, rx) := s in onStatusUpdated gateway device tx rx.

Lemma traffic_app a b : traffic (a ++ b) = ((traffic a).1 + (traffic b).1, (traffic a).2 + (traffic b).2).
Proof.
  induction a as [| s a IH]; cbn [traffic app]; [by destruct (traffic b) |].
  destruct s; rewrite ?IH; cbn [fst snd]; f_equal; lia.
Qed.

(** One status. *)
Lemma status_signals gateway device tx rx w :
  let w' := (onStatusUpdated gateway device tx rx w).2 in
  traffic (p_signals (wg_base w'))
    = ((traffic (p_signals (wg_base w))).1 + delta rx (m_lastRxBytes w),
       (traffic (p_signals (wg_base w))).2 + delta tx (m_lastTxBytes w))
  /\ m_lastRxBytes w' = rx /\ m_lastTxBytes w' = tx.
Proof.
  intros w'. unfold onStatusUpdated in w'. subst w'. rewrite !bind_eq. cbn [gets fst snd].
  match goal with |- context [(if ?b then onBase _ else _) _] => destruct b end;
    rewrite !onBase_eq; cbn [mret ST_ret snd];
    cbn [setLast setAddresses signal modify snd wg_base p_signals m_lastRxBytes m_lastTxBytes];
    rewrite !traffic_app; cbn [traffic fst snd]; (split; [f_equal; lia | done]).
Qed.

Definition rxOf (s : Status) : Z := s.2.
Definition txOf (s : Status) : Z := s.1.2.

Lemma delta_eq now last : delta now last = now - last + (if now <? last then last else 0).
Proof. unfold delta. rewrite Z.geb_leb. destruct (last <=? now) eqn:E1, (now <? last) eqn:E2; zbool; lia. Qed.

Lemma last_cons {A} (a d : A) l : List.last (a :: l) d = List.last l a.
Proof.
  revert a d. induction l as [| b l IH]; intros a d; [done |].
  change (List.last (a :: b :: l) d) with (List.last (b :: l) d). by rewrite !IH.
Qed.

(** The speed meter counts every byte once.  Over any statuses
    the daemon sends, the bytes signalled add up to the growth of the daemon's
    counters, and when a counter starts again to what it had reached besides;
    no interval is negative or more than the counter. *)
Theorem wireguard_traffic (statuses : list Status) (w : Wireguard) :
  let w' := (forEach onStatus statuses w).2 in
  let before := traffic (p_signals (wg_base w)) in
  let after := traffic (p_signals (wg_base w')) in
  (forall now last, 0 <= now -> 0 <= last -> 0 <= delta now last <= now)
  /\ after.1 = before.1 + (m_lastRxBytes w' - m_lastRxBytes w) + lostAtResets (m_lastRxBytes w) (map rxOf statuses)
  /\ after.2 = before.2 + (m_lastTxBytes w' - m_lastTxBytes w) + lostAtResets (m_lastTxBytes w) (map txOf statuses)
  /\ m_lastRxBytes w' = List.last (map rxOf statuses) (m_lastRxBytes w)
  /\ m_lastTxBytes w' = List.last (map txOf statuses) (m_lastTxBytes w).
Proof.
  cbv zeta. split.
  { intros now last Hn Hb. rewrite delta_eq. destruct (now <? last) eqn:E; zbool; lia. }
  revert w. induction statuses as [| [[[gateway device] tx] rx] l IH]; intros w.
  - cbn. repeat split; lia.
  - change (forEach onStatus (?s :: l)) with (onStatus s ;; forEach onStatus l). rewrite then_eq.
    change (onStatus (gateway, device, tx, rx) w) with (onStatusUpdated gateway device tx rx w).
    destruct (status_signals gateway device tx rx w) as (Ht & Hr & Hs). cbv zeta in Ht, Hr, Hs.
    destruct (IH (onStatusUpdated gateway device tx rx w).2) as (H1 & H2 & H3 & H4).
    rewrite Ht, Hr in H1. rewrite Ht, Hs in H2. rewrite Hr in H3. rewrite Hs in H4. cbn [fst snd] in H1, H2.
    rewrite delta_eq in H1, H2. cbn [map lostAtResets rxOf txOf fst snd]. rewrite !last_cons.
    change (rxOf (gateway, device, tx, rx)) with rx. change (txOf (gateway, device, tx, rx)) with tx.
    repeat split; [lia | lia | done | done].
Qed.
