(* ===== verification/Ipc.v ===== *)
(** * Calls of the service: [ipc/ipc_interface.rep], [client/core/ipcclient.h]

    The application reaches the privileged service through a replica Qt
    generates from [ipc_interface.rep].  A call is an [IpcCall]; what it
    answers is up to the service, and may depend on all the calls before it:
    [Service] is an arbitrary such service. *)

From Stdlib Require Import ZArith Lia Bool String Ascii.
From stdpp Require Import base gmap strings list.
From S2P Require Import Prelude.
From S2P Require Import Qt.

Open Scope Z_scope.

(** The slots of [IpcInterface] the modelled classes call, and those of the
    process replica ([IpcProcessInterface]). *)
Inductive IpcCall : Type :=
| RouteAddList (gw : string) (ips : list string)
| RouteDeleteList (gw : string) (ips : list string)
| ClearSavedRoutes
| FlushDns
| ResetIpStack
| CreateTun (dev subnet : string)
| DeleteTun (dev : string)
| StartRoutingIpv6
| StopRoutingIpv6
| DisableKillSwitch
| RefreshKillSwitch (on : bool)
| EnableKillSwitch (config : QJsonObject) (vpnAdapterIndex : Z)
| UpdateResolvers (ifname : string) (resolvers : list QHostAddress)
| RestoreResolvers
| XrayStart (config : QJsonObject)
| XrayStop
| CreatePrivilegedProcess
| AcquireProcess
| ProcessWaitForSource
| ProcessStart (arguments : list string)
| ProcessTerminate
| ProcessWaitForFinished
| ProcessKill
| ProcessClose.

(** [reply h c] is the answer to [c] after the calls [h]: [None] when
    [waitForFinished] fails, else the value, a boolean being 0 or 1;
    [ready h]: the replica is there, has its source and is valid. *)
Class Service := {
  ready : list IpcCall -> bool;
  reply : list IpcCall -> IpcCall -> option Z
}.

(** [r.waitForFinished() && r.returnValue()] *)
Definition succeeded (r : option Z) : bool :=
  match r with Some v => negb (v =? 0) | None => false end.

(** The calls a class has made are part of its state. *)
Class HasCalls (S : Type) := {
  calls : S -> list IpcCall;
  addCall : IpcCall -> S -> S;
  calls_add : forall c s, calls (addCall c s) = calls s ++ [c]
}.

Section Calls.
Context `{Service} {S : Type} `{HasCalls S}.

Definition ipc (c : IpcCall) : ST S (option Z) := fun s => (reply (calls s) c, addCall c s).

(** [IpcClient::withInterface(onSuccess, onFailure)]; the form with one
    argument returns a default value. *)
Definition withInterface {A} (onSuccess : ST S A) (onFailure : A) : ST S A := fun s =>
  if ready (calls s) then onSuccess s else (onFailure, s).
End Calls.
