(* ===== verification/Settings.v ===== *)
(** * The settings store: [client/settings.h], [client/settings.cpp]

    The settings of a tunnel: the site lists of split tunnelling, the
    application lists, the presets, the kill switch and the DNS entries.  The
    store is [QSettings], a map from keys to variants, and every member is a
    read or a write of it.  A [QVariantMap] is the ordered map of [Qt.v]. *)

From Stdlib Require Import ZArith Lia Bool String Ascii.
From stdpp Require Import base gmap strings list sorting.
From S2P Require Import Prelude.
From S2P Require Import Qt.
From S2P Require Import IPAddress.
From S2P Require Import NetworkUtilities.

Open Scope Z_scope.

(** ** Ordered maps with a total order *)

Class KeyOrderLaws {K} (O : KeyOrder K) : Prop := {
  kcompare_antisym : forall x y, kcompare y x = CompOpp (kcompare x y);
  kcompare_trans : forall x y z, kcompare x y = Lt -> kcompare y z = Lt -> kcompare x z = Lt
}.

#[export] Instance string_KeyOrderLaws : KeyOrderLaws string_KeyOrder.
Proof.
  split; cbn [kcompare string_KeyOrder].
  - intros x y. apply String.compare_antisym.
  - intros x. induction x as [| c x IH]; intros [| d y] [| e z]; cbn; try done.
    unfold Ascii.compare.
    destruct (N.compare_spec (N_of_ascii c) (N_of_ascii d)) as [E1 | E1 | E1]; [| | done];
    destruct (N.compare_spec (N_of_ascii d) (N_of_ascii e)) as [E2 | E2 | E2]; try done; intros H1 H2.
    + rewrite E1, E2, N.compare_refl. by eapply IH.
    + by rewrite E1, (proj2 (N.compare_lt_iff _ _) E2).
    + rewrite <- E2. by rewrite (proj2 (N.compare_lt_iff _ _) E1).
    + by rewrite (proj2 (N.compare_lt_iff _ _) (N.lt_trans _ _ _ E1 E2)).
Qed.

(** [map.remove(key)] *)
Definition qmap_remove {K V} `{KeyOrder K} (k : K) (m : list (K * V)) : list (K * V) :=
  List.filter (fun kv => match kcompare k kv.1 with Eq => false | _ => true end) m.

Definition keyLt {K V} `{KeyOrder K} (a b : K * V) : Prop := kcompare a.1 b.1 = Lt.

(** The keys are in increasing order. *)
Definition qmap_wf {K V} `{KeyOrder K} (m : list (K * V)) : Prop := StronglySorted keyLt m.

(** ** Variants and the store *)

Inductive Variant : Type :=
| VBool (b : bool)
| VInt (z : Z)
| VString (s : string)
| VStringList (l : list string)
| VMap (m : list (string * string))      (** the values are strings *)
| VJson (l : list json).

Abbreviation Settings := (gmap string Variant).

(** [m_settings.value(key, default)], [m_settings.setValue(key, v)] *)
Definition confValue (s : Settings) (key : string) (dflt : Variant) : Variant := default dflt (s !! key).
Definition setValue (key : string) (v : Variant) (s : Settings) : Settings := <[key := v]> s.

Definition variantToBool (v : Variant) : bool :=
  match v with VBool b => b | VInt z => negb (z =? 0) | VString s => variantBool (QStr s) | _ => false end.
Definition variantToInt (v : Variant) : Z :=
  match v with VInt z => z | VBool true => 1 | _ => 0 end.
Definition variantToString (v : Variant) : string := match v with VString s => s | _ => "" end.
Definition variantToStringList (v : Variant) : list string :=
  match v with VStringList l => l | VString s => [s] | _ => [] end.
Definition variantToMap (v : Variant) : list (string * string) := match v with VMap m => m | _ => [] end.
Definition variantToJsonArray (v : Variant) : list json := match v with VJson l => l | _ => [] end.

(** ** Sites *)

Inductive RouteMode : Type := VpnAllSites | VpnOnlyForwardSites | VpnAllExceptSites.
#[export] Instance RouteMode_eq_dec : EqDecision RouteMode.
Proof. solve_decision. Defined.

Definition routeModeInt (m : RouteMode) : Z :=
  match m with VpnAllSites => 0 | VpnOnlyForwardSites => 1 | VpnAllExceptSites => 2 end.
(** The cast of a stored number; the program writes no other. *)
Definition routeModeOf (z : Z) : RouteMode :=
  if z =? 1 then VpnOnlyForwardSites else if z =? 2 then VpnAllExceptSites else VpnAllSites.

Definition routeModeString (mode : RouteMode) : string :=
  match mode with
  | VpnAllSites => "AllSites"
  | VpnOnlyForwardSites => "ForwardSites"
  | VpnAllExceptSites => "ExceptSites"
  end.

Definition routeMode (s : Settings) : RouteMode := routeModeOf (variantToInt (confValue s "Conf/routeMode" (VInt 0))).
Definition setRouteMode (mode : RouteMode) : Settings -> Settings := setValue "Conf/routeMode" (VInt (routeModeInt mode)).

Definition isSitesSplitTunnelingEnabled (s : Settings) : bool :=
  variantToBool (confValue s "Conf/sitesSplitTunnelingEnabled" (VBool false)).
Definition setSitesSplitTunnelingEnabled (enabled : bool) : Settings -> Settings :=
  setValue "Conf/sitesSplitTunnelingEnabled" (VBool enabled).

Definition vpnSites (s : Settings) (mode : RouteMode) : list (string * string) :=
  variantToMap (confValue s ("Conf/" +:+ routeModeString mode) (VMap [])).
Definition setVpnSites (mode : RouteMode) (sites : list (string * string)) : Settings -> Settings :=
  setValue ("Conf/" +:+ routeModeString mode) (VMap sites).

Definition addVpnSite (mode : RouteMode) (site ip : string) : ST Settings bool := fun s =>
  let sites := vpnSites s mode in
  if qmap_contains site sites && String.eqb ip "" then (false, s)
  else (true, setVpnSites mode (qmap_insert site ip sites) s).

Definition addVpnSites (mode : RouteMode) (sites : list (string * string)) (s : Settings) : Settings :=
  let allSites := fold_left (fun all '(site, ip) =>
      if bool_decide (qmap_lookup site all = Some ip) then all else qmap_insert site ip all)
    sites (vpnSites s mode) in
  setVpnSites mode allSites s.

Definition removeVpnSite (mode : RouteMode) (site : string) (s : Settings) : Settings :=
  let sites := vpnSites s mode in
  if negb (qmap_contains site sites) then s else setVpnSites mode (qmap_remove site sites) s.

Definition addVpnIps (mode : RouteMode) (ips : list string) (s : Settings) : Settings :=
  setVpnSites mode (fold_left (fun sites ip => if String.eqb ip "" then sites else qmap_insert ip ""%string sites)
                      ips (vpnSites s mode)) s.

Definition removeVpnSites (mode : RouteMode) (sites : list string) (s : Settings) : Settings :=
  setVpnSites mode (fold_left (fun m site => if String.eqb site "" then m else qmap_remove site m)
                      sites (vpnSites s mode)) s.

Definition removeAllVpnSites (mode : RouteMode) : Settings -> Settings := setVpnSites mode [].

(** [QStringList::removeDuplicates]: the first of equal texts stays. *)
Fixpoint dedup (seen : list string) (l : list string) : list string :=
  match l with
  | [] => []
  | x :: l' => if bool_decide (x ∈ seen) then dedup seen l' else x :: dedup (x :: seen) l'
  end.
Definition removeDuplicates (l : list string) : list string := dedup [] l.

Section Ips.
Context `{Qt}.

(** The address of an entry of a site list. *)
Definition siteIp (kv : string * string) : list string :=
  if checkIpSubnetFormat kv.1 then [kv.1] else if checkIpSubnetFormat kv.2 then [kv.2] else [].

Definition getVpnIps (s : Settings) (mode : RouteMode) : list string :=
  removeDuplicates (concat (map siteIp (vpnSites s mode))).

Definition confLocalSubnets (s : Settings) : list string :=
  normalizeSubnetExclusions (variantToStringList (confValue s "Conf/localSubnetExclusions" (VStringList []))).
End Ips.

(** ** Applications *)

Inductive AppsRouteMode : Type := VpnAllApps | VpnOnlyForwardApps | VpnAllExceptApps.
#[export] Instance AppsRouteMode_eq_dec : EqDecision AppsRouteMode.
Proof. solve_decision. Defined.

Definition appsRouteModeInt (m : AppsRouteMode) : Z :=
  match m with VpnAllApps => 0 | VpnOnlyForwardApps => 1 | VpnAllExceptApps => 2 end.
Definition appsRouteModeOf (z : Z) : AppsRouteMode :=
  if z =? 1 then VpnOnlyForwardApps else if z =? 2 then VpnAllExceptApps else VpnAllApps.
Definition appsRouteModeString (mode : AppsRouteMode) : string :=
  match mode with
  | VpnAllApps => "AllApps"
  | VpnOnlyForwardApps => "ForwardApps"
  | VpnAllExceptApps => "ExceptApps"
  end.

Record InstalledAppInfo : Type := mkApp { appName : QString; packageName : QString; appPath : QString }.

Definition getAppsRouteMode (s : Settings) : AppsRouteMode :=
  appsRouteModeOf (variantToInt (confValue s "Conf/appsRouteMode" (VInt 0))).
Definition setAppsRouteMode (mode : AppsRouteMode) : Settings -> Settings :=
  setValue "Conf/appsRouteMode" (VInt (appsRouteModeInt mode)).

Definition appOfJson (v : json) : InstalledAppInfo :=
  let o := toObject (Some v) in
  mkApp (toString (value o "appName")) (toString (value o "packageName")) (toString (value o "appPath")).
Definition appToJson (app : InstalledAppInfo) : json :=
  JObject (jinsert "appPath" (Some (JString (appPath app)))
    (jinsert "packageName" (Some (JString (packageName app)))
    (jinsert "appName" (Some (JString (appName app))) ∅))).

Definition getVpnApps (s : Settings) (mode : AppsRouteMode) : list InstalledAppInfo :=
  map appOfJson (variantToJsonArray (confValue s ("Conf/" +:+ appsRouteModeString mode) (VJson []))).
Definition setVpnApps (mode : AppsRouteMode) (apps : list InstalledAppInfo) : Settings -> Settings :=
  setValue ("Conf/" +:+ appsRouteModeString mode) (VJson (map appToJson apps)).

Definition isAppsSplitTunnelingEnabled (s : Settings) : bool :=
  variantToBool (confValue s "Conf/appsSplitTunnelingEnabled" (VBool false)).
Definition setAppsSplitTunnelingEnabled (enabled : bool) : Settings -> Settings :=
  setValue "Conf/appsSplitTunnelingEnabled" (VBool enabled).

(** ** Kill switch, DNS and presets *)

Definition isKillSwitchEnabled (s : Settings) : bool :=
  variantToBool (confValue s "Conf/killSwitchEnabled" (VBool true)).
Definition setKillSwitchEnabled (enabled : bool) : Settings -> Settings :=
  setValue "Conf/killSwitchEnabled" (VBool enabled).
Definition isStrictKillSwitchEnabled (s : Settings) : bool :=
  variantToBool (confValue s "Conf/strictKillSwitchEnabled" (VBool false)).
Definition setStrictKillSwitchEnabled (enabled : bool) : Settings -> Settings :=
  setValue "Conf/strictKillSwitchEnabled" (VBool enabled).
Definition isRouteLanThroughVpn (s : Settings) : bool :=
  variantToBool (confValue s "Conf/routeLanThroughVpn" (VBool false)).
Definition setRouteLanThroughVpn (enabled : bool) : Settings -> Settings :=
  setValue "Conf/routeLanThroughVpn" (VBool enabled).
Definition allowedDnsServers (s : Settings) : list string :=
  variantToStringList (confValue s "Conf/allowedDnsServers" (VStringList [])).
Definition setAllowedDnsServers (servers : list string) : Settings -> Settings :=
  setValue "Conf/allowedDnsServers" (VStringList servers).

Definition splitPresetsVersion (s : Settings) : string := variantToString (confValue s "Conf/splitPresetsVersion" (VString "")).
Definition setSplitPresetsVersion (v : string) : Settings -> Settings := setValue "Conf/splitPresetsVersion" (VString v).
Definition splitPresetsCache (s : Settings) : string := variantToString (confValue s "Conf/splitPresetsCache" (VString "")).
Definition setSplitPresetsCache (v : string) : Settings -> Settings := setValue "Conf/splitPresetsCache" (VString v).
Definition splitPresetsEnabled (s : Settings) : list string :=
  variantToStringList (confValue s "Conf/splitPresetsEnabled" (VStringList [])).
Definition setSplitPresetsEnabled (l : list string) : Settings -> Settings := setValue "Conf/splitPresetsEnabled" (VStringList l).
Definition splitPresetsRouteMode (s : Settings) : Z := variantToInt (confValue s "Conf/splitPresetsRouteMode" (VInt 1)).
Definition setSplitPresetsRouteMode (mode : Z) : Settings -> Settings := setValue "Conf/splitPresetsRouteMode" (VInt mode).

(** ** Servers and containers *)

Inductive DockerContainer : Type :=
| None_ | Awg | Awg2 | WireGuard | Xray | SSXray | TorWebSite | Dns | Sftp | Socks5Proxy.
#[export] Instance DockerContainer_eq_dec : EqDecision DockerContainer.
Proof. solve_decision. Defined.

(** The enumerators in the order of their values. *)
Definition allContainers : list DockerContainer :=
  [None_; Awg; Awg2; WireGuard; Xray; SSXray; TorWebSite; Dns; Sftp; Socks5Proxy].

Definition containerKey (c : DockerContainer) : string :=
  match c with
  | None_ => "None" | Awg => "Awg" | Awg2 => "Awg2" | WireGuard => "WireGuard" | Xray => "Xray" | SSXray => "SSXray"
  | TorWebSite => "TorWebSite" | Dns => "Dns" | Sftp => "Sftp" | Socks5Proxy => "Socks5Proxy"
  end.

Definition containerToString (c : DockerContainer) : string :=
  match c with None_ => "none" | Awg => "amnezia-awg" | Awg2 => "amnezia-awg2" | _ => "amnezia-" +:+ toLower (containerKey c) end.

Definition containerFromString (container : string) : DockerContainer :=
  match List.find (fun c => String.eqb container (containerToString c)) allContainers with
  | Some c => c
  | None => None_
  end.

Definition isAwgContainer (c : DockerContainer) : bool := match c with Awg | Awg2 => true | _ => false end.

Section Servers.
(** [QJsonDocument::fromJson(s).array()] *)
Variable arrayOf : string -> list json.

Definition serversArray (s : Settings) : list json := arrayOf (variantToString (confValue s "Servers/serversList" (VString ""))).
Definition defaultServerIndex (s : Settings) : Z := variantToInt (confValue s "Servers/defaultServerIndex" (VInt 0)).

(** [at] gives an undefined value outside the array. *)
Definition server (s : Settings) (index : Z) : QJsonObject :=
  if (index <? 0) || (index >=? Z.of_nat (length (serversArray s))) then ∅
  else toObject (serversArray s !! Z.to_nat index).

Definition defaultContainerName (s : Settings) (serverIndex : Z) : string :=
  let name := qdata (toString (value (server s serverIndex) "defaultContainer")) in
  if String.eqb name "" then containerToString None_ else name.
Definition defaultContainer (s : Settings) (serverIndex : Z) : DockerContainer :=
  containerFromString (defaultContainerName s serverIndex).
End Servers.

(** The names of the containers are read back. *)
Lemma container_roundtrip c : containerFromString (containerToString c) = c.
Proof. by destruct c. Qed.

(** ** Lemmas: ordered maps *)

Section QMapFacts.
Context {K V : Type} {O : KeyOrder K} `{!KeyOrderLaws O}.
Implicit Types m : list (K * V).

Lemma kcompare_refl (k : K) : kcompare k k = Eq.
Proof. by apply kcompare_eq. Qed.

Lemma kcompare_gt (x y : K) : kcompare x y = Gt -> kcompare y x = Lt.
Proof. intros E. by rewrite kcompare_antisym, E. Qed.

Lemma lookup_below k m : Forall (fun kv => kcompare k kv.1 = Lt) m -> qmap_lookup k m = None.
Proof. induction 1 as [| [k' v'] m Hk _ IH]; [done |]. cbn in *. by rewrite Hk. Qed.

Lemma below_trans k k' m : kcompare k k' = Lt -> Forall (fun kv => kcompare k' kv.1 = Lt) m ->
  Forall (fun kv => kcompare k kv.1 = Lt) m.
Proof. intros Hk H. eapply Forall_impl; [exact H |]. intros [k1 v1] H1. cbn in *. by eapply kcompare_trans. Qed.

Lemma insert_bound (k0 k : K) v m : kcompare k0 k = Lt -> Forall (fun kv => kcompare k0 kv.1 = Lt) m ->
  Forall (fun kv => kcompare k0 kv.1 = Lt) (qmap_insert k v m).
Proof.
  intros Hk. induction 1 as [| [k1 v1] m H1 Hm IH]; [by repeat constructor |]. cbn.
  destruct (kcompare k k1); by repeat constructor.
Qed.

Lemma insert_wf k v m : qmap_wf m -> qmap_wf (qmap_insert k v m).
Proof.
  induction 1 as [| [k1 v1] m Hm IH H1]; [by repeat constructor |]. cbn.
  destruct (kcompare k k1) eqn:E.
  - constructor; [done |]. apply kcompare_eq in E as ->. done.
  - constructor; [by constructor |]. constructor; [done |]. unfold keyLt. cbn.
    eapply below_trans; [exact E | exact H1].
  - constructor; [done |]. apply insert_bound; [by apply kcompare_gt | exact H1].
Qed.

Lemma remove_bound (P : K * V -> Prop) k m : Forall P m -> Forall P (qmap_remove k m).
Proof. induction 1 as [| kv m Hp _ IH]; [constructor |]. cbn. destruct (kcompare k kv.1); [done | |]; by constructor. Qed.

Lemma remove_wf k m : qmap_wf m -> qmap_wf (qmap_remove k m).
Proof.
  induction 1 as [| kv m Hm IH H1]; [constructor |]. cbn.
  destruct (kcompare k kv.1); [done | |]; (constructor; [done | by apply remove_bound]).
Qed.

Lemma lookup_remove k k' m : qmap_lookup k' (qmap_remove k m) =
  match kcompare k k' with Eq => None | _ => qmap_lookup k' m end.
Proof.
  induction m as [| [k1 v1] m IH]; [by destruct (kcompare k k') |]. cbn.
  destruct (kcompare k k1) eqn:E; cbn; rewrite ?IH.
  - apply kcompare_eq in E as ->. rewrite (kcompare_antisym k1 k'). by destruct (kcompare k1 k').
  - destruct (kcompare k' k1) eqn:E1; try done. apply kcompare_eq in E1 as ->. by rewrite E.
  - destruct (kcompare k' k1) eqn:E1; try done. apply kcompare_eq in E1 as ->. by rewrite E.
Qed.

(** A map is determined by what it maps. *)
Lemma qmap_ext m1 m2 : qmap_wf m1 -> qmap_wf m2 ->
  (forall k, qmap_lookup k m1 = qmap_lookup k m2) -> m1 = m2.
Proof.
  intros H1. revert m2. induction H1 as [| [k1 v1] m1 Hm1 IH Hk1]; intros m2 H2 He.
  - destruct H2 as [| [k2 v2] m2 _ _]; [done |]. specialize (He k2). cbn in He. by rewrite kcompare_refl in He.
  - destruct H2 as [| [k2 v2] m2 Hm2 Hk2]; [specialize (He k1); cbn in He; by rewrite kcompare_refl in He |].
    unfold keyLt in Hk1, Hk2. cbn in Hk1, Hk2.
    assert (k1 = k2) as <-.
    { destruct (kcompare k1 k2) eqn:E; [by apply kcompare_eq | |].
      - specialize (He k1). cbn in He. rewrite kcompare_refl, E in He.
        rewrite lookup_below in He; [done |]. by eapply below_trans.
      - specialize (He k2). cbn in He. rewrite kcompare_refl in He. apply kcompare_gt in E. rewrite E in He.
        rewrite lookup_below in He; [done |]. by eapply below_trans. }
    assert (v1 = v2) as <- by (specialize (He k1); cbn in He; rewrite kcompare_refl in He; by simplify_eq).
    f_equal. apply IH; [done |]. intros k. specialize (He k). cbn in He.
    destruct (kcompare k k1) eqn:E; [| done | done].
    apply kcompare_eq in E as ->. by rewrite !lookup_below.
Qed.

Lemma lookup_elem k v m : qmap_wf m -> (k, v) ∈ m <-> qmap_lookup k m = Some v.
Proof.
  intros Hm. split; [| apply qmap_lookup_elem].
  induction Hm as [| [k1 v1] m Hm IH H1]; rewrite ?elem_of_nil, ?elem_of_cons; [done |]. cbn.
  intros [? | Hin]; [simplify_eq; by rewrite kcompare_refl |].
  apply (proj1 (Forall_forall _ _) H1) in Hin as Hlt. unfold keyLt in Hlt. cbn in Hlt.
  rewrite (kcompare_antisym k1 k), Hlt. cbn. by apply IH.
Qed.

Lemma wf_nodup m : qmap_wf m -> NoDup m.*1.
Proof.
  induction 1 as [| [k1 v1] m Hm IH H1]; cbn; [constructor |]. constructor; [| done].
  intros Hin. apply list_elem_of_fmap in Hin as ([k2 v2] & -> & Hin).
  apply (proj1 (Forall_forall _ _) H1) in Hin. unfold keyLt in Hin. cbn in Hin. by rewrite kcompare_refl in Hin.
Qed.

(** Inserting one by one: the last entry of a key wins. *)
Lemma lookup_foldl_insert k (l m : list (K * V)) :
  NoDup l.*1 ->
  qmap_lookup k (fold_left (fun all kv => qmap_insert kv.1 kv.2 all) l m) =
    match qmap_lookup k l with Some v => Some v | None => qmap_lookup k m end.
Proof.
  revert m. induction l as [| [k1 v1] l IH]; intros m; [done |]. cbn. rewrite NoDup_cons. intros [Hn Hl].
  rewrite IH by done. rewrite qmap_lookup_insert. destruct (kcompare k k1) eqn:E; [| done | done].
  apply kcompare_eq in E as ->. destruct (qmap_lookup k1 l) eqn:E1; [| done].
  apply qmap_lookup_elem in E1. destruct Hn. apply list_elem_of_fmap. by exists (k1, v).
Qed.

Lemma foldl_insert_wf (l m : list (K * V)) : qmap_wf m ->
  qmap_wf (fold_left (fun all kv => qmap_insert kv.1 kv.2 all) l m).
Proof. revert m. induction l as [| kv l IH]; intros m Hm; [done |]. cbn. by apply IH, insert_wf. Qed.

(** Inserting what is there changes nothing. *)
Lemma insert_same k v m : qmap_wf m -> qmap_lookup k m = Some v -> qmap_insert k v m = m.
Proof.
  intros Hm Hl. apply qmap_ext; [by apply insert_wf | done |]. intros k'. rewrite qmap_lookup_insert.
  destruct (kcompare k' k) eqn:E; [| done | done]. by apply kcompare_eq in E as ->.
Qed.

(** In a list with distinct keys the order does not matter. *)
Lemma lookup_nodup k v (l : list (K * V)) : NoDup l.*1 -> (k, v) ∈ l -> qmap_lookup k l = Some v.
Proof.
  induction l as [| [k1 v1] l IH]; cbn; [by rewrite elem_of_nil |]. rewrite NoDup_cons, elem_of_cons.
  intros [Hn Hl] [? | Hin]; [simplify_eq; by rewrite kcompare_refl |].
  destruct (kcompare k k1) eqn:E; [| by apply IH | by apply IH].
  apply kcompare_eq in E as ->. destruct Hn. apply list_elem_of_fmap. by exists (k1, v).
Qed.

Lemma lookup_perm k (l1 l2 : list (K * V)) : NoDup l1.*1 -> Permutation l1 l2 -> qmap_lookup k l1 = qmap_lookup k l2.
Proof.
  intros Hn Hp. assert (Hn2 : NoDup l2.*1) by (by rewrite <- Hp).
  destruct (qmap_lookup k l1) as [v |] eqn:E1.
  - apply qmap_lookup_elem in E1. rewrite Hp in E1. by rewrite (lookup_nodup _ _ _ Hn2 E1).
  - destruct (qmap_lookup k l2) as [v |] eqn:E2; [| done].
    apply qmap_lookup_elem in E2. rewrite <- Hp in E2. by rewrite (lookup_nodup _ _ _ Hn E2) in E1.
Qed.

(** A map is what its entries, inserted in any order, give. *)
Lemma foldl_insert_perm (l m : list (K * V)) : qmap_wf m -> Permutation l m ->
  fold_left (fun all kv => qmap_insert kv.1 kv.2 all) l [] = m.
Proof.
  intros Hm Hp. assert (Hn : NoDup l.*1) by (rewrite Hp; by apply wf_nodup).
  apply qmap_ext; [apply foldl_insert_wf; constructor | done |]. intros k.
  rewrite lookup_foldl_insert by done. rewrite (lookup_perm k l m Hn Hp). cbn. by destruct (qmap_lookup k m).
Qed.
End QMapFacts.

Lemma lookup_setValue key v s k dflt :
  confValue (setValue key v s) k dflt = if bool_decide (key = k) then v else confValue s k dflt.
Proof.
  unfold confValue, setValue. case_bool_decide as E; [subst; by rewrite lookup_insert_eq | by rewrite lookup_insert_ne].
Qed.

Lemma vpnSites_set mode mode' sites s :
  vpnSites (setVpnSites mode sites s) mode' = if decide (mode = mode') then sites else vpnSites s mode'.
Proof.
  unfold vpnSites, setVpnSites. rewrite lookup_setValue. by destruct mode, mode'.
Qed.

(** [addVpnSites] skips what is there already; the result is the same. *)
Lemma add_skips (l m : list (string * string)) : qmap_wf m ->
  fold_left (fun all '(site, ip) => if bool_decide (qmap_lookup site all = Some ip) then all else qmap_insert site ip all) l m
  = fold_left (fun all kv => qmap_insert kv.1 kv.2 all) l m.
Proof.
  revert m. induction l as [| [h i] l IH]; intros m Hm; [done |]. cbn. case_bool_decide as E.
  - rewrite (insert_same h i m Hm E). by apply IH.
  - by apply IH, insert_wf.
Qed.
