(* ===== verification/XrayProtocol.v ===== *)
(** * The Xray protocol: [client/protocols/xrayprotocol.cpp] (Linux)

    Xray runs in the service and offers a SOCKS proxy; a second process,
    tun2socks, carries the packets of a TUN device to it.  [start] starts both;
    when tun2socks says it is up, [setupRouting] gives the device its address,
    the resolvers, the kill switch and the routes.  Every step is a call of
    the service, which may fail. *)

From Stdlib Require Import ZArith Lia Bool String Ascii.
From stdpp Require Import base gmap strings list pretty.
From S2P Require Import Prelude.
From S2P Require Import Qt.
From S2P Require Import QtInstance.
From S2P Require Import IPAddress.
From S2P Require Import NetworkUtilities.
From S2P Require Import Settings.
From S2P Require Import LocalSocket.
From S2P Require Import VpnProtocol.
From S2P Require Import Ipc.

Open Scope Z_scope.

Definition tunName : string := "tun2".
Definition defaultLocalAddr : string := "10.33.0.2".
Definition defaultLocalProxyPort : Z := 10808.

Record Xray : Type := mkXray {
  x_base : VpnProtocol;
  m_xrayConfig : QJsonObject;
  m_routeMode : Z;
  m_dnsServers : list QHostAddress;
  x_remoteAddress : string;
  m_routeGateway : string;
  m_tun2socksProcess : bool;    (** not null *)
  x_reading : bool;             (** the slot on its output is connected *)
  x_calls : list IpcCall
}.

#[export] Instance Xray_calls : HasCalls Xray := {|
  calls := x_calls;
  addCall c x := mkXray (x_base x) (m_xrayConfig x) (m_routeMode x) (m_dnsServers x) (x_remoteAddress x)
    (m_routeGateway x) (m_tun2socksProcess x) (x_reading x) (x_calls x ++ [c]);
  calls_add c x := eq_refl
|}.

Definition onXBase {A} (m : ST VpnProtocol A) : ST Xray A := fun x =>
  let '(a, p) := m (x_base x) in
  (a, mkXray p (m_xrayConfig x) (m_routeMode x) (m_dnsServers x) (x_remoteAddress x)
        (m_routeGateway x) (m_tun2socksProcess x) (x_reading x) (x_calls x)).
Definition setProcess (there reading : bool) : ST Xray unit := modify (fun x =>
  mkXray (x_base x) (m_xrayConfig x) (m_routeMode x) (m_dnsServers x) (x_remoteAddress x)
    (m_routeGateway x) there reading (x_calls x)).

Section Xray.
Context `{Q : Qt} `{Service}.
Variable fromName : string -> list QHostAddress.

(** The constructor; [gateway] is [getGatewayAndIface().first]. *)
Definition newXray (gateway : string) (configuration : QJsonObject) : Xray :=
  let primaryDns := qdata (toString (value configuration "dns1")) in
  let xrayConfiguration := toObject (value configuration "xray_config_data") in
  let xrayConfiguration := if bool_decide (xrayConfiguration = ∅)
    then toObject (value configuration "ssxray_config_data") else xrayConfiguration in
  mkXray
    (mkProtocol Vpn.Unknown defaultLocalAddr defaultLocalAddr configuration None 0 0 [])
    xrayConfiguration
    (toIntJ (value configuration "splitTunnelType"))
    (parseHost primaryDns
       :: (if String.eqb primaryDns amneziaDns then []
           else [parseHost (qdata (toString (value configuration "dns2")))]))
    (getIPAddress fromName (qdata (toString (value configuration "hostName"))))
    gateway false false [].

(** The port of the proxy. *)
Definition localProxyPort (config : QJsonObject) : Z :=
  match toArray (value config "inbounds") with
  | [] => defaultLocalProxyPort
  | first :: _ =>
      let port := toIntJ (value (toObject (Some first)) "port") in
      if port >? 0 then port else defaultLocalProxyPort
  end.

Definition tun2socksArguments (config : QJsonObject) : list string :=
  ["-device"; "tun://" +:+ tunName; "-proxy"; "socks5://127.0.0.1:" +:+ pretty (localProxyPort config)]%string.

(** [IpcClient::CreatePrivilegedProcess()]: is the pointer not null? *)
Definition createPrivilegedProcess : ST Xray bool :=
  withInterface
    (pid ← ipc CreatePrivilegedProcess;
     match pid with
     | None => mret false
     | Some _ => acquired ← ipc AcquireProcess; mret (succeeded acquired)
     end) false.

(** [None]: the null pointer is dereferenced. *)
Definition startTun2Socks : ST Xray (option ErrorCode) :=
  there ← createPrivilegedProcess;
  setProcess there false ;;
  if negb there then mret None
  else
    source ← ipc ProcessWaitForSource;
    if negb (succeeded source) then mret (Some DopamineServiceConnectionFailed)
    else
      config ← gets m_xrayConfig;
      setProcess true true ;;
      ipc (ProcessStart (tun2socksArguments config)) ;;
      mret (Some NoError).

Definition start : ST Xray (option ErrorCode) :=
  withInterface
    (config ← gets m_xrayConfig;
     xrayStart ← ipc (XrayStart config);
     if negb (succeeded xrayStart) then mret (Some XrayExecutableCrashed)
     else startTun2Socks)
    (Some DopamineServiceConnectionFailed).

(** A failing call is only logged. *)
Definition tryCall (c : IpcCall) : ST Xray unit := ipc c ;; mret tt.

Definition stopProcess : ST Xray unit :=
  there ← gets m_tun2socksProcess;
  if (there : bool) then
    ipc ProcessTerminate ;;
    finished ← ipc ProcessWaitForFinished;
    (if negb (succeeded finished) then tryCall ProcessKill else mret tt) ;;
    ipc ProcessClose ;;
    setProcess false false
  else mret tt.

Definition stopService : list IpcCall :=
  [DisableKillSwitch; StartRoutingIpv6; RestoreResolvers; DeleteTun tunName; XrayStop].

Definition stop : ST Xray unit :=
  withInterface (forEach tryCall stopService) tt ;;
  stopProcess ;;
  onXBase (setConnectionState Vpn.Disconnected).

(** [if (!call) return InternalError; k] *)
Definition orInternalError (r : option Z) (ok : option Z -> bool) (k : ST Xray ErrorCode) : ST Xray ErrorCode :=
  if ok r then k else mret InternalError.

Definition allSubnets : list string :=
  ["1.0.0.0/8"; "2.0.0.0/7"; "4.0.0.0/6"; "8.0.0.0/5"; "16.0.0.0/4"; "32.0.0.0/3"; "64.0.0.0/2"; "128.0.0.0/1"].

(** The replica is taken once: [IpcClient::Interface()], asked again for the
    kill switch, gives the same one. *)
Definition setupRouting : ST Xray ErrorCode :=
  withInterface
    (createTun ← ipc (CreateTun tunName defaultLocalAddr);
     orInternalError createTun succeeded (
     dns ← gets m_dnsServers;
     updateResolvers ← ipc (UpdateResolvers tunName dns);
     orInternalError updateResolvers succeeded (
     rawConfig ← gets (fun x => p_rawConfig (x_base x));
     remote ← gets x_remoteAddress;
     killSwitch ← (if variantBool (toString (value rawConfig "killSwitchOption"))
                   then ipc (EnableKillSwitch (jinsert "vpnServer" (Some (jstr remote)) rawConfig) 0)
                   else mret (Some 1));
     orInternalError killSwitch succeeded (
     mode ← gets m_routeMode;
     gateway ← gets (fun x => p_vpnGateway (x_base x));
     routes ← (if mode =? routeModeInt VpnAllSites then ipc (RouteAddList (qdata gateway) allSubnets)
               else mret (Some (Z.of_nat (length allSubnets))));
     orInternalError routes (fun r => bool_decide (r = Some (Z.of_nat (length allSubnets)))) (
     stopIpv6 ← ipc StopRoutingIpv6;
     orInternalError stopIpv6 succeeded (mret NoError))))))
    DopamineServiceConnectionFailed.

(** tun2socks says that the device is connected to the proxy. *)
Definition isUp (line : string) : bool :=
  str_contains "[STACK] tun://" line && str_contains "<-> socks5://127.0.0.1" line.

(** [readyReadStandardOutput]: a line, or [None] when reading fails. *)
Definition onReadyRead (output : option string) : ST Xray unit :=
  match output with
  | None => mret tt
  | Some line =>
      if isUp line then
        there ← gets m_tun2socksProcess;
        setProcess there false ;;
        res ← setupRouting;
        if bool_decide (res = NoError) then onXBase (setConnectionState Vpn.Connected)
        else stop ;; onXBase (setLastError res)
      else mret tt
  end.

(** [finished] of the process. *)
Definition onFinished : ST Xray unit :=
  stop ;; onXBase (setLastError Tun2SockExecutableCrashed).

(** The destructor. *)
Definition xDestroy : ST Xray unit := stop.
End Xray.

(** ** What stopping does *)

Section Facts.
Context `{Q : Qt} `{Service}.

Definition addCalls (l : list IpcCall) (x : Xray) : Xray :=
  mkXray (x_base x) (m_xrayConfig x) (m_routeMode x) (m_dnsServers x) (x_remoteAddress x)
    (m_routeGateway x) (m_tun2socksProcess x) (x_reading x) (x_calls x ++ l).

Lemma addCalls_app l1 l2 x : addCalls l2 (addCalls l1 x) = addCalls (l1 ++ l2) x.
Proof. unfold addCalls. cbn. by rewrite <- app_assoc. Qed.

Lemma addCalls_nil x : addCalls [] x = x.
Proof. destruct x. unfold addCalls. cbn. by rewrite app_nil_r. Qed.

Lemma ipc_eq c (x : Xray) : ipc c x = (reply (x_calls x) c, addCalls [c] x).
Proof. reflexivity. Qed.

Lemma tryAll l x : forEach tryCall l x = (tt, addCalls l x).
Proof.
  revert x. induction l as [| c l IH]; intros x; [by rewrite addCalls_nil |].
  change (forEach tryCall (c :: l) x) with (forEach tryCall l (addCalls [c] x)).
  by rewrite IH, addCalls_app.
Qed.

(** What is called to end the process: it is asked, and killed when it does
    not finish. *)
Definition endProcess (h : list IpcCall) : list IpcCall :=
  [ProcessTerminate; ProcessWaitForFinished]
  ++ (if succeeded (reply (h ++ [ProcessTerminate]) ProcessWaitForFinished) then [] else [ProcessKill])
  ++ [ProcessClose].

(** The calls of [stop] after the calls [h]: what a set-up has done, and Xray,
    are taken back. *)
Definition stopCalls (h : list IpcCall) (process : bool) : list IpcCall :=
  let service := if ready h
    then [DisableKillSwitch; StartRoutingIpv6; RestoreResolvers; DeleteTun tunName; XrayStop] else [] in
  service ++ (if process then endProcess (h ++ service) else []).

Definition withBase (p : VpnProtocol) (process reading : bool) (l : list IpcCall) (x : Xray) : Xray :=
  mkXray p (m_xrayConfig x) (m_routeMode x) (m_dnsServers x) (x_remoteAddress x)
    (m_routeGateway x) process reading (x_calls x ++ l).

Lemma stop_eq x :
  stop x = (tt, withBase (setConnectionState Vpn.Disconnected (x_base x)).2 false
                  (if m_tun2socksProcess x then false else x_reading x)
                  (stopCalls (x_calls x) (m_tun2socksProcess x)) x).
Proof.
  unfold stop, stopCalls. cbv zeta. fold stopService.
  rewrite then_eq.
  assert (E : (withInterface (forEach tryCall stopService) tt x).2 = addCalls (if ready (x_calls x) then stopService else []) x).
  { unfold withInterface. change (calls x) with (x_calls x). destruct (ready (x_calls x)); [by rewrite tryAll | by rewrite addCalls_nil]. }
  rewrite E. generalize (if ready (x_calls x) then stopService else []). intros l. clear E.
  destruct x as [p cfg mode dns remote gw process reading h]. destruct process; unfold addCalls, withBase, endProcess, stopProcess;
    cbv [mbind ST_bind gets mret ST_ret tryCall ipc calls Xray_calls addCall setProcess modify onXBase];
    cbn -[succeeded setConnectionState].
  - destruct (succeeded _); cbn -[setConnectionState]; destruct (setConnectionState Vpn.Disconnected p) as [[] p1]; cbn;
      by rewrite <- !app_assoc.
  - destruct (setConnectionState Vpn.Disconnected p) as [[] p1]; cbn. by rewrite app_nil_r.
Qed.

Lemma disconnected_state p : p_connectionState (setConnectionState Vpn.Disconnected p).2 = Vpn.Disconnected.
Proof. destruct p as [[] ? ? ? ? ? ? ?]; reflexivity. Qed.

Lemma error_state p e : e <> NoError ->
  p_connectionState (setLastError e p).2 = Vpn.Error /\ p_lastError (setLastError e p).2 = Some e.
Proof.
  intros He. unfold setLastError, mbind, ST_bind. cbn. rewrite bool_decide_eq_false_2 by done.
  destruct p as [[] ? ? ? ? ? ? ?]; split; reflexivity.
Qed.

(** ** Setting up the routing *)

(** What is called when nothing fails. *)
Definition setupCalls (x : Xray) : list IpcCall :=
  [CreateTun tunName defaultLocalAddr; UpdateResolvers tunName (m_dnsServers x)]
  ++ (let rawConfig := p_rawConfig (x_base x) in
      if variantBool (toString (value rawConfig "killSwitchOption"))
      then [EnableKillSwitch (jinsert "vpnServer" (Some (jstr (x_remoteAddress x))) rawConfig) 0] else [])
  ++ (if m_routeMode x =? routeModeInt VpnAllSites then [RouteAddList (qdata (p_vpnGateway (x_base x))) allSubnets] else [])
  ++ [StopRoutingIpv6].

(** The answer that lets the next step go on. *)
Definition accepted (c : IpcCall) (r : option Z) : bool :=
  match c with
  | RouteAddList _ ips => bool_decide (r = Some (Z.of_nat (length ips)))
  | _ => succeeded r
  end.

(** How many of the calls are made: up to the first one that is refused. *)
Fixpoint made (h l : list IpcCall) : nat :=
  match l with
  | [] => 0
  | c :: l' => if accepted c (reply h c) then Datatypes.S (made (h ++ [c]) l') else 1
  end%nat.

Fixpoint allAccepted (h l : list IpcCall) : bool :=
  match l with
  | [] => true
  | c :: l' => accepted c (reply h c) && allAccepted (h ++ [c]) l'
  end.

Lemma made_all h l : allAccepted h l = true -> (length l <= made h l)%nat.
Proof.
  revert h. induction l as [| c l IH]; intros h; cbn; [lia |].
  destruct (accepted c _); cbn; [| done]. intros Hl. specialize (IH _ Hl). lia.
Qed.

Definition runSetup (l : list IpcCall) (x : Xray) : ErrorCode * Xray :=
  (if allAccepted (x_calls x) l then NoError else InternalError, addCalls (take (made (x_calls x) l) l) x).

Lemma runSetup_nil x : runSetup [] x = (NoError, x).
Proof. unfold runSetup. cbn. by rewrite addCalls_nil. Qed.

Lemma runSetup_cons c l x :
  runSetup (c :: l) x = if accepted c (reply (x_calls x) c) then runSetup l (addCalls [c] x)
                        else (InternalError, addCalls [c] x).
Proof.
  unfold runSetup. cbn [allAccepted made]. destruct (accepted c _); [| done].
  cbn [andb take]. rewrite addCalls_app. done.
Qed.

Lemma call_step c ok (K : ST Xray ErrorCode) x :
  (r ← ipc c; orInternalError r ok K) x
    = if ok (reply (x_calls x) c) then K (addCalls [c] x) else (InternalError, addCalls [c] x).
Proof. rewrite bind_eq, ipc_eq. cbn [fst snd]. unfold orInternalError. by destruct (ok _). Qed.

Lemma optional_step (b : bool) c v ok (K : ST Xray ErrorCode) x : ok v = true ->
  (r ← (if b then ipc c else mret v); orInternalError r ok K) x
    = if b then (r ← ipc c; orInternalError r ok K) x else K x.
Proof. intros Hv. destruct b; [done |]. rewrite bind_eq. cbn. unfold orInternalError. by rewrite Hv. Qed.

Lemma setup_eq x : ready (x_calls x) = true -> setupRouting x = runSetup (setupCalls x) x.
Proof.
  intros Hr. unfold setupRouting, withInterface. change (calls x) with (x_calls x). rewrite Hr. clear Hr.
  destruct x as [p cfg mode dns remote gw process reading h]. unfold setupCalls.
  cbn [app m_dnsServers x_base x_remoteAddress m_routeMode].
  rewrite runSetup_cons, call_step. destruct (accepted _ _) eqn:E; cbn [accepted] in E; rewrite E; [| done]. clear E.
  rewrite runSetup_cons, bind_eq. cbn [gets fst snd addCalls m_dnsServers]. rewrite call_step.
  destruct (accepted _ _) eqn:E; cbn [accepted] in E; rewrite E; [| done]. clear E.
  rewrite bind_eq, bind_eq. cbn [gets fst snd addCalls p_rawConfig x_base x_remoteAddress]. rewrite optional_step by done.
  assert (Htail : forall y, x_base y = p -> m_routeMode y = mode ->
    (mode ← gets m_routeMode; gateway ← gets (fun x => p_vpnGateway (x_base x));
     routes ← (if mode =? routeModeInt VpnAllSites then ipc (RouteAddList (qdata gateway) allSubnets)
               else mret (Some (Z.of_nat (length allSubnets))));
     orInternalError routes (fun r => bool_decide (r = Some (Z.of_nat (length allSubnets)))) (
     stopIpv6 ← ipc StopRoutingIpv6; orInternalError stopIpv6 succeeded (mret NoError))) y
    = runSetup ((if mode =? routeModeInt VpnAllSites then [RouteAddList (qdata (p_vpnGateway p)) allSubnets] else []) ++ [StopRoutingIpv6]) y).
  { intros y <- <-. rewrite bind_eq, bind_eq. cbn [gets fst snd]. rewrite optional_step by reflexivity.
    assert (Hlast : forall z, (stopIpv6 ← ipc StopRoutingIpv6; orInternalError stopIpv6 succeeded (mret NoError)) z
                    = runSetup [StopRoutingIpv6] z).
    { intros z. rewrite call_step, runSetup_cons, runSetup_nil. done. }
    destruct (_ =? _); [| apply Hlast]. rewrite call_step. cbn [app]. rewrite runSetup_cons. by rewrite Hlast. }
  destruct (variantBool _) eqn:Ek; cbn [app]; [| by apply Htail].
  rewrite call_step, runSetup_cons. cbn [accepted]. destruct (succeeded _); [by apply Htail | done].
Qed.

(** C20 (safety): the tunnel of Xray is all or nothing.  When tun2socks is up,
    the device, its resolvers, the kill switch if it is on, and the routes are
    set in this order; the protocol is [Connected] if every call was accepted.
    Otherwise the calls end with the refused one, the kill switch, the IPv6
    routing, the resolvers, the device and Xray are taken back, the process is
    ended, and the state is [Error]. *)
Theorem xray_setup (x : Xray) (line : string) (Hup : isUp line = true) (Hr : ready (x_calls x) = true) :
  let x' := (onReadyRead (Some line) x).2 in
  let l := setupCalls x in
  if allAccepted (x_calls x) l then
    p_connectionState (x_base x') = Vpn.Connected
    /\ m_tun2socksProcess x' = m_tun2socksProcess x
    /\ x_calls x' = x_calls x ++ l
  else
    let refused := take (made (x_calls x) l) l in
    p_connectionState (x_base x') = Vpn.Error
    /\ p_lastError (x_base x') = Some InternalError
    /\ m_tun2socksProcess x' = false
    /\ x_calls x' = x_calls x ++ refused ++ stopCalls (x_calls x ++ refused) (m_tun2socksProcess x).
Proof.
  cbv zeta. cbn [onReadyRead]. rewrite Hup. rewrite bind_eq. cbn [gets fst snd]. rewrite then_eq.
  set (y := (setProcess (m_tun2socksProcess x) false x).2).
  change (setupCalls x) with (setupCalls y). change (x_calls x) with (x_calls y).
  change (x_calls x) with (x_calls y) in Hr. change (m_tun2socksProcess x) with (m_tun2socksProcess y).
  rewrite bind_eq, (setup_eq y Hr). unfold runSetup. cbn [fst snd].
  destruct (allAccepted _ _) eqn:E.
  - rewrite bool_decide_eq_true_2 by done. rewrite firstn_all2 by (by apply made_all).
    clearbody y. destruct y as [[[] ? ? ? ? ? ? ?] ? ? ? ? ? ? ? ?]; repeat split.
  - rewrite bool_decide_eq_false_2 by done. generalize (take (made (x_calls y) (setupCalls y)) (setupCalls y)). intros l.
    rewrite then_eq, stop_eq. cbn [snd]. clearbody y.
    unfold onXBase. destruct (error_state (setConnectionState Vpn.Disconnected (x_base y)).2 InternalError) as [Hs He]; [done |].
    unfold withBase, addCalls. cbn [x_base m_tun2socksProcess x_calls].
    destruct (setLastError InternalError (setConnectionState Vpn.Disconnected (x_base y)).2) as [[] p'] eqn:Ep.
    cbn [snd x_base m_tun2socksProcess x_calls] in *.
    repeat split; [done | done | by rewrite <- app_assoc].
Qed.

(** What a start calls when nothing fails. *)
Definition startCalls (x : Xray) : list IpcCall :=
  [XrayStart (m_xrayConfig x); CreatePrivilegedProcess; AcquireProcess; ProcessWaitForSource;
   ProcessStart (tun2socksArguments (m_xrayConfig x))].

(** The outcomes of a start, by how far it came.  It succeeds after
    all five calls.  Without the service it says so; when Xray does not start
    it says so; when Xray runs and the process cannot be made the program
    dereferences a null pointer; when the process has no source the start
    fails.  No failure stops Xray, which was started, and none is signalled. *)
Theorem start_outcome (x : Xray) :
  let r := start x in
  x_base r.2 = x_base x
  /\ exists k, x_calls r.2 = x_calls x ++ take k (startCalls x)
     /\ r.1 = match k with
              | 0 => Some DopamineServiceConnectionFailed
              | 1 => if succeeded (reply (x_calls x) (XrayStart (m_xrayConfig x))) then None else Some XrayExecutableCrashed
              | 2 | 3 => None
              | 4 => Some DopamineServiceConnectionFailed
              | _ => Some NoError
              end%nat.
Proof.
  cbv zeta. destruct x as [p cfg mode dns remote gw process reading h]. unfold start, withInterface.
  cbn [calls Xray_calls x_calls]. destruct (ready h); [| split; [done | exists 0%nat; by rewrite app_nil_r]].
  rewrite bind_eq. cbn [gets fst snd m_xrayConfig]. rewrite bind_eq, ipc_eq. cbn [fst snd x_calls].
  destruct (succeeded (reply h (XrayStart cfg))) eqn:E1; cbn [negb]; [| split; [done | by exists 1%nat]].
  unfold addCalls. cbn [x_base m_xrayConfig m_routeMode m_dnsServers x_remoteAddress m_routeGateway m_tun2socksProcess x_reading x_calls].
  unfold startTun2Socks. rewrite bind_eq, then_eq. unfold createPrivilegedProcess, withInterface. cbn [calls Xray_calls x_calls].
  destruct (ready _); [| split; [done | by exists 1%nat]].
  rewrite bind_eq, ipc_eq. cbn [fst snd x_calls]. unfold addCalls. cbn [x_base m_xrayConfig m_routeMode m_dnsServers x_remoteAddress m_routeGateway m_tun2socksProcess x_reading x_calls].
  destruct (reply _ CreatePrivilegedProcess); [| split; [done | exists 2%nat; cbn; by rewrite <- !app_assoc]].
  rewrite bind_eq, ipc_eq. cbn [fst snd x_calls mret ST_ret setProcess modify]. unfold addCalls. cbn [x_base m_xrayConfig m_routeMode m_dnsServers x_remoteAddress m_routeGateway m_tun2socksProcess x_reading x_calls].
  destruct (succeeded (reply _ AcquireProcess)); cbn [negb]; [| split; [done | exists 3%nat; cbn; by rewrite <- !app_assoc]].
  rewrite bind_eq, ipc_eq. cbn [fst snd x_calls]. unfold addCalls. cbn [x_base m_xrayConfig m_routeMode m_dnsServers x_remoteAddress m_routeGateway m_tun2socksProcess x_reading x_calls].
  destruct (succeeded (reply _ ProcessWaitForSource)); cbn [negb]; [| split; [done | exists 4%nat; cbn; by rewrite <- !app_assoc]].
  rewrite bind_eq. cbn [gets fst snd m_xrayConfig]. rewrite !then_eq.
  cbn [setProcess modify snd mret ST_ret x_base m_xrayConfig m_routeMode m_dnsServers x_remoteAddress m_routeGateway x_calls].
  split; [done |]. exists 5%nat. split; [cbn; rewrite <- !app_assoc; reflexivity | reflexivity].
Qed.

Lemma createProcess_base (x : Xray) : x_base (createPrivilegedProcess x).2 = x_base x.
Proof.
  unfold createPrivilegedProcess, withInterface. destruct (ready _); [| done].
  rewrite bind_eq, ipc_eq. cbn [fst snd]. destruct (reply _ _); [| done]. by rewrite bind_eq, ipc_eq.
Qed.

Lemma start_base (x : Xray) : x_base (start x).2 = x_base x.
Proof.
  unfold start, withInterface. destruct (ready _); [| done]. rewrite bind_eq. cbn [gets fst snd]. rewrite bind_eq, ipc_eq.
  cbn [fst snd]. destruct (negb _); [done |]. unfold startTun2Socks. rewrite bind_eq, then_eq.
  destruct (negb _); [cbn; by rewrite createProcess_base |]. rewrite bind_eq, ipc_eq. cbn [fst snd].
  destruct (negb _); cbn; by rewrite createProcess_base.
Qed.

Lemma follows_onXBase (m : ST VpnProtocol unit) : follows (fun p => p) m -> follows x_base (onXBase m).
Proof. intros H0. apply (follows_lift x_base _ m H0). intros x. unfold onXBase. by destruct (m (x_base x)). Qed.

Lemma follows_stop : follows x_base stop.
Proof. apply (follows_lift x_base _ _ (follows_set Vpn.Disconnected)). intros x. by rewrite stop_eq. Qed.

Lemma follows_ipc c : follows x_base (ipc c).
Proof. by apply follows_silent. Qed.

Lemma follows_with {A} (m : ST Xray A) (a : A) : follows x_base m -> follows x_base (withInterface m a).
Proof. intros Hm x. unfold withInterface. destruct (ready _); [apply Hm | by apply follows_ret]. Qed.

Lemma follows_orError r ok k : follows x_base k -> follows x_base (orInternalError r ok k).
Proof. intros Hk. unfold orInternalError. destruct (ok r); [done | apply follows_ret]. Qed.

Lemma follows_setup : follows x_base setupRouting.
Proof.
  apply follows_with. apply follows_bind; [apply follows_ipc |]. intros r1. apply follows_orError.
  apply follows_bind; [apply follows_get |]. intros dns. apply follows_bind; [apply follows_ipc |]. intros r2. apply follows_orError.
  apply follows_bind; [apply follows_get |]. intros cfg. apply follows_bind; [apply follows_get |]. intros remote.
  apply follows_bind; [destruct (variantBool _); [apply follows_ipc | apply follows_ret] |]. intros r3. apply follows_orError.
  apply follows_bind; [apply follows_get |]. intros mode. apply follows_bind; [apply follows_get |]. intros gw.
  apply follows_bind; [destruct (_ =? _); [apply follows_ipc | apply follows_ret] |]. intros r4. apply follows_orError.
  apply follows_bind; [apply follows_ipc |]. intros r5. apply follows_orError, follows_ret.
Qed.

(** Output of the process, or its end. *)
Inductive XrayEvent : Type := XOutput (output : option string) | XFinished.
Definition xReact (e : XrayEvent) : ST Xray unit :=
  match e with XOutput output => onReadyRead output | XFinished => onFinished end.

Lemma follows_xReact e : follows x_base (xReact e).
Proof.
  destruct e as [[line |] |]; cbn [xReact onReadyRead]; [| apply follows_ret |].
  - destruct (isUp line); [| apply follows_ret]. apply follows_bind; [apply follows_get |]. intros there.
    apply follows_bind; [by apply follows_silent |]. intros _. apply follows_bind; [apply follows_setup |]. intros res.
    destruct (bool_decide _); [apply follows_onXBase, follows_set |].
    apply follows_bind; [apply follows_stop |]. intros _. apply follows_onXBase, follows_lastError.
  - apply follows_bind; [apply follows_stop |]. intros _. apply follows_onXBase, follows_lastError.
Qed.

#[export] Instance Xray_Protocol : Protocol Xray := {|
  pBase := x_base;
  pRouteGateway := m_routeGateway;
  pStart := start;
  pStop := stop;
  pEvent := XrayEvent;
  pReact := xReact
|}.

#[export] Instance Xray_laws : ProtocolLaws Xray_Protocol.
Proof.
  split; cbn [pBase pStop pStart Xray_Protocol].
  - intros x. rewrite stop_eq. apply to_disconnected.
  - intros x. rewrite stop_eq. cbn [withBase snd x_base]. destruct (to_disconnected (x_base x)) as [_ ->]. eexists.
    split; [done |]. by case_decide.
  - intros x. by rewrite start_base.
  - apply follows_xReact.
Qed.
End Facts.

(** ** Witnesses *)

(** A service that grants everything but the resolvers. *)
Definition noResolvers : Service := {|
  ready _ := true;
  reply _ c := match c with UpdateResolvers _ _ => Some 0 | RouteAddList _ l => Some (Z.of_nat (length l)) | _ => Some 1 end
|}.

Definition sampleXray : Xray :=
  newXray (Q := plainQt) (fun _ => []) "192.168.1.1"
    (jinsert "dns1" (Some (jstr "1.1.1.1")) (jinsert "hostName" (Some (jstr "9.8.7.6")) ∅)).
Definition upLine : string := "[STACK] tun://tun2 <-> socks5://127.0.0.1:10808".

Lemma xray_setup_witness :
  (onReadyRead (H := noResolvers) (Some upLine) (setProcess true true sampleXray).2).2
    .(x_calls) = [CreateTun "tun2" "10.33.0.2"; UpdateResolvers "tun2" (m_dnsServers sampleXray)]
      ++ stopService ++ [ProcessTerminate; ProcessWaitForFinished; ProcessClose]
  /\ p_connectionState (x_base (onReadyRead (H := noResolvers) (Some upLine) (setProcess true true sampleXray).2).2) = Vpn.Error.
Proof.
  destruct (xray_setup (H := noResolvers) (setProcess true true sampleXray).2 upLine) as (H1 & H2 & H3 & H4);
    [vm_compute; reflexivity | reflexivity |].
  split; [rewrite H4; vm_compute; reflexivity | exact H1].
Defined.
