(* ===== verification/SplitTunnel.v ===== *)
(** * Split tunnelling lists: sites and presets

    The list of sites the user edits ([client/ui/models/sites_model.cpp],
    [client/ui/controllers/sitesController.cpp]) and the presets of services
    ([client/core/builtinSplitPresets.cpp],
    [client/ui/models/splitPresetsModel.cpp]), over the store of
    [Settings.v].  A model keeps the rows the user sees next to the stored
    map; names are resolved later, so that an answer can come after any other
    edit. *)

From Stdlib Require Import ZArith Lia Bool String Ascii.
From stdpp Require Import base gmap strings list sorting.
From S2P Require Import Prelude.
From S2P Require Import Qt.
From S2P Require Import QtInstance.
From S2P Require Import IPAddress.
From S2P Require Import NetworkUtilities.
From S2P Require Import Settings.

Open Scope Z_scope.

(** ** The model of the sites *)

Record SitesModel : Type := mkSites {
  m_settings : Settings;
  m_isSplitTunnelingEnabled : bool;
  m_currentRouteMode : RouteMode;
  m_sites : list (string * string)
}.

Definition setSettings (s : Settings) : ST SitesModel unit := modify (fun m =>
  mkSites s (m_isSplitTunnelingEnabled m) (m_currentRouteMode m) (m_sites m)).
Definition setRows (rows : list (string * string)) : ST SitesModel unit := modify (fun m =>
  mkSites (m_settings m) (m_isSplitTunnelingEnabled m) (m_currentRouteMode m) rows).

Definition fillSites : ST SitesModel unit := modify (fun m =>
  mkSites (m_settings m) (m_isSplitTunnelingEnabled m) (m_currentRouteMode m)
    (vpnSites (m_settings m) (m_currentRouteMode m))).

(** The constructor. *)
Definition newSites (s : Settings) : SitesModel :=
  let mode := routeMode s in
  let s' := if bool_decide (mode = VpnAllSites) then setRouteMode VpnOnlyForwardSites s else s in
  let mode' := if bool_decide (mode = VpnAllSites) then VpnOnlyForwardSites else mode in
  (fillSites (mkSites s' (isSitesSplitTunnelingEnabled s) mode' [])).2.

(** The loop over the rows: [Some (b, rows)] when it returns. *)
Fixpoint addRow (hostname ip : string) (rows : list (string * string)) : option (bool * list (string * string)) :=
  match rows with
  | [] => None
  | (h, i) :: rows' =>
      if String.eqb h hostname && (String.eqb i "" && negb (String.eqb ip "")) then Some (true, (h, ip) :: rows')
      else if String.eqb h hostname && String.eqb i ip then Some (false, rows)
      else match addRow hostname ip rows' with
           | Some (b, rows'') => Some (b, (h, i) :: rows'')
           | None => None
           end
  end.

Definition addSite (hostname ip : string) : ST SitesModel bool :=
  s ← gets m_settings;
  mode ← gets m_currentRouteMode;
  let '(added, s) := addVpnSite mode hostname ip s in
  if negb added then mret false
  else
    setSettings s ;;
    rows ← gets m_sites;
    match addRow hostname ip rows with
    | Some (b, rows) => setRows rows ;; mret b
    | None => setRows (rows ++ [(hostname, ip)]) ;; mret true
    end.

Definition addSites (sites : list (string * string)) (replaceExisting : bool) : ST SitesModel unit :=
  modify (fun m =>
    let s := m_settings m in
    let s := if replaceExisting then removeAllVpnSites (m_currentRouteMode m) s else s in
    mkSites (addVpnSites (m_currentRouteMode m) sites s) (m_isSplitTunnelingEnabled m) (m_currentRouteMode m) (m_sites m)) ;;
  fillSites.

(** [m_sites.at(row)] is outside the list: [OutOfRange]. *)
Definition removeSite (row : Z) : ST SitesModel (res unit) := fun m =>
  if (0 <=? row) && (row <? Z.of_nat (length (m_sites m))) then
    match m_sites m !! Z.to_nat row with
    | Some (hostname, _) =>
        (Val tt, mkSites (removeVpnSite (m_currentRouteMode m) hostname (m_settings m)) (m_isSplitTunnelingEnabled m)
                   (m_currentRouteMode m) (delete (Z.to_nat row) (m_sites m)))
    | None => (OutOfRange, m)
    end
  else (OutOfRange, m).

Definition removeSites : ST SitesModel unit :=
  modify (fun m => mkSites (removeAllVpnSites (m_currentRouteMode m) (m_settings m)) (m_isSplitTunnelingEnabled m)
                     (m_currentRouteMode m) (m_sites m)) ;;
  fillSites.

Definition removeSitesByDomains (domains : list string) : ST SitesModel unit :=
  modify (fun m => mkSites (fold_left (fun s domain => removeVpnSite (m_currentRouteMode m) domain s) domains (m_settings m))
                     (m_isSplitTunnelingEnabled m) (m_currentRouteMode m) (m_sites m)) ;;
  fillSites.

Definition changeRouteMode (mode : RouteMode) : ST SitesModel unit :=
  modify (fun m => let s := setRouteMode mode (m_settings m) in
    mkSites s (m_isSplitTunnelingEnabled m) (routeMode s) (m_sites m)) ;;
  fillSites.

Definition toggleSplitTunneling (enabled : bool) : ST SitesModel unit := modify (fun m =>
  mkSites (setSitesSplitTunnelingEnabled enabled (m_settings m)) enabled (m_currentRouteMode m) (m_sites m)).

(** ** The controller *)

(** [s.remove(text)]: every occurrence, from the left; [skip] characters of
    the one found are still to be dropped. *)
Fixpoint removeText (text s : string) (skip : nat) : string :=
  match s with
  | EmptyString => ""
  | String c s' =>
      match skip with
      | Datatypes.S k => removeText text s' k
      | O => if String.prefix text s then removeText text s' (String.length text - 1)
             else String c (removeText text s' 0)
      end
  end.

Definition isDigit (c : ascii) : bool :=
  let n := Ascii.nat_of_ascii c in Nat.leb 48 n && Nat.leb n 57.
Fixpoint allDigits (s : string) : bool :=
  match s with EmptyString => true | String c s' => isDigit c && allDigits s' end.
Fixpoint decimal (acc : Z) (s : string) : Z :=
  match s with EmptyString => acc | String c s' => decimal (acc * 10 + Z.of_nat (Ascii.nat_of_ascii c) - 48) s' end.

(** A decimal of 0 to 255 without a leading zero. *)
Definition isOctet (s : string) : bool :=
  match s with
  | EmptyString => false
  | String c s' => allDigits s && (String.eqb s' "" || negb (Ascii.eqb c "0"))
                   && (decimal 0 s <=? 255) && Nat.leb (String.length s) 3
  end.

(** [ipAddressWithSubnetRegExp().exactMatch(s)] *)
Definition matchesIpWithSubnet (s : string) : bool :=
  let octets (a : string) := match split "." a with
                  | [x; y; z; t] => isOctet x && isOctet y && isOctet z && isOctet t
                  | _ => false
                  end in
  match split "/" s with
  | [a] => octets a
  | [a; n] => octets a && allDigits n && Nat.leb 1 (String.length n) && Nat.leb (String.length n) 2
  | _ => false
  end.

(** What the controller says, and the names it has asked for. *)
Inductive SitesOutput : Type :=
| SErrorOccurred (text : string)
| SFinished (text : string)
| SLookup (hostname : string).

Record SitesController : Type := mkSitesController {
  model : SitesModel;
  said : list SitesOutput
}.

Definition onModel {A} (m : ST SitesModel A) : ST SitesController A := fun c =>
  let '(a, m') := m (model c) in (a, mkSitesController m' (said c)).
Definition say (o : SitesOutput) : ST SitesController unit := modify (fun c => mkSitesController (model c) (said c ++ [o])).

(** The host of what the user wrote; [None] when [first()] is taken of an
    empty list. *)
Definition hostOf (hostname : string) : option string :=
  if matchesIpWithSubnet hostname then Some hostname
  else
    let hostname := removeText "https://" hostname 0 in
    let hostname := removeText "http://" hostname 0 in
    let hostname := removeText "ftp://" hostname 0 in
    List.hd_error (List.filter (fun s => negb (String.eqb s "")) (split "/" hostname)).

Definition controllerAddSite (hostname : string) : ST SitesController (res unit) :=
  if String.eqb hostname "" then mret (Val tt)
  else if negb (str_contains "." hostname) then
    say (SErrorOccurred "Hostname not look like ip adress or domain name") ;; mret (Val tt)
  else match hostOf hostname with
       | None => mret OutOfRange
       | Some host =>
           onModel (addSite host "") ;;
           (if matchesIpWithSubnet host then mret tt else say (SLookup host)) ;;
           say (SFinished ("New site added: " +:+ host)) ;;
           mret (Val tt)
       end.

Section Resolved.
Context `{Qt}.

(** The answer for a name: the first IPv4 address is stored. *)
Definition firstIPv4 (addresses : list QHostAddress) : option QHostAddress :=
  List.find (fun a => bool_decide (protocol a = IPv4Protocol)) addresses.

Definition resolveCallback (hostName : string) (addresses : list QHostAddress) : ST SitesController unit :=
  match firstIPv4 addresses with
  | Some addr => onModel (addSite hostName (hostToString addr)) ;; mret tt
  | None => mret tt
  end.
End Resolved.

Definition controllerRemoveSite (index : Z) : ST SitesController (res unit) :=
  rows ← gets (fun c => m_sites (model c));
  let hostname := match rows !! Z.to_nat index with Some (h, _) => h | None => ""%string end in
  r ← onModel (removeSite index);
  match r with
  | Val tt => say (SFinished ("Site removed: " +:+ hostname)) ;; mret (Val tt)
  | other => mret other
  end.

Definition controllerRemoveSites : ST SitesController unit :=
  onModel removeSites ;; say (SFinished "Site list cleared!").

(** A parsed file. *)
Inductive Document : Type := DocNull | DocArray (l : list json) | DocOther.

(** The entries of an imported file. *)
Definition importEntry (v : json) : option (string * string) :=
  let o := toObject (Some v) in
  let hostname := qdata (toString (value o "hostname")) in
  let ip := qdata (toString (value o "ip")) in
  if negb (str_contains "." hostname) && negb (matchesIpWithSubnet hostname) then None else Some (hostname, ip).

Section Files.
Variable fromJson : string -> Document.
Variable toJson : list json -> string.

(** [file] is [None] when it cannot be read. *)
Definition importSites (fileName : string) (file : option string) (replaceExisting : bool) : ST SitesController unit :=
  match file with
  | None => say (SErrorOccurred ("Can't open file: " +:+ fileName))
  | Some text =>
      match fromJson text with
      | DocNull => say (SErrorOccurred ("Failed to parse JSON data from file: " +:+ fileName))
      | DocOther => say (SErrorOccurred ("The JSON data is not an array in file: " +:+ fileName))
      | DocArray l =>
          let sites := fold_left (fun m v => match importEntry v with
                                             | Some (h, i) => qmap_insert h i m
                                             | None => m
                                             end) l [] in
          onModel (addSites sites replaceExisting) ;; say (SFinished "Import completed")
      end
  end.

Definition exportEntry (site : string * string) : json :=
  JObject (jinsert "ip" (Some (jstr site.2)) (jinsert "hostname" (Some (jstr site.1)) ∅)).

(** The text of the file that is written. *)
Definition exportSites : ST SitesController string :=
  sites ← gets (fun c => m_sites (model c));
  say (SFinished "Export completed") ;;
  mret (toJson (map exportEntry sites)).
End Files.

(** ** The rows and the stored map *)

(** The edits of the list. *)
Inductive SiteEdit : Type :=
| EdAdd (hostname ip : string)
| EdAddAll (sites : list (string * string)) (replaceExisting : bool)
| EdRemove (row : Z)
| EdRemoveAll
| EdRemoveDomains (domains : list string)
| EdMode (mode : RouteMode)
| EdToggle (enabled : bool).

Definition edit (e : SiteEdit) : ST SitesModel unit :=
  match e with
  | EdAdd hostname ip => addSite hostname ip ;; mret tt
  | EdAddAll sites replaceExisting => addSites sites replaceExisting
  | EdRemove row => removeSite row ;; mret tt
  | EdRemoveAll => removeSites
  | EdRemoveDomains domains => removeSitesByDomains domains
  | EdMode mode => changeRouteMode mode
  | EdToggle enabled => toggleSplitTunneling enabled
  end.

(** A name that has an address gets another one. *)
Definition rotates (m : SitesModel) (e : SiteEdit) : bool :=
  match e with
  | EdAdd hostname ip =>
      match qmap_lookup hostname (vpnSites (m_settings m) (m_currentRouteMode m)) with
      | Some old => negb (String.eqb old "") && negb (String.eqb ip "") && negb (String.eqb old ip)
      | None => false
      end
  | _ => false
  end.

Definition stored (m : SitesModel) : list (string * string) := vpnSites (m_settings m) (m_currentRouteMode m).

(** The rows are the stored sites, in any order; the stored maps are ordered
    maps; the mode and the switch are the stored ones. *)
Definition consistent (m : SitesModel) : Prop :=
  Permutation (m_sites m) (stored m)
  /\ (forall mode, qmap_wf (vpnSites (m_settings m) mode))
  /\ m_currentRouteMode m = routeMode (m_settings m)
  /\ m_isSplitTunnelingEnabled m = isSitesSplitTunnelingEnabled (m_settings m).

Lemma routeMode_setVpnSites mode sites s : routeMode (setVpnSites mode sites s) = routeMode s.
Proof. unfold routeMode, setVpnSites. rewrite lookup_setValue. by destruct mode. Qed.
Lemma enabled_setVpnSites mode sites s :
  isSitesSplitTunnelingEnabled (setVpnSites mode sites s) = isSitesSplitTunnelingEnabled s.
Proof. unfold isSitesSplitTunnelingEnabled, setVpnSites. rewrite lookup_setValue. by destruct mode. Qed.
Lemma routeMode_set mode s : routeMode (setRouteMode mode s) = mode.
Proof. unfold routeMode, setRouteMode. rewrite lookup_setValue. by destruct mode. Qed.
Lemma enabled_setRouteMode mode s :
  isSitesSplitTunnelingEnabled (setRouteMode mode s) = isSitesSplitTunnelingEnabled s.
Proof. unfold isSitesSplitTunnelingEnabled, setRouteMode. by rewrite lookup_setValue. Qed.
Lemma vpnSites_setRouteMode mode s mode' : vpnSites (setRouteMode mode s) mode' = vpnSites s mode'.
Proof. unfold vpnSites, setRouteMode. rewrite lookup_setValue. by destruct mode'. Qed.

Lemma vpnSites_toggle b s mode : vpnSites (setSitesSplitTunnelingEnabled b s) mode = vpnSites s mode.
Proof. unfold vpnSites, setSitesSplitTunnelingEnabled. rewrite lookup_setValue. by destruct mode. Qed.
Lemma routeMode_toggle b s : routeMode (setSitesSplitTunnelingEnabled b s) = routeMode s.
Proof. unfold routeMode, setSitesSplitTunnelingEnabled. by rewrite lookup_setValue. Qed.
Lemma enabled_toggle b s : isSitesSplitTunnelingEnabled (setSitesSplitTunnelingEnabled b s) = b.
Proof. unfold isSitesSplitTunnelingEnabled, setSitesSplitTunnelingEnabled. by rewrite lookup_setValue. Qed.

(** Writing the map of the current mode, with the rows that belong to it. *)
Lemma consistent_write m sites rows :
  consistent m -> qmap_wf sites -> Permutation rows sites ->
  consistent (mkSites (setVpnSites (m_currentRouteMode m) sites (m_settings m)) (m_isSplitTunnelingEnabled m)
                (m_currentRouteMode m) rows).
Proof.
  intros (_ & Hw & Hm & He) Hs Hp. unfold consistent, stored. cbn [m_sites m_settings m_currentRouteMode m_isSplitTunnelingEnabled].
  rewrite vpnSites_set, decide_True, routeMode_setVpnSites, enabled_setVpnSites by done.
  split; [done |]. split; [| done]. intros mode. rewrite vpnSites_set. by case_decide.
Qed.

Lemma map_fix {A} (f : A -> A) l : (forall x, x ∈ l -> f x = x) -> map f l = l.
Proof.
  induction l as [| a l IH]; intros H; [done |]. cbn. rewrite H by (by left). f_equal. apply IH. intros x Hx. apply H. by right.
Qed.

(** The loop over the rows finds the row of a name, if there is one. *)
Lemma addRow_spec hostname ip rows :
  NoDup rows.*1 ->
  addRow hostname ip rows =
    match List.find (fun kv => String.eqb kv.1 hostname) rows with
    | Some (_, i) =>
        if String.eqb i "" && negb (String.eqb ip "")
        then Some (true, map (fun kv => if String.eqb kv.1 hostname then (hostname, ip) else kv) rows)
        else if String.eqb i ip then Some (false, rows) else None
    | None => None
    end.
Proof.
  induction rows as [| [h i] rows IH]; [done |]. cbn [fmap list_fmap fst]. rewrite NoDup_cons. intros [Hn Hl].
  cbn [addRow List.find fst map]. destruct (String.eqb_spec h hostname) as [-> | Hne]; cbn [andb].
  - assert (Hno : forall kv, kv ∈ rows -> String.eqb kv.1 hostname = false).
    { intros kv Hin. apply String.eqb_neq. intros E. apply Hn, list_elem_of_fmap. by exists kv. }
    assert (Hf : List.find (fun kv => String.eqb kv.1 hostname) rows = None).
    { destruct (List.find _ rows) as [kv |] eqn:E; [| done]. apply find_some in E as [Hin E].
      rewrite Hno in E; [done | by apply list_elem_of_In]. }
    assert (Hm : map (fun kv => if String.eqb kv.1 hostname then (hostname, ip) else kv) rows = rows).
    { apply map_fix. intros kv Hin. by rewrite Hno. }
    destruct (_ && _) eqn:E1; [by rewrite Hm |]. destruct (String.eqb_spec i ip) as [-> |]; [done |].
    by rewrite IH, Hf.
  - rewrite IH by done. destruct (List.find _ rows) as [[h' i'] |]; [| done].
    destruct (_ && _); [done |]. by destruct (String.eqb i' ip).
Qed.

Lemma find_row (k v : string) (rows m : list (string * string)) :
  Permutation rows m -> qmap_wf m ->
  qmap_lookup k m = Some v ->
  exists k', List.find (fun kv => String.eqb kv.1 k) rows = Some (k', v).
Proof.
  intros Hp Hw Hl. apply lookup_elem in Hl as Hin; [| done]. rewrite <- Hp in Hin.
  destruct (List.find _ rows) as [[k' v'] |] eqn:E.
  - apply find_some in E as [Hin' E]. apply String.eqb_eq in E. cbn in E. subst k'.
    apply list_elem_of_In in Hin'. rewrite Hp in Hin'. apply lookup_elem in Hin'; [| done].
    rewrite Hl in Hin'. simplify_eq. by eexists.
  - apply list_elem_of_In in Hin. apply (find_none _ _ E) in Hin. cbn in Hin. by rewrite String.eqb_refl in Hin.
Qed.

Lemma find_row_none (k : string) (rows m : list (string * string)) :
  Permutation rows m -> qmap_wf m -> qmap_lookup k m = None -> List.find (fun kv => String.eqb kv.1 k) rows = None.
Proof.
  intros Hp Hw Hl. destruct (List.find _ rows) as [[k' v'] |] eqn:E; [| done].
  apply find_some in E as [Hin E]. apply String.eqb_eq in E. cbn in E. subst k'.
  apply list_elem_of_In in Hin. rewrite Hp in Hin. apply lookup_elem in Hin; [| done]. congruence.
Qed.

Lemma insert_new (k v : string) (m : list (string * string)) :
  qmap_lookup k m = None -> Permutation (qmap_insert k v m) (m ++ [(k, v)]).
Proof.
  induction m as [| [k1 v1] m IH]; [done |]. cbn. destruct (String.compare k k1); [done | |]; intros Hl.
  - by rewrite (Permutation_app_comm m [(k, v)]), Permutation_swap.
  - by rewrite IH.
Qed.

Lemma insert_old (k v old : string) (m : list (string * string)) :
  qmap_wf m -> qmap_lookup k m = Some old ->
  qmap_insert k v m = map (fun kv => if String.eqb kv.1 k then (k, v) else kv) m.
Proof.
  intros Hw. induction Hw as [| [k1 v1] m Hm IH H1]; [done |]. cbn.
  destruct (String.compare k k1) eqn:E; intros Hl.
  - apply String.compare_eq_iff in E as ->. rewrite String.eqb_refl. f_equal. symmetry.
    apply map_fix. intros kv Hin. destruct (String.eqb_spec kv.1 k1) as [Ek |]; [| done].
    apply (proj1 (Forall_forall _ _) H1) in Hin. unfold keyLt in Hin. rewrite Ek in Hin.
    cbn [fst] in Hin. by rewrite kcompare_refl in Hin.
  - exfalso. change (String.compare k k1) with (kcompare k k1) in E. rewrite lookup_below in Hl; [done |].
    by eapply below_trans.
  - rewrite <- IH by done. destruct (String.eqb_spec k1 k) as [-> |]; [| done].
    change (String.compare k k) with (kcompare k k) in E. by rewrite kcompare_refl in E.
Qed.

Lemma remove_old (k v : string) (m : list (string * string)) :
  qmap_wf m -> qmap_lookup k m = Some v -> Permutation m ((k, v) :: qmap_remove k m).
Proof.
  intros Hw. induction Hw as [| [k1 v1] m Hm IH H1]; [done |]. cbn.
  destruct (String.compare k k1) eqn:E; intros Hl.
  - apply String.compare_eq_iff in E as ->. simplify_eq. constructor.
    assert (Hn : qmap_remove k1 m = m); [| change (Permutation m (qmap_remove k1 m)); by rewrite Hn].
    clear -H1. unfold keyLt in H1. cbn in H1. induction H1 as [| [k2 v2] m H2 _ IH]; [done |]. cbn in *. rewrite H2. f_equal. exact IH.
  - rewrite IH at 1 by done. apply Permutation_swap.
  - rewrite IH at 1 by done. apply Permutation_swap.
Qed.

Lemma addSite_eq hostname ip m : consistent m -> rotates m (EdAdd hostname ip) = false ->
  exists rows, (addSite hostname ip m).2
    = (if qmap_contains hostname (stored m) && String.eqb ip "" then m
       else mkSites (setVpnSites (m_currentRouteMode m) (qmap_insert hostname ip (stored m)) (m_settings m))
              (m_isSplitTunnelingEnabled m) (m_currentRouteMode m) rows)
    /\ (qmap_contains hostname (stored m) && String.eqb ip "" = false ->
        Permutation rows (qmap_insert hostname ip (stored m))).
Proof.
  intros (Hp & Hw & Hm & He) Hr. unfold rotates in Hr. fold (stored m) in Hr.
  assert (Hws : qmap_wf (stored m)) by apply Hw.
  assert (Hnd : NoDup (m_sites m).*1) by (rewrite Hp; by apply wf_nodup).
  unfold addSite. rewrite !bind_eq. cbn [gets fst snd]. unfold addVpnSite. fold (stored m).
  destruct (qmap_contains hostname (stored m) && String.eqb ip "") eqn:Ec; cbn [negb].
  - by exists (m_sites m).
  - rewrite then_eq, bind_eq. cbn [gets fst snd setSettings modify m_sites].
    rewrite addRow_spec by done. unfold qmap_contains in Ec.
    destruct (qmap_lookup hostname (stored m)) as [old |] eqn:El; cbn [andb] in Ec.
    + destruct (find_row _ _ _ _ Hp Hws El) as [k' ->]. rewrite Ec, andb_true_r. cbn [negb].
      destruct (String.eqb_spec old "") as [-> | Hold].
      * rewrite then_eq. cbn. eexists. split; [done |]. intros _. rewrite (insert_old _ _ _ _ Hws El).
        by apply Permutation_map.
      * rewrite Ec in Hr. cbn in Hr. destruct (String.eqb_spec old ip) as [-> |]; [| done].
        rewrite then_eq. cbn. eexists. split; [done |]. intros _. rewrite Hp. rewrite (insert_old _ _ _ _ Hws El).
        rewrite map_fix; [done |]. intros [k v] Hin. cbn.
        destruct (String.eqb_spec k hostname) as [-> |]; [| done].
        apply lookup_elem in Hin; [| done]. congruence.
    + rewrite (find_row_none _ _ _ Hp Hws El). rewrite then_eq. cbn. eexists. split; [done |]. intros _.
      rewrite Hp. symmetry. by apply insert_new.
Qed.

(** ** Every edit keeps the rows and the store together *)

Lemma vpnSites_add_wf mode sites s mode' :
  (forall mode, qmap_wf (vpnSites s mode)) -> qmap_wf (vpnSites (addVpnSites mode sites s) mode').
Proof.
  intros Hw. unfold addVpnSites. rewrite vpnSites_set. case_decide; [| done].
  specialize (Hw mode). revert Hw. generalize (vpnSites s mode). induction sites as [| [h i] l IH]; intros m Hw; [done |].
  cbn. apply IH. case_bool_decide; [done | by apply insert_wf].
Qed.

(** Operations that fill the rows again need only keep the store in order. *)
Lemma consistent_fill m :
  (forall mode, qmap_wf (vpnSites (m_settings m) mode)) ->
  m_currentRouteMode m = routeMode (m_settings m) ->
  m_isSplitTunnelingEnabled m = isSitesSplitTunnelingEnabled (m_settings m) ->
  consistent (fillSites m).2.
Proof. intros Hw Hm He. by unfold consistent, stored. Qed.

(** Writing site maps leaves the rest of the store alone. *)
Definition sameModes (s s' : Settings) : Prop :=
  routeMode s' = routeMode s /\ isSitesSplitTunnelingEnabled s' = isSitesSplitTunnelingEnabled s
  /\ ((forall mode, qmap_wf (vpnSites s mode)) -> forall mode, qmap_wf (vpnSites s' mode)).

Lemma sameModes_trans s1 s2 s3 : sameModes s1 s2 -> sameModes s2 s3 -> sameModes s1 s3.
Proof. intros (A1 & A2 & A3) (B1 & B2 & B3). split; [congruence |]. split; [congruence | auto]. Qed.

Lemma sameModes_set mode sites s :
  ((forall mode, qmap_wf (vpnSites s mode)) -> qmap_wf sites) -> sameModes s (setVpnSites mode sites s).
Proof.
  intros Hs. split; [apply routeMode_setVpnSites |]. split; [apply enabled_setVpnSites |].
  intros Hw mode'. rewrite vpnSites_set. case_decide; auto.
Qed.

Lemma sameModes_remove mode site s : sameModes s (removeVpnSite mode site s).
Proof.
  unfold removeVpnSite. destruct (negb _); [done |]. apply sameModes_set. intros Hw. by apply remove_wf.
Qed.

Lemma sameModes_removes mode domains s :
  sameModes s (fold_left (fun s domain => removeVpnSite mode domain s) domains s).
Proof.
  revert s. induction domains as [| d l IH]; intros s; [done |]. cbn.
  eapply sameModes_trans; [apply sameModes_remove | apply IH].
Qed.

Lemma consistent_refill m s :
  consistent m -> sameModes (m_settings m) s ->
  consistent (fillSites (mkSites s (m_isSplitTunnelingEnabled m) (m_currentRouteMode m) (m_sites m))).2.
Proof.
  intros (_ & Hw & Hm & He) (H1 & H2 & H3). apply consistent_fill; cbn [m_settings m_currentRouteMode m_isSplitTunnelingEnabled];
    [auto | congruence | congruence].
Qed.

Lemma consistent_remove row m : consistent m -> consistent (removeSite row m).2.
Proof.
  intros Hc. pose proof Hc as (Hp & Hw & _). unfold removeSite. destruct (_ && _); [| done].
  destruct (m_sites m !! Z.to_nat row) as [[h i] |] eqn:E; [| done]. cbn [snd].
  assert (Hl : qmap_lookup h (stored m) = Some i).
  { apply lookup_elem; [apply Hw |]. rewrite <- Hp. by eapply list_elem_of_lookup_2. }
  unfold removeVpnSite. fold (stored m). unfold qmap_contains. rewrite Hl. cbn [negb].
  apply consistent_write; [done | apply remove_wf, Hw |].
  apply delete_Permutation in E. apply (Permutation_cons_inv (a := (h, i))).
  rewrite <- E, Hp. apply remove_old; [apply Hw | done].
Qed.

(** C32 (invariant): the list the user sees is the list that is stored.  Every
    edit keeps it so (adding, importing, removing by row, by name and all,
    changing the mode or the switch), as long as no name that already has an
    address is added again with another one. *)
Theorem site_edits_consistent (m : SitesModel) (e : SiteEdit) (Hc : consistent m) (Hr : rotates m e = false) :
  consistent (edit e m).2.
Proof.
  pose proof Hc as (Hp & Hw & Hm & He). destruct e as [h i | l b | row | | domains | mode | enabled]; cbn [edit].
  - rewrite then_eq. cbn [mret ST_ret snd]. destruct (addSite_eq h i m Hc Hr) as (rows & -> & Hrows).
    destruct (_ && _); [done |]. apply consistent_write; [done | apply insert_wf, Hw | by apply Hrows].
  - unfold addSites. rewrite then_eq. cbn [modify snd].
    set (s := if b then removeAllVpnSites (m_currentRouteMode m) (m_settings m) else m_settings m).
    assert (Hs : sameModes (m_settings m) s).
    { unfold s. destruct b; [| done]. unfold removeAllVpnSites. apply sameModes_set. intros _. constructor. }
    apply (consistent_refill m (addVpnSites (m_currentRouteMode m) l s) Hc). eapply sameModes_trans; [exact Hs |].
    split; [apply routeMode_setVpnSites |]. split; [apply enabled_setVpnSites |]. intros Hw' mode. by apply vpnSites_add_wf.
  - rewrite then_eq. cbn [mret ST_ret snd]. by apply consistent_remove.
  - unfold removeSites. rewrite then_eq. cbn [modify snd]. apply consistent_refill; [done |].
    unfold removeAllVpnSites. apply sameModes_set. intros _. constructor.
  - unfold removeSitesByDomains. rewrite then_eq. cbn [modify snd]. apply consistent_refill; [done | apply sameModes_removes].
  - unfold changeRouteMode. rewrite then_eq. cbn [modify snd].
    apply consistent_fill; cbn [m_settings m_currentRouteMode m_isSplitTunnelingEnabled].
    + intros mode'. by rewrite vpnSites_setRouteMode.
    + done.
    + by rewrite enabled_setRouteMode.
  - unfold toggleSplitTunneling, modify, consistent, stored. cbn [snd m_sites m_settings m_currentRouteMode m_isSplitTunnelingEnabled].
    rewrite vpnSites_toggle, routeMode_toggle, enabled_toggle. split; [done |]. split; [| done].
    intros mode. rewrite vpnSites_toggle. apply Hw.
Qed.

(** The case left out.  Adding a name that has an address with
    another one, as the answer for a name whose addresses rotate does, replaces
    the stored address but adds a second row: the list shows both, the store
    has the new one, and they no longer agree. *)
Theorem rotation_adds_row (m : SitesModel) (hostname ip : string)
  (Hc : consistent m) (Hr : rotates m (EdAdd hostname ip) = true) :
  let m' := (edit (EdAdd hostname ip) m).2 in
  m_sites m' = m_sites m ++ [(hostname, ip)]
  /\ qmap_lookup hostname (stored m') = Some ip
  /\ (exists old, (hostname, old) ∈ m_sites m' /\ old <> ip)
  /\ ~ consistent m'.
Proof.
  cbv zeta. pose proof Hc as (Hp & Hw & Hm & He). unfold rotates in Hr. fold (stored m) in Hr.
  destruct (qmap_lookup hostname (stored m)) as [old |] eqn:El; [| done].
  apply andb_true_iff in Hr as [Hr Hn3]. apply andb_true_iff in Hr as [Hn1 Hn2]. rewrite negb_true_iff in Hn1, Hn2, Hn3.
  assert (Hws : qmap_wf (stored m)) by apply Hw.
  assert (Hnd : NoDup (m_sites m).*1) by (rewrite Hp; by apply wf_nodup).
  assert (E : (edit (EdAdd hostname ip) m).2 = mkSites
     (setVpnSites (m_currentRouteMode m) (qmap_insert hostname ip (stored m)) (m_settings m))
     (m_isSplitTunnelingEnabled m) (m_currentRouteMode m) (m_sites m ++ [(hostname, ip)])).
  { cbn [edit]. rewrite then_eq. cbn [mret ST_ret snd]. unfold addSite. rewrite !bind_eq. cbn [gets fst snd].
    unfold addVpnSite. fold (stored m). rewrite Hn2, andb_false_r. cbn [negb].
    rewrite then_eq, bind_eq. cbn [gets fst snd setSettings modify m_sites].
    rewrite addRow_spec by done. destruct (find_row _ _ _ _ Hp Hws El) as [k' ->]. by rewrite Hn1, Hn3. }
  rewrite E. cbn [m_sites]. unfold stored at 1. cbn [m_settings m_currentRouteMode].
  rewrite vpnSites_set, decide_True, qmap_lookup_insert_eq by done.
  split; [done |]. split; [done |]. apply lookup_elem in El as Hin; [| done]. rewrite <- Hp in Hin. split.
  - exists old. split; [apply elem_of_app; by left |]. by apply String.eqb_neq.
  - intros (Hp' & Hw' & _). unfold stored in Hp'. cbn [m_sites m_settings m_currentRouteMode] in Hp', Hw'.
    assert (Hnd' : NoDup (m_sites m ++ [(hostname, ip)]).*1) by (rewrite Hp'; apply wf_nodup, Hw').
    rewrite fmap_app in Hnd'. apply NoDup_app in Hnd' as (_ & Hd & _). apply (Hd hostname); [| by left].
    apply list_elem_of_fmap. by exists (hostname, old).
Qed.

(** ** The host of what the user wrote *)

Lemma index_chr c s : str_contains (String c "") s = chr_contains c s.
Proof.
  unfold str_contains. induction s as [| d s IH]; [done |]. cbn [String.index String.prefix chr_contains].
  destruct (ascii_dec c d) as [-> | Hne].
  - rewrite Ascii.eqb_refl. by destruct s.
  - rewrite (proj2 (Ascii.eqb_neq _ _) Hne). cbn [orb]. rewrite <- IH. by destruct (String.index 0 _ s).
Qed.

(** Text without the character [c] is removed around it. *)
Lemma removeText_keeps c text s skip :
  text <> ""%string -> chr_contains c text = false -> chr_contains c (str_left skip s) = false ->
  chr_contains c s = true -> chr_contains c (removeText text s skip) = true.
Proof.
  intros Hne Ht. revert skip. induction s as [| d s IH]; intros skip Hs Hc; [done |]. cbn [removeText].
  destruct skip as [| k].
  - destruct (String.prefix text (String d s)) eqn:Ep.
    + destruct text as [| t text]; [done |]. cbn in Ep. destruct (ascii_dec t d) as [-> |]; [| done].
      cbn [chr_contains] in Ht, Hc. apply orb_false_iff in Ht as [Hd Ht]. rewrite Hd in Hc.
      cbn [String.length]. rewrite Nat.sub_1_r. cbn [Nat.pred]. apply IH; [| done]. clear -Ht Ep. revert s Ep.
      induction text as [| t text IH]; intros s Ep; [by destruct s |]. destruct s as [| e s]; [done |]. cbn in Ep |- *.
      destruct (ascii_dec t e) as [-> |]; [| done]. cbn in Ht. apply orb_false_iff in Ht as [-> Ht]. by apply IH.
    + cbn [chr_contains] in Hc |- *. destruct (Ascii.eqb c d); [done |]. apply IH; [by destruct s | done].
  - cbn in Hs, Hc. apply orb_false_iff in Hs as [Hd Hs]. rewrite Hd in Hc. by apply IH.
Qed.

Lemma split_keeps c d s : chr_contains c s = true -> Ascii.eqb c d = false ->
  exists w, w ∈ split d s /\ chr_contains c w = true.
Proof.
  intros Hc Hn. induction s as [| e s IH]; [done |]. cbn in Hc |- *. destruct (Ascii.eqb d e) eqn:Ed.
  - apply Ascii.eqb_eq in Ed as <-. rewrite Hn in Hc. destruct (IH Hc) as (w & Hw & Hcw). exists w. split; [by right | done].
  - destruct (split d s) as [| w ws] eqn:Es; [by apply split_nonempty in Es |]. destruct (Ascii.eqb c e) eqn:Ec.
    + exists (String e w). split; [by left |]. cbn. by rewrite Ec.
    + destruct (IH Hc) as (w' & Hw & Hcw). apply elem_of_cons in Hw as [-> | Hw].
      * exists (String e w). split; [by left |]. cbn. by rewrite Ec.
      * exists w'. split; [by right | done].
Qed.

Lemma split_plain d s w : w ∈ split d s -> chr_contains d w = false.
Proof.
  revert w. induction s as [| e s IH]; intros w; cbn; [rewrite list_elem_of_singleton; by intros -> |].
  destruct (Ascii.eqb d e) eqn:Ed.
  - rewrite elem_of_cons. intros [-> | Hw]; [done | by apply IH].
  - destruct (split d s) as [| v vs] eqn:Es; [by apply split_nonempty in Es |].
    rewrite elem_of_cons. intros [-> | Hw]; [cbn; rewrite Ed; apply IH; by left | apply IH; by right].
Qed.

(** Adding a site never takes the first of an empty list.  Text
    with a dot, which is all the controller goes on with, has a host: an
    address with its subnet as it is, else a non-empty text without a slash. *)
Theorem host_found (hostname : string) (Hdot : str_contains "." hostname = true) :
  exists host, hostOf hostname = Some host /\ host <> ""%string
    /\ (host = hostname \/ chr_contains "/" host = false).
Proof.
  rewrite index_chr in Hdot. unfold hostOf. destruct (matchesIpWithSubnet hostname).
  { exists hostname. split; [done |]. split; [by intros -> | by left]. }
  assert (Hk : forall text s, text <> ""%string -> chr_contains "." text = false ->
    chr_contains "." s = true -> chr_contains "." (removeText text s 0) = true).
  { intros text s Hne Ht Hs. apply removeText_keeps; [done | done | by destruct s | done]. }
  set (rest := removeText "ftp://" _ 0).
  assert (Hr : chr_contains "." rest = true) by (unfold rest; repeat (apply Hk; [done | done |]); done).
  destruct (split_keeps "." "/" rest Hr) as (w & Hw & Hcw); [done |].
  assert (Hin : w ∈ List.filter (fun s => negb (String.eqb s "")) (split "/" rest)).
  { apply list_elem_of_In, filter_In. split; [by apply list_elem_of_In |]. by destruct w. }
  destruct (List.filter _ (split "/" rest)) as [| host hosts] eqn:Ef; [by apply elem_of_nil in Hin |].
  exists host. split; [done |].
  assert (Hh : host ∈ split "/" rest /\ negb (String.eqb host "") = true).
  { rewrite list_elem_of_In. apply (filter_In (fun s => negb (String.eqb s ""))). rewrite Ef. by left. }
  destruct Hh as [H1 H2]. split; [by destruct host |]. right. by apply split_plain in H1.
Qed.

(** ** Files *)

Section RoundTrip.
Variable fromJson : string -> Document.
Variable toJson : list json -> string.

Lemma import_export_entry (site : string * string) :
  str_contains "." site.1 || matchesIpWithSubnet site.1 = true -> importEntry (exportEntry site) = Some site.
Proof.
  destruct site as [h i]. cbn [fst]. intros Hs. unfold importEntry, exportEntry, jinsert, value.
  cbn [toObject fst snd]. rewrite lookup_insert_ne, lookup_insert_eq, lookup_insert_eq by done. cbn [toString jstr qdata].
  apply orb_true_iff in Hs as [-> | ->]; [done | by rewrite andb_false_r].
Qed.

(** A list of sites is exported and imported back.  When the
    documents of the file are read as they were written, replacing the list by
    the exported one leaves the stored sites as they are and the rows in their
    order, for any names the controller lets in. *)
Theorem export_import (c : SitesController) (fileName : string)
  (Hfile : let l := map exportEntry (m_sites (model c)) in fromJson (toJson l) = DocArray l)
  (Hc : consistent (model c))
  (Hn : forall site, site ∈ m_sites (model c) -> str_contains "." site.1 || matchesIpWithSubnet site.1 = true) :
  let '(text, c1) := exportSites toJson c in
  let c2 := (importSites fromJson fileName (Some text) true c1).2 in
  stored (model c2) = stored (model c) /\ m_sites (model c2) = stored (model c)
  /\ said c2 = said c ++ [SFinished "Export completed"; SFinished "Import completed"].
Proof.
  destruct c as [m log]. cbn [model] in *. destruct Hc as (Hp & Hw & _).
  unfold exportSites, say, gets, modify, mbind, ST_bind, mret, ST_ret. cbn [model said].
  unfold importSites. rewrite Hfile, then_eq. unfold onModel. cbn [model said].
  assert (Hws : qmap_wf (stored m)) by apply Hw.
  assert (Hnd : NoDup (m_sites m).*1) by (rewrite Hp; by apply wf_nodup).
  set (sites := fold_left _ (map exportEntry (m_sites m)) []).
  assert (Hsites : sites = stored m).
  { rewrite <- (foldl_insert_perm (m_sites m) (stored m) Hws Hp). unfold sites. clear -Hn.
    generalize (@nil (string * string)). induction (m_sites m) as [| [h i] l IH]; intros acc; [done |].
    cbn [map fold_left]. rewrite import_export_entry by (apply Hn; by left). apply IH. intros s Hs. apply Hn. by right. }
  rewrite Hsites. clear sites Hsites. unfold addSites. rewrite then_eq.
  cbn [modify snd fillSites model said]. unfold stored at 1 3.
  cbn [m_settings m_currentRouteMode m_sites]. unfold addVpnSites, removeAllVpnSites. rewrite !vpnSites_set, !decide_True by done.
  rewrite add_skips by constructor. rewrite (foldl_insert_perm (stored m) (stored m) Hws) by done.
  split; [| split; [done | cbn; by rewrite <- app_assoc]].
  cbn [say modify snd model]. unfold stored at 1. cbn [m_settings m_currentRouteMode].
  by rewrite vpnSites_set, decide_True.
Qed.
End RoundTrip.

(** ** Presets: the built-in ones *)

(** The tables of [builtinSplitPresets.cpp] and of the [.inc] files. *)
Record PresetTables : Type := mkTables {
  kRuDirectSubnets : list string; kRuVpnSubnets : list string;
  ruDirectExtraDomains : list string; ruBankingDomains : list string; aiDomains : list string;
  youtubeDomains : list string; instagramDomains : list string; tiktokDomains : list string;
  xDomains : list string; facebookDomains : list string; whatsappDomains : list string;
  telegramDomains : list string; netflixDomains : list string; spotifyDomains : list string;
  discordDomains : list string
}.

Definition fromStringList (l : list string) : json := JArray (map jstr l).

Definition makePreset (id name : string) (domains : list string) (description : string) : json :=
  let preset := jinsert "id" (Some (jstr id)) ∅ in
  let preset := jinsert "name" (Some (jstr name)) preset in
  let preset := if String.eqb description "" then preset else jinsert "description" (Some (jstr description)) preset in
  JObject (jinsert "domains" (Some (fromStringList domains)) preset).

Definition textOf (v : json) : string := qdata (toString (Some v)).

Definition domainsFromJson (domains : list json) : list string :=
  List.filter (fun s => negb (String.eqb s "")) (map textOf domains).

(** The loop of [unionDomains], with the texts seen so far. *)
Fixpoint unionLoop (seen : list string) (extra : list string) : list string :=
  match extra with
  | [] => []
  | entry :: extra' =>
      if String.eqb entry "" || bool_decide (entry ∈ seen) then unionLoop seen extra'
      else entry :: unionLoop (entry :: seen) extra'
  end.
Definition unionDomains (base extra : list string) : list string := base ++ unionLoop base extra.

Section Presets.
Variable tr : string -> string.
Variable tables : PresetTables.

Definition presets : list json :=
  let t := tables in
  [JObject (jinsert "domains" (Some (JArray (map jstr (kRuDirectSubnets t) ++ map jstr (ruDirectExtraDomains t))))
     (jinsert "name" (Some (jstr (tr "RU services"))) (jinsert "id" (Some (jstr "builtin-ru-direct")) ∅)));
   makePreset "builtin-ru-banking" (tr "Online Banking") (ruBankingDomains t) "";
   makePreset "builtin-ru-vpn" (tr "Blocked in RU") (domainsFromJson (map jstr (kRuVpnSubnets t))) "";
   makePreset "builtin-ai" (tr "AI") (aiDomains t) (tr "ChatGPT, Claude, Gemini, Perplexity, DeepSeek, Grok");
   makePreset "youtube" "YouTube" (youtubeDomains t) "";
   makePreset "instagram" "Instagram" (instagramDomains t) "";
   makePreset "tiktok" "TikTok" (tiktokDomains t) "";
   makePreset "x" "X" (xDomains t) "";
   makePreset "facebook" "Facebook" (facebookDomains t) "";
   makePreset "whatsapp" "WhatsApp" (whatsappDomains t) "";
   makePreset "telegram" "Telegram" (telegramDomains t) "";
   makePreset "netflix" "Netflix" (netflixDomains t) "";
   makePreset "spotify" "Spotify" (spotifyDomains t) "";
   makePreset "discord" "Discord" (discordDomains t) ""].

(** A field of a preset as text. *)
Definition fieldText (key : string) (preset : json) : string := qdata (toString (value (toObject (Some preset)) key)).
Definition presetId : json -> string := fieldText "id".
Definition presetDomains (preset : json) : list string :=
  domainsFromJson (toArray (value (toObject (Some preset)) "domains")).

(** The entry of [indexById]: the last position of an id. *)
Fixpoint lastIndex (id : string) (l : list json) : option nat :=
  match l with
  | [] => None
  | p :: l' => match lastIndex id l' with
               | Some i => Some (Datatypes.S i)
               | None => if String.eqb (presetId p) id then Some O else None
               end
  end.

(** The preset of the API with what the built-in one adds. *)
Definition mergePreset (builtin api : json) : json :=
  let o := toObject (Some api) in
  let o := jinsert "domains" (Some (fromStringList (unionDomains (presetDomains builtin) (presetDomains api)))) o in
  let o := if String.eqb (qdata (toString (value o "name"))) ""
           then jinsert "name" (value (toObject (Some builtin)) "name") o else o in
  let o := if String.eqb (qdata (toString (value o "description"))) ""
              && negb (String.eqb (fieldText "description" builtin) "")
           then jinsert "description" (value (toObject (Some builtin)) "description") o else o in
  JObject o.

(** One round of the loop over the built-in presets: the ones only built in,
    and the merged list. *)
Definition mergeStep (apiPresets : list json) (st : list json * list json) (builtin : json) : list json * list json :=
  let '(builtinsOnly, merged) := st in
  let id := presetId builtin in
  if String.eqb id "" then st
  else match lastIndex id apiPresets with
       | None => (builtinsOnly ++ [JObject (toObject (Some builtin))], merged)
       | Some i => (builtinsOnly, <[i := mergePreset builtin (nth i merged JNull)]> merged)
       end.

Definition mergeWith (builtins apiPresets : list json) : list json :=
  let '(builtinsOnly, merged) := fold_left (mergeStep apiPresets) builtins ([], apiPresets) in
  builtinsOnly ++ merged.
Definition mergeWithApi (apiPresets : list json) : list json := mergeWith presets apiPresets.
End Presets.

(** ** The model of the presets *)

Record Preset : Type := mkPreset {
  ps_id : string; ps_name : string; ps_description : string; ps_domains : list string
}.

Definition presetFromJson (o : QJsonObject) : Preset :=
  mkPreset (qdata (toString (value o "id"))) (qdata (toString (value o "name")))
    (qdata (toString (value o "description"))) (domainsFromJson (toArray (value o "domains"))).

Definition presetToJson (p : Preset) : json :=
  let o := jinsert "id" (Some (jstr (ps_id p))) ∅ in
  let o := jinsert "name" (Some (jstr (ps_name p))) o in
  let o := if String.eqb (ps_description p) "" then o else jinsert "description" (Some (jstr (ps_description p))) o in
  JObject (jinsert "domains" (Some (fromStringList (ps_domains p))) o).

(** What the model keeps of a parsed list. *)
Definition usable (p : Preset) : bool :=
  negb (String.eqb (ps_id p) "") && negb (match ps_domains p with [] => true | _ => false end).
Definition readPresets (l : list json) : list Preset :=
  List.filter usable (map (fun v => presetFromJson (toObject (Some v))) l).

Record PresetsModel : Type := mkPresets {
  pm_settings : Settings;
  m_version : string;
  m_apiPresets : list Preset;
  m_presets : list Preset;
  m_enabledPresets : gset string
}.

Section PresetsModel.
Variable tr : string -> string.
Variable tables : PresetTables.
(** [QJsonDocument::fromJson(s).array()], [QJsonDocument(l).toJson(Compact)] *)
Variable arrayOf : string -> list json.
Variable textOfArray : list json -> string.

Definition rebuildMergedPresets : ST PresetsModel unit := modify (fun m =>
  mkPresets (pm_settings m) (m_version m) (m_apiPresets m)
    (readPresets (mergeWithApi tr tables (map presetToJson (m_apiPresets m)))) (m_enabledPresets m)).

Definition loadFromCache : ST PresetsModel unit := modify (fun m =>
  let version := splitPresetsVersion (pm_settings m) in
  let cache := splitPresetsCache (pm_settings m) in
  if String.eqb cache "" then mkPresets (pm_settings m) "" (m_apiPresets m) (m_presets m) (m_enabledPresets m)
  else mkPresets (pm_settings m) version (m_apiPresets m ++ readPresets (arrayOf cache)) (m_presets m) (m_enabledPresets m)).

Definition saveToCache : ST PresetsModel unit := modify (fun m =>
  mkPresets (setSplitPresetsVersion (m_version m)
               (setSplitPresetsCache (textOfArray (map presetToJson (m_apiPresets m))) (pm_settings m)))
    (m_version m) (m_apiPresets m) (m_presets m) (m_enabledPresets m)).

(** The constructor. *)
Definition newPresets (s : Settings) : PresetsModel :=
  ((loadFromCache ;; rebuildMergedPresets)
     (mkPresets s "" [] [] (list_to_set (splitPresetsEnabled s)))).2.

(** The answer of the gateway; [None] for an error. *)
Definition onPresets (answer : option QJsonObject) : ST PresetsModel unit :=
  match answer with
  | None => mret tt
  | Some obj =>
      let newVersion := qdata (toString (value obj "version")) in
      let presetsArray := toArray (value obj "presets") in
      version ← gets m_version;
      if negb (String.eqb newVersion "") && String.eqb newVersion version
         && (match presetsArray with [] => true | _ => false end)
      then mret tt
      else
        modify (fun m => mkPresets (pm_settings m) newVersion (readPresets presetsArray) (m_presets m) (m_enabledPresets m)) ;;
        rebuildMergedPresets ;;
        saveToCache
  end.

Definition setPresetEnabled (row : Z) (enabled : bool) : ST PresetsModel unit := modify (fun m =>
  if (row <? 0) || (row >=? Z.of_nat (length (m_presets m))) then m
  else match m_presets m !! Z.to_nat row with
       | None => m
       | Some preset =>
           let id := ps_id preset in
           if Bool.eqb (bool_decide (id ∈ m_enabledPresets m)) enabled then m
           else
             let ids := if enabled then {[id]} ∪ m_enabledPresets m else m_enabledPresets m ∖ {[id]} in
             mkPresets (setSplitPresetsEnabled (elements ids) (pm_settings m)) (m_version m) (m_apiPresets m) (m_presets m) ids
       end).
End PresetsModel.

(** ** Merging loses nothing *)

(** Texts without empty ones go through JSON unchanged. *)
Lemma domains_of_strings l : Forall (fun s => s <> ""%string) l -> domainsFromJson (map jstr l) = l.
Proof.
  unfold domainsFromJson. induction 1 as [| s l Hs _ IH]; [done |]. cbn in *.
  rewrite (proj2 (String.eqb_neq _ _) Hs). cbn. by rewrite IH.
Qed.

Lemma domains_nonempty l : Forall (fun s => s <> ""%string) (domainsFromJson l).
Proof.
  unfold domainsFromJson. apply Forall_forall. intros s Hs. apply list_elem_of_In, filter_In in Hs as [_ Hs].
  by destruct s.
Qed.

Lemma unionLoop_spec seen extra s : Forall (fun s => s <> ""%string) extra ->
  (s ∈ unionLoop seen extra -> s ∈ extra) /\ (s ∈ extra -> s ∈ seen \/ s ∈ unionLoop seen extra).
Proof.
  intros He. revert seen. induction He as [| e extra Hne _ IH]; intros seen; cbn; [split; intros Hs; by apply elem_of_nil in Hs |].
  rewrite (proj2 (String.eqb_neq _ _) Hne). cbn [orb]. case_bool_decide as Hin; rewrite ?elem_of_cons.
  - destruct (IH seen) as [H1 H2]. split; [auto | intros [-> | Hs]; auto].
  - destruct (IH (e :: seen)) as [H1 H2]. rewrite elem_of_cons in H2. split; [intros [-> | Hs]; auto |].
    intros [-> | Hs]; [auto |]. destruct (H2 Hs) as [[-> | ?] | ?]; auto.
Qed.

Lemma union_domains base extra s : Forall (fun s => s <> ""%string) extra ->
  s ∈ unionDomains base extra <-> s ∈ base \/ s ∈ extra.
Proof.
  intros He. unfold unionDomains. rewrite elem_of_app. destruct (unionLoop_spec base extra s He) as [H1 H2].
  split; [intros [|]; auto | intros [| Hs]; [auto | destruct (H2 Hs); auto]].
Qed.

Lemma merge_value (c1 c2 : bool) o v1 v2 k : k <> "description"%string -> k <> "name"%string ->
  value (if c1 then jinsert "description" v1 (if c2 then jinsert "name" v2 o else o)
         else (if c2 then jinsert "name" v2 o else o)) k = value o k.
Proof.
  intros H1 H2. apply not_eq_sym, String.eqb_neq in H1, H2. destruct c1, c2; by rewrite ?value_jinsert, ?H1, ?H2.
Qed.

Lemma mergePreset_id b a : presetId (mergePreset b a) = presetId a.
Proof.
  unfold mergePreset, presetId, fieldText. cbn [toObject]. by rewrite merge_value, value_jinsert by done.
Qed.

Lemma mergePreset_domains b a s :
  s ∈ presetDomains (mergePreset b a) <-> s ∈ presetDomains b \/ s ∈ presetDomains a.
Proof.
  assert (E : presetDomains (mergePreset b a) = unionDomains (presetDomains b) (presetDomains a)).
  { unfold mergePreset, presetDomains at 1. cbn [toObject].
    rewrite merge_value, value_jinsert by done. cbn [String.eqb Ascii.eqb Bool.eqb]. cbn [toArray fromStringList].
    apply domains_of_strings. unfold unionDomains. apply Forall_app. split; [apply domains_nonempty |].
    apply Forall_forall. intros t Ht. apply unionLoop_spec in Ht; [| apply domains_nonempty].
    by apply (proj1 (Forall_forall _ _) (domains_nonempty _)) in Ht. }
  rewrite E. apply union_domains, domains_nonempty.
Qed.

Lemma lastIndex_some id l i : lastIndex id l = Some i -> exists p, l !! i = Some p /\ presetId p = id.
Proof.
  revert i. induction l as [| p l IH]; intros i; [done |]. cbn. destruct (lastIndex id l) as [j |].
  - intros ?; simplify_eq. by apply IH.
  - destruct (String.eqb_spec (presetId p) id) as [<- |]; [| done]. intros ?; simplify_eq. by exists p.
Qed.

Lemma lastIndex_none id l : lastIndex id l = None <-> id ∉ map presetId l.
Proof.
  induction l as [| p l IH]; cbn; [split; [intros _ H; by apply elem_of_nil in H | done] |]. rewrite elem_of_cons.
  destruct (lastIndex id l) as [j |].
  - split; [done |]. intros Hn. assert (Some j = None); [apply IH; auto | done].
  - destruct (String.eqb_spec (presetId p) id) as [<- | Hne]; [split; [done | intros []; auto] |].
    split; [intros _ [-> | Hin]; [done | by apply IH] | done].
Qed.

(** A preset that has grown: the same id, all the domains. *)
Definition grown (p q : json) : Prop := presetId q = presetId p /\ forall s, s ∈ presetDomains p -> s ∈ presetDomains q.

Lemma grown_merge b a : grown a (mergePreset b a).
Proof. split; [apply mergePreset_id |]. intros s Hs. apply mergePreset_domains. by right. Qed.

Lemma grown_trans p q r : grown p q -> grown q r -> grown p r.
Proof. intros [H1 H2] [H3 H4]. split; [congruence | auto]. Qed.

(** The state of the loop after the presets [done_]. *)
Record Merging (api done_ : list json) (st : list json * list json) : Prop := {
  mg_ids : map presetId st.1 = List.filter (fun id => negb (String.eqb id "") && negb (bool_decide (id ∈ map presetId api))) (map presetId done_);
  mg_grown : Forall2 grown api st.2;
  mg_kept : forall i p, api !! i = Some p -> presetId p ∉ map presetId done_ -> st.2 !! i = Some p;
  mg_found : forall b, b ∈ done_ -> presetId b <> ""%string -> exists p, p ∈ st.1 ++ st.2 /\ grown b p
}.

Lemma merging_step api done_ st b : Merging api done_ st -> Merging api (done_ ++ [b]) (mergeStep api st b).
Proof.
  destruct st as [bo merged]. intros [Hi Hg Hk Hf]. cbn [fst snd] in *. unfold mergeStep.
  assert (Hk' : forall i p, api !! i = Some p -> presetId p ∉ map presetId (done_ ++ [b]) ->
            merged !! i = Some p /\ presetId p <> presetId b).
  { intros i p Hp Hn. rewrite map_app, elem_of_app in Hn. split; [apply Hk; auto |]. intros E. apply Hn. right. rewrite E. by left. }
  destruct (String.eqb_spec (presetId b) "") as [Eb | Hb].
  - split; cbn [fst snd].
    + rewrite map_app, List.filter_app. cbn. rewrite Eb. cbn. by rewrite app_nil_r.
    + done.
    + intros i p Hp Hn. by destruct (Hk' i p Hp Hn).
    + intros b' Hb'. apply elem_of_app in Hb' as [Hb' | Hb']; [by apply Hf |]. apply list_elem_of_singleton in Hb' as ->. done.
  - destruct (lastIndex (presetId b) api) as [i |] eqn:El.
    + destruct (lastIndex_some _ _ _ El) as (a & Ha & Eid).
      destruct (Forall2_lookup_l _ _ _ _ _ Hg Ha) as (q & Hq & Haq).
      assert (Hnth : nth i merged JNull = q) by (by apply nth_lookup_Some). rewrite Hnth. split; cbn [fst snd].
      * rewrite map_app, List.filter_app. cbn. rewrite (proj2 (String.eqb_neq _ _) Hb), bool_decide_eq_true_2; [cbn; by rewrite app_nil_r |].
        rewrite <- Eid. apply list_elem_of_In, in_map, list_elem_of_In. by eapply list_elem_of_lookup_2.
      * apply Forall2_lookup. intros j. destruct (decide (j = i)) as [-> |].
        -- rewrite list_lookup_insert_eq by (by eapply lookup_lt_Some). rewrite Ha. constructor.
           eapply grown_trans; [exact Haq | apply grown_merge].
        -- rewrite list_lookup_insert_ne by done. by apply Forall2_lookup.
      * intros j p Hp Hn. destruct (Hk' j p Hp Hn) as [Hj Hne]. rewrite list_lookup_insert_ne; [done |]. intros ->. congruence.
      * intros b' Hb' Hne. apply elem_of_app in Hb' as [Hb' | Hb'].
        -- destruct (Hf b' Hb' Hne) as (p & Hp & Hbp). apply elem_of_app in Hp as [Hp | Hp].
           ++ exists p. split; [apply elem_of_app; by left | done].
           ++ apply list_elem_of_lookup in Hp as [j Hj]. destruct (decide (j = i)) as [-> |].
              ** exists (mergePreset b q). split; [| assert (q = p) as -> by congruence; eapply grown_trans; [exact Hbp | apply grown_merge]].
                 apply elem_of_app. right. apply list_elem_of_lookup. exists i. rewrite list_lookup_insert_eq; [done |]. by eapply lookup_lt_Some.
              ** exists p. split; [| done]. apply elem_of_app. right. apply list_elem_of_lookup. exists j. by rewrite list_lookup_insert_ne.
        -- apply list_elem_of_singleton in Hb' as ->. exists (mergePreset b q). split.
           ++ apply elem_of_app. right. apply list_elem_of_lookup. exists i. rewrite list_lookup_insert_eq; [done |]. by eapply lookup_lt_Some.
           ++ split; [rewrite mergePreset_id; destruct Haq; congruence |]. intros s Hs. apply mergePreset_domains. by left.
    + assert (Hob : grown b (JObject (toObject (Some b)))) by (split; [done | auto]).
      split; cbn [fst snd].
      * rewrite !map_app, List.filter_app, Hi. f_equal. cbn. rewrite (proj2 (String.eqb_neq _ _) Hb).
        rewrite bool_decide_eq_false_2 by (by apply lastIndex_none). reflexivity.
      * done.
      * intros j p Hp Hn. by destruct (Hk' j p Hp Hn).
      * intros b' Hb' Hne. apply elem_of_app in Hb' as [Hb' | Hb'].
        -- destruct (Hf b' Hb' Hne) as (p & Hp & Hbp). exists p. split; [| done]. rewrite !elem_of_app in *. tauto.
        -- apply list_elem_of_singleton in Hb' as ->. exists (JObject (toObject (Some b))). split; [| done].
           rewrite !elem_of_app. left. right. by left.
Qed.

(** What merging the built-in presets with those of the API
    gives.  First the built-in ones the API does not have, then the presets of
    the API in their order; no preset loses a domain, one the API alone has is
    not touched, and every built-in preset is there with all its domains. *)
Theorem merge_keeps (builtins api : list json) :
  let n := length (List.filter (fun id => negb (String.eqb id "") && negb (bool_decide (id ∈ map presetId api))) (map presetId builtins)) in
  let r := mergeWith builtins api in
  map presetId r = List.filter (fun id => negb (String.eqb id "") && negb (bool_decide (id ∈ map presetId api)))
                     (map presetId builtins) ++ map presetId api
  /\ (forall i p, api !! i = Some p -> exists q, r !! (n + i)%nat = Some q /\ grown p q
        /\ (presetId p ∉ map presetId builtins -> q = p))
  /\ (forall b, b ∈ builtins -> presetId b <> ""%string -> exists p, p ∈ r /\ grown b p).
Proof.
  cbv zeta. unfold mergeWith.
  assert (Hm : Merging api builtins (fold_left (mergeStep api) builtins ([], api))).
  { assert (Hgen : forall l done_ st, Merging api done_ st -> Merging api (done_ ++ l) (fold_left (mergeStep api) l st)).
    { induction l as [| b l IH]; intros d st Hst; [by rewrite app_nil_r |]. cbn.
      replace (d ++ b :: l) with ((d ++ [b]) ++ l) by (by rewrite <- app_assoc). apply IH. by apply merging_step. }
    apply (Hgen builtins []). split; cbn; [done | | auto | intros b Hb; by apply elem_of_nil in Hb].
    apply Forall_Forall2_diag, Forall_forall. intros p _. by split. }
  destruct (fold_left _ builtins ([], api)) as [bo merged]. destruct Hm as [Hi Hg Hk Hf]. cbn [fst snd] in *.
  assert (Hids : map presetId merged = map presetId api).
  { clear -Hg. induction Hg as [| p q l1 l2 [Hpq _] _ IH]; [done |]. cbn. by rewrite Hpq, IH. }
  rewrite <- Hi, length_map. split; [by rewrite map_app, Hids |]. split; [| done].
  intros i p Hp. destruct (Forall2_lookup_l _ _ _ _ _ Hg Hp) as (q & Hq & Hpq). exists q.
  rewrite lookup_app_r by lia. replace (length bo + i - length bo)%nat with i by lia. split; [done |]. split; [done |].
  intros Hn. specialize (Hk i p Hp Hn). congruence.
Qed.

(** ** The presets after a restart *)

Lemma presets_roundtrip p : usable p = true -> Forall (fun s => s <> ""%string) (ps_domains p) ->
  presetFromJson (toObject (Some (presetToJson p))) = p.
Proof.
  intros _ Hd. destruct p as [id name description domains]. unfold presetFromJson, presetToJson, fromStringList.
  cbn [ps_id ps_name ps_description ps_domains toObject] in *.
  rewrite !value_jinsert. cbn [String.eqb Ascii.eqb Bool.eqb]. cbn [toString jstr qdata toArray].
  rewrite (domains_of_strings _ Hd). destruct (String.eqb_spec description "") as [-> |];
    rewrite ?value_jinsert; cbn [String.eqb Ascii.eqb Bool.eqb toString jstr qdata]; reflexivity.
Qed.

Lemma read_usable l p : p ∈ readPresets l -> usable p = true /\ Forall (fun s => s <> ""%string) (ps_domains p).
Proof.
  intros Hp. apply list_elem_of_In, filter_In in Hp as [Hp Hu]. split; [done |].
  apply in_map_iff in Hp as (v & <- & _). apply domains_nonempty.
Qed.

Lemma read_written l : Forall (fun p => usable p = true /\ Forall (fun s => s <> ""%string) (ps_domains p)) l ->
  readPresets (map presetToJson l) = l.
Proof.
  unfold readPresets. induction 1 as [| p l [Hu Hd] _ IH]; [done |]. cbn [map List.filter].
  rewrite (presets_roundtrip p Hu Hd), Hu. by rewrite IH.
Qed.

Section Restart.
Variable tr : string -> string.
Variable tables : PresetTables.
Variable arrayOf : string -> list json.
Variable textOfArray : list json -> string.

(** The switched-on presets are the stored ones. *)
Definition enabledStored (m : PresetsModel) : Prop :=
  m_enabledPresets m = list_to_set (splitPresetsEnabled (pm_settings m)).

(** Presets that were fetched are there after a restart.  When
    the gateway has answered with presets, a model made anew from the stored
    settings is the model that received them: the version, the presets of the
    API, the merged list and the switches. *)
Theorem presets_restart (m : PresetsModel) (obj : QJsonObject)
  (Htext : let l := map presetToJson (readPresets (toArray (value obj "presets"))) in
           arrayOf (textOfArray l) = l /\ textOfArray l <> ""%string)
  (He : enabledStored m) (Hnew : toArray (value obj "presets") <> []) :
  let m' := (onPresets tr tables textOfArray (Some obj) m).2 in
  newPresets tr tables arrayOf (pm_settings m') = m'
  /\ m_version m' = qdata (toString (value obj "version"))
  /\ m_apiPresets m' = readPresets (toArray (value obj "presets")).
Proof.
  cbv zeta. unfold onPresets. rewrite bind_eq. cbn [gets fst snd].
  cbv zeta in Htext. destruct (toArray (value obj "presets")) as [| v l] eqn:Ea; [done |]. rewrite andb_false_r.
  rewrite !then_eq. unfold saveToCache, rebuildMergedPresets, modify.
  cbn [snd pm_settings m_version m_apiPresets m_presets m_enabledPresets]. split; [| done].
  unfold newPresets. rewrite then_eq. unfold loadFromCache, rebuildMergedPresets, modify.
  cbn [snd pm_settings m_version m_apiPresets m_presets m_enabledPresets].
  set (api := readPresets (v :: l)). set (text := textOfArray (map presetToJson api)).
  assert (Hcache : forall w s, splitPresetsCache (setSplitPresetsVersion w (setSplitPresetsCache text s)) = text).
  { intros w s. unfold splitPresetsCache, setSplitPresetsVersion, setSplitPresetsCache. by rewrite !lookup_setValue. }
  assert (Hversion : forall w s, splitPresetsVersion (setSplitPresetsVersion w s) = w).
  { intros w s. unfold splitPresetsVersion, setSplitPresetsVersion. by rewrite !lookup_setValue. }
  assert (Henabled : forall w s, splitPresetsEnabled (setSplitPresetsVersion w (setSplitPresetsCache text s)) = splitPresetsEnabled s).
  { intros w s. unfold splitPresetsEnabled, setSplitPresetsVersion, setSplitPresetsCache. by rewrite !lookup_setValue. }
  rewrite Hcache, Hversion, Henabled. destruct Htext as [Ht Hne]. fold api text in Ht, Hne.
  rewrite (proj2 (String.eqb_neq _ _) Hne), Ht. cbn [snd pm_settings m_version m_apiPresets m_presets m_enabledPresets app].
  rewrite (read_written api) by (apply Forall_forall; apply read_usable). by rewrite <- He.
Qed.
End Restart.

(** ** Witnesses *)

Definition sampleSites : SitesModel :=
  (addSites [("example.org", "1.2.3.4"); ("10.0.0.0/8", "")]%string true (newSites ∅)).2.

Lemma sample_consistent : consistent sampleSites.
Proof.
  unfold sampleSites. change (consistent (edit (EdAddAll [("example.org", "1.2.3.4"); ("10.0.0.0/8", "")]%string true) (newSites ∅)).2).
  assert (H : consistent (newSites ∅)).
  { split; [reflexivity |]. split; [intros []; vm_compute; constructor |]. by vm_compute. }
  destruct H as (Hp & Hw & Hm & He). unfold edit, addSites. rewrite then_eq. cbn [modify snd].
  apply consistent_fill; cbn [m_settings m_currentRouteMode m_isSplitTunnelingEnabled].
  - intros mode. apply vpnSites_add_wf. intros mode'. unfold removeAllVpnSites. rewrite vpnSites_set. case_decide; [constructor | apply Hw].
  - reflexivity.
  - reflexivity.
Qed.

Lemma site_edits_consistent_witness :
  consistent (edit (EdAdd "example.net" "5.6.7.8") sampleSites).2
  /\ stored (edit (EdAdd "example.net" "5.6.7.8") sampleSites).2
     = [("10.0.0.0/8", ""); ("example.net", "5.6.7.8"); ("example.org", "1.2.3.4")]%string.
Proof.
  split; [| vm_compute; reflexivity].
  apply site_edits_consistent; [exact sample_consistent | vm_compute; reflexivity].
Defined.

Lemma rotation_adds_row_witness :
  m_sites (edit (EdAdd "example.org" "1.2.3.5") sampleSites).2
    = m_sites sampleSites ++ [("example.org", "1.2.3.5")]%string
  /\ ~ consistent (edit (EdAdd "example.org" "1.2.3.5") sampleSites).2.
Proof.
  destruct (rotation_adds_row sampleSites "example.org" "1.2.3.5") as (H1 & _ & _ & H4);
    [exact sample_consistent | vm_compute; reflexivity |].
  split; [exact H1 | exact H4].
Defined.

Lemma host_found_witness : exists host, hostOf "https://example.org/path" = Some host /\ host <> ""%string.
Proof.
  destruct (host_found "https://example.org/path") as (host & H1 & H2 & _); [vm_compute; reflexivity |].
  exists host. split; [exact H1 | exact H2].
Defined.

(** A file format for the one list of the sample. *)
Lemma export_import_witness :
  let toJson (_ : list json) := "sites.json"%string in
  let fromJson (_ : string) := DocArray (map exportEntry (m_sites sampleSites)) in
  let c := mkSitesController sampleSites [] in
  let '(text, c1) := exportSites toJson c in
  m_sites (model (importSites fromJson "sites.json" (Some text) true c1).2) = stored sampleSites.
Proof.
  cbv zeta.
  pose proof (export_import (fun _ => DocArray (map exportEntry (m_sites sampleSites))) (fun _ => "sites.json"%string)
    (mkSitesController sampleSites []) "sites.json") as H.
  destruct (exportSites _ _) as [text c1]. apply H; [reflexivity | exact sample_consistent |].
  intros site Hs. vm_compute in Hs.
  repeat (apply elem_of_cons in Hs as [-> | Hs]; [vm_compute; reflexivity |]). by apply elem_of_nil in Hs.
Defined.

Definition sampleTables : PresetTables := mkTables [] [] [] [] [] [] [] [] [] [] [] [] [] [] [].
Definition sampleAnswer : QJsonObject :=
  jinsert "version" (Some (jstr "7")) (jinsert "presets" (Some (JArray [makePreset "netflix" "" ["netflix.com"] ""])) ∅).

Lemma presets_restart_witness :
  let textOfArray (_ : list json) := "cache"%string in
  let arrayOf (_ : string) := map presetToJson (readPresets (toArray (value sampleAnswer "presets"))) in
  let m' := (onPresets (fun s => s) sampleTables textOfArray (Some sampleAnswer) (newPresets (fun s => s) sampleTables arrayOf ∅)).2 in
  newPresets (fun s => s) sampleTables arrayOf (pm_settings m') = m' /\ m_version m' = "7"%string.
Proof.
  cbv zeta.
  destruct (presets_restart (fun s => s) sampleTables
    (fun _ => map presetToJson (readPresets (toArray (value sampleAnswer "presets")))) (fun _ => "cache"%string)
    (newPresets (fun s => s) sampleTables (fun _ => map presetToJson (readPresets (toArray (value sampleAnswer "presets")))) ∅)
    sampleAnswer) as (H1 & H2 & _); [split; [reflexivity | done] | vm_compute; reflexivity | done |].
  split; [exact H1 | exact H2].
Defined.
