(* ===== verification/VpnConnection.v ===== *)
(** * The connection: [client/vpnconnection.cpp] (desktop)

    [VpnConnection] owns the protocol object of the current tunnel.  It turns
    the settings into the configuration the protocol starts with, follows the
    states the protocol signals, and keeps the routes of site split tunnelling:
    it resolves the sites, adds their routes through the service, and while the
    tunnel is up resolves them again and patches the difference.

    Answers of the resolver and single-shot timers are tasks that the event
    loop delivers later, in any order; the resolution of presets runs a nested
    event loop, in which anything may happen.  A null pointer that is followed
    and an index outside a list set [v_fault]. *)

From Stdlib Require Import ZArith Lia Bool String Ascii.
From stdpp Require Import base gmap strings list sorting.
From S2P Require Import Prelude.
From S2P Require Import Qt.
From S2P Require Import QtInstance.
From S2P Require Import IPAddress.
From S2P Require Import NetworkUtilities.
From S2P Require Import LocalSocket.
From S2P Require Import VpnProtocol.
From S2P Require Import Ipc.
From S2P Require Import Settings.
From S2P Require Import XrayProtocol.
From S2P Require Import SplitTunnel.

Open Scope Z_scope.

(** ** State *)

(** What the event loop can still deliver. *)
Inductive Task : Type :=
| TAddSites (protocol : nat)       (** after a second, unless the protocol is gone *)
| TFirstRefresh (generation : Z)
| TClear                           (** flush the DNS cache and the saved routes *)
| LAdd (site gw : string) (mode : RouteMode) (ips : list string)
| LRefresh (generation : Z) (domain lastKnownIp : string).

#[export] Instance Task_eq_dec : EqDecision Task.
Proof. solve_decision. Defined.

Inductive VSignal : Type :=
| VState (state : Vpn.ConnectionState)
| VBytes (receivedBytes sentBytes : Z)
| VError (error : ErrorCode).

(** The members of the split-tunnelling routes.  The generation is a [quint64]
    that only counts up; it is not taken modulo here. *)
Record Split : Type := mkSplit {
  m_splitRefreshTimer : bool;      (** [isActive] *)
  m_splitRefreshGw : string;
  m_splitRefreshMode : RouteMode;
  m_installedSplitRoutes : gset string;
  m_splitRefreshResolved : gset string;
  m_splitRefreshGeneration : Z;
  m_splitRefreshPending : Z
}.

Record VpnConnection (P : Type) : Type := mkConnection {
  v_settings : Settings;
  m_vpnProtocol : option (nat * P);      (** the number tells objects apart *)
  v_state : Vpn.ConnectionState;         (** [m_connectionState] *)
  m_vpnConfiguration : QJsonObject;
  m_remoteAddress : string;
  v_split : Split;
  v_tasks : list Task;
  v_calls : list IpcCall;
  v_signals : list VSignal;
  v_next : nat;                          (** the number of the next protocol object *)
  v_fault : bool
}.
Arguments mkConnection {P} _ _ _ _ _ _ _ _ _ _ _.
Arguments v_settings {P} _.
Arguments m_vpnProtocol {P} _.
Arguments v_state {P} _.
Arguments m_vpnConfiguration {P} _.
Arguments m_remoteAddress {P} _.
Arguments v_split {P} _.
Arguments v_tasks {P} _.
Arguments v_calls {P} _.
Arguments v_signals {P} _.
Arguments v_next {P} _.
Arguments v_fault {P} _.

#[export] Instance VpnConnection_calls P : HasCalls (VpnConnection P) := {|
  calls := v_calls;
  addCall c v := mkConnection (v_settings v) (m_vpnProtocol v) (v_state v) (m_vpnConfiguration v) (m_remoteAddress v)
    (v_split v) (v_tasks v) (v_calls v ++ [c]) (v_signals v) (v_next v) (v_fault v);
  calls_add c v := eq_refl
|}.

Section Setters.
Context {P : Type}.
Notation V := (VpnConnection P).

Definition onSettings {A} (m : ST Settings A) : ST V A := fun v =>
  let '(a, s) := m (v_settings v) in
  (a, mkConnection s (m_vpnProtocol v) (v_state v) (m_vpnConfiguration v) (m_remoteAddress v)
        (v_split v) (v_tasks v) (v_calls v) (v_signals v) (v_next v) (v_fault v)).
Definition setVProtocol (p : option (nat * P)) : ST V unit := modify (fun v =>
  mkConnection (v_settings v) p (v_state v) (m_vpnConfiguration v) (m_remoteAddress v)
    (v_split v) (v_tasks v) (v_calls v) (v_signals v) (v_next v) (v_fault v)).
Definition setVState (s : Vpn.ConnectionState) : ST V unit := modify (fun v =>
  mkConnection (v_settings v) (m_vpnProtocol v) s (m_vpnConfiguration v) (m_remoteAddress v)
    (v_split v) (v_tasks v) (v_calls v) (v_signals v) (v_next v) (v_fault v)).
Definition onConfig (f : QJsonObject -> QJsonObject) : ST V unit := modify (fun v =>
  mkConnection (v_settings v) (m_vpnProtocol v) (v_state v) (f (m_vpnConfiguration v)) (m_remoteAddress v)
    (v_split v) (v_tasks v) (v_calls v) (v_signals v) (v_next v) (v_fault v)).
Definition setRemote (a : string) : ST V unit := modify (fun v =>
  mkConnection (v_settings v) (m_vpnProtocol v) (v_state v) (m_vpnConfiguration v) a
    (v_split v) (v_tasks v) (v_calls v) (v_signals v) (v_next v) (v_fault v)).
Definition onSplit (f : Split -> Split) : ST V unit := modify (fun v =>
  mkConnection (v_settings v) (m_vpnProtocol v) (v_state v) (m_vpnConfiguration v) (m_remoteAddress v)
    (f (v_split v)) (v_tasks v) (v_calls v) (v_signals v) (v_next v) (v_fault v)).
Definition setTasks (l : list Task) : ST V unit := modify (fun v =>
  mkConnection (v_settings v) (m_vpnProtocol v) (v_state v) (m_vpnConfiguration v) (m_remoteAddress v)
    (v_split v) l (v_calls v) (v_signals v) (v_next v) (v_fault v)).
Definition addTask (t : Task) : ST V unit := fun v => setTasks (v_tasks v ++ [t]) v.
Definition emitV (s : VSignal) : ST V unit := modify (fun v =>
  mkConnection (v_settings v) (m_vpnProtocol v) (v_state v) (m_vpnConfiguration v) (m_remoteAddress v)
    (v_split v) (v_tasks v) (v_calls v) (v_signals v ++ [s]) (v_next v) (v_fault v)).
Definition fault : ST V unit := modify (fun v =>
  mkConnection (v_settings v) (m_vpnProtocol v) (v_state v) (m_vpnConfiguration v) (m_remoteAddress v)
    (v_split v) (v_tasks v) (v_calls v) (v_signals v) (v_next v) true).
(** [m_vpnProtocol.reset(p)] *)
Definition newVProtocol (p : P) : ST V unit := modify (fun v =>
  mkConnection (v_settings v) (Some (v_next v, p)) (v_state v) (m_vpnConfiguration v) (m_remoteAddress v)
    (v_split v) (v_tasks v) (v_calls v) (v_signals v) (Datatypes.S (v_next v)) (v_fault v)).
End Setters.

Definition stopTimer (s : Split) : Split :=
  mkSplit false (m_splitRefreshGw s) (m_splitRefreshMode s) (m_installedSplitRoutes s) (m_splitRefreshResolved s)
    (m_splitRefreshGeneration s) (m_splitRefreshPending s).
Definition startTimer (s : Split) : Split :=
  mkSplit true (m_splitRefreshGw s) (m_splitRefreshMode s) (m_installedSplitRoutes s) (m_splitRefreshResolved s)
    (m_splitRefreshGeneration s) (m_splitRefreshPending s).
Definition bumpGeneration (s : Split) : Split :=
  mkSplit (m_splitRefreshTimer s) (m_splitRefreshGw s) (m_splitRefreshMode s) (m_installedSplitRoutes s)
    (m_splitRefreshResolved s) (m_splitRefreshGeneration s + 1) (m_splitRefreshPending s).
Definition setPending (n : Z) (s : Split) : Split :=
  mkSplit (m_splitRefreshTimer s) (m_splitRefreshGw s) (m_splitRefreshMode s) (m_installedSplitRoutes s)
    (m_splitRefreshResolved s) (m_splitRefreshGeneration s) n.
Definition setResolved (r : gset string) (s : Split) : Split :=
  mkSplit (m_splitRefreshTimer s) (m_splitRefreshGw s) (m_splitRefreshMode s) (m_installedSplitRoutes s) r
    (m_splitRefreshGeneration s) (m_splitRefreshPending s).
Definition setInstalled (r : gset string) (s : Split) : Split :=
  mkSplit (m_splitRefreshTimer s) (m_splitRefreshGw s) (m_splitRefreshMode s) r (m_splitRefreshResolved s)
    (m_splitRefreshGeneration s) (m_splitRefreshPending s).
Definition setTarget (gw : string) (mode : RouteMode) (s : Split) : Split :=
  mkSplit (m_splitRefreshTimer s) gw mode (m_installedSplitRoutes s) (m_splitRefreshResolved s)
    (m_splitRefreshGeneration s) (m_splitRefreshPending s).

(** ** The routes of the sites *)

Section Routes.
Context `{Q : Qt} `{Service} {P : Type} `{Protocol P}.
Notation V := (VpnConnection P).
(** [QJsonDocument::fromJson(s).array()] *)
Variable arrayOf : string -> list json.

Definition callService (c : IpcCall) : ST V unit := ipc c ;; mret tt.

(** The addresses and the names of a site list. *)
Definition siteIps (m : list (string * string)) : list string := removeDuplicates (concat (map siteIp m)).
Definition siteNames (m : list (string * string)) : list string :=
  map fst (List.filter (fun kv => negb (checkIpSubnetFormat kv.1)) m).

Definition addSitesRoutes (gw : string) (mode : RouteMode) : ST V unit :=
  onSplit (setTarget gw mode) ;;
  m ← gets (fun v => vpnSites (v_settings v) mode);
  let ips := siteIps m in
  onSplit (setInstalled (list_to_set ips)) ;;
  withInterface (callService (RouteAddList gw ips)) tt ;;
  forEach (fun site => addTask (LAdd site gw mode ips)) (siteNames m).

(** The answer for a site of [addSitesRoutes]. *)
Definition onSiteResolved (site gw : string) (mode : RouteMode) (ips : list string) (addresses : list QHostAddress) : ST V unit :=
  match firstIPv4 addresses with
  | None => mret tt
  | Some addr =>
      let ip := hostToString addr in
      (if bool_decide (ip ∈ ips) then mret tt
       else
         withInterface (callService (RouteAddList gw [ip])) tt ;;
         onSettings (addVpnSite mode site ip) ;;
         onSplit (fun s => setInstalled ({[ip]} ∪ m_installedSplitRoutes s) s)) ;;
      withInterface (callService FlushDns) tt
  end.

Definition applySplitRefreshDelta (resolved : gset string) : ST V unit :=
  state ← gets v_state;
  if negb (bool_decide (state = Vpn.Connected)) then mret tt
  else
    installed ← gets (fun v => m_installedSplitRoutes (v_split v));
    let added := elements (resolved ∖ installed) in
    let removed := elements (installed ∖ resolved) in
    onSplit (setInstalled resolved) ;;
    if bool_decide (added = []) && bool_decide (removed = []) then mret tt
    else
      gw ← gets (fun v => m_splitRefreshGw (v_split v));
      withInterface
        ((if bool_decide (added = []) then mret tt else callService (RouteAddList gw added)) ;;
         (if bool_decide (removed = []) then mret tt else callService (RouteDeleteList gw removed))) tt.

(** The subnets of the list, and its names. *)
Definition siteSubnets (m : list (string * string)) : list string :=
  map fst (List.filter (fun kv => checkIpSubnetFormat kv.1) m).

Definition refreshSitesRoutes : ST V unit :=
  state ← gets v_state;
  protocol ← gets m_vpnProtocol;
  if negb (bool_decide (state = Vpn.Connected)) || negb (bool_decide (is_Some protocol)) then mret tt
  else
    pending ← gets (fun v => m_splitRefreshPending (v_split v));
    if pending >? 0 then mret tt
    else
      mode ← gets (fun v => m_splitRefreshMode (v_split v));
      sites ← gets (fun v => vpnSites (v_settings v) mode);
      let domains := removeDuplicates (siteNames sites) in
      onSplit (setResolved (list_to_set (siteSubnets sites))) ;;
      if bool_decide (domains = []) then
        onSplit (setResolved ∅) ;;
        applySplitRefreshDelta (list_to_set (siteSubnets sites))
      else
        generation ← gets (fun v => m_splitRefreshGeneration (v_split v));
        onSplit (setPending (Z.of_nat (length domains))) ;;
        forEach (fun domain => addTask (LRefresh generation domain (default "" (qmap_lookup domain sites)))) domains.

(** The address of the answer, or the last one when the name did not resolve. *)
Definition collectAnswer (domain lastKnownIp : string) (addresses : list QHostAddress) : ST V unit :=
  let ip := match firstIPv4 addresses with Some addr => hostToString addr | None => ""%string end in
  if negb (String.eqb ip "") then
    mode ← gets (fun v => m_splitRefreshMode (v_split v));
    onSplit (fun s => setResolved ({[ip]} ∪ m_splitRefreshResolved s) s) ;;
    onSettings (addVpnSite mode domain ip) ;; mret tt
  else if checkIpSubnetFormat lastKnownIp then
    onSplit (fun s => setResolved ({[lastKnownIp]} ∪ m_splitRefreshResolved s) s)
  else mret tt.

(** The answer for a name of [refreshSitesRoutes]. *)
Definition onRefreshResolved (generation : Z) (domain lastKnownIp : string) (addresses : list QHostAddress) : ST V unit :=
  current ← gets (fun v => m_splitRefreshGeneration (v_split v));
  state ← gets v_state;
  if negb (generation =? current) || negb (bool_decide (state = Vpn.Connected)) then mret tt
  else
    collectAnswer domain lastKnownIp addresses ;;
    pending ← gets (fun v => m_splitRefreshPending (v_split v));
    onSplit (setPending (pending - 1)) ;;
    if pending - 1 =? 0 then
      resolved ← gets (fun v => m_splitRefreshResolved (v_split v));
      onSplit (setResolved ∅) ;;
      applySplitRefreshDelta resolved
    else mret tt.

(** ** The state *)

Definition gatewayOf (p : option (nat * P)) : string :=
  match p with Some (_, p) => qdata (p_vpnGateway (pBase p)) | None => "" end.

(** With a null protocol the gateway cannot be asked for. *)
Definition needProtocol : ST V (option (nat * P)) :=
  protocol ← gets m_vpnProtocol;
  match protocol with
  | Some p => mret (Some p)
  | None => fault ;; mret None
  end.

(** [Connected], for a protocol whose routes the application sets. *)
Definition setupSplitRoutes : ST V unit :=
  config ← gets m_vpnConfiguration;
  settings ← gets v_settings;
  protocol ← needProtocol;
  match protocol with
  | None => mret tt
  | Some (id, p) =>
      let vpnGateway := qdata (p_vpnGateway (pBase p)) in
      let routeGateway := pRouteGateway p in
      callService (RouteAddList vpnGateway
        [qdata (toString (value config "dns1")); qdata (toString (value config "dns2"))]) ;;
      if isSitesSplitTunnelingEnabled settings then
        callService (RouteDeleteList vpnGateway ["0.0.0.0"%string]) ;;
        (match routeMode settings with
         | VpnOnlyForwardSites => addTask (TAddSites id)
         | VpnAllExceptSites =>
             remote ← gets m_remoteAddress;
             callService (RouteAddList vpnGateway ["0.0.0.0/1"%string]) ;;
             callService (RouteAddList vpnGateway ["128.0.0.0/1"%string]) ;;
             callService (RouteAddList routeGateway [remote]) ;;
             addSitesRoutes routeGateway VpnAllExceptSites
         | VpnAllSites => mret tt
         end) ;;
        if bool_decide (routeMode settings = VpnAllSites) then mret tt
        else
          onSplit bumpGeneration ;;
          generation ← gets (fun v => m_splitRefreshGeneration (v_split v));
          addTask (TFirstRefresh generation)
      else mret tt
  end.

Definition resetSplit (s : Split) : Split :=
  mkSplit false (m_splitRefreshGw s) (m_splitRefreshMode s) ∅ ∅ (m_splitRefreshGeneration s + 1) 0.

Definition onConnectionStateChanged (state : Vpn.ConnectionState) : ST V unit :=
  (if negb (bool_decide (state = Vpn.Connected)) then onSplit resetSplit else mret tt) ;;
  container ← gets (fun v => defaultContainer arrayOf (v_settings v) (defaultServerIndex (v_settings v)));
  withInterface
    (match state with
     | Vpn.Connected =>
         callService ResetIpStack ;;
         callService FlushDns ;;
         if negb (isAwgContainer container) && negb (bool_decide (container = WireGuard)) then setupSplitRoutes
         else mret tt
     | Vpn.Disconnected | Vpn.Error => addTask TClear
     | _ => mret tt
     end) tt.

Definition setConnection (state : Vpn.ConnectionState) : ST V unit :=
  onConnectionStateChanged state ;;
  old ← gets v_state;
  if bool_decide (state = Vpn.Disconnected) && bool_decide (old = Vpn.Reconnecting) then mret tt
  else setVState state ;; emitV (VState state).

(** ** The protocol *)

(** The slots connected to the protocol. *)
Definition onSignal (s : Signal) : ST V unit :=
  match s with
  | SigState state => setConnection state
  | SigBytes received sent => emitV (VBytes received sent)
  | _ => mret tt
  end.

(** A method of the protocol, then the slots of what it signals: they do not
    call the protocol, and what they read of it is constant. *)
Definition onProtocol {A} (m : ST P A) (dflt : A) : ST V A :=
  protocol ← gets m_vpnProtocol;
  match protocol with
  | None => fault ;; mret dflt
  | Some (id, p) =>
      let '(a, p') := m p in
      setVProtocol (Some (id, p')) ;;
      forEach onSignal (drop (length (p_signals (pBase p))) (p_signals (pBase p'))) ;;
      mret a
  end.

(** [start], with its error. *)
Definition startProtocol : ST V unit :=
  started ← onProtocol pStart (Some NoError);
  match started with
  | None => fault
  | Some err =>
      if bool_decide (err = NoError) then mret tt
      else setConnection Vpn.Error ;; emitV (VError err)
  end.

Definition reconnectToVpn : ST V unit :=
  protocol ← gets m_vpnProtocol;
  match protocol with
  | None => mret tt
  | Some _ =>
      state ← gets v_state;
      if negb (bool_decide (state = Vpn.Connected)) then mret tt
      else
        setConnection Vpn.Reconnecting ;;
        onProtocol pStop tt ;;
        startProtocol
  end.

Definition disconnectFromVpn : ST V unit :=
  protocol ← gets m_vpnProtocol;
  match protocol with
  | None => setConnection Vpn.Disconnected
  | Some _ =>
      setConnection Vpn.Disconnecting ;;
      onProtocol pStop tt ;;
      setVProtocol None
  end.
End Routes.

(** ** The configuration of a connection *)

(** [s.split(sep)] for a text; [skip] characters of the separator found are
    still to be dropped. *)
Fixpoint splitText (sep s : string) (skip : nat) : list string :=
  match s with
  | EmptyString => [""%string]
  | String c s' =>
      match skip with
      | Datatypes.S k => splitText sep s' k
      | O =>
          if String.prefix sep s then ""%string :: splitText sep s' (String.length sep - 1)
          else match splitText sep s' 0 with
               | w :: ws => String c w :: ws
               | [] => [String c ""]
               end
      end
  end.

(** The value of the first line with the key in a native configuration:
    [None] when there is none, [Some None] when [at(1)] is outside the list. *)
Definition nativeValue (key config : string) : option (option string) :=
  match List.find (str_contains key) (split newline config) with
  | None => None
  | Some line => Some (splitText " = " line 0 !! 1%nat)
  end.

(** [m_vpnConfiguration] and [configData], with a value of [configData] set and
    stored back. *)
Definition storeData (key field : string) (v : json) (st : QJsonObject * QJsonObject) : QJsonObject * QJsonObject :=
  let configData := jinsert field (Some v) st.2 in
  (jinsert key (Some (JObject configData)) st.1, configData).

(** The [allowed_ips] of old configurations; [None] for the fault. *)
Definition fixAllowedIps (key : string) (st : QJsonObject * QJsonObject) : option (QJsonObject * QJsonObject) :=
  let v := value st.2 "allowed_ips" in
  if isString v then Some (storeData key "allowed_ips" (fromStringList (splitText ", " (qdata (toString v)) 0)) st)
  else if isUndefined v then
    match nativeValue "AllowedIPs" (qdata (toString (value st.2 "config"))) with
    | None => Some st
    | Some None => None
    | Some (Some t) => Some (storeData key "allowed_ips" (fromStringList (splitText ", " t 0)) st)
    end
  else Some st.

Definition fixKeepAlive (key : string) (st : QJsonObject * QJsonObject) : option (QJsonObject * QJsonObject) :=
  if isUndefined (value st.2 "persistent_keep_alive") then
    match nativeValue "PersistentKeepalive" (qdata (toString (value st.2 "config"))) with
    | None => Some st
    | Some None => None
    | Some (Some t) => Some (storeData key "persistent_keep_alive" (jstr t) st)
    end
  else Some st.

(** [array.contains(text)] *)
Definition jsonContains (l : list json) (s : string) : bool :=
  existsb (fun v => isString (Some v) && String.eqb (textOf v) s) l.

(** The first block of [appendSplitTunnelingConfig]: the configuration and
    whether sites may be split; [None] for the fault. *)
Definition nativeBlock (config : QJsonObject) : option (QJsonObject * bool) :=
  let protocolName := qdata (toString (value config "protocol")) in
  if String.eqb protocolName "awg" || String.eqb protocolName "wireguard" then
    let key := protocolName +:+ "_config_data" in
    match fixAllowedIps key (config, toObject (value config key)) with
    | None => None
    | Some st =>
        match fixKeepAlive key st with
        | None => None
        | Some (config, configData) => Some (config, jsonContains (toArray (value configData "allowed_ips")) "0.0.0.0/0")
        end
    end
  else Some (config, true).

(** The networks of shared CDNs. *)
Definition quadOf (a b c d : Z) : QHostAddress := HV4 (((a * 256 + b) * 256 + c) * 256 + d).
Definition sharedCdn : list (QHostAddress * Z) :=
  [(quadOf 104 16 0 0, 12); (quadOf 104 64 0 0, 10); (quadOf 162 158 0 0, 15); (quadOf 172 64 0 0, 13);
   (quadOf 173 245 48 0, 20); (quadOf 188 114 96 0, 20); (quadOf 190 93 240 0, 20); (quadOf 197 234 240 0, 22);
   (quadOf 198 41 128 0, 17); (quadOf 141 101 64 0, 18); (quadOf 103 21 244 0, 22); (quadOf 103 22 200 0, 22);
   (quadOf 103 31 4 0, 22); (quadOf 151 101 0 0, 16); (quadOf 199 232 0 0, 16); (quadOf 23 32 0 0, 11);
   (quadOf 23 192 0 0, 11); (quadOf 2 16 0 0, 13); (quadOf 13 32 0 0, 12); (quadOf 13 224 0 0, 12);
   (quadOf 99 84 0 0, 16); (quadOf 76 223 0 0, 16); (quadOf 13 248 0 0, 14)].

(** [address.isInSubnet(subnet, netmask)] *)
Definition isInSubnet (address subnet : QHostAddress) (netmask : Z) : bool :=
  bool_decide (protocol address = protocol subnet) && (0 <=? netmask)
  && forallb (fun i => Bool.eqb (hbit address i) (hbit subnet i)) (seqZ 0 (Z.min netmask (width subnet))).

Definition inAnySubnet (address : QHostAddress) (nets : list (QHostAddress * Z)) : bool :=
  existsb (fun net => isInSubnet address net.1 net.2) nets.

Section Config.
Context `{Q : Qt}.

(** The lambda [parseSubnet]. *)
Definition parsePresetSubnet (cidr : string) : QHostAddress * Z :=
  let parts := split "/" cidr in
  let addr := parseHost (nth 0 parts ""%string) in
  (addr, if bool_decide (protocol addr = IPv4Protocol)
         then match parts with _ :: n :: _ => default 0 (toInt n) | _ => 32 end
         else -1).

Definition isSharedCdnHost (entry : string) : bool :=
  if chr_contains "/" entry then false
  else
    let addr := parseHost entry in
    bool_decide (protocol addr = IPv4Protocol) && inAnySubnet addr sharedCdn.

(** The sets presets are sorted into. *)
Record PresetBucket : Type := mkBucket { cidrs : list string; hosts : list string }.

Definition addEntry (entry : string) (b : PresetBucket) : PresetBucket :=
  if checkIpSubnetFormat entry then mkBucket (cidrs b ++ [entry]) (hosts b)
  else if String.eqb entry "" then b else mkBucket (cidrs b) (hosts b ++ [entry]).

Inductive Bucket : Type := FollowMode | AlwaysDirect | AlwaysVpn.
#[export] Instance Bucket_eq_dec : EqDecision Bucket.
Proof. solve_decision. Defined.

Definition bucketOf (id : string) : Bucket :=
  if String.eqb id "builtin-ru-direct" || String.eqb id "builtin-ru-banking" then AlwaysDirect
  else if String.eqb id "builtin-ru-vpn" then AlwaysVpn else FollowMode.

(** The entries of the enabled presets that go to one bucket. *)
Definition fillBucket (which : Bucket) (enabled : list string) (presets : list json) : PresetBucket :=
  fold_left (fun b preset =>
      let id := presetId preset in
      if bool_decide (id ∈ enabled) && bool_decide (bucketOf id = which)
      then fold_left (fun b domain => addEntry (textOf domain) b)
             (toArray (value (toObject (Some preset)) "domains")) b
      else b)
    presets (mkBucket [] []).

(** The result of [flattenBucket], given the answers for the hosts that came
    in time. *)
Definition flattened (b : PresetBucket) (answers : list (list QHostAddress)) : list string :=
  let nets := List.filter (fun net => 0 <=? net.2) (map parsePresetSubnet (cidrs b)) in
  cidrs b ++ concat (map (fun addresses =>
    match firstIPv4 addresses with
    | Some addr => if inAnySubnet addr nets then [] else [hostToString addr]
    | None => []
    end) answers).

Definition filterExclude (sites : list json) : list json :=
  map jstr (List.filter (fun entry => negb (isSharedCdnHost entry)) (map textOf sites)).
End Config.

Section Connect.
Context `{Q : Qt} `{Service} {P : Type} `{Protocol P}.
Notation V := (VpnConnection P).
Variable arrayOf : string -> list json.
Variable tr : string -> string.
Variable tables : PresetTables.
Variable fromName : string -> list QHostAddress.
(** [VpnProtocol::factory] *)
Variable factory : DockerContainer -> QJsonObject -> option P.
(** The nested event loop of [flattenBucket]: the answers for the hosts that
    came in time, and what else happened. *)
Variable resolving : list string -> ST V (list (list QHostAddress)).

Definition appendKillSwitchConfig : ST V unit :=
  settings ← gets v_settings;
  let boolText (b : bool) := jstr (if b then "true" else "false") in
  onConfig (jinsert "killSwitchOption" (Some (boolText (isKillSwitchEnabled settings)))) ;;
  onConfig (jinsert "routeLanThroughVpn" (Some (boolText (isRouteLanThroughVpn settings)))) ;;
  onConfig (jinsert "allowedDnsServers" (Some (fromStringList (allowedDnsServers settings)))).

Definition flattenBucket (b : PresetBucket) : ST V (list string) :=
  match hosts b with
  | [] => mret (flattened b [])
  | names => answers ← resolving names; mret (flattened b answers)
  end.

(** The mode and the sites of the manual list. *)
Definition manualSites (settings : Settings) (config : QJsonObject) (allowed : bool) : RouteMode * list json :=
  if isSitesSplitTunnelingEnabled settings then
    let mode := routeMode settings in
    if allowed then
      match map jstr (getVpnIps settings mode) with
      | [] => (VpnAllSites, [])
      | sites =>
          if bool_decide (mode = VpnOnlyForwardSites)
          then (mode, sites ++ [jstr (qdata (toString (value config "dns1"))); jstr (qdata (toString (value config "dns2")))])
          else (mode, sites)
      end
    else (mode, [])
  else (VpnAllSites, []).

(** The include and exclude sets: the manual list, with the enabled presets. *)
Definition presetSites (settings : Settings) (mode : RouteMode) (sites : list json) : ST V (list json * list json) :=
  let include := if bool_decide (mode = VpnOnlyForwardSites) then sites else [] in
  let exclude := if bool_decide (mode = VpnAllExceptSites) then sites else [] in
  match splitPresetsEnabled settings with
  | [] => mret (include, exclude)
  | enabled =>
      let presets := mergeWithApi tr tables (arrayOf (splitPresetsCache settings)) in
      followIps ← flattenBucket (fillBucket FollowMode enabled presets);
      directIps ← flattenBucket (fillBucket AlwaysDirect enabled presets);
      vpnIps ← flattenBucket (fillBucket AlwaysVpn enabled presets);
      let '(include, exclude) :=
        if bool_decide (mode = VpnOnlyForwardSites)
        then (include ++ map jstr followIps ++ map jstr vpnIps, exclude)
        else (include, exclude ++ map jstr followIps ++ map jstr directIps) in
      mret (include, filterExclude exclude)
  end.

Definition appendSplitTunnelingConfig : ST V unit :=
  config ← gets m_vpnConfiguration;
  match nativeBlock config with
  | None => fault
  | Some (config, allowed) =>
      onConfig (fun _ => config) ;;
      settings ← gets v_settings;
      let '(mode, sites) := manualSites settings config allowed in
      onConfig (jinsert "splitTunnelType" (Some (jint (routeModeInt mode)))) ;;
      onConfig (jinsert "splitTunnelSites" (Some (JArray sites))) ;;
      '(include, exclude) ← (if isSitesSplitTunnelingEnabled settings && allowed then presetSites settings mode sites
                             else mret ([], []));
      onConfig (jinsert "splitTunnelIncludeSites" (Some (JArray include))) ;;
      onConfig (jinsert "splitTunnelExcludeSites" (Some (JArray exclude))) ;;
      settings ← gets v_settings;
      onConfig (jinsert "localSubnetExclusions" (Some (fromStringList (confLocalSubnets settings)))) ;;
      let '(appsMode, apps) :=
        if isAppsSplitTunnelingEnabled settings then
          let appsMode := getAppsRouteMode settings in
          match map (fun app => JString (if isEmpty (appPath app) then packageName app else appPath app)) (getVpnApps settings appsMode) with
          | [] => (VpnAllApps, [])
          | apps => (appsMode, apps)
          end
        else (VpnAllApps, []) in
      onConfig (jinsert "appSplitTunnelType" (Some (jint (appsRouteModeInt appsMode)))) ;;
      onConfig (jinsert "splitTunnelApps" (Some (JArray apps)))
  end.

Definition connectToVpn (serverIndex : Z) (hostName : string) (container : DockerContainer)
  (vpnConfiguration : QJsonObject) : ST V unit :=
  setRemote (getIPAddress fromName hostName) ;;
  setConnection arrayOf Vpn.Connecting ;;
  onConfig (fun _ => jinsert "serverIndex" (Some (jint serverIndex)) vpnConfiguration) ;;
  protocol ← gets m_vpnProtocol;
  (match protocol with
   | Some _ => onProtocol arrayOf pStop tt ;; setVProtocol None
   | None => mret tt
   end) ;;
  appendKillSwitchConfig ;;
  appendSplitTunnelingConfig ;;
  config ← gets m_vpnConfiguration;
  match factory container config with
  | None => setVProtocol None ;; setConnection arrayOf Vpn.Error
  | Some p => newVProtocol p ;; startProtocol arrayOf
  end.

(** ** The event loop *)

Inductive VEvent : Type :=
| EvConnectVpn (serverIndex : Z) (hostName : string) (container : DockerContainer) (config : QJsonObject)
| EvReconnectVpn                                  (** the network changed, the machine woke up *)
| EvDisconnectVpn
| EvOfProtocol (e : pEvent)
| EvRefreshTimer
| EvDeliver (t : Task) (addresses : list QHostAddress).

(** A task the loop delivers. *)
Definition deliver (t : Task) (addresses : list QHostAddress) : ST V unit :=
  match t with
  | TAddSites id =>
      protocol ← gets m_vpnProtocol;
      match protocol with
      | Some (id', p) =>
          if bool_decide (id = id') then
            settings ← gets v_settings;
            addSitesRoutes (qdata (p_vpnGateway (pBase p))) (routeMode settings)
          else mret tt
      | None => mret tt
      end
  | TFirstRefresh generation =>
      current ← gets (fun v => m_splitRefreshGeneration (v_split v));
      state ← gets v_state;
      if negb (generation =? current) || negb (bool_decide (state = Vpn.Connected)) then mret tt
      else refreshSitesRoutes ;; onSplit startTimer
  | TClear => callService FlushDns ;; callService ClearSavedRoutes
  | LAdd site gw mode ips => onSiteResolved site gw mode ips addresses
  | LRefresh generation domain lastKnownIp => onRefreshResolved generation domain lastKnownIp addresses
  end.

Fixpoint removeTask (t : Task) (l : list Task) : list Task :=
  match l with
  | [] => []
  | t' :: l' => if decide (t' = t) then l' else t' :: removeTask t l'
  end.

Definition vReact (e : VEvent) : ST V unit :=
  match e with
  | EvConnectVpn serverIndex hostName container config => connectToVpn serverIndex hostName container config
  | EvReconnectVpn => reconnectToVpn arrayOf
  | EvDisconnectVpn => disconnectFromVpn arrayOf
  | EvOfProtocol e => onProtocol arrayOf (pReact e) tt
  | EvRefreshTimer => refreshSitesRoutes
  | EvDeliver t addresses => (fun v => setTasks (removeTask t (v_tasks v)) v) ;; deliver t addresses
  end.

Definition vEnabled (e : VEvent) (v : V) : Prop :=
  match e with
  | EvOfProtocol _ => is_Some (m_vpnProtocol v)
  | EvRefreshTimer => m_splitRefreshTimer (v_split v) = true
  | EvDeliver t _ => t ∈ v_tasks v
  | _ => True
  end.
End Connect.

(** ** The invariant of the refreshes *)

Section Invariant.
Context `{Q : Qt} `{Sv : Service} {P : Type} {Pr : Protocol P} {Laws : ProtocolLaws Pr}.
Notation V := (VpnConnection P).
Variable arrayOf : string -> list json.

(** The lookups of refreshes of the generation [g] that are not answered. *)
Definition isRefresh (g : Z) (t : Task) : bool :=
  match t with LRefresh g' _ _ => g' =? g | _ => false end.
Definition outstanding (g : Z) (l : list Task) : Z := Z.of_nat (length (List.filter (isRefresh g) l)).

Definition protocolState (v : V) : Vpn.ConnectionState :=
  match m_vpnProtocol v with Some (_, p) => p_connectionState (pBase p) | None => Vpn.Unknown end.

(** [ps] is the last state the protocol has signalled. *)
Record InvAt (ps : Vpn.ConnectionState) (v : V) : Prop := {
  inv_timer : m_splitRefreshTimer (v_split v) = true -> v_state v = Vpn.Connected;
  inv_generation : forall g d ip, LRefresh g d ip ∈ v_tasks v -> g <= m_splitRefreshGeneration (v_split v);
  inv_pending : m_splitRefreshPending (v_split v) = outstanding (m_splitRefreshGeneration (v_split v)) (v_tasks v);
  inv_idle : v_state v <> Vpn.Connected -> m_splitRefreshPending (v_split v) = 0;
  inv_protocol : v_state v = Vpn.Connected -> ps = Vpn.Connected
}.
Definition Inv (v : V) : Prop := InvAt (protocolState v) v.

(** Not connected: the protocol does not matter. *)
Definition Off (v : V) : Prop := v_state v <> Vpn.Connected /\ forall ps, InvAt ps v.

Lemma off_of ps v : InvAt ps v -> v_state v <> Vpn.Connected -> Off v.
Proof. intros [H1 H2 H3 H4 H5] Hn. split; [done |]. by intros ps'; split. Qed.

(** Steps that change nothing the invariant speaks of: the members, the state
    and the protocol stay, and the new tasks are no lookups of a refresh. *)
Definition sameCounts (a b : Split) : Prop :=
  m_splitRefreshTimer a = m_splitRefreshTimer b /\ m_splitRefreshGeneration a = m_splitRefreshGeneration b
  /\ m_splitRefreshPending a = m_splitRefreshPending b.

Definition noRefresh (t : Task) : Prop := match t with LRefresh _ _ _ => False | _ => True end.

#[local] Instance noRefresh_dec t : Decision (noRefresh t).
Proof. destruct t; cbn; apply _. Defined.

Definition calm {A} (m : ST V A) : Prop := forall v,
  sameCounts (v_split (m v).2) (v_split v) /\ v_state (m v).2 = v_state v
  /\ m_vpnProtocol (m v).2 = m_vpnProtocol v
  /\ exists l, v_tasks (m v).2 = v_tasks v ++ l /\ Forall noRefresh l.

Lemma outstanding_app g a b : outstanding g (a ++ b) = outstanding g a + outstanding g b.
Proof. unfold outstanding. rewrite List.filter_app, length_app. lia. Qed.

Lemma outstanding_none g l : Forall noRefresh l -> outstanding g l = 0.
Proof. unfold outstanding. induction 1 as [| [] l Ht _ IH]; done. Qed.

Lemma outstanding_above g l : (forall g' d ip, LRefresh g' d ip ∈ l -> g' < g) -> outstanding g l = 0.
Proof.
  unfold outstanding. induction l as [| t l IH]; intros H; [done |]. cbn. assert (E : isRefresh g t = false).
  { destruct t; try done. cbn. specialize (H generation domain lastKnownIp ltac:(by left)). lia. }
  rewrite E. apply IH. intros g' d ip Hin. apply (H g' d ip). by right.
Qed.

Lemma inv_calm {A} (m : ST V A) ps v : calm m -> InvAt ps v -> InvAt ps (m v).2.
Proof.
  intros Hq [H1 H2 H3 H4 H5]. destruct (Hq v) as ((Q1 & Q2 & Q3) & Q4 & Q5 & l & Q6 & Q7).
  split; rewrite ?Q1, ?Q2, ?Q3, ?Q4; [done | | | done | done].
  - intros g d ip. rewrite Q6, elem_of_app. intros [Hin | Hin]; [by eapply H2 |].
    by apply (proj1 (Forall_forall _ _) Q7) in Hin.
  - rewrite Q6, outstanding_app, (outstanding_none _ l) by done. lia.
Qed.

Lemma off_calm {A} (m : ST V A) v : calm m -> Off v -> Off (m v).2.
Proof.
  intros Hq [Hn Hi]. split; [destruct (Hq v) as (_ & -> & _); done |]. intros ps. by apply inv_calm.
Qed.

Lemma calm_protocol {A} (m : ST V A) v : calm m -> m_vpnProtocol (m v).2 = m_vpnProtocol v.
Proof. intros Hq. by destruct (Hq v) as (_ & _ & ? & _). Qed.

Lemma calm_ret {A} (a : A) : calm (mret a).
Proof. intros v. repeat split. exists []. by rewrite app_nil_r. Qed.
Lemma calm_get {A} (f : V -> A) : calm (gets f).
Proof. intros v. repeat split. exists []. by rewrite app_nil_r. Qed.
Lemma calm_bind {A B} (m : ST V A) (k : A -> ST V B) : calm m -> (forall a, calm (k a)) -> calm (m ≫= k).
Proof.
  intros Hm Hk v. rewrite bind_eq. destruct (Hm v) as ((A1 & A2 & A3) & A4 & A5 & l1 & A6 & A7).
  destruct (Hk (m v).1 (m v).2) as ((B1 & B2 & B3) & B4 & B5 & l2 & B6 & B7).
  split; [split; [congruence | split; congruence] |]. split; [congruence |]. split; [congruence |].
  exists (l1 ++ l2). rewrite B6, A6, app_assoc. split; [done | by apply Forall_app].
Qed.
Lemma calm_forEach {A} (body : A -> ST V unit) l : (forall a, calm (body a)) -> calm (forEach body l).
Proof.
  intros H. induction l as [| a l IH]; [apply calm_ret |]. apply calm_bind; [apply H | by intros _].
Qed.
Lemma calm_onSplit f : (forall s, sameCounts (f s) s) -> calm (onSplit f).
Proof. intros Hf v. split; [apply Hf |]. repeat split. exists []. by rewrite app_nil_r. Qed.
Lemma calm_onConfig f : calm (onConfig f).
Proof. intros v. repeat split. exists []. by rewrite app_nil_r. Qed.
Lemma calm_onSettings {A} (m : ST Settings A) : calm (onSettings m).
Proof. intros v. unfold onSettings. destruct (m (v_settings v)). repeat split. exists []. by rewrite app_nil_r. Qed.
Lemma calm_emit s : calm (emitV s).
Proof. intros v. repeat split. exists []. by rewrite app_nil_r. Qed.
Lemma calm_fault : calm fault.
Proof. intros v. repeat split. exists []. by rewrite app_nil_r. Qed.
Lemma calm_call c : calm (callService c).
Proof. intros v. repeat split. exists []. by rewrite app_nil_r. Qed.
Lemma calm_with {A} (m : ST V A) (a : A) : calm m -> calm (withInterface m a).
Proof. intros Hm v. unfold withInterface. destruct (ready _); [apply Hm | apply (calm_ret a)]. Qed.
Lemma calm_addTask t : noRefresh t -> calm (addTask t).
Proof. intros Ht v. repeat split. exists [t]. split; [done |]. by repeat constructor. Qed.

Lemma calm_addSites gw mode : calm (addSitesRoutes gw mode).
Proof.
  unfold addSitesRoutes. apply calm_bind; [by apply calm_onSplit |]. intros _.
  apply calm_bind; [apply calm_get |]. intros m. cbv zeta. apply calm_bind; [by apply calm_onSplit |]. intros _.
  apply calm_bind; [apply calm_with, calm_call |]. intros _. apply calm_forEach. intros site. by apply calm_addTask.
Qed.

Lemma calm_resolved site gw mode ips addresses : calm (onSiteResolved site gw mode ips addresses).
Proof.
  unfold onSiteResolved. destruct (firstIPv4 addresses) as [a |]; [| apply calm_ret].
  apply calm_bind; [| intros _; apply calm_with, calm_call]. destruct (bool_decide _); [apply calm_ret |].
  apply calm_bind; [apply calm_with, calm_call |]. intros _. apply calm_bind; [apply calm_onSettings |]. intros _.
  by apply calm_onSplit.
Qed.

Lemma calm_delta resolved : calm (applySplitRefreshDelta resolved).
Proof.
  unfold applySplitRefreshDelta. apply calm_bind; [apply calm_get |]. intros state. destruct (negb _); [apply calm_ret |].
  apply calm_bind; [apply calm_get |]. intros installed. cbv zeta. apply calm_bind; [by apply calm_onSplit |]. intros _.
  destruct (_ && _); [apply calm_ret |]. apply calm_bind; [apply calm_get |]. intros gw. apply calm_with.
  apply calm_bind; [destruct (bool_decide _); [apply calm_ret | apply calm_call] |]. intros _.
  destruct (bool_decide _); [apply calm_ret | apply calm_call].
Qed.

(** The protocol object stays the one it was. *)
Definition frame {A} (m : ST V A) : Prop := forall v, m_vpnProtocol (m v).2 = m_vpnProtocol v.

Lemma frame_calm {A} (m : ST V A) : calm m -> frame m.
Proof. intros Hq v. by apply calm_protocol. Qed.
Lemma frame_bind {A B} (m : ST V A) (k : A -> ST V B) : frame m -> (forall a, frame (k a)) -> frame (m ≫= k).
Proof. intros Hm Hk v. rewrite bind_eq, Hk. apply Hm. Qed.
Lemma frame_with {A} (m : ST V A) (a : A) : frame m -> frame (withInterface m a).
Proof. intros Hm v. unfold withInterface. destruct (ready _); [apply Hm | done]. Qed.

(** A step keeps [Off]. *)
Definition keepsOff {A} (m : ST V A) : Prop := forall v, Off v -> Off (m v).2.
Lemma keepsOff_calm {A} (m : ST V A) : calm m -> keepsOff m.
Proof. intros Hq v. by apply off_calm. Qed.
Lemma keepsOff_bind {A B} (m : ST V A) (k : A -> ST V B) : keepsOff m -> (forall a, keepsOff (k a)) -> keepsOff (m ≫= k).
Proof. intros Hm Hk v Hv. rewrite bind_eq. apply Hk, Hm, Hv. Qed.
Lemma keepsOff_with {A} (m : ST V A) (a : A) : keepsOff m -> keepsOff (withInterface m a).
Proof. intros Hm v Hv. unfold withInterface. destruct (ready _); [by apply Hm | done]. Qed.

Lemma keepsOff_bump : keepsOff (onSplit bumpGeneration).
Proof.
  intros v [Hn Hi]. apply (off_of Vpn.Unknown); [| done]. destruct (Hi Vpn.Unknown) as [H1 H2 H3 H4 H5].
  split; cbn [onSplit modify snd v_split v_state v_tasks bumpGeneration m_splitRefreshTimer m_splitRefreshGeneration m_splitRefreshPending];
    [done | intros g d ip Hin; specialize (H2 g d ip Hin); lia | | done | done].
  rewrite H4 by done. symmetry. apply outstanding_above. intros g d ip Hin. specialize (H2 g d ip Hin). lia.
Qed.

Lemma calm_need : calm needProtocol.
Proof.
  unfold needProtocol. apply calm_bind; [apply calm_get |]. intros [p |]; [apply calm_ret |].
  apply calm_bind; [apply calm_fault |]. intros _. apply calm_ret.
Qed.

Lemma setupRoutes_parts : keepsOff setupSplitRoutes /\ frame setupSplitRoutes.
Proof.
  assert (Hall : forall C : (forall A, ST V A -> Prop),
    (forall A (m : ST V A), calm m -> C A m) ->
    (forall A B (m : ST V A) (k : A -> ST V B), C A m -> (forall a, C B (k a)) -> C B (m ≫= k)) ->
    C unit (onSplit bumpGeneration) -> C unit setupSplitRoutes).
  { intros C Cq Cb Cbump. unfold setupSplitRoutes.
    apply Cb; [apply Cq, calm_get |]. intros config. apply Cb; [apply Cq, calm_get |]. intros settings.
    apply Cb; [apply Cq, calm_need |]. intros [[id p] |]; [| apply Cq, calm_ret]. cbv zeta.
    apply Cb; [apply Cq, calm_call |]. intros _. destruct (isSitesSplitTunnelingEnabled settings); [| apply Cq, calm_ret].
    apply Cb; [apply Cq, calm_call |]. intros _. apply Cb.
    - destruct (routeMode settings); apply Cq; [apply calm_ret | by apply calm_addTask |].
      apply calm_bind; [apply calm_get |]. intros remote. repeat (apply calm_bind; [apply calm_call | intros _]).
      apply calm_addSites.
    - intros _. destruct (bool_decide _); [apply Cq, calm_ret |]. apply Cb; [exact Cbump |]. intros _.
      apply Cb; [apply Cq, calm_get |]. intros generation. apply Cq. by apply calm_addTask. }
  split.
  - apply (Hall (fun A m => keepsOff m)); [intros; by apply keepsOff_calm | intros; by apply keepsOff_bind | apply keepsOff_bump].
  - apply (Hall (fun A m => frame m)); [intros; by apply frame_calm | intros; by apply frame_bind | done].
Qed.

(** The part of a change of state after the reset. *)
Definition announce (state : Vpn.ConnectionState) : ST V unit :=
  container ← gets (fun v => defaultContainer arrayOf (v_settings v) (defaultServerIndex (v_settings v)));
  withInterface
    (match state with
     | Vpn.Connected =>
         callService ResetIpStack ;;
         callService FlushDns ;;
         if negb (isAwgContainer container) && negb (bool_decide (container = WireGuard)) then setupSplitRoutes
         else mret tt
     | Vpn.Disconnected | Vpn.Error => addTask TClear
     | _ => mret tt
     end) tt.

Lemma calm_announce state : state <> Vpn.Connected -> calm (announce state).
Proof.
  intros Hs. unfold announce. apply calm_bind; [apply calm_get |]. intros c. apply calm_with.
  destruct state; try done; first [apply calm_ret | by apply calm_addTask].
Qed.

Lemma announce_connected : keepsOff (announce Vpn.Connected) /\ frame (announce Vpn.Connected).
Proof.
  destruct setupRoutes_parts as [H1 H2]. split; unfold announce.
  - apply keepsOff_bind; [apply keepsOff_calm, calm_get |]. intros c. apply keepsOff_with.
    apply keepsOff_bind; [apply keepsOff_calm, calm_call |]. intros _.
    apply keepsOff_bind; [apply keepsOff_calm, calm_call |]. intros _.
    destruct (_ && _); [done | apply keepsOff_calm, calm_ret].
  - apply frame_bind; [apply frame_calm, calm_get |]. intros c. apply frame_with.
    apply frame_bind; [apply frame_calm, calm_call |]. intros _. apply frame_bind; [apply frame_calm, calm_call |]. intros _.
    destruct (_ && _); [done | apply frame_calm, calm_ret].
Qed.

Lemma frame_setConnection state : frame (setConnection arrayOf state).
Proof.
  unfold setConnection. apply frame_bind.
  - change (onConnectionStateChanged arrayOf state)
      with ((if negb (bool_decide (state = Vpn.Connected)) then onSplit resetSplit else mret tt) ;; announce state).
    apply frame_bind; [by destruct (negb _) |]. intros _.
    destruct (decide (state = Vpn.Connected)) as [-> |]; [apply announce_connected | by apply frame_calm, calm_announce].
  - intros _. apply frame_bind; [done |]. intros old. destruct (_ && _); [done |]. by apply frame_bind.
Qed.

(** Any state but [Connected]: nothing is pending afterwards. *)
Lemma setConnection_off state ps v : state <> Vpn.Connected -> InvAt ps v -> Off (setConnection arrayOf state v).2.
Proof.
  intros Hs Hi. unfold setConnection. rewrite then_eq.
  change (onConnectionStateChanged arrayOf state)
    with ((if negb (bool_decide (state = Vpn.Connected)) then onSplit resetSplit else mret tt) ;; announce state).
  rewrite (bool_decide_eq_false_2 (state = Vpn.Connected)) by done. cbn [negb]. rewrite then_eq. set (v1 := (onSplit resetSplit v).2).
  assert (H1 : InvAt ps v1 /\ m_splitRefreshTimer (v_split v1) = false /\ m_splitRefreshPending (v_split v1) = 0).
  { split; [| done]. destruct Hi as [A1 A2 A3 A4 A5].
    split; cbn [v1 onSplit modify snd v_split v_state v_tasks resetSplit m_splitRefreshTimer m_splitRefreshGeneration m_splitRefreshPending];
      [done | intros g d ip Hin; specialize (A2 g d ip Hin); lia | | done | done].
    symmetry. apply outstanding_above. intros g d ip Hin. specialize (A2 g d ip Hin). lia. }
  clearbody v1. destruct H1 as (H1 & H2 & H3). pose proof (calm_announce state Hs) as Hq.
  pose proof (inv_calm _ ps v1 Hq H1) as H4. destruct (Hq v1) as ((Q1 & Q2 & Q3) & Q4 & Q5 & _).
  rewrite bind_eq. cbn [gets fst snd]. set (v2 := (announce state v1).2) in *. clearbody v2.
  destruct (_ && _) eqn:E.
  - cbn [mret ST_ret snd]. apply (off_of ps); [done |]. apply andb_true_iff in E as [_ E]. apply bool_decide_eq_true in E. by rewrite E.
  - rewrite then_eq. apply off_calm; [apply calm_emit |]. apply (off_of ps); [| done]. destruct H4 as [A1 A2 A3 A4 A5].
    split; cbn [setVState modify snd v_split v_state v_tasks]; [by rewrite Q1, H2 | done | done | by rewrite Q3, H3 | done].
Qed.

Lemma setConnection_on v : Off v -> InvAt Vpn.Connected (setConnection arrayOf Vpn.Connected v).2.
Proof.
  intros Hv. unfold setConnection. rewrite then_eq.
  change (onConnectionStateChanged arrayOf Vpn.Connected) with ((mret tt : ST V unit) ;; announce Vpn.Connected).
  rewrite then_eq. cbn [mret ST_ret snd]. destruct announce_connected as [Ha _]. specialize (Ha v Hv).
  set (v1 := (announce Vpn.Connected v).2) in *. clearbody v1. rewrite bind_eq. cbn [gets fst snd].
  rewrite (bool_decide_eq_false_2 (Vpn.Connected = Vpn.Disconnected)) by done. cbn [andb]. rewrite then_eq.
  apply inv_calm; [apply calm_emit |]. destruct Ha as [Hn Hi]. destruct (Hi Vpn.Connected) as [A1 A2 A3 A4 A5].
  split; cbn [setVState modify snd v_split v_state v_tasks]; done.
Qed.

(** The slots of what the protocol signals follow it from state to state. *)
Lemma dispatch_inv l s t v : filtered s (states l) t -> InvAt s v -> InvAt t (forEach (onSignal arrayOf) l v).2.
Proof.
  revert s v. induction l as [| sig l IH]; intros s v Hf Hi.
  - cbn in Hf. by inversion Hf; subst.
  - change (forEach (onSignal arrayOf) (sig :: l)) with (onSignal arrayOf sig ;; forEach (onSignal arrayOf) l).
    rewrite then_eq. destruct sig as [state | rx tx | | g a]; cbn [states onSignal] in *.
    + inversion Hf as [| ? ? ? ? Hc Hrest]; subst. apply (IH state); [done |].
      destruct (decide (state = Vpn.Connected)) as [-> | Hn].
      * apply setConnection_on. apply (off_of s); [done |]. intros Ev. apply (inv_protocol _ _ Hi) in Ev as ->. done.
      * by apply (setConnection_off state s v Hn Hi).
    + apply (IH s); [done |]. apply inv_calm; [apply calm_emit | done].
    + apply (IH s); [done |]. exact Hi.
    + apply (IH s); [done |]. exact Hi.
Qed.

Lemma dispatch_off l v : Vpn.Connected ∉ states l -> Off v -> Off (forEach (onSignal arrayOf) l v).2.
Proof.
  revert v. induction l as [| sig l IH]; intros v Hn Hv; [done |].
  change (forEach (onSignal arrayOf) (sig :: l)) with (onSignal arrayOf sig ;; forEach (onSignal arrayOf) l).
  rewrite then_eq. destruct sig as [state | rx tx | | g a]; cbn [states onSignal] in *.
  - rewrite not_elem_of_cons in Hn. destruct Hn as [Hn1 Hn2]. apply IH; [done |].
    apply (setConnection_off state Vpn.Unknown); [by intros -> | apply Hv].
  - apply IH; [done |]. by apply off_calm; [apply calm_emit |].
  - by apply IH.
  - by apply IH.
Qed.

Lemma dispatch_frame l : frame (forEach (onSignal arrayOf) l).
Proof.
  induction l as [| sig l IH]; [done |]. apply frame_bind; [| by intros _].
  destruct sig; cbn [onSignal]; try done. apply frame_setConnection.
Qed.

Lemma inv_setProtocol x ps v : InvAt ps v -> InvAt ps (setVProtocol x v).2.
Proof. intros [H1 H2 H3 H4 H5]. by split. Qed.
Lemma off_setProtocol x v : Off v -> Off (setVProtocol x v).2.
Proof. intros [Hn Hi]. split; [done |]. intros ps. apply inv_setProtocol, Hi. Qed.

Lemma drop_signals {A} (m : ST P A) p l :
  p_signals (pBase (m p).2) = p_signals (pBase p) ++ l ->
  drop (length (p_signals (pBase p))) (p_signals (pBase (m p).2)) = l.
Proof. intros ->. by rewrite drop_app_length. Qed.

(** A method of the protocol, with what it signals. *)
Lemma onProtocol_eq {A} (m : ST P A) (dflt : A) v id p l :
  m_vpnProtocol v = Some (id, p) ->
  p_signals (pBase (m p).2) = p_signals (pBase p) ++ l ->
  onProtocol arrayOf m dflt v
    = ((m p).1, (forEach (onSignal arrayOf) l (setVProtocol (Some (id, (m p).2)) v).2).2).
Proof.
  intros Hp Hl. unfold onProtocol. rewrite bind_eq. cbn [gets fst snd]. rewrite Hp.
  pose proof (drop_signals m p l Hl) as Hd. destruct (m p) as [a p']. cbn [fst snd] in *.
  rewrite !then_eq, Hd. done.
Qed.

Lemma onProtocol_inv (m : ST P unit) v : follows pBase m -> Inv v -> is_Some (m_vpnProtocol v) ->
  Inv (onProtocol arrayOf m tt v).2.
Proof.
  intros Hm Hi [[id p] Hp]. destruct (Hm p) as (l & Hl & Hf).
  rewrite (onProtocol_eq m tt v id p l Hp Hl). cbn [snd]. unfold Inv, protocolState.
  rewrite dispatch_frame. cbn [setVProtocol modify snd m_vpnProtocol].
  unfold Inv, protocolState in Hi. rewrite Hp in Hi. apply (dispatch_inv l (p_connectionState (pBase p))); [done |].
  by apply (inv_setProtocol (Some (id, (m p).2))).
Qed.

Lemma keepsOff_stop v : Off v -> is_Some (m_vpnProtocol v) -> Off (onProtocol arrayOf pStop tt v).2.
Proof.
  intros Hv [[id p] Hp]. destruct (stop_signals p) as (l & Hl & Hs).
  rewrite (onProtocol_eq pStop tt v id p l Hp Hl). cbn [snd]. apply dispatch_off; [| by apply off_setProtocol].
  rewrite Hs. case_decide; intros Hin; [by apply elem_of_nil in Hin | by apply list_elem_of_singleton in Hin].
Qed.

Lemma inv_of_off v : Off v -> Inv v.
Proof. intros [_ Hi]. apply Hi. Qed.

Lemma keepsOff_start v : Off v -> is_Some (m_vpnProtocol v) -> Off (startProtocol arrayOf v).2.
Proof.
  intros Hv [[id p] Hp]. unfold startProtocol. rewrite bind_eq.
  destruct (start_signals p) as [Hs _].
  rewrite (onProtocol_eq pStart (Some NoError) v id p [] Hp) by (by rewrite app_nil_r). cbn [fst snd forEach mret ST_ret].
  assert (Hv1 : Off (setVProtocol (Some (id, (pStart p).2)) v).2) by (by apply off_setProtocol).
  destruct (pStart p).1 as [err |]; [| by apply off_calm; [apply calm_fault |]].
  destruct (bool_decide _); [done |]. rewrite then_eq. apply off_calm; [apply calm_emit |].
  apply (setConnection_off Vpn.Error Vpn.Unknown); [done | apply Hv1].
Qed.

(** ** Refreshing *)

Lemma addTasks_eq {A} (f : A -> Task) l (v : V) : forEach (fun x => addTask (f x)) l v = (tt, (setTasks (v_tasks v ++ map f l) v).2).
Proof.
  revert v. induction l as [| x l IH]; intros v; [destruct v; cbn; by rewrite app_nil_r |].
  change (forEach (fun x => addTask (f x)) (x :: l) v) with (forEach (fun x => addTask (f x)) l (addTask (f x) v).2).
  rewrite IH. destruct v. cbn. by rewrite <- app_assoc.
Qed.

Lemma outstanding_refreshes g ds (h : string -> string) :
  outstanding g (map (fun d => LRefresh g d (h d)) ds) = Z.of_nat (length ds).
Proof. unfold outstanding. induction ds as [| d ds IH]; [done |]. cbn. rewrite Z.eqb_refl. cbn. lia. Qed.

Lemma refresh_inv ps v : InvAt ps v -> InvAt ps (refreshSitesRoutes v).2 /\ m_vpnProtocol (refreshSitesRoutes v).2 = m_vpnProtocol v
  /\ v_state (refreshSitesRoutes v).2 = v_state v.
Proof.
  intros Hi. unfold refreshSitesRoutes. rewrite !bind_eq. cbn [gets fst snd]. destruct (_ || _) eqn:E; [done |].
  apply orb_false_iff in E as [E _]. rewrite negb_false_iff, bool_decide_eq_true in E.
  rewrite bind_eq. cbn [gets fst snd]. destruct (_ >? 0) eqn:Ep; [done |].
  rewrite bind_eq. cbn [gets fst snd]. rewrite bind_eq. cbn [gets fst snd]. cbv zeta. rewrite then_eq.
  assert (Hpend : m_splitRefreshPending (v_split v) = 0).
  { rewrite (inv_pending _ _ Hi) in *. unfold outstanding in *. zbool. lia. }
  destruct (bool_decide _).
  - match goal with |- context [(?m1 ;; ?m2) ?w] => pose proof (calm_bind m1 (fun _ => m2)
      (calm_onSplit (setResolved ∅) (fun s => conj eq_refl (conj eq_refl eq_refl))) (fun _ => calm_delta _)) as Hq end.
    match type of Hq with calm ?m => match goal with |- context [onSplit (setResolved ?r) v] =>
      set (v1 := (onSplit (setResolved r) v).2) end end.
    assert (H1 : InvAt ps v1) by (apply inv_calm; [by apply calm_onSplit | done]).
    split; [by apply inv_calm |]. destruct (Hq v1) as (_ & -> & -> & _). done.
  - rewrite bind_eq. cbn [gets fst snd]. rewrite then_eq, addTasks_eq. cbn [snd]. split; [| done].
    destruct Hi as [A1 A2 A3 A4 A5].
    split; cbn [setTasks onSplit modify snd v_split v_state v_tasks setPending setResolved m_splitRefreshTimer m_splitRefreshGeneration m_splitRefreshPending];
      [done | | | | done].
    + intros g d ip. rewrite elem_of_app. intros [Hin | Hin]; [by eapply A2 |].
      apply list_elem_of_fmap in Hin as (d' & Heq & _). simplify_eq. lia.
    + rewrite outstanding_app, outstanding_refreshes. lia.
    + by rewrite E.
Qed.

Lemma elem_removeTask t t' l : t' ∈ removeTask t l -> t' ∈ l.
Proof.
  induction l as [| x l IH]; cbn; [done |]. case_decide; rewrite elem_of_cons; [auto |].
  rewrite elem_of_cons. intros [-> | Hin]; auto.
Qed.

Lemma outstanding_remove g t l : t ∈ l ->
  outstanding g l = outstanding g (removeTask t l) + (if isRefresh g t then 1 else 0).
Proof.
  unfold outstanding. induction l as [| x l IH]; cbn; [by rewrite elem_of_nil |]. rewrite elem_of_cons.
  case_decide as E; [subst; intros _; destruct (isRefresh g t); cbn; lia |]. intros [-> | Hin]; [done |].
  specialize (IH Hin). cbn. destruct (isRefresh g x); cbn; lia.
Qed.

Lemma calm_collect domain ip addresses : calm (collectAnswer domain ip addresses).
Proof.
  unfold collectAnswer. cbv zeta. destruct (negb _).
  - apply calm_bind; [apply calm_get |]. intros mode. apply calm_bind; [by apply calm_onSplit |]. intros _.
    apply calm_bind; [apply calm_onSettings |]. intros _. apply calm_ret.
  - destruct (checkIpSubnetFormat ip); [by apply calm_onSplit | apply calm_ret].
Qed.

(** The answer for a name: the pending count goes down with the lookup. *)
Lemma refreshed_inv g d ip addresses ps v : InvAt ps v -> LRefresh g d ip ∈ v_tasks v ->
  let v1 := (setTasks (removeTask (LRefresh g d ip) (v_tasks v)) v).2 in
  InvAt ps (onRefreshResolved g d ip addresses v1).2
  /\ m_vpnProtocol (onRefreshResolved g d ip addresses v1).2 = m_vpnProtocol v.
Proof.
  intros Hi Hin v1. destruct Hi as [A1 A2 A3 A4 A5].
  pose proof (outstanding_remove (m_splitRefreshGeneration (v_split v)) _ _ Hin) as Ho. cbn [isRefresh] in Ho.
  unfold onRefreshResolved. rewrite bind_eq. cbn [gets fst snd]. rewrite bind_eq. cbn [gets fst snd].
  change (v_split v1) with (v_split v). change (v_state v1) with (v_state v).
  destruct (g =? m_splitRefreshGeneration (v_split v)) eqn:Eg; cbn [negb orb].
  2: { split; [| done]. cbn [mret ST_ret snd].
       split; cbn [v1 setTasks modify snd v_split v_state v_tasks]; [done | | lia | done | done].
       intros g' d' ip' Hin'. eapply A2. by eapply elem_removeTask. }
  assert (Hc : v_state v = Vpn.Connected).
  { destruct (decide (v_state v = Vpn.Connected)) as [| Hn]; [done |]. specialize (A4 Hn).
    unfold outstanding in Ho, A3. lia. }
  rewrite Hc, bool_decide_eq_true_2 by done. cbn [negb]. rewrite then_eq.
  pose proof (calm_collect d ip addresses) as Hq.
  destruct (Hq v1) as ((Q1 & Q2 & Q3) & Q4 & Q5 & l & Q6 & Q7). set (v2 := (collectAnswer d ip addresses v1).2) in *. clearbody v2. clear Hq.
  rewrite bind_eq. cbn [gets fst snd]. rewrite then_eq.
  set (v3 := (onSplit (setPending (m_splitRefreshPending (v_split v2) - 1)) v2).2).
  assert (H3 : InvAt ps v3).
  { unfold v3. split; cbn [onSplit modify snd v_split v_state v_tasks setPending m_splitRefreshTimer m_splitRefreshGeneration m_splitRefreshPending];
      rewrite ?Q1, ?Q2, ?Q3, ?Q4; cbn [v1 setTasks modify snd v_split v_state v_tasks];
      [exact A1 | | | by rewrite Hc | exact A5].
    - intros g' d' ip'. rewrite Q6, elem_of_app. intros [Hin' | Hin']; [apply (A2 g' d' ip'), (elem_removeTask (LRefresh g d ip)); exact Hin' |].
      by apply (proj1 (Forall_forall _ _) Q7) in Hin'.
    - rewrite Q6, outstanding_app, (outstanding_none _ l) by done. cbn [v1 setTasks modify snd v_tasks]. lia. }
  assert (E3 : m_vpnProtocol v3 = m_vpnProtocol v) by (change (m_vpnProtocol v3) with (m_vpnProtocol v2); by rewrite Q5).
  destruct (_ =? 0); [| by split]. rewrite bind_eq. cbn [gets fst snd]. rewrite then_eq.
  assert (H4 : InvAt ps (onSplit (setResolved ∅) v3).2) by (apply inv_calm; [by apply calm_onSplit | done]).
  split; [by apply inv_calm; [apply calm_delta |] |]. rewrite (calm_protocol _ _ (calm_delta _)). done.
Qed.

Lemma inv_frame v v' : InvAt (protocolState v) v' -> m_vpnProtocol v' = m_vpnProtocol v -> Inv v'.
Proof. intros Hi E. unfold Inv, protocolState. by rewrite E. Qed.

Lemma remove_inv t ps v : noRefresh t -> InvAt ps v -> t ∈ v_tasks v ->
  InvAt ps (setTasks (removeTask t (v_tasks v)) v).2.
Proof.
  intros Ht [A1 A2 A3 A4 A5] Hin. pose proof (outstanding_remove (m_splitRefreshGeneration (v_split v)) _ _ Hin) as Ho.
  assert (E : isRefresh (m_splitRefreshGeneration (v_split v)) t = false) by (by destruct t). rewrite E in Ho.
  split; cbn [setTasks modify snd v_split v_state v_tasks]; [done | | lia | done | done].
  intros g' d' ip' Hin'. eapply A2. by eapply elem_removeTask.
Qed.

Lemma deliver_inv t addresses v : Inv v -> t ∈ v_tasks v ->
  Inv (deliver t addresses (setTasks (removeTask t (v_tasks v)) v).2).2.
Proof.
  intros Hi Hin. destruct (decide (noRefresh t)) as [Ht | Ht].
  2: { destruct t as [id | g | | site gw mode ips | g d ip]; try (by destruct Ht).
       destruct (refreshed_inv g d ip addresses _ v Hi Hin) as [H1 H2]. by apply (inv_frame v). }
  pose proof (remove_inv t _ v Ht Hi Hin) as H1. set (v1 := (setTasks _ v).2) in *.
  assert (E1 : m_vpnProtocol v1 = m_vpnProtocol v) by done. clearbody v1.
  apply (inv_frame v); unfold deliver; destruct t as [id | g | | site gw mode ips | g d ip]; try done.
  all: try (assert (Hq : calm (callService FlushDns ;; callService ClearSavedRoutes));
    [apply calm_bind; [apply calm_call | intros _; apply calm_call] |]).
  all: rewrite <- ?E1 in *.
  - rewrite bind_eq. cbn [gets fst snd]. destruct (m_vpnProtocol v1) as [[id' p] |]; [| done].
    destruct (bool_decide _); [| done]. rewrite bind_eq. cbn [gets fst snd]. by apply inv_calm; [apply calm_addSites |].
  - rewrite bind_eq. cbn [gets fst snd]. rewrite bind_eq. cbn [gets fst snd].
    destruct (_ || _) eqn:E; [done |]. apply orb_false_iff in E as [_ E]. rewrite negb_false_iff, bool_decide_eq_true in E.
    rewrite then_eq. destruct (refresh_inv _ v1 H1) as (H2 & H3 & H4). destruct H2 as [A1 A2 A3 A4 A5].
    split; cbn [onSplit modify snd v_split v_state v_tasks startTimer m_splitRefreshTimer m_splitRefreshGeneration m_splitRefreshPending];
      try done. intros _. by rewrite H4.
  - by apply inv_calm.
  - by apply inv_calm; [apply calm_resolved |].
  - rewrite bind_eq. cbn [gets fst snd]. destruct (m_vpnProtocol v1) as [[id' p] |] eqn:E; [| done].
    destruct (bool_decide _); [| done]. rewrite bind_eq. cbn [gets fst snd].
    by rewrite (calm_protocol _ _ (calm_addSites _ _)).
  - rewrite bind_eq. cbn [gets fst snd]. rewrite bind_eq. cbn [gets fst snd].
    destruct (_ || _) eqn:E; [done |]. rewrite then_eq. destruct (refresh_inv _ v1 H1) as (H2 & H3 & H4).
    cbn [onSplit modify snd m_vpnProtocol]. by rewrite H3.
  - by rewrite (calm_protocol _ _ (calm_resolved _ _ _ _ _)).
Qed.

(** ** Connecting *)

Variable tr : string -> string.
Variable tables : PresetTables.
Variable fromName : string -> list QHostAddress.
Variable factory : DockerContainer -> QJsonObject -> option P.
Variable resolving : list string -> ST V (list (list QHostAddress)).
(** Nothing else happens while the presets are resolved. *)
Hypothesis resolving_alone : forall names v, (resolving names v).2 = v.

Lemma calm_flatten b : calm (flattenBucket resolving b).
Proof.
  unfold flattenBucket. destruct (hosts b) as [| h l]; [apply calm_ret |]. apply calm_bind; [| intros a; apply calm_ret].
  intros v. rewrite resolving_alone. repeat split. exists []. by rewrite app_nil_r.
Qed.

Lemma calm_presets settings mode sites : calm (presetSites arrayOf tr tables resolving settings mode sites).
Proof.
  unfold presetSites. destruct (splitPresetsEnabled settings); [apply calm_ret |]. cbv zeta.
  repeat (apply calm_bind; [apply calm_flatten | intros ?]). destruct (bool_decide _); apply calm_ret.
Qed.

Lemma calm_appendSplit : calm (appendSplitTunnelingConfig arrayOf tr tables resolving).
Proof.
  unfold appendSplitTunnelingConfig. apply calm_bind; [apply calm_get |]. intros config.
  destruct (nativeBlock config) as [[config' allowed] |]; [| apply calm_fault].
  apply calm_bind; [apply calm_onConfig |]. intros _. apply calm_bind; [apply calm_get |]. intros settings.
  destruct (manualSites settings config' allowed) as [mode sites].
  apply calm_bind; [apply calm_onConfig |]. intros _. apply calm_bind; [apply calm_onConfig |]. intros _.
  apply calm_bind; [destruct (_ && _); [apply calm_presets | apply calm_ret] |]. intros [include exclude].
  apply calm_bind; [apply calm_onConfig |]. intros _. apply calm_bind; [apply calm_onConfig |]. intros _.
  apply calm_bind; [apply calm_get |]. intros settings'. apply calm_bind; [apply calm_onConfig |]. intros _.
  match goal with |- calm (let '(_, _) := ?x in _) => destruct x as [appsMode apps] end.
  apply calm_bind; [apply calm_onConfig |]. intros _. apply calm_onConfig.
Qed.

Lemma calm_appendKill : calm appendKillSwitchConfig.
Proof.
  unfold appendKillSwitchConfig. apply calm_bind; [apply calm_get |]. intros settings. cbv zeta.
  apply calm_bind; [apply calm_onConfig |]. intros _. apply calm_bind; [apply calm_onConfig |]. intros _. apply calm_onConfig.
Qed.

Lemma calm_remote a : calm (setRemote a).
Proof. intros v. repeat split. exists []. by rewrite app_nil_r. Qed.

Lemma connect_off serverIndex hostName container config ps v : InvAt ps v ->
  Off (connectToVpn arrayOf tr tables fromName factory resolving serverIndex hostName container config v).2.
Proof.
  intros Hi. unfold connectToVpn. rewrite then_eq. apply (inv_calm _ _ _ (calm_remote (getIPAddress fromName hostName))) in Hi.
  set (v1 := (setRemote _ v).2) in *. clearbody v1. rewrite then_eq.
  apply (setConnection_off Vpn.Connecting) in Hi; [| done]. set (v2 := (setConnection _ _ v1).2) in *. clearbody v2.
  rewrite then_eq. apply (off_calm _ _ (calm_onConfig (fun _ => jinsert "serverIndex" (Some (jint serverIndex)) config))) in Hi.
  set (v3 := (onConfig _ v2).2) in *. clearbody v3. rewrite bind_eq. cbn [gets fst snd]. rewrite then_eq.
  match goal with |- context [?m v3] => assert (H4 : Off (m v3).2) end.
  { destruct (m_vpnProtocol v3) as [[id p] |] eqn:E; [| done]. rewrite then_eq. apply off_setProtocol. by apply keepsOff_stop; [| eexists]. }
  match goal with |- context [?m v3] => set (v4 := (m v3).2) in * end. clearbody v4.
  rewrite then_eq. apply (off_calm _ _ calm_appendKill) in H4. set (v5 := (appendKillSwitchConfig v4).2) in *. clearbody v5.
  rewrite then_eq. apply (off_calm _ _ calm_appendSplit) in H4.
  set (v6 := (appendSplitTunnelingConfig _ _ _ _ v5).2) in *. clearbody v6.
  rewrite bind_eq. cbn [gets fst snd]. destruct (factory _ _) as [p |]; rewrite then_eq.
  - apply keepsOff_start; [| by eexists]. destruct H4 as [Hn H4]. split; [done |]. intros ps'. destruct (H4 ps') as [A1 A2 A3 A4 A5]. by split.
  - apply (setConnection_off Vpn.Error Vpn.Unknown); [done |]. apply inv_setProtocol, H4.
Qed.

(** One event. *)
Lemma react_inv e v : Inv v -> vEnabled e v ->
  Inv (vReact arrayOf tr tables fromName factory resolving e v).2.
Proof.
  intros Hi He. destruct e as [i h c cfg | | | e | | t addresses]; cbn [vReact vEnabled] in *.
  - apply inv_of_off. by eapply connect_off.
  - unfold reconnectToVpn. rewrite bind_eq. cbn [gets fst snd]. destruct (m_vpnProtocol v) as [[id p] |] eqn:E; [| done].
    rewrite bind_eq. cbn [gets fst snd]. destruct (negb _); [done |]. rewrite !then_eq. apply inv_of_off.
    pose proof (setConnection_off Vpn.Reconnecting _ v ltac:(done) Hi) as H1.
    assert (E1 : is_Some (m_vpnProtocol (setConnection arrayOf Vpn.Reconnecting v).2)) by (rewrite frame_setConnection, E; by eexists).
    set (v1 := (setConnection _ _ v).2) in *. clearbody v1. destruct E1 as [[id1 p1] E1].
    apply keepsOff_start; [apply keepsOff_stop; [done | by eexists] |].
    destruct (stop_signals p1) as (l & Hl & _). rewrite (onProtocol_eq pStop tt v1 id1 p1 l E1 Hl). cbn [snd].
    rewrite dispatch_frame. by eexists.
  - unfold disconnectFromVpn. rewrite bind_eq. cbn [gets fst snd]. apply inv_of_off.
    destruct (m_vpnProtocol v) as [[id p] |] eqn:E.
    + rewrite !then_eq. apply off_setProtocol, keepsOff_stop; [by apply (setConnection_off Vpn.Disconnecting _ v ltac:(done) Hi) |].
      rewrite frame_setConnection, E. by eexists.
    + by apply (setConnection_off Vpn.Disconnected _ v ltac:(done) Hi).
  - apply onProtocol_inv; [apply react_follows | done | done].
  - destruct (refresh_inv _ v Hi) as (H1 & H2 & _). by apply (inv_frame v).
  - rewrite then_eq. by apply deliver_inv.
Qed.

(** The states the event loop reaches. *)
Inductive vReachable (v0 : V) : V -> Prop :=
| vr_init : vReachable v0 v0
| vr_step v e : vReachable v0 v -> vEnabled e v ->
    vReachable v0 (vReact arrayOf tr tables fromName factory resolving e v).2.

(** A new object; [m_connectionState] has no initial value in the source. *)
Definition newConnection (settings : Settings) (garbage : Vpn.ConnectionState) : V :=
  mkConnection settings None garbage ∅ "" (mkSplit false "" VpnAllSites ∅ ∅ 0 0) [] [] [] 0 false.

End Invariant.

(** ** A refresh gives the same routes in every order of the answers *)

Section Refresh.
Context `{Q : Qt} `{Sv : Service} {P : Type} {Pr : Protocol P}.
Notation V := (VpnConnection P).

(** What a delta asks of the service, when it is there. *)
Definition deltaCalls (there : bool) (gw : string) (installed resolved : gset string) : list IpcCall :=
  let added := elements (resolved ∖ installed) in
  let removed := elements (installed ∖ resolved) in
  if there then
    (if bool_decide (added = []) then [] else [RouteAddList gw added])
    ++ (if bool_decide (removed = []) then [] else [RouteDeleteList gw removed])
  else [].

(** A connection after a delta. *)
Definition patched (resolved : gset string) (v : V) : V :=
  mkConnection (v_settings v) (m_vpnProtocol v) (v_state v) (m_vpnConfiguration v) (m_remoteAddress v)
    (setInstalled resolved (v_split v)) (v_tasks v)
    (v_calls v ++ deltaCalls (ready (v_calls v)) (m_splitRefreshGw (v_split v)) (m_installedSplitRoutes (v_split v)) resolved)
    (v_signals v) (v_next v) (v_fault v).

Lemma delta_patches resolved v : v_state v = Vpn.Connected -> (applySplitRefreshDelta resolved v).2 = patched resolved v.
Proof.
  intros Hc. unfold applySplitRefreshDelta. rewrite bind_eq. cbn [gets fst snd]. rewrite Hc, bool_decide_eq_true_2 by done.
  cbn [negb]. rewrite bind_eq. cbn [gets fst snd]. cbv zeta. rewrite then_eq. unfold patched, deltaCalls.
  destruct (bool_decide (elements (resolved ∖ m_installedSplitRoutes (v_split v)) = [])) eqn:Ea,
    (bool_decide (elements (m_installedSplitRoutes (v_split v) ∖ resolved) = [])) eqn:Er; cbn [andb].
  - cbn. destruct (ready _); by rewrite app_nil_r.
  - rewrite bind_eq. cbn [gets fst snd]. unfold withInterface. cbn [calls VpnConnection_calls onSplit modify snd v_calls].
    destruct (ready (v_calls v)); [reflexivity | cbn; by rewrite app_nil_r].
  - rewrite bind_eq. cbn [gets fst snd]. unfold withInterface. cbn [calls VpnConnection_calls onSplit modify snd v_calls].
    destruct (ready (v_calls v)); [reflexivity | cbn; by rewrite app_nil_r].
  - rewrite bind_eq. cbn [gets fst snd]. unfold withInterface. cbn [calls VpnConnection_calls onSplit modify snd v_calls].
    destruct (ready (v_calls v)); [| cbn; by rewrite app_nil_r].
    unfold callService. rewrite !then_eq. unfold ipc. cbn. by rewrite <- app_assoc.
Qed.

(** What the answer for a name adds to the addresses. *)
Definition contribution (answers : string -> list QHostAddress) (t : Task) : gset string :=
  match t with
  | LRefresh _ domain lastKnownIp =>
      let ip := match firstIPv4 (answers domain) with Some addr => hostToString addr | None => ""%string end in
      if negb (String.eqb ip "") then {[ip]}
      else if checkIpSubnetFormat lastKnownIp then {[lastKnownIp]} else ∅
  | _ => ∅
  end.
Definition contributions (answers : string -> list QHostAddress) (l : list Task) : gset string :=
  ⋃ (map (contribution answers) l).

Definition domainOf (t : Task) : string := match t with LRefresh _ domain _ => domain | _ => "" end.

(** The members a refresh works with. *)
Record Refreshing (g pending : Z) (resolved : gset string) (v w : V) : Prop := {
  rf_state : v_state w = Vpn.Connected;
  rf_generation : m_splitRefreshGeneration (v_split w) = g;
  rf_pending : m_splitRefreshPending (v_split w) = pending;
  rf_resolved : m_splitRefreshResolved (v_split w) = resolved;
  rf_installed : m_installedSplitRoutes (v_split w) = m_installedSplitRoutes (v_split v);
  rf_gw : m_splitRefreshGw (v_split w) = m_splitRefreshGw (v_split v);
  rf_calls : v_calls w = v_calls v
}.

Lemma collect_eq g d ip answers n R v w : Refreshing g n R v w ->
  Refreshing g n (contribution answers (LRefresh g d ip) ∪ R) v (collectAnswer d ip (answers d) w).2.
Proof.
  intros [F1 F2 F3 F4 F5 F6 F7]. unfold collectAnswer. cbn [contribution]. cbv zeta. destruct (negb _).
  - rewrite bind_eq. cbn [gets fst snd]. rewrite !then_eq. unfold onSettings.
    match goal with |- context [addVpnSite ?a ?b ?c ?d] => destruct (addVpnSite a b c d) end.
    split; cbn; try done. by rewrite F4.
  - destruct (checkIpSubnetFormat ip); split; cbn; try done; [by rewrite F4 | rewrite F4; set_solver].
Qed.

(** An answer before the last one is only collected; the last one ends the
    refresh with the delta. *)
Lemma answer_eq g d ip answers n R v w : Refreshing g n R v w ->
  let w' := (deliver (LRefresh g d ip) (answers d) w).2 in
  let R' := contribution answers (LRefresh g d ip) ∪ R in
  if n - 1 =? 0
  then v_state w' = Vpn.Connected /\ m_splitRefreshPending (v_split w') = 0
       /\ m_splitRefreshResolved (v_split w') = ∅ /\ m_installedSplitRoutes (v_split w') = R'
       /\ v_calls w' = v_calls v ++ deltaCalls (ready (v_calls v)) (m_splitRefreshGw (v_split v)) (m_installedSplitRoutes (v_split v)) R'
  else Refreshing g (n - 1) R' v w'.
Proof.
  intros Hw w' R'. pose proof (collect_eq g d ip answers n R v w Hw) as Hc. fold R' in Hc.
  subst w'. cbn [deliver]. unfold onRefreshResolved. destruct Hw as [F1 F2 F3 F4 F5 F6 F7].
  rewrite bind_eq. cbn [gets fst snd]. rewrite bind_eq. cbn [gets fst snd]. rewrite F1, F2, Z.eqb_refl, bool_decide_eq_true_2 by done.
  cbn [negb orb]. rewrite then_eq. set (w1 := (collectAnswer d ip (answers d) w).2) in *. clearbody w1.
  destruct Hc as [C1 C2 C3 C4 C5 C6 C7]. rewrite bind_eq. cbn [gets fst snd]. rewrite then_eq, C3.
  destruct (n - 1 =? 0) eqn:E.
  - rewrite bind_eq. cbn [gets fst snd]. rewrite then_eq.
    rewrite delta_patches by (by cbn). unfold patched. cbn [onSplit modify snd v_split v_state v_calls setInstalled setResolved setPending
      m_splitRefreshPending m_splitRefreshResolved m_installedSplitRoutes m_splitRefreshGw].
    rewrite C1, C4, C5, C6, C7. apply Z.eqb_eq in E. by rewrite E.
  - cbn [mret ST_ret snd]. by split; cbn.
Qed.

Lemma answers_eq g l answers R v w : Refreshing g (Z.of_nat (length l)) R v w -> l <> [] ->
  Forall (fun t => exists d ip, t = LRefresh g d ip) l ->
  let w' := (forEach (fun t => deliver t (answers (domainOf t))) l w).2 in
  let R' := contributions answers l ∪ R in
  v_state w' = Vpn.Connected /\ m_splitRefreshPending (v_split w') = 0
  /\ m_splitRefreshResolved (v_split w') = ∅ /\ m_installedSplitRoutes (v_split w') = R'
  /\ v_calls w' = v_calls v ++ deltaCalls (ready (v_calls v)) (m_splitRefreshGw (v_split v)) (m_installedSplitRoutes (v_split v)) R'.
Proof.
  intros Hw Hne Hl. cbv zeta. revert R w Hw. induction Hl as [| t l (d & ip & ->) Hl IH]; intros R w Hw; [done |].
  change (forEach (fun t => deliver t (answers (domainOf t))) (LRefresh g d ip :: l))
    with (deliver (LRefresh g d ip) (answers d) ;; forEach (fun t => deliver t (answers (domainOf t))) l).
  rewrite then_eq. pose proof (answer_eq g d ip answers _ R v w Hw) as Ha. cbv zeta in Ha.
  unfold contributions. cbn [map union_list foldr]. fold (contributions answers l).
  destruct l as [| t' l'].
  - cbn [length Z.of_nat Z.eqb Z.sub Z.add Z.opp Z.pos_sub Pos.of_succ_nat] in Ha.
    change (contributions answers []) with (∅ : gset string).
    replace (contribution answers (LRefresh g d ip) ∪ ∅ ∪ R) with (contribution answers (LRefresh g d ip) ∪ R) by set_solver.
    exact Ha.
  - rewrite (proj2 (Z.eqb_neq _ _)) in Ha by (cbn [length]; lia).
    specialize (IH ltac:(done) _ _ ltac:(replace (Z.of_nat (length (t' :: l'))) with (Z.of_nat (length (LRefresh g d ip :: t' :: l')) - 1) by (cbn [length]; lia); exact Ha)).
    replace (contribution answers (LRefresh g d ip) ∪ contributions answers (t' :: l') ∪ R)
      with (contributions answers (t' :: l') ∪ (contribution answers (LRefresh g d ip) ∪ R)) by set_solver.
    exact IH.
Qed.

Definition refreshSites (v : V) : list (string * string) := vpnSites (v_settings v) (m_splitRefreshMode (v_split v)).

(** The lookups a refresh starts. *)
Definition lookups (v : V) : list Task :=
  map (fun d => LRefresh (m_splitRefreshGeneration (v_split v)) d (default "" (qmap_lookup d (refreshSites v))))%string
    (removeDuplicates (siteNames (refreshSites v))).

(** The addresses a refresh ends with: the subnets of the list, and for every
    name its first IPv4 address, or the stored one when it did not resolve. *)
Definition refreshed (answers : string -> list QHostAddress) (v : V) : gset string :=
  contributions answers (lookups v) ∪ list_to_set (siteSubnets (refreshSites v)).

Lemma contributions_perm answers l1 l2 : Permutation l1 l2 -> contributions answers l1 = contributions answers l2.
Proof.
  intros Hp. apply set_eq. intros x. unfold contributions. rewrite !elem_of_union_list.
  split; intros (X & HX & Hx); exists X; (split; [| done]);
    apply list_elem_of_fmap in HX as (t & -> & Ht); apply list_elem_of_fmap; exists t; (split; [done |]).
  - by rewrite <- Hp.
  - by rewrite Hp.
Qed.

(** C21 (functional): the outcome of a refresh does not depend on the order of
    the answers.  When it starts, connected and with nothing pending, it asks
    for every name of the list once; after the answers, in any order, the
    installed routes are the addresses of the list, nothing is pending, and
    the service was asked once for the difference. *)
Theorem refresh_any_order (v : V) (answers : string -> list QHostAddress) (order : list Task)
  (Hc : v_state v = Vpn.Connected) (Hp : is_Some (m_vpnProtocol v)) (Hn : m_splitRefreshPending (v_split v) = 0)
  (Ho : Permutation order (lookups v)) :
  let v1 := (refreshSitesRoutes v).2 in
  let v2 := (forEach (fun t => deliver t (answers (domainOf t))) order v1).2 in
  v_tasks v1 = v_tasks v ++ lookups v
  /\ m_installedSplitRoutes (v_split v2) = refreshed answers v
  /\ v_calls v2 = v_calls v ++ deltaCalls (ready (v_calls v)) (m_splitRefreshGw (v_split v)) (m_installedSplitRoutes (v_split v))
                     (refreshed answers v)
  /\ v_state v2 = Vpn.Connected
  /\ m_splitRefreshPending (v_split v2) = 0
  /\ m_splitRefreshResolved (v_split v2) = ∅.
Proof.
  cbv zeta. unfold refreshSitesRoutes. rewrite bind_eq. cbn [gets fst snd]. rewrite bind_eq. cbn [gets fst snd].
  rewrite Hc, (bool_decide_eq_true_2 (Vpn.Connected = Vpn.Connected)), (bool_decide_eq_true_2 (is_Some _)) by done. cbn [negb orb].
  rewrite bind_eq. cbn [gets fst snd]. rewrite Hn. cbn [Z.gtb Z.compare].
  rewrite bind_eq. cbn [gets fst snd]. rewrite bind_eq. cbn [gets fst snd]. cbv zeta. fold (refreshSites v).
  rewrite then_eq. unfold refreshed, lookups in *.
  set (sites := refreshSites v) in *. set (domains := removeDuplicates (siteNames sites)) in *. clearbody domains.
  set (g := m_splitRefreshGeneration (v_split v)) in *.
  set (lks := map (fun d => LRefresh g d (default "" (qmap_lookup d sites)))%string domains) in *.
  assert (Hord : forall w, Refreshing g (Z.of_nat (length order)) (list_to_set (siteSubnets sites)) v w -> order <> [] ->
    let w' := (forEach (fun t => deliver t (answers (domainOf t))) order w).2 in
    m_installedSplitRoutes (v_split w') = contributions answers lks ∪ list_to_set (siteSubnets sites)
    /\ v_calls w' = v_calls v ++ deltaCalls (ready (v_calls v)) (m_splitRefreshGw (v_split v)) (m_installedSplitRoutes (v_split v))
                     (contributions answers lks ∪ list_to_set (siteSubnets sites))
    /\ v_state w' = Vpn.Connected /\ m_splitRefreshPending (v_split w') = 0 /\ m_splitRefreshResolved (v_split w') = ∅).
  { intros w Hw Hne. destruct (answers_eq g order answers _ v w Hw Hne) as (H1 & H2 & H3 & H4 & H5).
    - apply Forall_forall. intros t Ht. rewrite Ho in Ht. apply list_elem_of_fmap in Ht as (d & -> & _). by eexists _, _.
    - rewrite (contributions_perm answers _ _ Ho) in H4, H5. done. }
  destruct domains as [| d ds].
  - apply Permutation_nil_r in Ho as ->. rewrite bool_decide_eq_true_2 by done. cbn [lks map forEach mret ST_ret snd].
    rewrite then_eq, delta_patches by (by cbn). unfold patched. cbn [onSplit modify snd v_split v_state v_calls v_tasks setInstalled setResolved
      m_splitRefreshPending m_splitRefreshResolved m_installedSplitRoutes m_splitRefreshGw].
    change (contributions answers []) with (∅ : gset string). rewrite (left_id_L ∅ (∪)), app_nil_r. repeat split; done.
  - rewrite bool_decide_eq_false_2 by done. rewrite bind_eq. cbn [gets fst snd]. rewrite then_eq, addTasks_eq. cbn [snd].
    split; [done |]. apply Hord.
    + split; try done. cbn. apply Permutation_length in Ho. unfold lks in Ho. rewrite length_map in Ho. by rewrite Ho.
    + intros ->. apply Permutation_nil_l in Ho. done.
Qed.

(** ** What the service makes of a delta *)

(** The routes a service has, as the application sees it. *)
Definition routesAfter (R : gset (string * string)) (c : IpcCall) : gset (string * string) :=
  match c with
  | RouteAddList gw ips => R ∪ list_to_set (map (fun ip => (gw, ip)) ips)
  | RouteDeleteList gw ips => R ∖ list_to_set (map (fun ip => (gw, ip)) ips)
  | ClearSavedRoutes => ∅
  | _ => R
  end.

Lemma elem_via (gw gw' ip : string) l : (gw', ip) ∈ (list_to_set (map (fun ip => (gw, ip)) l) : gset (string * string)) <-> gw' = gw /\ ip ∈ l.
Proof.
  rewrite elem_of_list_to_set. setoid_rewrite list_elem_of_fmap.
  split; [intros (x & ? & Hx); by simplify_eq | intros [-> Hin]; by exists ip].
Qed.

End Refresh.
