(* ===== verification/VpnClient.v ===== *)
(** * Connecting and disconnecting: what the operations leave

    [VpnConnection.v] with the protocols of [VpnProtocol::factory]
    ([client/protocols/vpnprotocol.cpp]): what [connectToVpn] and
    [disconnectFromVpn] leave whatever was going on, the configurations that
    make the program index outside a list, and the way of a site list from the
    settings to the networks the daemon is asked for. *)

From Stdlib Require Import ZArith Lia Bool String Ascii.
From stdpp Require Import base gmap strings list sorting.
From S2P Require Import Prelude.
From S2P Require Import Qt.
From S2P Require Import QtInstance.
From S2P Require Import IPAddress.
From S2P Require Import InterfaceConfig.
From S2P Require Import NetworkUtilities.
From S2P Require Import Daemon.
From S2P Require Import LocalSocket.
From S2P Require Import VpnProtocol.
From S2P Require Import Ipc.
From S2P Require Import Settings.
From S2P Require Import XrayProtocol.
From S2P Require Import SplitTunnel.
From S2P Require Import VpnConnection.

Open Scope Z_scope.

(** ** The protocols *)

Inductive AnyProtocol : Type := PWireguard (w : Wireguard) | PXray (x : XrayProtocol.Xray).

(** A virtual method. *)
Definition onEither {A} (onWireguard : ST Wireguard A) (onXray : ST XrayProtocol.Xray A) : ST AnyProtocol A := fun p =>
  match p with
  | PWireguard w => let '(a, w') := onWireguard w in (a, PWireguard w')
  | PXray x => let '(a, x') := onXray x in (a, PXray x')
  end.

Definition baseOf (p : AnyProtocol) : VpnProtocol :=
  match p with PWireguard w => wg_base w | PXray x => x_base x end.

Section Factory.
Context `{Q : Qt} `{Sv : Service}.
Variable fromName : string -> list QHostAddress.
Variable dateFromString : string -> option Z.
(** [getGatewayAndIface().first] *)
Variable gateway : string.

Definition factory (container : DockerContainer) (configuration : QJsonObject) : option AnyProtocol :=
  match container with
  | WireGuard | Awg2 | Awg => Some (PWireguard (newWireguard configuration))
  | Settings.Xray | SSXray => Some (PXray (newXray fromName gateway configuration))
  | _ => None
  end.

(** An event of one class of objects never reaches one of the other. *)
Definition anyReact (e : option CEvent + XrayEvent) : ST AnyProtocol unit :=
  match e with
  | inl e => onEither (wgReact dateFromString e) (mret tt)
  | inr e => onEither (mret tt) (xReact e)
  end.

#[export] Instance Any_Protocol : Protocol AnyProtocol := {|
  pBase := baseOf;
  pRouteGateway p := match p with PWireguard w => pRouteGateway (Protocol := Wireguard_Protocol fromName dateFromString) w
                                | PXray x => pRouteGateway x end;
  pStart := onEither (pStart (Protocol := Wireguard_Protocol fromName dateFromString)) pStart;
  pStop := onEither (pStop (Protocol := Wireguard_Protocol fromName dateFromString)) pStop;
  pEvent := option CEvent + XrayEvent;
  pReact := anyReact
|}.

Lemma onEither_snd {A} (mw : ST Wireguard A) (mx : ST XrayProtocol.Xray A) p :
  (onEither mw mx p).2 = match p with PWireguard w => PWireguard (mw w).2 | PXray x => PXray (mx x).2 end.
Proof. destruct p as [w | x]; cbn; [by destruct (mw w) | by destruct (mx x)]. Qed.

Lemma follows_either {A} (mw : ST Wireguard A) (mx : ST XrayProtocol.Xray A) :
  follows wg_base mw -> follows x_base mx -> follows baseOf (onEither mw mx).
Proof. intros Hw Hx [w | x]; rewrite onEither_snd; [apply Hw | apply Hx]. Qed.

#[export] Instance Any_laws : ProtocolLaws Any_Protocol.
Proof.
  pose proof (Wireguard_laws fromName dateFromString) as [W1 W2 W3 W4]. destruct Xray_laws as [X1 X2 X3 X4].
  split; cbn [pBase pStop pStart pReact Any_Protocol].
  - intros [w | x]; rewrite onEither_snd; [apply W1 | apply X1].
  - intros [w | x]; rewrite onEither_snd; [apply W2 | apply X2].
  - intros [w | x]; rewrite onEither_snd; [apply W3 | apply X3].
  - intros [e | e]; apply follows_either; first [apply W4 | apply X4 | apply follows_ret].
Qed.
End Factory.

(** ** A change to a state other than [Connected] *)

Section Outcomes.
Context `{Q : Qt} `{Sv : Service} {P : Type} {Pr : Protocol P} {Laws : ProtocolLaws Pr}.
Notation V := (VpnConnection P).
Variable arrayOf : string -> list json.

(** The end of a reconnection's old tunnel is not reported. *)
Definition hidden (state old : Vpn.ConnectionState) : bool :=
  bool_decide (state = Vpn.Disconnected) && bool_decide (old = Vpn.Reconnecting).

Definition clears (state : Vpn.ConnectionState) : bool :=
  match state with Vpn.Disconnected | Vpn.Error => true | _ => false end.

(** A connection that went to the state. *)
Definition left_for (state : Vpn.ConnectionState) (v : V) : V :=
  mkConnection (v_settings v) (m_vpnProtocol v) (if hidden state (v_state v) then v_state v else state)
    (m_vpnConfiguration v) (m_remoteAddress v) (resetSplit (v_split v))
    (v_tasks v ++ (if ready (v_calls v) && clears state then [TClear] else [])) (v_calls v)
    (v_signals v ++ (if hidden state (v_state v) then [] else [VState state])) (v_next v) (v_fault v).

Lemma setConnection_eq state v : state <> Vpn.Connected -> (setConnection arrayOf state v).2 = left_for state v.
Proof.
  intros Hs. unfold setConnection. rewrite then_eq.
  change (onConnectionStateChanged arrayOf state)
    with ((if negb (bool_decide (state = Vpn.Connected)) then onSplit resetSplit else mret tt) ;; announce arrayOf state).
  rewrite (bool_decide_eq_false_2 (state = Vpn.Connected)) by done. cbn [negb]. rewrite then_eq.
  assert (Ha : forall w : V, (announce arrayOf state w).2
    = (setTasks (v_tasks w ++ (if ready (v_calls w) && clears state then [TClear] else [])) w).2).
  { intros w. unfold announce. rewrite bind_eq. cbn [gets fst snd]. unfold withInterface.
    change (calls w) with (v_calls w). destruct (ready (v_calls w)), state, w; cbn; rewrite ?app_nil_r; done. }
  rewrite Ha. rewrite bind_eq. cbn [gets fst snd]. unfold left_for. fold (hidden state (v_state v)).
  change (v_state (setTasks ?l ?w).2) with (v_state w). change (v_state (onSplit resetSplit v).2) with (v_state v).
  fold (hidden state (v_state v)). destruct (hidden _ _); [| reflexivity]. cbn. by rewrite app_nil_r.
Qed.

(** What a stopped protocol tells the connection. *)
Definition stopped (v : V) (p : P) : V :=
  if decide (p_connectionState (pBase p) = Vpn.Disconnected) then v else left_for Vpn.Disconnected v.

(** A connection but for what it has signalled. *)
Definition silent (v : V) : V :=
  mkConnection (v_settings v) (m_vpnProtocol v) (v_state v) (m_vpnConfiguration v) (m_remoteAddress v)
    (v_split v) (v_tasks v) (v_calls v) [] (v_next v) (v_fault v).

Lemma silent_left state v w : silent v = silent w -> silent (left_for state v) = silent (left_for state w).
Proof. unfold silent, left_for. cbn. intros E. by injection E as -> -> -> -> -> -> -> -> -> ->. Qed.

(** Slots of the signals of a stop. *)
Lemma dispatch_stop l (v : V) (p : P) :
  states l = (if decide (p_connectionState (pBase p) = Vpn.Disconnected) then [] else [Vpn.Disconnected]) ->
  silent (forEach (onSignal arrayOf) l v).2 = silent (stopped v p).
Proof.
  assert (Hno : forall l v, states l = [] -> silent (forEach (onSignal arrayOf) l v).2 = silent v).
  { clear. intros l. induction l as [| s l IH]; intros v Hl; [done |].
    change (forEach (onSignal arrayOf) (s :: l)) with (onSignal arrayOf s ;; forEach (onSignal arrayOf) l). rewrite then_eq.
    destruct s; cbn [states onSignal] in *; try done; by rewrite IH. }
  unfold stopped. destruct (decide _) as [E | E]; [apply Hno |]. clear E. revert v.
  induction l as [| s l IH]; intros v Hl; [done |].
  change (forEach (onSignal arrayOf) (s :: l)) with (onSignal arrayOf s ;; forEach (onSignal arrayOf) l). rewrite then_eq.
  destruct s as [st | rx tx | | g a]; cbn [states onSignal] in *; [| | by apply IH | by apply IH].
  - injection Hl as -> Hl. by rewrite (Hno _ _ Hl), setConnection_eq.
  - rewrite IH by done. by apply silent_left.
Qed.

(** [m_vpnProtocol->stop()] *)
Lemma stop_leaves v id p : m_vpnProtocol v = Some (id, p) ->
  silent (onProtocol arrayOf pStop tt v).2 = silent (stopped (setVProtocol (Some (id, (pStop p).2)) v).2 p).
Proof.
  intros Hp. destruct (stop_signals p) as (l & Hl & Hs). rewrite (onProtocol_eq arrayOf pStop tt v id p l Hp Hl). cbn [snd].
  by apply dispatch_stop.
Qed.

(** [m_vpnProtocol->start()] signals nothing by itself. *)
Lemma start_leaves v id p : m_vpnProtocol v = Some (id, p) ->
  (startProtocol arrayOf v).2 =
    let w := (setVProtocol (Some (id, (pStart p).2)) v).2 in
    match (pStart p).1 with
    | None => (fault w).2
    | Some err => if bool_decide (err = NoError) then w else (emitV (VError err) (left_for Vpn.Error w)).2
    end.
Proof.
  intros Hp. unfold startProtocol. rewrite bind_eq. destruct (start_signals p) as [Hs _].
  rewrite (onProtocol_eq arrayOf pStart (Some NoError) v id p [] Hp) by (by rewrite app_nil_r).
  cbn [fst snd forEach mret ST_ret]. destruct (pStart p).1 as [err |]; [| done].
  destruct (bool_decide _); [done |]. by rewrite then_eq, setConnection_eq.
Qed.

Lemma disconnect_leaves v id p : m_vpnProtocol v = Some (id, p) ->
  silent (disconnectFromVpn arrayOf v).2 = silent (setVProtocol None (stopped (left_for Vpn.Disconnecting v) p)).2.
Proof.
  intros Hp. unfold disconnectFromVpn. rewrite bind_eq. cbn [gets fst snd]. rewrite Hp, !then_eq, setConnection_eq by done.
  pose proof (stop_leaves (left_for Vpn.Disconnecting v) id p Hp) as Hs.
  assert (Hset : forall w w', silent w = silent w' -> silent (setVProtocol None w).2 = silent (setVProtocol None w').2).
  { intros w w' E. unfold silent in *. cbn. by injection E as -> ? -> -> -> -> -> -> -> ->. }
  rewrite (Hset _ _ Hs). unfold stopped. by destruct (decide _).
Qed.

Lemma silent_state v w : silent v = silent w ->
  v_state v = v_state w /\ m_vpnProtocol v = m_vpnProtocol w /\ v_split v = v_split w /\ v_tasks v = v_tasks w
  /\ v_calls v = v_calls w /\ m_vpnConfiguration v = m_vpnConfiguration w /\ v_settings v = v_settings w /\ v_fault v = v_fault w.
Proof. unfold silent. intros E. by injection E. Qed.

Lemma disconnect_ends v id p : m_vpnProtocol v = Some (id, p) ->
  m_vpnProtocol (disconnectFromVpn arrayOf v).2 = None
  /\ v_state (disconnectFromVpn arrayOf v).2
     = (if decide (p_connectionState (pBase p) = Vpn.Disconnected) then Vpn.Disconnecting else Vpn.Disconnected).
Proof.
  intros Hp. destruct (silent_state _ _ (disconnect_leaves v id p Hp)) as (-> & -> & _).
  split; [done |]. unfold stopped. by destruct (decide _).
Qed.

Lemma disconnect_again v : m_vpnProtocol v = None -> v_state v <> Vpn.Reconnecting ->
  v_state (disconnectFromVpn arrayOf v).2 = Vpn.Disconnected.
Proof.
  intros Hp Hs. unfold disconnectFromVpn. rewrite bind_eq. cbn [gets fst snd]. rewrite Hp, setConnection_eq by done.
  cbn [left_for v_state]. unfold hidden. by rewrite (bool_decide_eq_false_2 (v_state v = Vpn.Reconnecting)), andb_false_r.
Qed.

(** What a disconnection leaves.  The protocol object is gone,
    the refreshes are over and the next answers of theirs are outdated.  The
    state is [Disconnected] if the protocol was not, for only then does it
    signal; otherwise the connection stays [Disconnecting], until the next
    request to disconnect. *)
Theorem disconnect_outcome (v : V) (id : nat) (p : P) (Hp : m_vpnProtocol v = Some (id, p)) :
  let v1 := (disconnectFromVpn arrayOf v).2 in
  let v2 := (disconnectFromVpn arrayOf v1).2 in
  m_vpnProtocol v1 = None
  /\ v_state v1 = (if decide (p_connectionState (pBase p) = Vpn.Disconnected) then Vpn.Disconnecting else Vpn.Disconnected)
  /\ m_splitRefreshTimer (v_split v1) = false
  /\ m_splitRefreshPending (v_split v1) = 0
  /\ m_installedSplitRoutes (v_split v1) = ∅
  /\ m_splitRefreshGeneration (v_split v1) > m_splitRefreshGeneration (v_split v)
  /\ v_state v2 = Vpn.Disconnected.
Proof.
  intros v1 v2. destruct (disconnect_ends v id p Hp) as [H1 H2]. fold v1 in H1, H2.
  destruct (silent_state _ _ (disconnect_leaves v id p Hp)) as (_ & _ & H3 & _). fold v1 in H3.
  split; [exact H1 |]. split; [exact H2 |].
  assert (Hv : exists n, 0 < n /\ v_split v1
    = mkSplit false (m_splitRefreshGw (v_split v)) (m_splitRefreshMode (v_split v)) ∅ ∅ (m_splitRefreshGeneration (v_split v) + n) 0).
  { rewrite H3. unfold stopped. destruct (decide _); [by exists 1 |]. exists 2. split; [lia |].
    cbn. unfold resetSplit at 1. cbn. f_equal. lia. }
  destruct Hv as (n & Hn & ->). cbn. repeat split; [lia |].
  apply disconnect_again; [done |]. rewrite H2. by destruct (decide _).
Qed.

(** Cancelling a reconnection.  While the protocol is started again
    after [reconnectToVpn], it is [Disconnected] and its end is not reported;
    a disconnection then leaves the connection [Disconnecting] with no
    protocol that could ever report, and only a second one is answered. *)
Theorem cancelled_reconnection (v : V) (id : nat) (p : P)
  (Hp : m_vpnProtocol v = Some (id, p)) (Hc : v_state v = Vpn.Connected)
  (Hs : (pStart (pStop p).2).1 = Some NoError) (Hpc : p_connectionState (pBase p) = Vpn.Connected) :
  let v1 := (reconnectToVpn arrayOf v).2 in
  let v2 := (disconnectFromVpn arrayOf v1).2 in
  let v3 := (disconnectFromVpn arrayOf v2).2 in
  (v_state v1 = Vpn.Reconnecting /\ is_Some (m_vpnProtocol v1))
  /\ (v_state v2 = Vpn.Disconnecting /\ m_vpnProtocol v2 = None)
  /\ v_state v3 = Vpn.Disconnected.
Proof.
  intros v1 v2 v3.
  assert (H1 : v_state v1 = Vpn.Reconnecting /\ m_vpnProtocol v1 = Some (id, (pStart (pStop p).2).2)).
  { subst v1. unfold reconnectToVpn. rewrite bind_eq. cbn [gets fst snd]. rewrite Hp, bind_eq. cbn [gets fst snd].
    rewrite Hc, bool_decide_eq_true_2 by done. cbn [negb]. rewrite !then_eq, setConnection_eq by done.
    destruct (silent_state _ _ (stop_leaves (left_for Vpn.Reconnecting v) id p Hp)) as (A1 & A2 & _).
    set (w := (onProtocol _ _ _ _).2) in *. clearbody w.
    assert (A3 : m_vpnProtocol w = Some (id, (pStop p).2)) by (rewrite A2; unfold stopped; by destruct (decide _)).
    rewrite (start_leaves w id _ A3), Hs, bool_decide_eq_true_2 by done. cbv zeta.
    split; [| done]. cbn [setVProtocol modify snd v_state]. rewrite A1. unfold stopped. rewrite decide_False by (by rewrite Hpc).
    done. }
  destruct H1 as [H1 E1]. split; [split; [done | by eexists] |].
  destruct (start_signals (pStop p).2) as [_ Hstate]. rewrite stop_state in Hstate.
  destruct (disconnect_ends v1 id _ E1) as [H2 H3]. fold v2 in H2, H3. rewrite decide_True in H3 by done.
  split; [done |]. apply disconnect_again; [done |]. by rewrite H3.
Qed.

Lemma with_ready {A} (m : ST V A) (a : A) w : (forall h, ready h = true) -> withInterface m a w = m w.
Proof. intros Hr. unfold withInterface. by rewrite Hr. Qed.

Lemma onSettings_snd {A} (m : ST Settings A) (w : V) :
  (onSettings m w).2 = mkConnection (m (v_settings w)).2 (m_vpnProtocol w) (v_state w) (m_vpnConfiguration w) (m_remoteAddress w)
    (v_split w) (v_tasks w) (v_calls w) (v_signals w) (v_next w) (v_fault w).
Proof. unfold onSettings. by destruct (m (v_settings w)). Qed.

Lemma disconnect_keeps v id p : m_vpnProtocol v = Some (id, p) ->
  v_calls (disconnectFromVpn arrayOf v).2 = v_calls v
  /\ exists l, v_tasks (disconnectFromVpn arrayOf v).2 = v_tasks v ++ l.
Proof.
  intros Hp. destruct (silent_state _ _ (disconnect_leaves v id p Hp)) as (_ & _ & _ & -> & -> & _).
  unfold stopped. destruct (decide _); (split; [done |]); cbn; rewrite <- ?app_assoc; by eexists.
Qed.

(** An answer for a site that comes after the disconnection is
    still handled.  Unlike those of a refresh, the lookups of [addSitesRoutes]
    carry no generation: the answer adds a route through the gateway of the
    ended tunnel, and the address to the routes that count as installed. *)
Theorem late_answer (v : V) (id : nat) (p : P) (site gw : string) (mode : RouteMode) (ips : list string)
  (addresses : list QHostAddress) (addr : QHostAddress)
  (Hp : m_vpnProtocol v = Some (id, p)) (Ht : LAdd site gw mode ips ∈ v_tasks v)
  (Ha : firstIPv4 addresses = Some addr) (Hn : hostToString addr ∉ ips) (Hr : forall h, ready h = true) :
  let v1 := (disconnectFromVpn arrayOf v).2 in
  let v2 := (deliver (LAdd site gw mode ips) addresses v1).2 in
  LAdd site gw mode ips ∈ v_tasks v1
  /\ v_state v2 <> Vpn.Connected
  /\ m_vpnProtocol v2 = None
  /\ m_installedSplitRoutes (v_split v2) = {[hostToString addr]} ∪ m_installedSplitRoutes (v_split v1)
  /\ v_calls v2 = v_calls v ++ [RouteAddList gw [hostToString addr]; FlushDns].
Proof.
  intros v1 v2. destruct (disconnect_ends v id p Hp) as [H1 H2]. destruct (disconnect_keeps v id p Hp) as [H3 [l H4]].
  fold v1 in H1, H2, H3, H4.
  split; [rewrite H4; apply elem_of_app; by left |].
  assert (Hs : v_state v1 <> Vpn.Connected) by (rewrite H2; by destruct (decide _)).
  revert v2 H1 H3 Hs. clear H2 H4. clearbody v1. intros v2 H1 H3 Hs. subst v2. cbn [deliver]. unfold onSiteResolved. rewrite Ha.
  cbv zeta. rewrite bool_decide_eq_false_2 by done. rewrite !then_eq.
  rewrite !(with_ready _ _ _ Hr), !onSettings_snd. repeat split; [done | done |].
  transitivity ((v_calls v1 ++ [RouteAddList gw [hostToString addr]]) ++ [FlushDns]); [done |].
  rewrite H3. by rewrite <- app_assoc.
Qed.

(** ** Connecting *)

Variable tr : string -> string.
Variable tables : PresetTables.
Variable fromName : string -> list QHostAddress.
Variable factory : DockerContainer -> QJsonObject -> option P.
Variable resolving : list string -> ST V (list (list QHostAddress)).
Notation connect := (connectToVpn arrayOf tr tables fromName factory resolving).

(** The end of [connectToVpn]: a new protocol, started. *)
Definition launchProtocol (container : DockerContainer) : ST V unit :=
  config ← gets m_vpnConfiguration;
  match factory container config with
  | None => setVProtocol None ;; setConnection arrayOf Vpn.Error
  | Some p => newVProtocol p ;; startProtocol arrayOf
  end.

(** What it does before. *)
Definition prepareConnection (serverIndex : Z) (hostName : string) (vpnConfiguration : QJsonObject) : ST V unit :=
  setRemote (getIPAddress fromName hostName) ;;
  setConnection arrayOf Vpn.Connecting ;;
  onConfig (fun _ => jinsert "serverIndex" (Some (jint serverIndex)) vpnConfiguration) ;;
  protocol ← gets m_vpnProtocol;
  (match protocol with
   | Some _ => onProtocol arrayOf pStop tt ;; setVProtocol None
   | None => mret tt
   end) ;;
  appendKillSwitchConfig ;;
  appendSplitTunnelingConfig arrayOf tr tables resolving.

Lemma connect_eq i host container config v : connect i host container config v = launchProtocol container (prepareConnection i host config v).2.
Proof. unfold connectToVpn, prepareConnection. by rewrite ?then_eq, ?bind_eq, ?then_eq. Qed.

(** What a launchProtocol leaves of the connection [w]. *)
Lemma launch_eq container w :
  (launchProtocol container w).2 =
    match factory container (m_vpnConfiguration w) with
    | None => left_for Vpn.Error (setVProtocol None w).2
    | Some p =>
        let w' := mkConnection (v_settings w) (Some (v_next w, (pStart p).2)) (v_state w) (m_vpnConfiguration w) (m_remoteAddress w)
          (v_split w) (v_tasks w) (v_calls w) (v_signals w) (Datatypes.S (v_next w)) (v_fault w) in
        match (pStart p).1 with
        | None => (fault w').2
        | Some err => if bool_decide (err = NoError) then w' else (emitV (VError err) (left_for Vpn.Error w')).2
        end
    end.
Proof.
  unfold launchProtocol. rewrite bind_eq. cbn [gets fst snd]. destruct (factory _ _) as [p |]; rewrite then_eq.
  - by rewrite (start_leaves (newVProtocol p w).2 (v_next w) p eq_refl).
  - by rewrite setConnection_eq.
Qed.

(** Every request to connect is carried out.  Whatever happens
    while the presets are resolved, a disconnection included, [connectToVpn]
    ends with the protocol of the container started, for the configuration
    that is stored then; with an error, reported, when it does not start; or
    in [Error] without a protocol when there is none for the container. *)
Theorem connect_outcome (i : Z) (host : string) (container : DockerContainer) (config : QJsonObject) (v : V) :
  let v' := (connect i host container config v).2 in
  match factory container (m_vpnConfiguration v') with
  | None => m_vpnProtocol v' = None /\ v_state v' = Vpn.Error
  | Some p =>
      (exists id, m_vpnProtocol v' = Some (id, (pStart p).2))
      /\ match (pStart p).1 with
         | None => v_fault v' = true
         | Some NoError => True
         | Some err => v_state v' = Vpn.Error /\ exists l, v_signals v' = l ++ [VState Vpn.Error; VError err]
         end
  end.
Proof.
  cbv zeta. rewrite connect_eq, launch_eq. set (w := (prepareConnection i host config v).2). clearbody w.
  destruct (factory container (m_vpnConfiguration w)) as [p |] eqn:E.
  - cbv zeta. set (w' := mkConnection _ _ _ _ _ _ _ _ _ _ _).
    assert (Hw : m_vpnConfiguration w' = m_vpnConfiguration w /\ m_vpnProtocol w' = Some (v_next w, (pStart p).2)) by done.
    clearbody w'. destruct Hw as [Hw1 Hw2]. destruct (pStart p).1 as [err |] eqn:Ep.
    + case_bool_decide as Ee.
      * subst err. rewrite Hw1, E, Ep. split; [by eexists | done].
      * cbn [emitV left_for modify snd m_vpnConfiguration m_vpnProtocol v_state v_signals]. rewrite Hw1, E, Ep.
        split; [by eexists |]. assert (Hl : v_signals w' ++ (if hidden Vpn.Error (v_state w') then [] else [VState Vpn.Error]) = v_signals w' ++ [VState Vpn.Error]) by done.
        destruct err; try done; (split; [done |]); exists (v_signals w'); rewrite Hl; by rewrite <- app_assoc.
    + cbn [fault modify snd m_vpnConfiguration m_vpnProtocol v_fault]. rewrite Hw1, E, Ep. split; [by eexists | done].
  - cbn. by rewrite E.
Qed.

(** Nothing else happens while the presets are resolved. *)
Hypothesis resolving_alone : forall names v, (resolving names v).2 = v.

Lemma prepared_state i host config v :
  v_state (prepareConnection i host config v).2 =
    match m_vpnProtocol v with
    | Some (_, p) => if decide (p_connectionState (pBase p) = Vpn.Disconnected) then Vpn.Connecting else Vpn.Disconnected
    | None => Vpn.Connecting
    end.
Proof.
  assert (Hcalm : forall {A} (m : ST V A) w, calm m -> v_state (m w).2 = v_state w).
  { intros A m w Hq. by destruct (Hq w) as (_ & ? & _). }
  unfold prepareConnection. rewrite !then_eq, setConnection_eq by done. rewrite bind_eq. cbn [gets fst snd].
  set (v1 := (onConfig _ _).2). change (m_vpnProtocol v1) with (m_vpnProtocol v).
  assert (Hv1 : v_state v1 = Vpn.Connecting) by done. assert (Hp1 : m_vpnProtocol v1 = m_vpnProtocol v) by done. clearbody v1.
  rewrite then_eq, then_eq, (Hcalm _ _ _ (calm_appendSplit arrayOf tr tables resolving resolving_alone)), (Hcalm _ _ _ calm_appendKill).
  rewrite <- Hp1. destruct (m_vpnProtocol v1) as [[id p] |] eqn:E; [| exact Hv1]. rewrite then_eq.
  change (v_state (setVProtocol None ?w).2) with (v_state w).
  destruct (silent_state _ _ (stop_leaves v1 id p E)) as (-> & _). unfold stopped. destruct (decide _); [exact Hv1 |].
  cbn [left_for v_state setVProtocol modify snd]. unfold hidden. by rewrite Hv1.
Qed.

(** Connecting while a tunnel is up.  [connectToVpn] says
    [Connecting] and then stops the old protocol, whose signals are still
    connected: its end is reported after it, so that the connection is
    [Disconnected] while the new protocol starts.  Without an old protocol, or
    with one that is [Disconnected], it stays [Connecting]. *)
Theorem connect_reports (i : Z) (host : string) (container : DockerContainer) (config : QJsonObject) (v : V) (p : P)
  (Hf : factory container (m_vpnConfiguration (connect i host container config v).2) = Some p)
  (Hs : (pStart p).1 = Some NoError) :
  v_state (connect i host container config v).2 =
    match m_vpnProtocol v with
    | Some (_, old) => if decide (p_connectionState (pBase old) = Vpn.Disconnected) then Vpn.Connecting else Vpn.Disconnected
    | None => Vpn.Connecting
    end.
Proof.
  rewrite <- (prepared_state i host config v). rewrite connect_eq, launch_eq in *.
  set (w := (prepareConnection i host config v).2) in *. clearbody w.
  destruct (factory container (m_vpnConfiguration w)) as [p' |] eqn:E.
  - assert (p' = p) as ->.
    { cbv zeta in Hf. destruct (pStart p').1 as [err |]; [destruct (bool_decide _) |]; cbn in Hf; rewrite E in Hf; by injection Hf. }
    by rewrite Hs.
  - cbn in Hf. by rewrite E in Hf.
Qed.
End Outcomes.

(** ** Old configurations *)

Section Native.

Lemma contains_eq sep s : str_contains sep s = match s with
  | EmptyString => String.prefix sep ""
  | String c s' => String.prefix sep s || str_contains sep s'
  end.
Proof.
  unfold str_contains. destruct s as [| c s]; [destruct sep; done |]. cbn [String.index].
  destruct (String.prefix sep (String c s)); [done |]. by destruct (String.index 0 sep s).
Qed.

(** A text splits in two exactly when it has the separator. *)
Lemma split_second c sep s : (splitText (String c sep) s 0 !! 1%nat = None) <-> str_contains (String c sep) s = false.
Proof.
  assert (Hne : forall s k, splitText (String c sep) s k <> []).
  { intros t. induction t as [| d t IH]; intros [| k]; cbn [splitText]; [done | done | | apply IH].
    destruct (String.prefix _ _); [done |]. by destruct (splitText _ _ _). }
  induction s as [| d s IH]; [done |]. rewrite contains_eq. cbn [splitText]. destruct (String.prefix _ _); cbn [orb].
  - specialize (Hne s (String.length (String c sep) - 1)%nat). by destruct (splitText _ _ _).
  - rewrite <- IH. by destruct (splitText _ s 0).
Qed.

(** The first line with the key, which is the one that is read, has no value. *)
Definition badLine (key config : string) : bool :=
  match List.find (str_contains key) (split newline config) with
  | Some line => negb (str_contains " = " line)
  | None => false
  end.

Lemma native_bad key config : nativeValue key config = Some None <-> badLine key config = true.
Proof.
  unfold nativeValue, badLine. destruct (List.find _ _) as [line |]; [| done]. rewrite negb_true_iff, <- split_second.
  destruct (splitText _ _ _ !! _); split; intros E; by simplify_eq.
Qed.

Definition nativeKind (config : QJsonObject) : bool :=
  let name := qdata (toString (value config "protocol")) in String.eqb name "awg" || String.eqb name "wireguard".

(** The configurations with which [appendSplitTunnelingConfig]
    indexes outside a list.  They are the ones of WireGuard whose native text
    is asked for the allowed networks or for the keep-alive interval, and has a
    line with that key but without [ = ]: the test of the code, [size() < 1],
    is never true. *)
Theorem native_fault (config : QJsonObject) :
  let configData := wgConfigOf config in
  let text := qdata (toString (value configData "config")) in
  nativeBlock config = None <->
    nativeKind config = true
    /\ ((isUndefined (value configData "allowed_ips") = true /\ badLine "AllowedIPs" text = true)
        \/ (isUndefined (value configData "persistent_keep_alive") = true /\ badLine "PersistentKeepalive" text = true)).
Proof.
  cbv zeta. unfold nativeBlock, nativeKind. fold (wgConfigOf config).
  set (key := qdata (toString (value config "protocol")) +:+ "_config_data"). change (toObject (value config key)) with (wgConfigOf config).
  generalize (wgConfigOf config). clearbody key. intros data. destruct (_ || _); [| naive_solver].
  assert (Hkeep : forall st, fixKeepAlive key st = None <->
    isUndefined (value st.2 "persistent_keep_alive") = true /\ badLine "PersistentKeepalive" (qdata (toString (value st.2 "config"))) = true).
  { intros st. unfold fixKeepAlive. rewrite <- native_bad. destruct (isUndefined _); [| naive_solver].
    destruct (nativeValue _ _) as [[t |] |]; naive_solver. }
  assert (Hips : fixAllowedIps key (config, data) = None <->
    isUndefined (value data "allowed_ips") = true /\ badLine "AllowedIPs" (qdata (toString (value data "config"))) = true).
  { unfold fixAllowedIps. cbn [snd]. rewrite <- native_bad. destruct (value data "allowed_ips") as [v |]; cbn [isUndefined].
    - destruct (isString _); naive_solver.
    - cbn. destruct (nativeValue _ _) as [[t |] |]; naive_solver. }
  assert (Hsame : forall st, fixAllowedIps key (config, data) = Some st ->
    value st.2 "persistent_keep_alive" = value data "persistent_keep_alive" /\ value st.2 "config" = value data "config").
  { intros st. unfold fixAllowedIps. cbn [snd]. destruct (isString _).
    - intros E. injection E as <-. cbn [storeData snd]. by rewrite !value_jinsert.
    - destruct (isUndefined _); [| intros E; by injection E as <-].
      destruct (nativeValue _ _) as [[t |] |]; intros E; try done; injection E as <-; cbn [storeData snd]; by rewrite ?value_jinsert. }
  destruct (fixAllowedIps key (config, data)) as [st |] eqn:E.
  - destruct (Hsame st eq_refl) as [H1 H2]. specialize (Hkeep st). rewrite H1, H2 in Hkeep.
    destruct (fixKeepAlive key st) as [[? ?] |]; naive_solver.
  - naive_solver.
Qed.
End Native.

(** ** From the settings to the daemon *)

Section ToDaemon.
Context `{Q : Qt} `{Sv : Service} {P : Type} {Pr : Protocol P}.
Notation V := (VpnConnection P).
Variable arrayOf : string -> list json.
Variable tr : string -> string.
Variable tables : PresetTables.
Variable fromName : string -> list QHostAddress.
Variable resolving : list string -> ST V (list (list QHostAddress)).
Hypothesis resolving_alone : forall names v, (resolving names v).2 = v.

Lemma flatten_alone b (v : V) : (flattenBucket resolving b v).2 = v.
Proof. unfold flattenBucket. destruct (hosts b); [done |]. rewrite bind_eq. cbn [mret ST_ret snd]. apply resolving_alone. Qed.

Lemma presets_alone settings mode sites (v : V) : (presetSites arrayOf tr tables resolving settings mode sites v).2 = v.
Proof.
  unfold presetSites. destruct (splitPresetsEnabled settings); [done |]. cbv zeta.
  rewrite bind_eq, bind_eq, bind_eq, !flatten_alone. by destruct (bool_decide _).
Qed.

(** The configuration, with what the presets and the applications add. *)
Definition withSplit (s : Settings) (mode : RouteMode) (sites include exclude apps : list json) (appsMode : AppsRouteMode)
  (config : QJsonObject) : QJsonObject :=
  jinsert "splitTunnelApps" (Some (JArray apps)) (
  jinsert "appSplitTunnelType" (Some (jint (appsRouteModeInt appsMode))) (
  jinsert "localSubnetExclusions" (Some (fromStringList (confLocalSubnets s))) (
  jinsert "splitTunnelExcludeSites" (Some (JArray exclude)) (
  jinsert "splitTunnelIncludeSites" (Some (JArray include)) (
  jinsert "splitTunnelSites" (Some (JArray sites)) (
  jinsert "splitTunnelType" (Some (jint (routeModeInt mode))) config)))))).

Lemma append_config (v : V) config allowed : nativeBlock (m_vpnConfiguration v) = Some (config, allowed) ->
  exists include exclude apps appsMode,
  m_vpnConfiguration (appendSplitTunnelingConfig arrayOf tr tables resolving v).2
    = withSplit (v_settings v) (manualSites (v_settings v) config allowed).1 (manualSites (v_settings v) config allowed).2
        include exclude apps appsMode config.
Proof.
  intros Hn. unfold appendSplitTunnelingConfig. rewrite bind_eq. cbn [gets fst snd]. rewrite Hn, then_eq, bind_eq. cbn [gets fst snd].
  change (v_settings (onConfig (fun _ => config) v).2) with (v_settings v).
  destruct (manualSites (v_settings v) config allowed) as [mode sites]. rewrite then_eq, then_eq, bind_eq.
  set (v1 := (onConfig _ _).2).
  assert (H1 : m_vpnConfiguration v1 = jinsert "splitTunnelSites" (Some (JArray sites))
    (jinsert "splitTunnelType" (Some (jint (routeModeInt mode))) config) /\ v_settings v1 = v_settings v) by done.
  clearbody v1.
  match goal with |- context [(if ?b then presetSites _ _ _ _ _ _ _ else _) v1] =>
    assert (H2 : ((if b then presetSites arrayOf tr tables resolving (v_settings v) mode sites else mret ([], [])) v1).2 = v1) end.
  { destruct (_ && _); [apply presets_alone | done]. }
  rewrite H2. match goal with |- context [(?m v1).1] => destruct (m v1).1 as [include exclude] end. rewrite then_eq, then_eq, bind_eq, then_eq. cbn [gets fst snd].
  match goal with |- context [let '(_, _) := ?x in _] => destruct x as [appsMode apps] end.
  rewrite then_eq. exists include, exclude, apps, appsMode. cbn. destruct H1 as [-> ->]. done.
Qed.

(** The block of old configurations changes nothing but the data of the
    protocol. *)
Lemma native_config config0 config allowed :
  nativeKind config0 = true -> nativeBlock config0 = Some (config, allowed) ->
  (forall k, existsb (String.eqb k) ["awg_config_data"; "wireguard_config_data"]%string = false -> value config k = value config0 k)
  /\ allowed = jsonContains (toArray (value (wgConfigOf config) "allowed_ips")) "0.0.0.0/0".
Proof.
  unfold nativeKind, nativeBlock. fold (wgConfigOf config0). set (name := qdata (toString (value config0 "protocol"))).
  set (key := name +:+ "_config_data"). intros Hk. rewrite Hk.
  assert (Hkey : (key = "awg_config_data" \/ key = "wireguard_config_data")%string).
  { apply orb_true_iff in Hk as [E | E]; apply String.eqb_eq in E; unfold key; rewrite E; auto. }
  assert (Hproto : forall x : QJsonObject, value (jinsert key (Some (JObject x)) config0) "protocol" = value config0 "protocol").
  { intros x. rewrite value_jinsert. by destruct Hkey as [-> | ->]. }
  (* a state of the block: the object and the data stored in it *)
  set (good (st : QJsonObject * QJsonObject) := (forall k, String.eqb key k = false -> value st.1 k = value config0 k)
         /\ toObject (value st.1 key) = st.2).
  assert (Hstore : forall f j st, good st -> good (storeData key f j st)).
  { intros f j st [G1 G2]. split; cbn [storeData fst snd]; [intros k E; rewrite value_jinsert, E; by apply G1 |].
    rewrite value_jinsert, String.eqb_refl. done. }
  assert (Hips : forall st st', good st -> fixAllowedIps key st = Some st' -> good st').
  { intros st st' G. unfold fixAllowedIps. destruct (isString _); [intros E; injection E as <-; by apply Hstore |].
    destruct (isUndefined _); [| intros E; by injection E as <-].
    destruct (nativeValue _ _) as [[t |] |]; intros E; try done; injection E as <-; [by apply Hstore | done]. }
  assert (Hkeep : forall st st', good st -> fixKeepAlive key st = Some st' -> good st').
  { intros st st' G. unfold fixKeepAlive. destruct (isUndefined _); [| intros E; by injection E as <-].
    destruct (nativeValue _ _) as [[t |] |]; intros E; try done; injection E as <-; [by apply Hstore | done]. }
  assert (Hg0 : good (config0, toObject (value config0 key))) by done.
  destruct (fixAllowedIps key _) as [st1 |] eqn:E1; [| done]. destruct (fixKeepAlive key st1) as [[c d] |] eqn:E2; [| done].
  intros E. injection E as <- <-. destruct (Hkeep _ _ (Hips _ _ Hg0 E1) E2) as [G1 G2]. cbn [fst snd] in G1, G2.
  assert (Hp : value c "protocol" = value config0 "protocol") by (apply G1; by destruct Hkey as [-> | ->]).
  split; [| unfold wgConfigOf; rewrite Hp; fold name; fold key; by rewrite G2].
  intros k Hk'. apply G1. cbn in Hk'. rewrite orb_false_r in Hk'. apply orb_false_iff in Hk' as [H1 H2].
  rewrite String.eqb_sym. by destruct Hkey as [-> | ->].
Qed.

(** What the protocol starts with, seen from the configuration with the lists. *)
Lemma resolved_values s mode sites include exclude apps appsMode config :
  nativeKind config = true ->
  let c := resolvedConfig fromName (withSplit s mode sites include exclude apps appsMode config) in
  toIntJ (value c "splitTunnelType") = routeModeInt mode
  /\ value c "splitTunnelSites" = Some (JArray sites)
  /\ value c "localSubnetExclusions" = Some (fromStringList (confLocalSubnets s))
  /\ value (wgConfigOf c) "allowed_ips" = value (wgConfigOf config) "allowed_ips"
  /\ value (wgConfigOf c) "hostName"
     = Some (jstr (getIPAddress fromName (qdata (toString (value (wgConfigOf config) "hostName"))))).
Proof.
  intros Hk c. set (w := withSplit s mode sites include exclude apps appsMode config) in *.
  assert (Hw : forall k, existsb (String.eqb k) ["splitTunnelApps"; "appSplitTunnelType"; "localSubnetExclusions"; "splitTunnelExcludeSites";
    "splitTunnelIncludeSites"; "splitTunnelSites"; "splitTunnelType"]%string = false -> value w k = value config k).
  { intros k E. cbn in E. repeat (apply orb_false_iff in E as [? E]). unfold w, withSplit. rewrite !value_jinsert.
    rewrite !(String.eqb_sym _ k). by repeat match goal with H : String.eqb k _ = false |- _ => rewrite H; clear H end. }
  assert (Hproto : value w "protocol" = value config "protocol") by (by apply Hw).
  assert (Hname : exists name, qdata (toString (value config "protocol")) = name /\ (name = "awg" \/ name = "wireguard")%string).
  { eexists. split; [done |]. unfold nativeKind in Hk. apply orb_true_iff in Hk as [E | E]; apply String.eqb_eq in E; auto. }
  destruct Hname as (name & Hname & Hcase).
  assert (Hc : forall k, String.eqb (name +:+ "_config_data") k = false -> String.eqb "hostName" k = false -> value c k = value w k).
  { intros k E1 E2. unfold c, resolvedConfig. rewrite Hproto, Hname. cbv zeta. rewrite !value_jinsert. by rewrite E1, E2. }
  assert (Hwg : wgConfigOf c = jinsert "hostName"
    (Some (jstr (getIPAddress fromName (qdata (toString (value (wgConfigOf config) "hostName")))))) (wgConfigOf config)).
  { unfold wgConfigOf at 1. rewrite (Hc "protocol"%string) by (destruct Hcase as [-> | ->]; done). rewrite Hproto, Hname.
    unfold c, resolvedConfig. rewrite Hproto, Hname. cbv zeta. rewrite !value_jinsert, String.eqb_refl.
    replace (String.eqb "hostName" (name +:+ "_config_data")) with false by (by destruct Hcase as [-> | ->]). cbn [toObject].
    unfold wgConfigOf. rewrite Hname. rewrite (Hw (name +:+ "_config_data")) by (by destruct Hcase as [-> | ->]). done. }
  rewrite Hwg, !value_jinsert, !Hc by (by destruct Hcase as [-> | ->]). unfold w, withSplit. rewrite !value_jinsert.
  cbn [String.eqb Ascii.eqb Bool.eqb]. repeat split. by destruct mode.
Qed.

Definition everything : list IPAddress := [ofHostPrefix (parseHost "0.0.0.0") 0; ofHostPrefix (parseHost "::") 0].

Lemma strings_of l : map (fun j => toString (Some j)) (map jstr l) = map QStr l.
Proof. rewrite map_map. done. Qed.

Lemma default_contains l : isDefaultAllowed l = true -> jsonContains l "0.0.0.0/0" = true.
Proof.
  unfold isDefaultAllowed. destruct l as [| [| | | a | |] [| [| | | b | |] [| ? ?]]]; try done.
  intros E. apply andb_true_iff in E as [E _]. unfold jsonContains. cbn [existsb isString andb]. apply orb_true_iff. by left.
Qed.

(** The tests of the kind of split tunnelling. *)
Lemma only_mode {A} mode (x y z : A) :
  (if bool_decide (routeModeInt mode = 1) then x else if bool_decide (routeModeInt mode ∈ [0; 2]) then y else z)
    = match mode with VpnOnlyForwardSites => x | _ => y end.
Proof. by destruct mode. Qed.
Lemma except_mode {A} mode (x y : A) :
  (if bool_decide (routeModeInt mode = 2) then x else y) = match mode with VpnAllExceptSites => x | _ => y end.
Proof. by destruct mode. Qed.
Lemma is_mode (m m' : RouteMode) :
  bool_decide (m = m') = match m, m' with
    | VpnAllSites, VpnAllSites | VpnOnlyForwardSites, VpnOnlyForwardSites | VpnAllExceptSites, VpnAllExceptSites => true
    | _, _ => false
    end.
Proof. by destruct m, m'. Qed.

(** C11 (functional): the site list, from the settings to the daemon.  When the
    daemon reads the request for a WireGuard configuration, its networks are
    the [allowed_ips] of the configuration, unless those are the two default
    routes: then they are the addresses of the manual list and the name
    servers, if only the sites go through the tunnel and there is one, else
    everything; with no [allowed_ips] at all the list is not used, and the
    tunnel gets nothing if only the sites go through it.  What is kept out is
    the server, the sites when all others go through the tunnel and IPv4 is
    routed by default, and the local subnets.  Presets have no part in it. *)
Theorem sites_reach_daemon (stdSort : list IPAddress -> list IPAddress) (v : V) (config : QJsonObject) (allowed : bool)
  (request : InterfaceConfig)
  (Hk : nativeKind (m_vpnConfiguration v) = true)
  (Hn : nativeBlock (m_vpnConfiguration v) = Some (config, allowed))
  (Hr : parseConfig stdSort (activateRequest
          (resolvedConfig fromName (m_vpnConfiguration (appendSplitTunnelingConfig arrayOf tr tables resolving v).2))) = Some request) :
  let s := v_settings v in
  let plain := toArray (value (wgConfigOf config) "allowed_ips") in
  let host := getIPAddress fromName (qdata (toString (value (wgConfigOf config) "hostName"))) in
  let text k := qdata (toString (value (m_vpnConfiguration v) k)) in
  let only := isSitesSplitTunnelingEnabled s && bool_decide (routeMode s = VpnOnlyForwardSites) in
  let except := isSitesSplitTunnelingEnabled s && bool_decide (routeMode s = VpnAllExceptSites) in
  let sites := getVpnIps s (routeMode s) in
  m_allowedIPAddressRanges request = stdSort (
    if isDefaultAllowed plain then
      if only && negb (bool_decide (sites = [])) then map networkOf (map jstr (sites ++ [text "dns1"; text "dns2"])) else everything
    else if bool_decide (plain = []) then if only then [] else everything
    else map networkOf plain)
  /\ m_excludedAddresses request =
       QStr host
       :: (if except && jsonContains plain "0.0.0.0/0" then map QStr sites else [])
       ++ List.filter (fun q => negb (isEmpty q)) (map QStr (confLocalSubnets s)).
Proof.
  cbv zeta. destruct (native_config _ _ _ Hk Hn) as [Hsame ->].
  destruct (append_config v config _ Hn) as (include & exclude & apps & appsMode & E). rewrite E in Hr. clear E.
  assert (Hkind : nativeKind config = true) by (unfold nativeKind in *; by rewrite Hsame).
  set (s := v_settings v) in *. set (plain := toArray (value (wgConfigOf config) "allowed_ips")) in *.
  destruct (manualSites s config _) as [mode sites] eqn:Em. cbn [fst snd] in Hr.
  destruct (resolved_values s mode sites include exclude apps appsMode config Hkind) as (V1 & V2 & V3 & V4 & V5).
  set (c := resolvedConfig fromName (withSplit s mode sites include exclude apps appsMode config)) in *. clearbody c.
  rewrite request_read in Hr. destruct (usableRequest c); [| done]. injection Hr as <-. cbn [requested m_allowedIPAddressRanges m_excludedAddresses].
  unfold tunnelNetworks, excludedTexts, texts_of. rewrite V1, V2, V3, V4, V5. fold plain. cbn [toArray fromStringList].
  rewrite strings_of, only_mode, except_mode, !is_mode.
  assert (Hm : manualSites s config (jsonContains plain "0.0.0.0/0") =
    if isSitesSplitTunnelingEnabled s then
      if jsonContains plain "0.0.0.0/0" then
        match getVpnIps s (routeMode s) with
        | [] => (VpnAllSites, [])
        | l => (routeMode s, map jstr (l ++ match routeMode s with
            | VpnOnlyForwardSites => map (fun k => qdata (toString (value (m_vpnConfiguration v) k))) ["dns1"; "dns2"]%string
            | _ => [] end))
        end
      else (routeMode s, [])
    else (VpnAllSites, [])).
  { unfold manualSites. destruct (getVpnIps s (routeMode s)) as [| a l]; [done |]. cbn [map].
    rewrite (Hsame "dns1"%string), (Hsame "dns2"%string), is_mode by done.
    destruct (routeMode s); rewrite ?app_nil_r; try done. cbn [app map]. by rewrite map_app. }
  rewrite Hm in Em. clear Hm.
  pose proof (default_contains plain) as Hd. destruct (isSitesSplitTunnelingEnabled s), (isDefaultAllowed plain) eqn:Ed; cbn [andb orb].
  all: try rewrite (Hd eq_refl) in *; clear Hd.
  - destruct (getVpnIps s (routeMode s)) as [| a l]; injection Em as <- <-; destruct (routeMode s); cbn [map app andb negb]; try done.
    all: rewrite ?app_nil_r; by rewrite ?strings_of.
  - case_bool_decide as Ep.
    + rewrite Ep in *. cbn in Em. injection Em as <- <-. by destruct (routeMode s).
    + split; [done |]. destruct (jsonContains _ _); [destruct (getVpnIps s (routeMode s)) as [| a l] |]; injection Em as <- <-;
        destruct (routeMode s); try done. rewrite app_nil_r. change (jstr a :: map jstr l) with (map jstr (a :: l)). by rewrite strings_of.
  - injection Em as <- <-. done.
  - injection Em as <- <-. by case_bool_decide.
Qed.
End ToDaemon.

(** ** Witnesses *)

(** A service that grants everything. *)
Definition granting : Service := {|
  ready _ := true;
  reply _ c := match c with RouteAddList _ l => Some (Z.of_nat (length l)) | _ => Some 1 end
|}.
#[local] Existing Instance plainQt.
#[local] Existing Instance granting.

Definition noNames (name : string) : list QHostAddress := [].
Definition noDates (s : string) : option Z := None.
Definition noArray (s : string) : list json := [].
Definition sameText (s : string) : string := s.
Abbreviation AnyV := (VpnConnection AnyProtocol).
Definition atOnce (names : list string) : ST AnyV (list (list QHostAddress)) := mret [].

#[local] Instance sampleProtocol : Protocol AnyProtocol := Any_Protocol noNames noDates.
Definition sampleFactory : DockerContainer -> QJsonObject -> option AnyProtocol := factory noNames "192.168.1.1".

(** Two sites, and only they go through the tunnel. *)
Definition twoSites : Settings :=
  setVpnSites VpnOnlyForwardSites [("a.org", ""); ("b.org", "")]%string
    (setRouteMode VpnOnlyForwardSites (setSitesSplitTunnelingEnabled true ∅)).

Definition sampleReact (e : VEvent) : ST AnyV unit := vReact noArray sameText sampleTables noNames sampleFactory atOnce e.
Definition connecting : AnyV :=
  (sampleReact (EvConnectVpn 0 "9.8.7.6" Settings.Xray ∅) (newConnection twoSites Vpn.Disconnected)).2.
Definition isUpNow : VEvent := EvOfProtocol (inr (XOutput (Some upLine))).
Definition connected : AnyV := (sampleReact isUpNow connecting).2.

(** The routes of the sites are asked for, and the first refresh has started. *)
Definition routed : AnyV := (sampleReact (EvDeliver (TAddSites 0) []) connected).2.
Definition refreshing : AnyV := (sampleReact (EvDeliver (TFirstRefresh 2) []) routed).2.

Lemma atOnce_alone names (v : AnyV) : (atOnce names v).2 = v.
Proof. done. Qed.

Lemma refreshing_reachable :
  vReachable noArray sameText sampleTables noNames sampleFactory atOnce (newConnection twoSites Vpn.Disconnected) refreshing.
Proof.
  apply (vr_step _ _ _ _ _ _ _ routed); [| by vm_compute; left].
  apply (vr_step _ _ _ _ _ _ _ connected); [| by vm_compute; left].
  apply (vr_step _ _ _ _ _ _ _ connecting isUpNow); [| by vm_compute; eexists].
  apply (vr_step _ _ _ _ _ _ _ _ (EvConnectVpn 0 "9.8.7.6" Settings.Xray ∅)); [apply vr_init | done].
Qed.


Definition sampleAnswers (d : string) : list QHostAddress :=
  if String.eqb d "a.org" then [quadOf 1 2 3 4] else if String.eqb d "b.org" then [quadOf 5 6 7 8] else [].

Lemma refresh_any_order_witness :
  m_installedSplitRoutes (v_split (forEach (fun t => deliver t (sampleAnswers (domainOf t))) (rev (lookups routed)) (refreshSitesRoutes routed).2).2)
    = {["1.2.3.4"; "5.6.7.8"]}%string.
Proof.
  destruct (refresh_any_order routed sampleAnswers (rev (lookups routed))) as (_ & H & _);
    [vm_compute; reflexivity | vm_compute; by eexists | vm_compute; reflexivity | symmetry; apply Permutation_rev |].
  rewrite H. vm_compute. reflexivity.
Defined.


Lemma disconnect_outcome_witness :
  v_state (disconnectFromVpn noArray connected).2 = Vpn.Disconnected
  /\ m_vpnProtocol (disconnectFromVpn noArray connected).2 = None.
Proof.
  assert (H : forall v : AnyV, protocolState v = Vpn.Connected ->
    v_state (disconnectFromVpn noArray v).2 = Vpn.Disconnected /\ m_vpnProtocol (disconnectFromVpn noArray v).2 = None).
  { intros v Hv. unfold protocolState in Hv. destruct (m_vpnProtocol v) as [[id p] |] eqn:E; [| done].
    destruct (disconnect_outcome noArray v id p E) as (H1 & H2 & _). split; [| exact H1]. rewrite H2, Hv. reflexivity. }
  apply H. vm_compute. reflexivity.
Defined.

Lemma cancelled_reconnection_witness :
  v_state (disconnectFromVpn noArray (reconnectToVpn noArray connected).2).2 = Vpn.Disconnecting.
Proof.
  assert (H : forall v : AnyV, protocolState v = Vpn.Connected -> v_state v = Vpn.Connected ->
    match m_vpnProtocol v with Some (_, p) => (pStart (pStop p).2).1 = Some NoError | None => False end ->
    v_state (disconnectFromVpn noArray (reconnectToVpn noArray v).2).2 = Vpn.Disconnecting).
  { intros v Hv Hc Hs. unfold protocolState in Hv. destruct (m_vpnProtocol v) as [[id p] |] eqn:E; [| done].
    apply (cancelled_reconnection noArray v id p E Hc Hs Hv). }
  apply H; vm_compute; reflexivity.
Defined.

(** The disconnection comes before the answer for a site. *)
Lemma late_answer_witness :
  v_calls (deliver (LAdd "a.org" "10.33.0.2" VpnOnlyForwardSites []) [quadOf 1 2 3 4] (disconnectFromVpn noArray routed).2).2
    = v_calls routed ++ [RouteAddList "10.33.0.2" ["1.2.3.4"]; FlushDns]%string.
Proof.
  assert (Ht : LAdd "a.org" "10.33.0.2" VpnOnlyForwardSites [] ∈ v_tasks routed) by (vm_compute; right; left).
  assert (Hs : is_Some (m_vpnProtocol routed)) by (vm_compute; eexists; reflexivity).
  assert (Ha : firstIPv4 [quadOf 1 2 3 4] = Some (quadOf 1 2 3 4)) by reflexivity.
  assert (Hn : hostToString (quadOf 1 2 3 4) = "1.2.3.4"%string) by (vm_compute; reflexivity).
  revert Ht Hs. generalize routed. intros v Ht [[id p] Hp].
  destruct (late_answer noArray v id p "a.org" "10.33.0.2" VpnOnlyForwardSites [] [quadOf 1 2 3 4] (quadOf 1 2 3 4) Hp Ht Ha)
    as (_ & _ & _ & _ & H); [apply not_elem_of_nil | done |].
  rewrite H, Hn. reflexivity.
Defined.

(** A container without a protocol. *)
Lemma connect_outcome_witness :
  v_state (connectToVpn noArray sameText sampleTables noNames sampleFactory atOnce 0 "9.8.7.6" Sftp ∅ connected).2 = Vpn.Error.
Proof.
  exact (proj2 (connect_outcome noArray sameText sampleTables noNames sampleFactory atOnce 0 "9.8.7.6" Sftp ∅ connected)).
Defined.

(** A tunnel is up when another connection is asked for. *)
Lemma connect_reports_witness :
  v_state (connectToVpn noArray sameText sampleTables noNames sampleFactory atOnce 0 "9.8.7.6" Settings.Xray ∅ connected).2
    = Vpn.Disconnected.
Proof.
  set (v' := (connectToVpn noArray sameText sampleTables noNames sampleFactory atOnce 0 "9.8.7.6" Settings.Xray ∅ connected).2).
  assert (Hs : (pStart (PXray (newXray noNames "192.168.1.1" (m_vpnConfiguration v')))).1 = Some NoError) by (vm_compute; reflexivity).
  pose proof (connect_reports noArray sameText sampleTables noNames sampleFactory atOnce atOnce_alone 0 "9.8.7.6" Settings.Xray ∅
    connected _ eq_refl Hs) as H.
  refine (eq_trans H _). vm_compute. reflexivity.
Defined.

(** A WireGuard configuration for everything, and a site. *)
Definition wgConfiguration : QJsonObject :=
  jinsert "protocol" (Some (jstr "awg")) (
  jinsert "dns1" (Some (jstr "1.1.1.1")) (
  jinsert "dns2" (Some (jstr "1.0.0.1")) (
  jinsert "awg_config_data" (Some (JObject (
    jinsert "client_priv_key" (Some (jstr "a")) (
    jinsert "server_pub_key" (Some (jstr "b")) (
    jinsert "hostName" (Some (jstr "9.8.7.6")) (
    jinsert "persistent_keep_alive" (Some (jstr "25")) (
    jinsert "allowed_ips" (Some (fromStringList ["0.0.0.0/0"; "::/0"]%string)) ∅))))))) ∅))).
Definition oneSite : Settings :=
  setVpnSites VpnOnlyForwardSites [("10.1.0.0/16", "")]%string
    (setRouteMode VpnOnlyForwardSites (setSitesSplitTunnelingEnabled true ∅)).
Definition configured : AnyV :=
  mkConnection oneSite None Vpn.Connecting wgConfiguration "9.8.7.6" (v_split connected) [] [] [] 0 false.
Definition keepOrder (l : list IPAddress) : list IPAddress := l.

Lemma sites_reach_daemon_witness : exists request,
  parseConfig keepOrder (activateRequest (resolvedConfig noNames (m_vpnConfiguration
    (appendSplitTunnelingConfig noArray sameText sampleTables atOnce configured).2))) = Some request
  /\ m_allowedIPAddressRanges request = map ofString ["10.1.0.0/16"; "1.1.1.1/32"; "1.0.0.1/32"]%string.
Proof.
  assert (Hn : nativeBlock (m_vpnConfiguration configured) = Some (wgConfiguration, true)) by (vm_compute; reflexivity).
  assert (Hd : isDefaultAllowed (toArray (value (wgConfigOf wgConfiguration) "allowed_ips")) = true) by (vm_compute; reflexivity).
  destruct (parseConfig keepOrder (activateRequest (resolvedConfig noNames (m_vpnConfiguration
    (appendSplitTunnelingConfig noArray sameText sampleTables atOnce configured).2)))) as [request |] eqn:Hr; [| vm_compute in Hr; done].
  exists request. split; [done |].
  destruct (sites_reach_daemon noArray sameText sampleTables noNames atOnce atOnce_alone keepOrder configured wgConfiguration true request
    ltac:(vm_compute; reflexivity) Hn Hr) as [H _].
  rewrite H, Hd. vm_compute. reflexivity.
Defined.
