(* ===== verification/Containers.v ===== *)
(** * Containers and protocols: [client/containers/containers_defs.cpp],
      [client/protocols/protocols_defs.cpp], [client/protocols/protocols_defs.h]

    The tables that relate the containers a server can have, the protocols
    they speak, their names in a configuration and their ports.  The
    containers themselves are in [Settings.v]. *)

From Stdlib Require Import ZArith Lia Bool String Ascii.
From stdpp Require Import base gmap strings list.
From S2P Require Import Prelude.
From S2P Require Import Qt.
From S2P Require Import Settings.

Open Scope Z_scope.

(** ** Protocols *)

Module Proto.
Inductive t : Type :=
| Any | ShadowSocks | WireGuard | Awg | L2tp | Xray | SSXray | TorWebSite | Dns | Sftp | Socks5Proxy.
#[global] Instance eq_dec : EqDecision t.
Proof. solve_decision. Defined.

(** The enumerators in the order of their values. *)
Definition all : list t :=
  [Any; ShadowSocks; WireGuard; Awg; L2tp; Xray; SSXray; TorWebSite; Dns; Sftp; Socks5Proxy].

Definition key (p : t) : string :=
  match p with
  | Any => "Any" | ShadowSocks => "ShadowSocks" | WireGuard => "WireGuard" | Awg => "Awg" | L2tp => "L2tp"
  | Xray => "Xray" | SSXray => "SSXray" | TorWebSite => "TorWebSite" | Dns => "Dns" | Sftp => "Sftp"
  | Socks5Proxy => "Socks5Proxy"
  end.
End Proto.

Inductive ServiceType : Type := ServiceNone | ServiceVpn | ServiceOther.
#[export] Instance ServiceType_eq_dec : EqDecision ServiceType.
Proof. solve_decision. Defined.

Inductive TransportProto : Type := Udp | Tcp | TcpAndUdp.
#[export] Instance TransportProto_eq_dec : EqDecision TransportProto.
Proof. solve_decision. Defined.

Definition protoToString (p : Proto.t) : string :=
  if bool_decide (p = Proto.Any) then "" else toLower (Proto.key p).

Definition protoFromString (proto : string) : Proto.t :=
  match List.find (fun p => String.eqb proto (protoToString p)) Proto.all with
  | Some p => p
  | None => Proto.Any
  end.

Definition transportProtoToString (proto : TransportProto) : string :=
  toLower (match proto with Udp => "Udp" | Tcp => "Tcp" | TcpAndUdp => "TcpAndUdp" end)%string.

Definition transportProtoFromString (p : string) : TransportProto :=
  match List.find (fun tp => String.eqb (toLower p) (toLower (transportProtoToString tp))) [Udp; Tcp; TcpAndUdp] with
  | Some tp => tp
  | None => Udp
  end.

Definition protocolService (p : Proto.t) : ServiceType :=
  match p with
  | Proto.Any | Proto.SSXray => ServiceNone
  | Proto.ShadowSocks | Proto.WireGuard | Proto.Awg | Proto.Xray => ServiceVpn
  | _ => ServiceOther
  end.

Definition defaultPort (p : Proto.t) : Z :=
  match p with
  | Proto.ShadowSocks => 6789
  | Proto.WireGuard => 51820
  | Proto.Awg => 55424
  | Proto.Xray => 443
  | Proto.Dns => 53
  | Proto.Sftp => 222
  | Proto.Socks5Proxy => 38080
  | _ => -1
  end.

Definition defaultPortChangeable (p : Proto.t) : bool :=
  match p with
  | Proto.ShadowSocks | Proto.WireGuard | Proto.Awg | Proto.Xray | Proto.Sftp | Proto.Socks5Proxy => true
  | _ => false
  end.

(** [None]: the switch has no case for the protocol and no default, and the
    function ends without a return value. *)
Definition defaultTransportProto (p : Proto.t) : option TransportProto :=
  match p with
  | Proto.Any | Proto.WireGuard | Proto.Awg | Proto.L2tp | Proto.Dns => Some Udp
  | Proto.ShadowSocks => Some TcpAndUdp
  | Proto.Xray | Proto.TorWebSite | Proto.Sftp | Proto.Socks5Proxy => Some Tcp
  | Proto.SSXray => None
  end.

(** The port of a new installation; [bounded lo hi] is the random number. *)
Definition getPortForInstall (bounded : Z -> Z -> Z) (p : Proto.t) : Z :=
  match p with
  | Proto.Awg | Proto.WireGuard | Proto.ShadowSocks | Proto.Socks5Proxy => bounded 30000 50000
  | _ => defaultPort p
  end.

Definition key_proto_config_data (p : Proto.t) : string := protoToString p +:+ "_config_data".
Definition key_proto_config_path (p : Proto.t) : string := protoToString p +:+ "_config_path".

Definition getProtocolVersion (protocolConfig : QJsonObject) : string :=
  qdata (toString (value protocolConfig "protocol_version")).

Section Texts.
(** [tr] *)
Variable tr : string -> string.

Definition getProtocolVersionString (protocolConfig : QJsonObject) : string :=
  let version := getProtocolVersion protocolConfig in
  if String.eqb version "2" then tr " (version 2)"
  else if String.eqb version "1.5" then tr " (version 1.5)"
  else "".

Definition containerHumanName (c : DockerContainer) : string :=
  match c with
  | None_ => "Not installed"
  | WireGuard => "WireGuard"
  | Awg | Awg2 => "AmneziaWG"
  | Xray => "XRay"
  | SSXray => "Shadowsocks"
  | TorWebSite => tr "Website in Tor network"
  | Dns => tr "DopamineDNS"
  | Sftp => tr "SFTP file sharing service"
  | Socks5Proxy => tr "SOCKS5 proxy server"
  end.
End Texts.

(** [a.compare(b, Qt::CaseInsensitive) == 0] *)
Definition sameText (a b : string) : bool := String.eqb (toLower a) (toLower b).

Definition canonicalServiceProtocol (protocol : string) : string :=
  if sameText protocol "awg-mobile" || sameText protocol "AmneziaWgMobile" then "awg" else protocol.

Definition serviceProtocolDisplayName (protocol : string) : string :=
  if sameText protocol "awg-mobile" || sameText protocol "AmneziaWgMobile" then "AmneziaWgMobile" else protocol.

(** ** Containers *)

Definition containerTypeToString (c : DockerContainer) : string :=
  match c with None_ => "none" | Awg | Awg2 => "awg" | _ => toLower (containerKey c) end.

Definition defaultProtocol (c : DockerContainer) : Proto.t :=
  match c with
  | None_ => Proto.Any
  | WireGuard => Proto.WireGuard
  | Awg2 | Awg => Proto.Awg
  | Xray => Proto.Xray
  | SSXray => Proto.SSXray
  | TorWebSite => Proto.TorWebSite
  | Dns => Proto.Dns
  | Sftp => Proto.Sftp
  | Socks5Proxy => Proto.Socks5Proxy
  end.

Definition protocolsForContainer (c : DockerContainer) : list Proto.t :=
  match c with
  | None_ => []
  | Xray => [Proto.Xray]
  | SSXray => [Proto.SSXray]
  | Dns => [Proto.Dns]
  | Sftp => [Proto.Sftp]
  | Socks5Proxy => [Proto.Socks5Proxy]
  | Awg | Awg2 => [Proto.Awg]
  | _ => [defaultProtocol c]
  end.

Definition containerService (c : DockerContainer) : ServiceType := protocolService (defaultProtocol c).

Definition containerTypeToProtocolString (c : DockerContainer) : string :=
  match c with None_ => "none" | _ => protoToString (defaultProtocol c) end.

(** The build for Linux. *)
Definition isSupportedByCurrentPlatform (c : DockerContainer) : bool := true.

Definition isEasySetupContainer (c : DockerContainer) : bool := match c with Awg2 => true | _ => false end.
Definition easySetupOrder (c : DockerContainer) : Z := match c with Awg2 => 1 | _ => 0 end.
Definition isShareable (c : DockerContainer) : bool :=
  match c with TorWebSite | Dns | Sftp | Socks5Proxy => false | _ => true end.
Definition installPageOrder (c : DockerContainer) : Z :=
  match c with WireGuard => 2 | Awg2 => 1 | Xray => 3 | SSXray => 8 | _ => 0 end.

Section Qt.
Context `{Qt}.

(** [QJsonDocument::fromJson(s).object()] *)
Definition jsonObject (s : string) : QJsonObject := default ∅ (jsonParse s).

Definition getProtocolConfigFromContainer (protocol : Proto.t) (containerConfig : QJsonObject) : QJsonObject :=
  jsonObject (qdata (toString (value (toObject (value containerConfig (protoToString protocol))) "last_config"))).
End Qt.

(** ** The tables fit together *)

Lemma proto_roundtrip p : protoFromString (protoToString p) = p.
Proof. by destruct p. Qed.

Lemma transport_roundtrip tp : transportProtoFromString (transportProtoToString tp) = tp.
Proof. by destruct tp. Qed.

(** A container that holds a protocol holds its default one, and only that. *)
Lemma protocols_default c p : p ∈ protocolsForContainer c <-> c <> None_ /\ p = defaultProtocol c.
Proof.
  destruct c; cbn; rewrite ?elem_of_nil, ?list_elem_of_singleton; (split; [intros Hp | intros [Hc Hp]]); by try done.
Qed.

(** Canonical names are stable. *)
Lemma canonical_idem p : canonicalServiceProtocol (canonicalServiceProtocol p) = canonicalServiceProtocol p.
Proof. unfold canonicalServiceProtocol. destruct (sameText p _ || sameText p _) eqn:E; [done |]. by rewrite E. Qed.
