(* ===== verification/ServerStore.v ===== *)
(** * The servers in the settings: [client/settings.cpp] and [client/settings.h]

    The list of servers is one JSON array in the settings.  [Store] models the
    members of [Settings] that read and write it. *)

From Stdlib Require Import ZArith Lia Bool String Ascii.
From stdpp Require Import base gmap strings list sorting pretty.
From S2P Require Import Prelude.
From S2P Require Import Qt.
From S2P Require Import IPAddress.
From S2P Require Import NetworkUtilities.
From S2P Require Import Settings.
From S2P Require Import Containers.

Open Scope Z_scope.

(** ** Functions that can write outside an array *)

(** [QJsonArray::replace] does not check its index: [None] stands for the
    undefined behaviour of a call outside the array. *)
Definition PT (S A : Type) : Type := S -> option (A * S).
#[export] Instance PT_ret {S} : MRet (PT S) := fun A a s => Some (a, s).
#[export] Instance PT_bind {S} : MBind (PT S) :=
  fun A B f m s => match m s with Some (a, s') => f a s' | None => None end.
(** A member that never does. *)
Definition total {S A} (m : ST S A) : PT S A := fun s => Some (m s).

(** [0 <= i < l.size()] *)
Definition inRange {A} (i : Z) (l : list A) : bool := (0 <=? i) && (i <? Z.of_nat (length l)).

(** [l.at(i)]: undefined outside the array. *)
Definition jat (l : list json) (i : Z) : option json := if i <? 0 then None else l !! Z.to_nat i.

(** [l.replace(i, v)] *)
Definition jreplace (i : Z) (v : json) (l : list json) : option (list json) :=
  if inRange i l then Some (<[Z.to_nat i := v]> l) else None.

(** [l.removeAt(i)]: nothing outside the array. *)
Definition jremoveAt (i : Z) (l : list json) : list json :=
  if inRange i l then delete (Z.to_nat i) l else l.

(** The field of a server or a container as text. *)
Definition field (obj : QJsonObject) (key : string) : string := qdata (toString (value obj key)).
Definition sub (obj : QJsonObject) (key : string) : QJsonObject := toObject (value obj key).

(** The container an entry of the array [containers] names. *)
Definition containerOf (v : json) : DockerContainer := containerFromString (field (toObject (Some v)) "container").

(** Containers are ordered by their value. *)
Definition containerIndex (c : DockerContainer) : Z :=
  match c with
  | None_ => 0 | Awg => 1 | Awg2 => 2 | WireGuard => 3 | Xray => 4 | SSXray => 5 | TorWebSite => 6 | Dns => 7
  | Sftp => 8 | Socks5Proxy => 9
  end.
#[export] Program Instance DockerContainer_KeyOrder : KeyOrder DockerContainer :=
  {| kcompare := fun a b => Z.compare (containerIndex a) (containerIndex b) |}.
Next Obligation. intros a b. rewrite Z.compare_eq_iff. by destruct a, b. Qed.
#[export] Instance DockerContainer_KeyOrderLaws : KeyOrderLaws DockerContainer_KeyOrder.
Proof.
  split; cbn [kcompare DockerContainer_KeyOrder].
  - intros x y. apply Z.compare_antisym.
  - intros x y z. rewrite !Z.compare_lt_iff. lia.
Qed.

Record ServerCredentials : Type := mkCredentials {
  hostName : string; userName : string; secretData : string; credPort : Z }.
Definition credentialsOf (s : QJsonObject) : ServerCredentials :=
  mkCredentials (field s "hostName") (field s "userName") (field s "password") (toIntJ (value s "port")).

(** ** The servers in the settings *)

Module Store.
Section Store.
(** [QJsonDocument::fromJson(s).array()], [QJsonDocument(l).toJson()], [tr] *)
Context (arrayOf : string -> list json) (textOfArray : list json -> string) (tr : string -> string).

Local Abbreviation serversArray := (serversArray arrayOf).
Local Abbreviation server := (server arrayOf).

Definition setServersArray (servers : list json) : Settings -> Settings :=
  setValue "Servers/serversList" (VString (textOfArray servers)).
Definition setDefaultServer (index : Z) : Settings -> Settings := setValue "Servers/defaultServerIndex" (VInt index).

Definition serversCount (s : Settings) : Z := Z.of_nat (length (serversArray s)).

Definition addServer (server : QJsonObject) (s : Settings) : Settings :=
  setServersArray (serversArray s ++ [JObject server]) s.
Definition addServers (newServers : list json) (s : Settings) : Settings :=
  setServersArray (serversArray s ++ newServers) s.

(** The result tells whether [serverRemoved] is emitted. *)
Definition removeServer (index : Z) (s : Settings) : bool * Settings :=
  let servers := serversArray s in
  if index >=? Z.of_nat (length servers) then (false, s)
  else (true, setServersArray (jremoveAt index servers) s).

Definition editServer (index : Z) (server : QJsonObject) (s : Settings) : option (bool * Settings) :=
  let servers := serversArray s in
  if index >=? Z.of_nat (length servers) then Some (false, s)
  else servers' ← jreplace index (JObject server) servers;
       Some (true, setServersArray servers' s).

Definition setDefaultContainer (serverIndex : Z) (container : DockerContainer) (s : Settings) : option Settings :=
  snd <$> editServer serverIndex
    (jinsert "defaultContainer" (Some (jstr (containerToString container))) (server s serverIndex)) s.

Definition containers (s : Settings) (serverIndex : Z) : list (DockerContainer * QJsonObject) :=
  fold_left (fun containersMap val => qmap_insert (containerOf val) (toObject (Some val)) containersMap)
    (toArray (value (server s serverIndex) "containers")) [].

Definition setContainers (serverIndex : Z) (containers : list (DockerContainer * QJsonObject)) (s : Settings)
    : option Settings :=
  snd <$> editServer serverIndex
    (jinsert "containers" (Some (JArray (map (fun kv => JObject kv.2) containers))) (server s serverIndex)) s.

Definition containerConfig (s : Settings) (serverIndex : Z) (container : DockerContainer) : QJsonObject :=
  if bool_decide (container = None_) then ∅ else default ∅ (qmap_lookup container (containers s serverIndex)).

Definition setContainerConfig (serverIndex : Z) (container : DockerContainer) (config : QJsonObject) (s : Settings)
    : option Settings :=
  if bool_decide (container = None_) then Some s
  else setContainers serverIndex
    (qmap_insert container (jinsert "container" (Some (jstr (containerToString container))) config)
      (containers s serverIndex)) s.

Definition removeContainerConfig (serverIndex : Z) (container : DockerContainer) (s : Settings) : option Settings :=
  if bool_decide (container = None_) then Some s
  else setContainers serverIndex (qmap_remove container (containers s serverIndex)) s.

Definition protocolConfig (s : Settings) (serverIndex : Z) (container : DockerContainer) (proto : Proto.t) : QJsonObject :=
  sub (containerConfig s serverIndex container) (protoToString proto).

Definition setProtocolConfig (serverIndex : Z) (container : DockerContainer) (proto : Proto.t) (config : QJsonObject)
    (s : Settings) : option Settings :=
  setContainerConfig serverIndex container
    (jinsert (protoToString proto) (Some (JObject config)) (containerConfig s serverIndex container)) s.

Definition clearProtocol (serverIndex : Z) (container : DockerContainer) (proto : Proto.t) (s : Settings) : option Settings :=
  setProtocolConfig serverIndex container proto (delete "last_config"%string (protocolConfig s serverIndex container proto)) s.

(** No container lists [Any], so the recursion is one level deep. *)
Definition clearLastConnectionConfig (serverIndex : Z) (container : DockerContainer) (proto : Proto.t) (s : Settings)
    : option Settings :=
  if bool_decide (proto = Proto.Any)
  then fold_left (fun s p => s ≫= clearProtocol serverIndex container p) (protocolsForContainer container) (Some s)
  else clearProtocol serverIndex container proto s.

Definition serverCredentials (s : Settings) (index : Z) : ServerCredentials := credentialsOf (server s index).
Definition haveAuthData (s : Settings) (serverIndex : Z) : bool :=
  if serverIndex <? 0 then false
  else let cred := serverCredentials s serverIndex in
    negb (String.eqb (hostName cred) "") && negb (String.eqb (userName cred) "") && negb (String.eqb (secretData cred) "").

Definition serverName (i : Z) : string := tr "Server" +:+ " " +:+ pretty i.

(** The loop, [i] being the number tried last. *)
Fixpoint nextName (fuel : nat) (servers : list json) (i : Z) : res string :=
  match fuel with
  | O => Timeout
  | S fuel' =>
      let i := i + 1 in
      if existsb (fun v => String.eqb (field (toObject (Some v)) "description") (serverName i)) servers
      then nextName fuel' servers i
      else Val (serverName i)
  end.
Definition nextAvailableServerName (fuel : nat) (s : Settings) : res string := nextName fuel (serversArray s) 0.

(** The constructor moves the server of an old version into the list. *)
Definition newSettings (s : Settings) : Settings :=
  let text key := variantToString (confValue s key (VString "")) in
  let user := text "Server/userName"%string in
  let password := text "Server/password"%string in
  let name := text "Server/serverName"%string in
  if (serversCount s =? 0) && negb (String.eqb user "") && negb (String.eqb password "") && negb (String.eqb name "")
  then
    let server := jinsert "description" (Some (jstr (tr "Server #1")))
      (jinsert "port" (Some (jint (variantToInt (confValue s "Server/serverPort" (VInt 0)))))
      (jinsert "hostName" (Some (jstr name))
      (jinsert "password" (Some (jstr password))
      (jinsert "userName" (Some (jstr user)) ∅)))) in
    fold_left (fun s key => delete key s)
      ["Server/userName"; "Server/password"; "Server/serverName"; "Server/serverPort"]%string (addServer server s)
  else s.
End Store.
End Store.
