(* ===== verification/Servers.v ===== *)
(** * The servers model: [client/ui/models/servers_model.cpp]

    [ServersModel] keeps a copy of the stored array with the default and the
    processed index, the latencies the health check reported and the lists the
    filters of the server page show.  The signals a member emits are appended
    to [sm_emitted], and the slots the constructor connects run in place. *)

From Stdlib Require Import ZArith Lia Bool String Ascii.
From stdpp Require Import base gmap strings list sorting pretty.
From S2P Require Import Prelude.
From S2P Require Import Qt.
From S2P Require Import IPAddress.
From S2P Require Import NetworkUtilities.
From S2P Require Import Settings.
From S2P Require Import Containers.
From S2P Require Import ServerStore.

Open Scope Z_scope.

(** ** The servers model *)

Record GatewayStacks : Type := mkStacks { userCountryCodes : gset string; serviceTypes : gset string }.
Definition stacksEmpty (g : GatewayStacks) : bool :=
  bool_decide (userCountryCodes g = ∅) && bool_decide (serviceTypes g = ∅).
#[export] Instance GatewayStacks_eq_dec : EqDecision GatewayStacks.
Proof. solve_decision. Defined.

(** The roles a [dataChanged] names: all of them, or the latency only. *)
Inductive RolesChanged : Type := AllRoles | HealthOnly.

Inductive ServersSignal : Type :=
| defaultServerIndexChanged (index : Z)
| defaultServerNameChanged
| defaultServerDescriptionChanged
| defaultServerDefaultContainerChanged (container : DockerContainer)
| defaultServerContainersUpdated (containers : list json)
| containersUpdated (containers : list json)
| processedServerIndexChanged (index : Z)
| processedServerChanged
| dataChanged (first last : Z) (roles : RolesChanged)
| modelReset
| updateApiCountryModel
| updateApiServicesModel
| hasServersFromGatewayApiChanged
| gatewayStacksExpanded
| availableProtocolsChanged
| availableEnvsChanged
| availableSubscriptionsChanged.

Record ServersModel : Type := mkServers {
  sm_settings : Settings;
  m_servers : list json;
  m_defaultServerIndex : Z;
  m_processedServerIndex : Z;
  m_isAmneziaDnsEnabled : bool;
  m_gatewayStacks : GatewayStacks;
  m_healthResults : gmap Z Z;
  m_availableProtocols : list string;
  m_availableEnvs : list string;
  m_availableSubscriptions : list string;
  sm_emitted : list ServersSignal
}.

(** Assignments to the members. *)
Definition setSettings (s : Settings) : ST ServersModel unit := modify (fun m =>
  mkServers s (m_servers m) (m_defaultServerIndex m) (m_processedServerIndex m) (m_isAmneziaDnsEnabled m)
    (m_gatewayStacks m) (m_healthResults m) (m_availableProtocols m) (m_availableEnvs m) (m_availableSubscriptions m) (sm_emitted m)).
Definition setServers (l : list json) : ST ServersModel unit := modify (fun m =>
  mkServers (sm_settings m) l (m_defaultServerIndex m) (m_processedServerIndex m) (m_isAmneziaDnsEnabled m)
    (m_gatewayStacks m) (m_healthResults m) (m_availableProtocols m) (m_availableEnvs m) (m_availableSubscriptions m) (sm_emitted m)).
Definition setDefaultIndex (i : Z) : ST ServersModel unit := modify (fun m =>
  mkServers (sm_settings m) (m_servers m) i (m_processedServerIndex m) (m_isAmneziaDnsEnabled m)
    (m_gatewayStacks m) (m_healthResults m) (m_availableProtocols m) (m_availableEnvs m) (m_availableSubscriptions m) (sm_emitted m)).
Definition setProcessedIndex (i : Z) : ST ServersModel unit := modify (fun m =>
  mkServers (sm_settings m) (m_servers m) (m_defaultServerIndex m) i (m_isAmneziaDnsEnabled m)
    (m_gatewayStacks m) (m_healthResults m) (m_availableProtocols m) (m_availableEnvs m) (m_availableSubscriptions m) (sm_emitted m)).
Definition setDnsEnabled (b : bool) : ST ServersModel unit := modify (fun m =>
  mkServers (sm_settings m) (m_servers m) (m_defaultServerIndex m) (m_processedServerIndex m) b
    (m_gatewayStacks m) (m_healthResults m) (m_availableProtocols m) (m_availableEnvs m) (m_availableSubscriptions m) (sm_emitted m)).
Definition setStacks (g : GatewayStacks) : ST ServersModel unit := modify (fun m =>
  mkServers (sm_settings m) (m_servers m) (m_defaultServerIndex m) (m_processedServerIndex m) (m_isAmneziaDnsEnabled m)
    g (m_healthResults m) (m_availableProtocols m) (m_availableEnvs m) (m_availableSubscriptions m) (sm_emitted m)).
Definition setHealth (h : gmap Z Z) : ST ServersModel unit := modify (fun m =>
  mkServers (sm_settings m) (m_servers m) (m_defaultServerIndex m) (m_processedServerIndex m) (m_isAmneziaDnsEnabled m)
    (m_gatewayStacks m) h (m_availableProtocols m) (m_availableEnvs m) (m_availableSubscriptions m) (sm_emitted m)).
Definition setAvailable (protocols envs subscriptions : list string) : ST ServersModel unit := modify (fun m =>
  mkServers (sm_settings m) (m_servers m) (m_defaultServerIndex m) (m_processedServerIndex m) (m_isAmneziaDnsEnabled m)
    (m_gatewayStacks m) (m_healthResults m) protocols envs subscriptions (sm_emitted m)).
Definition emitS (sig : ServersSignal) : ST ServersModel unit := modify (fun m =>
  mkServers (sm_settings m) (m_servers m) (m_defaultServerIndex m) (m_processedServerIndex m) (m_isAmneziaDnsEnabled m)
    (m_gatewayStacks m) (m_healthResults m) (m_availableProtocols m) (m_availableEnvs m) (m_availableSubscriptions m)
    (sm_emitted m ++ [sig])).

(** *** Text helpers of the model *)

Definition upper_ascii (c : ascii) : ascii :=
  let n := Ascii.nat_of_ascii c in
  if Nat.leb 97 n && Nat.leb n 122 then Ascii.ascii_of_nat (n - 32) else c.
(** [s.toUpper()] *)
Fixpoint toUpper (s : string) : string :=
  match s with
  | EmptyString => ""%string
  | String d s' => String (upper_ascii d) (toUpper s')
  end.

(** [s.startsWith(p, Qt::CaseInsensitive)] for a prefix in lower case *)
Definition startsWithCI (p s : string) : bool := String.prefix p (toLower s).

Definition normalizeVpnKey (vpnKey : string) : string :=
  let normalized := trimmed vpnKey in
  if startsWithCI "vpn://" normalized then str_mid 6 normalized else normalized.

Definition flagAliases : list (string * string) :=
  [("SWE", "SE"); ("HEL", "FI"); ("UK", "GB"); ("EST", "EE"); ("TLL", "EE"); ("EESTI", "EE"); ("ESTONIA", "EE");
   ("TALLINN", "EE")]%string.
Definition flagCountryCode (countryCode : string) : string :=
  let countryCode := toUpper (trimmed countryCode) in
  default countryCode (qmap_lookup countryCode flagAliases).

(** The credentials a gateway server was issued with. *)
Definition authDataOf (server : QJsonObject) : QJsonObject :=
  let authData := sub (sub server "api_config") "auth_data" in
  if bool_decide (authData = ∅) then sub server "auth_data" else authData.
Definition authIdOf (authData : QJsonObject) : string :=
  let id := field authData "api_key" in
  if String.eqb id "" then field authData "id" else id.

Definition subscriptionIdOfServer (server : QJsonObject) : string :=
  if toBool (value (sub server "api_config") "shared") then ""
  else if jcontains (authDataOf server) "share_token" then ""
  else authIdOf (authDataOf server).

(** The languages the titles of a pool are translated to. *)
Inductive Language : Type := Russian | Ukrainian | OtherLanguage.

Definition localizedPoolName (pool : string) (translation : QJsonObject) (language : Language) : string :=
  let text code := trimmed (field translation code) in
  let value := match language with
    | Russian => text "ru"%string
    | Ukrainian => if String.eqb (text "uk"%string) "" then text "ua"%string else text "uk"%string
    | OtherLanguage => text "en"%string
    end in
  if negb (String.eqb value "") then value else trimmed pool.

(** [list.sort()] *)
Definition textLe (a b : string) : Prop := String.leb a b = true.
#[export] Instance textLe_dec : RelDecision textLe.
Proof. unfold RelDecision, textLe. solve_decision. Defined.
Definition sortTexts (l : list string) : list string := merge_sort textLe l.

(** The elements of a set of strings in increasing order. *)
Definition sortUnique (l : list string) : list string :=
  (fold_left (fun m s => qmap_insert s tt m) l []).*1.

(** *** The model *)

Module Model.
Section Model.
Context `{Qt}.
(** [QJsonDocument::fromJson(s).array()], [QJsonDocument(l).toJson()], [tr],
    and the language of [Settings::getAppLanguage]. *)
Context (arrayOf : string -> list json) (textOfArray : list json -> string) (tr : string -> string)
  (language : Settings -> Language).

Local Abbreviation SM := (ST ServersModel).
Local Abbreviation serversArray := (serversArray arrayOf).

(** [m_servers.at(i).toObject()] *)
Definition serverAt (m : ServersModel) (i : Z) : QJsonObject := toObject (jat (m_servers m) i).
Definition getServerConfig := serverAt.

Definition rowCount (m : ServersModel) : Z := Z.of_nat (length (m_servers m)).
Definition validRow (m : ServersModel) (i : Z) : bool := inRange i (m_servers m).
(** [index(i).row()]: an index outside the model is invalid, its row -1. *)
Definition rowOf (m : ServersModel) (i : Z) : Z := if validRow m i then i else -1.

Definition configVersion (server : QJsonObject) : Z := toIntJ (value server "config_version").
Definition defaultContainerOf (server : QJsonObject) : DockerContainer := containerFromString (field server "defaultContainer").
Definition containersOf (server : QJsonObject) : list json := toArray (value server "containers").
Definition displayInfo (server : QJsonObject) : QJsonObject := sub server "displayInfo".
Definition apiConfig (server : QJsonObject) : QJsonObject := sub server "api_config".

(** **** [data(row, role)], one definition per role; what the callers read of
    an invalid variant outside the model is the empty value. *)

Definition nameRole (m : ServersModel) (i : Z) : string :=
  let server := serverAt m i in
  if negb (validRow m i) then ""
  else if negb (configVersion server =? 0) then
    let localized := if toBool (value server "nameOverriddenByUser") then ""%string
      else localizedPoolName (field (displayInfo server) "pool") (sub (displayInfo server) "poolTranslation")
             (language (sm_settings m)) in
    if negb (String.eqb localized "") then localized else field server "name"
  else
    let name := field server "description" in
    if String.eqb name "" then field server "hostName" else name.

Definition hasWriteAccess (m : ServersModel) (i : Z) : bool :=
  let credentials := credentialsOf (serverAt m i) in
  validRow m i && negb (String.eqb (userName credentials) "") && negb (String.eqb (secretData credentials) "").

Definition amneziaDnsIp : string := "172.29.172.254".
Definition hasAmneziaDns (m : ServersModel) (i : Z) : bool :=
  validRow m i && String.eqb (field (serverAt m i) "dns1") amneziaDnsIp.

Definition defaultContainerRole (m : ServersModel) (i : Z) : DockerContainer :=
  if validRow m i then defaultContainerOf (serverAt m i) else None_.

Definition isServerFromTelegramApi (m : ServersModel) (i : Z) : bool := validRow m i && (configVersion (serverAt m i) =? 1).
Definition isServerFromGatewayApi (m : ServersModel) (i : Z) : bool := validRow m i && (configVersion (serverAt m i) =? 2).
Definition isServerFromApi (m : ServersModel) (i : Z) : bool := isServerFromTelegramApi m i || isServerFromGatewayApi m i.
Definition isCountrySelectionAvailable (m : ServersModel) (i : Z) : bool :=
  validRow m i && negb (Nat.eqb (length (toArray (value (apiConfig (serverAt m i)) "available_countries"))) 0).

Definition serviceProtocolRole (m : ServersModel) (i : Z) : string :=
  let server := serverAt m i in
  if negb (validRow m i) then ""
  else
    let protocol := field (apiConfig server) "service_protocol" in
    canonicalServiceProtocol (if String.eqb protocol "" then toLower (field (displayInfo server) "protocol") else protocol).

Definition serviceProtocolFilter (m : ServersModel) (i : Z) : string :=
  let server := serverAt m i in
  if negb (validRow m i) then ""
  else
    let protocol := field (apiConfig server) "service_protocol" in
    let protocol := if String.eqb protocol "" then field (displayInfo server) "protocol" else protocol in
    let protocol := if String.eqb protocol "" then
        let p := containerTypeToProtocolString (defaultContainerOf server) in
        if String.eqb p "none" then ""%string else p
      else protocol in
    toLower protocol.

Definition connectionEnv (m : ServersModel) (i : Z) : string :=
  let env := field (apiConfig (serverAt m i)) "env" in
  if negb (validRow m i) then ""
  else if String.prefix "custompremium" env then "premium"
  else if String.prefix "custom" env then "private"
  else env.

Definition countryCodeRole (m : ServersModel) (i : Z) : string :=
  let server := serverAt m i in
  if negb (validRow m i) then ""
  else
    let code := field (apiConfig server) "server_country_code" in
    let code := if String.eqb code "" then field (apiConfig server) "user_country_code" else code in
    let code := if String.eqb code "" then field (displayInfo server) "countryCode" else code in
    flagCountryCode code.

Definition countryNameRole (m : ServersModel) (i : Z) : string :=
  let server := serverAt m i in
  if negb (validRow m i) then ""
  else
    let name := field (apiConfig server) "server_country_name" in
    if String.eqb name "" then field (displayInfo server) "countryName" else name.

(** The non-empty entry addresses of a server. *)
Definition nodeIpsOf (server : QJsonObject) : list string :=
  List.filter (fun ip => negb (String.eqb ip "")) (map (fun v => qdata (toString (Some v))) (toArray (value server "node_ips"))).
Definition nodeIpsRole (m : ServersModel) (i : Z) : list string :=
  if validRow m i then nodeIpsOf (serverAt m i) else [].

(** -2 when the server was not probed. *)
Definition healthLatency (m : ServersModel) (i : Z) : Z :=
  if validRow m i then default (-2) (m_healthResults m !! i) else 0.

Definition isAmneziaDnsContainerInstalled (m : ServersModel) (i : Z) : bool :=
  existsb (fun v => String.eqb (field (toObject (Some v)) "container") (containerToString Dns)) (containersOf (serverAt m i)).

Definition serverHasInstalledContainers (m : ServersModel) (i : Z) : bool :=
  existsb (fun v => bool_decide (containerService (containerOf v) = ServiceVpn) || bool_decide (containerOf v = SSXray))
    (containersOf (serverAt m i)).

Definition getServerDescription (m : ServersModel) (server : QJsonObject) (index : Z) : string :=
  let api := apiConfig server in
  if negb (configVersion server =? 0) && negb (String.eqb (field api "server_country_code") "") then
    let protocol := toUpper (field api "service_protocol") in
    let countryName := field api "server_country_name" in
    let countryCode := toUpper (field api "server_country_code") in
    if negb (String.eqb countryName "") && negb (String.eqb protocol "") then countryName +:+ " · " +:+ protocol
    else if negb (String.eqb countryName "") then countryName
    else if negb (String.eqb protocol "") then countryCode +:+ " · " +:+ protocol
    else countryCode
  else if negb (configVersion server =? 0) then field server "description"
  else if hasWriteAccess m index
  then (if m_isAmneziaDnsEnabled m && isAmneziaDnsContainerInstalled m index then "Dopamine DNS | " else "")
  else (if hasAmneziaDns m index then "Dopamine DNS | " else "").

(** The address and the containers of the default server. *)
Definition getDefaultServerHostName (m : ServersModel) : string :=
  if validRow m (m_defaultServerIndex m) then field (serverAt m (m_defaultServerIndex m)) "hostName" else "".
Definition getDefaultServerNodeIps (m : ServersModel) : list string :=
  if validRow m (m_defaultServerIndex m) then nodeIpsOf (serverAt m (m_defaultServerIndex m)) else [].
Definition getDefaultServerName (m : ServersModel) : string := nameRole m (m_defaultServerIndex m).
Definition isDefaultServerFromApi (m : ServersModel) : bool := isServerFromApi m (m_defaultServerIndex m).
Definition isDefaultServerCurrentlyProcessed (m : ServersModel) : bool := m_defaultServerIndex m =? m_processedServerIndex m.
Definition hasServerWithWriteAccess (m : ServersModel) : bool :=
  existsb (fun i => hasWriteAccess m (Z.of_nat i)) (seq 0 (length (m_servers m))).

Definition getDefaultServerProtocolName (m : ServersModel) : string :=
  let server := serverAt m (m_defaultServerIndex m) in
  if negb (configVersion server =? 0) then
    let protocol := field (apiConfig server) "service_protocol" in
    let protocol := if String.eqb protocol "" then field (displayInfo server) "protocol" else protocol in
    let display := serviceProtocolDisplayName protocol in
    if negb (String.eqb display protocol) then display
    else
      let p := toLower protocol in
      if String.eqb p "awg" then "AmneziaWG"
      else if String.eqb p "vless" then "VLESS"
      else if String.eqb p "hysteria2" then "Hysteria2"
      else if String.eqb p "wireguard" then "WireGuard"
      else toUpper protocol
  else containerHumanName tr (defaultContainerOf server).

Definition defaultContainerTitle (m : ServersModel) (container : DockerContainer) : string :=
  let name := containerHumanName tr container in
  if isAwgContainer container then
    let config := sub (Store.containerConfig arrayOf (sm_settings m) (m_defaultServerIndex m) container)
                    (containerTypeToProtocolString container) in
    (if bool_decide (container = Awg) && negb (toBool (value config "isThirdPartyConfig")) then "AmneziaWG Legacy" else name)
      +:+ getProtocolVersionString tr config
  else name.
Definition getDefaultServerDefaultContainerName (m : ServersModel) : string :=
  defaultContainerTitle m (defaultContainerRole m (m_defaultServerIndex m)).
Definition getDefaultServerDescriptionCollapsed (m : ServersModel) : string :=
  let server := serverAt m (m_defaultServerIndex m) in
  let description := getServerDescription m server (m_defaultServerIndex m) in
  if negb (configVersion server =? 0) then description
  else description +:+ defaultContainerTitle m (defaultContainerOf server) +:+ " | " +:+ field server "hostName".
Definition getDefaultServerDescriptionExpanded (m : ServersModel) : string :=
  let server := serverAt m (m_defaultServerIndex m) in
  let description := getServerDescription m server (m_defaultServerIndex m) in
  if negb (configVersion server =? 0) then description else description +:+ field server "hostName".

(** **** Members that change the model *)

Definition updateContainersModel : SM unit :=
  m ← get; emitS (containersUpdated (containersOf (serverAt m (m_processedServerIndex m)))).
Definition updateDefaultServerContainersModel : SM unit :=
  m ← get; emitS (defaultServerContainersUpdated (containersOf (serverAt m (m_defaultServerIndex m)))).

(** [emit defaultServerIndexChanged(i)] and its slots *)
Definition emitDefaultIndex (i : Z) : SM unit :=
  emitS (defaultServerIndexChanged i) ;;
  emitS defaultServerNameChanged ;;
  (m ← get; emitS (defaultServerDefaultContainerChanged (defaultContainerOf (serverAt m i)))) ;;
  emitS defaultServerNameChanged ;;
  updateDefaultServerContainersModel.

(** [emit dataChanged(index(i), index(j), roles)] and its slot *)
Definition emitDataChanged (i j : Z) (roles : RolesChanged) : SM unit :=
  m ← get;
  let first := rowOf m i in
  let last := rowOf m j in
  emitS (dataChanged first last roles) ;;
  forEach (fun k =>
      if first + Z.of_nat k =? m_defaultServerIndex m
      then emitS defaultServerNameChanged ;; emitS defaultServerDescriptionChanged
      else mret tt)
    (seq 0 (Z.to_nat (last - first + 1))) ;;
  emitS processedServerChanged.

(** The tags of the gateway servers, and whether one of them is new. *)
Definition stacksNow (m : ServersModel) : GatewayStacks * bool :=
  fold_left (fun '(computed, hasNewTags) i =>
      if isServerFromGatewayApi m (Z.of_nat i) then
        let api := apiConfig (serverAt m (Z.of_nat i)) in
        let country := field api "user_country_code" in
        let service := field api "service_type" in
        let new c known := negb (String.eqb c "") && negb (bool_decide (c ∈ known)) in
        (mkStacks (if String.eqb country "" then userCountryCodes computed else {[country]} ∪ userCountryCodes computed)
                  (if String.eqb service "" then serviceTypes computed else {[service]} ∪ serviceTypes computed),
         hasNewTags || new country (userCountryCodes (m_gatewayStacks m)) || new service (serviceTypes (m_gatewayStacks m)))
      else (computed, hasNewTags))
    (seq 0 (length (m_servers m))) (mkStacks ∅ ∅, false).

Definition recomputeGatewayStacks : SM unit :=
  m ← get;
  setStacks (stacksNow m).1 ;;
  (if (stacksNow m).2 then emitS gatewayStacksExpanded else mret tt) ;;
  if negb (Bool.eqb (stacksEmpty (m_gatewayStacks m)) (stacksEmpty (stacksNow m).1))
  then emitS hasServersFromGatewayApiChanged else mret tt.

(** [endResetModel()] emits [modelReset], which has one slot. *)
Definition endResetModel : SM unit := emitS modelReset ;; recomputeGatewayStacks.

(** What the filters of the server page offer for a list of servers. *)
Definition rows (m : ServersModel) : list Z := map Z.of_nat (seq 0 (length (m_servers m))).
Definition protocolsNow (m : ServersModel) : list string :=
  sortUnique (List.filter (fun p => negb (String.eqb p "")) (map (serviceProtocolFilter m) (rows m))).
Definition envsNow (m : ServersModel) : list string :=
  sortUnique (List.filter (fun e => negb (String.eqb e "")) (map (connectionEnv m) (rows m))).
Definition subscriptionsNow (m : ServersModel) : list string :=
  fold_left (fun ids v =>
      let id := subscriptionIdOfServer (toObject (Some v)) in
      if negb (String.eqb id "") && negb (bool_decide (id ∈ ids)) then ids ++ [id] else ids)
    (m_servers m) [].

Definition recomputeAvailableProtocols : SM unit :=
  m ← get;
  if bool_decide (protocolsNow m = m_availableProtocols m) then mret tt
  else setAvailable (protocolsNow m) (m_availableEnvs m) (m_availableSubscriptions m) ;; emitS availableProtocolsChanged.
Definition recomputeAvailableEnvs : SM unit :=
  m ← get;
  if bool_decide (envsNow m = m_availableEnvs m) then mret tt
  else setAvailable (m_availableProtocols m) (envsNow m) (m_availableSubscriptions m) ;; emitS availableEnvsChanged.
Definition recomputeAvailableSubscriptions : SM unit :=
  m ← get;
  if bool_decide (subscriptionsNow m = m_availableSubscriptions m) then mret tt
  else setAvailable (m_availableProtocols m) (m_availableEnvs m) (subscriptionsNow m) ;; emitS availableSubscriptionsChanged.
Definition recomputeAll : SM unit :=
  recomputeAvailableProtocols ;; recomputeAvailableEnvs ;; recomputeAvailableSubscriptions.

Definition availableProtocolsForEnv (m : ServersModel) (env : string) : list string :=
  sortUnique (List.filter (fun p => negb (String.eqb p ""))
    (map (serviceProtocolFilter m)
      (List.filter (fun i => String.eqb env "" || String.eqb (connectionEnv m i) env) (rows m)))).

Definition useAmneziaDns (s : Settings) : bool := variantToBool (confValue s "Conf/useAmneziaDns" (VBool true)).

Definition resetModel : SM unit :=
  setHealth ∅ ;;
  (m ← get; setServers (serversArray (sm_settings m))) ;;
  (m ← get; setDefaultIndex (defaultServerIndex (sm_settings m))) ;;
  (m ← get; setProcessedIndex (m_defaultServerIndex m)) ;;
  (m ← get; setDnsEnabled (useAmneziaDns (sm_settings m))) ;;
  recomputeAll ;;
  endResetModel ;;
  m ← get; emitDefaultIndex (m_defaultServerIndex m).

Definition setDefaultServerIndex (index : Z) : SM unit :=
  (m ← get; setSettings (Store.setDefaultServer index (sm_settings m))) ;;
  (m ← get; setDefaultIndex (defaultServerIndex (sm_settings m))) ;;
  m ← get; emitDefaultIndex (m_defaultServerIndex m).

Definition setProcessedServerIndex (index : Z) : SM unit :=
  setProcessedIndex index ;;
  updateContainersModel ;;
  (m ← get;
   if isServerFromGatewayApi m index then
     (if isCountrySelectionAvailable m index then emitS updateApiCountryModel else mret tt) ;;
     emitS updateApiServicesModel
   else mret tt) ;;
  emitS (processedServerIndexChanged index).

Definition addServer (server : QJsonObject) : SM unit :=
  (m ← get; setSettings (Store.addServer arrayOf textOfArray server (sm_settings m))) ;;
  (m ← get; setServers (serversArray (sm_settings m))) ;;
  recomputeAll ;;
  endResetModel.

Definition addServers (servers : list json) : SM unit :=
  (m ← get; setSettings (Store.addServers arrayOf textOfArray servers (sm_settings m))) ;;
  (m ← get; setServers (serversArray (sm_settings m))) ;;
  recomputeAll ;;
  endResetModel.

Definition removeAllServers : SM unit :=
  setHealth ∅ ;;
  (m ← get; setSettings (Store.setServersArray textOfArray [] (sm_settings m))) ;;
  setServers [] ;;
  setDefaultServerIndex (-1) ;;
  recomputeAll ;;
  endResetModel.

(** The default index moves with the servers. *)
Definition moveDefault (serverIndex : Z) : SM unit :=
  (m ← get;
   let index := defaultServerIndex (sm_settings m) in
   if index =? serverIndex then setDefaultServerIndex 0
   else if index >? serverIndex then setDefaultServerIndex (index - 1)
   else mret tt) ;;
  m ← get; if Store.serversCount arrayOf (sm_settings m) =? 0 then setDefaultServerIndex (-1) else mret tt.

Definition removeServer (serverIndex : Z) : SM unit :=
  setHealth ∅ ;;
  (m ← get; setSettings (Store.removeServer arrayOf textOfArray serverIndex (sm_settings m)).2) ;;
  (m ← get; setServers (serversArray (sm_settings m))) ;;
  moveDefault serverIndex ;;
  (m ← get; setProcessedServerIndex (m_defaultServerIndex m)) ;;
  recomputeAvailableSubscriptions ;;
  endResetModel.
Definition removeProcessedServer : SM unit := m ← get; removeServer (m_processedServerIndex m).

(** **** Members that edit a server *)

Local Abbreviation SMp := (PT ServersModel).

(** [m_servers.replace(i, v)] *)
Definition replaceServer (i : Z) (v : json) : SMp unit := fun m =>
  l ← jreplace i v (m_servers m); Some (setServers l m).

(** [m_settings->editServer(i, server)], the result ignored *)
Definition storeEdit (i : Z) (server : QJsonObject) : SMp unit := fun m =>
  s ← Store.editServer arrayOf textOfArray i server (sm_settings m); Some (setSettings s.2 m).

Definition whenDefault (i : Z) (k : SM unit) : SM unit :=
  m ← get; if i =? m_defaultServerIndex m then k else mret tt.

(** A value outside an array is stored as null. *)
Definition editServer (server : QJsonObject) (serverIndex : Z) : SMp unit :=
  storeEdit serverIndex server ;;
  (fun m => replaceServer serverIndex (default JNull (jat (serversArray (sm_settings m)) serverIndex)) m) ;;
  total (
    emitDataChanged serverIndex serverIndex AllRoles ;;
    whenDefault serverIndex updateDefaultServerContainersModel ;;
    updateContainersModel ;;
    whenDefault serverIndex (
      (m ← get; emitS (defaultServerDefaultContainerChanged (defaultContainerRole m (m_defaultServerIndex m)))) ;;
      emitS defaultServerNameChanged) ;;
    recomputeAvailableSubscriptions).

(** [setData(index, value, NameRole)]; the other roles change nothing. *)
Definition renamed (server : QJsonObject) (name : string) : QJsonObject :=
  jinsert "nameOverriddenByUser" (Some (JBool true))
    (jinsert (if negb (configVersion server =? 0) then "name" else "description") (Some (jstr name)) server).
Definition setName (i : Z) (name : string) : SMp bool := fun m =>
  if negb (validRow m i) then Some (false, m)
  else
    let server := renamed (serverAt m i) name in
    (storeEdit i server ;;
     replaceServer i (JObject server) ;;
     total (whenDefault i (emitS defaultServerNameChanged) ;; emitDataChanged i i AllRoles) ;;
     mret true) m.

(** The first entry of a container is replaced. *)
Fixpoint replaceContainer (container : DockerContainer) (config : QJsonObject) (l : list json) : list json :=
  match l with
  | [] => []
  | v :: l' => if bool_decide (containerOf v = container) then JObject config :: l' else v :: replaceContainer container config l'
  end.

Definition withContainers (server : QJsonObject) (l : list json) : QJsonObject := jinsert "containers" (Some (JArray l)) server.

Definition withContainer (server : QJsonObject) (container : DockerContainer) (config : QJsonObject) : QJsonObject :=
  withContainers server (replaceContainer container config (containersOf server)).
Definition withDefaultContainer (server : QJsonObject) (container : DockerContainer) : QJsonObject :=
  jinsert "defaultContainer" (Some (jstr (containerToString container))) server.

(** The default server with the stored configuration of its container. *)
Definition reloaded (m : ServersModel) : QJsonObject :=
  let server := serverAt m (m_defaultServerIndex m) in
  let container := defaultContainerOf server in
  withContainer server container (Store.containerConfig arrayOf (sm_settings m) (m_defaultServerIndex m) container).
Definition reloadDefaultServerContainerConfig : SMp unit := fun m => editServer (reloaded m) (m_defaultServerIndex m) m.

Definition updateContainerConfig (container : DockerContainer) (config : QJsonObject) : SMp unit := fun m =>
  editServer (withContainer (serverAt m (m_processedServerIndex m)) container config) (m_processedServerIndex m) m.

(** The server with one more container, the default one if it had none. *)
Definition extended (server : QJsonObject) (container : DockerContainer) (config : QJsonObject) : QJsonObject :=
  let server := withContainers server (containersOf server ++ [JObject config]) in
  if bool_decide (defaultContainerOf server = None_)
     && negb (bool_decide (containerService container = ServiceOther)) && isSupportedByCurrentPlatform container
  then withDefaultContainer server container else server.
Definition addContainerConfig (container : DockerContainer) (config : QJsonObject) : SMp unit := fun m =>
  editServer (extended (serverAt m (m_processedServerIndex m)) container config) (m_processedServerIndex m) m.

Definition setDefaultContainer (serverIndex : Z) (container : DockerContainer) : SMp unit := fun m =>
  editServer (withDefaultContainer (serverAt m serverIndex) container) serverIndex m.

Definition clearCachedProfile (container : DockerContainer) : SMp unit := fun m =>
  let i := m_processedServerIndex m in
  s ← Store.clearLastConnectionConfig arrayOf textOfArray i container Proto.Any (sm_settings m);
  (total (setSettings s) ;;
   (fun m => replaceServer i (JObject (server arrayOf (sm_settings m) i)) m) ;;
   total (whenDefault i updateDefaultServerContainersModel ;; updateContainersModel)) m.

(** Times are milliseconds; [isoText], [isoMsecs] are the conversions of a
    [QDateTime] to and from the ISO format. *)
Definition isApiKeyExpired (isoText : Z -> string) (isoMsecs : string -> Z) (now : Z) (serverIndex : Z) : SMp bool := fun m =>
  let serverConfig := serverAt m serverIndex in
  let publicKeyInfo := sub (apiConfig serverConfig) "public_key" in
  let expiresAt := field publicKeyInfo "expires_at" in
  if String.eqb expiresAt "" then
    let publicKeyInfo := jinsert "expires_at" (Some (jstr (isoText (now + 86400000)))) publicKeyInfo in
    let api := jinsert "public_key" (Some (JObject publicKeyInfo)) (apiConfig serverConfig) in
    (editServer (jinsert "api_config" (Some (JObject api)) serverConfig) serverIndex ;; mret false) m
  else Some (isoMsecs expiresAt <? now, m).

Definition stripped (config : QJsonObject) : QJsonObject :=
  let config := fold_left (fun c key => delete key c) ["dns1"; "dns2"; "containers"; "hostName"]%string config in
  let api := delete "public_key"%string (apiConfig config) in
  withDefaultContainer (jinsert "api_config" (Some (JObject api)) config) None_.
Definition removeApiConfig (serverIndex : Z) : SMp unit := fun m =>
  editServer (stripped (serverAt m serverIndex)) serverIndex m.

(** **** Latencies *)

Definition setHealthResult (serverIndex latencyMs : Z) : SM unit :=
  m ← get;
  let ignored := match m_healthResults m !! serverIndex with
    | Some prev => ((prev >=? 0) && ((latencyMs <? 0) || (latencyMs >=? prev))) || ((prev <? 0) && (latencyMs <? 0))
    | None => false
    end in
  if ignored then mret tt
  else
    setHealth (<[serverIndex := latencyMs]> (m_healthResults m)) ;;
    emitDataChanged serverIndex serverIndex HealthOnly.

Definition clearHealthResults : SM unit :=
  m ← get;
  if bool_decide (m_healthResults m = ∅) then mret tt
  else
    setHealth ∅ ;;
    if Nat.eqb (length (m_servers m)) 0 then mret tt
    else emitDataChanged 0 (Z.of_nat (length (m_servers m)) - 1) HealthOnly.

Definition onTranslationsUpdated : SM unit :=
  m ← get;
  if Nat.eqb (length (m_servers m)) 0 then mret tt
  else emitDataChanged 0 (Z.of_nat (length (m_servers m)) - 1) AllRoles ;; emitS defaultServerNameChanged.

Definition toggleAmneziaDns (enabled : bool) : SM unit := setDnsEnabled enabled ;; emitS defaultServerDescriptionChanged.

(** **** Questions about the servers *)

Definition primaryDns (s : Settings) : string := variantToString (confValue s "Conf/primaryDns" (VString "1.1.1.1")).
Definition secondaryDns (s : Settings) : string := variantToString (confValue s "Conf/secondaryDns" (VString "1.0.0.1")).

(** The argument is not used. *)
Definition getDnsPair (m : ServersModel) (serverIndex : Z) : string * string :=
  let server := serverAt m (m_processedServerIndex m) in
  let isDnsContainerInstalled := existsb (fun v => bool_decide (containerOf v = Dns)) (containersOf server) in
  let first := field server "dns1" in
  let second := field server "dns2" in
  (if String.eqb first "" || negb (checkIPv4Format first)
   then if m_isAmneziaDnsEnabled m && isDnsContainerInstalled then amneziaDnsIp else primaryDns (sm_settings m)
   else first,
   if String.eqb second "" || negb (checkIPv4Format second) then secondaryDns (sm_settings m) else second).

Definition anyServer (m : ServersModel) (p : QJsonObject -> bool) : bool := existsb (fun v => p (toObject (Some v))) (m_servers m).

(** The four overloads of [isServerFromApiAlreadyExists] *)
Definition existsByCrc (m : ServersModel) (crc : Z) : bool :=
  anyServer m (fun s => toIntJ (value s "crc") mod 2 ^ 16 =? crc).
Definition existsByService (m : ServersModel) (userCountryCode serviceType serviceProtocol subscriptionId : string) : bool :=
  anyServer m (fun s =>
    let api := apiConfig s in
    String.eqb (field api "user_country_code") userCountryCode && String.eqb (field api "service_type") serviceType
    && String.eqb (field api "service_protocol") serviceProtocol
    && (String.eqb subscriptionId "" || String.eqb (authIdOf (authDataOf s)) subscriptionId)).
Definition existsByUuid (m : ServersModel) (connectionUuid : string) : bool :=
  negb (String.eqb connectionUuid "")
  && anyServer m (fun s => String.eqb (field (apiConfig s) "connection_uuid") connectionUuid).
Definition existsByName (m : ServersModel) (name description : string) : bool :=
  anyServer m (fun s => String.eqb (field s "name") name && String.eqb (field s "description") description).

Definition hasServerWithVpnKey (m : ServersModel) (vpnKey : string) : bool :=
  let normalizedInput := normalizeVpnKey vpnKey in
  if String.eqb normalizedInput "" then false
  else anyServer m (fun s =>
    let existingKey := normalizeVpnKey (field (apiConfig s) "vpn_key") in
    negb (String.eqb existingKey "") && String.eqb existingKey normalizedInput).

(** An object holds a configuration text. *)
Definition holdsConfig (o : QJsonObject) : bool :=
  negb (String.eqb (field o "last_config") "") || negb (String.eqb (field o "config") "").

(** The first entry of the default container decides. *)
Definition usableContainer (o : QJsonObject) : bool :=
  existsb (fun kv => holdsConfig (toObject (Some kv.2))) (map_to_list o) || holdsConfig o.
Definition serverHasUsableConfig (m : ServersModel) (serverIndex : Z) : bool :=
  let server := serverAt m serverIndex in
  match List.find (fun v => String.eqb (field (toObject (Some v)) "container") (containerToString (defaultContainerOf server)))
          (containersOf server) with
  | Some v => usableContainer (toObject (Some v))
  | None => false
  end.

(** The first entry of the default container, when it is a WireGuard one. *)
Definition splitTunnelConfig (container : DockerContainer) (o : QJsonObject) : bool :=
  let text := field (sub o (containerTypeToProtocolString container)) "last_config" in
  let allowed := toArray (value (jsonObject text) "allowed_ips") in
  (str_contains "AllowedIPs" text && negb (str_contains "0.0.0.0/0" text))
  || (negb (Nat.eqb (length allowed) 0)
      && negb (existsb (fun v => match v with JString s => String.eqb (qdata s) "0.0.0.0/0" | _ => false end) allowed)).
Definition isDefaultServerDefaultContainerHasSplitTunneling (m : ServersModel) : bool :=
  let server := serverAt m (m_defaultServerIndex m) in
  let c := defaultContainerOf server in
  match List.find (fun v => String.eqb (field (toObject (Some v)) "container") (containerToString c)) (containersOf server) with
  | Some v => if isAwgContainer c || bool_decide (c = WireGuard) then splitTunnelConfig c (toObject (Some v)) else false
  | None => false
  end.

Definition getAllInstalledServicesName (m : ServersModel) (serverIndex : Z) : list string :=
  let server := serverAt m serverIndex in
  sortTexts
    (if bool_decide (apiConfig server = ∅) then
       concat (map (fun v =>
         match containerOf v with
         | Dns => ["DNS"] | Sftp => ["SFTP"] | TorWebSite => ["TOR"] | Socks5Proxy => ["SOCKS5"] | _ => []
         end) (containersOf server))%string
     else
       let protocol := toUpper (field (apiConfig server) "service_protocol") in
       if String.eqb protocol "" then [] else [protocol]).
End Model.
End Model.

(** ** The members the other parts of the program call *)

Inductive ServersOp : Type :=
| opReset
| opAdd (server : QJsonObject)
| opAddMany (servers : list json)
| opRemove (serverIndex : Z)
| opRemoveProcessed
| opRemoveAll
| opEdit (server : QJsonObject) (serverIndex : Z)
| opRename (serverIndex : Z) (name : string)
| opSetDefault (serverIndex : Z)
| opSetProcessed (serverIndex : Z)
| opReload
| opUpdateContainer (container : DockerContainer) (config : QJsonObject)
| opAddContainer (container : DockerContainer) (config : QJsonObject)
| opSetDefaultContainer (serverIndex : Z) (container : DockerContainer)
| opClearProfile (container : DockerContainer)
| opRemoveApi (serverIndex : Z)
| opHealth (serverIndex latencyMs : Z)
| opClearHealth
| opTranslations
| opToggleDns (enabled : bool).

Section Run.
Context (arrayOf : string -> list json) (textOfArray : list json -> string).

Definition runOp (op : ServersOp) : PT ServersModel unit :=
  match op with
  | opReset => total (Model.resetModel arrayOf)
  | opAdd server => total (Model.addServer arrayOf textOfArray server)
  | opAddMany servers => total (Model.addServers arrayOf textOfArray servers)
  | opRemove i => total (Model.removeServer arrayOf textOfArray i)
  | opRemoveProcessed => total (Model.removeProcessedServer arrayOf textOfArray)
  | opRemoveAll => total (Model.removeAllServers textOfArray)
  | opEdit server i => Model.editServer arrayOf textOfArray server i
  | opRename i name => Model.setName arrayOf textOfArray i name ;; mret tt
  | opSetDefault i => total (Model.setDefaultServerIndex i)
  | opSetProcessed i => total (Model.setProcessedServerIndex i)
  | opReload => Model.reloadDefaultServerContainerConfig arrayOf textOfArray
  | opUpdateContainer c config => Model.updateContainerConfig arrayOf textOfArray c config
  | opAddContainer c config => Model.addContainerConfig arrayOf textOfArray c config
  | opSetDefaultContainer i c => Model.setDefaultContainer arrayOf textOfArray i c
  | opClearProfile c => Model.clearCachedProfile arrayOf textOfArray c
  | opRemoveApi i => Model.removeApiConfig arrayOf textOfArray i
  | opHealth i latency => total (Model.setHealthResult i latency)
  | opClearHealth => total Model.clearHealthResults
  | opTranslations => total Model.onTranslationsUpdated
  | opToggleDns b => total (Model.toggleAmneziaDns b)
  end.
End Run.
