(* ===== verification/ServersProofs.v ===== *)
(** * What the servers model guarantees

    The store and the model of [Servers.v]: they agree after every member the
    program calls, a removal keeps the default server, a container's
    configuration is read back, new names are fresh, the latencies of a row do
    not depend on the order of the answers, and the tags of the gateway
    servers are those of the list. *)

From Stdlib Require Import ZArith Lia Bool String Ascii.
From stdpp Require Import base gmap strings list sorting pretty.
From S2P Require Import Prelude.
From S2P Require Import Qt.
From S2P Require Import Settings.
From S2P Require Import Containers.
From S2P Require Import ServerStore.
From S2P Require Import Servers.

Open Scope Z_scope.

(** ** Lemmas *)

(** What the texts of the servers are relied on for: an array of values that
    can be stored is read back, and what was read can be stored. *)
Class ArrayTextLaws (arrayOf : string -> list json) (textOfArray : list json -> string) (storable : json -> Prop) : Prop := {
  read_back : forall l, Forall storable l -> arrayOf (textOfArray l) = l;
  parsed_storable : forall s, Forall storable (arrayOf s)
}.

(** A statement runs in the state the one before leaves. *)
Lemma pt_then {S A B} (f : PT S A) (g : PT S B) s a s1 : f s = Some (a, s1) -> (f ;; g) s = g s1.
Proof. intros E. unfold mbind, PT_bind. by rewrite E. Qed.

Lemma inRange_spec {A} i (l : list A) : inRange i l = true <-> 0 <= i < Z.of_nat (length l).
Proof. unfold inRange. rewrite andb_true_iff, Z.leb_le, Z.ltb_lt. done. Qed.

Lemma jat_spec l i v : 0 <= i -> jat l i = Some v <-> l !! Z.to_nat i = Some v.
Proof. intros Hi. unfold jat. by rewrite (proj2 (Z.ltb_ge i 0) Hi). Qed.

Lemma jat_nat l (i : nat) : jat l (Z.of_nat i) = l !! i.
Proof. unfold jat. rewrite (proj2 (Z.ltb_ge _ 0)) by lia. by rewrite Nat2Z.id. Qed.

Lemma confValue_ne s k v k' d : k <> k' -> confValue (setValue k v s) k' d = confValue s k' d.
Proof. intros Hk. rewrite lookup_setValue. by rewrite bool_decide_eq_false_2. Qed.
Lemma confValue_eq s k v d : confValue (setValue k v s) k d = v.
Proof. rewrite lookup_setValue. by rewrite bool_decide_eq_true_2. Qed.

(** *** The store *)

Section StoreFacts.
Context {arrayOf : string -> list json} {textOfArray : list json -> string} {storable : json -> Prop}
  `{!ArrayTextLaws arrayOf textOfArray storable}.
Implicit Types s : Settings.

Lemma servers_storable s : Forall storable (serversArray arrayOf s).
Proof. unfold serversArray. apply (parsed_storable (arrayOf := arrayOf)). Qed.

Lemma servers_set l s : Forall storable l -> serversArray arrayOf (Store.setServersArray textOfArray l s) = l.
Proof. intros Hl. unfold serversArray, Store.setServersArray. rewrite confValue_eq. cbn [variantToString]. exact (read_back l Hl). Qed.

Lemma default_set l s : defaultServerIndex (Store.setServersArray textOfArray l s) = defaultServerIndex s.
Proof. unfold defaultServerIndex, Store.setServersArray. by rewrite confValue_ne. Qed.

Lemma servers_setDefault i s : serversArray arrayOf (Store.setDefaultServer i s) = serversArray arrayOf s.
Proof. unfold serversArray, Store.setDefaultServer. by rewrite confValue_ne. Qed.

Lemma default_setDefault i s : defaultServerIndex (Store.setDefaultServer i s) = i.
Proof. unfold defaultServerIndex, Store.setDefaultServer. by rewrite confValue_eq. Qed.

Lemma server_at s i : 0 <= i -> server arrayOf s i = toObject (serversArray arrayOf s !! Z.to_nat i).
Proof.
  intros Hi. unfold server. destruct ((i <? 0) || _) eqn:E; [| done].
  apply orb_true_iff in E as [E | E]; zbool; [lia |]. by rewrite lookup_ge_None_2 by lia.
Qed.

(** An edit inside the list replaces the entry, keeps the others and the
    default index. *)
Lemma editServer_in s i o :
  0 <= i < Z.of_nat (length (serversArray arrayOf s)) -> storable (JObject o) ->
  exists s', Store.editServer arrayOf textOfArray i o s = Some (true, s')
    /\ serversArray arrayOf s' = <[Z.to_nat i := JObject o]> (serversArray arrayOf s)
    /\ (forall k d, k <> "Servers/serversList"%string -> confValue s' k d = confValue s k d).
Proof.
  intros Hi Ho. unfold Store.editServer, jreplace.
  rewrite Z.geb_leb, (proj2 (Z.leb_gt _ _)) by lia. rewrite (proj2 (inRange_spec _ _) Hi). cbn.
  eexists. split; [done |]. split.
  - apply servers_set. apply Forall_insert; [apply servers_storable | done].
  - intros k d Hk. unfold Store.setServersArray. by apply confValue_ne.
Qed.

Lemma server_edited s s' i j o :
  0 <= i < Z.of_nat (length (serversArray arrayOf s)) ->
  serversArray arrayOf s' = <[Z.to_nat i := JObject o]> (serversArray arrayOf s) -> 0 <= j ->
  server arrayOf s' j = if bool_decide (i = j) then o else server arrayOf s j.
Proof.
  intros Hi Hs' Hj. rewrite !server_at by done. rewrite Hs'. case_bool_decide as E.
  - subst. by rewrite list_lookup_insert_eq by lia.
  - by rewrite list_lookup_insert_ne by lia.
Qed.

(** *** Containers of a server *)

Lemma containers_wf s i : qmap_wf (Store.containers arrayOf s i).
Proof.
  unfold Store.containers. assert (Hg : forall l m, qmap_wf m ->
    qmap_wf (fold_left (fun m v => qmap_insert (containerOf v) (toObject (Some v)) m) l m)); [| apply Hg; constructor].
  intros l. induction l as [| v l IH]; intros m Hm; [done |]. cbn. by apply IH, insert_wf.
Qed.

(** Every entry of a map of containers names its own key. *)
Definition named (m : list (DockerContainer * QJsonObject)) : Prop :=
  Forall (fun kv => containerOf (JObject kv.2) = kv.1) m.

Lemma insert_named (k : DockerContainer) v m : named m -> containerOf (JObject v) = k -> named (qmap_insert k v m).
Proof.
  intros Hm Hk. induction Hm as [| [k1 v1] m H1 Hm IH]; cbn; [by repeat constructor |].
  destruct (Z.compare _ _); repeat constructor; done.
Qed.

Lemma remove_named (k : DockerContainer) m : named m -> named (qmap_remove k m).
Proof. apply remove_bound. Qed.

Lemma containers_named s i : named (Store.containers arrayOf s i).
Proof.
  unfold Store.containers. assert (Hg : forall l m, named m ->
    named (fold_left (fun m v => qmap_insert (containerOf v) (toObject (Some v)) m) l m)); [| apply Hg; constructor].
  intros l. induction l as [| v l IH]; intros m Hm; [done |]. cbn. apply IH, insert_named; [done |]. by destruct v.
Qed.

(** A map of containers written to a server is read back. *)
Lemma fold_entries m : qmap_wf m -> named m ->
  fold_left (fun m v => qmap_insert (containerOf v) (toObject (Some v)) m) (map (fun kv => JObject kv.2) m) [] = m.
Proof.
  intros Hm Hn. rewrite <- (foldl_insert_perm m m) at 2 by done.
  assert (Hg : forall acc, fold_left (fun m v => qmap_insert (containerOf v) (toObject (Some v)) m)
      (map (fun kv => JObject kv.2) m) acc = fold_left (fun all kv => qmap_insert kv.1 kv.2 all) m acc); [| apply Hg].
  clear Hm. induction Hn as [| [k v] m Hk Hn IH]; intros acc; [done |]. cbn [map fold_left].
  cbn [fst snd] in *. rewrite Hk. cbn [toObject]. apply IH.
Qed.

Lemma setContainers_in s i m :
  0 <= i < Z.of_nat (length (serversArray arrayOf s)) -> qmap_wf m -> named m ->
  storable (JObject (jinsert "containers" (Some (JArray (map (fun kv => JObject kv.2) m))) (server arrayOf s i))) ->
  exists s', Store.setContainers arrayOf textOfArray i m s = Some s'
    /\ Store.containers arrayOf s' i = m
    /\ (forall j, 0 <= j -> j <> i -> server arrayOf s' j = server arrayOf s j)
    /\ (forall k, k <> "containers"%string -> value (server arrayOf s' i) k = value (server arrayOf s i) k)
    /\ defaultServerIndex s' = defaultServerIndex s.
Proof.
  intros Hi Hm Hn Hs. unfold Store.setContainers.
  destruct (editServer_in s i _ Hi Hs) as (s' & -> & Ha & Hk). cbn [fmap option_fmap option_map snd].
  exists s'. split; [done |].
  assert (Hj : forall j, 0 <= j -> server arrayOf s' j =
    if bool_decide (i = j) then jinsert "containers" (Some (JArray (map (fun kv => JObject kv.2) m))) (server arrayOf s i)
    else server arrayOf s j) by (intros j Hj; by apply server_edited).
  split_and!.
  - unfold Store.containers. rewrite Hj by lia. rewrite bool_decide_eq_true_2 by done.
    rewrite value_jinsert. cbn [String.eqb Ascii.eqb Bool.eqb]. by apply fold_entries.
  - intros j Hj0 Hne. rewrite Hj by done. by rewrite bool_decide_eq_false_2 by congruence.
  - intros k Hne. rewrite Hj by lia. rewrite bool_decide_eq_true_2 by done. rewrite value_jinsert.
    by destruct (String.eqb_spec "containers" k); [subst |].
  - unfold defaultServerIndex. by rewrite Hk.
Qed.

Lemma containerConfig_lookup s i c : c <> None_ ->
  Store.containerConfig arrayOf s i c = default ∅ (qmap_lookup c (Store.containers arrayOf s i)).
Proof. intros Hc. unfold Store.containerConfig. by rewrite bool_decide_eq_false_2. Qed.

(** Setting the configuration of a container of a server and
    reading it back gives the configuration with the name of its container;
    every other container of the server, every other server and the default
    index are as before. *)
Theorem container_config_roundtrip s i c config :
  0 <= i < Store.serversCount arrayOf s -> c <> None_ ->
  storable (JObject (jinsert "containers" (Some (JArray (map (fun kv => JObject kv.2)
    (qmap_insert c (jinsert "container" (Some (jstr (containerToString c))) config) (Store.containers arrayOf s i)))))
    (server arrayOf s i))) ->
  exists s', Store.setContainerConfig arrayOf textOfArray i c config s = Some s'
    /\ Store.containerConfig arrayOf s' i c = jinsert "container" (Some (jstr (containerToString c))) config
    /\ (forall c', c' <> c -> Store.containerConfig arrayOf s' i c' = Store.containerConfig arrayOf s i c')
    /\ (forall j, 0 <= j -> j <> i -> server arrayOf s' j = server arrayOf s j)
    /\ defaultServerIndex s' = defaultServerIndex s.
Proof.
  intros Hi Hc Hs. unfold Store.setContainerConfig. rewrite bool_decide_eq_false_2 by done.
  edestruct (setContainers_in s i) as (s' & He & Hm & Ho & _ & Hd); [exact Hi | | | exact Hs |].
  - apply insert_wf, containers_wf.
  - apply insert_named; [apply containers_named |]. unfold containerOf, field. cbn [toObject].
    rewrite value_jinsert. cbn [String.eqb Ascii.eqb Bool.eqb toString jstr qdata]. apply container_roundtrip.
  - exists s'. rewrite He. split_and!; try done.
    + rewrite containerConfig_lookup by done. by rewrite Hm, qmap_lookup_insert_eq.
    + intros c' Hne. destruct (decide (c' = None_)) as [-> | Hc']; [done |].
      rewrite !containerConfig_lookup by done. by rewrite Hm, qmap_lookup_insert_ne.
Qed.

Lemma removed_container s i c :
  0 <= i < Store.serversCount arrayOf s -> c <> None_ ->
  storable (JObject (jinsert "containers" (Some (JArray (map (fun kv => JObject kv.2)
    (qmap_remove c (Store.containers arrayOf s i))))) (server arrayOf s i))) ->
  exists s', Store.removeContainerConfig arrayOf textOfArray i c s = Some s'
    /\ Store.containerConfig arrayOf s' i c = ∅
    /\ (forall c', c' <> c -> Store.containerConfig arrayOf s' i c' = Store.containerConfig arrayOf s i c').
Proof.
  intros Hi Hc Hs. unfold Store.removeContainerConfig. rewrite bool_decide_eq_false_2 by done.
  edestruct (setContainers_in s i) as (s' & He & Hm & Ho & _ & Hd); [exact Hi | | | exact Hs |].
  - apply remove_wf, containers_wf.
  - apply remove_named, containers_named.
  - exists s'. rewrite He. split_and!; [done | |].
    + rewrite containerConfig_lookup by done. by rewrite Hm, lookup_remove, (proj2 (kcompare_eq c c) eq_refl).
    + intros c' Hne. destruct (decide (c' = None_)) as [-> | Hc']; [done |].
      rewrite !containerConfig_lookup by done. rewrite Hm, lookup_remove.
      destruct (kcompare c c') eqn:E; [| done | done]. by apply kcompare_eq in E.
Qed.

(** *** Names of new servers *)

Definition taken (tr : string -> string) (l : list json) (i : Z) : Prop :=
  Store.serverName tr i ∈ map (fun v => field (toObject (Some v)) "description") l.

Lemma serverName_inj tr i j : Store.serverName tr i = Store.serverName tr j -> i = j.
Proof.
  unfold Store.serverName. intros E. apply (inj (String.append (tr "Server"%string))) in E.
  apply (inj (String.append " ")) in E. by apply (inj (pretty (A := Z))) in E.
Qed.

Lemma taken_spec tr l i :
  existsb (fun v => String.eqb (field (toObject (Some v)) "description") (Store.serverName tr i)) l = true <-> taken tr l i.
Proof.
  unfold taken. rewrite existsb_exists, list_elem_of_fmap. split.
  - intros (v & Hv & E). apply String.eqb_eq in E. exists v. rewrite list_elem_of_In. done.
  - intros (v & E & Hv). exists v. rewrite list_elem_of_In in Hv. by rewrite E, String.eqb_refl.
Qed.

Lemma nextName_spec tr fuel l i :
  (exists k, 1 <= k <= Z.of_nat fuel /\ Store.nextName tr fuel l i = Val (Store.serverName tr (i + k))
     /\ ~ taken tr l (i + k) /\ forall j, 1 <= j < k -> taken tr l (i + j))
  \/ (forall k, 1 <= k <= Z.of_nat fuel -> taken tr l (i + k)).
Proof.
  revert i. induction fuel as [| fuel IH]; intros i; [right; lia |]. cbn [Store.nextName].
  destruct (existsb _ l) eqn:E.
  - apply taken_spec in E. destruct (IH (i + 1)) as [(k & Hk & He & Hn & Hb) | Hall].
    + left. exists (1 + k). rewrite Z.add_assoc. split_and!; [lia | lia | done | done |].
      intros j Hj. destruct (decide (j = 1)) as [-> | Hne]; [done |].
      replace (i + j) with (i + 1 + (j - 1)) by lia. apply Hb. lia.
    + right. intros k Hk. destruct (decide (k = 1)) as [-> | Hne]; [done |].
      replace (i + k) with (i + 1 + (k - 1)) by lia. apply Hall. lia.
  - left. exists 1. split_and!; [lia | lia | done | | lia].
    intros Ht. apply taken_spec in Ht. congruence.
Qed.

(** Looking for a name for a new server ends within one
    step more than there are servers, and the name it returns is the first
    one no server is described by. *)
Theorem next_name_fresh tr s :
  exists i, 1 <= i <= Store.serversCount arrayOf s + 1
    /\ Store.nextAvailableServerName arrayOf tr (S (length (serversArray arrayOf s))) s = Val (Store.serverName tr i)
    /\ ~ taken tr (serversArray arrayOf s) i
    /\ forall j, 1 <= j < i -> taken tr (serversArray arrayOf s) j.
Proof.
  unfold Store.nextAvailableServerName, Store.serversCount. set (l := serversArray arrayOf s).
  destruct (nextName_spec tr (S (length l)) l 0) as [(k & Hk & He & Hn & Hb) | Hall].
  - exists k. split_and!; [lia | lia | done | done | done].
  - exfalso. set (names := map (fun k => Store.serverName tr (Z.of_nat k)) (seq 1 (S (length l)))).
    assert (Hnd : NoDup names).
    { apply NoDup_fmap_2; [| apply NoDup_seq]. intros x y E. apply serverName_inj in E. lia. }
    assert (Hle : (length names <= length (map (fun v => field (toObject (Some v)) "description") l))%nat).
    { apply submseteq_length, NoDup_submseteq; [done |]. intros x Hx.
      apply list_elem_of_fmap in Hx as (k & -> & Hk). apply elem_of_seq in Hk. apply (Hall (Z.of_nat k)). lia. }
    revert Hle. unfold names. rewrite !length_map, length_seq. lia.
Qed.
End StoreFacts.

(** *** Signals *)

(** The model without the record of the signals it has emitted. *)
Definition hushed (m : ServersModel) : ServersModel :=
  mkServers (sm_settings m) (m_servers m) (m_defaultServerIndex m) (m_processedServerIndex m) (m_isAmneziaDnsEnabled m)
    (m_gatewayStacks m) (m_healthResults m) (m_availableProtocols m) (m_availableEnvs m) (m_availableSubscriptions m) [].

(** A member that only emits. *)
Definition onlyEmits {A} (f : ST ServersModel A) : Prop := forall m, hushed (f m).2 = hushed m.

Lemma emits_then {A B} (f : ST ServersModel A) (g : ST ServersModel B) : onlyEmits f -> onlyEmits g -> onlyEmits (f ;; g).
Proof. intros Hf Hg m. rewrite then_eq. by rewrite Hg, Hf. Qed.
Lemma emits_bind {A B} (f : ST ServersModel A) (g : A -> ST ServersModel B) :
  onlyEmits f -> (forall a, onlyEmits (g a)) -> onlyEmits (f ≫= g).
Proof. intros Hf Hg m. rewrite bind_eq. by rewrite Hg, Hf. Qed.
Lemma emits_emit sig : onlyEmits (emitS sig).
Proof. done. Qed.
Lemma emits_ret {A} (a : A) : onlyEmits (mret a).
Proof. done. Qed.
Lemma emits_get : onlyEmits get.
Proof. done. Qed.
Lemma emits_if {A} (b : bool) (f g : ST ServersModel A) : onlyEmits f -> onlyEmits g -> onlyEmits (if b then f else g).
Proof. by destruct b. Qed.
Lemma emits_forEach {A} (f : A -> ST ServersModel unit) l : (forall x, onlyEmits (f x)) -> onlyEmits (forEach f l).
Proof. intros Hf. induction l as [| x l IH]; [done |]. cbn [forEach]. by apply emits_then. Qed.

Create HintDb emits.
#[export] Hint Resolve emits_then emits_emit emits_ret emits_get emits_if emits_forEach : emits.
#[export] Hint Extern 3 (onlyEmits (_ ≫= _)) => (apply emits_bind; [| intros]) : emits.
#[export] Hint Extern 4 (onlyEmits _) => progress cbv beta zeta : emits.

Section ModelFacts.
Context {arrayOf : string -> list json} {textOfArray : list json -> string}.
Implicit Types m : ServersModel.

Lemma emits_defaultIndex i : onlyEmits (Model.emitDefaultIndex i).
Proof. unfold Model.emitDefaultIndex, Model.updateDefaultServerContainersModel. auto 12 with emits. Qed.
Lemma emits_dataChanged i j r : onlyEmits (Model.emitDataChanged i j r).
Proof. unfold Model.emitDataChanged. auto 12 with emits. Qed.
Lemma emits_containers : onlyEmits Model.updateContainersModel.
Proof. unfold Model.updateContainersModel. auto 12 with emits. Qed.
Lemma emits_defaultContainers : onlyEmits Model.updateDefaultServerContainersModel.
Proof. unfold Model.updateDefaultServerContainersModel. auto 12 with emits. Qed.
Lemma emits_whenDefault i k : onlyEmits k -> onlyEmits (Model.whenDefault i k).
Proof. intros Hk. unfold Model.whenDefault. auto 12 with emits. Qed.

(** The effect of a member on everything but the signals. *)
Definition effect {A} (f : ST ServersModel A) (g : ServersModel -> ServersModel) : Prop :=
  forall m, hushed (f m).2 = g (hushed m).

Lemma effect_emits {A} (f : ST ServersModel A) : onlyEmits f -> effect f (fun h => h).
Proof. done. Qed.
Lemma effect_then {A B} (f : ST ServersModel A) (g : ST ServersModel B) ef eg :
  effect f ef -> effect g eg -> effect (f ;; g) (fun h => eg (ef h)).
Proof. intros Hf Hg m. rewrite then_eq. by rewrite Hg, Hf. Qed.
(** A member that reads the model first, whatever the signals are. *)
Lemma effect_get {B} (g : ServersModel -> ST ServersModel B) eg :
  (forall m, hushed (g m m).2 = eg (hushed m) (hushed m)) -> effect (m ← get; g m) (fun h => eg h h).
Proof. intros Hg m. apply Hg. Qed.

Lemma recomputeAll_effect : effect Model.recomputeAll (fun h =>
  (setAvailable (Model.protocolsNow h) (Model.envsNow h) (Model.subscriptionsNow h) h).2).
Proof.
  intros m. unfold Model.recomputeAll. rewrite !then_eq.
  assert (H1 : hushed (Model.recomputeAvailableProtocols m).2
    = (setAvailable (Model.protocolsNow m) (m_availableEnvs m) (m_availableSubscriptions m) (hushed m)).2).
  { unfold Model.recomputeAvailableProtocols. rewrite bind_eq. cbn [get fst snd]. case_bool_decide as E; [by rewrite E | done]. }
  generalize dependent (Model.recomputeAvailableProtocols m).2. intros m1 H1.
  assert (H2 : hushed (Model.recomputeAvailableEnvs m1).2
    = (setAvailable (m_availableProtocols m1) (Model.envsNow m1) (m_availableSubscriptions m1) (hushed m1)).2).
  { unfold Model.recomputeAvailableEnvs. rewrite bind_eq. cbn [get fst snd]. case_bool_decide as E; [by rewrite E | done]. }
  generalize dependent (Model.recomputeAvailableEnvs m1).2. intros m2 H2.
  assert (H3 : hushed (Model.recomputeAvailableSubscriptions m2).2
    = (setAvailable (m_availableProtocols m2) (m_availableEnvs m2) (Model.subscriptionsNow m2) (hushed m2)).2).
  { unfold Model.recomputeAvailableSubscriptions. rewrite bind_eq. cbn [get fst snd]. case_bool_decide as E; [by rewrite E | done]. }
  rewrite H3.
  change (m_availableProtocols m2) with (m_availableProtocols (hushed m2)). change (m_availableEnvs m2) with (m_availableEnvs (hushed m2)).
  change (Model.subscriptionsNow m2) with (Model.subscriptionsNow (hushed m2)). rewrite H2.
  change (m_availableProtocols m1) with (m_availableProtocols (hushed m1)).
  change (m_availableSubscriptions m1) with (m_availableSubscriptions (hushed m1)).
  change (Model.envsNow m1) with (Model.envsNow (hushed m1)). by rewrite H1.
Qed.

Lemma recomputeSubscriptions_effect : effect Model.recomputeAvailableSubscriptions (fun h =>
  (setAvailable (m_availableProtocols h) (m_availableEnvs h) (Model.subscriptionsNow h) h).2).
Proof.
  intros m. unfold Model.recomputeAvailableSubscriptions. rewrite bind_eq. cbn [get fst snd].
  case_bool_decide as E; [| done]. change (Model.subscriptionsNow (hushed m)) with (Model.subscriptionsNow m). by rewrite E.
Qed.

Lemma endReset_effect : effect Model.endResetModel (fun h => (setStacks (Model.stacksNow h).1 h).2).
Proof.
  intros m. unfold Model.endResetModel. rewrite then_eq. unfold Model.recomputeGatewayStacks.
  rewrite bind_eq. cbn [get fst snd]. rewrite then_eq.
  set (m1 := (emitS modelReset m).2). change (Model.stacksNow (hushed m)) with (Model.stacksNow m1).
  assert (He : onlyEmits ((if (Model.stacksNow m1).2 then emitS gatewayStacksExpanded else mret tt) ;;
    if negb (Bool.eqb (stacksEmpty (m_gatewayStacks m1)) (stacksEmpty (Model.stacksNow m1).1))
    then emitS hasServersFromGatewayApiChanged else mret tt)) by auto with emits.
  by rewrite He.
Qed.

Lemma setDefault_effect i : effect (Model.setDefaultServerIndex i) (fun h =>
  (setDefaultIndex i (setSettings (Store.setDefaultServer i (sm_settings h)) h).2).2).
Proof.
  intros m. unfold Model.setDefaultServerIndex. rewrite !then_eq, !bind_eq. cbn [get fst snd].
  rewrite emits_defaultIndex. cbn. by rewrite default_setDefault.
Qed.

Lemma setProcessed_effect i : effect (Model.setProcessedServerIndex i) (fun h => (setProcessedIndex i h).2).
Proof.
  intros m. unfold Model.setProcessedServerIndex. rewrite then_eq.
  assert (He : onlyEmits (Model.updateContainersModel ;;
    (m ← get;
     if Model.isServerFromGatewayApi m i then
       (if Model.isCountrySelectionAvailable m i then emitS updateApiCountryModel else mret tt) ;; emitS updateApiServicesModel
     else mret tt) ;; emitS (processedServerIndexChanged i))).
  { apply emits_then; [apply emits_containers |]. apply emits_then; [| done]. apply emits_bind; [done |]. auto with emits. }
  by rewrite He.
Qed.

(** The members that store a new array. *)
Definition refill (s : Settings) (h : ServersModel) : ServersModel :=
  let h1 := (setServers (serversArray arrayOf s) (setSettings s h).2).2 in
  let h2 := (setAvailable (Model.protocolsNow h1) (Model.envsNow h1) (Model.subscriptionsNow h1) h1).2 in
  (setStacks (Model.stacksNow h2).1 h2).2.

Lemma addServer_effect o : effect (Model.addServer arrayOf textOfArray o) (fun h =>
  refill (Store.addServer arrayOf textOfArray o (sm_settings h)) h).
Proof.
  intros m. unfold Model.addServer. rewrite !then_eq, !bind_eq. cbn [get fst snd]. by rewrite endReset_effect, recomputeAll_effect.
Qed.

Lemma addServers_effect l : effect (Model.addServers arrayOf textOfArray l) (fun h =>
  refill (Store.addServers arrayOf textOfArray l (sm_settings h)) h).
Proof.
  intros m. unfold Model.addServers. rewrite !then_eq, !bind_eq. cbn [get fst snd]. by rewrite endReset_effect, recomputeAll_effect.
Qed.

Lemma removeAll_effect : effect (Model.removeAllServers textOfArray) (fun h =>
  let s := Store.setDefaultServer (-1) (Store.setServersArray textOfArray [] (sm_settings h)) in
  let h1 := (setDefaultIndex (-1) (setServers [] (setSettings s (setHealth ∅ h).2).2).2).2 in
  let h2 := (setAvailable (Model.protocolsNow h1) (Model.envsNow h1) (Model.subscriptionsNow h1) h1).2 in
  (setStacks (Model.stacksNow h2).1 h2).2).
Proof.
  intros m. unfold Model.removeAllServers. rewrite !then_eq, !bind_eq. cbn [get fst snd].
  by rewrite endReset_effect, recomputeAll_effect, setDefault_effect.
Qed.

Lemma reset_effect : effect (Model.resetModel arrayOf) (fun h =>
  let d := defaultServerIndex (sm_settings h) in
  let h1 := (setDnsEnabled (Model.useAmneziaDns (sm_settings h)) (setProcessedIndex d (setDefaultIndex d
    (setServers (serversArray arrayOf (sm_settings h)) (setHealth ∅ h).2).2).2).2).2 in
  let h2 := (setAvailable (Model.protocolsNow h1) (Model.envsNow h1) (Model.subscriptionsNow h1) h1).2 in
  (setStacks (Model.stacksNow h2).1 h2).2).
Proof.
  assert (He : onlyEmits (m ← get; Model.emitDefaultIndex (m_defaultServerIndex m)))
    by (apply emits_bind; [done | intros; apply emits_defaultIndex]).
  intros m. unfold Model.resetModel. rewrite !then_eq, He, endReset_effect, recomputeAll_effect, !bind_eq. done.
Qed.

(** Where the default index goes when a server is removed, [n] being left. *)
Definition defaultAfter (i d n : Z) : Z :=
  if n =? 0 then -1 else if d =? i then 0 else if d >? i then d - 1 else d.

(** The default index is stored, or left alone. *)
Definition choose (o : option Z) : ST ServersModel unit :=
  match o with Some k => Model.setDefaultServerIndex k | None => mret tt end.

Lemma choose_effect o m :
  m_defaultServerIndex m = defaultServerIndex (sm_settings m) ->
  exists s, serversArray arrayOf s = serversArray arrayOf (sm_settings m)
    /\ defaultServerIndex s = default (m_defaultServerIndex m) o
    /\ hushed (choose o m).2 = (setDefaultIndex (defaultServerIndex s) (setSettings s (hushed m)).2).2.
Proof.
  intros Hd. destruct o as [k |]; cbn [choose default].
  - exists (Store.setDefaultServer k (sm_settings m)).
    rewrite servers_setDefault, default_setDefault, setDefault_effect. done.
  - exists (sm_settings m). rewrite <- Hd. done.
Qed.

Lemma moveDefault_choose i m :
  (Model.moveDefault arrayOf i m).2 =
    let m1 := (choose (let d := defaultServerIndex (sm_settings m) in
      if d =? i then Some 0 else if d >? i then Some (d - 1) else None) m).2 in
    (choose (if Store.serversCount arrayOf (sm_settings m1) =? 0 then Some (-1) else None) m1).2.
Proof.
  unfold Model.moveDefault. rewrite then_eq, !bind_eq. cbn [get fst snd]. cbv zeta.
  assert (E : forall n (m : ServersModel), ((if n =? i then Model.setDefaultServerIndex 0
     else if n >? i then Model.setDefaultServerIndex (n - 1) else mret tt) m).2
    = (choose (if n =? i then Some 0 else if n >? i then Some (n - 1) else None) m).2).
  { intros n m'. destruct (n =? i); cbn [choose]; [reflexivity |]. destruct (n >? i); cbn [choose]; reflexivity. }
  rewrite E. generalize (choose (if defaultServerIndex (sm_settings m) =? i then Some 0
    else if defaultServerIndex (sm_settings m) >? i then Some (defaultServerIndex (sm_settings m) - 1) else None) m).2.
  intros m1. destruct (_ =? 0); cbn [choose]; reflexivity.
Qed.

Lemma moveDefault_effect i m :
  m_defaultServerIndex m = defaultServerIndex (sm_settings m) ->
  exists s, serversArray arrayOf s = serversArray arrayOf (sm_settings m)
    /\ defaultServerIndex s = defaultAfter i (m_defaultServerIndex m) (Store.serversCount arrayOf (sm_settings m))
    /\ hushed (Model.moveDefault arrayOf i m).2 = (setDefaultIndex (defaultServerIndex s) (setSettings s (hushed m)).2).2.
Proof.
  intros Hd. rewrite moveDefault_choose. cbv zeta. rewrite <- Hd.
  destruct (choose_effect (if m_defaultServerIndex m =? i then Some 0
    else if m_defaultServerIndex m >? i then Some (m_defaultServerIndex m - 1) else None) m Hd) as (s & Ha & Hi & He).
  generalize dependent (choose (if m_defaultServerIndex m =? i then Some 0
    else if m_defaultServerIndex m >? i then Some (m_defaultServerIndex m - 1) else None) m).2. intros m1 He.
  assert (Hs : sm_settings m1 = s) by exact (f_equal sm_settings He).
  assert (Hd1 : m_defaultServerIndex m1 = defaultServerIndex s) by exact (f_equal m_defaultServerIndex He).
  destruct (choose_effect (if Store.serversCount arrayOf (sm_settings m1) =? 0 then Some (-1) else None) m1)
    as (s2 & Ha2 & Hi2 & He2); [congruence |].
  exists s2. rewrite Hs, Ha in Ha2. split_and!; [done | |].
  - rewrite Hi2, Hs, Hd1, Hi. unfold Store.serversCount, defaultAfter. rewrite Ha. by repeat case_if.
  - by rewrite He2, He.
Qed.

Lemma removeServer_effect i m :
  m_defaultServerIndex m = defaultServerIndex (sm_settings m) ->
  let s1 := (Store.removeServer arrayOf textOfArray i (sm_settings m)).2 in
  defaultServerIndex s1 = defaultServerIndex (sm_settings m) ->
  exists s, serversArray arrayOf s = serversArray arrayOf s1
    /\ defaultServerIndex s = defaultAfter i (m_defaultServerIndex m) (Store.serversCount arrayOf s1)
    /\ hushed (Model.removeServer arrayOf textOfArray i m).2 =
       let h1 := (setProcessedIndex (defaultServerIndex s) (setDefaultIndex (defaultServerIndex s)
         (setSettings s (setServers (serversArray arrayOf s) (setHealth ∅ (hushed m)).2).2).2).2).2 in
       let h2 := (setAvailable (m_availableProtocols h1) (m_availableEnvs h1) (Model.subscriptionsNow h1) h1).2 in
       (setStacks (Model.stacksNow h2).1 h2).2.
Proof.
  intros Hd s1 Hs1. unfold Model.removeServer. rewrite !then_eq, !bind_eq. cbn [get fst snd].
  change (sm_settings (setHealth ∅ m).2) with (sm_settings m). fold s1.
  change (sm_settings (setSettings s1 (setHealth ∅ m).2).2) with s1. set (m1 := (setServers (serversArray arrayOf s1) (setSettings s1 (setHealth ∅ m).2).2).2).
  destruct (moveDefault_effect i m1) as (s & Ha & Hi & He); [cbn; congruence |].
  exists s. split_and!; [done | done |].
  rewrite endReset_effect, recomputeSubscriptions_effect, setProcessed_effect.
  assert (Hdef : m_defaultServerIndex (Model.moveDefault arrayOf i m1).2 = defaultServerIndex s)
    by (apply (f_equal m_defaultServerIndex) in He; exact He).
  rewrite Hdef. cbv zeta. rewrite He. cbn in Ha. rewrite Ha. done.
Qed.
End ModelFacts.
#[export] Hint Resolve emits_defaultIndex emits_dataChanged emits_containers emits_defaultContainers emits_whenDefault : emits.

(** The members of a model after assignments. *)
Ltac members := cbn [setServers setSettings setDefaultIndex setProcessedIndex setDnsEnabled setStacks setHealth setAvailable
  emitS modify fst snd hushed sm_settings m_servers m_defaultServerIndex m_processedServerIndex m_isAmneziaDnsEnabled
  m_gatewayStacks m_healthResults m_availableProtocols m_availableEnvs m_availableSubscriptions sm_emitted].

(** *** The model and the store agree *)

Section Agreement.
Context {arrayOf : string -> list json} {textOfArray : list json -> string}
  {storable : json -> Prop} `{!ArrayTextLaws arrayOf textOfArray storable}.
Implicit Types m : ServersModel.

(** The model holds what is stored, its default index is at most the last
    server (or -1, or 0 in an empty list), and the list of subscriptions is
    that of its servers. *)
Record Mirrors (m : ServersModel) : Prop := {
  mir_servers : m_servers m = serversArray arrayOf (sm_settings m);
  mir_default : m_defaultServerIndex m = defaultServerIndex (sm_settings m);
  mir_range : -1 <= m_defaultServerIndex m < Z.max 1 (Model.rowCount m);
  mir_subscriptions : m_availableSubscriptions m = Model.subscriptionsNow m
}.

Lemma mirrors_hushed m m' : hushed m = m' -> Mirrors m' -> Mirrors m.
Proof. intros <- [H1 H2 H3 H4]. by constructor. Qed.

Lemma storeEdit_ok i o m :
  m_servers m = serversArray arrayOf (sm_settings m) -> 0 <= i < Model.rowCount m -> storable (JObject o) ->
  exists s, Model.storeEdit arrayOf textOfArray i o m = Some (setSettings s m)
    /\ serversArray arrayOf s = <[Z.to_nat i := JObject o]> (m_servers m)
    /\ defaultServerIndex s = defaultServerIndex (sm_settings m).
Proof.
  intros Hm Hi Ho. unfold Model.rowCount in Hi. rewrite Hm in Hi. destruct (editServer_in _ i o Hi Ho) as (s & He & Ha & Hk).
  exists s. unfold Model.storeEdit. rewrite He. cbn. rewrite Hm. split_and!; [done | done |].
  unfold defaultServerIndex. by rewrite Hk.
Qed.

Lemma replaceServer_ok i v m : 0 <= i < Model.rowCount m ->
  Model.replaceServer i v m = Some (setServers (<[Z.to_nat i := v]> (m_servers m)) m).
Proof.
  intros Hi. unfold Model.replaceServer, jreplace. unfold Model.rowCount in Hi.
  by rewrite (proj2 (inRange_spec _ _) Hi).
Qed.

Lemma jat_insert i v (l : list json) : 0 <= i < Z.of_nat (length l) -> jat (<[Z.to_nat i := v]> l) i = Some v.
Proof. intros Hi. apply jat_spec; [lia |]. apply list_lookup_insert_eq. lia. Qed.

Lemma editServer_ok o i m :
  m_servers m = serversArray arrayOf (sm_settings m) -> 0 <= i < Model.rowCount m -> storable (JObject o) ->
  exists s m', Model.editServer arrayOf textOfArray o i m = Some (tt, m')
    /\ serversArray arrayOf s = <[Z.to_nat i := JObject o]> (m_servers m)
    /\ defaultServerIndex s = defaultServerIndex (sm_settings m)
    /\ hushed m' = let h1 := (setServers (serversArray arrayOf s) (setSettings s (hushed m)).2).2 in
         (setAvailable (m_availableProtocols h1) (m_availableEnvs h1) (Model.subscriptionsNow h1) h1).2.
Proof.
  intros Hm Hi Ho. destruct (storeEdit_ok i o m Hm Hi Ho) as (s & He & Ha & Hd).
  unfold Model.editServer. erewrite pt_then by exact He. erewrite pt_then; cycle 1.
  { cbn [sm_settings setSettings modify]. rewrite Ha, jat_insert by exact Hi. cbn [default]. apply replaceServer_ok. exact Hi. }
  unfold total. set (f := Model.emitDataChanged _ _ _ ;; _).
  assert (Hq : forall m, hushed (f m).2
    = (setAvailable (m_availableProtocols m) (m_availableEnvs m) (Model.subscriptionsNow m) (hushed m)).2).
  { intros m'. unfold f. rewrite !then_eq, recomputeSubscriptions_effect, emits_whenDefault by auto with emits.
    rewrite emits_containers, emits_whenDefault by auto with emits. by rewrite emits_dataChanged. }
  clearbody f. match goal with |- context [f ?x] => set (m1 := x) end. specialize (Hq m1). destruct (f m1) as [[] m'].
  exists s, m'. split_and!; [done | done | done |]. cbn [snd] in Hq. rewrite Hq.
  cbv zeta. rewrite Ha. done.
Qed.

Lemma edit_mirrors o i m : Mirrors m -> 0 <= i < Model.rowCount m -> storable (JObject o) ->
  exists m', Model.editServer arrayOf textOfArray o i m = Some (tt, m') /\ Mirrors m'.
Proof.
  intros [H1 H2 H3 H4] Hi Ho. destruct (editServer_ok o i m H1 Hi Ho) as (s & m' & He & Ha & Hd & Hh).
  exists m'. split; [done |]. apply (mirrors_hushed _ _ Hh). constructor; cbn.
  - done.
  - congruence.
  - unfold Model.rowCount in *. cbn. rewrite Ha, length_insert. done.
  - done.
Qed.

Lemma refill_mirrors s m : Mirrors m -> defaultServerIndex s = defaultServerIndex (sm_settings m) ->
  (length (m_servers m) <= length (serversArray arrayOf s))%nat -> Mirrors (refill (arrayOf := arrayOf) s (hushed m)).
Proof.
  intros [H1 H2 H3 H4] Hd Hl. constructor; cbn; [done | congruence | | done].
  unfold Model.rowCount in *. cbn. lia.
Qed.

(** *** Subscriptions *)

Lemma subscription_ext o1 o2 :
  value o1 "api_config" = value o2 "api_config" -> value o1 "auth_data" = value o2 "auth_data" ->
  subscriptionIdOfServer o1 = subscriptionIdOfServer o2.
Proof. intros E1 E2. unfold subscriptionIdOfServer, authDataOf, sub. by rewrite E1, E2. Qed.

Definition addId (ids : list string) (id : string) : list string :=
  if negb (String.eqb id "") && negb (bool_decide (id ∈ ids)) then ids ++ [id] else ids.

Lemma subscriptions_ids m :
  Model.subscriptionsNow m = fold_left addId (map (fun v => subscriptionIdOfServer (toObject (Some v))) (m_servers m)) [].
Proof.
  assert (Hg : forall l ids, fold_left (fun ids v => addId ids (subscriptionIdOfServer (toObject (Some v)))) l ids
    = fold_left addId (map (fun v => subscriptionIdOfServer (toObject (Some v))) l) ids); [| apply Hg].
  intros l. induction l as [| v l IH]; intros ids; [done |]. apply IH.
Qed.

Lemma ids_insert i o (l : list json) :
  subscriptionIdOfServer o = subscriptionIdOfServer (toObject (l !! i)) ->
  map (fun v => subscriptionIdOfServer (toObject (Some v))) (<[i := JObject o]> l)
    = map (fun v => subscriptionIdOfServer (toObject (Some v))) l.
Proof.
  intros E. set (f := fun v => subscriptionIdOfServer (toObject (Some v))). change (map f) with (fmap f : list json -> list string).
  rewrite list_fmap_insert. destruct (l !! i) as [w |] eqn:Hw.
  - apply list_insert_id. rewrite list_lookup_fmap, Hw. exact (f_equal Some (eq_sym E)).
  - apply list_insert_ge. rewrite length_fmap. by apply lookup_ge_None.
Qed.

(** A server is rewritten in place, and belongs to the subscription it did. *)
Lemma rewrite_mirrors s o i m m' :
  Mirrors m -> 0 <= i < Model.rowCount m ->
  serversArray arrayOf s = <[Z.to_nat i := JObject o]> (m_servers m) ->
  defaultServerIndex s = defaultServerIndex (sm_settings m) ->
  subscriptionIdOfServer o = subscriptionIdOfServer (Model.serverAt m i) ->
  hushed m' = (setServers (<[Z.to_nat i := JObject o]> (m_servers m)) (setSettings s (hushed m)).2).2 -> Mirrors m'.
Proof.
  intros [H1 H2 H3 H4] Hi Ha Hd Hid Hh. apply (mirrors_hushed _ _ Hh). constructor; members; [done | congruence | |].
  - unfold Model.rowCount in *. members. by rewrite length_insert.
  - rewrite H4, !subscriptions_ids. members. rewrite ids_insert; [done |]. rewrite Hid. unfold Model.serverAt, jat.
    by rewrite (proj2 (Z.ltb_ge i 0)) by lia.
Qed.

Lemma rename_mirrors i name m : Mirrors m -> storable (JObject (Model.renamed (Model.serverAt m i) name)) ->
  exists m', Model.setName arrayOf textOfArray i name m = Some (Model.validRow m i, m') /\ Mirrors m'.
Proof.
  intros Hm Hs. unfold Model.setName, Model.validRow. destruct (inRange i (m_servers m)) eqn:Hi; cbn [negb]; [| by eauto].
  apply inRange_spec in Hi. set (server := Model.serverAt m i) in *. set (renamed := Model.renamed server name) in *. cbv zeta.
  destruct (storeEdit_ok i renamed m (mir_servers _ Hm) Hi Hs) as (s & He & Ha & Hd).
  erewrite pt_then by exact He. erewrite pt_then by (apply replaceServer_ok; exact Hi).
  set (f := Model.whenDefault _ _ ;; _). assert (Hf : onlyEmits f) by (unfold f; auto with emits). clearbody f.
  unfold total, mbind, PT_bind.
  match goal with |- context [f ?x] => set (m1 := x) end. specialize (Hf m1). destruct (f m1) as [[] m'].
  exists m'. split; [done |]. eapply (rewrite_mirrors s renamed i m m'); try done.
  assert (Hv : forall k, k <> "nameOverriddenByUser"%string -> k <> "name"%string -> k <> "description"%string ->
    value renamed k = value server k).
  { intros k Hk1 Hk2 Hk3. unfold renamed, Model.renamed. rewrite !value_jinsert.
    rewrite (proj2 (String.eqb_neq _ _)) by congruence. by destruct (negb _); rewrite (proj2 (String.eqb_neq _ _)) by congruence. }
  apply subscription_ext; by apply Hv.
Qed.

(** The server whose container has no cached configuration any more. *)
Definition cleared (s : Settings) (i : Z) (c : DockerContainer) : QJsonObject :=
  let p := defaultProtocol c in
  let config := jinsert (protoToString p) (Some (JObject (delete "last_config"%string (Store.protocolConfig arrayOf s i c p))))
    (Store.containerConfig arrayOf s i c) in
  Model.withContainers (server arrayOf s i) (map (fun kv => JObject kv.2)
    (qmap_insert c (jinsert "container" (Some (jstr (containerToString c))) config) (Store.containers arrayOf s i))).

Lemma clear_store s i c :
  c <> None_ -> 0 <= i < Store.serversCount arrayOf s -> storable (JObject (cleared s i c)) ->
  exists s', Store.clearLastConnectionConfig arrayOf textOfArray i c Proto.Any s = Some s'
    /\ serversArray arrayOf s' = <[Z.to_nat i := JObject (cleared s i c)]> (serversArray arrayOf s)
    /\ defaultServerIndex s' = defaultServerIndex s.
Proof.
  intros Hc Hi Hs. destruct (editServer_in s i _ Hi Hs) as (s' & He & Ha & Hk).
  exists s'. split_and!; [| done | unfold defaultServerIndex; by rewrite Hk].
  assert (Hp : protocolsForContainer c = [defaultProtocol c]) by (by destruct c).
  unfold Store.clearLastConnectionConfig. rewrite bool_decide_eq_true_2, Hp by done. cbn [fold_left mbind option_bind].
  unfold Store.clearProtocol, Store.setProtocolConfig, Store.setContainerConfig. rewrite bool_decide_eq_false_2 by done.
  unfold Store.setContainers. change (jinsert "containers" _ _) with (cleared s i c). by rewrite He.
Qed.

Lemma clear_mirrors c m :
  Mirrors m -> c <> None_ -> 0 <= m_processedServerIndex m < Model.rowCount m ->
  storable (JObject (cleared (sm_settings m) (m_processedServerIndex m) c)) ->
  exists m', Model.clearCachedProfile arrayOf textOfArray c m = Some (tt, m') /\ Mirrors m'.
Proof.
  intros Hm Hc Hi Hs. pose proof (mir_servers _ Hm) as Hms. unfold Model.rowCount in Hi.
  set (i := m_processedServerIndex m) in *. set (o := cleared (sm_settings m) i c) in *.
  assert (Hi' : 0 <= i < Z.of_nat (length (serversArray arrayOf (sm_settings m)))) by (by rewrite <- Hms).
  destruct (clear_store (sm_settings m) i c Hc Hi' Hs) as (s' & He & Ha & Hd). fold o in Ha.
  unfold Model.clearCachedProfile. fold i. rewrite He. cbn [mbind option_bind].
  erewrite pt_then by reflexivity. erewrite pt_then by (apply replaceServer_ok; exact Hi).
  set (f := Model.whenDefault i _ ;; _). assert (Hf : onlyEmits f) by (unfold f; auto with emits). clearbody f. unfold total.
  match goal with |- context [f ?x] => set (m1 := x) end. specialize (Hf m1). destruct (f m1) as [[] m'].
  exists m'. split; [done |].
  assert (Ho : server arrayOf s' i = o).
  { rewrite (server_edited (sm_settings m) s' i i o Hi' Ha) by lia. by rewrite bool_decide_eq_true_2. }
  apply (rewrite_mirrors s' o i m m'); try done.
  - by rewrite Ha, Hms.
  - unfold o, cleared, Model.withContainers. unfold Model.serverAt, jat. rewrite (proj2 (Z.ltb_ge i 0)) by lia.
    rewrite server_at, <- Hms by lia. apply subscription_ext; by rewrite value_jinsert.
  - rewrite <- Ho. exact Hf.
Qed.

Lemma removed_array i s :
  serversArray arrayOf (Store.removeServer arrayOf textOfArray i s).2 = jremoveAt i (serversArray arrayOf s)
  /\ defaultServerIndex (Store.removeServer arrayOf textOfArray i s).2 = defaultServerIndex s.
Proof.
  unfold Store.removeServer. destruct (i >=? _) eqn:E; cbn [snd].
  - split; [| done]. unfold jremoveAt, inRange. zbool. by rewrite (proj2 (Z.ltb_ge _ _)), andb_false_r by lia.
  - split; [| apply default_set]. apply servers_set. unfold jremoveAt. destruct (inRange i _); [| apply servers_storable].
    apply Forall_delete, servers_storable.
Qed.

Lemma length_jremoveAt i l : length (jremoveAt i l) = if inRange i l then (length l - 1)%nat else length l.
Proof. unfold jremoveAt. destruct (inRange i l) eqn:E; [| done]. apply inRange_spec in E. rewrite length_delete; [lia |].
  apply lookup_lt_is_Some. lia. Qed.

(** What is left after a server is removed. *)
Lemma removeServer_state i m : Mirrors m ->
  let m' := (Model.removeServer arrayOf textOfArray i m).2 in
  m_servers m' = jremoveAt i (m_servers m)
  /\ m_servers m' = serversArray arrayOf (sm_settings m')
  /\ m_defaultServerIndex m' = defaultAfter i (m_defaultServerIndex m) (Model.rowCount m')
  /\ m_defaultServerIndex m' = defaultServerIndex (sm_settings m')
  /\ m_processedServerIndex m' = m_defaultServerIndex m'
  /\ m_healthResults m' = ∅
  /\ m_availableSubscriptions m' = Model.subscriptionsNow m'
  /\ m_availableProtocols m' = m_availableProtocols m /\ m_availableEnvs m' = m_availableEnvs m.
Proof.
  intros Hm m'. destruct (removed_array i (sm_settings m)) as [Ha Hd].
  destruct (removeServer_effect (textOfArray := textOfArray) i m (mir_default _ Hm) Hd) as (s & Hs & Hi & He). fold m' in He.
  assert (E1 : m_servers m' = serversArray arrayOf s) by exact (f_equal m_servers He).
  assert (E2 : sm_settings m' = s) by exact (f_equal sm_settings He).
  assert (E3 : m_defaultServerIndex m' = defaultServerIndex s) by exact (f_equal m_defaultServerIndex He).
  assert (E4 : m_processedServerIndex m' = defaultServerIndex s) by exact (f_equal m_processedServerIndex He).
  assert (E5 : m_availableSubscriptions m' = Model.subscriptionsNow m').
  { transitivity (Model.subscriptionsNow (setServers (serversArray arrayOf s) m').2);
      [exact (f_equal m_availableSubscriptions He) |]. rewrite !subscriptions_ids. members. by rewrite E1. }
  split_and!; try done.
  - rewrite E1, Hs, Ha. by rewrite (mir_servers _ Hm).
  - congruence.
  - unfold Model.rowCount. rewrite E1, E3, Hs. exact Hi.
  - congruence.
  - congruence.
  - exact (f_equal m_healthResults He).
  - exact (f_equal m_availableProtocols He).
  - exact (f_equal m_availableEnvs He).
Qed.

Lemma remove_mirrors i m : Mirrors m -> -1 <= i -> Mirrors (Model.removeServer arrayOf textOfArray i m).2.
Proof.
  intros Hm Hi. destruct (removeServer_state i m Hm) as (E1 & E2 & E3 & E4 & _ & _ & E5 & _).
  destruct (mir_range _ Hm) as [Hr1 Hr2]. constructor; try done.
  assert (Hl : Model.rowCount (Model.removeServer arrayOf textOfArray i m).2
    = if inRange i (m_servers m) then Model.rowCount m - 1 else Model.rowCount m).
  { unfold Model.rowCount. rewrite E1, length_jremoveAt. destruct (inRange i (m_servers m)) eqn:E; [| done].
    apply inRange_spec in E. lia. }
  rewrite E3. revert Hl. generalize (Model.rowCount (Model.removeServer arrayOf textOfArray i m).2). intros n Hl.
  assert (Hn : 0 <= Model.rowCount m) by (unfold Model.rowCount; lia).
  unfold defaultAfter. destruct (inRange i (m_servers m)) eqn:E.
  - apply inRange_spec in E. fold (Model.rowCount m) in E. repeat case_if; zbool; lia.
  - assert (Hout : ~ (0 <= i < Model.rowCount m)) by (intros Hc; apply inRange_spec in Hc; congruence).
    repeat case_if; zbool; lia.
Qed.

(** What a call requires of its arguments: an index of a server where the
    member does not check it, and values that can be stored. *)
Definition legal (m : ServersModel) (op : ServersOp) : Prop :=
  let row i := 0 <= i < Model.rowCount m in
  let p := m_processedServerIndex m in
  match op with
  | opAdd o => storable (JObject o)
  | opAddMany l => Forall storable l
  | opRemove i => -1 <= i
  | opRemoveProcessed => -1 <= p
  | opEdit o i => row i /\ storable (JObject o)
  | opRename i name => storable (JObject (Model.renamed (Model.serverAt m i) name))
  | opSetDefault i => -1 <= i < Z.max 1 (Model.rowCount m)
  | opReload => row (m_defaultServerIndex m) /\ storable (JObject (Model.reloaded arrayOf m))
  | opUpdateContainer c config => row p /\ storable (JObject (Model.withContainer (Model.serverAt m p) c config))
  | opAddContainer c config => row p /\ storable (JObject (Model.extended (Model.serverAt m p) c config))
  | opSetDefaultContainer i c => row i /\ storable (JObject (Model.withDefaultContainer (Model.serverAt m i) c))
  | opClearProfile c => row p /\ c <> None_ /\ storable (JObject (cleared (sm_settings m) p c))
  | opRemoveApi i => row i /\ storable (JObject (Model.stripped (Model.serverAt m i)))
  | _ => True
  end.

Lemma emits_mirrors {A} (f : ST ServersModel A) m : onlyEmits f -> Mirrors m -> Mirrors (f m).2.
Proof. intros Hf Hm. apply (mirrors_hushed _ _ (Hf m)). by destruct Hm. Qed.

Lemma total_some (f : ST ServersModel unit) m (P : ServersModel -> Prop) :
  P (f m).2 -> exists m', total f m = Some (tt, m') /\ P m'.
Proof. intros HP. exists (f m).2. unfold total. by destruct (f m) as [[] ?]. Qed.

(** Latencies change nothing else. *)
Lemma health_mirrors h (f : ST ServersModel unit) m : onlyEmits f -> Mirrors m -> Mirrors ((setHealth h ;; f) m).2.
Proof. intros Hf Hm. rewrite then_eq. apply emits_mirrors; [done |]. by destruct Hm. Qed.

Lemma added_mirrors l s m : Mirrors m -> s = Store.setServersArray textOfArray (serversArray arrayOf (sm_settings m) ++ l) (sm_settings m) ->
  Forall storable l -> Mirrors (refill (arrayOf := arrayOf) s (hushed m)).
Proof.
  intros Hm -> Hl. apply refill_mirrors; [done | apply default_set |].
  rewrite servers_set by (apply Forall_app_2; [apply servers_storable | done]). rewrite length_app, (mir_servers _ Hm). lia.
Qed.


(** C29 (functional): removing a server removes that entry and no other; the
    default server is the same server as before unless it was the removed
    one, and then it is the first that is left; the results of the health
    check, which belong to rows, are dropped. *)
Theorem remove_keeps_default i m :
  Mirrors m -> 0 <= i < Model.rowCount m -> 0 <= m_defaultServerIndex m ->
  let m' := (Model.removeServer arrayOf textOfArray i m).2 in
  m_servers m' = delete (Z.to_nat i) (m_servers m)
  /\ m_healthResults m' = ∅
  /\ m_processedServerIndex m' = m_defaultServerIndex m'
  /\ (Model.rowCount m' = 0 -> m_defaultServerIndex m' = -1)
  /\ (Model.rowCount m' <> 0 -> i <> m_defaultServerIndex m ->
       Model.serverAt m' (m_defaultServerIndex m') = Model.serverAt m (m_defaultServerIndex m))
  /\ (Model.rowCount m' <> 0 -> i = m_defaultServerIndex m -> m_defaultServerIndex m' = 0).
Proof.
  intros Hm Hi Hd m'. destruct (removeServer_state i m Hm) as (E1 & _ & E3 & _ & E4 & E5 & _). fold m' in E1, E3, E4, E5.
  assert (Hrow : inRange i (m_servers m) = true) by (by apply inRange_spec). unfold jremoveAt in E1. rewrite Hrow in E1.
  unfold defaultAfter in E3. destruct (mir_range _ Hm) as [_ Hr]. split_and!; try done.
  - intros Hz. by rewrite E3, (proj2 (Z.eqb_eq _ _) Hz).
  - intros Hz Hne. rewrite (proj2 (Z.eqb_neq _ _) Hz) in E3. rewrite (proj2 (Z.eqb_neq _ _)) in E3 by congruence.
    unfold Model.serverAt. rewrite E1. f_equal.
    destruct (m_defaultServerIndex m >? i) eqn:E; zbool; rewrite E3; unfold jat; rewrite !(proj2 (Z.ltb_ge _ 0)) by lia.
    + rewrite list_lookup_delete_ge by lia. f_equal. lia.
    + rewrite list_lookup_delete_lt by lia. done.
  - intros Hz ->. rewrite (proj2 (Z.eqb_neq _ _) Hz), Z.eqb_refl in E3. done.
Qed.
End Agreement.

(** *** Latencies *)

Section Health.
Implicit Types m : ServersModel.

(** The value kept of an earlier result and a new one. *)
Definition better (o : option Z) (x : Z) : Z :=
  match o with
  | Some p => if ((p >=? 0) && ((x <? 0) || (x >=? p))) || ((p <? 0) && (x <? 0)) then p else x
  | None => x
  end.

Lemma setHealthResult_map i x m :
  m_healthResults (Model.setHealthResult i x m).2 = <[i := better (m_healthResults m !! i) x]> (m_healthResults m).
Proof.
  unfold Model.setHealthResult. rewrite bind_eq. cbn [get fst snd]. cbv zeta.
  destruct (m_healthResults m !! i) as [p |] eqn:Hp; cbn [better].
  - case_if; [by rewrite insert_id |]. rewrite then_eq. exact (f_equal m_healthResults (emits_dataChanged i i HealthOnly _)).
  - rewrite then_eq. exact (f_equal m_healthResults (emits_dataChanged i i HealthOnly _)).
Qed.

(** The results reported for a row, in their order. *)
Definition report (i : Z) (l : list Z) : ST ServersModel unit := forEach (Model.setHealthResult i) l.

Lemma report_map i l m j :
  m_healthResults (report i l m).2 !! j
    = if bool_decide (i = j) then fold_left (fun o x => Some (better o x)) l (m_healthResults m !! i)
      else m_healthResults m !! j.
Proof.
  revert m. induction l as [| x l IH]; intros m; unfold report; cbn [forEach fold_left].
  - cbn. by case_bool_decide; subst.
  - rewrite then_eq. fold (report i l). rewrite IH, setHealthResult_map. case_bool_decide as E.
    + by rewrite lookup_insert_eq.
    + by rewrite lookup_insert_ne.
Qed.

(** [r] is the best of [l]: the least latency, or a failure when all failed. *)
Definition bestOf (l : list Z) (r : Z) : Prop :=
  r ∈ l /\ (forall x, x ∈ l -> 0 <= x -> 0 <= r <= x) /\ (r < 0 -> forall x, x ∈ l -> x < 0).

Lemma better_best l p x : bestOf l p -> bestOf (l ++ [x]) (better (Some p) x).
Proof.
  intros (Hin & Hpos & Hneg). unfold bestOf, better.
  assert (Hsplit : forall y, y ∈ l ++ [x] <-> y ∈ l \/ y = x) by (intros y; by rewrite elem_of_app, list_elem_of_singleton).
  destruct (_ || _) eqn:E.
  - apply orb_true_iff in E. split_and!; [apply Hsplit; by left | |].
    + intros y [Hy | ->]%Hsplit H0; [by apply Hpos |]. destruct E as [E | E]; zbool; [| lia].
      apply orb_true_iff in H1 as [? | ?]; zbool; lia.
    + intros Hp y [Hy | ->]%Hsplit; [by apply Hneg |]. destruct E as [E | E]; zbool; lia.
  - apply orb_false_iff in E as [E1 E2]. split_and!; [apply Hsplit; by right | |].
    + intros y [Hy | ->]%Hsplit H0; [| lia]. specialize (Hpos y Hy H0).
      rewrite (proj2 (Z.geb_le p 0)) in E1 by lia. cbn [andb] in E1. zbool. lia.
    + intros Hx y [Hy | ->]%Hsplit; [| done]. rewrite (proj2 (Z.ltb_lt x 0) Hx), orb_true_l, andb_true_r in E1.
      rewrite (proj2 (Z.ltb_lt x 0) Hx), andb_true_r in E2. zbool. lia.
Qed.

Lemma fold_best l : l <> [] -> exists r, fold_left (fun o x => Some (better o x)) l None = Some r /\ bestOf l r.
Proof.
  induction l as [| x l IH] using rev_ind; [done |]. intros _. rewrite fold_left_app. cbn [fold_left].
  destruct l as [| y l].
  - exists x. cbn [fold_left better app]. split; [done |]. split_and!; [left | |].
    + intros z ->%list_elem_of_singleton. lia.
    + intros Hx z ->%list_elem_of_singleton. done.
  - destruct IH as (r & -> & Hr); [done |]. exists (better (Some r) x). split; [done |]. by apply better_best.
Qed.

Lemma best_unique l l' r r' : Permutation l l' -> Forall (fun x => -1 <= x) l -> bestOf l r -> bestOf l' r' -> r = r'.
Proof.
  intros Hp Hl (Hin & Hpos & Hneg) (Hin' & Hpos' & Hneg'). rewrite <- Hp in Hin'.
  assert (Hin2 : r ∈ l') by (by rewrite <- Hp).
  pose proof (proj1 (Forall_forall _ _) Hl _ Hin) as H1. pose proof (proj1 (Forall_forall _ _) Hl _ Hin') as H2. cbn in H1, H2.
  destruct (decide (0 <= r)).
  - specialize (Hpos' r Hin2 ltac:(lia)). specialize (Hpos r' Hin' ltac:(lia)). lia.
  - specialize (Hneg ltac:(lia) r' Hin'). lia.
Qed.

(** The addresses of a server answer the health check in
    any order: the latency shown for its row is the least one measured, or
    the failure when every address failed, and the order in which the answers
    (latencies, or -1) arrive makes no difference to any row. *)
Theorem health_any_order i l l' m :
  m_healthResults m !! i = None -> l <> [] -> Permutation l l' -> Forall (fun x => -1 <= x) l ->
  m_healthResults (report i l m).2 = m_healthResults (report i l' m).2
  /\ exists r, m_healthResults (report i l m).2 !! i = Some r /\ bestOf l r.
Proof.
  intros Hn Hl Hp Hb. assert (Hl' : l' <> []) by (intros ->; by apply Permutation_nil_r in Hp).
  destruct (fold_best l Hl) as (r & Hr & Hbest). destruct (fold_best l' Hl') as (r' & Hr' & Hbest').
  split.
  - apply map_eq. intros j. rewrite !report_map, Hn, Hr, Hr'. by rewrite (best_unique l l' r r').
  - exists r. by rewrite report_map, bool_decide_eq_true_2, Hn.
Qed.
End Health.

(** *** The tags of the gateway servers *)

Section Stacks.
Implicit Types m : ServersModel.

(** A gateway server of the model carries the tag [c] under [key]. *)
Definition tagged m (key : string) (i : nat) (c : string) : Prop :=
  Model.isServerFromGatewayApi m (Z.of_nat i) = true
  /\ field (Model.apiConfig (Model.serverAt m (Z.of_nat i))) key = c /\ c <> ""%string.

Lemma add_tag c x (known : gset string) :
  c ∈ (if String.eqb x "" then known else {[x]} ∪ known) <-> c ∈ known \/ (x = c /\ c <> ""%string).
Proof. destruct (String.eqb_spec x ""); [subst | ]; set_solver. Qed.

Lemma stacks_fold m l :
  let r := fold_left (fun '(computed, hasNewTags) i =>
      if Model.isServerFromGatewayApi m (Z.of_nat i) then
        let api := Model.apiConfig (Model.serverAt m (Z.of_nat i)) in
        let country := field api "user_country_code" in
        let service := field api "service_type" in
        let new c known := negb (String.eqb c "") && negb (bool_decide (c ∈ known)) in
        (mkStacks (if String.eqb country "" then userCountryCodes computed else {[country]} ∪ userCountryCodes computed)
                  (if String.eqb service "" then serviceTypes computed else {[service]} ∪ serviceTypes computed),
         hasNewTags || new country (userCountryCodes (m_gatewayStacks m)) || new service (serviceTypes (m_gatewayStacks m)))
      else (computed, hasNewTags)) l (mkStacks ∅ ∅, false) in
  (forall c, c ∈ userCountryCodes r.1 <-> exists i, i ∈ l /\ tagged m "user_country_code" i c)
  /\ (forall c, c ∈ serviceTypes r.1 <-> exists i, i ∈ l /\ tagged m "service_type" i c)
  /\ (r.2 = true <-> (exists c, c ∈ userCountryCodes r.1 /\ c ∉ userCountryCodes (m_gatewayStacks m))
                   \/ (exists c, c ∈ serviceTypes r.1 /\ c ∉ serviceTypes (m_gatewayStacks m))).
Proof.
  induction l as [| i l IH] using rev_ind; intros r; [set_solver |].
  unfold r. rewrite fold_left_app. clear r. cbn [fold_left]. destruct (fold_left _ l _) as [g b]. cbn [fst snd] in IH.
  destruct IH as (IH1 & IH2 & IH3).
  destruct (Model.isServerFromGatewayApi m (Z.of_nat i)) eqn:Hg; cbv zeta; cbn [fst snd userCountryCodes serviceTypes].
  - set (api := Model.apiConfig (Model.serverAt m (Z.of_nat i))).
    assert (Hone : forall key c, (exists k, k ∈ l ++ [i] /\ tagged m key k c)
      <-> (exists k, k ∈ l /\ tagged m key k c) \/ (field api key = c /\ c <> ""%string)).
    { intros key c. split.
      - intros (k & [Hk | ->%list_elem_of_singleton]%elem_of_app & Ht); [by left; exists k | right; by destruct Ht as (_ & ? & ?)].
      - intros [(k & Hk & Ht) | [E Hc]]; [exists k; rewrite elem_of_app; auto |].
        exists i. split; [rewrite elem_of_app; right; left | done]. }
    split_and!.
    + intros c. by rewrite add_tag, Hone, IH1.
    + intros c. by rewrite add_tag, Hone, IH2.
    + setoid_rewrite add_tag. rewrite !orb_true_iff, !andb_true_iff, !negb_true_iff, !bool_decide_eq_false, !String.eqb_neq, IH3.
      split; [naive_solver |]. intros [(c & [Hc | [<- Hc]] & Hn) | (c & [Hc | [<- Hc]] & Hn)]; naive_solver.
  - assert (Hone : forall key c, (exists k, k ∈ l ++ [i] /\ tagged m key k c) <-> (exists k, k ∈ l /\ tagged m key k c)).
    { intros key c. split.
      - intros (k & [Hk | ->%list_elem_of_singleton]%elem_of_app & Ht); [by exists k |]. destruct Ht as [Ht _]. congruence.
      - intros (k & Hk & Ht). exists k. rewrite elem_of_app. auto. }
    split_and!; [intros c; by rewrite Hone | intros c; by rewrite Hone | done].
Qed.

Lemma tagged_row m key i c : tagged m key i c -> i ∈ seq 0 (length (m_servers m)).
Proof.
  intros [Hg _]. apply elem_of_seq. unfold Model.isServerFromGatewayApi, Model.validRow in Hg. zbool.
  match goal with H : inRange _ _ = true |- _ => apply inRange_spec in H end. lia.
Qed.

(** When the model has been refilled, the tags it holds are
    exactly the non-empty country codes and service types of the servers that
    came from the gateway, and the catalogue of presets is fetched again
    exactly when one of them was not held before. *)
Theorem gateway_tags m :
  let m' := (Model.endResetModel m).2 in
  (forall c, c ∈ userCountryCodes (m_gatewayStacks m') <-> exists i, tagged m "user_country_code" i c)
  /\ (forall c, c ∈ serviceTypes (m_gatewayStacks m') <-> exists i, tagged m "service_type" i c)
  /\ (gatewayStacksExpanded ∈ drop (length (sm_emitted m)) (sm_emitted m') <->
       (exists c, c ∈ userCountryCodes (m_gatewayStacks m') /\ c ∉ userCountryCodes (m_gatewayStacks m))
       \/ (exists c, c ∈ serviceTypes (m_gatewayStacks m') /\ c ∉ serviceTypes (m_gatewayStacks m))).
Proof.
  intros m'. destruct (stacks_fold m (seq 0 (length (m_servers m)))) as (H1 & H2 & H3).
  change (fold_left _ _ _) with (Model.stacksNow m) in H1, H2, H3.
  assert (E : m_gatewayStacks m' = (Model.stacksNow m).1) by exact (f_equal m_gatewayStacks (endReset_effect m)).
  rewrite E. split_and!.
  - intros c. rewrite H1. split; [intros (i & _ & Ht); by exists i |]. intros (i & Ht). exists i. by split; [eapply tagged_row |].
  - intros c. rewrite H2. split; [intros (i & _ & Ht); by exists i |]. intros (i & Ht). exists i. by split; [eapply tagged_row |].
  - rewrite <- H3.
    assert (He : exists l, sm_emitted m' = sm_emitted m ++ (modelReset :: (if (Model.stacksNow m).2 then [gatewayStacksExpanded] else []) ++ l)
      /\ gatewayStacksExpanded ∉ l).
    { unfold m', Model.endResetModel. rewrite then_eq. unfold Model.recomputeGatewayStacks. rewrite bind_eq. cbn [get fst snd].
      rewrite !then_eq. change (Model.stacksNow (emitS modelReset m).2) with (Model.stacksNow m).
      destruct (negb _); [exists [hasServersFromGatewayApiChanged] | exists []];
        (split; [destruct (Model.stacksNow m).2; cbn; by rewrite <- ?app_assoc | set_solver]). }
    destruct He as (l & -> & Hl). rewrite drop_app_length, elem_of_cons, elem_of_app.
    destruct (Model.stacksNow m).2; [by split; [| intros _; right; left; left] |]. split; [| done].
    intros [? | [? | ?]]; [done | by apply elem_of_nil in H | done].
Qed.
End Stacks.

(** *** The list of subscriptions *)

Lemma ids_spec l ids : NoDup ids ->
  NoDup (fold_left addId l ids) /\ forall id, id ∈ fold_left addId l ids <-> id ∈ ids \/ (id ∈ l /\ id <> ""%string).
Proof.
  revert ids. induction l as [| x l IH]; intros ids Hn; cbn [fold_left]; [split; [done |]; set_solver |].
  unfold addId at 2 4. destruct (String.eqb_spec x ""); cbn [negb andb]; [subst | case_bool_decide; cbn [negb]].
  - destruct (IH ids Hn) as [H1 H2]. split; [done |]. intros id. rewrite H2, elem_of_cons. naive_solver.
  - destruct (IH ids Hn) as [H1 H2]. split; [done |]. intros id. rewrite H2, elem_of_cons. naive_solver.
  - destruct (IH (ids ++ [x])) as [H1 H2].
    { apply NoDup_app. split_and!; [done | set_solver | apply NoDup_singleton]. }
    split; [done |]. intros id. rewrite H2, elem_of_cons, elem_of_app, list_elem_of_singleton. naive_solver.
Qed.

(** Every subscription of a stored server is listed once. *)
Lemma subscriptions_spec m :
  NoDup (Model.subscriptionsNow m)
  /\ forall id, id ∈ Model.subscriptionsNow m <->
       id <> ""%string /\ exists v, v ∈ m_servers m /\ subscriptionIdOfServer (toObject (Some v)) = id.
Proof.
  rewrite subscriptions_ids. destruct (ids_spec (map (fun v => subscriptionIdOfServer (toObject (Some v))) (m_servers m)) [])
    as [H1 H2]; [constructor |]. split; [done |]. intros id. rewrite H2, elem_of_nil, list_elem_of_fmap. naive_solver.
Qed.

(** ** Sample servers *)

Module Sample.
(** A server [tag] of a protocol, with as many containers as [n]. *)
Definition awgContainer : QJsonObject := <["container" := jstr "amnezia-awg"]> (<["config" := jstr "[Interface]"]> ∅).
Definition serverJson (tag : string) (protocol : string) (n : nat) : json :=
  JObject (jinsert "containers" (if Nat.eqb n 0 then None else Some (JArray (replicate n (JObject awgContainer))))
    (<["description" := jstr tag]> (<["config_version" := jint 2]>
    (<["displayInfo" := JObject {["protocol"%string := jstr protocol]}]>
    (<["api_config" := JObject (<["user_country_code" := jstr "se"]> (<["env" := jstr "prod"]> ∅))]>
    (<["auth_data" := JObject {["api_key"%string := jstr "key"]}]> ∅)))))).

Definition catalogue (code : string) : option json :=
  if String.eqb code "A0" then Some (serverJson "A" "awg" 0)
  else if String.eqb code "A1" then Some (serverJson "A" "awg" 1)
  else if String.eqb code "B0" then Some (serverJson "B" "vless" 0)
  else None.
Definition codeOf (v : json) : string :=
  let o := toObject (Some v) in
  field o "description" +:+ (if Nat.eqb (length (toArray (value o "containers"))) 0 then "0" else "1").
Definition storable (v : json) : Prop := catalogue (codeOf v) = Some v.

Definition textOfArray (l : list json) : string := join ";" (map codeOf l).
Definition arrayOf (s : string) : list json := omap catalogue (split ";" s).

Lemma catalogue_spec code v : catalogue code = Some v -> storable v /\ chr_contains ";" (codeOf v) = false.
Proof.
  unfold catalogue, storable. repeat case_if; intros [= <-]; by vm_compute.
Qed.

#[global] Instance laws : ArrayTextLaws arrayOf textOfArray storable.
Proof.
  split.
  - intros l Hl. unfold arrayOf, textOfArray. destruct l as [| v l]; [done |].
    rewrite split_join; [| done |].
    + induction Hl as [| w k Hw _ IH]; [done |]. cbn. by rewrite Hw, IH.
    + apply Forall_fmap. eapply Forall_impl; [exact Hl |]. intros w Hw. cbn. by apply (catalogue_spec (codeOf w)).
  - intros s. unfold arrayOf. apply Forall_forall. intros v Hv. apply list_elem_of_omap in Hv as (code & _ & Hc).
    by apply (catalogue_spec code).
Qed.

Definition settings (l : list json) (d : Z) : Settings := Store.setDefaultServer d (Store.setServersArray textOfArray l ∅).
(** A model that was just filled from the settings. *)
Definition model (l : list json) (d : Z) : ServersModel :=
  (Model.resetModel arrayOf
    (mkServers (settings l d) [] (-1) (-1) true (mkStacks ∅ ∅) ∅ [] [] [] [])).2.
End Sample.

(** *** Witnesses *)

Local Abbreviation sA := (Sample.serverJson "A" "awg" 0).
Local Abbreviation sB := (Sample.serverJson "B" "vless" 0).

Lemma sample_mirrors : Mirrors (arrayOf := Sample.arrayOf) (Sample.model [sA; sB] 1).
Proof. constructor; [reflexivity | reflexivity | by vm_compute | reflexivity]. Qed.


Lemma remove_keeps_default_witness :
  Model.serverAt (Model.removeServer Sample.arrayOf Sample.textOfArray 0 (Sample.model [sA; sB] 1)).2 0 = toObject (Some sB).
Proof.
  destruct (remove_keeps_default (textOfArray := Sample.textOfArray) 0 (Sample.model [sA; sB] 1) sample_mirrors) as (_ & _ & _ & _ & H & _);
    [by vm_compute | by vm_compute |].
  specialize (H ltac:(by vm_compute) ltac:(by vm_compute)). vm_compute in H |- *. exact H.
Defined.

Lemma container_config_roundtrip_witness :
  exists s', Store.setContainerConfig Sample.arrayOf Sample.textOfArray 0 Awg {["config"%string := jstr "[Interface]"]}
      (Sample.settings [sA; sB] 0) = Some s'
    /\ Store.containerConfig Sample.arrayOf s' 0 Awg = Sample.awgContainer.
Proof.
  destruct (container_config_roundtrip (textOfArray := Sample.textOfArray) (Sample.settings [sA; sB] 0) 0 Awg
    {["config"%string := jstr "[Interface]"]}) as (s' & E & H & _); [by vm_compute | done | reflexivity |].
  exists s'. split; [exact E | rewrite H; reflexivity].
Defined.

Lemma health_any_order_witness :
  m_healthResults (report 0 [-1; 70; 30] (Sample.model [sA] 0)).2 = m_healthResults (report 0 [30; 70; -1] (Sample.model [sA] 0)).2.
Proof.
  apply (health_any_order 0 [-1; 70; 30] [30; 70; -1] (Sample.model [sA] 0)); [reflexivity | done | | repeat constructor; lia].
  exact (Permutation_rev [-1; 70; 30]).
Defined.

(** The filters of the server page after a server is removed: the protocol of
    the removed server is still offered although no server speaks it. *)
Theorem stale_protocol_filter :
  let m := Sample.model [sA; sB] 0 in
  let m' := (Model.removeServer Sample.arrayOf Sample.textOfArray 1 m).2 in
  m_availableProtocols m = Model.protocolsNow m
  /\ m_availableProtocols m' = ["awg"; "vless"]%string /\ Model.protocolsNow m' = ["awg"]%string.
Proof. split_and!; by vm_compute. Qed.
