(* ===== verification/VpnConfiguration.v ===== *)
(** * The configuration of a connection:
      [client/core/controllers/vpnConfigurationController.cpp],
      [client/configurators/configurator_base.cpp],
      [client/core/api/apiUtils.cpp] (kinds of servers, Hysteria2 outbounds)

    From the entry of a server and the entry of its container,
    [createVpnConfiguration] builds the JSON object the protocol objects are
    created from: it finds the protocol's configuration text in the forms the
    backend uses, fills in the DNS addresses, renames the junk parameters,
    recovers missing keys from the INI text, and completes Xray
    configurations. *)

From Stdlib Require Import ZArith Lia Bool String Ascii.
From stdpp Require Import base gmap strings list.
From S2P Require Import Prelude.
From S2P Require Import Qt.
From S2P Require Import Settings.
From S2P Require Import Containers.
From S2P Require Import ServerStore.
From S2P Require Import Servers.
From S2P Require Import QtInstance.

Open Scope Z_scope.

(** ** Texts and objects *)

(** [s.split(sep)] for a separator of several characters; [skip] characters
    belong to a separator already seen. *)
Fixpoint splitGo (sep : string) (skip : nat) (s : string) : list string :=
  match s with
  | EmptyString => [""%string]
  | String d s' =>
      match skip with
      | S skip' => splitGo sep skip' s'
      | O =>
          if String.prefix sep s then ""%string :: splitGo sep (String.length sep - 1) s'
          else match splitGo sep 0 s' with
               | [] => [String d ""]
               | w :: ws => String d w :: ws
               end
      end
  end.
Definition splitText (sep s : string) : list string := splitGo sep 0 s.

(** [s.replace(before, after)] *)
Definition replaceText (before after s : string) : string := join after (splitText before s).

(** [obj[key]] of an object that can be changed: an absent key is added with
    a null value. *)
Definition jtouch (key : string) (obj : QJsonObject) : QJsonObject :=
  if jcontains obj key then obj else <[key := JNull]> obj.

(** The entries of an object in the order of the keys. *)
Definition entries (obj : QJsonObject) : list (string * json) :=
  fold_left (fun m kv => qmap_insert kv.1 kv.2 m) (map_to_list obj) [].

Definition isObject (v : json) : bool := match v with JObject _ => true | _ => false end.

(** ** Where a server comes from *)

Module ConfigType.
Inductive t : Type := AmneziaFreeV2 | AmneziaFreeV3 | AmneziaPremiumV1 | AmneziaPremiumV2 | SelfHosted | ExternalPremium.
#[global] Instance eq_dec : EqDecision t.
Proof. solve_decision. Defined.
End ConfigType.

Definition apiIsServerFromApi (server : QJsonObject) : bool :=
  let v := toIntJ (value server "config_version") in (v =? 1) || (v =? 2).

Section Kinds.
(** The two endpoints are build settings. *)
Context (freeV2Endpoint premiumV1Endpoint : string).

Definition gatewayType (server : QJsonObject) : ConfigType.t :=
  let serviceType := field (sub server "api_config") "service_type" in
  if String.eqb serviceType "amnezia-premium" then ConfigType.AmneziaPremiumV2
  else if String.eqb serviceType "amnezia-free" then ConfigType.AmneziaFreeV3
  else if String.eqb serviceType "external-premium" then ConfigType.ExternalPremium
  else ConfigType.SelfHosted.

(** The case of Telegram falls through to that of the gateway. *)
Definition getConfigType (server : QJsonObject) : ConfigType.t :=
  let v := toIntJ (value server "config_version") in
  if v =? 1 then
    let apiEndpoint := field server "api_endpoint" in
    if str_contains premiumV1Endpoint apiEndpoint then ConfigType.AmneziaPremiumV1
    else if str_contains freeV2Endpoint apiEndpoint then ConfigType.AmneziaFreeV2
    else gatewayType server
  else if v =? 2 then gatewayType server
  else ConfigType.SelfHosted.

Definition isPremiumServer (server : QJsonObject) : bool :=
  match getConfigType server with
  | ConfigType.AmneziaPremiumV1 | ConfigType.AmneziaPremiumV2 | ConfigType.ExternalPremium => true
  | _ => false
  end.
End Kinds.

(** ** Hysteria2 *)

Definition isLegacyHysteria2 (outbound : QJsonObject) : bool := String.eqb (field outbound "protocol") "hysteria2".

Definition translateLegacyHysteria2Outbound (outbound : QJsonObject) : QJsonObject :=
  if negb (isLegacyHysteria2 outbound) then outbound
  else
    let servers := toArray (value (sub outbound "settings") "servers") in
    let server := toObject (servers !! O) in
    let streamSettings := sub outbound "streamSettings" in
    let tlsSettings := <["alpn" := JArray [jstr "h3"]]> (sub streamSettings "tlsSettings") in
    let hysteriaSettings := <["auth" := jstr (field server "password")]> (<["version" := jint 2]> ∅) in
    let streamSettings :=
      <["hysteriaSettings" := JObject hysteriaSettings]>
      (<["tlsSettings" := JObject tlsSettings]> (<["network" := jstr "hysteria"]> streamSettings)) in
    let settings :=
      <["port" := jint (toIntJ (value server "port"))]>
      (<["address" := jstr (field server "address")]> (<["version" := jint 2]> ∅)) in
    <["streamSettings" := JObject streamSettings]>
    (<["settings" := JObject settings]> (<["protocol" := jstr "hysteria"]> outbound)).

(** ** The configuration *)

(** [processConfigWithDnsSettings]; every configurator does only this. *)
Definition processConfigWithDnsSettings (dns : string * string) (text : string) : string :=
  replaceText "$SECONDARY_DNS" dns.2 (replaceText "$PRIMARY_DNS" dns.1 text).

Definition awgJunkKeyMap : list (string * string) :=
  [("junkPacketCount", "Jc"); ("junkPacketMinSize", "Jmin"); ("junkPacketMaxSize", "Jmax");
   ("initPacketJunkSize", "S1"); ("responsePacketJunkSize", "S2"); ("cookieReplyPacketJunkSize", "S3");
   ("transportPacketJunkSize", "S4"); ("initPacketMagicHeader", "H1"); ("responsePacketMagicHeader", "H2");
   ("underloadPacketMagicHeader", "H3"); ("transportPacketMagicHeader", "H4"); ("specialJunk1", "I1");
   ("specialJunk2", "I2"); ("specialJunk3", "I3"); ("specialJunk4", "I4"); ("specialJunk5", "I5");
   ("randomTrailers", "RandomTrailers"); ("disableCookies", "DisableCookies");
   ("headerProtectionKey", "HeaderProtectionKey"); ("contentPaddingAddition", "ContentPaddingAddition");
   ("rekeyAfterTime", "RekeyAfterTime"); ("rekeyTimeout", "RekeyTimeout"); ("rejectAfterTime", "RejectAfterTime");
   ("keepaliveTimeout", "KeepaliveTimeout"); ("maxHandshakeAttempts", "MaxHandshakeAttempts")]%string.

Definition shortenBy (l : list (string * string)) (data : QJsonObject) : QJsonObject :=
  fold_left (fun data '(longName, shortName) =>
      if jcontains data longName && negb (jcontains data shortName)
      then jinsert shortName (value data longName) data else data) l data.
Definition shortenJunk (data : QJsonObject) : QJsonObject := shortenBy awgJunkKeyMap data.

(** The keys that may be only in the INI text. *)
Definition iniKeys : list string :=
  ["I1"; "I2"; "I3"; "I4"; "I5"; "RandomTrailers"; "DisableCookies"; "HeaderProtectionKey"; "ContentPaddingAddition";
   "RekeyAfterTime"; "RekeyTimeout"; "RejectAfterTime"; "KeepaliveTimeout"; "MaxHandshakeAttempts"]%string.

Definition lines (ini : string) : list string := split newline ini.

(** The value of the first line that starts with [key]: [None] when there is
    no such line or nothing follows [" = "]. *)
Definition iniValue (ini key : string) : option string :=
  match List.find (String.prefix key) (lines ini) with
  | Some line =>
      match splitText " = " line with
      | _ :: v :: _ => if String.eqb (trimmed v) "" then None else Some (trimmed v)
      | _ => None
      end
  | None => None
  end.

(** The [AllowedIPs] of the INI text. *)
Definition iniAllowedIps (ini : string) : list string :=
  match List.find (str_contains "AllowedIPs") (lines ini) with
  | Some line => match splitText " = " line with _ :: v :: _ => splitText ", " v | _ => [] end
  | None => []
  end.

(** Add a key the data lacks from the INI text. *)
Definition recoverKey (ini : string) (data : QJsonObject) (target source : string) : QJsonObject :=
  if negb (String.eqb (field data target) "") then data
  else match iniValue ini source with Some v => <[target := jstr v]> data | None => data end.

Definition recoverAllowedIps (ini : string) (data : QJsonObject) : QJsonObject :=
  if isArray (value data "allowed_ips") then data
  else
    let data := jtouch "client_ip" data in
    let all := iniAllowedIps ini in
    let kept := if chr_contains ":" (field data "client_ip") then all
      else List.filter (fun ip => negb (chr_contains ":" ip)) all in
    let kept := match kept with [] => ["0.0.0.0/0"%string] | _ => kept end in
    <["allowed_ips" := JArray (map jstr kept)]> data.

Definition defaultMtu : string := "1376".

(** The WireGuard part. *)
Definition completeWireguard (protoConfig containerConfig data : QJsonObject) : QJsonObject :=
  let data := if String.eqb (field data "mtu") "" then <["mtu" := jstr defaultMtu]> data else data in
  let ini := field data "config" in
  let ini := if String.eqb ini "" then field protoConfig "config" else ini in
  let ini := if String.eqb ini "" then field containerConfig "config" else ini in
  let data := recoverKey ini data "client_ip" "Address" in
  let data := recoverAllowedIps ini data in
  let data :=
    if isUndefined (value data "persistent_keep_alive") && jcontains data "persistent_keepalive"
    then jinsert "persistent_keep_alive" (value data "persistent_keepalive") data else data in
  fold_left (fun data key => recoverKey ini data key key) iniKeys data.

(** The Xray part; [port] is the free port the probe found. *)
Definition translateOutbound (v : json) : json :=
  if isLegacyHysteria2 (toObject (Some v)) then JObject (translateLegacyHysteria2Outbound (toObject (Some v))) else v.
Definition completeXray (port : option Z) (data : QJsonObject) : QJsonObject :=
  let outbounds := toArray (value data "outbounds") in
  let data :=
    if existsb (fun v => isLegacyHysteria2 (toObject (Some v))) outbounds
    then <["outbounds" := JArray (map translateOutbound outbounds)]> data else data in
  if jcontains data "inbounds" then data
  else
    let inbound :=
      <["settings" := JObject {["udp"%string := JBool true]}]> (<["protocol" := jstr "socks"]>
      (<["port" := jint (default 10808 port)]> (<["listen" := jstr "127.0.0.1"]> ∅))) in
    <["inbounds" := JArray [JObject inbound]]> data.

Section Create.
Context `{Qt}.

(** The object of the protocol in the entry of the container: the one under
    its name, or else the first that holds a configuration. *)
Definition protoConfigOf (proto : Proto.t) (containerConfig : QJsonObject) : QJsonObject :=
  let o := sub containerConfig (protoToString proto) in
  if bool_decide (o = ∅) then
    match List.find (fun kv => isObject kv.2
        && (jcontains (toObject (Some kv.2)) "last_config" || jcontains (toObject (Some kv.2)) "config")) (entries containerConfig) with
    | Some kv => toObject (Some kv.2)
    | None => o
    end
  else o.

(** The first non-empty text. *)
Fixpoint firstText (l : list string) : string :=
  match l with
  | [] => ""%string
  | s :: l' => if String.eqb s "" then firstText l' else s
  end.
Definition protocolText (protoConfig containerConfig : QJsonObject) : string :=
  firstText [field protoConfig "last_config"; field protoConfig "config"; field containerConfig "last_config";
             field containerConfig "config"].

Definition vpnConfigData (port : option Z) (dns : string * string) (containerConfig : QJsonObject)
    (container : DockerContainer) (proto : Proto.t) : QJsonObject :=
  let protoConfig := protoConfigOf proto containerConfig in
  let data := jsonObject (processConfigWithDnsSettings dns (protocolText protoConfig containerConfig)) in
  let data := shortenJunk data in
  let data := if isAwgContainer container || bool_decide (container = WireGuard)
    then completeWireguard protoConfig containerConfig data else data in
  if bool_decide (container = Xray) then completeXray port data else data.

Definition createVpnConfiguration (port : option Z) (dns : string * string) (serverConfig containerConfig : QJsonObject)
    (container : DockerContainer) : QJsonObject :=
  if bool_decide (containerService container = ServiceOther) then ∅
  else
    let c := fold_left (fun c proto =>
        <[key_proto_config_data proto := JObject (vpnConfigData port dns containerConfig container proto)]> c)
      (protocolsForContainer container) ∅ in
    <["config_version" := jint (toIntJ (value serverConfig "config_version"))]>
    (<["description" := jstr (field serverConfig "description")]>
    (<["hostName" := jstr (field serverConfig "hostName")]>
    (<["dns2" := jstr dns.2]>
    (<["dns1" := jstr dns.1]>
    (<["protocol" := jstr (protoToString (defaultProtocol container))]> c))))).
End Create.

(** ** Lemmas *)

Lemma value_insert k v k' (o : QJsonObject) : value (<[k := v]> o) k' = if String.eqb k k' then Some v else value o k'.
Proof. exact (value_jinsert k k' (Some v) o). Qed.

Lemma field_insert k v k' o : field (<[k := jstr v]> o) k' = if String.eqb k k' then v else field o k'.
Proof. unfold field. rewrite value_insert. by destruct (String.eqb k k'). Qed.

Lemma value_touch k k' o : value (jtouch k o) k' = if String.eqb k k' then Some (default JNull (value o k)) else value o k'.
Proof.
  unfold jtouch, jcontains. change (o !! k) with (value o k). destruct (value o k) as [v |] eqn:E; [| by rewrite value_insert].
  by destruct (String.eqb_spec k k') as [<- |].
Qed.

Lemma field_touch k k' o : field (jtouch k o) k' = field o k'.
Proof.
  unfold field. rewrite value_touch. destruct (String.eqb_spec k k') as [<- |]; [| done]. by destruct (value o k).
Qed.

Lemma value_recover ini data t s k : k <> t -> value (recoverKey ini data t s) k = value data k.
Proof.
  intros Hk. unfold recoverKey. case_if; [done |]. destruct (iniValue ini s); [| done].
  by rewrite value_insert, (proj2 (String.eqb_neq t k)) by congruence.
Qed.

Lemma value_recoverAll ini l data k : k ∉ l -> value (fold_left (fun data key => recoverKey ini data key key) l data) k = value data k.
Proof.
  revert data. induction l as [| x l IH]; intros data Hk; [done |]. cbn [fold_left]. apply not_elem_of_cons in Hk as [Hne Hk].
  rewrite IH by done. by apply value_recover.
Qed.

(** *** Junk parameters *)

Lemma shorten_step lo sh data k :
  value (if jcontains data lo && negb (jcontains data sh) then jinsert sh (value data lo) data else data) k
    = if String.eqb sh k then (match value data sh with Some v => Some v | None => value data lo end) else value data k.
Proof.
  unfold jcontains. change (data !! lo) with (value data lo). change (data !! sh) with (value data sh).
  destruct (value data sh) as [v |] eqn:Es; destruct (value data lo) as [w |] eqn:El; cbn [andb negb]; rewrite ?value_jinsert;
    destruct (String.eqb_spec sh k) as [<- |]; congruence.
Qed.

Lemma shortenBy_other l data k : k ∉ l.*2 -> value (shortenBy l data) k = value data k.
Proof.
  revert data. induction l as [| [lo sh] l IH]; intros data Hk; [done |]. cbn in Hk. apply not_elem_of_cons in Hk as [Hne Hk].
  unfold shortenBy. cbn [fold_left]. fold (shortenBy l). rewrite IH by done. rewrite shorten_step.
  by rewrite (proj2 (String.eqb_neq sh k)) by congruence.
Qed.

Lemma shortenBy_pair l data lo sh :
  NoDup l.*2 -> (forall x, x ∈ l.*1 -> x ∉ l.*2) -> (lo, sh) ∈ l ->
  value (shortenBy l data) sh = match value data sh with Some v => Some v | None => value data lo end.
Proof.
  revert data. induction l as [| [lo1 sh1] l IH]; intros data Hn Hd Hin; [by apply elem_of_nil in Hin |].
  cbn in Hn. apply NoDup_cons in Hn as [Hn1 Hn]. unfold shortenBy. cbn [fold_left]. fold (shortenBy l).
  apply elem_of_cons in Hin as [[= -> ->] | Hin].
  - rewrite shortenBy_other by done. by rewrite shorten_step, String.eqb_refl.
  - assert (Hsh : sh ∈ l.*2) by (apply list_elem_of_fmap; by exists (lo, sh)).
    assert (Hlo : lo ∈ l.*1) by (apply list_elem_of_fmap; by exists (lo, sh)).
    rewrite IH; [| done | | done].
    + rewrite !shorten_step. rewrite (proj2 (String.eqb_neq sh1 sh)) by (intros ->; done).
      rewrite (proj2 (String.eqb_neq sh1 lo)); [done |]. intros ->. apply (Hd lo); cbn; [by right | by left].
    + intros x Hx Hx2. apply (Hd x); cbn; by right.
Qed.

(** The junk parameters of the backend reach the names the
    tunnel reads: every parameter has the value it had under its short name
    or, when it had none, the value under its long name; nothing else of the
    configuration changes. *)
Theorem junk_renamed data :
  (forall lo sh, (lo, sh) ∈ awgJunkKeyMap ->
     value (shortenJunk data) sh = match value data sh with Some v => Some v | None => value data lo end)
  /\ (forall k, k ∉ awgJunkKeyMap.*2 -> value (shortenJunk data) k = value data k).
Proof.
  unfold shortenJunk. split.
  - intros lo sh Hin. apply shortenBy_pair; [by_names | apply Forall_forall; by_names | done].
  - intros k Hk. by apply shortenBy_other.
Qed.

(** *** WireGuard *)

Definition wireguardLike (c : DockerContainer) : bool := isAwgContainer c || bool_decide (c = WireGuard).

Lemma allowed_recovered ini data :
  let l := toArray (value (recoverAllowedIps ini data) "allowed_ips") in
  isArray (value (recoverAllowedIps ini data) "allowed_ips") = true
  /\ (isArray (value data "allowed_ips") = true -> l = toArray (value data "allowed_ips"))
  /\ (isArray (value data "allowed_ips") = false -> l <> []
      /\ (chr_contains ":" (field data "client_ip") = false ->
          Forall (fun v => chr_contains ":" (qdata (toString (Some v))) = false) l)).
Proof.
  intros l. unfold l, recoverAllowedIps. destruct (isArray (value data "allowed_ips")) eqn:E; [done |].
  cbv zeta. rewrite value_insert, String.eqb_refl, field_touch. cbn [isArray toArray].
  split_and!; [done | done |]. intros _. split.
  - by destruct (if chr_contains ":" (field data "client_ip") then _ else _).
  - intros ->. apply Forall_fmap. set (kept := List.filter _ _).
    assert (Hk : Forall (fun ip => chr_contains ":" ip = false) kept).
    { apply Forall_forall. intros ip Hip. apply list_elem_of_In, filter_In in Hip as [_ Hip]. by apply negb_true_iff. }
    destruct kept; [by repeat constructor | done].
Qed.

Lemma value_allowed ini data k : k <> "allowed_ips"%string -> k <> "client_ip"%string ->
  value (recoverAllowedIps ini data) k = value data k.
Proof.
  intros H1 H2. unfold recoverAllowedIps. case_if; [done |]. cbv zeta. rewrite value_insert, value_touch.
  by rewrite !(proj2 (String.eqb_neq _ k)) by congruence.
Qed.

Section Configuration.
Context `{Qt}.

(** The parsed text of the protocol, the DNS addresses filled in. *)
Definition parsedData (dns : string * string) (containerConfig : QJsonObject) (proto : Proto.t) : QJsonObject :=
  jsonObject (processConfigWithDnsSettings dns (protocolText (protoConfigOf proto containerConfig) containerConfig)).

(** The data of the protocol in a configuration. *)
Definition dataOf (configuration : QJsonObject) (container : DockerContainer) : QJsonObject :=
  sub configuration (key_proto_config_data (defaultProtocol container)).

Lemma data_created port dns server containerConfig c :
  c <> None_ -> containerService c <> ServiceOther ->
  dataOf (createVpnConfiguration port dns server containerConfig c) c
    = vpnConfigData port dns containerConfig c (defaultProtocol c).
Proof.
  intros Hc Hs. unfold createVpnConfiguration, dataOf, sub. rewrite bool_decide_eq_false_2 by done.
  assert (Hp : protocolsForContainer c = [defaultProtocol c]) by (by destruct c). rewrite Hp. cbn [fold_left].
  set (key := key_proto_config_data (defaultProtocol c)).
  assert (Hk : Forall (fun k => String.eqb k key = false) ["config_version"; "description"; "hostName"; "dns2"; "dns1"; "protocol"]%string)
    by (unfold key; by destruct c; repeat constructor).
  rewrite !Forall_cons in Hk. destruct_and!. rewrite !value_insert.
  repeat match goal with E : String.eqb _ key = false |- _ => rewrite E; clear E end. by rewrite String.eqb_refl.
Qed.

Lemma shorten_keeps data k : k ∉ awgJunkKeyMap.*2 -> value (shortenJunk data) k = value data k.
Proof. apply shortenBy_other. Qed.

Lemma completed_allowed protoConfig containerConfig data :
  exists ini client, let d1 := recoverKey ini (if String.eqb (field data "mtu") "" then <["mtu" := jstr defaultMtu]> data else data)
      "client_ip" "Address" in
    client = field d1 "client_ip"
    /\ value (completeWireguard protoConfig containerConfig data) "allowed_ips" = value (recoverAllowedIps ini d1) "allowed_ips"
    /\ field (completeWireguard protoConfig containerConfig data) "client_ip" = client
    /\ field (completeWireguard protoConfig containerConfig data) "mtu"
       = (if String.eqb (field data "mtu") "" then defaultMtu else field data "mtu").
Proof.
  unfold completeWireguard. cbv zeta. set (data1 := if String.eqb (field data "mtu") "" then _ else data).
  set (ini := if String.eqb (if String.eqb (field data1 "config") "" then _ else _) "" then _ else _).
  exists ini. set (d1 := recoverKey ini data1 "client_ip" "Address"). exists (field d1 "client_ip").
  set (d2 := recoverAllowedIps ini d1). set (d3 := if _ && _ then _ else d2).
  assert (H3 : forall k, k <> "persistent_keep_alive"%string -> value d3 k = value d2 k).
  { intros k Hk. unfold d3. case_if; [| done]. rewrite value_jinsert. by rewrite (proj2 (String.eqb_neq _ k)) by congruence. }
  assert (Hk : forall k, k ∉ iniKeys -> k <> "persistent_keep_alive"%string ->
    value (fold_left (fun data key => recoverKey ini data key key) iniKeys d3) k = value d2 k).
  { intros k Hk Hp. rewrite value_recoverAll by done. by apply H3. }
  split_and!; [done | | |].
  - rewrite Hk; [done | by_names | done].
  - unfold field at 1. rewrite Hk; [| by_names | done]. change (field d2 "client_ip" = field d1 "client_ip").
    unfold d2, recoverAllowedIps. case_if; [done |]. cbv zeta.
    unfold field at 1. rewrite value_insert. cbn [String.eqb Ascii.eqb Bool.eqb]. apply field_touch.
  - unfold field at 1. rewrite Hk; [| by_names | done]. unfold d2. rewrite value_allowed by done.
    unfold d1. rewrite value_recover by done. unfold data1. change (field (if String.eqb (field data "mtu") "" then <["mtu" := jstr defaultMtu]> data else data) "mtu"
      = if String.eqb (field data "mtu") "" then defaultMtu else field data "mtu").
    case_if; [| done]. by rewrite field_insert, String.eqb_refl.
Qed.

Lemma wireguard_like c : wireguardLike c = true -> c <> None_ /\ containerService c <> ServiceOther /\ c <> Xray.
Proof. by destruct c. Qed.

(** The configuration of a WireGuard or AmneziaWG server is one
    the tunnel accepts: an MTU; a list of allowed addresses, the backend's own
    when it sent one; and when it sent none, a list that is not empty and, on
    a tunnel without an IPv6 address, names no IPv6 network. *)
Theorem wireguard_configuration port dns server containerConfig c :
  wireguardLike c = true ->
  let sent := parsedData dns containerConfig (defaultProtocol c) in
  let data := dataOf (createVpnConfiguration port dns server containerConfig c) c in
  let allowed := toArray (value data "allowed_ips") in
  field data "mtu" <> ""%string
  /\ isArray (value data "allowed_ips") = true
  /\ (isArray (value sent "allowed_ips") = true -> allowed = toArray (value sent "allowed_ips"))
  /\ (isArray (value sent "allowed_ips") = false ->
        allowed <> []
        /\ (chr_contains ":" (field data "client_ip") = false ->
            Forall (fun v => chr_contains ":" (qdata (toString (Some v))) = false) allowed)).
Proof.
  intros Hc sent. destruct (wireguard_like c Hc) as (H1 & H2 & H3). rewrite data_created by done.
  unfold vpnConfigData. fold (parsedData dns containerConfig (defaultProtocol c)). fold sent. fold (wireguardLike c).
  rewrite Hc, bool_decide_eq_false_2 by done. cbv zeta.
  destruct (completed_allowed (protoConfigOf (defaultProtocol c) containerConfig) containerConfig (shortenJunk sent))
    as (ini & client & Hcl & Ha & Hf & Hm). cbv zeta in Hcl, Ha.
  set (d1 := recoverKey ini _ "client_ip" "Address") in *. rewrite Ha, Hf, Hm.
  assert (Hs : value d1 "allowed_ips" = value sent "allowed_ips").
  { unfold d1. rewrite value_recover by done. rewrite <- (shorten_keeps sent "allowed_ips") by by_names.
    case_if; [| done]. by rewrite value_insert. }
  destruct (allowed_recovered ini d1) as (Hr1 & Hr2 & Hr3). cbv zeta in Hr2, Hr3. rewrite Hs in Hr2, Hr3. rewrite Hcl.
  split_and!; [| done | done | done]. destruct (String.eqb_spec (field (shortenJunk sent) "mtu") ""); done.
Qed.

(** *** Xray *)

Lemma translated_none o : isLegacyHysteria2 (translateLegacyHysteria2Outbound o) = false.
Proof.
  unfold translateLegacyHysteria2Outbound. destruct (isLegacyHysteria2 o) eqn:E; cbn [negb]; [| done].
  cbv zeta. unfold isLegacyHysteria2, field. rewrite !value_insert. done.
Qed.

(** The comparison of the source, whether the translation differs, is the
    test of the protocol. *)
Lemma translated_differs o : translateLegacyHysteria2Outbound o <> o <-> isLegacyHysteria2 o = true.
Proof.
  split.
  - intros Hne. destruct (isLegacyHysteria2 o) eqn:E; [done |]. destruct Hne. unfold translateLegacyHysteria2Outbound. by rewrite E.
  - intros E He. pose proof (translated_none o) as Hn. rewrite He in Hn. congruence.
Qed.

(** The configuration of an Xray server can be run: no
    outbound is left in the schema the core rejects, the others are as the
    backend sent them, in their order, and there is an inbound. *)
Theorem xray_configuration port dns server containerConfig :
  let sent := parsedData dns containerConfig Proto.Xray in
  let data := dataOf (createVpnConfiguration port dns server containerConfig Xray) Xray in
  Forall (fun v => isLegacyHysteria2 (toObject (Some v)) = false) (toArray (value data "outbounds"))
  /\ Forall2 (fun v w => isLegacyHysteria2 (toObject (Some v)) = false -> w = v)
       (toArray (value sent "outbounds")) (toArray (value data "outbounds"))
  /\ jcontains data "inbounds" = true
  /\ (jcontains sent "inbounds" = true -> value data "inbounds" = value sent "inbounds").
Proof.
  intros sent. rewrite data_created by done. unfold vpnConfigData. fold (parsedData dns containerConfig (defaultProtocol Xray)).
  cbn [isAwgContainer defaultProtocol]. fold sent. rewrite (bool_decide_eq_false_2 (Xray = WireGuard)) by done.
  rewrite (bool_decide_eq_true_2 (Xray = Xray)) by done. cbn [orb]. cbv zeta.
  assert (Hs : forall k, k ∉ awgJunkKeyMap.*2 -> value (shortenJunk sent) k = value sent k) by (intros k Hk; by apply shorten_keeps).
  generalize dependent (shortenJunk sent). intros d Hs. rewrite <- (Hs "outbounds"%string), <- (Hs "inbounds"%string) by by_names.
  assert (Hj : jcontains sent "inbounds" = jcontains d "inbounds") by (unfold jcontains; unfold value in Hs; by rewrite Hs by by_names).
  rewrite Hj. unfold completeXray. set (l := toArray (value d "outbounds")).
  set (d1 := if existsb _ l then _ else d).
  assert (Ho : toArray (value d1 "outbounds") = map translateOutbound l).
  { unfold d1. destruct (existsb _ l) eqn:E; [by rewrite value_insert |]. fold l. symmetry.
    rewrite <- (map_id l) at 2. apply map_ext_in. intros v Hv. unfold translateOutbound.
    destruct (isLegacyHysteria2 (toObject (Some v))) eqn:Ev; [| done].
    assert (existsb (fun v => isLegacyHysteria2 (toObject (Some v))) l = true) by (apply existsb_exists; by exists v). congruence. }
  assert (Hi : value d1 "inbounds" = value d "inbounds") by (unfold d1; case_if; [by rewrite value_insert | done]).
  assert (Hc : jcontains d1 "inbounds" = jcontains d "inbounds") by (unfold jcontains; change (d1 !! "inbounds"%string) with (value d1 "inbounds"); by rewrite Hi).
  assert (Hn : Forall (fun v => isLegacyHysteria2 (toObject (Some v)) = false) (map translateOutbound l)).
  { apply Forall_fmap, Forall_true. intros v. cbn. unfold translateOutbound. case_if; [apply translated_none | done]. }
  assert (H2 : Forall2 (fun v w => isLegacyHysteria2 (toObject (Some v)) = false -> w = v) l (map translateOutbound l)).
  { apply Forall2_fmap_r, Forall_Forall2_diag, Forall_true. intros v E. cbn. unfold translateOutbound. by rewrite E. }
  rewrite Hc. destruct (jcontains d "inbounds") eqn:E.
  - rewrite Ho, Hi. split_and!; [done | done | by rewrite Hc | done].
  - rewrite value_insert. cbn [String.eqb Ascii.eqb Bool.eqb]. rewrite Ho. split_and!; [done | done | | done].
    unfold jcontains. by rewrite lookup_insert_eq.
Qed.
End Configuration.

(** *** Witness *)

(** An entry in the flat form: the INI text only. *)
Definition sampleContainer : QJsonObject :=
  <["container" := jstr "amnezia-awg"]>
  {["config"%string := jstr ("Address = 10.0.0.2" +:+ nl +:+ "AllowedIPs = 0.0.0.0/0, ::/0")]}.

Lemma wireguard_configuration_witness :
  let data := dataOf (createVpnConfiguration (H := plainQt) None ("1.1.1.1", "1.0.0.1")%string ∅ sampleContainer Awg) Awg in
  value data "allowed_ips" = Some (JArray [jstr "0.0.0.0/0"]) /\ field data "client_ip" = "10.0.0.2"%string
  /\ field data "mtu" <> ""%string.
Proof.
  split; [reflexivity |]. split; [reflexivity |].
  apply (wireguard_configuration (H := plainQt) None ("1.1.1.1", "1.0.0.1")%string ∅ sampleContainer Awg). reflexivity.
Defined.
