(* ===== verification/EntryAddress.v ===== *)
(** * The entry address of a configuration:
      [client/ui/controllers/connectionController.cpp], lines 30 to 160

    A server may be reached at several addresses.  Before it is dialled at
    one of them, the address is written wherever the configuration of the
    server embeds it: the host name, the [Endpoint] of an INI text, the
    outbounds of an Xray configuration, the [server] of Hysteria, and the
    configurations nested as text inside others. *)

From Stdlib Require Import ZArith Lia Bool String Ascii.
From stdpp Require Import base gmap strings list.
From S2P Require Import Prelude.
From S2P Require Import Qt.
From S2P Require Import Settings.
From S2P Require Import Containers.
From S2P Require Import ServerStore.
From S2P Require Import Servers.
From S2P Require Import VpnConfiguration.
From S2P Require Import QtInstance.

Open Scope Z_scope.

(** [s.lastIndexOf(c)], [None] for -1. *)
Fixpoint lastIndexOf (c : ascii) (s : string) : option nat :=
  match s with
  | EmptyString => None
  | String d s' =>
      match lastIndexOf c s' with
      | Some n => Some (S n)
      | None => if Ascii.eqb c d then Some O else None
      end
  end.

(** [if (obj.contains(key)) obj[key] = text] *)
Definition overwrite (key text : string) (obj : QJsonObject) : QJsonObject :=
  if jcontains obj key then <[key := jstr text]> obj else obj.

(** [l.replace(j, patched)] for every element: an element that is no object
    becomes an empty one. *)
Definition patchAll (ip : string) (l : list json) : list json :=
  map (fun v => JObject (overwrite "address" ip (toObject (Some v)))) l.
Definition hasAddress (l : list json) : bool := existsb (fun v => jcontains (toObject (Some v)) "address") l.

(** Write back an array that is not empty. *)
Definition setArray (key : string) (l : list json) (obj : QJsonObject) : QJsonObject :=
  match l with [] => obj | _ => <[key := JArray l]> obj end.

Definition patchOutbound (ip : string) (v : json) : json :=
  let outbound := toObject (Some v) in
  let settings := sub outbound "settings" in
  let vnext := toArray (value settings "vnext") in
  let settings := setArray "vnext" (patchAll ip vnext) settings in
  let servers := toArray (value settings "servers") in
  let settings := setArray "servers" (patchAll ip servers) settings in
  let touched := hasAddress vnext || hasAddress servers || jcontains settings "address" in
  let settings := overwrite "address" ip settings in
  if touched then JObject (<["settings" := JObject settings]> outbound) else v.

(** [server] is a host with an optional port. *)
Definition patchHostPort (ip server : string) : string :=
  match lastIndexOf ":" server with
  | Some (S n) => ip +:+ str_mid (S n) server
  | _ => ip
  end.

(** [patchAddressInJsonObject], with the function for a nested text *)
Definition patchJsonObject (patchText : string -> string) (ip : string) (obj : QJsonObject) : QJsonObject :=
  let obj := overwrite "hostName" ip obj in
  let obj := overwrite "server" (patchHostPort ip (field obj "server")) obj in
  let obj := setArray "outbounds" (map (patchOutbound ip) (toArray (value obj "outbounds"))) obj in
  let nestedConfig := field obj "config" in
  if String.eqb nestedConfig "" then obj else <["config" := jstr (patchText nestedConfig)]> obj.

Section Patch.
Context `{Qt}.
(** The replacement of the address in the [Endpoint] lines of an INI text by
    the regular expression of the source. *)
Context (replaceEndpoint : string -> string -> string).

(** [patchAddressInConfigString]; the fuel bounds how deep texts are nested. *)
Fixpoint patchAddressInConfigString (fuel : nat) (ip configStr : string) : string :=
  match fuel with
  | O => configStr
  | S fuel' =>
      if String.prefix "{" (trimmed configStr) then
        let obj := jsonObject configStr in
        if bool_decide (obj = ∅) then configStr
        else jsonPrint (patchJsonObject (patchAddressInConfigString fuel' ip) ip obj)
      else if str_contains "[interface]" (toLower (trimmed configStr)) then replaceEndpoint ip configStr
      else configStr
  end.
(** A nested text is shorter than the text it is in. *)
Definition patchText (ip configStr : string) : string := patchAddressInConfigString (S (String.length configStr)) ip configStr.

Definition patchProtocolObject (ip : string) (o : QJsonObject) : QJsonObject :=
  let o := overwrite "hostName" ip o in
  let lastConfig := field o "last_config" in
  let o := if String.eqb lastConfig "" then o else <["last_config" := jstr (patchText ip lastConfig)]> o in
  let configStr := field o "config" in
  if String.eqb configStr "" then o else <["config" := jstr (patchText ip configStr)]> o.

Definition patchContainerObject (ip : string) (o : QJsonObject) : QJsonObject :=
  (fun v => match v with JObject p => JObject (patchProtocolObject ip p) | _ => v end) <$> patchProtocolObject ip o.

Definition patchServerConfigAddress (ip : string) (serverConfig : QJsonObject) : QJsonObject :=
  let serverConfig := <["hostName" := jstr ip]> serverConfig in
  setArray "containers"
    (map (fun v => JObject (patchContainerObject ip (toObject (Some v)))) (toArray (value serverConfig "containers"))) serverConfig.
End Patch.

(** ** The addresses an Xray configuration dials *)

Definition addressesIn (l : list json) : list string :=
  concat (map (fun v => let o := toObject (Some v) in if jcontains o "address" then [field o "address"] else []) l).
Definition dialled (v : json) : list string :=
  let settings := sub (toObject (Some v)) "settings" in
  addressesIn (toArray (value settings "vnext")) ++ addressesIn (toArray (value settings "servers"))
    ++ (if jcontains settings "address" then [field settings "address"] else []).

(** ** Lemmas *)

Lemma value_overwrite k t k' o :
  value (overwrite k t o) k' = if String.eqb k k' && jcontains o k then Some (jstr t) else value o k'.
Proof. unfold overwrite. destruct (jcontains o k) eqn:E; [rewrite value_insert, andb_true_r | rewrite andb_false_r]; done. Qed.

Lemma value_setArray k l k' o :
  value (setArray k l o) k' = if String.eqb k k' then (match l with [] => value o k | _ => Some (JArray l) end) else value o k'.
Proof.
  unfold setArray. destruct l as [| v l]; [by destruct (String.eqb_spec k k') as [<- |] |]. by rewrite value_insert.
Qed.

Lemma contains_value o k : jcontains o k = match value o k with Some _ => true | None => false end.
Proof. done. Qed.

Lemma absent_value o k : jcontains o k = false -> value o k = None.
Proof. rewrite contains_value. by destruct (value o k). Qed.

Lemma address_overwritten ip o :
  (if jcontains (overwrite "address" ip o) "address" then [field (overwrite "address" ip o) "address"] else [])
    = map (fun _ => ip) (if jcontains o "address" then [field o "address"] else []).
Proof.
  unfold field. rewrite (contains_value (overwrite _ _ _)), !value_overwrite. cbn [String.eqb Ascii.eqb Bool.eqb andb].
  destruct (jcontains o "address") eqn:E; [done |]. by rewrite (absent_value _ _ E).
Qed.

Lemma addresses_patched ip l : addressesIn (patchAll ip l) = map (fun _ => ip) (addressesIn l).
Proof.
  induction l as [| v l IH]; [done |]. cbn [patchAll map]. unfold addressesIn in *. cbn [map concat].
  rewrite map_app. rewrite <- IH. cbn [toObject]. by rewrite address_overwritten.
Qed.

Lemma addresses_none l : hasAddress l = false -> addressesIn l = [].
Proof.
  induction l as [| v l IH]; [done |]. unfold hasAddress, addressesIn. cbn [existsb map concat]. intros Hl.
  apply orb_false_iff in Hl as [Hv Hl]. rewrite Hv. by apply IH.
Qed.

Lemma patched_array k ip (o : QJsonObject) :
  toArray (value (setArray k (patchAll ip (toArray (value o k))) o) k) = patchAll ip (toArray (value o k)).
Proof.
  rewrite value_setArray, String.eqb_refl. destruct (patchAll ip (toArray (value o k))) eqn:E; [| done].
  by destruct (toArray (value o k)).
Qed.

(** An outbound that is rewritten for an entry address dials that
    address wherever it dialled another one, and nowhere else; everything of it
    but its settings, the name the TLS certificate is checked against among it,
    is as it was. *)
Theorem outbound_dials ip v :
  dialled (patchOutbound ip v) = map (fun _ => ip) (dialled v)
  /\ (forall k, k <> "settings"%string -> value (toObject (Some (patchOutbound ip v))) k = value (toObject (Some v)) k).
Proof.
  unfold patchOutbound. set (o := toObject (Some v)). set (s0 := sub o "settings"). cbv zeta.
  set (s1 := setArray "vnext" _ s0).
  assert (Hs1 : value s1 "servers" = value s0 "servers") by (unfold s1; by rewrite value_setArray).
  set (s2 := setArray "servers" _ s1).
  assert (Ha : value s2 "address" = value s0 "address") by (unfold s2, s1; by rewrite !value_setArray).
  assert (Hc : jcontains s2 "address" = jcontains s0 "address") by (by rewrite !contains_value, Ha).
  assert (Hvn : toArray (value s2 "vnext") = patchAll ip (toArray (value s0 "vnext")))
    by (unfold s2; rewrite value_setArray; apply patched_array).
  assert (Hsv : toArray (value s2 "servers") = patchAll ip (toArray (value s0 "servers")))
    by (unfold s2; rewrite patched_array; by rewrite Hs1).
  rewrite Hs1, Hc. destruct (_ || _) eqn:E.
  - split.
    + unfold dialled. fold o. fold s0. unfold sub. cbn [toObject]. rewrite value_insert, String.eqb_refl. cbn [toObject].
      rewrite address_overwritten, !value_overwrite. cbn [String.eqb Ascii.eqb Bool.eqb andb].
      rewrite Hvn, Hsv, !addresses_patched, !map_app, Hc. unfold field. by rewrite Ha.
    + intros k Hk. cbn [toObject]. rewrite value_insert. by rewrite (proj2 (String.eqb_neq _ k)) by congruence.
  - apply orb_false_iff in E as [E E3]. apply orb_false_iff in E as [E1 E2]. split; [| done].
    unfold dialled. fold o. fold s0. by rewrite !addresses_none, E3.
Qed.

Section PatchFacts.
Context `{Qt} {replaceEndpoint : string -> string -> string}.

Lemma patchJsonObject_nested f ip obj : field (patchJsonObject f ip obj) "config" = 
  (if String.eqb (field obj "config") "" then field obj "config" else f (field obj "config")).
Proof.
  unfold patchJsonObject. cbv zeta. set (o3 := setArray "outbounds" _ _).
  assert (E : field o3 "config" = field obj "config").
  { unfold field, o3. rewrite value_setArray, !value_overwrite. done. }
  rewrite E. case_if; [done |]. by rewrite field_insert, String.eqb_refl.
Qed.

Lemma patchJsonObject_ext f g ip obj :
  f (field obj "config") = g (field obj "config") -> patchJsonObject f ip obj = patchJsonObject g ip obj.
Proof.
  intros E. unfold patchJsonObject. cbv zeta. set (o3 := setArray "outbounds" _ _).
  assert (Ec : field o3 "config" = field obj "config") by (unfold field, o3; by rewrite value_setArray, !value_overwrite).
  by rewrite Ec, E.
Qed.

(** What the recursion relies on: a text inside a JSON text is shorter. *)
Definition nestedShorter : Prop := forall s o,
  jsonParse s = Some o -> (String.length (field o "config") < String.length s)%nat.

(** Rewriting the address in configurations nested as text
    inside one another ends: with one step more than the text has characters
    the result no longer depends on the number of steps. *)
Theorem patch_ends ip s fuel :
  nestedShorter -> (String.length s < fuel)%nat ->
  patchAddressInConfigString replaceEndpoint fuel ip s = patchText replaceEndpoint ip s.
Proof.
  intros Hn. unfold patchText.
  assert (Hg : forall n s f1 f2, (String.length s < n)%nat -> (String.length s < f1)%nat -> (String.length s < f2)%nat ->
    patchAddressInConfigString replaceEndpoint f1 ip s = patchAddressInConfigString replaceEndpoint f2 ip s);
    [| intros Hf; apply (Hg (S (String.length s))); lia].
  clear s fuel. intros n. induction n as [| n IH]; intros s f1 f2 Hl H1 H2; [lia |].
  destruct f1 as [| f1]; [lia |]. destruct f2 as [| f2]; [lia |]. cbn [patchAddressInConfigString].
  destruct (String.prefix "{" (trimmed s)); [| done]. case_bool_decide as E; [done |]. f_equal. apply patchJsonObject_ext.
  assert (Hlt : (String.length (field (jsonObject s) "config") < String.length s)%nat).
  { unfold jsonObject in *. destruct (jsonParse s) as [o |] eqn:Ep; [by apply (Hn s o) | done]. }
  apply IH; lia.
Qed.

Lemma value_patchProtocol ip o k :
  k <> "hostName"%string -> k <> "last_config"%string -> k <> "config"%string ->
  value (patchProtocolObject replaceEndpoint ip o) k = value o k.
Proof.
  intros H1 H2 H3. unfold patchProtocolObject. cbv zeta. set (o1 := overwrite "hostName" ip o).
  assert (E1 : value o1 k = value o k) by (unfold o1; by rewrite value_overwrite, (proj2 (String.eqb_neq _ k)) by congruence).
  set (o2 := if String.eqb (field o1 "last_config") "" then o1 else _).
  assert (E2 : value o2 k = value o k).
  { unfold o2. case_if; [done |]. by rewrite value_insert, (proj2 (String.eqb_neq _ k)) by congruence. }
  case_if; [done |]. by rewrite value_insert, (proj2 (String.eqb_neq _ k)) by congruence.
Qed.

Lemma container_patched ip v :
  containerOf (JObject (patchContainerObject replaceEndpoint ip (toObject (Some v)))) = containerOf v.
Proof.
  unfold containerOf, field. do 2 f_equal. cbn [toObject]. unfold patchContainerObject, value. rewrite lookup_fmap.
  change (?x !! "container"%string) with (value x "container"). rewrite value_patchProtocol by done. unfold value.
  by destruct (match v with JObject m => m | _ => ∅ end !! "container"%string) as [[] |].
Qed.

(** A server rewritten for an entry address has that host
    name, the same containers in the same order, and every other key as
    before. *)
Theorem server_patched ip server :
  let patched := patchServerConfigAddress replaceEndpoint ip server in
  field patched "hostName" = ip
  /\ map containerOf (toArray (value patched "containers")) = map containerOf (toArray (value server "containers"))
  /\ (forall k, k <> "hostName"%string -> k <> "containers"%string -> value patched k = value server k).
Proof.
  unfold patchServerConfigAddress. cbv zeta. set (s1 := <["hostName" := jstr ip]> server).
  assert (Hv : value s1 "containers" = value server "containers") by (unfold s1; by rewrite value_insert).
  rewrite Hv. set (l := toArray (value server "containers")).
  set (l' := map (fun v => JObject (patchContainerObject replaceEndpoint ip (toObject (Some v)))) l).
  split_and!.
  - unfold field. rewrite value_setArray. cbn [String.eqb Ascii.eqb Bool.eqb]. unfold s1. by rewrite value_insert, String.eqb_refl.
  - rewrite value_setArray, String.eqb_refl, Hv.
    transitivity (map containerOf l').
    + destruct l' as [| w k] eqn:E; [| done]. unfold l' in E. apply map_eq_nil in E. fold l. by rewrite E.
    + unfold l'. rewrite map_map. apply map_ext. intros v. apply container_patched.
  - intros k H1 H2. rewrite value_setArray, (proj2 (String.eqb_neq _ k)) by congruence.
    unfold s1. by rewrite value_insert, (proj2 (String.eqb_neq _ k)) by congruence.
Qed.
End PatchFacts.

(** *** Witness *)

(** Texts are only ever parsed as an object without a nested one. *)
Definition flatQt : Qt := QtInstance.concreteQt (fun s => if String.eqb s "" then None else Some {["hostName"%string := jstr "old"]}) (fun _ => "{}"%string).

Lemma patch_ends_witness :
  patchAddressInConfigString (H := flatQt) (fun _ s => s) 100 "10.0.0.1" "{}" = patchText (H := flatQt) (fun _ s => s) "10.0.0.1" "{}".
Proof.
  apply (patch_ends (H := flatQt) "10.0.0.1" "{}" 100); [| cbn; lia].
  intros s o. cbn. destruct s as [| c s]; [done |]. cbn. intros [= <-].
  replace (field {["hostName"%string := jstr "old"]} "config") with ""%string by reflexivity. cbn. lia.
Defined.
