(* ===== verification/ConnectionController.v ===== *)
(** * The connection controller:
      [client/ui/controllers/connectionController.h] and [.cpp]

    What the connect button drives.  A connection is dialled at an entry of a
    pool of (row, address) pairs, shuffled anew each time; an entry that fails
    is followed by the next one.  With automatic selection, candidates are
    ordered by protocol and latency and tried one after the other, each with
    its pool.  Timers, the states of the VPN connection and its byte counters
    are the events.  The speed meter is not part of the model. *)

From Stdlib Require Import ZArith Lia Bool String Ascii.
From stdpp Require Import base gmap strings list sorting.
From S2P Require Import Prelude.
From S2P Require Import Qt.
From S2P Require Import Settings.
From S2P Require Import Containers.
From S2P Require Import ServerStore.
From S2P Require Import Servers.
From S2P Require Import VpnProtocol.
From S2P Require Import VpnConfiguration.
From S2P Require Import EntryAddress.

Open Scope Z_scope.

(** ** Data *)

(** An empty address: the host name of the row is dialled. *)
Record PoolEntry : Type := mkEntry { pe_row : Z; pe_ip : string }.
#[export] Instance PoolEntry_eq_dec : EqDecision PoolEntry.
Proof. solve_decision. Defined.

(** Latency: milliseconds, -1 offline, -2 not probed. *)
Record AutoCandidate : Type := mkCandidate { ac_row : Z; ac_tier : Z; ac_latency : Z }.
#[export] Instance AutoCandidate_eq_dec : EqDecision AutoCandidate.
Proof. solve_decision. Defined.

Inductive AutoPhase : Type := PhaseNone | Probing | PhaseConnecting.
#[export] Instance AutoPhase_eq_dec : EqDecision AutoPhase.
Proof. solve_decision. Defined.

(** The errors the controller reports; [LastError] is what
    [VpnConnection::lastError] returns at that moment. *)
Inductive CcError : Type := NotSupportedOnThisPlatform | ServerConnectionTimeoutError | DopamineServiceNotRunning | LastError.

(** Signals and calls of the controller. *)
Inductive CcOutput : Type :=
| connectToVpn (serverIndex : Z) (credentials : ServerCredentials) (container : DockerContainer) (configuration : QJsonObject)
| disconnectFromVpn
| connectionStateChanged
| connectionErrorOccurred (e : CcError)
| preparingConfig
| prepareConfig
| pingChanged
| startProbe
| stopProbe
| pingConnect (socket : nat) (host : string).

Record ConnectionController : Type := mkCC {
  cc_model : ServersModel;
  m_ipPool : list PoolEntry;
  m_ipPoolPos : Z;
  m_currentEndpoint : string;
  m_connectionSwitching : bool;
  m_ipAwaitingTraffic : bool;
  m_autoPhase : AutoPhase;
  m_autoCandidates : list AutoCandidate;
  m_autoCandidatePos : Z;
  m_autoAdvancing : bool;
  m_autoAwaitingTraffic : bool;
  autoProbeTimer : option Z;
  autoAttemptTimer : option Z;
  ipTrafficTimer : option Z;
  manualConnectTimer : option Z;
  m_isConnected : bool;
  m_isConnectionInProgress : bool;
  m_connectionStateText : string;
  cc_state : Vpn.ConnectionState;
  pingTimer : bool;
  m_pingSocket : option nat;
  m_ping : string;
  m_pingHostIndex : Z;
  cc_watching : bool;
  cc_draws : nat;
  cc_out : list CcOutput
}.

(** Assignments to the members. *)
Definition setModel (x : ServersModel) : ST ConnectionController unit := modify (fun c =>
  mkCC x (m_ipPool c) (m_ipPoolPos c) (m_currentEndpoint c) (m_connectionSwitching c) (m_ipAwaitingTraffic c)
    (m_autoPhase c) (m_autoCandidates c) (m_autoCandidatePos c) (m_autoAdvancing c) (m_autoAwaitingTraffic c)
    (autoProbeTimer c) (autoAttemptTimer c) (ipTrafficTimer c) (manualConnectTimer c) (m_isConnected c)
    (m_isConnectionInProgress c) (m_connectionStateText c) (cc_state c) (pingTimer c) (m_pingSocket c) (m_ping c)
    (m_pingHostIndex c) (cc_watching c) (cc_draws c) (cc_out c)).
Definition setPool (x : list PoolEntry) : ST ConnectionController unit := modify (fun c =>
  mkCC (cc_model c) x (m_ipPoolPos c) (m_currentEndpoint c) (m_connectionSwitching c) (m_ipAwaitingTraffic c)
    (m_autoPhase c) (m_autoCandidates c) (m_autoCandidatePos c) (m_autoAdvancing c) (m_autoAwaitingTraffic c)
    (autoProbeTimer c) (autoAttemptTimer c) (ipTrafficTimer c) (manualConnectTimer c) (m_isConnected c)
    (m_isConnectionInProgress c) (m_connectionStateText c) (cc_state c) (pingTimer c) (m_pingSocket c) (m_ping c)
    (m_pingHostIndex c) (cc_watching c) (cc_draws c) (cc_out c)).
Definition setPoolPos (x : Z) : ST ConnectionController unit := modify (fun c =>
  mkCC (cc_model c) (m_ipPool c) x (m_currentEndpoint c) (m_connectionSwitching c) (m_ipAwaitingTraffic c)
    (m_autoPhase c) (m_autoCandidates c) (m_autoCandidatePos c) (m_autoAdvancing c) (m_autoAwaitingTraffic c)
    (autoProbeTimer c) (autoAttemptTimer c) (ipTrafficTimer c) (manualConnectTimer c) (m_isConnected c)
    (m_isConnectionInProgress c) (m_connectionStateText c) (cc_state c) (pingTimer c) (m_pingSocket c) (m_ping c)
    (m_pingHostIndex c) (cc_watching c) (cc_draws c) (cc_out c)).
Definition setEndpoint (x : string) : ST ConnectionController unit := modify (fun c =>
  mkCC (cc_model c) (m_ipPool c) (m_ipPoolPos c) x (m_connectionSwitching c) (m_ipAwaitingTraffic c)
    (m_autoPhase c) (m_autoCandidates c) (m_autoCandidatePos c) (m_autoAdvancing c) (m_autoAwaitingTraffic c)
    (autoProbeTimer c) (autoAttemptTimer c) (ipTrafficTimer c) (manualConnectTimer c) (m_isConnected c)
    (m_isConnectionInProgress c) (m_connectionStateText c) (cc_state c) (pingTimer c) (m_pingSocket c) (m_ping c)
    (m_pingHostIndex c) (cc_watching c) (cc_draws c) (cc_out c)).
Definition setSwitching (x : bool) : ST ConnectionController unit := modify (fun c =>
  mkCC (cc_model c) (m_ipPool c) (m_ipPoolPos c) (m_currentEndpoint c) x (m_ipAwaitingTraffic c)
    (m_autoPhase c) (m_autoCandidates c) (m_autoCandidatePos c) (m_autoAdvancing c) (m_autoAwaitingTraffic c)
    (autoProbeTimer c) (autoAttemptTimer c) (ipTrafficTimer c) (manualConnectTimer c) (m_isConnected c)
    (m_isConnectionInProgress c) (m_connectionStateText c) (cc_state c) (pingTimer c) (m_pingSocket c) (m_ping c)
    (m_pingHostIndex c) (cc_watching c) (cc_draws c) (cc_out c)).
Definition setIpAwaiting (x : bool) : ST ConnectionController unit := modify (fun c =>
  mkCC (cc_model c) (m_ipPool c) (m_ipPoolPos c) (m_currentEndpoint c) (m_connectionSwitching c) x
    (m_autoPhase c) (m_autoCandidates c) (m_autoCandidatePos c) (m_autoAdvancing c) (m_autoAwaitingTraffic c)
    (autoProbeTimer c) (autoAttemptTimer c) (ipTrafficTimer c) (manualConnectTimer c) (m_isConnected c)
    (m_isConnectionInProgress c) (m_connectionStateText c) (cc_state c) (pingTimer c) (m_pingSocket c) (m_ping c)
    (m_pingHostIndex c) (cc_watching c) (cc_draws c) (cc_out c)).
Definition setPhase (x : AutoPhase) : ST ConnectionController unit := modify (fun c =>
  mkCC (cc_model c) (m_ipPool c) (m_ipPoolPos c) (m_currentEndpoint c) (m_connectionSwitching c)
    (m_ipAwaitingTraffic c) x (m_autoCandidates c) (m_autoCandidatePos c) (m_autoAdvancing c)
    (m_autoAwaitingTraffic c) (autoProbeTimer c) (autoAttemptTimer c) (ipTrafficTimer c) (manualConnectTimer c)
    (m_isConnected c) (m_isConnectionInProgress c) (m_connectionStateText c) (cc_state c) (pingTimer c)
    (m_pingSocket c) (m_ping c) (m_pingHostIndex c) (cc_watching c) (cc_draws c) (cc_out c)).
Definition setCandidates (x : list AutoCandidate) : ST ConnectionController unit := modify (fun c =>
  mkCC (cc_model c) (m_ipPool c) (m_ipPoolPos c) (m_currentEndpoint c) (m_connectionSwitching c)
    (m_ipAwaitingTraffic c) (m_autoPhase c) x (m_autoCandidatePos c) (m_autoAdvancing c) (m_autoAwaitingTraffic c)
    (autoProbeTimer c) (autoAttemptTimer c) (ipTrafficTimer c) (manualConnectTimer c) (m_isConnected c)
    (m_isConnectionInProgress c) (m_connectionStateText c) (cc_state c) (pingTimer c) (m_pingSocket c) (m_ping c)
    (m_pingHostIndex c) (cc_watching c) (cc_draws c) (cc_out c)).
Definition setCandidatePos (x : Z) : ST ConnectionController unit := modify (fun c =>
  mkCC (cc_model c) (m_ipPool c) (m_ipPoolPos c) (m_currentEndpoint c) (m_connectionSwitching c)
    (m_ipAwaitingTraffic c) (m_autoPhase c) (m_autoCandidates c) x (m_autoAdvancing c) (m_autoAwaitingTraffic c)
    (autoProbeTimer c) (autoAttemptTimer c) (ipTrafficTimer c) (manualConnectTimer c) (m_isConnected c)
    (m_isConnectionInProgress c) (m_connectionStateText c) (cc_state c) (pingTimer c) (m_pingSocket c) (m_ping c)
    (m_pingHostIndex c) (cc_watching c) (cc_draws c) (cc_out c)).
Definition setAdvancing (x : bool) : ST ConnectionController unit := modify (fun c =>
  mkCC (cc_model c) (m_ipPool c) (m_ipPoolPos c) (m_currentEndpoint c) (m_connectionSwitching c)
    (m_ipAwaitingTraffic c) (m_autoPhase c) (m_autoCandidates c) (m_autoCandidatePos c) x (m_autoAwaitingTraffic c)
    (autoProbeTimer c) (autoAttemptTimer c) (ipTrafficTimer c) (manualConnectTimer c) (m_isConnected c)
    (m_isConnectionInProgress c) (m_connectionStateText c) (cc_state c) (pingTimer c) (m_pingSocket c) (m_ping c)
    (m_pingHostIndex c) (cc_watching c) (cc_draws c) (cc_out c)).
Definition setAutoAwaiting (x : bool) : ST ConnectionController unit := modify (fun c =>
  mkCC (cc_model c) (m_ipPool c) (m_ipPoolPos c) (m_currentEndpoint c) (m_connectionSwitching c)
    (m_ipAwaitingTraffic c) (m_autoPhase c) (m_autoCandidates c) (m_autoCandidatePos c) (m_autoAdvancing c) x
    (autoProbeTimer c) (autoAttemptTimer c) (ipTrafficTimer c) (manualConnectTimer c) (m_isConnected c)
    (m_isConnectionInProgress c) (m_connectionStateText c) (cc_state c) (pingTimer c) (m_pingSocket c) (m_ping c)
    (m_pingHostIndex c) (cc_watching c) (cc_draws c) (cc_out c)).
Definition setProbeTimer (x : option Z) : ST ConnectionController unit := modify (fun c =>
  mkCC (cc_model c) (m_ipPool c) (m_ipPoolPos c) (m_currentEndpoint c) (m_connectionSwitching c)
    (m_ipAwaitingTraffic c) (m_autoPhase c) (m_autoCandidates c) (m_autoCandidatePos c) (m_autoAdvancing c)
    (m_autoAwaitingTraffic c) x (autoAttemptTimer c) (ipTrafficTimer c) (manualConnectTimer c) (m_isConnected c)
    (m_isConnectionInProgress c) (m_connectionStateText c) (cc_state c) (pingTimer c) (m_pingSocket c) (m_ping c)
    (m_pingHostIndex c) (cc_watching c) (cc_draws c) (cc_out c)).
Definition setAttemptTimer (x : option Z) : ST ConnectionController unit := modify (fun c =>
  mkCC (cc_model c) (m_ipPool c) (m_ipPoolPos c) (m_currentEndpoint c) (m_connectionSwitching c)
    (m_ipAwaitingTraffic c) (m_autoPhase c) (m_autoCandidates c) (m_autoCandidatePos c) (m_autoAdvancing c)
    (m_autoAwaitingTraffic c) (autoProbeTimer c) x (ipTrafficTimer c) (manualConnectTimer c) (m_isConnected c)
    (m_isConnectionInProgress c) (m_connectionStateText c) (cc_state c) (pingTimer c) (m_pingSocket c) (m_ping c)
    (m_pingHostIndex c) (cc_watching c) (cc_draws c) (cc_out c)).
Definition setTrafficTimer (x : option Z) : ST ConnectionController unit := modify (fun c =>
  mkCC (cc_model c) (m_ipPool c) (m_ipPoolPos c) (m_currentEndpoint c) (m_connectionSwitching c)
    (m_ipAwaitingTraffic c) (m_autoPhase c) (m_autoCandidates c) (m_autoCandidatePos c) (m_autoAdvancing c)
    (m_autoAwaitingTraffic c) (autoProbeTimer c) (autoAttemptTimer c) x (manualConnectTimer c) (m_isConnected c)
    (m_isConnectionInProgress c) (m_connectionStateText c) (cc_state c) (pingTimer c) (m_pingSocket c) (m_ping c)
    (m_pingHostIndex c) (cc_watching c) (cc_draws c) (cc_out c)).
Definition setManualTimer (x : option Z) : ST ConnectionController unit := modify (fun c =>
  mkCC (cc_model c) (m_ipPool c) (m_ipPoolPos c) (m_currentEndpoint c) (m_connectionSwitching c)
    (m_ipAwaitingTraffic c) (m_autoPhase c) (m_autoCandidates c) (m_autoCandidatePos c) (m_autoAdvancing c)
    (m_autoAwaitingTraffic c) (autoProbeTimer c) (autoAttemptTimer c) (ipTrafficTimer c) x (m_isConnected c)
    (m_isConnectionInProgress c) (m_connectionStateText c) (cc_state c) (pingTimer c) (m_pingSocket c) (m_ping c)
    (m_pingHostIndex c) (cc_watching c) (cc_draws c) (cc_out c)).
Definition setConnected (x : bool) : ST ConnectionController unit := modify (fun c =>
  mkCC (cc_model c) (m_ipPool c) (m_ipPoolPos c) (m_currentEndpoint c) (m_connectionSwitching c)
    (m_ipAwaitingTraffic c) (m_autoPhase c) (m_autoCandidates c) (m_autoCandidatePos c) (m_autoAdvancing c)
    (m_autoAwaitingTraffic c) (autoProbeTimer c) (autoAttemptTimer c) (ipTrafficTimer c) (manualConnectTimer c) x
    (m_isConnectionInProgress c) (m_connectionStateText c) (cc_state c) (pingTimer c) (m_pingSocket c) (m_ping c)
    (m_pingHostIndex c) (cc_watching c) (cc_draws c) (cc_out c)).
Definition setInProgress (x : bool) : ST ConnectionController unit := modify (fun c =>
  mkCC (cc_model c) (m_ipPool c) (m_ipPoolPos c) (m_currentEndpoint c) (m_connectionSwitching c)
    (m_ipAwaitingTraffic c) (m_autoPhase c) (m_autoCandidates c) (m_autoCandidatePos c) (m_autoAdvancing c)
    (m_autoAwaitingTraffic c) (autoProbeTimer c) (autoAttemptTimer c) (ipTrafficTimer c) (manualConnectTimer c)
    (m_isConnected c) x (m_connectionStateText c) (cc_state c) (pingTimer c) (m_pingSocket c) (m_ping c)
    (m_pingHostIndex c) (cc_watching c) (cc_draws c) (cc_out c)).
Definition setText (x : string) : ST ConnectionController unit := modify (fun c =>
  mkCC (cc_model c) (m_ipPool c) (m_ipPoolPos c) (m_currentEndpoint c) (m_connectionSwitching c)
    (m_ipAwaitingTraffic c) (m_autoPhase c) (m_autoCandidates c) (m_autoCandidatePos c) (m_autoAdvancing c)
    (m_autoAwaitingTraffic c) (autoProbeTimer c) (autoAttemptTimer c) (ipTrafficTimer c) (manualConnectTimer c)
    (m_isConnected c) (m_isConnectionInProgress c) x (cc_state c) (pingTimer c) (m_pingSocket c) (m_ping c)
    (m_pingHostIndex c) (cc_watching c) (cc_draws c) (cc_out c)).
Definition setCState (x : Vpn.ConnectionState) : ST ConnectionController unit := modify (fun c =>
  mkCC (cc_model c) (m_ipPool c) (m_ipPoolPos c) (m_currentEndpoint c) (m_connectionSwitching c)
    (m_ipAwaitingTraffic c) (m_autoPhase c) (m_autoCandidates c) (m_autoCandidatePos c) (m_autoAdvancing c)
    (m_autoAwaitingTraffic c) (autoProbeTimer c) (autoAttemptTimer c) (ipTrafficTimer c) (manualConnectTimer c)
    (m_isConnected c) (m_isConnectionInProgress c) (m_connectionStateText c) x (pingTimer c) (m_pingSocket c)
    (m_ping c) (m_pingHostIndex c) (cc_watching c) (cc_draws c) (cc_out c)).
Definition setPingTimer (x : bool) : ST ConnectionController unit := modify (fun c =>
  mkCC (cc_model c) (m_ipPool c) (m_ipPoolPos c) (m_currentEndpoint c) (m_connectionSwitching c)
    (m_ipAwaitingTraffic c) (m_autoPhase c) (m_autoCandidates c) (m_autoCandidatePos c) (m_autoAdvancing c)
    (m_autoAwaitingTraffic c) (autoProbeTimer c) (autoAttemptTimer c) (ipTrafficTimer c) (manualConnectTimer c)
    (m_isConnected c) (m_isConnectionInProgress c) (m_connectionStateText c) (cc_state c) x (m_pingSocket c)
    (m_ping c) (m_pingHostIndex c) (cc_watching c) (cc_draws c) (cc_out c)).
Definition setPingSocket (x : option nat) : ST ConnectionController unit := modify (fun c =>
  mkCC (cc_model c) (m_ipPool c) (m_ipPoolPos c) (m_currentEndpoint c) (m_connectionSwitching c)
    (m_ipAwaitingTraffic c) (m_autoPhase c) (m_autoCandidates c) (m_autoCandidatePos c) (m_autoAdvancing c)
    (m_autoAwaitingTraffic c) (autoProbeTimer c) (autoAttemptTimer c) (ipTrafficTimer c) (manualConnectTimer c)
    (m_isConnected c) (m_isConnectionInProgress c) (m_connectionStateText c) (cc_state c) (pingTimer c) x (m_ping c)
    (m_pingHostIndex c) (cc_watching c) (cc_draws c) (cc_out c)).
Definition setPing (x : string) : ST ConnectionController unit := modify (fun c =>
  mkCC (cc_model c) (m_ipPool c) (m_ipPoolPos c) (m_currentEndpoint c) (m_connectionSwitching c)
    (m_ipAwaitingTraffic c) (m_autoPhase c) (m_autoCandidates c) (m_autoCandidatePos c) (m_autoAdvancing c)
    (m_autoAwaitingTraffic c) (autoProbeTimer c) (autoAttemptTimer c) (ipTrafficTimer c) (manualConnectTimer c)
    (m_isConnected c) (m_isConnectionInProgress c) (m_connectionStateText c) (cc_state c) (pingTimer c)
    (m_pingSocket c) x (m_pingHostIndex c) (cc_watching c) (cc_draws c) (cc_out c)).
Definition setPingHost (x : Z) : ST ConnectionController unit := modify (fun c =>
  mkCC (cc_model c) (m_ipPool c) (m_ipPoolPos c) (m_currentEndpoint c) (m_connectionSwitching c)
    (m_ipAwaitingTraffic c) (m_autoPhase c) (m_autoCandidates c) (m_autoCandidatePos c) (m_autoAdvancing c)
    (m_autoAwaitingTraffic c) (autoProbeTimer c) (autoAttemptTimer c) (ipTrafficTimer c) (manualConnectTimer c)
    (m_isConnected c) (m_isConnectionInProgress c) (m_connectionStateText c) (cc_state c) (pingTimer c)
    (m_pingSocket c) (m_ping c) x (cc_watching c) (cc_draws c) (cc_out c)).
Definition setWatching (x : bool) : ST ConnectionController unit := modify (fun c =>
  mkCC (cc_model c) (m_ipPool c) (m_ipPoolPos c) (m_currentEndpoint c) (m_connectionSwitching c)
    (m_ipAwaitingTraffic c) (m_autoPhase c) (m_autoCandidates c) (m_autoCandidatePos c) (m_autoAdvancing c)
    (m_autoAwaitingTraffic c) (autoProbeTimer c) (autoAttemptTimer c) (ipTrafficTimer c) (manualConnectTimer c)
    (m_isConnected c) (m_isConnectionInProgress c) (m_connectionStateText c) (cc_state c) (pingTimer c)
    (m_pingSocket c) (m_ping c) (m_pingHostIndex c) x (cc_draws c) (cc_out c)).
Definition setDraws (x : nat) : ST ConnectionController unit := modify (fun c =>
  mkCC (cc_model c) (m_ipPool c) (m_ipPoolPos c) (m_currentEndpoint c) (m_connectionSwitching c)
    (m_ipAwaitingTraffic c) (m_autoPhase c) (m_autoCandidates c) (m_autoCandidatePos c) (m_autoAdvancing c)
    (m_autoAwaitingTraffic c) (autoProbeTimer c) (autoAttemptTimer c) (ipTrafficTimer c) (manualConnectTimer c)
    (m_isConnected c) (m_isConnectionInProgress c) (m_connectionStateText c) (cc_state c) (pingTimer c)
    (m_pingSocket c) (m_ping c) (m_pingHostIndex c) (cc_watching c) x (cc_out c)).
Definition setOut (x : list CcOutput) : ST ConnectionController unit := modify (fun c =>
  mkCC (cc_model c) (m_ipPool c) (m_ipPoolPos c) (m_currentEndpoint c) (m_connectionSwitching c)
    (m_ipAwaitingTraffic c) (m_autoPhase c) (m_autoCandidates c) (m_autoCandidatePos c) (m_autoAdvancing c)
    (m_autoAwaitingTraffic c) (autoProbeTimer c) (autoAttemptTimer c) (ipTrafficTimer c) (manualConnectTimer c)
    (m_isConnected c) (m_isConnectionInProgress c) (m_connectionStateText c) (cc_state c) (pingTimer c)
    (m_pingSocket c) (m_ping c) (m_pingHostIndex c) (cc_watching c) (cc_draws c) x).

Definition kLivePingHosts : list string := ["1.1.1.1"; "8.8.8.8"; "1.0.0.1"; "9.9.9.9"]%string.
Definition kIpTrafficTimeoutMs : Z := 8000.
Definition kManualConnectTimeoutMs : Z := 20000.
Definition kAutoAcceptLatencyMs : Z := 80.
Definition kAutoFreshProbeMs : Z := 60000.
Definition kAutoProbeTimeoutMs : Z := 10000.
Definition kAutoAttemptTimeoutMs : Z := 15000.
Definition kAutoTrafficTimeoutMs : Z := 8000.

Abbreviation CC := (ST ConnectionController).

Definition send (o : CcOutput) : CC unit := c ← get; setOut (cc_out c ++ [o]).
Definition onModel {A} (m : ST ServersModel A) : CC A := fun c =>
  let '(a, model) := m (cc_model c) in (a, (setModel model c).2).

Definition serversEnvFilter (s : Settings) : string := variantToString (confValue s "Conf/serversEnvFilter" (VString "")).
Definition isAutoServerSelection (s : Settings) : bool := variantToBool (confValue s "Conf/autoServerSelection" (VBool false)).

Section Controller.
Context `{Qt}.
(** [replaceEndpoint]: see [EntryAddress.v].  [freePort]: the free port found
    for an Xray inbound.  [bounded d n]: the [d]-th draw of the random
    generator, below [n].  [containersConfig]: the configuration the containers
    model holds.  [installConfig]: the effect of fetching the configuration of
    a row from the gateway. *)
Context (replaceEndpoint : string -> string -> string) (freePort : option Z) (bounded : nat -> Z -> Z)
  (containersConfig : DockerContainer -> QJsonObject) (installConfig : Z -> ServersModel -> ServersModel).

(** ** Rows *)

Definition isVlessCdnRow (m : ServersModel) (row : Z) : bool :=
  match Model.containersOf (Model.serverAt m row) with
  | [] => false
  | v :: _ =>
      let containerObject := toObject (Some v) in
      let configRoot := jsonObject (field (sub containerObject "xray") "config") in
      let configRoot := if bool_decide (configRoot = ∅) then jsonObject (field containerObject "config") else configRoot in
      let outbound := match toArray (value configRoot "outbounds") with [] => configRoot | o :: _ => toObject (Some o) end in
      let streamSettings := sub outbound "streamSettings" in
      String.eqb (field streamSettings "security") "tls" && String.eqb (field streamSettings "network") "xhttp"
  end.

Definition tierForRow (m : ServersModel) (row : Z) : Z :=
  let filterProtocol := toLower (Model.serviceProtocolFilter m row) in
  if String.eqb filterProtocol "awg-mobile" || String.eqb filterProtocol "amneziawgmobile" then 0
  else
    let protocol := Model.serviceProtocolRole m row in
    if String.eqb protocol "awg" then 1
    else if String.eqb protocol "hysteria2" then 2
    else if String.eqb protocol "wireguard" then 3
    else if String.eqb protocol "vless" then (if isVlessCdnRow m row then 4 else 5)
    else 6.

(** The rows the environment filter lets through, on this platform. *)
Definition envRow (m : ServersModel) (i : Z) : bool :=
  let envFilter := serversEnvFilter (sm_settings m) in
  (String.eqb envFilter "" || String.eqb envFilter "all" || String.eqb (Model.connectionEnv m i) envFilter)
  && isSupportedByCurrentPlatform (Model.defaultContainerRole m i).

(** ** The pool of entry addresses *)

Definition poolOf (config : QJsonObject) : string := field (sub config "displayInfo") "pool".

(** [row] can stand in for [serverIndex]: the same pool, protocol,
    environment, subscription and kind, and a configuration to connect with. *)
Definition sibling (m : ServersModel) (serverIndex row : Z) : bool :=
  let config := Model.serverAt m row in
  let target := Model.serverAt m serverIndex in
  String.eqb (poolOf config) (poolOf target)
  && String.eqb (Model.serviceProtocolFilter m row) (Model.serviceProtocolFilter m serverIndex)
  && String.eqb (Model.connectionEnv m row) (Model.connectionEnv m serverIndex)
  && String.eqb (authIdOf (authDataOf config)) (authIdOf (authDataOf target))
  && Bool.eqb (isVlessCdnRow m row) (isVlessCdnRow m serverIndex)
  && Model.serverHasUsableConfig m row.

Definition poolRows (m : ServersModel) (serverIndex : Z) : list Z :=
  if String.eqb (poolOf (Model.serverAt m serverIndex)) "" then [serverIndex]
  else List.filter (sibling m serverIndex) (Model.rows m).

(** The loop over the addresses of a row; [seen] are those of earlier rows. *)
Fixpoint addressLoop (row : Z) (ips : list string) (pool : list PoolEntry) (seen : list string) : list PoolEntry * list string :=
  match ips with
  | [] => (pool, seen)
  | ip :: ips' =>
      if bool_decide (ip ∈ seen) then addressLoop row ips' pool seen
      else addressLoop row ips' (pool ++ [mkEntry row ip]) (ip :: seen)
  end.

Fixpoint poolLoop (cdn : bool) (ipsOf : Z -> list string) (rows : list Z) (pool : list PoolEntry) (seen : list string) : list PoolEntry :=
  match rows with
  | [] => pool
  | row :: rows' =>
      if cdn then poolLoop cdn ipsOf rows' (pool ++ [mkEntry row ""]) seen
      else
        let '(pool', seen') := addressLoop row (ipsOf row) pool seen in
        poolLoop cdn ipsOf rows' (match ipsOf row with [] => pool' ++ [mkEntry row ""] | _ => pool' end) seen'
  end.
Definition buildPool (m : ServersModel) (serverIndex : Z) : list PoolEntry :=
  poolLoop (isVlessCdnRow m serverIndex) (fun row => Model.nodeIpsOf (Model.serverAt m row)) (poolRows m serverIndex) [] [].

(** [pool.swapItemsAt(i, j)] *)
Definition swap {A} (i j : nat) (l : list A) : list A :=
  match l !! i, l !! j with Some x, Some y => <[i := y]> (<[j := x]> l) | _, _ => l end.

(** [for (i = n; i > 0; --i)] *)
Fixpoint shuffleFrom {A} (d : nat) (i : nat) (l : list A) : list A :=
  match i with
  | O => l
  | S i' => shuffleFrom (S d) i' (swap i (Z.to_nat (bounded d (Z.of_nat i + 1))) l)
  end.

(** ** Dialling *)

Definition resetIpPool : CC unit := setPool [] ;; setPoolPos (-1) ;; setIpAwaiting false ;; setTrafficTimer None.

(** The entry of the container in the configuration of the server. *)
Definition containerEntry (serverConfig : QJsonObject) (container : DockerContainer) : QJsonObject :=
  match List.find (fun v => String.eqb (field (toObject (Some v)) "container") (containerToString container))
          (toArray (value serverConfig "containers")) with
  | Some v => toObject (Some v)
  | None => ∅
  end.

Definition connectToServerIndexWithIp (serverIndex : Z) (ip : string) : CC unit :=
  c ← get;
  let m := cc_model c in
  let container := Model.defaultContainerRole m serverIndex in
  if negb (isSupportedByCurrentPlatform container) then send (connectionErrorOccurred NotSupportedOnThisPlatform)
  else
    setSwitching true ;;
    let serverConfig := Model.serverAt m serverIndex in
    let serverConfig := if String.eqb ip "" then serverConfig else patchServerConfigAddress replaceEndpoint ip serverConfig in
    let containerConfig := containerEntry serverConfig container in
    let containerConfig := if bool_decide (containerConfig = ∅) then containersConfig container else containerConfig in
    let cred := credentialsOf (Model.serverAt m serverIndex) in
    let cred := if String.eqb ip "" then cred else mkCredentials ip (userName cred) (secretData cred) (credPort cred) in
    (if String.eqb (m_currentEndpoint c) (hostName cred) then mret tt
     else setEndpoint (hostName cred) ;; send connectionStateChanged) ;;
    let dns := Model.getDnsPair m serverIndex in
    let configuration := createVpnConfiguration freePort dns serverConfig containerConfig container in
    (if bool_decide (m_autoPhase c = PhaseNone) then setManualTimer (Some kManualConnectTimeoutMs) else mret tt) ;;
    send (connectToVpn serverIndex cred container configuration).

Definition connectToServerIndex (serverIndex : Z) : CC unit :=
  c ← get;
  let pool := buildPool (cc_model c) serverIndex in
  let n := pred (length pool) in
  let pool := shuffleFrom (cc_draws c) n pool in
  setDraws (cc_draws c + n)%nat ;;
  match pool with
  | first :: _ :: _ =>
      setPool pool ;; setPoolPos 0 ;; connectToServerIndexWithIp (pe_row first) (pe_ip first)
  | _ => resetIpPool ;; connectToServerIndexWithIp serverIndex ""
  end.

Definition currentPoolRow (c : ConnectionController) : Z :=
  if inRange (m_ipPoolPos c) (m_ipPool c)
  then match m_ipPool c !! Z.to_nat (m_ipPoolPos c) with Some e => pe_row e | None => -1 end else -1.

Definition retryWithNextIp : CC bool :=
  c ← get;
  if m_ipPoolPos c <? 0 then mret false
  else match m_ipPool c !! Z.to_nat (m_ipPoolPos c + 1) with
  | None => mret false
  | Some entry =>
      setPoolPos (m_ipPoolPos c + 1) ;;
      setIpAwaiting false ;; setTrafficTimer None ;;
      connectToServerIndexWithIp (pe_row entry) (pe_ip entry) ;;
      (if bool_decide (m_autoPhase c = PhaseConnecting)
       then setAdvancing true ;; setAttemptTimer (Some kAutoAttemptTimeoutMs) else mret tt) ;;
      setText "Connecting..." ;;
      send connectionStateChanged ;;
      mret true
  end.

(** ** Automatic selection *)

Definition latencyRank (latency : Z) : Z := if latency >=? 0 then 0 else if latency =? -2 then 1 else 2.

(** The comparison the candidates are sorted by. *)
Definition candidateLt (a b : AutoCandidate) : bool :=
  if negb (ac_tier a =? ac_tier b) then ac_tier a <? ac_tier b
  else if negb (latencyRank (ac_latency a) =? latencyRank (ac_latency b))
  then latencyRank (ac_latency a) <? latencyRank (ac_latency b)
  else if (ac_latency a >=? 0) && (ac_latency b >=? 0) && negb (ac_latency a =? ac_latency b)
  then ac_latency a <? ac_latency b
  else ac_row a <? ac_row b.

(** [std::sort] by the comparison. *)
Definition candidateLe (a b : AutoCandidate) : Prop := candidateLt b a = false.
#[export] Instance candidateLe_dec : RelDecision candidateLe.
Proof. unfold RelDecision, candidateLe. solve_decision. Defined.

Definition unsortedCandidates (m : ServersModel) : list AutoCandidate :=
  map (fun i => mkCandidate i (tierForRow m i) (Model.healthLatency m i)) (List.filter (envRow m) (Model.rows m)).
Definition buildAutoCandidates (m : ServersModel) : list AutoCandidate := merge_sort candidateLe (unsortedCandidates m).

(** The index of the first element that satisfies [p]. *)
Fixpoint firstIndex {A} (p : A -> bool) (l : list A) : option nat :=
  match l with
  | [] => None
  | x :: l' => if p x then Some O else option_map S (firstIndex p l')
  end.

Definition fast (a : AutoCandidate) : bool := (0 <=? ac_latency a) && (ac_latency a <=? kAutoAcceptLatencyMs).

(** The loop over the best tier stops at the first candidate of another one. *)
Fixpoint firstFast (tier : Z) (l : list AutoCandidate) : option nat :=
  match l with
  | [] => None
  | x :: l' => if negb (ac_tier x =? tier) then None else if fast x then Some O else option_map S (firstFast tier l')
  end.

(** [None] for -1. *)
Definition pickAutoCandidate (candidates : list AutoCandidate) : option nat :=
  match candidates with
  | [] => None
  | first :: _ =>
      match firstFast (ac_tier first) candidates with
      | Some i => Some i
      | None =>
          match firstIndex (fun a => negb (ac_latency a =? -1)) candidates with
          | Some i => Some i
          | None => Some O
          end
      end
  end.

(** [l.move(i, 0)] *)
Definition moveToFront {A} (i : nat) (l : list A) : list A :=
  match l !! i with Some x => x :: delete i l | None => l end.

Definition installMissingConfigs : CC unit :=
  c ← get;
  let n := length (m_servers (cc_model c)) in
  forEach (fun i =>
      c ← get;
      let m := cc_model c in
      if envRow m i && Model.isServerFromGatewayApi m i && negb (Model.serverHasUsableConfig m i)
      then setModel (installConfig i m) else mret tt)
    (map Z.of_nat (seq 0 n)).

Definition cancelAutoSelection : CC unit :=
  setPhase PhaseNone ;; setAdvancing false ;; setAutoAwaiting false ;; setCandidates [] ;; setCandidatePos 0 ;;
  setWatching false ;; setProbeTimer None ;; setAttemptTimer None.

Definition connectCurrentAutoCandidate : CC unit :=
  c ← get;
  match m_autoCandidates c !! Z.to_nat (m_autoCandidatePos c) with
  | None =>
      setPhase PhaseNone ;; setAdvancing false ;; setAutoAwaiting false ;;
      send disconnectFromVpn ;;
      setInProgress false ;; setText "Connect" ;;
      send (connectionErrorOccurred LastError) ;; send connectionStateChanged
  | Some candidate =>
      setAdvancing true ;; setAutoAwaiting false ;;
      connectToServerIndex (ac_row candidate) ;;
      setAttemptTimer (Some kAutoAttemptTimeoutMs)
  end.

Definition beginAutoConnect : CC unit :=
  setWatching false ;; setProbeTimer None ;; send stopProbe ;;
  c ← get;
  match m_autoCandidates c with
  | [] => setPhase PhaseNone ;; connectToServerIndex (m_defaultServerIndex (cc_model c))
  | _ => setPhase PhaseConnecting ;; setCandidatePos 0 ;; connectCurrentAutoCandidate
  end.

Definition tryEarlyAutoDecision : CC bool :=
  c ← get;
  let candidates := buildAutoCandidates (cc_model c) in
  match pickAutoCandidate candidates, candidates with
  | Some pick, first :: _ =>
      match candidates !! pick with
      | Some chosen =>
          if fast chosen && (ac_tier chosen =? ac_tier first)
          then setCandidates (moveToFront pick candidates) ;; beginAutoConnect ;; mret true
          else mret false
      | None => mret false
      end
  | _, _ => mret false
  end.

Definition onAutoHealthUpdated : CC unit :=
  c ← get;
  if negb (bool_decide (m_autoPhase c = Probing)) then mret tt else tryEarlyAutoDecision ;; mret tt.

Definition onAutoProbeSettled : CC unit :=
  c ← get;
  if negb (bool_decide (m_autoPhase c = Probing)) then mret tt
  else
    setProbeTimer None ;;
    let candidates := buildAutoCandidates (cc_model c) in
    setCandidates (match pickAutoCandidate candidates with Some (S i) => moveToFront (S i) candidates | _ => candidates end) ;;
    beginAutoConnect.

(** What the health check controller answers: whether its last results are
    fresh, and whether it is probing after it was started. *)
Definition startAutoSelection (fresh probing : bool) : CC unit :=
  cancelAutoSelection ;;
  setPhase Probing ;; setText ("Searching" +:+ nl +:+ "for the best server...") ;; send connectionStateChanged ;;
  installMissingConfigs ;;
  decided ← (if fresh then tryEarlyAutoDecision else mret false);
  if decided : bool then mret tt
  else
    send startProbe ;;
    setWatching true ;;
    if negb probing then onAutoProbeSettled else setProbeTimer (Some kAutoProbeTimeoutMs).

(** [lastProbe] and [now] in milliseconds *)
Definition freshProbe (lastProbe now : Z) (isProbing : bool) : bool :=
  negb (lastProbe =? 0) && (now - lastProbe <? kAutoFreshProbeMs) && negb isProbing.

Definition finalizeAutoSuccess : CC unit :=
  setAttemptTimer None ;; setAutoAwaiting false ;;
  (c ← get;
   match m_autoCandidates c !! Z.to_nat (m_autoCandidatePos c) with
   | Some candidate => onModel (Model.setDefaultServerIndex (ac_row candidate))
   | None => mret tt
   end) ;;
  setPhase PhaseNone ;; setAdvancing false ;; setCandidates [] ;;
  resetIpPool ;;
  send connectionStateChanged.

(** ** Live ping *)

Definition closeSocket : CC unit := setPingSocket None.

(** [fresh] names the new socket. *)
Definition probeLivePing (fresh : nat) : CC unit :=
  c ← get;
  if negb (m_isConnected c) || bool_decide (m_pingSocket c <> None) then mret tt
  else
    setPingSocket (Some fresh) ;;
    send (pingConnect fresh (default ""%string (kLivePingHosts !! Z.to_nat (m_pingHostIndex c mod 4)))).

Definition startLivePing (fresh : nat) : CC unit :=
  c ← get;
  if pingTimer c then mret tt else setPingTimer true ;; probeLivePing fresh.

Definition stopLivePing : CC unit :=
  setPingTimer false ;;
  closeSocket ;;
  c ← get;
  if String.eqb (m_ping c) "" then mret tt else setPing "" ;; send pingChanged.

(** [ms] is the time since the probe started; [number] its text. *)
Definition finishLivePing (socket : nat) (ok : bool) (number : string) : CC unit :=
  c ← get;
  if bool_decide (m_pingSocket c = Some socket) then
    closeSocket ;;
    if negb ok || negb (m_isConnected c)
    then (if m_isConnected c then setPingHost ((m_pingHostIndex c + 1) mod 4) else mret tt)
    else if String.eqb number (m_ping c) then mret tt
    else setPing number ;; send pingChanged
  else mret tt.

(** ** States of the VPN connection *)

(** The containers whose [Connected] is emitted after a handshake. *)
Definition handshakeGated (c : DockerContainer) : bool := match c with Awg | Awg2 | WireGuard => true | _ => false end.

(** The next address of the pool, or the next candidate: true when one is
    being dialled. *)
Definition nextCandidate (state : Vpn.ConnectionState) : CC bool :=
  retried ← retryWithNextIp;
  if retried : bool then setCState state ;; mret true
  else
    (c ← get; setCandidatePos (m_autoCandidatePos c + 1)) ;;
    c ← get;
    if m_autoCandidatePos c <? Z.of_nat (length (m_autoCandidates c))
    then setCState state ;; connectCurrentAutoCandidate ;; mret true
    else mret false.

Definition giveUpText : CC unit := setInProgress false ;; setText "Connect".

(** The branch of automatic selection: true when the state is dealt with. *)
Definition autoBranch (state : Vpn.ConnectionState) : CC bool :=
  match state with
  | Vpn.Connected =>
      setAttemptTimer None ;;
      c ← get;
      if m_autoCandidatePos c <? Z.of_nat (length (m_autoCandidates c))
      then setAutoAwaiting true ;; setAttemptTimer (Some kAutoTrafficTimeoutMs) ;; mret false
      else finalizeAutoSuccess ;; mret false
  | Vpn.Error | Vpn.Unknown =>
      setAttemptTimer None ;;
      dialled ← nextCandidate state;
      if dialled : bool then mret true else setPhase PhaseNone ;; mret false
  | Vpn.Reconnecting =>
      setAttemptTimer None ;; setAutoAwaiting false ;;
      dialled ← nextCandidate state;
      if dialled : bool then mret true
      else
        setPhase PhaseNone ;; setAdvancing false ;; setCandidates [] ;; giveUpText ;; setEndpoint "" ;;
        send disconnectFromVpn ;; send (connectionErrorOccurred LastError) ;; send connectionStateChanged ;; mret true
  | Vpn.Disconnected =>
      c ← get;
      if m_autoAdvancing c then mret false
      else
        setAttemptTimer None ;;
        dialled ← nextCandidate state;
        if dialled : bool then mret true
        else
          setPhase PhaseNone ;; setAdvancing false ;; setCandidates [] ;; giveUpText ;; setEndpoint "" ;;
          send (connectionErrorOccurred LastError) ;; send connectionStateChanged ;; mret true
  | _ => mret false
  end.

(** The branch of a manual connection to a pool. *)
Definition poolBranch (state : Vpn.ConnectionState) : CC bool :=
  c ← get;
  match state with
  | Vpn.Connected =>
      if handshakeGated (Model.defaultContainerRole (cc_model c) (currentPoolRow c))
      then resetIpPool ;; mret false
      else setIpAwaiting true ;; setTrafficTimer (Some kIpTrafficTimeoutMs) ;; mret false
  | Vpn.Reconnecting =>
      setIpAwaiting false ;; setTrafficTimer None ;;
      retried ← retryWithNextIp;
      if retried : bool then setCState state ;; mret true
      else
        resetIpPool ;; setManualTimer None ;; giveUpText ;;
        send disconnectFromVpn ;; send (connectionErrorOccurred ServerConnectionTimeoutError) ;;
        send connectionStateChanged ;; mret true
  | Vpn.Error | Vpn.Unknown =>
      retried ← retryWithNextIp;
      if retried : bool then setCState state ;; mret true else resetIpPool ;; mret false
  | Vpn.Disconnected =>
      if m_connectionSwitching c then mret false
      else
        retried ← retryWithNextIp;
        if retried : bool then setCState state ;; mret true else resetIpPool ;; mret false
  | _ => mret false
  end.

(** The switch at the end, for every state that is not dealt with. *)
Definition commonState (fresh : nat) (state : Vpn.ConnectionState) : CC unit :=
  setCState state ;; setConnected false ;; setText "Connecting..." ;;
  match state with
  | Vpn.Connected =>
      setInProgress false ;; setConnected true ;; setText "Connected" ;; setManualTimer None ;;
      c ← get;
      match m_autoCandidates c !! Z.to_nat (m_autoCandidatePos c) with
      | Some candidate =>
          if bool_decide (m_autoPhase c = PhaseConnecting) && m_autoAwaitingTraffic c
             && handshakeGated (Model.defaultContainerRole (cc_model c) (ac_row candidate))
          then finalizeAutoSuccess else mret tt
      | None => mret tt
      end
  | Vpn.Connecting => setInProgress true
  | Vpn.Reconnecting =>
      setInProgress true ;; setText "Reconnecting..." ;;
      c ← get;
      if bool_decide (m_autoPhase c = PhaseNone) && (m_ipPoolPos c <? 0) && bool_decide (manualConnectTimer c = None)
      then setManualTimer (Some kManualConnectTimeoutMs) else mret tt
  | Vpn.Disconnected =>
      setInProgress false ;; setText "Connect" ;; setEndpoint "" ;;
      c ← get; if m_connectionSwitching c then mret tt else setManualTimer None
  | Vpn.Disconnecting => setInProgress true ;; setText "Disconnecting..."
  | Vpn.Preparing => setInProgress true ;; setText "Preparing..."
  | Vpn.Error | Vpn.Unknown =>
      setInProgress false ;; setText "Connect" ;; setManualTimer None ;; send (connectionErrorOccurred LastError)
  end ;;
  (c ← get; if m_isConnected c then startLivePing fresh else stopLivePing) ;;
  send connectionStateChanged.

Definition onConnectionStateChanged (fresh : nat) (state : Vpn.ConnectionState) : CC unit :=
  (match state with
   | Vpn.Connected => setAdvancing false ;; setSwitching false
   | Vpn.Connecting | Vpn.Preparing => setSwitching false
   | _ => mret tt
   end) ;;
  c ← get;
  handled ← (if bool_decide (m_autoPhase c = PhaseConnecting) then autoBranch state
             else if m_ipPoolPos c >=? 0 then poolBranch state
             else mret false);
  if handled : bool then mret tt else commonState fresh state.

Definition onTranslationsUpdated (fresh : nat) : CC unit := c ← get; onConnectionStateChanged fresh (cc_state c).

(** ** Timers and traffic *)

Definition onAutoAttemptTimeout : CC unit :=
  setAttemptTimer None ;;
  c ← get;
  if negb (bool_decide (m_autoPhase c = PhaseConnecting)) then mret tt
  else
    retried ← retryWithNextIp;
    if retried : bool then setAutoAwaiting false
    else
      (c ← get; setCandidatePos (m_autoCandidatePos c + 1)) ;;
      connectCurrentAutoCandidate.

Definition onIpTrafficTimeout : CC unit :=
  setTrafficTimer None ;;
  c ← get;
  if negb (m_ipAwaitingTraffic c) then mret tt
  else
    setIpAwaiting false ;;
    retried ← retryWithNextIp;
    if retried : bool then mret tt
    else resetIpPool ;; send disconnectFromVpn ;; send (connectionErrorOccurred LastError).

Definition onManualConnectTimeout : CC unit :=
  setManualTimer None ;;
  retried ← retryWithNextIp;
  if retried : bool then mret tt
  else
    resetIpPool ;; setManualTimer None ;; giveUpText ;;
    send disconnectFromVpn ;; send (connectionErrorOccurred ServerConnectionTimeoutError) ;; send connectionStateChanged.

Definition onBytesChanged (receivedBytes : Z) : CC unit :=
  c ← get;
  if bool_decide (m_autoPhase c = PhaseConnecting) && m_autoAwaitingTraffic c
  then (if receivedBytes >? 0 then finalizeAutoSuccess else mret tt)
  else if bool_decide (m_autoPhase c = PhaseNone) && m_ipAwaitingTraffic c
  then (if receivedBytes >? 0 then resetIpPool else mret tt)
  else mret tt.

(** ** The button *)

Definition openConnection (serviceRunning hasHealthCheck fresh probing : bool) : CC unit :=
  if negb serviceRunning then send (connectionErrorOccurred DopamineServiceNotRunning)
  else
    c ← get;
    if isAutoServerSelection (sm_settings (cc_model c)) && hasHealthCheck
    then startAutoSelection fresh probing
    else connectToServerIndex (m_defaultServerIndex (cc_model c)).

Definition closeConnection : CC unit :=
  setManualTimer None ;;
  (c ← get;
   if bool_decide (m_autoPhase c = PhaseNone) then mret tt
   else cancelAutoSelection ;; giveUpText ;; send connectionStateChanged) ;;
  resetIpPool ;;
  send disconnectFromVpn.

Definition isConnectionInProgress (c : ConnectionController) : bool :=
  m_isConnectionInProgress c || negb (bool_decide (m_autoPhase c = PhaseNone)).

Definition toggleConnection : CC unit :=
  c ← get;
  if bool_decide (cc_state c = Vpn.Preparing) then send preparingConfig
  else if isConnectionInProgress c || m_isConnected c then closeConnection
  else send prepareConfig.

(** ** Events *)

Inductive CcEvent : Type :=
| evState (fresh : nat) (state : Vpn.ConnectionState)
| evBytes (receivedBytes : Z)
| evAutoAttemptTimeout
| evIpTrafficTimeout
| evManualTimeout
| evProbeTimeout
| evProbeFinished
| evHealth
| evTranslations (fresh : nat)
| evPing (fresh : nat)
| evPingDone (socket : nat) (ok : bool) (number : string)
| evClose
| evOpen (serviceRunning hasHealthCheck fresh probing : bool).

(** A timer fires when it runs, a slot while it is connected. *)
Definition onEvent (e : CcEvent) : CC unit :=
  c ← get;
  match e with
  | evState fresh state => onConnectionStateChanged fresh state
  | evBytes n => onBytesChanged n
  | evAutoAttemptTimeout => if autoAttemptTimer c then onAutoAttemptTimeout else mret tt
  | evIpTrafficTimeout => if ipTrafficTimer c then onIpTrafficTimeout else mret tt
  | evManualTimeout => if manualConnectTimer c then onManualConnectTimeout else mret tt
  | evProbeTimeout => if autoProbeTimer c then setProbeTimer None ;; onAutoProbeSettled else mret tt
  | evProbeFinished => if cc_watching c then onAutoProbeSettled else mret tt
  | evHealth => if cc_watching c then onAutoHealthUpdated else mret tt
  | evTranslations fresh => onTranslationsUpdated fresh
  | evPing fresh => if pingTimer c then probeLivePing fresh else mret tt
  | evPingDone socket ok number => finishLivePing socket ok number
  | evClose => closeConnection
  | evOpen serviceRunning hasHealthCheck fresh probing => openConnection serviceRunning hasHealthCheck fresh probing
  end.
End Controller.
