(* ===== verification/ConnectionProofs.v ===== *)
(** * What the connection controller guarantees

    The pool of entry addresses, the order of the candidates, the course of a
    failover in manual and in automatic mode, its end, and cancellation. *)

From Stdlib Require Import ZArith Lia Bool String Ascii.
From stdpp Require Import base gmap strings list sorting.
From S2P Require Import Prelude.
From S2P Require Import Qt.
From S2P Require Import QtInstance.
From S2P Require Import Settings.
From S2P Require Import Containers.
From S2P Require Import ServerStore.
From S2P Require Import Servers.
From S2P Require Import ServersProofs.
From S2P Require Import VpnProtocol.
From S2P Require Import VpnConfiguration.
From S2P Require Import EntryAddress.
From S2P Require Import ConnectionController.

Open Scope Z_scope.

(** ** Lists *)

Lemma swap_perm {A} i j (l : list A) : Permutation (swap i j l) l.
Proof.
  unfold swap. destruct (l !! i) as [x |] eqn:Hi; [| done]. destruct (l !! j) as [y |] eqn:Hj; [| done].
  destruct (decide (i = j)) as [-> | Hne].
  - rewrite list_insert_insert_eq. by rewrite list_insert_id by congruence.
  - apply Permutation_inj. split; [by rewrite !length_insert |].
    exists (fun k => if decide (k = i) then j else if decide (k = j) then i else k). split.
    + intros a b. repeat case_decide; congruence.
    + intros k. pose proof (lookup_lt_Some _ _ _ Hi). pose proof (lookup_lt_Some _ _ _ Hj).
      repeat case_decide; subst.
      * rewrite list_lookup_insert_eq by (by rewrite length_insert). congruence.
      * rewrite list_lookup_insert_ne, list_lookup_insert_eq by done. congruence.
      * by rewrite !list_lookup_insert_ne by congruence.
Qed.

Lemma shuffle_perm {A} bounded d n (l : list A) : Permutation (shuffleFrom bounded d n l) l.
Proof.
  revert d l. induction n as [| n IH]; intros d l; [done |]. cbn [shuffleFrom]. by rewrite IH, swap_perm.
Qed.

Lemma moveToFront_perm {A} i (l : list A) : Permutation (moveToFront i l) l.
Proof. unfold moveToFront. destruct (l !! i) as [x |] eqn:E; [| done]. symmetry. by apply delete_Permutation. Qed.

(** ** The pool *)

Section Pool.
Context `{Qt}.
Implicit Types m : ServersModel.

Lemma addressLoop_eq row ips pool seen :
  addressLoop row ips pool seen = (pool ++ map (mkEntry row) (dedup seen ips), rev (dedup seen ips) ++ seen).
Proof.
  revert pool seen. induction ips as [| ip ips IH]; intros pool seen; cbn [addressLoop dedup]; [by rewrite app_nil_r |].
  case_bool_decide as E; [apply IH |]. rewrite IH. cbn [map rev]. by rewrite <- !app_assoc.
Qed.

(** The entries of the rows, addresses in [seen] left out. *)
Fixpoint poolEntries (ipsOf : Z -> list string) (seen : list string) (rows : list Z) : list PoolEntry :=
  match rows with
  | [] => []
  | row :: rows' =>
      match ipsOf row with [] => [mkEntry row ""] | ips => map (mkEntry row) (dedup seen ips) end
      ++ poolEntries ipsOf (rev (dedup seen (ipsOf row)) ++ seen) rows'
  end.

Lemma poolLoop_eq ipsOf rows pool seen : poolLoop false ipsOf rows pool seen = pool ++ poolEntries ipsOf seen rows.
Proof.
  revert pool seen. induction rows as [| row rows IH]; intros pool seen; cbn [poolLoop poolEntries]; [by rewrite app_nil_r |].
  rewrite addressLoop_eq, IH. destruct (ipsOf row) as [| ip ips]; [cbn; rewrite app_nil_r |]; by rewrite <- app_assoc.
Qed.

Lemma dedup_elem x seen l : x ∈ dedup seen l <-> x ∈ l /\ x ∉ seen.
Proof.
  revert seen. induction l as [| y l IH]; intros seen; cbn [dedup]; [set_solver |].
  case_bool_decide as E; [rewrite IH; set_solver |]. rewrite elem_of_cons, IH.
  destruct (decide (x = y)); set_solver.
Qed.

Lemma dedup_nodup seen l : NoDup (dedup seen l).
Proof.
  revert seen. induction l as [| y l IH]; intros seen; cbn [dedup]; [constructor |]. case_bool_decide as E; [done |].
  constructor; [| done]. rewrite dedup_elem. set_solver.
Qed.

Lemma entries_spec ipsOf seen rows :
  (forall row, row ∈ rows -> ""%string ∉ ipsOf row) ->
  (forall e, e ∈ poolEntries ipsOf seen rows ->
     pe_row e ∈ rows /\ (pe_ip e = ""%string -> ipsOf (pe_row e) = [])
     /\ (pe_ip e <> ""%string -> pe_ip e ∈ ipsOf (pe_row e) /\ pe_ip e ∉ seen))
  /\ (forall row, row ∈ rows -> ipsOf row = [] -> mkEntry row "" ∈ poolEntries ipsOf seen rows)
  /\ (forall row ip, row ∈ rows -> ip ∈ ipsOf row -> ip ∉ seen -> exists e, e ∈ poolEntries ipsOf seen rows /\ pe_ip e = ip)
  /\ NoDup (List.filter (fun ip => negb (String.eqb ip "")) (map pe_ip (poolEntries ipsOf seen rows))).
Proof.
  revert seen. induction rows as [| row rows IH]; intros seen Hne; cbn [poolEntries].
  { split_and!; [intros e He | intros row Hr | intros row ip Hr | constructor]; by match goal with Hx : _ ∈ [] |- _ => apply elem_of_nil in Hx end. }
  assert (Hrow : ""%string ∉ ipsOf row) by (apply Hne; left).
  destruct (IH (rev (dedup seen (ipsOf row)) ++ seen)) as (I1 & I2 & I3 & I4); [intros r Hr; apply Hne; by right |].
  set (rest := poolEntries ipsOf _ rows) in *.
  set (here := match ipsOf row with [] => _ | _ => _ end).
  assert (Hhere : forall e, e ∈ here -> pe_row e = row /\ (pe_ip e = ""%string -> ipsOf row = [])
    /\ (pe_ip e <> ""%string -> pe_ip e ∈ ipsOf row /\ pe_ip e ∉ seen)).
  { intros e He. unfold here in He. destruct (ipsOf row) as [| ip ips] eqn:Eips.
    - apply list_elem_of_singleton in He as ->. done.
    - apply list_elem_of_fmap in He as (x & -> & Hx). apply dedup_elem in Hx as [Hx Hs]. split_and!; cbn; [done | | done].
      intros ->. done. }
  split_and!.
  - intros e [He | He]%elem_of_app.
    + destruct (Hhere e He) as (-> & Ha & Hb). split_and!; [left | done | done].
    + destruct (I1 e He) as (Hr & Ha & Hb). split_and!; [by right | done |]. intros Hn. destruct (Hb Hn) as [Hb1 Hb2].
      split; [done |]. set_solver.
  - intros r [-> | Hr]%elem_of_cons Hr0; apply elem_of_app; [left | right; by apply I2].
    unfold here. rewrite Hr0. left.
  - intros r ip Hr Hip Hs.
    destruct (decide (ip ∈ dedup seen (ipsOf row))) as [Hd | Hd].
    + exists (mkEntry row ip). split; [| done]. apply elem_of_app. left. unfold here. destruct (ipsOf row) as [| a b]; [by apply elem_of_nil in Hd |].
      apply list_elem_of_fmap. by exists ip.
    + apply elem_of_cons in Hr as [-> | Hr]; [destruct Hd; by apply dedup_elem |].
      destruct (I3 r ip Hr Hip) as (e & He & Hee); [| exists e; split; [apply elem_of_app; by right | done]].
      intros [Hi | Hi]%elem_of_app; [| done]. by apply list_elem_of_In, in_rev, list_elem_of_In in Hi.
  - rewrite map_app, List.filter_app. apply NoDup_app. split_and!; [| | done].
    + unfold here. destruct (ipsOf row) as [| a b] eqn:Ei; [constructor |]. rewrite map_map. cbn [pe_ip]. rewrite map_id.
      apply NoDup_ListNoDup, List.NoDup_filter, NoDup_ListNoDup, dedup_nodup.
    + intros ip Hip1 Hip2. apply list_elem_of_In, filter_In in Hip1 as [Hip1 Hn], Hip2; destruct Hip2 as [Hip2 _].
      apply list_elem_of_In, list_elem_of_fmap in Hip1 as (e1 & -> & He1). apply list_elem_of_In, list_elem_of_fmap in Hip2 as (e2 & E2 & He2).
      apply negb_true_iff, String.eqb_neq in Hn. destruct (I1 e2 He2) as (_ & _ & Hb). rewrite <- E2 in Hb. destruct (Hb Hn) as [_ Hs].
      apply Hs, elem_of_app. left. apply list_elem_of_In. rewrite <- in_rev. apply list_elem_of_In, dedup_elem. by apply (Hhere e1 He1).
Qed.

Lemma nodeIps_nonempty o : ""%string ∉ Model.nodeIpsOf o.
Proof. unfold Model.nodeIpsOf. intros Hin. by apply list_elem_of_In, filter_In in Hin as [_ Hin]. Qed.

(** The addresses a server is dialled at are those of the
    rows that can stand in for it (the same pool, protocol, environment and
    subscription, with a configuration to connect with) and of no others; no
    address occurs twice, every address of such a row is there, and a row
    without addresses is dialled by its host name. *)
Theorem pool_addresses m i :
  isVlessCdnRow m i = false ->
  let ipsOf row := Model.nodeIpsOf (Model.serverAt m row) in
  (forall e, e ∈ buildPool m i -> pe_row e ∈ poolRows m i
     /\ (pe_ip e = ""%string /\ ipsOf (pe_row e) = [] \/ pe_ip e ∈ ipsOf (pe_row e)))
  /\ NoDup (List.filter (fun ip => negb (String.eqb ip "")) (map pe_ip (buildPool m i)))
  /\ (forall row, row ∈ poolRows m i -> ipsOf row = [] -> mkEntry row "" ∈ buildPool m i)
  /\ (forall row ip, row ∈ poolRows m i -> ip ∈ ipsOf row -> exists e, e ∈ buildPool m i /\ pe_ip e = ip)
  /\ (forall row, row ∈ poolRows m i -> row = i \/ sibling m i row = true).
Proof.
  intros Hc ipsOf. unfold buildPool. rewrite Hc, poolLoop_eq. cbn [app].
  destruct (entries_spec ipsOf [] (poolRows m i)) as (H1 & H2 & H3 & H4); [intros; apply nodeIps_nonempty |].
  split_and!; try done.
  - intros e He. destruct (H1 e He) as (Hr & Ha & Hb). split; [done |].
    destruct (decide (pe_ip e = ""%string)) as [E | E]; [left; auto | right; exact (proj1 (Hb E))].
  - intros row ip Hr Hip. apply (H3 row ip Hr Hip), not_elem_of_nil.
  - intros row Hr. unfold poolRows in Hr. destruct (String.eqb _ ""); [left; by apply list_elem_of_singleton in Hr |].
    right. by apply list_elem_of_In, filter_In in Hr as [_ Hr].
Qed.
End Pool.

(** ** The order of the candidates *)

Section Order.
Context `{Qt}.

(** The latency that is compared. *)
Definition rtt (a : AutoCandidate) : Z := Z.max 0 (ac_latency a).

Lemma candidateLt_spec a b : candidateLt a b = true <->
  ac_tier a < ac_tier b \/ (ac_tier a = ac_tier b /\
  (latencyRank (ac_latency a) < latencyRank (ac_latency b) \/ (latencyRank (ac_latency a) = latencyRank (ac_latency b) /\
  (rtt a < rtt b \/ (rtt a = rtt b /\ ac_row a < ac_row b))))).
Proof.
  unfold candidateLt, rtt, latencyRank.
  destruct (Z.eqb_spec (ac_tier a) (ac_tier b)); cbn [negb]; [| rewrite Z.ltb_lt; lia].
  destruct (ac_latency a >=? 0) eqn:Ea; destruct (ac_latency b >=? 0) eqn:Eb; zbool; cbn [Z.eqb Z.ltb Z.compare negb andb];
    try (destruct (ac_latency a =? -2) eqn:Ea2); try (destruct (ac_latency b =? -2) eqn:Eb2); zbool; cbn [Z.eqb Pos.eqb Z.ltb Z.compare Pos.compare Pos.compare_cont negb andb];
    try destruct (Z.eqb_spec (ac_latency a) (ac_latency b)); cbn [negb]; rewrite ?Z.ltb_lt; lia.
Qed.

Lemma candidateLe_spec a b : candidateLe a b <-> ~ candidateLt b a = true.
Proof. unfold candidateLe. by rewrite not_true_iff_false. Qed.

#[export] Instance candidateLe_trans : Transitive candidateLe.
Proof. intros a b c. rewrite !candidateLe_spec, !candidateLt_spec. lia. Qed.
#[export] Instance candidateLe_total : Total candidateLe.
Proof. intros a b. rewrite !candidateLe_spec, !candidateLt_spec. lia. Qed.

Lemma candidateLe_row a b : candidateLe a b -> candidateLe b a -> ac_row a = ac_row b.
Proof. rewrite !candidateLe_spec, !candidateLt_spec. lia. Qed.

Lemma sorted_candidates m : StronglySorted candidateLe (buildAutoCandidates m).
Proof. apply Sorted_StronglySorted, Sorted_merge_sort; apply _. Qed.

Lemma candidates_perm m : Permutation (buildAutoCandidates m) (unsortedCandidates m).
Proof. apply merge_sort_Permutation. Qed.

Lemma unsorted_by_row m a b : a ∈ unsortedCandidates m -> b ∈ unsortedCandidates m -> ac_row a = ac_row b -> a = b.
Proof.
  intros Ha Hb E. apply list_elem_of_fmap in Ha as (i & -> & _), Hb as (j & -> & _). cbn in E. by subst.
Qed.

Lemma sorted_unique l1 l2 :
  StronglySorted candidateLe l1 -> StronglySorted candidateLe l2 -> Permutation l1 l2 ->
  (forall a b, a ∈ l1 -> b ∈ l1 -> ac_row a = ac_row b -> a = b) -> l1 = l2.
Proof.
  intros H1. revert l2. induction H1 as [| a l1 Hs1 IH Ha]; intros l2 H2 Hp Hrow; [by apply Permutation_nil_l in Hp |].
  destruct H2 as [| b l2 Hs2 Hb]; [by apply Permutation_nil_r in Hp |].
  assert (a = b) as <-.
  { assert (Hin : b ∈ a :: l1) by (rewrite Hp; left). assert (Hin2 : a ∈ b :: l2) by (rewrite <- Hp; left).
    apply elem_of_cons in Hin2 as [-> | Hin2]; [done |]. pose proof Hin as Hin'. apply elem_of_cons in Hin as [-> | Hin]; [done |].
    apply Hrow; [left | done |]. apply candidateLe_row; [by apply (proj1 (Forall_forall _ _) Ha) | by apply (proj1 (Forall_forall _ _) Hb)]. }
  f_equal. apply IH; [done | by apply Permutation_cons_inv in Hp |]. intros x y Hx Hy. apply Hrow; by right.
Qed.

(** The candidates of automatic selection are the rows the
    environment filter lets through, each once, and their order (protocol
    tier, then answered before unprobed before offline, then latency, then
    row) leaves the sorting algorithm no choice: every arrangement that
    respects the comparison is the one the controller uses. *)
Theorem candidates_order m l :
  Permutation l (unsortedCandidates m) -> StronglySorted (fun a b => candidateLt b a = false) l -> l = buildAutoCandidates m.
Proof.
  intros Hp Hs. apply sorted_unique; [done | apply sorted_candidates | by rewrite Hp, candidates_perm |].
  intros a b Ha Hb. rewrite Hp in Ha, Hb. by apply (unsorted_by_row m).
Qed.

(** *** The first choice *)

Lemma firstIndex_some {A} (p : A -> bool) l i : firstIndex p l = Some i ->
  exists x, l !! i = Some x /\ p x = true /\ forall j y, (j < i)%nat -> l !! j = Some y -> p y = false.
Proof.
  revert i. induction l as [| x l IH]; intros i; cbn [firstIndex]; [done |]. destruct (p x) eqn:E.
  - intros [= <-]. exists x. split_and!; [done | done | lia].
  - destruct (firstIndex p l) as [k |]; cbn; [| done]. intros [= <-]. destruct (IH k eq_refl) as (y & Hy & Hp & Hb).
    exists y. split_and!; [done | done |]. intros [| j] z Hj Hz; cbn in Hz; [congruence | apply (Hb j z); [lia | done]].
Qed.

Lemma firstIndex_none {A} (p : A -> bool) l : firstIndex p l = None -> forall x, x ∈ l -> p x = false.
Proof.
  induction l as [| y l IH]; cbn [firstIndex]; [intros _ x Hx; by apply elem_of_nil in Hx |].
  destruct (p y) eqn:E; [done |]. destruct (firstIndex p l) eqn:Ef; [done |]. intros _ x [-> | Hx]%elem_of_cons; [done | by apply IH].
Qed.

Lemma firstFast_some tier l i : firstFast tier l = Some i ->
  exists x, l !! i = Some x /\ fast x = true /\ ac_tier x = tier.
Proof.
  revert i. induction l as [| x l IH]; intros i; cbn [firstFast]; [done |].
  destruct (Z.eqb_spec (ac_tier x) tier); cbn [negb]; [| done]. destruct (fast x) eqn:E; [intros [= <-]; by exists x |].
  destruct (firstFast tier l) as [k |]; cbn; [| done]. intros [= <-]. by destruct (IH k eq_refl) as (y & ? & ? & ?); exists y.
Qed.

(** In a sorted list the loop over the best tier misses none of it. *)
Lemma firstFast_none tier l : StronglySorted candidateLe l -> Forall (fun a => tier <= ac_tier a) l ->
  firstFast tier l = None -> forall x, x ∈ l -> ac_tier x = tier -> fast x = false.
Proof.
  intros Hs Ht. induction Hs as [| y l Hs IH Hy]; [intros _ x Hx; by apply elem_of_nil in Hx |].
  apply Forall_cons in Ht as [Hty Ht]. cbn [firstFast]. destruct (Z.eqb_spec (ac_tier y) tier); cbn [negb].
  - destruct (fast y) eqn:E; [done |]. destruct (firstFast tier l) eqn:Ef; [done |]. intros _ x [-> | Hx]%elem_of_cons; [done | by apply IH].
  - intros _ x [-> | Hx]%elem_of_cons Hxt; [done |]. apply (proj1 (Forall_forall _ _) Hy) in Hx.
    apply candidateLe_spec in Hx. rewrite candidateLt_spec in Hx. lia.
Qed.

(** The first server tried is one of the candidates; it is a
    server of the best protocol that answered within the accepted latency when
    there is one, and otherwise it is not one the health check found offline
    unless every candidate was. *)
Theorem first_choice m :
  match pickAutoCandidate (buildAutoCandidates m) with
  | None => buildAutoCandidates m = []
  | Some i => exists a, buildAutoCandidates m !! i = Some a
      /\ (forall b, b ∈ buildAutoCandidates m -> fast b = true -> (forall d, d ∈ buildAutoCandidates m -> ac_tier b <= ac_tier d) ->
           fast a = true /\ ac_tier a = ac_tier b)
      /\ ((exists b, b ∈ buildAutoCandidates m /\ ac_latency b <> -1) -> ac_latency a <> -1)
  end.
Proof.
  pose proof (sorted_candidates m) as Hs. destruct (buildAutoCandidates m) as [| first l] eqn:El; [done |].
  assert (Hbest : Forall (fun a => ac_tier first <= ac_tier a) (first :: l)).
  { constructor; [lia |]. inversion Hs as [| ? ? _ Hf]; subst. eapply Forall_impl; [exact Hf |].
    intros a Ha. apply candidateLe_spec in Ha. rewrite candidateLt_spec in Ha. lia. }
  cbn [pickAutoCandidate]. destruct (firstFast (ac_tier first) (first :: l)) as [i |] eqn:Ef.
  - destruct (firstFast_some _ _ _ Ef) as (a & Ha & Hfa & Hta). exists a. split_and!; [done | |].
    + intros b Hb Hfb Hmin. split; [done |]. pose proof (Hmin first ltac:(left)). pose proof (proj1 (Forall_forall _ _) Hbest b Hb). cbn in *. lia.
    + intros _. unfold fast in Hfa. zbool. lia.
  - pose proof (firstFast_none _ _ Hs Hbest Ef) as Hnone.
    assert (Hno : forall b, b ∈ first :: l -> fast b = true -> (forall d, d ∈ first :: l -> ac_tier b <= ac_tier d) -> False).
    { intros b Hb Hfb Hmin. pose proof (Hmin first ltac:(left)). pose proof (proj1 (Forall_forall _ _) Hbest b Hb) as Hle. cbn in Hle.
      rewrite (Hnone b Hb) in Hfb by lia. done. }
    destruct (firstIndex _ (first :: l)) as [i |] eqn:Ei.
    + destruct (firstIndex_some _ _ _ Ei) as (a & Ha & Hp & _). exists a. split_and!; [done | intros b Hb H1 H2; by destruct (Hno b) |].
      intros _. by apply negb_true_iff, Z.eqb_neq in Hp.
    + exists first. split_and!; [done | intros b Hb H1 H2; by destruct (Hno b) |].
      intros (b & Hb & Hlat). apply (firstIndex_none _ _ Ei) in Hb. by apply negb_false_iff, Z.eqb_eq in Hb.
Qed.
End Order.

(** ** What the failover looks at *)

(** The members of the controller after assignments. *)
Ltac ccs := cbn [setModel setPool setPoolPos setEndpoint setSwitching setIpAwaiting setPhase setCandidates setCandidatePos setAdvancing
  setAutoAwaiting setProbeTimer setAttemptTimer setTrafficTimer setManualTimer setConnected setInProgress setText setCState setPingTimer
  setPingSocket setPing setPingHost setWatching setDraws setOut modify fst snd
  cc_model m_ipPool m_ipPoolPos m_currentEndpoint m_connectionSwitching m_ipAwaitingTraffic m_autoPhase m_autoCandidates
  m_autoCandidatePos m_autoAdvancing m_autoAwaitingTraffic autoProbeTimer autoAttemptTimer ipTrafficTimer manualConnectTimer
  m_isConnected m_isConnectionInProgress m_connectionStateText cc_state pingTimer m_pingSocket m_ping m_pingHostIndex cc_watching
  cc_draws cc_out].

(** The attempts and the errors among the outputs. *)
Definition dialOf (o : CcOutput) : option PoolEntry :=
  match o with connectToVpn i cred _ _ => Some (mkEntry i (hostName cred)) | _ => None end.
Definition dialsOf (out : list CcOutput) : list PoolEntry := omap dialOf out.
Definition errorOf (o : CcOutput) : option CcError := match o with connectionErrorOccurred e => Some e | _ => None end.
Definition errorsOf (out : list CcOutput) : list CcError := omap errorOf out.

(** The row and the host an entry of the pool is dialled at. *)
Definition hostOf (m : ServersModel) (e : PoolEntry) : PoolEntry :=
  mkEntry (pe_row e) (if String.eqb (pe_ip e) "" then field (Model.serverAt m (pe_row e)) "hostName" else pe_ip e).

Record view : Type := mkView {
  v_model : ServersModel;
  v_pool : list PoolEntry;
  v_pos : Z;
  v_phase : AutoPhase;
  v_cands : list AutoCandidate;       (** while they are being tried *)
  v_cpos : Z;
  v_armed : bool;                     (** the timer of the attempt runs *)
  v_probe : bool;                     (** the timer of the health check runs *)
  v_draws : nat;
  v_dials : list PoolEntry;
  v_errors : list CcError
}.

Definition viewOf (c : ConnectionController) : view :=
  mkView (cc_model c) (m_ipPool c) (m_ipPoolPos c) (m_autoPhase c)
    (if bool_decide (m_autoPhase c = PhaseConnecting) then m_autoCandidates c else []) 
    (if bool_decide (m_autoPhase c = PhaseConnecting) then m_autoCandidatePos c else 0)
    (bool_decide (autoAttemptTimer c <> None)) (bool_decide (autoProbeTimer c <> None)) (cc_draws c)
    (dialsOf (cc_out c)) (errorsOf (cc_out c)).

(** *** The abstract failover *)

Definition dial (e : PoolEntry) (pool : list PoolEntry) (pos : Z) (armed : bool) (draws : nat) (v : view) : view :=
  mkView (v_model v) pool pos (v_phase v) (v_cands v) (v_cpos v) armed (v_probe v) draws
    (v_dials v ++ [hostOf (v_model v) e]) (v_errors v).

Section Abstract.
Context `{Qt} (bounded : nat -> Z -> Z).

(** Dial a row: its shuffled pool from the start, or the row alone. *)
Definition dialRow (row : Z) (v : view) : view :=
  let built := buildPool (v_model v) row in
  let n := pred (length built) in
  match shuffleFrom bounded (v_draws v) n built with
  | first :: second :: rest => dial first (first :: second :: rest) 0 (v_armed v) (v_draws v + n)%nat v
  | _ => dial (mkEntry row "") [] (-1) (v_armed v) (v_draws v + n)%nat v
  end.

(** An attempt of automatic selection failed: the next address of the pool,
    or the next candidate, or the end with an error. *)
Definition giveUp (v : view) : view :=
  mkView (v_model v) (v_pool v) (v_pos v) PhaseNone [] 0 false (v_probe v) (v_draws v) (v_dials v) (v_errors v ++ [LastError]).
Definition withCpos (i : Z) (v : view) : view :=
  mkView (v_model v) (v_pool v) (v_pos v) (v_phase v) (v_cands v) i true (v_probe v) (v_draws v) (v_dials v) (v_errors v).
Definition nextEntry (v : view) : option PoolEntry := if v_pos v <? 0 then None else v_pool v !! Z.to_nat (v_pos v + 1).
Definition failed (v : view) : view :=
  match nextEntry v with
  | Some e => dial e (v_pool v) (v_pos v + 1) true (v_draws v) v
  | None =>
      match v_cands v !! Z.to_nat (v_cpos v + 1) with
      | Some candidate => dialRow (ac_row candidate) (withCpos (v_cpos v + 1) v)
      | None => giveUp v
      end
  end.
End Abstract.

Section Views.
Implicit Types c : ConnectionController.

Lemma dialsOf_snoc out o : dialsOf (out ++ [o]) = dialsOf out ++ (match dialOf o with Some e => [e] | None => [] end).
Proof. unfold dialsOf. rewrite omap_app. cbn. by destruct (dialOf o). Qed.
Lemma errorsOf_snoc out o : errorsOf (out ++ [o]) = errorsOf out ++ (match errorOf o with Some e => [e] | None => [] end).
Proof. unfold errorsOf. rewrite omap_app. cbn. by destruct (errorOf o). Qed.

Lemma send_eq o c : send o c = setOut (cc_out c ++ [o]) c.
Proof. done. Qed.

End Views.

(** *** Assignments the view does not show *)

Create Rewrite HintDb views.
Section Unseen.
Implicit Types c : ConnectionController.
Lemma view_setEndpoint x c : viewOf (setEndpoint x c).2 = viewOf c.
Proof. reflexivity. Qed.
Lemma view_setSwitching x c : viewOf (setSwitching x c).2 = viewOf c.
Proof. reflexivity. Qed.
Lemma view_setIpAwaiting x c : viewOf (setIpAwaiting x c).2 = viewOf c.
Proof. reflexivity. Qed.
Lemma view_setAdvancing x c : viewOf (setAdvancing x c).2 = viewOf c.
Proof. reflexivity. Qed.
Lemma view_setAutoAwaiting x c : viewOf (setAutoAwaiting x c).2 = viewOf c.
Proof. reflexivity. Qed.
Lemma view_setTrafficTimer x c : viewOf (setTrafficTimer x c).2 = viewOf c.
Proof. reflexivity. Qed.
Lemma view_setManualTimer x c : viewOf (setManualTimer x c).2 = viewOf c.
Proof. reflexivity. Qed.
Lemma view_setConnected x c : viewOf (setConnected x c).2 = viewOf c.
Proof. reflexivity. Qed.
Lemma view_setInProgress x c : viewOf (setInProgress x c).2 = viewOf c.
Proof. reflexivity. Qed.
Lemma view_setText x c : viewOf (setText x c).2 = viewOf c.
Proof. reflexivity. Qed.
Lemma view_setCState x c : viewOf (setCState x c).2 = viewOf c.
Proof. reflexivity. Qed.
Lemma view_setPingTimer x c : viewOf (setPingTimer x c).2 = viewOf c.
Proof. reflexivity. Qed.
Lemma view_setPingSocket x c : viewOf (setPingSocket x c).2 = viewOf c.
Proof. reflexivity. Qed.
Lemma view_setPing x c : viewOf (setPing x c).2 = viewOf c.
Proof. reflexivity. Qed.
Lemma view_setPingHost x c : viewOf (setPingHost x c).2 = viewOf c.
Proof. reflexivity. Qed.
Lemma view_setWatching x c : viewOf (setWatching x c).2 = viewOf c.
Proof. reflexivity. Qed.

Definition withArmed (b : bool) (v : view) : view :=
  mkView (v_model v) (v_pool v) (v_pos v) (v_phase v) (v_cands v) (v_cpos v) b (v_probe v) (v_draws v) (v_dials v) (v_errors v).
Definition withPool (pool : list PoolEntry) (pos : Z) (v : view) : view :=
  mkView (v_model v) pool pos (v_phase v) (v_cands v) (v_cpos v) (v_armed v) (v_probe v) (v_draws v) (v_dials v) (v_errors v).
Definition withError (e : CcError) (v : view) : view :=
  mkView (v_model v) (v_pool v) (v_pos v) (v_phase v) (v_cands v) (v_cpos v) (v_armed v) (v_probe v) (v_draws v) (v_dials v) (v_errors v ++ [e]).

Definition withProbe (b : bool) (v : view) : view :=
  mkView (v_model v) (v_pool v) (v_pos v) (v_phase v) (v_cands v) (v_cpos v) (v_armed v) b (v_draws v) (v_dials v) (v_errors v).
Lemma view_setProbeTimer t c : viewOf (setProbeTimer t c).2 = withProbe (bool_decide (t <> None)) (viewOf c).
Proof. reflexivity. Qed.
Lemma view_setAttemptTimer t c : viewOf (setAttemptTimer t c).2 = withArmed (bool_decide (t <> None)) (viewOf c).
Proof. reflexivity. Qed.
Lemma view_setPoolPos pos c : viewOf (setPoolPos pos c).2 = withPool (m_ipPool c) pos (viewOf c).
Proof. reflexivity. Qed.
Lemma view_resetIpPool c : viewOf (resetIpPool c).2 = withPool [] (-1) (viewOf c).
Proof. reflexivity. Qed.
Lemma view_send o c : dialOf o = None -> errorOf o = None -> viewOf (send o c).2 = viewOf c.
Proof. intros Hd He. rewrite send_eq. unfold viewOf. ccs. by rewrite dialsOf_snoc, errorsOf_snoc, Hd, He, !app_nil_r. Qed.
Lemma view_error e c : viewOf (send (connectionErrorOccurred e) c).2 = withError e (viewOf c).
Proof. rewrite send_eq. unfold viewOf, withError. ccs. by rewrite dialsOf_snoc, errorsOf_snoc, app_nil_r. Qed.
Lemma ret_state {A} (a : A) c : ((mret a : ST ConnectionController A) c).2 = c.
Proof. reflexivity. Qed.
End Unseen.
#[export] Hint Rewrite view_setEndpoint view_setSwitching view_setIpAwaiting view_setAdvancing view_setAutoAwaiting view_setProbeTimer view_setTrafficTimer view_setManualTimer view_setConnected view_setInProgress view_setText view_setCState view_setPingTimer view_setPingSocket view_setPing view_setPingHost view_setWatching
  view_setAttemptTimer view_setPoolPos view_resetIpPool view_error @ret_state : views.
#[export] Hint Rewrite view_send using reflexivity : views.

Section ViewSteps.
Context `{Qt}.
Context (replaceEndpoint : string -> string -> string) (freePort : option Z) (bounded : nat -> Z -> Z)
  (containersConfig : DockerContainer -> QJsonObject) (installConfig : Z -> ServersModel -> ServersModel).
Implicit Types c : ConnectionController.

Local Abbreviation connectIp := (connectToServerIndexWithIp replaceEndpoint freePort containersConfig).
Local Abbreviation connectRow := (connectToServerIndex replaceEndpoint freePort bounded containersConfig).
Local Abbreviation retry := (retryWithNextIp replaceEndpoint freePort containersConfig).
Local Abbreviation connectCandidate := (connectCurrentAutoCandidate replaceEndpoint freePort bounded containersConfig).

(** What dialling an entry changes. *)
Lemma connectIp_eq row ip c :
  exists out, (connectIp row ip c).2 =
    (setOut out (setManualTimer (if bool_decide (m_autoPhase c = PhaseNone) then Some kManualConnectTimeoutMs else manualConnectTimer c)
      (setEndpoint (pe_ip (hostOf (cc_model c) (mkEntry row ip))) (setSwitching true c).2).2).2).2
    /\ dialsOf out = dialsOf (cc_out c) ++ [hostOf (cc_model c) (mkEntry row ip)]
    /\ errorsOf out = errorsOf (cc_out c).
Proof.
  unfold connectToServerIndexWithIp. rewrite bind_eq. cbn [get fst snd isSupportedByCurrentPlatform negb]. cbv zeta.
  set (cred := if String.eqb ip "" then _ else mkCredentials ip _ _ _).
  assert (Hh : hostName cred = pe_ip (hostOf (cc_model c) (mkEntry row ip))) by (unfold cred, hostOf; cbn; by case_if).
  assert (He : mkEntry row (hostName cred) = hostOf (cc_model c) (mkEntry row ip)) by (by rewrite Hh).
  rewrite !then_eq, send_eq. set (configuration := createVpnConfiguration _ _ _ _ _).
  destruct (String.eqb_spec (m_currentEndpoint c) (hostName cred)) as [E | E].
  - exists (cc_out c ++ [connectToVpn row cred (Model.defaultContainerRole (cc_model c) row) configuration]).
    rewrite dialsOf_snoc, errorsOf_snoc. cbn [dialOf errorOf]. rewrite He, app_nil_r, <- Hh, <- E. split_and!; [| done | done].
    by destruct c, (bool_decide (_ = PhaseNone)).
  - exists ((cc_out c ++ [connectionStateChanged]) ++ [connectToVpn row cred (Model.defaultContainerRole (cc_model c) row) configuration]).
    rewrite !dialsOf_snoc, !errorsOf_snoc. cbn [dialOf errorOf]. rewrite He, !app_nil_r, <- Hh. split_and!; [| done | done].
    by destruct c, (bool_decide (_ = PhaseNone)).
Qed.

Lemma view_connectIp row ip c :
  viewOf (connectIp row ip c).2 =
    dial (mkEntry row ip) (m_ipPool c) (m_ipPoolPos c) (bool_decide (autoAttemptTimer c <> None)) (cc_draws c) (viewOf c).
Proof.
  destruct (connectIp_eq row ip c) as (out & -> & Hd & He). unfold viewOf, dial. ccs.
  cbn [v_model v_pool v_pos v_phase v_cands v_cpos v_armed v_probe v_draws v_dials v_errors]. by rewrite Hd, He.
Qed.

Lemma view_connectRow row c : viewOf (connectRow row c).2 = dialRow bounded row (viewOf c).
Proof.
  unfold connectToServerIndex, dialRow. rewrite bind_eq. cbn [get fst snd]. cbv zeta. rewrite then_eq.
  change (v_model (viewOf c)) with (cc_model c). change (v_draws (viewOf c)) with (cc_draws c).
  set (n := pred _). destruct (shuffleFrom _ _ _ _) as [| e1 [| e2 l]].
  - rewrite then_eq, view_connectIp. done.
  - rewrite then_eq, view_connectIp. done.
  - rewrite !then_eq, view_connectIp. by destruct e1.
Qed.

Lemma retry_none c : nextEntry (viewOf c) = None -> retry c = (false, c).
Proof.
  unfold nextEntry, retryWithNextIp. rewrite bind_eq. cbn [get fst snd viewOf v_pos v_pool].
  destruct (m_ipPoolPos c <? 0); [done |]. by intros ->.
Qed.

(** A retry advances in the pool and arms the timer of the attempt. *)
Lemma retry_some c e : nextEntry (viewOf c) = Some e ->
  (retry c).1 = true /\ m_connectionSwitching (retry c).2 = true
  /\ viewOf (retry c).2 =
    dial e (m_ipPool c) (m_ipPoolPos c + 1)
      (bool_decide (autoAttemptTimer c <> None) || bool_decide (m_autoPhase c = PhaseConnecting)) (cc_draws c) (viewOf c).
Proof.
  unfold nextEntry, retryWithNextIp. rewrite bind_eq. cbn [get fst snd viewOf v_pos v_pool].
  destruct (m_ipPoolPos c <? 0); [done |]. intros ->. rewrite !then_eq.
  set (c1 := (setTrafficTimer None (setIpAwaiting false (setPoolPos (m_ipPoolPos c + 1) c).2).2).2).
  split; [done |]. split.
  - destruct (connectIp_eq (pe_row e) (pe_ip e) c1) as (out & -> & _). by destruct (bool_decide (m_autoPhase c = PhaseConnecting)).
  - autorewrite with views. destruct (bool_decide (m_autoPhase c = PhaseConnecting)).
    + rewrite then_eq. autorewrite with views. rewrite view_connectIp, orb_true_r. by destruct e.
    + autorewrite with views. rewrite view_connectIp, orb_false_r. by destruct e.
Qed.

Lemma view_stopLivePing c : viewOf (stopLivePing c).2 = viewOf c.
Proof.
  unfold stopLivePing, closeSocket. rewrite !then_eq, bind_eq. cbn [get fst snd]. case_if; [done |].
  rewrite then_eq. by autorewrite with views.
Qed.
Lemma view_probeLivePing fresh c : viewOf (probeLivePing fresh c).2 = viewOf c.
Proof.
  unfold probeLivePing. rewrite bind_eq. cbn [get fst snd]. case_if; [done |]. rewrite then_eq. by autorewrite with views.
Qed.
Lemma view_startLivePing fresh c : viewOf (startLivePing fresh c).2 = viewOf c.
Proof.
  unfold startLivePing. rewrite bind_eq. cbn [get fst snd]. case_if; [done |]. rewrite then_eq, view_probeLivePing. done.
Qed.
Lemma view_finishLivePing socket ok number c : viewOf (finishLivePing socket ok number c).2 = viewOf c.
Proof.
  unfold finishLivePing, closeSocket. rewrite bind_eq. cbn [get fst snd]. case_bool_decide; [| done]. rewrite then_eq.
  destruct (negb ok || negb (m_isConnected c)); [by destruct (m_isConnected c) |].
  destruct (String.eqb number (m_ping c)); [done |]. rewrite then_eq. by autorewrite with views.
Qed.

(** The common part of the states that do not end an attempt with success. *)
Lemma view_common fresh state c : state <> Vpn.Connected ->
  viewOf (commonState fresh state c).2
    = match state with Vpn.Error | Vpn.Unknown => withError LastError (viewOf c) | _ => viewOf c end.
Proof.
  intros Hs. unfold commonState. rewrite !then_eq. autorewrite with views. rewrite bind_eq. cbn [get fst snd].
  assert (Hp : forall (b : bool) c', viewOf ((if b then startLivePing fresh else stopLivePing) c').2 = viewOf c')
    by (intros [] c'; [apply view_startLivePing | apply view_stopLivePing]).
  rewrite Hp. destruct state; try done; rewrite ?then_eq, ?bind_eq; cbn [get fst snd]; autorewrite with views; try done.
  - destruct (m_connectionSwitching _); by autorewrite with views.
  - destruct (_ && _); by autorewrite with views.
Qed.

Lemma view_cpos i c : m_autoPhase c = PhaseConnecting -> withArmed true (viewOf (setCandidatePos i c).2) = withCpos i (viewOf c).
Proof.
  intros Hp. unfold viewOf, withArmed, withCpos. ccs.
  cbn [v_model v_pool v_pos v_phase v_cands v_cpos v_armed v_probe v_draws v_dials v_errors]. by rewrite Hp, bool_decide_eq_true_2.
Qed.

Lemma dialRow_armed row b v : dialRow bounded row (withArmed b v) = withArmed b (dialRow bounded row v).
Proof. unfold dialRow. cbn [withArmed v_model v_draws]. by destruct (shuffleFrom _ _ _ _) as [| ? [| ? ?]]. Qed.

Lemma view_connectCandidate c candidate :
  m_autoCandidates c !! Z.to_nat (m_autoCandidatePos c) = Some candidate ->
  viewOf (connectCandidate c).2 = dialRow bounded (ac_row candidate) (withArmed true (viewOf c)).
Proof.
  intros E. unfold connectCurrentAutoCandidate. rewrite bind_eq. cbn [get fst snd]. rewrite E, !then_eq.
  autorewrite with views. rewrite view_connectRow. autorewrite with views. by rewrite dialRow_armed.
Qed.
End ViewSteps.

(** ** Automatic selection *)

(** The events that end an attempt with a failure. *)
Inductive failing : CcEvent -> Prop :=
| failing_error fresh : failing (evState fresh Vpn.Error)
| failing_unknown fresh : failing (evState fresh Vpn.Unknown)
| failing_reconnecting fresh : failing (evState fresh Vpn.Reconnecting)
| failing_timeout : failing evAutoAttemptTimeout.

Section Auto.
Context `{Qt}.
Context (replaceEndpoint : string -> string -> string) (freePort : option Z) (bounded : nat -> Z -> Z)
  (containersConfig : DockerContainer -> QJsonObject) (installConfig : Z -> ServersModel -> ServersModel).
Implicit Types c : ConnectionController.

Local Abbreviation connectCandidate := (connectCurrentAutoCandidate replaceEndpoint freePort bounded containersConfig).
Local Abbreviation retry := (retryWithNextIp replaceEndpoint freePort containersConfig).
Local Abbreviation next := (nextCandidate replaceEndpoint freePort bounded containersConfig).
Local Abbreviation on := (onEvent replaceEndpoint freePort bounded containersConfig installConfig).

(** The supervised attempt of a candidate. *)
Record Trying (c : ConnectionController) : Prop := {
  tr_phase : m_autoPhase c = PhaseConnecting;
  tr_armed : autoAttemptTimer c <> None;
  tr_cpos : 0 <= m_autoCandidatePos c < Z.of_nat (length (m_autoCandidates c));
  tr_pos : -1 <= m_ipPoolPos c
}.

Lemma view_trying c : m_autoPhase c = PhaseConnecting ->
  v_cands (viewOf c) = m_autoCandidates c /\ v_cpos (viewOf c) = m_autoCandidatePos c.
Proof. intros Hp. unfold viewOf. cbn [v_cands v_cpos]. by rewrite Hp, bool_decide_eq_true_2. Qed.

(** The next address, the next candidate, or neither. *)
Lemma next_view st c : m_autoPhase c = PhaseConnecting -> 0 <= m_autoCandidatePos c ->
  (nextEntry (viewOf c) <> None \/ m_autoCandidates c !! Z.to_nat (m_autoCandidatePos c + 1) <> None ->
     (next st c).1 = true /\ viewOf (next st c).2 = failed bounded (viewOf c))
  /\ (nextEntry (viewOf c) = None -> m_autoCandidates c !! Z.to_nat (m_autoCandidatePos c + 1) = None ->
     next st c = (false, (setCandidatePos (m_autoCandidatePos c + 1) c).2)).
Proof.
  intros Hp H0. unfold nextCandidate. rewrite bind_eq. destruct (view_trying c Hp) as [Hc Hi].
  destruct (nextEntry (viewOf c)) as [e |] eqn:En.
  - destruct (retry_some replaceEndpoint freePort containersConfig c e En) as (E1 & _ & E2). split; [| done]. intros _.
    rewrite E1, then_eq. split; [done |]. autorewrite with views. rewrite E2. unfold failed. rewrite En.
    rewrite Hp, (bool_decide_eq_true_2 (PhaseConnecting = PhaseConnecting)), orb_true_r by done. done.
  - rewrite (retry_none _ _ _ c En). cbn [fst snd]. rewrite then_eq, !bind_eq. cbn [get fst snd].
    change (m_autoCandidatePos (setCandidatePos (m_autoCandidatePos c + 1) c).2) with (m_autoCandidatePos c + 1).
    change (m_autoCandidates (setCandidatePos (m_autoCandidatePos c + 1) c).2) with (m_autoCandidates c).
    destruct (m_autoCandidates c !! Z.to_nat (m_autoCandidatePos c + 1)) as [candidate |] eqn:Ec.
    + split; [| done]. intros _. rewrite (proj2 (Z.ltb_lt _ _)) by (apply lookup_lt_Some in Ec; lia).
      rewrite !then_eq. split; [done |]. autorewrite with views.
      rewrite (view_connectCandidate _ _ _ _ _ candidate) by exact Ec.
      unfold failed. rewrite En, Hc, Hi, Ec. autorewrite with views. by rewrite view_cpos.
    + split; [by intros [] |]. intros _ _. rewrite (proj2 (Z.ltb_ge _ _)) by (apply lookup_ge_None in Ec; lia). done.
Qed.

Lemma disarmed c : viewOf (setAttemptTimer None c).2 = withArmed false (viewOf c).
Proof. done. Qed.

Lemma failed_armed b v : failed bounded (withArmed b v) = failed bounded v.
Proof. unfold failed, nextEntry. cbn [withArmed v_pos v_pool v_cands v_cpos]. by repeat case_match. Qed.

(** The end of automatic selection in every case. *)
Lemma given_up c : m_autoPhase c = PhaseConnecting -> nextEntry (viewOf c) = None ->
  m_autoCandidates c !! Z.to_nat (m_autoCandidatePos c + 1) = None -> failed bounded (viewOf c) = giveUp (viewOf c).
Proof. intros Hp E1 E2. unfold failed. destruct (view_trying c Hp) as [Hc Hi]. by rewrite E1, Hc, Hi, E2. Qed.

Lemma failover_view e c : Trying c -> failing e -> viewOf (on e c).2 = failed bounded (viewOf c).
Proof.
  intros [Hp Ha Hc H0] Hf. unfold onEvent. rewrite bind_eq. cbn [get fst snd].
  set (c1 := (setAttemptTimer None c).2).
  assert (Hv : failed bounded (viewOf c1) = failed bounded (viewOf c)) by (unfold c1; by rewrite disarmed, failed_armed).
  rewrite <- Hv. clear Hv.
  assert (Hp1 : m_autoPhase c1 = PhaseConnecting) by done. assert (Hc1 : 0 <= m_autoCandidatePos c1) by (unfold c1; ccs; lia).
  destruct (next_view Vpn.Error c1 Hp1 Hc1) as [He1 He2]. destruct (next_view Vpn.Unknown c1 Hp1 Hc1) as [Hu1 Hu2].
  pose proof (fun x => next_view Vpn.Reconnecting (setAutoAwaiting x c1).2 Hp1 Hc1) as Hr.
  assert (Hdec : {nextEntry (viewOf c1) <> None \/ m_autoCandidates c1 !! Z.to_nat (m_autoCandidatePos c1 + 1) <> None}
    + {nextEntry (viewOf c1) = None /\ m_autoCandidates c1 !! Z.to_nat (m_autoCandidatePos c1 + 1) = None}).
  { destruct (nextEntry (viewOf c1)); [left; by left |]. destruct (m_autoCandidates c1 !! _); [left; by right | by right]. }
  destruct Hf as [fresh | fresh | fresh |].
  1-3: unfold onConnectionStateChanged; rewrite then_eq, bind_eq; cbn [get fst snd]; rewrite ret_state, bind_eq, Hp;
    rewrite (bool_decide_eq_true_2 (PhaseConnecting = PhaseConnecting)) by done; unfold autoBranch; rewrite !then_eq; fold c1.
  - rewrite bind_eq. destruct Hdec as [Hd | [Hd1 Hd2]].
    + destruct (He1 Hd) as [-> E]. by rewrite ret_state.
    + rewrite (He2 Hd1 Hd2), (given_up c1 Hp1 Hd1 Hd2). cbn [fst snd]. rewrite then_eq. cbn [fst snd mret ST_ret].
      rewrite view_common by done. done.
  - rewrite bind_eq. destruct Hdec as [Hd | [Hd1 Hd2]].
    + destruct (Hu1 Hd) as [-> E]. by rewrite ret_state.
    + rewrite (Hu2 Hd1 Hd2), (given_up c1 Hp1 Hd1 Hd2). cbn [fst snd]. rewrite then_eq. cbn [fst snd mret ST_ret].
      rewrite view_common by done. done.
  - rewrite bind_eq. destruct (Hr false) as [Hr1 Hr2]. destruct Hdec as [Hd | [Hd1 Hd2]].
    + destruct (Hr1 Hd) as [-> E]. by rewrite ret_state.
    + rewrite (Hr2 Hd1 Hd2), (given_up c1 Hp1 Hd1 Hd2). cbn [fst snd]. unfold giveUpText. rewrite !then_eq. cbn [fst snd mret ST_ret].
      autorewrite with views. done.
  - destruct (autoAttemptTimer c) as [t |] eqn:Et; [| done]. unfold onAutoAttemptTimeout. rewrite then_eq, bind_eq. cbn [get fst snd].
    fold c1. rewrite Hp1. cbn [negb]. rewrite (bool_decide_eq_true_2 (PhaseConnecting = PhaseConnecting)) by done. cbn [negb].
    rewrite bind_eq. destruct (nextEntry (viewOf c1)) as [e |] eqn:En.
    + destruct (retry_some replaceEndpoint freePort containersConfig c1 e En) as (E1 & _ & E2).
      rewrite E1. autorewrite with views. rewrite E2. unfold failed. rewrite En, Hp1.
      by rewrite (bool_decide_eq_true_2 (PhaseConnecting = PhaseConnecting)), orb_true_r by done.
    + rewrite (retry_none _ _ _ c1 En). cbn [fst snd]. rewrite then_eq, bind_eq. cbn [get fst snd].
      destruct (view_trying c1 Hp1) as [Hcs Hi].
      destruct (m_autoCandidates c1 !! Z.to_nat (m_autoCandidatePos c1 + 1)) as [candidate |] eqn:Ec.
      * rewrite (view_connectCandidate _ _ _ _ _ candidate) by exact Ec. unfold failed. by rewrite En, Hcs, Hi, Ec, view_cpos.
      * rewrite (given_up c1 Hp1 En Ec). unfold connectCurrentAutoCandidate. rewrite bind_eq. cbn [get fst snd].
        change (m_autoCandidates (setCandidatePos (m_autoCandidatePos c1 + 1) c1).2
          !! Z.to_nat (m_autoCandidatePos (setCandidatePos (m_autoCandidatePos c1 + 1) c1).2))
          with (m_autoCandidates c1 !! Z.to_nat (m_autoCandidatePos c1 + 1)). rewrite Ec, !then_eq. autorewrite with views. done.
Qed.


(** *** The selection ends *)

Definition poolLeft (v : view) : nat := if v_pos v <? 0 then 0%nat else (length (v_pool v) - Z.to_nat (v_pos v + 1))%nat.
Definition candidateAttempts (m : ServersModel) (l : list AutoCandidate) : nat :=
  foldr (fun a n => (Nat.max 1 (length (buildPool m (ac_row a))) + n)%nat) 0%nat l.
(** The attempts that are left after the current one. *)
Definition attemptsLeft (v : view) : nat :=
  (poolLeft v + candidateAttempts (v_model v) (drop (Z.to_nat (v_cpos v + 1)) (v_cands v)))%nat.

Record TryingView (v : view) : Prop := {
  tv_phase : v_phase v = PhaseConnecting;
  tv_armed : v_armed v = true;
  tv_cpos : 0 <= v_cpos v < Z.of_nat (length (v_cands v));
  tv_pos : -1 <= v_pos v
}.

Lemma trying_view c : Trying c <-> TryingView (viewOf c).
Proof.
  split.
  - intros [Hp Ha Hc H0]. destruct (view_trying c Hp) as [E1 E2]. constructor; [done | | by rewrite E1, E2 | done].
    cbn [viewOf v_armed]. by rewrite bool_decide_eq_true_2.
  - intros [Hp Ha Hc H0]. cbn [viewOf v_phase] in Hp. destruct (view_trying c Hp) as [E1 E2]. rewrite E1, E2 in Hc.
    constructor; [done | | done | done]. by apply bool_decide_eq_true in Ha.
Qed.

Lemma failed_dials v : TryingView v ->
  if Nat.eqb (attemptsLeft v) 0 then failed bounded v = giveUp v
  else TryingView (failed bounded v) /\ attemptsLeft v = S (attemptsLeft (failed bounded v))
    /\ length (v_dials (failed bounded v)) = S (length (v_dials v)) /\ v_errors (failed bounded v) = v_errors v.
Proof.
  intros [Hp Ha Hc H0]. unfold failed. destruct (nextEntry v) as [e |] eqn:En.
  - unfold nextEntry in En. destruct (v_pos v <? 0) eqn:Epos; [done |]. zbool. pose proof (lookup_lt_Some _ _ _ En) as Hlt.
    assert (Hl : poolLeft v = S (poolLeft (dial e (v_pool v) (v_pos v + 1) true (v_draws v) v))).
    { unfold poolLeft. cbn [dial v_pos v_pool]. rewrite !(proj2 (Z.ltb_ge _ 0)) by lia. lia. }
    assert (Hs : attemptsLeft v = S (attemptsLeft (dial e (v_pool v) (v_pos v + 1) true (v_draws v) v)))
      by (unfold attemptsLeft; rewrite Hl; done).
    rewrite Hs. cbn [Nat.eqb]. split_and!; [constructor; [exact Hp | reflexivity | exact Hc | cbn [dial v_pos]; lia] | done | | done].
    cbn [dial v_dials]. rewrite length_app. cbn. lia.
  - assert (Hz : poolLeft v = 0%nat).
    { unfold nextEntry in En. unfold poolLeft. destruct (v_pos v <? 0); [done |]. apply lookup_ge_None in En. lia. }
    unfold attemptsLeft. rewrite Hz. cbn [Nat.add].
    destruct (v_cands v !! Z.to_nat (v_cpos v + 1)) as [a |] eqn:Ec.
    + rewrite (drop_S _ _ _ Ec).
      change (candidateAttempts (v_model v) (a :: drop (S (Z.to_nat (v_cpos v + 1))) (v_cands v)))
        with (Nat.max 1 (length (buildPool (v_model v) (ac_row a)))
          + candidateAttempts (v_model v) (drop (S (Z.to_nat (v_cpos v + 1))) (v_cands v)))%nat.
      set (rest := candidateAttempts (v_model v) (drop (S (Z.to_nat (v_cpos v + 1))) (v_cands v))).
      assert (Hd : exists pool pos armed draws e, dialRow bounded (ac_row a) (withCpos (v_cpos v + 1) v)
         = dial e pool pos armed draws (withCpos (v_cpos v + 1) v) /\ armed = true /\ -1 <= pos
         /\ (if pos <? 0 then 0%nat else (length pool - Z.to_nat (pos + 1))%nat) = pred (Nat.max 1 (length (buildPool (v_model v) (ac_row a))))).
      { unfold dialRow. cbn [withCpos v_model v_draws v_armed]. set (built := buildPool (v_model v) (ac_row a)).
        pose proof (Permutation_length (shuffle_perm bounded (v_draws v) (pred (length built)) built)) as Hlen.
        destruct (shuffleFrom _ _ _ _) as [| e1 [| e2 l]]; (eexists _, _, _, _, _; split; [reflexivity |]); (split; [done |]); (split; [lia |]);
          cbn [length] in *; rewrite <- Hlen; cbn; lia. }
      destruct Hd as (pool & pos & armed & draws & e & -> & -> & Hpos & Hleft).
      pose proof (lookup_lt_Some _ _ _ Ec) as Hlt. rewrite (proj2 (Nat.eqb_neq _ 0)) by lia.
      split_and!.
      * constructor; [exact Hp | reflexivity | cbn [dial withCpos v_cpos v_cands]; lia | exact Hpos].
      * unfold poolLeft. cbn [dial withCpos v_pos v_pool v_cpos v_cands v_model]. rewrite Hleft.
        replace (Z.to_nat (v_cpos v + 1 + 1)) with (S (Z.to_nat (v_cpos v + 1))) by lia. fold rest. lia.
      * cbn [dial withCpos v_dials]. rewrite length_app. cbn. lia.
      * done.
    + rewrite drop_ge by (by apply lookup_ge_None). done.
Qed.

End Auto.

(** ** Attempts are supervised *)

(** While candidates are tried the timer of the attempt runs and the current
    candidate is one of the list; while the health check is awaited its timer
    runs. *)
Record Supervised (v : view) : Prop := {
  su_pos : -1 <= v_pos v;
  su_connecting : v_phase v = PhaseConnecting -> v_armed v = true /\ 0 <= v_cpos v < Z.of_nat (length (v_cands v));
  su_probing : v_phase v = Probing -> v_probe v = true
}.

Lemma sup_none v : -1 <= v_pos v -> v_phase v = PhaseNone -> Supervised v.
Proof. intros H0 Hp. constructor; [done | |]; congruence. Qed.

Lemma sup_dial e pool pos armed draws v :
  Supervised v -> -1 <= pos -> (v_phase v = PhaseConnecting -> armed = true) -> Supervised (dial e pool pos armed draws v).
Proof. intros [H0 Hc Hp] Hpos Ha. constructor; [done | | done]. intros E. split; [by apply Ha | by apply Hc]. Qed.

Lemma sup_pool pool pos v : Supervised v -> -1 <= pos -> Supervised (withPool pool pos v).
Proof. intros [H0 Hc Hp] Hpos. by constructor. Qed.
Lemma sup_error e v : Supervised v -> Supervised (withError e v).
Proof. intros [H0 Hc Hp]. by constructor. Qed.

Section Supervision.
Context `{Qt}.
Context (replaceEndpoint : string -> string -> string) (freePort : option Z) (bounded : nat -> Z -> Z)
  (containersConfig : DockerContainer -> QJsonObject) (installConfig : Z -> ServersModel -> ServersModel).
Implicit Types c : ConnectionController.

Local Abbreviation connectRow := (connectToServerIndex replaceEndpoint freePort bounded containersConfig).
Local Abbreviation connectCandidate := (connectCurrentAutoCandidate replaceEndpoint freePort bounded containersConfig).
Local Abbreviation retry := (retryWithNextIp replaceEndpoint freePort containersConfig).
Local Abbreviation next := (nextCandidate replaceEndpoint freePort bounded containersConfig).
Local Abbreviation begin := (beginAutoConnect replaceEndpoint freePort bounded containersConfig).
Local Abbreviation on := (onEvent replaceEndpoint freePort bounded containersConfig installConfig).

Lemma sup_dialRow row v : Supervised v -> Supervised (dialRow bounded row v).
Proof.
  intros Hv. unfold dialRow. destruct (shuffleFrom _ _ _ _) as [| ? [| ? ?]]; apply sup_dial; try done; intros E; by apply Hv.
Qed.

Lemma sup_retry c : Supervised (viewOf c) -> Supervised (viewOf (retry c).2).
Proof.
  intros Hv. destruct (nextEntry (viewOf c)) as [e |] eqn:En; [| by rewrite retry_none].
  destruct (retry_some replaceEndpoint freePort containersConfig c e En) as (_ & _ & ->). pose proof (su_pos _ Hv) as H0. cbn in H0.
  apply sup_dial; [done | lia |]. intros E. cbn in E. by rewrite E, orb_true_r.
Qed.

Lemma retry_phase c : m_autoPhase (retry c).2 = m_autoPhase c.
Proof.
  destruct (nextEntry (viewOf c)) as [e |] eqn:En; [| by rewrite retry_none].
  destruct (retry_some replaceEndpoint freePort containersConfig c e En) as (_ & _ & E). exact (f_equal v_phase E).
Qed.

Lemma onModel_eq {A} (f : ST ServersModel A) c : (onModel f c).2 = (setModel (f (cc_model c)).2 c).2.
Proof. unfold onModel. by destruct (f (cc_model c)). Qed.

Lemma finalize_phase c : m_autoPhase (finalizeAutoSuccess c).2 = PhaseNone /\ m_ipPoolPos (finalizeAutoSuccess c).2 = -1.
Proof. unfold finalizeAutoSuccess, resetIpPool. by rewrite !then_eq. Qed.
Lemma sup_finalize c : Supervised (viewOf (finalizeAutoSuccess c).2).
Proof. destruct (finalize_phase c) as [E1 E2]. apply sup_none; cbn; [lia | done]. Qed.

Lemma sup_trying c : Supervised (viewOf c) -> m_autoPhase c = PhaseConnecting -> Trying c.
Proof.
  intros [H0 Hc Hp] E. destruct (Hc E) as [Ha Hi]. apply trying_view. by constructor.
Qed.

Lemma sup_failed v : TryingView v -> Supervised (failed bounded v).
Proof.
  intros Ht. pose proof (failed_dials bounded v Ht) as Hd. destruct (Nat.eqb _ 0).
  - rewrite Hd. apply sup_none; [apply Ht | done].
  - destruct Hd as ([E1 E2 E3 E4] & _). constructor; [done | done |]. congruence.
Qed.

Lemma trying_sup c : Trying c -> Supervised (viewOf c).
Proof. intros [Hp Ha Hc H0]%trying_view. constructor; [done | done |]. congruence. Qed.

Lemma sup_next st c : Trying c ->
  ((next st (setAttemptTimer None c).2).1 = true /\ Supervised (viewOf (next st (setAttemptTimer None c).2).2))
  \/ next st (setAttemptTimer None c).2 = (false, (setCandidatePos (m_autoCandidatePos c + 1) (setAttemptTimer None c).2).2).
Proof.
  intros Ht. destruct Ht as [Hp Ha Hc H0]. set (c1 := (setAttemptTimer None c).2).
  destruct (next_view replaceEndpoint freePort bounded containersConfig st c1 Hp) as [H1 H2]; [unfold c1; ccs; lia |].
  destruct (nextEntry (viewOf c1)) eqn:En; [| destruct (m_autoCandidates c1 !! Z.to_nat (m_autoCandidatePos c1 + 1)) eqn:Ec].
  - left. split; [by apply H1; left |]. rewrite (proj2 (H1 ltac:(by left))). unfold c1. rewrite disarmed, failed_armed. apply sup_failed, trying_view. by constructor.
  - left. split; [by apply H1; right |]. rewrite (proj2 (H1 ltac:(by right))). unfold c1. rewrite disarmed, failed_armed. apply sup_failed, trying_view. by constructor.
  - right. by apply H2.
Qed.

(** The common part in every state. *)
Lemma sup_common fresh state c : Supervised (viewOf c) -> Supervised (viewOf (commonState fresh state c).2).
Proof.
  intros Hv. destruct (decide (state = Vpn.Connected)) as [-> | Hne].
  - unfold commonState. rewrite !then_eq. autorewrite with views. rewrite !bind_eq. cbn [get fst snd].
    set (c1 := (setManualTimer None _).2). assert (Hc1 : Supervised (viewOf c1)) by (unfold c1; by autorewrite with views).
    clearbody c1. assert (Hp : forall (b : bool) c', viewOf ((if b then startLivePing fresh else stopLivePing) c').2 = viewOf c')
      by (intros [] c'; [apply view_startLivePing | apply view_stopLivePing]).
    rewrite Hp. destruct (m_autoCandidates c1 !! _); [| done]. case_if; [apply sup_finalize | done].
  - rewrite view_common by done. destruct state; try done; by apply sup_error.
Qed.

Lemma sup_autoBranch state c : Trying c ->
  Supervised (viewOf (autoBranch replaceEndpoint freePort bounded containersConfig state c).2).
Proof.
  intros Ht. pose proof (trying_sup c Ht) as Hv. pose proof (tr_pos c Ht) as H0.
  destruct state; cbn [autoBranch]; rewrite ?then_eq, ?bind_eq; cbn [get fst snd]; try done.
  - destruct (sup_next Vpn.Unknown c Ht) as [[-> E] | ->]; [by rewrite ret_state |]. apply sup_none; [exact H0 | reflexivity].
  - destruct (m_autoAdvancing c); [done |]. rewrite then_eq, bind_eq.
    destruct (sup_next Vpn.Disconnected c Ht) as [[-> E] | ->]; [by rewrite ret_state |]. cbn [fst snd]. unfold giveUpText. rewrite !then_eq.
    apply sup_none; [exact H0 | reflexivity].
  - destruct (_ <? _).
    + rewrite !then_eq. autorewrite with views. destruct Hv as [Hv1 Hv2 Hv3]. constructor; [done | | done].
      intros E. split; [done |]. by apply Hv2.
    + rewrite then_eq, ret_state. apply sup_finalize.
  - change (setAutoAwaiting false (setAttemptTimer None c).2).2 with (setAttemptTimer None (setAutoAwaiting false c).2).2.
    destruct (sup_next Vpn.Reconnecting (setAutoAwaiting false c).2) as [[-> E] | ->]; [by destruct Ht | by rewrite ret_state |].
    cbn [fst snd]. unfold giveUpText. rewrite !then_eq. apply sup_none; [exact H0 | reflexivity].
  - destruct (sup_next Vpn.Error c Ht) as [[-> E] | ->]; [by rewrite ret_state |]. apply sup_none; [exact H0 | reflexivity].
Qed.

Lemma sup_reset c : Supervised (viewOf c) -> Supervised (viewOf (resetIpPool c).2).
Proof. intros Hv. rewrite view_resetIpPool. by apply sup_pool. Qed.

(** A retry, or the end of the pool. *)
Lemma sup_retry_or {A} (f g : ST ConnectionController A) c :
  Supervised (viewOf c) ->
  (forall c, Supervised (viewOf c) -> Supervised (viewOf (f c).2)) -> (forall c, Supervised (viewOf c) -> Supervised (viewOf (g c).2)) ->
  Supervised (viewOf ((retried ← retry; if retried : bool then f else g) c).2).
Proof.
  intros Hv Hf Hg. rewrite bind_eq. pose proof (sup_retry c Hv) as Hr. destruct (retry c).1; [by apply Hf | by apply Hg].
Qed.

Lemma sup_poolBranch state c : Supervised (viewOf c) ->
  Supervised (viewOf (poolBranch replaceEndpoint freePort containersConfig state c).2).
Proof.
  intros Hv. unfold poolBranch. rewrite bind_eq. cbn [get fst snd].
  assert (Hset : forall st c, Supervised (viewOf c) -> Supervised (viewOf ((setCState st ;; mret true : ST ConnectionController bool) c).2))
    by (intros st c' Hc'; rewrite then_eq, ret_state; by autorewrite with views).
  assert (Hres : forall c, Supervised (viewOf c) -> Supervised (viewOf ((resetIpPool ;; mret false : ST ConnectionController bool) c).2))
    by (intros c' Hc'; rewrite then_eq, ret_state; by apply sup_reset).
  destruct state; try done.
  - by apply sup_retry_or.
  - case_if; [done |]. by apply sup_retry_or.
  - case_if; [by apply Hres |]. rewrite !then_eq, ret_state. by autorewrite with views.
  - rewrite !then_eq. apply sup_retry_or; [by autorewrite with views | done |]. intros c' Hc'.
    unfold giveUpText. rewrite !then_eq, ret_state. autorewrite with views. by apply sup_error, sup_pool.
  - by apply sup_retry_or.
Qed.

Lemma sup_state fresh state c : Supervised (viewOf c) ->
  Supervised (viewOf (onConnectionStateChanged replaceEndpoint freePort bounded containersConfig fresh state c).2).
Proof.
  intros Hv. unfold onConnectionStateChanged. rewrite then_eq.
  set (c1 := (_ c).2). assert (Hc1 : viewOf c1 = viewOf c) by (unfold c1; by destruct state).
  rewrite bind_eq. cbn [get fst snd]. rewrite <- Hc1 in Hv. clearbody c1. rewrite bind_eq.
  assert (Hb : Supervised (viewOf ((if bool_decide (m_autoPhase c1 = PhaseConnecting)
      then autoBranch replaceEndpoint freePort bounded containersConfig state
      else if m_ipPoolPos c1 >=? 0 then poolBranch replaceEndpoint freePort containersConfig state else mret false) c1).2)).
  { case_bool_decide as E; [by apply sup_autoBranch, sup_trying |]. case_if; [by apply sup_poolBranch | done]. }
  match type of Hb with Supervised (viewOf (?f c1).2) => destruct (f c1) as [b c2] end. cbn [fst snd] in *.
  destruct b; [done | by apply sup_common].
Qed.

Lemma sup_begin c : -1 <= m_ipPoolPos c -> Supervised (viewOf (begin c).2).
Proof.
  intros H0. unfold beginAutoConnect. rewrite !then_eq, bind_eq. cbn [get fst snd].
  set (c1 := (send stopProbe _).2). change (m_autoCandidates c1) with (m_autoCandidates c).
  destruct (m_autoCandidates c) as [| a l] eqn:E.
  - rewrite then_eq, view_connectRow. apply sup_dialRow, sup_none; [exact H0 | reflexivity].
  - rewrite !then_eq. erewrite view_connectCandidate by (unfold c1; cbn [setCandidatePos setPhase modify m_autoCandidates m_autoCandidatePos]; exact (f_equal (fun l => l !! 0%nat) E)).
    apply sup_dialRow. constructor; [exact H0 | | done]. intros _. split; [done |]. cbn [v_cpos v_cands viewOf withArmed].
    unfold viewOf. ccs. rewrite bool_decide_eq_true_2 by done. change (m_autoCandidates c1) with (m_autoCandidates c). rewrite E. cbn. lia.
Qed.

Lemma sup_early c : Supervised (viewOf c) ->
  let r := tryEarlyAutoDecision replaceEndpoint freePort bounded containersConfig c in
  Supervised (viewOf r.2) /\ (r.1 = false -> r.2 = c).
Proof.
  intros Hv r. unfold r, tryEarlyAutoDecision. rewrite bind_eq. cbn [get fst snd]. cbv zeta.
  repeat case_match; try done. rewrite !then_eq. split; [| done]. rewrite ret_state. apply sup_begin. exact (su_pos _ Hv).
Qed.

Lemma sup_settled c : Supervised (viewOf c) \/ m_autoPhase c = Probing /\ -1 <= m_ipPoolPos c ->
  Supervised (viewOf (onAutoProbeSettled replaceEndpoint freePort bounded containersConfig c).2).
Proof.
  intros Hv. unfold onAutoProbeSettled. rewrite bind_eq. cbn [get fst snd]. case_bool_decide as E; cbn [negb].
  - rewrite !then_eq. apply sup_begin. destruct Hv as [Hv | [_ Hv]]; [exact (su_pos _ Hv) | exact Hv].
  - destruct Hv as [Hv | [Hv _]]; done.
Qed.

(** Installing configurations changes the servers only. *)
Lemma install_same c : exists m, (installMissingConfigs installConfig c).2 = (setModel m c).2.
Proof.
  unfold installMissingConfigs. rewrite bind_eq. cbn [get fst snd]. generalize (map Z.of_nat (seq 0 (length (m_servers (cc_model c))))).
  assert (Hg : forall l m, exists m', (forEach (fun i => c ← get;
      if envRow (cc_model c) i && Model.isServerFromGatewayApi (cc_model c) i && negb (Model.serverHasUsableConfig (cc_model c) i)
      then setModel (installConfig i (cc_model c)) else mret tt) l (setModel m c).2).2 = (setModel m' c).2).
  { intros l. induction l as [| i l IH]; intros m; [by exists m |]. cbn [forEach]. rewrite then_eq, bind_eq. cbn [get fst snd].
    case_if; [destruct (IH (installConfig i m)) as (m' & Hm') | destruct (IH m) as (m' & Hm')]; by exists m'. }
  intros l. destruct (Hg l (cc_model c)) as (m' & Hm'). exists m'. by destruct c.
Qed.

Local Abbreviation early := (tryEarlyAutoDecision replaceEndpoint freePort bounded containersConfig).

Lemma early_decided (fresh : bool) c : m_autoPhase c = Probing -> -1 <= m_ipPoolPos c ->
  let r := (if fresh then early else mret false) c in
  (r.1 = true -> Supervised (viewOf r.2)) /\ (r.1 = false -> r.2 = c).
Proof.
  intros Hp H0 r. unfold r. destruct fresh; [| done]. unfold tryEarlyAutoDecision. rewrite bind_eq. cbn [get fst snd]. cbv zeta.
  repeat case_match; try done. rewrite !then_eq, ret_state. split; [| done]. intros _. by apply sup_begin.
Qed.

(** The selection once the servers have their configurations. *)
Definition search (fresh probing : bool) : ST ConnectionController unit :=
  decided ← (if fresh then early else mret false);
  if decided : bool then mret tt
  else
    send startProbe ;;
    setWatching true ;;
    if negb probing then onAutoProbeSettled replaceEndpoint freePort bounded containersConfig
    else setProbeTimer (Some kAutoProbeTimeoutMs).

Lemma start_eq fresh probing c : exists c1, m_autoPhase c1 = Probing /\ m_ipPoolPos c1 = m_ipPoolPos c /\
  startAutoSelection replaceEndpoint freePort bounded containersConfig installConfig fresh probing c
  = search fresh probing (installMissingConfigs installConfig c1).2.
Proof.
  unfold startAutoSelection. rewrite !then_eq.
  exists (send connectionStateChanged (setText ("Searching" +:+ nl +:+ "for the best server...")
    (setPhase Probing (cancelAutoSelection c).2).2).2).2. split_and!; reflexivity.
Qed.

Lemma sup_search (fresh probing : bool) c : m_autoPhase c = Probing -> -1 <= m_ipPoolPos c ->
  Supervised (viewOf (search fresh probing c).2).
Proof.
  intros Hp H0. unfold search. rewrite bind_eq. destruct (early_decided fresh c Hp H0) as [Hr Hr2].
  match goal with |- context [(if fresh then ?a else ?b) c] => set (r := (if fresh then a else b) c) in * end.
  clearbody r. destruct r as [[] c3]; cbn [fst snd] in *; [by apply Hr |]. rewrite (Hr2 eq_refl), !then_eq.
  set (c1 := (setWatching true _).2). assert (Hp1 : m_autoPhase c1 = Probing) by exact Hp. assert (H1 : -1 <= m_ipPoolPos c1) by exact H0.
  clearbody c1. destruct probing; cbn [negb].
  - autorewrite with views. constructor; [exact H1 | | done]. cbn. congruence.
  - apply sup_settled. by right.
Qed.

Lemma sup_start fresh probing c : -1 <= m_ipPoolPos c ->
  Supervised (viewOf (startAutoSelection replaceEndpoint freePort bounded containersConfig installConfig fresh probing c).2).
Proof.
  intros H0. destruct (start_eq fresh probing c) as (c1 & Hp & H1 & ->). destruct (install_same c1) as (m & ->).
  apply sup_search; cbn [setModel modify m_autoPhase m_ipPoolPos snd]; [done | by rewrite H1].
Qed.

Lemma sup_close c : Supervised (viewOf c) -> Supervised (viewOf (closeConnection c).2).
Proof.
  intros Hv. unfold closeConnection. rewrite !then_eq, bind_eq. cbn [get fst snd]. autorewrite with views.
  apply sup_pool; [| lia]. case_bool_decide as E; [by autorewrite with views |].
  unfold cancelAutoSelection, giveUpText. rewrite !then_eq. autorewrite with views. apply sup_none; [exact (su_pos _ Hv) | reflexivity].
Qed.

(** C4 (invariant): whatever happens to the controller, in any order, an
    attempt of automatic selection is never left without supervision: while
    candidates are tried the timer of the attempt runs and the current
    candidate is one of the list, and while the health check is awaited its
    timer runs. *)
Theorem attempts_supervised e c : Supervised (viewOf c) -> Supervised (viewOf (on e c).2).
Proof.
  intros Hv. unfold onEvent. rewrite bind_eq. cbn [get fst snd]. pose proof (su_pos _ Hv) as H0. cbn in H0. destruct e.
  - by apply sup_state.
  - unfold onBytesChanged. rewrite bind_eq. cbn [get fst snd]. repeat case_if; try done; [apply sup_finalize | by apply sup_reset].
  - destruct (autoAttemptTimer c) eqn:Et; [| done]. destruct (decide (m_autoPhase c = PhaseConnecting)) as [Hp | Hp].
    + pose proof (sup_trying c Hv Hp) as Ht. pose proof (failover_view replaceEndpoint freePort bounded containersConfig installConfig _ c Ht failing_timeout) as E.
      unfold onEvent in E. rewrite bind_eq in E. cbn [get fst snd] in E. rewrite Et in E. rewrite E. by apply sup_failed, trying_view.
    + unfold onAutoAttemptTimeout. rewrite then_eq, bind_eq. cbn [get fst snd]. rewrite bool_decide_eq_false_2 by done. cbn [negb].
      destruct Hv as [Hv1 Hv2 Hv3]. by constructor.
  - destruct (ipTrafficTimer c); [| done]. unfold onIpTrafficTimeout. rewrite then_eq, bind_eq. cbn [get fst snd].
    case_if; [done |]. rewrite then_eq. apply sup_retry_or; [done | done |]. intros c' Hc'. rewrite !then_eq. autorewrite with views.
    by apply sup_error, sup_pool.
  - destruct (manualConnectTimer c); [| done]. unfold onManualConnectTimeout. rewrite then_eq. apply sup_retry_or; [done | done |].
    intros c' Hc'. unfold giveUpText. rewrite !then_eq. autorewrite with views. by apply sup_error, sup_pool.
  - destruct (autoProbeTimer c); [| done]. rewrite then_eq. apply sup_settled. destruct (decide (m_autoPhase c = Probing)); [by right |].
    left. destruct Hv as [Hv1 Hv2 Hv3]. by constructor.
  - destruct (cc_watching c); [| done]. apply sup_settled. by left.
  - destruct (cc_watching c); [| done]. unfold onAutoHealthUpdated. rewrite bind_eq. cbn [get fst snd]. case_if; [done |].
    rewrite then_eq, ret_state. by apply sup_early.
  - unfold onTranslationsUpdated. rewrite bind_eq. cbn [get fst snd]. by apply sup_state.
  - destruct (pingTimer c); [| done]. by rewrite view_probeLivePing.
  - by rewrite view_finishLivePing.
  - by apply sup_close.
  - unfold openConnection. case_if; [by autorewrite with views; apply sup_error |]. rewrite bind_eq. cbn [get fst snd].
    case_if; [by apply sup_start |]. rewrite view_connectRow. by apply sup_dialRow.
Qed.
End Supervision.

(** ** Cancellation *)

(** Nothing is being dialled and nothing will be. *)
Definition Idle (v : view) : Prop := v_phase v = PhaseNone /\ v_pos v < 0.

Definition opens (e : CcEvent) : bool := match e with evOpen _ _ _ _ => true | _ => false end.

Section Cancellation.
Context `{Qt}.
Context (replaceEndpoint : string -> string -> string) (freePort : option Z) (bounded : nat -> Z -> Z)
  (containersConfig : DockerContainer -> QJsonObject) (installConfig : Z -> ServersModel -> ServersModel).
Implicit Types c : ConnectionController.

Local Abbreviation retry := (retryWithNextIp replaceEndpoint freePort containersConfig).
Local Abbreviation on := (onEvent replaceEndpoint freePort bounded containersConfig installConfig).

(** No attempt is added to those of [c], and none will be. *)
Definition Quiet (c c' : ConnectionController) : Prop := Idle (viewOf c') /\ v_dials (viewOf c') = v_dials (viewOf c).

Lemma quiet_refl c : Idle (viewOf c) -> Quiet c c.
Proof. done. Qed.

Lemma idle_retry c : Idle (viewOf c) -> retry c = (false, c).
Proof. intros [_ Hp]. apply retry_none. unfold nextEntry. by rewrite (proj2 (Z.ltb_lt _ _)). Qed.

Lemma quiet_common fresh state c : Idle (viewOf c) -> Quiet c (commonState fresh state c).2.
Proof.
  intros Hi. destruct (decide (state = Vpn.Connected)) as [-> | Hne].
  - unfold Quiet. assert (viewOf (commonState fresh Vpn.Connected c).2 = viewOf c) as ->; [| done].
    unfold commonState. rewrite !then_eq. autorewrite with views. rewrite !bind_eq. cbn [get fst snd].
    assert (Hp : forall (b : bool) c', viewOf ((if b then startLivePing fresh else stopLivePing) c').2 = viewOf c')
      by (intros [] c'; [apply view_startLivePing | apply view_stopLivePing]).
    rewrite Hp. set (c1 := (setManualTimer None _).2). destruct Hi as [Hph _]. change (m_autoPhase c1) with (m_autoPhase c).
    rewrite (bool_decide_eq_false_2 (m_autoPhase c = PhaseConnecting)) by (cbn in Hph; congruence). by destruct (m_autoCandidates c1 !! _).
  - unfold Quiet. rewrite view_common by done. by destruct state.
Qed.

Lemma quiet_state fresh state c : Idle (viewOf c) ->
  Quiet c (onConnectionStateChanged replaceEndpoint freePort bounded containersConfig fresh state c).2.
Proof.
  intros Hi. unfold onConnectionStateChanged. rewrite then_eq. set (c1 := (_ c).2).
  assert (Hc1 : viewOf c1 = viewOf c) by (unfold c1; by destruct state). clearbody c1.
  assert (Hi1 : Idle (viewOf c1)) by (by rewrite Hc1). rewrite !bind_eq. cbn [get fst snd]. destruct Hi1 as [Hp H0]. cbn in Hp, H0.
  rewrite (bool_decide_eq_false_2 (m_autoPhase c1 = PhaseConnecting)) by congruence.
  assert (m_ipPoolPos c1 >=? 0 = false) as -> by (rewrite Z.geb_leb; apply Z.leb_gt; lia).
  cbn [fst snd mret ST_ret]. unfold Quiet. rewrite <- Hc1. by apply quiet_common.
Qed.

Lemma quiet_close c : Quiet c (closeConnection c).2.
Proof.
  unfold closeConnection, Quiet, Idle. rewrite !then_eq, bind_eq. cbn [get fst snd]. autorewrite with views.
  cbn [withPool v_phase v_pos v_dials]. case_bool_decide as E; [autorewrite with views; split; [split; [exact E | lia] | reflexivity] |].
  unfold cancelAutoSelection, giveUpText. rewrite !then_eq. autorewrite with views. split; [split; [done | lia] | done].
Qed.

Lemma quiet_idle e c : opens e = false -> Idle (viewOf c) -> Quiet c (on e c).2.
Proof.
  intros He Hi. unfold onEvent. rewrite bind_eq. cbn [get fst snd]. pose proof Hi as [Hp H0]. cbn in Hp, H0.
  assert (Hnp : bool_decide (m_autoPhase c = Probing) = false) by (apply bool_decide_eq_false_2; congruence).
  assert (Hnc : bool_decide (m_autoPhase c = PhaseConnecting) = false) by (apply bool_decide_eq_false_2; congruence).
  destruct e; try done.
  - by apply quiet_state.
  - unfold onBytesChanged. rewrite bind_eq. cbn [get fst snd]. rewrite Hnc. cbn [andb]. repeat case_if; done.
  - destruct (autoAttemptTimer c); [| done]. unfold onAutoAttemptTimeout. rewrite then_eq, bind_eq. cbn [get fst snd].
    change (m_autoPhase (setAttemptTimer None c).2) with (m_autoPhase c). by rewrite Hnc.
  - destruct (ipTrafficTimer c); [| done]. unfold onIpTrafficTimeout. rewrite then_eq, bind_eq. cbn [get fst snd].
    case_if; [done |]. rewrite then_eq, bind_eq, idle_retry by done. cbn [fst snd]. rewrite !then_eq.
    unfold Quiet, Idle. autorewrite with views. done.
  - destruct (manualConnectTimer c); [| done]. unfold onManualConnectTimeout. rewrite then_eq, bind_eq, idle_retry by done.
    cbn [fst snd]. unfold giveUpText. rewrite !then_eq. unfold Quiet, Idle. autorewrite with views. done.
  - destruct (autoProbeTimer c); [| done]. rewrite then_eq. unfold onAutoProbeSettled. rewrite bind_eq. cbn [get fst snd].
    change (m_autoPhase (setProbeTimer None c).2) with (m_autoPhase c). by rewrite Hnp.
  - destruct (cc_watching c); [| done]. unfold onAutoProbeSettled. rewrite bind_eq. cbn [get fst snd]. by rewrite Hnp.
  - destruct (cc_watching c); [| done]. unfold onAutoHealthUpdated. rewrite bind_eq. cbn [get fst snd]. by rewrite Hnp.
  - unfold onTranslationsUpdated. rewrite bind_eq. cbn [get fst snd]. by apply quiet_state.
  - destruct (pingTimer c); [| done]. unfold Quiet. by rewrite view_probeLivePing.
  - unfold Quiet. by rewrite view_finishLivePing.
  - apply quiet_close.
Qed.

Lemma quiet_events es c : Forall (fun e => opens e = false) es -> Idle (viewOf c) -> Quiet c (forEach on es c).2.
Proof.
  intros He. revert c. induction He as [| e es He _ IH]; intros c Hi; [done |]. cbn [forEach]. rewrite then_eq.
  destruct (quiet_idle e c He Hi) as [Hi1 Hd1]. destruct (IH _ Hi1) as [Hi2 Hd2]. split; [done |]. congruence.
Qed.

(** C17 (safety): disconnecting is final: once the user has asked for it, no
    late state of the VPN connection, no timer, no result of the health check
    and no change of language dials anything, until the user connects again;
    the selection is over, the pool is empty and the VPN connection was told. *)
Theorem cancel_final es c : Forall (fun e => opens e = false) es ->
  let c' := (forEach on (evClose :: es) c).2 in
  dialsOf (cc_out c') = dialsOf (cc_out c) /\ m_autoPhase c' = PhaseNone /\ m_ipPoolPos c' < 0
  /\ last (cc_out (on evClose c).2) = Some disconnectFromVpn.
Proof.
  intros He. cbn [forEach]. rewrite then_eq. destruct (quiet_close c) as [Hi Hd].
  destruct (quiet_events es (closeConnection c).2 He Hi) as [[Hp H0] Hd2]. change ((on evClose c).2) with (closeConnection c).2.
  split_and!; [exact (eq_trans Hd2 Hd) | done | done |].
  unfold closeConnection. rewrite !then_eq, send_eq. cbn [setOut modify snd cc_out]. apply last_snoc.
Qed.
End Cancellation.

(** ** A manual connection *)

(** The events after which a manual attempt has failed. *)
Inductive manualFailing : CcEvent -> Prop :=
| manual_error fresh : manualFailing (evState fresh Vpn.Error)
| manual_unknown fresh : manualFailing (evState fresh Vpn.Unknown)
| manual_reconnecting fresh : manualFailing (evState fresh Vpn.Reconnecting)
| manual_timeout : manualFailing evManualTimeout.

(** What is reported when there is no other address. *)
Definition manualError (e : CcEvent) : CcError :=
  match e with evState _ Vpn.Reconnecting | evManualTimeout => ServerConnectionTimeoutError | _ => LastError end.

Record Manual (c : ConnectionController) : Prop := {
  ma_phase : m_autoPhase c = PhaseNone;
  ma_pos : 0 <= m_ipPoolPos c;
  ma_timer : manualConnectTimer c <> None
}.

Section ManualPool.
Context `{Qt}.
Context (replaceEndpoint : string -> string -> string) (freePort : option Z) (bounded : nat -> Z -> Z)
  (containersConfig : DockerContainer -> QJsonObject) (installConfig : Z -> ServersModel -> ServersModel).
Implicit Types c : ConnectionController.

Local Abbreviation retry := (retryWithNextIp replaceEndpoint freePort containersConfig).
Local Abbreviation on := (onEvent replaceEndpoint freePort bounded containersConfig installConfig).

(** The entries that are left. *)
Definition remaining (c : ConnectionController) : list PoolEntry := drop (Z.to_nat (m_ipPoolPos c + 1)) (m_ipPool c).

Lemma remaining_next c : Manual c -> head (remaining c) = nextEntry (viewOf c).
Proof.
  intros [_ H0 _]. unfold remaining, nextEntry. cbn [viewOf v_pos v_pool]. rewrite (proj2 (Z.ltb_ge _ _)) by done.
  rewrite <- (Nat.add_0_r (Z.to_nat _)) at 2. rewrite <- lookup_drop. by destruct (drop _ _).
Qed.

Lemma manual_retry c e : m_autoPhase c = PhaseNone -> 0 <= m_ipPoolPos c -> nextEntry (viewOf c) = Some e ->
  let c' := (retry c).2 in
  (retry c).1 = true /\ Manual c' /\ remaining c' = tail (remaining c) /\ cc_model c' = cc_model c
  /\ dialsOf (cc_out c') = dialsOf (cc_out c) ++ [hostOf (cc_model c) e] /\ errorsOf (cc_out c') = errorsOf (cc_out c).
Proof.
  intros Hp H0 En. destruct (retry_some replaceEndpoint freePort containersConfig c e En) as (E1 & _ & Ev).
  cbv zeta. split; [done |]. pose proof (f_equal v_pos Ev) as Epos. pose proof (f_equal v_pool Ev) as Epool.
  pose proof (f_equal v_phase Ev) as Eph. cbn in Epos, Epool, Eph. split_and!.
  - constructor; [congruence | lia |]. revert En. unfold nextEntry, retryWithNextIp. rewrite bind_eq. cbn [get fst snd viewOf v_pos v_pool].
    destruct (m_ipPoolPos c <? 0); [done |]. intros ->. rewrite !then_eq.
    set (c1 := (setTrafficTimer None (setIpAwaiting false (setPoolPos (m_ipPoolPos c + 1) c).2).2).2).
    assert (Hp1 : m_autoPhase c1 = PhaseNone) by exact Hp. destruct (connectIp_eq replaceEndpoint freePort containersConfig (pe_row e) (pe_ip e) c1) as (out & -> & _).
    rewrite Hp, Hp1. by rewrite bool_decide_eq_false_2.
  - unfold remaining. rewrite Epos, Epool. replace (Z.to_nat (m_ipPoolPos c + 1 + 1)) with (Z.to_nat (m_ipPoolPos c + 1) + 1)%nat by lia.
    rewrite <- drop_drop. by destruct (drop _ (m_ipPool c)).
  - exact (f_equal v_model Ev).
  - exact (f_equal v_dials Ev).
  - exact (f_equal v_errors Ev).
Qed.

(** A state the branch of the pool deals with. *)
Lemma manual_state fresh state c : Manual c ->
  state = Vpn.Error \/ state = Vpn.Unknown \/ state = Vpn.Reconnecting \/ state = Vpn.Disconnected ->
  (on (evState fresh state) c).2 =
    let r := poolBranch replaceEndpoint freePort containersConfig state c in
    if r.1 then r.2 else (commonState fresh state r.2).2.
Proof.
  intros [Hp H0 _] Hs. unfold onEvent, onConnectionStateChanged. rewrite bind_eq. cbn [get fst snd]. rewrite then_eq, !bind_eq.
  assert (((match state with Vpn.Connected => setAdvancing false ;; setSwitching false
     | Vpn.Connecting | Vpn.Preparing => setSwitching false | _ => mret tt end : ST ConnectionController unit) c).2 = c) as ->
    by (by destruct Hs as [-> | [-> | [-> | ->]]]).
  cbn [get fst snd]. rewrite (bool_decide_eq_false_2 (m_autoPhase c = PhaseConnecting)) by congruence.
  assert (m_ipPoolPos c >=? 0 = true) as -> by (rewrite Z.geb_leb; by apply Z.leb_le).
  cbv zeta. by destruct (poolBranch _ _ _ _ c).1.
Qed.

(** What a failed attempt leaves when another address is dialled. *)
Definition Advanced (entry : PoolEntry) (c c' : ConnectionController) : Prop :=
  Manual c' /\ remaining c' = tail (remaining c) /\ cc_model c' = cc_model c
  /\ dialsOf (cc_out c') = dialsOf (cc_out c) ++ [hostOf (cc_model c) entry] /\ errorsOf (cc_out c') = errorsOf (cc_out c).

Lemma advanced_state entry st c c' : Advanced entry c c' -> Advanced entry c (setCState st c').2.
Proof. intros ([Hp H0 Ht] & Hr & Hm & Hd & He). split; [by constructor | done]. Qed.

(** The branch of the pool after a failed attempt. *)
Lemma manual_branch state c : Manual c -> state = Vpn.Error \/ state = Vpn.Unknown \/ state = Vpn.Reconnecting ->
  let r := poolBranch replaceEndpoint freePort containersConfig state c in
  match nextEntry (viewOf c) with
  | Some entry => r.1 = true /\ Advanced entry c r.2
  | None => r.1 = bool_decide (state = Vpn.Reconnecting)
      /\ viewOf r.2 = (if bool_decide (state = Vpn.Reconnecting) then withError ServerConnectionTimeoutError else id) (withPool [] (-1) (viewOf c))
  end.
Proof.
  intros Hm Hs. pose proof Hm as [Hp H0 Ht]. set (c0 := (setTrafficTimer None (setIpAwaiting false c).2).2).
  assert (En0 : nextEntry (viewOf c0) = nextEntry (viewOf c)) by reflexivity.
  cbv zeta. unfold poolBranch. rewrite bind_eq. cbn [get fst snd]. destruct (nextEntry (viewOf c)) as [entry |] eqn:En.
  - destruct (manual_retry c entry Hp H0 En) as (E1 & Ha). destruct (manual_retry c0 entry Hp H0 En0) as (E10 & Ha0).
    destruct Hs as [-> | [-> | ->]]; rewrite ?then_eq; try fold c0; rewrite bind_eq, ?E1, ?E10, then_eq; (split; [done |]); apply advanced_state.
    + exact Ha.
    + exact Ha.
    + exact Ha0.
  - destruct Hs as [-> | [-> | ->]]; rewrite ?then_eq; try fold c0; rewrite bind_eq, retry_none by done; cbn [fst snd];
      unfold giveUpText; rewrite !then_eq; (split; [done |]); autorewrite with views; done.
Qed.

(** A failed attempt: another address is dialled, or the error is reported. *)
Lemma manual_step e c : Manual c -> manualFailing e ->
  match nextEntry (viewOf c) with
  | Some entry => Advanced entry c (on e c).2
  | None => viewOf (on e c).2 = withError (manualError e) (withPool [] (-1) (viewOf c))
  end.
Proof.
  intros Hm Hf. destruct Hf as [fresh | fresh | fresh |].
  1-3: rewrite manual_state by auto.
  - pose proof (manual_branch Vpn.Error c Hm ltac:(auto)) as Hb. destruct (nextEntry (viewOf c)); destruct Hb as [E Hb]; cbv zeta; rewrite E; [done |].
    cbn [bool_decide]. rewrite bool_decide_eq_false_2 in * by done. rewrite view_common, Hb by done. done.
  - pose proof (manual_branch Vpn.Unknown c Hm ltac:(auto)) as Hb. destruct (nextEntry (viewOf c)); destruct Hb as [E Hb]; cbv zeta; rewrite E; [done |].
    rewrite bool_decide_eq_false_2 in * by done. rewrite view_common, Hb by done. done.
  - pose proof (manual_branch Vpn.Reconnecting c Hm ltac:(auto)) as Hb. destruct (nextEntry (viewOf c)); destruct Hb as [E Hb]; cbv zeta; rewrite E; [done |].
    rewrite bool_decide_eq_true_2 in * by done. by rewrite Hb.
  - unfold onEvent. rewrite bind_eq. cbn [get fst snd]. pose proof Hm as [Hp H0 Ht]. destruct (manualConnectTimer c) as [t |] eqn:Et; [| done].
    unfold onManualConnectTimeout. rewrite then_eq, bind_eq.
    set (c0 := (setManualTimer None c).2). assert (En0 : nextEntry (viewOf c0) = nextEntry (viewOf c)) by reflexivity.
    destruct (nextEntry (viewOf c)) as [entry |].
    + destruct (manual_retry c0 entry Hp H0 En0) as (E1 & Ha). rewrite E1, ret_state. exact Ha.
    + rewrite retry_none by done. cbn [fst snd]. unfold giveUpText. rewrite !then_eq. autorewrite with views. done.
Qed.

End ManualPool.

(** ** Success *)

Lemma default_index i (m : ServersModel) :
  let m' := (Model.setDefaultServerIndex i m).2 in m_defaultServerIndex m' = i /\ defaultServerIndex (sm_settings m') = i.
Proof.
  pose proof (setDefault_effect i m) as E. pose proof (f_equal m_defaultServerIndex E) as E1. pose proof (f_equal sm_settings E) as E2.
  cbv zeta. split; [exact E1 |]. transitivity (defaultServerIndex (Store.setDefaultServer i (sm_settings m))); [exact (f_equal defaultServerIndex E2) |].
  apply default_setDefault.
Qed.

(** The candidate is the one in use. *)
Record Accepted (a : AutoCandidate) (c c' : ConnectionController) : Prop := {
  acc_phase : m_autoPhase c' = PhaseNone;
  acc_default : m_defaultServerIndex (cc_model c') = ac_row a;
  acc_stored : defaultServerIndex (sm_settings (cc_model c')) = ac_row a;
  acc_pool : m_ipPoolPos c' = -1;
  acc_timer : autoAttemptTimer c' = None;
  acc_connected : m_isConnected c' = true;
  acc_dials : dialsOf (cc_out c') = dialsOf (cc_out c);
  acc_errors : errorsOf (cc_out c') = errorsOf (cc_out c)
}.

Section Success.
Context `{Qt}.
Context (replaceEndpoint : string -> string -> string) (freePort : option Z) (bounded : nat -> Z -> Z)
  (containersConfig : DockerContainer -> QJsonObject) (installConfig : Z -> ServersModel -> ServersModel).
Implicit Types c : ConnectionController.

Local Abbreviation on := (onEvent replaceEndpoint freePort bounded containersConfig installConfig).

Lemma finalize_accepts a c : m_autoCandidates c !! Z.to_nat (m_autoCandidatePos c) = Some a -> m_isConnected c = true ->
  Accepted a c (finalizeAutoSuccess c).2.
Proof.
  intros Ha Hc. unfold finalizeAutoSuccess, resetIpPool. rewrite !then_eq, bind_eq. cbn [get fst snd].
  change (m_autoCandidates (setAutoAwaiting false (setAttemptTimer None c).2).2
    !! Z.to_nat (m_autoCandidatePos (setAutoAwaiting false (setAttemptTimer None c).2).2))
    with (m_autoCandidates c !! Z.to_nat (m_autoCandidatePos c)). rewrite Ha, onModel_eq.
  change (cc_model (setAutoAwaiting false (setAttemptTimer None c).2).2) with (cc_model c).
  destruct (default_index (ac_row a) (cc_model c)) as [E1 E2]. generalize dependent (Model.setDefaultServerIndex (ac_row a) (cc_model c)).2.
  intros m E1 E2. constructor; try done; [exact (eq_trans (dialsOf_snoc (cc_out c) connectionStateChanged) (app_nil_r _)) | exact (eq_trans (errorsOf_snoc (cc_out c) connectionStateChanged) (app_nil_r _))].
Qed.

Lemma accepted_send a o c c' : dialOf o = None -> errorOf o = None -> Accepted a c c' -> Accepted a c (send o c').2.
Proof.
  intros Ho He [A1 A2 A3 A4 A5 A6 A7 A8]. rewrite send_eq. constructor; try done; cbn [setOut modify snd cc_out].
  - by rewrite dialsOf_snoc, Ho, app_nil_r.
  - by rewrite errorsOf_snoc, He, app_nil_r.
Qed.

Lemma accepted_ping a fresh c c' : Accepted a c c' -> Accepted a c (startLivePing fresh c').2.
Proof.
  intros Ha. unfold startLivePing. rewrite bind_eq. cbn [get fst snd]. case_if; [done |]. rewrite then_eq.
  unfold probeLivePing. rewrite bind_eq. cbn [get fst snd]. case_if; [by destruct Ha |]. rewrite then_eq.
  apply accepted_send; [done | done |]. by destruct Ha.
Qed.

(** The controller waits for traffic: the attempt goes on, supervised. *)
Record Awaiting (c c' : ConnectionController) : Prop := {
  aw_trying : Trying c';
  aw_timer : autoAttemptTimer c' = Some kAutoTrafficTimeoutMs;
  aw_waits : m_autoAwaitingTraffic c' = true;
  aw_connected : m_isConnected c' = true;
  aw_cands : m_autoCandidates c' = m_autoCandidates c /\ m_autoCandidatePos c' = m_autoCandidatePos c;
  aw_dials : dialsOf (cc_out c') = dialsOf (cc_out c);
  aw_errors : errorsOf (cc_out c') = errorsOf (cc_out c)
}.

Lemma awaiting_send o c c' : dialOf o = None -> errorOf o = None -> Awaiting c c' -> Awaiting c (send o c').2.
Proof.
  intros Ho He [[T1 T2 T3 T4] A2 A3 A4 A5 A6 A7]. rewrite send_eq. constructor; try done; cbn [setOut modify snd cc_out].
  - by rewrite dialsOf_snoc, Ho, app_nil_r.
  - by rewrite errorsOf_snoc, He, app_nil_r.
Qed.

Lemma awaiting_ping fresh c c' : Awaiting c c' -> Awaiting c (startLivePing fresh c').2.
Proof.
  intros Ha. unfold startLivePing. rewrite bind_eq. cbn [get fst snd]. case_if; [done |]. rewrite then_eq.
  assert (Ha' : Awaiting c (setPingTimer true c').2) by (destruct Ha as [[] ? ? ? ? ? ?]; by constructor).
  unfold probeLivePing. rewrite bind_eq. cbn [get fst snd]. case_if; [done |]. rewrite then_eq.
  apply awaiting_send; [done | done |]. destruct Ha' as [[] ? ? ? ? ? ?]; by constructor.
Qed.

(** The tunnel of the current candidate is up. *)
Lemma connected_step fresh a c : Trying c -> m_autoCandidates c !! Z.to_nat (m_autoCandidatePos c) = Some a ->
  if handshakeGated (Model.defaultContainerRole (cc_model c) (ac_row a)) then Accepted a c (on (evState fresh Vpn.Connected) c).2
  else Awaiting c (on (evState fresh Vpn.Connected) c).2.
Proof.
  intros [Hp Ht Hc H0] Ha. unfold onEvent, onConnectionStateChanged. rewrite bind_eq. cbn [get fst snd]. rewrite !then_eq, !bind_eq. cbn [get fst snd].
  set (c0 := (setSwitching false (setAdvancing false c).2).2). change (m_autoPhase c0) with (m_autoPhase c).
  rewrite bool_decide_eq_true_2 by done. unfold autoBranch. rewrite then_eq, bind_eq. cbn [get fst snd].
  set (c1 := (setAttemptTimer None c0).2). change (m_autoCandidatePos c1) with (m_autoCandidatePos c).
  change (m_autoCandidates c1) with (m_autoCandidates c). rewrite (proj2 (Z.ltb_lt _ _)) by lia. rewrite !then_eq. cbn [fst snd mret ST_ret].
  unfold commonState. rewrite !then_eq, !bind_eq. cbn [get fst snd].
  set (c2 := (setManualTimer None _).2). change (m_autoCandidates c2 !! Z.to_nat (m_autoCandidatePos c2)) with (m_autoCandidates c !! Z.to_nat (m_autoCandidatePos c)).
  rewrite Ha. change (cc_model c2) with (cc_model c). change (m_autoPhase c2) with (m_autoPhase c). change (m_autoAwaitingTraffic c2) with true.
  rewrite Hp, bool_decide_eq_true_2 by done. cbn [andb].
  destruct (handshakeGated _).
  - assert (Hf : Accepted a c (finalizeAutoSuccess c2).2) by (destruct (finalize_accepts a c2 Ha eq_refl); by constructor).
    rewrite (acc_connected _ _ _ Hf). by apply accepted_send, accepted_ping.
  - rewrite ret_state. change (m_isConnected c2) with true. apply awaiting_send; [done | done |]. apply awaiting_ping. by constructor.
Qed.

(** C28 (functional): automatic selection ends with success when the tunnel of
    the current candidate is up, right away when the protocol reports it after
    a handshake, and otherwise on the first bytes that are received, the
    attempt being supervised until then: the candidate becomes the default
    server, in the model and in the settings, the pool and the selection are
    dropped, and nothing more is dialled. *)
Theorem auto_success fresh a n c :
  Trying c -> m_autoCandidates c !! Z.to_nat (m_autoCandidatePos c) = Some a -> 0 < n ->
  let up := (on (evState fresh Vpn.Connected) c).2 in
  if handshakeGated (Model.defaultContainerRole (cc_model c) (ac_row a)) then Accepted a c up
  else autoAttemptTimer up = Some kAutoTrafficTimeoutMs /\ (on (evBytes 0) up).2 = up /\ Accepted a c (on (evBytes n) up).2.
Proof.
  intros Ht Ha Hn up. pose proof (connected_step fresh a c Ht Ha) as Hs. fold up in Hs. destruct (handshakeGated _); [done |].
  clearbody up. destruct Hs as [[Hp _ _ _] H1 H2 H3 [H4 H5] H6 H7]. unfold onEvent. rewrite !bind_eq. cbn [get fst snd].
  unfold onBytesChanged. rewrite !bind_eq. cbn [get fst snd]. rewrite H2, Hp, bool_decide_eq_true_2 by done. cbn [andb].
  rewrite (proj2 (Z.gtb_lt n 0)) by done. split_and!; [done | done |].
  rewrite <- H4, <- H5 in Ha. destruct (finalize_accepts a up Ha H3). constructor; congruence.
Qed.
End Success.

(** ** The teardown of the previous tunnel *)

Section Teardown.
Context `{Qt}.
Context (replaceEndpoint : string -> string -> string) (freePort : option Z) (bounded : nat -> Z -> Z)
  (containersConfig : DockerContainer -> QJsonObject) (installConfig : Z -> ServersModel -> ServersModel).
Implicit Types c : ConnectionController.

Local Abbreviation on := (onEvent replaceEndpoint freePort bounded containersConfig installConfig).

Lemma switching_ping (b : bool) fresh c :
  m_connectionSwitching ((if b then startLivePing fresh else stopLivePing) c).2 = m_connectionSwitching c.
Proof.
  destruct b.
  - unfold startLivePing, probeLivePing. rewrite bind_eq. cbn [get fst snd]. case_if; [done |]. rewrite then_eq, bind_eq. cbn [get fst snd]. by case_if.
  - unfold stopLivePing, closeSocket. rewrite !then_eq, bind_eq. cbn [get fst snd]. by case_if.
Qed.

Lemma switching_connecting fresh c : m_connectionSwitching (commonState fresh Vpn.Connecting c).2 = m_connectionSwitching c.
Proof.
  unfold commonState. rewrite !then_eq, bind_eq. cbn [get fst snd]. set (c1 := (setInProgress true _).2).
  assert (Hc : m_connectionSwitching c1 = m_connectionSwitching c) by reflexivity. clearbody c1. rewrite <- Hc.
  exact (switching_ping (m_isConnected c1) fresh c1).
Qed.

Lemma teardown_before fresh c : Manual c -> m_connectionSwitching c = true ->
  viewOf (on (evState fresh Vpn.Disconnected) c).2 = viewOf c.
Proof.
  intros Hm Hs. rewrite manual_state by auto. unfold poolBranch. rewrite bind_eq. cbn [get fst snd]. rewrite Hs. cbn [fst snd mret ST_ret].
  exact (view_common fresh Vpn.Disconnected c ltac:(done)).
Qed.

Lemma connecting_step fresh c : Manual c ->
  let c1 := (on (evState fresh Vpn.Connecting) c).2 in viewOf c1 = viewOf c /\ m_connectionSwitching c1 = false.
Proof.
  intros [Hp H0 Ht]. cbv zeta. unfold onEvent, onConnectionStateChanged. rewrite bind_eq. cbn [get fst snd]. rewrite then_eq, !bind_eq. cbn [get fst snd].
  set (c0 := (setSwitching false c).2). assert (Hs : m_connectionSwitching c0 = false) by reflexivity. assert (Hv : viewOf c0 = viewOf c) by reflexivity.
  rewrite (bool_decide_eq_false_2 (m_autoPhase c0 = PhaseConnecting)) by (unfold c0; ccs; congruence).
  assert (m_ipPoolPos c0 >=? 0 = true) as -> by (rewrite Z.geb_leb; by apply Z.leb_le).
  clearbody c0. unfold poolBranch. rewrite bind_eq. cbn [get fst snd mret ST_ret].
  split; [by rewrite view_common | by rewrite switching_connecting].
Qed.

Lemma teardown_after fresh entry c : m_autoPhase c = PhaseNone -> 0 <= m_ipPoolPos c -> m_connectionSwitching c = false ->
  nextEntry (viewOf c) = Some entry ->
  v_dials (viewOf (on (evState fresh Vpn.Disconnected) c).2) = v_dials (viewOf c) ++ [hostOf (cc_model c) entry].
Proof.
  intros Hp H0 Hs En. unfold onEvent, onConnectionStateChanged. rewrite bind_eq. cbn [get fst snd]. rewrite then_eq, !bind_eq. cbn [get fst snd].
  rewrite ret_state, (bool_decide_eq_false_2 (m_autoPhase c = PhaseConnecting)) by congruence.
  assert (m_ipPoolPos c >=? 0 = true) as -> by (rewrite Z.geb_leb; by apply Z.leb_le).
  unfold poolBranch. rewrite bind_eq. cbn [get fst snd]. rewrite Hs, !bind_eq.
  destruct (retry_some replaceEndpoint freePort containersConfig c entry En) as (E1 & _ & Er). rewrite E1, !then_eq. cbn [fst snd mret ST_ret].
  autorewrite with views. by rewrite Er.
Qed.

(** While a manual connection moves from one address to the next,
    the [Disconnected] of the tunnel that is torn down is not taken for a
    failure, but only when it arrives before the [Connecting] of the new one:
    that state ends the switch, and a [Disconnected] after it, which is the
    order in which the VPN connection reports them, skips the address that is
    being dialled. *)
Theorem teardown_order fresh1 fresh2 entry c :
  Manual c -> m_connectionSwitching c = true -> nextEntry (viewOf c) = Some entry ->
  dialsOf (cc_out (on (evState fresh1 Vpn.Disconnected) c).2) = dialsOf (cc_out c)
  /\ dialsOf (cc_out (on (evState fresh2 Vpn.Disconnected) (on (evState fresh1 Vpn.Connecting) c).2).2)
     = dialsOf (cc_out c) ++ [hostOf (cc_model c) entry].
Proof.
  intros Hm Hs En. pose proof (teardown_before fresh1 c Hm Hs) as Hb. destruct (connecting_step fresh1 c Hm) as [Hv Hs1].
  generalize dependent (on (evState fresh1 Vpn.Connecting) c).2. intros c1 Hv Hs1.
  generalize dependent (on (evState fresh1 Vpn.Disconnected) c).2. intros c2 Hb. split; [exact (f_equal v_dials Hb) |].
  destruct Hm as [Hp H0 _].
  assert (Ha : v_dials (viewOf (on (evState fresh2 Vpn.Disconnected) c1).2) = v_dials (viewOf c1) ++ [hostOf (cc_model c1) entry]).
  { apply teardown_after; [exact (eq_trans (f_equal v_phase Hv) Hp) | | done | by rewrite Hv].
    change (m_ipPoolPos c1) with (v_pos (viewOf c1)). by rewrite Hv. }
  generalize dependent (on (evState fresh2 Vpn.Disconnected) c1).2. intros c3 Ha.
  pose proof (f_equal v_model Hv) as Em. cbn in Em. rewrite Hv, Em in Ha. exact Ha.
Qed.
End Teardown.

(** ** Witnesses *)

Module ConnectionSample.
Definition node (ips : list string) : json :=
  JObject (<["hostName" := jstr "vpn.example"]> (<["node_ips" := JArray (map jstr ips)]> {["defaultContainer"%string := jstr "amnezia-awg"]})).
Definition model : ServersModel :=
  mkServers ∅ [node ["10.0.0.1"; "10.0.0.2"]; node []] 0 0 true (mkStacks ∅ ∅) ∅ [] [] [] [].
Definition candidates : list AutoCandidate := [mkCandidate 0 6 (-2); mkCandidate 1 6 (-2)].
Definition pool : list PoolEntry := [mkEntry 0 "10.0.0.2"; mkEntry 0 "10.0.0.1"].

(** The first address of the pool was dialled, by hand or automatically. *)
Definition dialled (phase : AutoPhase) : ConnectionController :=
  mkCC model pool 0 "10.0.0.2" true false phase (if decide (phase = PhaseConnecting) then candidates else []) 0
    (bool_decide (phase = PhaseConnecting)) false None
    (if decide (phase = PhaseConnecting) then Some kAutoAttemptTimeoutMs else None) None
    (if decide (phase = PhaseNone) then Some kManualConnectTimeoutMs else None)
    false true "Connecting..." Vpn.Connecting false None "" 0 false 1 [].

Lemma trying : Trying (dialled PhaseConnecting).
Proof. constructor; [done | done | split; by vm_compute | by vm_compute]. Qed.
Lemma manual : Manual (dialled PhaseNone).
Proof. constructor; [done | by vm_compute | done]. Qed.
End ConnectionSample.
Import ConnectionSample.
Local Abbreviation on := (onEvent (H := plainQt) (fun _ s => s) None (fun _ _ => 0) (fun _ => ∅) (fun _ m => m)).

Lemma pool_addresses_witness : mkEntry 0 "10.0.0.2" ∈ buildPool (H := plainQt) model 0 /\ isVlessCdnRow (H := plainQt) model 0 = false
  /\ exists e, e ∈ buildPool (H := plainQt) model 0 /\ pe_ip e = "10.0.0.1"%string.
Proof.
  split; [vm_compute; right; left |]. split; [reflexivity |].
  apply (pool_addresses (H := plainQt) model 0 eq_refl) with (row := 0); vm_compute; left.
Defined.

Lemma candidates_order_witness : candidates = buildAutoCandidates (H := plainQt) model.
Proof.
  apply (candidates_order (H := plainQt) model candidates); [reflexivity |].
  repeat constructor.
Defined.



Lemma attempts_supervised_witness : Supervised (viewOf (on (evState 1 Vpn.Error) (dialled PhaseConnecting)).2).
Proof.
  apply (attempts_supervised (H := plainQt) (fun _ s => s) None (fun _ _ => 0) (fun _ => ∅) (fun _ m => m)).
  apply trying_sup, trying.
Defined.

Lemma cancel_final_witness :
  dialsOf (cc_out (forEach on [evClose; evState 1 Vpn.Disconnected; evManualTimeout] (dialled PhaseNone)).2) = [].
Proof.
  apply (cancel_final (H := plainQt) (fun _ s => s) None (fun _ _ => 0) (fun _ => ∅) (fun _ m => m)
    [evState 1 Vpn.Disconnected; evManualTimeout] (dialled PhaseNone)).
  repeat constructor.
Defined.


Lemma auto_success_witness :
  Accepted (mkCandidate 0 6 (-2)) (dialled PhaseConnecting) (on (evState 1 Vpn.Connected) (dialled PhaseConnecting)).2.
Proof.
  apply (auto_success (H := plainQt) (fun _ s => s) None (fun _ _ => 0) (fun _ => ∅) (fun _ m => m)
    1 (mkCandidate 0 6 (-2)) 1 (dialled PhaseConnecting)); [apply trying | reflexivity | lia].
Defined.

Lemma teardown_order_witness :
  dialsOf (cc_out (on (evState 2 Vpn.Disconnected) (on (evState 1 Vpn.Connecting) (dialled PhaseNone)).2).2) = [mkEntry 0 "10.0.0.1"].
Proof.
  apply (teardown_order (H := plainQt) (fun _ s => s) None (fun _ _ => 0) (fun _ => ∅) (fun _ m => m)
    1 2 (mkEntry 0 "10.0.0.1") (dialled PhaseNone)); [apply manual | reflexivity | reflexivity].
Defined.
