(* ===== verification/HealthCheck.v ===== *)
(** * The health check:
      [client/ui/controllers/healthCheckController.h] and [.cpp]

    Every server is probed at its entry addresses: VLESS with a TCP connection
    (an HTTPS request for a CDN front), WireGuard with a handshake on a worker
    thread.  Rows that share an endpoint share its probe.  At most eight
    sockets and three handshakes run at a time, and a failed attempt is
    repeated once.  The events are what sockets, timers and worker threads
    report, in any order.  The build is the one for Linux, which has no probe
    of hysteria2. *)

From Stdlib Require Import ZArith Lia Bool String Ascii.
From stdpp Require Import base gmap strings list pretty.
From S2P Require Import Prelude.
From S2P Require Import Qt.
From S2P Require Import Settings.
From S2P Require Import Containers.
From S2P Require Import ServerStore.
From S2P Require Import Servers.

Open Scope Z_scope.

(** ** Data *)

Record Target : Type := mkTarget {
  t_rows : list Z; t_host : string; t_port : Z; t_sni : string; t_path : string; t_https : bool }.
#[export] Instance Target_eq_dec : EqDecision Target.
Proof. solve_decision. Defined.

Record WgTarget : Type := mkWg {
  w_rows : list Z; w_host : string; w_port : Z; w_priv : string; w_pub : string; w_psk : string; w_junk : string; w_attempts : Z }.
#[export] Instance WgTarget_eq_dec : EqDecision WgTarget.
Proof. solve_decision. Defined.

Inductive HcOutput : Type :=
| connectToHost (socket : nat) (host : string) (port : Z)
| connectToHostEncrypted (socket : nat) (host : string) (port : Z) (sni : string)
| socketWrite (socket : nat) (text : string)
| abortSocket (socket : nat)
| startTimer (socket : nat) (attempt : Z) (ms : Z)
| runProbe (watcher : nat) (target : WgTarget)
| probingFinished.

Record HealthCheck : Type := mkHc {
  hc_servers : ServersModel;
  m_queue : list Target;
  m_socketTargets : gmap nat Target;
  m_attempts : gmap nat Z;
  m_seenTcpEndpoints : gmap string nat;
  m_wgQueue : list WgTarget;
  m_wgWatchers : gmap nat WgTarget;
  m_seenWgEndpoints : gmap string nat;
  m_lastRunMsecs : Z;
  m_probeActive : bool;
  hc_fresh : nat;                 (** the next socket or watcher *)
  hc_out : list HcOutput
}.

Definition kMaxParallel : nat := 8.
Definition kWgMaxParallel : nat := 3.
Definition kTimeoutMs : Z := 2500.
Definition kHttpsTimeoutMs : Z := 4000.
Definition kThrottleMs : Z := 30000.

Abbreviation HC := (ST HealthCheck).

(** Assignments to the members. *)
Definition setServersModel (x : ServersModel) : HC unit := modify (fun h =>
  mkHc x (m_queue h) (m_socketTargets h) (m_attempts h) (m_seenTcpEndpoints h) (m_wgQueue h) (m_wgWatchers h)
    (m_seenWgEndpoints h) (m_lastRunMsecs h) (m_probeActive h) (hc_fresh h) (hc_out h)).
Definition setTcp (q : list Target) (seen : gmap string nat) : HC unit := modify (fun h =>
  mkHc (hc_servers h) q (m_socketTargets h) (m_attempts h) seen (m_wgQueue h) (m_wgWatchers h)
    (m_seenWgEndpoints h) (m_lastRunMsecs h) (m_probeActive h) (hc_fresh h) (hc_out h)).
Definition setSockets (targets : gmap nat Target) (attempts : gmap nat Z) : HC unit := modify (fun h =>
  mkHc (hc_servers h) (m_queue h) targets attempts (m_seenTcpEndpoints h) (m_wgQueue h) (m_wgWatchers h)
    (m_seenWgEndpoints h) (m_lastRunMsecs h) (m_probeActive h) (hc_fresh h) (hc_out h)).
Definition setWg (q : list WgTarget) (seen : gmap string nat) : HC unit := modify (fun h =>
  mkHc (hc_servers h) (m_queue h) (m_socketTargets h) (m_attempts h) (m_seenTcpEndpoints h) q (m_wgWatchers h)
    seen (m_lastRunMsecs h) (m_probeActive h) (hc_fresh h) (hc_out h)).
Definition setWatchers (w : gmap nat WgTarget) : HC unit := modify (fun h =>
  mkHc (hc_servers h) (m_queue h) (m_socketTargets h) (m_attempts h) (m_seenTcpEndpoints h) (m_wgQueue h) w
    (m_seenWgEndpoints h) (m_lastRunMsecs h) (m_probeActive h) (hc_fresh h) (hc_out h)).
Definition setLastRun (x : Z) : HC unit := modify (fun h =>
  mkHc (hc_servers h) (m_queue h) (m_socketTargets h) (m_attempts h) (m_seenTcpEndpoints h) (m_wgQueue h) (m_wgWatchers h)
    (m_seenWgEndpoints h) x (m_probeActive h) (hc_fresh h) (hc_out h)).
Definition setActive (x : bool) : HC unit := modify (fun h =>
  mkHc (hc_servers h) (m_queue h) (m_socketTargets h) (m_attempts h) (m_seenTcpEndpoints h) (m_wgQueue h) (m_wgWatchers h)
    (m_seenWgEndpoints h) (m_lastRunMsecs h) x (hc_fresh h) (hc_out h)).
Definition setFresh (x : nat) : HC unit := modify (fun h =>
  mkHc (hc_servers h) (m_queue h) (m_socketTargets h) (m_attempts h) (m_seenTcpEndpoints h) (m_wgQueue h) (m_wgWatchers h)
    (m_seenWgEndpoints h) (m_lastRunMsecs h) (m_probeActive h) x (hc_out h)).
Definition hcSend (o : HcOutput) : HC unit := modify (fun h =>
  mkHc (hc_servers h) (m_queue h) (m_socketTargets h) (m_attempts h) (m_seenTcpEndpoints h) (m_wgQueue h) (m_wgWatchers h)
    (m_seenWgEndpoints h) (m_lastRunMsecs h) (m_probeActive h) (hc_fresh h) (hc_out h ++ [o])).

(** ** Collecting the targets *)

Definition quint16 (z : Z) : Z := z mod 65536.
Definition endpointKey (address : string) (port : Z) : string := address +:+ ":" +:+ pretty port.

(** The entry addresses of a row without repetition, or its own host. *)
Definition probeHosts (server : QJsonObject) (host : string) : list string :=
  match removeDuplicates (Model.nodeIpsOf server) with [] => [host] | l => l end.

(** A row that is to be probed at one of its addresses: a new target, or one
    more row of the target the endpoint has already. *)
Definition enqueueBy {T} (share : Z -> T -> T) (endpoint : string) (row : Z) (t : T) (qs : list T * gmap string nat) : list T * gmap string nat :=
  let '(queue, seen) := qs in
  match seen !! endpoint with
  | Some n => (alter (share row) n queue, seen)
  | None => (queue ++ [t], <[endpoint := length queue]> seen)
  end.
Definition enqueueAll {T} (share : Z -> T -> T) (keyOf : T -> string) (targets : Z -> list T) (rows : list Z) : list T * gmap string nat :=
  fold_left (fun qs i => fold_left (fun qs t => enqueueBy share (keyOf t) i t qs) (targets i) qs) rows ([], ∅).

Definition share (row : Z) (t : Target) : Target := mkTarget (t_rows t ++ [row]) (t_host t) (t_port t) (t_sni t) (t_path t) (t_https t).
Definition targetKey (t : Target) : string := endpointKey (t_host t) (t_port t).
Definition shareWg (row : Z) (t : WgTarget) : WgTarget :=
  mkWg (w_rows t ++ [row]) (w_host t) (w_port t) (w_priv t) (w_pub t) (w_psk t) (w_junk t) (w_attempts t).
Definition wgKey (t : WgTarget) : string := endpointKey (w_host t) (w_port t).

(** The endpoint of an outbound: port, address, and what an HTTPS probe asks. *)
Record Endpoint : Type := mkEndpoint { e_port : Z; e_address : string; e_https : bool; e_sni : string; e_path : string }.
Definition noEndpoint : Endpoint := mkEndpoint 0 "" false "" "".

Definition endpointFromOutbound (outbound : QJsonObject) : Endpoint :=
  match toArray (value (sub outbound "settings") "vnext") with
  | [] => noEndpoint
  | v :: _ =>
      let vnextObject := toObject (Some v) in
      let stream := sub outbound "streamSettings" in
      let https := String.eqb (field stream "security") "tls" && String.eqb (field stream "network") "xhttp" in
      mkEndpoint (quint16 (toIntJ (value vnextObject "port"))) (field vnextObject "address") https
        (if https then field (sub stream "tlsSettings") "serverName" else "")
        (if https then field (sub stream "xhttpSettings") "path" else "")
  end.

Section Collect.
Context `{Qt}.

Definition rowEndpoint (server : QJsonObject) : Endpoint :=
  match Model.containersOf server with
  | [] => noEndpoint
  | v :: _ =>
      let containerObject := toObject (Some v) in
      let configRoot := jsonObject (field (sub containerObject "xray") "config") in
      let configRoot := if bool_decide (configRoot = ∅) then jsonObject (field containerObject "config") else configRoot in
      match toArray (value configRoot "outbounds") with
      | o :: _ => endpointFromOutbound (toObject (Some o))
      | [] => if bool_decide (configRoot = ∅) then noEndpoint else endpointFromOutbound configRoot
      end
  end.

(** The probes of a row: none, or one per entry address. *)
Definition tcpTargets (m : ServersModel) (i : Z) : list Target :=
  if negb (String.eqb (Model.serviceProtocolRole m i) "vless") then []
  else
    let server := Model.serverAt m i in
    let host := field server "hostName" in
    if String.eqb host "" then []
    else
      let e := rowEndpoint server in
      if e_port e =? 0 then []
      else
        let probeHost := if String.eqb (e_address e) "" then host else e_address e in
        let hosts := if e_https e then [probeHost] else probeHosts server probeHost in
        map (fun address => mkTarget [i] address (e_port e) (if String.eqb (e_sni e) "" then address else e_sni e)
               (if String.eqb (e_path e) "" then "/"%string else e_path e) (e_https e)) hosts.

(** [s.toUShort()] *)
Definition toUShort (s : string) : Z :=
  match toUInt s with Some n => if n <? 65536 then n else 0 | None => 0 end.

(** A junk parameter as text. *)
Definition jsonText (v : option json) : string :=
  match v with
  | Some (JString q) => trimmed (qdata q)
  | Some (JDouble q) => pretty (double_to_int q)
  | _ => ""%string
  end.

Definition junkAliases : list (string * string) :=
  [("junkPacketCount", "Jc"); ("junkPacketMinSize", "Jmin"); ("junkPacketMaxSize", "Jmax"); ("initPacketJunkSize", "S1");
   ("responsePacketJunkSize", "S2"); ("cookieReplyPacketJunkSize", "S3"); ("transportPacketJunkSize", "S4");
   ("initPacketMagicHeader", "H1"); ("responsePacketMagicHeader", "H2"); ("underloadPacketMagicHeader", "H3");
   ("transportPacketMagicHeader", "H4"); ("specialJunk1", "I1"); ("specialJunk2", "I2"); ("specialJunk3", "I3");
   ("specialJunk4", "I4"); ("specialJunk5", "I5"); ("headerProtectionKey", "HeaderProtectionKey")]%string.
Definition probeJunkKeys : list string :=
  ["Jc"; "Jmin"; "Jmax"; "S1"; "S2"; "S3"; "S4"; "H1"; "H2"; "H3"; "H4"; "I1"; "I2"; "I3"; "I4"; "I5"; "HeaderProtectionKey"]%string.

Definition withAliases (params : QJsonObject) : QJsonObject :=
  fold_left (fun params '(long, short) =>
    if negb (String.eqb (jsonText (value params short)) "") then params
    else let v := jsonText (value params long) in
         if String.eqb v "" then params else <[short := jstr v]> params) junkAliases params.
Definition junkOf (params : QJsonObject) : QJsonObject :=
  fold_left (fun junk key =>
    let v := jsonText (value params key) in if String.eqb v "" then junk else <[key := jstr v]> junk) probeJunkKeys ∅.
(** [line.split('=', SkipEmptyParts)] has two parts. *)
Definition junkLine (junk : QJsonObject) (line : string) : QJsonObject :=
  match List.filter (fun s => negb (String.eqb s "")) (split "=" line) with
  | [k; v] =>
      if bool_decide (trimmed k ∈ probeJunkKeys) && negb (jcontains junk (trimmed k)) && negb (String.eqb (trimmed v) "")
      then <[trimmed k := jstr (trimmed v)]> junk else junk
  | _ => junk
  end.

Definition wgTargets (m : ServersModel) (i : Z) : list WgTarget :=
  let protocol := Model.serviceProtocolRole m i in
  if negb (String.eqb protocol "awg") && negb (String.eqb protocol "wireguard") then []
  else
    let server := Model.serverAt m i in
    match Model.containersOf server with
    | [] => []
    | v :: _ =>
        let containerObject := toObject (Some v) in
        let containerName := if String.eqb protocol "awg" then "amnezia-awg"%string else "amnezia-wireguard"%string in
        let lastConfig := jsonObject (field (sub containerObject containerName) "last_config") in
        if bool_decide (lastConfig = ∅) then []
        else
          let host := field server "hostName" in
          let host := if String.eqb host "" then field lastConfig "hostName" else host in
          let portValue := value lastConfig "port" in
          let port := quint16 (if isString portValue then toUShort (qdata (toString portValue)) else toIntJ portValue) in
          if String.eqb host "" || (port =? 0) then []
          else
            let junk := junkOf (withAliases lastConfig) in
            let ini := field (sub containerObject containerName) "config" in
            let junk := fold_left junkLine (split newline ini) junk in
            let priv := field lastConfig "client_priv_key" in
            let pub := field lastConfig "server_pub_key" in
            if String.eqb priv "" || String.eqb pub "" then []
            else map (fun address => mkWg [i] address port priv pub (field lastConfig "psk_key") (jsonPrint junk) 1)
                   (probeHosts server host)
    end.

Definition collectTcp (m : ServersModel) : list Target * gmap string nat := enqueueAll share targetKey (tcpTargets m) (Model.rows m).
Definition collectWg (m : ServersModel) : list WgTarget * gmap string nat := enqueueAll shareWg wgKey (wgTargets m) (Model.rows m).

(** ** The run *)

(** What is connected to [ServersModel::dataChanged] may stop the probes: it
    does when [reacts]. *)
Context (reacts : HealthCheck -> bool).

Definition timeoutOf (t : Target) : Z := if t_https t then kHttpsTimeoutMs else kTimeoutMs.
Definition dialSocket (s : nat) (t : Target) : HC unit :=
  if t_https t then hcSend (connectToHostEncrypted s (t_host t) (t_port t) (t_sni t)) else hcSend (connectToHost s (t_host t) (t_port t)).

(** The loop takes one target of the queue per round. *)
Fixpoint startSockets (fuel : nat) : HC unit :=
  match fuel with
  | O => mret tt
  | S fuel' =>
      h ← get;
      match m_queue h with
      | [] => mret tt
      | t :: rest =>
          if (size (m_socketTargets h) <? kMaxParallel)%nat then
            let s := hc_fresh h in
            setTcp rest (m_seenTcpEndpoints h) ;;
            setFresh (S s) ;;
            setSockets (<[s := t]> (m_socketTargets h)) (<[s := 1]> (m_attempts h)) ;;
            dialSocket s t ;;
            hcSend (startTimer s 1 (timeoutOf t)) ;;
            startSockets fuel'
          else mret tt
      end
  end.
Definition startNext : HC unit := h ← get; startSockets (length (m_queue h)).

Fixpoint startWatchers (fuel : nat) : HC unit :=
  match fuel with
  | O => mret tt
  | S fuel' =>
      h ← get;
      match m_wgQueue h with
      | [] => mret tt
      | t :: rest =>
          if (size (m_wgWatchers h) <? kWgMaxParallel)%nat then
            let w := hc_fresh h in
            setWg rest (m_seenWgEndpoints h) ;;
            setFresh (S w) ;;
            setWatchers (<[w := t]> (m_wgWatchers h)) ;;
            hcSend (runProbe w t) ;;
            startWatchers fuel'
          else mret tt
      end
  end.
Definition startNextWg : HC unit := h ← get; startWatchers (length (m_wgQueue h)).

Definition pending (h : HealthCheck) : bool :=
  negb (bool_decide (m_queue h = [])) || negb (bool_decide (m_socketTargets h = ∅))
  || negb (bool_decide (m_wgQueue h = [])) || negb (bool_decide (m_wgWatchers h = ∅)).

Definition maybeFinishProbe : HC unit :=
  h ← get;
  if negb (m_probeActive h) then mret tt
  else if pending h then mret tt
  else setActive false ;; hcSend probingFinished.

Definition stopProbe : HC unit :=
  (h ← get; forEach (fun s => hcSend (abortSocket s)) (map_to_list (m_socketTargets h)).*1) ;;
  setSockets ∅ ∅ ;;
  setTcp [] ∅ ;;
  setWatchers ∅ ;;
  setWg [] ∅ ;;
  h ← get; if m_probeActive h then setActive false ;; hcSend probingFinished else mret tt.

(** [m_serversModel->setHealthResult(row, latency)] with its signal *)
Definition report (latencyMs row : Z) : HC unit :=
  h ← get;
  let m := (Model.setHealthResult row latencyMs (hc_servers h)).2 in
  setServersModel m ;;
  if bool_decide (m_healthResults m = m_healthResults (hc_servers h)) then mret tt
  else h ← get; if reacts h then stopProbe else mret tt.

Definition finishSocket (s : nat) (latencyMs : Z) : HC unit :=
  h ← get;
  match m_socketTargets h !! s with
  | None => mret tt
  | Some target =>
      setSockets (delete s (m_socketTargets h)) (delete s (m_attempts h)) ;;
      forEach (report latencyMs) (t_rows target) ;;
      startNext ;;
      maybeFinishProbe
  end.

Definition finishWatcher (w : nat) (rttMs : Z) : HC unit :=
  h ← get;
  match m_wgWatchers h !! w with
  | None => mret tt
  | Some target =>
      setWatchers (delete w (m_wgWatchers h)) ;;
      (if (rttMs <? 0) && (w_attempts target <? 2)
       then h ← get; setWg (m_wgQueue h ++ [mkWg (w_rows target) (w_host target) (w_port target) (w_priv target) (w_pub target)
              (w_psk target) (w_junk target) (w_attempts target + 1)]) (m_seenWgEndpoints h)
       else forEach (report rttMs) (w_rows target)) ;;
      startNextWg ;;
      maybeFinishProbe
  end.

(** [errorOccurred]: [QHash::value] gives 0 and an empty target for a socket
    that is not there. *)
Definition noTarget : Target := mkTarget [] "" 0 "" "" false.
Definition onSocketError (s : nat) (timeoutMs : Z) : HC unit :=
  h ← get;
  let attempts := default 0 (m_attempts h !! s) in
  if attempts <? 2 then
    let target := default noTarget (m_socketTargets h !! s) in
    setSockets (m_socketTargets h) (<[s := attempts + 1]> (m_attempts h)) ;;
    hcSend (abortSocket s) ;;
    dialSocket s target ;;
    hcSend (startTimer s (attempts + 1) timeoutMs)
  else finishSocket s (-1).

Definition socketTimeout (s : nat) (attempt : Z) : HC unit :=
  h ← get;
  if bool_decide (is_Some (m_socketTargets h !! s)) && (default 0 (m_attempts h !! s) =? attempt)
  then finishSocket s (-1) else mret tt.

Definition crlf : string := String (Ascii.ascii_of_nat 13) nl.
Definition onEncrypted (s : nat) : HC unit :=
  h ← get;
  let t := default noTarget (m_socketTargets h !! s) in
  hcSend (socketWrite s ("GET " +:+ t_path t +:+ " HTTP/1.1" +:+ crlf +:+ "Host: " +:+ t_sni t +:+ crlf
    +:+ "User-Agent: Dopamine-HealthCheck" +:+ crlf +:+ "Connection: close" +:+ crlf +:+ crlf)).

(** The status in the first bytes of an answer: [None] while it is not there. *)
Definition httpStatus (head : string) : option Z :=
  match indexOf " " head with
  | None => None
  | Some space =>
      if (String.length head <? space + 4)%nat then None
      else
        let status := default 0 (toInt (str_left 3 (str_mid (S space) head))) in
        if status <=? 0 then None else Some status
  end.
Definition socketReadyRead (s : nat) (head : string) (elapsed : Z) : HC unit :=
  h ← get;
  match m_socketTargets h !! s with
  | None => mret tt
  | Some _ =>
      match httpStatus head with
      | None => mret tt
      | Some status => finishSocket s (if status <? 500 then elapsed else -1)
      end
  end.

Definition startProbe (force : bool) (now : Z) : HC unit :=
  h ← get;
  if negb force && negb (m_lastRunMsecs h =? 0) && (now - m_lastRunMsecs h <? kThrottleMs) then mret tt
  else
    setLastRun now ;;
    stopProbe ;;
    (h ← get; setServersModel (Model.clearHealthResults (hc_servers h)).2) ;;
    (h ← get; let '(q, seen) := collectTcp (hc_servers h) in setTcp q seen) ;;
    (h ← get; let '(q, seen) := collectWg (hc_servers h) in setWg q seen) ;;
    startNext ;;
    startNextWg ;;
    setActive true ;;
    maybeFinishProbe.

(** ** Events *)

Inductive HcEvent : Type :=
| evConnected (s : nat) (elapsed : Z)
| evEncrypted (s : nat)
| evReadyRead (s : nat) (head : string) (elapsed : Z)
| evSocketError (s : nat) (timeoutMs : Z)
| evTimeout (s : nat) (attempt : Z)
| evWatcher (w : nat) (rtt : Z)
| evStart (force : bool) (now : Z)
| evStop.

Definition hcEvent (e : HcEvent) : HC unit :=
  match e with
  | evConnected s elapsed => finishSocket s elapsed
  | evEncrypted s => onEncrypted s
  | evReadyRead s head elapsed => socketReadyRead s head elapsed
  | evSocketError s timeoutMs => onSocketError s timeoutMs
  | evTimeout s attempt => socketTimeout s attempt
  | evWatcher w rtt => finishWatcher w rtt
  | evStart force now => startProbe force now
  | evStop => stopProbe
  end.
End Collect.
