(* ===== verification/HealthProofs.v ===== *)
(** * What the health check guarantees

    The probes that run at a time are bounded and no queued target waits
    without one running; [isProbing] tells exactly whether something is
    pending; every run ends and is reported once; rows that share an endpoint
    share its probe. *)

From Stdlib Require Import ZArith Lia Bool String Ascii.
From stdpp Require Import base gmap strings list pretty.
From S2P Require Import Prelude.
From S2P Require Import Qt.
From S2P Require Import QtInstance.
From S2P Require Import Settings.
From S2P Require Import Containers.
From S2P Require Import ServerStore.
From S2P Require Import Servers.
From S2P Require Import HealthCheck.

Open Scope Z_scope.

(** ** Targets are shared *)

Section Sharing.
Context {T : Type} (share : Z -> T -> T) (keyOf : T -> string) (rowsOf : T -> list Z).
Context (share_key : forall i t, keyOf (share i t) = keyOf t) (share_rows : forall i t, rowsOf (share i t) = rowsOf t ++ [i]).

(** The keys of the queue are distinct, and the map holds their positions. *)
Definition Indexed (qs : list T * gmap string nat) : Prop :=
  forall k n, qs.2 !! k = Some n <-> exists t, qs.1 !! n = Some t /\ keyOf t = k.

(** [row] is one of the rows of the target with the key. *)
Definition covered (row : Z) (k : string) (q : list T) : Prop := exists t, t ∈ q /\ keyOf t = k /\ row ∈ rowsOf t.

Lemma indexed_nodup qs : Indexed qs -> NoDup (map keyOf qs.1).
Proof.
  intros Hi. apply NoDup_alt. intros i j k Hk1 Hk2. apply list_lookup_fmap_Some in Hk1 as (t1 & E1 & H1). apply list_lookup_fmap_Some in Hk2 as (t2 & E2 & H2).
  assert (A1 : qs.2 !! k = Some i) by (apply Hi; by exists t1). assert (A2 : qs.2 !! k = Some j) by (apply Hi; by exists t2). congruence.
Qed.

Lemma enqueue_indexed row t qs : Indexed qs -> Indexed (enqueueBy share (keyOf t) row t qs).
Proof.
  destruct qs as [q seen]. intros Hi k n. unfold enqueueBy. destruct (seen !! keyOf t) as [i |] eqn:Es; cbn [fst snd].
  - rewrite (Hi k n). cbn [fst]. split.
    + intros (u & Hu & Hk). destruct (decide (n = i)) as [-> | Hne].
      * exists (share row u). rewrite list_lookup_alter_eq, Hu. split; [done |]. by rewrite share_key.
      * exists u. by rewrite list_lookup_alter_ne.
    + intros (u & Hu & Hk). destruct (decide (n = i)) as [-> | Hne].
      * rewrite list_lookup_alter_eq in Hu. destruct (q !! i) as [v |] eqn:Ev; [| done]. injection Hu as <-. exists v. split; [done |].
        by rewrite share_key in Hk.
      * rewrite list_lookup_alter_ne in Hu by done. by exists u.
  - destruct (decide (k = keyOf t)) as [-> | Hne].
    + rewrite lookup_insert_eq. split.
      * intros [= <-]. exists t. rewrite lookup_app_r by lia. by rewrite Nat.sub_diag.
      * intros (u & Hu & Hk). apply lookup_app_Some in Hu as [Hu | [Hge Hu]].
        { assert (A : seen !! keyOf t = Some n) by (apply (Hi (keyOf t) n); by exists u). congruence. }
        apply list_lookup_singleton_Some in Hu as [Hn _]. f_equal. lia.
    + rewrite lookup_insert_ne by done. rewrite (Hi k n). cbn [fst]. split.
      * intros (u & Hu & Hk). exists u. split; [by apply lookup_app_l_Some | done].
      * intros (u & Hu & Hk). apply lookup_app_Some in Hu as [Hu | [_ Hu]]; [by exists u |].
        apply list_lookup_singleton_Some in Hu as [_ <-]. done.
Qed.

Lemma covered_alter row i j k q : covered row k (alter (share i) j q) <->
  covered row k q \/ (row = i /\ exists t, q !! j = Some t /\ keyOf t = k).
Proof.
  split.
  - intros (t & Ht & Hk & Hr). apply list_elem_of_lookup in Ht as (n & Hn). destruct (decide (n = j)) as [-> | Hne].
    + rewrite list_lookup_alter_eq in Hn. destruct (q !! j) as [v |] eqn:Ev; [| done]. injection Hn as <-. rewrite share_key in Hk.
      rewrite share_rows in Hr. apply elem_of_app in Hr as [Hr | Hr]; [left; exists v; split; [by apply list_elem_of_lookup_2 in Ev | done] |].
      apply list_elem_of_singleton in Hr as ->. right. split; [done |]. by exists v.
    + rewrite list_lookup_alter_ne in Hn by done. left. exists t. by split; [apply list_elem_of_lookup_2 in Hn |].
  - intros [(t & Ht & Hk & Hr) | (-> & t & Ht & Hk)].
    + apply list_elem_of_lookup in Ht as (n & Hn). destruct (decide (n = j)) as [-> | Hne].
      * exists (share i t). split_and!; [| by rewrite share_key | rewrite share_rows; apply elem_of_app; by left].
        apply list_elem_of_lookup. exists j. by rewrite list_lookup_alter_eq, Hn.
      * exists t. split_and!; [| done | done]. apply list_elem_of_lookup. exists n. by rewrite list_lookup_alter_ne.
    + exists (share i t). split_and!; [| by rewrite share_key | rewrite share_rows; apply elem_of_app; right; by left].
      apply list_elem_of_lookup. exists j. by rewrite list_lookup_alter_eq, Ht.
Qed.

(** What enqueueing a probe of [row] at the endpoint of [t] adds. *)
Lemma enqueue_covered r k row t qs : Indexed qs -> rowsOf t = [row] ->
  covered r k (enqueueBy share (keyOf t) row t qs).1 <-> covered r k qs.1 \/ (r = row /\ k = keyOf t).
Proof.
  destruct qs as [q seen]. intros Hi Ht. unfold enqueueBy. destruct (seen !! keyOf t) as [i |] eqn:Es; cbn [fst snd].
  - rewrite covered_alter. apply (Hi (keyOf t) i) in Es as (u & Hu & Hk). cbn [fst] in Hu. split.
    + intros [? | (-> & v & Hv & <-)]; [by left |]. right. split; [done |]. congruence.
    + intros [? | [-> ->]]; [by left |]. right. split; [done |]. by exists u.
  - split.
    + intros (u & Hu & Hk & Hr). apply elem_of_app in Hu as [Hu | Hu]; [left; by exists u |].
      apply list_elem_of_singleton in Hu as ->. rewrite Ht in Hr. apply list_elem_of_singleton in Hr as ->. by right.
    + intros [(u & Hu & Hk & Hr) | [-> ->]]; [exists u; split_and!; [apply elem_of_app; by left | done | done] |].
      exists t. split_and!; [apply elem_of_app; right; by left | done |]. rewrite Ht. by left.
Qed.

Lemma enqueue_row_covered r k row ts qs : Indexed qs -> (forall t, t ∈ ts -> rowsOf t = [row]) ->
  let qs' := fold_left (fun qs t => enqueueBy share (keyOf t) row t qs) ts qs in
  Indexed qs' /\ (covered r k qs'.1 <-> covered r k qs.1 \/ (r = row /\ exists t, t ∈ ts /\ keyOf t = k)).
Proof.
  revert qs. induction ts as [| t ts IH]; intros qs Hi Hts; cbn [fold_left].
  - split; [done |]. split; [by left |]. intros [? | (_ & t & Ht & _)]; [done | by apply elem_of_nil in Ht].
  - destruct (IH (enqueueBy share (keyOf t) row t qs)) as [I1 I2]; [by apply enqueue_indexed | intros u Hu; apply Hts; by right |].
    split; [done |]. rewrite I2, enqueue_covered by (done || apply Hts; by left). split.
    + intros [[? | [-> ->]] | (-> & u & Hu & <-)]; [by left | right; split; [done |]; exists t; split; [by left | done] |].
      right. split; [done |]. exists u. split; [by right | done].
    + intros [? | (-> & u & Hu & <-)]; [by left; left |]. apply elem_of_cons in Hu as [-> | Hu]; [left; by right |]. right. split; [done |]. by exists u.
Qed.

Lemma enqueueAll_spec targets rows :
  (forall i t, t ∈ targets i -> rowsOf t = [i]) ->
  let q := (enqueueAll share keyOf targets rows).1 in
  NoDup (map keyOf q)
  /\ forall r k, covered r k q <-> r ∈ rows /\ exists t, t ∈ targets r /\ keyOf t = k.
Proof.
  intros Ht. unfold enqueueAll.
  assert (Hg : forall qs, Indexed qs ->
    let qs' := fold_left (fun qs i => fold_left (fun qs t => enqueueBy share (keyOf t) i t qs) (targets i) qs) rows qs in
    Indexed qs' /\ forall r k, covered r k qs'.1 <-> covered r k qs.1 \/ (r ∈ rows /\ exists t, t ∈ targets r /\ keyOf t = k)).
  { induction rows as [| i rows IH]; intros qs Hi; cbn [fold_left].
    - split; [done |]. intros r k. split; [by left |]. intros [? | [Hr _]]; [done | by apply elem_of_nil in Hr].
    - pose proof (fun r k => enqueue_row_covered r k i (targets i) qs Hi (Ht i)) as Hrow. destruct (Hrow 0 ""%string) as [Hi' _].
      destruct (IH _ Hi') as [I1 I2]. split; [done |]. intros r k. rewrite I2. destruct (Hrow r k) as [_ ->]. rewrite elem_of_cons. naive_solver. }
  destruct (Hg ([], ∅)) as [I1 I2].
  { intros k n. cbn [fst snd]. rewrite lookup_empty. split; [done |]. by intros (t & Hn & _). }
  split; [by apply (indexed_nodup _ I1) |]. intros r k. rewrite I2. split; [| by right].
  intros [(t & Hn & _) | ?]; [by apply elem_of_nil in Hn | done].
Qed.
End Sharing.

Section Targets.
Context `{Qt}.

Lemma tcpTargets_rows m i t : t ∈ tcpTargets m i -> t_rows t = [i].
Proof.
  unfold tcpTargets. repeat case_if; try (intros Ht; by apply elem_of_nil in Ht); intros Ht; by apply list_elem_of_fmap in Ht as (a & -> & _).
Qed.

Lemma wgTargets_rows m i t : t ∈ wgTargets m i -> w_rows t = [i].
Proof.
  unfold wgTargets. destruct (negb _ && negb _); [intros Ht; by apply elem_of_nil in Ht |].
  destruct (Model.containersOf _); [intros Ht; by apply elem_of_nil in Ht |].
  repeat case_if; try (intros Ht; by apply elem_of_nil in Ht); intros Ht; by apply list_elem_of_fmap in Ht as (a & -> & _).
Qed.

(** One probe per endpoint: the collected targets have
    distinct endpoints, and the rows a probe answers for are exactly those
    that are to be probed at its endpoint, for the sockets and for the
    handshakes. *)
Theorem targets_shared m :
  NoDup (map targetKey (collectTcp m).1)
  /\ NoDup (map wgKey (collectWg m).1)
  /\ (forall row key, (exists t, t ∈ (collectTcp m).1 /\ targetKey t = key /\ row ∈ t_rows t)
        <-> row ∈ Model.rows m /\ exists t, t ∈ tcpTargets m row /\ targetKey t = key)
  /\ (forall row key, (exists t, t ∈ (collectWg m).1 /\ wgKey t = key /\ row ∈ w_rows t)
        <-> row ∈ Model.rows m /\ exists t, t ∈ wgTargets m row /\ wgKey t = key).
Proof.
  destruct (enqueueAll_spec share targetKey t_rows (fun i t => eq_refl) (fun i t => eq_refl) (tcpTargets m) (Model.rows m) (tcpTargets_rows m)) as [T1 T2].
  destruct (enqueueAll_spec shareWg wgKey w_rows (fun i t => eq_refl) (fun i t => eq_refl) (wgTargets m) (Model.rows m) (wgTargets_rows m)) as [W1 W2].
  split_and!; [exact T1 | exact W1 | exact T2 | exact W2].
Qed.
End Targets.

(** ** Sums over maps *)

Section Sums.
Context {A : Type}.
Definition sumMap (f : nat -> A -> nat) (m : gmap nat A) : nat := map_fold (fun k x n => (f k x + n)%nat) 0%nat m.

Lemma sumMap_empty f : sumMap f ∅ = 0%nat.
Proof. apply map_fold_empty. Qed.
Lemma sumMap_insert f k x m : m !! k = None -> sumMap f (<[k := x]> m) = (f k x + sumMap f m)%nat.
Proof. intros Hk. unfold sumMap. apply (map_fold_insert_L (fun k x n => (f k x + n)%nat)); [intros; lia | done]. Qed.
Lemma sumMap_delete f k x m : m !! k = Some x -> sumMap f m = (f k x + sumMap f (delete k m))%nat.
Proof. intros Hk. rewrite <- sumMap_insert by apply lookup_delete_eq. by rewrite insert_delete_id. Qed.
Lemma sumMap_ext f g m : (forall k x, m !! k = Some x -> f k x = g k x) -> sumMap f m = sumMap g m.
Proof.
  induction m as [| k x m Hk IH] using map_ind; intros Hfg; [by rewrite !sumMap_empty |].
  rewrite !sumMap_insert by done. rewrite (Hfg k x) by apply lookup_insert_eq. rewrite IH; [done |].
  intros k' x' Hk'. apply Hfg. rewrite lookup_insert_ne; [done | congruence].
Qed.
Lemma sumMap_zero f m : (forall k x, m !! k = Some x -> (1 <= f k x)%nat) -> sumMap f m = 0%nat -> m = ∅.
Proof.
  intros Hf Hs. apply map_eq. intros k. rewrite lookup_empty. destruct (m !! k) as [x |] eqn:Ek; [| done].
  rewrite (sumMap_delete f k x m Ek) in Hs. specialize (Hf k x Ek). lia.
Qed.
End Sums.

(** ** The work that is left *)

Definition socketWork (h : HealthCheck) (s : nat) : nat := Z.to_nat (3 - default 0 (m_attempts h !! s)).
Definition wgWork (t : WgTarget) : nat := Z.to_nat (3 - w_attempts t).
Definition tcpLeft (h : HealthCheck) : nat := (2 * length (m_queue h) + sumMap (fun s _ => socketWork h s) (m_socketTargets h))%nat.
Definition wgLeft (h : HealthCheck) : nat :=
  (foldr (fun t n => (wgWork t + n)%nat) 0%nat (m_wgQueue h) + sumMap (fun _ t => wgWork t) (m_wgWatchers h))%nat.
(** At most two attempts per target. *)
Definition probesLeft (h : HealthCheck) : nat := (tcpLeft h + wgLeft h)%nat.

Definition once (n : Z) : Prop := n = 1 \/ n = 2.

(** The state between events; [Core] holds in the middle of them too. *)
Record Core (h : HealthCheck) : Prop := {
  co_sockets : (size (m_socketTargets h) <= kMaxParallel)%nat;
  co_watchers : (size (m_wgWatchers h) <= kWgMaxParallel)%nat;
  co_fresh_s : forall s t, m_socketTargets h !! s = Some t -> (s < hc_fresh h)%nat;
  co_fresh_w : forall w t, m_wgWatchers h !! w = Some t -> (w < hc_fresh h)%nat;
  co_attempts : forall s t, m_socketTargets h !! s = Some t -> exists n, m_attempts h !! s = Some n /\ once n;
  co_wg : forall w t, m_wgWatchers h !! w = Some t -> once (w_attempts t);
  co_wgq : Forall (fun t => once (w_attempts t)) (m_wgQueue h);
  co_counted : forall s n, m_attempts h !! s = Some n -> 0 <= n;
  co_timer : forall s t n, m_socketTargets h !! s = Some t -> m_attempts h !! s = Some n -> exists ms, startTimer s n ms ∈ hc_out h;
  co_thread : forall w t, m_wgWatchers h !! w = Some t -> runProbe w t ∈ hc_out h
}.
Record Sound (h : HealthCheck) : Prop := {
  so_core : Core h;
  so_tcp : m_queue h <> [] -> size (m_socketTargets h) = kMaxParallel;
  so_wg : m_wgQueue h <> [] -> size (m_wgWatchers h) = kWgMaxParallel;
  so_active : m_probeActive h = pending h
}.

Definition isFinished (o : HcOutput) : bool := match o with probingFinished => true | _ => false end.
(** How often [probingFinished] was emitted. *)
Definition finishes (h : HealthCheck) : nat := length (List.filter isFinished (hc_out h)).

Lemma socketWork_pos h s t : Core h -> m_socketTargets h !! s = Some t -> (1 <= socketWork h s)%nat.
Proof. intros Hc Hs. destruct (co_attempts h Hc s t Hs) as (n & Hn & [-> | ->]); unfold socketWork; rewrite Hn; cbn; lia. Qed.

Lemma pending_work h : Core h -> pending h = negb (probesLeft h =? 0)%nat.
Proof.
  intros Hc. unfold pending, probesLeft, tcpLeft, wgLeft. destruct (m_queue h) as [| t q]; [| by rewrite bool_decide_eq_false_2].
  rewrite bool_decide_eq_true_2 by done. cbn [negb orb length Nat.mul Nat.add].
  case_bool_decide as Es; cbn [negb orb].
  - rewrite Es, sumMap_empty. cbn [Nat.add]. destruct (m_wgQueue h) as [| w q] eqn:Ew.
    + rewrite bool_decide_eq_true_2 by done. cbn [negb orb foldr Nat.add]. case_bool_decide as Ew2.
      * by rewrite Ew2, sumMap_empty.
      * cbn [negb]. symmetry. apply negb_true_iff, Nat.eqb_neq. intros E. apply Ew2, (sumMap_zero (fun _ t => wgWork t)); [| done].
        intros k x Hk. destruct (co_wg h Hc k x Hk) as [E1 | E1]; unfold wgWork; rewrite E1; cbn; lia.
    + rewrite bool_decide_eq_false_2 by done. cbn [negb orb foldr]. pose proof (co_wgq h Hc) as Hq. rewrite Ew in Hq.
      apply Forall_cons in Hq as [[E1 | E1] _]; unfold wgWork at 1; rewrite E1; done.
  - symmetry. apply negb_true_iff, Nat.eqb_neq. intros E. apply Es, (sumMap_zero (fun s _ => socketWork h s)); [| lia].
    intros k x Hk. by apply (socketWork_pos h k x).
Qed.

(** ** The loops *)

Section Loops.
Implicit Types h : HealthCheck.

Lemma finishes_send o h : isFinished o = false -> finishes (hcSend o h).2 = finishes h.
Proof. intros Ho. unfold finishes, hcSend. cbn. rewrite List.filter_app. cbn. rewrite Ho. by rewrite app_nil_r. Qed.

Lemma core_send o h : Core h -> Core (hcSend o h).2.
Proof.
  intros []. constructor; cbn; try done.
  - intros s t n Ht Hn. destruct (co_timer0 s t n Ht Hn) as (ms & Hms). exists ms. apply elem_of_app. by left.
  - intros w t Hw. apply elem_of_app. left. by apply co_thread0.
Qed.

(** One round of the loop: the first target of the queue gets a socket. *)
Definition withSocket (t : Target) (rest : list Target) (out : list HcOutput) (h : HealthCheck) : HealthCheck :=
  mkHc (hc_servers h) rest (<[hc_fresh h := t]> (m_socketTargets h)) (<[hc_fresh h := 1]> (m_attempts h)) (m_seenTcpEndpoints h)
    (m_wgQueue h) (m_wgWatchers h) (m_seenWgEndpoints h) (m_lastRunMsecs h) (m_probeActive h) (S (hc_fresh h)) (hc_out h ++ out).

Lemma startSockets_cons fuel t rest h : m_queue h = t :: rest -> (size (m_socketTargets h) < kMaxParallel)%nat ->
  exists out, List.filter isFinished out = [] /\ startTimer (hc_fresh h) 1 (timeoutOf t) ∈ out
    /\ startSockets (S fuel) h = startSockets fuel (withSocket t rest out h).
Proof.
  intros Hq Hs. cbn [startSockets]. rewrite bind_eq. cbn [get fst snd]. rewrite Hq, (proj2 (Nat.ltb_lt _ _)) by done.
  rewrite !then_eq. unfold dialSocket. destruct (t_https t).
  - exists [connectToHostEncrypted (hc_fresh h) (t_host t) (t_port t) (t_sni t); startTimer (hc_fresh h) 1 (timeoutOf t)].
    split_and!; [done | set_solver |]. unfold withSocket. f_equal. destruct h. cbn. by rewrite <- app_assoc.
  - exists [connectToHost (hc_fresh h) (t_host t) (t_port t); startTimer (hc_fresh h) 1 (timeoutOf t)].
    split_and!; [done | set_solver |]. unfold withSocket. f_equal. destruct h. cbn. by rewrite <- app_assoc.
Qed.

(** What starting sockets changes: their part of the work moves from the
    queue to them. *)
Record TcpStep (h h' : HealthCheck) : Prop := {
  tc_core : Core h';
  tc_left : tcpLeft h' = tcpLeft h;
  tc_wgq : m_wgQueue h' = m_wgQueue h;
  tc_wgw : m_wgWatchers h' = m_wgWatchers h;
  tc_active : m_probeActive h' = m_probeActive h;
  tc_servers : hc_servers h' = hc_servers h;
  tc_finishes : finishes h' = finishes h
}.

Lemma withSocket_tcp t rest out h : Core h -> m_queue h = t :: rest -> (size (m_socketTargets h) < kMaxParallel)%nat ->
  List.filter isFinished out = [] -> startTimer (hc_fresh h) 1 (timeoutOf t) ∈ out -> TcpStep h (withSocket t rest out h).
Proof.
  intros [C1 C2 C3 C4 C5 C6 C7 C8 C9 C10] Hq Hs Ho Hin. unfold withSocket.
  assert (Hnew : m_socketTargets h !! hc_fresh h = None).
  { destruct (m_socketTargets h !! hc_fresh h) as [u |] eqn:E; [| done]. specialize (C3 _ _ E). lia. }
  constructor; try done.
  - constructor; cbn; try done.
    + rewrite map_size_insert_None by done. lia.
    + intros s u [[<- <-] | [Hne Hu]]%lookup_insert_Some; [lia |]. specialize (C3 _ _ Hu). lia.
    + intros w u Hu. specialize (C4 _ _ Hu). lia.
    + intros s u [[<- <-] | [Hne Hu]]%lookup_insert_Some.
      * exists 1. rewrite lookup_insert_eq. split; [done | by left].
      * rewrite lookup_insert_ne by done. by apply (C5 s u).
    + intros s n [[_ <-] | [_ Hn]]%lookup_insert_Some; [lia | by apply (C8 s)].
    + intros s u n [[<- <-] | [Hne Hu]]%lookup_insert_Some.
      * rewrite lookup_insert_eq. intros [= <-]. exists (timeoutOf t). apply elem_of_app. by right.
      * rewrite lookup_insert_ne by done. intros Hn. destruct (C9 s u n Hu Hn) as (ms & Hms). exists ms. apply elem_of_app. by left.
    + intros w u Hu. apply elem_of_app. left. by apply C10.
  - unfold tcpLeft. cbn [m_queue m_socketTargets]. rewrite Hq, sumMap_insert by done. unfold socketWork at 1. cbn [m_attempts]. rewrite lookup_insert_eq.
    cbn [default length]. rewrite (sumMap_ext (fun s _ => socketWork (mkHc _ _ _ _ _ _ _ _ _ _ _ _) s) (fun s _ => socketWork h s)); [cbn; lia |].
    intros s u Hu. unfold socketWork. cbn [m_attempts]. rewrite lookup_insert_ne; [done |]. specialize (C3 _ _ Hu). lia.
  - unfold finishes. cbn [hc_out]. by rewrite List.filter_app, Ho, app_nil_r.
Qed.

Lemma tcp_refl h : Core h -> TcpStep h h.
Proof. by constructor. Qed.
Lemma tcp_trans h1 h2 h3 : TcpStep h1 h2 -> TcpStep h2 h3 -> TcpStep h1 h3.
Proof. intros [] []. constructor; congruence. Qed.

Lemma startSockets_spec fuel h : Core h -> (length (m_queue h) <= fuel)%nat ->
  let h' := (startSockets fuel h).2 in TcpStep h h' /\ (m_queue h' = [] \/ size (m_socketTargets h') = kMaxParallel).
Proof.
  revert h. induction fuel as [| fuel IH]; intros h Hc Hl.
  - cbn. split; [by apply tcp_refl |]. left. by destruct (m_queue h); [| cbn in Hl; lia].
  - destruct (m_queue h) as [| t rest] eqn:Hq.
    + cbn [startSockets]. rewrite bind_eq. cbn [get fst snd]. rewrite Hq. split; [by apply tcp_refl | by left].
    + destruct (decide (size (m_socketTargets h) < kMaxParallel)%nat) as [Hs | Hs].
      * destruct (startSockets_cons fuel t rest h Hq Hs) as (out & Ho & Hin & ->).
        pose proof (withSocket_tcp t rest out h Hc Hq Hs Ho Hin) as Hw. destruct (IH (withSocket t rest out h) (tc_core _ _ Hw)) as [I1 I2].
        { cbn in *. lia. }
        split; [by apply (tcp_trans _ _ _ Hw) | done].
      * cbn [startSockets]. rewrite bind_eq. cbn [get fst snd]. rewrite Hq, (proj2 (Nat.ltb_ge _ _)) by lia. split; [by apply tcp_refl |].
        right. pose proof (co_sockets h Hc). cbn. lia.
Qed.

Lemma startNext_spec h : Core h ->
  let h' := (startNext h).2 in TcpStep h h' /\ (m_queue h' = [] \/ size (m_socketTargets h') = kMaxParallel).
Proof. intros Hc. unfold startNext. rewrite bind_eq. by apply startSockets_spec. Qed.

(** The same for the handshakes. *)
Definition withWatcher (t : WgTarget) (rest : list WgTarget) (h : HealthCheck) : HealthCheck :=
  mkHc (hc_servers h) (m_queue h) (m_socketTargets h) (m_attempts h) (m_seenTcpEndpoints h)
    rest (<[hc_fresh h := t]> (m_wgWatchers h)) (m_seenWgEndpoints h) (m_lastRunMsecs h) (m_probeActive h) (S (hc_fresh h))
    (hc_out h ++ [runProbe (hc_fresh h) t]).

Lemma startWatchers_cons fuel t rest h : m_wgQueue h = t :: rest -> (size (m_wgWatchers h) < kWgMaxParallel)%nat ->
  startWatchers (S fuel) h = startWatchers fuel (withWatcher t rest h).
Proof.
  intros Hq Hs. cbn [startWatchers]. rewrite bind_eq. cbn [get fst snd]. rewrite Hq, (proj2 (Nat.ltb_lt _ _)) by done.
  rewrite !then_eq. by destruct h.
Qed.

Record WgStep (h h' : HealthCheck) : Prop := {
  wg_core : Core h';
  wg_left : wgLeft h' = wgLeft h;
  wg_queue : m_queue h' = m_queue h;
  wg_sockets : m_socketTargets h' = m_socketTargets h;
  wg_attempts : m_attempts h' = m_attempts h;
  wg_active : m_probeActive h' = m_probeActive h;
  wg_servers : hc_servers h' = hc_servers h;
  wg_finishes : finishes h' = finishes h
}.
Lemma wg_refl h : Core h -> WgStep h h.
Proof. by constructor. Qed.
Lemma wg_trans h1 h2 h3 : WgStep h1 h2 -> WgStep h2 h3 -> WgStep h1 h3.
Proof. intros [] []. constructor; congruence. Qed.

Lemma withWatcher_wg t rest h : Core h -> m_wgQueue h = t :: rest -> (size (m_wgWatchers h) < kWgMaxParallel)%nat ->
  WgStep h (withWatcher t rest h).
Proof.
  intros [C1 C2 C3 C4 C5 C6 C7 C8 C9 C10] Hq Hs. unfold withWatcher. rewrite Hq in C7. apply Forall_cons in C7 as [Ht C7].
  assert (Hnew : m_wgWatchers h !! hc_fresh h = None).
  { destruct (m_wgWatchers h !! hc_fresh h) as [u |] eqn:E; [| done]. specialize (C4 _ _ E). lia. }
  constructor; try done.
  - constructor; cbn; try done.
    + rewrite map_size_insert_None by done. lia.
    + intros w u Hu. specialize (C3 _ _ Hu). lia.
    + intros s u [[<- <-] | [Hne Hu]]%lookup_insert_Some; [lia |]. specialize (C4 _ _ Hu). lia.
    + intros s u [[<- <-] | [Hne Hu]]%lookup_insert_Some; [done | by apply (C6 s)].
    + intros s u n Hu Hn. destruct (C9 s u n Hu Hn) as (ms & Hms). exists ms. apply elem_of_app. by left.
    + intros w u [[<- <-] | [Hne Hu]]%lookup_insert_Some; apply elem_of_app; [right; by left | left; by apply C10].
  - unfold wgLeft. cbn [m_wgQueue m_wgWatchers]. rewrite Hq, sumMap_insert by done. cbn [foldr]. lia.
  - unfold finishes. cbn [hc_out]. by rewrite List.filter_app, app_nil_r.
Qed.

Lemma startWatchers_spec fuel h : Core h -> (length (m_wgQueue h) <= fuel)%nat ->
  let h' := (startWatchers fuel h).2 in WgStep h h' /\ (m_wgQueue h' = [] \/ size (m_wgWatchers h') = kWgMaxParallel).
Proof.
  revert h. induction fuel as [| fuel IH]; intros h Hc Hl.
  - cbn. split; [by apply wg_refl |]. left. by destruct (m_wgQueue h); [| cbn in Hl; lia].
  - destruct (m_wgQueue h) as [| t rest] eqn:Hq.
    + cbn [startWatchers]. rewrite bind_eq. cbn [get fst snd]. rewrite Hq. split; [by apply wg_refl | by left].
    + destruct (decide (size (m_wgWatchers h) < kWgMaxParallel)%nat) as [Hs | Hs].
      * rewrite (startWatchers_cons fuel t rest h Hq Hs).
        pose proof (withWatcher_wg t rest h Hc Hq Hs) as Hw. destruct (IH (withWatcher t rest h) (wg_core _ _ Hw)) as [I1 I2].
        { cbn in *. lia. }
        split; [by apply (wg_trans _ _ _ Hw) | done].
      * cbn [startWatchers]. rewrite bind_eq. cbn [get fst snd]. rewrite Hq, (proj2 (Nat.ltb_ge _ _)) by lia. split; [by apply wg_refl |].
        right. pose proof (co_watchers h Hc). cbn. lia.
Qed.

Lemma startNextWg_spec h : Core h ->
  let h' := (startNextWg h).2 in WgStep h h' /\ (m_wgQueue h' = [] \/ size (m_wgWatchers h') = kWgMaxParallel).
Proof. intros Hc. unfold startNextWg. rewrite bind_eq. by apply startWatchers_spec. Qed.
End Loops.

(** ** The operations *)

Section Operations.
Context `{Qt} (reacts : HealthCheck -> bool).
Implicit Types h : HealthCheck.

(** The reports of finished runs, the one of the current run included. *)
Definition runs (h : HealthCheck) : nat := (finishes h + Nat.b2n (m_probeActive h))%nat.

Definition Empty (h : HealthCheck) : Prop :=
  m_queue h = [] /\ m_socketTargets h = ∅ /\ m_wgQueue h = [] /\ m_wgWatchers h = ∅ /\ m_probeActive h = false
  /\ m_attempts h = ∅.

Lemma empty_core h : Empty h -> Core h.
Proof.
  intros (E1 & E2 & E3 & E4 & _ & E6). constructor; rewrite ?E2, ?E3, ?E4, ?E6; try (intros ? ?; by rewrite lookup_empty); [rewrite map_size_empty; lia | rewrite map_size_empty; lia | constructor].
Qed.

Lemma empty_left h : Empty h -> probesLeft h = 0%nat.
Proof. intros (E1 & E2 & E3 & E4 & _). unfold probesLeft, tcpLeft, wgLeft. by rewrite E1, E2, E3, E4, !sumMap_empty. Qed.

Lemma empty_sound h : Empty h -> Sound h.
Proof.
  intros He. pose proof (empty_core h He) as Hc. constructor; [done | | |].
  - by destruct He as (-> & _).
  - by destruct He as (_ & _ & -> & _).
  - rewrite pending_work, empty_left by done. by destruct He as (_ & _ & _ & _ & -> & _).
Qed.

Lemma aborts l h : (forEach (fun s => hcSend (abortSocket s)) l h).2 =
  mkHc (hc_servers h) (m_queue h) (m_socketTargets h) (m_attempts h) (m_seenTcpEndpoints h) (m_wgQueue h) (m_wgWatchers h)
    (m_seenWgEndpoints h) (m_lastRunMsecs h) (m_probeActive h) (hc_fresh h) (hc_out h ++ map abortSocket l).
Proof.
  revert h. induction l as [| s l IH]; intros h; cbn [forEach map]; [rewrite app_nil_r; by destruct h |].
  rewrite then_eq, IH. cbn. by rewrite <- app_assoc.
Qed.

Lemma filter_aborts l : List.filter isFinished (map abortSocket l) = [].
Proof. by induction l. Qed.

Lemma stopProbe_spec h : let h' := (stopProbe h).2 in
  Empty h' /\ runs h' = runs h /\ hc_servers h' = hc_servers h.
Proof.
  unfold stopProbe. rewrite !then_eq, !bind_eq. cbn [get fst snd]. rewrite aborts. unfold Empty, runs, finishes. cbn. destruct (m_probeActive h); cbn.
  - rewrite !then_eq. cbn. rewrite !List.filter_app, !length_app, filter_aborts. cbn. split_and!; try done. lia.
  - rewrite List.filter_app, length_app, filter_aborts. cbn. split_and!; done || lia.
Qed.

(** Reporting results leaves the probes alone, or stops them. *)
Record Reported (h h' : HealthCheck) : Prop := {
  re_core : Core h';
  re_runs : runs h' = runs h;
  re_left : (probesLeft h' <= probesLeft h)%nat;
  re_case : (m_queue h' = m_queue h /\ m_socketTargets h' = m_socketTargets h /\ m_wgQueue h' = m_wgQueue h
      /\ m_wgWatchers h' = m_wgWatchers h /\ m_probeActive h' = m_probeActive h /\ m_attempts h' = m_attempts h) \/ Empty h'
}.
Lemma reported_refl h : Core h -> Reported h h.
Proof. intros Hc. constructor; try done. left. by split_and!. Qed.
Lemma reported_trans h1 h2 h3 : Reported h1 h2 -> Reported h2 h3 -> Reported h1 h3.
Proof.
  intros [A1 A2 A3 A4] [B1 B2 B3 B4]. constructor; [done | congruence | lia |]. destruct B4 as [(F1 & F2 & F3 & F4 & F5 & F6) | He]; [| by right].
  destruct A4 as [(E1 & E2 & E3 & E4 & E5 & E6) | (E1 & E2 & E3 & E4 & E5 & E6)]; [left | right]; split_and!; congruence.
Qed.

Lemma report_spec latency row h : Core h -> Reported h (report reacts latency row h).2.
Proof.
  intros Hc. unfold report. rewrite bind_eq. cbn [get fst snd]. cbv zeta. rewrite then_eq.
  set (h1 := (setServersModel _ h).2).
  assert (H1 : Reported h h1).
  { destruct Hc. constructor; [by constructor | done | done |]. left. by split_and!. }
  clearbody h1. case_bool_decide; [done |]. rewrite bind_eq. cbn [get fst snd]. destruct (reacts h1); [| done].
  destruct (stopProbe_spec h1) as (He & Hr & _). apply (reported_trans _ _ _ H1).
  constructor; [by apply empty_core | done | rewrite empty_left by done; lia | by right].
Qed.

Lemma reports_spec latency rows h : Core h -> Reported h (forEach (report reacts latency) rows h).2.
Proof.
  revert h. induction rows as [| row rows IH]; intros h Hc; cbn [forEach]; [by apply reported_refl |]. rewrite then_eq.
  pose proof (report_spec latency row h Hc) as Hr. apply (reported_trans _ _ _ Hr), IH, Hr.
Qed.

Lemma maybeFinish_spec h : Core h -> (m_queue h <> [] -> size (m_socketTargets h) = kMaxParallel) ->
  (m_wgQueue h <> [] -> size (m_wgWatchers h) = kWgMaxParallel) -> (m_probeActive h = false -> pending h = false) ->
  let h' := (maybeFinishProbe h).2 in Sound h' /\ runs h' = runs h /\ probesLeft h' = probesLeft h.
Proof.
  intros Hc Ht Hw Ha. unfold maybeFinishProbe. rewrite bind_eq. cbn [get fst snd]. destruct (m_probeActive h) eqn:Ea; cbn [negb].
  - destruct (pending h) eqn:Ep; [split_and!; [constructor; [done | done | done | exact (eq_trans Ea (eq_sym Ep))] | done | done] |].
    rewrite then_eq. split_and!; [| | done].
    + constructor; [apply core_send; by destruct Hc | done | done |]. cbn. by rewrite <- Ep.
    + unfold runs, finishes. cbn. rewrite Ea, List.filter_app, length_app. cbn. lia.
  - split_and!; [constructor; [done | done | done |] | done | done]. exact (eq_trans Ea (eq_sym (Ha eq_refl))).
Qed.

(** What every event keeps: the invariant and the reports that are due. *)
Definition Keeps (h h' : HealthCheck) : Prop := Sound h' /\ runs h' = runs h /\ (probesLeft h' <= probesLeft h)%nat.

Lemma keeps_refl h : Sound h -> Keeps h h.
Proof. intros Hs. unfold Keeps. by split_and!. Qed.

Lemma inactive_left h : Core h -> (m_probeActive h = false -> probesLeft h = 0%nat) -> m_probeActive h = false -> pending h = false.
Proof. intros Hc Ha Hf. by rewrite pending_work, Ha. Qed.

(** After a socket is done: the next ones, and the end of the run. *)
Lemma nextTcp_spec h : Core h -> (m_wgQueue h <> [] -> size (m_wgWatchers h) = kWgMaxParallel) ->
  (m_probeActive h = false -> probesLeft h = 0%nat) -> Keeps h ((startNext ;; maybeFinishProbe) h).2.
Proof.
  intros Hc Hw Ha. rewrite then_eq. destruct (startNext_spec h Hc) as [Ht Hq]. generalize dependent (startNext h).2. intros h1 [T1 T2 T3 T4 T5 T6 T7] Hq.
  assert (Hl : probesLeft h1 = probesLeft h) by (unfold probesLeft, wgLeft; by rewrite T2, T3, T4).
  destruct (maybeFinish_spec h1) as (M1 & M2 & M3); [done | naive_solver | by rewrite T3, T4 | |].
  { apply inactive_left; [done |]. by rewrite T5, Hl. }
  unfold Keeps. split_and!; [done | rewrite M2; unfold runs; congruence | lia].
Qed.

Lemma nextWg_spec h : Core h -> (m_queue h <> [] -> size (m_socketTargets h) = kMaxParallel) ->
  (m_probeActive h = false -> probesLeft h = 0%nat) -> Keeps h ((startNextWg ;; maybeFinishProbe) h).2.
Proof.
  intros Hc Hw Ha. rewrite then_eq. destruct (startNextWg_spec h Hc) as [Ht Hq]. generalize dependent (startNextWg h).2. intros h1 [T1 T2 T3 T4 T5 T6 T7 T8] Hq.
  assert (Hl : probesLeft h1 = probesLeft h).
  { unfold probesLeft, tcpLeft. rewrite T2, T3, T4. f_equal. f_equal. apply sumMap_ext. intros k x _. unfold socketWork. by rewrite T5. }
  destruct (maybeFinish_spec h1) as (M1 & M2 & M3); [done | by rewrite T3, T4 | naive_solver | |].
  { apply inactive_left; [done |]. by rewrite T6, Hl. }
  unfold Keeps. split_and!; [done | rewrite M2; unfold runs; congruence | lia].
Qed.

Lemma socket_active h s t : Sound h -> m_socketTargets h !! s = Some t -> m_probeActive h = true.
Proof.
  intros Hs Ht. rewrite (so_active h Hs). unfold pending. rewrite (bool_decide_eq_false_2 (m_socketTargets h = ∅)); [cbn [negb]; by rewrite orb_true_r |].
  intros E. by rewrite E in Ht.
Qed.
Lemma watcher_active h w t : Sound h -> m_wgWatchers h !! w = Some t -> m_probeActive h = true.
Proof.
  intros Hs Ht. rewrite (so_active h Hs). unfold pending. rewrite (bool_decide_eq_false_2 (m_wgWatchers h = ∅)); [cbn [negb]; by rewrite orb_true_r |].
  intros E. by rewrite E in Ht.
Qed.

(** Taking a socket out leaves less to do. *)
Lemma take_socket h s t : Core h -> m_socketTargets h !! s = Some t ->
  let h1 := (setSockets (delete s (m_socketTargets h)) (delete s (m_attempts h)) h).2 in
  Core h1 /\ (probesLeft h1 < probesLeft h)%nat.
Proof.
  intros Hc Ht. pose proof (socketWork_pos h s t Hc Ht) as Hp. cbv zeta. split.
  - destruct Hc as [C1 C2 C3 C4 C5 C6 C7 C8 C9 C10]. constructor; cbn; try done.
    + rewrite map_size_delete_Some by done. lia.
    + intros s' t' [_ Hd]%lookup_delete_Some. by apply (C3 s' t').
    + intros s' t' [Hne Hd]%lookup_delete_Some. rewrite lookup_delete_ne by done. by apply (C5 s' t').
    + intros s' n [_ Hd]%lookup_delete_Some. by apply (C8 s').
    + intros s' t' n [_ Hd]%lookup_delete_Some [_ Hn]%lookup_delete_Some. by apply (C9 s' t').
  - unfold probesLeft, tcpLeft. rewrite (sumMap_delete (fun s' _ => socketWork h s') s t (m_socketTargets h)) by done. cbn [setSockets modify snd m_queue m_socketTargets].
    rewrite (sumMap_ext (fun s' _ => socketWork (mkHc _ _ _ _ _ _ _ _ _ _ _ _) s') (fun s' _ => socketWork h s')); [unfold wgLeft; cbn [m_wgQueue m_wgWatchers]; lia |].
    intros s' t' [Hne _]%lookup_delete_Some. unfold socketWork. cbn [m_attempts]. by rewrite lookup_delete_ne.
Qed.

Lemma finishSocket_spec s t latency h : Sound h -> m_socketTargets h !! s = Some t ->
  let h' := (finishSocket reacts s latency h).2 in Keeps h h' /\ (probesLeft h' < probesLeft h)%nat.
Proof.
  intros Hs Ht. cbv zeta. unfold finishSocket. rewrite bind_eq. cbn [get fst snd]. rewrite Ht, !then_eq.
  destruct (take_socket h s t (so_core h Hs) Ht) as [Hc1 Hl1]. set (h1 := (setSockets _ _ h).2) in *.
  assert (Ha1 : m_probeActive h1 = true) by exact (socket_active h s t Hs Ht). assert (Hr1 : runs h1 = runs h) by reflexivity.
  assert (Hw1 : m_wgQueue h1 <> [] -> size (m_wgWatchers h1) = kWgMaxParallel) by exact (so_wg h Hs). clearbody h1.
  pose proof (reports_spec latency (t_rows t) h1 Hc1) as [R1 R2 R3 R4]. generalize dependent (forEach (report reacts latency) (t_rows t) h1).2. intros h2 R1 R2 R3 R4.
  destruct (nextTcp_spec h2 R1) as (K1 & K2 & K3).
  - destruct R4 as [(_ & _ & -> & -> & _) | (_ & _ & -> & _)]; [done | by intros []].
  - destruct R4 as [(_ & _ & _ & _ & E & _) | He]; [congruence | intros _; by apply empty_left].
  - rewrite then_eq in *. unfold Keeps. split_and!; [done | congruence | lia | lia].
Qed.

(** Taking a handshake out, and queueing it for its second attempt. *)
Lemma take_watcher h w t : Core h -> m_wgWatchers h !! w = Some t ->
  let h1 := (setWatchers (delete w (m_wgWatchers h)) h).2 in
  Core h1 /\ (probesLeft h1 + wgWork t)%nat = probesLeft h /\ (1 <= wgWork t)%nat.
Proof.
  intros Hc Ht. cbv zeta. split_and!.
  - destruct Hc as [C1 C2 C3 C4 C5 C6 C7 C8 C9 C10]. constructor; cbn; try done.
    + rewrite map_size_delete_Some by done. lia.
    + intros s' t' [_ Hd]%lookup_delete_Some. by apply (C4 s' t').
    + intros s' t' [_ Hd]%lookup_delete_Some. by apply (C6 s' t').
    + intros s' t' [_ Hd]%lookup_delete_Some. by apply C10.
  - unfold probesLeft, wgLeft. cbn [setWatchers modify snd m_wgQueue m_wgWatchers]. rewrite (sumMap_delete (fun _ t => wgWork t) w t (m_wgWatchers h)) by done.
    unfold tcpLeft. cbn [m_queue m_socketTargets]. change (socketWork (mkHc _ _ _ _ _ _ _ _ _ _ _ _)) with (socketWork h). lia.
  - destruct (co_wg h Hc w t Ht) as [E | E]; unfold wgWork; rewrite E; cbn; lia.
Qed.

Lemma requeue_spec h t : Core h -> once (w_attempts t) ->
  let h1 := (setWg (m_wgQueue h ++ [t]) (m_seenWgEndpoints h) h).2 in Core h1 /\ probesLeft h1 = (probesLeft h + wgWork t)%nat.
Proof.
  intros [C1 C2 C3 C4 C5 C6 C7 C8 C9 C10] Ht. cbv zeta. split.
  - constructor; cbn; try done. apply Forall_app. split; [done |]. by apply Forall_singleton.
  - unfold probesLeft, wgLeft. cbn [setWg modify snd m_wgQueue m_wgWatchers].
    assert (E : foldr (fun t n => (wgWork t + n)%nat) 0%nat (m_wgQueue h ++ [t]) = (foldr (fun t n => (wgWork t + n)%nat) 0%nat (m_wgQueue h) + wgWork t)%nat).
    { generalize (m_wgQueue h). intros q. induction q as [| u q IH]; cbn [app foldr]; [lia |]. rewrite IH. lia. }
    rewrite E. unfold tcpLeft. cbn [m_queue m_socketTargets]. change (socketWork (mkHc _ _ _ _ _ _ _ _ _ _ _ _)) with (socketWork h). lia.
Qed.

Lemma finishWatcher_spec w t rtt h : Sound h -> m_wgWatchers h !! w = Some t ->
  let h' := (finishWatcher reacts w rtt h).2 in Keeps h h' /\ (probesLeft h' < probesLeft h)%nat.
Proof.
  intros Hs Ht. cbv zeta. unfold finishWatcher. rewrite bind_eq. cbn [get fst snd]. rewrite Ht, !then_eq.
  destruct (take_watcher h w t (so_core h Hs) Ht) as (Hc1 & Hl1 & Hw1). set (h1 := (setWatchers _ h).2) in *.
  assert (Ha1 : m_probeActive h1 = true) by exact (watcher_active h w t Hs Ht). assert (Hr1 : runs h1 = runs h) by reflexivity.
  assert (Hq1 : m_queue h1 <> [] -> size (m_socketTargets h1) = kMaxParallel) by exact (so_tcp h Hs). clearbody h1.
  destruct ((rtt <? 0) && (w_attempts t <? 2)) eqn:Er.
  - apply andb_true_iff in Er as [_ Er]. zbool. rewrite bind_eq. cbn [get fst snd].
    pose proof (co_wg h (so_core h Hs) w t Ht) as Hone. set (t' := mkWg _ _ _ _ _ _ _ _).
    assert (Ht' : once (w_attempts t') /\ (wgWork t' < wgWork t)%nat).
    { unfold t', once, wgWork. cbn. destruct Hone as [E | E]; rewrite E in *; [split; [by right | cbn; lia] | lia]. }
    destruct Ht' as [Hone' Hless]. clearbody t'. destruct (requeue_spec h1 t' Hc1 Hone') as [Hc2 Hl2]. set (h2 := (setWg _ _ h1).2) in *.
    assert (Ha2 : m_probeActive h2 = true) by exact Ha1. assert (Hr2 : runs h2 = runs h1) by reflexivity.
    assert (Hq2 : m_queue h2 <> [] -> size (m_socketTargets h2) = kMaxParallel) by exact Hq1. clearbody h2.
    destruct (nextWg_spec h2 Hc2 Hq2) as (K1 & K2 & K3); [congruence |]. rewrite then_eq in *. unfold Keeps. split_and!; [done | congruence | lia | lia].
  - pose proof (reports_spec rtt (w_rows t) h1 Hc1) as [R1 R2 R3 R4]. generalize dependent (forEach (report reacts rtt) (w_rows t) h1).2. intros h2 R1 R2 R3 R4.
    destruct (nextWg_spec h2 R1) as (K1 & K2 & K3).
    + destruct R4 as [(-> & -> & _) | (-> & _)]; [done | by intros []].
    + destruct R4 as [(_ & _ & _ & _ & E & _) | He]; [congruence | intros _; by apply empty_left].
    + rewrite then_eq in *. unfold Keeps. split_and!; [done | congruence | lia | lia].
Qed.

Lemma finishSocket_none s latency h : m_socketTargets h !! s = None -> (finishSocket reacts s latency h).2 = h.
Proof. intros Hn. unfold finishSocket. rewrite bind_eq. cbn [get fst snd]. by rewrite Hn. Qed.

(** Another attempt of a socket: only its count and the trace change. *)
Definition withAttempt (s : nat) (n : Z) (out : list HcOutput) (h : HealthCheck) : HealthCheck :=
  mkHc (hc_servers h) (m_queue h) (m_socketTargets h) (<[s := n]> (m_attempts h)) (m_seenTcpEndpoints h) (m_wgQueue h) (m_wgWatchers h)
    (m_seenWgEndpoints h) (m_lastRunMsecs h) (m_probeActive h) (hc_fresh h) (hc_out h ++ out).

Lemma withAttempt_spec s n out h : Sound h -> once n -> default 0 (m_attempts h !! s) < n -> List.filter isFinished out = [] ->
  (exists ms, startTimer s n ms ∈ out) ->
  Keeps h (withAttempt s n out h)
  /\ (forall t, m_socketTargets h !! s = Some t -> (probesLeft (withAttempt s n out h) < probesLeft h)%nat).
Proof.
  intros Hs Hn Hless Ho [ms Hin]. pose proof (so_core h Hs) as Hc.
  assert (Hc1 : Core (withAttempt s n out h)).
  { destruct Hc as [C1 C2 C3 C4 C5 C6 C7 C8 C9 C10]. constructor; cbn; try done.
    - intros s' t' Ht'.
      destruct (decide (s' = s)) as [-> | Hne]; [exists n; by rewrite lookup_insert_eq | rewrite lookup_insert_ne by done; by apply (C5 s' t')].
    - intros s' k [[_ <-] | [_ Hk]]%lookup_insert_Some; [destruct Hn; lia | by apply (C8 s')].
    - intros s' t' k Ht' [[<- <-] | [Hne Hk]]%lookup_insert_Some; [exists ms; apply elem_of_app; by right |].
      destruct (C9 s' t' k Ht' Hk) as (ms' & Hms). exists ms'. apply elem_of_app. by left.
    - intros w t' Hw. apply elem_of_app. left. by apply C10. }
  assert (Hother : forall s', s' <> s -> socketWork (withAttempt s n out h) s' = socketWork h s')
    by (intros s' Hne; unfold socketWork, withAttempt; cbn [m_attempts]; by rewrite lookup_insert_ne).
  assert (Hl : (probesLeft (withAttempt s n out h) <= probesLeft h)%nat
    /\ (forall t, m_socketTargets h !! s = Some t -> (probesLeft (withAttempt s n out h) < probesLeft h)%nat)).
  { unfold probesLeft, tcpLeft, wgLeft. cbn [withAttempt m_queue m_socketTargets m_wgQueue m_wgWatchers]. destruct (m_socketTargets h !! s) as [t |] eqn:Et.
    - rewrite !(sumMap_delete _ s t _ Et).
      rewrite (sumMap_ext (fun s' _ => socketWork (withAttempt s n out h) s') (fun s' _ => socketWork h s') (delete s _))
        by (intros s' t' [Hne _]%lookup_delete_Some; by apply Hother).
      assert (Hw : (socketWork (withAttempt s n out h) s < socketWork h s)%nat); [| split; [lia | intros; lia]].
      unfold socketWork, withAttempt. cbn [m_attempts]. rewrite lookup_insert_eq. cbn [default]. destruct (co_attempts h Hc s t Et) as (k & Hk & Hk1).
      rewrite Hk in *. cbn in *. destruct Hk1 as [-> | ->], Hn as [-> | ->]; cbn; lia.
    - rewrite (sumMap_ext (fun s' _ => socketWork (withAttempt s n out h) s') (fun s' _ => socketWork h s')); [split; [lia | done] |].
      intros s' t' Ht'. apply Hother. congruence. }
  split; [| apply Hl]. unfold Keeps. split_and!; [| | apply Hl].
  - destruct Hs as [_ S1 S2 S3]. by constructor.
  - unfold runs, finishes, withAttempt. cbn [m_probeActive hc_out]. by rewrite List.filter_app, Ho, app_nil_r.
Qed.

Lemma onSocketError_spec s ms h : Sound h ->
  let h' := (onSocketError reacts s ms h).2 in
  Keeps h h' /\ (forall t, m_socketTargets h !! s = Some t -> (probesLeft h' < probesLeft h)%nat).
Proof.
  intros Hs. cbv zeta. unfold onSocketError. rewrite bind_eq. cbn [get fst snd]. destruct (Z.ltb_spec (default 0 (m_attempts h !! s)) 2) as [Hlt | Hge].
  - set (n := default 0 (m_attempts h !! s) + 1). set (t := default noTarget (m_socketTargets h !! s)).
    assert (He : exists out, List.filter isFinished out = [] /\ startTimer s n ms ∈ out /\
      ((setSockets (m_socketTargets h) (<[s := n]> (m_attempts h)) ;; hcSend (abortSocket s) ;; dialSocket s t ;; hcSend (startTimer s n ms)) h).2
      = withAttempt s n out h).
    { rewrite !then_eq. unfold dialSocket. destruct (t_https t);
        [exists [abortSocket s; connectToHostEncrypted s (t_host t) (t_port t) (t_sni t); startTimer s n ms]
        | exists [abortSocket s; connectToHost s (t_host t) (t_port t); startTimer s n ms]];
        (split_and!; [done | set_solver |]); unfold withAttempt; destruct h; cbn; by rewrite <- !app_assoc. }
    destruct He as (out & Ho & Hin & ->).
    assert (Hpos : 0 <= default 0 (m_attempts h !! s)).
    { destruct (m_attempts h !! s) as [k |] eqn:Ek; cbn; [by apply (co_counted h (so_core h Hs) s) | lia]. }
    apply withAttempt_spec; [done | unfold once, n; lia | unfold n; lia | done | by exists ms].
  - destruct (m_socketTargets h !! s) as [t |] eqn:Et.
    + destruct (finishSocket_spec s t (-1) h Hs Et) as [K1 K2]. split; [done |]. done.
    + rewrite finishSocket_none by done. split; [by apply keeps_refl | done].
Qed.

Lemma guarded_finish s latency (b : bool) h : Sound h ->
  let h' := ((if b then finishSocket reacts s latency else mret tt) h).2 in
  Keeps h h' /\ (b = true -> forall t, m_socketTargets h !! s = Some t -> (probesLeft h' < probesLeft h)%nat).
Proof.
  intros Hs. cbv zeta. destruct b; [| by split; [apply keeps_refl |]]. destruct (m_socketTargets h !! s) as [t |] eqn:Et.
  - destruct (finishSocket_spec s t latency h Hs Et) as [K1 K2]. by split.
  - rewrite finishSocket_none by done. by split; [apply keeps_refl |].
Qed.

Lemma socketTimeout_spec s attempt h : Sound h ->
  let h' := (socketTimeout reacts s attempt h).2 in
  Keeps h h' /\ (forall t, m_socketTargets h !! s = Some t -> m_attempts h !! s = Some attempt -> (probesLeft h' < probesLeft h)%nat).
Proof.
  intros Hs. cbv zeta. unfold socketTimeout. rewrite bind_eq. cbn [get fst snd].
  destruct (guarded_finish s (-1) (bool_decide (is_Some (m_socketTargets h !! s)) && (default 0 (m_attempts h !! s) =? attempt)) h Hs) as [K1 K2].
  split; [done |]. intros t Ht Ha. apply (K2 ltac:(rewrite Ht, Ha; cbn; apply Z.eqb_refl) t Ht).
Qed.

Lemma socketReadyRead_spec s head elapsed h : Sound h ->
  let h' := (socketReadyRead reacts s head elapsed h).2 in
  Keeps h h' /\ (forall t, m_socketTargets h !! s = Some t -> httpStatus head <> None -> (probesLeft h' < probesLeft h)%nat).
Proof.
  intros Hs. cbv zeta. unfold socketReadyRead. rewrite bind_eq. cbn [get fst snd].
  destruct (m_socketTargets h !! s) as [t |] eqn:Et; [| by split; [apply keeps_refl |]].
  destruct (httpStatus head) as [status |]; [| by split; [apply keeps_refl |]].
  destruct (finishSocket_spec s t (if status <? 500 then elapsed else -1) h Hs Et) as [K1 K2]. by split.
Qed.

Lemma onEncrypted_spec s h : Sound h -> Keeps h (onEncrypted s h).2.
Proof.
  intros Hs. unfold onEncrypted. rewrite bind_eq. cbn [get fst snd]. cbv zeta. set (o := socketWrite _ _).
  assert (Hf : finishes (hcSend o h).2 = finishes h) by by apply finishes_send. clearbody o. unfold Keeps. split_and!.
  - destruct Hs as [Hc ? ? ?]. constructor; [by apply core_send | done | done | done].
  - unfold runs. rewrite Hf. done.
  - done.
Qed.

(** A run is started unless the last one is too recent. *)
Definition throttled (force : bool) (now : Z) (h : HealthCheck) : bool :=
  negb force && negb (m_lastRunMsecs h =? 0) && (now - m_lastRunMsecs h <? kThrottleMs).

Lemma enqueueAll_forall {T} (P : T -> Prop) share (keyOf : T -> string) targets rows :
  (forall i t, P t -> P (share i t)) -> (forall i t, t ∈ targets i -> P t) -> Forall P (enqueueAll share keyOf targets rows).1.
Proof.
  intros Hshare Hall. unfold enqueueAll. generalize (Forall_nil_2 P : Forall P (([] : list T), (∅ : gmap string nat)).1). generalize (([] : list T), (∅ : gmap string nat)).
  induction rows as [| i rows IH]; intros qs Hq; cbn [fold_left]; [done |]. apply IH. clear IH. specialize (Hall i).
  revert qs Hq. induction (targets i) as [| t ts IH]; intros qs Hq; cbn [fold_left]; [done |].
  apply IH; [intros u Hu; apply Hall; by right |]. destruct qs as [q seen]. unfold enqueueBy. destruct (seen !! keyOf t); cbn [fst] in *.
  - apply Forall_alter; [done |]. intros u _ Hu. by apply Hshare.
  - apply Forall_app. split; [done |]. apply Forall_singleton, Hall. by left.
Qed.

(** The queues of a new run, before its probes start. *)
Definition Loaded (m : ServersModel) (h : HealthCheck) : Prop :=
  Core h /\ m_queue h = (collectTcp m).1 /\ m_wgQueue h = (collectWg m).1 /\ m_probeActive h = false
  /\ probesLeft h = (2 * (length (collectTcp m).1 + length (collectWg m).1))%nat.

Lemma wgWork_fresh q : Forall (fun t => w_attempts t = 1) q -> foldr (fun t n => (wgWork t + n)%nat) 0%nat q = (2 * length q)%nat.
Proof. induction 1 as [| t q Ht _ IH]; cbn [foldr length]; [done |]. rewrite IH. unfold wgWork. rewrite Ht. cbn. lia. Qed.

Lemma wgTargets_fresh m : Forall (fun t => w_attempts t = 1) (collectWg m).1.
Proof.
  apply enqueueAll_forall; [done |]. intros i t. unfold wgTargets. destruct (negb _ && negb _); [intros Ht; by apply elem_of_nil in Ht |].
  destruct (Model.containersOf _); [intros Ht; by apply elem_of_nil in Ht |].
  repeat case_if; try (intros Ht; by apply elem_of_nil in Ht); intros Ht; by apply list_elem_of_fmap in Ht as (a & -> & _).
Qed.

Lemma load_spec h : Empty h ->
  let h' := (((h ← get; let '(q, seen) := collectTcp (hc_servers h) in setTcp q seen) ;;
    (h ← get; let '(q, seen) := collectWg (hc_servers h) in setWg q seen)) h).2 in
  Loaded (hc_servers h) h' /\ runs h' = runs h.
Proof.
  intros (E1 & E2 & E3 & E4 & E5 & E6). cbv zeta. rewrite then_eq, !bind_eq. cbn [get fst snd].
  pose proof (wgTargets_fresh (hc_servers h)) as Hf. destruct (collectTcp (hc_servers h)) as [q seen] eqn:Eq. cbn [setTcp modify snd hc_servers].
  destruct (collectWg (hc_servers h)) as [wq wseen] eqn:Ewq. cbn [fst] in *. split; [| done]. unfold Loaded. rewrite Eq, Ewq. cbn [fst].
  split_and!; try done.
  - constructor; cbn; rewrite ?E2, ?E4, ?E6; try (intros ? ?; by rewrite lookup_empty); [rewrite map_size_empty; lia | rewrite map_size_empty; lia |].
    apply (Forall_impl _ _ _ Hf). intros t Ht. by left.
  - unfold probesLeft, tcpLeft, wgLeft. cbn. rewrite E2, E4, !sumMap_empty, wgWork_fresh by done. lia.
Qed.

Lemma startProbe_spec force now h : throttled force now h = false ->
  let h' := (startProbe force now h).2 in
  let m := (Model.clearHealthResults (hc_servers h)).2 in
  Sound h' /\ runs h' = S (runs h) /\ probesLeft h' = (2 * (length (collectTcp m).1 + length (collectWg m).1))%nat.
Proof.
  intros Ht. cbv zeta. unfold startProbe. rewrite bind_eq. cbn [get fst snd]. fold (throttled force now h). rewrite Ht, !then_eq.
  set (h0 := (setLastRun now h).2). assert (H0 : runs h0 = runs h /\ hc_servers h0 = hc_servers h) by done. clearbody h0.
  destruct (stopProbe_spec h0) as (Q1 & Q2 & Q3). destruct H0 as [R0 M0]. rewrite <- R0, <- Q2, <- M0, <- Q3. clear Ht R0 M0 Q2 Q3.
  generalize dependent (stopProbe h0).2. intros h1 Q1.
  set (h2 := ((h ← get; setServersModel _) h1).2).
  assert (H2 : Empty h2 /\ runs h2 = runs h1 /\ hc_servers h2 = (Model.clearHealthResults (hc_servers h1)).2) by done. clearbody h2.
  destruct H2 as (He & <- & <-). pose proof (load_spec h2 He) as [HL Hr]. rewrite then_eq in HL, Hr. set (h3 := ((_ ← get; _) _).2) in *. rewrite <- Hr. clearbody h3.
  destruct HL as (Hc & _ & _ & Ha & Hl). rewrite <- Hl.
  destruct (startNext_spec h3 Hc) as [[T1 T2 T3 T4 T5 T6 T7] Hq]. generalize dependent (startNext h3).2. intros h4 T1 T2 T3 T4 T5 T6 T7 Hq.
  destruct (startNextWg_spec h4 T1) as [[W1 W2 W3 W4 W5 W6 W7 W8] Hwq]. generalize dependent (startNextWg h4).2. intros h5 W1 W2 W3 W4 W5 W6 W7 W8 Hwq.
  assert (Hl5 : probesLeft h5 = probesLeft h3).
  { unfold probesLeft. rewrite W2. unfold wgLeft. rewrite T3, T4, <- T2. f_equal. unfold tcpLeft. rewrite W3, W4. f_equal.
    apply sumMap_ext. intros k x _. unfold socketWork. by rewrite W5. }
  destruct (maybeFinish_spec (setActive true h5).2) as (M1 & M2 & M3); [by destruct W1 | cbn; naive_solver congruence | cbn; naive_solver | done |].
  split_and!; [done | rewrite M2; unfold runs; rewrite Ha; cbn; rewrite <- T7, <- W8; unfold finishes; cbn; lia | by rewrite M3].
Qed.

Lemma startProbe_throttled force now h : throttled force now h = true -> (startProbe force now h).2 = h.
Proof. intros Ht. unfold startProbe. rewrite bind_eq. cbn [get fst snd]. fold (throttled force now h). by rewrite Ht. Qed.

(** Whether an event begins a run. *)
Definition begins (e : HcEvent) (h : HealthCheck) : bool :=
  match e with evStart force now => negb (throttled force now h) | _ => false end.

Lemma hcEvent_spec e h : Sound h ->
  let h' := (hcEvent reacts e h).2 in
  Sound h' /\ runs h' = (runs h + Nat.b2n (begins e h))%nat /\ (begins e h = false -> (probesLeft h' <= probesLeft h)%nat).
Proof.
  intros Hs. cbv zeta.
  assert (Hk : forall h', Keeps h h' -> Sound h' /\ runs h' = (runs h + Nat.b2n false)%nat /\ (false = false -> (probesLeft h' <= probesLeft h)%nat)).
  { intros h' (K1 & K2 & K3). split_and!; [done | cbn; lia | done]. }
  destruct e as [s ms | s | s head ms | s ms | s n | w rtt | force now |]; cbn [hcEvent begins]; try (apply Hk; clear Hk).
  - destruct (guarded_finish s ms true h Hs) as [K _]. exact K.
  - by apply onEncrypted_spec.
  - by apply socketReadyRead_spec.
  - by apply onSocketError_spec.
  - by apply socketTimeout_spec.
  - destruct (m_wgWatchers h !! w) as [t |] eqn:Ew; [by apply (finishWatcher_spec w t) |].
    unfold finishWatcher. rewrite bind_eq. cbn [get fst snd]. rewrite Ew. by apply keeps_refl.
  - destruct (throttled force now h) eqn:Et; cbn [negb].
    + rewrite startProbe_throttled by done. apply Hk. by apply keeps_refl.
    + destruct (startProbe_spec force now h Et) as (P1 & P2 & _). split_and!; [done | rewrite P2; cbn; lia | done].
  - destruct (stopProbe_spec h) as (Q1 & Q2 & _). unfold Keeps. split_and!; [by apply empty_sound | done | rewrite empty_left by done; lia].
Qed.
End Operations.

(** ** Runs *)

Section Runs.
Context `{Qt} (reacts : HealthCheck -> bool).
Implicit Types h : HealthCheck.

(** The controller after its constructor. *)
Definition newHealthCheck (m : ServersModel) : HealthCheck := mkHc m [] ∅ ∅ ∅ [] ∅ ∅ 0 false 0 [].
Definition hcRun (es : list HcEvent) (h : HealthCheck) : HealthCheck := fold_left (fun h e => (hcEvent reacts e h).2) es h.

(** The runs that the events begin, and the events that settle a probe: the
    answer of a socket, its failure, the timer of its current attempt, the
    result of a thread. *)
Fixpoint begun (es : list HcEvent) (h : HealthCheck) : nat :=
  match es with [] => 0 | e :: es => Nat.b2n (begins e h) + begun es (hcEvent reacts e h).2 end.
Definition running (s : nat) (h : HealthCheck) : bool := bool_decide (is_Some (m_socketTargets h !! s)).
Definition resolves (e : HcEvent) (h : HealthCheck) : bool :=
  match e with
  | evConnected s _ | evSocketError s _ => running s h
  | evReadyRead s head _ => running s h && bool_decide (is_Some (httpStatus head))
  | evTimeout s n => running s h && bool_decide (m_attempts h !! s = Some n)
  | evWatcher w _ => bool_decide (is_Some (m_wgWatchers h !! w))
  | _ => false
  end.
Fixpoint resolved (es : list HcEvent) (h : HealthCheck) : nat :=
  match es with [] => 0 | e :: es => Nat.b2n (resolves e h) + resolved es (hcEvent reacts e h).2 end.
Definition isStart (e : HcEvent) : bool := match e with evStart _ _ => true | _ => false end.

(** What settles a probe without the network: a timer or a thread that was
    started. *)
Definition armed (e : HcEvent) (h : HealthCheck) : Prop :=
  match e with
  | evTimeout s n => exists ms, startTimer s n ms ∈ hc_out h
  | evWatcher w _ => exists t, runProbe w t ∈ hc_out h
  | _ => False
  end.

Lemma new_sound m : Sound (newHealthCheck m).
Proof. apply empty_sound. by split_and!. Qed.

Lemma run_spec es h : Sound h -> Sound (hcRun es h) /\ runs (hcRun es h) = (runs h + begun es h)%nat.
Proof.
  revert h. induction es as [| e es IH]; intros h Hs; cbn [hcRun fold_left begun]; [split; [done | lia] |].
  destruct (hcEvent_spec reacts e h Hs) as (E1 & E2 & _). destruct (IH _ E1) as [I1 I2]. split; [done |].
  unfold hcRun in I2. rewrite I2, E2. lia.
Qed.

Lemma resolves_less e h : Sound h -> resolves e h = true -> (probesLeft (hcEvent reacts e h).2 < probesLeft h)%nat.
Proof.
  intros Hs. unfold resolves, running. destruct e as [s ms | s | s head ms | s ms | s n | w rtt | force now |]; cbn [hcEvent]; try done; rewrite ?andb_true_iff, ?bool_decide_eq_true.
  - intros [t Ht]. by apply (finishSocket_spec reacts s t).
  - intros [[t Ht] [k Hk]]. destruct (socketReadyRead_spec reacts s head ms h Hs) as [_ R]. apply (R t Ht). by rewrite Hk.
  - intros [t Ht]. destruct (onSocketError_spec reacts s ms h Hs) as [_ R]. by apply (R t).
  - intros [[t Ht] Hn]. destruct (socketTimeout_spec reacts s n h Hs) as [_ R]. by apply (R t).
  - intros [t Ht]. by apply (finishWatcher_spec reacts w t).
Qed.

(** While a run is active a timer or a thread that settles a probe is under
    way. *)
Lemma active_armed h : Sound h -> m_probeActive h = true -> exists e, resolves e h = true /\ armed e h.
Proof.
  intros [Hc St Sw Sa] Ha.
  destruct (decide (m_socketTargets h = ∅)) as [Es | Es].
  - destruct (decide (m_wgWatchers h = ∅)) as [Ew | Ew].
    + exfalso. rewrite Sa in Ha. unfold pending in Ha. rewrite Es, Ew in *. rewrite map_size_empty in *.
      destruct (m_queue h); [| by discriminate St]. destruct (m_wgQueue h); [done | by discriminate Sw].
    + apply map_choose in Ew as (w & t & Hw). exists (evWatcher w 0). cbn. split; [by apply bool_decide_eq_true_2; exists t |].
      exists t. by apply (co_thread h Hc).
  - apply map_choose in Es as (s & t & Hs). destruct (co_attempts h Hc s t Hs) as (n & Hn & _). exists (evTimeout s n). cbn.
    unfold running. rewrite Hs, Hn, !bool_decide_eq_true_2 by done. split; [done |]. by apply (co_timer h Hc s t n).
Qed.

Lemma run_less es h : Sound h -> Forall (fun e => isStart e = false) es ->
  (resolved es h + probesLeft (hcRun es h) <= probesLeft h)%nat /\ begun es h = 0%nat.
Proof.
  revert h. induction es as [| e es IH]; intros h Hs Hf; cbn [hcRun fold_left resolved begun]; [split; [lia | done] |].
  apply Forall_cons in Hf as [He Hf]. assert (Hb : begins e h = false) by by destruct e.
  destruct (hcEvent_spec reacts e h Hs) as (E1 & _ & E3). specialize (E3 Hb). destruct (IH _ E1 Hf) as [I1 I2]. unfold hcRun in I1. rewrite Hb, I2.
  split; [| done]. destruct (resolves e h) eqn:Er; cbn [Nat.b2n]; [| lia]. pose proof (resolves_less e h Hs Er). lia.
Qed.


(** A run that is started ends.  Whatever happens after it, no
    new run being started, at most two settling events per target are left;
    as long as the run is active, a timer of the current attempt or a thread
    that was started will settle another probe; and once it is not,
    [probingFinished] has been emitted exactly once since. *)
Theorem health_run_ends m es0 force now es :
  let h0 := hcRun es0 (newHealthCheck m) in
  throttled force now h0 = false -> Forall (fun e => isStart e = false) es ->
  let h1 := (startProbe force now h0).2 in
  let h2 := hcRun es h1 in
  let collected := (Model.clearHealthResults (hc_servers h0)).2 in
  (resolved es h1 <= 2 * (length (collectTcp collected).1 + length (collectWg collected).1))%nat
  /\ (m_probeActive h2 = true -> exists e, resolves e h2 = true /\ armed e h2)
  /\ (m_probeActive h2 = false -> finishes h2 = (finishes h0 + Nat.b2n (m_probeActive h0) + 1)%nat).
Proof.
  intros h0 Ht Hf. cbv zeta. destruct (startProbe_spec reacts force now h0 Ht) as (P1 & P2 & P3). cbv zeta in P1, P2, P3.
  generalize dependent (startProbe force now h0).2. intros h1 P1 P2 P3.
  destruct (run_spec es h1 P1) as [R1 R2]. destruct (run_less es h1 P1 Hf) as [L1 L2]. rewrite L2, P2 in R2. split_and!.
  - rewrite <- P3. lia.
  - by apply active_armed.
  - intros Ha. unfold runs in R2. rewrite Ha in R2. cbn [Nat.b2n] in R2. lia.
Qed.
End Runs.

(** An error of a socket that is finished and not yet deleted dials an empty
    address and counts its attempts anew. *)
Lemma late_error_redials reacts s ms h : m_socketTargets h !! s = None -> m_attempts h !! s = None ->
  let h' := (onSocketError reacts s ms h).2 in
  hc_out h' = hc_out h ++ [abortSocket s; connectToHost s "" 0; startTimer s 1 ms] /\ m_attempts h' !! s = Some 1.
Proof.
  intros Hs Ha. cbv zeta. unfold onSocketError. rewrite bind_eq. cbn [get fst snd]. rewrite Ha, Hs. cbn [default].
  change (0 <? 2) with true. cbv iota zeta. rewrite !then_eq. cbn. split; [by rewrite <- !app_assoc | apply lookup_insert_eq].
Qed.

(** ** Samples *)

Module Sample.
Definition outbound (address : string) : json :=
  JObject {["settings"%string := JObject {["vnext"%string := JArray [JObject (<["address"%string := jstr address]> {["port"%string := jint 443]})]]}]}.
Definition sampleQt : Qt := concreteQt (fun s => Some {["outbounds"%string := JArray [outbound s]]}) (fun _ => "{}"%string).
Definition vless (name address : string) : json :=
  JObject (<["description"%string := jstr name]> (<["hostName"%string := jstr address]>
    (<["displayInfo"%string := JObject {["protocol"%string := jstr "vless"]}]>
    {["containers"%string := JArray [JObject {["xray"%string := JObject {["config"%string := jstr address]}]}]]}))).
Definition plain (name : string) : json := JObject {["description"%string := jstr name]}.

(** Three servers, of which the second is probed; their text is their number. *)
Definition servers : list json := [plain "first"; vless "second" "192.0.2.2"; plain "third"].
Definition arrayOf (s : string) : list json := if String.eqb s "3" then servers else drop 1 servers.
Definition textOfArray (l : list json) : string := pretty (length l).
Definition model : ServersModel :=
  (Model.resetModel arrayOf (mkServers (Store.setServersArray textOfArray servers ∅) [] (-1) (-1) true (mkStacks ∅ ∅) ∅ [] [] [] [])).2.
Definition calm (h : HealthCheck) : bool := false.
End Sample.

Lemma health_run_ends_witness :
  let h1 := (startProbe (H := Sample.sampleQt) true 1000 (newHealthCheck Sample.model)).2 in
  let h2 := hcRun (H := Sample.sampleQt) Sample.calm [evSocketError 0 2500; evTimeout 0 2] h1 in
  m_probeActive h1 = true /\ m_probeActive h2 = false /\ finishes h2 = 1%nat /\ m_healthResults (hc_servers h2) !! 1 = Some (-1).
Proof.
  cbv zeta. split_and!; [by vm_compute | by vm_compute | | by vm_compute].
  pose proof (health_run_ends (H := Sample.sampleQt) Sample.calm Sample.model [] true 1000 [evSocketError 0 2500; evTimeout 0 2]
    eq_refl ltac:(repeat constructor)) as (_ & _ & He).
  exact (He ltac:(by vm_compute)).
Defined.

(** Results are filed under the rows that were collected when the
    run began.  When the list changes during the run, here by the removal of
    the first server, the latency of the second server is shown for the third,
    which was not probed at all. *)
Theorem late_result_wrong_row :
  let h1 := (startProbe (H := Sample.sampleQt) true 1000 (newHealthCheck Sample.model)).2 in
  let moved := (setServersModel (Model.removeServer Sample.arrayOf Sample.textOfArray 0 (hc_servers h1)).2 h1).2 in
  let h2 := (hcEvent (H := Sample.sampleQt) Sample.calm (evConnected 0 20) moved).2 in
  m_socketTargets h1 = {[0%nat := mkTarget [1] "192.0.2.2" 443 "192.0.2.2" "/" false]}
  /\ Model.serverAt (hc_servers moved) 0 = toObject (Some (Sample.vless "second" "192.0.2.2"))
  /\ Model.serverAt (hc_servers moved) 1 = toObject (Some (Sample.plain "third"))
  /\ m_healthResults (hc_servers h2) !! 1 = Some 20.
Proof. cbv zeta. split_and!; by vm_compute. Qed.
