(* ===== verification/ShareLinksProofs.v ===== *)
(** * What the share links guarantee

    A VLESS server that is written as a link is read back from it. *)

From Stdlib Require Import ZArith Lia Bool String Ascii QArith.
From stdpp Require Import base gmap strings list pretty countable.
From S2P Require Import Prelude.
From S2P Require Import Qt.
From S2P Require Import QtInstance.
From S2P Require Import Settings.
From S2P Require Import ServerStore.
From S2P Require Import ShareLinks.

Open Scope Z_scope.

(** ** Paths *)

Fixpoint getNode (path : list PathItem) (node : option json) : option json :=
  match path with
  | [] => node
  | Key k :: path' => getNode path' (value (toObject node) k)
  | At i :: path' => getNode path' (toArray node !! i)
  end.

(** Two paths that part at a key. *)
Fixpoint apart (p q : list PathItem) : bool :=
  match p, q with
  | Key k :: p', Key l :: q' => if String.eqb k l then apart p' q' else true
  | At i :: p', At j :: q' => if Nat.eqb i j then apart p' q' else false
  | _, _ => false
  end.

Lemma get_set p v node : getNode p (Some (setNode p v node)) = Some v.
Proof.
  revert node. induction p as [| [k | i] p IH]; intros node; cbn [setNode getNode]; [done | |].
  - cbn [toObject]. unfold value at 1. rewrite lookup_insert_eq. apply IH.
  - cbn [toArray]. rewrite list_lookup_insert_eq; [apply IH |]. rewrite length_app, length_replicate. lia.
Qed.

Lemma get_apart p q v node : apart p q = true -> getNode q (Some (setNode p v node)) = getNode q node.
Proof.
  revert q node. induction p as [| [k | i] p IH]; intros [| [l | j] q] node; cbn [apart setNode getNode]; try done.
  - destruct (String.eqb_spec k l) as [<- | Hne]; intros Ha; cbn [toObject]; unfold value.
    + rewrite lookup_insert_eq. by apply IH.
    + by rewrite lookup_insert_ne.
  - destruct (Nat.eqb_spec i j) as [<- | Hne]; [| done]. intros Ha. cbn [toArray].
    rewrite list_lookup_insert_eq; [by apply IH |]. rewrite length_app, length_replicate. lia.
Qed.

(** What is at a path of an object. *)
Definition at_ (path : list PathItem) (o : QJsonObject) : option json := getNode path (Some (JObject o)).

Lemma at_set k p v o : at_ (Key k :: p) (SetValue (Key k :: p) v o) = Some v.
Proof. exact (get_set (Key k :: p) v (Some (JObject o))). Qed.
Lemma at_apart k p q v o : apart (Key k :: p) q = true -> at_ q (SetValue (Key k :: p) v o) = at_ q o.
Proof. exact (get_apart (Key k :: p) q v (Some (JObject o))). Qed.

(** ** Queries *)

Lemma query_app q1 q2 key : queryItemValue (q1 ++ q2) key = if hasQueryItem q1 key then queryItemValue q1 key else queryItemValue q2 key.
Proof.
  unfold queryItemValue, hasQueryItem. induction q1 as [| [k v] q1 IH]; cbn [app List.find existsb fst]; [done |].
  destruct (String.eqb k key); [done |]. exact IH.
Qed.
Lemma has_app q1 q2 key : hasQueryItem (q1 ++ q2) key = hasQueryItem q1 key || hasQueryItem q2 key.
Proof. unfold hasQueryItem. apply existsb_app. Qed.
Lemma has_itemIf b k v key : hasQueryItem (itemIf b k v) key = b && String.eqb k key.
Proof. destruct b; cbn; [by rewrite orb_false_r | done]. Qed.
Lemma query_itemIf b k v key : queryItemValue (itemIf b k v) key = if b && String.eqb k key then v else ""%string.
Proof. destruct b; [| done]. unfold queryItemValue. cbn. by destruct (String.eqb k key). Qed.

Section Vless.
Context `{QtUrl}.

(** A URL that Qt has read is read again when it is printed; the text begins
    with the scheme; a text without a percent sign is its own decoding. *)
Class UrlLaws : Prop := {
  read_printed : forall t, u_valid (parseUrl t) = true -> parseUrl (urlText (parseUrl t)) = parseUrl t;
  printed_scheme : forall t, u_valid (parseUrl t) = true -> String.prefix (u_scheme (parseUrl t) +:+ "://") (urlText (parseUrl t)) = true;
  decoded_plain : forall s, chr_contains "%" s = false -> fromPercentEncoding s = s
}.

(** The server an Xray configuration connects to. *)
Definition textAt (path : list PathItem) (o : QJsonObject) : string := qdata (toString (at_ path o)).
Definition orElse (d s : string) : string := if nonEmpty s then s else d.
Definition vlessOf (root : QJsonObject) : VlessServerObject :=
  let outbound := toObject (at_ [Key "outbounds"; At 0] root) in
  let server := [Key "settings"; Key "vnext"; At 0] in
  let user := server ++ [Key "users"; At 0] in
  let stream := toObject (at_ [Key "streamSettings"] outbound) in
  let security := orElse "none" (textAt [Key "security"] stream) in
  mkVless (textAt (server ++ [Key "address"]) outbound) (textAt (user ++ [Key "id"]) outbound) (toIntJ (at_ (server ++ [Key "port"]) outbound))
    (textAt (user ++ [Key "flow"]) outbound) (textAt (user ++ [Key "encryption"]) outbound)
    (orElse "tcp" (textAt [Key "network"] stream)) security
    (textAt [Key (tlsKey security); Key "serverName"] stream)
    (textAt [Key "realitySettings"; Key "publicKey"] stream) (textAt [Key "realitySettings"; Key "shortId"] stream)
    (textAt [Key "realitySettings"; Key "fingerprint"] stream) (textAt [Key "realitySettings"; Key "spiderX"] stream).

(** What the link says of a server: defaults for what is empty, and the
    fields of Reality only with Reality. *)
Definition linked (s : VlessServerObject) : VlessServerObject :=
  let reality := String.eqb (vl_security s) "reality" in
  let when b v := if (b : bool) then v else ""%string in
  mkVless (vl_address s) (vl_id s) (vl_port s) (when (String.eqb (vl_security s) "xtls" || reality) (vl_flow s))
    (orElse "none" (vl_encryption s)) (orElse "tcp" (vl_network s)) (orElse "none" (vl_security s)) (vl_serverName s)
    (when reality (vl_publicKey s)) (when reality (vl_shortId s)) (when reality (vl_fingerprint s)) (when reality (vl_spiderX s)).

Implicit Types s : VlessServerObject.

Ltac query_values := unfold vlessQuery; rewrite ?has_app, ?query_app, ?has_itemIf, ?query_itemIf; cbn [String.eqb Ascii.eqb Bool.eqb]; rewrite ?andb_false_r, ?andb_true_r, ?orb_false_r; cbn [orb andb].

(** What the query says. *)
Lemma item_type s : queryOr (vlessQuery s) "type" "tcp" = orElse "tcp" (vl_network s).
Proof.
  unfold queryOr, orElse. query_values. destruct (nonEmpty (vl_network s)); cbn; [| done].
  destruct (String.eqb_spec (vl_network s) "tcp") as [-> | _]; done.
Qed.
Lemma item_encryption s : queryOr (vlessQuery s) "encryption" "none" = orElse "none" (vl_encryption s).
Proof. unfold queryOr, orElse. query_values. by destruct (nonEmpty (vl_encryption s)). Qed.
Lemma item_security s : securityOf (vlessQuery s) = orElse "none" (vl_security s).
Proof.
  unfold securityOf, queryOr, orElse. query_values. destruct (nonEmpty (vl_security s)); cbn; [| done].
  destruct (String.eqb_spec (vl_security s) "none") as [-> | _]; done.
Qed.
Lemma nonEmpty_id t : (if nonEmpty t then t else ""%string) = t.
Proof. unfold nonEmpty. by destruct (String.eqb_spec t ""). Qed.
Lemma item_flow s : String.eqb (vl_security s) "xtls" || String.eqb (vl_security s) "reality" = true -> queryItemValue (vlessQuery s) "flow" = vl_flow s.
Proof. intros Hs. query_values. rewrite Hs, andb_true_r. unfold nonEmpty. by destruct (String.eqb_spec (vl_flow s) "") as [-> |]. Qed.
Lemma item_sni s : hasQueryItem (vlessQuery s) "sni" = nonEmpty (vl_serverName s) /\ queryItemValue (vlessQuery s) "sni" = vl_serverName s.
Proof. query_values. split; [done |]. unfold nonEmpty. by destruct (String.eqb_spec (vl_serverName s) "") as [-> |]. Qed.

(** The four values of Reality. *)
Definition realityValue s (item : string) : string :=
  if String.eqb item "fp" then vl_fingerprint s else if String.eqb item "pbk" then vl_publicKey s
  else if String.eqb item "sid" then vl_shortId s else vl_spiderX s.
Lemma item_reality s item : item ∈ ["fp"; "pbk"; "sid"; "spiderX"]%string -> vl_security s = "reality"%string ->
  hasQueryItem (vlessQuery s) item = nonEmpty (realityValue s item) /\ queryItemValue (vlessQuery s) item = realityValue s item.
Proof.
  intros Hi Hs. unfold realityValue. rewrite !elem_of_cons, elem_of_nil in Hi.
  destruct Hi as [-> | [-> | [-> | [-> | []]]]]; query_values; rewrite Hs; cbn [String.eqb Ascii.eqb Bool.eqb andb]; (split; [done |]); unfold nonEmpty.
  - by destruct (String.eqb_spec (vl_fingerprint s) "") as [-> |].
  - by destruct (String.eqb_spec (vl_publicKey s) "") as [-> |].
  - by destruct (String.eqb_spec (vl_shortId s) "") as [-> |].
  - by destruct (String.eqb_spec (vl_spiderX s) "") as [-> |].
Qed.
Lemma item_none s item : item ∈ ["headerType"; "seed"; "path"; "host"; "quicSecurity"; "serviceName"; "mode"; "alpn"]%string ->
  hasQueryItem (vlessQuery s) item = false.
Proof.
  intros Hi. rewrite !elem_of_cons, elem_of_nil in Hi.
  destruct Hi as [-> | [-> | [-> | [-> | [-> | [-> | [-> | [-> | []]]]]]]]]; by query_values.
Qed.

Lemma typeSettings_plain s stream : typeSettings (vlessQuery s) stream = stream.
Proof.
  assert (Hn : forall item, item ∈ ["headerType"; "seed"; "path"; "host"; "quicSecurity"; "serviceName"; "mode"; "alpn"]%string ->
    hasQueryItem (vlessQuery s) item = false) by apply item_none.
  unfold typeSettings. repeat case_if; unfold headerOf, pathOf, whenItem, queryOr, decodedOr; rewrite ?Hn by set_solver; try done.
Qed.

(** *** Reading *)

Lemma text_same k p v o : textAt (Key k :: p) (SetValue (Key k :: p) (jstr v) o) = v.
Proof. unfold textAt. by rewrite at_set. Qed.
Lemma text_apart k p q v o : apart (Key k :: p) q = true -> textAt q (SetValue (Key k :: p) v o) = textAt q o.
Proof. intros Ha. unfold textAt. by rewrite at_apart. Qed.
Lemma text_empty k p : textAt (Key k :: p) ∅ = ""%string.
Proof.
  unfold textAt, at_. cbn [getNode toObject]. unfold value. rewrite lookup_empty.
  induction p as [| [l | i] p IH]; cbn [getNode toObject toArray]; [done | unfold value; by rewrite lookup_empty | by rewrite lookup_nil].
Qed.

(** A value that is written when it is not empty is read back. *)
Lemma text_when q item k p v o : hasQueryItem q item = nonEmpty v -> textAt (Key k :: p) o = ""%string ->
  textAt (Key k :: p) (whenItem q item (SetValue (Key k :: p) (jstr v)) o) = v.
Proof.
  intros Hh Ho. unfold whenItem. rewrite Hh. unfold nonEmpty. destruct (String.eqb_spec v "") as [-> |]; [done | apply text_same].
Qed.
Lemma text_when_apart q item k p r v o : apart (Key k :: p) r = true ->
  textAt r (whenItem q item (SetValue (Key k :: p) v) o) = textAt r o.
Proof. intros Ha. unfold whenItem. destruct (hasQueryItem q item); [by apply text_apart | done]. Qed.

(** *** The stream settings *)

(** What [streamOf] makes of the query, the values of Reality apart. *)
Definition tlsStream s : QJsonObject :=
  let security := orElse "none" (vl_security s) in
  let network := orElse "tcp" (vl_network s) in
  let stream := if String.eqb network "tcp" then ∅ else SetValue [Key "network"] (jstr network) ∅ in
  let stream := if String.eqb security "none" then stream else SetValue [Key "security"] (jstr security) stream in
  whenItem (vlessQuery s) "sni" (SetValue [Key (tlsKey security); Key "serverName"] (jstr (vl_serverName s))) stream.

Lemma streamOf_query s : streamOf (vlessQuery s) = realitySettings (vlessQuery s) (tlsStream s).
Proof.
  unfold streamOf. cbv zeta. rewrite item_type, typeSettings_plain. f_equal. unfold tlsSettings. cbv zeta. rewrite item_security, (proj2 (item_sni s)).
  unfold whenItem at 1. by rewrite item_none by set_solver.
Qed.

Lemma tlsKey_cases security : tlsKey security = "xtlsSettings"%string \/ tlsKey security = "tlsSettings"%string \/ tlsKey security = "realitySettings"%string.
Proof. unfold tlsKey. repeat case_if; auto. Qed.

Lemma tlsStream_security s : orElse "none" (textAt [Key "security"] (tlsStream s)) = orElse "none" (vl_security s).
Proof.
  unfold tlsStream. cbv zeta. rewrite text_when_apart by by destruct (tlsKey_cases (orElse "none" (vl_security s))) as [-> | [-> | ->]].
  destruct (String.eqb_spec (orElse "none" (vl_security s)) "none") as [-> | Hne].
  - destruct (String.eqb _ "tcp"); [by rewrite text_empty | by rewrite text_apart, text_empty].
  - rewrite text_same. unfold orElse in *. destruct (nonEmpty (vl_security s)) eqn:E; [by rewrite E | done].
Qed.

Lemma tlsStream_network s : orElse "tcp" (textAt [Key "network"] (tlsStream s)) = orElse "tcp" (vl_network s).
Proof.
  unfold tlsStream. cbv zeta. rewrite text_when_apart by by destruct (tlsKey_cases (orElse "none" (vl_security s))) as [-> | [-> | ->]].
  set (o := if String.eqb (orElse "tcp" (vl_network s)) "tcp" then _ else _).
  assert (Ho : orElse "tcp" (textAt [Key "network"] o) = orElse "tcp" (vl_network s)).
  { unfold o. destruct (String.eqb_spec (orElse "tcp" (vl_network s)) "tcp") as [-> | Hne]; [by rewrite text_empty |].
    rewrite text_same. unfold orElse in *. destruct (nonEmpty (vl_network s)) eqn:E; [by rewrite E | done]. }
  destruct (String.eqb _ "none"); [done |]. by rewrite text_apart.
Qed.

Lemma tlsStream_sni s : textAt [Key (tlsKey (orElse "none" (vl_security s))); Key "serverName"] (tlsStream s) = vl_serverName s.
Proof.
  unfold tlsStream. cbv zeta. apply text_when; [apply item_sni |].
  set (k := tlsKey _). assert (Hk : k <> "security"%string /\ k <> "network"%string) by (unfold k; destruct (tlsKey_cases (orElse "none" (vl_security s))) as [-> | [-> | ->]]; done).
  clearbody k. destruct Hk as [H1 H2].
  assert (Hap : forall l v o, l <> k -> textAt [Key k; Key "serverName"] (SetValue [Key l] v o) = textAt [Key k; Key "serverName"] o).
  { intros l v o Hl. apply text_apart. cbn [apart]. by rewrite (proj2 (String.eqb_neq l k)). }
  destruct (String.eqb _ "none"), (String.eqb _ "tcp"); rewrite ?Hap by done; apply text_empty.
Qed.

Lemma tlsStream_reality s name : name <> "serverName"%string -> textAt [Key "realitySettings"; Key name] (tlsStream s) = ""%string.
Proof.
  intros Hn. unfold tlsStream. cbv zeta.
  assert (Ha : apart [Key (tlsKey (orElse "none" (vl_security s))); Key "serverName"] [Key "realitySettings"; Key name] = true).
  { cbn [apart]. destruct (String.eqb _ "realitySettings"); [| done]. by rewrite (proj2 (String.eqb_neq "serverName" name)). }
  rewrite text_when_apart by done. destruct (String.eqb _ "none"), (String.eqb _ "tcp"); rewrite ?text_apart by done; apply text_empty.
Qed.

(** The values of Reality are written and touch nothing else. *)
Section Reality.
Context `{!UrlLaws}.

Lemma reality_item_apart s item name r o : apart [Key "realitySettings"; Key name] r = true ->
  textAt r (realityItem (vlessQuery s) item name o) = textAt r o.
Proof. intros Ha. unfold realityItem. by apply text_when_apart. Qed.

Lemma reality_item s item name o : vl_security s = "reality"%string -> item ∈ ["fp"; "pbk"; "sid"; "spiderX"]%string ->
  chr_contains "%" (realityValue s item) = false -> textAt [Key "realitySettings"; Key name] o = ""%string ->
  textAt [Key "realitySettings"; Key name] (realityItem (vlessQuery s) item name o) = realityValue s item.
Proof.
  intros Hs Hi Hp Ho. destruct (item_reality s item Hi Hs) as [I1 I2]. unfold realityItem, decodedItem.
  rewrite I2, decoded_plain by done. by apply text_when.
Qed.

Lemma stream_other s r : (forall name, name ∈ ["shortId"; "spiderX"; "publicKey"; "fingerprint"]%string -> apart [Key "realitySettings"; Key name] r = true) ->
  textAt r (streamOf (vlessQuery s)) = textAt r (tlsStream s).
Proof.
  intros Ha. rewrite streamOf_query. unfold realitySettings. destruct (String.eqb _ "reality"); [| done].
  rewrite !reality_item_apart by (apply Ha; set_solver). done.
Qed.

Lemma stream_reality s : (forall item, chr_contains "%" (realityValue s item) = false) ->
  let stream := streamOf (vlessQuery s) in
  let when v := if String.eqb (vl_security s) "reality" then v else ""%string in
  textAt [Key "realitySettings"; Key "publicKey"] stream = when (vl_publicKey s)
  /\ textAt [Key "realitySettings"; Key "shortId"] stream = when (vl_shortId s)
  /\ textAt [Key "realitySettings"; Key "fingerprint"] stream = when (vl_fingerprint s)
  /\ textAt [Key "realitySettings"; Key "spiderX"] stream = when (vl_spiderX s).
Proof.
  intros Hp. cbv zeta. rewrite streamOf_query. unfold realitySettings. rewrite item_security.
  assert (Hsec : String.eqb (orElse "none" (vl_security s)) "reality" = String.eqb (vl_security s) "reality").
  { unfold orElse, nonEmpty. by destruct (String.eqb_spec (vl_security s) "") as [-> |]. }
  rewrite Hsec. destruct (String.eqb_spec (vl_security s) "reality") as [Hr | _].
  - split_and!.
    + rewrite !(reality_item_apart s "sid" "shortId"), !(reality_item_apart s "spiderX" "spiderX") by done. apply (reality_item s "pbk"); [done | set_solver | apply Hp |].
      rewrite reality_item_apart by done. by apply tlsStream_reality.
    + apply (reality_item s "sid"); [done | set_solver | apply Hp |]. rewrite !reality_item_apart by done. by apply tlsStream_reality.
    + rewrite !(reality_item_apart s "sid" "shortId"), !(reality_item_apart s "spiderX" "spiderX"), !(reality_item_apart s "pbk" "publicKey") by done.
      apply (reality_item s "fp"); [done | set_solver | apply Hp |]. by apply tlsStream_reality.
    + rewrite !(reality_item_apart s "sid" "shortId") by done. apply (reality_item s "spiderX"); [done | set_solver | apply Hp |].
      rewrite !reality_item_apart by done. by apply tlsStream_reality.
  - split_and!; by apply tlsStream_reality.
Qed.
End Reality.

(** *** The outbound *)

Lemma at_insert k p v o : at_ (Key k :: p) (<[k := v]> o) = getNode p (Some v).
Proof. unfold at_. cbn [getNode toObject]. unfold value. by rewrite lookup_insert_eq. Qed.
Lemma at_insert_ne k l p v o : k <> l -> at_ (Key l :: p) (<[k := v]> o) = at_ (Key l :: p) o.
Proof. intros Hne. unfold at_. cbn [getNode toObject]. unfold value. by rewrite lookup_insert_ne. Qed.

Lemma root_outbound o : at_ [Key "outbounds"; At 0] (rootOf o) = Some (JObject o).
Proof. unfold rootOf. rewrite at_insert_ne by done. by rewrite at_insert. Qed.

Lemma outbound_read s :
  let outbound := vlessOutbound (vl_address s) (vl_port s) (vl_id s) (vlessQuery s) in
  let server := [Key "settings"; Key "vnext"; At 0] in
  let user := server ++ [Key "users"; At 0] in
  textAt (server ++ [Key "address"]) outbound = vl_address s
  /\ at_ (server ++ [Key "port"]) outbound = Some (jint (vl_port s))
  /\ textAt (user ++ [Key "id"]) outbound = vl_id s
  /\ textAt (user ++ [Key "encryption"]) outbound = orElse "none" (vl_encryption s)
  /\ textAt (user ++ [Key "flow"]) outbound = (if String.eqb (vl_security s) "xtls" || String.eqb (vl_security s) "reality" then vl_flow s else "")%string.
Proof.
  cbv zeta. unfold vlessOutbound. cbv zeta. rewrite item_security, item_encryption. cbn [app].
  assert (Hsec : forall v, v <> "none"%string -> v <> ""%string -> String.eqb (orElse "none" (vl_security s)) v = String.eqb (vl_security s) v).
  { intros v Hn He. unfold orElse, nonEmpty. destruct (String.eqb_spec (vl_security s) "") as [-> |]; [| done]. cbn [negb].
    by rewrite (proj2 (String.eqb_neq "none" v)), (proj2 (String.eqb_neq "" v)). }
  rewrite !Hsec by done. destruct (String.eqb (vl_security s) "xtls" || String.eqb (vl_security s) "reality") eqn:Ef.
  - rewrite (item_flow s Ef). split_and!; rewrite ?text_apart, ?at_apart by done; rewrite ?text_same, ?at_set; done.
  - split_and!; rewrite ?text_apart, ?at_apart by done; rewrite ?text_same, ?at_set; done.
Qed.

Lemma port_read p : 0 <= p < 65536 -> toIntJ (Some (jint p)) = p.
Proof.
  intros Hp. unfold toIntJ, jint, inject_Z. cbn [Qnum Qden]. rewrite Z.div_1_r, Z.mod_1_r. cbn [Z.eqb andb].
  by rewrite (proj2 (Z.leb_le _ _)), (proj2 (Z.ltb_lt _ _)) by lia.
Qed.

End Vless.

(** ** A sample *)

#[export] Instance Url_eq_dec : EqDecision Url.
Proof. solve_decision. Defined.

(** URLs without escapes: a text is valid when printing what was read gives
    it back. *)
Module PlainUrl.
Definition noUrl : Url := mkUrl "" false "" (-1) "" "" "" "" [].

(** [text] up to the first [c], and what follows it, if there is one. *)
Definition cut (c : ascii) (text : string) : string * option string :=
  match indexOf c text with Some n => (str_left n text, Some (str_mid (S n) text)) | None => (text, None) end.
Definition read (text : string) : Url :=
  let '(text, fragment) := cut "#" text in
  let '(text, query) := cut "?" text in
  let '(scheme, rest) := cut ":" text in
  let rest := str_mid 2 (default ""%string rest) in
  let '(user, rest) := match cut "@" rest with (user, Some rest) => (user, rest) | (rest, None) => (""%string, rest) end in
  let '(host, port) := cut ":" rest in
  mkUrl scheme true host (match port with Some p => default (-1) (toInt (Qt := plainQt) p) | None => -1 end) (default ""%string fragment) user user ""
    (match query with
     | Some q => map (fun item => let '(k, v) := cut "=" item in (k, default ""%string v)) (split "&" q)
     | None => []
     end).
Definition print (u : Url) : string :=
  u_scheme u +:+ "://" +:+ (if nonEmpty (u_userInfo u) then u_userInfo u +:+ "@" else "") +:+ u_host u
  +:+ (if u_port u =? -1 then "" else ":" +:+ pretty (u_port u))
  +:+ match u_query u with [] => "" | q => "?" +:+ join "&" (map (fun kv => kv.1 +:+ "=" +:+ kv.2) q) end
  +:+ (if nonEmpty (u_fragment u) then "#" +:+ u_fragment u else "").
Definition stable (u : Url) : Prop := read (print u) = u.
Definition parse (text : string) : Url := if decide (stable (read text)) then read text else noUrl.
Definition url : QtUrl := {|
  parseUrl := parse; fromUserInput := fun s => parse ("http://" +:+ s); urlText := print;
  fromPercentEncoding := fun s => s; fullyDecoded := fun s => s; encodeUser := fun s => s;
  base64Decoded := fun s => s; base64Encoded := fun s => s; base64UrlEncoded := fun s => s;
  variantString := fun _ => ""%string; variantInt := fun _ => 0; argNumber := fun s _ => s |}.

Lemma prefix_cons d x y : String.prefix (String d x) (String d y) = String.prefix x y.
Proof. cbn [String.prefix]. destruct (ascii_dec d d) as [_ | Hn]; [done | by destruct Hn]. Qed.
Lemma prefix_append a b c : String.prefix (a +:+ b) (a +:+ b +:+ c) = true.
Proof.
  assert (H1 : forall x, String.prefix x (x +:+ c) = true).
  { intros x. induction x as [| d x IH]; [by destruct c |]. change (String d x +:+ c) with (String d (x +:+ c)). by rewrite prefix_cons. }
  induction a as [| d a IH]; [apply H1 |].
  change (String d a +:+ b) with (String d (a +:+ b)). change (String d a +:+ b +:+ c) with (String d (a +:+ b +:+ c)). by rewrite prefix_cons.
Qed.

#[export] Instance url_laws : UrlLaws (H := url).
Proof.
  assert (Hp : forall t, u_valid (parse t) = true -> stable (parse t) /\ parse t = read t).
  { intros t Hv. unfold parse in *. destruct (decide (stable (read t))); done. }
  constructor; [| | done]; intros t Hv; destruct (Hp t Hv) as [Hs He].
  - cbn [parseUrl urlText url]. unfold parse at 1. unfold stable in Hs. rewrite Hs. destruct (decide (stable (parse t))) as [_ | Hn]; [done |]. by destruct Hn.
  - cbn [parseUrl urlText url]. unfold print. apply (prefix_append (u_scheme (parse t)) "://").
Qed.
End PlainUrl.

Module Sample.
Definition vlessServer : VlessServerObject :=
  mkVless "203.0.113.7" "1b4e28ba" 443 "xtls-rprx-vision" "none" "tcp" "reality" "www.example.com" "key" "5f" "chrome" "".
Definition link : string :=
  "vless://1b4e28ba@203.0.113.7:443?encryption=none&security=reality&flow=xtls-rprx-vision&sni=www.example.com&fp=chrome&pbk=key&sid=5f#Home".
Lemma link_read : PlainUrl.parse link = vlessUrl vlessServer "Home".
Proof. by vm_compute. Qed.
Lemma plain_values item : chr_contains "%" (realityValue vlessServer item) = false.
Proof. unfold realityValue. by repeat case_if. Qed.
End Sample.

