(* ===== verification/Import.v ===== *)
(** * The import of configurations:
      [client/ui/controllers/importController.h] and [.cpp]

    What the user pastes, opens or scans is recognised by its form: a share
    link, a subscription or activation link, a key, a short code, an address to
    fetch, a WireGuard file, an Xray or Amnezia configuration or a backup.
    What is recognised becomes a server, a request to the network or a signal
    for another controller.  The member with the warning text, which is only
    ever cleared, and the scanning of codes on phones are left out. *)

From Stdlib Require Import ZArith Lia Bool String Ascii.
From stdpp Require Import base gmap strings list pretty.
From S2P Require Import Prelude.
From S2P Require Import Qt.
From S2P Require Import Settings.
From S2P Require Import Containers.
From S2P Require Import ServerStore.
From S2P Require Import Servers.
From S2P Require Import VpnConfiguration.
From S2P Require Import ShareLinks.

Open Scope Z_scope.

Module ConfigTypes.
Inductive ConfigType : Type := Amnezia | WireGuard | Awg | Xray | ShadowSocks | Backup | Invalid.
#[global] Instance ConfigType_eq_dec : EqDecision ConfigType.
Proof. solve_decision. Defined.
End ConfigTypes.
Abbreviation ConfigType := ConfigTypes.ConfigType.

(** ** What Qt does *)

Class QtImport := {
  (** [QByteArray::fromBase64(s)] as bytes, the same with the alphabet of
      URLs, [qUncompress] (empty when it fails), [QString::fromUtf8] *)
  base64Raw : string -> string;
  base64UrlRaw : string -> string;
  qUncompress : string -> string;
  fromUtf8 : string -> string;
  (** [QJsonDocument(obj).toJson()], and the same of [fromJson(s)] *)
  jsonIndented : QJsonObject -> string;
  jsonReindented : string -> string;
  qChecksum : string -> Z;
  (** [QUrl::toPercentEncoding] *)
  toPercentEncoding : string -> string
}.

(** ** Data *)

Inductive ImportOutput : Type :=
| importFinished
| importErrorOccurred (code : Z) (goToPageHome : bool)
| frknSubscriptionLinkDetected (subscriptionId : string)
| frknSharedSubLinkDetected (shareToken : string)
| frknShareLinkDetected (shareToken : string)
| frknActivationKeyDetected (code : string)
| unknownFormatDetected (rawInput : string)
| restoreAppConfig (data : string)
| subscriptionConfigsReady (count : Z)
| subscriptionErrorOccurred
| subscriptionAllDuplicates
| getShortCode (rawInput url : string)       (** the request of [resolveShortCode] *)
| getSubscription (url : string).            (** the request of [fetchAndImportFromUrl] *)

Record ImportController : Type := mkImport {
  im_servers : ServersModel;
  m_config : QJsonObject;
  m_configFileName : string;
  m_configType : ConfigType;
  m_subscriptionConfigs : list json;
  im_out : list ImportOutput
}.

Abbreviation IM := (ST ImportController).

Definition setImModel (x : ServersModel) : IM unit := modify (fun s =>
  mkImport x (m_config s) (m_configFileName s) (m_configType s) (m_subscriptionConfigs s) (im_out s)).
Definition setImConfig (x : QJsonObject) : IM unit := modify (fun s =>
  mkImport (im_servers s) x (m_configFileName s) (m_configType s) (m_subscriptionConfigs s) (im_out s)).
Definition setFileName (x : string) : IM unit := modify (fun s =>
  mkImport (im_servers s) (m_config s) x (m_configType s) (m_subscriptionConfigs s) (im_out s)).
Definition setType (x : ConfigType) : IM unit := modify (fun s =>
  mkImport (im_servers s) (m_config s) (m_configFileName s) x (m_subscriptionConfigs s) (im_out s)).
Definition setPending (x : list json) : IM unit := modify (fun s =>
  mkImport (im_servers s) (m_config s) (m_configFileName s) (m_configType s) x (im_out s)).
Definition imSend (o : ImportOutput) : IM unit := modify (fun s =>
  mkImport (im_servers s) (m_config s) (m_configFileName s) (m_configType s) (m_subscriptionConfigs s) (im_out s ++ [o])).

Definition ImportInvalidConfigError : Z := 900.
Definition ImportOpenConfigError : Z := 901.
Definition ApiConfigAlreadyAdded : Z := 1101.

(** ** Patterns *)

(** A regular expression of single characters, some of them optional, that is
    anchored at both ends. *)
Inductive Pattern : Type := One (p : ascii -> bool) | Opt (p : ascii -> bool).
Fixpoint matches (pat : list Pattern) (s : string) : bool :=
  match pat with
  | [] => String.eqb s ""
  | One p :: pat' => match s with String c s' => p c && matches pat' s' | EmptyString => false end
  | Opt p :: pat' => match s with String c s' => (p c && matches pat' s') || matches pat' s | EmptyString => matches pat' s end
  end.
Definition times (n : nat) (p : ascii -> bool) : list Pattern := replicate n (One p).

Definition between (a b c : ascii) : bool := (N_of_ascii a <=? N_of_ascii c)%N && (N_of_ascii c <=? N_of_ascii b)%N.
Definition isDash (c : ascii) : bool := Ascii.eqb c "-".
Definition hexLower (c : ascii) : bool := between "0" "9" c || between "a" "f" c.
Definition hexDigit (c : ascii) : bool := hexLower c || between "A" "F" c.
Definition base32 (c : ascii) : bool := between "0" "9" c || between "a" "t" c || between "v" "z" c.
Definition base32i (c : ascii) : bool := base32 (lower_ascii c).
Definition keyChar (c : ascii) : bool := between "A" "Z" c || between "0" "9" c.

Definition groups (item : Pattern) (sep : Pattern) (sizes : list nat) : list Pattern :=
  match sizes with
  | [] => []
  | n :: sizes' => replicate n item ++ concat (map (fun k => sep :: replicate k item) sizes')
  end.
Definition uuidRegex : list Pattern := groups (One hexDigit) (One isDash) [8; 4; 4; 4; 12]%nat.
Definition sharedSubRegex : list Pattern := groups (One hexLower) (Opt isDash) [8; 4; 4; 4; 12]%nat.
Definition shareTokenRegex : list Pattern := times 16 base32.
Definition activationKeyRegex : list Pattern := groups (One keyChar) (One isDash) [5; 5; 5; 5; 5; 1]%nat.
Definition lightKeyRegex : list Pattern := groups (One keyChar) (One isDash) [5; 5; 5; 5; 5; 5; 1]%nat.
Definition shortCodeRegex : list Pattern := times 10 base32i.

Definition upper_ascii (c : ascii) : ascii :=
  let n := Ascii.nat_of_ascii c in if Nat.leb 97 n && Nat.leb n 122 then Ascii.ascii_of_nat (n - 32) else c.
(** [s.toUpper()] *)
Fixpoint toUpper (s : string) : string :=
  match s with EmptyString => ""%string | String c s' => String (upper_ascii c) (toUpper s') end.

(** U+FEFF in UTF-8 *)
Definition bom : string := String (Ascii.ascii_of_nat 239) (String (Ascii.ascii_of_nat 187) (String (Ascii.ascii_of_nat 191) "")).
Definition withoutBom (s : string) : string := if String.prefix bom s then str_mid 3 s else s.

Definition isWireguardText (config : string) : bool :=
  let lowered := toLower config in str_contains "[interface]" lowered && str_contains "[peer]" lowered.
Definition checkConfigFormat (config : string) : ConfigType :=
  if str_contains "Servers/serversList" config then ConfigTypes.Backup
  else if str_contains "containers" config || str_contains "api_key" config || str_contains "auth_data" config
          || (str_contains "hostName" config && str_contains "userName" config && str_contains "password" config) then ConfigTypes.Amnezia
  else if isWireguardText config then ConfigTypes.WireGuard
  else if str_contains "inbounds" config && str_contains "outbounds" config then ConfigTypes.Xray
  else ConfigTypes.Invalid.

(** A text that is one of the configurations stored in a file. *)
Definition staticConfig (config : string) : bool :=
  isWireguardText config || str_contains "vpn://" config
  || str_contains (String (Ascii.ascii_of_nat 34) "containers" +:+ String (Ascii.ascii_of_nat 34) "") config
  || str_contains "Servers/serversList" config.

(** The first group of the expression ["address":\s*"([^"]+)]. *)
Definition quote : ascii := Ascii.ascii_of_nat 34.
Fixpoint takeUntil (c : ascii) (s : string) : string :=
  match s with EmptyString => ""%string | String d s' => if Ascii.eqb d c then ""%string else String d (takeUntil c s') end.
Definition addressKey : string := String quote "address" +:+ String quote ":".
Definition addressAt (s : string) : option string :=
  if String.prefix addressKey s then
    match trim_left (str_mid (String.length addressKey) s) with
    | String c s' => if Ascii.eqb c quote && nonEmpty (takeUntil quote s') then Some (takeUntil quote s') else None
    | EmptyString => None
    end
  else None.
Fixpoint firstAddress (s : string) : option string :=
  match addressAt s with
  | Some a => Some a
  | None => match s with EmptyString => None | String _ s' => firstAddress s' end
  end.

Section Controller.
Context `{Qt} `{QtUrl} `{QtImport}.
Context (arrayOf : string -> list json) (textOfArray : list json -> string) (tr : string -> string) (garbage : Z).

Definition decodeIfBase64 (input : string) : string :=
  if String.eqb input "" then ""%string
  else if str_contains "://" input then fromUtf8 input
  else
    let decoded := base64Raw input in
    if String.eqb decoded "" then fromUtf8 input
    else if String.eqb (fromUtf8 decoded) decoded then fromUtf8 decoded else fromUtf8 input.

(** [m_settings->nextAvailableServerName()]: one round more than there are
    servers is enough. *)
Definition freshName (m : ServersModel) : string :=
  match Store.nextAvailableServerName arrayOf tr (S (length (serversArray arrayOf (sm_settings m)))) (sm_settings m) with
  | Val n => n
  | _ => ""%string
  end.

(** ** Extracting *)

Definition extractXrayConfig (data description : string) (s : ImportController) : QJsonObject :=
  let text := jsonReindented data in
  let lastConfig : QJsonObject := <["isThirdPartyConfig" := JBool true]> (<["last_config" := jstr text]> ∅) in
  let isSs := bool_decide (m_configType s = ConfigTypes.ShadowSocks) in
  let key := if isSs then "ssxray"%string else "xray"%string in
  let container : QJsonObject := <[key := JObject lastConfig]> (<["container" := jstr ("amnezia-" +:+ key)]> ∅) in
  <["hostName" := jstr (default ""%string (firstAddress data))]>
    (<["description" := jstr (if String.eqb description "" then freshName (im_servers s) else description)]>
    (<["defaultContainer" := jstr ("amnezia-" +:+ key)]> (<["containers" := JArray [JObject container]]> ∅))).

(** The lines of a WireGuard file: [None] for a comment, a heading or a line
    without a value. *)
Definition configLine (line : string) : option (string * string) :=
  let t := trimmed line in
  if String.eqb t "" || String.prefix "#" t || String.prefix ";" t || (String.prefix "[" t && endsWith "]" t) then None
  else match indexOf "=" t with
       | Some (S eq) =>
           let key := trimmed (str_left (S eq) t) in
           let v := trimmed (str_mid (S (S eq)) t) in
           if nonEmpty key && nonEmpty v then Some (key, v) else None
       | _ => None
       end.
Definition configMap (data : string) : gmap string string :=
  fold_left (fun m line => match configLine line with Some (k, v) => <[k := v]> m | None => m end) (split newline data) ∅.
Definition entry (m : gmap string string) (key : string) : string := default ""%string (m !! key).

Definition requiredJunkFields : list string := ["Jc"; "Jmin"; "Jmax"; "S1"; "S2"; "H1"; "H2"; "H3"; "H4"].
Definition optionalJunkFields : list string := ["S3"; "S4"; "I1"; "I2"; "I3"; "I4"; "I5"].
Definition optionalDeviceFields : list string :=
  ["HeaderProtectionKey"; "ContentPaddingAddition"; "RekeyAfterTime"; "RekeyTimeout"; "RejectAfterTime"; "KeepaliveTimeout"; "MaxHandshakeAttempts"].
Definition hasAllRequired (m : gmap string string) : bool := forallb (fun f => nonEmpty (entry m f)) requiredJunkFields.

(** [lastConfig[key] = configMap.value(name)] when there is one *)
Definition copied (m : gmap string string) (name key : string) (o : QJsonObject) : QJsonObject :=
  if nonEmpty (entry m name) then <[key := jstr (entry m name)]> o else o.
Definition copyAll (m : gmap string string) (fields : list string) (o : QJsonObject) : QJsonObject :=
  fold_left (fun o f => copied m f f o) fields o.

Definition awgVersion (m : gmap string string) : string :=
  let cookie := nonEmpty (entry m "S3") in
  let transport := nonEmpty (entry m "S4") in
  let special := existsb (fun f => nonEmpty (entry m f)) ["I1"; "I2"; "I3"; "I4"; "I5"]%string in
  if cookie && transport then "2" else if special && negb cookie && negb transport then "1.5" else "".

Definition wireguardPort (url : Url) : string := if u_port url =? -1 then "51820"%string else pretty (u_port url).

Definition fileBase (data : string) (m : gmap string string) (url : Url) : QJsonObject :=
  let o := <["config" := jstr data]> ∅ in
  let o := <["port" := jint (default 0 (toInt (wireguardPort url)))]> (<["hostName" := jstr (u_host url)]> o) in
  let o := <["client_ip" := jstr (entry m "Address")]> (<["client_priv_key" := jstr (entry m "PrivateKey")]> o) in
  let o := if nonEmpty (entry m "PresharedKey") then copied m "PresharedKey" "psk_key" o else copied m "PreSharedKey" "psk_key" o in
  let o := <["server_pub_key" := jstr (entry m "PublicKey")]> o in
  let o := copied m "PersistentKeepalive" "persistent_keep_alive" (copied m "MTU" "mtu" o) in
  <["allowed_ips" := strings (List.filter nonEmpty (map trimmed (split "," (entry m "AllowedIPs"))))]> o.
Definition fileJunk (m : gmap string string) (o : QJsonObject) : QJsonObject :=
  let o := copyAll m optionalDeviceFields o in
  if hasAllRequired m then copyAll m optionalJunkFields (copyAll m requiredJunkFields o) else o.
Definition fileMtu (m : gmap string string) (o : QJsonObject) : QJsonObject :=
  if nonEmpty (entry m "MTU") then <["mtu" := jstr (entry m "MTU")]> o else <["mtu" := jstr defaultMtu]> o.
Definition wireguardLastConfig (data : string) (m : gmap string string) (url : Url) : QJsonObject :=
  fileMtu m (fileJunk m (fileBase data m url)).

Definition protocolName (m : gmap string string) : string := if hasAllRequired m then "awg" else "wireguard".
Definition wireguardContainer (data : string) (m : gmap string string) (url : Url) : QJsonObject :=
  let wireguardConfig : QJsonObject :=
    <["transport_proto" := jstr "udp"]> (<["port" := jstr (wireguardPort url)]> (<["isThirdPartyConfig" := JBool true]>
      (<["last_config" := jstr (jsonIndented (wireguardLastConfig data m url))]> ∅))) in
  let wireguardConfig := if hasAllRequired m && nonEmpty (awgVersion m)
    then <["protocol_version" := jstr (awgVersion m)]> wireguardConfig else wireguardConfig in
  <[protocolName m := JObject wireguardConfig]> (<["container" := jstr ("amnezia-" +:+ protocolName m)]> ∅).
(** One entry of the list of name servers. *)
Definition dnsAt (m : gmap string string) (n : nat) (key : string) (o : QJsonObject) : QJsonObject :=
  match map trimmed (split "," (entry m "DNS")) !! n with Some d => if nonEmpty d then <[key := jstr d]> o else o | None => o end.

Definition extractWireGuardConfig (data : string) : IM QJsonObject :=
  let m := configMap data in
  let url := fromUserInput (entry m "Endpoint") in
  if String.eqb (u_host url) "" then imSend (importErrorOccurred ImportInvalidConfigError false) ;; mret ∅
  else if negb (nonEmpty (entry m "PrivateKey") && nonEmpty (entry m "Address") && nonEmpty (entry m "PublicKey"))
  then imSend (importErrorOccurred ImportInvalidConfigError false) ;; mret ∅
  else
    (if hasAllRequired m then setType ConfigTypes.Awg else mret tt) ;;
    let config : QJsonObject :=
      <["description" := jstr (u_host url)]> (<["defaultContainer" := jstr ("amnezia-" +:+ protocolName m)]>
        (<["containers" := JArray [JObject (wireguardContainer data m url)]]> ∅)) in
    mret (<["hostName" := jstr (u_host url)]> (dnsAt m 1 "dns2" (dnsAt m 0 "dns1" config))).

(** The loop over the containers, which returns at one without a
    configuration; and whether it changed one. *)
Fixpoint processContainers (l : list json) : list json * bool :=
  match l with
  | [] => ([], false)
  | v :: rest =>
      let container := toObject (Some v) in
      let docker := containerFromString (field container "container") in
      if isAwgContainer docker || bool_decide (docker = WireGuard) then
        let proto := containerTypeToProtocolString docker in
        let containerConfig := sub container proto in
        if String.eqb (field containerConfig "last_config") "" then (l, false)
        else
          let json := <["mtu" := jstr defaultMtu]> (jsonObject (field containerConfig "last_config")) in
          let containerConfig := <["last_config" := jstr (jsonIndented json)]> containerConfig in
          (JObject (<[proto := JObject containerConfig]> container) :: (processContainers rest).1, true)
      else let '(rest', changed) := processContainers rest in (v :: rest', changed)
  end.
Definition processAmneziaConfig (config : QJsonObject) : QJsonObject :=
  let '(containers, changed) := processContainers (toArray (value config "containers")) in
  if changed then <["containers" := JArray containers]> config else config.

(** ** Requests *)

Definition frknApiBase : string := "https://api.frkn.org/sub?id=".
Definition resolveShortCode (rawInput normalizedCode : string) : IM unit :=
  imSend (getShortCode rawInput ("https://s.frkn.org/s/" +:+ toLower normalizedCode)).
Definition fetchAndImportFromUrl (url : string) : IM unit := imSend (getSubscription url).

(** ** Recognising *)

(** [m_config = c; return !m_config.empty()] *)
Definition accept (c : QJsonObject) : IM bool := setImConfig c ;; mret (negb (bool_decide (c = ∅))).
Definition acceptLink (type : ConfigType) (jsonAlias : QJsonObject * string) : IM bool :=
  setType type ;;
  s ← get; accept (extractXrayConfig (jsonPrint jsonAlias.1) jsonAlias.2 s).
Definition reject (o : ImportOutput) : IM bool := imSend o ;; mret false.

Definition linkConfig (config : string) : option (IM bool) :=
  if String.prefix "vless://" config then Some (acceptLink ConfigTypes.Xray (vlessDeserialize config ""))
  else if String.prefix "vmess://" config && chr_contains "@" config then Some (acceptLink ConfigTypes.Xray (vmessNewDeserialize garbage config ""))
  else if String.prefix "vmess://" config then Some (acceptLink ConfigTypes.Xray (vmessDeserialize garbage config ""))
  else if String.prefix "trojan://" config then Some (acceptLink ConfigTypes.Xray (trojanDeserialize config ""))
  else if String.prefix "ss://" config && negb (str_contains "plugin=" config) then Some (acceptLink ConfigTypes.ShadowSocks (ssDeserialize config ""))
  else if String.prefix "ssd://" config then
    Some (setType ConfigTypes.ShadowSocks ;;
      match ssdDeserialize config with
      | [] => s ← get; mret (negb (bool_decide (m_config s = ∅)))
      | server :: _ => s ← get; accept (extractXrayConfig server.1 "" s)
      end)
  else None.

(** The forms of the FRKN service. *)
Definition frknConfig (config : string) : option (IM bool) :=
  let urlCandidate := trimmed config in
  if String.prefix "frkn://sub/shared/" urlCandidate then
    let shareToken := toLower (removeChars is_space (str_mid 18 urlCandidate)) in
    Some (reject (if matches sharedSubRegex shareToken then frknSharedSubLinkDetected shareToken
                  else importErrorOccurred ImportInvalidConfigError false))
  else if String.prefix "frkn://sub/" urlCandidate then Some (reject (frknSubscriptionLinkDetected (str_mid 11 urlCandidate)))
  else if String.prefix "frkn://conn/" urlCandidate then
    let shareToken := toLower (removeChars (fun c => is_space c || isDash c) (str_mid 12 urlCandidate)) in
    Some (reject (if matches shareTokenRegex shareToken then frknShareLinkDetected shareToken
                  else importErrorOccurred ImportInvalidConfigError false))
  else if matches uuidRegex urlCandidate then Some (reject (frknSubscriptionLinkDetected urlCandidate))
  else
    let urlCandidate := if String.prefix "frkn://key/" urlCandidate then str_mid 11 urlCandidate else urlCandidate in
    let normalizedKey := removeChars is_space (toUpper urlCandidate) in
    if matches activationKeyRegex normalizedKey || matches lightKeyRegex normalizedKey
    then Some (reject (frknActivationKeyDetected normalizedKey))
    else
      let urlCandidate := if String.prefix "frkn://" urlCandidate then "https://" +:+ str_mid 7 urlCandidate else urlCandidate in
      let normalizedCode := removeChars (fun c => is_space c || isDash c) urlCandidate in
      if matches shortCodeRegex normalizedCode then Some (resolveShortCode urlCandidate normalizedCode ;; mret false)
      else if String.prefix "http://" urlCandidate || String.prefix "https://" urlCandidate
      then Some (fetchAndImportFromUrl urlCandidate ;; mret false)
      else if negb (chr_contains " " urlCandidate) && negb (str_contains "://" urlCandidate) && nonEmpty urlCandidate
      then Some (fetchAndImportFromUrl (frknApiBase +:+ toPercentEncoding urlCandidate) ;; mret false)
      else None.

(** The text inside a vpn:// key. *)
Definition unpacked (config : string) : string :=
  let ba := base64UrlRaw (replaceText "vpn://" "" config) in
  let plain := qUncompress ba in
  fromUtf8 (if nonEmpty plain then plain else ba).

Definition storedConfig (data config : string) : IM bool :=
  let packed := bool_decide (checkConfigFormat config = ConfigTypes.Invalid) in
  let config := if packed then unpacked config else config in
  setType (checkConfigFormat config) ;;
  match checkConfigFormat config with
  | ConfigTypes.Awg | ConfigTypes.WireGuard => c ← extractWireGuardConfig config; accept c
  | ConfigTypes.Xray => s ← get; accept (extractXrayConfig config "" s)
  | ConfigTypes.Amnezia =>
      let c := jsonObject config in
      let c := if apiIsServerFromApi c then <["api_config" := JObject (<["vpn_key" := jstr data]> (sub c "api_config"))]> c else c in
      accept (processAmneziaConfig c)
  | ConfigTypes.Backup =>
      s ← get;
      reject (if Nat.eqb (length (m_servers (im_servers s))) 0 then restoreAppConfig config
              else importErrorOccurred ImportInvalidConfigError false)
  | ConfigTypes.Invalid =>
      imSend (importErrorOccurred ImportInvalidConfigError false) ;; setFileName "" ;; mret false
  | ConfigTypes.ShadowSocks => mret false
  end.

Definition extractConfigFromData (data : string) : IM bool :=
  let config := withoutBom data in
  match linkConfig config with
  | Some k => k
  | None =>
      match frknConfig config with
      | Some k => k
      | None =>
          if negb (staticConfig config) && nonEmpty (trimmed config) then reject (unknownFormatDetected (trimmed config))
          else storedConfig data config
      end
  end.

(** [contents] is what the file holds, [None] when it cannot be opened. *)
Definition extractConfigFromFile (baseName : string) (contents : option string) : IM bool :=
  match contents with
  | None => reject (importErrorOccurred ImportOpenConfigError false)
  | Some data => setFileName baseName ;; extractConfigFromData data
  end.

(** [ready] is what an early return leaves behind. *)
Definition extractConfigFromQr (data : string) : IM bool :=
  let dataObj := jsonObject data in
  if negb (bool_decide (dataObj = ∅)) then setImConfig dataObj ;; mret true
  else
    let uncompressed := qUncompress data in
    let fromZip := jsonObject uncompressed in
    (if nonEmpty uncompressed then setImConfig fromZip else mret tt) ;;
    if nonEmpty uncompressed && negb (bool_decide (fromZip = ∅)) then mret true
    else
      setType (checkConfigFormat data) ;;
      let ba := base64UrlRaw data in
      let plain := qUncompress ba in
      let ba := if nonEmpty plain then plain else ba in
      let obj := jsonObject ba in
      if bool_decide (checkConfigFormat data = ConfigTypes.Invalid) && nonEmpty ba && negb (bool_decide (obj = ∅))
      then setImConfig obj ;; mret true
      else
        let text := trimmed (fromUtf8 data) in
        if nonEmpty text then extractConfigFromData text else mret false.

(** ** Native WireGuard *)

(** [m_containers[0]] gets the parameters of obfuscation; [count] is the random
    number of junk packets. *)
Definition obfuscation (count : Z) : list (string * json) :=
  [("Jc"%string, jstr (pretty count)); ("Jmin"%string, jstr "10"); ("Jmax"%string, jstr "50"); ("S1"%string, jstr "0"); ("S2"%string, jstr "0");
   ("H1"%string, jstr "1"); ("H2"%string, jstr "2"); ("H3"%string, jstr "3"); ("H4"%string, jstr "4"); ("S3"%string, jstr "0"); ("S4"%string, jstr "0");
   ("I1"%string, jstr "<r 2><b 0x858000010001000000000669636c6f756403636f6d0000010001c00c000100010000105a00044d583737>");
   ("isObfuscationEnabled"%string, JBool true)].
Definition processNativeWireGuardConfig (count : Z) : IM unit :=
  s ← get;
  match toArray (value (m_config s) "containers") with
  | [] => mret tt
  | v :: rest =>
      let container := toObject (Some v) in
      let serverProtocolConfig := sub container "wireguard" in
      let client := fold_left (fun o kv => <[kv.1 := kv.2]> o) (obfuscation count) (jsonObject (field serverProtocolConfig "last_config")) in
      let serverProtocolConfig := <["last_config" := jstr (jsonIndented client)]> serverProtocolConfig in
      let container := <["wireguard" := JObject serverProtocolConfig]> container in
      setImConfig (<["containers" := JArray (JObject container :: rest)]> (m_config s))
  end.

(** ** Adding the server *)

Definition onServers (k : ST ServersModel unit) : IM unit := s ← get; setImModel (k (im_servers s)).2.

Definition credentialsValid (o : QJsonObject) : bool :=
  nonEmpty (field o "hostName") && nonEmpty (field o "userName") && nonEmpty (field o "password") && (toIntJ (value o "port") >? 0).

Definition importConfig : IM unit :=
  (s ← get;
   let c := m_config s in
   if credentialsValid c || jcontains c "containers" then
     onServers (Model.addServer arrayOf textOfArray c) ;; imSend importFinished
   else if jcontains c "config_version" then
     let crc := qChecksum (jsonIndented c) in
     if Model.existsByCrc (im_servers s) crc then imSend (importErrorOccurred ApiConfigAlreadyAdded true)
     else
       let c := <["crc" := jint crc]> c in
       setImConfig c ;; onServers (Model.addServer arrayOf textOfArray c) ;; imSend importFinished
   else imSend (importErrorOccurred ImportInvalidConfigError false)) ;;
  setImConfig ∅ ;;
  setFileName "".

(** ** Subscriptions *)

Definition parseConfigLine (line : string) : IM (option QJsonObject) :=
  let t := trimmed line in
  if String.eqb t "" then mret None
  else
    let xray jsonAlias := s ← get;
      let c := extractXrayConfig (jsonPrint (jsonAlias : QJsonObject * string).1) jsonAlias.2 s in
      mret (if bool_decide (c = ∅) then None else Some c) in
    if String.prefix "vless://" t then xray (vlessDeserialize t "")
    else if String.prefix "vmess://" t && chr_contains "@" t then xray (vmessNewDeserialize garbage t "")
    else if String.prefix "vmess://" t then xray (vmessDeserialize garbage t "")
    else if String.prefix "trojan://" t then xray (trojanDeserialize t "")
    else if String.prefix "ss://" t && negb (str_contains "plugin=" t) then
      setType ConfigTypes.ShadowSocks ;; setType ConfigTypes.Xray ;; mret None
    else xray (∅, ""%string).

(** The text a server is recognised by. *)
Definition lastConfigOf (container : json) : string :=
  let co := toObject (Some container) in
  let lc := field (sub co "xray") "last_config" in
  if nonEmpty lc then lc else field (sub co "ssxray") "last_config".
Definition lastConfigsOf (server : QJsonObject) : list string :=
  List.filter nonEmpty (map lastConfigOf (toArray (value server "containers"))).

(** The lines of a subscription: the set of known configurations, the new
    ones and the number of lines that were read. *)
Fixpoint collectConfigs (lines : list string) (existing : gset string) (found : list json) (total : Z) : IM (gset string * list json * Z) :=
  match lines with
  | [] => mret (existing, found, total)
  | line :: lines' =>
      r ← parseConfigLine line;
      match r with
      | None => collectConfigs lines' existing found total
      | Some config =>
          match lastConfigsOf config with
          | lc :: _ =>
              if bool_decide (lc ∈ existing) then collectConfigs lines' existing found (total + 1)
              else collectConfigs lines' ({[lc]} ∪ existing) (found ++ [JObject config]) (total + 1)
          | [] => collectConfigs lines' existing (found ++ [JObject config]) (total + 1)
          end
      end
  end.

Definition handleSubscriptionResponse (responseData : string) : IM unit :=
  let configText := decodeIfBase64 responseData in
  let lines := List.filter nonEmpty (split newline configText) in
  s ← get;
  let existing : gset string := list_to_set (concat (map (fun v => lastConfigsOf (toObject (Some v))) (serversArray arrayOf (sm_settings (im_servers s))))) in
  r ← collectConfigs lines existing [] 0;
  let '(_, found, total) := r in
  setPending found ;;
  if total =? 0 then imSend subscriptionErrorOccurred
  else if Nat.eqb (length found) 0 then imSend subscriptionAllDuplicates
  else imSend (subscriptionConfigsReady (Z.of_nat (length found))).

(** The answers of the network: [None] for an error. *)
Definition onSubscription (reply : option string) : IM unit :=
  match reply with
  | None => imSend subscriptionErrorOccurred
  | Some data => if String.eqb data "" then imSend subscriptionErrorOccurred else handleSubscriptionResponse data
  end.
Definition onShortCode (rawInput : string) (ok : bool) (status : Z) (body : string) : IM unit :=
  let subscriptionId := field (jsonObject body) "subscription_id" in
  if ok && (status =? 200) && nonEmpty subscriptionId then imSend (frknSubscriptionLinkDetected subscriptionId)
  else if status =? 404 then fetchAndImportFromUrl (frknApiBase +:+ toPercentEncoding rawInput)
  else imSend subscriptionErrorOccurred.

Definition queueConfigForConfirmation : IM unit :=
  s ← get;
  if bool_decide (m_config s = ∅) then mret tt
  else setPending [JObject (m_config s)] ;; setImConfig ∅ ;; imSend (subscriptionConfigsReady 1).

Definition importSubscriptionConfigs (replaceExisting : bool) : IM unit :=
  s ← get;
  if Nat.eqb (length (m_subscriptionConfigs s)) 0 then mret tt
  else
    (if replaceExisting then onServers (Model.removeAllServers textOfArray) else mret tt) ;;
    onServers (Model.addServers arrayOf textOfArray (m_subscriptionConfigs s)) ;;
    onServers (m ← get; Servers.setSettings (setValue "Conf/serversSubscriptionFilter" (VString "all") (sm_settings m))) ;;
    setPending [] ;;
    imSend importFinished.
End Controller.
