(* ===== verification/ImportProofs.v ===== *)
(** * What the import guarantees

    Every text is answered, and recognising it changes no server; what a
    WireGuard file becomes; subscriptions add what is not there yet. *)

From Stdlib Require Import ZArith Lia Bool String Ascii.
From stdpp Require Import base gmap strings list pretty.
From S2P Require Import Prelude.
From S2P Require Import Qt.
From S2P Require Import QtInstance.
From S2P Require Import Settings.
From S2P Require Import Containers.
From S2P Require Import ServerStore.
From S2P Require Import Servers.
From S2P Require Import ServersProofs.
From S2P Require Import VpnConfiguration.
From S2P Require Import ShareLinks.
From S2P Require Import ShareLinksProofs.
From S2P Require Import Import.

Open Scope Z_scope.

(** ** Every text is answered *)

Section Answered.
Context `{Qt} `{QtUrl} `{QtImport}.
Context (arrayOf : string -> list json) (tr : string -> string) (garbage : Z).
Implicit Types s : ImportController.

(** What recognising a text may emit, and in what form. *)
Definition WellFormed s (o : ImportOutput) : Prop :=
  match o with
  | frknSubscriptionLinkDetected _ => True
  | frknSharedSubLinkDetected t => matches sharedSubRegex t = true
  | frknShareLinkDetected t => matches shareTokenRegex t = true
  | frknActivationKeyDetected k => matches activationKeyRegex k = true \/ matches lightKeyRegex k = true
  | unknownFormatDetected t => t <> ""%string
  | importErrorOccurred code home => code = ImportInvalidConfigError /\ home = false
  | restoreAppConfig _ => m_servers (im_servers s) = []
  | getShortCode _ url => exists code, matches shortCodeRegex code = true /\ url = "https://s.frkn.org/s/" +:+ toLower code
  | getSubscription url => String.prefix "http://" url = true \/ String.prefix "https://" url = true
  | _ => False
  end.

Definition Same s s' : Prop := im_servers s' = im_servers s /\ m_subscriptionConfigs s' = m_subscriptionConfigs s /\ im_out s' = im_out s.
(** Accepted with a configuration, answered with one signal or request, or
    without any, and then there is no configuration. *)
Definition Answered s (r : bool * ImportController) : Prop :=
  im_servers r.2 = im_servers s /\ m_subscriptionConfigs r.2 = m_subscriptionConfigs s
  /\ if r.1 then m_config r.2 <> ∅ /\ im_out r.2 = im_out s
     else (exists o, im_out r.2 = im_out s ++ [o] /\ WellFormed s o) \/ (im_out r.2 = im_out s /\ m_config r.2 = ∅).

Lemma answered_same s s1 r : Same s s1 -> Answered s1 r -> Answered s r.
Proof.
  intros (E1 & E2 & E3) (A1 & A2 & A3). unfold Answered, WellFormed in *. rewrite <- E1, <- E2, <- E3. done.
Qed.

Lemma accept_answered c s : Answered s (accept c s).
Proof.
  unfold accept. rewrite then_eq. unfold Answered. cbn. split_and!; [done | done |].
  case_bool_decide as E; cbn; [right | split]; done.
Qed.
Lemma reject_answered o s : WellFormed s o -> Answered s (reject o s).
Proof. intros Ho. unfold reject. rewrite then_eq. unfold Answered. cbn. split_and!; [done | done |]. left. by exists o. Qed.

Lemma setType_same type s : Same s (setType type s).2.
Proof. done. Qed.

Lemma acceptLink_answered type j s : Answered s (acceptLink arrayOf tr type j s).
Proof.
  unfold acceptLink. rewrite then_eq, bind_eq. cbn [get fst snd]. apply (answered_same _ _ _ (setType_same type s)). apply accept_answered.
Qed.

Lemma linkConfig_answered config k s : linkConfig arrayOf tr garbage config = Some k -> Answered s (k s).
Proof.
  unfold linkConfig.
  destruct (String.prefix "vless://" config); [intros E; apply (inj Some) in E as <-; apply acceptLink_answered |].
  destruct (String.prefix "vmess://" config && chr_contains "@" config); [intros E; apply (inj Some) in E as <-; apply acceptLink_answered |].
  destruct (String.prefix "vmess://" config); [intros E; apply (inj Some) in E as <-; apply acceptLink_answered |].
  destruct (String.prefix "trojan://" config); [intros E; apply (inj Some) in E as <-; apply acceptLink_answered |].
  destruct (String.prefix "ss://" config && negb (str_contains "plugin=" config)); [intros E; apply (inj Some) in E as <-; apply acceptLink_answered |].
  destruct (String.prefix "ssd://" config); [intros E; apply (inj Some) in E as <- | done].
  rewrite then_eq. apply (answered_same _ _ _ (setType_same ConfigTypes.ShadowSocks s)). set (s1 := (setType _ s).2). clearbody s1.
  destruct (ssdDeserialize config) as [| server servers]; rewrite bind_eq; cbn [get fst snd]; [| apply accept_answered].
  unfold Answered. cbn. split_and!; [done | done |]. case_bool_decide as E; cbn; [right | split]; done.
Qed.

Lemma prefix_app p q t : String.prefix p q = true -> String.prefix p (q +:+ t) = true.
Proof.
  revert q. induction p as [| c p IH]; intros q Hq; [by destruct (q +:+ t) |]. destruct q as [| d q]; [done |].
  change (String d q +:+ t) with (String d (q +:+ t)). cbn [String.prefix] in *. destruct (ascii_dec c d); [by apply IH | done].
Qed.

Lemma request_answered s o : WellFormed s o -> Answered s ((imSend o ;; mret false) s).
Proof. apply reject_answered. Qed.

Lemma frknConfig_answered config k s : frknConfig config = Some k -> Answered s (k s).
Proof.
  unfold frknConfig. cbv zeta. set (url := trimmed config). clearbody url.
  destruct (String.prefix "frkn://sub/shared/" url).
  { intros E'; apply (inj Some) in E' as <-. apply reject_answered. by destruct (matches sharedSubRegex _) eqn:E. }
  destruct (String.prefix "frkn://sub/" url); [intros E'; apply (inj Some) in E' as <-; by apply reject_answered |].
  destruct (String.prefix "frkn://conn/" url).
  { intros E'; apply (inj Some) in E' as <-. apply reject_answered. by destruct (matches shareTokenRegex _) eqn:E. }
  destruct (matches uuidRegex url); [intros E'; apply (inj Some) in E' as <-; by apply reject_answered |].
  generalize (if String.prefix "frkn://key/" url then str_mid 11 url else url). clear url. intros url.
  destruct (matches activationKeyRegex _ || matches lightKeyRegex _) eqn:Ek.
  { intros E'; apply (inj Some) in E' as <-. apply reject_answered. by apply orb_true_iff in Ek. }
  generalize (if String.prefix "frkn://" url then "https://" +:+ str_mid 7 url else url). clear url Ek. intros url.
  destruct (matches shortCodeRegex _) eqn:Ec.
  { intros E'; apply (inj Some) in E' as <-. unfold resolveShortCode. apply request_answered. by exists (removeChars (fun c => is_space c || isDash c) url). }
  destruct (String.prefix "http://" url || String.prefix "https://" url) eqn:Eh.
  { intros E'; apply (inj Some) in E' as <-. unfold fetchAndImportFromUrl. apply request_answered. by apply orb_true_iff in Eh. }
  destruct (_ && _ && _); [| done]. intros E'; apply (inj Some) in E' as <-. unfold fetchAndImportFromUrl. apply request_answered. right. by apply prefix_app.
Qed.

Lemma extractWireGuardConfig_error data s :
  extractWireGuardConfig data s = (∅, (imSend (importErrorOccurred ImportInvalidConfigError false) s).2)
  \/ exists c, c <> ∅ /\ (extractWireGuardConfig data s).1 = c /\ Same s (extractWireGuardConfig data s).2.
Proof.
  unfold extractWireGuardConfig. cbv zeta. destruct (String.eqb (u_host _) ""); [left; by rewrite then_eq |].
  destruct (negb _); [left; by rewrite then_eq |]. right. rewrite then_eq. eexists. split; [| split; [reflexivity |]].
  - apply insert_non_empty.
  - by destruct (hasAllRequired _).
Qed.

Lemma checkConfigFormat_forms config : checkConfigFormat config <> ConfigTypes.ShadowSocks.
Proof.
  unfold checkConfigFormat. destruct (str_contains _ config); [discriminate |]. destruct (_ || _ || _ || _); [discriminate |].
  destruct (isWireguardText config); [discriminate |]. destruct (_ && _); discriminate.
Qed.

Lemma storedConfig_answered data config s : Answered s (storedConfig arrayOf tr data config s).
Proof.
  unfold storedConfig. cbv zeta. generalize (if bool_decide (checkConfigFormat config = ConfigTypes.Invalid) then unpacked config else config). clear config. intros config.
  rewrite then_eq. apply (answered_same _ _ _ (setType_same (checkConfigFormat config) s)). set (s1 := (setType _ s).2). clearbody s1. clear s.
  assert (Hw : Answered s1 ((c ← extractWireGuardConfig config; accept c) s1)).
  { rewrite bind_eq. destruct (extractWireGuardConfig_error config s1) as [-> | (c & Hc & -> & Hs)].
    - cbn [fst snd]. unfold accept. rewrite then_eq. unfold Answered. cbn. split_and!; [done | done |]. left. by eexists.
    - apply (answered_same _ _ _ Hs). apply accept_answered. }
  assert (Hf : checkConfigFormat config <> ConfigTypes.ShadowSocks) by exact (checkConfigFormat_forms config).
  generalize dependent (checkConfigFormat config). intros form Hf. destruct form.
  - apply accept_answered.
  - exact Hw.
  - exact Hw.
  - rewrite bind_eq. apply accept_answered.
  - by destruct Hf.
  - rewrite bind_eq. cbn [get fst snd]. apply reject_answered. destruct (Nat.eqb_spec (length (m_servers (im_servers s1))) 0) as [E | _]; [| done].
    cbn. by apply nil_length_inv in E.
  - rewrite then_eq, then_eq. unfold Answered. cbn. split_and!; [done | done |]. left. by eexists.
Qed.

(** C39 (error): every text is answered.  Either it is accepted, and then there
    is a configuration and nothing is emitted; or exactly one signal or
    request is emitted, in its proper form: tokens and keys match their
    patterns, a backup is handed on only when there are no servers, a request
    goes to an address over HTTP; or nothing is emitted, and then there is no
    configuration.  In no case are the servers or the pending subscription
    changed. *)
Theorem import_answered data s : Answered s (extractConfigFromData arrayOf tr garbage data s).
Proof.
  unfold extractConfigFromData. cbv zeta. generalize (withoutBom data). intros config.
  destruct (linkConfig arrayOf tr garbage config) as [k |] eqn:El; [by apply (linkConfig_answered config) |].
  destruct (frknConfig config) as [k |] eqn:Ef; [by apply (frknConfig_answered config) |].
  destruct (negb (staticConfig config) && nonEmpty (trimmed config)) eqn:Es; [| apply storedConfig_answered].
  apply reject_answered. apply andb_true_iff in Es as [_ Es]. unfold nonEmpty in Es. by destruct (String.eqb_spec (trimmed config) "").
Qed.

(** *** Texts without an address scheme *)

Lemma str_contains_false sub t : str_contains sub t = false -> sub <> ""%string -> forall n, String.substring n (String.length sub) t <> sub.
Proof.
  unfold str_contains. destruct (String.index 0 sub t) as [| ] eqn:Ei; [done |]. intros _ Hne n. apply (String.index_correct3 0 n sub t Ei Hne). lia.
Qed.

Lemma prefix_split p t : String.prefix p t = true -> exists r, t = p +:+ r.
Proof.
  revert t. induction p as [| c p IH]; intros t Hp; [by exists t |]. destruct t as [| d t]; [done |]. cbn [String.prefix] in Hp.
  destruct (ascii_dec c d) as [-> |]; [| done]. destruct (IH t Hp) as [r ->]. by exists r.
Qed.

(** [p] is the text of a scheme with [n] letters. *)
Lemma no_scheme p n t : str_contains "://" t = false -> (forall r, String.substring n 3 (p +:+ r) = "://"%string) -> String.prefix p t = false.
Proof.
  intros Hc Hp. destruct (String.prefix p t) eqn:E; [| done]. destruct (prefix_split p t E) as [r ->].
  destruct (str_contains_false "://" (p +:+ r) Hc ltac:(done) n). apply Hp.
Qed.

Lemma linkConfig_none t : str_contains "://" t = false -> linkConfig arrayOf tr garbage t = None.
Proof.
  intros Hc. unfold linkConfig.
  rewrite (no_scheme "vless://" 5 t Hc), (no_scheme "vmess://" 5 t Hc), (no_scheme "trojan://" 6 t Hc), (no_scheme "ss://" 2 t Hc), (no_scheme "ssd://" 3 t Hc)
    by (intros []; reflexivity). done.
Qed.

(** C34 (safety): what leaves the machine.  A text that is none of the known
    tokens and has neither a space nor an address scheme in it is sent to the
    service, as a whole, as if it were the name of a subscriber; this is done
    before anything looks whether it is a configuration with a private key. *)
Theorem spaceless_text_sent t s :
  String.prefix bom t = false -> trimmed t = t -> t <> ""%string -> chr_contains " " t = false -> str_contains "://" t = false ->
  matches uuidRegex t = false -> matches activationKeyRegex (removeChars is_space (toUpper t)) = false ->
  matches lightKeyRegex (removeChars is_space (toUpper t)) = false ->
  matches shortCodeRegex (removeChars (fun c => is_space c || isDash c) t) = false ->
  extractConfigFromData arrayOf tr garbage t s
  = (false, (imSend (getSubscription ("https://api.frkn.org/sub?id=" +:+ toPercentEncoding t)) s).2).
Proof.
  intros Hb Ht Hne Hsp Hc Hu Hk Hl Hcode. unfold extractConfigFromData, withoutBom. rewrite Hb. cbv zeta. rewrite linkConfig_none by done.
  unfold frknConfig. cbv zeta. rewrite Ht.
  rewrite (no_scheme "frkn://sub/shared/" 4 t Hc), (no_scheme "frkn://sub/" 4 t Hc), (no_scheme "frkn://conn/" 4 t Hc), (no_scheme "frkn://key/" 4 t Hc) by (intros []; reflexivity).
  rewrite (no_scheme "frkn://" 4 t Hc), (no_scheme "http://" 4 t Hc), (no_scheme "https://" 5 t Hc) by (intros []; reflexivity).
  rewrite Hu, Hk, Hl, Hcode, Hsp, Hc. unfold nonEmpty. rewrite (proj2 (String.eqb_neq t "") Hne). cbn [orb andb negb]. by rewrite then_eq.
Qed.
End Answered.

(** ** WireGuard files *)

Section WireGuardFiles.
Context `{Qt} `{QtUrl} `{QtImport}.

Lemma value_copied m name key o k :
  value (copied m name key o) k = if String.eqb key k && nonEmpty (entry m name) then Some (jstr (entry m name)) else value o k.
Proof. unfold copied. destruct (nonEmpty (entry m name)); [rewrite value_insert, andb_true_r | rewrite andb_false_r]; done. Qed.

Lemma value_copyAll m l o k :
  value (copyAll m l o) k = if existsb (String.eqb k) l && nonEmpty (entry m k) then Some (jstr (entry m k)) else value o k.
Proof.
  revert o. induction l as [| x l IH]; intros o; [done |]. change (copyAll m (x :: l) o) with (copyAll m l (copied m x x o)). cbn [existsb]. rewrite IH, value_copied.
  destruct (String.eqb_spec k x) as [<- | Hne].
  - rewrite String.eqb_refl. cbn [andb orb]. destruct (nonEmpty (entry m k)); [| by rewrite andb_false_r]. by destruct (existsb (String.eqb k) l).
  - rewrite (proj2 (String.eqb_neq x k)) by congruence. done.
Qed.

(** The file has what a tunnel needs. *)
Definition complete (m : gmap string string) (url : Url) : bool :=
  negb (String.eqb (u_host url) "") && (nonEmpty (entry m "PrivateKey") && nonEmpty (entry m "Address") && nonEmpty (entry m "PublicKey")).

Lemma value_mtu m o k : value (fileMtu m o) k = if String.eqb "mtu" k then Some (jstr (orElse defaultMtu (entry m "MTU"))) else value o k.
Proof. unfold fileMtu, orElse. by destruct (nonEmpty _); rewrite value_insert. Qed.

Lemma value_junk m o k : existsb (String.eqb k) (optionalDeviceFields ++ optionalJunkFields ++ requiredJunkFields) = false ->
  value (fileJunk m o) k = value o k.
Proof.
  rewrite !existsb_app. intros Hk. apply orb_false_iff in Hk as [K1 Hk]. apply orb_false_iff in Hk as [K2 K3].
  unfold fileJunk. cbv zeta. destruct (hasAllRequired m); by rewrite !value_copyAll, ?K1, ?K2, ?K3.
Qed.

Lemma required_entry m k : hasAllRequired m = true -> k ∈ requiredJunkFields -> nonEmpty (entry m k) = true.
Proof. unfold hasAllRequired. rewrite forallb_forall. intros Hm Hk. by apply Hm, list_elem_of_In. Qed.

Lemma value_required m o k : k ∈ requiredJunkFields ->
  value (fileJunk m o) k = if hasAllRequired m then Some (jstr (entry m k)) else value o k.
Proof.
  intros Hk. assert (Hs : existsb (String.eqb k) optionalDeviceFields = false /\ existsb (String.eqb k) optionalJunkFields = false
    /\ existsb (String.eqb k) requiredJunkFields = true).
  { unfold requiredJunkFields in Hk; rewrite !elem_of_cons, elem_of_nil in Hk. by repeat destruct Hk as [-> | Hk]. }
  destruct Hs as (K1 & K2 & K3). unfold fileJunk. cbv zeta. destruct (hasAllRequired m) eqn:Em; rewrite !value_copyAll, ?K1, ?K2, ?K3; cbn [andb]; [| done].
  by rewrite (required_entry m k Em Hk).
Qed.

Definition presharedKey (m : gmap string string) : string :=
  if nonEmpty (entry m "PresharedKey") then entry m "PresharedKey" else entry m "PreSharedKey".

Lemma value_base data m url k : k <> "mtu"%string -> value (fileBase data m url) k =
  if String.eqb "allowed_ips" k then Some (strings (List.filter nonEmpty (map trimmed (split "," (entry m "AllowedIPs")))))
  else if String.eqb "persistent_keep_alive" k && nonEmpty (entry m "PersistentKeepalive") then Some (jstr (entry m "PersistentKeepalive"))
  else if String.eqb "server_pub_key" k then Some (jstr (entry m "PublicKey"))
  else if String.eqb "psk_key" k && nonEmpty (presharedKey m) then Some (jstr (presharedKey m))
  else if String.eqb "client_ip" k then Some (jstr (entry m "Address"))
  else if String.eqb "client_priv_key" k then Some (jstr (entry m "PrivateKey"))
  else if String.eqb "port" k then Some (jint (default 0 (toInt (wireguardPort url))))
  else if String.eqb "hostName" k then Some (jstr (u_host url))
  else if String.eqb "config" k then Some (jstr data) else None.
Proof.
  intros Hm. unfold fileBase, presharedKey. cbv zeta. rewrite value_insert, !value_copied, value_insert, (proj2 (String.eqb_neq "mtu" k)) by congruence.
  cbn [andb].
  destruct (nonEmpty (entry m "PresharedKey")) eqn:Ep; rewrite value_copied, ?Ep, !value_insert; unfold value at 1; rewrite lookup_empty; done.
Qed.

(** What the file says of the tunnel. *)
Lemma last_config_values data m url :
  let L := wireguardLastConfig data m url in
  field L "client_priv_key" = entry m "PrivateKey" /\ field L "server_pub_key" = entry m "PublicKey"
  /\ field L "client_ip" = entry m "Address" /\ field L "hostName" = u_host url
  /\ field L "psk_key" = presharedKey m /\ field L "mtu" = orElse defaultMtu (entry m "MTU")
  /\ value L "port" = Some (jint (default 0 (toInt (wireguardPort url))))
  /\ value L "allowed_ips" = Some (strings (List.filter nonEmpty (map trimmed (split "," (entry m "AllowedIPs")))))
  /\ (forall k, k ∈ requiredJunkFields -> value L k = if hasAllRequired m then Some (jstr (entry m k)) else None).
Proof.
  cbv zeta. unfold wireguardLastConfig, field. rewrite !value_mtu. cbn [String.eqb Ascii.eqb Bool.eqb]. rewrite !value_junk, !value_base by done.
  cbn [String.eqb Ascii.eqb Bool.eqb andb toString qdata]. split_and!; try done.
  - unfold nonEmpty. by destruct (String.eqb_spec (presharedKey m) "") as [-> |].
  - intros k Hk. rewrite value_mtu, value_required by done. assert (Hs : String.eqb "mtu" k = false /\ value (fileBase data m url) k = None).
    { unfold requiredJunkFields in Hk; rewrite !elem_of_cons, elem_of_nil in Hk. repeat destruct Hk as [-> | Hk]; try done; split; try done; by rewrite value_base. }
    destruct Hs as [-> ->]. done.
Qed.

Lemma junk_map_cases k : (exists lo, (lo, k) ∈ awgJunkKeyMap) \/ k ∉ awgJunkKeyMap.*2.
Proof.
  destruct (decide (k ∈ awgJunkKeyMap.*2)) as [Hk | Hk]; [left | by right]. apply list_elem_of_fmap in Hk as ([lo sh] & -> & Hin). by exists lo.
Qed.

(** A parameter that is there passes through the completion. *)
Lemma completed_keeps protoConfig containerConfig data k :
  isArray (value data "allowed_ips") = true -> field data "mtu" <> ""%string -> field data "client_ip" <> ""%string ->
  k ∉ iniKeys -> k <> "persistent_keep_alive"%string -> value (completeWireguard protoConfig containerConfig data) k = value data k.
Proof.
  intros Ha Hm Hc Hk Hp. unfold completeWireguard. cbv zeta. rewrite (proj2 (String.eqb_neq (field data "mtu") "") Hm).
  set (ini := if String.eqb (if _ : bool then _ else _) "" then _ else _). rewrite value_recoverAll by done.
  assert (Hr : recoverKey ini data "client_ip" "Address" = data).
  { unfold recoverKey. by rewrite (proj2 (String.eqb_neq (field data "client_ip") "") Hc). }
  rewrite Hr. unfold recoverAllowedIps. rewrite Ha. case_if; [| done]. rewrite value_jinsert. by rewrite (proj2 (String.eqb_neq _ k)) by congruence.
Qed.

Lemma shortenJunk_keeps data k v : value data k = Some v -> value (shortenJunk data) k = Some v.
Proof.
  intros Hv. destruct (junk_map_cases k) as [(lo & Hin) | Hk].
  - unfold shortenJunk. rewrite (shortenBy_pair awgJunkKeyMap data lo k); [by rewrite Hv | by_names | apply Forall_forall; by_names | done].
  - by rewrite shorten_keeps.
Qed.

Lemma field_insert_object key v o k : key <> k -> field (<[key := v]> o) k = field o k.
Proof. intros Hk. unfold field. by rewrite value_insert, (proj2 (String.eqb_neq key k)). Qed.

Lemma value_dns m n key o k : k <> key -> value (dnsAt m n key o) k = value o k.
Proof.
  intros Hk. unfold dnsAt. destruct (_ !! n) as [d |]; [| done]. destruct (nonEmpty d); [| done].
  rewrite value_insert. by rewrite (proj2 (String.eqb_neq key k)) by congruence.
Qed.

Lemma extract_complete data s :
  let m := configMap data in let url := fromUserInput (entry m "Endpoint") in
  complete m url = true ->
  let r := extractWireGuardConfig data s in
  value r.1 "containers" = Some (JArray [JObject (wireguardContainer data m url)])
  /\ field r.1 "hostName" = u_host url /\ Same s r.2.
Proof.
  cbv zeta. unfold complete, extractWireGuardConfig. cbv zeta. intros Hc. apply andb_true_iff in Hc as [Hc1 Hc2]. apply negb_true_iff in Hc1. rewrite Hc1, Hc2.
  cbn [negb]. rewrite then_eq. split_and!; [| | by destruct (hasAllRequired _)].
  - cbn [mret ST_ret fst]. rewrite value_insert. cbn [String.eqb Ascii.eqb Bool.eqb]. rewrite !value_dns by done. rewrite !value_insert. done.
  - cbn [mret ST_ret fst]. by rewrite field_insert.
Qed.

Definition dockerOf (m : gmap string string) : DockerContainer := if hasAllRequired m then Awg else WireGuard.

Lemma container_entry data m url :
  containerOf (JObject (wireguardContainer data m url)) = dockerOf m
  /\ exists o, sub (wireguardContainer data m url) (protocolName m) = o /\ field o "last_config" = jsonIndented (wireguardLastConfig data m url).
Proof.
  unfold wireguardContainer, containerOf, dockerOf, protocolName. cbv zeta. destruct (hasAllRequired m); cbn [andb].
  - split; [unfold toObject; rewrite field_insert_object by done; by rewrite field_insert |]. eexists. split; [reflexivity |].
    unfold sub. rewrite value_insert. cbn [String.eqb Ascii.eqb Bool.eqb toObject]. unfold field. destruct (nonEmpty (awgVersion m)); rewrite !value_insert; done.
  - split; [unfold toObject; rewrite field_insert_object by done; by rewrite field_insert |]. eexists. split; [reflexivity |].
    unfold sub. rewrite value_insert. cbn [String.eqb Ascii.eqb Bool.eqb toObject]. unfold field. rewrite !value_insert; done.
Qed.

Lemma tunnel_data data m url port dns server :
  let L := wireguardLastConfig data m url in
  jsonParse (processConfigWithDnsSettings dns (jsonIndented L)) = Some L -> jsonIndented L <> ""%string ->
  exists protoConfig, dataOf (createVpnConfiguration port dns server (wireguardContainer data m url) (dockerOf m)) (dockerOf m)
    = completeWireguard protoConfig (wireguardContainer data m url) (shortenJunk L).
Proof.
  cbv zeta. intros Hdns Htext. destruct (container_entry data m url) as (_ & o & Ho & Hl).
  assert (Hd : dockerOf m <> None_ /\ containerService (dockerOf m) <> ServiceOther /\ dockerOf m <> Xray
    /\ protoToString (defaultProtocol (dockerOf m)) = protocolName m
    /\ isAwgContainer (dockerOf m) || bool_decide (dockerOf m = WireGuard) = true) by (unfold dockerOf, protocolName; by destruct (hasAllRequired m)).
  destruct Hd as (D1 & D2 & D3 & D4 & D5). rewrite data_created by done. unfold vpnConfigData. cbv zeta. rewrite D5, bool_decide_eq_false_2 by done.
  exists (protoConfigOf (defaultProtocol (dockerOf m)) (wireguardContainer data m url)). f_equal. f_equal.
  assert (Hp : protoConfigOf (defaultProtocol (dockerOf m)) (wireguardContainer data m url) = o).
  { unfold protoConfigOf. cbv zeta. rewrite D4, Ho. rewrite bool_decide_eq_false_2; [done |]. intros ->. cbn in Hl. by destruct Htext. }
  rewrite Hp. unfold protocolText. cbn [firstText]. rewrite Hl.
  rewrite (proj2 (String.eqb_neq _ "") Htext). unfold jsonObject. by rewrite Hdns.
Qed.

End WireGuardFiles.

(** ** Subscriptions *)

Lemma concat_singles {A} (l : list A) : concat (map (fun x => [x]) l) = l.
Proof. induction l as [| x l IH]; [done |]. cbn. by rewrite IH. Qed.

(** The texts that are not known yet, each once and in order. *)
Fixpoint freshIds (ids : list string) (known : gset string) : list string :=
  match ids with
  | [] => []
  | i :: ids => if bool_decide (i ∈ known) then freshIds ids known else i :: freshIds ids ({[i]} ∪ known)
  end.

Lemma freshIds_spec ids known : NoDup (freshIds ids known) /\ forall i, i ∈ freshIds ids known <-> i ∈ ids /\ i ∉ known.
Proof.
  revert known. induction ids as [| x ids IH]; intros known; cbn [freshIds]; [split; [constructor | set_solver] |].
  case_bool_decide as Hx; [destruct (IH known) as [I1 I2] | destruct (IH ({[x]} ∪ known)) as [I1 I2]].
  - split; [done |]. intros i. rewrite I2, elem_of_cons. split; [intros [K1 K2]; by split; [right |] | intros [[-> | K1] K2]; [by destruct K2 | done]].
  - split; [constructor; [rewrite I2, elem_of_union, elem_of_singleton; tauto | done] |]. intros i. rewrite !elem_of_cons, I2, elem_of_union, elem_of_singleton.
    destruct (decide (i = x)) as [-> | Hne]; tauto.
Qed.

Lemma freshIds_none ids known : (forall i, i ∈ ids -> i ∈ known) -> freshIds ids known = [].
Proof.
  intros Hk. destruct (freshIds ids known) as [| i l] eqn:E; [done |]. destruct (freshIds_spec ids known) as [_ Hs].
  destruct (proj1 (Hs i)) as [H1 H2]; [rewrite E; by left |]. by destruct H2; apply Hk.
Qed.

Section Subscriptions.
Context `{Qt} `{QtUrl} `{QtImport}.
Context (arrayOf : string -> list json) (textOfArray : list json -> string) (tr : string -> string) (garbage : Z).
Implicit Types s : ImportController.

(** The text of an object that was printed is not empty. *)
Class ReindentLaws : Prop := reindented_text : forall o, jsonReindented (jsonPrint o) <> ""%string.

(** The configuration a line stands for, and the name it is given; an unknown
    line stands for the empty configuration. *)
Definition lineLink (line : string) : option (QJsonObject * string) :=
  let t := trimmed line in
  if String.eqb t "" then None
  else if String.prefix "vless://" t then Some (vlessDeserialize t "")
  else if String.prefix "vmess://" t && chr_contains "@" t then Some (vmessNewDeserialize garbage t "")
  else if String.prefix "vmess://" t then Some (vmessDeserialize garbage t "")
  else if String.prefix "trojan://" t then Some (trojanDeserialize t "")
  else if String.prefix "ss://" t && negb (str_contains "plugin=" t) then None
  else Some (∅, ""%string).
(** The text by which the line is recognised. *)
Definition lineId (line : string) : option string := (fun ja => jsonReindented (jsonPrint ja.1)) <$> lineLink line.

Lemma xray_not_empty data description s : extractXrayConfig arrayOf tr data description s <> ∅.
Proof. unfold extractXrayConfig. cbv zeta. apply insert_non_empty. Qed.

Lemma parse_spec line s :
  (parseConfigLine arrayOf tr garbage line s).1
    = (fun ja => extractXrayConfig arrayOf tr (jsonPrint ja.1) ja.2 s) <$> lineLink line
  /\ Same s (parseConfigLine arrayOf tr garbage line s).2.
Proof.
  unfold parseConfigLine, lineLink. cbv zeta. destruct (String.eqb (trimmed line) ""); [done |]. generalize (trimmed line). intros t.
  assert (Hx : forall ja : QJsonObject * string, let r := (s ← get; mret (if bool_decide (extractXrayConfig arrayOf tr (jsonPrint ja.1) ja.2 s = ∅) then None
      else Some (extractXrayConfig arrayOf tr (jsonPrint ja.1) ja.2 s))) s in
    r.1 = Some (extractXrayConfig arrayOf tr (jsonPrint ja.1) ja.2 s) /\ Same s r.2).
  { intros ja. cbv zeta. rewrite bind_eq. cbn [get fst snd]. rewrite bool_decide_eq_false_2 by apply xray_not_empty. done. }
  destruct (String.prefix "vless://" t); [generalize (vlessDeserialize t ""); exact Hx |].
  destruct (String.prefix "vmess://" t && chr_contains "@" t); [generalize (vmessNewDeserialize garbage t ""); exact Hx |].
  destruct (String.prefix "vmess://" t); [generalize (vmessDeserialize garbage t ""); exact Hx |].
  destruct (String.prefix "trojan://" t); [generalize (trojanDeserialize t ""); exact Hx |].
  destruct (String.prefix "ss://" t && negb (str_contains "plugin=" t)); [by rewrite !then_eq |].
  generalize ((∅, ""%string) : QJsonObject * string). exact Hx.
Qed.

Lemma xray_id `{!ReindentLaws} o description s : lastConfigsOf (extractXrayConfig arrayOf tr (jsonPrint o) description s) = [jsonReindented (jsonPrint o)].
Proof.
  pose proof (reindented_text o) as Hne. unfold extractXrayConfig. cbv zeta. unfold lastConfigsOf. rewrite !value_insert. cbn [String.eqb Ascii.eqb Bool.eqb toArray map].
  assert (Hl : forall key, key = "xray"%string \/ key = "ssxray"%string -> forall last : QJsonObject, field last "last_config" = jsonReindented (jsonPrint o) ->
    lastConfigOf (JObject (<[key := JObject last]> (<["container" := jstr ("amnezia-" +:+ key)]> ∅))) = jsonReindented (jsonPrint o)).
  { intros key Hkey last Hlast. unfold lastConfigOf, sub. cbn [toObject]. rewrite !value_insert. destruct Hkey as [-> | ->]; cbn [String.eqb Ascii.eqb Bool.eqb toObject].
    - rewrite Hlast. unfold nonEmpty. by rewrite (proj2 (String.eqb_neq _ "") Hne).
    - unfold value at 1. rewrite lookup_empty. cbn [toObject]. unfold field at 1, value at 1. rewrite lookup_empty. cbn. exact Hlast. }
  rewrite Hl; [| by case_bool_decide; auto | unfold field; rewrite value_insert; cbn [String.eqb Ascii.eqb Bool.eqb]; by rewrite value_insert].
  cbn [List.filter]. unfold nonEmpty. by rewrite (proj2 (String.eqb_neq _ "") Hne).
Qed.

Definition idsOf (server : json) : list string := lastConfigsOf (toObject (Some server)).

Lemma same_trans s1 s2 s3 : Same s1 s2 -> Same s2 s3 -> Same s1 s3.
Proof. intros (A1 & A2 & A3) (B1 & B2 & B3). unfold Same. split_and!; congruence. Qed.

Lemma collect_spec `{!ReindentLaws} lines existing found total s :
  let r := collectConfigs arrayOf tr garbage lines existing found total s in
  let ids := omap lineId lines in
  Same s r.2 /\ r.1.2 = total + Z.of_nat (length ids)
  /\ exists new, r.1.1.2 = found ++ new /\ map idsOf new = map (fun i => [i]) (freshIds ids existing).
Proof.
  revert existing found total s. induction lines as [| line lines IH]; intros existing found total s; cbn [collectConfigs omap list_omap].
  { cbv zeta. cbn. split; [done |]. split; [lia |]. exists []. by rewrite app_nil_r. }
  cbv zeta. rewrite bind_eq. destruct (parse_spec line s) as [Hp Hs].
  assert (Hid : lineId line = (fun ja => jsonReindented (jsonPrint ja.1)) <$> lineLink line) by done. rewrite !Hid. clear Hid.
  destruct (lineLink line) as [ja |]; cbn [fmap option_fmap option_map] in Hp |- *; rewrite Hp.
  - rewrite xray_id. set (i := jsonReindented (jsonPrint ja.1)). set (c := extractXrayConfig arrayOf tr (jsonPrint ja.1) ja.2 s). cbn [freshIds].
    destruct (bool_decide (i ∈ existing)).
    + destruct (IH existing found (total + 1) (parseConfigLine arrayOf tr garbage line s).2) as (I1 & I2 & new & I3 & I4).
      split; [by apply (same_trans _ _ _ Hs) |]. split; [rewrite I2; cbn [length]; lia |]. by exists new.
    + destruct (IH ({[i]} ∪ existing) (found ++ [JObject c]) (total + 1) (parseConfigLine arrayOf tr garbage line s).2) as (I1 & I2 & new & I3 & I4).
      split; [by apply (same_trans _ _ _ Hs) |]. split; [rewrite I2; cbn [length]; lia |].
      exists (JObject c :: new). split; [by rewrite I3, <- app_assoc |]. cbn [map]. rewrite I4. f_equal. unfold idsOf, c. cbn [toObject]. by rewrite xray_id.
  - destruct (IH existing found total (parseConfigLine arrayOf tr garbage line s).2) as (I1 & I2 & I3). split; [by apply (same_trans _ _ _ Hs) | done].
Qed.

(** The texts of the stored servers, and of the lines of an answer. *)
Definition knownIds s : gset string := list_to_set (concat (map idsOf (serversArray arrayOf (sm_settings (im_servers s))))).
Definition answerIds (data : string) : list string := omap lineId (List.filter nonEmpty (split newline (decodeIfBase64 data))).

Lemma handle_spec `{!ReindentLaws} data s :
  let s' := (handleSubscriptionResponse arrayOf tr garbage data s).2 in
  let ids := answerIds data in
  let new := freshIds ids (knownIds s) in
  im_servers s' = im_servers s
  /\ map idsOf (m_subscriptionConfigs s') = map (fun i => [i]) new
  /\ im_out s' = im_out s ++ [if bool_decide (ids = []) then subscriptionErrorOccurred
       else if bool_decide (new = []) then subscriptionAllDuplicates else subscriptionConfigsReady (Z.of_nat (length new))].
Proof.
  cbv zeta. unfold handleSubscriptionResponse. cbv zeta. rewrite bind_eq. cbn [get fst snd]. rewrite bind_eq.
  change (list_to_set (concat (map (fun v => lastConfigsOf (toObject (Some v))) (serversArray arrayOf (sm_settings (im_servers s)))))) with (knownIds s).
  destruct (collect_spec (List.filter nonEmpty (split newline (decodeIfBase64 data))) (knownIds s) [] 0 s) as (C1 & C2 & new & C3 & C4).
  fold (answerIds data) in C2, C4. destruct (collectConfigs _ _ _ _ _ _ _ s) as [[[existing found] total] s1]. cbn [fst snd] in *.
  destruct C1 as (E1 & E2 & E3). cbn [app] in C3. subst found total. rewrite then_eq. cbn [setPending modify snd].
  assert (Hn : length new = length (freshIds (answerIds data) (knownIds s))) by (apply (f_equal length) in C4; by rewrite !length_map in C4).
  assert (Hz : (0 + Z.of_nat (length (answerIds data)) =? 0) = bool_decide (answerIds data = [])).
  { destruct (answerIds data); [done |]. rewrite bool_decide_eq_false_2 by done. apply Z.eqb_neq. cbn [length]. lia. }
  assert (Hf : Nat.eqb (length new) 0 = bool_decide (freshIds (answerIds data) (knownIds s) = [])).
  { rewrite Hn. destruct (freshIds _ _); [done |]. by rewrite bool_decide_eq_false_2. }
  rewrite Hz, Hf, <- Hn. destruct (bool_decide (answerIds data = [])); [| destruct (bool_decide (freshIds _ _ = []))]; cbn; rewrite E1, E3; done.
Qed.

(** An answer to a subscription is what a simple reading of
    it gives: the servers whose text is neither stored nor seen further up,
    each once and in the order of the lines, wait to be confirmed; nothing is
    added before; and exactly one signal tells whether there was nothing to
    read, nothing new, or how many. *)
Theorem subscription_adds_new `{!ReindentLaws} data s :
  let s' := (handleSubscriptionResponse arrayOf tr garbage data s).2 in
  let ids := answerIds data in
  let new := freshIds ids (knownIds s) in
  im_servers s' = im_servers s
  /\ map idsOf (m_subscriptionConfigs s') = map (fun i => [i]) new
  /\ NoDup new /\ (forall i, i ∈ new <-> i ∈ ids /\ i ∉ knownIds s)
  /\ im_out s' = im_out s ++ [if bool_decide (ids = []) then subscriptionErrorOccurred
       else if bool_decide (new = []) then subscriptionAllDuplicates else subscriptionConfigsReady (Z.of_nat (length new))].
Proof.
  destruct (handle_spec data s) as (H1' & H2' & H3'). destruct (freshIds_spec (answerIds data) (knownIds s)) as [F1 F2]. by split_and!.
Qed.

Section Importing.
Context {storable : json -> Prop} `{!ArrayTextLaws arrayOf textOfArray storable}.

Lemma import_spec s : m_subscriptionConfigs s <> [] -> Forall storable (m_subscriptionConfigs s) ->
  let s' := (importSubscriptionConfigs arrayOf textOfArray false s).2 in
  serversArray arrayOf (sm_settings (im_servers s')) = serversArray arrayOf (sm_settings (im_servers s)) ++ m_subscriptionConfigs s
  /\ m_subscriptionConfigs s' = [] /\ im_out s' = im_out s ++ [importFinished].
Proof.
  intros Hne Hst. cbv zeta. unfold importSubscriptionConfigs. rewrite bind_eq. cbn [get fst snd].
  destruct (Nat.eqb_spec (length (m_subscriptionConfigs s)) 0) as [E | _]; [by apply nil_length_inv in E |].
  rewrite !then_eq. unfold onServers. rewrite !bind_eq. cbn [get fst snd mret ST_ret]. split; [| done].
  change (serversArray arrayOf (setValue "Conf/serversSubscriptionFilter" (VString "all")
      (sm_settings (Model.addServers arrayOf textOfArray (m_subscriptionConfigs s) (im_servers s)).2))
    = serversArray arrayOf (sm_settings (im_servers s)) ++ m_subscriptionConfigs s).
  pose proof (f_equal sm_settings (addServers_effect (arrayOf := arrayOf) (textOfArray := textOfArray) (m_subscriptionConfigs s) (im_servers s))) as He.
  change (sm_settings (hushed ?x)) with (sm_settings x) in He. rewrite He. clear He.
  change (sm_settings (refill (Store.addServers arrayOf textOfArray (m_subscriptionConfigs s) (sm_settings (hushed (im_servers s)))) (hushed (im_servers s))))
    with (Store.addServers arrayOf textOfArray (m_subscriptionConfigs s) (sm_settings (im_servers s))).
  unfold serversArray at 1. rewrite confValue_ne by done. fold (serversArray arrayOf (Store.addServers arrayOf textOfArray (m_subscriptionConfigs s) (sm_settings (im_servers s)))).
  unfold Store.addServers. apply servers_set. apply Forall_app. split; [apply servers_storable | done].
Qed.

End Importing.
End Subscriptions.

(** ** What the import does not mean to do *)

Section Unintended.
Context `{Qt} `{QtUrl} `{QtImport}.
Context (arrayOf : string -> list json) (tr : string -> string) (garbage : Z).

(** A link that cannot be read is accepted all the same. *)
Lemma bad_link_accepted t s : String.prefix "vless://" (withoutBom t) = true -> (extractConfigFromData arrayOf tr garbage t s).1 = true.
Proof.
  intros Hp. unfold extractConfigFromData. cbv zeta. unfold linkConfig. rewrite Hp. unfold acceptLink. rewrite then_eq, bind_eq. cbn [get fst snd].
  unfold accept. rewrite then_eq. cbn [mret ST_ret fst]. by rewrite bool_decide_eq_false_2 by apply xray_not_empty.
Qed.

(** In a subscription, a line of Shadowsocks is dropped and one that is no
    link at all is read as a server. *)
Lemma lines_misread : lineLink garbage "ss://YWVzLTEyODpw@192.0.2.1:8388#A" = None /\ lineLink garbage "no link" = Some (∅, ""%string).
Proof. split; reflexivity. Qed.

(** After an import of Shadowsocks the lines of a subscription are stored as
    Shadowsocks, whatever they are. *)
Lemma stale_type data name s : m_configType s = ConfigTypes.ShadowSocks ->
  field (extractXrayConfig arrayOf tr data name s) "defaultContainer" = "amnezia-ssxray"%string.
Proof.
  intros Ht. unfold extractXrayConfig. cbv zeta. rewrite Ht. rewrite bool_decide_eq_true_2 by done.
  rewrite field_insert, field_insert, field_insert. reflexivity.
Qed.

(** The configuration of the newer form of VMess never has inbounds. *)
Lemma vmess_new_inbounds str alias : value (vmessNewDeserialize garbage str alias).1 "inbounds" = None.
Proof.
  unfold vmessNewDeserialize. cbv zeta. destruct (negb (u_valid _)); [reflexivity |]. destruct (newTransport _) as [net tls].
  destruct (negb (memberOf net NetworkType)); [reflexivity |]. cbn [fst]. rewrite value_insert, value_insert. reflexivity.
Qed.
End Unintended.

(** ** Samples *)

Module ImportSample.
Definition lf : string := nl.
(** A WireGuard file without a space. *)
Definition file : string :=
  "[Interface]" +:+ lf +:+ "PrivateKey=cHJpdg==" +:+ lf +:+ "Address=10.8.1.2/32" +:+ lf +:+ "[Peer]" +:+ lf +:+ "PublicKey=cHVi" +:+ lf
  +:+ "AllowedIPs=0.0.0.0/0" +:+ lf +:+ "Endpoint=203.0.113.7:51820".
Definition endpoint : Url := PlainUrl.parse ("http://" +:+ entry (configMap file) "Endpoint").
Definition last : QJsonObject := wireguardLastConfig (H := plainQt) file (configMap file) endpoint.
(** The text of that object is "file", other objects print the address they
    connect to. *)
Definition qt : Qt := concreteQt (fun s => if String.eqb s "file" then Some last else None)
  (fun o => "to " +:+ textAt [Key "outbounds"; At 0; Key "settings"; Key "vnext"; At 0; Key "address"] o).
Definition import : QtImport := {|
  base64Raw := fun s => s; base64UrlRaw := fun s => s; qUncompress := fun _ => ""%string; fromUtf8 := fun s => s;
  jsonIndented := fun _ => "file"%string; jsonReindented := fun s => s; qChecksum := fun _ => 0; toPercentEncoding := fun s => s |}.

Lemma file_complete : complete (configMap file) endpoint = true.
Proof. by vm_compute. Qed.
Lemma file_read dns : dns = ("1.1.1.1", "1.0.0.1")%string ->
  jsonParse (Qt := qt) (processConfigWithDnsSettings dns (jsonIndented (QtImport := import) (wireguardLastConfig (H := qt) file (configMap file) endpoint)))
  = Some (wireguardLastConfig (H := qt) file (configMap file) endpoint).
Proof. intros ->. reflexivity. Qed.
Lemma file_text : jsonIndented (QtImport := import) (wireguardLastConfig (H := qt) file (configMap file) endpoint) <> ""%string.
Proof. discriminate. Qed.

Definition links : string := "vless://7f@192.0.2.7:443#A" +:+ lf +:+ "vless://7f@192.0.2.7:443#B".
(** Stores of copies of one server. *)
Definition emptyModel : ServersModel := mkServers ∅ [] (-1) (-1) true (mkStacks ∅ ∅) ∅ [] [] [] [].
Definition start : ImportController := mkImport emptyModel ∅ "" ConfigTypes.Invalid [] [].
Definition copy : json := JObject (extractXrayConfig (H1 := import) (fun _ => []) (fun s => s)
  (jsonPrint (Qt := qt) (vlessDeserialize (H := PlainUrl.url) "vless://7f@192.0.2.7:443#A" "").1) "A" start).
Definition arrayOf (s : string) : list json := replicate (Z.to_nat (default 0 (parse_signed s))) copy.
Definition textOfArray (l : list json) : string := pretty (Z.of_nat (length l)).

#[export] Instance copies : ArrayTextLaws arrayOf textOfArray (fun v => copy = v).
Proof.
  constructor.
  - intros l Hl. unfold arrayOf, textOfArray. rewrite parse_signed_pretty by lia. change (default 0 (Some ?z)) with z. rewrite Nat2Z.id.
    apply replicate_as_Forall. by split.
  - intros s. unfold arrayOf. apply Forall_replicate_eq.
Qed.

Lemma reindented : ReindentLaws (H := qt) (H1 := import).
Proof. intros o. done. Qed.

Lemma links_found : m_subscriptionConfigs (handleSubscriptionResponse (H := qt) (H0 := PlainUrl.url) (H1 := import) arrayOf (fun s => s) 0 links start).2 = [copy].
Proof. by vm_compute. Qed.
End ImportSample.

(** The file is sent to the service, its private key included. *)
Lemma spaceless_text_sent_witness :
  extractConfigFromData (H := ImportSample.qt) (H0 := PlainUrl.url) (H1 := ImportSample.import) ImportSample.arrayOf (fun s => s) 0 ImportSample.file ImportSample.start
  = (false, (imSend (getSubscription ("https://api.frkn.org/sub?id=" +:+ ImportSample.file)) ImportSample.start).2).
Proof.
  exact (spaceless_text_sent (H := ImportSample.qt) (H0 := PlainUrl.url) (H1 := ImportSample.import) ImportSample.arrayOf (fun s => s) 0 ImportSample.file ImportSample.start
    ltac:(by vm_compute) ltac:(by vm_compute) ltac:(by vm_compute) ltac:(by vm_compute) ltac:(by vm_compute) ltac:(by vm_compute) ltac:(by vm_compute)
    ltac:(by vm_compute) ltac:(by vm_compute)).
Defined.


Lemma subscription_adds_new_witness :
  let s' := (handleSubscriptionResponse (H := ImportSample.qt) (H0 := PlainUrl.url) (H1 := ImportSample.import) ImportSample.arrayOf (fun s => s) 0
    ImportSample.links ImportSample.start).2 in
  map idsOf (m_subscriptionConfigs s') = [["to 192.0.2.7"%string]] /\ im_out s' = [subscriptionConfigsReady 1].
Proof.
  pose proof (subscription_adds_new (H := ImportSample.qt) (H0 := PlainUrl.url) (H1 := ImportSample.import) ImportSample.arrayOf (fun s => s) 0
    (H2 := ImportSample.reindented) ImportSample.links ImportSample.start) as (_ & Hp & _ & _ & Ho).
  cbv zeta. rewrite Hp, Ho. split; by vm_compute.
Defined.

