(* ===== verification/ApiConfig.v ===== *)
(** * What the gateway is asked and what its answers become:
      [client/ui/controllers/api/apiConfigsController.h] and [.cpp],
      [client/configurators/wireguard_configurator.cpp] (keys)

    The controller of the gateway's API builds the payload of a request, turns
    the answer of v1/config, a packed JSON text, into the entry of a server,
    and refreshes, shares, imports and revokes single connections.  The
    subscriptions are in [Subscription.v].  The transport, which encrypts a
    request and sends it, answers with a code and a text; the purchases of the
    Apple stores are left out. *)

From Stdlib Require Import ZArith Lia Bool String Ascii QArith.
From stdpp Require Import base gmap strings list pretty.
From S2P Require Import Prelude.
From S2P Require Import Qt.
From S2P Require Import Settings.
From S2P Require Import Containers.
From S2P Require Import ServerStore.
From S2P Require Import Servers.
From S2P Require Import VpnConfiguration.
From S2P Require Import ShareLinks.
From S2P Require Import Import.
From S2P Require Import WgProbe.

Open Scope Z_scope.

(** ** Errors *)

Definition NoError : Z := 0.
Definition PermissionsError : Z := 1202.
Definition ApiConfigDownloadError : Z := 1100.
Definition ApiConfigEmptyError : Z := 1102.
Definition ApiConfigTimeoutError : Z := 1103.
Definition ApiConfigSslError : Z := 1104.
Definition ApiMissingAgwPublicKey : Z := 1105.
Definition ApiConfigDecryptionError : Z := 1106.
Definition ApiServicesMissingError : Z := 1107.
Definition ApiConfigLimitError : Z := 1108.
Definition ApiNotFoundError : Z := 1109.
Definition ApiUpdateRequestError : Z := 1111.
Definition ApiLocalConfigMissingError : Z := 1114.

(** ** Unpacking *)

(** zlib: a stream is read in calls of [inflate] with room for [CHUNK] bytes;
    [out] is what a call writes. *)
Inductive ZRet : Type := Z_OK | Z_STREAM_END | Z_BUF_ERROR | Z_NEED_DICT | Z_DATA_ERROR | Z_MEM_ERROR.
Class Zlib (Z_stream : Type) := {
  inflateInit2 : string -> option Z_stream;
  inflate : Z_stream -> ZRet * string * Z_stream
}.

Section Gzip.
Context {Z_stream} `{Zlib Z_stream}.

(** The loop ends with the stream or with one of three errors. *)
Fixpoint inflateLoop (fuel : nat) (strm : Z_stream) (out : string) : res string :=
  match fuel with
  | O => Timeout
  | S fuel' =>
      let '(ret, chunk, strm) := inflate strm in
      match ret with
      | Z_NEED_DICT | Z_DATA_ERROR | Z_MEM_ERROR => Val ""%string
      | Z_STREAM_END => Val (out +:+ chunk)
      | Z_OK | Z_BUF_ERROR => inflateLoop fuel' strm (out +:+ chunk)
      end
  end.

Definition gzipDecompress (fuel : nat) (data : string) : res string :=
  if Nat.ltb (String.length data) 10 then Val ""%string
  else match inflateInit2 data with
       | None => Val ""%string
       | Some strm => inflateLoop fuel strm ""
       end.
End Gzip.

(** [PrivateKey\s*=\s*(\S+)]: what the group of the first match holds. *)
Fixpoint skipSpaces (s : string) : string :=
  match s with String c s' => if is_space c then skipSpaces s' else s | EmptyString => ""%string end.
Fixpoint word (s : string) : string :=
  match s with String c s' => if is_space c then ""%string else String c (word s') | EmptyString => ""%string end.
Definition keyAt (s : string) : option string :=
  if String.prefix "PrivateKey" s then
    match skipSpaces (str_mid 10 s) with
    | String c s' => if Ascii.eqb c "=" then let w := word (skipSpaces s') in if nonEmpty w then Some w else None else None
    | EmptyString => None
    end
  else None.
Fixpoint privateKeyRe (s : string) : option string :=
  match keyAt s with
  | Some w => Some w
  | None => match s with String _ s' => privateKeyRe s' | EmptyString => None end
  end.
Definition hasValidPrivateKey (ini : string) : bool :=
  match privateKeyRe ini with Some w => negb (String.prefix "$" w) | None => false end.

(** ** Data *)

Record ProtocolData : Type := mkProtocolData {
  wireGuardClientPrivKey : string; wireGuardClientPubKey : string; xrayUuid : string }.
Definition noProtocolData : ProtocolData := mkProtocolData "" "" "".

Record GatewayRequestData : Type := mkRequest {
  gr_osVersion : string; gr_appVersion : string; gr_appLanguage : string; gr_installationUuid : string;
  gr_userCountryCode : string; gr_serverCountryCode : string; gr_serviceType : string; gr_serviceProtocol : string;
  gr_authData : QJsonObject }.

Definition putText (key text : string) (o : QJsonObject) : QJsonObject := if nonEmpty text then <[key := jstr text]> o else o.
Definition toJsonObject (r : GatewayRequestData) : QJsonObject :=
  <["auth_data" := JObject (gr_authData r)]>
  (putText "service_protocol" (gr_serviceProtocol r)
  (putText "service_type" (gr_serviceType r)
  (putText "server_country_code" (gr_serverCountryCode r)
  (putText "user_country_code" (gr_userCountryCode r)
  (putText "installation_uuid" (gr_installationUuid r)
  (putText "app_language" (gr_appLanguage r)
  (putText "app_version" (gr_appVersion r)
  (putText "os_version" (gr_osVersion r) ∅)))))))).

(** The key a request carries for a protocol. *)
Definition isAwgName (p : string) : bool := String.eqb p "awg" || String.eqb p "wireguard".
Definition appendProtocolDataToApiPayload (protocol : string) (data : ProtocolData) (payload : QJsonObject) : QJsonObject :=
  let p := canonicalServiceProtocol protocol in
  if isAwgName p then <["public_key" := jstr (wireGuardClientPubKey data)]> payload
  else if String.eqb p "vless" then <["public_key" := jstr (xrayUuid data)]> payload
  else payload.

(** [obj.value(key).toString(dflt)] *)
Definition textOr (o : QJsonObject) (key dflt : string) : string :=
  match value o key with Some (JString s) => qdata s | _ => dflt end.

(** [authData] with the legacy id as key. *)
Definition withApiKey (auth : QJsonObject) : QJsonObject :=
  if negb (jcontains auth "api_key") && jcontains auth "id" then jinsert "api_key" (value auth "id") auth else auth.

Definition keyPlaceholder : string := "$WIREGUARD_CLIENT_PRIVATE_KEY".

(** [==] of JSON values; a number is a fraction in lowest terms. *)
#[export] Instance fraction_eq_dec : EqDecision QArith_base.Q.
Proof. solve_decision. Defined.
#[export] Instance json_eq_dec : EqDecision json.
Proof.
  refine (fix go a b := let _ : EqDecision json := @go in
    match a, b with
    | JNull, JNull => left eq_refl
    | JBool x, JBool y => cast_if (decide (x = y))
    | JDouble x, JDouble y => cast_if (decide (x = y))
    | JString x, JString y => cast_if (decide (x = y))
    | JArray x, JArray y => cast_if (decide (x = y))
    | JObject x, JObject y => cast_if (decide (x = y))
    | _, _ => right _
    end); congruence.
Defined.

(** ** From an answer to a server *)

Section Fill.
Context `{Qt} `{QtImport} {Z_stream} `{Zlib Z_stream}.
(** The rounds allowed to [inflate]. *)
Context (fuel : nat) (genPublicKeyFromPrivate : string -> string).

Definition gzipMagic : string := String (Ascii.ascii_of_nat 31) (String (Ascii.ascii_of_nat 139) "").
(** The bytes of the text in [config], from either alphabet of base64. *)
Definition packedBytes (response : string) : string :=
  let data := replaceText "vpn://" "" (field (jsonObject response) "config") in
  let ba := base64Raw data in
  if negb (nonEmpty ba) || (negb (String.prefix "{" ba) && negb (String.prefix gzipMagic ba)) then base64UrlRaw data else ba.

Definition unpackedBytes (ba : string) : res string :=
  let plain := qUncompress ba in
  if nonEmpty plain then Val plain
  else match gzipDecompress fuel ba with
       | Val plain => Val (if nonEmpty plain then plain else ba)
       | OutOfRange => OutOfRange
       | Timeout => Timeout
       end.

Definition lastConfig (protocolConfig : QJsonObject) : QJsonObject := jsonObject (field protocolConfig "last_config").
Definition containersIn (config : QJsonObject) : list json := toArray (value config "containers").

(** The private key the answer brings, looked up under the short name. *)
Definition previewPrivKey (configStr : string) : string :=
  match containersIn (jsonObject configStr) with
  | [] => ""
  | v :: _ =>
      let container := toObject (Some v) in
      let name := containerTypeToString (containerFromString (field container "container")) in
      field (lastConfig (sub container name)) "client_priv_key"
  end.
Definition effectivePrivKey (data : ProtocolData) (configStr : string) : string :=
  let preview := previewPrivKey configStr in
  if nonEmpty preview && negb (String.eqb preview keyPlaceholder) then preview else wireGuardClientPrivKey data.

(** The key pair written to a configuration that has none. *)
Definition lacksKey (client : QJsonObject) : bool :=
  let own := field client "client_priv_key" in String.eqb own keyPlaceholder || String.eqb own "".
Definition withClientKey (key : string) (client : QJsonObject) : QJsonObject :=
  if lacksKey client then
    <["client_pub_key" := jstr (genPublicKeyFromPrivate key)]> (<["client_priv_key" := jstr key]> client)
  else client.

(** The members copied next to [last_config]. *)
Definition copiedKeys : list string :=
  ["client_priv_key"; "client_pub_key"; "server_pub_key"; "psk_key"; "client_ip"; "mtu"; "port"; "hostName"]%string.
Definition copiedJunk : list string :=
  ["Jc"; "Jmin"; "Jmax"; "S1"; "S2"; "H1"; "H2"; "H3"; "H4"; "S3"; "S4"; "I1"; "I2"; "I3"; "I4"; "I5"]%string.
Definition copyMembers (keys : list string) (from to : QJsonObject) : QJsonObject :=
  fold_left (fun o k => jinsert k (value from k) o) keys to.
Definition syncProtocol (client protocolConfig : QJsonObject) : QJsonObject :=
  copyMembers copiedJunk client
    (<["persistent_keep_alive" := jstr (textOr client "persistent_keep_alive" "25")]>
      (copyMembers copiedKeys client protocolConfig)).

(** The junk lines of an INI text; the keys of the third version only when
    they are there. *)
Definition iniJunk : list string :=
  ["Jc"; "Jmin"; "Jmax"; "S1"; "S2"; "S3"; "S4"; "H1"; "H2"; "H3"; "H4"; "I1"; "I2"; "I3"; "I4"; "I5"]%string.
Definition iniDevice : list string :=
  ["HeaderProtectionKey"; "ContentPaddingAddition"; "RekeyAfterTime"; "RekeyTimeout"; "RejectAfterTime"; "KeepaliveTimeout";
   "MaxHandshakeAttempts"]%string.
Definition iniLine (key text : string) : string := key +:+ " = " +:+ text.
Definition iniLineIf (key text : string) : list string := if nonEmpty text then [iniLine key text] else [].
Definition junkLines (client : QJsonObject) : list string :=
  map (fun k => iniLine k (field client k)) iniJunk ++ concat (map (fun k => iniLineIf k (field client k)) iniDevice).

Definition awgDefaultPort : string := "55424".
Definition generatedIni (server client : QJsonObject) : string :=
  join nl (
    ["[Interface]"%string; iniLine "PrivateKey" (field client "client_priv_key"); iniLine "Address" (field client "client_ip");
     iniLine "MTU" (textOr client "mtu" defaultMtu)]
    ++ iniLineIf "DNS" (field server "dns1")
    ++ junkLines client
    ++ [""%string; "[Peer]"%string; iniLine "PublicKey" (field client "server_pub_key")]
    ++ iniLineIf "PresharedKey" (field client "psk_key")
    ++ [iniLine "Endpoint" (field server "hostName" +:+ ":" +:+ textOr client "port" awgDefaultPort);
        "AllowedIPs = 0.0.0.0/0"%string;
        iniLine "PersistentKeepalive" (textOr client "persistent_keep_alive" "25")]).

(** The INI text of a protocol, generated when it has no usable one, which
    goes into [last_config] as well. *)
Definition withIni (server client protocolConfig : QJsonObject) : QJsonObject :=
  let ini := field protocolConfig "config" in
  let protocolConfig :=
    if negb (str_contains "[Interface]" ini) || negb (hasValidPrivateKey ini)
    then <["config" := jstr (generatedIni server client)]> protocolConfig else protocolConfig in
  <["last_config" := jstr (jsonPrint (<["config" := jstr (field protocolConfig "config")]> client))]> protocolConfig.

(** The protocol of the first container of an AmneziaWG server. *)
Definition awgProtocol (key : string) (server protocolConfig : QJsonObject) : QJsonObject :=
  let client := withClientKey key (lastConfig protocolConfig) in
  let protocolConfig :=
    if lacksKey (lastConfig protocolConfig) then <["last_config" := jstr (jsonPrint client)]> protocolConfig
    else protocolConfig in
  withIni server client (syncProtocol client protocolConfig).

Definition keyedContainer (key : string) (server container : QJsonObject) : QJsonObject :=
  let name := field container "container" in
  let protocolConfig := awgProtocol key server (sub container name) in
  let container := <[name := JObject protocolConfig]> container in
  if isAwgContainer (containerFromString name) then <["awg" := JObject protocolConfig]> container else container.

(** [None] when the configuration has no container. *)
Definition awgConfig (data : ProtocolData) (configStr : string) : option QJsonObject :=
  let key := effectivePrivKey data configStr in
  let server := jsonObject (replaceText keyPlaceholder key configStr) in
  match containersIn server with
  | [] => None
  | v :: rest => Some (<["containers" := JArray (JObject (keyedContainer key server (toObject (Some v))) :: rest)]> server)
  end.

(** What the server keeps of the configuration. *)
Definition fillCommon (response : string) (new serverConfig : QJsonObject) : QJsonObject :=
  let copy k o := jinsert k (value new k) o in
  let reply := jsonObject response in
  let s := copy "hostName"%string (copy "containers"%string (copy "dns2"%string (copy "dns1"%string serverConfig))) in
  let nodeIps := toArray (value reply "node_ips") in
  let s := if Nat.eqb (length nodeIps) 0 then delete "node_ips"%string s else <["node_ips" := JArray nodeIps]> s in
  let gateway := toIntJ (value new "config_version") =? 2 in
  let s :=
    if gateway then
      let s := copy "config_version"%string s in
      let s := if jcontains s "name" then s else copy "name"%string s in
      if jcontains s "description" then s else copy "description"%string s
    else if jcontains s "config_version" then s else <["config_version" := jint 2]> s in
  let s := <["defaultContainer" := jstr (field new "defaultContainer")]> s in
  let api := sub new "api_config" ∪ sub s "api_config" in
  let api := if jcontains s "auth_data" then jinsert "auth_data" (value s "auth_data") api else api in
  let api :=
    if gateway then
      <["service_info" := JObject (sub reply "service_info")]>
        (<["supported_protocols" := JArray (toArray (value reply "supported_protocols"))]> api)
    else api in
  <["api_config" := JObject api]> s.

(** The error code, and the server when there is none. *)
Definition fillServerConfig (protocol : string) (data : ProtocolData) (response : string) (serverConfig : QJsonObject)
    : res (Z * QJsonObject) :=
  let ba := packedBytes response in
  if negb (nonEmpty ba) then Val (ApiConfigEmptyError, serverConfig)
  else match unpackedBytes ba with
       | OutOfRange => OutOfRange
       | Timeout => Timeout
       | Val plain =>
           let configStr := fromUtf8 plain in
           if String.eqb (canonicalServiceProtocol protocol) "awg" then
             match awgConfig data configStr with
             | None => Val (ApiConfigEmptyError, serverConfig)
             | Some server => Val (NoError, fillCommon response (jsonObject (jsonIndented server)) serverConfig)
             end
           else Val (NoError, fillCommon response (jsonObject configStr) serverConfig)
       end.

(** The protocol of an answer that does not name it. *)
Definition detectProtocolFromApiResponse (response : string) : res string :=
  match unpackedBytes (packedBytes response) with
  | OutOfRange => OutOfRange
  | Timeout => Timeout
  | Val plain =>
      Val (match containerFromString (field (jsonObject plain) "defaultContainer") with
           | Awg | Awg2 => "awg"
           | WireGuard => "wireguard"
           | Xray | SSXray => "vless"
           | _ => ""
           end%string)
  end.
End Fill.

(** ** The controller *)

(** What the machine and the build give: key pairs and identifiers come from
    a counted source of randomness. *)
Class ApiEnv := {
  productType : string;
  appVersion : string;
  languageName : Settings -> string;            (** [getAppLanguage().name().split("_").first()] *)
  createUuid : nat -> string;                   (** [QUuid::createUuid().toString()] *)
  rand_priv_bytes : nat -> option (list Z);
  uninitialised : list Z;                       (** the buffer of a key OpenSSL did not write *)
  nowSecs : Settings -> Z                       (** [QDateTime::currentSecsSinceEpoch()] *)
}.

Inductive ApiOutput : Type :=
| errorOccurred (code : Z)
| subscriptionIdChanged
| selectedServerCountryCodeChanged
| importAllCountriesChanged
| subscriptionConfigsChanged
| selectedPlanIndexChanged
| fetchSubscriptionConfigsFinished (success : bool)
| reloadSubscriptionConfigsFinished (success : bool)
| installServerFromApiFinished (message : string)
| changeApiCountryFinished (message : string)
| reloadServerFromApiFinished (message : string)
| updateServerFromApiFinished
| sharedConnectionImported (message : string) (serverIndex : Z)
| connectionShareCreated (shareUrl shareToken : string)
| sharesListed (shares : list json)
| shareRevoked (shareToken : string)
| shortCodeChanged
| saveFile (fileName contents : string)
| setClipboard (text : string)
| getShortCode (url : string)                       (** the request of [fetchShortCode] *)
| getCatalogVersion                                 (** the request of [checkCatalogVersion] *)
| postServices (subscriptionId : string) (payload : QJsonObject)       (** of [fetchSubscriptionFeed] *)
| postConfig (item : nat) (payload : QJsonObject).                     (** of its loop *)

Record ApiController : Type := mkApi {
  ac_servers : ServersModel;
  m_subscriptionId : string;
  m_selectedServerCountryCode : string;
  m_importAllCountries : bool;
  m_selectedPlanIndex : Z;
  m_shortCode : string;
  m_subscriptionReloadRunning : bool;
  m_subscriptionReloadNotify : bool;
  m_pendingCatalogVersion : string;
  ac_subscriptionConfigs : list json;
  m_subscriptionConfigFailures : list string;
  ac_random : nat;
  ac_out : list ApiOutput
}.

Abbreviation AC := (ST ApiController).

Definition setAcModel (x : ServersModel) : AC unit := modify (fun a =>
  mkApi x (m_subscriptionId a) (m_selectedServerCountryCode a) (m_importAllCountries a) (m_selectedPlanIndex a) (m_shortCode a)
    (m_subscriptionReloadRunning a) (m_subscriptionReloadNotify a) (m_pendingCatalogVersion a) (ac_subscriptionConfigs a)
    (m_subscriptionConfigFailures a) (ac_random a) (ac_out a)).
Definition setMembers (id country : string) (all : bool) (plan : Z) (code : string) : AC unit := modify (fun a =>
  mkApi (ac_servers a) id country all plan code
    (m_subscriptionReloadRunning a) (m_subscriptionReloadNotify a) (m_pendingCatalogVersion a) (ac_subscriptionConfigs a)
    (m_subscriptionConfigFailures a) (ac_random a) (ac_out a)).
Definition setReload (running notify : bool) (pending : string) : AC unit := modify (fun a =>
  mkApi (ac_servers a) (m_subscriptionId a) (m_selectedServerCountryCode a) (m_importAllCountries a) (m_selectedPlanIndex a)
    (m_shortCode a) running notify pending (ac_subscriptionConfigs a) (m_subscriptionConfigFailures a) (ac_random a) (ac_out a)).
Definition setFeed (configs : list json) (failures : list string) : AC unit := modify (fun a =>
  mkApi (ac_servers a) (m_subscriptionId a) (m_selectedServerCountryCode a) (m_importAllCountries a) (m_selectedPlanIndex a)
    (m_shortCode a) (m_subscriptionReloadRunning a) (m_subscriptionReloadNotify a) (m_pendingCatalogVersion a) configs failures
    (ac_random a) (ac_out a)).
Definition setRandom (n : nat) : AC unit := modify (fun a =>
  mkApi (ac_servers a) (m_subscriptionId a) (m_selectedServerCountryCode a) (m_importAllCountries a) (m_selectedPlanIndex a)
    (m_shortCode a) (m_subscriptionReloadRunning a) (m_subscriptionReloadNotify a) (m_pendingCatalogVersion a)
    (ac_subscriptionConfigs a) (m_subscriptionConfigFailures a) n (ac_out a)).
Definition acSend (o : ApiOutput) : AC unit := modify (fun a =>
  mkApi (ac_servers a) (m_subscriptionId a) (m_selectedServerCountryCode a) (m_importAllCountries a) (m_selectedPlanIndex a)
    (m_shortCode a) (m_subscriptionReloadRunning a) (m_subscriptionReloadNotify a) (m_pendingCatalogVersion a)
    (ac_subscriptionConfigs a) (m_subscriptionConfigFailures a) (ac_random a) (ac_out a ++ [o])).

Definition onModel {A} (k : ST ServersModel A) : AC A := fun a =>
  let '(x, m) := k (ac_servers a) in (x, (setAcModel m a).2).
(** A member of the model that can write outside its array. *)
Definition onModelP {A} (k : PT ServersModel A) : PT ApiController A := fun a =>
  match k (ac_servers a) with Some (x, m) => Some (x, (setAcModel m a).2) | None => None end.
Definition ac_settings (a : ApiController) : Settings := sm_settings (ac_servers a).
Definition onSettings (f : Settings -> Settings) : AC unit := onModel (m ← get; setSettings (f (sm_settings m))).
(** A call that may never return; [None] stands for that, too. *)
Definition ofRes {S A} (r : res A) : PT S A := fun s => match r with Val x => Some (x, s) | _ => None end.

(** A refresh of one server, between its request and the answer. *)
Record GatewayConfigUpdate : Type := mkUpdate {
  gu_serverIndex : Z;
  gu_newCountryName : string;
  gu_reloadServiceConfig : bool;
  gu_silent : bool;
  gu_isTestPurchase : bool;
  gu_isConnectEvent : bool;
  gu_serviceProtocol : string;
  gu_protocolData : ProtocolData;
  gu_serverConfig : QJsonObject;
  gu_apiConfig : QJsonObject;
  gu_authData : QJsonObject;
  gu_apiPayload : QJsonObject
}.

(** What the catalog of services shows as selected. *)
Record SelectedService : Type := mkService {
  ss_countryCode : string; ss_type : string; ss_protocol : string; ss_name : string; ss_countries : list json }.

Section Api.
Context `{Qt} `{QtImport} {Z_stream} `{Zlib Z_stream} `{OpenSSL} `{ApiEnv}.
Context (arrayOf : string -> list json) (textOfArray : list json -> string) (tr : string -> string) (fuel : nat).
(** [executeRequest]: the error and the answer, and what the events handled
    by its nested loop did meanwhile. *)
Context (execute : string -> QJsonObject -> bool -> AC (Z * string)).

(** [tr(text).arg(x)] *)
Definition message (text x : string) : string := replaceText "%1" x (tr text).

(** *** Keys and identifiers *)

Definition genPublicKeyFromPrivate (privateKeyBase64 : string) : string :=
  let priv := fromBase64 privateKeyBase64 in
  if negb (Nat.eqb (length priv) 32) then ""
  else match x25519Public priv with Some pub => toBase64 pub | None => "" end.

Definition nextRandom : AC nat := a ← get; setRandom (S (ac_random a)) ;; mret (ac_random a).

Definition genClientKeys : AC ProtocolData :=
  n ← nextRandom;
  match rand_priv_bytes n with
  | None => mret noProtocolData
  | Some buff => mret (mkProtocolData (toBase64 buff) (toBase64 (default uninitialised (evp_public buff))) "")
  end.

(** Without the braces. *)
Definition unbraced (uuid : string) : string := let s := str_mid 1 uuid in str_left (String.length s - 1) s.
Definition newUuid : AC string := n ← nextRandom; mret (unbraced (createUuid n)).

Definition generateProtocolData (protocol : string) : AC ProtocolData :=
  let p := canonicalServiceProtocol protocol in
  if isAwgName p then genClientKeys
  else if String.eqb p "vless" then uuid ← newUuid; mret (mkProtocolData "" "" uuid)
  else mret noProtocolData.

Definition uuidKey : string := "Conf/installationUuid".
Definition getInstallationUuid (needCreate : bool) : AC string :=
  a ← get;
  let uuid := variantToString (confValue (ac_settings a) uuidKey (VString "")) in
  if needCreate && String.eqb uuid "" then
    uuid ← newUuid; onSettings (setValue uuidKey (VString uuid)) ;; mret uuid
  else if chr_contains "{" uuid && chr_contains "}" uuid then
    onSettings (setValue uuidKey (VString (unbraced uuid))) ;; mret (unbraced uuid)
  else mret uuid.

(** The common part of a request. *)
Definition request (userCountry serverCountry serviceType serviceProtocol : string) (auth : QJsonObject) : AC GatewayRequestData :=
  a ← get;
  uuid ← getInstallationUuid true;
  mret (mkRequest productType appVersion (languageName (ac_settings a)) uuid userCountry serverCountry serviceType serviceProtocol auth).

(** *** Subscription identifiers *)

Definition recoveredId (server : QJsonObject) : string :=
  let api := Model.apiConfig server in
  if String.eqb (field api "connection_uuid") "" then ""
  else let id := field (sub api "auth_data") "api_key" in
       if nonEmpty id then id else field (sub server "auth_data") "api_key".
Definition resolveSubscriptionId (a : ApiController) : string :=
  if nonEmpty (m_subscriptionId a) then m_subscriptionId a
  else default ""%string (head (List.filter nonEmpty (map (fun v => recoveredId (toObject (Some v))) (m_servers (ac_servers a))))).
Definition getSubscriptionId := resolveSubscriptionId.

Definition setSubscriptionId (id : string) : AC unit :=
  a ← get;
  if String.eqb (m_subscriptionId a) id then mret tt
  else setMembers id (m_selectedServerCountryCode a) (m_importAllCountries a) (m_selectedPlanIndex a) (m_shortCode a) ;;
       acSend subscriptionIdChanged.
Definition setSelectedServerCountryCode (code : string) : AC unit :=
  a ← get;
  if String.eqb (m_selectedServerCountryCode a) code then mret tt
  else setMembers (m_subscriptionId a) code (m_importAllCountries a) (m_selectedPlanIndex a) (m_shortCode a) ;;
       acSend selectedServerCountryCodeChanged.
Definition setImportAllCountries (all : bool) : AC unit :=
  a ← get;
  if Bool.eqb (m_importAllCountries a) all then mret tt
  else setMembers (m_subscriptionId a) (m_selectedServerCountryCode a) all (m_selectedPlanIndex a) (m_shortCode a) ;;
       acSend importAllCountriesChanged.
(** There are four plans. *)
Definition setSelectedPlanIndex (index : Z) : AC unit :=
  a ← get;
  if (index <? 0) || (index >=? 4) || (m_selectedPlanIndex a =? index) then mret tt
  else setMembers (m_subscriptionId a) (m_selectedServerCountryCode a) (m_importAllCountries a) index (m_shortCode a) ;;
       acSend selectedPlanIndexChanged.

Definition setShortCode (code : string) : AC unit :=
  a ← get;
  setMembers (m_subscriptionId a) (m_selectedServerCountryCode a) (m_importAllCountries a) (m_selectedPlanIndex a) code ;;
  acSend shortCodeChanged.
Definition fetchShortCode : AC unit :=
  (a ← get; if nonEmpty (m_shortCode a) then setShortCode "" else mret tt) ;;
  a ← get;
  let id := resolveSubscriptionId a in
  if nonEmpty id then acSend (getShortCode ("https://api.frkn.org/short?subscription_id=" +:+ id)) else mret tt.
(** The answer, [None] for an error. *)
Definition onShortCodeReply (reply : option string) : AC unit :=
  match reply with
  | None => mret tt
  | Some text =>
      let body := jsonObject text in
      let code := let c := field body "code" in if nonEmpty c then c else field body "short_code" in
      a ← get;
      if nonEmpty code && negb (String.eqb code (m_shortCode a)) then setShortCode code else mret tt
  end.
Definition copyShortCodeToClipboard : AC unit := a ← get; acSend (setClipboard (m_shortCode a)).
Definition copySubscriptionIdToClipboard : AC unit := a ← get; acSend (setClipboard (resolveSubscriptionId a)).

(** *** The refresh of one server *)

(** The saved key pair of the first container that has one. *)
Definition savedKeys (server : QJsonObject) : option ProtocolData :=
  match List.filter (fun o => negb (bool_decide (o = ∅))) (map (fun v => sub (toObject (Some v)) "awg") (containersIn server)) with
  | [] => None
  | awg :: _ =>
      let last := lastConfig awg in
      let priv := field last "client_priv_key" in
      let pub := field last "client_pub_key" in
      let pub := if nonEmpty priv then
          let derived := genPublicKeyFromPrivate priv in
          if nonEmpty pub && String.eqb pub derived then pub else derived
        else pub in
      if nonEmpty priv && nonEmpty pub then Some (mkProtocolData priv pub "") else None
  end.

Definition authOf (server : QJsonObject) : QJsonObject := authDataOf server.
Definition isShared (auth : QJsonObject) : bool := jcontains auth "share_token".

Definition prepareGatewayConfigUpdate (serverIndex : Z) (newCountryCode newCountryName : string)
    (reloadServiceConfig silent : bool) : AC GatewayConfigUpdate :=
  a ← get;
  let server := Model.getServerConfig (ac_servers a) serverIndex in
  let api := Model.apiConfig server in
  let isConnectEvent := negb (nonEmpty newCountryCode) && negb (nonEmpty newCountryName) && negb reloadServiceConfig in
  let auth := withApiKey (authOf server) in
  let serviceProtocol := field api "service_protocol" in
  r ← request (field api "user_country_code") newCountryCode (field api "service_type") serviceProtocol auth;
  data ← (if isShared auth then mret noProtocolData else generateProtocolData serviceProtocol);
  let data :=
    if negb (isShared auth) && isConnectEvent && String.eqb (canonicalServiceProtocol serviceProtocol) "awg"
    then match savedKeys server with
         | Some saved => mkProtocolData (wireGuardClientPrivKey saved) (wireGuardClientPubKey saved) (xrayUuid data)
         | None => data
         end
    else data in
  let payload := toJsonObject r in
  let pin key o := let v := field api key in if nonEmpty v && negb (nonEmpty newCountryCode) then Some v else o in
  let payload := match pin "connection_uuid"%string None with Some v => <["connection_id" := jstr v]> payload | None => payload end in
  let payload := match pin "node_id"%string None with Some v => <["node_id" := jstr v]> payload | None => payload end in
  let payload := if isShared auth then payload else appendProtocolDataToApiPayload serviceProtocol data payload in
  let payload := if isConnectEvent then <["is_connect_event" := JBool true]> payload else payload in
  mret (mkUpdate serverIndex newCountryName reloadServiceConfig silent (toBool (value api "is_test_purchase")) isConnectEvent
    serviceProtocol data server api auth payload).

(** The entry that replaces the server: its identity and name are kept. *)
Definition mergedServer (u : GatewayConfigUpdate) (response : string) (fetched : QJsonObject) : QJsonObject :=
  let server := gu_serverConfig u in
  let api := sub fetched "api_config" ∪ gu_apiConfig u in
  let rev := field (jsonObject response) "config_rev" in
  let api := if nonEmpty rev then <["config_rev" := jstr rev]> api else api in
  let api := copyMembers ["user_country_code"; "service_type"; "service_protocol"; "vpn_key"]%string (gu_apiConfig u) api in
  let api := <["auth_data" := JObject (gu_authData u)]> api in
  let s := <["api_config" := JObject api]> (<["auth_data" := JObject (gu_authData u)]> fetched) in
  let s := jinsert "crc" (value server "crc") s in
  let s :=
    if toBool (value server "nameOverriddenByUser")
    then <["nameOverriddenByUser" := JBool true]> (jinsert "name" (value server "name") s)
    else jinsert "description" (value server "description") (jinsert "name" (value server "name") s) in
  if jcontains server "displayInfo" then jinsert "displayInfo" (value server "displayInfo") s else s.

Definition announceUpdate (u : GatewayConfigUpdate) : AC unit :=
  if gu_reloadServiceConfig u then acSend (reloadServerFromApiFinished (tr "API config reloaded"))
  else if nonEmpty (gu_newCountryName u)
  then acSend (changeApiCountryFinished (message "Successfully changed the country of connection to %1" (gu_newCountryName u)))
  else if gu_silent u then mret tt else acSend updateServerFromApiFinished.
Definition refuseUpdate (u : GatewayConfigUpdate) (code : Z) : AC bool :=
  (if gu_silent u then mret tt else acSend (errorOccurred code)) ;; mret false.

Definition isDialable (server : QJsonObject) : bool :=
  nonEmpty (field server "hostName") && negb (Nat.eqb (length (containersIn server)) 0).

Definition finishGatewayConfigUpdate (u : GatewayConfigUpdate) (errorCode : Z) (response : string) : PT ApiController bool := fun a =>
  let hasUsable := Model.serverHasUsableConfig (ac_servers a) (gu_serverIndex u) in
  let keepLocalQuietly := hasUsable && negb (gu_reloadServiceConfig u) && negb (nonEmpty (gu_newCountryName u)) in
  let failed code : PT ApiController bool := if keepLocalQuietly then mret true else total (refuseUpdate u code) in
  if negb (errorCode =? NoError) then failed errorCode a
  else
    (filled ← ofRes (fillServerConfig fuel genPublicKeyFromPrivate (gu_serviceProtocol u) (gu_protocolData u) response ∅);
     if negb (filled.1 =? NoError) then failed filled.1
     else
       let new := mergedServer u response filled.2 in
       if negb (isDialable new) then
         if hasUsable then mret true else total (refuseUpdate u ApiConfigDownloadError)
       else if bool_decide (new = gu_serverConfig u) then total (announceUpdate u) ;; mret true
       else
         onModelP (Model.editServer arrayOf textOfArray new (gu_serverIndex u)) ;;
         total (announceUpdate u) ;;
         mret true) a.

Definition updateServiceFromGateway (serverIndex : Z) (newCountryCode newCountryName : string) (reloadServiceConfig silent : bool)
    : PT ApiController bool :=
  u ← total (prepareGatewayConfigUpdate serverIndex newCountryCode newCountryName reloadServiceConfig silent);
  r ← total (execute "%1v1/config" (gu_apiPayload u) (gu_isTestPurchase u));
  finishGatewayConfigUpdate u r.1 r.2.

(** *** Shared connections *)

Definition shareTokenOf (v : json) : string := field (sub (Model.apiConfig (toObject (Some v))) "auth_data") "share_token".

(** The server of a share, from the answer of v1/config. *)
Definition sharedServer (auth : QJsonObject) (response serviceProtocol : string) (filled : QJsonObject) : QJsonObject :=
  let reply := jsonObject response in
  let api :=
    <["shared" := JBool true]>
    (jinsert "country_name" (value reply "country_name")
    (jinsert "country_code" (value reply "country_code")
    (<["service_protocol" := jstr serviceProtocol]>
    (<["auth_data" := JObject auth]> (sub filled "api_config"))))) in
  let s := <["api_config" := JObject api]> (<["auth_data" := JObject auth]> filled) in
  let label := field reply "share_label" in
  let host := field s "hostName" in
  let protocolName := toUpper serviceProtocol in
  let displayInfo :=
    <["connectionLabel" := jstr label]>
    (<["hostName" := jstr host]>
    (<["protocol" := jstr protocolName]>
    (<["countryName" := jstr (field reply "country_name")]>
    (<["countryCode" := jstr (toUpper (field reply "country_code"))]> ∅)))) in
  <["displayInfo" := JObject displayInfo]>
  (<["description" := jstr (protocolName +:+ " " +:+ host)]>
  (<["name" := jstr (if nonEmpty label then label else tr "Shared connection")]> s)).

(** A filter that would hide the new server is reset. *)
Definition resetFilter (key : string) : AC unit :=
  a ← get;
  let filter := variantToString (confValue (ac_settings a) key (VString "")) in
  if nonEmpty filter && negb (String.eqb filter "all") then onSettings (setValue key (VString "all")) else mret tt.

Definition reported {A} (code : Z) (x : A) : PT ApiController A := total (acSend (errorOccurred code)) ;; mret x.

Definition installed : string := "%1 installed successfully.".

Definition importSharedConnection (shareToken : string) : PT ApiController bool := fun a =>
  match list_find (fun v => shareTokenOf v = shareToken) (m_servers (ac_servers a)) with
  | Some (i, v) =>
      (total (acSend (sharedConnectionImported (message installed (field (toObject (Some v)) "name")) (Z.of_nat i))) ;; mret true) a
  | None =>
      let auth : QJsonObject := {["share_token"%string := jstr shareToken]} in
      (r ← total (request "" "" "" "" auth);
       answer ← total (execute "%1v1/config" (toJsonObject r) false);
       if negb (answer.1 =? NoError) then reported answer.1 false
       else
         let named := field (jsonObject answer.2) "service_protocol" in
         serviceProtocol ← (if nonEmpty named then mret named else ofRes (detectProtocolFromApiResponse fuel answer.2));
         if negb (nonEmpty serviceProtocol) then reported ApiConfigEmptyError false
         else
           filled ← ofRes (fillServerConfig fuel genPublicKeyFromPrivate serviceProtocol noProtocolData answer.2 ∅);
           if negb (filled.1 =? NoError) then reported filled.1 false
           else
             let server := sharedServer auth answer.2 serviceProtocol filled.2 in
             total (
               onModel (Model.addServer arrayOf textOfArray server) ;;
               resetFilter "Conf/serversEnvFilter" ;;
               resetFilter "Conf/serversSubscriptionFilter" ;;
               a ← get;
               acSend (sharedConnectionImported (message installed (field server "name")) (Model.rowCount (ac_servers a) - 1))) ;;
             mret true) a
  end.

Definition subscriptionAuth (id : string) : QJsonObject := <["id" := jstr id]> (<["api_key" := jstr id]> ∅).

Definition shareConnection (serverIndex : Z) (label : string) : AC unit :=
  a ← get;
  let server := Model.getServerConfig (ac_servers a) serverIndex in
  let api := Model.apiConfig server in
  let uuid := field api "connection_uuid" in
  let node := field api "node_id" in
  if negb (nonEmpty uuid) || negb (nonEmpty node) then acSend (errorOccurred ApiConfigEmptyError)
  else
    let auth := withApiKey (authOf server) in
    if negb (jcontains auth "api_key") then acSend (errorOccurred ApiConfigEmptyError)
    else
      r ← request (field api "user_country_code") (field api "server_country_code") (field api "service_type") (field api "service_protocol") auth;
      let payload := <["label" := jstr label]> (<["node_id" := jstr node]> (<["connection_uuid" := jstr uuid]> (toJsonObject r))) in
      answer ← execute "%1v1/share" payload (toBool (value api "is_test_purchase"));
      if negb (answer.1 =? NoError) then acSend (errorOccurred answer.1)
      else acSend (connectionShareCreated (field (jsonObject answer.2) "share_url") (field (jsonObject answer.2) "share_token")).

Definition listShares : AC unit :=
  a ← get;
  let id := resolveSubscriptionId a in
  if negb (nonEmpty id) then acSend (errorOccurred ApiConfigEmptyError)
  else
    r ← request "" "" "" "" (subscriptionAuth id);
    answer ← execute "%1v1/shares" (toJsonObject r) false;
    if negb (answer.1 =? NoError) then acSend (errorOccurred answer.1)
    else acSend (sharesListed (toArray (value (jsonObject answer.2) "shares"))).

(** What is already revoked counts as revoked. *)
Definition notFoundIsFine (code : Z) : bool := (code =? NoError) || (code =? ApiNotFoundError).
Definition revokeShare (shareToken : string) : AC unit :=
  a ← get;
  let id := resolveSubscriptionId a in
  if negb (nonEmpty id) then acSend (errorOccurred ApiConfigEmptyError)
  else
    r ← request "" "" "" "" (subscriptionAuth id);
    answer ← execute "%1v1/share/revoke" (<["share_token" := jstr shareToken]> (toJsonObject r)) false;
    if negb (notFoundIsFine answer.1) then acSend (errorOccurred answer.1) else acSend (shareRevoked shareToken).

(** *** Native configurations and devices *)

(** The processed server and its credentials at the top level. *)
Definition processedServer (a : ApiController) : QJsonObject :=
  Model.getServerConfig (ac_servers a) (m_processedServerIndex (ac_servers a)).
Definition processedRequest (server : QJsonObject) (serverCountry serviceProtocol : string) : AC GatewayRequestData :=
  let api := Model.apiConfig server in
  request (field api "user_country_code") serverCountry (field api "service_type") serviceProtocol (sub server "auth_data").
Definition isTest (server : QJsonObject) : bool := toBool (value (Model.apiConfig server) "is_test_purchase").

Definition exportNativeConfig (serverCountryCode fileName : string) : AC bool :=
  if negb (nonEmpty fileName) then acSend (errorOccurred PermissionsError) ;; mret false
  else
    a ← get;
    let server := processedServer a in
    r ← processedRequest server serverCountryCode "awg";
    data ← generateProtocolData "awg";
    answer ← execute "%1v1/native_config" (appendProtocolDataToApiPayload "awg" data (toJsonObject r)) (isTest server);
    if negb (answer.1 =? NoError) then acSend (errorOccurred answer.1) ;; mret false
    else
      acSend (saveFile fileName (replaceText keyPlaceholder (wireGuardClientPrivKey data) (field (jsonObject answer.2) "config"))) ;;
      mret true.

Definition revokeNativeConfig (serverCountryCode : string) : AC bool :=
  a ← get;
  let server := processedServer a in
  r ← processedRequest server serverCountryCode "awg";
  answer ← execute "%1v1/revoke_native_config" (toJsonObject r) (isTest server);
  if negb (notFoundIsFine answer.1) then acSend (errorOccurred answer.1) ;; mret false else mret true.

(** The row and the entry are those of the time of the call. *)
Definition dropContainers (row : Z) (server : QJsonObject) : PT ApiController unit :=
  onModelP (Model.editServer arrayOf textOfArray (delete "containers"%string server) row).

Section Devices.
Context (freeV2Endpoint premiumV1Endpoint : string).
Definition deactivateDevice : PT ApiController bool := fun a =>
  let row := m_processedServerIndex (ac_servers a) in
  let server := processedServer a in
  if negb (isPremiumServer freeV2Endpoint premiumV1Endpoint server) then Some (true, a)
  else
    (r ← total (processedRequest server (field (Model.apiConfig server) "server_country_code") "");
     answer ← total (execute "%1v1/revoke_config" (toJsonObject r) (isTest server));
     if negb (notFoundIsFine answer.1) then reported answer.1 false
     else dropContainers row server ;; mret true) a.

Definition deactivateExternalDevice (uuid serverCountryCode : string) : PT ApiController bool := fun a =>
  let row := m_processedServerIndex (ac_servers a) in
  let server := processedServer a in
  let api := Model.apiConfig server in
  if negb (isPremiumServer freeV2Endpoint premiumV1Endpoint server) then Some (true, a)
  else
    let r := mkRequest productType appVersion (languageName (ac_settings a)) uuid (field api "user_country_code") serverCountryCode
               (field api "service_type") "" (sub server "auth_data") in
    (answer ← total (execute "%1v1/revoke_config" (toJsonObject r) (isTest server));
     if negb (notFoundIsFine answer.1) then reported answer.1 false
     else
       own ← total (getInstallationUuid true);
       (if String.eqb uuid own then dropContainers row server else mret tt) ;; mret true) a.
End Devices.

(** *** Servers of the old API *)

Definition updateServiceFromTelegram (serverIndex : Z) : PT ApiController bool := fun a =>
  let server := Model.getServerConfig (ac_servers a) serverIndex in
  let serviceProtocol := field server "protocol" in
  (uuid ← total (getInstallationUuid true);
   data ← total (generateProtocolData serviceProtocol);
   let payload :=
     <["api_endpoint" := jstr (field server "api_endpoint")]>
     (<["api_key" := jstr (field server "api_key")]>
     (<["app_version" := jstr appVersion]>
     (<["os_version" := jstr productType]>
     (<["installation_uuid" := jstr uuid]> (appendProtocolDataToApiPayload serviceProtocol data ∅))))) in
   answer ← total (execute "%1v1/proxy_config" payload false);
   if negb (answer.1 =? NoError) then reported answer.1 false
   else
     filled ← ofRes (fillServerConfig fuel genPublicKeyFromPrivate serviceProtocol data answer.2 server);
     if negb (filled.1 =? NoError) then reported filled.1 false
     else
       onModelP (Model.editServer arrayOf textOfArray filled.2 serverIndex) ;;
       total (acSend updateServerFromApiFinished) ;;
       mret true) a.

(** Before a connection: an old server without containers, or with an expired
    key, is fetched again; one of the gateway only has to have a
    configuration. *)
Definition isConfigValid (isoText : Z -> string) (isoMsecs : string -> Z) (now : Z) : PT ApiController bool := fun a =>
  let row := m_defaultServerIndex (ac_servers a) in
  let server := Model.getServerConfig (ac_servers a) row in
  let source := Model.configVersion server in
  let refetch := onModelP (Model.removeApiConfig arrayOf textOfArray row) ;; updateServiceFromTelegram row in
  if (source =? 1) && negb (Model.validRow (ac_servers a) row && Model.serverHasInstalledContainers (ac_servers a) row) then refetch a
  else if source =? 2 then
    if Model.serverHasUsableConfig (ac_servers a) row then Some (true, a) else reported ApiLocalConfigMissingError false a
  else if source =? 0 then Some (true, a)
  else
    (expired ← onModelP (Model.isApiKeyExpired arrayOf textOfArray isoText isoMsecs now row);
     if expired : bool then refetch else mret true) a.

(** *** The protocol of the processed server *)

Definition setCurrentProtocol (protocolName : string) : PT ApiController unit := fun a =>
  let server := processedServer a in
  let api := <["service_protocol" := jstr protocolName]> (Model.apiConfig server) in
  onModelP (Model.editServer arrayOf textOfArray (<["api_config" := JObject api]> server) (m_processedServerIndex (ac_servers a))) a.
Definition isVlessProtocol (a : ApiController) : bool := String.eqb (field (Model.apiConfig (processedServer a)) "service_protocol") "vless".
Definition isAwgProtocol (a : ApiController) : bool :=
  String.eqb (canonicalServiceProtocol (field (Model.apiConfig (processedServer a)) "service_protocol")) "awg".

(** *** Services of the catalog *)

(** The server of a service in a country, from the answer of v1/config. *)
Definition catalogServer (service : SelectedService) (serverCountryCode : string) (auth filled : QJsonObject) : QJsonObject :=
  let api := <["service_type" := jstr (ss_type service)]> (<["user_country_code" := jstr serverCountryCode]> (sub filled "api_config")) in
  let api := if nonEmpty (field api "service_protocol") then api else <["service_protocol" := jstr (ss_protocol service)]> api in
  let api := <["auth_data" := JObject auth]> api in
  let s := <["auth_data" := JObject auth]> (<["api_config" := JObject api]> filled) in
  let host := field s "hostName" in
  let protocolName := toUpper (textOr api "service_protocol" (ss_protocol service)) in
  let displayInfo :=
    <["serviceName" := jstr (ss_name service)]>
    (<["hostName" := jstr host]>
    (<["protocol" := jstr protocolName]>
    (<["countryName" := jstr (toUpper serverCountryCode)]>
    (<["countryCode" := jstr (toUpper serverCountryCode)]> ∅)))) in
  <["displayInfo" := JObject displayInfo]>
  (<["description" := jstr (protocolName +:+ " " +:+ host)]>
  (<["name" := jstr ("reelsoprovod " +:+ toUpper serverCountryCode +:+ " " +:+ protocolName)]> s)).

Definition importServiceForCountry (service : SelectedService) (serverCountryCode : string) (data : ProtocolData)
    : PT ApiController bool :=
  a ← (fun a => Some (a, a));
  id ← (if nonEmpty (m_subscriptionId a) then mret (m_subscriptionId a) else total (getInstallationUuid true));
  let auth := subscriptionAuth id in
  r ← total (request (ss_countryCode service) serverCountryCode (ss_type service) (ss_protocol service) auth);
  a ← (fun a => Some (a, a));
  if Model.existsByService (ac_servers a) serverCountryCode (ss_type service) (ss_protocol service) id then mret true
  else
    answer ← total (execute "%1v1/config" (appendProtocolDataToApiPayload (ss_protocol service) data (toJsonObject r)) false);
    if negb (answer.1 =? NoError) then mret false
    else
      filled ← ofRes (fillServerConfig fuel genPublicKeyFromPrivate (ss_protocol service) data answer.2 ∅);
      if negb (filled.1 =? NoError) then mret false
      else total (onModel (Model.addServer arrayOf textOfArray (catalogServer service serverCountryCode auth filled.2))) ;; mret true.

(** Every country is tried. *)
Fixpoint importCountries (service : SelectedService) (countries : list json) (data : ProtocolData) (any : bool)
    : PT ApiController bool :=
  match countries with
  | [] => mret any
  | c :: rest =>
      ok ← importServiceForCountry service (field (toObject (Some c)) "country_code") data;
      importCountries service rest data (any || ok)
  end.

(** AmneziaWG is asked for in a country that has it. *)
Definition chosenCountry (service : SelectedService) (selected : string) : string :=
  let codeOf c := field (toObject (Some c)) "country_code" in
  if negb (nonEmpty selected) && String.eqb (canonicalServiceProtocol (ss_protocol service)) "awg" then
    match ss_countries service with
    | [] => selected
    | c :: _ => if existsb (fun c => String.eqb (codeOf c) (ss_countryCode service)) (ss_countries service) then selected else codeOf c
    end
  else selected.

Definition importServiceFromGateway (service : SelectedService) : PT ApiController bool :=
  data ← total (generateProtocolData (ss_protocol service));
  a ← (fun a => Some (a, a));
  ok ← (if m_importAllCountries a then importCountries service (ss_countries service) data false
        else importServiceForCountry service (chosenCountry service (m_selectedServerCountryCode a)) data);
  if ok : bool then total (acSend (installServerFromApiFinished (message installed (ss_name service)))) ;; mret true
  else reported ApiConfigEmptyError false.

(** *** What the page of a server shows *)

(** The objects of a server that may hold a protocol's configuration. *)
Definition holdsText (v : json) : bool :=
  let o := toObject (Some v) in
  negb (bool_decide (o = ∅)) && (jcontains o "last_config" || jcontains o "config").
Definition protocolConfigCandidates (containers : list json) : list QJsonObject :=
  concat (map (fun v =>
    let container := toObject (Some v) in
    if bool_decide (container = ∅) then []
    else map (fun kv => toObject (Some kv.2)) (List.filter (fun kv => holdsText kv.2) (entries container)) ++ [container]) containers).

(** The address in an INI text; a line that starts with it but has no value
    is passed over. *)
Fixpoint iniAddress (ini : list string) : string :=
  match ini with
  | [] => ""
  | line :: rest =>
      if String.prefix "Address" (trimmed line) then
        match splitText " = " (trimmed line) with
        | _ :: v :: _ => trimmed v
        | _ => iniAddress rest
        end
      else iniAddress rest
  end.
Definition clientIpFromProtocolConfig (protocolConfig : QJsonObject) : string :=
  if bool_decide (protocolConfig = ∅) then ""
  else
    let last := lastConfig protocolConfig in
    if nonEmpty (field last "client_ip") then field last "client_ip"
    else if nonEmpty (field protocolConfig "client_ip") then field protocolConfig "client_ip"
    else
      let ini := field last "config" in
      iniAddress (split newline (if nonEmpty ini then ini else field protocolConfig "config")).

Definition firstNonEmpty (l : list string) : string := default ""%string (head (List.filter nonEmpty l)).
Definition getCurrentServerClientIp (a : ApiController) : string :=
  firstNonEmpty (map clientIpFromProtocolConfig (protocolConfigCandidates (containersIn (processedServer a)))).
Definition getCurrentServerMtu (a : ApiController) : string :=
  firstNonEmpty (concat (map (fun o => [field (lastConfig o) "mtu"; field o "mtu"])
    (protocolConfigCandidates (containersIn (processedServer a))))).
Definition getCurrentServerDns (a : ApiController) : string :=
  join ", " (List.filter nonEmpty [field (processedServer a) "dns1"; field (processedServer a) "dns2"]).

(** The INI text that is shown: the stored one, or one built from
    [last_config]. *)
Definition shownPort (container : DockerContainer) (protocolConfig last : QJsonObject) : string :=
  let port := field protocolConfig "port" in
  let port := if nonEmpty port then port else field last "port" in
  if nonEmpty port then port else if isAwgContainer container then awgDefaultPort else "51820".
Definition shownIni (container : DockerContainer) (server protocolConfig last : QJsonObject) : string :=
  let host := field server "hostName" in
  join nl (
    ["[Interface]"%string; iniLine "PrivateKey" (field last "client_priv_key"); iniLine "Address" (field last "client_ip");
     iniLine "MTU" (field last "mtu"); iniLine "DNS" (field server "dns1")]
    ++ (if isAwgContainer container then junkLines last else [])
    ++ [""%string; "[Peer]"%string; iniLine "PublicKey" (field last "server_pub_key")]
    ++ iniLineIf "PresharedKey" (field last "psk_key")
    ++ [iniLine "Endpoint" ((if nonEmpty host then host else field last "hostName") +:+ ":" +:+ shownPort container protocolConfig last);
        "AllowedIPs = 0.0.0.0/0"%string;
        iniLine "PersistentKeepalive" (textOr last "persistent_keep_alive" "25")]).
Definition getCurrentServerConfigIni (a : ApiController) : string :=
  let server := processedServer a in
  match containersIn server with
  | [] => ""
  | v :: _ =>
      let container := toObject (Some v) in
      let protocolConfig := sub container (field container "container") in
      let ini := field protocolConfig "config" in
      if nonEmpty ini && hasValidPrivateKey ini then ini
      else if bool_decide (lastConfig protocolConfig = ∅) then ""
      else shownIni (containerFromString (field container "container")) server protocolConfig (lastConfig protocolConfig)
  end.
End Api.
