(* ===== verification/Subscription.v ===== *)
(** * Subscriptions:
      [client/ui/controllers/api/apiConfigsController.cpp] (the feed)

    A subscription is a list of connections the gateway describes; its servers
    are fetched one by one, at most four requests at a time, and the ones
    whose revision did not change are taken from the stored servers.  A reload
    goes through all subscriptions in turn, removes what disappeared, installs
    what came, and restores the selection and the filters.  The answers can
    come in any order, and a request that could not be prepared is answered
    while the loop that sends them is running. *)

From Stdlib Require Import ZArith Lia Bool String Ascii.
From stdpp Require Import base gmap strings list pretty.
From S2P Require Import Prelude.
From S2P Require Import Qt.
From S2P Require Import Settings.
From S2P Require Import Containers.
From S2P Require Import ServerStore.
From S2P Require Import Servers.
From S2P Require Import VpnConfiguration.
From S2P Require Import ShareLinks.
From S2P Require Import Import.
From S2P Require Import WgProbe.
From S2P Require Import ApiConfig.

Open Scope Z_scope.

(** ** Whose a server is *)

Definition isFrknSubscriptionServer (server : QJsonObject) : bool :=
  let version := Model.configVersion server in
  let api := Model.apiConfig server in
  ((version =? 0) || (version =? 2))
  && nonEmpty (field api "connection_uuid")
  && negb (toBool (value api "shared"))
  && negb (jcontains (sub api "auth_data") "share_token")
  && negb (jcontains (sub server "auth_data") "share_token").

Definition subscriptionIdForServer (server : QJsonObject) : string :=
  if isFrknSubscriptionServer server then authIdOf (authDataOf server) else "".

(** The connection and the node a server stands for. *)
Definition nodeKey (uuid node : string) : string := uuid +:+ "|" +:+ node.
Definition uuidOf (server : QJsonObject) : string := field (Model.apiConfig server) "connection_uuid".
Definition nodeOf (server : QJsonObject) : string := field (Model.apiConfig server) "node_id".
Definition keyOf (server : QJsonObject) : string := nodeKey (uuidOf server) (nodeOf server).

(** ** The order of a feed *)

(** The label two configurations can share. *)
Definition labelKey (config : QJsonObject) : string :=
  let info := Model.displayInfo config in
  field info "connectionLabel" +:+ "|" +:+ field info "countryCode" +:+ "|" +:+ field info "protocol".
Definition countOf (key : string) (l : list json) : Z :=
  Z.of_nat (length (List.filter (fun v => String.eqb (labelKey (toObject (Some v))) key) l)).

(** A configuration with its number among those of the same label. *)
Definition indexedConfig (index : Z) (config : QJsonObject) : QJsonObject :=
  let info := <["displayIndex" := jint index]> (Model.displayInfo config) in
  let name := field config "name" in
  let name := if index >? 0 then name +:+ " #" +:+ pretty index else name in
  <["displayInfo" := JObject info]> (<["name" := jstr name]> config).
Fixpoint indexConfigs (all seen rest : list json) : list json :=
  match rest with
  | [] => []
  | v :: rest' =>
      let key := labelKey (toObject (Some v)) in
      let index := if countOf key all >? 1 then countOf key seen + 1 else 0 in
      JObject (indexedConfig index (toObject (Some v))) :: indexConfigs all (seen ++ [v]) rest'
  end.

Definition protocolRank (config : QJsonObject) : Z :=
  let raw := field (Model.apiConfig config) "service_protocol" in
  let protocol := canonicalServiceProtocol raw in
  if sameText raw "AmneziaWgMobile" then 0
  else if String.eqb protocol "awg" then 1
  else if String.eqb protocol "hysteria2" then 2
  else if String.eqb protocol "vless" then 3
  else if String.eqb protocol "wireguard" then 4
  else 5.
Definition rankOf (v : json) : Z := protocolRank (toObject (Some v)).

(** [std::stable_sort] by a key. *)
Fixpoint stableInsert {A} (rank : A -> Z) (x : A) (l : list A) : list A :=
  match l with
  | [] => [x]
  | y :: l' => if rank y <? rank x then y :: stableInsert rank x l' else x :: l
  end.
Definition stableSort {A} (rank : A -> Z) (l : list A) : list A := foldr (stableInsert rank) [] l.

Definition applyDisplayIndexAndSort (configs : list json) : list json := stableSort rankOf (indexConfigs configs [] configs).

(** ** The feed of one subscription *)

Record ConfigWorkItem : Type := mkItem { serviceObject : QJsonObject; connectionObject : QJsonObject }.

(** One item for every connection of a service, or every country, or one. *)
Definition connectionsOf (userCountryCode : string) (service : QJsonObject) : list json :=
  match toArray (value service "connections") with
  | [] =>
      match toArray (value service "available_countries") with
      | [] => [JObject (<["connection_label" := jstr ""]> (<["connection_uuid" := jstr ""]> (<["country_code" := jstr userCountryCode]> ∅)))]
      | countries => map (fun c => JObject (toObject (Some c))) countries
      end
  | connections => connections
  end.
Definition workItemsOf (userCountryCode : string) (services : list json) : list ConfigWorkItem :=
  concat (map (fun s => let service := toObject (Some s) in
    map (fun c => mkItem service (toObject (Some c))) (connectionsOf userCountryCode service)) services).

(** The stored servers of the subscription, by their keys; the first one counts. *)
Definition storedByKey (subscriptionId : string) (shared : bool) (servers : list json) : gmap string QJsonObject :=
  fold_left (fun stored v =>
      let server := toObject (Some v) in
      if shared || negb (String.eqb (subscriptionIdForServer server) subscriptionId) then stored
      else if negb (nonEmpty (uuidOf server)) then stored
      else match stored !! keyOf server with Some _ => stored | None => <[keyOf server := server]> stored end)
    servers ∅.

Record ConfigSlot : Type := mkSlot { slot_ok : bool; slot_config : QJsonObject }.
Definition emptySlot : ConfigSlot := mkSlot false ∅.

Record Feed : Type := mkFeed {
  fd_id : string;
  fd_auth : QJsonObject;
  fd_userCountryCode : string;
  workItems : list ConfigWorkItem;
  configSlots : list ConfigSlot;
  fd_pending : Z;
  inFlight : Z;
  nextIndex : nat;
  pumping : bool;
  feedFinished : bool;
  anySuccess : bool;
  outFailures : list string;
  fd_open : list (nat * ProtocolData);   (** requests that were not answered yet *)
  fd_result : list (bool * list json * list string)     (** the calls of the callback *)
}.

Definition setFlight (slots : list ConfigSlot) (pending flight : Z) (next : nat) (any : bool) (failures : list string)
    (open : list (nat * ProtocolData)) (f : Feed) : Feed :=
  mkFeed (fd_id f) (fd_auth f) (fd_userCountryCode f) (workItems f) slots pending flight next (pumping f) (feedFinished f) any
    failures open (fd_result f).
Definition setPumping (b : bool) (f : Feed) : Feed :=
  mkFeed (fd_id f) (fd_auth f) (fd_userCountryCode f) (workItems f) (configSlots f) (fd_pending f) (inFlight f) (nextIndex f) b
    (feedFinished f) (anySuccess f) (outFailures f) (fd_open f) (fd_result f).
Definition setFinished (result : bool * list json * list string) (f : Feed) : Feed :=
  mkFeed (fd_id f) (fd_auth f) (fd_userCountryCode f) (workItems f) (configSlots f) (fd_pending f) (inFlight f) (nextIndex f) (pumping f)
    true (anySuccess f) (outFailures f) (fd_open f) (fd_result f ++ [result]).

Definition kFetchConcurrency : Z := 4.

Section Subscriptions.
Context `{Qt} `{QtImport} {Z_stream} `{Zlib Z_stream} `{OpenSSL} `{ApiEnv}.
Context (arrayOf : string -> list json) (textOfArray : list json -> string) (language : Settings -> Language) (fuel : nat).
(** A request that cannot be prepared is answered at once with this error. *)
Context (prepare : QJsonObject -> Z).

(** The text in front of the separator " · " and after it. *)
Definition removeJoiner (s : string) : string :=
  replaceText "<200d>" "" (replaceText (String (Ascii.ascii_of_nat 226) (String (Ascii.ascii_of_nat 128) (String (Ascii.ascii_of_nat 141) ""))) "" s).
Definition labelParts (label : string) : string * string :=
  match splitText " · " label with
  | name :: rest => if nonEmpty name && negb (Nat.eqb (length rest) 0) then (name, join " · " rest) else (label, ""%string)
  | [] => (label, ""%string)
  end.

Definition feedAuth (subscriptionId : string) (shared : bool) : QJsonObject :=
  if shared then {["share_token"%string := jstr subscriptionId]} else subscriptionAuth subscriptionId.

(** The entry of a server with what the feed says about its connection. *)
Definition decoratedApi (auth : QJsonObject) (item : ConfigWorkItem) (configRev : string) (serverConfig : QJsonObject) : QJsonObject :=
  let conn := connectionObject item in
  let api := <["service_type" := jstr (field (serviceObject item) "service_type")]>
    (<["user_country_code" := jstr (field conn "country_code")]> (sub serverConfig "api_config")) in
  let raw := field conn "service_protocol" in
  let api :=
    if nonEmpty raw then <["service_protocol" := jstr raw]> api
    else if nonEmpty (field api "service_protocol") then api
    else <["service_protocol" := jstr (field (serviceObject item) "service_protocol")]> api in
  let api :=
    <["node_id" := jstr (field conn "node_id")]>
    (<["connection_uuid" := jstr (field conn "connection_uuid")]>
    (<["auth_data" := JObject auth]>
    (<["env" := jstr (field conn "env")]> api))) in
  if nonEmpty configRev then <["config_rev" := jstr configRev]> api else api.

Definition protocolVariant (item : ConfigWorkItem) : string :=
  let raw := field (connectionObject item) "service_protocol" in
  if sameText raw (canonicalServiceProtocol raw) then "" else serviceProtocolDisplayName raw.

Definition decorate (lang : Language) (auth : QJsonObject) (item : ConfigWorkItem) (configRev : string) (serverConfig : QJsonObject)
    : QJsonObject :=
  let conn := connectionObject item in
  let api := decoratedApi auth item configRev serverConfig in
  let s := <["auth_data" := JObject auth]> (<["api_config" := JObject api]> (<["auth_data" := JObject auth]> serverConfig)) in
  let country := toUpper (field conn "country_code") in
  let host := field s "hostName" in
  let protocolName := toUpper (textOr api "service_protocol" (field (serviceObject item) "service_protocol")) in
  let variant := protocolVariant item in
  let label := removeJoiner (field conn "connection_label") in
  let '(name, details) := labelParts label in
  let name := if nonEmpty name then name else "reelsoprovod " +:+ country +:+ " " +:+ protocolName in
  let pool := field conn "pool" in
  let translation := sub conn "pool_translation" in
  let poolName := localizedPoolName pool translation lang in
  let name := if nonEmpty poolName then poolName else name in
  let shown := if nonEmpty variant then variant else protocolName in
  let details := if nonEmpty details && negb (nonEmpty variant) then details else shown in
  let info :=
    <["poolTranslation" := JObject translation]> (<["pool" := jstr pool]>
    (<["connectionLabel" := jstr label]> (<["connectionUuid" := jstr (field conn "connection_uuid")]>
    (<["serviceName" := jstr (field (sub (serviceObject item) "service_info") "name")]>
    (<["hostName" := jstr host]> (<["protocol" := jstr shown]>
    (<["countryName" := jstr country]> (<["countryCode" := jstr country]> ∅)))))))) in
  <["displayInfo" := JObject info]>
  (<["description" := jstr (details +:+ " · " +:+ host)]>
  (<["name" := jstr name]> s)).

Definition itemKey (item : ConfigWorkItem) : string :=
  nodeKey (field (connectionObject item) "connection_uuid") (field (connectionObject item) "node_id").

(** A stored server is taken as it is when its revision is the announced one. *)
Definition reusable (stored : gmap string QJsonObject) (item : ConfigWorkItem) : option QJsonObject :=
  let server := default ∅ (stored !! itemKey item) in
  let rev := field (connectionObject item) "config_rev" in
  if isDialable server && nonEmpty (field (connectionObject item) "connection_uuid") && nonEmpty rev
     && String.eqb rev (field (Model.apiConfig server) "config_rev")
  then Some server else None.
Definition firstSlot (lang : Language) (auth : QJsonObject) (stored : gmap string QJsonObject) (item : ConfigWorkItem) : ConfigSlot :=
  match reusable stored item with
  | Some server => mkSlot true (decorate lang auth item (field (connectionObject item) "config_rev") server)
  | None => emptySlot
  end.

(** The payload of the request of an item. *)
Definition configPayload (r : GatewayRequestData) (item : ConfigWorkItem) (data : ProtocolData) : QJsonObject :=
  let conn := connectionObject item in
  appendProtocolDataToApiPayload (field (serviceObject item) "service_protocol") data
    (putText "node_id" (field conn "node_id") (putText "connection_id" (field conn "connection_uuid") (toJsonObject r))).

(** *** An answer *)

Definition noteFailure (item : ConfigWorkItem) (failures : list string) : list string :=
  if nonEmpty (field (connectionObject item) "connection_uuid") && negb (bool_decide (itemKey item ∈ failures))
  then failures ++ [itemKey item] else failures.

(** [None]: the unpacking does not return. *)
Definition fillSlot (lang : Language) (auth : QJsonObject) (item : ConfigWorkItem) (data : ProtocolData) (errorCode : Z) (response : string)
    : option (option QJsonObject) :=
  if negb (errorCode =? NoError) then Some None
  else match fillServerConfig fuel genPublicKeyFromPrivate (field (serviceObject item) "service_protocol") data response ∅ with
       | Val (code, filled) =>
           if negb (code =? NoError) then Some None
           else
             let rev := field (jsonObject response) "config_rev" in
             Some (Some (decorate lang auth item (if nonEmpty rev then rev else field (connectionObject item) "config_rev") filled))
       | _ => None
       end.

Definition dropOpen (index : nat) (open : list (nat * ProtocolData)) : list (nat * ProtocolData) :=
  List.filter (fun x => negb (Nat.eqb x.1 index)) open.
Definition recordAnswer (lang : Language) (index : nat) (data : ProtocolData) (errorCode : Z) (response : string) (f : Feed) : option Feed :=
  match workItems f !! index with
  | None => None
  | Some item =>
      outcome ← fillSlot lang (fd_auth f) item data errorCode response;
      Some (match outcome with
            | Some server =>
                setFlight (<[index := mkSlot true server]> (configSlots f)) (fd_pending f - 1) (inFlight f - 1) (nextIndex f) true
                  (outFailures f) (dropOpen index (fd_open f)) f
            | None =>
                setFlight (configSlots f) (fd_pending f - 1) (inFlight f - 1) (nextIndex f) (anySuccess f)
                  (noteFailure item (outFailures f)) (dropOpen index (fd_open f)) f
            end)
  end.

(** *** The loop that sends the requests *)

(** The state of the controller and the feed it runs. *)
Definition PF (A : Type) : Type := PT (ApiController * Feed) A.
Definition onController {A} (k : AC A) : PF A := fun s => let '(x, a) := k s.1 in Some (x, (a, s.2)).
Definition onFeed (k : Feed -> Feed) : PF unit := fun s => Some (tt, (s.1, k s.2)).
Definition onFeedP (k : Feed -> option Feed) : PF unit := fun s => f ← k s.2; Some (tt, (s.1, f)).

(** A request that could not be prepared is answered before [execute] returns. *)
Definition answerAtOnce (index : nat) (data : ProtocolData) (payload : QJsonObject) : PF unit := fun s =>
  if prepare payload =? NoError then Some (tt, s)
  else onFeedP (recordAnswer (language (ac_settings s.1)) index data (prepare payload) "") s.

Definition itemRequest (f : Feed) (item : ConfigWorkItem) : AC GatewayRequestData :=
  request (fd_userCountryCode f) (field (connectionObject item) "country_code") (field (serviceObject item) "service_type")
    (field (serviceObject item) "service_protocol") (fd_auth f).

Definition openRequest (index : nat) (data : ProtocolData) (f : Feed) : Feed :=
  setFlight (configSlots f) (fd_pending f) (inFlight f) (nextIndex f) (anySuccess f) (outFailures f) (fd_open f ++ [(index, data)]) f.
Definition countFlight (f : Feed) : Feed :=
  setFlight (configSlots f) (fd_pending f) (inFlight f + 1) (nextIndex f) (anySuccess f) (outFailures f) (fd_open f) f.
Definition takeNext (f : Feed) : Feed :=
  setFlight (configSlots f) (fd_pending f) (inFlight f) (S (nextIndex f)) (anySuccess f) (outFailures f) (fd_open f) f.

Definition sendItem (index : nat) (item : ConfigWorkItem) : PF unit :=
  onFeed countFlight ;;
  data ← onController (generateProtocolData (field (serviceObject item) "service_protocol"));
  r ← (fun s => onController (itemRequest s.2 item) s) : PF GatewayRequestData;
  onController (acSend (postConfig index (configPayload r item data))) ;;
  onFeed (openRequest index data) ;;
  answerAtOnce index data (configPayload r item data).

(** The answers inside the loop find [pumping] set, so their pump returns. *)
Fixpoint pumpLoop (rounds : nat) : PF unit := fun s =>
  match rounds with
  | O => Some (tt, s)
  | S rounds' =>
      let f := s.2 in
      match (if inFlight f <? kFetchConcurrency then workItems f !! nextIndex f else None) with
      | None => Some (tt, s)
      | Some item =>
          (onFeed takeNext ;;
           (if slot_ok (default emptySlot (configSlots f !! nextIndex f)) then mret tt else sendItem (nextIndex f) item) ;;
           pumpLoop rounds') s
      end
  end.

Definition readyConfigs (f : Feed) : list json :=
  map (fun slot => JObject (slot_config slot)) (List.filter slot_ok (configSlots f)).
(** Enough rounds for the items that are left. *)
Definition pump : PF unit := fun s =>
  if pumping s.2 || feedFinished s.2 then Some (tt, s)
  else
    (onFeed (setPumping true) ;;
     pumpLoop (length (workItems s.2) - nextIndex s.2) ;;
     onFeed (setPumping false) ;;
     onFeed (fun f =>
       if negb (feedFinished f) && (fd_pending f =? 0) && (inFlight f =? 0)
       then setFinished (anySuccess f, readyConfigs f, outFailures f) f else f)) s.

(** An answer of the network. *)
Definition onConfigReply (index : nat) (errorCode : Z) (response : string) : PF unit := fun s =>
  match list_find (fun x => x.1 = index) (fd_open s.2) with
  | None => Some (tt, s)
  | Some (_, (_, data)) =>
      (onFeedP (recordAnswer (language (ac_settings s.1)) index data errorCode response) ;; pump) s
  end.

(** *** The start of a feed *)

Definition servicesPayload (s : Settings) (auth : QJsonObject) : QJsonObject :=
  <["auth_data" := JObject auth]> (<["app_language" := jstr (languageName s)]> (<["os_version" := jstr productType]> ∅)).

Definition newFeed (subscriptionId : string) (shared : bool) (lang : Language) (servers services : list json) (userCountryCode : string) : Feed :=
  let auth := feedAuth subscriptionId shared in
  let items := workItemsOf userCountryCode services in
  let slots := map (firstSlot lang auth (storedByKey subscriptionId shared servers)) items in
  let waiting := Z.of_nat (length (List.filter (fun slot => negb (slot_ok slot)) slots)) in
  mkFeed subscriptionId auth userCountryCode items slots waiting 0 0 false false (existsb slot_ok slots) [] [] [].

(** The request for the services. *)
Definition fetchSubscriptionFeed (subscriptionId : string) (shared : bool) : AC unit :=
  a ← get; acSend (postServices subscriptionId (servicesPayload (ac_settings a) (feedAuth subscriptionId shared))).

(** Its answer: a failure is the result at once, or the loop starts. *)
Definition onServices (subscriptionId : string) (shared reportErrors : bool) (errorCode : Z) (response : string)
    : PT ApiController (option Feed) := fun a =>
  let failed code : PT ApiController (option Feed) := total (if reportErrors then acSend (errorOccurred code) else mret tt) ;; mret None in
  if negb (errorCode =? NoError) then failed errorCode a
  else
    let data := jsonObject response in
    match toArray (value data "services") with
    | [] => failed ApiConfigEmptyError a
    | services =>
        let feed := newFeed subscriptionId shared (language (ac_settings a)) (m_servers (ac_servers a)) services (field data "user_country_code") in
        match pump (a, feed) with
        | Some (_, (a, feed)) => Some (Some feed, a)
        | None => None
        end
    end.

(** *** Installing *)

Definition installAuth (config : QJsonObject) : QJsonObject := withApiKey (authDataOf config).
Definition configToInstall (config : QJsonObject) : QJsonObject :=
  let auth := installAuth config in
  <["api_config" := JObject (<["auth_data" := JObject auth]> (Model.apiConfig config))]> (<["auth_data" := JObject auth]> config).

(** A stored server with a new configuration. *)
Definition refreshedServer (new existing : QJsonObject) : QJsonObject :=
  let copy k o := jinsert k (value new k) o in
  let e := copy "displayInfo"%string (copy "auth_data"%string (copy "api_config"%string (copy "containers"%string
    (copy "dns2"%string (copy "dns1"%string (copy "hostName"%string existing)))))) in
  let e := if jcontains new "node_ips" then copy "node_ips"%string e else delete "node_ips"%string e in
  let e := putText "description" (field new "description") e in
  if negb (toBool (value e "nameOverriddenByUser")) && nonEmpty (field new "name") then <["name" := jstr (field new "name")]> e else e.

(** The first stored server of the same subscription, connection and node. *)
Definition sameConnection (subscriptionId uuid node : string) (v : json) : bool :=
  let server := toObject (Some v) in
  String.eqb (subscriptionIdForServer server) subscriptionId && String.eqb (uuidOf server) uuid && String.eqb (nodeOf server) node.
Definition matchingRow (config : QJsonObject) (servers : list json) : option nat :=
  if nonEmpty (uuidOf config)
  then fst <$> list_find (fun v => sameConnection (subscriptionIdForServer config) (uuidOf config) (nodeOf config) v = true) servers
  else None.

Definition installSubscriptionConfigObject (config : QJsonObject) : PT ApiController bool := fun a =>
  let new := configToInstall config in
  let m := ac_servers a in
  match matchingRow config (m_servers m) with
  | Some i =>
      (onModelP (Model.editServer arrayOf textOfArray (refreshedServer new (Model.getServerConfig m (Z.of_nat i))) (Z.of_nat i)) ;; mret true) a
  | None =>
      (total (onModel (Model.addServer arrayOf textOfArray new)) ;;
       total (gets (fun a' => Model.rowCount (ac_servers a') >? Model.rowCount m))) a
  end.

Fixpoint installAll (configs : list json) (count : Z) : PT ApiController Z :=
  match configs with
  | [] => mret count
  | c :: rest => ok ← installSubscriptionConfigObject (toObject (Some c)); installAll rest (if ok : bool then count + 1 else count)
  end.

Definition installSubscriptionConfig (index : Z) : PT ApiController bool := fun a =>
  match jat (ac_subscriptionConfigs a) index with
  | None => Some (false, a)
  | Some c => installSubscriptionConfigObject (toObject (Some c)) a
  end.
Definition installAllSubscriptionConfigs : PT ApiController Z := fun a => installAll (ac_subscriptionConfigs a) 0 a.

(** *** One subscription *)

(** The rows of the subscription that are neither fresh nor failed, from the
    last one down. *)
Definition disappeared (subscriptionId : string) (fresh failures : list string) (server : QJsonObject) : bool :=
  String.eqb (subscriptionIdForServer server) subscriptionId && nonEmpty (uuidOf server)
  && negb (bool_decide (keyOf server ∈ fresh)) && negb (bool_decide (keyOf server ∈ failures)).
Fixpoint removeRows (rows : nat) (subscriptionId : string) (fresh failures : list string) : AC unit :=
  match rows with
  | O => mret tt
  | S i =>
      (a ← get;
       if disappeared subscriptionId fresh failures (Model.getServerConfig (ac_servers a) (Z.of_nat i))
       then onModel (Model.removeServer arrayOf textOfArray (Z.of_nat i)) else mret tt) ;;
      removeRows i subscriptionId fresh failures
  end.

Definition keysOf (configs : list json) : list string := map (fun v => keyOf (toObject (Some v))) configs.
Definition reconcileSubscription (subscriptionId : string) (configs : list json) (failures : list string) : PT ApiController unit := fun a =>
  let finalized := applyDisplayIndexAndSort configs in
  (total (removeRows (length (m_servers (ac_servers a))) subscriptionId (keysOf finalized) failures) ;;
   installAll finalized 0 ;;
   mret tt) a.

(** *** The feed the user asked for *)

Definition fetchSubscriptionConfigs (subscriptionId : string) (shared : bool) : AC unit :=
  setFeed [] [] ;; acSend subscriptionConfigsChanged ;; fetchSubscriptionFeed subscriptionId shared.

Definition finalizeSubscriptionConfigs : AC unit :=
  a ← get;
  setFeed (applyDisplayIndexAndSort (ac_subscriptionConfigs a)) (m_subscriptionConfigFailures a) ;;
  acSend subscriptionConfigsChanged.
(** Its result. *)
Definition onFetched (result : bool * list json * list string) : AC unit :=
  let '(success, configs, failures) := result in
  setFeed configs failures ;; finalizeSubscriptionConfigs ;; acSend (fetchSubscriptionConfigsFinished success).

(** *** The reload of all subscriptions *)

Definition addId (ids : list string) (id : string) : list string :=
  if nonEmpty id && negb (bool_decide (id ∈ ids)) then ids ++ [id] else ids.
Definition collectSubscriptionIds (a : ApiController) : list string :=
  fold_left addId (map (fun v => subscriptionIdForServer (toObject (Some v))) (m_servers (ac_servers a))) (addId [] (m_subscriptionId a)).

(** What a running reload still has to do. *)
Record Reload : Type := mkReload { remaining : list string; anyFetched : bool; prevConnectionUuid : string; prevNodeId : string }.

(** The row of the selection, or the first one. *)
Definition restoredIndex (r : Reload) (servers : list json) : Z :=
  match (if nonEmpty (prevConnectionUuid r)
         then list_find (fun v => uuidOf (toObject (Some v)) = prevConnectionUuid r /\ nodeOf (toObject (Some v)) = prevNodeId r) servers
         else None) with
  | Some (i, _) => Z.of_nat i
  | None => if Nat.eqb (length servers) 0 then -1 else 0
  end.

Definition chosenEnv (envs : list string) : string :=
  if bool_decide ("premium"%string ∈ envs) then "premium" else if bool_decide ("private"%string ∈ envs) then "private" else "".
Definition chosenProto (protos : list string) : string :=
  if bool_decide ("awg-mobile"%string ∈ protos) then "awg-mobile"
  else if bool_decide ("amneziawgmobile"%string ∈ protos) then "amneziawgmobile"
  else if bool_decide ("awg"%string ∈ protos) then "awg"
  else default "awg-mobile"%string (head protos).

Definition finishReload (r : Reload) : AC unit :=
  (a ← get;
   let i := restoredIndex r (m_servers (ac_servers a)) in
   if i >=? 0 then onModel (Model.setDefaultServerIndex i) else mret tt) ;;
  (a ← get;
   let env := chosenEnv (m_availableEnvs (ac_servers a)) in
   onSettings (setValue "Conf/serversEnvFilter" (VString (if nonEmpty env then env else "all"))) ;;
   onSettings (setValue "Conf/serversProtocolFilter" (VString (chosenProto (Model.availableProtocolsForEnv (ac_servers a) env))))) ;;
  (a ← get;
   if nonEmpty (m_pendingCatalogVersion a) then
     onSettings (setValue "Conf/lastCatalogVersion" (VString (m_pendingCatalogVersion a))) ;;
     setReload (m_subscriptionReloadRunning a) (m_subscriptionReloadNotify a) ""
   else mret tt) ;;
  a ← get;
  setReload false false (m_pendingCatalogVersion a) ;;
  if anyFetched r then
    onSettings (setValue "Conf/absentSubscriptionNodes" (VMap [])) ;; acSend (reloadSubscriptionConfigsFinished true)
  else if m_subscriptionReloadNotify a then acSend (reloadSubscriptionConfigsFinished false)
  else mret tt.

(** One step: the end, or the feed of the next subscription, whose id is the
    result. *)
Definition reloadStep (r : Reload) : AC (option (string * Reload)) :=
  match remaining r with
  | [] => finishReload r ;; mret None
  | id :: rest =>
      fetchSubscriptionFeed id false ;;
      mret (Some (id, mkReload rest (anyFetched r) (prevConnectionUuid r) (prevNodeId r)))
  end.

(** The result of that feed. *)
Definition onReloaded (id : string) (r : Reload) (result : bool * list json * list string) : PT ApiController (option (string * Reload)) :=
  let '(success, configs, failures) := result in
  (if success : bool then reconcileSubscription id configs failures else mret tt) ;;
  total (reloadStep (mkReload (remaining r) (anyFetched r || success) (prevConnectionUuid r) (prevNodeId r))).

Definition reloadSubscriptionConfigs (silent : bool) : AC (option (string * Reload)) :=
  a ← get;
  if m_subscriptionReloadRunning a then
    (if silent then mret tt else setReload true true (m_pendingCatalogVersion a)) ;; mret None
  else
    match collectSubscriptionIds a with
    | [] => (if silent then mret tt else acSend (reloadSubscriptionConfigsFinished false)) ;; mret None
    | ids =>
        setReload true (negb silent) (m_pendingCatalogVersion a) ;;
        let m := ac_servers a in
        let prev := if Model.validRow m (m_defaultServerIndex m) then Model.getServerConfig m (m_defaultServerIndex m) else ∅ in
        reloadStep (mkReload ids false (uuidOf prev) (nodeOf prev))
    end.

(** *** When a reload is due *)

Definition refreshSubscriptionConfigs : AC (option (string * Reload)) :=
  a ← get;
  let now := nowSecs (ac_settings a) in
  if now - variantToInt (confValue (ac_settings a) "Conf/lastSubscriptionRefresh" (VInt 0)) <? 3 * 60 * 60 then mret None
  else if negb (nonEmpty (resolveSubscriptionId a)) then mret None
  else onSettings (setValue "Conf/lastSubscriptionRefresh" (VInt now)) ;; reloadSubscriptionConfigs true.

Definition checkCatalogVersion : AC unit :=
  a ← get;
  if variantToBool (confValue (ac_settings a) "Conf/autoServerListUpdate" (VBool true)) && nonEmpty (resolveSubscriptionId a)
  then acSend getCatalogVersion else mret tt.
(** The answer, [None] for an error. *)
Definition onCatalogVersion (reply : option string) : AC (option (string * Reload)) :=
  match reply with
  | None => mret None
  | Some text =>
      let version := field (sub (jsonObject text) "response") "version" in
      a ← get;
      let known := variantToString (confValue (ac_settings a) "Conf/lastCatalogVersion" (VString "")) in
      if negb (nonEmpty version) then mret None
      else if negb (nonEmpty known) then onSettings (setValue "Conf/lastCatalogVersion" (VString version)) ;; mret None
      else if String.eqb version known then mret None
      else
        setReload (m_subscriptionReloadRunning a) (m_subscriptionReloadNotify a) version ;;
        reloadSubscriptionConfigs true
  end.
End Subscriptions.
