(* ===== verification/SubscriptionProofs.v ===== *)
(** * What the feed of a subscription guarantees

    The order its configurations are shown in; that every order of the answers
    gives the same result, reported once. *)

From Stdlib Require Import ZArith Lia Bool String Ascii Sorting.Sorted.
From stdpp Require Import base gmap strings list pretty.
From S2P Require Import Prelude.
From S2P Require Import Qt.
From S2P Require Import Settings.
From S2P Require Import Containers.
From S2P Require Import ServerStore.
From S2P Require Import Servers.
From S2P Require Import ServersProofs.
From S2P Require Import VpnConfiguration.
From S2P Require Import ShareLinks.
From S2P Require Import Import.
From S2P Require Import WgProbe.
From S2P Require Import ApiConfig.
From S2P Require Import Subscription.

Open Scope Z_scope.

(** ** The order of the configurations *)

Section StableSort.
Context {A : Type} (rank : A -> Z).

Lemma stableInsert_perm x l : stableInsert rank x l ≡ₚ x :: l.
Proof. induction l as [| y l IH]; simpl; [done |]. destruct (rank y <? rank x); [| done]. rewrite IH. apply Permutation_swap. Qed.

Lemma stableSort_perm l : stableSort rank l ≡ₚ l.
Proof. induction l as [| x l IH]; [done |]. unfold stableSort in *. simpl. by rewrite stableInsert_perm, IH. Qed.

Lemma stableInsert_sorted x l :
  StronglySorted (fun a b => rank a <= rank b) l -> StronglySorted (fun a b => rank a <= rank b) (stableInsert rank x l).
Proof.
  induction 1 as [| y l Hl IH Hy]; simpl; [by repeat constructor |]. destruct (rank y <? rank x) eqn:E; zbool.
  - constructor; [done |]. rewrite stableInsert_perm. constructor; [lia | done].
  - constructor; [by constructor |]. constructor; [lia |]. eapply Forall_impl; [exact Hy |]. simpl. intros. lia.
Qed.

Lemma stableSort_sorted l : StronglySorted (fun a b => rank a <= rank b) (stableSort rank l).
Proof. induction l; [constructor | by apply stableInsert_sorted]. Qed.

(** Elements of the same rank stay in their order. *)
Lemma stableInsert_same k x l :
  List.filter (fun y => rank y =? k) (stableInsert rank x l) = List.filter (fun y => rank y =? k) (x :: l).
Proof.
  induction l as [| y l IH]; [done |]. cbn [stableInsert]. destruct (rank y <? rank x) eqn:E; [| done].
  cbn [List.filter] in *. rewrite IH. zbool. destruct (rank y =? k) eqn:Ey, (rank x =? k) eqn:Ex; zbool; try done. lia.
Qed.

Lemma stableSort_same k l : List.filter (fun y => rank y =? k) (stableSort rank l) = List.filter (fun y => rank y =? k) l.
Proof.
  induction l as [| x l IH]; [done |]. change (stableSort rank (x :: l)) with (stableInsert rank x (stableSort rank l)).
  rewrite stableInsert_same. cbn [List.filter]. by rewrite IH.
Qed.
End StableSort.

(** The number of the configuration at a position. *)
Definition displayNumber (configs : list json) (i : nat) (v : json) : Z :=
  let key := labelKey (toObject (Some v)) in
  if countOf key configs >? 1 then countOf key (take i configs) + 1 else 0.

Lemma indexConfigs_lookup all rest seen i :
  all = seen ++ rest ->
  indexConfigs all seen rest !! i
  = (fun v => JObject (indexedConfig (displayNumber all (length seen + i) v) (toObject (Some v)))) <$> rest !! i.
Proof.
  revert seen i. induction rest as [| v rest IH]; intros seen i ->; [done |]. destruct i as [| i]; cbn.
  - unfold displayNumber. by rewrite Nat.add_0_r, take_app_length.
  - rewrite IH by by rewrite <- app_assoc. rewrite length_app. cbn. by rewrite <- Nat.add_assoc.
Qed.

Lemma countOf_app key l1 l2 : countOf key (l1 ++ l2) = countOf key l1 + countOf key l2.
Proof. unfold countOf. rewrite List.filter_app, length_app. lia. Qed.

Lemma countOf_take configs i v :
  configs !! i = Some v -> countOf (labelKey (toObject (Some v))) (take (S i) configs) = countOf (labelKey (toObject (Some v))) (take i configs) + 1.
Proof.
  intros Hi. rewrite (take_S_r _ _ _ Hi), countOf_app. unfold countOf at 2. cbn. by rewrite String.eqb_refl.
Qed.

Lemma countOf_mono key configs i j : (i <= j)%nat -> countOf key (take i configs) <= countOf key (take j configs).
Proof.
  intros Hij. rewrite <- (take_drop i (take j configs)), countOf_app, take_take, Nat.min_l by done. unfold countOf. lia.
Qed.

(** Two configurations of the same label have different numbers. *)
Lemma displayNumber_lt configs i j v w :
  configs !! i = Some v -> configs !! j = Some w -> (i < j)%nat -> labelKey (toObject (Some v)) = labelKey (toObject (Some w)) ->
  0 < displayNumber configs i v < displayNumber configs j w.
Proof.
  intros Hi Hj Hlt Hk. unfold displayNumber. rewrite <- Hk.
  pose proof (countOf_take _ _ _ Hi) as Ei. pose proof (countOf_take _ _ _ Hj) as Ej. rewrite <- Hk in Ej.
  pose proof (countOf_mono (labelKey (toObject (Some v))) configs (S i) j ltac:(lia)).
  pose proof (countOf_mono (labelKey (toObject (Some v))) configs (S j) (length configs) ltac:(apply lookup_lt_Some in Hj; lia)) as Hn.
  rewrite (take_ge configs (length configs)) in Hn by done.
  assert (0 <= countOf (labelKey (toObject (Some v))) (take i configs)) by (unfold countOf; lia).
  replace (countOf _ configs >? 1) with true by (symmetry; apply Z.gtb_lt; lia). lia.
Qed.

(** A number does not change how a configuration is ranked. *)
Lemma rank_indexed n config : rankOf (JObject (indexedConfig n config)) = protocolRank config.
Proof.
  unfold rankOf, protocolRank, Model.apiConfig. change (toObject (Some (JObject ?o))) with o. unfold indexedConfig.
  replace (sub (<["displayInfo"%string:=_]> (<["name"%string:=_]> config)) "api_config") with (sub config "api_config"); [done |].
  unfold sub, value. rewrite !lookup_insert_ne by done. done.
Qed.

(** The configurations of a subscription are shown by
    protocol, the ones of a protocol in the order of the feed; each keeps its
    entries but its number and its name, and two that would look the same have
    different numbers from 1, while a label used once has the number 0. *)
Theorem display_order configs :
  let numbered := indexConfigs configs [] configs in
  let shown := applyDisplayIndexAndSort configs in
  shown ≡ₚ numbered
  /\ StronglySorted (fun v w => rankOf v <= rankOf w) shown
  /\ (forall k, List.filter (fun v => rankOf v =? k) shown = List.filter (fun v => rankOf v =? k) numbered)
  /\ (forall i, numbered !! i = (fun v => JObject (indexedConfig (displayNumber configs i v) (toObject (Some v)))) <$> configs !! i)
  /\ (forall i v, configs !! i = Some v -> rankOf <$> numbered !! i = Some (rankOf v))
  /\ (forall i j v w, configs !! i = Some v -> configs !! j = Some w -> i <> j ->
        labelKey (toObject (Some v)) = labelKey (toObject (Some w)) ->
        displayNumber configs i v <> displayNumber configs j w /\ 0 < displayNumber configs i v)
  /\ (forall i v, configs !! i = Some v -> (forall j w, configs !! j = Some w -> labelKey (toObject (Some w)) = labelKey (toObject (Some v)) -> j = i) ->
        displayNumber configs i v = 0).
Proof.
  intros numbered shown. split_and!.
  - apply stableSort_perm.
  - apply stableSort_sorted.
  - intros k. apply stableSort_same.
  - intros i. apply (indexConfigs_lookup configs configs [] i). done.
  - intros i v Hi. unfold numbered. rewrite (indexConfigs_lookup configs configs [] i), Hi by done. cbn -[indexedConfig rankOf]. by rewrite rank_indexed.
  - intros i j v w Hi Hj Hne Hk. destruct (decide (i < j)%nat).
    + pose proof (displayNumber_lt _ _ _ _ _ Hi Hj ltac:(done) Hk). lia.
    + pose proof (displayNumber_lt _ _ _ _ _ Hj Hi ltac:(lia) (eq_sym Hk)). lia.
  - intros i v Hi Hone. unfold displayNumber.
    destruct (countOf (labelKey (toObject (Some v))) configs >? 1) eqn:E; [| done]. exfalso. zbool.
    rewrite <- (take_drop_middle _ _ _ Hi), countOf_app in E. change (v :: ?l) with ([v] ++ l) in E. rewrite countOf_app in E.
    assert (forall l, (forall j w, l !! j = Some w -> labelKey (toObject (Some w)) <> labelKey (toObject (Some v))) -> countOf (labelKey (toObject (Some v))) l = 0) as Hz.
    { intros l Hl. unfold countOf. replace (List.filter _ l) with (@nil json); [done |]. symmetry. clear -Hl. induction l as [| w l IH]; [done |]. cbn [List.filter].
      rewrite (proj2 (String.eqb_neq _ _) (Hl 0%nat w eq_refl)). apply IH. intros j. apply (Hl (S j)). }
    rewrite (Hz (take i configs)), (Hz (drop (S i) configs)) in E.
    + unfold countOf in E. cbn [List.filter] in E. rewrite String.eqb_refl in E. cbn [length] in E. lia.
    + intros j w Hj Hk. rewrite lookup_drop in Hj. apply Hone in Hj; [lia | done].
    + intros j w Hj Hk. apply lookup_take_Some in Hj as [Hj ?]. apply Hone in Hj; [lia | done].
Qed.

(** ** The requests of a feed *)

Section Feeds.
Context `{Qt} `{QtImport} {Z_stream} `{Zlib Z_stream} `{OpenSSL} `{ApiEnv}.
Context (language : Settings -> Language) (fuel : nat) (prepare : QJsonObject -> Z).
Implicit Types (a : ApiController) (f : Feed).

(** The identifier of the installation, which a request may store, does not
    change the language of the application. *)
Hypothesis language_uuid : forall s v, language (setValue uuidKey v s) = language s.

Lemma newUuid_settings a : ac_settings (newUuid a).2 = ac_settings a.
Proof. done. Qed.

Lemma generate_settings p a : ac_settings (generateProtocolData p a).2 = ac_settings a.
Proof.
  unfold generateProtocolData. destruct (isAwgName _); [| destruct (String.eqb _ _); [done | done]].
  unfold genClientKeys. rewrite bind_eq. by destruct (rand_priv_bytes _).
Qed.

Lemma getInstallationUuid_language b a : language (ac_settings (getInstallationUuid b a).2) = language (ac_settings a).
Proof.
  unfold getInstallationUuid. rewrite bind_eq. cbn [get fst snd].
  destruct (b && _); [rewrite bind_eq, then_eq; apply language_uuid |].
  destruct (_ && _); [| done]. rewrite then_eq. apply language_uuid.
Qed.

Lemma request_language uc sc st sp auth a : language (ac_settings (request uc sc st sp auth a).2) = language (ac_settings a).
Proof. unfold request. rewrite !bind_eq. cbn. apply getInstallationUuid_language. Qed.

(** What one request is made of: the keys, the payload, the state after. *)
Record Request : Type := mkRequestOf { rq_data : ProtocolData; rq_payload : QJsonObject; rq_after : ApiController }.
Definition requestOf (f : Feed) (index : nat) (item : ConfigWorkItem) (a : ApiController) : Request :=
  let g := generateProtocolData (field (serviceObject item) "service_protocol") a in
  let r := itemRequest f item g.2 in
  let payload := configPayload r.1 item g.1 in
  mkRequestOf g.1 payload (acSend (postConfig index payload) r.2).2.

Lemma requestOf_language f index item a : language (ac_settings (rq_after (requestOf f index item a))) = language (ac_settings a).
Proof. cbn. unfold itemRequest. change (ac_settings (mkApi (ac_servers ?x) _ _ _ _ _ _ _ _ _ _ _ _)) with (ac_settings x). rewrite request_language. by rewrite generate_settings. Qed.

(** An item is sent: the request is counted and open, and answered if it
    could not be prepared. *)
Definition sent (index : nat) (r : Request) (f : Feed) : Feed := openRequest index (rq_data r) (countFlight f).
Lemma sendItem_eq index item a f :
  sendItem language fuel prepare index item (a, f)
  = let r := requestOf f index item a in
    if prepare (rq_payload r) =? NoError then Some (tt, (rq_after r, sent index r f))
    else f' ← recordAnswer fuel (language (ac_settings a)) index (rq_data r) (prepare (rq_payload r)) "" (sent index r f);
         Some (tt, (rq_after r, f')).
Proof.
  cbv zeta. rewrite <- (requestOf_language f index item a).
  unfold sendItem, mbind, PT_bind, onFeed, onController, answerAtOnce, requestOf, itemRequest, sent. cbn [fst snd].
  destruct (generateProtocolData _ a) as [data a1]. cbn [fst snd fd_userCountryCode fd_auth countFlight setFlight].
  destruct (request _ _ _ _ _ a1) as [r a2]. cbn [fst snd rq_payload rq_after rq_data]. destruct (_ =? NoError); done.
Qed.

(** What a request is made of depends on the identity of the feed only. *)
Lemma requestOf_same f f' index item a :
  fd_auth f' = fd_auth f -> fd_userCountryCode f' = fd_userCountryCode f -> requestOf f' index item a = requestOf f index item a.
Proof. intros E1 E2. unfold requestOf, itemRequest. by rewrite E1, E2. Qed.

(** *** The feed as a function of the answers *)

Section Run.
Context (a0 : ApiController) (f0 : Feed) (answers : nat -> Z * string).
Let items := workItems f0.
Let lang := language (ac_settings a0).
Definition slotAt (k : nat) : ConfigSlot := default emptySlot (configSlots f0 !! k).

(** The controller after the first [k] items were taken. *)
Fixpoint stateAt (k : nat) : ApiController :=
  match k with
  | O => a0
  | S k' =>
      match workItems f0 !! k' with
      | Some item => if slot_ok (slotAt k') then stateAt k' else rq_after (requestOf f0 k' item (stateAt k'))
      | None => stateAt k'
      end
  end.
Definition requestAt (k : nat) (item : ConfigWorkItem) : Request := requestOf f0 k item (stateAt k).
Definition preparedAt (k : nat) (item : ConfigWorkItem) : Z := prepare (rq_payload (requestAt k item)).
Definition outcomeAt (k : nat) (item : ConfigWorkItem) : option (option QJsonObject) :=
  let answer := if preparedAt k item =? NoError then answers k else (preparedAt k item, ""%string) in
  fillSlot fuel lang (fd_auth f0) item (rq_data (requestAt k item)) answer.1 answer.2.
Definition finalSlot (k : nat) (item : ConfigWorkItem) : ConfigSlot :=
  if slot_ok (slotAt k) then slotAt k
  else match outcomeAt k item with Some (Some server) => mkSlot true server | _ => emptySlot end.
Definition waiting (k : nat) : Z := Z.of_nat (length (List.filter (fun slot => negb (slot_ok slot)) (drop k (configSlots f0)))).
Definition answered f (k : nat) : Prop := (k < nextIndex f)%nat /\ k ∉ (fd_open f).*1.

(** A feed that was not started yet. *)
Record Fresh : Prop := {
  fresh_length : length (configSlots f0) = length items;
  fresh_empty : forall slot, slot ∈ configSlots f0 -> slot_ok slot = false -> slot = emptySlot;
  fresh_pending : fd_pending f0 = waiting 0;
  fresh_any : anySuccess f0 = existsb slot_ok (configSlots f0);
  fresh_rest : inFlight f0 = 0 /\ nextIndex f0 = 0%nat /\ pumping f0 = false /\ feedFinished f0 = false /\ outFailures f0 = []
               /\ fd_open f0 = [] /\ fd_result f0 = []
}.

(** The invariant of a running feed. *)
Record FeedInv a f : Prop := {
  fi_state : a = stateAt (nextIndex f);
  fi_fixed : workItems f = items /\ fd_auth f = fd_auth f0 /\ fd_userCountryCode f = fd_userCountryCode f0;
  fi_next : (nextIndex f <= length items)%nat;
  fi_open : forall k d, (k, d) ∈ fd_open f -> exists item, items !! k = Some item /\ (k < nextIndex f)%nat /\ slot_ok (slotAt k) = false
              /\ d = rq_data (requestAt k item);
  fi_once : NoDup (fd_open f).*1;
  fi_flight : inFlight f = Z.of_nat (length (fd_open f));
  fi_pending : fd_pending f = Z.of_nat (length (fd_open f)) + waiting (nextIndex f);
  fi_length : length (configSlots f) = length items;
  fi_slots : forall k item, items !! k = Some item ->
               (answered f k -> configSlots f !! k = Some (finalSlot k item))
               /\ (~ answered f k -> configSlots f !! k = Some (slotAt k));
  fi_any : anySuccess f = existsb slot_ok (configSlots f);
  fi_distinct : NoDup (outFailures f);
  fi_failures : forall key, key ∈ outFailures f <->
                  exists k item, items !! k = Some item /\ answered f k /\ slot_ok (finalSlot k item) = false
                    /\ nonEmpty (field (connectionObject item) "connection_uuid") = true /\ key = itemKey item
}.
Definition OpenPrepared f : Prop := forall k d item, (k, d) ∈ fd_open f -> items !! k = Some item -> preparedAt k item = NoError.
Definition Running f : Prop := feedFinished f = false /\ fd_result f = [].

Lemma waiting_step k : (k < length (configSlots f0))%nat -> waiting k = (if slot_ok (slotAt k) then 0 else 1) + waiting (S k).
Proof.
  intros Hk. unfold waiting, slotAt. destruct (lookup_lt_is_Some_2 _ _ Hk) as [slot E]. rewrite (drop_S _ _ _ E), E. cbn.
  destruct (slot_ok slot); cbn [negb length]; lia.
Qed.
Lemma waiting_end k : (length (configSlots f0) <= k)%nat -> waiting k = 0.
Proof. intros Hk. unfold waiting. by rewrite drop_ge. Qed.

Lemma stateAt_language k : language (ac_settings (stateAt k)) = lang.
Proof.
  induction k as [| k IH]; [done |]. cbn [stateAt]. destruct (workItems f0 !! k); [| done]. destruct (slot_ok _); [done |].
  by rewrite requestOf_language.
Qed.

Lemma slotAt_lookup k item : Fresh -> items !! k = Some item -> configSlots f0 !! k = Some (slotAt k).
Proof.
  intros Hf Hk. unfold slotAt. destruct (configSlots f0 !! k) eqn:E; [done |]. apply lookup_lt_Some in Hk. apply lookup_ge_None in E.
  rewrite (fresh_length Hf) in E. lia.
Qed.

Lemma feed_inv_start : Fresh -> FeedInv a0 f0 /\ OpenPrepared f0 /\ Running f0.
Proof.
  intros Hf. destruct (fresh_rest Hf) as (E1 & E2 & E3 & E4 & E5 & E6 & E7). split_and!.
  - split.
    + by rewrite E2.
    + done.
    + rewrite E2. lia.
    + intros k d. rewrite E6. by intros ?%elem_of_nil.
    + rewrite E6. constructor.
    + by rewrite E6, E1.
    + rewrite E6, E2. cbn [length]. rewrite (fresh_pending Hf). lia.
    + apply (fresh_length Hf).
    + intros k item Hk. unfold answered. rewrite E2. split; [lia |]. intros _. by apply (slotAt_lookup k item).
    + apply (fresh_any Hf).
    + rewrite E5. constructor.
    + intros key. rewrite E5. split; [by intros ?%elem_of_nil |]. intros (k & item & _ & [Hk _] & _). rewrite E2 in Hk. lia.
  - intros k d item. rewrite E6. by intros ?%elem_of_nil.
  - done.
Qed.

(** *** Its steps *)

(** An item whose stored server is taken. *)
Lemma feed_skip a f item :
  Fresh -> FeedInv a f -> items !! nextIndex f = Some item -> slot_ok (slotAt (nextIndex f)) = true -> FeedInv a (takeNext f).
Proof.
  intros Hf I Hi Hok.
  assert (forall k, answered (takeNext f) k <-> answered f k \/ k = nextIndex f) as Ha.
  { intros k. unfold answered. cbn. split; [intros []; destruct (decide (k = nextIndex f)); [by right | left; split; [lia | done]] |].
    intros [[? ?] | ->]; [split; [lia | done] |]. split; [lia |]. intros ((k' & d) & E & Hk)%list_elem_of_fmap. cbn in E. subst k'.
    destruct (fi_open _ _ I _ _ Hk) as (? & _ & Hlt & _). lia. }
  assert (finalSlot (nextIndex f) item = slotAt (nextIndex f)) as Hfin by (unfold finalSlot; by rewrite Hok).
  split; cbn [takeNext setFlight nextIndex workItems fd_auth fd_userCountryCode fd_open inFlight fd_pending configSlots anySuccess outFailures].
  - cbn [stateAt]. fold items. rewrite Hi, Hok. apply (fi_state _ _ I).
  - apply (fi_fixed _ _ I).
  - by apply lookup_lt_Some in Hi.
  - intros k d Hk. destruct (fi_open _ _ I _ _ Hk) as (it & ? & ? & ?). exists it. split; [done |]. split; [lia | done].
  - apply (fi_once _ _ I).
  - apply (fi_flight _ _ I).
  - rewrite (fi_pending _ _ I), (waiting_step (nextIndex f)), Hok; [lia |]. apply lookup_lt_Some in Hi. by rewrite (fresh_length Hf).
  - apply (fi_length _ _ I).
  - intros k it Hk. destruct (fi_slots _ _ I k it Hk) as [S1 S2]. rewrite Ha. split.
    + intros [Hk' | ->]; [by apply S1 |]. rewrite Hi in Hk. injection Hk as <-. rewrite Hfin. apply S2. unfold answered. lia.
    + intros Hk'. apply S2. tauto.
  - apply (fi_any _ _ I).
  - apply (fi_distinct _ _ I).
  - intros key. rewrite (fi_failures _ _ I).
    split; intros (k & it & Hk & Hans & Hno & Hkey); exists k, it; (split; [done |]); (split; [| done]); [by apply Ha; left |].
    apply Ha in Hans as [? | ->]; [done |]. exfalso. assert (it = item) as -> by congruence. rewrite Hfin in Hno. congruence.
Qed.

(** An item whose request is sent. *)
Lemma feed_send a f item :
  Fresh -> FeedInv a f -> items !! nextIndex f = Some item -> slot_ok (slotAt (nextIndex f)) = false ->
  let r := requestAt (nextIndex f) item in FeedInv (rq_after r) (sent (nextIndex f) r (takeNext f)).
Proof.
  intros Hf I Hi Hok r.
  assert (nextIndex f ∉ (fd_open f).*1) as Hnew.
  { intros ((k' & d) & E & Hk)%list_elem_of_fmap. cbn in E. subst k'. destruct (fi_open _ _ I _ _ Hk) as (? & _ & Hlt & _). lia. }
  assert (forall k, answered (sent (nextIndex f) r (takeNext f)) k <-> answered f k) as Ha.
  { intros k. unfold answered. cbn. rewrite fmap_app, not_elem_of_app. cbn. rewrite list_elem_of_singleton.
    split; intros [? Hk]; [destruct Hk; split; [lia | done] |]. split; [lia |]. split; [done | lia]. }
  split; cbn [sent openRequest countFlight takeNext setFlight nextIndex workItems fd_auth fd_userCountryCode fd_open inFlight fd_pending
    configSlots anySuccess outFailures].
  - cbn [stateAt]. fold items. by rewrite Hi, Hok.
  - apply (fi_fixed _ _ I).
  - by apply lookup_lt_Some in Hi.
  - intros k d [Hk | Hk%list_elem_of_singleton]%elem_of_app.
    + destruct (fi_open _ _ I _ _ Hk) as (it & ? & ? & ?). exists it. split; [done |]. split; [lia | done].
    + injection Hk as -> ->. exists item. split_and!; [done | lia | done | done].
  - rewrite fmap_app. cbn. apply NoDup_app. split_and!; [apply (fi_once _ _ I) | | apply NoDup_singleton].
    intros k Hk ->%list_elem_of_singleton. done.
  - rewrite (fi_flight _ _ I), length_app. cbn. lia.
  - rewrite (fi_pending _ _ I), (waiting_step (nextIndex f)), Hok, length_app; [cbn; lia |]. apply lookup_lt_Some in Hi. by rewrite (fresh_length Hf).
  - apply (fi_length _ _ I).
  - intros k it Hk. rewrite Ha. by apply (fi_slots _ _ I).
  - apply (fi_any _ _ I).
  - apply (fi_distinct _ _ I).
  - intros key. rewrite (fi_failures _ _ I).
    split; intros (k & it & Hk & Hans & Hno & Hkey); exists k, it; (split; [done |]); (split; [by apply Ha | done]).
Qed.

(** What an answer leaves. *)
Definition recorded (k : nat) (item : ConfigWorkItem) (outcome : option QJsonObject) f : Feed :=
  match outcome with
  | Some server =>
      setFlight (<[k := mkSlot true server]> (configSlots f)) (fd_pending f - 1) (inFlight f - 1) (nextIndex f) true
        (outFailures f) (dropOpen k (fd_open f)) f
  | None =>
      setFlight (configSlots f) (fd_pending f - 1) (inFlight f - 1) (nextIndex f) (anySuccess f)
        (noteFailure item (outFailures f)) (dropOpen k (fd_open f)) f
  end.
Lemma recordAnswer_eq l k d code response item outcome f :
  workItems f !! k = Some item -> fillSlot fuel l (fd_auth f) item d code response = Some outcome ->
  recordAnswer fuel l k d code response f = Some (recorded k item outcome f).
Proof. intros E1 E2. unfold recordAnswer. rewrite E1. unfold mbind, option_bind. rewrite E2. by destruct outcome. Qed.

Lemma dropOpen_elem k x l : x ∈ dropOpen k l <-> x ∈ l /\ x.1 <> k.
Proof.
  unfold dropOpen. rewrite !list_elem_of_In, List.filter_In. rewrite negb_true_iff, Nat.eqb_neq. done.
Qed.
Lemma dropOpen_cons k j (e : ProtocolData) l :
  dropOpen k ((j, e) :: l) = if negb (Nat.eqb j k) then (j, e) :: dropOpen k l else dropOpen k l.
Proof. done. Qed.
Lemma dropOpen_once k d l : NoDup l.*1 -> (k, d) ∈ l -> NoDup (dropOpen k l).*1 /\ length l = S (length (dropOpen k l)).
Proof.
  induction l as [| [j e] l IH]; intros Hn Hk; [by apply elem_of_nil in Hk |]. cbn in Hn. apply NoDup_cons in Hn as [Hj Hn].
  rewrite dropOpen_cons. destruct (Nat.eqb j k) eqn:E; cbn [negb].
  - apply Nat.eqb_eq in E. subst j. replace (dropOpen k l) with l; [done |]. clear -Hj. induction l as [| [j e] l IH]; [done |].
    apply not_elem_of_cons in Hj as [Hne Hj]. rewrite dropOpen_cons, (proj2 (Nat.eqb_neq j k)) by done. cbn [negb]. by rewrite <- IH.
  - apply Nat.eqb_neq in E. apply elem_of_cons in Hk as [[= -> ->] | Hk]; [done |]. destruct (IH Hn Hk) as [N L]. split.
    + constructor; [| done]. intros ((j' & e') & E' & [Hin _]%dropOpen_elem)%list_elem_of_fmap. apply Hj. apply list_elem_of_fmap. by exists (j', e').
    + cbn. by rewrite L.
Qed.

Lemma existsb_insert (l : list ConfigSlot) k server : (k < length l)%nat -> existsb slot_ok (<[k := mkSlot true server]> l) = true.
Proof. intros Hk. apply existsb_exists. exists (mkSlot true server). split; [| done]. apply list_elem_of_In. by apply list_elem_of_insert. Qed.

Lemma noteFailure_spec item failures :
  NoDup failures -> NoDup (noteFailure item failures)
  /\ forall key, key ∈ noteFailure item failures
       <-> key ∈ failures \/ nonEmpty (field (connectionObject item) "connection_uuid") = true /\ key = itemKey item.
Proof.
  intros Hn. unfold noteFailure. destruct (nonEmpty _); cbn [andb]; [| split; [done | intros key; split; [by left | by intros [? | []]]]].
  case_bool_decide as E; cbn [negb].
  - split; [done |]. intros key. split; [by left | by intros [? | [_ ->]]].
  - split; [apply NoDup_app; split_and!; [done | by intros ? ? ->%list_elem_of_singleton | apply NoDup_singleton] |].
    intros key. rewrite elem_of_app, list_elem_of_singleton. naive_solver.
Qed.

(** The answer of an open request. *)
Lemma feed_record a f k d item outcome :
  Fresh -> FeedInv a f -> (k, d) ∈ fd_open f -> items !! k = Some item -> outcomeAt k item = Some outcome ->
  FeedInv a (recorded k item outcome f).
Proof.
  intros Hf I Hk Hi Hout. destruct (fi_open _ _ I _ _ Hk) as (item' & Hi' & Hlt & Hok & _). assert (item' = item) as -> by congruence. clear Hi'.
  destruct (dropOpen_once _ _ _ (fi_once _ _ I) Hk) as [Hnd Hlen].
  assert (k ∈ (fd_open f).*1) as Hkin by (apply list_elem_of_fmap; by exists (k, d)).
  assert (forall j, answered (recorded k item outcome f) j <-> answered f j \/ j = k) as Ha.
  { intros j. unfold answered. replace (nextIndex (recorded k item outcome f)) with (nextIndex f) by (by destruct outcome).
    replace (fd_open (recorded k item outcome f)) with (dropOpen k (fd_open f)) by (by destruct outcome). split.
    - intros [? Hj]. destruct (decide (j = k)); [by right |]. left. split; [done |]. intros ((j' & e) & -> & Hin)%list_elem_of_fmap.
      apply Hj. apply list_elem_of_fmap. exists (j', e). split; [done |]. by apply dropOpen_elem.
    - intros [[? Hj] | ->]; (split; [done |]); intros ((j' & e) & E & [Hin Hne]%dropOpen_elem)%list_elem_of_fmap; cbn in E, Hne; subst; [| done].
      apply Hj. apply list_elem_of_fmap. by exists (j', e). }
  assert (finalSlot k item = match outcome with Some server => mkSlot true server | None => emptySlot end) as Hfin.
  { unfold finalSlot. rewrite Hok, Hout. by destruct outcome. }
  assert (slotAt k = emptySlot) as Hempty.
  { apply (fresh_empty Hf); [| done]. eapply list_elem_of_lookup_2. by apply (slotAt_lookup k item). }
  assert (configSlots f !! k = Some emptySlot) as Hslot.
  { destruct (fi_slots _ _ I k item Hi) as [_ S2]. rewrite S2, Hempty; [done |]. by intros [_ ?]. }
  split.
  - replace (nextIndex _) with (nextIndex f) by (by destruct outcome). apply (fi_state _ _ I).
  - destruct outcome; apply (fi_fixed _ _ I).
  - destruct outcome; apply (fi_next _ _ I).
  - intros j e. replace (fd_open (recorded _ _ _ _)) with (dropOpen k (fd_open f)) by (by destruct outcome).
    replace (nextIndex _) with (nextIndex f) by (by destruct outcome). intros [Hin _]%dropOpen_elem. by apply (fi_open _ _ I).
  - destruct outcome; exact Hnd.
  - pose proof (fi_flight _ _ I). destruct outcome; cbn; lia.
  - pose proof (fi_pending _ _ I). destruct outcome; cbn; lia.
  - destruct outcome; [cbn; rewrite length_insert |]; apply (fi_length _ _ I).
  - intros j it Hj. rewrite Ha. destruct (fi_slots _ _ I j it Hj) as [S1 S2]. destruct (decide (j = k)) as [-> | Hne].
    + assert (it = item) as -> by congruence. split; [| tauto]. intros _. rewrite Hfin. destruct outcome as [server |]; cbn; [| done].
      apply list_lookup_insert_eq. rewrite (fi_length _ _ I). by apply lookup_lt_Some in Hi.
    + replace (configSlots (recorded k item outcome f) !! j) with (configSlots f !! j)
        by (destruct outcome; [cbn; by rewrite list_lookup_insert_ne |]; done).
      split; [intros [? | ?]; [by apply S1 | done] | tauto].
  - destruct outcome; cbn; [| apply (fi_any _ _ I)]. symmetry. apply existsb_insert. rewrite (fi_length _ _ I). by apply lookup_lt_Some in Hi.
  - destruct outcome; cbn; [apply (fi_distinct _ _ I) |]. by apply noteFailure_spec, (fi_distinct _ _ I).
  - intros key. transitivity (key ∈ outFailures f \/ slot_ok (finalSlot k item) = false
      /\ nonEmpty (field (connectionObject item) "connection_uuid") = true /\ key = itemKey item).
    { rewrite Hfin. destruct outcome; cbn [recorded outFailures setFlight slot_ok emptySlot]; [naive_solver |].
      rewrite (proj2 (noteFailure_spec item _ (fi_distinct _ _ I))). naive_solver. }
    rewrite (fi_failures _ _ I). split.
    + intros [(j & it & Hj & Hans & ?) | ?]; [exists j, it | exists k, item]; (split; [done |]); (split; [apply Ha; auto | done]).
    + intros (j & it & Hj & [Hans | ->]%Ha & Hrest); [left; by exists j, it |]. assert (it = item) as -> by congruence. by right.
Qed.

(** *** The loop *)

(** What the loop leaves alone. *)
Definition SameRun f f' : Prop := pumping f' = pumping f /\ feedFinished f' = feedFinished f /\ fd_result f' = fd_result f.
Lemma recorded_frame k item outcome f :
  SameRun f (recorded k item outcome f) /\ nextIndex (recorded k item outcome f) = nextIndex f
  /\ inFlight (recorded k item outcome f) = inFlight f - 1 /\ fd_pending (recorded k item outcome f) = fd_pending f - 1
  /\ fd_open (recorded k item outcome f) = dropOpen k (fd_open f).
Proof. by destruct outcome. Qed.

Lemma outcome_unprepared k item : preparedAt k item <> NoError -> outcomeAt k item = Some None.
Proof.
  intros Hp. unfold outcomeAt. rewrite (proj2 (Z.eqb_neq _ _)) by done. unfold fillSlot. cbn [fst]. by rewrite (proj2 (Z.eqb_neq _ _)).
Qed.

Lemma feed_sends a f item :
  Fresh -> FeedInv a f -> OpenPrepared f -> items !! nextIndex f = Some item -> slot_ok (slotAt (nextIndex f)) = false ->
  exists a' f', sendItem language fuel prepare (nextIndex f) item (a, takeNext f) = Some (tt, (a', f'))
    /\ FeedInv a' f' /\ OpenPrepared f' /\ SameRun f f' /\ nextIndex f' = S (nextIndex f)
    /\ inFlight f' <= inFlight f + 1 /\ fd_pending f' <= fd_pending f.
Proof.
  intros Hf I Hop Hi Hok. pose proof (feed_send a f item Hf I Hi Hok) as Is. cbv zeta in Is. rewrite sendItem_eq. cbv zeta.
  destruct (fi_fixed _ _ I) as (Ew & Ea & Ec).
  assert (requestOf (takeNext f) (nextIndex f) item a = requestAt (nextIndex f) item) as ->.
  { unfold requestAt. rewrite <- (fi_state _ _ I). by apply requestOf_same. }
  fold (preparedAt (nextIndex f) item).
  assert ((nextIndex f, rq_data (requestAt (nextIndex f) item)) ∈ fd_open (sent (nextIndex f) (requestAt (nextIndex f) item) (takeNext f))) as Hin.
  { cbn. apply elem_of_app. right. by apply list_elem_of_singleton. }
  destruct (Z.eqb_spec (preparedAt (nextIndex f) item) NoError) as [Hp | Hp].
  - eexists _, _. split; [done |]. split; [exact Is |]. split_and!; try done; try (cbn; lia).
    intros k d it [Hk | Hk%list_elem_of_singleton]%elem_of_app Hit; [by apply (Hop k d) |]. injection Hk as -> ->. congruence.
  - pose proof (outcome_unprepared _ _ Hp) as Hout. pose proof (feed_record _ _ _ _ _ _ Hf Is Hin Hi Hout) as Ir.
    rewrite (recordAnswer_eq _ _ _ _ _ item None).
    + destruct (recorded_frame (nextIndex f) item None (sent (nextIndex f) (requestAt (nextIndex f) item) (takeNext f)))
        as (Er1 & Er2 & Er3 & Er4 & Er5).
      eexists _, _. split; [done |]. split; [exact Ir |]. split_and!; [| exact Er1 | done | |].
      * intros k d it. rewrite Er5. intros [Hk Hne]%dropOpen_elem Hit. cbn in Hk, Hne. apply elem_of_app in Hk as [Hk | Hk%list_elem_of_singleton];
          [by apply (Hop k d) | by injection Hk as -> ->].
      * rewrite Er3. cbn. lia.
      * rewrite Er4. cbn. lia.
    + cbn. by rewrite Ew.
    + unfold fillSlot. by rewrite (proj2 (Z.eqb_neq _ _)).
Qed.

Lemma feed_pumps rounds : forall a f,
  Fresh -> FeedInv a f -> OpenPrepared f -> inFlight f <= 4 -> (length items - nextIndex f <= rounds)%nat ->
  exists a' f', pumpLoop language fuel prepare rounds (a, f) = Some (tt, (a', f'))
    /\ FeedInv a' f' /\ OpenPrepared f' /\ SameRun f f' /\ inFlight f' <= 4 /\ (inFlight f' = 4 \/ nextIndex f' = length items)
    /\ fd_pending f' <= fd_pending f.
Proof.
  induction rounds as [| rounds IH]; intros a f Hf I Hop H4 Hr.
  { exists a, f. pose proof (fi_next _ _ I). split_and!; try done. right. lia. }
  cbn [pumpLoop snd]. destruct (fi_fixed _ _ I) as (Ew & _ & _).
  destruct (inFlight f <? kFetchConcurrency) eqn:E4; unfold kFetchConcurrency in E4; zbool;
    [| exists a, f; split_and!; try done; left; lia].
  rewrite Ew. destruct (items !! nextIndex f) as [item |] eqn:Hi.
  2:{ exists a, f. apply lookup_ge_None in Hi. pose proof (fi_next _ _ I). split_and!; try done. right. lia. }
  assert (default emptySlot (configSlots f !! nextIndex f) = slotAt (nextIndex f)) as ->.
  { destruct (fi_slots _ _ I _ _ Hi) as [_ S2]. rewrite S2; [done |]. unfold answered. lia. }
  unfold mbind at 1, PT_bind at 1, onFeed at 1. cbn [fst snd]. unfold mbind at 1, PT_bind at 1.
  pose proof (lookup_lt_Some _ _ _ Hi) as Hlt. destruct (slot_ok (slotAt (nextIndex f))) eqn:Hok.
  - cbn [mret PT_ret]. pose proof (feed_skip _ _ _ Hf I Hi Hok) as I'.
    destruct (IH a (takeNext f) Hf I' Hop H4) as (a' & f' & R1 & R2 & R3 & R4 & R5 & R6 & R7); [cbn; lia |].
    exists a', f'. split_and!; try done; apply R4.
  - destruct (feed_sends a f item Hf I Hop Hi Hok) as (a1 & f1 & -> & I1 & O1 & (E1 & E2 & E3) & N1 & L1 & P1).
    destruct (IH a1 f1 Hf I1 O1) as (a' & f' & R1 & R2 & R3 & (E1' & E2' & E3') & R5 & R6 & R7); [lia | rewrite N1; lia |].
    exists a', f'. split_and!; try done; [| lia]. unfold SameRun. split_and!; congruence.
Qed.

(** Between two events: the loop has sent what it could, and the result was
    reported when nothing was open any more. *)
Record Settled a f : Prop := {
  st_inv : FeedInv a f;
  st_prepared : OpenPrepared f;
  st_pumping : pumping f = false;
  st_four : inFlight f <= 4;
  st_sent : inFlight f = 4 \/ nextIndex f = length items;
  st_result : if feedFinished f then fd_open f = [] /\ fd_result f = [(anySuccess f, readyConfigs f, outFailures f)]
              else fd_open f <> [] /\ fd_result f = []
}.

Lemma feed_pump a f :
  Fresh -> FeedInv a f -> OpenPrepared f -> Running f -> pumping f = false -> inFlight f <= 4 ->
  exists a' f', pump language fuel prepare (a, f) = Some (tt, (a', f')) /\ Settled a' f' /\ fd_pending f' <= fd_pending f.
Proof.
  intros Hf I Hop [Hr1 Hr2] Hp H4. unfold pump. cbn [snd]. rewrite Hp, Hr1. cbn [orb].
  unfold mbind at 1, PT_bind at 1, onFeed at 1. cbn [fst snd]. unfold mbind at 1, PT_bind at 1.
  destruct (fi_fixed _ _ I) as (Ew & _ & _). rewrite Ew.
  destruct (feed_pumps (length items - nextIndex f) a (setPumping true f)) as (a' & f' & -> & I' & O' & (E1 & E2 & E3) & R4 & R5 & R6);
    try done; [by destruct I; split |].
  cbn in E1, E2, E3, R6. unfold mbind, PT_bind, onFeed. cbn [fst snd feedFinished setPumping fd_pending inFlight].
  rewrite E2, Hr1. cbn [negb andb].
  assert (((fd_pending f' =? 0) && (inFlight f' =? 0)) = bool_decide (fd_open f' = [])) as ->.
  { pose proof (fi_flight _ _ I') as F1. pose proof (fi_pending _ _ I') as F2. case_bool_decide as Eo.
    - rewrite Eo in F1, F2. cbn in F1, F2. destruct R5 as [R5 | R5]; [lia |]. rewrite waiting_end in F2 by (rewrite (fresh_length Hf); lia).
      rewrite F1, F2. done.
    - apply andb_false_intro2, Z.eqb_neq. rewrite F1. destruct (fd_open f'); [done | cbn; lia]. }
  eexists a', _. split; [done |]. case_bool_decide as Eo.
  - split; [split; cbn; try done | exact R6].
    + by destruct I'; split.
    + by rewrite E3, Hr2.
  - split; [split; cbn; try done | exact R6].
    + by destruct I'; split.
    + by rewrite E2, Hr1, E3.
Qed.

(** *** The answers *)

Lemma open_find f k : list_find (fun x : nat * ProtocolData => x.1 = k) (fd_open f) = None <-> k ∉ (fd_open f).*1.
Proof.
  rewrite list_find_None, Forall_forall. split.
  - intros Ha ((j & d) & -> & Hin)%list_elem_of_fmap. by apply (Ha _ Hin).
  - intros Hk x Hin <-. apply Hk. by apply list_elem_of_fmap_2.
Qed.

Lemma feed_reply a f k :
  Fresh -> (forall j item, items !! j = Some item -> outcomeAt j item <> None) -> Settled a f ->
  exists a' f', onConfigReply language fuel prepare k (answers k).1 (answers k).2 (a, f) = Some (tt, (a', f')) /\ Settled a' f'
    /\ (k ∈ (fd_open f).*1 -> fd_pending f' < fd_pending f).
Proof.
  intros Hf Hout St. pose proof St as [I Hop Hp H4 Hs Hr]. unfold onConfigReply. cbn [snd].
  destruct (list_find _ (fd_open f)) as [[j [k' d]] |] eqn:E.
  2:{ apply open_find in E. exists a, f. split_and!; [done | done | done]. }
  apply list_find_Some in E as (Hin & Ek & _). cbn in Ek. subst k'. apply list_elem_of_lookup_2 in Hin.
  destruct (fi_open _ _ I _ _ Hin) as (item & Hi & Hlt & Hok & Hd). destruct (fi_fixed _ _ I) as (Ew & Ea & _).
  destruct (outcomeAt k item) as [outcome |] eqn:Ho; [| by apply Hout in Ho].
  pose proof (feed_record _ _ _ _ _ _ Hf I Hin Hi Ho) as Ir.
  destruct (recorded_frame k item outcome f) as ((E1 & E2 & E3) & Er2 & Er3 & Er4 & Er5).
  unfold mbind, PT_bind, onFeedP. cbn [fst snd].
  assert (recordAnswer fuel (language (ac_settings a)) k d (answers k).1 (answers k).2 f = Some (recorded k item outcome f)) as ->.
  { rewrite (fi_state _ _ I), stateAt_language. apply recordAnswer_eq; [by rewrite Ew |]. rewrite Ea, Hd.
    unfold outcomeAt in Ho. by rewrite (Hop _ _ _ Hin Hi) in Ho. }
  unfold mbind, option_bind. destruct (feedFinished f) eqn:Ef.
  { destruct Hr as [Eo _]. rewrite Eo in Hin. by apply elem_of_nil in Hin. }
  destruct (feed_pump a (recorded k item outcome f) Hf Ir) as (a' & f' & R1 & R2 & R3).
  - intros k' d' it. rewrite Er5. intros [Hin' _]%dropOpen_elem. by apply (Hop k' d').
  - split; [by rewrite E2 |]. rewrite E3. apply Hr.
  - by rewrite E1.
  - rewrite Er3. lia.
  - exists a', f'. split_and!; [exact R1 | exact R2 |]. intros _. lia.
Qed.

(** The answers of the network in some order. *)
Fixpoint replies (order : list nat) : PF unit :=
  match order with
  | [] => mret tt
  | k :: order' => onConfigReply language fuel prepare k (answers k).1 (answers k).2 ;; replies order'
  end.

Lemma feed_replies order : forall a f,
  Fresh -> (forall j item, items !! j = Some item -> outcomeAt j item <> None) -> Settled a f ->
  exists a' f', replies order (a, f) = Some (tt, (a', f')) /\ Settled a' f'.
Proof.
  induction order as [| k order IH]; intros a f Hf Hout St; [by exists a, f |]. cbn [replies].
  unfold mbind, PT_bind. destruct (feed_reply a f k Hf Hout St) as (a1 & f1 & -> & S1 & _). by apply IH.
Qed.

Lemma settled_pending a f : Settled a f -> 0 <= fd_pending f.
Proof. intros [I _ _ _ _ _]. rewrite (fi_pending _ _ I). unfold waiting. lia. Qed.

(** What the feed brings: the configurations of the items in the order of the
    feed. *)
Definition finalConfigs : list json :=
  map (fun slot => JObject (slot_config slot)) (List.filter slot_ok (imap finalSlot (workItems f0))).

Lemma existsb_filter (l : list ConfigSlot) :
  existsb slot_ok l = bool_decide (map (fun slot => JObject (slot_config slot)) (List.filter slot_ok l) <> []).
Proof.
  induction l as [| x l IH]; [done |]. cbn. destruct (slot_ok x); cbn [orb map]; [| exact IH]. by rewrite bool_decide_eq_true_2.
Qed.

Lemma settled_done a f :
  Fresh -> Settled a f -> fd_open f = [] -> configSlots f = imap finalSlot (workItems f0) /\ nextIndex f = length items.
Proof.
  intros Hf [I _ _ _ Hs _] Eo. assert (nextIndex f = length items) as En.
  { destruct Hs as [Hs | ?]; [| done]. pose proof (fi_flight _ _ I) as Hl. rewrite Eo in Hl. cbn in Hl. lia. }
  split; [| done]. apply list_eq. intros k. rewrite list_lookup_imap. fold items. destruct (items !! k) as [item |] eqn:Hk; cbn.
  - destruct (fi_slots _ _ I _ _ Hk) as [S1 _]. apply S1. unfold answered. rewrite Eo, En. split; [by apply lookup_lt_Some in Hk |]. by intros ?%elem_of_nil.
  - apply lookup_ge_None. apply lookup_ge_None in Hk. by rewrite (fi_length _ _ I).
Qed.

(** What is known between two events. *)
Definition FeedState a f : Prop :=
  a = stateAt (nextIndex f) /\ (length (fd_open f) <= 4)%nat
  /\ if feedFinished f then
       fd_open f = []
       /\ exists failures, fd_result f = [(bool_decide (finalConfigs <> []), finalConfigs, failures)] /\ NoDup failures
          /\ forall key, key ∈ failures <-> exists k item, workItems f0 !! k = Some item /\ slot_ok (finalSlot k item) = false
               /\ nonEmpty (field (connectionObject item) "connection_uuid") = true /\ key = itemKey item
     else fd_open f <> [] /\ fd_result f = [].

Lemma settled_state a f : Fresh -> Settled a f -> FeedState a f.
Proof.
  intros Hf St. pose proof St as [I _ _ H4 _ Hr]. split_and!; [apply (fi_state _ _ I) | rewrite (fi_flight _ _ I) in H4; lia |].
  destruct (feedFinished f); [| exact Hr]. destruct Hr as [Eo Hr]. split; [exact Eo |]. destruct (settled_done _ _ Hf St Eo) as [Es En].
  exists (outFailures f). split_and!.
  - rewrite Hr, (fi_any _ _ I). unfold readyConfigs. by rewrite Es, existsb_filter.
  - apply (fi_distinct _ _ I).
  - intros key. rewrite (fi_failures _ _ I). split; intros (k & item & Hk & Hrest); exists k, item; (split; [done |]); [apply Hrest |].
    split; [| done]. unfold answered. rewrite Eo, En. split; [by apply lookup_lt_Some in Hk |]. by intros ?%elem_of_nil.
Qed.
End Run.

(** A feed starts with its services. *)
Lemma newFeed_fresh id shared lang servers services country : Fresh (newFeed id shared lang servers services country).
Proof.
  split; cbn.
  - by rewrite length_map.
  - intros slot (item & -> & _)%list_elem_of_fmap. unfold firstSlot. by destruct (reusable _ _).
  - done.
  - done.
  - done.
Qed.
End Feeds.

(** C5 (invariant): the configurations of a subscription do not depend on the
    order in which the gateway answers.  From the services of a feed on, for
    every order of the answers: the requests made so far are those of the items
    in their order, at most four are open, and the result is reported once,
    when none is open, with the configurations of the items that were stored or
    answered well, in the order of the feed, and the keys of the others.  Each
    answer of an open request brings the end nearer. *)
Theorem feed_any_order `{Qt} `{QtImport} {Z_stream} `{Zlib Z_stream} `{OpenSSL} `{ApiEnv}
    (language : Settings -> Language) fuel prepare (answers : nat -> Z * string) id shared servers services country a0 order :
  let f0 := newFeed id shared (language (ac_settings a0)) servers services country in
  (forall s v, language (setValue uuidKey v s) = language s) ->
  (forall k item, workItems f0 !! k = Some item -> outcomeAt language fuel prepare a0 f0 answers k item <> None) ->
  exists a f, (pump language fuel prepare ;; replies language fuel prepare answers order) (a0, f0) = Some (tt, (a, f))
    /\ FeedState language fuel prepare a0 f0 answers a f
    /\ forall k, k ∈ (fd_open f).*1 ->
       exists a' f', onConfigReply language fuel prepare k (answers k).1 (answers k).2 (a, f) = Some (tt, (a', f'))
         /\ 0 <= fd_pending f' < fd_pending f.
Proof.
  intros f0 Hl Hout. pose proof (newFeed_fresh id shared (language (ac_settings a0)) servers services country) as Hf. fold f0 in Hf.
  destruct (feed_inv_start language fuel prepare a0 f0 answers Hf) as (I & O & R).
  destruct (feed_pump language fuel prepare Hl a0 f0 answers a0 f0 Hf I O R) as (a1 & f1 & E1 & S1 & _); [done | done |].
  destruct (feed_replies language fuel prepare Hl a0 f0 answers order a1 f1 Hf Hout S1) as (a & f & E2 & S2).
  exists a, f. split_and!.
  - unfold mbind, PT_bind. by rewrite E1.
  - by apply settled_state.
  - intros k Hk. destruct (feed_reply language fuel prepare Hl a0 f0 answers a f k Hf Hout S2) as (a' & f' & E & S' & Hlt).
    exists a', f'. split_and!; [exact E | by eapply settled_pending | by apply Hlt].
Qed.

(** ** Samples *)

Module FeedSample.
(** Three nodes of one service; the second answer is a configuration. *)
Definition conn (uuid node : string) : json :=
  JObject (<["connection_uuid" := jstr uuid]> (<["node_id" := jstr node]> (<["country_code" := jstr "nl"]> ∅))).
Definition service : json :=
  JObject (<["service_protocol" := jstr "vless"]> (<["connections" := JArray [conn "u" "1"; conn "u" "2"; conn "v" "1"]]> ∅)).
Definition qt : Qt := QtInstance.concreteQt (fun s =>
    if String.eqb s "answer" then Some (<["config" := jstr "plain"]> ∅)
    else if String.eqb s "plain" then Some (<["hostName" := jstr "192.0.2.7"]> (<["containers" := JArray [JNull]]> ∅))
    else None) (fun _ => "{}"%string).
Definition import : QtImport := {|
  base64Raw := fun s => s; base64UrlRaw := fun s => s; qUncompress := fun _ => ""%string; fromUtf8 := fun s => s;
  jsonIndented := fun _ => "{}"%string; jsonReindented := fun s => s; qChecksum := fun _ => 0; toPercentEncoding := fun s => s |}.
Definition zlib : Zlib unit := {| inflateInit2 := fun _ => None; inflate := fun z => (Z_DATA_ERROR, ""%string, z) |}.
Definition env : ApiEnv := {|
  productType := "linux"; appVersion := "1.0"; languageName := fun _ => "en"%string; createUuid := fun n => "{" +:+ pretty n +:+ "}";
  rand_priv_bytes := fun _ => None; uninitialised := []; nowSecs := fun _ => 0 |}.
Definition start : ApiController :=
  mkApi (mkServers ∅ [] (-1) (-1) true (mkStacks ∅ ∅) ∅ [] [] [] []) "" "" false (-1) "" false false "" [] [] 0 [].
Definition answers (k : nat) : Z * string := if Nat.eqb k 1 then (NoError, "answer"%string) else (ApiConfigTimeoutError, ""%string).
Definition run := pump (H := qt) (H0 := import) (H1 := zlib) (H2 := toySSL) (H3 := env) (fun _ => OtherLanguage) 5 (fun _ => NoError) ;;
  replies (H := qt) (H0 := import) (H1 := zlib) (H2 := toySSL) (H3 := env) (fun _ => OtherLanguage) 5 (fun _ => NoError) answers [2; 0; 1]%nat.
Definition feed : Feed := newFeed "id" false OtherLanguage [] [service] "de".
Lemma some_not_none {A} (o : option A) : match o with Some _ => true | None => false end = true -> o <> None.
Proof. by destruct o. Qed.
End FeedSample.

(** The answers come from the last one on; the result is the second server. *)
Lemma feed_any_order_witness :
  exists a f, FeedSample.run (FeedSample.start, FeedSample.feed) = Some (tt, (a, f))
    /\ exists failures configs, fd_result f = [(true, configs, failures)] /\ length configs = 1%nat /\ "u|1" ∈ failures /\ "v|1" ∈ failures.
Proof.
  destruct (feed_any_order (H := FeedSample.qt) (H0 := FeedSample.import) (H1 := FeedSample.zlib) (H2 := toySSL) (H3 := FeedSample.env)
    (fun _ => OtherLanguage) 5 (fun _ => NoError) FeedSample.answers "id" false [] [FeedSample.service] "de" FeedSample.start [2; 0; 1]%nat)
    as (a & f & Hr & Hs & _).
  - done.
  - intros k item Hk. do 3 (destruct k as [| k]; [injection Hk as <-; apply FeedSample.some_not_none; by vm_compute |]). done.
  - exists a, f. split; [exact Hr |]. destruct Hs as (_ & _ & Hs).
    assert (feedFinished f = true) as Ef.
    { assert (option_map (fun r => feedFinished r.2.2) (FeedSample.run (FeedSample.start, FeedSample.feed)) = Some true) as E by by vm_compute.
      assert (FeedSample.run (FeedSample.start, FeedSample.feed) = Some (tt, (a, f))) as Er by exact Hr. rewrite Er in E. by injection E. }
    rewrite Ef in Hs. destruct Hs as (_ & failures & Hres & _ & Hkeys). eexists failures, _. split_and!; [exact Hres | by vm_compute | |];
      apply Hkeys; [exists 0%nat | exists 2%nat]; eexists; split_and!; by vm_compute.
Defined.
