(* ===== verification/ReconcileProofs.v ===== *)
(** * What a reload does to the stored servers

    After a subscription was fetched its servers are those of the feed, and
    the ones that could not be fetched stay; no other server is touched. *)

From Stdlib Require Import ZArith Lia Bool String Ascii.
From stdpp Require Import base gmap strings list pretty.
From S2P Require Import Prelude.
From S2P Require Import Qt.
From S2P Require Import Settings.
From S2P Require Import Containers.
From S2P Require Import ServerStore.
From S2P Require Import Servers.
From S2P Require Import ServersProofs.
From S2P Require Import VpnConfiguration.
From S2P Require Import ShareLinks.
From S2P Require Import Import.
From S2P Require Import ApiConfig.
From S2P Require Import Subscription.
From S2P Require Import SubscriptionProofs.

Open Scope Z_scope.

(** ** One server *)

Lemma frkn_of_id server : subscriptionIdForServer server <> ""%string -> isFrknSubscriptionServer server = true.
Proof. unfold subscriptionIdForServer. by destruct (isFrknSubscriptionServer server). Qed.

(** What the identity of a server depends on. *)
Lemma identity_ext s1 s2 :
  value s1 "api_config" = value s2 "api_config" -> value s1 "auth_data" = value s2 "auth_data" ->
  uuidOf s1 = uuidOf s2 /\ nodeOf s1 = nodeOf s2 /\ authDataOf s1 = authDataOf s2
  /\ (value s1 "config_version" = value s2 "config_version" -> subscriptionIdForServer s1 = subscriptionIdForServer s2).
Proof.
  intros E1 E2. unfold subscriptionIdForServer, isFrknSubscriptionServer, uuidOf, nodeOf, authDataOf, Model.configVersion, Model.apiConfig, sub.
  rewrite E1, E2. split_and!; [done | done | done | by intros ->].
Qed.

Lemma authId_withApiKey auth : authIdOf (withApiKey auth) = authIdOf auth.
Proof.
  unfold withApiKey, authIdOf. destruct (negb (jcontains auth "api_key") && jcontains auth "id") eqn:E; [| done]. zbool.
  assert (value auth "api_key" = None) as Hn by (unfold jcontains, value in *; by destruct (auth !! _)).
  unfold field. rewrite !value_jinsert. cbn [String.eqb Ascii.eqb Bool.eqb]. rewrite Hn. cbn. by destruct (String.eqb _ _).
Qed.

Lemma shareToken_withApiKey auth : jcontains (withApiKey auth) "share_token" = jcontains auth "share_token".
Proof.
  unfold withApiKey. destruct (_ && _); [| done]. unfold jcontains. fold (value auth "share_token").
  change (jinsert "api_key" (value auth "id") auth !! "share_token"%string) with (value (jinsert "api_key" (value auth "id") auth) "share_token").
  by rewrite value_jinsert.
Qed.

Lemma authData_both server auth : sub (sub server "api_config") "auth_data" = auth -> sub server "auth_data" = auth -> authDataOf server = auth.
Proof. intros E1 E2. unfold authDataOf. by case_bool_decide. Qed.

(** What an installed configuration keeps of the one of the feed. *)
Lemma toInstall_values config :
  value (configToInstall config) "auth_data" = Some (JObject (installAuth config))
  /\ value (configToInstall config) "api_config" = Some (JObject (<["auth_data"%string := JObject (installAuth config)]> (Model.apiConfig config)))
  /\ (forall k, k <> "auth_data"%string -> k <> "api_config"%string -> value (configToInstall config) k = value config k).
Proof.
  unfold configToInstall. cbv zeta. split_and!.
  - rewrite !value_insert. done.
  - rewrite !value_insert. done.
  - intros k H1 H2. rewrite !value_insert. by rewrite !(proj2 (String.eqb_neq _ k)) by done.
Qed.

Lemma toInstall_identity config : isFrknSubscriptionServer config = true ->
  isFrknSubscriptionServer (configToInstall config) = true
  /\ subscriptionIdForServer (configToInstall config) = subscriptionIdForServer config
  /\ uuidOf (configToInstall config) = uuidOf config /\ nodeOf (configToInstall config) = nodeOf config.
Proof.
  intros Hf. destruct (toInstall_values config) as (V1 & V2 & V3).
  assert (uuidOf (configToInstall config) = uuidOf config) as Eu.
  { unfold uuidOf, Model.apiConfig, sub at 1. rewrite V2. cbn [toObject]. unfold field. by rewrite value_insert. }
  assert (nodeOf (configToInstall config) = nodeOf config) as En.
  { unfold nodeOf, Model.apiConfig, sub at 1. rewrite V2. cbn [toObject]. unfold field. by rewrite value_insert. }
  assert (authDataOf (configToInstall config) = installAuth config) as Ea.
  { apply authData_both; [| unfold sub; by rewrite V1]. unfold sub at 2. rewrite V2. cbn [toObject]. unfold sub. by rewrite value_insert. }
  assert (isFrknSubscriptionServer (configToInstall config) = true) as Hf'.
  { unfold isFrknSubscriptionServer in *. zbool. unfold uuidOf in Eu. rewrite Eu.
    assert (jcontains (installAuth config) "share_token" = false) as Ht.
    { unfold installAuth. rewrite shareToken_withApiKey. unfold authDataOf. case_bool_decide; done. }
    unfold Model.configVersion. rewrite V3 by done. unfold Model.apiConfig, sub. rewrite V1, V2. cbn [toObject].
    rewrite !value_insert. cbn [String.eqb Ascii.eqb Bool.eqb toObject]. rewrite Ht.
    unfold Model.apiConfig, sub, Model.configVersion in *. repeat (apply andb_true_iff; split); try done; by apply negb_true_iff. }
  split_and!; [done | | done | done]. unfold subscriptionIdForServer. rewrite Hf, Hf', Ea. apply authId_withApiKey.
Qed.

(** What a refreshed server takes from the configuration and what it keeps. *)
Lemma refreshed_values new e :
  (forall k, k ∈ ["api_config"; "auth_data"; "hostName"; "containers"; "dns1"; "dns2"; "displayInfo"; "node_ips"]%string ->
     value (refreshedServer new e) k = value new k)
  /\ (forall k, k ∉ ["api_config"; "auth_data"; "hostName"; "containers"; "dns1"; "dns2"; "displayInfo"; "node_ips"; "description"; "name"]%string ->
     value (refreshedServer new e) k = value e k).
Proof.
  assert (forall k o, value (putText "description" (field new "description") o) k = value o k \/ k = "description"%string) as Hd.
  { intros k o. unfold putText. destruct (nonEmpty _); [| by left]. rewrite value_insert. destruct (String.eqb_spec "description" k); [by right | by left]. }
  assert (forall k o, k <> "node_ips"%string -> value (if jcontains new "node_ips" then jinsert "node_ips" (value new "node_ips") o else delete "node_ips"%string o) k = value o k) as Hn.
  { intros k o Hk. destruct (jcontains new "node_ips"); [rewrite value_jinsert; by rewrite (proj2 (String.eqb_neq _ k)) by done |].
    unfold value. by rewrite lookup_delete_ne. }
  assert (forall o, value (if jcontains new "node_ips" then jinsert "node_ips" (value new "node_ips") o else delete "node_ips"%string o) "node_ips" = value new "node_ips") as Hn'.
  { intros o. destruct (jcontains new "node_ips") eqn:E; [by rewrite value_jinsert |]. unfold jcontains, value in *. rewrite lookup_delete_eq. by destruct (new !! _). }
  unfold refreshedServer. cbv zeta. split; intros k Hk.
  - match goal with |- value (if ?b then <["name"%string := ?x]> ?o else ?o) k = _ => transitivity (value o k) end.
    { destruct (_ && _); [| done]. rewrite value_insert. destruct (String.eqb_spec "name" k) as [<- |]; [| done].
      exfalso. revert Hk. apply (bool_decide_unpack (_ ∉ _)). by vm_compute. }
    match goal with |- value (putText _ _ ?o) k = _ => destruct (Hd k o) as [-> | ->] end;
      [| exfalso; revert Hk; apply (bool_decide_unpack (_ ∉ _)); by vm_compute].
    destruct (decide (k = "node_ips"%string)) as [-> | Hne]; [apply Hn' |]. rewrite Hn by done. rewrite !value_jinsert.
    repeat (apply elem_of_cons in Hk as [-> | Hk]; [done |]). by apply elem_of_nil in Hk.
  - repeat (apply not_elem_of_cons in Hk as [? Hk]).
    match goal with |- value (if ?b then <["name"%string := ?x]> ?o else ?o) k = _ => transitivity (value o k) end.
    { destruct (_ && _); [| done]. rewrite value_insert. by destruct (String.eqb_spec "name" k) as [<- |]. }
    match goal with |- value (putText _ _ ?o) k = _ => destruct (Hd k o) as [-> | ->] end; [| done].
    rewrite Hn by done. rewrite !value_jinsert. by rewrite !(proj2 (String.eqb_neq _ k)) by done.
Qed.

Lemma refreshed_identity new e : isFrknSubscriptionServer new = true -> isFrknSubscriptionServer e = true ->
  subscriptionIdForServer (refreshedServer new e) = subscriptionIdForServer new
  /\ uuidOf (refreshedServer new e) = uuidOf new /\ nodeOf (refreshedServer new e) = nodeOf new.
Proof.
  intros Hn He. destruct (refreshed_values new e) as [Hc Hk].
  pose proof (Hc "api_config"%string ltac:(by_names)) as E1. pose proof (Hc "auth_data"%string ltac:(by_names)) as E2.
  pose proof (Hk "config_version"%string ltac:(by_names)) as E3.
  destruct (identity_ext _ _ E1 E2) as (Eu & En & Ea & _). split_and!; [| done | done].
  assert (isFrknSubscriptionServer (refreshedServer new e) = true) as Hf.
  { unfold isFrknSubscriptionServer, Model.configVersion, Model.apiConfig, sub in *. rewrite E1, E2, E3. zbool.
    repeat (apply andb_true_iff; split); try done; by apply negb_true_iff. }
  unfold subscriptionIdForServer. by rewrite Hf, Hn, Ea.
Qed.

(** ** The rows *)

Definition rowObject (v : json) : QJsonObject := toObject (Some v).
(** A server of the subscription that stands for a connection. *)
Definition owned (id : string) (v : json) : bool := String.eqb (subscriptionIdForServer (rowObject v)) id && nonEmpty (uuidOf (rowObject v)).
Definition keyOfRow (v : json) : string := keyOf (rowObject v).

(** What installing a configuration does to the list of servers. *)
Definition upsert (config : QJsonObject) (servers : list json) : list json :=
  match matchingRow config servers with
  | Some i => <[i := JObject (refreshedServer (configToInstall config) (toObject (servers !! i)))]> servers
  | None => servers ++ [JObject (configToInstall config)]
  end.
(** What the reload of one subscription makes of the stored servers. *)
Definition reconciled (id : string) (configs : list json) (failures : list string) (servers : list json) : list json :=
  fold_left (fun l c => upsert (rowObject c) l) configs
    (List.filter (fun v => negb (disappeared id (keysOf configs) failures (rowObject v))) servers).

(** A configuration without a connection matches nothing: it is added again by
    every reload. *)
Lemma unnamed_row_added config servers : uuidOf config = ""%string -> upsert config servers = servers ++ [JObject (configToInstall config)].
Proof. intros E. unfold upsert, matchingRow. by rewrite E. Qed.

Section Rows.
Context {arrayOf : string -> list json} {textOfArray : list json -> string}
  {storable : json -> Prop} `{!ArrayTextLaws arrayOf textOfArray storable}.
Implicit Types (a : ApiController) (m : ServersModel).

(** The new entry of a server, and what it can be merged into, have texts. *)
Definition installable (config : QJsonObject) : Prop :=
  storable (JObject (configToInstall config))
  /\ forall v, storable v -> storable (JObject (refreshedServer (configToInstall config) (rowObject v))).

Lemma mirrors_storable m i v : Mirrors (arrayOf := arrayOf) m -> m_servers m !! i = Some v -> storable v.
Proof.
  intros Hm Hi. rewrite (mir_servers _ Hm) in Hi. eapply Forall_lookup_1; [| exact Hi]. apply (servers_storable (textOfArray := textOfArray)).
Qed.

Lemma added_servers o m : Mirrors (arrayOf := arrayOf) m -> storable (JObject o) ->
  let m' := (Model.addServer arrayOf textOfArray o m).2 in Mirrors (arrayOf := arrayOf) m' /\ m_servers m' = m_servers m ++ [JObject o].
Proof.
  intros Hm Ho m'. pose proof (addServer_effect (arrayOf := arrayOf) (textOfArray := textOfArray) o m) as He. cbv beta in He. fold m' in He. split.
  - apply (mirrors_hushed _ _ He). eapply (added_mirrors (textOfArray := textOfArray) [JObject o]); [done | done | by repeat constructor].
  - transitivity (serversArray arrayOf (Store.addServer arrayOf textOfArray o (sm_settings m))); [exact (f_equal m_servers He) |].
    unfold Store.addServer. rewrite servers_set; [by rewrite (mir_servers _ Hm) |].
    apply Forall_app_2; [apply (servers_storable (textOfArray := textOfArray)) | by repeat constructor].
Qed.

Lemma edited_servers o i m : Mirrors (arrayOf := arrayOf) m -> (i < length (m_servers m))%nat -> storable (JObject o) ->
  exists m', Model.editServer arrayOf textOfArray o (Z.of_nat i) m = Some (tt, m') /\ Mirrors (arrayOf := arrayOf) m'
    /\ m_servers m' = <[i := JObject o]> (m_servers m).
Proof.
  intros Hm Hi Ho. assert (0 <= Z.of_nat i < Model.rowCount m) as Hr by (unfold Model.rowCount; lia).
  destruct (edit_mirrors o _ m Hm Hr Ho) as (m' & He & Hm'). exists m'. split_and!; [done | done |].
  destruct (editServer_ok (storable := storable) o _ m (mir_servers _ Hm) Hr Ho) as (s & m1 & He' & Ha & _ & Hh).
  assert (m1 = m') as -> by congruence. rewrite Nat2Z.id in Ha.
  transitivity (serversArray arrayOf s); [exact (f_equal m_servers Hh) | exact Ha].
Qed.

Lemma install_spec config a : Mirrors (arrayOf := arrayOf) (ac_servers a) -> installable config ->
  exists m', installSubscriptionConfigObject arrayOf textOfArray config a = Some (true, (setAcModel m' a).2)
    /\ Mirrors (arrayOf := arrayOf) m' /\ m_servers m' = upsert config (m_servers (ac_servers a)).
Proof.
  intros Hm [Hs1 Hs2]. unfold installSubscriptionConfigObject, upsert. cbv zeta. destruct (matchingRow config _) as [i |] eqn:E.
  - unfold matchingRow in E. destruct (nonEmpty _); [| done]. apply fmap_Some in E as ([j v] & E & ->).
    apply list_find_Some in E as (Hi & _ & _). cbn [fst].
    assert (Model.getServerConfig (ac_servers a) (Z.of_nat j) = rowObject v) as -> by (unfold Model.getServerConfig, Model.serverAt; by rewrite jat_nat, Hi).
    destruct (edited_servers (refreshedServer (configToInstall config) (rowObject v)) j _ Hm) as (m' & He & Hm' & Hl);
      [by apply lookup_lt_Some in Hi | apply Hs2; by apply (mirrors_storable _ _ _ Hm Hi) |].
    exists m'. split_and!; [| done | by rewrite Hl, Hi]. unfold mbind, PT_bind, onModelP. by rewrite He.
  - destruct (added_servers _ _ Hm Hs1) as [Hm' Hl]. destruct (Model.addServer _ _ _ _) as [[] m'] eqn:Ea. cbn [snd] in Hm', Hl.
    exists m'. split_and!; [| done | done]. unfold mbind, PT_bind, total, onModel, gets. rewrite Ea. cbn [fst snd setAcModel modify ac_servers].
    do 2 f_equal. unfold Model.rowCount. rewrite Hl, length_app. cbn [length]. apply Z.gtb_lt. lia.
Qed.

Lemma setAcModel_twice m1 m2 a : (setAcModel m2 (setAcModel m1 a).2).2 = (setAcModel m2 a).2.
Proof. done. Qed.

Lemma installAll_spec configs : forall n a, Mirrors (arrayOf := arrayOf) (ac_servers a) -> (forall c, c ∈ configs -> installable (rowObject c)) ->
  exists m', installAll arrayOf textOfArray configs n a = Some (n + Z.of_nat (length configs), (setAcModel m' a).2)
    /\ Mirrors (arrayOf := arrayOf) m' /\ m_servers m' = fold_left (fun l c => upsert (rowObject c) l) configs (m_servers (ac_servers a)).
Proof.
  induction configs as [| c configs IH]; intros n a Hm Hs.
  { exists (ac_servers a). split_and!; [| done | done]. cbn. rewrite Z.add_0_r. by destruct a. }
  destruct (install_spec (rowObject c) a Hm) as (m1 & E1 & Hm1 & L1); [apply Hs; left |].
  destruct (IH (n + 1) (setAcModel m1 a).2 Hm1) as (m' & E & Hm' & L); [intros c' Hc'; apply Hs; by right |].
  exists m'. split_and!; [| done | rewrite L; cbn [ac_servers setAcModel modify snd fold_left]; by rewrite L1].
  cbn [installAll]. unfold mbind, PT_bind. unfold rowObject in E1. rewrite E1. rewrite E, setAcModel_twice. do 2 f_equal. cbn [length]. lia.
Qed.

(** The rows are removed from the last one down. *)
Lemma removeRows_spec id fresh failures n : forall a, Mirrors (arrayOf := arrayOf) (ac_servers a) -> (n <= length (m_servers (ac_servers a)))%nat ->
  exists m', (removeRows arrayOf textOfArray n id fresh failures a).2 = (setAcModel m' a).2 /\ Mirrors (arrayOf := arrayOf) m'
    /\ m_servers m' = List.filter (fun v => negb (disappeared id fresh failures (rowObject v))) (take n (m_servers (ac_servers a)))
                      ++ drop n (m_servers (ac_servers a)).
Proof.
  induction n as [| n IH]; intros a Hm Hn.
  { exists (ac_servers a). split_and!; [by destruct a | done | done]. }
  destruct (lookup_lt_is_Some_2 (m_servers (ac_servers a)) n ltac:(lia)) as [v Hv]. cbn [removeRows]. rewrite then_eq, bind_eq. cbn [get fst snd].
  assert (Model.getServerConfig (ac_servers a) (Z.of_nat n) = rowObject v) as -> by (unfold Model.getServerConfig, Model.serverAt; by rewrite jat_nat, Hv).
  rewrite (take_S_r _ _ _ Hv), List.filter_app. cbn [List.filter]. destruct (disappeared id fresh failures (rowObject v)); cbn [negb].
  - destruct (removeServer_state (textOfArray := textOfArray) (Z.of_nat n) _ Hm) as (L1 & _).
    pose proof (remove_mirrors (textOfArray := textOfArray) (Z.of_nat n) _ Hm ltac:(lia)) as Hm1. unfold onModel.
    destruct (Model.removeServer _ _ _ _) as [[] m1]. cbn [snd] in L1, Hm1 |- *. unfold jremoveAt in L1.
    rewrite (proj2 (inRange_spec (Z.of_nat n) (m_servers (ac_servers a)))), Nat2Z.id in L1 by lia.
    destruct (IH (setAcModel m1 a).2 Hm1) as (m' & E & Hm' & L);
      [change (n <= length (m_servers m1))%nat; rewrite L1, length_delete by (by exists v); lia |].
    exists m'. split_and!; [by rewrite E | done |]. rewrite L. change (m_servers (ac_servers (setAcModel m1 a).2)) with (m_servers m1). rewrite L1.
    rewrite app_nil_r, delete_take_drop. by rewrite take_app_length', drop_app_length' by (rewrite length_take; lia).
  - destruct (IH a Hm ltac:(lia)) as (m' & E & Hm' & L). exists m'. split_and!; [exact E | done |]. rewrite L, (drop_S _ _ _ Hv), <- app_assoc. done.
Qed.

Lemma reconcile_spec id configs failures a :
  Mirrors (arrayOf := arrayOf) (ac_servers a) -> (forall c, c ∈ applyDisplayIndexAndSort configs -> installable (rowObject c)) ->
  exists m', reconcileSubscription arrayOf textOfArray id configs failures a = Some (tt, (setAcModel m' a).2)
    /\ Mirrors (arrayOf := arrayOf) m' /\ m_servers m' = reconciled id (applyDisplayIndexAndSort configs) failures (m_servers (ac_servers a)).
Proof.
  intros Hm Hs. unfold reconcileSubscription. cbv zeta. set (shown := applyDisplayIndexAndSort configs) in *.
  destruct (removeRows_spec id (keysOf shown) failures (length (m_servers (ac_servers a))) a Hm) as (m1 & E1 & Hm1 & L1); [done |].
  destruct (removeRows _ _ _ _ _ _ a) as [[] a1] eqn:Er. cbn [snd] in E1. subst a1.
  destruct (installAll_spec shown 0 (setAcModel m1 a).2 Hm1 Hs) as (m' & E & Hm' & L). exists m'. split_and!; [| done |].
  - erewrite pt_then by (unfold total; rewrite Er; reflexivity). erewrite pt_then by exact E. done.
  - rewrite L. change (m_servers (ac_servers (setAcModel m1 a).2)) with (m_servers m1). rewrite L1, firstn_all, drop_all, app_nil_r. done.
Qed.
End Rows.

(** ** What the rows are afterwards *)

(** Rows of other subscriptions, and of connections that are not fresh. *)
Definition untouched (id : string) (fresh : list string) (v : json) : bool := negb (owned id v && bool_decide (keyOfRow v ∈ fresh)).
Definition identity (v : json) : string * string := (uuidOf (rowObject v), nodeOf (rowObject v)).
(** The row [w] is that of the configuration [c]. *)
Definition installedFrom (id : string) (c w : json) : Prop :=
  owned id w = true /\ identity w = identity c
  /\ value (rowObject w) "hostName" = value (rowObject c) "hostName" /\ value (rowObject w) "containers" = value (rowObject c) "containers".

Lemma owned_frkn id v : id <> ""%string -> owned id v = true -> isFrknSubscriptionServer (rowObject v) = true /\ subscriptionIdForServer (rowObject v) = id.
Proof.
  intros Hid Ho. unfold owned in Ho. apply andb_true_iff in Ho as [Ho _]. apply String.eqb_eq in Ho. split; [| done].
  apply frkn_of_id. by rewrite Ho.
Qed.

Lemma key_of_identity v w : identity v = identity w -> keyOfRow v = keyOfRow w.
Proof. unfold identity, keyOfRow, keyOf. by intros [= -> ->]. Qed.

(** The row that is written, and the one it takes the place of. *)
Lemma upsert_cases id c l : id <> ""%string -> owned id c = true ->
  exists w, installedFrom id c w
    /\ ((exists i v, l !! i = Some v /\ owned id v = true /\ identity v = identity c /\ upsert (rowObject c) l = <[i := w]> l)
        \/ upsert (rowObject c) l = l ++ [w] /\ forall v, v ∈ l -> owned id v = true -> identity v <> identity c).
Proof.
  intros Hid Hc. destruct (owned_frkn _ _ Hid Hc) as [Hf Ei]. destruct (toInstall_identity _ Hf) as (Hf' & Ei' & Eu & En).
  destruct (toInstall_values (rowObject c)) as (_ & _ & Hv).
  pose proof Hc as Hu. unfold owned in Hu. apply andb_true_iff in Hu as [_ Hu].
  unfold upsert, matchingRow. rewrite Hu. destruct (list_find _ l) as [[i v] |] eqn:E; cbn [fmap option_fmap option_map fst].
  - apply list_find_Some in E as (Hi & Hs & _). unfold sameConnection in Hs. fold (rowObject v) in Hs.
    apply andb_true_iff in Hs as [Hs Hs3]. apply andb_true_iff in Hs as [Hs1 Hs2]. apply String.eqb_eq in Hs1, Hs2, Hs3.
    assert (owned id v = true) as Hov by (unfold owned; rewrite Hs1, Hs2, Hu, Ei; by rewrite String.eqb_refl).
    destruct (owned_frkn _ _ Hid Hov) as [Hfv _].
    destruct (refreshed_identity _ _ Hf' Hfv) as (R1 & R2 & R3). destruct (refreshed_values (configToInstall (rowObject c)) (rowObject v)) as [Rv _].
    exists (JObject (refreshedServer (configToInstall (rowObject c)) (rowObject v))).
    split; [| left; exists i, v; split_and!; [done | done | unfold identity; congruence | by rewrite Hi]].
    unfold installedFrom, owned, identity. change (rowObject (JObject ?o)) with o. split_and!.
    + rewrite R1, R2, Ei', Eu, Ei, Hu. by rewrite String.eqb_refl.
    + by rewrite R2, R3, Eu, En.
    + rewrite Rv by by_names. by apply Hv.
    + rewrite Rv by by_names. by apply Hv.
  - exists (JObject (configToInstall (rowObject c))). split; [| right; split; [reflexivity |]].
    + unfold installedFrom, owned, identity. change (rowObject (JObject ?o)) with o. split_and!; [| | by apply Hv | by apply Hv].
      * rewrite Ei', Eu, Ei, Hu. by rewrite String.eqb_refl.
      * by rewrite Eu, En.
    + intros v Hin Hov Hid'. apply list_find_None in E. rewrite Forall_forall in E. apply (E v Hin). injection Hid' as E1 E2.
      destruct (owned_frkn _ _ Hid Hov) as [_ Hiv]. unfold sameConnection. fold (rowObject v). rewrite Hiv, E1, E2, Ei. by rewrite !String.eqb_refl.
Qed.

Lemma filter_insert_false {A} (p : A -> bool) l i v w :
  l !! i = Some v -> p v = false -> p w = false -> List.filter p (<[i := w]> l) = List.filter p l.
Proof.
  revert i. induction l as [| x l IH]; intros [| i] Hi Hv Hw; try done.
  - injection Hi as ->. cbn. by rewrite Hv, Hw.
  - change (<[S i := w]> (x :: l)) with (x :: <[i := w]> l). cbn [List.filter]. by rewrite (IH i).
Qed.

Lemma upsert_filter id c l p : id <> ""%string -> owned id c = true ->
  (forall v, owned id v = true -> identity v = identity c -> p v = false) ->
  List.filter p (upsert (rowObject c) l) = List.filter p l.
Proof.
  intros Hid Hc Hp. destruct (upsert_cases id c l Hid Hc) as (w & (Hw1 & Hw2 & _) & [(i & v & Hi & Hv1 & Hv2 & ->) | [-> _]]).
  - by eapply filter_insert_false; [exact Hi | by apply Hp | by apply Hp].
  - rewrite List.filter_app. cbn. rewrite (Hp w) by done. by rewrite app_nil_r.
Qed.

Lemma upsert_keeps id c l w : id <> ""%string -> owned id c = true -> w ∈ l -> identity w <> identity c -> w ∈ upsert (rowObject c) l.
Proof.
  intros Hid Hc Hw Hne. destruct (upsert_cases id c l Hid Hc) as (w' & _ & [(i & v & Hi & _ & Hv & ->) | [-> _]]); [| apply elem_of_app; by left].
  apply list_elem_of_lookup in Hw as [j Hj]. apply list_elem_of_lookup. exists j. rewrite list_lookup_insert_ne; [done |].
  intros ->. congruence.
Qed.

(** A connection has one row, if it had not more before. *)
Definition identities (id : string) (l : list json) : list (string * string) := map identity (List.filter (owned id) l).
Lemma upsert_once id c l : id <> ""%string -> owned id c = true -> NoDup (identities id l) -> NoDup (identities id (upsert (rowObject c) l)).
Proof.
  intros Hid Hc Hn. destruct (upsert_cases id c l Hid Hc) as (w & (Hw1 & Hw2 & _) & [(i & v & Hi & Hv1 & Hv2 & ->) | [-> Hne]]).
  - replace (identities id (<[i := w]> l)) with (identities id l); [done |]. unfold identities. clear Hn Hc. revert i Hi.
    induction l as [| x l IH]; intros [| i] Hi; try done.
    + injection Hi as ->. cbn. rewrite Hv1, Hw1. cbn. congruence.
    + change (<[S i := w]> (x :: l)) with (x :: <[i := w]> l). cbn [List.filter].
      destruct (owned id x); cbn [map]; by rewrite (IH i Hi).
  - unfold identities. rewrite List.filter_app, map_app. cbn. rewrite Hw1. cbn. apply NoDup_app. split_and!; [done | | apply NoDup_singleton].
    intros x (v & -> & Hin)%list_elem_of_fmap Hx%list_elem_of_singleton. apply list_elem_of_In, List.filter_In in Hin as [Hin Ho].
    rewrite Hw2 in Hx. by apply (Hne v (proj2 (list_elem_of_In _ _) Hin) Ho).
Qed.

Section Reconciled.
Context (id : string) (Hid : id <> ""%string).

Lemma fold_upsert configs : forall l, (forall c, c ∈ configs -> owned id c = true) ->
  let after := fold_left (fun l c => upsert (rowObject c) l) configs l in
  (forall p, (forall c v, c ∈ configs -> owned id v = true -> identity v = identity c -> p v = false) -> List.filter p after = List.filter p l)
  /\ (forall w, w ∈ l -> (forall c, c ∈ configs -> identity w <> identity c) -> w ∈ after)
  /\ (NoDup (identities id l) -> NoDup (identities id after))
  /\ (NoDup (map keyOfRow configs) -> forall c, c ∈ configs -> exists w, w ∈ after /\ installedFrom id c w).
Proof.
  induction configs as [| c configs IH]; intros l Ho; [split_and!; try done; by intros _ c ?%elem_of_nil |]. cbn [fold_left].
  assert (owned id c = true) as Hc by (apply Ho; left).
  destruct (IH (upsert (rowObject c) l)) as (F1 & F2 & F3 & F4); [intros c' Hc'; apply Ho; by right |]. split_and!.
  - intros p Hp. rewrite F1; [| intros c' v Hc'; apply Hp; by right]. eapply upsert_filter; [exact Hid | exact Hc |]. intros v. apply Hp. left.
  - intros w Hw Hne. apply F2; [| intros c' Hc'; apply Hne; by right]. eapply upsert_keeps; [exact Hid | exact Hc | done | apply Hne; left].
  - intros Hn. apply F3. by apply upsert_once.
  - intros Hn c' Hc'. cbn [map] in Hn. apply NoDup_cons in Hn as [Hnew Hn]. apply elem_of_cons in Hc' as [-> | Hc']; [| by apply F4].
    destruct (upsert_cases id c l Hid Hc) as (w & Hw & Hl). exists w. split; [| exact Hw]. apply F2.
    + destruct Hl as [(i & v & Hi & _ & _ & ->) | [-> _]]; [apply list_elem_of_insert; by apply lookup_lt_Some in Hi | apply elem_of_app; right; left].
    + intros d Hd Hk. apply Hnew. destruct Hw as (_ & Hw & _). apply list_elem_of_fmap. exists d. split; [| done]. apply key_of_identity. congruence.
Qed.
End Reconciled.

(** The configurations as they are shown have the keys of the feed. *)
Lemma indexed_identity n config :
  subscriptionIdForServer (indexedConfig n config) = subscriptionIdForServer config
  /\ uuidOf (indexedConfig n config) = uuidOf config /\ nodeOf (indexedConfig n config) = nodeOf config
  /\ forall k, k <> "displayInfo"%string -> k <> "name"%string -> value (indexedConfig n config) k = value config k.
Proof.
  assert (forall k, k <> "displayInfo"%string -> k <> "name"%string -> value (indexedConfig n config) k = value config k) as Hv.
  { intros k H1 H2. unfold indexedConfig. cbv zeta. rewrite !value_insert. by rewrite !(proj2 (String.eqb_neq _ k)) by done. }
  destruct (identity_ext (indexedConfig n config) config) as (E1 & E2 & _ & E4); [by apply Hv | by apply Hv |]. split_and!; [by apply E4, Hv | done | done | done].
Qed.

Lemma shown_rows configs :
  (forall c, c ∈ configs -> exists n, JObject (indexedConfig n (rowObject c)) ∈ applyDisplayIndexAndSort configs)
  /\ (forall w, w ∈ applyDisplayIndexAndSort configs -> exists n c, c ∈ configs /\ w = JObject (indexedConfig n (rowObject c)))
  /\ keysOf (applyDisplayIndexAndSort configs) ≡ₚ keysOf configs.
Proof.
  unfold applyDisplayIndexAndSort. pose proof (stableSort_perm rankOf (indexConfigs configs [] configs)) as Hp.
  pose proof (fun i => indexConfigs_lookup configs configs [] i eq_refl) as Hl. split_and!.
  - intros c [i Hi]%list_elem_of_lookup. eexists. rewrite Hp. apply list_elem_of_lookup. exists i. rewrite Hl, Hi. reflexivity.
  - intros w. rewrite Hp. intros [i Hi]%list_elem_of_lookup. rewrite Hl in Hi. apply fmap_Some in Hi as (c & Hc & ->).
    eexists _, c. split; [| reflexivity]. by eapply list_elem_of_lookup_2.
  - transitivity (keysOf (indexConfigs configs [] configs)); [unfold keysOf; by apply Permutation_map |].
    replace (keysOf (indexConfigs configs [] configs)) with (keysOf configs); [done |]. symmetry. unfold keysOf. apply list_eq. intros i. rewrite !list_lookup_fmap, Hl. destruct (configs !! i) as [c |]; [| done]. cbn.
    f_equal. unfold keyOf. destruct (indexed_identity (displayNumber configs i c) (rowObject c)) as (_ & E1 & E2 & _). cbn in E1, E2.
    unfold rowObject in E1, E2. by rewrite E1, E2.
Qed.

(** The rows that stay, seen through what is not touched. *)
Lemma stay_filter id fresh fresh' failures l : fresh' ≡ₚ fresh ->
  List.filter (untouched id fresh) (List.filter (fun v => negb (disappeared id fresh' failures (rowObject v))) l)
  = List.filter (fun v => untouched id fresh v && (negb (owned id v) || bool_decide (keyOfRow v ∈ failures))) l.
Proof.
  intros Hp. induction l as [| v l IH]; [done |]. cbn [List.filter].
  assert (disappeared id fresh' failures (rowObject v)
    = owned id v && negb (bool_decide (keyOfRow v ∈ fresh)) && negb (bool_decide (keyOfRow v ∈ failures))) as ->.
  { unfold disappeared, owned, keyOfRow. do 3 f_equal. by apply bool_decide_ext; rewrite Hp. }
  unfold untouched at 2 3. destruct (owned id v) eqn:Ev, (bool_decide (keyOfRow v ∈ fresh)) eqn:Ek,
    (bool_decide (keyOfRow v ∈ failures)); cbn [andb orb negb List.filter]; unfold untouched at 1; rewrite ?Ev, ?Ek; cbn [andb negb];
    rewrite ?IH; done.
Qed.

Lemma identities_filter id p l : NoDup (identities id l) -> NoDup (identities id (List.filter p l)).
Proof.
  unfold identities. induction l as [| v l IH]; intros Hb; [done |]. cbn [List.filter] in *.
  assert (NoDup (map identity (List.filter (owned id) l))) as Hb' by (destruct (owned id v); [by apply NoDup_cons in Hb as [_ Hb] | done]).
  destruct (p v); [| by apply IH]. cbn [List.filter]. destruct (owned id v); [| by apply IH].
  cbn [map] in *. apply NoDup_cons in Hb as [Hv Hb]. constructor; [| by apply IH]. intros (w & Ew & Hin)%list_elem_of_fmap.
  apply Hv. apply list_elem_of_fmap. exists w. split; [done |]. apply list_elem_of_In, List.filter_In in Hin as [Hin Hw].
  apply List.filter_In in Hin as [Hin _]. apply list_elem_of_In, List.filter_In. done.
Qed.

Section Reconcile.
Context {arrayOf : string -> list json} {textOfArray : list json -> string}
  {storable : json -> Prop} `{!ArrayTextLaws arrayOf textOfArray storable}.

(** C7 (functional): a reload of a subscription does to the stored servers
    what its feed says.  For configurations of the subscription that stand for
    different connections: every row of another subscription, and every row of
    a connection that could not be fetched, stays as it is and in its place
    among the others; the rows of connections that are neither in the feed nor
    failed are gone; every configuration of the feed has a row with its address
    and its containers; and a connection that had one row has one. *)
Theorem reconcile_exact id configs failures a :
  Mirrors (arrayOf := arrayOf) (ac_servers a) ->
  (forall c, c ∈ applyDisplayIndexAndSort configs -> installable (storable := storable) (rowObject c)) ->
  id <> ""%string -> (forall c, c ∈ configs -> owned id c = true) -> NoDup (keysOf configs) ->
  exists a', reconcileSubscription arrayOf textOfArray id configs failures a = Some (tt, a')
    /\ Mirrors (arrayOf := arrayOf) (ac_servers a')
    /\ let before := m_servers (ac_servers a) in
       let after := m_servers (ac_servers a') in
       List.filter (untouched id (keysOf configs)) after
         = List.filter (fun v => untouched id (keysOf configs) v && (negb (owned id v) || bool_decide (keyOfRow v ∈ failures))) before
       /\ (forall c, c ∈ configs -> exists w, w ∈ after /\ installedFrom id c w)
       /\ (NoDup (identities id before) -> NoDup (identities id after)).
Proof.
  intros Hm Hs Hid Ho Hn. destruct (reconcile_spec id configs failures a Hm Hs) as (m' & E & Hm' & L).
  exists (setAcModel m' a).2. split; [exact E |]. split; [exact Hm' |]. cbv zeta.
  change (m_servers (ac_servers (setAcModel m' a).2)) with (m_servers m'). rewrite L. unfold reconciled.
  destruct (shown_rows configs) as (S1 & S2 & S3). set (shown := applyDisplayIndexAndSort configs) in *.
  set (before := m_servers (ac_servers a)). set (stay := List.filter _ before).
  assert (forall c, c ∈ shown -> owned id c = true) as Hos.
  { intros w Hw. destruct (S2 _ Hw) as (n & c & Hc & ->). destruct (indexed_identity n (rowObject c)) as (E1 & E2 & _).
    pose proof (Ho _ Hc) as Hoc. unfold owned in *. change (rowObject (JObject ?o)) with o. by rewrite E1, E2. }
  destruct (fold_upsert id Hid shown stay Hos) as (F1 & _ & F3 & F4). split_and!.
  - rewrite F1.
    + by apply stay_filter.
    + intros c v Hc Hv Hi. unfold untouched. rewrite Hv, bool_decide_eq_true_2; [done |]. rewrite <- S3. unfold keysOf.
      apply list_elem_of_fmap. exists c. split; [| done]. by apply key_of_identity.
  - intros c Hc. destruct (S1 c Hc) as [n Hw]. destruct (F4 ltac:(change (NoDup (keysOf shown)); by rewrite S3) _ Hw) as (w & Hin & Hw1 & Hw2 & Hw3 & Hw4).
    exists w. split; [exact Hin |]. destruct (indexed_identity n (rowObject c)) as (_ & E2 & E3 & E4). unfold installedFrom. split_and!; [done | | |].
    + rewrite Hw2. unfold identity. change (rowObject (JObject ?o)) with o. by rewrite E2, E3.
    + rewrite Hw3. by apply E4.
    + rewrite Hw4. by apply E4.
  - intros Hb. by apply F3, identities_filter.
Qed.
End Reconcile.

(** ** Samples *)

(** Arrays of values from a catalogue, as the texts of their numbers. *)
Module Codes.
Section Codes.
Context (catalogue : list json) (Hsmall : (length catalogue <= 256)%nat).
Definition storable (v : json) : Prop := v ∈ catalogue.
Definition code (v : json) : Ascii.ascii := Ascii.ascii_of_nat (default 0%nat (fst <$> list_find (fun w => w = v) catalogue)).
Definition textOfArray (l : list json) : string := string_of_list_ascii (map code l).
Definition arrayOf (s : string) : list json := omap (fun c => catalogue !! Ascii.nat_of_ascii c) (list_ascii_of_string s).
Lemma laws : ArrayTextLaws arrayOf textOfArray storable.
Proof.
  split.
  - intros l Hl. unfold arrayOf, textOfArray. rewrite list_ascii_of_string_of_list_ascii.
    induction Hl as [| v l Hv _ IH]; [done |]. cbn. unfold code at 1.
    destruct (list_find (fun w => w = v) catalogue) as [[i w] |] eqn:E.
    + apply list_find_Some in E as (Hi & -> & _). cbn. rewrite Ascii.nat_ascii_embedding by (apply lookup_lt_Some in Hi; lia).
      rewrite Hi. cbn. by rewrite IH.
    + apply list_find_None in E. rewrite Forall_forall in E. by destruct (E v Hv).
  - intros s. apply Forall_forall. intros v Hv. unfold arrayOf in Hv. apply list_elem_of_omap in Hv as (c & _ & Hc).
    by eapply list_elem_of_lookup_2.
Qed.
End Codes.
End Codes.

Module ReconcileSample.
Definition row (id uuid host : string) : json :=
  JObject (<["hostName" := jstr host]> (<["containers" := JArray [JNull]]> (<["config_version" := jint 2]>
    (<["auth_data" := JObject {["api_key"%string := jstr id]}]>
    (<["api_config" := JObject (<["connection_uuid" := jstr uuid]> (<["node_id" := jstr "1"]> ∅))]> ∅))))).
(** One row of each kind. *)
Definition before : list json := [row "B" "u" "192.0.2.1"; row "A" "u" "192.0.2.2"; row "A" "gone" "192.0.2.3"; row "A" "failed" "192.0.2.4"].
Definition configs : list json := [row "A" "u" "192.0.2.9"].
Definition shown : list json := applyDisplayIndexAndSort configs.
Definition new (c : json) : QJsonObject := configToInstall (rowObject c).
Definition base : list json := before ++ map (fun c => JObject (new c)) shown.
Definition catalogue : list json :=
  base ++ concat (map (fun c => map (fun v => JObject (refreshedServer (new c) (rowObject v))) base) shown).
Definition arrayOf := Codes.arrayOf catalogue.
Definition textOfArray := Codes.textOfArray catalogue.
#[export] Instance laws : ArrayTextLaws arrayOf textOfArray (Codes.storable catalogue).
Proof. apply Codes.laws. vm_compute. lia. Qed.
Definition model : ServersModel :=
  let s := Store.setDefaultServer 0 (Store.setServersArray textOfArray before ∅) in
  (Model.resetModel arrayOf (mkServers s [] (-1) (-1) true (mkStacks ∅ ∅) ∅ [] [] [] [])).2.
Definition start : ApiController := mkApi model "" "" false (-1) "" false false "" [] [] 0 [].
Lemma mirrors : Mirrors (arrayOf := arrayOf) model.
Proof. constructor; [by vm_compute | by vm_compute | by vm_compute | by vm_compute]. Qed.
Lemma closed : forall c, c ∈ shown -> installable (storable := Codes.storable catalogue) (rowObject c).
Proof.
  intros c Hc. split; unfold Codes.storable.
  - assert (Forall (fun c => JObject (configToInstall (rowObject c)) ∈ catalogue) shown) as Hf by (apply (bool_decide_unpack _); by vm_compute).
    rewrite Forall_forall in Hf. by apply Hf.
  - assert (Forall (fun c => Forall (fun v => JObject (refreshedServer (configToInstall (rowObject c)) (rowObject v)) ∈ catalogue) catalogue) shown) as Hf
      by (apply (bool_decide_unpack _); by vm_compute).
    rewrite Forall_forall in Hf. specialize (Hf c Hc). by rewrite Forall_forall in Hf.
Qed.
End ReconcileSample.

(** The row of the feed is refreshed, one is gone, two are kept. *)
Lemma reconcile_exact_witness :
  exists a', reconcileSubscription ReconcileSample.arrayOf ReconcileSample.textOfArray "A" ReconcileSample.configs ["failed|1"%string] ReconcileSample.start = Some (tt, a')
    /\ List.filter (untouched "A" ["u|1"%string]) (m_servers (ac_servers a')) = [ReconcileSample.row "B" "u" "192.0.2.1"; ReconcileSample.row "A" "failed" "192.0.2.4"]
    /\ exists w, w ∈ m_servers (ac_servers a') /\ installedFrom "A" (ReconcileSample.row "A" "u" "192.0.2.9") w.
Proof.
  destruct (reconcile_exact (ArrayTextLaws0 := ReconcileSample.laws) "A" ReconcileSample.configs ["failed|1"%string] ReconcileSample.start
    ReconcileSample.mirrors ReconcileSample.closed) as (a' & E & _ & H1 & H2 & _).
  - done.
  - intros c ->%list_elem_of_singleton. by vm_compute.
  - apply NoDup_singleton.
  - exists a'. split_and!; [exact E | | apply H2; left].
    transitivity (List.filter (fun v => untouched "A" (keysOf ReconcileSample.configs) v
      && (negb (owned "A" v) || bool_decide (keyOfRow v ∈ ["failed|1"%string]))) (m_servers (ac_servers ReconcileSample.start)));
      [exact H1 | by vm_compute].
Defined.
