(* ===== verification/ReloadProofs.v ===== *)
(** * How a reload of all subscriptions ends

    Every subscription is fetched once and reconciled when that worked; then
    the selection is restored, one signal says so at most, and the next reload
    can start. *)

From Stdlib Require Import ZArith Lia Bool String Ascii.
From stdpp Require Import base gmap strings list pretty.
From S2P Require Import Prelude.
From S2P Require Import Qt.
From S2P Require Import Settings.
From S2P Require Import Containers.
From S2P Require Import ServerStore.
From S2P Require Import Servers.
From S2P Require Import ServersProofs.
From S2P Require Import VpnConfiguration.
From S2P Require Import ShareLinks.
From S2P Require Import Import.
From S2P Require Import ApiConfig.
From S2P Require Import Subscription.
From S2P Require Import SubscriptionProofs.
From S2P Require Import ReconcileProofs.

Open Scope Z_scope.

Section Reload.
Context `{ApiEnv} {arrayOf : string -> list json} {textOfArray : list json -> string}
  {storable : json -> Prop} `{!ArrayTextLaws arrayOf textOfArray storable}.
Implicit Types (a : ApiController) (r : Reload).
Local Abbreviation Mirrors := (Mirrors (arrayOf := arrayOf)).

(** ** What the end of a reload leaves alone *)

Definition Kept a a' : Prop :=
  m_servers (ac_servers a') = m_servers (ac_servers a) /\ ac_out a' = ac_out a
  /\ m_subscriptionReloadRunning a' = m_subscriptionReloadRunning a /\ m_subscriptionReloadNotify a' = m_subscriptionReloadNotify a
  /\ m_pendingCatalogVersion a' = m_pendingCatalogVersion a /\ (Mirrors (ac_servers a) -> Mirrors (ac_servers a')).

Lemma kept_trans a1 a2 a3 : Kept a1 a2 -> Kept a2 a3 -> Kept a1 a3.
Proof. intros (E1 & E2 & E3 & E4 & E5 & E6) (F1 & F2 & F3 & F4 & F5 & F6). split_and!; [congruence .. | tauto]. Qed.

Lemma mirrors_setting k v m : k <> "Servers/serversList"%string -> k <> "Servers/defaultServerIndex"%string ->
  Mirrors m -> Mirrors (setSettings (setValue k v (sm_settings m)) m).2.
Proof.
  intros H1 H2 [M1 M2 M3 M4]. constructor; [| | exact M3 | exact M4].
  - change (m_servers m = serversArray arrayOf (setValue k v (sm_settings m))). rewrite M1. unfold serversArray. by rewrite confValue_ne.
  - change (m_defaultServerIndex m = defaultServerIndex (setValue k v (sm_settings m))). rewrite M2. unfold defaultServerIndex. by rewrite confValue_ne.
Qed.

Lemma kept_settings k v a : k <> "Servers/serversList"%string -> k <> "Servers/defaultServerIndex"%string -> Kept a (onSettings (setValue k v) a).2.
Proof.
  intros H1 H2. split_and!; try done. by apply mirrors_setting.
Qed.

Lemma kept_default i a : -1 <= i < Z.max 1 (Model.rowCount (ac_servers a)) -> Kept a (onModel (Model.setDefaultServerIndex i) a).2.
Proof.
  intros Hi. pose proof (setDefault_effect i (ac_servers a)) as He. unfold onModel.
  destruct (Model.setDefaultServerIndex i (ac_servers a)) as [[] m']. cbn [snd] in *.
  split_and!; try done; [exact (f_equal m_servers He) |]. intros Hm. apply (mirrors_hushed _ _ He). constructor; members.
  - rewrite servers_setDefault. apply (mir_servers _ Hm).
  - by rewrite default_setDefault.
  - exact Hi.
  - exact (mir_subscriptions _ Hm).
Qed.

(** The selection is restored to a row of the list, or left alone. *)
Lemma restored_range r servers :
  restoredIndex r servers = -1 /\ servers = [] \/ 0 <= restoredIndex r servers < Z.of_nat (length servers).
Proof.
  unfold restoredIndex. destruct (nonEmpty (prevConnectionUuid r)).
  - destruct (list_find _ servers) as [[i v] |] eqn:E.
    + right. apply list_find_Some in E as (Hi & _). apply lookup_lt_Some in Hi. lia.
    + destruct servers; cbn; [by left | right; lia].
  - destruct servers; cbn; [by left | right; lia].
Qed.

(** A selected server without a connection is not selected again: the first
    row takes its place. *)
Lemma selection_lost r servers : prevConnectionUuid r = ""%string -> servers <> [] -> restoredIndex r servers = 0.
Proof. intros E Hs. unfold restoredIndex. rewrite E. by destruct servers. Qed.

(** ** The end *)

Definition versionKey : string := "Conf/lastCatalogVersion".
Definition finishedSignal (anyFetched notify : bool) : list ApiOutput :=
  if anyFetched then [reloadSubscriptionConfigsFinished true] else if notify then [reloadSubscriptionConfigsFinished false] else [].

Lemma finishReload_spec r a : Mirrors (ac_servers a) ->
  let a' := (finishReload r a).2 in
  Mirrors (ac_servers a') /\ m_servers (ac_servers a') = m_servers (ac_servers a)
  /\ m_subscriptionReloadRunning a' = false /\ m_subscriptionReloadNotify a' = false
  /\ ac_out a' = ac_out a ++ finishedSignal (anyFetched r) (m_subscriptionReloadNotify a)
  /\ (nonEmpty (m_pendingCatalogVersion a) = true ->
      confValue (ac_settings a') versionKey (VString "") = VString (m_pendingCatalogVersion a) /\ m_pendingCatalogVersion a' = ""%string).
Proof.
  intros Hm a'. unfold a', finishReload. rewrite then_eq.
  match goal with |- context [(?f a).2] => set (a1 := (f a).2) end.
  assert (Kept a a1) as K1.
  { unfold a1. rewrite bind_eq. cbn [get fst snd]. cbv zeta. destruct (restored_range r (m_servers (ac_servers a))) as [[-> _] | Hr].
    - change (-1 >=? 0) with false. cbv iota. by split_and!.
    - rewrite (proj2 (Z.geb_le _ _)) by lia. apply kept_default. unfold Model.rowCount. lia. }
  clearbody a1. rewrite then_eq. match goal with |- context [(?f a1).2] => set (a3 := (f a1).2) end.
  assert (Kept a1 a3) as K2.
  { unfold a3. rewrite bind_eq. cbn [get fst snd]. cbv zeta. rewrite then_eq. eapply kept_trans; by apply kept_settings. }
  clearbody a3. destruct (kept_trans _ _ _ K1 K2) as (E1 & E2 & E3 & E4 & E5 & E6).
  clear K1 K2. specialize (E6 Hm). rewrite then_eq. match goal with |- context [(?f a3).2] => set (a4 := (f a3).2) end.
  assert (m_servers (ac_servers a4) = m_servers (ac_servers a3) /\ ac_out a4 = ac_out a3
    /\ m_subscriptionReloadNotify a4 = m_subscriptionReloadNotify a3 /\ Mirrors (ac_servers a4)
    /\ (nonEmpty (m_pendingCatalogVersion a) = true ->
        confValue (ac_settings a4) versionKey (VString "") = VString (m_pendingCatalogVersion a) /\ m_pendingCatalogVersion a4 = ""%string))
    as (F1 & F2 & F4 & F5 & F6).
  { unfold a4. rewrite bind_eq. cbn [get fst snd]. rewrite E5. destruct (nonEmpty (m_pendingCatalogVersion a)) eqn:Ep; [| by split_and!].
    rewrite then_eq. destruct (kept_settings versionKey (VString (m_pendingCatalogVersion a)) a3) as (V1 & V2 & V3 & V4 & V5 & V6); [done | done |].
    split_and!; [exact V1 | exact V2 | exact V4 | by apply V6 |]. intros _. split; [apply confValue_eq | done]. }
  clearbody a4. rewrite bind_eq. cbn [get fst snd]. rewrite then_eq. rewrite <- E4, <- F4, <- E2, <- F2, <- E1, <- F1. clear -F5 F6.
  destruct (anyFetched r).
  - rewrite then_eq. split_and!; try done; [by apply mirrors_setting |].
    intros Hp. destruct (F6 Hp) as [G1 G2]. split; [| exact G2].
    change (confValue (setValue "Conf/absentSubscriptionNodes" (VMap []) (ac_settings a4)) versionKey (VString "") = VString (m_pendingCatalogVersion a)).
    by rewrite confValue_ne.
  - unfold finishedSignal. destruct (m_subscriptionReloadNotify a4); split_and!; try done. cbn. by rewrite app_nil_r.
Qed.

(** ** The whole reload *)

(** What a feed came back with: whether it worked, its configurations and the
    keys it could not fetch. *)
Definition FeedResult : Type := (bool * list json * list string)%type.
Definition feedOk (f : FeedResult) : bool := f.1.1.
(** The results of the feeds, one after the other. *)
Fixpoint runReload (feeds : list FeedResult) (running : option (string * Reload)) : PT ApiController (option (string * Reload)) :=
  match running, feeds with
  | Some (id, r), f :: feeds' => next ← onReloaded arrayOf textOfArray id r f; runReload feeds' next
  | _, _ => mret running
  end.
(** What the feeds of the subscriptions make of the list of servers. *)
Definition reloadedServers (ids : list string) (feeds : list FeedResult) (servers : list json) : list json :=
  fold_left (fun l '(id, f) => if feedOk f then reconciled id (applyDisplayIndexAndSort f.1.2) f.2 l else l) (zip ids feeds) servers.
Definition requested (outs : list ApiOutput) : list string :=
  omap (fun o => match o with postServices id _ => Some id | _ => None end) outs.
Definition FeedsInstallable (feeds : list FeedResult) : Prop :=
  forall f c, f ∈ feeds -> feedOk f = true -> c ∈ applyDisplayIndexAndSort f.1.2 -> installable (storable := storable) (rowObject c).

(** A feed that worked is reconciled, another one changes nothing. *)
Lemma feed_result id (f : FeedResult) a : Mirrors (ac_servers a) -> FeedsInstallable [f] ->
  exists m', (if feedOk f then reconcileSubscription arrayOf textOfArray id f.1.2 f.2 else mret tt) a = Some (tt, (setAcModel m' a).2)
    /\ Mirrors m' /\ m_servers m' = if feedOk f then reconciled id (applyDisplayIndexAndSort f.1.2) f.2 (m_servers (ac_servers a)) else m_servers (ac_servers a).
Proof.
  intros Hm Hi. destruct (feedOk f) eqn:E; [| exists (ac_servers a); split_and!; [by destruct a | done | done]].
  apply reconcile_spec; [done |]. intros c Hc. apply (Hi f c); [left | done | done].
Qed.

Lemma runReload_spec feeds : forall id r a,
  Mirrors (ac_servers a) -> FeedsInstallable feeds -> length feeds = S (length (remaining r)) ->
  exists a' outs, runReload feeds (Some (id, r)) a = Some (None, a') /\ Mirrors (ac_servers a')
    /\ m_subscriptionReloadRunning a' = false /\ m_subscriptionReloadNotify a' = false
    /\ ac_out a' = ac_out a ++ outs ++ finishedSignal (anyFetched r || existsb feedOk feeds) (m_subscriptionReloadNotify a)
    /\ requested outs = remaining r /\ length outs = length (remaining r)
    /\ m_servers (ac_servers a') = reloadedServers (id :: remaining r) feeds (m_servers (ac_servers a))
    /\ (nonEmpty (m_pendingCatalogVersion a) = true ->
        confValue (ac_settings a') versionKey (VString "") = VString (m_pendingCatalogVersion a) /\ m_pendingCatalogVersion a' = ""%string).
Proof.
  induction feeds as [| f feeds IH]; intros id r a Hm Hi Hlen; [done |].
  destruct (feed_result id f a Hm) as (m1 & E1 & Hm1 & L1); [intros g c Hg; apply Hi; apply list_elem_of_singleton in Hg as ->; left |].
  cbn [runReload]. unfold onReloaded. destruct f as [[ok configs] failures]. cbn [feedOk fst snd] in E1, L1.
  set (r' := mkReload (remaining r) (anyFetched r || ok) (prevConnectionUuid r) (prevNodeId r)).
  set (a1 := (setAcModel m1 a).2) in *. unfold mbind, PT_bind. rewrite E1. unfold total. unfold reloadStep. cbn [remaining r'].
  destruct (remaining r) as [| next rest] eqn:Er.
  - cbn [length] in Hlen. assert (feeds = []) as -> by (by destruct feeds). rewrite then_eq. cbn [mret ST_ret runReload PT_ret].
    destruct (finishReload_spec r' a1 Hm1) as (S1 & S2 & S3 & S4 & S5 & S6). exists (finishReload r' a1).2, [].
    split_and!; try done; cbn [existsb feedOk fst app]; [by rewrite orb_false_r |]. rewrite S2. change (m_servers (ac_servers a1)) with (m_servers m1). rewrite L1. done.
  - rewrite then_eq. unfold fetchSubscriptionFeed. rewrite bind_eq. cbn [get fst snd mret ST_ret].
    set (o := postServices next _). set (a2 := (acSend o a1).2).
    destruct (IH next (mkReload rest (anyFetched r') (prevConnectionUuid r') (prevNodeId r')) a2) as (a' & outs & E & S1 & S2 & S3 & S4 & S5 & S6 & S7 & S8);
      [exact Hm1 | intros g c Hg; apply Hi; by right | cbn; cbn in Hlen; lia |].
    exists a', (o :: outs). split_and!; [exact E | done | done | done | | | | | exact S8].
    + rewrite S4. change (ac_out a2) with (ac_out a ++ [o]). rewrite <- app_assoc. cbn [app anyFetched r' existsb feedOk fst m_subscriptionReloadNotify].
      by rewrite orb_assoc.
    + cbn [remaining] in S5. change (requested (o :: outs)) with (next :: requested outs). by rewrite S5.
    + cbn [length remaining] in S6 |- *. by rewrite S6.
    + rewrite S7. change (m_servers (ac_servers a2)) with (m_servers m1). rewrite L1. cbn [remaining]. done.
Qed.
End Reload.

(** C19 (termination): a reload ends.  With subscriptions to fetch and none
    running, it asks for the services of every subscription once, one after
    the other; whatever the feeds come back with, each that worked is
    reconciled with the stored servers; then nothing runs any more, and the
    one signal at the end says whether any feed worked, or is left out for a
    reload in the background that failed. *)
Theorem reload_ends `{ApiEnv} {arrayOf textOfArray storable} `{!ArrayTextLaws arrayOf textOfArray storable} silent a (feeds : list FeedResult) :
  Mirrors (arrayOf := arrayOf) (ac_servers a) -> m_subscriptionReloadRunning a = false ->
  collectSubscriptionIds a <> [] -> length feeds = length (collectSubscriptionIds a) -> FeedsInstallable (storable := storable) feeds ->
  exists a' outs, (running ← total (reloadSubscriptionConfigs silent); runReload (arrayOf := arrayOf) (textOfArray := textOfArray) feeds running) a = Some (None, a')
    /\ Mirrors (arrayOf := arrayOf) (ac_servers a')
    /\ m_subscriptionReloadRunning a' = false /\ m_subscriptionReloadNotify a' = false
    /\ ac_out a' = ac_out a ++ outs ++ finishedSignal (existsb feedOk feeds) (negb silent)
    /\ requested outs = collectSubscriptionIds a /\ length outs = length (collectSubscriptionIds a)
    /\ m_servers (ac_servers a') = reloadedServers (collectSubscriptionIds a) feeds (m_servers (ac_servers a)).
Proof.
  intros Hm Hr Hids Hlen Hi. unfold mbind, PT_bind, total, reloadSubscriptionConfigs. rewrite bind_eq. cbn [get fst snd]. rewrite Hr.
  destruct (collectSubscriptionIds a) as [| id ids] eqn:Ec; [done |]. rewrite then_eq. cbv zeta. unfold reloadStep. cbn [remaining].
  rewrite then_eq. unfold fetchSubscriptionFeed. rewrite bind_eq. cbn [get fst snd mret ST_ret].
  match goal with |- context [postServices id ?p] => set (o := postServices id p) end.
  match goal with |- context [runReload feeds (Some (id, ?r)) ?x] => set (r1 := r); set (a1 := x) end.
  destruct (runReload_spec feeds id r1 a1 Hm Hi) as (a' & outs & E & S1 & S2 & S3 & S4 & S5 & S6 & S7 & _); [by rewrite Hlen |].
  exists a', (o :: outs). split_and!; [exact E | done | done | done | | | | exact S7].
  - rewrite S4. change (ac_out a1) with (ac_out a ++ [o]). rewrite <- app_assoc. done.
  - change (requested (o :: outs)) with (id :: requested outs). by rewrite S5.
  - cbn [length]. by rewrite S6.
Qed.

(** A reload that fetched nothing stores the version of the catalog it was
    started for all the same, so that the next announcement of it is ignored. *)
Lemma failed_reload_not_retried `{Qt} `{ApiEnv} {arrayOf textOfArray storable} `{!ArrayTextLaws arrayOf textOfArray storable} r a text :
  Mirrors (arrayOf := arrayOf) (ac_servers a) -> anyFetched r = false -> nonEmpty (m_pendingCatalogVersion a) = true ->
  field (sub (jsonObject text) "response") "version" = m_pendingCatalogVersion a ->
  let a' := (finishReload r a).2 in onCatalogVersion (Some text) a' = (None, a').
Proof.
  intros Hm Hr Hp Hv a'. destruct (finishReload_spec r a Hm) as (_ & _ & _ & _ & _ & S). destruct (S Hp) as [S1 _]. fold a' in S1.
  unfold onCatalogVersion. rewrite Hv, bind_eq. cbn [get fst snd]. unfold versionKey in S1. rewrite S1. cbn [variantToString].
  rewrite Hp. cbn [negb]. by rewrite String.eqb_refl.
Qed.

(** ** Samples *)

Module ReloadSample.
(** The feed of the first subscription fails, that of the second brings one
    configuration. *)
Definition feeds : list FeedResult := [(false, [], []); (true, ReconcileSample.configs, ["failed|1"%string])].
Lemma installables : FeedsInstallable (storable := Codes.storable ReconcileSample.catalogue) feeds.
Proof.
  intros f c [-> | ->%list_elem_of_singleton]%elem_of_cons Hok Hc; [done |]. by apply ReconcileSample.closed.
Qed.
Definition env : ApiEnv := {|
  productType := "linux"; appVersion := "1.0"; languageName := fun _ => "en"%string; createUuid := fun n => pretty n;
  rand_priv_bytes := fun _ => None; uninitialised := []; nowSecs := fun _ => 0 |}.
End ReloadSample.

Lemma reload_ends_witness :
  exists a' outs, ac_out a' = outs ++ [reloadSubscriptionConfigsFinished true] /\ requested outs = ["B"; "A"]%string
    /\ m_subscriptionReloadRunning a' = false.
Proof.
  destruct (reload_ends (H := ReloadSample.env) (ArrayTextLaws0 := ReconcileSample.laws) true ReconcileSample.start ReloadSample.feeds
    ReconcileSample.mirrors) as (a' & outs & _ & _ & S1 & _ & S2 & S3 & _).
  - done.
  - by vm_compute.
  - by vm_compute.
  - exact ReloadSample.installables.
  - exists a', outs. split_and!; [| rewrite S3; by vm_compute | done].
    rewrite S2. cbn [app ac_out ReconcileSample.start]. reflexivity.
Defined.
