(* ===== verification/ApiProofs.v ===== *)
(** * What the requests of the gateway's API guarantee

    What a refresh can do to a server; that a reconnection keeps the key of
    the device; what a truncated answer does. *)

From Stdlib Require Import ZArith Lia Bool String Ascii.
From stdpp Require Import base gmap strings list pretty.
From S2P Require Import Prelude.
From S2P Require Import Qt.
From S2P Require Import Settings.
From S2P Require Import Containers.
From S2P Require Import ServerStore.
From S2P Require Import Servers.
From S2P Require Import ServersProofs.
From S2P Require Import VpnConfiguration.
From S2P Require Import ShareLinks.
From S2P Require Import Import.
From S2P Require Import WgProbe.
From S2P Require Import ApiConfig.
From S2P Require Import Subscription.
From S2P Require Import SubscriptionProofs.
From S2P Require Import ReconcileProofs.

Open Scope Z_scope.

(** ** The key in a generated configuration *)

Definition spaceless (s : string) : bool := negb (List.existsb is_space (list_ascii_of_string s)).

Lemma word_spaceless s rest : spaceless s = true -> word (s +:+ String newline rest) = s.
Proof.
  induction s as [| c s IH]; intros Hs; [done |]. unfold spaceless in Hs. cbn -[is_space] in Hs. rewrite negb_orb in Hs. apply andb_true_iff in Hs as [Hc Hs].
  apply negb_true_iff in Hc. change (String c s +:+ String newline rest) with (String c (s +:+ String newline rest)). cbn [word]. rewrite Hc. f_equal. by apply IH.
Qed.
(** The first line of a text that names the key. *)
Lemma privateKeyRe_line key rest :
  key <> ""%string -> spaceless key = true ->
  privateKeyRe (join nl ["[Interface]"%string; iniLine "PrivateKey" key] +:+ String newline rest) = Some key.
Proof.
  intros Hne Hs. destruct key as [| c key]; [done |].
  assert (is_space c = false) as Hc.
  { unfold spaceless in Hs. cbn -[is_space] in Hs. rewrite negb_orb in Hs. apply andb_true_iff in Hs as [Hc _]. by apply negb_true_iff in Hc. }
  pose proof (word_spaceless (String c key) rest Hs) as Hw.
  change (join nl ["[Interface]"%string; iniLine "PrivateKey" (String c key)] +:+ String newline rest)
    with ("[Interface]" +:+ nl +:+ "PrivateKey = " +:+ (String c key +:+ String newline rest)).
  assert (forall s, privateKeyRe ("[Interface]" +:+ nl +:+ "PrivateKey = " +:+ s) =
    match (let w := word (skipSpaces (" " +:+ s)) in if nonEmpty w then Some w else None) with
    | Some w => Some w
    | None => privateKeyRe ("rivateKey = " +:+ s)
    end) as -> by reflexivity.
  cbv zeta. change (skipSpaces (" " +:+ (String c key +:+ String newline rest))) with (skipSpaces (String c (key +:+ String newline rest))).
  cbn [skipSpaces]. rewrite Hc. change (String c (key +:+ String newline rest)) with (String c key +:+ String newline rest). by rewrite Hw.
Qed.

Lemma generatedIni_key server client :
  field client "client_priv_key" <> ""%string -> spaceless (field client "client_priv_key") = true ->
  privateKeyRe (generatedIni server client) = Some (field client "client_priv_key").
Proof.
  intros Hne Hs. unfold generatedIni. cbn [app].
  match goal with |- privateKeyRe (join nl (_ :: _ :: ?x :: ?l)) = _ => generalize x l end. intros x l.
  rewrite <- (privateKeyRe_line _ (join nl (x :: l)) Hne Hs). reflexivity.
Qed.

(** ** The key pair of the device *)

Section Keys.
Context `{Qt} `{QtImport} `{OpenSSL} `{ApiEnv}.

(** A saved pair belongs together. *)
Lemma savedKeys_pair server saved : savedKeys server = Some saved ->
  wireGuardClientPrivKey saved <> ""%string /\ wireGuardClientPubKey saved = genPublicKeyFromPrivate (wireGuardClientPrivKey saved).
Proof.
  unfold savedKeys. destruct (List.filter _ _) as [| awg ?]; [done |]. cbv zeta.
  destruct (nonEmpty (field (lastConfig awg) "client_priv_key")) eqn:E1; cbn [andb]; [| done].
  assert (field (lastConfig awg) "client_priv_key" <> ""%string) as Hne by (unfold nonEmpty in E1; apply negb_true_iff, String.eqb_neq in E1; done).
  destruct (nonEmpty (field (lastConfig awg) "client_pub_key") && String.eqb _ _) eqn:E2.
  - apply andb_true_iff in E2 as [_ E2]. apply String.eqb_eq in E2. destruct (nonEmpty (field (lastConfig awg) "client_pub_key")); [| done]. intros Es. apply (inj Some) in Es. by subst saved.
  - destruct (nonEmpty (genPublicKeyFromPrivate _)); [| done]. intros Es. apply (inj Some) in Es. by subst saved.
Qed.

(** The pair a protocol is completed with ends up in its configuration. *)
Lemma awgProtocol_keys gen key server protocolConfig :
  let p := awgProtocol gen key server protocolConfig in
  let client := <["config"%string := jstr (field p "config")]> (withClientKey gen key (lastConfig protocolConfig)) in
  jsonParse (jsonPrint client) = Some client -> lacksKey (lastConfig protocolConfig) = true ->
  field (lastConfig p) "client_priv_key" = key /\ field (lastConfig p) "client_pub_key" = gen key
  /\ field (lastConfig p) "config" = field p "config"
  /\ (str_contains "[Interface]" (field protocolConfig "config") = false -> key <> ""%string -> spaceless key = true ->
      privateKeyRe (field p "config") = Some key).
Proof.
  intros p whole Hj Hl. unfold whole in Hj. clear whole. set (client := withClientKey gen key (lastConfig protocolConfig)) in *.
  assert (p = withIni server client (syncProtocol client (<["last_config"%string := jstr (jsonPrint client)]> protocolConfig))) as Ep
    by (unfold p, awgProtocol; rewrite Hl; reflexivity).
  clearbody p. subst p.
  assert (field client "client_priv_key" = key /\ field client "client_pub_key" = gen key) as [K1 K2].
  { unfold client, withClientKey. rewrite Hl. by rewrite !field_insert. }
  set (pc := syncProtocol client _) in *.
  assert (field pc "config" = field protocolConfig "config") as Ec.
  { unfold pc, syncProtocol, copyMembers, copiedJunk, copiedKeys. cbn [fold_left]. unfold field.
    repeat (rewrite value_jinsert; cbn [String.eqb Ascii.eqb Bool.eqb]).
    rewrite value_insert. cbn [String.eqb Ascii.eqb Bool.eqb]. repeat (rewrite value_jinsert; cbn [String.eqb Ascii.eqb Bool.eqb]).
    by rewrite value_insert. }
  set (pc' := if negb (str_contains "[Interface]" (field pc "config")) || negb (hasValidPrivateKey (field pc "config"))
    then <["config"%string := jstr (generatedIni server client)]> pc else pc).
  change (withIni server client pc) with (<["last_config"%string := jstr (jsonPrint (<["config"%string := jstr (field pc' "config")]> client))]> pc').
  assert (field (<["last_config"%string := jstr (jsonPrint (<["config"%string := jstr (field pc' "config")]> client))]> pc') "config" = field pc' "config") as E1
    by by rewrite field_insert.
  change (withIni server client pc) with (<["last_config"%string := jstr (jsonPrint (<["config"%string := jstr (field pc' "config")]> client))]> pc') in Hj.
  rewrite E1 in Hj.
  assert (lastConfig (<["last_config"%string := jstr (jsonPrint (<["config"%string := jstr (field pc' "config")]> client))]> pc')
    = <["config"%string := jstr (field pc' "config")]> client) as E2 by (unfold lastConfig, jsonObject; rewrite field_insert; cbn [String.eqb Ascii.eqb Bool.eqb]; by rewrite Hj).
  rewrite E2, E1. split_and!.
  - rewrite field_insert. exact K1.
  - rewrite field_insert. exact K2.
  - by rewrite field_insert.
  - intros Hi Hne Hs. unfold pc'. rewrite Ec, Hi. cbn [negb orb]. rewrite field_insert. cbn [String.eqb Ascii.eqb Bool.eqb].
    rewrite <- K1 in Hne, Hs |- *. by apply generatedIni_key.
Qed.

Lemma prepare_connect i silent a saved :
  let server := Model.getServerConfig (ac_servers a) i in
  canonicalServiceProtocol (field (Model.apiConfig server) "service_protocol") = "awg"%string ->
  isShared (authOf server) = false -> savedKeys server = Some saved ->
  let u := (prepareGatewayConfigUpdate i "" "" false silent a).1 in
  wireGuardClientPrivKey (gu_protocolData u) = wireGuardClientPrivKey saved
  /\ value (gu_apiPayload u) "public_key" = Some (jstr (wireGuardClientPubKey saved))
  /\ value (gu_apiPayload u) "is_connect_event" = Some (JBool true).
Proof.
  intros server Hp Hs Hk u. unfold u, prepareGatewayConfigUpdate. rewrite bind_eq. cbn [get fst snd]. fold server.
  rewrite bind_eq. destruct (request _ _ _ _ _ a) as [r a1]. cbn [fst snd].
  unfold isShared in *. rewrite shareToken_withApiKey, Hs. rewrite bind_eq. destruct (generateProtocolData _ a1) as [data a2]. cbn [fst snd].
  rewrite Hp, Hk. cbn [negb andb nonEmpty String.eqb fst mret ST_ret gu_protocolData gu_apiPayload wireGuardClientPrivKey].
  split; [done |]. unfold appendProtocolDataToApiPayload. rewrite Hp. change (isAwgName "awg") with true. cbv iota.
  cbn [wireGuardClientPubKey]. split; rewrite !value_insert; done.
Qed.
End Keys.


(** ** The refresh of a server *)

Section Update.
Context `{Qt} `{QtImport} {Z_stream} `{Zlib Z_stream} `{OpenSSL}.
Context {arrayOf : string -> list json} {textOfArray : list json -> string}
  {storable : json -> Prop} `{!ArrayTextLaws arrayOf textOfArray storable}.
Context (tr : string -> string) (fuel : nat).
Implicit Types (a : ApiController) (u : GatewayConfigUpdate).

(** What went wrong with an answer. *)
Definition failureCode u (errorCode code : Z) : Z :=
  if negb (errorCode =? NoError) then errorCode else if negb (code =? NoError) then code else ApiConfigDownloadError.

Lemma announce_servers u a : ac_servers (announceUpdate tr u a).2 = ac_servers a.
Proof. unfold announceUpdate. by repeat case_if. Qed.

(** What the merged entry keeps of the server. *)
Lemma merged_values u response fetched :
  let new := mergedServer u response fetched in
  authDataOf new = gu_authData u
  /\ (forall k, k ∈ ["user_country_code"; "service_type"; "service_protocol"]%string -> value (Model.apiConfig new) k = value (gu_apiConfig u) k)
  /\ value new "name" = value (gu_serverConfig u) "name".
Proof.
  intros new.
  assert (exists api, value new "api_config" = Some (JObject (<["auth_data"%string := JObject (gu_authData u)]> api))
    /\ value new "auth_data" = Some (JObject (gu_authData u)) /\ value new "name" = value (gu_serverConfig u) "name"
    /\ forall k, k ∈ ["user_country_code"; "service_type"; "service_protocol"]%string -> value api k = value (gu_apiConfig u) k)
    as (api & V1 & V2 & V3 & V4).
  { unfold new, mergedServer. cbv zeta. eexists.
    destruct (toBool (value (gu_serverConfig u) "nameOverriddenByUser")), (jcontains (gu_serverConfig u) "displayInfo");
      (split_and!; [repeat (rewrite ?value_jinsert, ?value_insert; cbn [String.eqb Ascii.eqb Bool.eqb]); reflexivity
                  | repeat (rewrite ?value_jinsert, ?value_insert; cbn [String.eqb Ascii.eqb Bool.eqb]); reflexivity
                  | repeat (rewrite ?value_jinsert, ?value_insert; cbn [String.eqb Ascii.eqb Bool.eqb]); reflexivity |]);
      intros k Hk; unfold copyMembers; cbn [fold_left]; rewrite !value_jinsert;
      repeat (apply elem_of_cons in Hk as [-> | Hk]; [done |]); by apply elem_of_nil in Hk. }
  split_and!; [| | exact V3].
  - apply authData_both; unfold sub; [| by rewrite V2]. rewrite V1. cbn [toObject]. by rewrite value_insert.
  - intros k Hk. unfold Model.apiConfig, sub. rewrite V1. cbn [toObject]. rewrite value_insert.
    destruct (String.eqb_spec "auth_data" k) as [<- |]; [| by apply V4]. exfalso. revert Hk. apply (bool_decide_unpack (_ ∉ _)). by vm_compute.
Qed.

Lemma refuse_outcome u code a :
  exists a', refuseUpdate u code a = (false, a') /\ ac_servers a' = ac_servers a
    /\ ac_out a' = ac_out a ++ (if gu_silent u then [] else [errorOccurred code]).
Proof.
  unfold refuseUpdate. rewrite then_eq. eexists. split; [reflexivity |]. destruct (gu_silent u); cbn; [by rewrite app_nil_r | done].
Qed.

(** C15 (error): a refresh never replaces a server by something that cannot be
    dialled.  The answer is stored only when it could be unpacked and has an
    address and a container, and then under the subscription, protocol, country
    and name the server had; otherwise no server changes, and the refresh
    either counts as a success, which takes a stored configuration that is
    usable, or fails with one error signal, or silently when it was asked to. *)
Theorem update_outcome u errorCode response filled a :
  Mirrors (arrayOf := arrayOf) (ac_servers a) -> Model.validRow (ac_servers a) (gu_serverIndex u) = true ->
  fillServerConfig fuel genPublicKeyFromPrivate (gu_serviceProtocol u) (gu_protocolData u) response ∅ = Val filled ->
  let new := mergedServer u response filled.2 in
  let stored := (errorCode =? NoError) && (filled.1 =? NoError) && isDialable new in
  storable (JObject new) ->
  exists b a', finishGatewayConfigUpdate arrayOf textOfArray tr fuel u errorCode response a = Some (b, a')
    /\ Mirrors (arrayOf := arrayOf) (ac_servers a')
    /\ (if stored then
          b = true
          /\ (new = gu_serverConfig u /\ ac_servers a' = ac_servers a
              \/ m_servers (ac_servers a') = <[Z.to_nat (gu_serverIndex u) := JObject new]> (m_servers (ac_servers a)))
        else
          ac_servers a' = ac_servers a
          /\ (b = true -> Model.serverHasUsableConfig (ac_servers a) (gu_serverIndex u) = true)
          /\ ac_out a' = ac_out a ++ (if b || gu_silent u then [] else [errorOccurred (failureCode u errorCode filled.1)]))
    /\ authDataOf new = gu_authData u
    /\ (forall k, k ∈ ["user_country_code"; "service_type"; "service_protocol"]%string -> value (Model.apiConfig new) k = value (gu_apiConfig u) k)
    /\ value new "name" = value (gu_serverConfig u) "name".
Proof.
  intros Hm Hr Hfill new stored Hst. apply inRange_spec in Hr.
  set (usable := Model.serverHasUsableConfig (ac_servers a) (gu_serverIndex u)).
  set (quiet := usable && negb (gu_reloadServiceConfig u) && negb (nonEmpty (gu_newCountryName u))).
  assert (forall code, exists b a', (if quiet then mret true else total (refuseUpdate u code) : PT ApiController bool) a = Some (b, a')
    /\ ac_servers a' = ac_servers a /\ (b = true -> usable = true)
    /\ ac_out a' = ac_out a ++ (if b || gu_silent u then [] else [errorOccurred code])) as Hfail.
  { intros code. destruct quiet eqn:Eq.
    - exists true, a. split_and!; [done | done | | by rewrite app_nil_r]. intros _. unfold quiet in Eq. by destruct usable.
    - destruct (refuse_outcome u code a) as (a' & E & E1 & E2). exists false, a'. unfold total. rewrite E. by split_and!. }
  destruct (merged_values u response filled.2) as (K1 & K2 & K3). fold new in K1, K2, K3.
  unfold finishGatewayConfigUpdate. cbv zeta. fold usable quiet. unfold failureCode.
  destruct (errorCode =? NoError) eqn:E1; cbn [negb].
  2:{ destruct (Hfail errorCode) as (b & a' & E & F1 & F2 & F3). exists b, a'. split; [exact E |]. unfold stored. cbn [andb].
      split; [rewrite F1; exact Hm | by split_and!]. }
  unfold mbind, PT_bind, ofRes. rewrite Hfill. destruct (filled.1 =? NoError) eqn:E2; cbn [negb].
  2:{ destruct (Hfail filled.1) as (b & a' & E & F1 & F2 & F3). exists b, a'. split; [exact E |]. unfold stored. cbn [andb].
      split; [rewrite F1; exact Hm | by split_and!]. }
  fold new. destruct (isDialable new) eqn:E3; cbn [negb].
  2:{ destruct usable eqn:Eu.
      - exists true, a. split; [done |]. unfold stored. cbn [andb]. split; [exact Hm | by rewrite app_nil_r; split_and!].
      - destruct (refuse_outcome u ApiConfigDownloadError a) as (a' & E & F1 & F2). exists false, a'. unfold total. rewrite E.
        split; [done |]. unfold stored. cbn [andb orb]. split; [by rewrite F1 | by split_and!]. }
  unfold stored. cbn [andb]. case_bool_decide as En.
  - exists true, (announceUpdate tr u a).2. unfold total. destruct (announceUpdate tr u a) as [[] a'] eqn:Ea.
    pose proof (announce_servers u a) as Es. rewrite Ea in Es. cbn [snd] in Es |- *. split; [done |]. split; [by rewrite Es |].
    split_and!; [done | by left | done | done | done].
  - destruct (edited_servers (storable := storable) new (Z.to_nat (gu_serverIndex u)) _ Hm) as (m' & E & Hm' & L); [lia | exact Hst |].
    rewrite Z2Nat.id in E by lia. unfold onModelP. rewrite E. unfold total.
    pose proof (announce_servers u (setAcModel m' a).2) as Es. destruct (announceUpdate tr u (setAcModel m' a).2) as [[] a'] eqn:Ea.
    cbn [snd] in Es. exists true, a'. split; [done |]. rewrite Es. split; [exact Hm' |]. split_and!; [done | by right | done | done | done].
Qed.
End Update.

(** ** What the code does not mean to do *)

(** A reload the user asked for, whose answer has no configuration, ends
    without a signal when the stored server is usable. *)
Lemma poisoned_reload_silent `{Qt} `{QtImport} {Z_stream} `{Zlib Z_stream} `{OpenSSL} arrayOf textOfArray tr fuel u response filled a :
  fillServerConfig fuel genPublicKeyFromPrivate (gu_serviceProtocol u) (gu_protocolData u) response ∅ = Val (NoError, filled) ->
  isDialable (mergedServer u response filled) = false ->
  Model.serverHasUsableConfig (ac_servers a) (gu_serverIndex u) = true ->
  finishGatewayConfigUpdate arrayOf textOfArray tr fuel u NoError response a = Some (true, a).
Proof.
  intros Hf Hd Hu. unfold finishGatewayConfigUpdate. rewrite Hu. cbn [negb Z.eqb NoError]. unfold mbind, PT_bind, ofRes. rewrite Hf.
  cbn [fst snd]. by rewrite Hd.
Qed.

(** A stream that ends too early has zlib answer [Z_BUF_ERROR] without an
    output for ever, which the loop does not take for an end. *)
Lemma truncated_stream_diverges {Z_stream} `{Zlib Z_stream} fuel strm out :
  inflate strm = (Z_BUF_ERROR, ""%string, strm) -> inflateLoop fuel strm out = Timeout.
Proof. intros Hz. revert out. induction fuel as [| fuel IH]; intros out; [done |]. cbn [inflateLoop]. rewrite Hz. apply IH. Qed.

(** ** Samples *)

Module ApiSample.
Definition u : GatewayConfigUpdate := mkUpdate 0 "" false false false true "vless" noProtocolData
  (rowObject (ReconcileSample.row "A" "u" "192.0.2.2")) (Model.apiConfig (rowObject (ReconcileSample.row "A" "u" "192.0.2.2")))
  {["api_key"%string := jstr "A"]} ∅.
Definition filled : Z * QJsonObject :=
  match fillServerConfig (H := FeedSample.qt) (H0 := FeedSample.import) (H1 := FeedSample.zlib) 5 (genPublicKeyFromPrivate (H := FeedSample.qt) (H2 := toySSL))
    (gu_serviceProtocol u) (gu_protocolData u) "answer" ∅ with Val x => x | _ => (1, ∅) end.
Lemma val_of {A} (r : res A) d : match r with Val _ => true | _ => false end = true -> r = Val (match r with Val x => x | _ => d end).
Proof. by destruct r. Qed.
Definition new : QJsonObject := mergedServer (H := FeedSample.qt) u "answer" filled.2.
Definition before : list json := [ReconcileSample.row "A" "u" "192.0.2.2"; ReconcileSample.row "B" "u" "192.0.2.1"].
Definition catalogue : list json := before ++ [JObject new].
Definition arrayOf := Codes.arrayOf catalogue.
Definition textOfArray := Codes.textOfArray catalogue.
Lemma answer_laws : ArrayTextLaws arrayOf textOfArray (Codes.storable catalogue).
Proof. apply Codes.laws. vm_compute. lia. Qed.
Definition model : ServersModel :=
  let s := Store.setDefaultServer 0 (Store.setServersArray textOfArray before ∅) in
  (Model.resetModel arrayOf (mkServers s [] (-1) (-1) true (mkStacks ∅ ∅) ∅ [] [] [] [])).2.
Definition start : ApiController := mkApi model "" "" false (-1) "" false false "" [] [] 0 [].
Lemma answer_mirrors : Mirrors (arrayOf := arrayOf) model.
Proof. constructor; by vm_compute. Qed.
Lemma filled_val : fillServerConfig (H := FeedSample.qt) (H0 := FeedSample.import) (H1 := FeedSample.zlib) 5
  (genPublicKeyFromPrivate (H := FeedSample.qt) (H2 := toySSL)) (gu_serviceProtocol u) (gu_protocolData u) "answer" ∅ = Val filled.
Proof. apply val_of. by vm_compute. Qed.
Lemma new_stored : Codes.storable catalogue (JObject new).
Proof. unfold Codes.storable, catalogue. apply elem_of_app. right. by apply list_elem_of_singleton. Qed.

(** A saved key, and an answer without one. *)
Definition plain : Qt := QtInstance.concreteQt (fun _ => None) (fun _ => ""%string).
Definition key : string := toBase64 (Qt := plain) (replicate 32 7).
Definition saved : ProtocolData := mkProtocolData key (genPublicKeyFromPrivate (H := plain) (H2 := toySSL) key) "".
Definition keyed (parsed : string -> option QJsonObject) : Qt :=
  QtInstance.concreteQt (fun s => if String.eqb s "saved" then Some {["client_priv_key"%string := jstr key]} else parsed s) (fun _ => "stored"%string).
Definition reply : QJsonObject := {["hostName"%string := jstr "192.0.2.7"]}.
Definition client (q : Qt) : QJsonObject :=
  let stored := awgProtocol (H := q) (genPublicKeyFromPrivate (H := q) (H2 := toySSL)) key reply ∅ in
  <["config"%string := jstr (field stored "config")]>
    (withClientKey (genPublicKeyFromPrivate (H := q) (H2 := toySSL)) key (lastConfig (H := q) ∅)).
Definition qt : Qt := keyed (fun s => if String.eqb s "stored" then Some (client (keyed (fun _ => None))) else None).
Definition awgRow : json :=
  JObject (<["containers" := JArray [JObject {["awg"%string := JObject {["last_config"%string := jstr "saved"]}]}]]>
    (<["api_config" := JObject (<["service_protocol" := jstr "awg"]> (<["auth_data" := JObject {["api_key"%string := jstr "A"]}]> ∅))]> ∅)).
Definition awgStart : ApiController :=
  mkApi (mkServers ∅ [awgRow] 0 0 true (mkStacks ∅ ∅) ∅ [] [] [] []) "" "" false (-1) "" false false "" [] [] 0 [].
End ApiSample.

Lemma update_outcome_witness :
  exists a', finishGatewayConfigUpdate (H := FeedSample.qt) (H0 := FeedSample.import) (H1 := FeedSample.zlib) (H2 := toySSL)
      ApiSample.arrayOf ApiSample.textOfArray (fun s => s) 5 ApiSample.u NoError "answer" ApiSample.start = Some (true, a')
    /\ authDataOf ApiSample.new = {["api_key"%string := jstr "A"]}.
Proof.
  destruct (update_outcome (H := FeedSample.qt) (H0 := FeedSample.import) (H1 := FeedSample.zlib) (H2 := toySSL) (ArrayTextLaws0 := ApiSample.answer_laws)
    (fun s => s) 5 ApiSample.u NoError "answer" ApiSample.filled ApiSample.start ApiSample.answer_mirrors ltac:(by vm_compute) ApiSample.filled_val
    ApiSample.new_stored) as (b & a' & E & _ & Hs & Ha & _).
  exists a'. split; [| exact Ha].
  assert ((NoError =? NoError) && (ApiSample.filled.1 =? NoError) && isDialable ApiSample.new = true) as Ed by by vm_compute.
  unfold ApiSample.new in Ed. rewrite Ed in Hs. destruct Hs as [-> _]. exact E.
Defined.

